(* ===== verification/_CoqProject ===== *)
-Q . S2P
Prelude.v
Conditions.v
Reports.v
Workloads.v
GoTime.v
Strconv.v
PromLabels.v
PromQuery.v
MeterDefinition.v
Helpers.v
Secrets.v
MeterReport.v
MeterReportCreator.v
Filters.v
NamespaceWatcher.v
Stores.v
Processors.v
Metrics.v
Engine.v
FileServer.v
FileFilter.v
Reporter.v
DataReporter.v
Schema.v
Writer.v
Collect.v
Controllers.v
MarketplaceConfig.v
Uploaders.v
Signer.v
PrometheusAPI.v
MeterDefinitionController.v
MarketplaceClient.v
ClusterRegistration.v
MeterReportController.v
ClusterServiceVersion.v
ReporterSetup.v
ReconcileTask.v
Manifests.v
DataService.v
Deployment.v
Duration.v
MeterBaseController.v
DataReporterController.v
OperatorConfig.v
AuthChecker.v
Annotator.v
OwnerLookup.v
FileStore.v
EventReporter.v
EventEngine.v
EventHandler.v
MeteringServer.v
CheckPath.v
AirgapMaintenance.v
Bundle.v
ReporterCommand.v
PodMonitor.v
Tokens.v
