(* ===== verification/Prelude.v ===== *)
(** * Verification of the marketplace metering operator

    The repository holds a Kubernetes operator that meters workloads and the
    programs around it. What they do together:

    - a [MeterDefinition] says which objects of the cluster are metered and with
      which Prometheus queries; the metering state service ([metering/v2]) keeps
      the definitions and the objects they match, publishes both as metrics and
      writes the matched objects into the status of each definition;
    - the operator ([v2]) makes one [MeterReport] a day; the reporter
      ([reporter/v2]) runs the queries for it, stores the resulting file in the
      file service ([airgap/v2]) and uploads it from there to the backend, once;
    - the data reporter ([datareporter/v2]) accepts events over HTTP, filters and
      transforms them, and turns what has accumulated for each user into further
      files of the file service.

    ** The files, bottom up

    - [Prelude] (here): results and panics of Go calls, the loops that stop at an
      error, sorting, joining, lists updated by index, the scope [go_scope] with
      the comparisons [==] and [!=] on every type with decidable equality, and the
      hints the other files share.
    - [Conditions] ([v2/pkg/utils/status/status.go]): the list of conditions of a
      status. The specification is a finite map from types to conditions;
      [SetCondition_refines] shows each update is an insertion into it that keeps
      or stamps the transition time.
    - [Reports] and [MeterReport] ([v1alpha1/meterreport_types.go]): the upload
      details (again refined to a map, [Append_refines]), the status of a report
      and the interface [ReportClient] to the stored resources.
    - [Workloads] ([v2/api/marketplace/common]): objects, owners, references and
      the order in which they are listed.
    - [GoTime]: the [time] package: instants, calendar dates, the layout of a
      date and the round trip between them; [Strconv]: decimal numbers; [Duration]:
      [time.ParseDuration]. They model the standard library, which the program calls.
    - [PromLabels] and [PromQuery] ([common/prometheus.go],
      [prometheus_templater.go], [v2/pkg/prometheus/query.go]): labels, templates,
      sample intervals, the hash and the queries with their defaults.
    - [MeterDefinition] ([v1alpha1], [v1beta1] and their conversion): the round
      trip and its totality.
    - [Helpers] ([v2/pkg/utils]) and [Secrets] ([secretutils.go]).
    - [MeterReportCreator] ([meterreport_creator_controller.go]): the
      reconciliation that creates the missing reports and removes the old ones.
    - [Filters] and [NamespaceWatcher] ([metering/v2/pkg/filter]): what a
      definition compiles to, the walk up the owners of an object, and which
      namespaces are watched for what.
    - [Stores] ([metering/v2/pkg/stores]): the dictionary of definitions and the
      object store, as transitions on maps and queues of deltas.
    - [Processors] ([metering/v2/pkg/mailbox], [processors]) and [Metrics]
      ([metering/v2/internal/metrics]): what reads the deltas: the statuses that
      are flushed to the cluster, and the metrics of each object.
    - [Engine] ([metering/v2/pkg/engine]): the listers that follow the watched
      namespaces; [MeteringServer]: the start-up order, the runnables with the
      contexts they run under, and the answers to scrapes ([metering/v2/pkg/server]);
      [Annotator]: the loop of the producers and the service annotator;
      [OwnerLookup] ([v2/pkg/client]): the owners of an object as the cluster tells
      them, with the check of access.
    - [FileServer] and [FileFilter] ([airgap/v2], [reporter/v2/pkg/dataservice]):
      the chunks of an upload and a download on both sides of the wire, paging,
      metadata, the filter language and the query it becomes; [FileStore]
      ([airgap/v2/pkg/database]): the store below it, on the interface of the
      mapper; [AirgapMaintenance]: deleting, cleaning up, opening the database,
      the leader and the migrations.
    - [Reporter] ([reporter/v2/pkg/reporter]): which reports run, how they are
      stored and uploaded, and the life of a report as a step relation on its
      status; [ReporterSetup]: what a reporter is made from; [ReconcileTask]: a
      whole run, which is a refinement of that life; [ReporterCommand]: the
      commands with their flags; [Bundle]: the archive of a report.
    - [DataReporter] ([datareporter/v2/pkg]): the accumulator and its processor as
      a step relation, the selectors and filters, and the answer to an event;
      [EventReporter]: the archive of some events and the connection to the file
      service; [EventEngine]: the goroutines of the engine, which refine the
      accounting of [DataReporter], and starting it again; [EventHandler]:
      authentication, the handler of requests behind its time-out, and the client of
      a destination.
    - [Schema] ([reporter/v2/pkg/reporter/schema]): the three schemas of a record
      and the builders that fill them; [Writer] ([reporter/v2/pkg/reporter/writer],
      [WriteReport]): the slices of a report and its metadata, over the interface
      [FileSystem]; [Collect] ([reporter.go]): what is queried, the templates of
      the labels, the record of each sample, as a step relation on the work left.
    - [Uploaders] ([reporter/v2/pkg/uploaders]): the clients of the backends and
      how they are chosen.
    - [Controllers]: what the reconciliations of the operator share: steps that
      may fail or panic, their sequence, retries, and the contracts [triple] that
      compose the same way. [MarketplaceConfig]
      ([marketplaceconfig_controller.go]): the controller that installs the meter
      base, the catalog sources and the initial specification.
    - The other controllers ([v2/internal/controller/marketplace]), a file each:
      [MeterDefinitionController], [ClusterRegistration] with the client of the
      account [MarketplaceClient], [MeterReportController], [ClusterServiceVersion],
      [MeterBaseController], [DataService], [Deployment]; and [DataReporterController]
      ([datareporter/v2/internal/controller]). [Manifests] ([v2/pkg/manifests]) has
      the objects they apply and how they are applied; [CheckPath] what of two
      objects differs; [PodMonitor] the deletion of pods with a failing token check.
    - [PrometheusAPI] ([v2/pkg/prometheus]): finding and asking Prometheus; [Tokens]:
      the clients of service accounts; [Signer] ([v2/pkg/utils/signer]): signing and
      verifying; [OperatorConfig] ([v2/pkg/config]): what is found out of the
      cluster; [AuthChecker] ([authchecker/v2]): the check of a token.

    ** How code becomes definitions

    A definition has the name of the function it translates. A method that changes
    its receiver takes the state and returns it; a method on an external service
    takes the state [w] of that service, of any type, and the service is a class:
    [ReportClient] and [StatusClient] (the API server for reports), [FileStorage]
    (the file service as the uploader sees it), [StoredFileStore] (the database
    under the file service, with the laws its handlers rely on), [LookupFactory]
    (what the dictionary needs of the filters), [FileSystem], [ArchiveDisk] and
    [LocalDisk] (the directory a report is written to, archives of it, and the files
    of a download), [ConflictRetry] and [ErrorRetry] (a call with retry).

    The controllers read and write through a class of operations, and a second class
    has the laws of a cluster in which nobody else writes and what is written is kept, as
    [ObjectStore] says of the owners and the storage classes: [ConfigCluster] and
    [FreshCluster], [MeterDefCluster] and [DefinitionStore], [RegistrationCluster] and
    [RegistrationStore], [ReportCluster] and [ReportStore], [CSVCluster] and
    [CSVStore], [ObjectCluster] and [ObjectStore], [MeterBaseCluster] and
    [MeterBaseStore], [DRCCluster] and [DRCStore], [MonitorCluster] and
    [MonitorStore], [MetadataCluster] and [MetadataStore], [PodCluster] and
    [PodStore], and for databases [Gorm] and [GormLaws], [MigrationDB] and
    [MigrationLaws]; the statements a [Gorm] is given are values of the model, with the
    text of their conditions. What is only read has one class: [SetupClient], [InfraClient],
    [InfraReads], [PrometheusResources], [MeterBases], [FieldIndexer],
    [ReportLister], [Assets]. Services: [Prometheus], [Crypto], [Codec], [TokenReviews],
    [ServiceAccounts], [DataServiceClient]. The steps of a run of the reporter are
    [ReporterSteps] and [UploadSteps].

    Some classes are implemented here by other components: the store of files of
    [FileStore] is a [StoredFileStore] for every [Gorm] with its laws, so the theorems
    of [FileServer] hold of it; the handlers of [FileServer] are a [DataServiceClient]
    ([EventReporter.file_service]), so what the data reporter stores can be
    downloaded. An [(value, error)] is [result], a call that may panic is [outcome], a
    pointer is an [option]. Where the order in which Go ranges over a map can be
    seen, that order is an argument, and the theorems hold for all of them.
    Integers are [Z], with the width written out where an operation could leave
    it. Shared objects are modelled as shared where a claim depends on it: the
    query that [GetQueryArgs] changes, the metadata of a request, the conditions
    of a status.

    ** Loops and fuel

    Ranges over slices are structural. Other loops take fuel, and a theorem says
    how much is enough: the owner walk ends when ownership has a rank that goes down
    at each step, and runs for ever on an object that owns itself
    ([Filters.getOwners_termination]); the
    days of a report window take one unit a day
    ([MeterReportCreator.generateExpectedDates_spec]); chunks take as much as
    there are bytes ([FileServer.upload_download]); a listing of [n] files takes
    [S (n / 100)] pages ([FileServer.ListFiles_complete]); a duration takes one unit
    a character of its text ([Duration.parse_terms_fuel]); the data reporter
    connects after one more turn than there are failures
    ([EventReporter.connect_spec]), and so is a leader found
    ([AirgapMaintenance.ask_leader_ends]). Two loops need not end, which is shown:
    [Reporter.RunGeneric] ([Reporter.RunGeneric_stuck]) and the connection without a
    certificate ([EventReporter.no_certificate_waits]).

    ** What the theorems show

    - Reports: one report per day in the window and none older
      ([MeterReportCreator.Reconcile_covers]); an upload that succeeded is never
      repeated, a stored report is never collected again, and the retries are
      counted ([Reporter.report_lifecycle]); a file is deleted exactly when a
      required target took it and the status was written ([Reporter.RunReport_spec]).
      A whole run of the reporter does to every report what that life allows
      ([ReconcileTask.Run_lives]): of one that was uploaded only the conditions may
      change, which a disconnected run does ([ReconcileTask.disconnected_takes_back]).
      It serves each report that is due, whatever the errors of the others
      ([ReconcileTask.Run_serves]).
    - Metering: the object store holds and announces what it must
      ([Stores.store_complete]), and nothing else ([Stores.store_precise]);
      an object that matches a definition is one that a resource filter of it
      describes, in every respect ([Filters.LookupMatches_sound]); watching a namespace covers what was asked
      ([Filters.GetNamespaces_covers], [NamespaceWatcher.addNamespace_sound]);
      a delta changes the entry of its object in the statuses it names and in no
      other ([Processors.StatusProcess_spec]), and a flush leaves none to write
      ([Processors.flush_spec]); the metrics of
      an object carry its definitions ([Metrics.PrometheusData_spec]).
    - Collection: every sample of every query becomes a record or an error that is
      returned ([Collect.CollectMetrics_accounted]), with the labels of the namespace it
      is for ([Collect.sample_record_total]); the records of the schemas lose
      no label ([Schema.schemas_agree]); a written report holds every record once
      ([Writer.WriteReport_complete]), and the archive of it is the directory it was
      written to ([Bundle.TargzFolder_spec]).
    - Configuration: a reconciliation without errors leaves everything the
      specification asks for installed ([MarketplaceConfig.Reconcile_installs]), an
      unaccepted license installs nothing ([MarketplaceConfig.Reconcile_unlicensed]),
      and the conditions settle in two runs ([MarketplaceConfig.finish_in_two_runs]).
      The other controllers have theorems of the same form: what a run without errors
      leaves ([ClusterServiceVersion.Reconcile_tracks],
      [MeterBaseController.Reconcile_meters], [DataService.Reconcile_deploys],
      [DataService.Reconcile_removes], [Deployment.Reconcile_enforces],
      [DataReporterController.Reconcile_configures]), what is never done
      ([DataService.Reconcile_confined], [ClusterRegistration.Reconcile_registers]),
      what a status says ([MeterDefinitionController.Reconcile_status]), and what
      wakes a controller up ([DataReporterController.Build_watched],
      [PodMonitor.watched_pod_spec]). The number of data services that must be there
      is a quorum of the ones deployed ([Manifests.data_service_quorum]).
    - Uploads: when an upload counts as done ([Uploaders.marketplace_upload_spec]),
      and which backends are used ([Uploaders.ProvideUploaders_spec]).
    - Events: in every run of the accumulator, with reports that read and change the
      world in between, what was accepted was taken for a report or is still held, in
      order, and what was taken was reported, unless a report of the same flush failed
      before it ([DataReporter.events_accounted]); one flush is told in
      [DataReporter.SendAll_fates], and what becomes of one event in
      [DataReporter.FilterAndUpload_spec]. The goroutines of the engine keep that account
      in every interleaving and tell of each failure ([EventEngine.engine_refines]),
      until they are stopped ([EventEngine.shutdown_drops],
      [EventEngine.shutdown_panics]) or started again
      ([EventEngine.restart_closes_new_channels]). They start when the file service can be
      reached, and say while it cannot ([EventReporter.connect_spec]); what was taken is
      in the file service then ([EventReporter.Report_stored]). A request is served under
      the name its token has ([EventHandler.served_as_user]), late ones after their
      refusal ([EventHandler.taken_late]), and a destination that took an event is not
      sent it again ([EventHandler.upload_once]).
    - Files: what is uploaded is what is downloaded, unless the stream, the disk or the
      checksum fails, which is an error ([FileServer.upload_download]); a listing is
      complete, and a filter is what its text says ([FileServer], [FileFilter]); saving
      changes the file that has the same key, but for values that are empty
      ([FileStore.Save_spec]), and cleaning up takes what was deleted long ago and nothing
      else ([FileStore.CleanTombstones_spec]). Old files are
      migrated ([AirgapMaintenance.copy_files_spec]).
    - Trust: what was signed and printed is verified ([Signer.sign_verify]) and nothing that was
      not ([Signer.VerifySignature_spec]); the probe of the token checker follows the
      token ([AuthChecker.probe_tracks_token]); an owner is looked up where it may be
      ([OwnerLookup.owner_filter_sound]).
    - API data: conversion between versions is a round trip and total
      ([MeterDefinition]); labels are the same in whatever order Go ranges over
      the templates ([PromLabels.Execute_order_irrelevant]).

    ** What is not modelled

    - HTTP, TLS, SQL, JSON, YAML, JWT, X.509, text templates, hashing, client-go, the
      cluster of the database and cron are libraries, and parameters here.
    - The mains, managers, caches, listeners and injectors ([v2/cmd], [v2/pkg/managers],
      [v2/pkg/inject], the [cmd] of the other programs but for those of the reporter)
      only put libraries together; the dialect of the database
      ([airgap/v2/pkg/dqlite/driver]) is the library's with other names.
    - Locks are left out where every operation holds its lock from beginning to end.
    - Functions that nothing calls: image streams, deployment configurations and most
      of the [Update] functions of [v2/pkg/manifests], the secret fields of
      [v2/pkg/utils/helpers.go].
    - Generated code, mocks, deep copies, and the tools of the release process
      ([v2/tools]).
*)

From Stdlib Require Export ZArith Lia.
From stdpp Require Export base tactics strings gmap sorting decidable.
Export stdpp.list_basics.list stdpp.list_relations.list stdpp.list_monad.list
  stdpp.list_misc.list.

#[global] Set Default Goal Selector "!".

(** ** Go results *)

(** A Go call that returns [(value, error)]: the value is only meaningful when
    the error is nil. *)
Inductive result (E A : Type) : Type :=
| Ok (a : A)
| Err (e : E).
Arguments Ok {E A} a.
Arguments Err {E A} e.

#[export] Instance result_eq_dec {E A} `{EqDecision E} `{EqDecision A} :
  EqDecision (result E A).
Proof. solve_decision. Defined.

#[export] Instance result_mret {E} : MRet (result E) := λ A a, Ok a.

#[export] Instance result_mbind {E} : MBind (result E) := λ A B f m,
  match m with Ok a => f a | Err e => Err e end.

#[export] Instance result_fmap {E} : FMap (result E) := λ A B f m,
  match m with Ok a => Ok (f a) | Err e => Err e end.

Definition is_ok {E A} (r : result E A) : bool :=
  match r with Ok _ => true | Err _ => false end.

Definition result_ok {E A} (r : result E A) : option A :=
  match r with Ok a => Some a | Err _ => None end.

(** Run a fallible step over a list, stopping at the first error. *)
Fixpoint mapM_result {E A B} (f : A → result E B) (l : list A) : result E (list B) :=
  match l with
  | [] => Ok []
  | x :: l' => y ← f x; ys ← mapM_result f l'; Ok (y :: ys)
  end.

(** A fallible left fold: a [for] loop whose body may [return err]. *)
Fixpoint foldM_result {E A S} (f : S → A → result E S) (s : S) (l : list A) : result E S :=
  match l with
  | [] => Ok s
  | x :: l' => s' ← f s x; foldM_result f s' l'
  end.

(** A call that may panic (nil dereference, out-of-range index, explicit
    [panic]). *)
Inductive outcome (A : Type) : Type :=
| Ret (a : A)
| Panic.
Arguments Ret {A} a.
Arguments Panic {A}.

#[export] Instance outcome_mret : MRet outcome := λ A a, Ret a.
#[export] Instance outcome_mbind : MBind outcome := λ A B f m,
  match m with Ret a => f a | Panic => Panic end.

#[export] Instance outcome_eq_dec {A} `{EqDecision A} : EqDecision (outcome A).
Proof. solve_decision. Defined.

(** A loop whose body may panic. *)
Fixpoint foldM_outcome {S A} (f : S → A → outcome S) (s : S) (l : list A) : outcome S :=
  match l with [] => Ret s | x :: l => s' ← f s x; foldM_outcome f s' l end.

(** ** Notations *)

Declare Scope go_scope.
Delimit Scope go_scope with go.

(** Go's [==] and [!=] on comparable values. *)
Notation "a == b" := (bool_decide (a = b)) (at level 70) : go_scope.
Notation "a != b" := (negb (bool_decide (a = b))) (at level 70) : go_scope.
Notation "a && b" := (andb a b) : go_scope.
Notation "a || b" := (orb a b) : go_scope.
Notation "! a" := (negb a) (at level 35, right associativity) : go_scope.

(** ** Go strings: package [strings] *)

Definition string_nonempty (s : string) : bool := negb (bool_decide (s = "")).

Definition HasPrefix (s p : string) : bool := String.prefix p s.

Fixpoint drop_string (n : nat) (s : string) : string :=
  match n, s with
  | O, _ => s
  | S n', String _ s' => drop_string n' s'
  | S _, EmptyString => EmptyString
  end.

Definition TrimPrefix (s p : string) : string :=
  if HasPrefix s p then drop_string (String.length p) s else s.

Definition Join (l : list string) (sep : string) : string := String.concat sep l.

(** [filepath.Join] of a clean directory other than the root and a name without
    separators. *)
Definition filepath_Join (dir name : string) : string := dir +:+ "/" +:+ name.

(** [strings.Cut] at the first occurrence of a character. *)
Fixpoint cut_at (c : Ascii.ascii) (s : string) : option (string * string) :=
  match s with
  | EmptyString => None
  | String a s' =>
      if Ascii.eqb a c then Some (EmptyString, s')
      else match cut_at c s' with
           | Some (l, r) => Some (String a l, r)
           | None => None
           end
  end.

(** The character ['-'] . *)
Definition dash : Ascii.ascii := Eval cbv in Ascii.ascii_of_nat 45.

(** [strings.SplitN s c n] for a one-character separator and [n > 0]. *)
Fixpoint SplitN (s : string) (c : Ascii.ascii) (n : nat) : list string :=
  match n with
  | O => []
  | S O => [s]
  | S n' => match cut_at c s with
            | Some (l, r) => l :: SplitN r c n'
            | None => [s]
            end
  end.

(** [strings.Compare a b == -1] and the order of [sort.Strings]. *)
Definition string_lt (a b : string) : bool := String.ltb a b.

(** ** Machine integers *)

Definition wrap64 (z : Z) : Z := (z + 2 ^ 63) `mod` 2 ^ 64 - 2 ^ 63.
Definition wrap_int32 (z : Z) : Z := (z + 2 ^ 31) `mod` 2 ^ 32 - 2 ^ 31.
Definition wrap_uint32 (z : Z) : Z := z `mod` 2 ^ 32.
Definition max_int64 : Z := 2 ^ 63 - 1.
Definition min_int64 : Z := - 2 ^ 63.

(** ** Repeated calls *)

(** A call that is made again after an error that can be retried, some number of
    times; the last outcome is returned. *)
Inductive retried_on {E St} (p : E → bool) (f : St → St * option E) : St → St * option E → Prop :=
| retried_on_last st : retried_on p f st (f st)
| retried_on_again st st' e r :
    f st = (st', Some e) → p e = true → retried_on p f st' r → retried_on p f st r.

Class ErrorRetry := {
  OnError : ∀ {E St : Type}, (E → bool) → (St → St * option E) → St → St * option E;
  OnError_law : ∀ {E St} (p : E → bool) (f : St → St * option E) st,
    retried_on p f st (OnError p f st)
}.

(** At most [n] times again. *)
Fixpoint backoff {E St} (n : nat) (p : E → bool) (f : St → St * option E) (st : St) : St * option E :=
  match n with
  | O => f st
  | S n => match f st with
           | (st', Some e) => if p e then backoff n p f st' else (st', Some e)
           | r => r
           end
  end.

Lemma backoff_retried {E St} n (p : E → bool) (f : St → St * option E) st :
  retried_on p f st (backoff n p f st).
Proof.
  revert st; induction n as [|n IH]; intros st; cbn [backoff]; [constructor|].
  destruct (f st) as [st' [e|]] eqn:Hf; [|rewrite <- Hf; constructor].
  destruct (p e) eqn:Hp; [by eapply retried_on_again|]. rewrite <- Hf. constructor.
Qed.

(** ** Automation *)

Create HintDb rhm discriminated.
Create Rewrite HintDb rhm.
#[export] Hint Constants Transparent : rhm.
#[export] Hint Variables Transparent : rhm.

(** Reduce boolean guards in a hypothesis or the goal to propositions. *)
Ltac go_bool :=
  repeat match goal with
  | H : bool_decide _ = true |- _ => apply bool_decide_eq_true in H
  | H : bool_decide _ = false |- _ => apply bool_decide_eq_false in H
  | H : negb _ = true |- _ => apply negb_true_iff in H
  | H : negb _ = false |- _ => apply negb_false_iff in H
  | H : andb _ _ = true |- _ => apply andb_true_iff in H; destruct H
  | H : orb _ _ = false |- _ => apply orb_false_iff in H; destruct H
  end.

(** Case on the first boolean decision met in the goal. *)
Ltac case_go :=
  match goal with
  | |- context [bool_decide ?P] => destruct (bool_decide_reflect P)
  | |- context [if ?b then _ else _] => destruct b eqn:?
  end.

(** Split every guard of the goal, closing the cases congruence and lia close. *)
Ltac go_cases :=
  repeat (case_go; simplify_eq/=; try done; try congruence; try lia).

(** ** Lists *)

(** The slices of a list between consecutive bounds make up the list. *)
Fixpoint covers (lo hi size : nat) (ranges : list (nat * nat)) : Prop :=
  match ranges with
  | [] => lo = hi
  | (a, b) :: ranges => a = lo ∧ lo < b ≤ lo + size ∧ b ≤ hi ∧ covers b hi size ranges
  end.

Lemma covers_concat {A} (l : list A) size ranges lo :
  covers lo (length l) size ranges →
  mjoin ((λ r, take (r.2 - r.1) (drop r.1 l)) <$> ranges) = drop lo l.
Proof.
  revert lo; induction ranges as [|[a b] ranges IH]; intros lo; cbn [covers].
  - intros ->. by rewrite drop_ge.
  - intros (-> & Hb & Hl & Hr). cbn [fmap list_fmap mjoin list_join fst snd].
    change (take (b - lo) (drop lo l) ++ mjoin ((λ r, take (r.2 - r.1) (drop r.1 l)) <$> ranges) =
      drop lo l).
    rewrite (IH b Hr). rewrite <- (take_drop (b - lo) (drop lo l)) at 2. rewrite drop_drop.
    do 2 f_equal. lia.
Qed.

Lemma covers_size {A} (l : list A) hi size ranges lo r :
  covers lo hi size ranges → r ∈ ranges → length (take (r.2 - r.1) (drop r.1 l)) ≤ size.
Proof.
  revert lo; induction ranges as [|[a b] ranges IH]; intros lo; cbn [covers].
  - by intros _ ?%elem_of_nil.
  - intros (-> & Hb & _ & Hr) [->|Hin]%elem_of_cons; [|by eapply IH].
    cbn [fst snd]. rewrite length_take. lia.
Qed.

Lemma bind_Ok {E A B} (m : result E A) (f : A → result E B) b :
  m ≫= f = Ok b → ∃ a, m = Ok a ∧ f a = Ok b.
Proof. destruct m as [a|e]; [|done]. by exists a. Qed.

Lemma Ok_inj {E A} (a b : A) : @Ok E A a = Ok b → a = b.
Proof. congruence. Qed.

Lemma mapM_result_Ok {E A B} (f : A → result E B) (l : list A) (k : list B) :
  mapM_result f l = Ok k ↔ Forall2 (λ x y, f x = Ok y) l k.
Proof.
  revert k; induction l as [|x l IH]; intros k; cbn.
  - split; [intros [= <-]; constructor | by inversion 1].
  - split.
    + destruct (f x) as [y|e] eqn:Hx; cbn; [|done].
      destruct (mapM_result f l) as [ys|e] eqn:Hl; cbn; [|done].
      intros [= <-]. constructor; [done|]. by apply IH.
    + inversion 1 as [|? y ? ys Hx Hl]; subst. apply IH in Hl.
      by rewrite Hx; cbn; rewrite Hl.
Qed.

Lemma mapM_result_Err {E A B} (f : A → result E B) (l : list A) (e : E) :
  mapM_result f l = Err e → ∃ x, x ∈ l ∧ f x = Err e.
Proof.
  induction l as [|x l IH]; cbn; [done|].
  destruct (f x) as [y|e'] eqn:Hx; cbn; [|intros [= ->]; exists x; split; [by left|done]].
  destruct (mapM_result f l); cbn; [done|]. intros H. destruct IH as (z & Hz & ?); [done|].
  exists z. split; [by right|done].
Qed.

Lemma foldM_result_app {E A S} (f : S → A → result E S) s l1 l2 :
  foldM_result f s (l1 ++ l2) = s' ← foldM_result f s l1; foldM_result f s' l2.
Proof.
  revert s; induction l1 as [|x l1 IH]; intros s; cbn; [done|].
  destruct (f s x); cbn; [apply IH|done].
Qed.

(** Invariant rule for a fallible loop. *)
Lemma foldM_result_inv {E A S} (P : S → Prop) (f : S → A → result E S) s l s' :
  P s → (∀ s1 x s2, x ∈ l → P s1 → f s1 x = Ok s2 → P s2) →
  foldM_result f s l = Ok s' → P s'.
Proof.
  revert s; induction l as [|x l IH]; intros s Hs Hstep; cbn.
  - by intros [= <-].
  - destruct (f s x) as [s1|] eqn:Hx; cbn; [|done]. intros Hf.
    eapply (IH s1); [| |done].
    + eapply Hstep; [|exact Hs|exact Hx]. by left.
    + intros s2 y s3 Hy Hs2 Hf2. eapply Hstep; [by right|exact Hs2|exact Hf2].
Qed.

(** Invariant rule for a total loop. *)
Lemma foldl_inv {A S} (P : S → Prop) (f : S → A → S) s l :
  P s → (∀ s1 x, x ∈ l → P s1 → P (f s1 x)) → P (foldl f s l).
Proof.
  revert s; induction l as [|x l IH]; intros s Hs Hstep; cbn; [done|].
  apply IH; [apply Hstep; [by left|done]|].
  intros s2 y Hy. apply Hstep. by right.
Qed.

Lemma existsb_True_exists {A} (f : A → bool) (l : list A) :
  existsb f l = true ↔ ∃ x, x ∈ l ∧ f x = true.
Proof. rewrite List.existsb_exists. by setoid_rewrite list_elem_of_In. Qed.

Lemma forallb_True_forall {A} (f : A → bool) (l : list A) :
  forallb f l = true ↔ ∀ x, x ∈ l → f x = true.
Proof. rewrite List.forallb_forall. by setoid_rewrite list_elem_of_In. Qed.

Lemma forallb_False_exists {A} (f : A → bool) (l : list A) :
  forallb f l = false ↔ ∃ x, x ∈ l ∧ f x = false.
Proof.
  induction l as [|y l IH]; cbn.
  - split; [done|]. by intros (x & ?%elem_of_nil & _).
  - rewrite andb_false_iff, IH. setoid_rewrite elem_of_cons. naive_solver.
Qed.

Lemma existsb_False_forall {A} (f : A → bool) (l : list A) :
  existsb f l = false ↔ ∀ x, x ∈ l → f x = false.
Proof.
  induction l as [|y l IH]; cbn.
  - split; [|done]. by intros _ x ?%elem_of_nil.
  - rewrite orb_false_iff, IH. setoid_rewrite elem_of_cons. naive_solver.
Qed.

(** A fallible loop succeeds exactly when every step does, and then maps. *)
Lemma mapM_result_ok {E A B} (f : A → result E B) l :
  is_ok (mapM_result f l) = forallb (λ x, is_ok (f x)) l.
Proof.
  induction l as [|x l IH]; cbn; [done|].
  destruct (f x); cbn; [|done]. rewrite <- IH. by destruct (mapM_result f l).
Qed.

Lemma mapM_result_total {E A B} (f : A → result E B) (g : A → B) l :
  (∀ x, x ∈ l → f x = Ok (g x)) → mapM_result f l = Ok (g <$> l).
Proof.
  intros H. apply mapM_result_Ok. apply Forall2_fmap_r, Forall2_same_length_lookup.
  split; [done|]. intros i x y Hx Hy. simplify_eq. eauto using list_elem_of_lookup_2.
Qed.

#[export] Hint Rewrite @existsb_True_exists @forallb_True_forall : rhm.

(** ** Strings *)

Lemma string_cons_app x (a b : string) : String x a +:+ b = String x (a +:+ b).
Proof. reflexivity. Qed.

Lemma string_nil_app (a : string) : "" +:+ a = a.
Proof. reflexivity. Qed.

#[export] Hint Rewrite string_cons_app string_nil_app : rhm.

Lemma string_app_assoc (a b c : string) : (a +:+ b) +:+ c = a +:+ (b +:+ c).
Proof. induction a as [|x a IH]; [done|]. rewrite !string_cons_app. by f_equal. Qed.

Lemma string_length_app (a b : string) :
  String.length (a +:+ b) = String.length a + String.length b.
Proof.
  induction a as [|c a IH]; [done|]. rewrite string_cons_app. cbn [String.length]. by rewrite IH.
Qed.

Lemma string_app_inj_r (s a b : string) : a +:+ s = b +:+ s → a = b.
Proof.
  revert b; induction a as [|c a IH]; intros [|c' b];
    rewrite ?string_cons_app, ?string_nil_app; [done| | |].
  - intros H. apply (f_equal String.length) in H. cbn [String.length] in H.
    rewrite string_length_app in H. lia.
  - intros H. apply (f_equal String.length) in H. cbn [String.length] in H.
    rewrite string_length_app in H. lia.
  - intros [= -> H]. f_equal. by apply IH.
Qed.

Lemma string_app_nil (a : string) : a +:+ "" = a.
Proof. induction a as [|x a IH]; [done|]. rewrite string_cons_app. by f_equal. Qed.

Lemma prefix_app p s : String.prefix p (p +:+ s) = true.
Proof.
  induction p as [|x p IH]; [by destruct s|]. rewrite string_cons_app; cbn.
  destruct (Ascii.ascii_dec x x); [exact IH|congruence].
Qed.

Lemma drop_string_app p s : drop_string (String.length p) (p +:+ s) = s.
Proof. induction p as [|x p IH]; [by destruct s|]. by rewrite string_cons_app. Qed.

Lemma TrimPrefix_app p s : TrimPrefix (p +:+ s) p = s.
Proof. unfold TrimPrefix, HasPrefix. by rewrite prefix_app, drop_string_app. Qed.

Fixpoint char_free (c : Ascii.ascii) (s : string) : bool :=
  match s with
  | EmptyString => true
  | String a s' => negb (Ascii.eqb a c) && char_free c s'
  end.

Lemma cut_at_app c l r :
  char_free c l = true → cut_at c (l +:+ String c r) = Some (l, r).
Proof.
  induction l as [|a l IH]; autorewrite with rhm; cbn.
  - by rewrite Ascii.eqb_refl.
  - intros [Ha Hl]%andb_true_iff. apply negb_true_iff in Ha. rewrite Ha.
    by rewrite IH.
Qed.

#[export] Hint Rewrite TrimPrefix_app string_app_assoc : rhm.

(** ** Machine integers *)

Lemma wrap64_id z : (min_int64 ≤ z ≤ max_int64)%Z → wrap64 z = z.
Proof. unfold wrap64, min_int64, max_int64. intros H. rewrite Z.mod_small; lia. Qed.

Lemma wrap64_range z : (min_int64 ≤ wrap64 z ≤ max_int64)%Z.
Proof.
  unfold wrap64, min_int64, max_int64.
  pose proof (Z.mod_pos_bound (z + 2 ^ 63) (2 ^ 64)). lia.
Qed.
