(* ===== verification/Conditions.v ===== *)
(** * Status conditions

    Model of [v2/pkg/utils/status/status.go]: the condition list every custom
    resource of the operator carries, its lookups, its in-place update
    [SetCondition] with the transition-time rule, its removal and the order in
    which it is serialised.  The clock the package reads is an argument of the
    operations that stamp a condition. *)

From S2P Require Import Prelude.

(** ** Data *)

(** [metav1.Time], in nanoseconds. *)
Notation Time := Z (only parsing).

Definition ConditionTrue : string := "True".
Definition ConditionFalse : string := "False".
Definition ConditionUnknown : string := "Unknown".

Record Condition := mkCondition {
  Type_ : string;
  Status : string;
  Reason : string;
  Message : string;
  LastTransitionTime : Time
}.

#[export] Instance Condition_eq_dec : EqDecision Condition.
Proof. solve_decision. Defined.

Definition Conditions := list Condition.

(** ** Operations *)

Section Operations.
Local Open Scope go_scope.

Definition IsTrue (c : Condition) : bool := Status c == ConditionTrue.
Definition IsFalse (c : Condition) : bool := Status c == ConditionFalse.
Definition IsUnknown (c : Condition) : bool := Status c == ConditionUnknown.

(** The first condition of a type, as every lookup loop of the package finds it. *)
Fixpoint GetCondition (conditions : Conditions) (t : string) : option Condition :=
  match conditions with
  | [] => None
  | c :: rest => if Type_ c == t then Some c else GetCondition rest t
  end.

Fixpoint IsTrueFor (conditions : Conditions) (t : string) : bool :=
  match conditions with
  | [] => false
  | c :: rest => if Type_ c == t then IsTrue c else IsTrueFor rest t
  end.

Fixpoint IsFalseFor (conditions : Conditions) (t : string) : bool :=
  match conditions with
  | [] => false
  | c :: rest => if Type_ c == t then IsFalse c else IsFalseFor rest t
  end.

Fixpoint IsUnknownFor (conditions : Conditions) (t : string) : bool :=
  match conditions with
  | [] => true
  | c :: rest => if Type_ c == t then IsUnknown c else IsUnknownFor rest t
  end.

Definition with_time (c : Condition) (now : Time) : Condition :=
  mkCondition (Type_ c) (Status c) (Reason c) (Message c) now.

(** The loop of [SetCondition] over the existing conditions, [newCond] being
    already stamped with the clock. *)
Fixpoint set_loop (conditions : Conditions) (newCond : Condition) : bool * Conditions :=
  match conditions with
  | [] => (true, [newCond])
  | c :: rest =>
      if Type_ c == Type_ newCond then
        let newCond' :=
          if Status c == Status newCond
          then with_time newCond (LastTransitionTime c) else newCond in
        let changed := (Status c != Status newCond) || (Reason c != Reason newCond)
                       || (Message c != Message newCond) in
        (changed, newCond' :: rest)
      else
        let '(changed, rest') := set_loop rest newCond in (changed, c :: rest')
  end.

Definition SetCondition (now : Time) (conditions : Conditions) (newCond : Condition)
  : bool * Conditions :=
  set_loop conditions (with_time newCond now).

Definition NewConditions (now : Time) (conds : list Condition) : Conditions :=
  foldl (λ acc c, (SetCondition now acc c).2) [] conds.

Fixpoint remove_loop (conditions : Conditions) (t : string) : bool * Conditions :=
  match conditions with
  | [] => (false, [])
  | c :: rest =>
      if Type_ c == t then (true, rest)
      else let '(found, rest') := remove_loop rest t in (found, c :: rest')
  end.

(** The receiver is a pointer to the slice, which may be nil. *)
Definition RemoveCondition (conditions : option Conditions) (t : string)
  : bool * option Conditions :=
  match conditions with
  | None => (false, None)
  | Some cs => let '(found, cs') := remove_loop cs t in (found, Some cs')
  end.

End Operations.

Definition type_le (a b : Condition) : Prop := String.le (Type_ a) (Type_ b).

#[export] Instance type_le_dec a b : Decision (type_le a b).
Proof. unfold type_le. apply _. Defined.

#[export] Instance type_le_trans : Transitive type_le.
Proof. intros a b c. unfold type_le. by transitivity (Type_ b). Qed.

#[export] Instance type_le_total : Total type_le.
Proof. intros a b. unfold type_le. apply (total String.le). Qed.

(** [MarshalJSON] sorts the receiver's own backing array by type before encoding
    it: the sorted slice is both what is encoded and what the caller is left
    with. *)
Definition MarshalJSON {bytes} (encode : list Condition → bytes) (conditions : Conditions)
  : bytes * Conditions :=
  let conds := merge_sort type_le conditions in (encode conds, conds).

(** ** Abstract specification: a condition list is a map from type to condition *)

Definition cond_abs (cs : Conditions) : gmap string Condition :=
  foldr (λ c m, <[Type_ c := c]> m) ∅ cs.

(** Well-formedness: one condition per type. *)
Definition wf_conditions (cs : Conditions) : Prop := NoDup (Type_ <$> cs).

(** The condition [SetCondition] stores, given the one it replaces. *)
Definition merged (now : Time) (old : option Condition) (newCond : Condition) : Condition :=
  match old with
  | Some c =>
      if decide (Status c = Status newCond)
      then with_time newCond (LastTransitionTime c) else with_time newCond now
  | None => with_time newCond now
  end.

(** Whether a reader of status, reason and message can tell the two apart. *)
Definition observably_differs (old : option Condition) (newCond : Condition) : Prop :=
  match old with
  | Some c => (Status c, Reason c, Message c) ≠
              (Status newCond, Reason newCond, Message newCond)
  | None => True
  end.

(** ** Lemmas *)

Lemma GetCondition_abs cs t : GetCondition cs t = cond_abs cs !! t.
Proof.
  induction cs as [|c cs IH]; cbn; [by rewrite lookup_empty|].
  rewrite lookup_insert, IH. by case_bool_decide; case_decide.
Qed.

Lemma IsTrueFor_Get cs t :
  IsTrueFor cs t = match GetCondition cs t with Some c => IsTrue c | None => false end.
Proof. induction cs as [|c cs IH]; cbn; [done|]. by case_bool_decide. Qed.

Lemma IsFalseFor_Get cs t :
  IsFalseFor cs t = match GetCondition cs t with Some c => IsFalse c | None => false end.
Proof. induction cs as [|c cs IH]; cbn; [done|]. by case_bool_decide. Qed.

Lemma IsUnknownFor_Get cs t :
  IsUnknownFor cs t = match GetCondition cs t with Some c => IsUnknown c | None => true end.
Proof. induction cs as [|c cs IH]; cbn; [done|]. by case_bool_decide. Qed.

Lemma cond_abs_dom cs t : t ∈ dom (cond_abs cs) ↔ t ∈ Type_ <$> cs.
Proof.
  induction cs as [|c cs IH]; cbn; [set_solver|].
  rewrite dom_insert_L. set_solver.
Qed.

Lemma cond_abs_None cs t : t ∉ Type_ <$> cs → cond_abs cs !! t = None.
Proof. rewrite <- cond_abs_dom. apply not_elem_of_dom. Qed.

#[export] Hint Resolve cond_abs_None : rhm.

(** The stored list after the loop, in closed form. *)
Lemma set_loop_types cs c :
  Type_ <$> (set_loop cs c).2 =
    (Type_ <$> cs) ++ (if decide (Type_ c ∈ Type_ <$> cs) then [] else [Type_ c]).
Proof.
  induction cs as [|c0 cs IH].
  - cbn. rewrite decide_False; [done|]. set_solver.
  - rewrite fmap_cons. cbn [set_loop]. case_bool_decide as Heq.
    + cbn. rewrite decide_True by set_solver.
      case_bool_decide; cbn; by rewrite app_nil_r, Heq.
    + destruct (set_loop cs c) as [b rest] eqn:Hs. cbn in *. rewrite IH.
      f_equal. f_equal. apply decide_ext. set_solver.
Qed.

Lemma set_loop_abs cs c :
  cond_abs (set_loop cs c).2 = <[Type_ c := merged (LastTransitionTime c) (cond_abs cs !! Type_ c) c]> (cond_abs cs).
Proof.
  induction cs as [|c0 cs IH].
  - cbn. rewrite lookup_empty. by destruct c.
  - cbn [set_loop]. case_bool_decide as Heq.
    + cbn. rewrite Heq, lookup_insert_eq, insert_insert_eq. cbn.
      case_bool_decide; [by rewrite decide_True|rewrite decide_False by done].
      by destruct c.
    + destruct (set_loop cs c) as [b rest] eqn:Hs. cbn in *. rewrite IH.
      rewrite lookup_insert_ne by done. by rewrite insert_insert_ne by done.
Qed.

Lemma set_loop_changed cs c :
  (set_loop cs c).1 = true ↔ observably_differs (cond_abs cs !! Type_ c) c.
Proof.
  induction cs as [|c0 cs IH].
  - cbn. by rewrite lookup_empty.
  - cbn [set_loop]. case_bool_decide as Heq.
    + cbn. rewrite Heq, lookup_insert_eq. cbn.
      repeat case_bool_decide; cbn; naive_solver congruence.
    + destruct (set_loop cs c) as [b rest] eqn:Hs. cbn in *.
      by rewrite lookup_insert_ne by done.
Qed.

Lemma set_loop_wf cs c : wf_conditions cs → wf_conditions (set_loop cs c).2.
Proof.
  unfold wf_conditions. rewrite set_loop_types. intros Hnd. case_decide.
  - by rewrite app_nil_r.
  - apply NoDup_app. split_and!; [done| |apply NoDup_singleton]. set_solver.
Qed.

Lemma SetCondition_wf now cs c : wf_conditions cs → wf_conditions (SetCondition now cs c).2.
Proof. apply set_loop_wf. Qed.

#[export] Hint Resolve SetCondition_wf : rhm.

Lemma merged_same now old c :
  Status (merged now old c) = Status c ∧ Reason (merged now old c) = Reason c.
Proof. destruct old; cbn; [case_decide|]; done. Qed.

(** Reading after setting. *)
Lemma GetCondition_Set now cs c :
  GetCondition (SetCondition now cs c).2 (Type_ c) =
    Some (merged now (GetCondition cs (Type_ c)) c).
Proof.
  unfold SetCondition. rewrite !GetCondition_abs, set_loop_abs, lookup_insert_eq.
  by destruct (cond_abs cs !! _).
Qed.

Lemma GetCondition_Set_ne now cs c t :
  Type_ c ≠ t → GetCondition (SetCondition now cs c).2 t = GetCondition cs t.
Proof.
  intros Ht. unfold SetCondition. rewrite !GetCondition_abs, set_loop_abs.
  by rewrite lookup_insert_ne.
Qed.

Lemma SetCondition_changed now cs c :
  (SetCondition now cs c).1 = true ↔ observably_differs (GetCondition cs (Type_ c)) c.
Proof. unfold SetCondition. by rewrite set_loop_changed, GetCondition_abs. Qed.

(** An update that reports no change makes none. *)
Lemma SetCondition_unchanged now cs c :
  (SetCondition now cs c).1 = false →
  (SetCondition now cs c).2 = cs ∧
  ∃ c0, GetCondition cs (Type_ c) = Some c0 ∧ Status c0 = Status c ∧ Reason c0 = Reason c ∧
        Message c0 = Message c.
Proof.
  unfold SetCondition. induction cs as [|c0 cs IH]; cbn; [done|].
  destruct (decide (Type_ c0 = Type_ c)) as [Ht|Ht].
  - rewrite (bool_decide_true _ Ht). cbn. intros Hf.
    apply orb_false_iff in Hf as [Hf H3]. apply orb_false_iff in Hf as [H1 H2].
    apply negb_false_iff in H1, H2, H3. rewrite H1. go_bool. split.
    + destruct c0, c. cbn in *. subst. done.
    + exists c0. done.
  - rewrite (bool_decide_false _ Ht). destruct (set_loop cs _) as [b rest']. cbn in *.
    intros Hb. destruct (IH Hb) as [-> Hex]. done.
Qed.

(** The list holds what a condition says, since whenever. *)
Definition settled (c : Condition) (cs : Conditions) : Prop :=
  ∃ c0, GetCondition cs (Type_ c) = Some c0 ∧ Status c0 = Status c ∧ Reason c0 = Reason c ∧
        Message c0 = Message c.

Lemma settled_Set now c cs : settled c (SetCondition now cs c).2.
Proof.
  eexists. split; [apply GetCondition_Set|]. unfold merged.
  destruct (GetCondition cs _); [case_decide|]; done.
Qed.

Lemma settled_unchanged now c cs :
  settled c cs ↔ SetCondition now cs c = (false, cs).
Proof.
  split.
  - intros (c0 & Hc & Hs & Hr & Hm). destruct (SetCondition now cs c) as [[] l] eqn:He.
    + assert (Hd : (SetCondition now cs c).1 = true) by (by rewrite He).
      apply SetCondition_changed in Hd. rewrite Hc in Hd. destruct Hd. congruence.
    + assert (Hf : (SetCondition now cs c).1 = false) by (by rewrite He).
      apply SetCondition_unchanged in Hf as [Hf _]. rewrite He in Hf. cbn in Hf. congruence.
  - intros He. apply (SetCondition_unchanged now). by rewrite He.
Qed.

Lemma settled_Set_ne now c c' cs :
  Type_ c' ≠ Type_ c → settled c (SetCondition now cs c').2 ↔ settled c cs.
Proof. intros Ht. unfold settled. by rewrite GetCondition_Set_ne. Qed.

Lemma GetCondition_remove_ne cs t t' :
  t ≠ t' → GetCondition (remove_loop cs t).2 t' = GetCondition cs t'.
Proof.
  intros Ht. induction cs as [|c cs IH]; cbn; [done|].
  destruct (bool_decide_reflect (Type_ c = t)) as [<-|Hc]; cbn; [by rewrite bool_decide_false|].
  destruct (remove_loop cs t). cbn in *. by rewrite IH.
Qed.

Lemma settled_remove_ne c cs t : t ≠ Type_ c → settled c (remove_loop cs t).2 ↔ settled c cs.
Proof. intros Ht. unfold settled. by rewrite GetCondition_remove_ne. Qed.

Lemma remove_loop_wf cs t : wf_conditions cs → wf_conditions (remove_loop cs t).2.
Proof.
  unfold wf_conditions. intros Hnd.
  enough (Type_ <$> (remove_loop cs t).2 `sublist_of` Type_ <$> cs) by (by eapply sublist_NoDup).
  clear Hnd. induction cs as [|c cs IH]; cbn; [done|].
  case_bool_decide; cbn; [by constructor|].
  destruct (remove_loop cs t) as [b rest]. cbn in *. by constructor.
Qed.

Lemma remove_loop_abs cs t :
  wf_conditions cs → cond_abs (remove_loop cs t).2 = delete t (cond_abs cs).
Proof.
  unfold wf_conditions. induction cs as [|c cs IH]; cbn; [by rewrite delete_empty|].
  rewrite NoDup_cons. intros [Hnin Hnd]. case_bool_decide as Heq; cbn.
  - subst t. rewrite delete_insert_eq. by rewrite delete_id by eauto with rhm.
  - destruct (remove_loop cs t) as [b rest]. cbn in *.
    rewrite IH by done. by rewrite delete_insert_ne by done.
Qed.

Lemma remove_loop_found cs t : (remove_loop cs t).1 = true ↔ t ∈ Type_ <$> cs.
Proof.
  induction cs as [|c cs IH]; cbn; [set_solver|].
  case_bool_decide; cbn; [set_solver|].
  destruct (remove_loop cs t); cbn in *. set_solver.
Qed.

(** A well-formed list says nothing of a type that was removed, or not found. *)
Lemma GetCondition_remove cs t : wf_conditions cs → GetCondition (remove_loop cs t).2 t = None.
Proof. intros Hwf. by rewrite GetCondition_abs, remove_loop_abs, lookup_delete_eq. Qed.

Lemma GetCondition_not_found cs t : (remove_loop cs t).1 = false → GetCondition cs t = None.
Proof.
  intros Hf. rewrite GetCondition_abs. apply cond_abs_None. intros Hin.
  apply remove_loop_found in Hin. congruence.
Qed.

(** ** Properties *)

(** C17: [SetCondition] refines a map update: a condition list with one
    condition per type stays one, the type set reads back the merged condition
    (its transition time moves exactly when the status does), every other type
    is untouched, and the boolean tells whether a reader can see a change. *)
Theorem SetCondition_refines (now : Time) (cs : Conditions) (c : Condition) :
  wf_conditions cs →
  let '(changed, cs') := SetCondition now cs c in
  wf_conditions cs' ∧
  cond_abs cs' = <[Type_ c := merged now (cond_abs cs !! Type_ c) c]> (cond_abs cs) ∧
  (changed = true ↔ observably_differs (GetCondition cs (Type_ c)) c).
Proof.
  intros Hwf. rewrite (surjective_pairing (SetCondition now cs c)). split_and!.
  - by apply set_loop_wf.
  - unfold SetCondition. rewrite set_loop_abs. cbn.
    by destruct (cond_abs cs !! Type_ c).
  - unfold SetCondition. rewrite set_loop_changed, GetCondition_abs. done.
Qed.

Definition cond_ready : Condition := mkCondition "Ready" "True" "Up" "" 5.
Definition cond_stored : Condition := mkCondition "Stored" "False" "Errored" "disk" 7.

Lemma SetCondition_refines_witness :
  wf_conditions [cond_ready; cond_stored] ∧
  let '(changed, cs') := SetCondition 9 [cond_ready; cond_stored]
                           (mkCondition "Stored" "True" "Finished" "" 0) in
  wf_conditions cs' ∧
  cond_abs cs' = <["Stored" := mkCondition "Stored" "True" "Finished" "" 9]>
                   (cond_abs [cond_ready; cond_stored]) ∧
  (changed = true ↔ observably_differs (Some cond_stored)
                      (mkCondition "Stored" "True" "Finished" "" 0)).
Proof.
  assert (Hwf : wf_conditions [cond_ready; cond_stored]).
  { apply (bool_decide_unpack _). vm_compute. exact I. }
  split; [exact Hwf|].
  exact (SetCondition_refines 9 [cond_ready; cond_stored]
           (mkCondition "Stored" "True" "Finished" "" 0) Hwf).
Defined.

(** Setting the condition that is already there reports no change and leaves
    the list as it was, whatever the clock says. *)
Theorem SetCondition_idempotent (now now' : Time) (cs : Conditions) (c : Condition) :
  let cs1 := (SetCondition now cs c).2 in SetCondition now' cs1 c = (false, cs1).
Proof.
  cbn. unfold SetCondition.
  induction cs as [|c0 cs IH]; cbn [set_loop].
  - cbn. repeat (rewrite bool_decide_eq_true_2 by done; cbn). done.
  - case_bool_decide as Heq; cbn [Type_ with_time] in Heq.
    + cbn. destruct (bool_decide (Status c0 = Status c)); cbn;
        rewrite (bool_decide_eq_true_2 (Type_ c = _)), !bool_decide_eq_true_2 by done; done.
    + destruct (set_loop cs (with_time c now)) as [b rest] eqn:Hs. cbn in *.
      rewrite bool_decide_eq_false_2 by done. by rewrite IH.
Qed.

(** [RemoveCondition] refines a map deletion on a non-nil receiver, reports
    whether the type was present, and does nothing on a nil one. *)
Theorem RemoveCondition_refines (conditions : option Conditions) (t : string) :
  (∀ cs, conditions = Some cs → wf_conditions cs) →
  match conditions, RemoveCondition conditions t with
  | None, (found, out) => found = false ∧ out = None
  | Some cs, (found, out) => ∃ cs', out = Some cs' ∧ wf_conditions cs' ∧
      cond_abs cs' = delete t (cond_abs cs) ∧ (found = true ↔ is_Some (GetCondition cs t))
  end.
Proof.
  intros Hwf. destruct conditions as [cs|]; cbn; [|done].
  specialize (Hwf cs eq_refl).
  pose proof (remove_loop_abs cs t Hwf). pose proof (remove_loop_wf cs t Hwf).
  pose proof (remove_loop_found cs t) as Hf.
  rewrite <- cond_abs_dom, elem_of_dom, <- GetCondition_abs in Hf.
  destruct (remove_loop cs t) as [found cs']. eauto.
Qed.

Lemma RemoveCondition_refines_witness :
  (∀ cs, Some [cond_ready; cond_stored] = Some cs → wf_conditions cs) ∧
  RemoveCondition (Some [cond_ready; cond_stored]) "Ready" = (true, Some [cond_stored]) ∧
  match Some [cond_ready; cond_stored], RemoveCondition (Some [cond_ready; cond_stored]) "Ready" with
  | None, (found, out) => found = false ∧ out = None
  | Some cs, (found, out) => ∃ cs', out = Some cs' ∧ wf_conditions cs' ∧
      cond_abs cs' = delete "Ready" (cond_abs cs) ∧ (found = true ↔ is_Some (GetCondition cs "Ready"))
  end.
Proof.
  assert (Hwf : ∀ cs, Some [cond_ready; cond_stored] = Some cs → wf_conditions cs).
  { intros cs [= <-]. apply (bool_decide_unpack _). vm_compute. exact I. }
  split_and!; [exact Hwf|reflexivity|].
  exact (RemoveCondition_refines (Some [cond_ready; cond_stored]) "Ready" Hwf).
Defined.

(** The bytes a well-formed condition list serialises to do not depend on the
    order the conditions were set in. *)
Theorem MarshalJSON_canonical {bytes} (encode : list Condition → bytes) (cs1 cs2 : Conditions) :
  wf_conditions cs1 → cs1 ≡ₚ cs2 → MarshalJSON encode cs1 = MarshalJSON encode cs2.
Proof.
  intros Hwf Hp. unfold MarshalJSON.
  assert (Hnd : ∀ a b, a ∈ cs1 → b ∈ cs1 → Type_ a = Type_ b → a = b).
  { clear Hp. unfold wf_conditions in Hwf. intros a b Ha Hb Hab.
    apply list_elem_of_lookup in Ha as [i Hi]. apply list_elem_of_lookup in Hb as [j Hj].
    assert (i = j) as ->; [|congruence].
    eapply (NoDup_lookup (Type_ <$> cs1)); [done| |].
    - by rewrite list_lookup_fmap, Hi.
    - by rewrite list_lookup_fmap, Hj, Hab. }
  assert (merge_sort type_le cs1 = merge_sort type_le cs2) as ->; [|done].
  eapply (StronglySorted_unique_strong type_le).
  - intros a b Ha Hb Hab Hba. rewrite (merge_sort_Permutation type_le cs1) in Ha.
    rewrite (merge_sort_Permutation type_le cs2), <- Hp in Hb.
    apply Hnd; [done|done|]. unfold type_le in *. by apply (anti_symm String.le).
  - apply StronglySorted_merge_sort; apply _.
  - apply StronglySorted_merge_sort; apply _.
  - by rewrite !merge_sort_Permutation.
Qed.
