(* ===== verification/Reports.v ===== *)
(** * Meter reports

    Model of [v2/api/marketplace/v1alpha1/meterreport_types.go]: the report
    resource, the upload-status list it carries (a list of pointers, so an entry
    may be nil), the conditions the reporter sets on it and the translation of
    errors into status details. *)

From S2P Require Import Prelude Conditions.

(** ** Upload details *)

Definition UploadStatus := string.
Definition UploadStatusSuccess : UploadStatus := "success".
Definition UploadStatusFailure : UploadStatus := "failure".

Record UploadDetails := mkUploadDetails {
  Target : string;
  ID : string;
  UStatus : UploadStatus;
  Error : string
}.

#[export] Instance UploadDetails_eq_dec : EqDecision UploadDetails.
Proof. solve_decision. Defined.

(** [[]*UploadDetails]: an entry may be nil. *)
Definition UploadDetailConditions := list (option UploadDetails).

Section UploadOperations.
Local Open Scope go_scope.

Definition Success (u : UploadDetails) : bool := UStatus u == UploadStatusSuccess.

Definition Err_ (u : UploadDetails) : option string :=
  if Error u == "" then None else Some (Error u).

(** [Set] dereferences every entry up to the one it replaces. *)
Fixpoint Set_ (u : UploadDetailConditions) (cond : UploadDetails)
  : outcome UploadDetailConditions :=
  match u with
  | [] => Ret [Some cond]
  | None :: _ => Panic
  | Some d :: rest =>
      if Target d == Target cond then Ret (Some cond :: rest)
      else rest' ← Set_ rest cond; Ret (Some d :: rest')
  end.

Fixpoint append_loop (u conds : UploadDetailConditions) : outcome UploadDetailConditions :=
  match conds with
  | [] => Ret u
  | None :: _ => Panic
  | Some c :: rest => u' ← Set_ u c; append_loop u' rest
  end.

(** A nil receiver is replaced by a fresh list the caller never sees. *)
Definition Append (u : option UploadDetailConditions) (conds : UploadDetailConditions)
  : outcome (option UploadDetailConditions) :=
  u' ← append_loop (default [] u) conds;
  Ret (match u with None => None | Some _ => Some u' end).

Fixpoint Get (u : UploadDetailConditions) (target : string) : option UploadDetails :=
  match u with
  | [] => None
  | None :: rest => Get rest target
  | Some d :: rest => if Target d == target then Some d else Get rest target
  end.

Definition OneSuccessOf (u : UploadDetailConditions) (targets : list string) : bool :=
  existsb (λ target,
    match Get u target with
    | Some d => (Target d == target) && (UStatus d == UploadStatusSuccess)
    | None => false
    end) targets.

Definition AllSuccesses (u : UploadDetailConditions) : bool :=
  match u with
  | [] => false
  | _ => forallb (λ o, match o with Some d => Success d | None => true end) u
  end.

(** The error text of the first entry that is not a success. *)
Fixpoint Errors (u : UploadDetailConditions) : option string :=
  match u with
  | [] => None
  | None :: rest => Errors rest
  | Some d :: rest =>
      if ! Success d then Some ("target:" +:+ Target d +:+ " error:" +:+ Error d)
      else Errors rest
  end.

End UploadOperations.

(** ** Error details *)

Record ErrorDetails := mkErrorDetails {
  EReason : string;
  Details : gmap string string
}.

Section ErrorDetails.
  (** The error library and [fmt]: the detail list attached to an error, the
      text of its root cause, and the [%v] and [%+v] renderings. *)
  Context {error detail : Type}.
  Context (GetDetails : error → list detail) (CauseText : error → string).
  Context (sprint sprint_plus : detail → string).

  (** [details[i]] is a key and [details[i+1]] its value; an odd list runs past
      its end. *)
Fixpoint details_loop (details : list detail) (m : gmap string string)
    : outcome (gmap string string) :=
    match details with
    | [] => Ret m
    | [_] => Panic
    | k :: v :: rest => details_loop rest (<[sprint k := sprint_plus v]> m)
    end.

Definition FromError (err : error) : outcome ErrorDetails :=
    m ← details_loop (GetDetails err) ∅; Ret (mkErrorDetails (CauseText err) m).
End ErrorDetails.

(** ** Conditions of a report *)

Definition ReportConditionTypeJobRunning : string := "JobRunning".
Definition ReportConditionReasonJobSubmitted : string := "Submitted".
Definition ReportConditionReasonJobNotStarted : string := "NotStarted".
Definition ReportConditionReasonJobWaiting : string := "Waiting".
Definition ReportConditionReasonJobFinished : string := "Finished".
Definition ReportConditionReasonJobErrored : string := "Errored".
Definition ReportConditionReasonJobIsDisconnected : string := "Disconn".
Definition ReportConditionReasonJobNoData : string := "NoData".
Definition ReportConditionReasonJobSkipped : string := "Skipped".
Definition ReportConditionReasonJobMaxRetries : string := "MaxRetries".
Definition ReportConditionTypeStorageStatus : string := "Stored".
Definition ReportConditionTypeUploadStatus : string := "Uploaded".
Definition ReportConditionReasonUploadStatusFinished : string := "Finished".
Definition ReportConditionReasonUploadStatusNotStarted : string := "NotStarted".
Definition ReportConditionReasonUploadStatusErrored : string := "Errored".

(** A condition literal leaves the transition time at its zero value. *)
Definition cond_lit (t s r m : string) : Condition := mkCondition t s r m 0.

Definition ReportConditionJobNotStarted := cond_lit ReportConditionTypeJobRunning
  ConditionFalse ReportConditionReasonJobNotStarted "Job has not been started".
Definition ReportConditionJobSubmitted := cond_lit ReportConditionTypeJobRunning
  ConditionTrue ReportConditionReasonJobSubmitted "Job has been submitted".
Definition ReportConditionJobWaiting := cond_lit ReportConditionTypeJobRunning
  ConditionFalse ReportConditionReasonJobWaiting "Report end time has not progressed.".
Definition ReportConditionJobFinished := cond_lit ReportConditionTypeJobRunning
  ConditionFalse ReportConditionReasonJobFinished "Job has finished".
Definition ReportConditionJobErrored := cond_lit ReportConditionTypeJobRunning
  ConditionFalse ReportConditionReasonJobErrored "Job has errored".
Definition ReportConditionStorageStatusFinished := cond_lit ReportConditionTypeStorageStatus
  ConditionTrue ReportConditionReasonUploadStatusFinished "".
Definition ReportConditionStorageStatusUnknown := cond_lit ReportConditionTypeStorageStatus
  ConditionUnknown ReportConditionReasonUploadStatusNotStarted "".
Definition ReportConditionStorageStatusErrored := cond_lit ReportConditionTypeStorageStatus
  ConditionFalse ReportConditionReasonUploadStatusErrored "".
Definition ReportConditionJobIsDisconnected := cond_lit ReportConditionTypeUploadStatus
  ConditionFalse ReportConditionReasonJobIsDisconnected
  "Report is running in a disconnected environment".
Definition ReportConditionJobHasNoData := cond_lit ReportConditionTypeUploadStatus
  ConditionFalse ReportConditionReasonJobNoData "Report has no data".
Definition ReportConditionJobSkipped := cond_lit ReportConditionTypeUploadStatus
  ConditionFalse ReportConditionReasonJobSkipped "".
Definition ReportConditionFailedAttempts := cond_lit ReportConditionTypeUploadStatus
  ConditionFalse ReportConditionReasonJobMaxRetries "".
Definition ReportConditionUploadStatusFinished := cond_lit ReportConditionTypeUploadStatus
  ConditionTrue ReportConditionReasonUploadStatusFinished "".
Definition ReportConditionUploadStatusUnknown := cond_lit ReportConditionTypeUploadStatus
  ConditionUnknown ReportConditionReasonUploadStatusNotStarted "".
Definition ReportConditionUploadStatusErrored := cond_lit ReportConditionTypeUploadStatus
  ConditionFalse ReportConditionReasonUploadStatusErrored "".

(** ** The report status *)

Record MeterReportStatus := mkMeterReportStatus {
  RConditions : Conditions;
  UploadStatus_ : UploadDetailConditions;
  WorkloadCount : option Z;
  MetricUploadCount : option Z;
  RetryUpload : Z;
  UploadID : option string;
  DataServiceStatus : option UploadDetails;
  RErrors : list ErrorDetails;
  Warnings : list ErrorDetails
}.

Definition IsStored (stat : MeterReportStatus) : bool :=
  match GetCondition (RConditions stat) ReportConditionTypeStorageStatus with
  | Some cond => IsTrue cond
  | None => false
  end.

Definition IsUploaded (stat : MeterReportStatus) : bool :=
  match GetCondition (RConditions stat) ReportConditionTypeUploadStatus with
  | Some cond => IsTrue cond
  | None => false
  end.

(** ** Abstract specification: target ↦ details *)

Fixpoint uploads_abs (u : UploadDetailConditions) : gmap string UploadDetails :=
  match u with
  | [] => ∅
  | Some d :: rest => <[Target d := d]> (uploads_abs rest)
  | None :: rest => uploads_abs rest
  end.

(** No nil entry, and one entry per target. *)
Definition wf_uploads (u : UploadDetailConditions) : Prop :=
  Forall is_Some u ∧ NoDup (omap (fmap Target) u).

#[export] Instance wf_uploads_dec u : Decision (wf_uploads u).
Proof. unfold wf_uploads. apply _. Defined.

Lemma Get_abs u target : Get u target = uploads_abs u !! target.
Proof.
  induction u as [|[d|] u IH]; cbn; [by rewrite lookup_empty| |done].
  rewrite lookup_insert, IH. by case_bool_decide; case_decide.
Qed.

Lemma Get_target u target d : Get u target = Some d → Target d = target.
Proof.
  induction u as [|[d0|] u IH]; cbn; [done| |done]. case_bool_decide; [by intros [= <-]|done].
Qed.

Lemma Get_elem u target d : Get u target = Some d → Some d ∈ u.
Proof.
  induction u as [|[d0|] u IH]; cbn; [done| |]; intros.
  - case_bool_decide; simplify_eq; [by left|right; auto].
  - right; auto.
Qed.

#[export] Hint Resolve Get_target Get_elem : rhm.

Lemma Set_ok u cond :
  wf_uploads u →
  ∃ u', Set_ u cond = Ret u' ∧ wf_uploads u' ∧
    uploads_abs u' = <[Target cond := cond]> (uploads_abs u) ∧
    (∀ t, t ∈ omap (fmap Target) u' ↔ t = Target cond ∨ t ∈ omap (fmap Target) u).
Proof.
  unfold wf_uploads. induction u as [|[d|] u IH]; intros [Hsome Hnd].
  - exists [Some cond]. split_and!; [done| | |done|set_solver].
    + by repeat constructor.
    + apply NoDup_singleton.
  - apply Forall_cons in Hsome as [_ Hsome]. cbn in Hnd.
    apply NoDup_cons in Hnd as [Hnin Hnd]. cbn. case_bool_decide as Heq.
    + exists (Some cond :: u). rewrite <- Heq. split_and!; [done| | | |].
      * by constructor.
      * cbn. rewrite <- Heq. by apply NoDup_cons.
      * cbn. by rewrite <- Heq, insert_insert_eq.
      * intros t. cbn. set_solver.
    + destruct IH as (u' & -> & (Hs' & Hn') & Habs & Hel); [done|]. cbn.
      exists (Some d :: u'). split_and!; [done| | | |].
      * by constructor.
      * cbn. apply NoDup_cons. split; [|done]. rewrite Hel. naive_solver.
      * cbn. rewrite Habs. by rewrite insert_insert_ne by done.
      * intros t. cbn. set_solver.
  - apply Forall_cons in Hsome as [[? [=]] _].
Qed.

Lemma uploads_abs_snoc u c :
  uploads_abs (u ++ [Some c]) = uploads_abs u ∪ {[Target c := c]}.
Proof.
  induction u as [|[d|] u IH]; cbn; [by rewrite map_empty_union| |done].
  by rewrite IH, insert_union_l.
Qed.

Lemma append_loop_ok u conds :
  wf_uploads u → Forall is_Some conds →
  ∃ u', append_loop u conds = Ret u' ∧ wf_uploads u' ∧
    uploads_abs u' = uploads_abs (reverse conds) ∪ uploads_abs u.
Proof.
  intros Hwf Hc. revert u Hwf. induction Hc as [|o conds [c ->] _ IH]; intros u Hwf.
  - exists u. rewrite reverse_nil; cbn. by rewrite map_empty_union.
  - rewrite reverse_cons, uploads_abs_snoc. cbn [append_loop].
    destruct (Set_ok u c Hwf) as (u' & -> & Hwf' & Habs & _). cbn [mbind outcome_mbind].
    destruct (IH u' Hwf') as (u'' & -> & Hwf'' & Habs''). exists u''.
    split_and!; [done|done|]. rewrite Habs'', Habs, <- map_union_assoc.
    by rewrite insert_union_singleton_l.
Qed.

Lemma AllSuccesses_Errors u :
  u ≠ [] → AllSuccesses u = true ↔ Errors u = None.
Proof.
  destruct u as [|o u]; [done|intros _]. unfold AllSuccesses.
  generalize (o :: u). clear. intros u. induction u as [|[d|] u IH]; cbn; [done| |done].
  destruct (Success d); cbn; [done|]. by split.
Qed.

Lemma Append_some u conds :
  wf_uploads u → Forall is_Some conds →
  ∃ u', Append (Some u) conds = Ret (Some u') ∧ wf_uploads u' ∧
    ∀ t, Get u' t = match Get (reverse conds) t with Some d => Some d | None => Get u t end.
Proof.
  intros Hu Hc. unfold Append. change (default [] (Some u)) with u.
  destruct (append_loop_ok _ conds Hu Hc) as (u' & Heq & Hwf' & Habs). rewrite Heq. cbn.
  eexists; split; [done|]. split; [done|]. intros t. rewrite !Get_abs, Habs, lookup_union. cbn.
  by destruct (uploads_abs (reverse conds) !! t), (uploads_abs u !! t).
Qed.

Lemma OneSuccessOf_ext u u' targets :
  (∀ t, t ∈ targets → Get u t = Get u' t) → OneSuccessOf u targets = OneSuccessOf u' targets.
Proof.
  unfold OneSuccessOf. induction targets as [|t targets IH]; intros H; [done|]. cbn [existsb].
  rewrite (H t) by (by left). f_equal. apply IH. intros t' Ht. apply H. by right.
Qed.

(** ** Properties *)

(** [Append] refines a sequence of map updates: on a list with no nil entry
    and one entry per target it never panics, the list keeps that shape, the
    last detail appended for a target is the one read back and every other
    target keeps its own; a nil receiver stays nil. *)
Theorem Append_refines (u : option UploadDetailConditions) (conds : UploadDetailConditions) :
  (∀ l, u = Some l → wf_uploads l) → Forall is_Some conds →
  ∃ out, Append u conds = Ret out ∧
  match u, out with
  | None, None => True
  | Some l, Some l' => wf_uploads l' ∧ ∀ t,
      Get l' t = match Get (reverse conds) t with Some d => Some d | None => Get l t end
  | _, _ => False
  end.
Proof.
  intros Hu Hc. destruct u as [l|].
  - destruct (Append_some l conds (Hu l eq_refl) Hc) as (u' & -> & Hwf & HG). by eexists.
  - assert (Hn : wf_uploads []) by (by split; constructor).
    destruct (append_loop_ok [] conds Hn Hc) as (u' & H & _). unfold Append. change (default [] None) with (@nil (option UploadDetails)).
    rewrite H. by eexists.
Qed.

Definition up_ds : UploadDetails := mkUploadDetails "data-service" "f1" "success" "".
Definition up_mkt_fail : UploadDetails :=
  mkUploadDetails "redhat-marketplace" "" "failure" "timeout".
Definition up_mkt_ok : UploadDetails := mkUploadDetails "redhat-marketplace" "id9" "success" "".

Lemma Append_refines_witness :
  Append (Some [Some up_ds; Some up_mkt_fail]) [Some up_mkt_ok]
    = Ret (Some [Some up_ds; Some up_mkt_ok]) ∧
  ∃ out, Append (Some [Some up_ds; Some up_mkt_fail]) [Some up_mkt_ok] = Ret out ∧
  match Some [Some up_ds; Some up_mkt_fail], out with
  | None, None => True
  | Some l, Some l' => wf_uploads l' ∧ ∀ t,
      Get l' t = match Get (reverse [Some up_mkt_ok]) t with
                 | Some d => Some d | None => Get l t end
  | _, _ => False
  end.
Proof.
  split; [reflexivity|].
  apply (Append_refines (Some [Some up_ds; Some up_mkt_fail]) [Some up_mkt_ok]).
  - intros l [= <-]. apply (bool_decide_unpack _). vm_compute. exact I.
  - repeat constructor; eauto.
Defined.

(** [OneSuccessOf] is true exactly when the entry of some listed target
    is a success. *)
Theorem OneSuccessOf_spec (u : UploadDetailConditions) (targets : list string) :
  OneSuccessOf u targets = true ↔
  ∃ t d, t ∈ targets ∧ Get u t = Some d ∧ UStatus d = UploadStatusSuccess.
Proof.
  unfold OneSuccessOf. rewrite existsb_True_exists. split.
  - intros (t & Ht & Hd). destruct (Get u t) as [d|] eqn:Hg; [|done]. go_bool. eauto.
  - intros (t & d & Ht & Hg & Hs). exists t. split; [done|]. rewrite Hg.
    rewrite (bool_decide_eq_true_2 (Target d = t)) by eauto with rhm.
    by rewrite bool_decide_eq_true_2.
Qed.

(** The details of an error with an even detail list are a map in which
    the last value given for a key wins; an odd list makes the translation
    panic, whatever it holds. *)
Theorem FromError_total {error detail} (GetDetails : error → list detail) cause s1 s2 err :
  (∃ e, FromError GetDetails cause s1 s2 err = Ret e ∧ EReason e = cause err) ↔
  Nat.Even (length (GetDetails err)).
Proof.
  unfold FromError.
  assert (H : ∀ l m n, length l ≤ n →
    (∃ m', details_loop s1 s2 l m = Ret m') ↔ Nat.Even (length l)).
  { clear err. intros l m n. revert l m.
    induction n as [|n IH]; intros [|k [|v l]] m Hlen; cbn in *; try lia.
    - split; [by exists 0|eauto].
    - split; [by exists 0|eauto].
    - split; [naive_solver|]. intros [x Hx]. lia.
    - rewrite IH by lia. cbn. rewrite Nat.Even_succ_succ. done. }
  specialize (H (GetDetails err) ∅ (length (GetDetails err)) (le_n _)).
  rewrite <- H. destruct (details_loop _ _ _ _) as [m|]; cbn.
  - split; [eauto|]. intros _. by eexists.
  - split; [by intros (? & ? & _)|by intros [??]].
Qed.
