(* ===== verification/Workloads.v ===== *)
(** * Kubernetes objects and workload references

    The object metadata the operator reads, and the model of
    [v2/api/marketplace/common]: group-version-kind references, workload
    resources and the order a status lists them in, and job references. *)

From S2P Require Import Prelude.

(** ** Objects *)

Record NamespacedName := mkNN { NNNamespace : string; NNName : string }.

#[export] Instance NamespacedName_eq_dec : EqDecision NamespacedName.
Proof. solve_decision. Defined.

#[export] Instance NamespacedName_countable : Countable NamespacedName.
Proof.
  refine (inj_countable' (λ n, (NNNamespace n, NNName n)) (λ p, mkNN p.1 p.2) _).
  by intros [].
Defined.

Record GroupVersionKind := mkGVK { APIVersion : string; Kind : string }.

#[export] Instance GVK_eq_dec : EqDecision GroupVersionKind.
Proof. solve_decision. Defined.

Record OwnerReference := mkOwnerRef {
  ORAPIVersion : string; ORKind : string; ORName : string; ORUID : string
}.

#[export] Instance OwnerReference_eq_dec : EqDecision OwnerReference.
Proof. solve_decision. Defined.

Record ObjectMeta := mkMeta {
  Name : string;
  Namespace : string;
  UID : string;
  Generation : Z;
  Labels : gmap string string;
  Annotations : gmap string string;
  OwnerReferences : list OwnerReference
}.

#[export] Instance ObjectMeta_eq_dec : EqDecision ObjectMeta.
Proof. solve_decision. Defined.

(** The dynamic types ([reflect.Type]) the metering code tells apart. *)
Inductive GoType :=
| TPod | TService | TPersistentVolume | TPersistentVolumeClaim | TServiceMonitor
| TMeterDefinition | TOther (name : string).

#[export] Instance GoType_eq_dec : EqDecision GoType.
Proof. solve_decision. Defined.

#[export] Instance GoType_countable : Countable GoType.
Proof.
  refine (inj_countable'
    (λ t, match t with
          | TPod => inl 0 | TService => inl 1 | TPersistentVolume => inl 2
          | TPersistentVolumeClaim => inl 3 | TServiceMonitor => inl 4
          | TMeterDefinition => inl 5 | TOther n => inr n end)
    (λ e, match e with
          | inl 0 => TPod | inl 1 => TService | inl 2 => TPersistentVolume
          | inl 3 => TPersistentVolumeClaim | inl 4 => TServiceMonitor
          | inl _ => TMeterDefinition | inr n => TOther n end) _).
  by intros [].
Defined.

(** An object with metadata: its dynamic type and its metadata. *)
Record Object := mkObject { ObjType : GoType; ObjMeta : ObjectMeta }.

#[export] Instance Object_eq_dec : EqDecision Object.
Proof. solve_decision. Defined.

(** ** References ([name_namespace_ref.go]) *)

Record NamespacedNameReference := mkNNRef {
  RefUID : string;
  RefNamespace : string;
  RefName : string;
  RefGVK : option GroupVersionKind
}.

#[export] Instance NNRef_eq_dec : EqDecision NamespacedNameReference.
Proof. solve_decision. Defined.

Definition GVK_String (g : GroupVersionKind) : string := APIVersion g +:+ "/" +:+ Kind g.

Definition gvkMap (t : GoType) : option GroupVersionKind :=
  match t with
  | TPod => Some (mkGVK "v1" "Pod")
  | TService => Some (mkGVK "v1" "Service")
  | TPersistentVolume => Some (mkGVK "v1" "PersistentVolume")
  | TPersistentVolumeClaim => Some (mkGVK "v1" "PersistentVolumeClaim")
  | TServiceMonitor => Some (mkGVK "monitoring.coreos.com/v1" "ServiceMonitor")
  | _ => None
  end.

Definition NewPredefinedGroupVersionKind (obj : Object) : result string GroupVersionKind :=
  match gvkMap (ObjType obj) with
  | Some gvk => Ok gvk
  | None => Err "failed to get workload resource"
  end.

Definition ToTypes (n : NamespacedNameReference) : NamespacedName :=
  mkNN (RefNamespace n) (RefName n).

Definition NamespacedNameFromMeta (o : Object) : NamespacedNameReference :=
  mkNNRef (UID (ObjMeta o)) (Namespace (ObjMeta o)) (Name (ObjMeta o)) None.

(** ** Workload resources ([meterdefinition_status.go]) *)

Record WorkloadResource := mkWorkloadResource {
  ReferencedWorkloadName : string;
  NNRef : NamespacedNameReference
}.

#[export] Instance WorkloadResource_eq_dec : EqDecision WorkloadResource.
Proof. solve_decision. Defined.

(** [ByAlphabetical.Less]: each comparison returns true on "smaller" and falls
    through otherwise, on "greater" as on "equal". *)
Definition Less (a b : WorkloadResource) : bool :=
  if string_lt (ReferencedWorkloadName a) (ReferencedWorkloadName b) then true
  else if string_lt (RefNamespace (NNRef a)) (RefNamespace (NNRef b)) then true
  else if string_lt (RefName (NNRef a)) (RefName (NNRef b)) then true
  else false.

Definition NewWorkloadResource (obj : Object) : result string WorkloadResource :=
  gvk ← NewPredefinedGroupVersionKind obj;
  Ok (mkWorkloadResource ""
        (mkNNRef (UID (ObjMeta obj)) (Namespace (ObjMeta obj)) (Name (ObjMeta obj)) (Some gvk))).

(** ** Job references ([job_reference.go]) *)

(** The part of a [batchv1.Job] that is read. *)
Record JobCondition := mkJobCondition { JCType : string; JCStatus : string }.
Record Job := mkJob {
  JobName : string;
  JobNamespace : string;
  JobStartTime : option Z;
  JobCompletionTime : option Z;
  JobConditions : list JobCondition
}.

Record JobReference := mkJobReference {
  JRNamespace : string;
  JRName : string;
  StartTime : option Z;
  CompletionTime : option Z;
  Active : option Z;
  Succeeded : option Z;
  Failed : option Z;
  BackoffLimit : option Z;
  JobSuccess : bool;
  JobFailed : bool
}.

Definition JobNamespacedName (j : JobReference) : NamespacedName :=
  mkNN (JRNamespace j) (JRName j).

Section Job.
Local Open Scope go_scope.

(** One turn of the condition loop: (failed, success). *)
Definition job_cond_step (s : bool * bool) (c : JobCondition) : bool * bool :=
  if JCStatus c == "True" then
    ((JCType c == "Failed") || s.1, (JCType c == "Complete") || s.2)
  else s.

(** The receiver's old fields are all overwritten. *)
Definition SetFromJob (j : JobReference) (job : Job) : JobReference :=
  let '(failed, success) := foldl job_cond_step (false, false) (JobConditions job) in
  mkJobReference (JobNamespace job) (JobName job) (JobStartTime job) (JobCompletionTime job)
    None None None None success failed.

Definition IsSuccessful (j : JobReference) : bool := JobSuccess j.
Definition IsFailed (j : JobReference) : bool := JobFailed j.
Definition IsDone (j : JobReference) : bool := JobFailed j || JobSuccess j.
End Job.

(** ** Lemmas *)

Lemma string_ltb_irrefl s : String.ltb s s = false.
Proof.
  unfold String.ltb. induction s as [|a s IH]; cbn; [done|].
  unfold Ascii.compare. by rewrite N.compare_refl.
Qed.

Lemma job_cond_step_spec cs f s :
  foldl job_cond_step (f, s) cs =
    (existsb (λ c, bool_decide (JCStatus c = "True") && bool_decide (JCType c = "Failed")) cs || f,
     existsb (λ c, bool_decide (JCStatus c = "True") && bool_decide (JCType c = "Complete")) cs || s).
Proof.
  revert f s. induction cs as [|c cs IH]; intros f s; cbn [foldl existsb]; [done|].
  unfold job_cond_step at 2. cbn [fst snd].
  destruct (bool_decide (JCStatus c = "True")); rewrite IH; cbn [fst snd andb orb]; [|done].
  f_equal; by rewrite !orb_assoc, (orb_comm (existsb _ _) (bool_decide _)).
Qed.

(** ** Properties *)

(** The order a status lists its resources in is not an order: two resources of
    different namespaces can each be less than the other, so a sort by [Less]
    depends on the order its input arrives in. *)
Theorem Less_not_asymmetric :
  ∃ a b, Less a b = true ∧ Less b a = true ∧ a ≠ b ∧
    ReferencedWorkloadName a = "" ∧ ReferencedWorkloadName b = "".
Proof.
  exists (mkWorkloadResource "" (mkNNRef "u1" "ns-a" "pod-2" None)),
         (mkWorkloadResource "" (mkNNRef "u2" "ns-b" "pod-1" None)).
  by vm_compute.
Qed.

(** On the resources the metering code creates (no referenced workload name)
    within one namespace, [Less] is the strict order of the names. *)
Theorem Less_one_namespace (a b : Object) (ra rb : WorkloadResource) :
  NewWorkloadResource a = Ok ra → NewWorkloadResource b = Ok rb →
  Namespace (ObjMeta a) = Namespace (ObjMeta b) →
  Less ra rb = string_lt (Name (ObjMeta a)) (Name (ObjMeta b)).
Proof.
  unfold NewWorkloadResource, NewPredefinedGroupVersionKind.
  destruct (gvkMap (ObjType a)), (gvkMap (ObjType b)); cbn; try done.
  intros [= <-] [= <-] Hns. unfold Less, string_lt; cbn. rewrite Hns, !string_ltb_irrefl.
  by destruct (String.ltb _ _).
Qed.

Definition pod_meta (ns n : string) : ObjectMeta := mkMeta n ns ("uid-" +:+ n) 1 ∅ ∅ [].

Lemma Less_one_namespace_witness :
  let a := mkObject TPod (pod_meta "ns" "a") in
  let b := mkObject TService (pod_meta "ns" "b") in
  let r o := mkWorkloadResource "" (mkNNRef (UID (ObjMeta o)) "ns" (Name (ObjMeta o)) (gvkMap (ObjType o))) in
  NewWorkloadResource a = Ok (r a) ∧ NewWorkloadResource b = Ok (r b) ∧
  Less (r a) (r b) = string_lt "a" "b".
Proof.
  intros a b r. split_and!; [reflexivity|reflexivity|].
  exact (Less_one_namespace a b (r a) (r b) eq_refl eq_refl eq_refl).
Defined.

(** A job reference is done exactly when the job has a true [Failed] or
    [Complete] condition, whatever the reference held before. *)
Theorem SetFromJob_done (j : JobReference) (job : Job) :
  IsDone (SetFromJob j job) = true ↔
  ∃ c, c ∈ JobConditions job ∧ JCStatus c = "True" ∧ (JCType c = "Failed" ∨ JCType c = "Complete").
Proof.
  unfold SetFromJob. rewrite job_cond_step_spec. unfold IsDone; cbn.
  rewrite !orb_false_r, orb_true_iff, !existsb_True_exists.
  setoid_rewrite andb_true_iff. setoid_rewrite bool_decide_eq_true. naive_solver.
Qed.
