(* ===== verification/GoTime.v ===== *)
(** * Calendar time

    The part of Go's [time] package the operator computes with: instants with a
    zone, calendar dates of the proleptic Gregorian calendar, day arithmetic,
    and the ["2006-01-02"] layout that names a meter report. *)

From S2P Require Import Prelude.
Local Open Scope Z_scope.

(** ** Instants *)

(** A [time.Time]: nanoseconds since the Unix epoch, and the offset of its
    location from UTC in seconds. *)
Record GoTime := mkTime { nsec : Z; zone : Z }.

Definition second : Z := 1000000000.
Definition hour_ns : Z := 3600 * second.
Definition day_ns : Z := 86400 * second.

Definition UTC (t : GoTime) : GoTime := mkTime (nsec t) 0.
Definition Add (t : GoTime) (d : Z) : GoTime := mkTime (nsec t + d) (zone t).
Definition Before (a b : GoTime) : bool := nsec a <? nsec b.
Definition After (a b : GoTime) : bool := nsec b <? nsec a.

(** The number of the calendar day the instant falls on, in its own zone. *)
Definition day_of (t : GoTime) : Z := (nsec t + zone t * second) / day_ns.

(** Midnight UTC of a day number. *)
Definition midnight (d : Z) : GoTime := mkTime (d * day_ns) 0.

(** [t.AddDate(0, 0, n)] in UTC: [time.Date] normalises the day field, which
    moves the instant by [n] whole days. *)
Definition AddDays (t : GoTime) (n : Z) : GoTime := mkTime (nsec t + n * day_ns) (zone t).

(** ** Calendar dates *)

Definition leap (y : Z) : bool :=
  (y mod 4 =? 0) && (negb (y mod 100 =? 0) || (y mod 400 =? 0)).

Definition daysIn (m y : Z) : Z :=
  if (m =? 2) then (if leap y then 29 else 28)
  else if (m =? 4) || (m =? 6) || (m =? 9) || (m =? 11) then 30 else 31.

(** Day of a 400-year era (starting on 1 March of year 0) to year of era, month
    and day. *)
Definition civil_of_doe (doe : Z) : Z * Z * Z :=
  let yoe := (doe - doe / 1460 + doe / 36524 - doe / 146096) / 365 in
  let doy := doe - (365 * yoe + yoe / 4 - yoe / 100) in
  let mp := (5 * doy + 2) / 153 in
  let d := doy - (153 * mp + 2) / 5 + 1 in
  let m := if mp <? 10 then mp + 3 else mp - 9 in
  (yoe, m, d).

Definition civil_from_days (z : Z) : Z * Z * Z :=
  let z' := z + 719468 in
  let era := z' / 146097 in
  let '(yoe, m, d) := civil_of_doe (z' mod 146097) in
  (yoe + era * 400 + (if m <=? 2 then 1 else 0), m, d).

Definition doe_of_civil (yoe m d : Z) : Z :=
  let doy := (153 * (if m >? 2 then m - 3 else m + 9) + 2) / 5 + d - 1 in
  yoe * 365 + yoe / 4 - yoe / 100 + doy.

Definition days_from_civil (y m d : Z) : Z :=
  let y' := if m <=? 2 then y - 1 else y in
  y' / 400 * 146097 + doe_of_civil (y' mod 400) m d - 719468.

Definition valid_date (y m d : Z) : bool :=
  (1 <=? m) && (m <=? 12) && (1 <=? d) && (d <=? daysIn m y).

(** ** Layouts *)

Definition digit (n : Z) : Ascii.ascii := Ascii.ascii_of_N (Z.to_N (48 + n mod 10)).

Fixpoint digits (w : nat) (n : Z) : string :=
  match w with
  | O => ""
  | S w' => digits w' (n / 10) +:+ String (digit n) ""
  end.

Definition digit_value (a : Ascii.ascii) : option Z :=
  let n := Z.of_N (Ascii.N_of_ascii a) in
  if (48 <=? n) && (n <=? 57) then Some (n - 48) else None.

(** Read exactly [w] digits. *)
Fixpoint read_digits (w : nat) (acc : Z) (s : string) : option (Z * string) :=
  match w with
  | O => Some (acc, s)
  | S w' => match s with
            | EmptyString => None
            | String a s' => v ← digit_value a; read_digits w' (acc * 10 + v) s'
            end
  end.

Definition read_char (c : Ascii.ascii) (s : string) : option string :=
  match s with
  | String a s' => if Ascii.eqb a c then Some s' else None
  | EmptyString => None
  end.

(** [t.Format("2006-01-02")] for years 0 to 9999. *)
Definition format_day (day : Z) : string :=
  let '(y, m, d) := civil_from_days day in
  digits 4 y +:+ "-" +:+ digits 2 m +:+ "-" +:+ digits 2 d.

Definition Format (t : GoTime) : string := format_day (day_of t).

(** Seconds since midnight, and the ["15:04:05"] fields: [t.Clock()]. *)
Definition clock_of (t : GoTime) : Z := ((nsec t + zone t * second) mod day_ns) / second.

(** [t.UTC().Format(time.RFC3339)]. *)
Definition FormatRFC3339 (t : GoTime) : string :=
  let s := clock_of (UTC t) in
  format_day (day_of (UTC t)) +:+ "T" +:+ digits 2 (s / 3600) +:+ ":" +:+
  digits 2 (s / 60 mod 60) +:+ ":" +:+ digits 2 (s mod 60) +:+ "Z".

(** [time.Date(y, m, d, h, mi, s, 0, time.UTC)] for the date [day] and a clock
    reading. *)
Definition DateClock (day clock : Z) : GoTime := mkTime (day * day_ns + clock * second) 0.

(** [time.Parse("2006-01-02", s)]: the midnight it denotes, or an error. *)
Definition ParseDate (s : string) : option GoTime :=
  '(y, s) ← read_digits 4 0 s; s ← read_char dash s;
  '(m, s) ← read_digits 2 0 s; s ← read_char dash s;
  '(d, s) ← read_digits 2 0 s;
  if (bool_decide (s = "") && valid_date y m d)%bool
  then Some (midnight (days_from_civil y m d)) else None.

(** ** Lemmas *)

(** One era, checked exhaustively. *)
Definition era_day_ok (doe : Z) : bool :=
  let '(yoe, m, d) := civil_of_doe doe in
  (0 <=? yoe) && (yoe <? 400) && valid_date (yoe + if m <=? 2 then 1 else 0) m d
  && (doe_of_civil yoe m d =? doe)
  && Bool.eqb (400 <=? yoe + if m <=? 2 then 1 else 0) (146037 <=? doe).

Fixpoint era_check (n : nat) (doe : Z) : bool :=
  match n with
  | O => true
  | S n' => era_day_ok doe && era_check n' (doe + 1)
  end.

Lemma era_check_all : era_check (Z.to_nat 146097) 0 = true.
Proof. vm_compute. reflexivity. Qed.

Lemma era_check_spec n : ∀ a k, era_check n a = true → a ≤ k < a + Z.of_nat n → era_day_ok k = true.
Proof.
  induction n as [|n IH]; intros a k; [lia|].
  cbn [era_check]. intros [Ha Hn]%andb_true_iff Hk.
  destruct (Z.eq_dec k a) as [->|]; [done|]. apply (IH (a + 1)); [done|lia].
Qed.

Lemma era_ok k : 0 ≤ k < 146097 → era_day_ok k = true.
Proof. intros Hk. apply (era_check_spec _ 0 k era_check_all). lia. Qed.

Lemma leap_period y k : leap (y + k * 400) = leap y.
Proof.
  unfold leap.
  replace (k * 400) with (k * 100 * 4) at 1 by lia. rewrite Z_mod_plus_full.
  replace (k * 400) with (k * 4 * 100) at 1 by lia. rewrite Z_mod_plus_full.
  by rewrite Z_mod_plus_full.
Qed.

Lemma valid_date_period y k m d : valid_date (y + k * 400) m d = valid_date y m d.
Proof. unfold valid_date, daysIn. by rewrite leap_period. Qed.

Lemma civil_from_days_valid z :
  let '(y, m, d) := civil_from_days z in
  valid_date y m d = true ∧ days_from_civil y m d = z.
Proof.
  unfold civil_from_days. set (era := (z + 719468) / 146097).
  set (doe := (z + 719468) mod 146097).
  assert (Hdoe : 0 ≤ doe < 146097) by (apply Z.mod_pos_bound; lia).
  pose proof (era_ok doe Hdoe) as Hok. unfold era_day_ok in Hok.
  destruct (civil_of_doe doe) as [[yoe m] d].
  rewrite !andb_true_iff, Z.leb_le, Z.ltb_lt, Z.eqb_eq in Hok.
  destruct Hok as [[[[H0 H1] Hv] Hd] _]. split.
  - replace (yoe + era * 400 + _) with (yoe + (if m <=? 2 then 1 else 0) + era * 400) by lia.
    by rewrite valid_date_period.
  - unfold days_from_civil.
    replace (if m <=? 2 then _ else _) with (yoe + era * 400) by (destruct (m <=? 2); lia).
    rewrite Z.div_add, Z.div_small, Z_mod_plus_full, Z.mod_small by lia. rewrite Hd.
    unfold era, doe. pose proof (Z.div_mod (z + 719468) 146097). lia.
Qed.

Lemma day_of_midnight d : day_of (midnight d) = d.
Proof.
  unfold day_of, midnight; cbn. rewrite Z.add_0_r. apply Z.div_mul.
  unfold day_ns, second. lia.
Qed.

Lemma midnight_lt a b : (nsec (midnight a) <? nsec (midnight b)) = (a <? b).
Proof.
  cbn. unfold day_ns, second.
  destruct (Z.ltb_spec a b); [rewrite Z.ltb_lt; lia|rewrite Z.ltb_ge; lia].
Qed.

Lemma AddDays_midnight d n : AddDays (midnight d) n = midnight (d + n).
Proof. unfold AddDays, midnight; cbn. f_equal. lia. Qed.

#[export] Hint Rewrite day_of_midnight midnight_lt AddDays_midnight : rhm.

Lemma digit_value_digit n : digit_value (digit n) = Some (n mod 10).
Proof.
  unfold digit_value, digit. pose proof (Z.mod_pos_bound n 10 ltac:(lia)).
  rewrite Ascii.N_ascii_embedding by lia. rewrite Z2N.id by lia.
  destruct (Z.leb_spec 48 (48 + n mod 10)); [|lia].
  destruct (Z.leb_spec (48 + n mod 10) 57); [cbn; f_equal; lia|lia].
Qed.

Lemma read_digits_app w1 w2 acc s t v :
  read_digits w1 acc s = Some (v, t) → read_digits (w1 + w2) acc s = read_digits w2 v t.
Proof.
  revert acc s. induction w1 as [|w1 IH]; intros acc s; cbn; [by intros [= -> ->]|].
  destruct s as [|a s]; [done|]. destruct (digit_value a); cbn; [apply IH|done].
Qed.

Lemma read_digits_digits w : ∀ n acc s, 0 ≤ n < 10 ^ Z.of_nat w →
  read_digits w acc (digits w n +:+ s) = Some (acc * 10 ^ Z.of_nat w + n, s).
Proof.
  induction w as [|w IH]; intros n acc s Hn.
  - cbn [read_digits digits]. rewrite string_nil_app. do 2 f_equal. cbn in *. lia.
  - cbn [digits]. rewrite string_app_assoc.
    assert (Hp : 10 ^ Z.of_nat (S w) = 10 * 10 ^ Z.of_nat w)
      by (rewrite Nat2Z.inj_succ, Z.pow_succ_r; lia).
    rewrite Hp in *. replace (S w) with (w + 1)%nat by lia.
    erewrite read_digits_app; [|apply IH].
    2:{ split; [apply Z.div_pos; lia|]. apply Z.div_lt_upper_bound; lia. }
    rewrite string_cons_app. cbn [read_digits]. rewrite digit_value_digit.
    cbn [mbind option_bind]. do 2 f_equal.
    pose proof (Z.div_mod n 10 ltac:(lia)). lia.
Qed.

Lemma daysIn_le m y : daysIn m y ≤ 31.
Proof.
  unfold daysIn. destruct (m =? 2); [destruct (leap y); lia|].
  case_match; lia.
Qed.

Lemma civil_bounds day :
  1 ≤ (civil_from_days day).1.2 ≤ 12 ∧ 1 ≤ (civil_from_days day).2 ≤ 31.
Proof.
  pose proof (civil_from_days_valid day) as Hc.
  destruct (civil_from_days day) as [[y m] d]. destruct Hc as [Hv _]. cbn.
  unfold valid_date in Hv. rewrite !andb_true_iff, !Z.leb_le in Hv.
  pose proof (daysIn_le m y). lia.
Qed.

Lemma read_dash s : read_char dash ("-" +:+ s) = Some s.
Proof. reflexivity. Qed.

(** The layout and its parser are inverse on the calendar days of the years 0
    to 9999. *)
Lemma ParseDate_format_day (day : Z) :
  0 ≤ (civil_from_days day).1.1 ≤ 9999 → ParseDate (format_day day) = Some (midnight day).
Proof.
  unfold format_day, ParseDate.
  pose proof (civil_from_days_valid day) as Hc. pose proof (civil_bounds day) as Hb.
  destruct (civil_from_days day) as [[y m] d]; cbn [fst snd] in *.
  destruct Hc as [Hv Hd]. intros Hy.
  rewrite read_digits_digits by (cbn; lia). cbn [mbind option_bind].
  rewrite read_dash. cbn [mbind option_bind].
  rewrite read_digits_digits by (cbn; lia). cbn [mbind option_bind].
  rewrite read_dash. cbn [mbind option_bind].
  rewrite <- (string_app_nil (digits 2 d)).
  rewrite read_digits_digits by (cbn; lia). cbn [mbind option_bind].
  rewrite !Z.mul_0_l, !Z.add_0_l, Hv, Hd. done.
Qed.

(** The days of the years 0 to 9999. *)
Lemma year_range day :
  -719528 ≤ day ≤ 2932896 → 0 ≤ (civil_from_days day).1.1 ≤ 9999.
Proof.
  intros Hday. unfold civil_from_days.
  set (era := (day + 719468) / 146097). set (doe := (day + 719468) mod 146097).
  assert (Hdoe : 0 ≤ doe < 146097) by (apply Z.mod_pos_bound; lia).
  pose proof (Z.div_mod (day + 719468) 146097 ltac:(lia)) as Hdm. fold era doe in Hdm.
  pose proof (era_ok doe Hdoe) as Hok. unfold era_day_ok in Hok.
  destruct (civil_of_doe doe) as [[yoe m] d]. cbn [fst snd].
  rewrite !andb_true_iff, Z.leb_le, Z.ltb_lt in Hok.
  destruct Hok as [[[[H0 H1] _] _] Hy]. apply Bool.eqb_prop in Hy.
  destruct (m <=? 2), (Z.leb_spec 146037 doe); rewrite ?Z.leb_le, ?Z.leb_gt in Hy; nia.
Qed.

Lemma format_day_inj a b :
  -719528 ≤ a ≤ 2932896 → -719528 ≤ b ≤ 2932896 → format_day a = format_day b → a = b.
Proof.
  intros Ha%year_range Hb%year_range Hab.
  pose proof (ParseDate_format_day a Ha) as H1. pose proof (ParseDate_format_day b Hb) as H2.
  rewrite Hab, H2 in H1. injection H1. unfold day_ns, second. lia.
Qed.
