(* ===== verification/Strconv.v ===== *)
(** * Decimal numbers

    [strconv.Itoa], [strconv.Atoi] and [strconv.ParseUint(s, 10, 64)], which page
    tokens, file identifiers and attempt counters go through. *)

From Stdlib Require Import DecimalString DecimalZ DecimalN.
From S2P Require Import Prelude.
Local Open Scope go_scope.

(** [strconv.Itoa], and [%d]. *)
Definition Itoa (z : Z) : string := NilZero.string_of_int (Z.to_int z).

Definition in_range (lo hi : Z) (o : option Z) : option Z :=
  z ← o; if bool_decide (lo ≤ z ∧ z ≤ hi)%Z then Some z else None.

Definition plus : Ascii.ascii := Ascii.ascii_of_nat 43.

(** An optional sign and at least one digit, within 64 bits. *)
Definition Atoi (s : string) : option Z :=
  in_range min_int64 max_int64
    (match s with
     | String c r =>
         if c == plus then (λ u, Z.of_uint u) <$> NilZero.uint_of_string r
         else (λ i, Z.of_int i) <$> NilZero.int_of_string s
     | EmptyString => None
     end).

(** Digits only. *)
Definition max_uint64 : Z := 2 ^ 64 - 1.
Definition ParseUint (s : string) : option Z :=
  in_range 0 max_uint64 ((λ u, Z.of_uint u) <$> NilZero.uint_of_string s).

Lemma in_range_Some lo hi z : (lo ≤ z ≤ hi)%Z → in_range lo hi (Some z) = Some z.
Proof. intros H. unfold in_range; cbn. by rewrite bool_decide_true. Qed.

Lemma to_int_not_nil z : Z.to_int z ≠ Decimal.Pos Decimal.Nil ∧ Z.to_int z ≠ Decimal.Neg Decimal.Nil.
Proof.
  destruct z as [|p|p]; cbn; (split; [|done]) || split; try done; intros [= H];
    by apply DecimalPos.Unsigned.to_uint_nonnil in H.
Qed.

(** A decimal number of any size. *)
Definition dec_of_string (s : string) : option Z := (λ i, Z.of_int i) <$> NilZero.int_of_string s.

Lemma dec_of_Itoa z : dec_of_string (Itoa z) = Some z.
Proof.
  destruct (to_int_not_nil z) as [H1 H2]. unfold dec_of_string, Itoa.
  rewrite NilZero.isi by done. cbn. by rewrite DecimalZ.of_to.
Qed.

Lemma Itoa_no_plus z s : Itoa z ≠ String plus s.
Proof.
  unfold Itoa. destruct (Z.to_int z) as [u|u]; [|discriminate].
  destruct u; cbn; discriminate.
Qed.

Lemma Atoi_Itoa z : (min_int64 ≤ z ≤ max_int64)%Z → Atoi (Itoa z) = Some z.
Proof.
  intros Hz. unfold Atoi. pose proof (dec_of_Itoa z) as Hp. unfold dec_of_string in Hp.
  pose proof (Itoa_no_plus z) as Hs.
  destruct (Itoa z) as [|a s]; [done|].
  rewrite bool_decide_false by (intros ->; by destruct (Hs s)).
  rewrite Hp. by apply in_range_Some.
Qed.

Lemma ParseUint_Itoa z : (0 ≤ z ≤ max_uint64)%Z → ParseUint (Itoa z) = Some z.
Proof.
  intros Hz. unfold ParseUint.
  assert (Hp : (λ u, Z.of_uint u) <$> NilZero.uint_of_string (Itoa z) = Some z).
  { unfold Itoa. destruct (to_int_not_nil z) as [H1 _].
    pose proof (DecimalZ.of_to z) as Hz'.
    destruct (Z.to_int z) as [u|u] eqn:Hu.
    - cbn. rewrite NilZero.usu by congruence. cbn. f_equal. exact Hz'.
    - destruct z as [|p|p]; cbn in Hu; try done. lia. }
  rewrite Hp. by apply in_range_Some.
Qed.
