(* ===== verification/PromLabels.v ===== *)
(** * Labels of a metered value

    The model of [v2/api/marketplace/common/prometheus.go] and
    [prometheus_templater.go]: the labels a meter definition attaches to every
    sample, the templates some of them carry, the interval and the value of a
    templated sample, and the input of the hash that identifies it in a report.
    The template engine (text/template with the sprig functions), xxhash and the
    RFC 3339 reader are arguments. *)

From S2P Require Import Prelude Strconv GoTime Workloads.
Local Open Scope go_scope.

(** ** Data *)

Definition WorkloadTypePod : string := "Pod".
Definition WorkloadTypeService : string := "Service".
Definition WorkloadTypePVC : string := "PersistentVolumeClaim".

Definition MetricTypeBillable : string := "billable".
Definition MetricTypeLicense : string := "license".
Definition MetricTypeAdoption : string := "adoption".
Definition MetricTypeEmpty : string := "".
Definition MetricTypeInfrastructure : string := "infrastructure".

(** [time.Hour], in nanoseconds. *)
Definition Hour : Z := hour_ns.

Module PL.
Record MeterDefPrometheusLabels := mk {
  UID : string;
  MeterDefName : string;
  MeterDefNamespace : string;
  ExportedMeterDefNamespace : string;
  WorkloadName : string;
  WorkloadType : string;
  MeterGroup : string;
  MeterKind : string;
  Metric : string;
  MetricAggregation : string;
  MetricPeriod : option Z;
  MetricQuery : string;
  MetricWithout : list string;
  MetricGroupBy : list string;
  MetricType : string;
  ResourceName : string;
  ResourceNamespace : string;
  Label : string;
  Unit : string;
  DisplayName : string;
  MeterDescription : string;
  ValueLabelOverride : string;
  DateLabelOverride : string
}.
End PL.

Notation MeterDefPrometheusLabels := PL.MeterDefPrometheusLabels.

#[export] Instance PL_eq_dec : EqDecision MeterDefPrometheusLabels.
Proof. solve_decision. Defined.

(** The fields tagged [template:""], in the order of the struct. *)
Inductive TField :=
| FWorkloadName | FMeterGroup | FMeterKind | FMetric | FLabel | FUnit
| FDisplayName | FMeterDescription | FValueLabelOverride | FDateLabelOverride.

#[export] Instance TField_eq_dec : EqDecision TField.
Proof. solve_decision. Defined.

Definition template_fields : list TField :=
  [FWorkloadName; FMeterGroup; FMeterKind; FMetric; FLabel; FUnit;
   FDisplayName; FMeterDescription; FValueLabelOverride; FDateLabelOverride].

(** [reflect.Value.FieldByName(f)] and its [SetString]. *)
Definition get_field (m : MeterDefPrometheusLabels) (f : TField) : string :=
  match f with
  | FWorkloadName => PL.WorkloadName m
  | FMeterGroup => PL.MeterGroup m
  | FMeterKind => PL.MeterKind m
  | FMetric => PL.Metric m
  | FLabel => PL.Label m
  | FUnit => PL.Unit m
  | FDisplayName => PL.DisplayName m
  | FMeterDescription => PL.MeterDescription m
  | FValueLabelOverride => PL.ValueLabelOverride m
  | FDateLabelOverride => PL.DateLabelOverride m
  end.

Definition pick (f g : TField) (new old : string) : string :=
  if decide (f = g) then new else old.

Definition set_field (f : TField) (s : string) (m : MeterDefPrometheusLabels)
    : MeterDefPrometheusLabels :=
  match m with
  | PL.mk uid n ns ens wn wt g k me ag pe q wo gb ty rn rns l u dn de vo dt =>
      PL.mk uid n ns ens (pick f FWorkloadName s wn) wt (pick f FMeterGroup s g)
        (pick f FMeterKind s k) (pick f FMetric s me) ag pe q wo gb ty rn rns
        (pick f FLabel s l) (pick f FUnit s u) (pick f FDisplayName s dn)
        (pick f FMeterDescription s de) (pick f FValueLabelOverride s vo)
        (pick f FDateLabelOverride s dt)
  end.

(** Every other field. *)
Definition untemplated (m : MeterDefPrometheusLabels) :=
  (PL.UID m, PL.MeterDefName m, PL.MeterDefNamespace m, PL.ExportedMeterDefNamespace m,
   PL.WorkloadType m, PL.MetricAggregation m, PL.MetricPeriod m, PL.MetricQuery m,
   PL.MetricWithout m, PL.MetricGroupBy m, PL.MetricType m, PL.ResourceName m,
   PL.ResourceNamespace m).

Definition set_resource (name ns : string) (m : MeterDefPrometheusLabels)
    : MeterDefPrometheusLabels :=
  match m with
  | PL.mk uid n ns' ens wn wt g k me ag pe q wo gb ty _ _ l u dn de vo dt =>
      PL.mk uid n ns' ens wn wt g k me ag pe q wo gb ty name ns l u dn de vo dt
  end.

(** ** Defaults and accessors *)

Definition Defaults (m : MeterDefPrometheusLabels) : MeterDefPrometheusLabels :=
  match m with
  | PL.mk uid n ns ens wn wt g k me ag pe q wo gb ty rn rns l u dn de vo dt =>
      PL.mk uid n ns ens wn wt g k me
        (if ag == "" then "sum" else ag)
        (match pe with None => Some Hour | Some d => Some d end)
        q wo gb ty rn rns l u dn de vo dt
  end.

Definition LabelsNamespace (m : MeterDefPrometheusLabels) : string :=
  if string_nonempty (PL.ExportedMeterDefNamespace m)
  then PL.ExportedMeterDefNamespace m else PL.MeterDefNamespace m.

(** ** Conversion to and from a label set *)

Section labels.
(** What the standard library writes and reads: [Duration.String] and
    [ParseDuration], the JSON of a list of strings, and the text of a
    [strconv.Quote] read as JSON, which fails on the escapes JSON does not have.
    A nil array is the empty text and an empty one is [[]]: [empty_array] is the
    text of the one at hand. *)
Variable DurationString : Z → string.
Variable ParseDuration : string → option Z.
Variable marshal_strings : list string → string.
Variable unmarshal_strings : string → option (list string).
Variable quote_json : string → result string string.
Variable empty_array : string.

(** A field of the struct, and one tagged [omitempty]: a text, or another value that
    is left out. *)
Definition put (key value : string) (l : gmap string string) : gmap string string :=
  <[key := value]> l.
Definition put_nonempty (key value : string) (l : gmap string string) : gmap string string :=
  if value == "" then l else <[key := value]> l.

Definition put_option (key : string) (value : option string) (l : gmap string string)
    : gmap string string := match value with Some v => <[key := v]> l | None => l end.

Definition MarshalText (a : list string) : string :=
  match a with [] => empty_array | _ => marshal_strings a end.

Definition UnmarshalText (str : string) : result string (list string) :=
  if str == "" then Ok []
  else match unmarshal_strings str with Some j => Ok j | None => Err "invalid array" end.

Definition ToLabels (m : MeterDefPrometheusLabels) : result string (gmap string string) :=
  workload_type ← quote_json (PL.WorkloadType m);
  metric_type ← (if PL.MetricType m == "" then Ok "" else quote_json (PL.MetricType m));
  Ok (put "meter_definition_uid" (PL.UID m)
     (put "name" (PL.MeterDefName m)
     (put "namespace" (PL.MeterDefNamespace m)
     (put_nonempty "exported_namespace" (PL.ExportedMeterDefNamespace m)
     (put "workload_name" (PL.WorkloadName m)
     (put "workload_type" workload_type
     (put "meter_group" (PL.MeterGroup m)
     (put "meter_kind" (PL.MeterKind m)
     (put "metric_label" (PL.Metric m)
     (put_nonempty "metric_aggregation" (PL.MetricAggregation m)
     (put_option "metric_period" (DurationString <$> PL.MetricPeriod m)
     (put "metric_query" (PL.MetricQuery m)
     (put "metric_without" (MarshalText (PL.MetricWithout m))
     (put_option "metric_group_by"
        (match PL.MetricGroupBy m with [] => None | a => Some (MarshalText a) end)
     (put_nonempty "metric_type" metric_type
     (put_nonempty "resource_name" (PL.ResourceName m)
     (put_nonempty "resource_namespace" (PL.ResourceNamespace m)
     (put_nonempty "label" (PL.Label m)
     (put_nonempty "unit" (PL.Unit m)
     (put_nonempty "display_name" (PL.DisplayName m)
     (put_nonempty "meter_description" (PL.MeterDescription m)
     (put_nonempty "value_label_override" (PL.ValueLabelOverride m)
     (put_nonempty "date_label_override" (PL.DateLabelOverride m) ∅))))))))))))))))))))))).

(** The struct read from a label set of valid texts: a label that is missing
    leaves its field, one that is no field is ignored. The readers of a workload
    type and of a metric type undo the quotes of any JSON string. *)
Definition FromLabels (labels : gmap string string) : result string MeterDefPrometheusLabels :=
  let text key := default "" (labels !! key) in
  period ← match labels !! "metric_period" with
           | None => Ok None
           | Some val => match ParseDuration val with
                         | Some d => Ok (Some d) | None => Err "invalid duration" end
           end;
  without ← match labels !! "metric_without" with None => Ok [] | Some a => UnmarshalText a end;
  group_by ← match labels !! "metric_group_by" with None => Ok [] | Some a => UnmarshalText a end;
  Ok (Defaults (PL.mk (text "meter_definition_uid") (text "name") (text "namespace")
    (text "exported_namespace") (text "workload_name") (text "workload_type")
    (text "meter_group") (text "meter_kind") (text "metric_label") (text "metric_aggregation")
    period (text "metric_query") without group_by (text "metric_type")
    (text "resource_name") (text "resource_namespace") (text "label") (text "unit")
    (text "display_name") (text "meter_description") (text "value_label_override")
    (text "date_label_override"))).
End labels.

(** ** Templates *)

(** A value of a [map[string]interface{}] of labels: a string, or a value of
    another type, on which [v.(string)] panics. *)
Inductive LabelValue := LStr (s : string) | LOther (s : string).

#[export] Instance LabelValue_eq_dec : EqDecision LabelValue.
Proof. solve_decision. Defined.

Notation LabelSet := (gmap string LabelValue).

Definition as_string (v : LabelValue) : outcome string :=
  match v with LStr s => Ret s | LOther _ => Panic end.

(** [model.SamplePair]: milliseconds since the epoch, and the value's text. *)
Record SamplePair := mkSample { Timestamp : Z; SValue : string }.

Definition millisecond : Z := 1000000.
Definition sample_time (ts : Z) : GoTime := mkTime (ts * millisecond) 0.
(** [model.Time.Add]: the duration in whole milliseconds. *)
Definition sample_add (ts d : Z) : Z := ts + Z.quot d millisecond.

(** An [interface{}] of [K8sResources]: a serialised object, or anything else. *)
Inductive K8sResource := KBytes (b : list Byte.byte) | KOther.

(** [MeterDefPrometheusLabelsTemplated]. *)
Record Templated := mkTemplated {
  TLabels : MeterDefPrometheusLabels;
  IntervalStart : GoTime;
  IntervalEnd : GoTime;
  Value : string;
  LabelMap : LabelSet;
  NamespaceLabels : gmap string (gmap string string);
  K8sResources : list K8sResource;
  thash : string
}.

Section templates.
Context {Tpl : Type}.
(** [template.New(name).Funcs(sprig).Parse(str)] and [tpl.Execute]. *)
Variable parse : string → result string Tpl.
Variable execute : Tpl → LabelSet → result string string.
Variable ParseRFC3339 : string → option GoTime.

(** The parsed template of every template field. *)
Definition NewTemplate (m : MeterDefPrometheusLabels) : result string (list (TField * Tpl)) :=
  mapM_result (λ f, t ← parse (get_field m f); Ok (f, t)) template_fields.

(** [templFieldMap] is ranged over in any order: [tpls] lists it in the order
    of this run. *)
Definition Execute (tpls : list (TField * Tpl)) (m : MeterDefPrometheusLabels)
    (values : LabelSet) : result string MeterDefPrometheusLabels :=
  foldM_result (λ m '(f, t), s ← execute t values; Ok (set_field f s m)) m tpls.

Definition resource_key (workloadType : string) : option string :=
  if workloadType == WorkloadTypePVC then Some "persistentvolumeclaim"
  else if workloadType == WorkloadTypePod then Some "pod"
  else if workloadType == WorkloadTypeService then Some "service"
  else None.

(** [objName, ok = values.Label[key]; if ok { objName.(string) }], the old
    field otherwise. *)
Definition label_or (values : LabelSet) (key : option string) (old : string) : outcome string :=
  match key ≫= (values !!.) with
  | Some v => as_string v
  | None => Ret old
  end.

Definition override_date (s : string) : option GoTime :=
  match ParseRFC3339 s with
  | Some t => Some t
  | None => ParseDate s
  end.

(** The interval of a sample, after the template ran: [overridden] is the
    untemplated field's test. *)
Definition interval (overridden : bool) (date : string) (ts period : Z)
    : result string (GoTime * GoTime) :=
  let intervalStart := UTC (sample_time ts) in
  let intervalEnd := UTC (sample_time (sample_add ts period)) in
  if overridden then
    match override_date date with
    | None => Err "failed to parse overrideDate value"
    | Some t =>
        let intervalStart := DateClock (day_of t) (clock_of intervalStart) in
        Ok (intervalStart, Add intervalStart period)
    end
  else Ok (intervalStart, intervalEnd).

(** [order] is the order the template map is ranged over. *)
Definition PrintTemplate (order : list (TField * Tpl) → list (TField * Tpl))
    (m : MeterDefPrometheusLabels) (values : LabelSet) (pair : SamplePair)
    : outcome (result string Templated) :=
  match NewTemplate m with
  | Err e => Ret (Err e)
  | Ok tpl =>
      match Execute (order tpl) m values with
      | Err e => Ret (Err e)
      | Ok localM =>
          rns ← label_or values (Some "namespace") (PL.ResourceNamespace localM);
          rn ← label_or values (resource_key (PL.WorkloadType m)) (PL.ResourceName localM);
          let r := set_resource rn rns localM in
          let r := if PL.Label r == "" then set_field FLabel (PL.Metric r) r else r in
          let value := if PL.ValueLabelOverride r != "" then PL.ValueLabelOverride r
                       else SValue pair in
          match PL.MetricPeriod r with
          | None => Panic
          | Some period =>
              Ret ('(s, e) ← interval (PL.DateLabelOverride m != "")
                               (PL.DateLabelOverride r) (Timestamp pair) period;
                   Ok (mkTemplated r s e value values ∅ [] ""))
          end
      end
  end.
End templates.

(** The bytes written to the hash, in order. *)
Definition hash_input (m : Templated) : string :=
  FormatRFC3339 (IntervalStart m) +:+ FormatRFC3339 (IntervalEnd m) +:+
  PL.MeterGroup (TLabels m) +:+ PL.MeterKind (TLabels m) +:+ PL.Metric (TLabels m) +:+
  PL.ResourceNamespace (TLabels m) +:+ PL.ResourceName (TLabels m) +:+ PL.Unit (TLabels m).

Definition with_hash (m : Templated) (h : string) : Templated :=
  mkTemplated (TLabels m) (IntervalStart m) (IntervalEnd m) (Value m) (LabelMap m)
    (NamespaceLabels m) (K8sResources m) h.

(** [Hash()], with the field it caches its result in. *)
Definition Hash (xxhash : string → string) (m : Templated) : Templated * string :=
  let m := if thash m == "" then with_hash m (xxhash (hash_input m)) else m in
  (m, thash m).

(** ** Lemmas *)

Lemma get_set f g s m : get_field (set_field f s m) g = pick f g s (get_field m g).
Proof. destruct m, g; reflexivity. Qed.

Lemma untemplated_set f s m : untemplated (set_field f s m) = untemplated m.
Proof. destruct m; reflexivity. Qed.

Lemma labels_ext m1 m2 :
  untemplated m1 = untemplated m2 → (∀ f, get_field m1 f = get_field m2 f) → m1 = m2.
Proof.
  intros Hu Hf. destruct m1, m2. unfold untemplated in Hu; cbn in Hu.
  pose proof (Hf FWorkloadName); pose proof (Hf FMeterGroup); pose proof (Hf FMeterKind).
  pose proof (Hf FMetric); pose proof (Hf FLabel); pose proof (Hf FUnit).
  pose proof (Hf FDisplayName); pose proof (Hf FMeterDescription).
  pose proof (Hf FValueLabelOverride); pose proof (Hf FDateLabelOverride).
  cbn in *. by simplify_eq.
Qed.

Lemma pick_eq f s o : pick f f s o = s.
Proof. unfold pick. by rewrite decide_True. Qed.

Lemma pick_ne f g s o : f ≠ g → pick f g s o = o.
Proof. intros H. unfold pick. by rewrite decide_False. Qed.

#[export] Hint Rewrite get_set untemplated_set pick_eq : rhm.

Section execute.
Context {Tpl : Type} (execute : Tpl → LabelSet → result string string).

(** What a successful run of the templates leaves in the labels. *)
Lemma Execute_fields tpls m values m' :
  NoDup (fst <$> tpls) → Execute execute tpls m values = Ok m' →
  untemplated m' = untemplated m ∧
  (∀ f t, (f, t) ∈ tpls → execute t values = Ok (get_field m' f)) ∧
  (∀ f, f ∉ fst <$> tpls → get_field m' f = get_field m f).
Proof.
  revert m; induction tpls as [|[f t] tpls IH]; intros m Hnd; cbn.
  - intros [= <-]. split_and!; [done| |done]. by intros ?? ?%elem_of_nil.
  - rewrite fmap_cons in Hnd; cbn in Hnd. apply NoDup_cons in Hnd as [Hf Hnd].
    destruct (execute t values) as [s|] eqn:Ht; cbn; [|done]. intros Hrun.
    destruct (IH _ Hnd Hrun) as (Hu & Hin & Hout). split_and!.
    + by rewrite Hu; autorewrite with rhm.
    + intros g t' [[= -> ->]|Hg]%elem_of_cons; [|by apply Hin].
      rewrite Ht, (Hout _ Hf). by autorewrite with rhm.
    + intros g [Hgf Hg]%not_elem_of_cons. rewrite (Hout _ Hg). autorewrite with rhm.
      by apply pick_ne.
Qed.

Lemma Execute_ok tpls m values :
  is_ok (Execute execute tpls m values) = forallb (λ p, is_ok (execute p.2 values)) tpls.
Proof.
  revert m; induction tpls as [|[f t] tpls IH]; intros m; cbn; [done|].
  destruct (execute t values); cbn; [apply IH|done].
Qed.
End execute.

Lemma clock_of_range t : (0 ≤ clock_of t < 86400)%Z.
Proof.
  unfold clock_of, day_ns, second.
  pose proof (Z.mod_pos_bound (nsec t + zone t * 1000000000) (86400 * 1000000000) ltac:(lia)).
  split; [apply Z.div_pos; lia|apply Z.div_lt_upper_bound; lia].
Qed.

Lemma DateClock_fields d c :
  (0 ≤ c < 86400)%Z → day_of (DateClock d c) = d ∧ clock_of (DateClock d c) = c.
Proof.
  intros Hc. unfold day_of, clock_of, DateClock; cbn [nsec zone]. rewrite !Z.mul_0_l, !Z.add_0_r.
  unfold day_ns, second in *. split.
  - rewrite Z.div_add_l by lia. rewrite Z.div_small; lia.
  - rewrite Z.add_comm, Z.mod_add, Z.mod_small by lia. apply Z.div_mul. lia.
Qed.

(** Labels that were read have a period. *)
Lemma FromLabels_period ParseDuration unmarshal labels m :
  FromLabels ParseDuration unmarshal labels = Ok m → is_Some (PL.MetricPeriod m).
Proof.
  unfold FromLabels. intros (period & _ & H)%bind_Ok. apply bind_Ok in H as (w & _ & H).
  apply bind_Ok in H as (g & _ & [= <-]). cbn. destruct period; by eexists.
Qed.


#[local] Arguments put : simpl never.
#[local] Arguments put_nonempty : simpl never.
#[local] Arguments put_option : simpl never.
#[local] Arguments MarshalText : simpl never.

Lemma put_nonempty_eq key v l : default "" (put_nonempty key v l !! key) = v ∨ is_Some (l !! key).
Proof.
  unfold put_nonempty. destruct (decide (v = "")) as [->|Hv].
  - rewrite bool_decide_true by done. destruct (l !! key); [by right; eexists|by left].
  - rewrite bool_decide_false by done. left. by rewrite lookup_insert_eq.
Qed.

Lemma put_nonempty_ne k key v l : k ≠ key → put_nonempty key v l !! k = l !! k.
Proof. intros H. unfold put_nonempty. destruct (v == ""); [done|]. by apply lookup_insert_ne. Qed.

Lemma put_nonempty_fresh key v l :
  l !! key = None → default "" (put_nonempty key v l !! key) = v.
Proof.
  intros H. destruct (put_nonempty_eq key v l) as [?|[x Hx]]; [done|]. by rewrite H in Hx.
Qed.

Lemma put_eq key v l : put key v l !! key = Some v.
Proof. apply lookup_insert_eq. Qed.

Lemma put_ne k key v l : k ≠ key → put key v l !! k = l !! k.
Proof. intros. by apply lookup_insert_ne. Qed.

Lemma put_option_ne k key v l : k ≠ key → put_option key v l !! k = l !! k.
Proof. intros H. destruct v; [|done]. by apply lookup_insert_ne. Qed.

Lemma put_option_fresh key v l : l !! key = None → put_option key v l !! key = v.
Proof. intros H. destruct v; [|done]. apply lookup_insert_eq. Qed.

(** Reading a key of a chain of [put]s. *)
Ltac read_put :=
  repeat first [ rewrite put_ne by done | rewrite put_nonempty_ne by done
               | rewrite put_option_ne by done ];
  first [ rewrite put_eq; done | apply put_nonempty_fresh; read_put | apply put_option_fresh; read_put
        | apply lookup_empty ].

(** ** Properties *)

(** The labels a meter definition is published with read back as the same
    labels, with the default period and aggregation filled in: nothing is lost or
    changed on the way through the metric, whichever fields are left empty. The
    conversion to labels fails only where a type cannot be quoted. *)
Theorem FromLabels_ToLabels (DurationString : Z → string) (ParseDuration : string → option Z)
    (marshal_strings : list string → string) (unmarshal_strings : string → option (list string))
    (quote_json : string → result string string) (empty_array : string)
    (m : MeterDefPrometheusLabels) :
  (∀ d, PL.MetricPeriod m = Some d → ParseDuration (DurationString d) = Some d) →
  (∀ a, marshal_strings a ≠ "" ∧ unmarshal_strings (marshal_strings a) = Some a) →
  (∀ s s', quote_json s = Ok s' → s' = s) →
  UnmarshalText unmarshal_strings empty_array = Ok [] →
  match ToLabels DurationString marshal_strings quote_json empty_array m with
  | Ok labels => FromLabels ParseDuration unmarshal_strings labels = Ok (Defaults m)
  | Err e => quote_json (PL.WorkloadType m) = Err e ∨ quote_json (PL.MetricType m) = Err e
  end.
Proof.
  intros Hd Ha Hq He. destruct m as [uid n ns ens wn wt g k me ag pe q wo gb ty rn rns la u dn de vo dt].
  unfold ToLabels; cbn [PL.WorkloadType PL.MetricType].
  destruct (quote_json wt) as [wt'|e] eqn:Hw; cbn [mbind result_mbind]; [|by left].
  apply Hq in Hw as ->.
  destruct (if ty == "" then Ok "" else quote_json ty) as [ty'|e] eqn:Ht.
  2: { destruct (ty == ""); [done|by right]. }
  assert (ty' = ty) as ->.
  { revert Ht. destruct (decide (ty = "")) as [->|Hn].
    - rewrite bool_decide_true by done. by intros [= <-].
    - rewrite bool_decide_false by done. apply Hq. }
  assert (Htext : ∀ a, UnmarshalText unmarshal_strings (MarshalText marshal_strings empty_array a) = Ok a).
  { intros [|x a]; [exact He|]. unfold MarshalText, UnmarshalText.
    destruct (Ha (x :: a)) as [Hne ->]. by rewrite bool_decide_false. }
  cbn [mbind result_mbind]. unfold FromLabels.
  match goal with |- context [put "meter_definition_uid" ?v ?l] =>
    set (L := put "meter_definition_uid" v l) end.
  assert (Hp : L !! "metric_period" = DurationString <$> pe) by (subst L; cbn; read_put).
  assert (Hwo : L !! "metric_without" = Some (MarshalText marshal_strings empty_array wo))
    by (subst L; cbn; read_put).
  assert (Hgb : L !! "metric_group_by" =
      match gb with [] => None | _ => Some (MarshalText marshal_strings empty_array gb) end)
    by (subst L; cbn; destruct gb; read_put).
  assert (Hf : Forall (λ p, default "" (L !! p.1) = p.2)
    [("meter_definition_uid", uid); ("name", n); ("namespace", ns); ("exported_namespace", ens);
     ("workload_name", wn); ("workload_type", wt); ("meter_group", g); ("meter_kind", k);
     ("metric_label", me); ("metric_aggregation", ag); ("metric_query", q); ("metric_type", ty);
     ("resource_name", rn); ("resource_namespace", rns); ("label", la); ("unit", u);
     ("display_name", dn); ("meter_description", de); ("value_label_override", vo);
     ("date_label_override", dt)]).
  { subst L; cbn. repeat (apply Forall_cons; split; [cbn [fst snd]; read_put|]). by apply Forall_nil. }
  clearbody L. rewrite Hp, Hwo, Hgb.
  repeat (apply Forall_cons in Hf as [Hr Hf]; cbn [fst snd] in Hr; rewrite ?Hr; clear Hr).
  assert (Hgb' : match match gb with [] => None | _ => Some (MarshalText marshal_strings empty_array gb) end
    with None => Ok [] | Some a => UnmarshalText unmarshal_strings a end = Ok gb)
    by (destruct gb; [done|apply Htext]).
  rewrite Hgb', Htext. destruct pe as [d|]; cbn; [by rewrite (Hd d)|done].
Qed.

Definition labels_pod : MeterDefPrometheusLabels :=
  PL.mk "u" "mdef" "ns" "" "w" "Pod" "g.com" "App" "{pods}" "sum" (Some Hour) "q" [] []
    "license" "" "" "" "" "{name}" "" "" "{date}".

(** Encodings for the witness: a duration is its number, a list of texts the number
    that codes it. *)
Definition toy_marshal (a : list string) : string := Itoa (Zpos (encode a)).
Definition toy_unmarshal (s : string) : option (list string) :=
  match dec_of_string s with Some (Zpos p) => decode p | _ => None end.

Lemma toy_marshal_ok a : toy_marshal a ≠ "" ∧ toy_unmarshal (toy_marshal a) = Some a.
Proof.
  assert (H : toy_unmarshal (toy_marshal a) = Some a)
    by (unfold toy_unmarshal, toy_marshal; rewrite dec_of_Itoa; apply decode_encode).
  split; [|done]. intros Hn. by rewrite Hn in H.
Qed.

Lemma FromLabels_ToLabels_witness :
  ∃ labels, ToLabels Itoa toy_marshal Ok "" labels_pod = Ok labels ∧
    FromLabels dec_of_string toy_unmarshal labels = Ok labels_pod.
Proof.
  pose proof (FromLabels_ToLabels Itoa dec_of_string toy_marshal toy_unmarshal Ok "" labels_pod
    ltac:(intros; apply dec_of_Itoa) toy_marshal_ok ltac:(by intros ?? [= ->]) eq_refl) as H.
  destruct (ToLabels _ _ _ _ labels_pod) as [l|e]; [by exists l|by destruct H].
Defined.

(** [templFieldMap] is a Go map and is ranged over in a different order on
    each run; since every template writes its own field and reads none, the
    labels a successful run produces do not depend on that order, and a run
    succeeds in one order exactly when it succeeds in any other. *)
Theorem Execute_order_irrelevant {Tpl} (execute : Tpl → LabelSet → result string string)
    (tpls1 tpls2 : list (TField * Tpl)) (m : MeterDefPrometheusLabels) (values : LabelSet) :
  NoDup (fst <$> tpls1) → tpls1 ≡ₚ tpls2 →
  result_ok (Execute execute tpls1 m values) = result_ok (Execute execute tpls2 m values).
Proof.
  intros Hnd Hp.
  assert (Hnd2 : NoDup (fst <$> tpls2)) by (by rewrite <- Hp).
  pose proof (Execute_ok execute tpls1 m values) as H1.
  pose proof (Execute_ok execute tpls2 m values) as H2.
  assert (Hb : forallb (λ p, is_ok (execute p.2 values)) tpls1 =
               forallb (λ p, is_ok (execute p.2 values)) tpls2).
  { apply eq_true_iff_eq. rewrite !forallb_True_forall. by setoid_rewrite Hp. }
  rewrite Hb, <- H2 in H1. clear H2 Hb.
  destruct (Execute execute tpls1 m values) as [m1|] eqn:E1,
    (Execute execute tpls2 m values) as [m2|] eqn:E2; cbn in *; try done.
  f_equal. destruct (Execute_fields _ _ _ _ _ Hnd E1) as (Hu1 & Hin1 & Hout1).
  destruct (Execute_fields _ _ _ _ _ Hnd2 E2) as (Hu2 & Hin2 & Hout2).
  apply labels_ext; [by rewrite Hu1, Hu2|]. intros f.
  destruct (decide (f ∈ fst <$> tpls1)) as [Hf|Hf].
  - apply list_elem_of_fmap in Hf as ([f' t] & -> & Hf). cbn.
    pose proof (Hin1 _ _ Hf). rewrite Hp in Hf. pose proof (Hin2 _ _ Hf). congruence.
  - rewrite (Hout1 _ Hf). rewrite Hp in Hf. by rewrite (Hout2 _ Hf).
Qed.

Definition label_values : LabelSet :=
  {[ "pod" := LStr "pod-1"; "namespace" := LStr "ns-2"; "date" := LStr "2021-02-03" ]}.

(** A template engine for the witnesses: a text in braces is replaced by the
    label it names. *)
Definition toy_parse (s : string) : result string string := Ok s.
Definition toy_execute (t : string) (values : LabelSet) : result string string :=
  if t == "{date}" then
    match values !! "date" with Some (LStr s) => Ok s | _ => Err "no date" end
  else Ok t.

Definition toy_templates : list (TField * string) :=
  match NewTemplate toy_parse labels_pod with Ok l => l | Err _ => [] end.

Lemma Execute_order_irrelevant_witness :
  result_ok (Execute toy_execute toy_templates labels_pod label_values) =
  result_ok (Execute toy_execute (reverse toy_templates) labels_pod label_values) ∧
  is_ok (Execute toy_execute toy_templates labels_pod label_values) = true.
Proof.
  split; [|vm_compute; reflexivity].
  apply (Execute_order_irrelevant toy_execute toy_templates (reverse toy_templates)).
  - apply (bool_decide_unpack _). vm_compute. exact I.
  - symmetry. apply reverse_Permutation.
Defined.

(** A sample's interval. Without a date override it runs from the sample's
    timestamp over the metric's period (cut to whole milliseconds); with one it
    starts on the date the label gives, at the second of the day the sample was
    taken, and lasts exactly the period. A text that is neither an RFC 3339 time
    nor a date is an error. *)
Theorem interval_spec (ParseRFC3339 : string → option GoTime) (overridden : bool)
    (date : string) (ts period : Z) :
  match interval ParseRFC3339 overridden date ts period with
  | Ok (s, e) =>
      zone s = 0%Z ∧
      if overridden then
        ∃ t, override_date ParseRFC3339 date = Some t ∧
             day_of s = day_of t ∧ clock_of s = clock_of (sample_time ts) ∧
             nsec e = (nsec s + period)%Z
      else nsec s = (ts * millisecond)%Z ∧
           nsec e = (nsec s + Z.quot period millisecond * millisecond)%Z
  | Err _ => overridden = true ∧ ParseRFC3339 date = None ∧ ParseDate date = None
  end.
Proof.
  unfold interval, override_date. destruct overridden.
  - destruct (ParseRFC3339 date) as [t|] eqn:E1; [|destruct (ParseDate date) as [t|] eqn:E2];
      [| |done]; split; [done| |done|]; exists t; split_and!; try done;
      apply DateClock_fields, clock_of_range.
  - repeat split. cbn. unfold sample_add. lia.
Qed.

(** The hash that identifies a sample in a report is computed from the
    concatenation of its fields with no separator, so two samples of different
    groups and kinds can have the same identity, whatever the hash function. *)
Theorem Hash_collides (xxhash : string → string) :
  ∃ m1 m2 : Templated,
    PL.MeterGroup (TLabels m1) ≠ PL.MeterGroup (TLabels m2) ∧
    PL.MeterKind (TLabels m1) ≠ PL.MeterKind (TLabels m2) ∧
    thash m1 = "" ∧ thash m2 = "" ∧ (Hash xxhash m1).2 = (Hash xxhash m2).2.
Proof.
  set (m g k := mkTemplated
    (PL.mk "u" "n" "ns" "" "w" "Pod" g k "m" "sum" None "q" [] [] "" "p" "ns" "" "" "" "" "" "")
    (midnight 0) (midnight 1) "1" ∅ ∅ [] "").
  exists (m "app.io" "Kind"), (m "app.ioK" "ind"). repeat split; by vm_compute.
Qed.
