(* ===== verification/PromQuery.v ===== *)
(** * The usage query

    The model of [v2/pkg/prometheus/query.go]: the defaults of a query, its
    arguments (with the state [GetQueryArgs] leaves behind in the query), and
    the classification of the errors of the metrics API. *)

From S2P Require Import Prelude GoTime Workloads PromLabels.
Local Open Scope go_scope.

(** ** Data *)

Record PromQuery := mkPromQuery {
  QType : string;
  QMeterDef : NamespacedName;
  QMetric : string;
  QQuery : string;
  QStart : GoTime;
  QEnd : GoTime;
  QStep : Z;
  QAggregateFunc : string;
  LabelReplacePrefix : string;
  LabelReplaceSuffix : string;
  QMetricType : string;
  QGroupBy : list string;
  QWithout : list string;
  defaultWithout : list string;
  defaultGroupBy : list string
}.

Definition with_defaults (q : PromQuery) (dw dg : list string) (pre suf : string) : PromQuery :=
  mkPromQuery (QType q) (QMeterDef q) (QMetric q) (QQuery q) (QStart q) (QEnd q) (QStep q)
    (QAggregateFunc q) pre suf (QMetricType q) (QGroupBy q) (QWithout q) dw dg.

Definition with_without (q : PromQuery) (dw w : list string) : PromQuery :=
  mkPromQuery (QType q) (QMeterDef q) (QMetric q) (QQuery q) (QStart q) (QEnd q) (QStep q)
    (QAggregateFunc q) (LabelReplacePrefix q) (LabelReplaceSuffix q) (QMetricType q)
    (QGroupBy q) w dw (defaultGroupBy q).

Record ResultQueryArgs := mkArgs {
  AMeterName : string; AQuery : string; AAggregateFunc : string;
  ALabelReplacePrefix : string; ALabelReplaceSuffix : string;
  AQueryFilters : list string; AGroupBy : list string; AWithout : list string;
  ADefaultWithout : list string; ADefaultGroupBy : list string
}.

(** ** Defaults *)

(** [keys] is the Go map of the entries seen so far. *)
Fixpoint dedupe_loop (keys : gset string) (l : list string) : list string :=
  match l with
  | [] => []
  | entry :: l' =>
      if bool_decide (entry ∈ keys) then dedupe_loop keys l'
      else entry :: dedupe_loop ({[entry]} ∪ keys) l'
  end.

Definition dedupeStringSlice (l : list string) : list string := dedupe_loop ∅ l.

Definition alwaysWithout : list string :=
  ["instance"; "container"; "endpoint"; "job"; "cluster_ip"; "exported_namespace";
   "prometheus"; "priority_class"].

Definition setDefaultWithout (type : string) : outcome (list string) :=
  w ← (if type == WorkloadTypePVC then
         Ret ["instance"; "container"; "endpoint"; "job"; "service"; "pod"; "pod_uid";
              "pod_ip"; "exported_persistentvolumeclaim"]
       else if type == WorkloadTypePod then
         Ret ["pod_uid"; "pod_ip"; "instance"; "image_id"; "host_ip"; "node"; "container";
              "job"; "service"; "exported_pod"]
       else if type == WorkloadTypeService then
         Ret ["pod_uid"; "instance"; "container"; "endpoint"; "job"; "pod"; "exported_service"]
       else Panic);
  Ret (dedupeStringSlice (w ++ alwaysWithout)).

Definition setDefaultGroupBy (type : string) : outcome (list string) :=
  g ← (if type == WorkloadTypePVC then Ret ["persistentvolumeclaim"; "namespace"]
       else if type == WorkloadTypePod then Ret ["pod"; "namespace"]
       else if type == WorkloadTypeService then Ret ["service"; "namespace"]
       else Panic);
  Ret (dedupeStringSlice g).

Definition setDefaultLabelReplacePrefix : string := "label_replace(label_replace(".

(** A double quote. *)
Definition quote : string := String (Ascii.ascii_of_nat 34) "".
Definition quoted (s : string) : string := quote +:+ s +:+ quote.

Definition replace_suffix (label : string) : string :=
  "," +:+ quoted "namespace" +:+ "," +:+ quoted "$1" +:+ "," +:+ quoted "exported_namespace"
  +:+ "," +:+ quoted "(.+)" +:+ ")," +:+ quoted label +:+ "," +:+ quoted "$1" +:+ ","
  +:+ quoted ("exported_" +:+ label) +:+ "," +:+ quoted "(.+)" +:+ ")".

Definition setDefaultLabelReplaceSuffix (type : string) : outcome string :=
  if type == WorkloadTypePVC then Ret (replace_suffix "persistentvolumeclaim")
  else if type == WorkloadTypePod then Ret (replace_suffix "pod")
  else if type == WorkloadTypeService then Ret (replace_suffix "service")
  else Panic.

Definition defaulter (q : PromQuery) : outcome PromQuery :=
  dw ← setDefaultWithout (QType q);
  dg ← setDefaultGroupBy (QType q);
  suf ← setDefaultLabelReplaceSuffix (QType q);
  Ret (with_defaults q dw dg setDefaultLabelReplacePrefix suf).

Definition NewPromQuery (args : PromQuery) : outcome PromQuery := defaulter args.

(** [NewPromQueryFromLabels] keeps the metric type, [PromQueryFromLabels] drops
    it. *)
Definition from_labels (metricType : string) (m : MeterDefPrometheusLabels)
    (start end_ : GoTime) : outcome PromQuery :=
  let duration := default Hour (PL.MetricPeriod m) in
  NewPromQuery (mkPromQuery (PL.WorkloadType m)
    (mkNN (LabelsNamespace m) (PL.MeterDefName m))
    (PL.Metric m) (PL.MetricQuery m) start end_ duration (PL.MetricAggregation m) "" ""
    metricType (PL.MetricGroupBy m) (PL.MetricWithout m) [] []).

Definition NewPromQueryFromLabels (m : MeterDefPrometheusLabels) (start end_ : GoTime)
    : outcome PromQuery := from_labels (PL.MetricType m) m start end_.
Definition PromQueryFromLabels (m : MeterDefPrometheusLabels) (start end_ : GoTime)
    : outcome PromQuery := from_labels "" m start end_.

(** ** Arguments *)

Definition makeLabel (key value : string) : string := key +:+ "=" +:+ quoted value.

(** The default groups the query does not group by: the two nested loops. *)
Definition missing_groups (dflt groupBy : list string) : list string :=
  List.filter (λ d, negb (existsb (λ g, d == g) groupBy)) dflt.

(** The query is left with the labels it computed. *)
Definition GetQueryArgs (q : PromQuery) : outcome (ResultQueryArgs * PromQuery) :=
  let queryFilters := [makeLabel "meter_def_name" (NNName (QMeterDef q));
                       makeLabel "meter_def_namespace" (NNNamespace (QMeterDef q))] in
  '(meterName, queryFilters) ←
    (if QType q == WorkloadTypePVC then
       Ret ("meterdef_persistentvolumeclaim_info", queryFilters ++ [makeLabel "phase" "Bound"])
     else if QType q == WorkloadTypePod then Ret ("meterdef_pod_info", queryFilters)
     else if QType q == WorkloadTypeService then Ret ("meterdef_service_info", queryFilters)
     else Panic);
  let dw := dedupeStringSlice (defaultWithout q ++ alwaysWithout) in
  let w := if (bool_decide (QWithout q = []) && (0 <? length (QGroupBy q))%nat)
           then missing_groups (defaultGroupBy q) (QGroupBy q) else QWithout q in
  let q := with_without q dw (w ++ alwaysWithout) in
  Ret (mkArgs meterName (QQuery q) (QAggregateFunc q) (LabelReplacePrefix q)
         (LabelReplaceSuffix q) queryFilters (QGroupBy q) (QWithout q)
         (defaultWithout q) (defaultGroupBy q), q).

(** ** Running a query *)

(** An error of the metrics API ([v1.Error]), or any other error. *)
Inductive QueryError :=
| APIError (client : bool) (msg : string)
| OtherError (msg : string).

Inductive QueryFailure :=
| ClientErrorUnauthorized | ClientError | ServerError | Plain.

Fixpoint string_contains (sub s : string) : bool :=
  (String.prefix sub s || match s with
                          | EmptyString => false
                          | String _ s' => string_contains sub s'
                          end)%bool.

Definition ascii_lower (a : Ascii.ascii) : Ascii.ascii :=
  let n := Ascii.N_of_ascii a in
  if ((65 <=? n) && (n <=? 90))%N%bool then Ascii.ascii_of_N (n + 32) else a.

Fixpoint ToLower (s : string) : string :=
  match s with
  | EmptyString => EmptyString
  | String a s' => String (ascii_lower a) (ToLower s')
  end.

Definition toError (e : QueryError) : QueryFailure :=
  match e with
  | APIError true msg =>
      if string_contains "unauthorized" (ToLower msg) then ClientErrorUnauthorized
      else ClientError
  | APIError false _ => ServerError
  | OtherError _ => Plain
  end.

Section run.
Context {Answer : Type}.
(** [template.Execute] on the arguments, and the API's [QueryRange] on a query
    text and the range it is asked for. *)
Variable render : ResultQueryArgs → result string string.
Variable QueryRange : string → GoTime → GoTime → Z →
  result QueryError Answer * list string.

Definition Print (q : PromQuery) : outcome (result string string * PromQuery) :=
  '(args, q) ← GetQueryArgs q; Ret (render args, q).

(** The end of the range is exclusive: one millisecond before [End]. *)
Definition ReportQuery (q : PromQuery)
    : outcome (result QueryFailure Answer * list string * PromQuery) :=
  '(text, q) ← Print q;
  match text with
  | Err _ => Ret (Err Plain, [], q)
  | Ok text =>
      match QueryRange text (QStart q) (Add (QEnd q) (- millisecond)) (QStep q) with
      | (Err e, warnings) => Ret (Err (toError e), warnings, q)
      | (Ok v, warnings) => Ret (Ok v, warnings, q)
      end
  end.

(** The two queries of the reporter besides those of the definitions: the
    definitions that were there, and the labels of namespaces. A range of the text
    is a [Duration.String]. *)
Variable DurationString : Z → string.

Definition meterDefinitionQuery (step : Z) : string :=
  "max_over_time(((max without (container, endpoint, instance, job, meter_definition_uid, pod, service) (meterdef_metric_label_info{})) or on() vector(0))["
  +:+ DurationString step +:+ ":" +:+ DurationString step +:+ "])".

Definition QueryMeterDefinitions (start end_ : GoTime) (step : Z)
    : result QueryFailure Answer * list string :=
  match QueryRange (meterDefinitionQuery step) start end_ step with
  | (Err e, warnings) => (Err (toError e), warnings)
  | (Ok v, warnings) => (Ok v, warnings)
  end.

Definition QueryNamespaceLabels (start end_ : GoTime) (step : Z) (namespaces : list string)
    : result QueryFailure Answer * list string :=
  let q := "kube_namespace_labels{namespace=~" +:+ quoted (Join namespaces "|") +:+ "}" in
  match QueryRange q start end_ step with
  | (Err e, warnings) => (Err (toError e), warnings)
  | (Ok v, warnings) => (Ok v, warnings)
  end.
End run.

(** ** Lemmas *)

Definition supported (type : string) : Prop :=
  type ∈ [WorkloadTypePVC; WorkloadTypePod; WorkloadTypeService].

Lemma elem_of_dedupe_loop keys l x : x ∈ dedupe_loop keys l ↔ x ∈ l ∧ x ∉ keys.
Proof.
  revert keys; induction l as [|y l IH]; intros keys; cbn [dedupe_loop]; [set_solver|].
  case_bool_decide as Hy; [rewrite IH; set_solver|].
  rewrite !elem_of_cons, IH. destruct (decide (x = y)); set_solver.
Qed.

Lemma NoDup_dedupe_loop keys l : NoDup (dedupe_loop keys l).
Proof.
  revert keys; induction l as [|y l IH]; intros keys; cbn [dedupe_loop]; [constructor|].
  case_bool_decide; [done|]. constructor; [|done]. rewrite elem_of_dedupe_loop. set_solver.
Qed.

Lemma elem_of_dedupe l x : x ∈ dedupeStringSlice l ↔ x ∈ l.
Proof. unfold dedupeStringSlice. rewrite elem_of_dedupe_loop. set_solver. Qed.

Lemma dedupe_loop_app_seen keys l1 l2 :
  (∀ x, x ∈ l2 → x ∈ keys ∨ x ∈ l1) → dedupe_loop keys (l1 ++ l2) = dedupe_loop keys l1.
Proof.
  revert keys; induction l1 as [|y l1 IH]; intros keys Hseen; cbn [dedupe_loop app].
  - induction l2 as [|z l2 IH2]; cbn [dedupe_loop]; [done|].
    rewrite bool_decide_true by set_solver. apply IH2. set_solver.
  - case_bool_decide; [apply IH; set_solver|]. f_equal. apply IH. set_solver.
Qed.

Lemma dedupe_loop_id keys l : NoDup l → (∀ x, x ∈ l → x ∉ keys) → dedupe_loop keys l = l.
Proof.
  revert keys; induction l as [|y l IH]; intros keys Hnd Hk; cbn [dedupe_loop]; [done|].
  apply NoDup_cons in Hnd as [Hy Hnd].
  rewrite bool_decide_false by set_solver. f_equal. apply IH; set_solver.
Qed.

Lemma dedupe_again l w : w ⊆ l →
  dedupeStringSlice (dedupeStringSlice l ++ w) = dedupeStringSlice l.
Proof.
  intros Hw. unfold dedupeStringSlice at 1.
  rewrite dedupe_loop_app_seen by (intros x Hx; right; rewrite elem_of_dedupe; set_solver).
  apply dedupe_loop_id; [apply NoDup_dedupe_loop|set_solver].
Qed.

Lemma elem_of_missing dflt groupBy x :
  x ∈ missing_groups dflt groupBy ↔ x ∈ dflt ∧ x ∉ groupBy.
Proof.
  unfold missing_groups. rewrite list_elem_of_In, List.filter_In, <- list_elem_of_In.
  rewrite negb_true_iff, <- not_true_iff_false, existsb_True_exists.
  setoid_rewrite bool_decide_eq_true. naive_solver.
Qed.

(** Case on the workload type of a query whose arguments were built. *)
Ltac destruct_meter H :=
  lazymatch type of H with
  | (mbind _ ?m) = _ => destruct m as [[meterName filters]|] eqn:Hm; cbn [mbind outcome_mbind] in H; [|done]
  end; injection H as <- <-.

(** ** Properties *)

(** Deduplication keeps exactly the labels of the list, each once, and
    keeps a list that has no duplicate as it is. *)
Theorem dedupeStringSlice_spec (l : list string) :
  NoDup (dedupeStringSlice l) ∧ (∀ x, x ∈ dedupeStringSlice l ↔ x ∈ l) ∧
  (NoDup l → dedupeStringSlice l = l).
Proof.
  split_and!; [apply NoDup_dedupe_loop|apply elem_of_dedupe|].
  intros Hl. apply dedupe_loop_id; [done|set_solver].
Qed.

(** Building a query from labels panics exactly when the workload type is
    not one of the three supported ones; otherwise its default labels are
    duplicate-free, always leave out the scrape labels and never leave out a
    label the query groups by default. *)
Theorem NewPromQuery_defaults (args : PromQuery) :
  match NewPromQuery args with
  | Panic => ¬ supported (QType args)
  | Ret q =>
      supported (QType args) ∧ NoDup (defaultWithout q) ∧
      alwaysWithout ⊆ defaultWithout q ∧ NoDup (defaultGroupBy q) ∧
      "namespace" ∈ defaultGroupBy q ∧ Forall (λ l, l ∉ defaultWithout q) (defaultGroupBy q)
  end.
Proof.
  unfold NewPromQuery, defaulter, setDefaultWithout, setDefaultGroupBy,
    setDefaultLabelReplaceSuffix, supported.
  destruct (bool_decide_reflect (QType args = WorkloadTypePVC)) as [->|?];
    [|destruct (bool_decide_reflect (QType args = WorkloadTypePod)) as [->|?];
      [|destruct (bool_decide_reflect (QType args = WorkloadTypeService)) as [->|?]]].
  4: { cbn. set_solver. }
  all: split_and!; apply (bool_decide_unpack _); vm_compute; exact I.
Qed.

(** [GetQueryArgs] changes the query it is called on, and a query is printed
    again on every retry. A second call asks for the same meter, filters,
    groups and default labels, and leaves out the same set of labels: only
    repetitions are added to the list. *)
Theorem GetQueryArgs_again (q q' : PromQuery) (a : ResultQueryArgs) :
  GetQueryArgs q = Ret (a, q') →
  ∃ a' q'', GetQueryArgs q' = Ret (a', q'') ∧
    AMeterName a' = AMeterName a ∧ AQuery a' = AQuery a ∧ AQueryFilters a' = AQueryFilters a ∧
    AGroupBy a' = AGroupBy a ∧ ADefaultGroupBy a' = ADefaultGroupBy a ∧
    ADefaultWithout a' = ADefaultWithout a ∧
    AWithout a' = AWithout a ++ alwaysWithout ∧
    (∀ l, l ∈ AWithout a' ↔ l ∈ AWithout a).
Proof.
  unfold GetQueryArgs at 1. intros H.
  destruct_meter H.
  unfold GetQueryArgs. cbn [QType with_without QMeterDef]. rewrite Hm. cbn [mbind outcome_mbind].
  cbn [QWithout with_without defaultWithout defaultGroupBy QGroupBy].
  rewrite (bool_decide_false (_ ++ alwaysWithout = []))
    by (intros Hn; apply app_eq_nil in Hn as [_ Hn]; discriminate).
  cbn [andb].
  eexists _, _; split; [done|]; split_and!; cbn; try done.
  - apply dedupe_again. set_solver.
  - intros l. unfold alwaysWithout. set_solver.
Qed.

Definition pod_query : PromQuery :=
  mkPromQuery "Pod" (mkNN "ns" "mdef") "m" "q" (midnight 0) (midnight 1) Hour "sum" "" "" ""
    ["pod"] [] ["node"] ["pod"; "namespace"].

Lemma GetQueryArgs_again_witness :
  ∃ a q', GetQueryArgs pod_query = Ret (a, q') ∧
  ∃ a' q'', GetQueryArgs q' = Ret (a', q'') ∧
    AMeterName a' = AMeterName a ∧ AQuery a' = AQuery a ∧ AQueryFilters a' = AQueryFilters a ∧
    AGroupBy a' = AGroupBy a ∧ ADefaultGroupBy a' = ADefaultGroupBy a ∧
    ADefaultWithout a' = ADefaultWithout a ∧
    AWithout a' = AWithout a ++ alwaysWithout ∧
    (∀ l, l ∈ AWithout a' ↔ l ∈ AWithout a).
Proof.
  eexists _, _; split; [reflexivity|].
  apply (GetQueryArgs_again pod_query). reflexivity.
Defined.

(** When only groups are configured, every default group that is not among
    them is left out of the result, and no configured group is, unless it is one
    of the labels that are always left out. *)
Theorem GetQueryArgs_groups (q q' : PromQuery) (a : ResultQueryArgs) :
  QWithout q = [] → QGroupBy q ≠ [] → GetQueryArgs q = Ret (a, q') →
  (∀ l, l ∈ defaultGroupBy q → l ∈ AGroupBy a ∨ l ∈ AWithout a) ∧
  (∀ l, l ∈ AGroupBy a → l ∈ AWithout a → l ∈ alwaysWithout).
Proof.
  unfold GetQueryArgs. intros Hw Hg H.
  destruct_meter H. cbn [AGroupBy AWithout QWithout QGroupBy with_without].
  rewrite Hw, bool_decide_true by done.
  rewrite (proj2 (Nat.ltb_lt 0 _)) by (destruct (QGroupBy q); cbn; [done|lia]).
  cbn [andb]. split; intros l; rewrite elem_of_app, elem_of_missing;
    destruct (decide (l ∈ QGroupBy q)); tauto.
Qed.

Lemma GetQueryArgs_groups_witness :
  ∃ a q', GetQueryArgs pod_query = Ret (a, q') ∧
  (∀ l, l ∈ defaultGroupBy pod_query → l ∈ AGroupBy a ∨ l ∈ AWithout a) ∧
  (∀ l, l ∈ AGroupBy a → l ∈ AWithout a → l ∈ alwaysWithout).
Proof.
  eexists _, _; split; [reflexivity|].
  by eapply (GetQueryArgs_groups pod_query); [reflexivity|discriminate|reflexivity].
Defined.
