(* ===== verification/MeterDefinition.v ===== *)
(** * Meter definitions

    The model of [v2/api/marketplace/v1alpha1/meterdefinition_types.go],
    [v1beta1/meterdefinition_types.go] and of the conversion between the two
    versions ([v1alpha1/meterdefinition_conversion.go]). Label selectors are a
    Kubernetes type the code only passes on. *)

From S2P Require Import Prelude GoTime Conditions Workloads PromLabels.
Local Open Scope go_scope.

(** ** Status *)

Record ResultValues := mkResultValues {
  RTimestamp : Z; RValue : string; RLabels : gmap string string
}.

(** A result of a query of the definition. *)
Record QResult := mkQResult {
  MetricName : string; RQuery : string; Values : list ResultValues
}.

Record MeterDefinitionStatus := mkMeterDefinitionStatus {
  MDConditions : Conditions;
  WorkloadResources : list WorkloadResource;
  Results : list QResult
}.

Definition WorkloadVertexOperatorGroup : string := "OperatorGroup".
Definition WorkloadVertexNamespace : string := "Namespace".

Module V1Alpha1.
Definition WorkloadTypePod : string := "Pod".
Definition WorkloadTypeService : string := "Service".
Definition WorkloadTypeServiceMonitor : string := "ServiceMonitor".
Definition WorkloadTypePVC : string := "PersistentVolumeClaim".

Record MeterLabelQuery := mkMeterLabelQuery {
  Label : string; Query : string; Aggregation : string
}.

Record Workload {LabelSelector : Type} := mkWorkload {
  WName : string;
  WorkloadType : string;
  OwnerCRD : option GroupVersionKind;
  LabelSelector_ : option LabelSelector;
  AnnotationSelector : option LabelSelector;
  MetricLabels : list MeterLabelQuery
}.
Arguments Workload : clear implicits.

Record MeterDefinitionSpec {LabelSelector : Type} := mkSpec {
  Group : string;
  SKind : string;
  InstalledBy : option NamespacedNameReference;
  WorkloadVertexType : string;
  VertexLabelSelector : option LabelSelector;
  Workloads : list (Workload LabelSelector);
  Version : option string;
  ServiceMeterLabels : list string;
  PodMeterLabels : list string
}.
Arguments MeterDefinitionSpec : clear implicits.

Record MeterDefinition {LabelSelector : Type} := mkMeterDefinition {
  Meta : ObjectMeta;
  Spec : MeterDefinitionSpec LabelSelector;
  Status : MeterDefinitionStatus
}.
Arguments MeterDefinition : clear implicits.

(** One label map per metric label of every workload. *)
Definition ToPrometheusLabels {LS} (meterdef : MeterDefinition LS)
    : list (gmap string string) :=
  w ← Workloads (Spec meterdef);
  metricLabel ← MetricLabels w;
  [ {[ "meter_definition_uid" := UID (Meta meterdef);
       "workload_vertex_type" := WorkloadVertexType (Spec meterdef);
       "workload_name" := WName w;
       "workload_type" := WorkloadType w;
       "metric_label" := Label metricLabel;
       "metric_aggregation" := Aggregation metricLabel;
       "metric_query" := Query metricLabel;
       "meter_group" := Group (Spec meterdef);
       "meter_kind" := SKind (Spec meterdef);
       "metric_period" := "1h" ]} ].

(** A definition with no field set, the target of a conversion. *)
Definition zero {LS} (meta : ObjectMeta) : MeterDefinition LS :=
  mkMeterDefinition _ meta (mkSpec _ "" "" None "" None [] None [] [])
    (mkMeterDefinitionStatus [] [] []).
End V1Alpha1.

Module V1Beta1.
Record NamespaceFilter {LabelSelector : Type} := mkNamespaceFilter {
  UseOperatorGroup : bool;
  NFSelector : option LabelSelector
}.
Arguments NamespaceFilter : clear implicits.

(** [OwnerCRDFilter], [LabelFilter] and [AnnotationFilter] are structs of one
    field: a label or annotation filter may hold a nil selector. *)
Record ResourceFilter {LabelSelector : Type} := mkResourceFilter {
  FNamespace : option (NamespaceFilter LabelSelector);
  FOwnerCRD : option GroupVersionKind;
  FLabel : option (option LabelSelector);
  FAnnotation : option (option LabelSelector);
  FWorkloadType : string
}.
Arguments ResourceFilter : clear implicits.

Record MeterWorkload := mkMeterWorkload {
  Metric : string;
  MWName : string;
  Description : string;
  MWorkloadType : string;
  MetricType : string;
  GroupBy : list string;
  Without : list string;
  Aggregation : string;
  Period : option Z;
  Query : string;
  Label : string;
  Unit : string;
  DateLabelOverride : string;
  ValueLabelOverride : string
}.

Record MeterDefinitionSpec {LabelSelector : Type} := mkSpec {
  Group : string;
  SKind : string;
  ResourceFilters : list (ResourceFilter LabelSelector);
  Meters : list MeterWorkload;
  InstalledBy : option NamespacedNameReference
}.
Arguments MeterDefinitionSpec : clear implicits.

Record MeterDefinition {LabelSelector : Type} := mkMeterDefinition {
  Meta : ObjectMeta;
  Spec : MeterDefinitionSpec LabelSelector;
  Status : MeterDefinitionStatus
}.
Arguments MeterDefinition : clear implicits.

Record MeterDefinitionReference {LabelSelector : Type} := mkReference {
  RName : string;
  RNamespace : string;
  RUID : string;
  RResourceVersion : string;
  RSpec : option (MeterDefinitionSpec LabelSelector)
}.
Arguments MeterDefinitionReference : clear implicits.

Section ops.
Context {LS : Type}.

Definition meter_labels (spec : MeterDefinitionSpec LS) (uid name namespace : string)
    (meter : MeterWorkload) : MeterDefPrometheusLabels :=
  {| PL.UID := uid;
     PL.MeterDefName := name;
     PL.MeterDefNamespace := namespace;
     PL.ExportedMeterDefNamespace := "";
     PL.WorkloadName := Metric meter;
     PL.WorkloadType := MWorkloadType meter;
     PL.MeterGroup := Group spec;
     PL.MeterKind := SKind spec;
     PL.Metric := Metric meter;
     PL.MetricAggregation := Aggregation meter;
     PL.MetricPeriod := Period meter;
     PL.MetricQuery := Query meter;
     PL.MetricWithout := Without meter;
     PL.MetricGroupBy := GroupBy meter;
     PL.MetricType := MetricType meter;
     PL.ResourceName := "";
     PL.ResourceNamespace := "";
     PL.Label := Label meter;
     PL.Unit := Unit meter;
     PL.DisplayName := MWName meter;
     PL.MeterDescription := Description meter;
     PL.ValueLabelOverride := ValueLabelOverride meter;
     PL.DateLabelOverride := DateLabelOverride meter |}.

Definition SpecToPrometheusLabels (spec : MeterDefinitionSpec LS) (uid name namespace : string)
    : list MeterDefPrometheusLabels :=
  meter_labels spec uid name namespace <$> Meters spec.

Definition ToPrometheusLabels (meterdef : MeterDefinition LS)
    : list MeterDefPrometheusLabels :=
  SpecToPrometheusLabels (Spec meterdef) (UID (Meta meterdef))
    (Name (Meta meterdef)) (Namespace (Meta meterdef)).

Definition ReferenceToPrometheusLabels (r : MeterDefinitionReference LS)
    : result string (list MeterDefPrometheusLabels) :=
  match RSpec r with
  | None => Err "meter definition spec cannot be nil"
  | Some spec => Ok (SpecToPrometheusLabels spec (RUID r) (RName r) (RNamespace r))
  end.

(** [annotations[key]] of a Go map: the empty string when absent. *)
Definition IsSigned (meterdef : MeterDefinition LS) : bool :=
  let annotation key := default "" (Annotations (Meta meterdef) !! key) in
  string_nonempty (annotation "marketplace.redhat.com/publickey") &&
  string_nonempty (annotation "marketplace.redhat.com/signature").
End ops.
End V1Beta1.

(** ** Conversion *)

(** The dynamic types [interface{}] arguments of the two type conversions have. *)
Inductive TypeIn := TAlpha (s : string) | TCommon (s : string) | TString (s : string) | TAny.

(** The type and whether it was recognised; unrecognised types give [Pod]. *)
Definition ConvertWorkloadTypeAlpha (typeIn : TypeIn) : string * bool :=
  let conv workloadType :=
    if workloadType == WorkloadTypePod then (V1Alpha1.WorkloadTypePod, true)
    else if workloadType == WorkloadTypePVC then (V1Alpha1.WorkloadTypePVC, true)
    else if workloadType == WorkloadTypeService then (V1Alpha1.WorkloadTypeService, true)
    else (V1Alpha1.WorkloadTypePod, false) in
  match typeIn with
  | TAlpha v => (v, true)
  | TCommon v => conv v
  | TString v => conv v
  | TAny => conv WorkloadTypePod
  end.

Definition ConvertWorkloadTypeBeta (typeIn : TypeIn) : string * bool :=
  let conv workloadType :=
    if workloadType == V1Alpha1.WorkloadTypePod then (WorkloadTypePod, true)
    else if workloadType == V1Alpha1.WorkloadTypePVC then (WorkloadTypePVC, true)
    else if workloadType == V1Alpha1.WorkloadTypeService then (WorkloadTypeService, true)
    else if workloadType == V1Alpha1.WorkloadTypeServiceMonitor then (WorkloadTypeService, true)
    else (WorkloadTypePod, false) in
  match typeIn with
  | TCommon v => (v, true)
  | TAlpha v => conv v
  | TString v => conv v
  | TAny => conv V1Alpha1.WorkloadTypePod
  end.

Section conversion.
Context {LS : Type}.
Implicit Types (w : V1Alpha1.Workload LS).

Definition namespace_filters (spec : V1Alpha1.MeterDefinitionSpec LS)
    : option (V1Beta1.NamespaceFilter LS) :=
  if V1Alpha1.WorkloadVertexType spec == WorkloadVertexOperatorGroup then
    Some (V1Beta1.mkNamespaceFilter _ true None)
  else if V1Alpha1.WorkloadVertexType spec == WorkloadVertexNamespace then
    Some (V1Beta1.mkNamespaceFilter _ false (V1Alpha1.VertexLabelSelector spec))
  else None.

(** The body of the workload loop: one filter, and one meter per metric label. *)
Definition convert_workload (nf : option (V1Beta1.NamespaceFilter LS)) w
    : result string (V1Beta1.ResourceFilter LS * list V1Beta1.MeterWorkload) :=
  match ConvertWorkloadTypeBeta (TAlpha (V1Alpha1.WorkloadType w)) with
  | (_, false) => Err "workload type cannot be generated from workload type"
  | (workloadType, true) =>
      Ok (V1Beta1.mkResourceFilter _ nf (V1Alpha1.OwnerCRD w)
            (Some <$> V1Alpha1.LabelSelector_ w) (Some <$> V1Alpha1.AnnotationSelector w)
            workloadType,
          (λ ml, V1Beta1.mkMeterWorkload (V1Alpha1.Label ml) (V1Alpha1.WName w) ""
                   workloadType "" [] [] (V1Alpha1.Aggregation ml) (Some Hour)
                   (V1Alpha1.Query ml) "" "" "" "") <$> V1Alpha1.MetricLabels w)
  end.

(** [dst]'s type metadata is all it keeps of its own. *)
Definition ConvertTo (src : V1Alpha1.MeterDefinition LS)
    : result string (V1Beta1.MeterDefinition LS) :=
  let spec := V1Alpha1.Spec src in
  converted ← mapM_result (convert_workload (namespace_filters spec)) (V1Alpha1.Workloads spec);
  Ok (V1Beta1.mkMeterDefinition _ (V1Alpha1.Meta src)
        (V1Beta1.mkSpec _ (V1Alpha1.Group spec) (V1Alpha1.SKind spec)
           (fst <$> converted) (mjoin (snd <$> converted)) (V1Alpha1.InstalledBy spec))
        (V1Alpha1.Status src)).

(** [workloadType, _ := ConvertWorkloadTypeAlpha(filter.WorkloadType)]. *)
Definition alpha_type (f : V1Beta1.ResourceFilter LS) : string :=
  (ConvertWorkloadTypeAlpha (TCommon (V1Beta1.FWorkloadType f))).1.

(** The first filter of each type. *)
Definition resource_map (filters : list (V1Beta1.ResourceFilter LS))
    : gmap string (V1Beta1.ResourceFilter LS) :=
  foldl (λ m f,
    match m !! alpha_type f with
    | Some _ => m
    | None => <[alpha_type f := f]> m
    end) ∅ filters.

(** The filter Go reads for a type the map does not have. *)
Definition zero_filter : V1Beta1.ResourceFilter LS :=
  V1Beta1.mkResourceFilter _ None None None None "".

Definition workload_of_meter (m : gmap string (V1Beta1.ResourceFilter LS))
    (meter : V1Beta1.MeterWorkload) : V1Alpha1.Workload LS :=
  let workloadType := (ConvertWorkloadTypeAlpha (TCommon (V1Beta1.MWorkloadType meter))).1 in
  let filter := default zero_filter (m !! workloadType) in
  V1Alpha1.mkWorkload _ (V1Beta1.MWName meter) workloadType
    (V1Beta1.FOwnerCRD filter) (mjoin (V1Beta1.FLabel filter))
    (mjoin (V1Beta1.FAnnotation filter))
    [V1Alpha1.mkMeterLabelQuery (V1Beta1.Metric meter) (V1Beta1.Query meter)
       (V1Beta1.Aggregation meter)].

Definition ConvertFrom (dst : V1Alpha1.MeterDefinition LS)
    (src : V1Beta1.MeterDefinition LS) : result string (V1Alpha1.MeterDefinition LS) :=
  match V1Beta1.ResourceFilters (V1Beta1.Spec src) with
  | [] => Err "failed to convert to v1alpha1"
  | (filter :: _) as filters =>
      let dspec := V1Alpha1.Spec dst in
      let sspec := V1Beta1.Spec src in
      let '(vertex, selector) :=
        match V1Beta1.FNamespace filter with
        | Some nf =>
            if V1Beta1.UseOperatorGroup nf
            then (WorkloadVertexOperatorGroup, V1Alpha1.VertexLabelSelector dspec)
            else (WorkloadVertexNamespace, V1Beta1.NFSelector nf)
        | None => (V1Alpha1.WorkloadVertexType dspec, V1Alpha1.VertexLabelSelector dspec)
        end in
      Ok (V1Alpha1.mkMeterDefinition _ (V1Beta1.Meta src)
            (V1Alpha1.mkSpec _ (V1Beta1.Group sspec) (V1Beta1.SKind sspec)
               (V1Beta1.InstalledBy sspec) vertex selector
               (workload_of_meter (resource_map filters) <$> V1Beta1.Meters sspec)
               (V1Alpha1.Version dspec) (V1Alpha1.ServiceMeterLabels dspec)
               (V1Alpha1.PodMeterLabels dspec))
            (V1Beta1.Status src))
  end.
End conversion.

(** ** Lemmas *)

Definition known_type (t : string) : Prop :=
  t ∈ [WorkloadTypePod; WorkloadTypePVC; WorkloadTypeService].

Lemma known_beta t : known_type t → ConvertWorkloadTypeBeta (TAlpha t) = (t, true).
Proof.
  intros [->|[->|[->|[]%elem_of_nil]%elem_of_cons]%elem_of_cons]%elem_of_cons; reflexivity.
Qed.

Lemma known_alpha t : known_type t → ConvertWorkloadTypeAlpha (TCommon t) = (t, true).
Proof.
  intros [->|[->|[->|[]%elem_of_nil]%elem_of_cons]%elem_of_cons]%elem_of_cons; reflexivity.
Qed.

Lemma mjoin_cons {A} (l : list A) ls : mjoin (l :: ls) = l ++ mjoin ls.
Proof. reflexivity. Qed.

Section lemmas.
Context {LS : Type}.
Implicit Types (w : V1Alpha1.Workload LS) (f : V1Beta1.ResourceFilter LS).

(** The map holds, for each type, a filter of the list of that type. *)
Lemma resource_map_sound filters t f :
  resource_map filters !! t = Some f → f ∈ filters ∧ alpha_type f = t.
Proof.
  unfold resource_map. revert t f.
  apply (foldl_inv (λ m : gmap string (V1Beta1.ResourceFilter LS),
           ∀ t f, m !! t = Some f → f ∈ filters ∧ alpha_type f = t)).
  { intros t f. by rewrite lookup_empty. }
  intros m g Hg IH t f.
  destruct (m !! alpha_type g) eqn:Hm; [apply IH|].
  intros [[<- <-]|[_ Hf]]%lookup_insert_Some; [done|by apply IH].
Qed.

Lemma resource_map_dom_mono (m : gmap string (V1Beta1.ResourceFilter LS)) filters t :
  is_Some (m !! t) → is_Some (foldl (λ m f,
    match m !! alpha_type f with Some _ => m | None => <[alpha_type f := f]> m end) m filters !! t).
Proof.
  revert m; induction filters as [|f filters IH]; intros m Hm; cbn [foldl]; [done|].
  apply IH. destruct (m !! alpha_type f) eqn:E; [done|].
  destruct (decide (alpha_type f = t)) as [<-|Hne]; [by rewrite E in Hm; destruct Hm|].
  by rewrite lookup_insert_ne.
Qed.

Lemma resource_map_complete filters f :
  f ∈ filters → is_Some (resource_map filters !! alpha_type f).
Proof.
  unfold resource_map. generalize (∅ : gmap string (V1Beta1.ResourceFilter LS)) as m.
  intros m Hf; revert m; induction filters as [|g filters IH]; intros m; cbn [foldl];
    [by apply elem_of_nil in Hf|].
  apply elem_of_cons in Hf as [<-|Hf]; [|by apply IH]. apply resource_map_dom_mono.
  destruct (m !! alpha_type f) eqn:E; [by rewrite E|]. by rewrite lookup_insert_eq.
Qed.

Lemma convert_workload_ok nf w :
  is_ok (convert_workload nf w) = (ConvertWorkloadTypeBeta (TAlpha (V1Alpha1.WorkloadType w))).2.
Proof.
  unfold convert_workload.
  by destruct (ConvertWorkloadTypeBeta (TAlpha (V1Alpha1.WorkloadType w))) as [? []].
Qed.
End lemmas.

(** ** Properties *)

Section normal.
Context {LS : Type}.

Definition selectors (w : V1Alpha1.Workload LS) :=
  (V1Alpha1.OwnerCRD w, V1Alpha1.LabelSelector_ w, V1Alpha1.AnnotationSelector w).

(** What a v1alpha1 definition needs to survive the other version: one metric
    label per workload, one filter per workload type, a vertex, and none of
    the fields that were given up. *)
Definition alpha_normal (m : V1Alpha1.MeterDefinition LS) : Prop :=
  let spec := V1Alpha1.Spec m in
  V1Alpha1.Workloads spec ≠ [] ∧
  (∀ w, w ∈ V1Alpha1.Workloads spec →
     known_type (V1Alpha1.WorkloadType w) ∧ length (V1Alpha1.MetricLabels w) = 1) ∧
  (∀ w1 w2, w1 ∈ V1Alpha1.Workloads spec → w2 ∈ V1Alpha1.Workloads spec →
     V1Alpha1.WorkloadType w1 = V1Alpha1.WorkloadType w2 → selectors w1 = selectors w2) ∧
  (V1Alpha1.WorkloadVertexType spec = WorkloadVertexOperatorGroup ∧
     V1Alpha1.VertexLabelSelector spec = None ∨
   V1Alpha1.WorkloadVertexType spec = WorkloadVertexNamespace) ∧
  V1Alpha1.Version spec = None ∧
  V1Alpha1.ServiceMeterLabels spec = [] ∧ V1Alpha1.PodMeterLabels spec = [].

Definition filter_of (spec : V1Alpha1.MeterDefinitionSpec LS) (w : V1Alpha1.Workload LS)
    : V1Beta1.ResourceFilter LS :=
  V1Beta1.mkResourceFilter _ (namespace_filters spec) (V1Alpha1.OwnerCRD w)
    (Some <$> V1Alpha1.LabelSelector_ w) (Some <$> V1Alpha1.AnnotationSelector w)
    (V1Alpha1.WorkloadType w).

Definition meters_of (w : V1Alpha1.Workload LS) : list V1Beta1.MeterWorkload :=
  (λ ml, V1Beta1.mkMeterWorkload (V1Alpha1.Label ml) (V1Alpha1.WName w) ""
           (V1Alpha1.WorkloadType w) "" [] [] (V1Alpha1.Aggregation ml) (Some Hour)
           (V1Alpha1.Query ml) "" "" "" "") <$> V1Alpha1.MetricLabels w.

Lemma convert_workload_known spec w :
  known_type (V1Alpha1.WorkloadType w) →
  convert_workload (namespace_filters spec) w = Ok (filter_of spec w, meters_of w).
Proof. intros H. unfold convert_workload. by rewrite known_beta. Qed.

Lemma join_option (o : option LS) : mjoin (Some <$> o) = o.
Proof. by destruct o. Qed.

Lemma workload_back spec w :
  (∀ w, w ∈ V1Alpha1.Workloads spec →
     known_type (V1Alpha1.WorkloadType w) ∧ length (V1Alpha1.MetricLabels w) = 1) →
  (∀ w1 w2, w1 ∈ V1Alpha1.Workloads spec → w2 ∈ V1Alpha1.Workloads spec →
     V1Alpha1.WorkloadType w1 = V1Alpha1.WorkloadType w2 → selectors w1 = selectors w2) →
  w ∈ V1Alpha1.Workloads spec →
  workload_of_meter (resource_map (filter_of spec <$> V1Alpha1.Workloads spec)) <$> meters_of w
  = [w].
Proof.
  intros Hk Hs Hw. destruct (Hk w Hw) as [Ht Hl].
  set (rm := resource_map _).
  assert (Hrm : ∃ w', w' ∈ V1Alpha1.Workloads spec ∧
            V1Alpha1.WorkloadType w' = V1Alpha1.WorkloadType w ∧
            rm !! V1Alpha1.WorkloadType w = Some (filter_of spec w')).
  { destruct (resource_map_complete (filter_of spec <$> V1Alpha1.Workloads spec)
                (filter_of spec w)) as [f Hf]; [by apply list_elem_of_fmap_2|].
    unfold alpha_type in Hf; cbn [V1Beta1.FWorkloadType filter_of] in Hf.
    rewrite known_alpha in Hf by done.
    apply resource_map_sound in Hf as Hf'.
    destruct Hf' as [(w' & -> & Hw')%list_elem_of_fmap Hty].
    unfold alpha_type in Hty; cbn [V1Beta1.FWorkloadType filter_of] in Hty.
    rewrite known_alpha in Hty by apply Hk, Hw'.
    by exists w'. }
  destruct Hrm as (w' & Hw' & Hty & Hlk). pose proof (Hs _ _ Hw' Hw Hty) as Hsel.
  destruct w as [n t o l a mls]; cbn in *.
  destruct mls as [|[lab q ag] [|]]; try done. unfold meters_of, workload_of_meter.
  cbn [V1Alpha1.MetricLabels fmap list_fmap V1Beta1.MWorkloadType V1Alpha1.WorkloadType].
  rewrite known_alpha by done. cbn [fst]. rewrite Hlk; cbn. rewrite !join_option.
  unfold selectors in Hsel; cbn in Hsel. by simplify_eq.
Qed.

Lemma mjoin_singletons {A B} (f : A → list B) (g : B → A) l :
  (∀ x, x ∈ l → g <$> f x = [x]) → g <$> mjoin (f <$> l) = l.
Proof.
  induction l as [|x l IH]; intros H; cbn; [done|].
  rewrite fmap_app, H by (by left). cbn. f_equal. apply IH. intros y Hy. apply H. by right.
Qed.
End normal.

(** C35: a v1alpha1 meter definition in normal form converts to the storage
    version and back to itself: no workload, selector, owner, vertex or status
    is lost, whatever object metadata the target was created with. *)
Theorem ConvertFrom_ConvertTo {LS} (m : V1Alpha1.MeterDefinition LS) (meta : ObjectMeta) :
  alpha_normal m →
  ∃ b, ConvertTo m = Ok b ∧ ConvertFrom (V1Alpha1.zero meta) b = Ok m.
Proof.
  intros (Hne & Hk & Hs & Hv & Hver & Hsl & Hpl). unfold ConvertTo.
  rewrite (mapM_result_total _ (λ w, (filter_of (V1Alpha1.Spec m) w, meters_of w)))
    by (intros w Hw; apply convert_workload_known, Hk, Hw).
  cbn [mbind result_mbind]. eexists; split; [done|].
  unfold ConvertFrom. cbn [V1Beta1.Spec V1Beta1.ResourceFilters V1Beta1.Meters V1Beta1.Meta
    V1Beta1.Group V1Beta1.SKind V1Beta1.InstalledBy V1Beta1.Status].
  rewrite <- !list_fmap_compose. unfold compose; cbn [fst snd].
  change ((λ x, filter_of (V1Alpha1.Spec m) x) <$> ?l) with (filter_of (V1Alpha1.Spec m) <$> l).
  change ((λ x, meters_of x) <$> ?l) with (meters_of <$> l).
  destruct (filter_of _ <$> _) as [|f0 fs0] eqn:Hf; [by apply fmap_nil_inv in Hf|].
  assert (Hns : V1Beta1.FNamespace f0 = namespace_filters (V1Alpha1.Spec m)).
  { destruct (V1Alpha1.Workloads (V1Alpha1.Spec m)); [done|]. by injection Hf as <- _. }
  rewrite <- Hf, Hns, mjoin_singletons by (intros w Hw; by apply workload_back).
  destruct m as [meta' [g k ib vt vs ws ver sl pl] st]; cbn in *; subst.
  unfold namespace_filters; cbn. destruct Hv as [[-> ->]| ->]; reflexivity.
Qed.

Definition alpha_pod : V1Alpha1.MeterDefinition string :=
  V1Alpha1.mkMeterDefinition _ (pod_meta "ns" "mdef")
    (V1Alpha1.mkSpec _ "app.io" "App" None "Namespace" (Some "team=a")
       [V1Alpha1.mkWorkload _ "pods" "Pod" None (Some "app=x") None
          [V1Alpha1.mkMeterLabelQuery "rpc" "sum(rpc)" "sum"];
        V1Alpha1.mkWorkload _ "claims" "PersistentVolumeClaim" (Some (mkGVK "v1" "Db")) None None
          [V1Alpha1.mkMeterLabelQuery "bytes" "kube_pvc" "max"]] None [] [])
    (mkMeterDefinitionStatus [cond_ready] [] []).

Lemma ConvertFrom_ConvertTo_witness :
  ∃ b, ConvertTo alpha_pod = Ok b ∧
       ConvertFrom (V1Alpha1.zero (pod_meta "" "")) b = Ok alpha_pod.
Proof.
  apply (ConvertFrom_ConvertTo alpha_pod (pod_meta "" "")). split_and!; cbn; try done.
  - intros w Hw. repeat (apply elem_of_cons in Hw as [->|Hw]); [..|by apply elem_of_nil in Hw];
      split; try done; apply (bool_decide_unpack _); vm_compute; exact I.
  - intros w1 w2 H1 H2.
    repeat (apply elem_of_cons in H1 as [->|H1]); [..|by apply elem_of_nil in H1];
      (repeat (apply elem_of_cons in H2 as [->|H2]); [..|by apply elem_of_nil in H2]); done.
  - by right.
Defined.

(** Converting to the storage version fails exactly on a workload type it
    does not know (a [ServiceMonitor] becomes a service); the result has one
    filter per workload and one hourly meter per metric label. Converting back
    fails exactly on a definition with no resource filter, and gives one workload
    per meter. *)
Theorem conversion_total {LS} (m : V1Alpha1.MeterDefinition LS)
    (b : V1Beta1.MeterDefinition LS) (dst : V1Alpha1.MeterDefinition LS) :
  match ConvertTo m with
  | Ok b' =>
      length (V1Beta1.ResourceFilters (V1Beta1.Spec b')) =
        length (V1Alpha1.Workloads (V1Alpha1.Spec m)) ∧
      V1Beta1.Metric <$> V1Beta1.Meters (V1Beta1.Spec b') =
        mjoin ((λ w, V1Alpha1.Label <$> V1Alpha1.MetricLabels w) <$>
          V1Alpha1.Workloads (V1Alpha1.Spec m))
  | Err _ => ∃ w, w ∈ V1Alpha1.Workloads (V1Alpha1.Spec m) ∧
      V1Alpha1.WorkloadType w ∉
        [WorkloadTypePod; WorkloadTypePVC; WorkloadTypeService; V1Alpha1.WorkloadTypeServiceMonitor]
  end ∧
  match ConvertFrom dst b with
  | Ok a => length (V1Alpha1.Workloads (V1Alpha1.Spec a)) =
              length (V1Beta1.Meters (V1Beta1.Spec b)) ∧
            V1Beta1.ResourceFilters (V1Beta1.Spec b) ≠ []
  | Err _ => V1Beta1.ResourceFilters (V1Beta1.Spec b) = []
  end.
Proof.
  split.
  - unfold ConvertTo. destruct (mapM_result _ _) as [l|e] eqn:Hl; cbn.
    + apply mapM_result_Ok in Hl. split.
      * rewrite length_fmap. symmetry. by eapply Forall2_length.
      * induction Hl as [|w [f ms] ws l Hw Hl IH]; [done|].
        rewrite !fmap_cons, !mjoin_cons, fmap_app, IH. f_equal. unfold convert_workload in Hw.
        destruct (ConvertWorkloadTypeBeta _) as [? []]; simplify_eq.
        cbn [snd]. by rewrite <- list_fmap_compose.
    + pose proof (mapM_result_ok (convert_workload (namespace_filters (V1Alpha1.Spec m)))
        (V1Alpha1.Workloads (V1Alpha1.Spec m))) as Hok. rewrite Hl in Hok; cbn in Hok.
      symmetry in Hok. apply forallb_False_exists in Hok as (w & Hw & Hbad).
      exists w; split; [done|]. rewrite convert_workload_ok in Hbad.
      apply not_true_iff_false in Hbad. intros Ht. apply Hbad.
      repeat (apply elem_of_cons in Ht as [->|Ht]; [reflexivity|]). by apply elem_of_nil in Ht.
  - unfold ConvertFrom. destruct (V1Beta1.ResourceFilters (V1Beta1.Spec b)) as [|f fs]; [done|].
    destruct (match V1Beta1.FNamespace f with Some _ => _ | None => _ end). cbn.
    by rewrite length_fmap.
Qed.
