(* ===== verification/Helpers.v ===== *)
(** * Utilities

    The model of [v2/pkg/utils/helpers.go], [concurrency.go], [envvar/envvar.go],
    [envvar/proxy.go] and [merge/merge.go]: list helpers, bounded retry,
    environment-variable changes and the merge of slices by a field. *)

From S2P Require Import Prelude GoTime Conditions Workloads.
Local Open Scope go_scope.

(** ** Lists of strings *)

Fixpoint Contains (s : list string) (e : string) : bool :=
  match s with
  | [] => false
  | a :: s' => if a == e then true else Contains s' e
  end.

Definition ContainsMultiple (inArray referenceArray : list string) : list string :=
  List.filter (λ searchItem, negb (Contains inArray searchItem)) referenceArray.

Definition RemoveKey (l : list string) (key : string) : list string :=
  List.filter (λ s, s != key) l.

Definition FindDiff (a b : list string) : list string :=
  let mb : gset string := list_to_set b in
  List.filter (λ x, negb (bool_decide (x ∈ mb))) a.

Fixpoint StringSliceEqual_loop (a b : list string) : bool :=
  match a, b with
  | v :: a', w :: b' => if v != w then false else StringSliceEqual_loop a' b'
  | _, _ => true
  end.

Definition StringSliceEqual (a b : list string) : bool :=
  if negb (length a =? length b)%nat then false else StringSliceEqual_loop a b.

Fixpoint ConditionsEqual_loop (a b : Conditions) : bool :=
  match a, b with
  | v :: a', w :: b' => if v != w then false else ConditionsEqual_loop a' b'
  | _, _ => true
  end.

Definition ConditionsEqual (a b : Conditions) : bool :=
  if negb (length a =? length b)%nat then false else ConditionsEqual_loop a b.

(** [FindMeterdefSliceDiff] on the names of the two lists' definitions. *)
Definition FindMeterdefSliceDiff {D} (name : D → string)
    (catalogMdefsOnCluster latestMeterdefsFromCatalog : list D) : list D :=
  List.filter (λ installed,
    negb (existsb (λ fromCatalog, name installed == name fromCatalog)
            latestMeterdefsFromCatalog)) catalogMdefsOnCluster.

(** ** Chunks *)

(** The loop over [i], with the number of iterations left as fuel. *)
Fixpoint chunk_loop {A} (fuel : nat) (chunkSize : nat) (items : list A) : list (list A) :=
  match fuel with
  | O => []
  | S fuel' =>
      match items with
      | [] => []
      | _ :: _ => take chunkSize items :: chunk_loop fuel' chunkSize (drop chunkSize items)
      end
  end.

(** A zero size divides by zero, a negative one makes a slice of negative
    length: both panic. *)
Definition ChunkBy {A} (items : list A) (chunkSize : Z) : outcome (list (list A)) :=
  match items with
  | [] => Ret []
  | _ :: _ =>
      if (chunkSize <=? 0)%Z then Panic
      else if negb (Z.of_nat (length items) `mod` chunkSize =? 0)%Z then Panic
      else Ret (chunk_loop (length items) (Z.to_nat chunkSize) items)
  end.

(** ** Resource lists *)

(** The two maps may be nil. The result, and the second argument after the
    call. *)
Definition AppendResourceList {Q} (list1 list2 : option (gmap string Q))
    : outcome (gmap string Q * option (gmap string Q)) :=
  match list1, list2 with
  | Some l1, Some l2 => Ret (∅, Some (l2 ∪ l1))
  | Some l1, None => if bool_decide (l1 = ∅) then Ret (∅, None) else Panic
  | None, _ => Ret (∅, list2)
  end.

(** ** Time *)

(** The date of [t] in its own location, at midnight of [loc] (UTC when nil),
    given as seconds east of UTC. *)
Definition TruncateTime (t : GoTime) (loc : option Z) : GoTime :=
  let z := default 0%Z loc in
  mkTime (day_of t * day_ns - z * second) z.

(** ** Retry ([concurrency.go]) *)

Section retry.
Context {S E : Type}.
(** The retried call, on the state it reads and changes. *)
Variable f : S → S * option E.

Fixpoint retry_loop (i : nat) (err : option E) (s : S) : S * option E :=
  match i with
  | O => (s, err)
  | Datatypes.S i' =>
      let '(s, err) := f s in
      match err with
      | None => (s, None)
      | Some e => retry_loop i' (Some e) s
      end
  end.

(** A negative [retry] makes no further call, as zero does. *)
Definition Retry (retry : Z) (s : S) : S * option E :=
  let '(s, err) := f s in
  match err with
  | None => (s, None)
  | Some e => retry_loop (Z.to_nat retry) (Some e) s
  end.

(** The state after [n] calls. *)
Fixpoint calls (n : nat) (s : S) : S :=
  match n with O => s | Datatypes.S n' => calls n' (f s).1 end.

(** What every call ensures holds of the answer, when a failed call leaves what the
    next one needs. *)
Lemma Retry_invariant (P : S → Prop) (Q : S * option E → Prop) (retry : Z) (s : S) :
  (∀ s, P s → Q (f s)) → (∀ s e, Q (s, Some e) → P s) → P s → Q (Retry retry s).
Proof.
  intros Hf HQ. unfold Retry.
  assert (Hloop : ∀ i e s, Q (s, Some e) → Q (retry_loop i (Some e) s)).
  { induction i as [|i IH]; intros e s' Hs; cbn [retry_loop]; [done|].
    specialize (Hf s' (HQ _ _ Hs)). destruct (f s') as [s1 [e1|]]; [by apply IH|done]. }
  intros Hs. specialize (Hf s Hs). destruct (f s) as [s1 [e|]]; [by apply Hloop|done].
Qed.
End retry.

(** ** Environment variables *)

(** A variable has a value, or the path of a field of the pod to take it from. *)
Record EnvVar := mkEnv { EName : string; EValue : string; EValueFrom : option string }.

Definition mkEnvVar (name value : string) : EnvVar := mkEnv name value None.

#[export] Instance EnvVar_eq_dec : EqDecision EnvVar.
Proof. solve_decision. Defined.

Record envVarAction := mkAction { AAdd : bool; ARemove : bool; AVar : EnvVar }.

Definition Changes := list envVarAction.

Definition Add (env : EnvVar) : envVarAction := mkAction true false env.
Definition Remove (env : EnvVar) : envVarAction := mkAction false true env.

Definition ChangesAppend (e changes : Changes) : Changes := e ++ changes.
Definition ChangesAdd (e : Changes) (env : EnvVar) : Changes := e ++ [Add env].
Definition ChangesRemove (e : Changes) (env : EnvVar) : Changes := e ++ [Remove env].

Definition name_le (a b : EnvVar) : Prop := String.le (EName a) (EName b).

#[export] Instance name_le_dec a b : Decision (name_le a b).
Proof. unfold name_le. apply _. Defined.
#[export] Instance name_le_trans : Transitive name_le.
Proof. intros a b c. unfold name_le. by transitivity (EName b). Qed.
#[export] Instance name_le_total : Total name_le.
Proof. intros a b. unfold name_le. apply (total String.le). Qed.

Definition apply_action (envVars : gmap string EnvVar) (envIn : envVarAction)
    : gmap string EnvVar :=
  let envVars := if AAdd envIn then <[EName (AVar envIn) := AVar envIn]> envVars else envVars in
  if ARemove envIn then delete (EName (AVar envIn)) envVars else envVars.

Definition env_map (env : list EnvVar) : gmap string EnvVar :=
  foldl (λ m e, <[EName e := e]> m) ∅ env.

(** [Merge] on the environment of the container. *)
Definition Merge (e : Changes) (env : list EnvVar) : list EnvVar :=
  let envVars := foldl apply_action (env_map env) e in
  merge_sort name_le (map_to_list envVars).*2.

(** The proxy settings of the environment. *)
Record ProxyConfig := mkProxy { HTTPProxy : string; HTTPSProxy : string; NoProxy : string }.

Definition proxy_change (name value : string) (e : Changes) : Changes :=
  if value != "" then ChangesAdd e (mkEnvVar name value)
  else ChangesRemove e (mkEnvVar name "").

Definition AddHttpsProxy (proxyInfo : ProxyConfig) : Changes :=
  proxy_change "NO_PROXY" (NoProxy proxyInfo)
    (proxy_change "HTTPS_PROXY" (HTTPSProxy proxyInfo)
      (proxy_change "HTTP_PROXY" (HTTPProxy proxyInfo) [])).

(** ** Merging slices by a field *)

Section merge_slice.
Context {V : Type} (field : V → string).

(** [MergeSliceByFieldName]: the values keyed by the field, the source's last. *)
Definition merge_results (dst src : list V) : gmap string V :=
  foldl (λ m v, <[field v := v]> m) (foldl (λ m v, <[field v := v]> m) ∅ dst) src.
End merge_slice.

(** ** Lemmas *)

Lemma Contains_spec s e : Contains s e = true ↔ e ∈ s.
Proof.
  induction s as [|a s IH]; cbn; [split; [done|by intros ?%elem_of_nil]|].
  rewrite elem_of_cons. case_bool_decide; naive_solver.
Qed.

Lemma elem_of_filter_bool {A} (f : A → bool) l x :
  x ∈ List.filter f l ↔ x ∈ l ∧ f x = true.
Proof. rewrite !list_elem_of_In. apply List.filter_In. Qed.

Lemma chunk_loop_concat {A} n k (l : list A) :
  length l ≤ n → 0 < k → mjoin (chunk_loop n k l) = l.
Proof.
  revert l; induction n as [|n IH]; intros l Hn Hk; cbn [chunk_loop].
  - by destruct l; [|cbn in Hn; lia].
  - destruct l as [|x l]; [done|].
    change (mjoin (?a :: ?b)) with (a ++ mjoin b). rewrite IH.
    + apply take_drop.
    + rewrite length_drop; cbn in *; lia.
    + done.
Qed.

Lemma chunk_loop_sizes {A} n k (l : list A) q :
  length l ≤ n → 0 < k → length l = q * k →
  Forall (λ c, length c = k) (chunk_loop n k l).
Proof.
  revert l q; induction n as [|n IH]; intros l q Hn Hk Hq; cbn [chunk_loop]; [constructor|].
  destruct l as [|x l]; [constructor|].
  destruct q as [|q]; [cbn in Hq; lia|]. constructor.
  - rewrite length_take. lia.
  - apply (IH _ q); [rewrite length_drop; cbn in *; lia|done|].
    rewrite length_drop. lia.
Qed.

(** The rule of the map the [Merge] loop builds. *)
Definition keyed (m : gmap string EnvVar) : Prop := ∀ n e, m !! n = Some e → EName e = n.

Lemma keyed_env env : keyed (env_map env).
Proof.
  unfold env_map. apply foldl_inv.
  - intros n e. by rewrite lookup_empty.
  - intros m x _ IH n e [[<- <-]|[_ H]]%lookup_insert_Some; [done|by apply IH].
Qed.

Lemma keyed_action m a : keyed m → keyed (apply_action m a).
Proof.
  intros Hm n e. unfold apply_action.
  destruct (AAdd a), (ARemove a); rewrite ?lookup_delete_Some, ?lookup_insert_Some;
    intros; naive_solver.
Qed.

Lemma keyed_actions e m : keyed m → keyed (foldl apply_action m e).
Proof. intros Hm. apply foldl_inv; [done|]. intros m' a _. apply keyed_action. Qed.

Lemma elem_of_Merge e env v :
  v ∈ Merge e env ↔ foldl apply_action (env_map env) e !! EName v = Some v.
Proof.
  unfold Merge. rewrite merge_sort_Permutation. rewrite list_elem_of_fmap. split.
  - intros ([n w] & -> & Hw%elem_of_map_to_list). cbn.
    by rewrite (keyed_actions e _ (keyed_env env) _ _ Hw).
  - intros H%elem_of_map_to_list. by exists (EName v, v).
Qed.

Lemma NoDup_names_Merge e env : NoDup (EName <$> Merge e env).
Proof.
  unfold Merge. rewrite merge_sort_Permutation.
  set (m := foldl apply_action (env_map env) e).
  assert (Hk : EName <$> (map_to_list m).*2 = (map_to_list m).*1).
  { rewrite <- list_fmap_compose. apply list_fmap_ext. intros i [n w] Hi. cbn.
    apply (keyed_actions e _ (keyed_env env)).
    apply elem_of_map_to_list. by eapply list_elem_of_lookup_2. }
  rewrite Hk. apply NoDup_fst_map_to_list.
Qed.

(** ** Properties *)

(** [ChunkBy] panics exactly on a non-empty list its size does not divide
    (a size of zero or less divides nothing); otherwise every chunk has the size
    asked for and the chunks, in order, are the list. *)
Theorem ChunkBy_spec {A} (items : list A) (chunkSize : Z) :
  match ChunkBy items chunkSize with
  | Panic => items ≠ [] ∧
      ((chunkSize ≤ 0)%Z ∨ ¬ (chunkSize | Z.of_nat (length items))%Z)
  | Ret chunks => mjoin chunks = items ∧
      Forall (λ c, Z.of_nat (length c) = chunkSize) chunks
  end.
Proof.
  unfold ChunkBy. destruct items as [|x l]; [by split|].
  set (items := x :: l). destruct (Z.leb_spec chunkSize 0); [by split; [|left]|].
  destruct (Z.eqb_spec (Z.of_nat (length items) `mod` chunkSize) 0) as [Hm|Hm]; cbn [negb].
  - split; [apply chunk_loop_concat; lia|].
    apply Z.mod_divide in Hm as [q Hq]; [|lia].
    eapply Forall_impl; [eapply (chunk_loop_sizes _ _ _ (Z.to_nat q)); [lia|lia|]|].
    + apply Nat2Z.inj. rewrite Hq, Nat2Z.inj_mul, !Z2Nat.id; [done|lia|].
      subst items; cbn [length] in Hq. nia.
    + intros c Hc; cbn in Hc. rewrite Hc. lia.
  - split; [done|]. right. intros Hd. apply Hm. by apply Z.mod_divide; [lia|].
Qed.

(** Merging environment changes into a container leaves its variables
    sorted by name, each name once; for every name the last change that concerns
    it decides, and a name no change concerns keeps the last value the container
    gave it. *)
Theorem Merge_last_wins (e : Changes) (env : list EnvVar) :
  Sorted name_le (Merge e env) ∧ NoDup (EName <$> Merge e env) ∧
  (∀ pre a post v, e = pre ++ a :: post → AAdd a ≠ ARemove a →
     (∀ b, b ∈ post → EName (AVar b) ≠ EName (AVar a)) → EName v = EName (AVar a) →
     (v ∈ Merge e env ↔ AAdd a = true ∧ v = AVar a)) ∧
  (∀ v, (∀ b, b ∈ e → EName (AVar b) ≠ EName v) →
     (v ∈ Merge e env ↔ env_map env !! EName v = Some v)).
Proof.
  assert (Hskip : ∀ post m n, (∀ b, b ∈ post → EName (AVar b) ≠ n) →
    foldl apply_action m post !! n = m !! n).
  { intros post m n. revert m; induction post as [|b post IH]; intros m Hb; cbn [foldl]; [done|].
    rewrite IH by (intros c Hc; apply Hb; by right). unfold apply_action.
    pose proof (Hb b (list_elem_of_here _ _)).
    destruct (AAdd b), (ARemove b); by rewrite ?lookup_delete_ne, ?lookup_insert_ne by done. }
  split_and!; [apply Sorted_merge_sort, _|apply NoDup_names_Merge| |].
  - intros pre a post v -> Hx Hpost Hv. rewrite elem_of_Merge, foldl_app. cbn [foldl].
    rewrite Hskip by (intros b Hb; rewrite Hv; by apply Hpost). rewrite Hv.
    unfold apply_action. destruct (AAdd a), (ARemove a); try done.
    + rewrite lookup_insert_eq. naive_solver.
    + rewrite lookup_delete_eq. naive_solver.
  - intros v Hv. by rewrite elem_of_Merge, Hskip.
Qed.

Definition env_a : list EnvVar := [mkEnvVar "B" "1"; mkEnvVar "A" "2"; mkEnvVar "HTTP_PROXY" "old"].

Lemma Merge_last_wins_witness :
  Merge (AddHttpsProxy (mkProxy "p" "" "")) env_a =
    [mkEnvVar "A" "2"; mkEnvVar "B" "1"; mkEnvVar "HTTP_PROXY" "p"] ∧
  (mkEnvVar "HTTP_PROXY" "p" ∈ Merge (AddHttpsProxy (mkProxy "p" "" "")) env_a ↔
    true = true ∧ mkEnvVar "HTTP_PROXY" "p" = mkEnvVar "HTTP_PROXY" "p").
Proof.
  split; [vm_compute; reflexivity|].
  destruct (Merge_last_wins (AddHttpsProxy (mkProxy "p" "" "")) env_a) as (_ & _ & H & _).
  apply (H [] (Add (mkEnvVar "HTTP_PROXY" "p"))
           [Remove (mkEnvVar "HTTPS_PROXY" ""); Remove (mkEnvVar "NO_PROXY" "")]);
    [reflexivity|done| |reflexivity].
  intros b Hb. repeat (apply elem_of_cons in Hb as [->|Hb]; [done|]). by apply elem_of_nil in Hb.
Defined.

(** [Retry] calls the function at most [retry + 1] times and stops at its
    first success: it returns nil exactly when one of these calls succeeds, and
    otherwise the error of the last one. *)
Theorem Retry_spec {S E} (f : S → S * option E) (retry : Z) (s : S) :
  ∃ n, (n ≤ Z.to_nat retry)%nat ∧
    Retry f retry s = f (calls f n s) ∧
    (∀ k, (k < n)%nat → (f (calls f k s)).2 ≠ None) ∧
    ((f (calls f n s)).2 ≠ None → n = Z.to_nat retry).
Proof.
  unfold Retry. generalize (Z.to_nat retry) as r. intros r.
  destruct (f s) as [s1 [e|]] eqn:Hf.
  2: { exists 0. cbn [calls]. rewrite Hf. split_and!; [lia|done|lia|done]. }
  assert (Hloop : ∀ r s0 s1 e, f s0 = (s1, Some e) → ∃ n, (n ≤ r)%nat ∧
    retry_loop f r (Some e) s1 = f (calls f n s0) ∧
    (∀ k, (k < n)%nat → (f (calls f k s0)).2 ≠ None) ∧
    ((f (calls f n s0)).2 ≠ None → n = r)).
  { clear. induction r as [|r IH]; intros s0 s1 e H0; cbn [retry_loop].
    - exists 0. cbn [calls]. rewrite H0. split_and!; [lia|done|lia|done].
    - destruct (f s1) as [s2 [e'|]] eqn:H1.
      + destruct (IH _ _ _ H1) as (n & Hn & Hr & Hk & Hl). exists (Datatypes.S n).
        cbn [calls]. rewrite H0; cbn [fst]. split_and!; [lia|done| |].
        * intros [|k] Hlt; cbn [calls]; rewrite H0; [done|]. cbn. apply Hk. lia.
        * intros Hne. by rewrite Hl.
      + exists 1. cbn [calls]. rewrite H0; cbn [fst]. rewrite H1. split_and!; [lia|done| |done].
        intros k Hlt. replace k with 0 by lia. cbn [calls]. by rewrite H0. }
  apply (Hloop r s s1 e Hf).
Qed.

(** [AppendResourceList] does not do what its comment says: the list it
    returns is always empty. What it does is add to the second list, in the
    caller's own map, the entries of the first whose key it lacks; and it panics
    when that map is nil and there is something to add. *)
Theorem AppendResourceList_spec {Q} (list1 list2 : option (gmap string Q)) :
  match AppendResourceList list1 list2 with
  | Ret (result, list2') =>
      result = ∅ ∧
      default ∅ list2' = default ∅ list2 ∪ default ∅ list1
  | Panic => list2 = None ∧ default ∅ list1 ≠ ∅
  end.
Proof.
  destruct list1 as [l1|], list2 as [l2|]; cbn; [done| | |done].
  - case_bool_decide as H; cbn; [|done]. by subst.
  - by rewrite (right_id_L ∅ (∪)).
Qed.

(** Two slices compare equal exactly when they are equal, and the
    difference of two string lists keeps the elements of the first, in order and
    with their repetitions, that the second lacks. *)
Theorem slice_helpers_spec (a b : list string) (c d : Conditions) :
  (StringSliceEqual a b = true ↔ a = b) ∧ (ConditionsEqual c d = true ↔ c = d) ∧
  FindDiff a b = ContainsMultiple b a ∧
  (∀ x, x ∈ FindDiff a b ↔ x ∈ a ∧ x ∉ b) ∧ FindDiff a b `sublist_of` a.
Proof.
  split_and!.
  - unfold StringSliceEqual. revert b; induction a as [|x a IH]; intros [|y b]; cbn; try done.
    specialize (IH b). destruct (Nat.eqb (length a) (length b)); cbn in *.
    + case_bool_decide; cbn; [rewrite IH|]; naive_solver.
    + split; [done|]. intros [= _ ->]. by apply IH.
  - unfold ConditionsEqual. revert d; induction c as [|x c IH]; intros [|y d]; cbn; try done.
    specialize (IH d). destruct (Nat.eqb (length c) (length d)); cbn in *.
    + case_bool_decide; cbn; [rewrite IH|]; naive_solver.
    + split; [done|]. intros [= _ ->]. by apply IH.
  - unfold FindDiff, ContainsMultiple. apply List.filter_ext. intros x. f_equal.
    apply eq_true_iff_eq. rewrite bool_decide_eq_true, Contains_spec. apply elem_of_list_to_set.
  - intros x. unfold FindDiff. rewrite elem_of_filter_bool, negb_true_iff, bool_decide_eq_false.
    by rewrite elem_of_list_to_set.
  - unfold FindDiff. induction a as [|x a IH]; cbn; [done|].
    destruct (negb _); [by apply sublist_skip|by apply sublist_cons].
Qed.
