(* ===== verification/Secrets.v ===== *)
(** * Registration secrets

    The model of [v2/pkg/utils/secretutils.go]: which secret a cluster registers
    with, what is read from it, and the owner reference it is given. The Kubernetes client,
    the JWT library and the JSON reader of the docker configuration are
    arguments. *)

From S2P Require Import Prelude Workloads PromQuery.
Local Open Scope go_scope.

(** ** Data *)

Record Secret := mkSecret { SecretMeta : ObjectMeta; SecretGVK : GroupVersionKind;
                            Data : gmap string string }.

Record Auth := mkAuth { UserName : string; Password : string; AuthText : string }.

Record MarketplaceClaims := mkClaims {
  AccountID : string; CPassword : string; APIKey : string; Env : string
}.

Record SecretInfo := mkSecretInfo {
  SType : string;
  SSecret : Secret;
  SEnv : string;
  SToken : string;
  SClaims : option MarketplaceClaims
}.

Inductive ApiError := NotFound | ApiOther (msg : string).

#[export] Instance ApiError_eq_dec : EqDecision ApiError.
Proof. solve_decision. Defined.

Inductive SecretError :=
| Unmarshalling | TokenFieldMissingOrEmpty | UnableToDecode | ParseJWT (msg : string)
| InvalidSecret | NoSecretsFound | ClientErr (e : ApiError).

Definition RHMPullSecretName : string := "redhat-marketplace-pull-secret".
Definition IBMEntitlementKeySecretName : string := "ibm-entitlement-key".
Definition IBMEntitlementDataKey : string := ".dockerconfigjson".
Definition IBMEntitlementProdKey : string := "cp.icr.io".
Definition IBMEntitlementStageKey : string := "stg.icr.io".
Definition RHMPullSecretKey : string := "PULL_SECRET".
Definition ProdEnv : string := "production".
Definition StageEnv : string := "stage".

(** [strings.Split(s, c)]: always at least one part. *)
Fixpoint split_on (c : Ascii.ascii) (s : string) : list string :=
  match s with
  | EmptyString => [""]
  | String a s' =>
      if Ascii.eqb a c then "" :: split_on c s'
      else match split_on c s' with
           | part :: parts => String a part :: parts
           | [] => [String a ""]
           end
  end.

Definition dot : Ascii.ascii := Eval cbv in Ascii.ascii_of_nat 46.

(** Parse returns the information gathered so far also with an error. *)
Definition parsed : Type := SecretInfo * option SecretError.

Section secrets.
(** [json.Unmarshal] of the entitlement key, [DecodeSegment] and
    [ParseUnverified] of the JWT parser. *)
Variable unmarshal : string → option (gmap string Auth).
Variable DecodeSegment : string → bool.
Variable ParseUnverified : string → result string MarketplaceClaims.
(** The client's [Get]. *)
Variable Get : NamespacedName → result ApiError Secret.
Variable DeployedNamespace : string.

Definition GetEntitlementKey : result ApiError Secret :=
  Get (mkNN DeployedNamespace IBMEntitlementKeySecretName).
Definition GetPullSecret : result ApiError Secret :=
  Get (mkNN DeployedNamespace RHMPullSecretName).

Definition validateDecode (token : string) : bool :=
  match split_on dot token with
  | [header; claim; signature] =>
      DecodeSegment header && DecodeSegment claim && DecodeSegment signature
  | _ => false
  end.

Definition with_token (si : SecretInfo) (env token : string) : SecretInfo :=
  mkSecretInfo (SType si) (SSecret si) env token (SClaims si).
Definition with_type (si : SecretInfo) (type : string) : SecretInfo :=
  mkSecretInfo type (SSecret si) (SEnv si) (SToken si) (SClaims si).

(** One registry of the entitlement key. *)
Definition read_auth (auths : gmap string Auth) (key env : string) (si : SecretInfo) : parsed :=
  match auths !! key with
  | Some auth =>
      if Password auth == "" then (si, Some TokenFieldMissingOrEmpty)
      else (with_token si env (Password auth), None)
  | None => (si, None)
  end.

Definition parse_entitlement (key : string) (si : SecretInfo) : parsed :=
  match unmarshal key with
  | None => (si, Some Unmarshalling)
  | Some auths =>
      match read_auth auths IBMEntitlementStageKey StageEnv si with
      | (si, Some e) => (si, Some e)
      | (si, None) =>
          match read_auth auths IBMEntitlementProdKey ProdEnv si with
          | (si, Some e) => (si, Some e)
          | (si, None) => (with_type si IBMEntitlementKeySecretName, None)
          end
      end
  end.

Definition parse_jwt (key : string) (si : SecretInfo) : parsed :=
  if negb (validateDecode key) then (si, Some UnableToDecode)
  else
    let si := with_token si (SEnv si) key in
    match ParseUnverified (SToken si) with
    | Err e => (si, Some (ParseJWT e))
    | Ok claims =>
        let si := mkSecretInfo (SType si) (SSecret si) (SEnv si) (SToken si) (Some claims) in
        if AccountID claims == "" then
          (with_type (with_token si ProdEnv (SToken si)) IBMEntitlementKeySecretName, None)
        else
          let env := if ToLower (Env claims) == StageEnv then StageEnv else ProdEnv in
          (with_type (with_token si env (SToken si)) RHMPullSecretName, None)
    end.

Definition Parse (secret : Secret) : parsed :=
  let si := mkSecretInfo "" secret "" "" None in
  match Data secret !! IBMEntitlementDataKey with
  | Some key => parse_entitlement key si
  | None =>
      match Data secret !! RHMPullSecretKey with
      | Some key => parse_jwt key si
      | None => (si, Some InvalidSecret)
      end
  end.

Definition ReturnSecret : option SecretInfo * option SecretError :=
  let parse s := let '(si, e) := Parse s in (Some si, e) in
  match GetPullSecret with
  | Ok pullSecret => parse pullSecret
  | Err (ApiOther m) => (None, Some (ClientErr (ApiOther m)))
  | Err NotFound =>
      match GetEntitlementKey with
      | Ok entitlementKeySecret => parse entitlementKeySecret
      | Err (ApiOther m) => (None, Some (ClientErr (ApiOther m)))
      | Err NotFound => (None, Some NoSecretsFound)
      end
  end.

(** [Delete], on a state of the cluster. *)
Definition DeleteSecret {St} (Delete : NamespacedName → St → St * option ApiError) (st : St)
    : St * option ApiError :=
  let '(st, e) := Delete (mkNN DeployedNamespace RHMPullSecretName) st in
  match e with
  | Some (ApiOther m) => (st, Some (ApiOther m))
  | _ =>
      let '(st, e) := Delete (mkNN DeployedNamespace IBMEntitlementKeySecretName) st in
      match e with
      | Some (ApiOther m) => (st, Some (ApiOther m))
      | _ => (st, None)
      end
  end.

(** [addOwnerRef]: the references are compared with the secret's own name and
    kind, and the error of the update is not looked at. [SetOwnerReference]
    returns the secret with the reference, or an error. *)
Definition addOwnerRef {St} (SetOwnerReference : Secret → result string Secret)
    (Update : Secret → St → St * option ApiError) (secret : Secret) (st : St)
    : St * option string :=
  let ownerFound := existsb (λ owner,
    (ORName owner == Name (SecretMeta secret)) && (ORKind owner == Kind (SecretGVK secret)) &&
    (ORAPIVersion owner == APIVersion (SecretGVK secret)))
    (OwnerReferences (SecretMeta secret)) in
  match SetOwnerReference secret with
  | Ok secret' => if ownerFound then (st, None) else ((Update secret' st).1, None)
  | Err _ => (st, None)
  end.

Definition AddOwnerRefToAll {St} (SetOwnerReference : Secret → result string Secret)
    (Update : Secret → St → St * option ApiError) (st : St) : St * option string :=
  let one (r : result ApiError Secret) (st : St) :=
    match r with
    | Ok s => addOwnerRef SetOwnerReference Update s st
    | Err _ => (st, None)
    end in
  let '(st, e) := one GetPullSecret st in
  match e with
  | Some e => (st, Some e)
  | None => one GetEntitlementKey st
  end.

(** ** Properties *)

(** A secret that parses without an error is of one of the two kinds and
    of one of the two environments, production winning when an entitlement key
    names both registries; its token is the secret's, and it is missing only
    for an entitlement key that names neither registry, which parses as
    success with no token and no environment. *)
Theorem Parse_ok (secret : Secret) (si : SecretInfo) :
  Parse secret = (si, None) →
  SSecret si = secret ∧
  (SType si = RHMPullSecretName ∨ SType si = IBMEntitlementKeySecretName) ∧
  ((SEnv si = ProdEnv ∨ SEnv si = StageEnv) ∧
     ((∃ a, Password a = SToken si ∧ SToken si ≠ "" ∧ SClaims si = None) ∨
      (Data secret !! RHMPullSecretKey = Some (SToken si) ∧ validateDecode (SToken si) = true ∧
       SClaims si ≠ None)) ∨
   SEnv si = "" ∧ SToken si = "" ∧ SType si = IBMEntitlementKeySecretName ∧
     ∃ key auths, Data secret !! IBMEntitlementDataKey = Some key ∧
       unmarshal key = Some auths ∧ auths !! IBMEntitlementStageKey = None ∧
       auths !! IBMEntitlementProdKey = None).
Proof.
  unfold Parse. destruct (Data secret !! IBMEntitlementDataKey) as [key|] eqn:Hk.
  - unfold parse_entitlement. destruct (unmarshal key) as [auths|] eqn:Hu; [|done].
    unfold read_auth. destruct (auths !! IBMEntitlementStageKey) as [a|] eqn:Hs;
      [case_bool_decide; [done|]|];
      (destruct (auths !! IBMEntitlementProdKey) as [b|] eqn:Hp; [case_bool_decide; [done|]|]);
      intros [= <-]; cbn; (split; [done|]; split; [by right|]).
    + left. split; [by left|]. left. by exists b.
    + left. split; [by right|]. left. by exists a.
    + left. split; [by left|]. left. by exists b.
    + right. split_and!; try done. by exists key, auths.
  - destruct (Data secret !! RHMPullSecretKey) as [key|] eqn:Hp; [|done].
    unfold parse_jwt. destruct (validateDecode key) eqn:Hv; cbn; [|done].
    destruct (ParseUnverified key) as [claims|]; [|done].
    case_bool_decide; intros [= <-]; cbn.
    + split_and!; [done|by right|]. left. split; [by left|]. by right.
    + split_and!; [done|by left|]. left. split; [case_bool_decide; auto|]. by right.
Qed.

(** Adding the owner reference never reports a failure, neither of
    setting the reference nor of the update that writes it back: the error the
    update's result is tested on is the one of the step before. *)
Theorem AddOwnerRefToAll_never_fails {St}
    (SetOwnerReference : Secret → result string Secret)
    (Update : Secret → St → St * option ApiError) (st : St) :
  (AddOwnerRefToAll SetOwnerReference Update st).2 = None.
Proof.
  assert (Hone : ∀ (r : result ApiError Secret) st, (match r with
    | Ok s => addOwnerRef SetOwnerReference Update s st
    | Err _ => (st, None) end).2 = None).
  { intros [s|e] st'; [|done]. unfold addOwnerRef.
    destruct (SetOwnerReference s); [|done]. by case_match. }
  unfold AddOwnerRefToAll. pose proof (Hone GetPullSecret st) as H.
  destruct (match GetPullSecret with Ok _ => _ | Err _ => _ end) as [st' e]; cbn in H.
  subst e. apply Hone.
Qed.
End secrets.

Definition stage_auths : gmap string Auth := {[ "stg.icr.io" := mkAuth "cp" "tok" "" ]}.
Definition entitlement_secret : Secret :=
  mkSecret (pod_meta "ns" IBMEntitlementKeySecretName) (mkGVK "v1" "Secret")
    {[ ".dockerconfigjson" := "{json}" ]}.

Lemma Parse_ok_witness :
  ∃ si, Parse (λ _, Some stage_auths) (λ _, true) (λ _, Err "") entitlement_secret = (si, None) ∧
    (SType si = RHMPullSecretName ∨ SType si = IBMEntitlementKeySecretName).
Proof.
  eexists; split; [vm_compute; reflexivity|].
  eapply (Parse_ok (λ _, Some stage_auths) (λ _, true) (λ _, Err "") entitlement_secret).
  vm_compute. reflexivity.
Defined.
