(* ===== verification/MeterReport.v ===== *)
(** * Meter reports

    The [MeterReport] resource ([v2/api/marketplace/v1alpha1/meterreport_types.go]),
    and the interface through which the controllers and the reporter read and
    write such resources. *)

From S2P Require Import Prelude GoTime Conditions Workloads Reports MeterDefinition.

(** [intstr.IntOrString]. *)
Inductive IntOrString := IntPort (n : Z) | StringPort (s : string).

#[export] Instance IntOrString_eq_dec : EqDecision IntOrString.
Proof. solve_decision. Defined.

Record ServiceReference := mkServiceReference {
  SRNamespace : string; SRName : string; TargetPort : IntOrString
}.

Record MeterReportSpec {LS : Type} := mkMeterReportSpec {
  ReportUUID : string;
  StartTime : GoTime;
  EndTime : GoTime;
  PrometheusService : option ServiceReference;
  MeterDefinitionReferences : list (V1Beta1.MeterDefinitionReference LS);
  ExtraArgs : list string
}.
Arguments MeterReportSpec : clear implicits.

Record MeterReport {LS : Type} := mkMeterReport {
  MRMeta : ObjectMeta;
  MRSpec : MeterReportSpec LS;
  MRStatus : MeterReportStatus
}.
Arguments MeterReport : clear implicits.

(** A status with no field set. *)
Definition zero_status : MeterReportStatus :=
  mkMeterReportStatus [] [] None None 0 None None [] [].

Inductive ClientError := AlreadyExists | IsNotFound | Conflict | OtherFailure (msg : string).

#[export] Instance ClientError_eq_dec : EqDecision ClientError.
Proof. solve_decision. Defined.

(** [err.Error()]. *)
Definition client_error (e : ClientError) : string :=
  match e with
  | AlreadyExists => "already exists" | IsNotFound => "not found" | Conflict => "conflict"
  | OtherFailure m => m
  end.

(** [retry.RetryOnConflict]: the call is made again after a conflict, and the
    last outcome is returned. *)
Inductive retried {St} (f : St → St * option ClientError) : St → St * option ClientError → Prop :=
| retried_last st : retried f st (f st)
| retried_again st st' r :
    f st = (st', Some Conflict) → retried f st' r → retried f st r.

Class ConflictRetry := {
  RetryOnConflict : ∀ {St : Type}, (St → St * option ClientError) → St → St * option ClientError;
  RetryOnConflict_law : ∀ {St} (f : St → St * option ClientError) st,
    retried f st (RetryOnConflict f st)
}.

(** Five attempts. *)
Fixpoint attempts {St} (n : nat) (f : St → St * option ClientError) (st : St)
    : St * option ClientError :=
  match n with
  | O => f st
  | S n => match f st with
           | (st, Some Conflict) => attempts n f st
           | r => r
           end
  end.

#[export, refine] Instance five_attempts : ConflictRetry := {|
  RetryOnConflict := λ St f st, attempts 4 f st
|}.
Proof.
  intros St f st. generalize 4 as n. intros n; revert st.
  induction n as [|n IH]; intros st; cbn [attempts]; [constructor|].
  destruct (f st) as [st' [[]|]] eqn:Hf; try (rewrite <- Hf; constructor).
  eapply retried_again; [exact Hf|apply IH].
Defined.

Lemma retried_inv {St} (P : St → Prop) (f : St → St * option ClientError) st r :
  (∀ st, P st → P (f st).1) → P st → retried f st r → P r.1.
Proof.
  intros Hf Hst Hr. induction Hr as [st|st st' r Heq _ IH]; [by apply Hf|].
  apply IH. pose proof (Hf st Hst) as H. by rewrite Heq in H.
Qed.

(** A call that keeps [I] when it fails ends in [Q] or, with an error, in [I]. *)
Lemma retried_post `{!ConflictRetry} {St} (I Q : St → Prop) (f : St → St * option ClientError) st :
  (∀ st, I st → match f st with (st', None) => Q st' | (st', Some _) => I st' end) → I st →
  match RetryOnConflict f st with (st', None) => Q st' | (st', Some _) => I st' end.
Proof.
  intros Hf Hst. pose proof (RetryOnConflict_law f st) as Hr. revert Hst Hr.
  generalize (RetryOnConflict f st) as r. intros r Hst Hr.
  induction Hr as [st|st st' r Heq _ IH]; specialize (Hf _ Hst); [done|].
  rewrite Heq in Hf. by apply IH.
Qed.

(** The client as the controllers use it, on the reports of one namespace. A call
    changes the cluster or fails; [reports] is the part of the cluster it
    concerns. The laws are those of the API server: a create does not replace an
    object, and a failed call changes nothing. *)
Class ReportClient (LS St : Type) := {
  reports : St → gmap string (MeterReport LS);
  List : St → result ClientError (list (MeterReport LS));
  Create : MeterReport LS → St → St * option ClientError;
  Delete : string → St → St * option ClientError;
  list_law st l : List st = Ok l → Name ∘ MRMeta <$> l ≡ₚ (map_to_list (reports st)).*1;
  create_law r st :
    match Create r st with
    | (st', None) => reports st !! Name (MRMeta r) = None ∧
                     reports st' = <[Name (MRMeta r) := r]> (reports st)
    | (st', Some e) => reports st' = reports st ∧
                       (e = AlreadyExists → is_Some (reports st !! Name (MRMeta r)))
    end;
  delete_law n st :
    match Delete n st with
    | (st', None) => reports st' = delete n (reports st)
    | (st', Some _) => reports st' = reports st
    end
}.

(** A cluster whose calls all succeed unless the object is in the way: the
    reports, keyed by the name they carry. *)
Record Cluster (LS : Type) := mkCluster {
  stored : gmap string (MeterReport LS);
  stored_keyed : bool_decide (map_Forall (λ n r, Name (MRMeta r) = n) stored)
}.
Arguments mkCluster {LS}.
Arguments stored {LS}.
Arguments stored_keyed {LS}.

Definition empty_cluster {LS} : Cluster LS := mkCluster ∅ I.

Lemma keyed_insert {LS} (c : Cluster LS) r :
  bool_decide (map_Forall (λ n r, Name (MRMeta r) = n) (<[Name (MRMeta r) := r]> (stored c))).
Proof.
  apply bool_decide_pack. apply map_Forall_insert_2; [done|].
  exact (bool_decide_unpack _ (stored_keyed c)).
Qed.

Lemma keyed_delete {LS} (c : Cluster LS) n :
  bool_decide (map_Forall (λ n r, Name (MRMeta r) = n) (delete n (stored c))).
Proof.
  apply bool_decide_pack, map_Forall_delete. exact (bool_decide_unpack _ (stored_keyed c)).
Qed.

Definition cluster_create {LS} (r : MeterReport LS) (c : Cluster LS)
    : Cluster LS * option ClientError :=
  match stored c !! Name (MRMeta r) with
  | Some _ => (c, Some AlreadyExists)
  | None => (mkCluster (<[Name (MRMeta r) := r]> (stored c)) (keyed_insert c r), None)
  end.

Definition cluster_delete {LS} (n : string) (c : Cluster LS) : Cluster LS * option ClientError :=
  match stored c !! n with
  | Some _ => (mkCluster (delete n (stored c)) (keyed_delete c n), None)
  | None => (c, Some IsNotFound)
  end.

Lemma keyed_names {LS} (m : gmap string (MeterReport LS)) :
  map_Forall (λ n r, Name (MRMeta r) = n) m →
  Name ∘ MRMeta <$> (map_to_list m).*2 = (map_to_list m).*1.
Proof.
  intros Hm. rewrite <- list_fmap_compose. apply list_fmap_ext. intros i [n r] Hi.
  apply (Hm n r). apply elem_of_map_to_list. by eapply list_elem_of_lookup_2.
Qed.

#[export, refine] Instance cluster_client {LS} : ReportClient LS (Cluster LS) := {|
  reports := stored;
  List c := Ok (map_to_list (stored c)).*2;
  Create := cluster_create;
  Delete := cluster_delete
|}.
Proof.
  - intros c l [= <-]. rewrite keyed_names; [done|].
    exact (bool_decide_unpack _ (stored_keyed c)).
  - intros r c. unfold cluster_create.
    destruct (stored c !! Name (MRMeta r)) eqn:H; cbn; [|done]. by split.
  - intros n c. unfold cluster_delete.
    destruct (stored c !! n) eqn:H; cbn; done.
Defined.
