(* ===== verification/MeterReportCreator.v ===== *)
(** * The meter report creator

    The model of
    [v2/internal/controller/marketplace/meterreport_creator_controller.go]: one
    report per day, for the last ninety days and not before the installation of
    the metering, and no report older than that. *)

From S2P Require Import Prelude GoTime Conditions Workloads Reports MeterDefinition MeterReport Helpers.
Local Open Scope go_scope.

(** ** Data *)

Definition METER_REPORT_PREFIX : string := "meter-report-".
Definition ConditionInstalling : string := "Installing".
Definition ReasonMeterBaseFinishInstall : string := "FinishedMeterBaseInstall".
Definition dateRangeInDays : Z := -90.

Record MeterBase := mkMeterBase {
  MBMeta : ObjectMeta;
  CreationTimestamp : GoTime;
  Enabled : bool;
  DataServiceEnabled : option bool;
  MBConditions : Conditions
}.

Definition IsDataServiceEnabled (m : MeterBase) : bool :=
  match DataServiceEnabled m with None => true | Some b => b end.

(** ** Names and dates *)

Definition newMeterReportNameFromString (dateString : string) : string :=
  METER_REPORT_PREFIX +:+ dateString.

Definition retrieveCreatedDate (reportName : string) : option GoTime :=
  match SplitN reportName dash 3 with
  | [_; _; dateString] => ParseDate dateString
  | _ => None
  end.

Definition found_date (reportName : string) : option string :=
  match SplitN reportName dash 3 with
  | [_; _; dateString] => Some dateString
  | _ => None
  end.

Definition generateFoundCreatedDates (meterReportNames : list string) : list string :=
  omap found_date meterReportNames.

(** The [for d := startDate; !d.After(endDate); d = d.AddDate(0, 0, 1)] loop. *)
Fixpoint expected_loop (fuel : nat) (d endDate : GoTime) : list string :=
  match fuel with
  | O => []
  | S fuel' =>
      if After d endDate then []
      else Format d :: expected_loop fuel' (AddDays d 1) endDate
  end.

(** The days between two instants, and one: how often the loop can run. *)
Definition expected_fuel (startDate endDate : GoTime) : nat :=
  S (Z.to_nat ((nsec endDate - nsec startDate) / day_ns + 1)).

(** [loc] is UTC, the only location the controller passes. *)
Definition generateExpectedDates (endTime : GoTime) (dateRange : Z) (minDate : GoTime)
    : list string :=
  let startDate := AddDays (TruncateTime endTime None) dateRange in
  let startDate := if After minDate startDate then TruncateTime minDate None else startDate in
  let endDate := TruncateTime endTime None in
  expected_loop (expected_fuel startDate endDate) startDate endDate.

(** ** Reports *)

Section creator.
Context {LS St : Type} `{!ReportClient LS St}.
(** [version.Version], and [apiutil.GVKForObject] on a meter base. *)
Variable Version : string.
Variable GVKForObject : MeterBase → option GroupVersionKind.

Definition promService (namespace : string) (userWorkloadMonitoringEnabled : bool)
    : ServiceReference :=
  if userWorkloadMonitoringEnabled
  then mkServiceReference "openshift-monitoring" "thanos-querier" (StringPort "web")
  else mkServiceReference namespace "rhm-prometheus-meterbase" (StringPort "rbac").

(** Nil when the group-version-kind of the meter base is not known. *)
Definition newMeterReport (namespace : string) (startTime endTime : GoTime)
    (meterReportName : string) (instance : MeterBase) (userWorkloadMonitoringEnabled : bool)
    : option (MeterReport LS) :=
  gvk ← GVKForObject instance;
  let ref := mkOwnerRef (APIVersion gvk) (Kind gvk) (Name (MBMeta instance))
               (UID (MBMeta instance)) in
  Some (mkMeterReport _
    (mkMeta meterReportName namespace "" 0 ∅
       {[ "marketplace.redhat.com/version" := Version ]} [ref])
    (mkMeterReportSpec _ "" startTime endTime
       (Some (promService (Namespace (MBMeta instance)) userWorkloadMonitoringEnabled)) []
       (if IsDataServiceEnabled instance then ["--uploadTargets=data-service"] else []))
    zero_status).

(** The loop of [createReportIfNotFound]: creating a nil report panics. The
    date of a missing report is parsed without looking at the error, which
    leaves the zero time, 1 January of year 1. *)
Definition zero_time : GoTime := midnight (days_from_civil 1 1 1).

Fixpoint create_loop (missingReports : list string) (namespace : string)
    (instance : MeterBase) (uwm : bool) (st : St) : outcome (St * option ClientError) :=
  match missingReports with
  | [] => Ret (st, None)
  | date :: rest =>
      let missingReportName := newMeterReportNameFromString date in
      let missingReportStartDate := default zero_time (ParseDate date) in
      let missingReportEndDate := AddDays missingReportStartDate 1 in
      match newMeterReport namespace missingReportStartDate missingReportEndDate
              missingReportName instance uwm with
      | None => Panic
      | Some r =>
          match Create r st with
          | (st, Some e) => Ret (st, Some e)
          | (st, None) => create_loop rest namespace instance uwm st
          end
      end
  end.

Definition createReportIfNotFound (expectedCreatedDates foundCreatedDates : list string)
    (namespace : string) (instance : MeterBase) (uwm : bool) (st : St)
    : outcome (St * option ClientError) :=
  create_loop (FindDiff expectedCreatedDates foundCreatedDates) namespace instance uwm st.

Definition sortMeterReports (meterReportList : list (MeterReport LS)) : list string :=
  merge_sort String.le (Name ∘ MRMeta <$> meterReportList).

(** The loop of [removeOldReports]: [range] goes over the list it was given,
    [names] is the variable the body reassigns. On a failed delete the list
    returned is nil. *)
Fixpoint remove_loop (l names : list string) (limit : GoTime) (st : St)
    : St * (list string * option ClientError) :=
  match l with
  | [] => (st, (names, None))
  | reportName :: rest =>
      match retrieveCreatedDate reportName with
      | None => remove_loop rest names limit st
      | Some dateCreated =>
          if Before dateCreated limit then
            let names := RemoveKey names reportName in
            match Delete reportName st with
            | (st, Some e) => (st, ([], Some e))
            | (st, None) => remove_loop rest names limit st
            end
          else remove_loop rest names limit st
      end
  end.

Definition removeOldReports (now : GoTime) (meterReportNames : list string) (dateRange : Z)
    (st : St) : St * (list string * option ClientError) :=
  let limit := AddDays (TruncateTime now None) dateRange in
  remove_loop meterReportNames meterReportNames limit st.

(** What a reconciliation ends with. A failed delete is only logged, and a
    failed list returns no error either. *)
Definition Reconcile (now : GoTime) (instance : result ClientError MeterBase)
    (namespace : string) (st : St) : outcome (St * option ClientError) :=
  match instance with
  | Err IsNotFound => Ret (st, None)
  | Err e => Ret (st, Some e)
  | Ok instance =>
      if negb (Enabled instance) then Ret (st, None)
      else
        match GetCondition (MBConditions instance) ConditionInstalling with
        | Some installingCond =>
            if IsFalse installingCond &&
               (Reason installingCond == ReasonMeterBaseFinishInstall) then
              match List st with
              | Err _ => Ret (st, None)
              | Ok meterReportList =>
                  let meterReportNames := sortMeterReports meterReportList in
                  let '(st, (meterReportNames, _)) :=
                    removeOldReports now meterReportNames dateRangeInDays st in
                  let endDate := UTC now in
                  let minDate := TruncateTime (UTC (CreationTimestamp instance)) None in
                  let expected := generateExpectedDates endDate dateRangeInDays minDate in
                  let found := generateFoundCreatedDates meterReportNames in
                  createReportIfNotFound expected found namespace instance true st
              end
            else Ret (st, None)
        | None => Ret (st, None)
        end
  end.
End creator.

(** ** Lemmas *)

Lemma found_date_new d : found_date (newMeterReportNameFromString d) = Some d.
Proof.
  unfold found_date, newMeterReportNameFromString.
  change (METER_REPORT_PREFIX +:+ d)
    with ("meter" +:+ String dash ("report" +:+ String dash d)).
  cbn [SplitN]. by rewrite !cut_at_app by reflexivity.
Qed.

Lemma retrieve_found n : retrieveCreatedDate n = d ← found_date n; ParseDate d.
Proof.
  unfold retrieveCreatedDate, found_date.
  by destruct (SplitN n dash 3) as [|? [|? [|? []]]].
Qed.

Lemma TruncateTime_UTC t : TruncateTime t None = midnight (day_of t).
Proof. unfold TruncateTime, midnight. cbn. f_equal. lia. Qed.

Lemma After_midnight a b : After (midnight a) (midnight b) = (b <? a)%Z.
Proof. unfold After. apply midnight_lt. Qed.

#[export] Hint Rewrite TruncateTime_UTC After_midnight : rhm.

Lemma expected_loop_days fuel d e :
  (e - d + 1 ≤ Z.of_nat fuel)%Z →
  expected_loop fuel (midnight d) (midnight e) = format_day <$> seqZ d (e - d + 1).
Proof.
  revert d; induction fuel as [|fuel IH]; intros d Hf; cbn [expected_loop].
  - by rewrite seqZ_nil by lia.
  - rewrite After_midnight. destruct (Z.ltb_spec e d); [by rewrite seqZ_nil by lia|].
    rewrite seqZ_cons by lia. rewrite fmap_cons, AddDays_midnight, IH by lia.
    unfold Format. rewrite day_of_midnight. do 2 f_equal; f_equal; lia.
Qed.

Definition first_day (endTime : GoTime) (dateRange minDay : Z) : Z :=
  Z.max (day_of endTime + dateRange) minDay.

Lemma expected_days endTime dateRange minDay :
  generateExpectedDates endTime dateRange (midnight minDay) =
  format_day <$> seqZ (first_day endTime dateRange minDay)
    (day_of endTime - first_day endTime dateRange minDay + 1).
Proof.
  unfold generateExpectedDates. autorewrite with rhm.
  set (s := if (_ <? _)%Z then _ else _).
  assert (Hs : s = midnight (first_day endTime dateRange minDay)).
  { subst s. unfold first_day. destruct (Z.ltb_spec (day_of endTime + dateRange) minDay);
      f_equal; lia. }
  rewrite Hs, expected_loop_days; [done|]. unfold expected_fuel, midnight; cbn [nsec].
  rewrite <- Z.mul_sub_distr_r, Z.div_mul by (unfold day_ns, second; lia). lia.
Qed.

Lemma elem_of_expected endTime dateRange minDay date :
  date ∈ generateExpectedDates endTime dateRange (midnight minDay) ↔
  ∃ day, date = format_day day ∧
    (first_day endTime dateRange minDay ≤ day ≤ day_of endTime)%Z.
Proof.
  rewrite expected_days, list_elem_of_fmap. setoid_rewrite elem_of_seqZ.
  split; intros (day & -> & Hd); exists day; (split; [done|lia]).
Qed.

(** The days the date layout can write. *)
Definition writable (day : Z) : Prop := (-719528 ≤ day ≤ 2932896)%Z.

Lemma expected_NoDup endTime dateRange minDay :
  writable (first_day endTime dateRange minDay) → writable (day_of endTime) →
  NoDup (generateExpectedDates endTime dateRange (midnight minDay)).
Proof.
  unfold writable. intros H1 H2. rewrite expected_days.
  apply NoDup_fmap_2_strong; [|apply NoDup_seqZ].
  intros a b Ha%elem_of_seqZ Hb%elem_of_seqZ. apply format_day_inj; lia.
Qed.

Section lemmas.
Context {LS St : Type} `{!ReportClient LS St}.
Variable Version : string.
Variable GVKForObject : MeterBase → option GroupVersionKind.

Definition is_old (limit : GoTime) (n : string) : bool :=
  match retrieveCreatedDate n with
  | Some t => Before t limit
  | None => false
  end.

(** What the pruning loop leaves, when every delete succeeds. *)
Lemma remove_loop_ok l names limit st st' names' :
  remove_loop l names limit st = (st', (names', None)) →
  (∀ n, n ∈ names' ↔ n ∈ names ∧ ¬ (n ∈ l ∧ is_old limit n = true)) ∧
  (∀ n, reports st' !! n = if decide (n ∈ l ∧ is_old limit n = true)
                           then None else reports st !! n).
Proof.
  revert names st; induction l as [|r l IH]; intros names st; cbn [remove_loop].
  - intros [= -> ->]. split; intros n; [set_solver|].
    rewrite decide_False by set_solver. done.
  - assert (Hskip : is_old limit r = false →
      remove_loop l names limit st = (st', (names', None)) →
      (∀ n, n ∈ names' ↔ n ∈ names ∧ ¬ (n ∈ r :: l ∧ is_old limit n = true)) ∧
      (∀ n, reports st' !! n = if decide (n ∈ r :: l ∧ is_old limit n = true)
                               then None else reports st !! n)).
    { intros Hr [Hn Hst]%IH. split; intros n.
      - rewrite Hn, elem_of_cons. naive_solver congruence.
      - rewrite Hst. apply decide_ext. rewrite elem_of_cons. naive_solver congruence. }
    unfold is_old in Hskip at 1. destruct (retrieveCreatedDate r) as [t|] eqn:Ht; [|by apply Hskip].
    destruct (Before t limit) eqn:Hb; [|by apply Hskip].
    assert (Hr : is_old limit r = true) by (unfold is_old; by rewrite Ht).
    pose proof (delete_law r st) as Hlaw. destruct (Delete r st) as [st1 [e|]]; [done|].
    intros [Hn Hst]%IH. split; intros n.
    + rewrite Hn. unfold RemoveKey. rewrite elem_of_filter_bool, negb_true_iff,
        bool_decide_eq_false, elem_of_cons. destruct (decide (n = r)); naive_solver.
    + rewrite Hst, Hlaw. destruct (decide (n = r)) as [->|Hne].
      * rewrite (decide_True (P := r ∈ r :: l ∧ _)) by (split; [by left|done]).
        rewrite lookup_delete_eq. by case_decide.
      * rewrite lookup_delete_ne by done. apply decide_ext.
        rewrite elem_of_cons. naive_solver.
Qed.

(** The report the creator makes for a date. *)
Definition report_of (namespace : string) (instance : MeterBase) (uwm : bool) (date : string)
    : option (MeterReport LS) :=
  let start := default zero_time (ParseDate date) in
  newMeterReport Version GVKForObject namespace start (AddDays start 1)
    (newMeterReportNameFromString date) instance uwm.

Lemma report_of_name namespace instance uwm date r :
  report_of namespace instance uwm date = Some r →
  Name (MRMeta r) = newMeterReportNameFromString date.
Proof.
  unfold report_of, newMeterReport. destruct (GVKForObject instance); cbn; [|done].
  by intros [= <-].
Qed.

Lemma report_of_span namespace instance uwm day r :
  report_of namespace instance uwm (format_day day) = Some r → writable day →
  StartTime (MRSpec r) = midnight day ∧ EndTime (MRSpec r) = midnight (day + 1).
Proof.
  unfold report_of, newMeterReport. intros Hr Hw.
  rewrite ParseDate_format_day in Hr by by apply year_range.
  destruct (GVKForObject instance); cbn [mbind option_bind] in Hr; [|done].
  injection Hr as <-. cbn [MRSpec StartTime EndTime default]. by rewrite AddDays_midnight.
Qed.

Lemma new_name_inj a b :
  newMeterReportNameFromString a = newMeterReportNameFromString b → a = b.
Proof. intros H%(f_equal found_date). rewrite !found_date_new in H. congruence. Qed.

Lemma create_loop_ok missing namespace instance uwm st st' :
  NoDup missing →
  create_loop Version GVKForObject missing namespace instance uwm st = Ret (st', None) →
  ∀ n, (∃ date, date ∈ missing ∧ n = newMeterReportNameFromString date ∧
          reports st !! n = None ∧
          reports st' !! n = report_of namespace instance uwm date ∧
          is_Some (reports st' !! n)) ∨
       ((∀ date, date ∈ missing → n ≠ newMeterReportNameFromString date) ∧
          reports st' !! n = reports st !! n).
Proof.
  revert st; induction missing as [|d missing IH]; intros st Hnd; cbn [create_loop].
  - intros [= ->] n. right. split; [by intros ? ?%elem_of_nil|done].
  - apply NoDup_cons in Hnd as [Hd Hnd].
    fold (report_of namespace instance uwm d).
    destruct (report_of namespace instance uwm d) as [r|] eqn:Hr; [|done].
    pose proof (report_of_name _ _ _ _ _ Hr) as Hname.
    pose proof (create_law r st) as Hlaw. destruct (Create r st) as [st1 [e|]]; [done|].
    destruct Hlaw as [Hnone Hst1]. rewrite Hname in Hnone, Hst1.
    intros Hrun n. destruct (IH _ Hnd Hrun n) as [(d' & Hin & -> & H0 & H1 & H2)|[Hne H1]].
    + left. exists d'. split_and!; try done; [by right|].
      rewrite Hst1, lookup_insert_ne in H0; [done|].
      intros Heq%new_name_inj. by subst.
    + destruct (decide (n = newMeterReportNameFromString d)) as [->|Hn].
      * left. exists d. rewrite H1, Hst1, lookup_insert_eq, Hr.
        split_and!; try done. by left.
      * right. split; [|by rewrite H1, Hst1, lookup_insert_ne].
        intros d' [->|Hin]%elem_of_cons; [done|by apply Hne].
Qed.

(** A create that finds its name taken was asked for a date that a report of
    the starting state has. *)
Lemma create_loop_conflict missing namespace instance uwm st st' :
  NoDup missing →
  create_loop Version GVKForObject missing namespace instance uwm st
    = Ret (st', Some AlreadyExists) →
  ∃ date, date ∈ missing ∧ is_Some (reports st !! newMeterReportNameFromString date).
Proof.
  revert st; induction missing as [|d missing IH]; intros st Hnd; cbn [create_loop]; [done|].
  apply NoDup_cons in Hnd as [Hd Hnd].
  fold (report_of namespace instance uwm d).
  destruct (report_of namespace instance uwm d) as [r|] eqn:Hr; [|done].
  pose proof (report_of_name _ _ _ _ _ Hr) as Hname.
  pose proof (create_law r st) as Hlaw. destruct (Create r st) as [st1 [e|]].
  - intros [= -> ->]. destruct Hlaw as [_ Hlaw]. rewrite Hname in Hlaw.
    exists d. split; [by left|by apply Hlaw].
  - destruct Hlaw as [_ Hst1]. rewrite Hname in Hst1.
    intros (d' & Hin & Hs)%IH; [|done]. exists d'. split; [by right|].
    rewrite Hst1, lookup_insert_ne in Hs; [done|]. intros Heq%new_name_inj. by subst.
Qed.
End lemmas.

Lemma FindDiff_NoDup a b : NoDup a → NoDup (FindDiff a b).
Proof.
  intros H. unfold FindDiff. induction a as [|x a IH]; cbn; [done|].
  apply NoDup_cons in H as [Hx H]. destruct (negb _); [|by apply IH].
  constructor; [|by apply IH]. rewrite elem_of_filter_bool. tauto.
Qed.

Lemma elem_of_FindDiff a b x : x ∈ FindDiff a b ↔ x ∈ a ∧ x ∉ b.
Proof.
  unfold FindDiff. rewrite elem_of_filter_bool, negb_true_iff, bool_decide_eq_false.
  by rewrite elem_of_list_to_set.
Qed.

Lemma elem_of_found names d :
  d ∈ generateFoundCreatedDates names ↔ ∃ n, n ∈ names ∧ found_date n = Some d.
Proof. unfold generateFoundCreatedDates. apply list_elem_of_omap. Qed.

(** ** Properties *)

(** The dates a reconciliation expects are exactly the days from the later
    of the installation and ninety days ago up to today, in order, each once,
    and at most ninety-one of them; none when the installation lies ahead. *)
Theorem generateExpectedDates_spec (endTime : GoTime) (minDay : Z) :
  let s := first_day endTime dateRangeInDays minDay in
  let dates := generateExpectedDates endTime dateRangeInDays (midnight minDay) in
  dates = format_day <$> seqZ s (day_of endTime - s + 1) ∧
  (length dates ≤ 91)%nat ∧
  (writable s → writable (day_of endTime) → NoDup dates ∧
     Forall (λ d, is_Some (ParseDate d)) dates).
Proof.
  cbv zeta. split; [apply expected_days|]. split.
  - rewrite expected_days, length_fmap, length_seqZ. unfold first_day, dateRangeInDays. lia.
  - intros Hs He. split; [by apply expected_NoDup|]. apply Forall_forall. intros date.
    rewrite elem_of_expected. intros (day & -> & Hday). unfold writable in *.
    rewrite ParseDate_format_day by (apply year_range; lia). by eexists.
Qed.

Definition today : GoTime := mkTime (19000 * day_ns + 7 * hour_ns) 0.

Lemma generateExpectedDates_spec_witness :
  NoDup (generateExpectedDates today dateRangeInDays (midnight 18995)) ∧
  generateExpectedDates today dateRangeInDays (midnight 18995) =
    ["2022-01-03"; "2022-01-04"; "2022-01-05"; "2022-01-06"; "2022-01-07"; "2022-01-08"].
Proof.
  split; [|vm_compute; reflexivity].
  destruct (generateExpectedDates_spec today 18995) as (_ & _ & H).
  apply H; apply (bool_decide_unpack _); vm_compute; exact I.
Defined.

Section reconcile.
Context {LS St : Type} `{!ReportClient LS St}.
Variable Version : string.
Variable GVKForObject : MeterBase → option GroupVersionKind.

(** The meter base is enabled and its installation finished. *)
Definition metering_ready (instance : MeterBase) : bool :=
  Enabled instance &&
  match GetCondition (MBConditions instance) ConditionInstalling with
  | Some c => IsFalse c && (Reason c == ReasonMeterBaseFinishInstall)
  | None => false
  end.

Definition limit_of (now : GoTime) : GoTime := AddDays (TruncateTime now None) dateRangeInDays.
Definition install_day (instance : MeterBase) : Z := day_of (UTC (CreationTimestamp instance)).
Definition expected_of (now : GoTime) (instance : MeterBase) : list string :=
  generateExpectedDates (UTC now) dateRangeInDays (midnight (install_day instance)).

(** The body of a reconciliation of a ready meter base. *)
Lemma Reconcile_ready now instance namespace st l :
  metering_ready instance = true → List st = Ok l →
  Reconcile Version GVKForObject now (Ok instance) namespace st =
    let '(st1, (names, _)) :=
      remove_loop (sortMeterReports l) (sortMeterReports l) (limit_of now) st in
    createReportIfNotFound Version GVKForObject (expected_of now instance)
      (generateFoundCreatedDates names) namespace instance true st1.
Proof.
  unfold metering_ready, Reconcile. intros [-> Hc]%andb_true_iff Hl. cbn [negb].
  destruct (GetCondition _ _) as [c|]; [|done]. rewrite Hc, Hl.
  unfold removeOldReports, expected_of, install_day, limit_of. by rewrite (TruncateTime_UTC (UTC _)).
Qed.

Lemma sorted_names st l :
  List st = Ok l → ∀ n, n ∈ sortMeterReports l ↔ is_Some (reports st !! n).
Proof.
  intros Hl%list_law n. unfold sortMeterReports. rewrite merge_sort_Permutation, Hl.
  rewrite list_elem_of_fmap. split.
  - intros ([n' r] & -> & Hr%elem_of_map_to_list). by exists r.
  - intros [r Hr%elem_of_map_to_list]. by exists (n, r).
Qed.

(** What a pruned cluster and the list of names it leaves have in common. *)
Lemma pruned now st l st1 names :
  List st = Ok l →
  remove_loop (sortMeterReports l) (sortMeterReports l) (limit_of now) st = (st1, (names, None)) →
  (∀ n, n ∈ names ↔ is_Some (reports st1 !! n)) ∧
  (∀ n, reports st1 !! n = if is_old (limit_of now) n then None else reports st !! n).
Proof.
  intros Hl [Hn Hr]%remove_loop_ok.
  pose proof (sorted_names _ _ Hl) as Hs. split; intros n.
  - rewrite Hn, Hr. specialize (Hs n). case_decide as Hd; [|tauto].
    split; [tauto|by intros []].
  - rewrite Hr. specialize (Hs n). case_decide as Hd; [by destruct Hd as [_ ->]|].
    destruct (is_old (limit_of now) n) eqn:Ho; [|done].
    destruct (reports st !! n) eqn:E; [|done]. exfalso. apply Hd.
    split; [by apply Hs|done].
Qed.

(** C5: after a reconciliation of a ready meter base that met no error, every
    day that is expected has a report; the reports that were not older than
    the limit are untouched, and the older ones are gone; every other report
    is new, named for an expected day that no kept report was named for, and
    covers exactly that day. *)
Theorem Reconcile_covers (now : GoTime) (instance : MeterBase) (namespace : string)
    (st st1 st' : St) (l : list (MeterReport LS)) (names : list string) :
  metering_ready instance = true → List st = Ok l →
  removeOldReports now (sortMeterReports l) dateRangeInDays st = (st1, (names, None)) →
  Reconcile Version GVKForObject now (Ok instance) namespace st = Ret (st', None) →
  writable (day_of (UTC now) - 90) → writable (day_of (UTC now)) →
  (∀ day, (Z.max (day_of (UTC now) - 90) (install_day instance) ≤ day ≤ day_of (UTC now))%Z →
     ∃ n, found_date n = Some (format_day day) ∧ is_Some (reports st' !! n)) ∧
  (∀ n r, reports st !! n = Some r → is_old (limit_of now) n = false →
     reports st' !! n = Some r) ∧
  (∀ n r, reports st' !! n = Some r →
     (reports st !! n = Some r ∧ is_old (limit_of now) n = false) ∨
     (∃ day, n = newMeterReportNameFromString (format_day day) ∧
        (Z.max (day_of (UTC now) - 90) (install_day instance) ≤ day ≤ day_of (UTC now))%Z ∧
        StartTime (MRSpec r) = midnight day ∧ EndTime (MRSpec r) = midnight (day + 1) ∧
        (∀ n', is_Some (reports st !! n') → is_old (limit_of now) n' = false →
           found_date n' ≠ Some (format_day day)))).
Proof.
  intros Hready Hl Hrm Hrun Hw1 Hw2. unfold removeOldReports in Hrm. fold (limit_of now) in Hrm.
  rewrite (Reconcile_ready _ _ _ _ _ Hready Hl), Hrm in Hrun.
  destruct (pruned _ _ _ _ _ Hl Hrm) as [Hnames Hst1].
  assert (Hexp : ∀ date, date ∈ expected_of now instance ↔ ∃ day, date = format_day day ∧
    (Z.max (day_of (UTC now) - 90) (install_day instance) ≤ day ≤ day_of (UTC now))%Z).
  { intros date. unfold expected_of. by rewrite elem_of_expected. }
  assert (Hnd : NoDup (FindDiff (expected_of now instance) (generateFoundCreatedDates names))).
  { destruct (decide (install_day instance ≤ day_of (UTC now))%Z).
    - apply FindDiff_NoDup, expected_NoDup; [|done]. unfold writable, first_day,
        dateRangeInDays in *. lia.
    - apply FindDiff_NoDup. unfold expected_of. rewrite expected_days, seqZ_nil; [constructor|].
      unfold first_day. lia. }
  pose proof (create_loop_ok _ _ _ _ _ _ _ _ Hnd Hrun) as Hc. clear Hrun.
  setoid_rewrite elem_of_FindDiff in Hc. setoid_rewrite elem_of_found in Hc.
  split_and!.
  - intros day Hday. set (date := format_day day).
    assert (Hin : date ∈ expected_of now instance) by (apply Hexp; by exists day).
    destruct (decide (date ∈ generateFoundCreatedDates names)) as [Hf|Hf].
    + apply elem_of_found in Hf as (n & Hn & Hf). exists n. split; [done|].
      apply Hnames in Hn. destruct (Hc n) as [(d & _ & _ & _ & _ & Hs)|[_ ->]]; done.
    + exists (newMeterReportNameFromString date). split; [apply found_date_new|].
      rewrite elem_of_found in Hf.
      destruct (Hc (newMeterReportNameFromString date)) as [(d & _ & _ & _ & _ & Hs)|[Hne _]];
        [done|]. by destruct (Hne date).
  - intros n r Hr Ho. specialize (Hst1 n). rewrite Ho, Hr in Hst1.
    destruct (Hc n) as [(d & _ & _ & Hnone & _)|[_ ->]]; [congruence|done].
  - intros n r Hr. destruct (Hc n) as [(d & [Hd Hnf] & -> & Hnone & Hrep & _)|[_ Hsame]].
    + right. apply Hexp in Hd as (day & -> & Hday). exists day. rewrite Hr in Hrep.
      destruct (report_of_span _ _ _ _ _ _ _ (eq_sym Hrep)) as [Hs He];
        [unfold writable in *; lia|]. split_and!; try done; try lia.
      * intros n' Hn' Ho Hfd. apply Hnf. exists n'. split; [|done].
        apply Hnames. by rewrite Hst1, Ho.
    + left. rewrite Hsame, Hst1 in Hr. by destruct (is_old (limit_of now) n).
Qed.

(** When the pruning met no error, no create fails because its report
    exists already: a date is only missing when no report has its name. *)
Theorem Reconcile_no_conflict (now : GoTime) (instance : MeterBase) (namespace : string)
    (st st1 st' : St) (l : list (MeterReport LS)) (names : list string) :
  metering_ready instance = true → List st = Ok l →
  removeOldReports now (sortMeterReports l) dateRangeInDays st = (st1, (names, None)) →
  writable (day_of (UTC now) - 90) → writable (day_of (UTC now)) →
  Reconcile Version GVKForObject now (Ok instance) namespace st ≠ Ret (st', Some AlreadyExists).
Proof.
  intros Hready Hl Hrm Hw1 Hw2 Hrun. unfold removeOldReports in Hrm. fold (limit_of now) in Hrm.
  rewrite (Reconcile_ready _ _ _ _ _ Hready Hl), Hrm in Hrun.
  destruct (pruned _ _ _ _ _ Hl Hrm) as [Hnames _].
  apply create_loop_conflict in Hrun as (date & Hd & Hs).
  - apply elem_of_FindDiff in Hd as [_ Hd]. apply Hd. apply elem_of_found.
    eexists; split; [by apply Hnames|apply found_date_new].
  - apply FindDiff_NoDup. destruct (decide (install_day instance ≤ day_of (UTC now))%Z).
    + apply expected_NoDup; [|done]. unfold writable, first_day, dateRangeInDays in *. lia.
    + unfold expected_of. rewrite expected_days, seqZ_nil; [constructor|].
      unfold first_day. lia.
Qed.
End reconcile.

(** A cluster with a report of yesterday and one of last year. *)
Definition yesterdays : MeterReport unit :=
  mkMeterReport _ (mkMeta "meter-report-2022-01-07" "ns" "" 0 ∅ ∅ [])
    (mkMeterReportSpec _ "" (midnight 18999) (midnight 19000) None [] []) zero_status.
Definition last_years : MeterReport unit :=
  mkMeterReport _ (mkMeta "meter-report-2021-01-07" "ns" "" 0 ∅ ∅ [])
    (mkMeterReportSpec _ "" (midnight 18634) (midnight 18635) None [] []) zero_status.
Definition some_cluster : Cluster unit :=
  (cluster_create last_years (cluster_create yesterdays empty_cluster).1).1.
Definition base_ready : MeterBase :=
  mkMeterBase (mkMeta "rhm-marketplaceconfig-meterbase" "ns" "uid" 1 ∅ ∅ []) (midnight 18997) true
    None [mkCondition ConditionInstalling "False" ReasonMeterBaseFinishInstall "" 0].
Definition some_gvk (_ : MeterBase) : option GroupVersionKind :=
  Some (mkGVK "marketplace.redhat.com/v1alpha1" "MeterBase").
Definition pruned_cluster : Cluster unit * (list string * option ClientError) :=
  removeOldReports today (sortMeterReports [yesterdays; last_years]) dateRangeInDays some_cluster.
Definition reconciled : outcome (Cluster unit * option ClientError) :=
  Reconcile "v" some_gvk today (Ok base_ready) "ns" some_cluster.
Definition the_cluster (o : outcome (Cluster unit * option ClientError)) : Cluster unit :=
  match o with Ret (c, _) => c | Panic => empty_cluster end.

Lemma Reconcile_covers_witness :
  (map_to_list (stored (the_cluster reconciled))).*1 ≡ₚ
    ["meter-report-2022-01-05"; "meter-report-2022-01-06"; "meter-report-2022-01-07";
     "meter-report-2022-01-08"] ∧
  (∀ day, (18997 ≤ day ≤ 19000)%Z →
     ∃ n, found_date n = Some (format_day day) ∧ is_Some (stored (the_cluster reconciled) !! n)).
Proof.
  split; [apply (bool_decide_unpack _); vm_compute; exact I|].
  assert (Hc : Reconcile "v" some_gvk today (Ok base_ready) "ns" some_cluster =
    Ret (the_cluster reconciled, None)) by (vm_compute; reflexivity).
  assert (Hl : List some_cluster = Ok (map_to_list (stored some_cluster)).*2)
    by (vm_compute; reflexivity).
  assert (Hp : removeOldReports today (sortMeterReports (map_to_list (stored some_cluster)).*2)
    dateRangeInDays some_cluster = (pruned_cluster.1, (pruned_cluster.2.1, None)))
    by (vm_compute; reflexivity).
  destruct (Reconcile_covers (LS := unit) "v" some_gvk today base_ready "ns" some_cluster _ _
    (map_to_list (stored some_cluster)).*2 _ eq_refl Hl Hp Hc) as [Hd _];
    [apply (bool_decide_unpack _); vm_compute; exact I..|].
  intros day Hday. apply Hd. exact Hday.
Defined.

Lemma Reconcile_no_conflict_witness :
  Reconcile "v" some_gvk today (Ok base_ready) "ns" some_cluster ≠
    Ret (the_cluster reconciled, Some AlreadyExists).
Proof.
  assert (Hl : List some_cluster = Ok (map_to_list (stored some_cluster)).*2)
    by (vm_compute; reflexivity).
  assert (Hp : removeOldReports today (sortMeterReports (map_to_list (stored some_cluster)).*2)
    dateRangeInDays some_cluster = (pruned_cluster.1, (pruned_cluster.2.1, None)))
    by (vm_compute; reflexivity).
  eapply (Reconcile_no_conflict (LS := unit) "v" some_gvk today base_ready "ns" some_cluster _ _
    (map_to_list (stored some_cluster)).*2 _ eq_refl Hl Hp);
    apply (bool_decide_unpack _); vm_compute; exact I.
Defined.
