(* ===== verification/Filters.v ===== *)
(** * Workload filters

    The model of [metering/v2/pkg/filter/filter.go] and [lookup.go]: the filters
    a meter definition compiles to, the walk up the owners of an object, and the
    test of an object against a definition. Label selectors, the lookup of an
    object's owners and the Kubernetes client are arguments. *)

From S2P Require Import Prelude Workloads MeterDefinition PromLabels.
Local Open Scope go_scope.

(** ** Data *)

(** An [interface{}] argument: an object with metadata, or anything else. *)
Inductive GoValue := GObj (o : Object) | GOther.

(** The errors the callers tell apart. *)
Inductive FilterError := ENotFound | EAccessDenied | EOther (msg : string).

#[export] Instance FilterError_eq_dec : EqDecision FilterError.
Proof. solve_decision. Defined.

(** A call that may fail, and may not return: [None] is running out of fuel. *)
Definition run (A : Type) : Type := option (result FilterError A).

Section filters.
(** [labels.Selector] with its [Matches], and [FindOwnerHelper.FindOwner]. *)
Context {Selector : Type}.
Variable SelectorMatches : Selector → gmap string string → bool.
Variable FindOwner : string → string → OwnerReference → result FilterError (list OwnerReference).

Inductive FilterRuntimeObject :=
| WorkloadNamespaceFilter (namespaces : list string)
| WorkloadTypeFilter (gvks : list GoType)
| WorkloadFilterForOwner (ownerFilter : GroupVersionKind) (maxDepth : nat)
| WorkloadLabelFilter (labelSelector : Selector)
| WorkloadAnnotationFilter (annotationSelector : Selector)
| FalseFilter.

Definition FilterRuntimeObjects := list FilterRuntimeObject.

Definition NewWorkloadFilterForOwner (ownerFilter : GroupVersionKind) : FilterRuntimeObject :=
  WorkloadFilterForOwner ownerFilter 5.

Definition owner_matches (g : GroupVersionKind) (ref : OwnerReference) : bool :=
  (ORAPIVersion ref == APIVersion g) && (ORKind ref == Kind g).

(** [for i := range refs]: stop at the first error or owner found. *)
Fixpoint first_found (f : nat → OwnerReference → run bool) (i : nat)
    (refs : list OwnerReference) : run bool :=
  match refs with
  | [] => Some (Ok false)
  | ref :: refs =>
      match f i ref with
      | Some (Ok false) => first_found f (S i) refs
      | r => r
      end
  end.

(** [getOwners]. The loop variable of the last loop hides the depth: what is
    passed on is the position of the reference, plus one. *)
Fixpoint getOwners (fuel : nat) (ownerFilter : GroupVersionKind) (name namespace : string)
    (owner : option OwnerReference) (inRefs : list OwnerReference) (i maxDepth : nat)
    : run bool :=
  match fuel with
  | O => None
  | S fuel =>
      match (match owner with
             | Some o => FindOwner name namespace o
             | None => Ok inRefs
             end) with
      | Err e => Some (Err e)
      | Ok refs =>
          if existsb (owner_matches ownerFilter) refs then Some (Ok true)
          else if negb (i <? maxDepth)%nat then Some (Ok false)
          else
            first_found (λ i ref, getOwners fuel ownerFilter (ORName ref) namespace (Some ref) []
                                    (i + 1) maxDepth) 0 refs
      end
  end.

Fixpoint namespace_loop (namespaces : list string) (ns : string) : bool :=
  match namespaces with
  | [] => false
  | n :: rest => if n == "" then true else if n == ns then true else namespace_loop rest ns
  end.

(** [f.Filter(obj)], by the dynamic type of the filter. *)
Definition Filter (fuel : nat) (f : FilterRuntimeObject) (obj : GoValue) : run bool :=
  let not_object := Some (Err (EOther "type was not a metav1.Object")) in
  match f with
  | WorkloadNamespaceFilter namespaces =>
      match obj with
      | GObj o => Some (Ok (namespace_loop namespaces (Namespace (ObjMeta o))))
      | GOther => not_object
      end
  | WorkloadTypeFilter gvks =>
      match obj with
      | GObj o => Some (Ok (existsb (λ gvk, gvk == ObjType o) gvks))
      | GOther => Some (Ok false)
      end
  | WorkloadFilterForOwner ownerFilter maxDepth =>
      match obj with
      | GObj o => getOwners fuel ownerFilter (Name (ObjMeta o)) (Namespace (ObjMeta o)) None
                    (OwnerReferences (ObjMeta o)) 0 maxDepth
      | GOther => not_object
      end
  | WorkloadLabelFilter s =>
      match obj with
      | GObj o => Some (Ok (SelectorMatches s (Labels (ObjMeta o))))
      | GOther => not_object
      end
  | WorkloadAnnotationFilter s =>
      match obj with
      | GObj o => Some (Ok (SelectorMatches s (Annotations (ObjMeta o))))
      | GOther => not_object
      end
  | FalseFilter => Some (Ok false)
  end.

(** The loop of [Test] from position [i]; [pass] is the named result so far. *)
Fixpoint test_loop (fuel : nat) (s : FilterRuntimeObjects) (obj : GoValue) (i : Z) (pass : bool)
    : option (bool * Z * option FilterError) :=
  match s with
  | [] => Some (pass, -1, None)
  | f :: s =>
      match Filter fuel f obj with
      | None => None
      | Some (Err e) => Some (false, i, Some e)
      | Some (Ok false) => Some (false, i, None)
      | Some (Ok true) => test_loop fuel s obj (i + 1) true
      end
  end%Z.

Definition Test (fuel : nat) (s : FilterRuntimeObjects) (obj : GoValue)
    : option (bool * Z * option FilterError) := test_loop fuel s obj 0 false.

Fixpoint Types (s : FilterRuntimeObjects) : list GoType :=
  match s with
  | [] => []
  | WorkloadTypeFilter gvks :: _ => gvks
  | _ :: s => Types s
  end.

Fixpoint Namespaces (s : FilterRuntimeObjects) : list string :=
  match s with
  | [] => []
  | WorkloadNamespaceFilter namespaces :: _ => namespaces
  | _ :: s => Namespaces s
  end.

(** ** The lookup filter of a definition *)

Context {LS : Type}.

Record MeterDefinitionLookupFilter := mkLookup {
  MeterDefUID : string;
  MeterDefName : NamespacedName;
  LMeterDefinition : V1Beta1.MeterDefinition LS;
  LWorkloads : list (V1Beta1.ResourceFilter LS);
  LFilters : list FilterRuntimeObjects
}.

(** The client: the CSV kind known to the scheme, the metadata of a CSV, the
    namespaces of each operator group of a namespace, the names of the
    namespaces a selector matches; and [metav1.LabelSelectorAsSelector]. *)
Variable SchemeKnowsCSV : bool.
Variable GetCSV : NamespacedName → result FilterError ObjectMeta.
Variable ListOperatorGroups : string → result FilterError (list (list string)).
Variable ListNamespaces : Selector → result FilterError (list string).
Variable LabelSelectorAsSelector : LS → result FilterError Selector.

Definition NamespaceAll : string := "".

Definition installedByNamespace (instance : V1Beta1.MeterDefinition LS) (csv : ObjectMeta)
    : list string :=
  let own := [Namespace (V1Beta1.Meta instance)] in
  match Annotations csv !! "olm.operatorGroup" with
  | None => own
  | Some olmGroup =>
      match Annotations csv !! "olm.operatorNamespace" with
      | None => own
      | Some olmNamespace =>
          if (olmGroup == "global-operators") && (olmNamespace == "openshift-operators") then
            if olmNamespace == Namespace csv then [NamespaceAll] else []
          else own
      end
  end.

(** A failed list of the operator groups that is not a not-found leaves an
    empty list. *)
Definition findNamespacesForResource (instance : V1Beta1.MeterDefinition LS)
    (resourceFilter : V1Beta1.ResourceFilter LS) : result FilterError (list string) :=
  let ns := Namespace (V1Beta1.Meta instance) in
  let namespaces := if ns == "openshift-operators" then [NamespaceAll] else [ns] in
  match V1Beta1.FNamespace resourceFilter with
  | None => Ok namespaces
  | Some nf =>
      if V1Beta1.UseOperatorGroup nf then
        if negb SchemeKnowsCSV then Err (EOther "no kind is registered")
        else
          match V1Beta1.InstalledBy (V1Beta1.Spec instance) with
          | Some installedBy =>
              match GetCSV (ToTypes installedBy) with
              | Err ENotFound => Ok namespaces
              | Err _ => Err (EOther "csv not found due to error")
              | Ok csvMeta => Ok (installedByNamespace instance csvMeta)
              end
          | None =>
              match ListOperatorGroups ns with
              | Ok [ogNamespaces] => Ok ogNamespaces
              | _ => Ok namespaces
              end
          end
      else
        match V1Beta1.NFSelector nf with
        | Some ls =>
            selector ← LabelSelectorAsSelector ls;
            match ListNamespaces selector with
            | Err _ => Err (EOther "namespace list error")
            | Ok items => Ok (namespaces ++ items)
            end
        | None => Ok namespaces
        end
  end.

Definition type_filter (workloadType : string) : result FilterError (list GoType) :=
  if workloadType == WorkloadTypePod then Ok [TPod]
  else if workloadType == WorkloadTypePVC then Ok [TPersistentVolumeClaim]
  else if workloadType == WorkloadTypeService then Ok [TService]
  else Err (EOther "unknown type filter").

(** One optional selector of a resource filter. *)
Definition selector_filter (mk : Selector → FilterRuntimeObject) (s : option (option LS))
    : result FilterError FilterRuntimeObjects :=
  match mjoin s with
  | Some ls => selector ← LabelSelectorAsSelector ls; Ok [mk selector]
  | None => Ok []
  end.

Definition createFilter (instance : V1Beta1.MeterDefinition LS)
    (filter : V1Beta1.ResourceFilter LS) : result FilterError FilterRuntimeObjects :=
  namespaces ← findNamespacesForResource instance filter;
  gvks ← type_filter (V1Beta1.FWorkloadType filter);
  labels ← selector_filter WorkloadLabelFilter (V1Beta1.FLabel filter);
  annotations ← selector_filter WorkloadAnnotationFilter (V1Beta1.FAnnotation filter);
  let owners := match V1Beta1.FOwnerCRD filter with
                | Some gvk => [NewWorkloadFilterForOwner gvk]
                | None => []
                end in
  Ok ([WorkloadNamespaceFilter namespaces; WorkloadTypeFilter gvks] ++
      labels ++ annotations ++ owners).

Definition createFilters (instance : V1Beta1.MeterDefinition LS)
    : result FilterError (list FilterRuntimeObjects) :=
  mapM_result (createFilter instance) (V1Beta1.ResourceFilters (V1Beta1.Spec instance)).

Definition New (meterdef : V1Beta1.MeterDefinition LS)
    : result FilterError MeterDefinitionLookupFilter :=
  let meta := V1Beta1.Meta meterdef in
  if bool_decide (length (V1Beta1.ResourceFilters (V1Beta1.Spec meterdef)) = 0%nat)
  then Err (EOther "no resource filters provided")
  else
    filters ← createFilters meterdef;
    Ok (mkLookup (UID meta) (mkNN (Namespace meta) (Name meta)) meterdef
          (V1Beta1.ResourceFilters (V1Beta1.Spec meterdef)) filters).

(** [namespaces[ns] = append(namespaces[ns], types...)] over both loops. *)
Definition GetNamespaces (s : MeterDefinitionLookupFilter) : gmap string (list GoType) :=
  foldl (λ m f, foldl (λ m ns, <[ns := default [] (m !! ns) ++ Types f]> m) m (Namespaces f))
    ∅ (LFilters s).

Fixpoint matches_loop (fuel : nat) (filters : list FilterRuntimeObjects) (obj : GoValue)
    : run bool :=
  match filters with
  | [] => Some (Ok false)
  | workloadFilters :: filters =>
      match Test fuel workloadFilters obj with
      | None => None
      | Some (_, _, Some ENotFound) => Some (Ok false)
      | Some (_, _, Some e) => Some (Err e)
      | Some (true, _, None) => Some (Ok true)
      | Some (false, _, None) => matches_loop fuel filters obj
      end
  end.

Definition LookupMatches (fuel : nat) (s : MeterDefinitionLookupFilter) (obj : GoValue)
    : run bool :=
  match obj with
  | GOther => Some (Err (EOther "type is not a metav1 Object"))
  | GObj _ => matches_loop fuel (LFilters s) obj
  end.
End filters.

Arguments FilterRuntimeObject : clear implicits.
Arguments FilterRuntimeObjects : clear implicits.
Arguments MeterDefinitionLookupFilter : clear implicits.

(** ** Lemmas *)

Lemma namespace_loop_spec l ns :
  namespace_loop l ns = true ↔ "" ∈ l ∨ ns ∈ l.
Proof.
  induction l as [|n l IH]; cbn; [set_solver|]. rewrite !elem_of_cons.
  repeat case_bool_decide; naive_solver.
Qed.

Section lemmas.
Context {Selector LS : Type}.
Variable SelectorMatches : Selector → gmap string string → bool.
Variable FindOwner : string → string → OwnerReference → result FilterError (list OwnerReference).

(** [t] is among the references, or among the owners of one of them. *)
Inductive owner_chain (ns : string) : list OwnerReference → OwnerReference → Prop :=
| chain_here refs t : t ∈ refs → owner_chain ns refs t
| chain_up refs r refs' t :
    r ∈ refs → FindOwner (ORName r) ns r = Ok refs' → owner_chain ns refs' t →
    owner_chain ns refs t.

Lemma first_found_true f i refs :
  first_found f i refs = Some (Ok true) → ∃ j ref, ref ∈ refs ∧ f j ref = Some (Ok true).
Proof.
  revert i; induction refs as [|ref refs IH]; intros i; cbn [first_found]; [done|].
  destruct (f i ref) as [[[]|]|] eqn:Hf; try done.
  - intros _. exists i, ref. split; [by left|done].
  - intros (j & r & Hr & Hj)%IH. exists j, r. split; [by right|done].
Qed.

Lemma getOwners_sound fuel g name ns owner inRefs i d :
  getOwners FindOwner fuel g name ns owner inRefs i d = Some (Ok true) →
  ∃ refs t, match owner with
            | Some o => FindOwner name ns o = Ok refs
            | None => refs = inRefs
            end ∧ owner_chain ns refs t ∧ owner_matches g t = true.
Proof.
  revert name owner inRefs i; induction fuel as [|fuel IH]; intros name owner inRefs i;
    cbn [getOwners]; [done|].
  destruct (match owner with Some o => _ | None => _ end) as [refs|e] eqn:Hr; [|done].
  assert (Hrefs : match owner with
            | Some o => FindOwner name ns o = Ok refs
            | None => refs = inRefs end) by (destruct owner; congruence).
  destruct (existsb (owner_matches g) refs) eqn:He.
  - intros _. apply existsb_True_exists in He as (t & Ht & Hm).
    exists refs, t. split_and!; [done|by constructor|done].
  - destruct (i <? d)%nat; cbn [negb]; [|done].
    intros (j & ref & Hin & Hj)%first_found_true.
    apply IH in Hj as (refs' & t & Hf & Hc & Hm).
    exists refs, t. split_and!; [done|by eapply chain_up|done].
Qed.

(** The owners of an object cannot go round in circles when each step up
    lowers a rank. *)
Definition ranked (ns : string) (rank : OwnerReference → nat) : Prop :=
  ∀ r refs r', FindOwner (ORName r) ns r = Ok refs → r' ∈ refs → (rank r' < rank r)%nat.

Lemma first_found_total f i refs :
  (∀ j ref, ref ∈ refs → f j ref ≠ None) → first_found f i refs ≠ None.
Proof.
  revert i; induction refs as [|ref refs IH]; intros i Hf; cbn [first_found]; [done|].
  pose proof (Hf i ref (list_elem_of_here _ _)).
  destruct (f i ref) as [[[]|]|]; try done. apply IH. intros j r Hr. apply Hf. by right.
Qed.

Lemma getOwners_ref_total ns rank g d fuel r i :
  ranked ns rank → (rank r < fuel)%nat →
  getOwners FindOwner fuel g (ORName r) ns (Some r) [] i d ≠ None.
Proof.
  intros Hrank. revert r i; induction fuel as [|fuel IH]; intros r i Hr; [lia|].
  cbn [getOwners]. destruct (FindOwner (ORName r) ns r) as [refs|] eqn:Hf; [|done].
  destruct (existsb _ _); [done|]. destruct (negb _); [done|].
  apply first_found_total. intros j ref Hin. apply IH.
  pose proof (Hrank _ _ _ Hf Hin). lia.
Qed.

Lemma test_loop_pass fuel (s : FilterRuntimeObjects Selector) obj i b :
  test_loop SelectorMatches FindOwner fuel s obj i b = Some (true, (-1)%Z, None) ↔
  Forall (λ f, Filter SelectorMatches FindOwner fuel f obj = Some (Ok true)) s ∧
  (s = [] → b = true).
Proof.
  revert i b; induction s as [|f s IH]; intros i b; cbn [test_loop].
  - split; [intros [= ->]; by split|]. intros [_ H]. by rewrite H.
  - rewrite Forall_cons. destruct (Filter _ _ fuel f obj) as [[[]|]|]; [|naive_solver..].
    rewrite IH. naive_solver.
Qed.

Lemma test_loop_true fuel (s : FilterRuntimeObjects Selector) obj i b j e :
  test_loop SelectorMatches FindOwner fuel s obj i b = Some (true, j, e) → j = (-1)%Z ∧ e = None.
Proof.
  revert i b; induction s as [|f s IH]; intros i b; cbn [test_loop].
  - by intros [= -> <- <-].
  - destruct (Filter _ _ fuel f obj) as [[[]|]|]; try done. apply IH.
Qed.

Lemma matches_loop_true fuel (filters : list (FilterRuntimeObjects Selector)) obj :
  matches_loop SelectorMatches FindOwner fuel filters obj = Some (Ok true) →
  ∃ row, row ∈ filters ∧ row ≠ [] ∧
    Forall (λ f, Filter SelectorMatches FindOwner fuel f obj = Some (Ok true)) row.
Proof.
  induction filters as [|row filters IH]; cbn [matches_loop]; [done|].
  destruct (Test SelectorMatches FindOwner fuel row obj) as [[[[] j] [[]|]]|] eqn:Ht; try done.
  - intros _. destruct (test_loop_true _ _ _ _ _ _ _ Ht) as [-> _].
    apply test_loop_pass in Ht as [Hall Hne]. exists row. split_and!; [by left| |done].
    intros ->. by specialize (Hne eq_refl).
  - intros (r & Hin & Hr)%IH. exists r. split; [by right|done].
Qed.
End lemmas.

(** ** Properties *)

Section properties.
Context {Selector LS : Type}.
Variable SelectorMatches : Selector → gmap string string → bool.
Variable FindOwner : string → string → OwnerReference → result FilterError (list OwnerReference).
Variable SchemeKnowsCSV : bool.
Variable GetCSV : NamespacedName → result FilterError ObjectMeta.
Variable ListOperatorGroups : string → result FilterError (list (list string)).
Variable ListNamespaces : Selector → result FilterError (list string).
Variable LabelSelectorAsSelector : LS → result FilterError Selector.

#[local] Abbreviation find := (findNamespacesForResource SchemeKnowsCSV GetCSV
  ListOperatorGroups ListNamespaces LabelSelectorAsSelector).
#[local] Abbreviation create := (createFilter SchemeKnowsCSV GetCSV
  ListOperatorGroups ListNamespaces LabelSelectorAsSelector).
#[local] Abbreviation new := (New SchemeKnowsCSV GetCSV
  ListOperatorGroups ListNamespaces LabelSelectorAsSelector).

Lemma createFilter_row d rf row :
  create d rf = Ok row →
  ∃ namespaces t labels annotations owners,
    find d rf = Ok namespaces ∧ type_filter (V1Beta1.FWorkloadType rf) = Ok [t] ∧
    row = [WorkloadNamespaceFilter namespaces; WorkloadTypeFilter [t]] ++
          labels ++ annotations ++ owners ∧
    selector_filter LabelSelectorAsSelector WorkloadLabelFilter (V1Beta1.FLabel rf) = Ok labels ∧
    selector_filter LabelSelectorAsSelector WorkloadAnnotationFilter (V1Beta1.FAnnotation rf)
      = Ok annotations ∧
    owners = match V1Beta1.FOwnerCRD rf with
             | Some gvk => [NewWorkloadFilterForOwner gvk] | None => [] end.
Proof.
  unfold create. destruct (find d rf) as [namespaces|]; cbn [mbind result_mbind]; [|done].
  destruct (type_filter _) as [gvks|] eqn:Ht; cbn [mbind result_mbind]; [|done].
  destruct (selector_filter _ _ (V1Beta1.FLabel rf)) as [labels|]; cbn [mbind result_mbind]; [|done].
  destruct (selector_filter _ _ (V1Beta1.FAnnotation rf)) as [anns|]; cbn [mbind result_mbind];
    [|done].
  intros [= <-]. unfold type_filter in Ht.
  repeat case_bool_decide; simplify_eq; by eexists _, _, _, _, _.
Qed.

Lemma New_rows d s row :
  new d = Ok s → row ∈ LFilters s →
  ∃ rf, rf ∈ V1Beta1.ResourceFilters (V1Beta1.Spec d) ∧ create d rf = Ok row.
Proof.
  unfold new. case_bool_decide; [done|]. unfold createFilters.
  destruct (mapM_result _ _) as [rows|] eqn:Hm; cbn [mbind result_mbind]; [|done].
  intros [= <-]; cbn [LFilters]. apply mapM_result_Ok in Hm. clear -Hm.
  intros Hrow. induction Hm as [|rf r rfs rows Hrf Hm IH]; [by apply elem_of_nil in Hrow|].
  apply elem_of_cons in Hrow as [->|Hrow]; [exists rf; split; [by left|done]|].
  destruct (IH Hrow) as (rf' & Hin & Hc). exists rf'. split; [by right|done].
Qed.

Lemma selector_passes mk s fs f (o : Object) (view : Object → gmap string string) fuel :
  (∀ sel, Filter SelectorMatches FindOwner fuel (mk sel) (GObj o) =
          Some (Ok (SelectorMatches sel (view o)))) →
  selector_filter LabelSelectorAsSelector mk s = Ok fs →
  Forall (λ f, Filter SelectorMatches FindOwner fuel f (GObj o) = Some (Ok true)) (fs ++ f) →
  ∀ ls, mjoin s = Some ls →
    ∃ sel, LabelSelectorAsSelector ls = Ok sel ∧ SelectorMatches sel (view o) = true.
Proof.
  intros Hmk Hs [Hall _]%Forall_app ls Hls. unfold selector_filter in Hs. rewrite Hls in Hs.
  destruct (LabelSelectorAsSelector ls) as [sel|]; cbn in Hs; [|done].
  injection Hs as <-. exists sel. split; [done|].
  apply Forall_cons in Hall as [Hf _]. rewrite Hmk in Hf. congruence.
Qed.

(** C30: an object the lookup filter of a definition accepts is one that some
    resource filter of the definition describes: it lies in one of the
    namespaces found for it, has the type it names, carries the labels and the
    annotations its selectors ask for, and has an owner, direct or further up,
    of the kind it asks for. *)
Theorem LookupMatches_sound (d : V1Beta1.MeterDefinition LS) s (fuel : nat) (o : Object) :
  new d = Ok s →
  LookupMatches SelectorMatches FindOwner fuel s (GObj o) = Some (Ok true) →
  ∃ rf, rf ∈ V1Beta1.ResourceFilters (V1Beta1.Spec d) ∧
    (∃ ns, find d rf = Ok ns ∧ (NamespaceAll ∈ ns ∨ Namespace (ObjMeta o) ∈ ns)) ∧
    type_filter (V1Beta1.FWorkloadType rf) = Ok [ObjType o] ∧
    (∀ ls, mjoin (V1Beta1.FLabel rf) = Some ls → ∃ sel,
       LabelSelectorAsSelector ls = Ok sel ∧ SelectorMatches sel (Labels (ObjMeta o)) = true) ∧
    (∀ ls, mjoin (V1Beta1.FAnnotation rf) = Some ls → ∃ sel,
       LabelSelectorAsSelector ls = Ok sel ∧
       SelectorMatches sel (Annotations (ObjMeta o)) = true) ∧
    (∀ gvk, V1Beta1.FOwnerCRD rf = Some gvk → ∃ t,
       owner_chain FindOwner (Namespace (ObjMeta o)) (OwnerReferences (ObjMeta o)) t ∧
       owner_matches gvk t = true).
Proof.
  intros Hnew (row & Hrow & _ & Hall)%matches_loop_true.
  destruct (New_rows _ _ _ Hnew Hrow) as (rf & Hrf & Hc). exists rf. split; [done|].
  destruct (createFilter_row _ _ _ Hc) as (ns & t & ls & anns & ows & Hns & Ht & -> & Hl & Ha & Ho).
  cbn [app] in Hall. apply Forall_cons in Hall as [Hfn Hall].
  apply Forall_cons in Hall as [Hft Hall]. cbn [Filter existsb] in Hfn, Hft.
  injection Hfn as Hfn. apply namespace_loop_spec in Hfn.
  injection Hft as Hft. rewrite orb_false_r, bool_decide_eq_true in Hft. subst t.
  split_and!; [by exists ns|done| | |].
  - exact (selector_passes WorkloadLabelFilter _ _ _ o (λ o, Labels (ObjMeta o)) fuel
      (λ _, eq_refl) Hl Hall).
  - apply Forall_app in Hall as [_ Hall].
    exact (selector_passes WorkloadAnnotationFilter _ _ _ o (λ o, Annotations (ObjMeta o)) fuel
      (λ _, eq_refl) Ha Hall).
  - intros gvk Hgvk. apply Forall_app in Hall as [_ Hall]. apply Forall_app in Hall as [_ Hall].
    rewrite Ho, Hgvk in Hall. apply Forall_cons in Hall as [Hf _].
    apply getOwners_sound in Hf as (refs & t & -> & Hch & Hm). by exists t.
Qed.

Lemma GetNamespaces_mono (m : gmap string (list GoType)) row ns t :
  t ∈ default [] (m !! ns) →
  t ∈ default [] (foldl (λ m ns, <[ns := default [] (m !! ns) ++ Types (Selector := Selector) row]> m)
                    m (Namespaces row) !! ns).
Proof.
  intros Ht. apply foldl_inv; [done|]. intros m' n _ IH.
  destruct (decide (n = ns)) as [->|]; [rewrite lookup_insert_eq; set_solver|].
  by rewrite lookup_insert_ne.
Qed.

Lemma GetNamespaces_row (m : gmap string (list GoType)) (row : FilterRuntimeObjects Selector) ns t :
  ns ∈ Namespaces row → t ∈ Types row →
  t ∈ default [] (foldl (λ m ns, <[ns := default [] (m !! ns) ++ Types row]> m)
                    m (Namespaces row) !! ns).
Proof.
  intros Hns Ht. apply list_elem_of_split in Hns as (l1 & l2 & Hns). rewrite Hns.
  rewrite foldl_app. cbn [foldl].
  apply (foldl_inv (λ m : gmap string (list GoType), t ∈ default [] (m !! ns))).
  - rewrite lookup_insert_eq. set_solver.
  - intros m' n _ IH. destruct (decide (n = ns)) as [->|]; [rewrite lookup_insert_eq; set_solver|].
    by rewrite lookup_insert_ne.
Qed.

Lemma GetNamespaces_elem (s : MeterDefinitionLookupFilter Selector LS) row ns t :
  row ∈ LFilters s → ns ∈ Namespaces row → t ∈ Types row →
  t ∈ default [] (GetNamespaces s !! ns).
Proof.
  unfold GetNamespaces. intros (l1 & l2 & ->)%list_elem_of_split Hns Ht.
  rewrite foldl_app. cbn [foldl].
  apply (foldl_inv (λ m : gmap string (list GoType), t ∈ default [] (m !! ns))).
  - by apply GetNamespaces_row.
  - intros m row' _. apply GetNamespaces_mono.
Qed.

(** The namespaces a lookup filter announces to the watcher cover what it
    accepts: an object it accepts has its type listed under its own namespace
    or under the name for all namespaces. *)
Theorem GetNamespaces_covers (d : V1Beta1.MeterDefinition LS) s (fuel : nat) (o : Object) :
  new d = Ok s →
  LookupMatches SelectorMatches FindOwner fuel s (GObj o) = Some (Ok true) →
  ObjType o ∈ default [] (GetNamespaces s !! NamespaceAll) ∨
  ObjType o ∈ default [] (GetNamespaces s !! Namespace (ObjMeta o)).
Proof.
  intros Hnew (row & Hrow & _ & Hall)%matches_loop_true.
  destruct (New_rows _ _ _ Hnew Hrow) as (rf & Hrf & Hc).
  destruct (createFilter_row _ _ _ Hc) as (ns & t & ls & anns & ows & Hns & Ht & -> & _).
  cbn [app] in Hall. apply Forall_cons in Hall as [Hfn Hall].
  apply Forall_cons in Hall as [Hft _]. cbn [Filter existsb] in Hfn, Hft.
  injection Hfn as Hfn. apply namespace_loop_spec in Hfn.
  injection Hft as Hft. rewrite orb_false_r, bool_decide_eq_true in Hft. subst t.
  destruct Hfn as [Hns'|Hns']; [left|right];
    (eapply GetNamespaces_elem; [exact Hrow|done|cbn; by left]).
Qed.
End properties.

(** The walk up the owners ends when ownership has a rank that goes down
    at each step, whatever the depth limit; but the limit does not bound it: an
    object that is, through any number of steps, its own owner makes the walk
    run for ever, because the depth handed on is the position of a reference and
    not the number of steps made. *)
Theorem getOwners_termination
    (FindOwner : string → string → OwnerReference → result FilterError (list OwnerReference))
    (g : GroupVersionKind) (ns : string) (maxDepth : nat) :
  (∀ rank refs name, ranked FindOwner ns rank →
     ∃ fuel, getOwners FindOwner fuel g name ns None refs 0 maxDepth ≠ None) ∧
  (∀ r, (1 < maxDepth)%nat → FindOwner (ORName r) ns r = Ok [r] → owner_matches g r = false →
     ∀ fuel name, getOwners FindOwner fuel g name ns None [r] 0 maxDepth = None).
Proof.
  split.
  - intros rank refs name Hrank. exists (S (S (max_list (rank <$> refs)))).
    remember (S (max_list (rank <$> refs))) as n eqn:Hn.
    cbn [getOwners]. destruct (existsb _ refs); [done|]. destruct (negb _); [done|].
    apply first_found_total. intros j ref Hin. rewrite Hn.
    apply (getOwners_ref_total FindOwner ns rank g maxDepth _ ref (j + 1) Hrank).
    assert (Hle : rank ref ≤ max_list (rank <$> refs)); [|lia].
    apply max_list_elem_of_le, list_elem_of_fmap_2, Hin.
  - intros r Hd Hf Hm.
    assert (Hloop : ∀ fuel i, (i < maxDepth)%nat →
      getOwners FindOwner fuel g (ORName r) ns (Some r) [] i maxDepth = None).
    { induction fuel as [|fuel IH]; intros i Hi; [done|]. cbn [getOwners].
      rewrite Hf. cbn [existsb first_found]. rewrite Hm. cbn [orb].
      rewrite (proj2 (Nat.ltb_lt i maxDepth)) by done. cbn [negb].
      by rewrite IH by lia. }
    intros [|fuel] name; [done|]. cbn [getOwners existsb first_found]. rewrite Hm. cbn [orb].
    rewrite (proj2 (Nat.ltb_lt 0 maxDepth)) by lia. cbn [negb].
    by rewrite Hloop by lia.
Qed.

(** *** Witnesses *)

Definition w_pod : Object :=
  mkObject TPod (mkMeta "p1" "ns" "u1" 1 {[ "app" := "x" ]} ∅
                   [mkOwnerRef "apps/v1" "ReplicaSet" "rs1" "u2"]).

(** A replica set that belongs to a database resource. *)
Definition w_owners (name ns : string) (r : OwnerReference)
    : result FilterError (list OwnerReference) :=
  if bool_decide (ORKind r = "ReplicaSet") then Ok [mkOwnerRef "db.io/v1" "Db" "db1" "u3"] else Ok [].

(** A selector is one required label. *)
Definition w_matches (s : string * string) (m : gmap string string) : bool :=
  bool_decide (m !! s.1 = Some s.2).

Definition w_definition : V1Beta1.MeterDefinition (string * string) :=
  V1Beta1.mkMeterDefinition _ (mkMeta "mdef" "ns" "mu" 1 ∅ ∅ [])
    (V1Beta1.mkSpec _ "db.io" "Db"
       [V1Beta1.mkResourceFilter _ None (Some (mkGVK "db.io/v1" "Db"))
          (Some (Some ("app", "x"))) None "Pod"] [] None)
    (mkMeterDefinitionStatus [] [] []).

Definition w_new := New (Selector := string * string) true (λ _, Err ENotFound) (λ _, Ok [])
  (λ _, Ok []) (λ ls, Ok ls).
Definition w_find := findNamespacesForResource (Selector := string * string) true
  (λ _, Err ENotFound) (λ _, Ok []) (λ _, Ok []) (λ ls : string * string, Ok ls).

Lemma LookupMatches_sound_witness :
  ∃ s, w_new w_definition = Ok s ∧
    LookupMatches w_matches w_owners 5 s (GObj w_pod) = Some (Ok true) ∧
    ∃ rf, rf ∈ V1Beta1.ResourceFilters (V1Beta1.Spec w_definition) ∧
      ∃ ns, w_find w_definition rf = Ok ns ∧ (NamespaceAll ∈ ns ∨ "ns" ∈ ns).
Proof.
  eexists. split; [vm_compute; reflexivity|]. split; [vm_compute; reflexivity|].
  edestruct (LookupMatches_sound w_matches w_owners true (λ _, Err ENotFound) (λ _, Ok [])
    (λ _, Ok []) (λ ls : string * string, Ok ls) w_definition) as (rf & Hin & Hns & _).
  - vm_compute. reflexivity.
  - instantiate (1 := w_pod). instantiate (1 := 5). vm_compute. reflexivity.
  - exists rf. split; [exact Hin|exact Hns].
Defined.

Lemma GetNamespaces_covers_witness :
  ∃ s, w_new w_definition = Ok s ∧
    (TPod ∈ default [] (GetNamespaces s !! NamespaceAll) ∨
     TPod ∈ default [] (GetNamespaces s !! "ns")).
Proof.
  eexists. split; [vm_compute; reflexivity|].
  apply (GetNamespaces_covers w_matches w_owners true (λ _, Err ENotFound) (λ _, Ok [])
    (λ _, Ok []) (λ ls : string * string, Ok ls) w_definition _ 5 w_pod);
    vm_compute; reflexivity.
Defined.

Lemma getOwners_termination_witness :
  (∃ fuel, getOwners w_owners fuel (mkGVK "v1" "None") "p1" "ns" None
             (OwnerReferences (ObjMeta w_pod)) 0 5 ≠ None) ∧
  (∀ fuel name, getOwners (λ _ _ r, Ok [r]) fuel (mkGVK "v1" "None") name "ns" None
                  [mkOwnerRef "v1" "A" "a" "u"] 0 5 = None).
Proof.
  split.
  - destruct (getOwners_termination w_owners (mkGVK "v1" "None") "ns" 5) as [H _].
    apply (H (λ r, if bool_decide (ORKind r = "ReplicaSet") then 1 else 0)).
    intros r refs r'. unfold w_owners. destruct (bool_decide (ORKind r = "ReplicaSet")).
    + intros [= <-] ->%list_elem_of_singleton. vm_compute. lia.
    + by intros [= <-] ?%elem_of_nil.
  - destruct (getOwners_termination (λ _ _ r, Ok [r]) (mkGVK "v1" "None") "ns" 5) as [_ H].
    apply H; [lia|reflexivity|vm_compute; reflexivity].
Defined.
