(* ===== verification/NamespaceWatcher.v ===== *)
(** * The namespace watcher

    The model of [metering/v2/pkg/filter/namespace_watcher.go]: which types are
    to be watched in which namespaces, and when the watchers are told that this
    changed. The order in which Go ranges over a map is arbitrary: every
    traversal takes the orders of that run as an argument. *)

From S2P Require Import Prelude Workloads Filters.
Local Open Scope go_scope.

Notation NsTypes := (gmap string (list GoType)).

(** The orders of one traversal: of the definitions' entries, and of the keys of
    the maps that type slices are built from. *)
Record Orders := mkOrders {
  ord_entries : list (NamespacedName * NsTypes) → list (NamespacedName * NsTypes);
  ord_types : gset GoType → list GoType
}.

Definition valid_orders (o : Orders) : Prop :=
  (∀ l, ord_entries o l ≡ₚ l) ∧ (∀ s, ord_types o s ≡ₚ elements s).

(** [watches] holds, for each registered channel, the alerts sent on it. *)
Record NamespaceWatcher := mkWatcher {
  namespaces : gmap NamespacedName NsTypes;
  watches : list (list bool)
}.

Definition ProvideNamespaceWatcher : NamespaceWatcher := mkWatcher ∅ [].

Definition RegisterWatch (n : NamespaceWatcher) : NamespaceWatcher :=
  mkWatcher (namespaces n) (watches n ++ [[]]).

Definition alert (n : NamespaceWatcher) : NamespaceWatcher :=
  mkWatcher (namespaces n) ((λ c, c ++ [true]) <$> watches n).

Definition mergeTypeSlice (o : Orders) (a b : list GoType) : list GoType :=
  ord_types o (list_to_set a ∪ list_to_set b).

Definition mergeMap (o : Orders) (a b : NsTypes) : NsTypes :=
  union_with (λ v w, Some (mergeTypeSlice o v w)) a b.

Definition filterTypeSlice (o : Orders) (a filters : list GoType) : list GoType :=
  ord_types o (list_to_set a ∖ list_to_set filters).

Definition listNamespaces (o : Orders) (n : NamespaceWatcher) : NsTypes :=
  let nses := foldl (λ nses e, mergeMap o nses e.2) ∅
                (ord_entries o (map_to_list (namespaces n))) in
  match nses !! NamespaceAll with
  | Some filterTypes =>
      map_imap (λ ns filters,
        if ns == NamespaceAll then Some filters
        else let result := filterTypeSlice o filters filterTypes in
             if bool_decide (result = []) then None else Some result) nses
  | None => nses
  end.

Definition Get (o : Orders) (n : NamespaceWatcher) : NsTypes := listNamespaces o n.

(** [o1] and [o2] are the orders of the two listings, [o3] that of the merge. *)
Definition addNamespace (o1 o2 o3 : Orders) (key : NamespacedName) (nsTypes : NsTypes)
    (n : NamespaceWatcher) : NamespaceWatcher * bool :=
  let before := listNamespaces o1 n in
  let update v :=
    let n := mkWatcher (<[key := v]> (namespaces n)) (watches n) in
    (n, negb (bool_decide (before = listNamespaces o2 n))) in
  match namespaces n !! key with
  | None => update nsTypes
  | Some stored =>
      if stored != nsTypes then update (mergeMap o3 stored nsTypes) else (n, false)
  end.

Definition AddNamespace (o1 o2 o3 : Orders) (key : NamespacedName) (nsTypes : NsTypes)
    (n : NamespaceWatcher) : NamespaceWatcher :=
  let '(n, a) := addNamespace o1 o2 o3 key nsTypes n in if a then alert n else n.

Definition removeNamespace (o1 o2 : Orders) (key : NamespacedName) (n : NamespaceWatcher)
    : NamespaceWatcher * bool :=
  let before := listNamespaces o1 n in
  let n := mkWatcher (delete key (namespaces n)) (watches n) in
  (n, negb (bool_decide (before = listNamespaces o2 n))).

Definition RemoveNamespace (o1 o2 : Orders) (key : NamespacedName) (n : NamespaceWatcher)
    : NamespaceWatcher :=
  let '(n, a) := removeNamespace o1 o2 key n in if a then alert n else n.

(** ** Abstract specification: a set of types per namespace *)

(** The types some definition asks for in a namespace. *)
Definition asked (m : gmap NamespacedName NsTypes) (ns : string) (t : GoType) : Prop :=
  ∃ key nsTypes ts, m !! key = Some nsTypes ∧ nsTypes !! ns = Some ts ∧ t ∈ ts.

(** What is watched: what is asked for, except where all namespaces cover it. *)
Definition watched (m : gmap NamespacedName NsTypes) (ns : string) (t : GoType) : Prop :=
  asked m ns t ∧ (ns ≠ NamespaceAll → ¬ asked m NamespaceAll t).

Definition listed (l : NsTypes) (ns : string) (t : GoType) : Prop :=
  ∃ ts, l !! ns = Some ts ∧ t ∈ ts.

(** ** Lemmas *)

Section orders.
Variable o : Orders.
Hypothesis Ho : valid_orders o.

Lemma elem_of_ord s t : t ∈ ord_types o s ↔ t ∈ s.
Proof. destruct Ho as [_ H]. rewrite (H s). apply elem_of_elements. Qed.

Lemma listed_mergeMap a b ns t : listed (mergeMap o a b) ns t ↔ listed a ns t ∨ listed b ns t.
Proof.
  unfold listed, mergeMap. setoid_rewrite lookup_union_with.
  destruct (a !! ns) as [v|], (b !! ns) as [w|]; cbn [union_with option_union_with].
  2-4: naive_solver.
  split.
  - intros (ts & [= <-] & Ht). unfold mergeTypeSlice in Ht.
    rewrite elem_of_ord, elem_of_union, !elem_of_list_to_set in Ht. naive_solver.
  - intros H. eexists. split; [done|]. unfold mergeTypeSlice.
    rewrite elem_of_ord, elem_of_union, !elem_of_list_to_set. naive_solver.
Qed.

Lemma listed_fold l acc ns t :
  listed (foldl (λ nses e, mergeMap o nses e.2) acc l) ns t ↔
  listed acc ns t ∨ ∃ e : NamespacedName * NsTypes, e ∈ l ∧ listed e.2 ns t.
Proof.
  revert acc; induction l as [|e l IH]; intros acc; cbn [foldl].
  - split; [by left|]. intros [?|(e & ?%elem_of_nil & _)]; done.
  - rewrite IH, listed_mergeMap. setoid_rewrite elem_of_cons. naive_solver.
Qed.

Lemma listed_merged n ns t :
  listed (foldl (λ nses e, mergeMap o nses e.2) ∅ (ord_entries o (map_to_list (namespaces n)))) ns t
  ↔ asked (namespaces n) ns t.
Proof.
  rewrite listed_fold. destruct Ho as [Hp _]. unfold asked. split.
  - intros [(ts & H & _)|([k m] & Hin & ts & Hm & Ht)]; [by rewrite lookup_empty in H|].
    rewrite Hp in Hin. apply elem_of_map_to_list in Hin. by exists k, m, ts.
  - intros (k & m & ts & Hk & Hm & Ht). right. exists (k, m). split; [|by exists ts].
    rewrite Hp. by apply elem_of_map_to_list.
Qed.

(** A listing shows exactly what is watched, in whatever order it is made. *)
Lemma listNamespaces_watched n ns t :
  listed (listNamespaces o n) ns t ↔ watched (namespaces n) ns t.
Proof.
  unfold listNamespaces, watched. pose proof (listed_merged n) as Hm.
  set (nses := foldl _ _ _) in *. destruct (nses !! NamespaceAll) as [fts|] eqn:Hall.
  - unfold listed at 1. setoid_rewrite map_lookup_imap.
    specialize (Hm) as Hm'. rewrite <- (Hm ns t). rewrite <- (Hm NamespaceAll t).
    unfold listed. rewrite Hall. destruct (nses !! ns) as [ts|] eqn:Hns; cbn; [|naive_solver].
    case_bool_decide as Hnall; [naive_solver|].
    unfold filterTypeSlice. case_bool_decide as Hnil.
    + split; [naive_solver|]. intros [(ts' & [= <-] & Ht) Hno]. exfalso.
      assert (t ∈ ord_types o (list_to_set ts ∖ list_to_set fts)); [|rewrite Hnil in *; set_solver].
      rewrite elem_of_ord, elem_of_difference, !elem_of_list_to_set.
      split; [done|]. intros Hf. apply (Hno Hnall). by exists fts.
    + split.
      * intros (ts' & [= <-] & Ht).
        rewrite elem_of_ord, elem_of_difference, !elem_of_list_to_set in Ht.
        naive_solver.
      * intros [(ts' & [= <-] & Ht) Hno]. eexists; split; [done|].
        rewrite elem_of_ord, elem_of_difference, !elem_of_list_to_set.
        split; [done|]. intros Hf. apply (Hno Hnall). by exists fts.
  - rewrite Hm. split; [|naive_solver]. intros Ha. split; [done|].
    intros _ Hn. apply Hm in Hn as (ts & Hts & _). congruence.
Qed.
End orders.

Lemma asked_insert m key nsTypes ns t :
  asked (<[key := nsTypes]> m) ns t ↔
  listed nsTypes ns t ∨ ∃ k v, k ≠ key ∧ m !! k = Some v ∧ listed v ns t.
Proof.
  unfold asked, listed. split.
  - intros (k & v & ts & Hk & Hv & Ht). apply lookup_insert_Some in Hk as [[<- <-]|[Hne Hk]].
    + left. by exists ts.
    + right. exists k, v. naive_solver.
  - intros [(ts & Hts & Ht)|(k & v & Hne & Hk & ts & Hts & Ht)].
    + exists key, nsTypes, ts. by rewrite lookup_insert_eq.
    + exists k, v, ts. by rewrite lookup_insert_ne by done.
Qed.

(** ** Properties *)

(** Adding what a definition needs makes every type it names watched, in
    the namespace it names it for or in all of them, loses nothing that was
    watched before, and alerts the watchers whenever what is watched changed.
    The entry of a definition only grows. *)
Theorem addNamespace_sound (o1 o2 o3 : Orders) (key : NamespacedName) (nsTypes : NsTypes)
    (n : NamespaceWatcher) :
  valid_orders o1 → valid_orders o2 → valid_orders o3 →
  let '(n', a) := addNamespace o1 o2 o3 key nsTypes n in
  (∀ ns t, asked (namespaces n') ns t ↔ asked (namespaces n) ns t ∨ listed nsTypes ns t) ∧
  (∀ ns t, listed nsTypes ns t →
     listed (listNamespaces o2 n') ns t ∨ listed (listNamespaces o2 n') NamespaceAll t) ∧
  (a = false → ∀ ns t, watched (namespaces n) ns t ↔ watched (namespaces n') ns t).
Proof.
  intros H1 H2 H3. unfold addNamespace.
  assert (Hasked : ∀ v, (∀ ns t, listed v ns t ↔
      (∃ stored, namespaces n !! key = Some stored ∧ listed stored ns t) ∨ listed nsTypes ns t) →
    ∀ ns t, asked (<[key:=v]> (namespaces n)) ns t ↔
      asked (namespaces n) ns t ∨ listed nsTypes ns t).
  { intros v Hv ns t. rewrite asked_insert, Hv. unfold asked, listed.
    split; [naive_solver|]. intros [(k & m & ts & Hk & Hm & Ht)|H]; [|naive_solver].
    destruct (decide (k = key)) as [->|]; naive_solver. }
  assert (Hcov : ∀ m ns t, listed nsTypes ns t → asked (namespaces m) ns t →
    listed (listNamespaces o2 m) ns t ∨ listed (listNamespaces o2 m) NamespaceAll t).
  { intros m ns t _ Ha. rewrite !listNamespaces_watched by done. unfold watched.
    destruct (decide (ns = NamespaceAll)) as [->|]; [tauto|].
    destruct (decide (ns ≠ NamespaceAll ∧ t ∈ default [] (listNamespaces o2 m !! NamespaceAll)))
      as [[_ Hin]|Hnin].
    - right. assert (Hl : listed (listNamespaces o2 m) NamespaceAll t).
      { unfold listed. destruct (listNamespaces o2 m !! NamespaceAll); [by eexists|].
        by apply elem_of_nil in Hin. }
      by apply listNamespaces_watched in Hl.
    - left. split; [done|]. intros _ Hall. apply Hnin. split; [done|].
      assert (Hl : listed (listNamespaces o2 m) NamespaceAll t)
        by (apply listNamespaces_watched; [done|]; by split).
      destruct Hl as (ts & Hl & Ht). by rewrite Hl. }
  assert (Halert : ∀ m, listNamespaces o1 n = listNamespaces o2 m →
    ∀ ns t, watched (namespaces n) ns t ↔ watched (namespaces m) ns t).
  { intros m Heq ns t.
    rewrite <- (listNamespaces_watched o1 H1), <- (listNamespaces_watched o2 H2). by rewrite Heq. }
  destruct (namespaces n !! key) as [stored|] eqn:Hk; [case_bool_decide as Hst|]; cbn [negb].
  - subst stored. split_and!; [|intros ns t Hl; apply Hcov; [done|]|done].
    + intros ns t. split; [by left|]. intros [?|(ts & Hts & Ht)]; [done|]. by exists key, nsTypes, ts.
    + destruct Hl as (ts & Hts & Ht). by exists key, nsTypes, ts.
  - assert (Hv := Hasked (mergeMap o3 stored nsTypes)). cbn [namespaces].
    split_and!.
    + apply Hv. intros ns t. rewrite listed_mergeMap by done. naive_solver.
    + intros ns t Hl. apply Hcov; [done|]. refine (proj2 (Hv _ ns t) (or_intror Hl)).
      intros ns' t'. rewrite listed_mergeMap by done. naive_solver.
    + intros Ha. go_bool. exact (Halert _ Ha).
  - assert (Hv := Hasked nsTypes). cbn [namespaces]. split_and!.
    + apply Hv. naive_solver.
    + intros ns t Hl. apply Hcov; [done|]. refine (proj2 (Hv _ ns t) (or_intror Hl)). naive_solver.
    + intros Ha. go_bool. exact (Halert _ Ha).
Qed.

Definition el_orders : Orders := mkOrders (λ l, l) (λ s, elements s).

Lemma el_orders_valid : valid_orders el_orders.
Proof. by split. Qed.

Definition rev_orders : Orders := mkOrders (λ l, l) (λ s, reverse (elements s)).

Lemma rev_orders_valid : valid_orders rev_orders.
Proof. split; [done|]. intros s. apply reverse_Permutation. Qed.

Definition key_a : NamespacedName := mkNN "ns" "a".
Definition key_b : NamespacedName := mkNN "ns" "b".
Definition two_entries : NamespaceWatcher :=
  mkWatcher {[ key_a := {[ "x" := [TPod] ]}; key_b := {[ "x" := [TService] ]} ]} [[]].

Lemma addNamespace_sound_witness :
  let '(n', a) := addNamespace el_orders el_orders el_orders key_a {[ "y" := [TPod] ]} two_entries in
  a = true ∧
  (∀ ns t, asked (namespaces n') ns t ↔
     asked (namespaces two_entries) ns t ∨ listed {[ "y" := [TPod] ]} ns t).
Proof.
  pose proof (addNamespace_sound el_orders el_orders el_orders key_a {[ "y" := [TPod] ]} two_entries
    el_orders_valid el_orders_valid el_orders_valid) as H.
  split; [vm_compute; reflexivity|exact (proj1 H)].
Defined.

(** Removing a definition alerts the watchers whenever what is watched
    changed; but since the listings are compared as slices, and the slices are
    built by ranging over maps, a removal that changes nothing can alert them
    too. *)
Theorem removeNamespace_alert (o1 o2 : Orders) (key : NamespacedName) (n : NamespaceWatcher) :
  valid_orders o1 → valid_orders o2 →
  ((removeNamespace o1 o2 key n).2 = false →
     ∀ ns t, watched (namespaces n) ns t ↔ watched (delete key (namespaces n)) ns t) ∧
  (∃ o3 o4 n2 absent, valid_orders o3 ∧ valid_orders o4 ∧
     removeNamespace o3 o4 absent n2 = (n2, true)).
Proof.
  intros H1 H2. split.
  - cbn. intros Ha ns t. go_bool.
    change (delete key (namespaces n))
      with (namespaces (mkWatcher (delete key (namespaces n)) (watches n))).
    rewrite <- (listNamespaces_watched o1 H1 n), <- (listNamespaces_watched o2 H2). by rewrite Ha.
  - exists el_orders, rev_orders, two_entries, (mkNN "" "absent").
    split_and!; [apply el_orders_valid|apply rev_orders_valid|vm_compute; reflexivity].
Qed.

Lemma removeNamespace_alert_witness :
  (removeNamespace el_orders el_orders (mkNN "" "absent") two_entries).2 = false ∧
  (∀ ns t, watched (namespaces two_entries) ns t ↔
     watched (delete (mkNN "" "absent") (namespaces two_entries)) ns t).
Proof.
  split; [vm_compute; reflexivity|].
  apply (removeNamespace_alert el_orders el_orders (mkNN "" "absent") two_entries
           el_orders_valid el_orders_valid). vm_compute. reflexivity.
Defined.
