(* ===== verification/Stores.v ===== *)
(** * The object stores

    The model of [metering/v2/pkg/stores/dictionary.go], [store.go] and
    [metering/v2/pkg/types/types.go]: the dictionary of meter definitions with
    their filters, and the store of the objects they match. An indexer of
    client-go is the map it implements; a delta queue is the sequence of the
    calls made to it. *)

From S2P Require Import Prelude Workloads MeterDefinition Filters.
Local Open Scope go_scope.

(** ** Interface: what the stores need of the lookup filters *)

Class LookupFactory (LS F : Type) := {
  factory_new : V1Beta1.MeterDefinition LS → result FilterError F;
  filter_definition : F → V1Beta1.MeterDefinition LS;
  filter_matches : F → Object → result FilterError bool;
  factory_law d f : factory_new d = Ok f → filter_definition f = d
}.

(** The lookup filters of [Filters] are one; a walk up the owners that does not
    end crashes, which shows as an error here. *)
Section instance.
Context {Selector LS : Type}.
Variable SelectorMatches : Selector → gmap string string → bool.
Variable FindOwner : string → string → OwnerReference → result FilterError (list OwnerReference).
Variable SchemeKnowsCSV : bool.
Variable GetCSV : NamespacedName → result FilterError ObjectMeta.
Variable ListOperatorGroups : string → result FilterError (list (list string)).
Variable ListNamespaces : Selector → result FilterError (list string).
Variable LabelSelectorAsSelector : LS → result FilterError Selector.
Variable fuel : nat.

Definition run_matches (f : MeterDefinitionLookupFilter Selector LS) (o : Object)
    : result FilterError bool :=
  match LookupMatches SelectorMatches FindOwner fuel f (GObj o) with
  | Some r => r
  | None => Err (EOther "stack overflow")
  end.

#[export, refine] Instance lookup_factory :
    LookupFactory LS (MeterDefinitionLookupFilter Selector LS) := {|
  factory_new := New SchemeKnowsCSV GetCSV ListOperatorGroups ListNamespaces
                   LabelSelectorAsSelector;
  filter_definition := λ f, LMeterDefinition f;
  filter_matches := run_matches
|}.
Proof.
  intros d f. unfold New. case_bool_decide; [done|].
  destruct (createFilters _ _ _ _ _ d); cbn; [|done]. by intros [= <-].
Defined.
End instance.

(** ** State and errors *)

(** A call on a state: the state it leaves also when it fails. *)
Definition SE (St A : Type) : Type := St → St * result FilterError A.

Definition se_ret {St A} (a : A) : SE St A := λ st, (st, Ok a).
Definition se_fail {St A} (e : FilterError) : SE St A := λ st, (st, Err e).
Definition se_bind {St A B} (m : SE St A) (f : A → SE St B) : SE St B := λ st,
  match m st with
  | (st, Ok a) => f a st
  | (st, Err e) => (st, Err e)
  end.
Definition se_lift {St A} (r : result FilterError A) : SE St A := λ st, (st, r).

Notation "x <- m ;; f" := (se_bind m (λ x, f)) (at level 100, m at next level, right associativity).
Notation "m ;;; f" := (se_bind m (λ _, f)) (at level 100, right associativity).

Lemma se_bind_lift {St A B} (r : result FilterError A) (f : A → SE St B) st :
  se_bind (se_lift r) f st = match r with Ok a => f a st | Err e => (st, Err e) end.
Proof. reflexivity. Qed.

Fixpoint se_each {St A} (f : A → SE St unit) (l : list A) : SE St unit :=
  match l with
  | [] => se_ret tt
  | x :: l => f x ;;; se_each f l
  end.

(** ** Keys *)

(** [cache.MetaNamespaceKeyFunc]. *)
Definition MetaNamespaceKey (m : ObjectMeta) : string :=
  if string_nonempty (Namespace m) then Namespace m +:+ "/" +:+ Name m else Name m.

(** A call made to a delta queue. *)
Inductive Delta (A : Type) := DAdd (a : A) | DUpdate (a : A) | DDelete (a : A)
  | DReplace (l : list A).
Arguments DAdd {A}.
Arguments DUpdate {A}.
Arguments DDelete {A}.
Arguments DReplace {A}.

(** ** The dictionary of meter definitions *)

Section dictionary.
Context {LS F : Type} `{!LookupFactory LS F}.

Record MeterDefinitionExtended := mkExtended {
  XDefinition : V1Beta1.MeterDefinition LS;
  XFilter : F
}.

Record MeterDefinitionDictionary := mkDictionary {
  dcache : gmap string MeterDefinitionExtended;
  ddelta : list (Delta MeterDefinitionExtended)
}.

Definition dkey (x : MeterDefinitionExtended) : string :=
  MetaNamespaceKey (V1Beta1.Meta (XDefinition x)).

(** An [interface{}] argument that is, or is not, a meter definition. *)
Definition newMeterDefinitionExtended (obj : option (V1Beta1.MeterDefinition LS))
    : result FilterError MeterDefinitionExtended :=
  match obj with
  | None => Err (EOther "expected meter definition")
  | Some meterdef => lookup ← factory_new meterdef; Ok (mkExtended meterdef lookup)
  end.

Definition ddelta_call (d : Delta MeterDefinitionExtended) : SE MeterDefinitionDictionary unit :=
  λ st, (mkDictionary (dcache st) (ddelta st ++ [d]), Ok tt).
Definition dcache_set (c : gmap string MeterDefinitionExtended → gmap string MeterDefinitionExtended)
    : SE MeterDefinitionDictionary unit :=
  λ st, (mkDictionary (c (dcache st)) (ddelta st), Ok tt).

Definition DictAdd (obj : option (V1Beta1.MeterDefinition LS))
    : SE MeterDefinitionDictionary unit :=
  addObj <- se_lift (newMeterDefinitionExtended obj) ;;
  ddelta_call (DAdd addObj) ;;; dcache_set <[dkey addObj := addObj]>.

Definition DictUpdate (obj : option (V1Beta1.MeterDefinition LS))
    : SE MeterDefinitionDictionary unit :=
  addObj <- se_lift (newMeterDefinitionExtended obj) ;;
  (λ st,
    let skip := match dcache st !! dkey addObj with
                | Some prevObj =>
                    Generation (V1Beta1.Meta (XDefinition addObj)) ==
                    Generation (V1Beta1.Meta (XDefinition prevObj))
                | None => false
                end in
    if skip then (st, Ok tt)
    else (ddelta_call (DUpdate addObj) ;;; dcache_set <[dkey addObj := addObj]>) st).

Definition DictDelete (obj : option (V1Beta1.MeterDefinition LS))
    : SE MeterDefinitionDictionary unit :=
  addObj <- se_lift (newMeterDefinitionExtended obj) ;;
  ddelta_call (DDelete addObj) ;;; dcache_set (delete (dkey addObj)).

Definition DictReplace (objs : list (option (V1Beta1.MeterDefinition LS)))
    : SE MeterDefinitionDictionary unit :=
  xs <- se_lift (mapM_result newMeterDefinitionExtended objs) ;;
  dcache_set (λ _, foldl (λ m x, <[dkey x := x]> m) ∅ xs) ;;; ddelta_call (DReplace xs).

(** [order] is the order in which the cache lists its values. *)
Definition ListFilters (order : list F → list F) (d : MeterDefinitionDictionary) : list F :=
  order (XFilter <$> (map_to_list (dcache d)).*2).

(** A filter the operator may not evaluate is skipped; any other failure ends
    the search. *)
Fixpoint find_loop (filters : list F) (obj : Object) : result FilterError (list F) :=
  match filters with
  | [] => Ok []
  | localLookup :: filters =>
      match filter_matches localLookup obj with
      | Err EAccessDenied => find_loop filters obj
      | Err e => Err e
      | Ok true => rest ← find_loop filters obj; Ok (localLookup :: rest)
      | Ok false => find_loop filters obj
      end
  end.

Definition FindObjectMatches (order : list F → list F) (d : MeterDefinitionDictionary)
    (obj : Object) : result FilterError (list F) := find_loop (ListFilters order d) obj.
End dictionary.

Arguments MeterDefinitionExtended : clear implicits.
Arguments MeterDefinitionDictionary : clear implicits.

(** ** The store of matched objects *)

Section store.
Context {LS F : Type} `{!LookupFactory LS F}.
(** [apiutil.GVKForObject] on the scheme; the dictionary the store was built
    with, and the order its cache is listed in. *)
Variable GVKForObject : GoType → option GroupVersionKind.
Variable dictionary : MeterDefinitionDictionary LS F.
Variable order : list F → list F.

Record MeterDefinitionEnhancedObject := mkEnhanced {
  EObject : Object;
  EMeterDefinitions : list (V1Beta1.MeterDefinition LS)
}.

Record MeterDefinitionStore := mkStore {
  indexStore : gmap string MeterDefinitionEnhancedObject;
  sdelta : list (Delta MeterDefinitionEnhancedObject)
}.

(** An [interface{}] argument of the store. *)
Inductive StoreArg :=
| AEnhanced (e : MeterDefinitionEnhancedObject)
| AObject (o : Object)
| AOther.

Definition newStoreObject (obj : StoreArg) : result FilterError MeterDefinitionEnhancedObject :=
  match obj with
  | AEnhanced v => Ok v
  | AObject v => Ok (mkEnhanced v [])
  | AOther => Err (EOther "can't convert to meterdefinition extended")
  end.

(** The error of [GVKForObject] is never looked at: an unknown type has an
    empty group, version and kind. *)
Definition GVKNamespaceKey (o : Object) : string :=
  let gvk := default (mkGVK "" "") (GVKForObject (ObjType o)) in
  let gvkString := APIVersion gvk +:+ "/" +:+ Kind gvk +:+ ":" in
  gvkString +:+ MetaNamespaceKey (ObjMeta o).

Definition ekey (e : MeterDefinitionEnhancedObject) : string := GVKNamespaceKey (EObject e).

Definition EnhancedObjectKey (obj : StoreArg) : result FilterError string :=
  mdefObj ← newStoreObject obj; Ok (ekey mdefObj).

(** [MetaNamespaceKeyFunc] does not fail on a meter definition. *)
Definition MeterDefinitionIndex (e : MeterDefinitionEnhancedObject) : list string :=
  (λ d, MetaNamespaceKey (V1Beta1.Meta d)) <$> EMeterDefinitions e.
Definition NamespaceIndex (e : MeterDefinitionEnhancedObject) : list string :=
  [Namespace (ObjMeta (EObject e))].

Definition delta_call (d : Delta MeterDefinitionEnhancedObject) : SE MeterDefinitionStore unit :=
  λ st, (mkStore (indexStore st) (sdelta st ++ [d]), Ok tt).
Definition index_add (e : MeterDefinitionEnhancedObject) : SE MeterDefinitionStore unit :=
  λ st, (mkStore (<[ekey e := e]> (indexStore st)) (sdelta st), Ok tt).
Definition index_delete (e : MeterDefinitionEnhancedObject) : SE MeterDefinitionStore unit :=
  λ st, (mkStore (delete (ekey e) (indexStore st)) (sdelta st), Ok tt).

(** What the filters see of the argument: an enhanced object is not of the type
    of the object it wraps. *)
Definition seen (obj : StoreArg) (mdefObj : MeterDefinitionEnhancedObject) : Object :=
  match obj with
  | AEnhanced _ => mkObject (TOther "MeterDefinitionEnhancedObject") (ObjMeta (EObject mdefObj))
  | _ => EObject mdefObj
  end.

(** The definitions found are appended to the ones the argument carries. *)
Definition addObj (obj : StoreArg) : result FilterError MeterDefinitionEnhancedObject :=
  key ← EnhancedObjectKey obj;
  mdefObj ← newStoreObject obj;
  results ← FindObjectMatches order dictionary (seen obj mdefObj);
  Ok (mkEnhanced (EObject mdefObj)
        (EMeterDefinitions mdefObj ++ (filter_definition <$> results))).

(** Add for processing, or delete when the object matches no definition. *)
Definition emit (e : MeterDefinitionEnhancedObject) : SE MeterDefinitionStore unit :=
  match EMeterDefinitions e with
  | _ :: _ => delta_call (DAdd e)
  | [] => delta_call (DDelete e)
  end.

Definition Add (obj : StoreArg) : SE MeterDefinitionStore unit :=
  e <- se_lift (addObj obj) ;;
  (match EMeterDefinitions e with
   | _ :: _ => delta_call (DAdd e)
   | [] => se_ret tt
   end) ;;;
  index_add e.

Definition Update (obj : StoreArg) : SE MeterDefinitionStore unit :=
  e <- se_lift (addObj obj) ;;
  (λ st,
    match indexStore st !! ekey e with
    | None => (st, Ok tt)
    | Some prevObj =>
        if Generation (ObjMeta (EObject e)) == Generation (ObjMeta (EObject prevObj))
        then (st, Ok tt)
        else (emit e ;;; index_add e) st
    end).

Definition Delete (obj : StoreArg) : SE MeterDefinitionStore unit :=
  mdefObj <- se_lift (newStoreObject obj) ;;
  (λ st,
    match indexStore st !! ekey mdefObj with
    | None => (st, Ok tt)
    | Some fullObj => (delta_call (DDelete fullObj) ;;; index_delete fullObj) st
    end).

(** The same steps, under a lock taken later. *)
Definition DeleteFromIndex (obj : StoreArg) : SE MeterDefinitionStore unit := Delete obj.

Definition Replace (l : list StoreArg) : SE MeterDefinitionStore unit :=
  se_each (λ o, Delete o ;;; Add o) l.

(** The body of the loops of [Resync] and [SyncByIndex]. *)
Definition refresh (mdeo : MeterDefinitionEnhancedObject) : SE MeterDefinitionStore unit :=
  e <- se_lift (addObj (AObject (EObject mdeo))) ;;
  emit e ;;; index_add e.

(** [listed] is the order in which the indexer lists its values. *)
Definition Resync (listed : gmap string MeterDefinitionEnhancedObject →
    list MeterDefinitionEnhancedObject) : SE MeterDefinitionStore unit :=
  λ st, se_each refresh (listed (indexStore st)) st.

(** [indexStore.ByIndex] for one of the two indexes. *)
Definition ByIndex (index : MeterDefinitionEnhancedObject → list string) (value : string)
    (l : list MeterDefinitionEnhancedObject) : list MeterDefinitionEnhancedObject :=
  List.filter (λ e, bool_decide (value ∈ index e)) l.

Definition SyncByIndex (listed : gmap string MeterDefinitionEnhancedObject →
    list MeterDefinitionEnhancedObject) (index : MeterDefinitionEnhancedObject → list string)
    (value : string) : SE MeterDefinitionStore unit :=
  λ st, se_each refresh (ByIndex index value (listed (indexStore st))) st.

Definition GetByKey (key : string) (st : MeterDefinitionStore)
    : option MeterDefinitionEnhancedObject := indexStore st !! key.

Definition StoreGet (obj : StoreArg) (st : MeterDefinitionStore)
    : result FilterError (option MeterDefinitionEnhancedObject) :=
  mdefObj ← newStoreObject obj; Ok (indexStore st !! ekey mdefObj).
End store.

Arguments MeterDefinitionEnhancedObject : clear implicits.
Arguments MeterDefinitionStore : clear implicits.
Arguments StoreArg : clear implicits.

(** ** Lemmas *)

Section lemmas.
Context {LS F : Type} `{!LookupFactory LS F}.
Variable GVKForObject : GoType → option GroupVersionKind.

#[local] Abbreviation key := (ekey (LS := LS) GVKForObject).

(** What the queue's consumer knows after the calls: the objects added last. *)
Definition live_step (m : gmap string (MeterDefinitionEnhancedObject LS))
    (d : Delta (MeterDefinitionEnhancedObject LS)) :=
  match d with
  | DAdd e | DUpdate e => <[key e := e]> m
  | DDelete e => delete (key e) m
  | DReplace l => foldl (λ m e, <[key e := e]> m) ∅ l
  end.
Definition live (st : MeterDefinitionStore LS) : gmap string (MeterDefinitionEnhancedObject LS) :=
  foldl live_step ∅ (sdelta st).

Lemma live_snoc i st d : live (mkStore i (sdelta st ++ [d])) = live_step (live st) d.
Proof. unfold live; cbn [sdelta]. by rewrite foldl_app. Qed.

Lemma live_index i i' l : live (mkStore i l) = live (mkStore i' l).
Proof. reflexivity. Qed.

(** Objects are indexed by their key. *)
Definition indexed (st : MeterDefinitionStore LS) : Prop :=
  ∀ k e, indexStore st !! k = Some e → key e = k.

(** Every matched object of the index is what was added last for its key. *)
Definition complete (st : MeterDefinitionStore LS) : Prop :=
  ∀ k e, indexStore st !! k = Some e → EMeterDefinitions e ≠ [] → live st !! k = Some e.

(** Whatever was added last for a key is a matched object of the index. *)
Definition precise (st : MeterDefinitionStore LS) : Prop :=
  ∀ k e, live st !! k = Some e → indexStore st !! k = Some e ∧ EMeterDefinitions e ≠ [].

(** A state after [emit e] and [index_add e]. *)
Definition put (e : MeterDefinitionEnhancedObject LS) (st : MeterDefinitionStore LS) :=
  (emit e ;;; index_add GVKForObject e) st.

Lemma put_ok e st : (put e st).2 = Ok tt.
Proof. unfold put, se_bind, emit. by destruct (EMeterDefinitions e). Qed.

Lemma put_index e st : indexStore (put e st).1 = <[key e := e]> (indexStore st).
Proof. unfold put, se_bind, emit. by destruct (EMeterDefinitions e). Qed.

Lemma put_live e st :
  live (put e st).1 = if bool_decide (EMeterDefinitions e = []) then delete (key e) (live st)
                      else <[key e := e]> (live st).
Proof.
  unfold put, se_bind, emit. destruct (EMeterDefinitions e) eqn:He.
  - rewrite bool_decide_true by done. apply live_snoc.
  - rewrite bool_decide_false by done. apply live_snoc.
Qed.

Lemma put_indexed e st : indexed st → indexed (put e st).1.
Proof.
  intros H k e'. rewrite put_index. intros [[<- <-]|[_ Hk]]%lookup_insert_Some; [done|by apply H].
Qed.

Lemma put_complete e st : complete st → complete (put e st).1.
Proof.
  intros H k e'. rewrite put_index, put_live.
  intros [[<- <-]|[Hne Hk]]%lookup_insert_Some Hm.
  - rewrite bool_decide_false by done. apply lookup_insert_eq.
  - case_bool_decide; rewrite ?lookup_delete_ne, ?lookup_insert_ne by done; by apply H.
Qed.

Lemma put_precise e st : precise st → precise (put e st).1.
Proof.
  intros H k e'. rewrite put_index, put_live. case_bool_decide as Hm.
  - intros [Hne Hk]%lookup_delete_Some. rewrite lookup_insert_ne by done. by apply H.
  - intros [[<- <-]|[Hne Hk]]%lookup_insert_Some; [by rewrite lookup_insert_eq|].
    rewrite lookup_insert_ne by done. by apply H.
Qed.

Section ops.
Variable dictionary : MeterDefinitionDictionary LS F.
Variable order : list F → list F.

#[local] Abbreviation add_obj := (addObj GVKForObject dictionary order).

(** A predicate [put] and [discard] preserve is preserved by every operation. *)
Definition discard (e : MeterDefinitionEnhancedObject LS) (st : MeterDefinitionStore LS) :=
  mkStore (delete (key e) (indexStore st)) (sdelta st ++ [DDelete e]).

Lemma discard_live e st : live (discard e st) = delete (key e) (live st).
Proof. apply live_snoc. Qed.

Lemma discard_index e st : indexStore (discard e st) = delete (key e) (indexStore st).
Proof. reflexivity. Qed.

Lemma Delete_cases obj st :
  (Delete GVKForObject obj st).1 = st ∨
  ∃ e k, indexStore st !! k = Some e ∧ (Delete GVKForObject obj st).1 = discard e st.
Proof.
  unfold Delete. rewrite se_bind_lift. destruct (newStoreObject obj) as [m|]; [|by left].
  destruct (indexStore st !! key m) as [e|] eqn:Hk; [|by left]. right. exists e, (key m). split; [done|reflexivity].
Qed.

Lemma Update_cases obj st :
  (Update GVKForObject dictionary order obj st).1 = st ∨
  ∃ e, (Update GVKForObject dictionary order obj st).1 = (put e st).1.
Proof.
  unfold Update. rewrite se_bind_lift. destruct (add_obj obj) as [e|]; [|by left].
  destruct (indexStore st !! key e) as [p|]; [|by left].
  case_bool_decide; [by left|]. right. exists e. reflexivity.
Qed.

Lemma refresh_cases m st :
  (refresh GVKForObject dictionary order m st).1 = st ∨
  ∃ e, (refresh GVKForObject dictionary order m st).1 = (put e st).1.
Proof.
  unfold refresh. rewrite se_bind_lift. destruct (add_obj _) as [e|]; [|by left].
  right. exists e. reflexivity.
Qed.

Lemma se_each_inv {A} (P : MeterDefinitionStore LS → Prop) (f : A → SE _ unit) l st :
  (∀ x st, P st → P (f x st).1) → P st → P (se_each f l st).1.
Proof.
  intros Hf. revert st; induction l as [|x l IH]; intros st Hst; cbn [se_each]; [done|].
  unfold se_bind. pose proof (Hf x st Hst) as H.
  destruct (f x st) as [st' [u|e]]; [by apply IH|done].
Qed.

Lemma refreshing_inv (P : MeterDefinitionStore LS → Prop) l st :
  (∀ e st, P st → P (put e st).1) → P st →
  P (se_each (refresh GVKForObject dictionary order) l st).1.
Proof.
  intros Hp. apply se_each_inv. intros m st' H.
  destruct (refresh_cases m st') as [->|[e ->]]; [done|by apply Hp].
Qed.

Lemma discard_complete e st k :
  indexed st → indexStore st !! k = Some e → complete st → complete (discard e st).
Proof.
  intros Hi Hk H k' e'. rewrite discard_live, discard_index.
  intros [Hne Hk']%lookup_delete_Some Hm. rewrite lookup_delete_ne by done. by apply H.
Qed.

Lemma discard_indexed e st : indexed st → indexed (discard e st).
Proof. intros H k' e'. rewrite discard_index. intros [_ Hk]%lookup_delete_Some. by apply H. Qed.

Lemma discard_precise e st k :
  indexed st → indexStore st !! k = Some e → precise st → precise (discard e st).
Proof.
  intros Hi Hk H k' e'. rewrite discard_live, discard_index.
  intros [Hne Hk']%lookup_delete_Some. rewrite lookup_delete_ne by done. by apply H.
Qed.

Lemma Add_cases obj st :
  (Add GVKForObject dictionary order obj st).1 = st ∨
  ∃ e, add_obj obj = Ok e ∧
    ((EMeterDefinitions e ≠ [] ∧
        Add GVKForObject dictionary order obj st = ((put e st).1, Ok tt)) ∨
     (EMeterDefinitions e = [] ∧ Add GVKForObject dictionary order obj st =
        (mkStore (<[key e := e]> (indexStore st)) (sdelta st), Ok tt))).
Proof.
  unfold Add. rewrite se_bind_lift. destruct (add_obj obj) as [e|]; [|by left].
  right. exists e. split; [done|]. unfold put, emit, se_bind.
  destruct (EMeterDefinitions e) eqn:He; [by right|by left].
Qed.

Lemma Add_indexed_complete obj st :
  indexed st ∧ complete st → let st' := (Add GVKForObject dictionary order obj st).1 in
  indexed st' ∧ complete st'.
Proof.
  intros [Hi Hc]. cbv zeta. destruct (Add_cases obj st) as [->|(e & _ & [[_ ->]|[He ->]])]; cbn [fst].
  - done.
  - split; [by apply put_indexed|by apply put_complete].
  - split; intros k e'; cbn [indexStore]; intros [[<- <-]|[_ Hk]]%lookup_insert_Some; try done;
      [by apply Hi|]. intros Hm. rewrite (live_index _ (indexStore st)). destruct st.
    by apply Hc.
Qed.

Lemma Delete_indexed_complete obj st :
  indexed st ∧ complete st → let st' := (Delete GVKForObject obj st).1 in
  indexed st' ∧ complete st'.
Proof.
  intros [Hi Hc]. cbv zeta. destruct (Delete_cases obj st) as [->|(e & k & Hk & ->)]; [done|].
  split; [by apply discard_indexed|by eapply discard_complete].
Qed.
End ops.
End lemmas.

(** ** Properties *)

Section properties.
Context {LS F : Type} `{!LookupFactory LS F}.
Variable GVKForObject : GoType → option GroupVersionKind.

(** One call on the store, with the dictionary as it is at that moment. *)
Inductive store_step : MeterDefinitionStore LS → MeterDefinitionStore LS → Prop :=
| step_add (d : MeterDefinitionDictionary LS F) order obj st :
    store_step st (Add GVKForObject d order obj st).1
| step_update (d : MeterDefinitionDictionary LS F) order obj st :
    store_step st (Update GVKForObject d order obj st).1
| step_delete obj st : store_step st (Delete GVKForObject obj st).1
| step_replace (d : MeterDefinitionDictionary LS F) order l st :
    store_step st (Replace GVKForObject d order l st).1
| step_resync (d : MeterDefinitionDictionary LS F) order listed st :
    store_step st (Resync GVKForObject d order listed st).1
| step_sync (d : MeterDefinitionDictionary LS F) order listed index value st :
    store_step st (SyncByIndex GVKForObject d order listed index value st).1.

Definition empty_store : MeterDefinitionStore LS := mkStore ∅ [].

Lemma refreshing_indexed_complete d order l st :
  indexed GVKForObject st ∧ complete GVKForObject st →
  let st' := (se_each (refresh GVKForObject d order) l st).1 in
  indexed GVKForObject st' ∧ complete GVKForObject st'.
Proof.
  intros H. apply (refreshing_inv GVKForObject d order (λ st, indexed GVKForObject st ∧ complete GVKForObject st));
    [|done].
  intros e st' [Hi Hc]. split; [by apply put_indexed|by apply put_complete].
Qed.

(** C4: in every state the store can reach through its operations, whether
    they succeed or fail, an object is indexed under its own key, and every
    object that matches a definition is the one that was last handed on for
    processing under that key: no match is lost. *)
Theorem store_complete (st : MeterDefinitionStore LS) :
  rtc store_step empty_store st → indexed GVKForObject st ∧ complete GVKForObject st.
Proof.
  intros Hr. assert (H0 : indexed GVKForObject empty_store ∧ complete GVKForObject empty_store)
    by (split; intros k e; cbn [empty_store indexStore]; by rewrite lookup_empty).
  revert H0. induction Hr as [|st1 st2 st3 Hs Hr IH]; intros H; [done|]. apply IH.
  destruct Hs as [d o a st0|d o a st0|a st0|d o l st0|d o lst st0|d o lst ix v st0].
  - by apply Add_indexed_complete.
  - destruct (Update_cases GVKForObject d o a st0) as [->|[e ->]]; [done|].
    destruct H. split; [by apply put_indexed|by apply put_complete].
  - by apply Delete_indexed_complete.
  - unfold Replace. apply (se_each_inv (λ st, indexed GVKForObject st ∧ complete GVKForObject st));
      [|done].
    intros x st' Hst'. unfold se_bind.
    pose proof (Delete_indexed_complete GVKForObject x st' Hst') as H'.
    destruct (Delete GVKForObject x st') as [st1 [u|e]]; [|done].
    by apply Add_indexed_complete.
  - by apply refreshing_indexed_complete.
  - by apply refreshing_indexed_complete.
Qed.

(** C38: updates, deletions and the two synchronisations also never leave a
    stale match: what was handed on last for a key is what the index holds. A
    repeated [Add] can: an object that stops matching is indexed without a
    match, and nothing takes back what was handed on before. *)
Theorem store_precise (d : MeterDefinitionDictionary LS F) order listed index value obj
    (st : MeterDefinitionStore LS) :
  indexed GVKForObject st → precise GVKForObject st →
  precise GVKForObject (Update GVKForObject d order obj st).1 ∧
  precise GVKForObject (Delete GVKForObject obj st).1 ∧
  precise GVKForObject (Resync GVKForObject d order listed st).1 ∧
  precise GVKForObject (SyncByIndex GVKForObject d order listed index value st).1 ∧
  (∀ e e', addObj GVKForObject d order obj = Ok e → EMeterDefinitions e = [] →
     live GVKForObject st !! ekey GVKForObject e = Some e' →
     ¬ precise GVKForObject (Add GVKForObject d order obj st).1).
Proof.
  intros Hi Hp. split_and!.
  - destruct (Update_cases GVKForObject d order obj st) as [->|[e ->]]; [done|by apply put_precise].
  - destruct (Delete_cases GVKForObject obj st) as [->|(e & k & Hk & ->)]; [done|].
    by eapply discard_precise.
  - by apply (refreshing_inv GVKForObject d order (precise GVKForObject)); [apply put_precise|].
  - by apply (refreshing_inv GVKForObject d order (precise GVKForObject)); [apply put_precise|].
  - intros e e' Ha Hm Hl Hpr.
    destruct (Add_cases GVKForObject d order obj st) as [Heq|(e2 & Ha2 & H)].
    + unfold Add in Heq. rewrite se_bind_lift, Ha, Hm in Heq. unfold se_bind, se_ret in Heq.
      cbn in Heq. apply (f_equal indexStore) in Heq. cbn in Heq.
      apply Hp in Hl as [Hl Hne]. rewrite <- Heq, lookup_insert_eq in Hl. naive_solver.
    + rewrite Ha in Ha2. injection Ha2 as <-. destruct H as [[? _]|[_ Heq]]; [done|].
      rewrite Heq in Hpr. cbn [fst] in Hpr.
      destruct (Hpr (ekey GVKForObject e) e') as [Hin Hne].
      * rewrite (live_index _ _ (indexStore st)). by destruct st.
      * cbn [indexStore] in Hin. rewrite lookup_insert_eq in Hin. naive_solver.
Qed.

(** An update of an object the index does not have, or whose generation
    is the indexed one, changes nothing at all, even when its labels or its
    annotations, which the filters test, did change; and replacing the content
    of the store leaves every object whose key the new list does not name. *)
Theorem store_keeps (d : MeterDefinitionDictionary LS F) order (o : Object)
    (l : list (StoreArg LS)) (st : MeterDefinitionStore LS) :
  (∀ e, addObj GVKForObject d order (AObject o) = Ok e →
     match indexStore st !! GVKNamespaceKey GVKForObject o with
     | None => True
     | Some prev => Generation (ObjMeta o) = Generation (ObjMeta (EObject prev))
     end → Update GVKForObject d order (AObject o) st = (st, Ok tt)) ∧
  (∀ k, (∀ a e, a ∈ l → newStoreObject a = Ok e → ekey GVKForObject e ≠ k) →
     indexed GVKForObject st →
     indexStore (Replace GVKForObject d order l st).1 !! k = indexStore st !! k).
Proof.
  split.
  - intros e He Hprev. unfold Update. rewrite se_bind_lift, He.
    unfold addObj in He. cbn [EnhancedObjectKey newStoreObject mbind result_mbind seen] in He.
    destruct (FindObjectMatches _ _ _) as [rs|]; cbn [mbind result_mbind] in He; [|done].
    injection He as <-. unfold ekey; cbn [EObject].
    destruct (indexStore st !! _) as [prev|]; [|done]. by rewrite bool_decide_true.
  - intros k Hk Hi. unfold Replace.
    assert (Hone : ∀ a, a ∈ l → ∀ st, indexed GVKForObject st →
      let st' := ((Delete GVKForObject a ;;; Add GVKForObject d order a) st).1 in
      indexed GVKForObject st' ∧ indexStore st' !! k = indexStore st !! k).
    { clear st Hi. intros a Ha st Hi. cbv zeta. unfold se_bind.
      assert (Hdel : let st' := (Delete GVKForObject a st).1 in
        indexed GVKForObject st' ∧ indexStore st' !! k = indexStore st !! k).
      { unfold Delete. rewrite se_bind_lift. destruct (newStoreObject a) as [m|] eqn:Hm; [|done].
        destruct (indexStore st !! ekey GVKForObject m) as [e|] eqn:He; [|done].
        change (let st' := discard GVKForObject e st in
          indexed GVKForObject st' ∧ indexStore st' !! k = indexStore st !! k).
        split; [by apply discard_indexed|]. rewrite discard_index.
        rewrite (Hi _ _ He). apply lookup_delete_ne. by apply (Hk a). }
      destruct (Delete GVKForObject a st) as [st1 [u|e]]; [|exact Hdel]. cbn [fst] in Hdel.
      destruct Hdel as [Hi1 <-].
      destruct (Add_cases GVKForObject d order a st1) as [->|(e & Ha1 & H)]; [by split|].
      assert (Hne : ekey GVKForObject e ≠ k).
      { unfold addObj, EnhancedObjectKey in Ha1.
        destruct (newStoreObject a) as [m|] eqn:Hm; cbn [mbind result_mbind] in Ha1; [|done].
        destruct (FindObjectMatches _ _ _); cbn [mbind result_mbind] in Ha1; [|done].
        injection Ha1 as <-. by apply (Hk a m). }
      destruct H as [[_ ->]|[_ ->]]; cbn [fst].
      - split; [by apply put_indexed|]. rewrite put_index. by apply lookup_insert_ne.
      - split; [|by apply lookup_insert_ne].
        intros k' e'; cbn [indexStore]; intros [[<- <-]|[_ Hk']]%lookup_insert_Some; [done|by apply Hi1]. }
    clear Hk. revert st Hi Hone. induction l as [|a l' IH]; intros st Hi Hone; cbn [se_each]; [done|].
    unfold se_bind at 1. destruct (Hone a (list_elem_of_here _ _) st Hi) as [Hi' <-].
    destruct ((Delete GVKForObject a;;; Add GVKForObject d order a) st) as [st' [u|e]]; [|done].
    apply IH; [done|]. intros a' Ha'. apply Hone. by right.
Qed.
End properties.

Section dict_properties.
Context {LS F : Type} `{!LookupFactory LS F}.

(** Every definition is cached under its key, with the filter made from it. *)
Definition dict_wf (d : MeterDefinitionDictionary LS F) : Prop :=
  ∀ k x, dcache d !! k = Some x → dkey x = k ∧ factory_new (XDefinition x) = Ok (XFilter x).

Inductive dict_step : MeterDefinitionDictionary LS F → MeterDefinitionDictionary LS F → Prop :=
| dstep_add obj d : dict_step d (DictAdd obj d).1
| dstep_update obj d : dict_step d (DictUpdate obj d).1
| dstep_delete obj d : dict_step d (DictDelete obj d).1
| dstep_replace objs d : dict_step d (DictReplace objs d).1.

Lemma extended_ok obj x :
  newMeterDefinitionExtended obj = Ok x → factory_new (XDefinition x) = Ok (XFilter x).
Proof.
  unfold newMeterDefinitionExtended. destruct obj as [m|]; [|done].
  destruct (factory_new m) eqn:Hf; cbn; [|done]. by intros [= <-].
Qed.

Lemma wf_insert (m : gmap string (MeterDefinitionExtended LS F)) x :
  (∀ k y, m !! k = Some y → dkey y = k ∧ factory_new (XDefinition y) = Ok (XFilter y)) →
  factory_new (XDefinition x) = Ok (XFilter x) →
  ∀ k y, <[dkey x := x]> m !! k = Some y →
    dkey y = k ∧ factory_new (XDefinition y) = Ok (XFilter y).
Proof. intros Hm Hx k y [[<- <-]|[_ Hk]]%lookup_insert_Some; [done|by apply Hm]. Qed.

Lemma dict_step_wf d d' : dict_step d d' → dict_wf d → dict_wf d'.
Proof.
  intros [obj d0|obj d0|obj d0|objs d0] Hwf.
  - unfold DictAdd. rewrite se_bind_lift.
    destruct (newMeterDefinitionExtended obj) as [x|] eqn:Hx; [|done].
    exact (wf_insert (dcache d0) x Hwf (extended_ok _ _ Hx)).
  - unfold DictUpdate. rewrite se_bind_lift.
    destruct (newMeterDefinitionExtended obj) as [x|] eqn:Hx; [|done].
    destruct (match dcache d0 !! dkey x with Some _ => _ | None => _ end); [done|].
    exact (wf_insert (dcache d0) x Hwf (extended_ok _ _ Hx)).
  - unfold DictDelete. rewrite se_bind_lift.
    destruct (newMeterDefinitionExtended obj) as [x|] eqn:Hx; [|done].
    intros k y. change (delete (dkey x) (dcache d0) !! k = Some y →
      dkey y = k ∧ factory_new (XDefinition y) = Ok (XFilter y)).
    intros [_ Hk]%lookup_delete_Some. by apply Hwf.
  - unfold DictReplace. rewrite se_bind_lift.
    destruct (mapM_result newMeterDefinitionExtended objs) as [xs|] eqn:Hx; [|done].
    apply mapM_result_Ok in Hx. unfold dict_wf. cbn [dcache fst ddelta_call dcache_set se_bind].
    apply (foldl_inv (λ m : gmap string (MeterDefinitionExtended LS F), ∀ k y, m !! k = Some y →
      dkey y = k ∧ factory_new (XDefinition y) = Ok (XFilter y))).
    + intros k y. by rewrite lookup_empty.
    + intros m x Hin Hm. apply wf_insert; [done|].
      apply list_elem_of_lookup in Hin as [i Hi].
      destruct (Forall2_lookup_r _ _ _ _ _ Hx Hi) as (obj & _ & Hobj). by eapply extended_ok.
Qed.

Lemma find_loop_spec filters (o : Object) l :
  find_loop (LS := LS) (F := F) filters o = Ok l →
  l = List.filter (λ f, match filter_matches f o with Ok b => b | Err _ => false end) filters ∧
  Forall (λ f, ∀ e, filter_matches f o = Err e → e = EAccessDenied) filters.
Proof.
  revert l; induction filters as [|f filters IH]; intros l; cbn [find_loop List.filter].
  - by intros [= <-].
  - destruct (filter_matches f o) as [[]|e] eqn:Hf.
    + destruct (find_loop filters o) as [rest|]; cbn [mbind result_mbind]; [|done].
      intros [= <-]. destruct (IH _ eq_refl) as [-> Hall]. split; [done|].
      constructor; [congruence|done].
    + intros [-> Hall]%IH. split; [done|]. constructor; [congruence|done].
    + destruct e; try done. intros [-> Hall]%IH. split; [done|]. constructor; [congruence|done].
Qed.

(** In every state of the dictionary, each definition is cached under its
    own key with the filter made from it, so that the matches of an object are
    exactly the cached definitions whose filter accepts it; the search fails
    as soon as one filter fails for another reason than missing access. *)
Theorem FindObjectMatches_spec (d : MeterDefinitionDictionary LS F) order (o : Object) l :
  rtc dict_step (mkDictionary ∅ []) d → (∀ fs, order fs ≡ₚ fs) →
  FindObjectMatches order d o = Ok l →
  ∀ m, m ∈ filter_definition <$> l ↔
    ∃ k f, dcache d !! k = Some (mkExtended m f) ∧ factory_new m = Ok f ∧
           filter_matches f o = Ok true.
Proof.
  intros Hr Hp Hl m.
  assert (Hwf : dict_wf d).
  { assert (H0 : dict_wf (mkDictionary (LS := LS) (F := F) ∅ []))
      by (intros k x; cbn [dcache]; by rewrite lookup_empty).
    revert H0. clear -Hr. induction Hr as [|d1 d2 d3 Hs Hr IH]; intros H; [done|].
    apply IH. by eapply dict_step_wf. }
  apply find_loop_spec in Hl as [-> _]. rewrite list_elem_of_fmap.
  setoid_rewrite list_elem_of_In. setoid_rewrite List.filter_In. setoid_rewrite <- list_elem_of_In.
  unfold ListFilters. setoid_rewrite Hp. split.
  - intros (f & -> & Hf & Hm). apply list_elem_of_fmap in Hf as (x & -> & Hx).
    apply list_elem_of_fmap in Hx as ([k y] & -> & Hx%elem_of_map_to_list). cbn in *.
    destruct (Hwf _ _ Hx) as [_ Hn]. exists k, (XFilter y).
    rewrite (factory_law _ _ Hn). split_and!; [by destruct y|done|].
    by destruct (filter_matches _ _) as [[]|].
  - intros (k & f & Hk & Hn & Hm). exists f. rewrite Hm, (factory_law _ _ Hn). split_and!; try done.
    apply list_elem_of_fmap. exists (mkExtended m f). split; [done|].
    apply list_elem_of_fmap. exists (k, mkExtended m f). split; [done|].
    by apply elem_of_map_to_list.
Qed.
End dict_properties.

(** *** Witnesses *)

(** A factory whose filters accept the objects labelled with their name. *)
Definition toy_factory : LookupFactory unit (V1Beta1.MeterDefinition unit).
Proof.
  refine {| factory_new := λ d, Ok d; filter_definition := λ f, f;
            filter_matches := λ f o, Ok (bool_decide
              (Labels (ObjMeta o) !! "m" = Some (Name (V1Beta1.Meta f)))) |}.
  intros d f [= <-]. reflexivity.
Defined.

Definition toy_def : V1Beta1.MeterDefinition unit :=
  V1Beta1.mkMeterDefinition _ (mkMeta "d1" "ns" "u" 1 ∅ ∅ [])
    (V1Beta1.mkSpec _ "g" "k" [] [] None) (mkMeterDefinitionStatus [] [] []).
Definition toy_pod (gen : Z) (label : string) : Object :=
  mkObject TPod (mkMeta "p" "ns" "u2" gen {[ "m" := label ]} ∅ []).

Section witnesses.
#[local] Existing Instance toy_factory.

Definition toy_dict : MeterDefinitionDictionary unit (V1Beta1.MeterDefinition unit) :=
  (DictAdd (Some toy_def) (mkDictionary ∅ [])).1.
Definition toy_added : MeterDefinitionStore unit :=
  (Add gvkMap toy_dict id (AObject (toy_pod 1 "d1")) empty_store).1.

Lemma store_complete_witness :
  (map_to_list (indexStore toy_added)).*1 = ["v1/Pod:ns/p"] ∧
  indexed gvkMap toy_added ∧ complete gvkMap toy_added.
Proof.
  split; [vm_compute; reflexivity|].
  apply (store_complete (F := V1Beta1.MeterDefinition unit) gvkMap).
  apply rtc_once. apply step_add.
Defined.

Lemma toy_indexed : indexed gvkMap toy_added.
Proof.
  intros k e. unfold toy_added. cbn [indexStore Add]. 
  change (indexStore (Add gvkMap toy_dict id (AObject (toy_pod 1 "d1")) empty_store).1)
    with (<["v1/Pod:ns/p" := mkEnhanced (toy_pod 1 "d1") [toy_def]]>
            (∅ : gmap string (MeterDefinitionEnhancedObject unit))).
  intros [[<- <-]|[_ Hk]]%lookup_insert_Some; [reflexivity|by rewrite lookup_empty in Hk].
Qed.

Lemma toy_precise : precise gvkMap toy_added.
Proof.
  intros k e. 
  change (indexStore toy_added)
    with (<["v1/Pod:ns/p" := mkEnhanced (toy_pod 1 "d1") [toy_def]]>
            (∅ : gmap string (MeterDefinitionEnhancedObject unit))).
  change (live gvkMap toy_added)
    with (<["v1/Pod:ns/p" := mkEnhanced (toy_pod 1 "d1") [toy_def]]>
            (∅ : gmap string (MeterDefinitionEnhancedObject unit))).
  intros Hk. split; [done|].
  apply lookup_insert_Some in Hk as [[_ <-]|[_ Hk]]; [done|by rewrite lookup_empty in Hk].
Qed.

Lemma store_precise_witness :
  precise gvkMap (Update gvkMap toy_dict id (AObject (toy_pod 2 "x")) toy_added).1 ∧
  ¬ precise gvkMap (Add gvkMap toy_dict id (AObject (toy_pod 2 "x")) toy_added).1.
Proof.
  destruct (store_precise gvkMap toy_dict id (λ m, (map_to_list m).*2) NamespaceIndex "ns"
              (AObject (toy_pod 2 "x")) toy_added toy_indexed toy_precise)
    as (H1 & _ & _ & _ & H2).
  split; [exact H1|].
  eapply H2; [vm_compute; reflexivity|reflexivity|vm_compute; reflexivity].
Defined.

Lemma store_keeps_witness :
  Update gvkMap toy_dict id (AObject (toy_pod 1 "x")) toy_added = (toy_added, Ok tt) ∧
  indexStore (Replace gvkMap toy_dict id [] toy_added).1 !! "v1/Pod:ns/p" =
    indexStore toy_added !! "v1/Pod:ns/p".
Proof.
  split.
  - destruct (store_keeps gvkMap toy_dict id (toy_pod 1 "x") [] toy_added) as [H _].
    eapply H; [vm_compute; reflexivity|vm_compute; reflexivity].
  - destruct (store_keeps gvkMap toy_dict id (toy_pod 1 "x") [] toy_added) as [_ H].
    apply H; [by intros ? ? ?%elem_of_nil|exact toy_indexed].
Defined.

Lemma FindObjectMatches_spec_witness :
  FindObjectMatches id toy_dict (toy_pod 1 "d1") = Ok [toy_def] ∧
  ∃ k f, dcache toy_dict !! k = Some (mkExtended toy_def f) ∧ factory_new toy_def = Ok f ∧
         filter_matches f (toy_pod 1 "d1") = Ok true.
Proof.
  split; [vm_compute; reflexivity|].
  apply (FindObjectMatches_spec toy_dict id (toy_pod 1 "d1") [toy_def]).
  - apply rtc_once. apply (dstep_add (Some toy_def)).
  - reflexivity.
  - vm_compute. reflexivity.
  - vm_compute. by left.
Defined.
End witnesses.
