(* ===== verification/Processors.v ===== *)
(** * Messages and processors

    The model of [metering/v2/pkg/mailbox] and of the processors that read from
    it ([metering/v2/pkg/processors]): the broadcast of deltas, the bookkeeping
    of the objects each definition matched and its flush to the cluster, and the
    reaction to changed definitions. *)

From S2P Require Import Prelude Conditions Workloads MeterDefinition MeterReport Filters NamespaceWatcher Stores.
Local Open Scope go_scope.

(** ** Deltas *)

Inductive DeltaType := Added | Updated | Deleted | Replaced | Sync | OtherType.

#[export] Instance DeltaType_eq_dec : EqDecision DeltaType.
Proof. solve_decision. Defined.

Record CacheDelta (A : Type) := mkDelta { DType : DeltaType; DObject : A }.
Arguments mkDelta {A}.
Arguments DType {A}.
Arguments DObject {A}.

(** ** Mailbox *)

Section mailbox.
Context {A : Type}.

Definition ChannelName := string.
Definition ObjectChannel : ChannelName := "ObjectChannel".
Definition MeterDefinitionChannel : ChannelName := "MeterDefinitionChannel".

(** A listener is the sequence of what was sent on its channel. *)
Definition Mailbox := gmap ChannelName (list (list (CacheDelta A))).

Definition RegisterListener (name : ChannelName) (ch : list (CacheDelta A)) (s : Mailbox)
    : Mailbox := <[name := default [] (s !! name) ++ [ch]]> s.

Definition Broadcast (name : ChannelName) (obj : CacheDelta A) (s : Mailbox)
    : Mailbox * option string :=
  match s !! name with
  | None => (s, Some "channel name doesn't exist")
  | Some listeners => (<[name := (λ ch, ch ++ [obj]) <$> listeners]> s, None)
  end.

(** The producers' [handlePop]. *)
Fixpoint handlePop (name : ChannelName) (deltas : list (CacheDelta A)) (s : Mailbox)
    : Mailbox * option string :=
  match deltas with
  | [] => (s, None)
  | d :: deltas =>
      match Broadcast name d s with
      | (s, Some e) => (s, Some e)
      | (s, None) => handlePop name deltas s
      end
  end.
End mailbox.

Arguments Mailbox : clear implicits.

(** ** The status processor *)

Record updateableStatus := mkUpdateable {
  needsUpdate : bool;
  uresources : gmap string WorkloadResource
}.

Definition newUpdateableStatus : updateableStatus := mkUpdateable true ∅.

Notation StatusResources := (gmap NamespacedName updateableStatus).

Definition workload_uid (w : WorkloadResource) : string := RefUID (NNRef w).

(** [for k := range status.resources { ...[obj.UID] = obj }]. *)
Definition rekey (m : gmap string WorkloadResource) : gmap string WorkloadResource :=
  foldl (λ m' w, <[workload_uid w := w]> m') m (map_to_list m).*2.

Section status.
Context {LS : Type}.

Definition definition_key (d : V1Beta1.MeterDefinition LS) : NamespacedName :=
  mkNN (Namespace (V1Beta1.Meta d)) (Name (V1Beta1.Meta d)).

(** The loop of [Process] over the definitions of the object; the resources
    changed before an early return stay changed. *)
Fixpoint process_loop (type : DeltaType) (obj : Object)
    (defs : list (V1Beta1.MeterDefinition LS)) (u : StatusResources)
    : StatusResources * option string :=
  match defs with
  | [] => (u, None)
  | d :: defs =>
      let key := definition_key d in
      let status := default newUpdateableStatus (u !! key) in
      let status := mkUpdateable (needsUpdate status) (rekey (uresources status)) in
      let u := <[key := status]> u in
      match NewWorkloadResource obj with
      | Err e => (u, Some e)
      | Ok workload =>
          match (match type with
                 | Deleted => Some (delete (workload_uid workload) (uresources status))
                 | Replaced | Added | Sync | Updated =>
                     Some (<[workload_uid workload := workload]> (uresources status))
                 | OtherType => None
                 end) with
          | None => (u, None)
          | Some resources =>
              process_loop type obj defs (<[key := mkUpdateable true resources]> u)
          end
      end
  end.

(** [None] is a delta of an unexpected type. *)
Definition StatusProcess (inObj : CacheDelta (option (MeterDefinitionEnhancedObject LS)))
    (u : StatusResources) : StatusResources * option string :=
  match DObject inObj with
  | None => (u, Some "obj is unexpected type")
  | Some e => process_loop (DType inObj) (EObject e) (EMeterDefinitions e) u
  end.

Context {St : Type} `{!ConflictRetry}.
(** The client, and the sort, whose order the comparison leaves open. *)
Variable Get : NamespacedName → St → result ClientError (V1Beta1.MeterDefinition LS).
Variable UpdateStatus : V1Beta1.MeterDefinition LS → St → St * option ClientError.
Variable sorted : list WorkloadResource → list WorkloadResource.

Definition status_equal (current : list WorkloadResource) (new : gmap string WorkloadResource)
    : bool :=
  if negb (length current =? size new)%nat then false
  else forallb (λ res1, bool_decide (is_Some (new !! workload_uid res1))) current.

Definition with_workloads (d : V1Beta1.MeterDefinition LS) (l : list WorkloadResource)
    : V1Beta1.MeterDefinition LS :=
  V1Beta1.mkMeterDefinition _ (V1Beta1.Meta d) (V1Beta1.Spec d)
    (mkMeterDefinitionStatus (MDConditions (V1Beta1.Status d)) l (Results (V1Beta1.Status d))).

(** One attempt: the cluster and the keys found deleted are what it changes. *)
Definition flush_attempt (key : NamespacedName) (status : updateableStatus)
    (s : St * list NamespacedName) : (St * list NamespacedName) * option ClientError :=
  let '(st, deleted) := s in
  match Get key st with
  | Err IsNotFound => ((st, deleted ++ [key]), None)
  | Err e => ((st, deleted), Some e)
  | Ok mdef =>
      if status_equal (WorkloadResources (V1Beta1.Status mdef)) (uresources status)
      then ((st, deleted), None)
      else
        let '(st, e) := UpdateStatus
          (with_workloads mdef (sorted (map_to_list (uresources status)).*2)) st in
        ((st, deleted), e)
  end.

Definition flush_step (s : StatusResources * (St * list NamespacedName)) (key : NamespacedName)
    : StatusResources * (St * list NamespacedName) :=
  let '(u, s) := s in
  match u !! key with
  | None => (u, s)
  | Some status =>
      if needsUpdate status then
        let '(s, _) := RetryOnConflict (flush_attempt key status) s in
        (<[key := mkUpdateable false (uresources status)]> u, s)
      else (u, s)
  end.

(** [order] lists the keys in the order the map is ranged over. *)
Definition flush (order : list NamespacedName) (u : StatusResources) (st : St)
    : StatusResources * St :=
  let '(u, (st, deleted)) := foldl flush_step (u, (st, [])) order in
  (foldl (λ u name, delete name u) u deleted, st).
End status.

(** ** The reaction to changed definitions *)

Section removal.
Context {LS F : Type} `{!LookupFactory LS F}.
Variable GVKForObject : GoType → option GroupVersionKind.
Variable GetNamespacesOf : F → NsTypes.
Variable order : list F → list F.
Variable listed : gmap string (MeterDefinitionEnhancedObject LS) →
  list (MeterDefinitionEnhancedObject LS).
Variable o1 o2 o3 : Orders.

(** What the watcher of the definitions acts on. *)
Record Metering := mkMetering {
  mdictionary : MeterDefinitionDictionary LS F;
  mstore : MeterDefinitionStore LS;
  mwatcher : NamespaceWatcher
}.

Definition sync (index : MeterDefinitionEnhancedObject LS → list string) (value : string)
    (w : NamespaceWatcher) (m : Metering) : Metering * option FilterError :=
  match SyncByIndex GVKForObject (mdictionary m) order listed index value (mstore m) with
  | (st, Ok _) => (mkMetering (mdictionary m) st w, None)
  | (st, Err e) => (mkMetering (mdictionary m) st w, Some e)
  end.

(** [onAdd], [onUpdate] and [onSync]. *)
Definition onChange (meterdef : MeterDefinitionExtended LS F) (m : Metering)
    : Metering * option FilterError :=
  let w := AddNamespace o1 o2 o3 (definition_key (XDefinition meterdef))
             (GetNamespacesOf (XFilter meterdef)) (mwatcher m) in
  sync NamespaceIndex (Namespace (V1Beta1.Meta (XDefinition meterdef))) w m.

Definition onDelete (meterdef : MeterDefinitionExtended LS F) (m : Metering)
    : Metering * option FilterError :=
  let w := RemoveNamespace o1 o2 (definition_key (XDefinition meterdef)) (mwatcher m) in
  sync MeterDefinitionIndex (dkey meterdef) w m.

(** [None] is an object of an unexpected type. *)
Definition RemovalProcess (d : CacheDelta (option (MeterDefinitionExtended LS F))) (m : Metering)
    : Metering * option FilterError :=
  let unexpected := (m, Some (EOther "encountered unexpected type")) in
  match DType d with
  | Deleted => match DObject d with Some x => onDelete x m | None => unexpected end
  | Added | Updated | Sync =>
      match DObject d with Some x => onChange x m | None => unexpected end
  | Replaced | OtherType => (m, None)
  end.
End removal.

(** ** Lemmas *)

Definition keyed_status (s : updateableStatus) : Prop :=
  ∀ uid w, uresources s !! uid = Some w → workload_uid w = uid.

Lemma rekey_id m : (∀ uid w, m !! uid = Some w → workload_uid w = uid) → rekey m = m.
Proof.
  intros Hm. unfold rekey. apply (foldl_inv (λ m', m' = m)); [done|].
  intros m' w Hw ->. apply list_elem_of_fmap in Hw as ([uid w'] & -> & Hw).
  apply elem_of_map_to_list in Hw. cbn. rewrite (Hm _ _ Hw). by apply insert_id.
Qed.

(** What a delta does to the resources of one definition. *)
Definition apply_delta (type : DeltaType) (w : WorkloadResource)
    (m : gmap string WorkloadResource) : gmap string WorkloadResource :=
  match type with
  | Deleted => delete (workload_uid w) m
  | OtherType => m
  | _ => <[workload_uid w := w]> m
  end.

Lemma apply_delta_idem type w m : apply_delta type w (apply_delta type w m) = apply_delta type w m.
Proof.
  destruct type; cbn; rewrite ?insert_insert_eq; try done. apply delete_delete_eq.
Qed.

Lemma apply_delta_keyed type w m b :
  keyed_status (mkUpdateable b m) → keyed_status (mkUpdateable true (apply_delta type w m)).
Proof.
  intros H uid w'. cbn. destruct type; cbn;
    rewrite ?lookup_insert_Some, ?lookup_delete_Some; intros Hw; try (by apply H);
    destruct Hw; naive_solver.
Qed.

Lemma delete_all_lookup (deleted : list NamespacedName) (u : StatusResources) k :
  foldl (λ u name, delete name u) u deleted !! k =
    if bool_decide (k ∈ deleted) then None else u !! k.
Proof.
  revert u; induction deleted as [|n deleted IH]; intros u; cbn [foldl].
  - by rewrite bool_decide_false by apply not_elem_of_nil.
  - rewrite IH. destruct (decide (k = n)) as [->|Hne].
    + rewrite lookup_delete_eq, (bool_decide_true (n ∈ n :: _)) by by left. by case_bool_decide.
    + rewrite lookup_delete_ne by done.
      rewrite (bool_decide_ext (k ∈ n :: _) (k ∈ deleted)); [done|].
      rewrite elem_of_cons. naive_solver.
Qed.

Section lemmas.
Context {LS : Type}.

Lemma process_loop_spec type obj (defs : list (V1Beta1.MeterDefinition LS)) u w :
  NewWorkloadResource obj = Ok w → type ≠ OtherType → map_Forall (λ _, keyed_status) u →
  let '(u', e) := process_loop type obj defs u in
  e = None ∧ map_Forall (λ _, keyed_status) u' ∧
  ∀ key, u' !! key =
    if bool_decide (key ∈ definition_key <$> defs)
    then Some (mkUpdateable true
                 (apply_delta type w (uresources (default newUpdateableStatus (u !! key)))))
    else u !! key.
Proof.
  intros Hw Ht. revert u; induction defs as [|d defs IH]; intros u Hu; cbn [process_loop].
  - split_and!; [done|done|]. intros key. rewrite bool_decide_false; [done|]. apply not_elem_of_nil.
  - rewrite Hw. set (s := default newUpdateableStatus (u !! definition_key d)).
    assert (Hs : keyed_status s).
    { subst s. destruct (u !! definition_key d) eqn:E; [by apply (Hu _ _ E)|].
      intros uid w'. cbn. by rewrite lookup_empty. }
    cbn [uresources needsUpdate]. rewrite (rekey_id _ Hs).
    assert (Hstep : match type with
      | Deleted => Some (delete (workload_uid w) (uresources s))
      | Replaced | Added | Sync | Updated => Some (<[workload_uid w := w]> (uresources s))
      | OtherType => None end = Some (apply_delta type w (uresources s))) by by destruct type.
    rewrite Hstep. rewrite insert_insert_eq.
    set (u1 := <[definition_key d := _]> u).
    assert (Hu1 : map_Forall (λ _, keyed_status) u1).
    { apply map_Forall_insert_2; [|done]. destruct s as [b m]. by eapply apply_delta_keyed. }
    specialize (IH u1 Hu1). destruct (process_loop type obj defs u1) as [u' e].
    destruct IH as (-> & Hu' & Hkey). split_and!; [done|done|]. intros key. rewrite Hkey. subst u1.
    rewrite fmap_cons. destruct (decide (key = definition_key d)) as [->|Hne].
    + rewrite lookup_insert_eq. cbn [from_option id uresources]. rewrite apply_delta_idem.
      rewrite (bool_decide_true (_ ∈ _ :: _)) by by left. by case_bool_decide.
    + rewrite lookup_insert_ne by done.
      rewrite (bool_decide_ext (key ∈ _ :: _) (key ∈ definition_key <$> defs)); [done|].
      rewrite elem_of_cons. naive_solver.
Qed.

Context {St : Type} `{!ConflictRetry}.
Variable Get : NamespacedName → St → result ClientError (V1Beta1.MeterDefinition LS).
Variable UpdateStatus : V1Beta1.MeterDefinition LS → St → St * option ClientError.
Variable sorted : list WorkloadResource → list WorkloadResource.

#[local] Abbreviation attempt := (flush_attempt Get UpdateStatus sorted).
#[local] Abbreviation step := (flush_step Get UpdateStatus sorted).

(** Every key found deleted was reported as not found. *)
Definition reported (deleted : list NamespacedName) : Prop :=
  ∀ key, key ∈ deleted → ∃ st, Get key st = Err IsNotFound.

Lemma attempt_reported key status s : reported s.2 → reported (attempt key status s).1.2.
Proof.
  destruct s as [st deleted]; cbn [snd]. intros Hd. unfold flush_attempt.
  destruct (Get key st) as [d|[]] eqn:Hg; cbn; try done.
  - destruct (status_equal _ _); cbn; [done|].
    by destruct (UpdateStatus _ st).
  - intros k [Hk|Hk]%elem_of_app; [by apply Hd|].
    apply list_elem_of_singleton in Hk as ->. by exists st.
Qed.

Lemma step_reported u s key : reported s.2 → reported (step (u, s) key).2.2.
Proof.
  intros Hd. unfold flush_step. destruct (u !! key) as [status|]; [|done].
  destruct (needsUpdate status); [|done].
  pose proof (retried_inv (λ s, reported s.2) _ _ _ (attempt_reported key status) Hd
    (RetryOnConflict_law (attempt key status) s)) as Hr.
  by destruct (RetryOnConflict _ s) as [s' e].
Qed.

Lemma step_lookup u s key k :
  (step (u, s) key).1 !! k =
    (λ x, if bool_decide (k = key) then mkUpdateable false (uresources x) else x) <$> u !! k.
Proof.
  unfold flush_step. destruct (u !! key) as [status|] eqn:Hu.
  - destruct (needsUpdate status) eqn:Hn.
    + destruct (RetryOnConflict _ s) as [s' e]; cbn [fst].
      case_bool_decide as Hk; [subst|].
      * by rewrite lookup_insert_eq, Hu.
      * rewrite lookup_insert_ne by done. by destruct (u !! k).
    + cbn [fst]. case_bool_decide as Hk; [subst; rewrite Hu; destruct status; cbn in *; by subst|].
      by destruct (u !! k).
  - cbn [fst]. case_bool_decide as Hk; [subst; by rewrite Hu|]. by destruct (u !! k).
Qed.

Lemma steps_spec order u s :
  reported s.2 →
  let '(u', s') := foldl step (u, s) order in
  reported s'.2 ∧
  ∀ k, u' !! k =
    (λ x, if bool_decide (k ∈ order) then mkUpdateable false (uresources x) else x) <$> u !! k.
Proof.
  revert u s; induction order as [|key order IH]; intros u s Hs; cbn [foldl].
  - split; [done|]. intros k. rewrite bool_decide_false by apply not_elem_of_nil.
    by destruct (u !! k).
  - pose proof (step_reported u s key Hs) as Hr. pose proof (step_lookup u s key) as Hk.
    destruct (step (u, s) key) as [u1 s1]; cbn [fst snd] in *.
    specialize (IH u1 s1 Hr). destruct (foldl step (u1, s1) order) as [u' s'].
    destruct IH as [Hs' IH]. split; [done|]. intros k. rewrite IH, Hk.
    destruct (u !! k) as [x|]; cbn; [|done]. f_equal.
    repeat case_bool_decide; set_solver.
Qed.

Lemma flush_quiet order u st :
  map_Forall (λ _ s, needsUpdate s = false) u →
  flush Get UpdateStatus sorted order u st = (u, st).
Proof.
  intros Hu. unfold flush.
  assert (Hf : foldl step (u, (st, [])) order = (u, (st, []))).
  { induction order as [|k order IH]; cbn [foldl]; [done|].
    assert (Hone : step (u, (st, [])) k = (u, (st, []))); [|by rewrite Hone].
    unfold flush_step. destruct (u !! k) as [s|] eqn:Hk; [|done]. by rewrite (Hu _ _ Hk). }
  by rewrite Hf.
Qed.
End lemmas.

(** ** Properties *)

(** A delta about an object of a known kind changes, for each definition the
    delta carries, exactly the entry of that object (set for an addition, removed
    for a deletion) and marks the definition for the next flush; no other
    definition is touched, and an object stays filed under its own identity. *)
Theorem StatusProcess_spec {LS} (type : DeltaType) (e : MeterDefinitionEnhancedObject LS)
    (u : StatusResources) (w : WorkloadResource) :
  NewWorkloadResource (EObject e) = Ok w → type ≠ OtherType →
  map_Forall (λ _, keyed_status) u →
  let '(u', err) := StatusProcess (mkDelta type (Some e)) u in
  err = None ∧ map_Forall (λ _, keyed_status) u' ∧
  ∀ key, u' !! key =
    if bool_decide (key ∈ definition_key <$> EMeterDefinitions e)
    then Some (mkUpdateable true
                 (apply_delta type w (uresources (default newUpdateableStatus (u !! key)))))
    else u !! key.
Proof. intros. by apply process_loop_spec. Qed.

Lemma StatusProcess_spec_witness :
  let '(u', err) := StatusProcess (mkDelta Added (Some (mkEnhanced (toy_pod 1 "d1") [toy_def]))) ∅ in
  err = None ∧ map_Forall (λ _, keyed_status) u' ∧
  ∀ key, u' !! key =
    if bool_decide (key ∈ definition_key <$> [toy_def])
    then Some (mkUpdateable true (apply_delta Added
                (mkWorkloadResource "" (mkNNRef "u2" "ns" "p" (Some (mkGVK "v1" "Pod"))))
                (uresources (default newUpdateableStatus ((∅ : StatusResources) !! key)))))
    else (∅ : StatusResources) !! key.
Proof.
  apply (StatusProcess_spec Added (mkEnhanced (toy_pod 1 "d1") [toy_def])).
  - vm_compute. reflexivity.
  - discriminate.
  - apply map_Forall_empty.
Defined.

(** When an object stops matching every definition, the store hands on its
    deletion without any definition, and the status processor has nothing to
    remove it from: the definitions that listed the object go on listing it. *)
Theorem unmatched_object_stays {LS} (e : MeterDefinitionEnhancedObject LS)
    (st : MeterDefinitionStore LS) (u : StatusResources) :
  EMeterDefinitions e = [] →
  sdelta (emit e st).1 = sdelta st ++ [DDelete e] ∧
  StatusProcess (mkDelta Deleted (Some e)) u = (u, None).
Proof. intros He. unfold emit, StatusProcess; cbn. by rewrite He. Qed.

Lemma unmatched_object_stays_witness :
  let e := mkEnhanced (toy_pod 2 "x") [] in
  let u : StatusResources := {[ mkNN "ns" "d1" := mkUpdateable false
    {[ "u2" := mkWorkloadResource "" (mkNNRef "u2" "ns" "p" (Some (mkGVK "v1" "Pod"))) ]} ]} in
  sdelta (emit e toy_added).1 = sdelta toy_added ++ [DDelete e] ∧
  StatusProcess (mkDelta Deleted (Some e)) u = (u, None).
Proof. intros e u. apply (unmatched_object_stays e toy_added u). reflexivity. Defined.

(** A flush ends with no definition marked for update and drops only
    definitions the cluster reported as gone, keeping the objects of the others;
    it marks a definition as done whatever became of its update, so that a
    second flush does nothing, also after an update that failed. *)
Theorem flush_spec {LS St} `{!ConflictRetry}
    (Get : NamespacedName → St → result ClientError (V1Beta1.MeterDefinition LS))
    (UpdateStatus : V1Beta1.MeterDefinition LS → St → St * option ClientError)
    (sorted : list WorkloadResource → list WorkloadResource)
    (order order' : list NamespacedName) (u : StatusResources) (st : St) :
  order ≡ₚ (map_to_list u).*1 →
  let '(u', st') := flush Get UpdateStatus sorted order u st in
  (∀ key s, u' !! key = Some s →
     needsUpdate s = false ∧ ∃ s0, u !! key = Some s0 ∧ uresources s = uresources s0) ∧
  (∀ key, is_Some (u !! key) → u' !! key = None → ∃ st0, Get key st0 = Err IsNotFound) ∧
  flush Get UpdateStatus sorted order' u' st' = (u', st').
Proof.
  intros Ho. pose proof (steps_spec Get UpdateStatus sorted order u (st, [])) as Hs.
  unfold flush at 1. destruct (foldl _ _ order) as [u1 [st1 deleted]].
  destruct Hs as [Hrep Hk]; [by intros key ?%elem_of_nil|]. cbn [snd] in Hrep.
  set (u' := foldl (λ u name, delete name u) u1 deleted).
  assert (Hin : ∀ key s, u !! key = Some s → key ∈ order).
  { intros key s Hkey. rewrite Ho. apply list_elem_of_fmap. exists (key, s).
    split; [done|by apply elem_of_map_to_list]. }
  assert (Hall : ∀ key s, u' !! key = Some s →
     needsUpdate s = false ∧ ∃ s0, u !! key = Some s0 ∧ uresources s = uresources s0).
  { intros key s. subst u'. rewrite delete_all_lookup. case_bool_decide; [done|]. rewrite Hk.
    destruct (u !! key) as [s0|] eqn:Hu; cbn; [|done].
    rewrite bool_decide_true by by eapply Hin. intros [= <-]. cbn. split; [done|]. by exists s0. }
  split_and!; [done| |].
  - intros key [s Hu]. subst u'. rewrite delete_all_lookup.
    case_bool_decide as Hd; [intros _; by apply Hrep|]. rewrite Hk, Hu. done.
  - apply flush_quiet. intros key s Hu'. by apply (Hall key s).
Qed.

Lemma flush_spec_witness :
  let u : StatusResources := {[ mkNN "ns" "d1" := newUpdateableStatus ]} in
  let Get (key : NamespacedName) (st : nat) : result ClientError (V1Beta1.MeterDefinition unit) :=
    Ok (with_workloads toy_def [mkWorkloadResource "" (mkNNRef "u" "ns" "p" None)]) in
  let UpdateStatus (d : V1Beta1.MeterDefinition unit) (st : nat) :=
    (S st, Some (OtherFailure "down")) in
  (flush Get UpdateStatus id [mkNN "ns" "d1"] u 0).2 = 1 ∧
  let '(u', st') := flush Get UpdateStatus id [mkNN "ns" "d1"] u 0 in
  (∀ key s, u' !! key = Some s →
     needsUpdate s = false ∧ ∃ s0, u !! key = Some s0 ∧ uresources s = uresources s0) ∧
  (∀ key, is_Some (u !! key) → u' !! key = None → ∃ st0, Get key st0 = Err IsNotFound) ∧
  flush Get UpdateStatus id [mkNN "ns" "d1"] u' st' = (u', st').
Proof.
  intros u Get UpdateStatus. split; [vm_compute; reflexivity|].
  apply (flush_spec Get UpdateStatus id [mkNN "ns" "d1"] [mkNN "ns" "d1"] u 0).
  vm_compute. reflexivity.
Defined.
