(* ===== verification/Metrics.v ===== *)
(** * Metrics of the metering

    The model of [metering/v2/internal/metrics]: the info metrics of pods,
    services, volume claims and meter definitions, joined with the labels of the
    definitions they match, the store the endpoint writes out, and the two
    processors that keep it ([metering/v2/pkg/processors/prometheus_processor.go]).
    The text of a family and the label map of a definition are arguments. *)

From S2P Require Import Prelude Workloads PromLabels MeterDefinition Filters Stores Processors.
Local Open Scope go_scope.

(** ** Families *)

Record Metric := mkMetric { MValue : Z; LabelKeys : list string; LabelValues : list string }.

Record FamilyHeader := mkHeader { FName : string; FHelp : string; FType : string }.

(** A line feed. *)
Definition newline : string := String (Ascii.ascii_of_nat 10) "".

Definition generateHeader (g : FamilyHeader) : string :=
  "# HELP " +:+ FName g +:+ " " +:+ FHelp g +:+ newline +:+
  "# TYPE " +:+ FName g +:+ " " +:+ FType g.

Section metrics.
Context {LS : Type}.

(** What the generators read of an object. *)
Inductive MetricObject :=
| MPod (meta : ObjectMeta) (priorityClass : string)
| MService (meta : ObjectMeta) (clusterIP externalName loadBalancerIP : string)
| MPVC (meta : ObjectMeta) (phase : string)
| MMeterDef (d : V1Beta1.MeterDefinition LS)
| MOther (name : string) (meta : ObjectMeta).

Definition metric_type (o : MetricObject) : GoType :=
  match o with
  | MPod _ _ => TPod
  | MService _ _ _ _ => TService
  | MPVC _ _ => TPersistentVolumeClaim
  | MMeterDef _ => TMeterDefinition
  | MOther name _ => TOther name
  end.

Definition metric_meta (o : MetricObject) : ObjectMeta :=
  match o with
  | MPod meta _ | MService meta _ _ _ | MPVC meta _ | MOther _ meta => meta
  | MMeterDef d => V1Beta1.Meta d
  end.

Definition GetMeterDefLabelsKeys (mdef : V1Beta1.MeterDefinition LS) : list string * list string :=
  (["meter_def_name"; "meter_def_namespace"; "meter_def_group"; "meter_kind"],
   [Name (V1Beta1.Meta mdef); Namespace (V1Beta1.Meta mdef);
    V1Beta1.Group (V1Beta1.Spec mdef); V1Beta1.SKind (V1Beta1.Spec mdef)]).

Definition GetAllMeterLabelsKeys (mdefs : list (V1Beta1.MeterDefinition LS))
    : list string * list string :=
  (mjoin ((λ d, (GetMeterDefLabelsKeys d).1) <$> mdefs),
   mjoin ((λ d, (GetMeterDefLabelsKeys d).2) <$> mdefs)).

Definition add_mdef (m : Metric) (mdef : V1Beta1.MeterDefinition LS) : Metric :=
  let '(keys, values) := GetMeterDefLabelsKeys mdef in
  mkMetric (MValue m) (LabelKeys m ++ keys) (LabelValues m ++ values).

Definition MapMeterDefinitions (metrics : list Metric) (mdefs : list (V1Beta1.MeterDefinition LS))
    : list Metric :=
  match mdefs with
  | [] => metrics
  | _ :: _ => mjoin ((λ m, add_mdef m <$> mdefs) <$> metrics)
  end.

(** [labels.ToLabels()] for the definition's own metric: the entries of the
    label map, in the order they are ranged over. *)
Variable ToLabels : MeterDefPrometheusLabels → option (list (string * string)).
(** [Family.ByteSlice] of kube-state-metrics. *)
Variable ByteSlice : string → list Metric → string.

Definition wrapObject (labels : list string) (f : MetricObject → list Metric)
    (obj : MetricObject) (mdefs : list (V1Beta1.MeterDefinition LS)) : list Metric :=
  let metrics := (λ m, mkMetric (MValue m) (labels ++ LabelKeys m)
    ([Namespace (metric_meta obj); Name (metric_meta obj)] ++ LabelValues m)) <$> f obj in
  MapMeterDefinitions metrics mdefs.

Definition pod_metrics (obj : MetricObject) : list Metric :=
  match obj with
  | MPod meta priorityClass =>
      [mkMetric 1 ["pod_uid"; "priority_class"] [UID meta; priorityClass]]
  | _ => []
  end.

Definition service_metrics (obj : MetricObject) : list Metric :=
  match obj with
  | MService _ clusterIP externalName loadBalancerIP =>
      [mkMetric 1 ["cluster_ip"; "external_name"; "load_balancer_ip"]
         [clusterIP; externalName; loadBalancerIP]]
  | _ => []
  end.

Definition pvc_metrics (obj : MetricObject) : list Metric :=
  match obj with
  | MPVC _ phase => [mkMetric 1 ["phase"] [phase]]
  | _ => []
  end.

(** A definition whose labels cannot be converted is left out. *)
Definition meterdef_metrics (obj : MetricObject) (mdefs : list (V1Beta1.MeterDefinition LS))
    : list Metric :=
  match obj with
  | MMeterDef d =>
      MapMeterDefinitions
        (omap (λ labels,
           labelMap ← ToLabels labels;
           Some (mkMetric 1 labelMap.*1 labelMap.*2)) (V1Beta1.ToPrometheusLabels d)) mdefs
  | _ => []
  end.

Record FamilyGenerator := mkGenerator {
  GHeader : FamilyHeader;
  GenerateMeterFunc : MetricObject → list (V1Beta1.MeterDefinition LS) → list Metric
}.

Definition ComposeMetricGenFuncs (familyGens : list FamilyGenerator) (obj : MetricObject)
    (mdefs : list (V1Beta1.MeterDefinition LS)) : list string :=
  (λ gen, ByteSlice (FName (GHeader gen)) (GenerateMeterFunc gen obj mdefs)) <$> familyGens.

Definition ExtractMetricFamilyHeaders (families : list FamilyGenerator) : list string :=
  (λ f, generateHeader (GHeader f)) <$> families.

Definition podMetricsFamilies : list FamilyGenerator :=
  [mkGenerator (mkHeader "meterdef_pod_info" "Metering info for pod" "gauge")
     (wrapObject ["namespace"; "pod"] pod_metrics)].
Definition serviceMetricsFamilies : list FamilyGenerator :=
  [mkGenerator (mkHeader "meterdef_service_info" "Info about the service for servicemonitor"
     "gauge") (wrapObject ["namespace"; "service"] service_metrics)].
Definition pvcMetricsFamilies : list FamilyGenerator :=
  [mkGenerator (mkHeader "meterdef_persistentvolumeclaim_info"
     "Metering info for persistentvolumeclaim" "gauge")
     (wrapObject ["namespace"; "persistentvolumeclaim"] pvc_metrics)].
Definition meterDefinitionMetricsFamilies : list FamilyGenerator :=
  [mkGenerator (mkHeader "meterdef_metric_label_info" "Metering info for meterDefinition" "gauge")
     meterdef_metrics].

(** ** The data written out *)

Record PrometheusDataMap := mkDataMap {
  metrics : gmap string (list string);
  expectedType : GoType;
  headers : list string;
  generators : list FamilyGenerator
}.

Definition provide (type : GoType) (families : list FamilyGenerator) : PrometheusDataMap :=
  mkDataMap ∅ type (ExtractMetricFamilyHeaders families) families.

#[local] Notation PrometheusData := (gmap string PrometheusDataMap).

Definition ProvidePrometheusData : PrometheusData :=
  {[ "pod" := provide TPod podMetricsFamilies;
     "service" := provide TService serviceMetricsFamilies;
     "pvc" := provide TPersistentVolumeClaim pvcMetricsFamilies;
     "meterdef" := provide TMeterDefinition meterDefinitionMetricsFamilies ]}.

Definition IsExpectedType (s : PrometheusDataMap) (obj : MetricObject) : bool :=
  metric_type obj == expectedType s.

Definition with_metrics (s : PrometheusDataMap) (m : gmap string (list string))
    : PrometheusDataMap := mkDataMap m (expectedType s) (headers s) (generators s).

Definition MapRemove (obj : MetricObject) (s : PrometheusDataMap) : PrometheusDataMap :=
  with_metrics s (delete (MetaNamespaceKey (metric_meta obj)) (metrics s)).

Definition MapAdd (obj : MetricObject) (meterdefs : list (V1Beta1.MeterDefinition LS))
    (s : PrometheusDataMap) : result string PrometheusDataMap :=
  if negb (IsExpectedType s obj) then Err "unexpected type"
  else Ok (with_metrics s (<[MetaNamespaceKey (metric_meta obj) :=
                             ComposeMetricGenFuncs (generators s) obj meterdefs]> (metrics s))).

(** The error of [MapAdd] cannot occur: the type was tested. *)
Definition Add (obj : MetricObject) (meterdefs : list (V1Beta1.MeterDefinition LS))
    (p : PrometheusData) : result string PrometheusData :=
  if existsb (λ e, IsExpectedType e.2 obj) (map_to_list p) then
    Ok ((λ dm, if IsExpectedType dm obj
               then match MapAdd obj meterdefs dm with Ok dm => dm | Err _ => dm end
               else dm) <$> p)
  else Err "expected type not found".

Definition Remove (obj : MetricObject) (p : PrometheusData) : PrometheusData :=
  (λ dm, if IsExpectedType dm obj then MapRemove obj dm else dm) <$> p.

Definition MapGet (obj : MetricObject) (s : PrometheusDataMap) : option (list string) :=
  metrics s !! MetaNamespaceKey (metric_meta obj).

(** [WriteAll] of one map to a writer that does not fail: [order] lists the
    values in the order of this run for the family at hand. *)
Fixpoint write_headers (order : nat → list (list string)) (i : nat) (hs : list string)
    : outcome string :=
  match hs with
  | [] => Ret ""
  | help :: hs =>
      body ← foldr (λ fams acc, a ← acc;
                match fams !! i with Some s => Ret (s +:+ a) | None => Panic end)
               (Ret "") (order i);
      rest ← write_headers order (S i) hs;
      Ret (help +:+ newline +:+ body +:+ rest)
  end.

Definition WriteAll (order : nat → list (list string)) (s : PrometheusDataMap) : outcome string :=
  write_headers order 0 (headers s).

(** ** Processors *)

(** [None] is an object of an unexpected type, which is only logged. *)
Definition PrometheusProcess
    (inObj : CacheDelta (option (MetricObject * list (V1Beta1.MeterDefinition LS))))
    (p : PrometheusData) : PrometheusData * option string :=
  match DObject inObj with
  | None => (p, None)
  | Some (obj, mdefs) =>
      match DType inObj with
      | Deleted => (Remove obj p, None)
      | Replaced | Sync | Updated | Added =>
          match Add obj mdefs p with
          | Ok p => (p, None)
          | Err e => (p, Some e)
          end
      | OtherType => (p, None)
      end
  end.

Definition PrometheusMdefProcess (inObj : CacheDelta (option (V1Beta1.MeterDefinition LS)))
    (p : PrometheusData) : PrometheusData * option string :=
  match DObject inObj with
  | None => (p, Some "encountered unexpected type")
  | Some meterdef =>
      let add p := match Add (MMeterDef meterdef) [] p with
                   | Ok p => (p, None)
                   | Err e => (p, Some e)
                   end in
      match DType inObj with
      | Deleted => (Remove (MMeterDef meterdef) p, None)
      | Updated | Replaced | Sync => add (Remove (MMeterDef meterdef) p)
      | Added => add p
      | OtherType => (p, None)
      end
  end.

(** ** Lemmas *)

(** A metric has as many values as labels. *)
Definition well_labelled (m : Metric) : Prop := length (LabelKeys m) = length (LabelValues m).

Lemma add_mdef_well m d : well_labelled m → well_labelled (add_mdef m d).
Proof. unfold well_labelled, add_mdef; cbn. rewrite !length_app; cbn. lia. Qed.

Lemma MapMeterDefinitions_well ms ds :
  Forall well_labelled ms → Forall well_labelled (MapMeterDefinitions ms ds).
Proof.
  intros H. unfold MapMeterDefinitions. destruct ds as [|d ds]; [done|].
  apply Forall_forall. intros m (l & Hm & Hl)%list_elem_of_join.
  apply list_elem_of_fmap in Hl as (m' & -> & Hm').
  apply list_elem_of_fmap in Hm as (d' & -> & _). apply add_mdef_well.
  by apply (proj1 (Forall_forall _ _) H).
Qed.

(** Every entry has one text per family. *)
Definition data_wf (s : PrometheusDataMap) : Prop :=
  headers s = ExtractMetricFamilyHeaders (generators s) ∧
  map_Forall (λ _ fams, length fams = length (headers s)) (metrics s).

Lemma write_headers_ok order i hs :
  (∀ j fams, fams ∈ order j → i + length hs ≤ length fams) →
  write_headers order i hs ≠ Panic.
Proof.
  revert i; induction hs as [|h hs IH]; intros i Hl; cbn [write_headers]; [done|].
  assert (Hbody : ∃ b, foldr (λ (fams : list string) acc, a ← acc;
    match fams !! i with Some s => Ret (s +:+ a) | None => Panic end) (Ret "") (order i) = Ret b).
  { specialize (Hl i). cbn [length] in Hl. induction (order i) as [|fams l IHl]; [by eexists|].
    cbn [foldr]. destruct IHl as [b ->]; [intros f Hf; apply Hl; by right|].
    cbn [mbind outcome_mbind].
    destruct (lookup_lt_is_Some_2 fams i) as [s ->]; [|by eexists].
    specialize (Hl fams (list_elem_of_here _ _)). lia. }
  destruct Hbody as [b ->]. cbn [mbind outcome_mbind].
  specialize (IH (S i)). destruct (write_headers order (S i) hs); [done|].
  exfalso. apply IH; [|done]. intros j fams Hf. specialize (Hl j fams Hf). cbn in Hl. lia.
Qed.
End metrics.

Arguments MetricObject : clear implicits.
Arguments FamilyGenerator : clear implicits.
Arguments PrometheusDataMap : clear implicits.
Notation PrometheusData LS := (gmap string (PrometheusDataMap LS)).

(** ** Properties *)

(** Joined with the definitions it matches, an object has one series per
    metric and definition, carrying the labels of both and the definition's name
    and namespace, and every series has as many values as labels; with no
    definition the metrics are unchanged. *)
Theorem wrapObject_spec {LS} (labels : list string) (f : MetricObject LS → list Metric)
    (obj : MetricObject LS) (mdefs : list (V1Beta1.MeterDefinition LS)) :
  length labels = 2 → Forall well_labelled (f obj) →
  let out := wrapObject labels f obj mdefs in
  Forall well_labelled out ∧
  length out = length (f obj) * Nat.max 1 (length mdefs) ∧
  (∀ m d, m ∈ f obj → d ∈ mdefs → ∃ m', m' ∈ out ∧ MValue m' = MValue m ∧
     LabelKeys m' = labels ++ LabelKeys m ++
       ["meter_def_name"; "meter_def_namespace"; "meter_def_group"; "meter_kind"] ∧
     LabelValues m' = [Namespace (metric_meta obj); Name (metric_meta obj)] ++ LabelValues m ++
       [Name (V1Beta1.Meta d); Namespace (V1Beta1.Meta d);
        V1Beta1.Group (V1Beta1.Spec d); V1Beta1.SKind (V1Beta1.Spec d)]).
Proof.
  intros Hl Hf. cbv zeta. unfold wrapObject.
  set (base := λ m, mkMetric (MValue m) (labels ++ LabelKeys m) _). split_and!.
  - apply MapMeterDefinitions_well, Forall_fmap. eapply Forall_impl; [exact Hf|].
    intros m Hm. unfold well_labelled, base; cbn. rewrite length_app, Hl.
    by rewrite Hm.
  - unfold MapMeterDefinitions. destruct mdefs as [|d ds]; [rewrite length_fmap; cbn; lia|].
    clear Hf. induction (f obj) as [|m ms IH]; [done|]. rewrite !fmap_cons, mjoin_cons, length_app, IH.
    cbn [length]. rewrite length_fmap. lia.
  - intros m d Hm Hd. exists (add_mdef (base m) d). unfold MapMeterDefinitions.
    destruct mdefs as [|d0 ds]; [by apply elem_of_nil in Hd|]. split_and!.
    + apply list_elem_of_join. exists (add_mdef (base m) <$> d0 :: ds). split.
      * by apply list_elem_of_fmap_2.
      * apply list_elem_of_fmap. exists (base m). split; [done|]. by apply list_elem_of_fmap_2.
    + done.
    + cbn. by rewrite <- app_assoc.
    + done.
Qed.

Definition toy_mpod : MetricObject unit := MPod (pod_meta "ns" "p") "high".

Lemma wrapObject_spec_witness :
  let out := wrapObject ["namespace"; "pod"] pod_metrics toy_mpod [toy_def] in
  LabelValues <$> out = [["ns"; "p"; "uid-p"; "high"; "d1"; "ns"; "g"; "k"]] ∧
  Forall well_labelled out.
Proof.
  intros out. split; [vm_compute; reflexivity|].
  apply (wrapObject_spec ["namespace"; "pod"] pod_metrics toy_mpod [toy_def]); [reflexivity|].
  repeat constructor.
Defined.

(** The metrics written out are those of the objects added last: adding an
    object whose type has a map replaces its own entry in the map of its type
    and nothing else, removing it drops it, an object of no known type is
    refused; and writing never runs out of families. *)
Theorem PrometheusData_spec {LS} (ByteSlice : string → list Metric → string)
    (obj : MetricObject LS) (mdefs : list (V1Beta1.MeterDefinition LS)) (p : PrometheusData LS) :
  map_Forall (λ _, data_wf) p →
  match Add ByteSlice obj mdefs p with
  | Err _ => ∀ name dm, p !! name = Some dm → expectedType dm ≠ metric_type obj
  | Ok p' =>
      map_Forall (λ _, data_wf) p' ∧
      (∀ name dm, p !! name = Some dm → ∃ dm', p' !! name = Some dm' ∧
         ∀ key, metrics dm' !! key =
           if bool_decide (metric_type obj = expectedType dm ∧
                           key = MetaNamespaceKey (metric_meta obj))
           then Some (ComposeMetricGenFuncs ByteSlice (generators dm) obj mdefs)
           else metrics dm !! key)
  end ∧
  map_Forall (λ _, data_wf) (Remove obj p) ∧
  (∀ name dm dm' order, p !! name = Some dm →
     Remove obj p !! name = Some dm' → (∀ i fams, fams ∈ order i → fams ∈ (map_to_list (metrics dm')).*2) →
     (metric_type obj = expectedType dm → MapGet obj dm' = None) ∧
     WriteAll order dm' ≠ Panic).
Proof.
  intros Hwf.
  assert (Hrm : ∀ dm, data_wf dm → data_wf (if IsExpectedType dm obj then MapRemove obj dm else dm)).
  { intros dm [Hh Hm]. destruct (IsExpectedType dm obj); [|done]. split; [done|]. cbn.
    by apply map_Forall_delete. }
  assert (Hrem : map_Forall (λ _, data_wf) (Remove obj p)).
  { intros name dm. unfold Remove. rewrite lookup_fmap_Some. intros (dm0 & <- & Hdm).
    apply Hrm. by apply (Hwf name). }
  split_and!; [|done|].
  - unfold Add. destruct (existsb _ (map_to_list p)) eqn:He.
    + split.
      * intros name dm. rewrite lookup_fmap_Some. intros (dm0 & <- & Hdm).
        pose proof (Hwf _ _ Hdm) as [Hh Hm]. unfold MapAdd.
        destruct (IsExpectedType dm0 obj); cbn [negb]; [|done]. split; [done|]. cbn.
        apply map_Forall_insert_2; [|done]. rewrite Hh. unfold ComposeMetricGenFuncs,
          ExtractMetricFamilyHeaders. by rewrite !length_fmap.
      * intros name dm Hdm. eexists. split; [by rewrite lookup_fmap, Hdm|]. intros key. unfold MapAdd.
        destruct (IsExpectedType dm obj) eqn:Ht; unfold IsExpectedType in Ht; go_bool; cbn [negb].
        -- cbn [with_metrics metrics]. case_bool_decide as Hk.
           ++ destruct Hk as [_ ->]. apply lookup_insert_eq.
           ++ rewrite lookup_insert_ne; [done|]. intros <-. by apply Hk.
        -- rewrite bool_decide_false; [done|]. by intros [? _].
    + intros name dm Hdm Heq. rewrite existsb_False_forall in He.
      specialize (He (name, dm) (proj2 (elem_of_map_to_list _ _ _) Hdm)). cbn in He.
      unfold IsExpectedType in He. go_bool. congruence.
  - intros name dm dm' order Hdm Hdm' Hord. split.
    + intros Ht. unfold Remove in Hdm'. rewrite lookup_fmap, Hdm in Hdm'. cbn in Hdm'.
      unfold IsExpectedType in Hdm'. rewrite bool_decide_true in Hdm' by done.
      injection Hdm' as <-. unfold MapGet, MapRemove; cbn. apply lookup_delete_eq.
    + apply write_headers_ok. intros j fams Hf. apply Hord in Hf.
      apply list_elem_of_fmap in Hf as ([k v] & -> & Hk%elem_of_map_to_list).
      destruct (Hrem _ _ Hdm') as [_ Hm]. cbn. rewrite (Hm _ _ Hk). lia.
Qed.

Definition toy_data : PrometheusData unit := ProvidePrometheusData (λ _, None).

Lemma PrometheusData_spec_witness :
  map_Forall (λ _, data_wf) toy_data ∧
  match Add (λ n _, n) toy_mpod [toy_def] toy_data with
  | Err _ => False
  | Ok p' => map_Forall (λ _, data_wf) p'
  end.
Proof.
  assert (Hwf : map_Forall (λ _, data_wf) toy_data).
  { unfold toy_data, ProvidePrometheusData.
    repeat (apply map_Forall_insert_2; [split; [reflexivity|apply map_Forall_empty]|]).
    apply map_Forall_empty. }
  split; [exact Hwf|].
  pose proof (PrometheusData_spec (λ n _, n) toy_mpod [toy_def] toy_data Hwf) as [H _].
  assert (Hok : is_ok (Add (λ n _, n) toy_mpod [toy_def] toy_data) = true)
    by (vm_compute; reflexivity).
  revert H Hok. generalize (Add (λ n _, n) toy_mpod [toy_def] toy_data) as r.
  intros [p'|e] H Hok; [exact (proj1 H)|discriminate].
Defined.
