(* ===== verification/Engine.v ===== *)
(** * The engine

    The model of [metering/v2/pkg/engine]: the runnables in their start-up order,
    and the listers that follow the namespaces the watcher asks for. *)

From S2P Require Import Prelude Workloads Filters NamespaceWatcher.
Local Open Scope go_scope.

(** ** Runnables *)

Section engine.
Context {W R : Type}.
(** [runnable.Start], on the state of the process. *)
Variable Start : R → W → W * option string.

Fixpoint start_all (runnables : list R) (w : W) : W * option string :=
  match runnables with
  | [] => (w, None)
  | r :: rs =>
      match Start r w with
      | (w, Some e) => (w, Some e)
      | (w, None) => start_all rs w
      end
  end.

(** [Engine.Start]: a previous run is cancelled first. *)
Definition EngineStart (cancel : W → W) (started : bool) (runnables : list R) (w : W)
    : W * option string :=
  start_all runnables (if started then cancel w else w).
End engine.

(** ** Listers *)

(** [typ.String()]. *)
Definition type_string (t : GoType) : string :=
  match t with
  | TPod => "*v1.Pod"
  | TService => "*v1.Service"
  | TPersistentVolume => "*v1.PersistentVolume"
  | TPersistentVolumeClaim => "*v1.PersistentVolumeClaim"
  | TServiceMonitor => "*v1.ServiceMonitor"
  | TMeterDefinition => "*v1beta1.MeterDefinition"
  | TOther n => n
  end.

Definition cachedListerKey (ns : string) (typ : GoType) : string :=
  ns +:+ "-" +:+ type_string typ.

(** The types [ProvideMeterDefinitionStoreListWatchers] has a lister for. *)
Definition makeListers (t : GoType) : bool :=
  match t with
  | TPersistentVolumeClaim | TPod | TService | TServiceMonitor => true
  | _ => false
  end.

(** A lister is made for a namespace and a type. *)
Definition Lister : Type := string * GoType.

Section listers.
Context {W : Type}.
Variable Start : Lister → W → W * option string.
Variable Stop : Lister → W → W.

Record Listers := mkListers { listers : gmap string (list Lister); world : W }.

(** The two nested loops over the namespaces, as one over their pairs. A type
    without a lister calls a nil function. *)
Fixpoint start_loop (pairs : list Lister) (s : Listers) : outcome (Listers * option string) :=
  match pairs with
  | [] => Ret (s, None)
  | (ns, nsType) :: pairs =>
      let key := cachedListerKey ns nsType in
      match listers s !! key with
      | Some _ => start_loop pairs s
      | None =>
          if makeListers nsType then
            let ls := <[key := []]> (listers s) in
            match Start (ns, nsType) (world s) with
            | (w, Some err) => Ret (mkListers ls w, Some err)
            | (w, None) =>
                start_loop pairs
                  (mkListers (<[key := default [] (ls !! ns) ++ [(ns, nsType)]]> ls) w)
            end
          else Panic
      end
  end.

Definition stop_all (l : list Lister) (w : W) : W := foldl (λ w r, Stop r w) w l.

(** [entries] are the entries of the map in the order they are ranged over. *)
Definition stop_loop (keys : list string) (entries : list (string * list Lister)) (s : Listers)
    : Listers :=
  foldl (λ s e, if bool_decide (e.1 ∈ keys) then s
                else mkListers (delete e.1 (listers s)) (stop_all e.2 (world s))) s entries.

Definition pairs_of (namespaces : list (string * list GoType)) : list Lister :=
  e ← namespaces; t ← e.2; [(e.1, t)].

(** [namespaces] is the watcher's answer, in the order it is ranged over. *)
Definition namespaceChange (order : gmap string (list Lister) → list (string * list Lister))
    (namespaces : list (string * list GoType)) (s : Listers)
    : outcome (Listers * option string) :=
  let pairs := pairs_of namespaces in
  match start_loop pairs s with
  | Panic => Panic
  | Ret (s, Some err) => Ret (s, Some err)
  | Ret (s, None) =>
      let keys := (λ p, cachedListerKey p.1 p.2) <$> pairs in
      Ret (stop_loop keys (order (listers s)) s, None)
  end.

(** ** Lemmas *)

Lemma start_loop_dom pairs s s' :
  start_loop pairs s = Ret (s', None) →
  (∀ key, is_Some (listers s' !! key) ↔
     is_Some (listers s !! key) ∨ key ∈ (λ p, cachedListerKey p.1 p.2) <$> pairs) ∧
  (∀ key ls, listers s !! key = Some ls → listers s' !! key = Some ls).
Proof.
  revert s; induction pairs as [|[ns t] pairs IH]; intros s; cbn [start_loop].
  - intros [= ->]. split; [|done]. intros key. rewrite fmap_nil, elem_of_nil. tauto.
  - rewrite fmap_cons. cbn [fst snd]. set (k := cachedListerKey ns t).
    destruct (listers s !! k) as [ls|] eqn:Hk.
    + intros [Hd Hs]%IH. split; [|done]. intros key. rewrite Hd, elem_of_cons.
      split; [tauto|]. intros [?|[->|?]]; [tauto| |tauto]. left. by exists ls.
    + destruct (makeListers t); [|done].
      destruct (Start (ns, t) (world s)) as [w [e|]]; [done|].
      intros [Hd Hs]%IH. cbn [listers] in *. split.
      * intros key. rewrite Hd, elem_of_cons.
        destruct (decide (key = k)) as [->|Hne].
        -- rewrite lookup_insert_eq. naive_solver.
        -- rewrite !lookup_insert_ne by done. naive_solver.
      * intros key ls Hkey. apply Hs. rewrite !lookup_insert_ne by congruence. done.
Qed.

Lemma stop_loop_lookup keys entries s key :
  listers (stop_loop keys entries s) !! key =
    if bool_decide (key ∉ keys ∧ key ∈ entries.*1) then None else listers s !! key.
Proof.
  unfold stop_loop. revert s; induction entries as [|[k ls] entries IH]; intros s; cbn [foldl].
  - rewrite bool_decide_false; [done|]. intros [_ H]. by apply elem_of_nil in H.
  - rewrite IH, fmap_cons. cbn [fst].
    destruct (decide (k ∈ keys)) as [Hk|Hk].
    + rewrite (bool_decide_true (k ∈ keys)) by done.
      rewrite (bool_decide_ext (key ∉ keys ∧ key ∈ k :: _) (key ∉ keys ∧ key ∈ entries.*1));
        [done|]. rewrite elem_of_cons. naive_solver.
    + rewrite (bool_decide_false (k ∈ keys)) by done. cbn [listers].
      destruct (decide (key = k)) as [->|Hne].
      * rewrite lookup_delete_eq, (bool_decide_true (_ ∧ k ∈ k :: _)) by (split; [done|by left]).
        by case_bool_decide.
      * rewrite lookup_delete_ne by done.
        rewrite (bool_decide_ext (key ∉ keys ∧ key ∈ k :: _) (key ∉ keys ∧ key ∈ entries.*1));
          [done|]. rewrite elem_of_cons. naive_solver.
Qed.
End listers.

Arguments Listers : clear implicits.

(** ** Properties *)

(** A change of the namespaces that meets no error leaves exactly one entry
    per namespace and type asked for; the entries that were there already are
    kept as they are. *)
Theorem namespaceChange_spec {W} (Start : Lister → W → W * option string)
    (Stop : Lister → W → W) order (namespaces : list (string * list GoType)) (s s' : Listers W) :
  (∀ m, order m ≡ₚ map_to_list m) →
  namespaceChange Start Stop order namespaces s = Ret (s', None) →
  (∀ key, is_Some (listers s' !! key) ↔
     ∃ ns ts t, (ns, ts) ∈ namespaces ∧ t ∈ ts ∧ key = cachedListerKey ns t) ∧
  (∀ key ls, listers s !! key = Some ls → is_Some (listers s' !! key) →
     listers s' !! key = Some ls).
Proof.
  intros Ho. unfold namespaceChange.
  destruct (start_loop Start (pairs_of namespaces) s) as [[s1 [e|]]|] eqn:Hs; [done| |done].
  intros [= <-]. destruct (start_loop_dom _ _ _ _ Hs) as [Hd Hk].
  set (keys := (λ p, cachedListerKey p.1 p.2) <$> pairs_of namespaces) in *.
  assert (Hentries : ∀ key, key ∈ (order (listers s1)).*1 ↔ is_Some (listers s1 !! key)).
  { intros key. rewrite Ho, list_elem_of_fmap. split.
    - intros ([k v] & -> & Hin%elem_of_map_to_list). by exists v.
    - intros [v Hv%elem_of_map_to_list]. by exists (key, v). }
  assert (Hkeys : ∀ key, key ∈ keys ↔
    ∃ ns ts t, (ns, ts) ∈ namespaces ∧ t ∈ ts ∧ key = cachedListerKey ns t).
  { intros key. subst keys. unfold pairs_of. rewrite list_elem_of_fmap. split.
    - intros ([ns t] & -> & Hin). apply list_elem_of_bind in Hin as ([ns' ts] & Hin & Hns).
      apply list_elem_of_bind in Hin as (t' & Hin & Ht).
      apply list_elem_of_singleton in Hin as [= -> ->]. by exists ns', ts, t'.
    - intros (ns & ts & t & Hns & Ht & ->). exists (ns, t). split; [done|].
      apply list_elem_of_bind. exists (ns, ts). split; [|done]. apply list_elem_of_bind.
      exists t. split; [by left|done]. }
  split.
  - intros key. rewrite <- Hkeys, stop_loop_lookup.
    specialize (Hentries key). specialize (Hd key). fold keys in Hd.
    case_bool_decide as Hb.
    + split; [by intros []|]. intros Hin. by destruct Hb.
    + destruct (decide (key ∈ keys)); tauto.
  - intros key ls Hls. rewrite stop_loop_lookup. case_bool_decide; [by intros []|].
    intros _. by apply Hk.
Qed.

Definition ok_start (l : Lister) (w : list Lister) : list Lister * option string :=
  (w ++ [l], None).
Definition ok_stop (l : Lister) (w : list Lister) : list Lister :=
  List.filter (λ r, negb (bool_decide (r = l))) w.

Definition two_listers : Listers (list Lister) :=
  mkListers {[ cachedListerKey "a" TPod := [("a", TPod)];
               cachedListerKey "b" TPod := [("b", TPod)] ]} [("a", TPod); ("b", TPod)].

Lemma namespaceChange_spec_witness :
  ∃ s', namespaceChange ok_start ok_stop map_to_list [("b", [TPod; TService])] two_listers
          = Ret (s', None) ∧
    world s' = [("b", TPod); ("b", TService)] ∧
    (∀ key, is_Some (listers s' !! key) ↔
       ∃ ns ts t, (ns, ts) ∈ [("b", [TPod; TService])] ∧ t ∈ ts ∧ key = cachedListerKey ns t).
Proof.
  eexists. split; [vm_compute; reflexivity|]. split; [reflexivity|].
  eapply (namespaceChange_spec ok_start ok_stop map_to_list [("b", [TPod; TService])] two_listers);
    [done|vm_compute; reflexivity].
Defined.

(** A lister whose start failed is never started again: the empty entry made
    before the start stays, and the next changes, which the failure is retried
    with, take it for running and report success. *)
Theorem failed_start_not_retried {W} (Start : Lister → W → W * option string)
    (Stop : Lister → W → W) order (ns : string) (t : GoType) (w w' : W) (err : string) :
  (∀ m, order m ≡ₚ map_to_list m) → makeListers t = true → Start (ns, t) w = (w', Some err) →
  let s' := mkListers {[ cachedListerKey ns t := [] ]} w' in
  namespaceChange Start Stop order [(ns, [t])] (mkListers ∅ w) = Ret (s', Some err) ∧
  namespaceChange Start Stop order [(ns, [t])] s' = Ret (s', None).
Proof.
  intros Ho Ht Hs. cbv zeta. unfold namespaceChange, pairs_of; cbn [mbind list_bind app start_loop fst snd].
  cbn [listers world]. rewrite lookup_empty, Ht, Hs. split; [done|].
  rewrite lookup_singleton_eq. do 2 f_equal. cbn [listers fmap list_fmap].
  assert (Hp : order {[cachedListerKey ns t := []]} = [(cachedListerKey ns t, [])]).
  { apply Permutation_singleton_r. rewrite Ho. by rewrite map_to_list_singleton. }
  rewrite Hp. unfold stop_loop; cbn [foldl fst snd]. by rewrite bool_decide_true by by left.
Qed.

Lemma failed_start_not_retried_witness :
  let Start (l : Lister) (w : nat) := (S w, Some "refused") in
  let s' := mkListers {[ cachedListerKey "a" TPod := [] ]} 1 in
  namespaceChange Start (λ _ w, w) map_to_list [("a", [TPod])] (mkListers ∅ 0)
    = Ret (s', Some "refused") ∧
  namespaceChange Start (λ _ w, w) map_to_list [("a", [TPod])] s' = Ret (s', None).
Proof.
  intros Start s'.
  apply (failed_start_not_retried Start (λ _ w, w) map_to_list "a" TPod 0 1 "refused");
    reflexivity.
Defined.
