(* ===== verification/FileServer.v ===== *)
(** * The file service

    The model of the service the reports are kept in until they are uploaded: the
    server's handlers ([airgap/v2/internal/server/fileserver.go]), the paging of
    its store ([airgap/v2/pkg/database]), its models and their translation to and
    from the wire ([airgap/v2/pkg/models/v2]), and the client the reporter uses
    ([reporter/v2/pkg/dataservice/dataservice.go]). The store is an interface with
    the laws the handlers rely on; so is the disk a download is written to. A stream may
    break anywhere. *)

From Stdlib Require Import Strings.Byte.
From S2P Require Import Prelude GoTime Strconv.
Local Open Scope go_scope.

(** ** Data *)

Definition bytes := list Byte.byte.

#[export] Instance byte_eq_dec : EqDecision Byte.byte := Byte.byte_eq_dec.

(** What the wire carries about a file; [None] metadata is a nil map. *)
Record FileInfo := mkFileInfo {
  FId : string;
  FName : string;
  FSource : string;
  FSourceType : string;
  FMetadata : option (gmap string string);
  FSize : Z;
  FChecksum : string;
  FMimeType : string;
  FDeletedAt : option GoTime
}.

Record StoredFileMetadata := mkStoredFileMetadata { MKey : string; MValue : string }.

Record StoredFileContent := mkStoredFileContent {
  CChecksum : string; CSize : Z; CMimeType : string; Content : bytes
}.

(** [SDeletedAt] is the time of the soft deletion, the zero time when there is
    none. *)
Record StoredFile := mkStoredFile {
  SID : Z;
  SName : string;
  SSource : string;
  SSourceType : string;
  SFile : StoredFileContent;
  SMetadata : list StoredFileMetadata;
  SDeletedAt : option GoTime
}.

(** A nil map reads as an empty one. *)
Definition entries (m : option (gmap string string)) : gmap string string := default ∅ m.

Definition no_content : StoredFileContent := mkStoredFileContent "" 0 "" [].

Definition StoredFileFromProto (finfo : FileInfo) : StoredFile :=
  mkStoredFile 0 (FName finfo) (FSource finfo) (FSourceType finfo) no_content
    ((λ e, mkStoredFileMetadata e.1 e.2) <$> map_to_list (entries (FMetadata finfo))) None.

(** Rows with the same key: the last one wins. *)
Definition metadata_map (l : list StoredFileMetadata) : gmap string string :=
  foldl (λ m e, <[MKey e := MValue e]> m) ∅ l.

Definition StoredFileToProto (file : StoredFile) : FileInfo :=
  mkFileInfo (Itoa (SID file)) (SName file) (SSource file) (SSourceType file)
    (Some (metadata_map (SMetadata file))) (wrap_uint32 (CSize (SFile file)))
    (CChecksum (SFile file)) (CMimeType (SFile file)) (SDeletedAt file).

(** ** Chunks *)

Definition chunkSize : nat := 1024.

(** The reader of [Upload]: each turn reads at most a buffer, the end of the input
    is reached by a read that gives nothing. *)
Fixpoint Upload_chunks (fuel : nat) (reader : bytes) : list bytes :=
  match fuel with
  | O => []
  | S fuel =>
      match take chunkSize reader with
      | [] => []
      | chunk => chunk :: Upload_chunks fuel (drop chunkSize reader)
      end
  end.

(** The loop of the server's [DownloadFile]. *)
Fixpoint DownloadFile_chunks (fuel : nat) (buf : bytes) : list bytes :=
  match fuel with
  | O => []
  | S fuel =>
      if bool_decide (length buf ≠ 0%nat) then
        if bool_decide (chunkSize ≤ length buf)%nat
        then take chunkSize buf :: DownloadFile_chunks fuel (drop chunkSize buf)
        else buf :: DownloadFile_chunks fuel (drop (length buf) buf)
      else []
  end.

(** ** The handlers *)

Inductive UploadMsg := UInfo (info : FileInfo) | UChunk (data : bytes).

Inductive ServerError :=
| EFileInfoMissing | EFileContentMissing | EChecksumIncorrect | ESave (msg : string)
| EFetch (msg : string) | ENotFoundFile | EInternal (msg : string).

(** The errors of the store: [database.ErrNotFound], gorm's [ErrRecordNotFound]
    and the others. *)
Inductive StoreError := SNotFound | SRecordNotFound | SOther (msg : string).

Definition store_text (e : StoreError) : string :=
  match e with
  | SNotFound => "not found"
  | SRecordNotFound => "record not found"
  | SOther msg => msg
  end.

Record StoredFileKey := mkFileKey { KName : string; KSource : string; KSourceType : string }.

(** The store, as the handlers use it: a saved file comes back with what the save
    filled in, and the content saved under an identifier is the one downloaded
    for it. *)
Class StoredFileStore (S : Type) := {
  Save : StoredFile → S → S * (StoredFile * result string string);
  Download : string → S → result string StoredFile;
  StoreGet : string → S → result StoreError StoredFile;
  GetByFileKey : StoredFileKey → S → result StoreError StoredFile;
  save_download f s s' f' id :
    Save f s = (s', (f', Ok id)) → Content (SFile f) ≠ [] →
    ∃ g, Download id s' = Ok g ∧ Content (SFile g) = Content (SFile f) ∧
         Itoa (SID g) = id
}.

(** The files of the client: one is opened empty, written to at its end, and closed; a
    call may fail, and touches no other file. *)
Class LocalDisk (W : Type) := {
  local : W → gmap string bytes;
  LocalOpen : string → W → W * option string;
  LocalWrite : string → bytes → W → W * option string;
  LocalClose : string → W → W * option string;
  local_apart f b w :
    delete f (local (LocalOpen f w).1) = delete f (local w) ∧
    delete f (local (LocalWrite f b w).1) = delete f (local w) ∧
    delete f (local (LocalClose f w).1) = delete f (local w);
  local_open f w w' : LocalOpen f w = (w', None) → local w' !! f = Some [];
  local_write f b w w' c :
    LocalWrite f b w = (w', None) → local w !! f = Some c → local w' !! f = Some (c ++ b);
  local_close f w w' : LocalClose f w = (w', None) → local w' !! f = local w !! f
}.

Section server.
Context {S : Type} `{!StoredFileStore S}.
(** [%x] of [sha256.Sum256]. *)
Variable sha256 : bytes → string.

(** The hook that runs when a content is written. *)
Definition BeforeSave (f : StoredFileContent) : StoredFileContent :=
  match Content f with
  | [] => f
  | _ :: _ => mkStoredFileContent (sha256 (Content f)) (Z.of_nat (length (Content f)))
                (CMimeType f) (Content f)
  end.

(** The receiving loop: the last information message and all the chunks. *)
Definition receive (msgs : list UploadMsg) : bytes * option FileInfo :=
  foldl (λ s m, match m with
                | UChunk b => (s.1 ++ b, s.2)
                | UInfo i => (s.1, Some i)
                end) ([], None) msgs.

Definition UploadFile (msgs : list UploadMsg) (s : S) : S * result ServerError (string * Z) :=
  let '(bs, finfo) := receive msgs in
  match finfo with
  | None => (s, Err EFileInfoMissing)
  | Some finfo =>
      match bs with
      | [] => (s, Err EFileContentMissing)
      | _ :: _ =>
          let file := StoredFileFromProto finfo in
          let file := mkStoredFile (SID file) (SName file) (SSource file) (SSourceType file)
            (mkStoredFileContent "" 0 (FMimeType finfo) bs) (SMetadata file) (SDeletedAt file) in
          match Save file s with
          | (s, (_, Err err)) => (s, Err (ESave err))
          | (s, (file, Ok id)) =>
              if CChecksum (SFile file) != FChecksum finfo then (s, Err EChecksumIncorrect)
              else (s, Ok (id, wrap_uint32 (CSize (SFile file))))
          end
      end
  end.

Definition DownloadFile (id : string) (s : S) : result ServerError (list bytes) :=
  match Download id s with
  | Err err => Err (EFetch err)
  | Ok file =>
      Ok (DownloadFile_chunks (length (Content (SFile file))) (Content (SFile file)))
  end.

(** The request: an identifier, or else a key. *)
Definition GetFile (id : string) (key : option StoredFileKey) (s : S)
    : result ServerError FileInfo :=
  let answer r := match r with
                  | Err SNotFound => Err ENotFoundFile
                  | Err err => Err (EInternal (store_text err))
                  | Ok file => Ok (StoredFileToProto file)
                  end in
  if id != "" then answer (StoreGet id s)
  else match key with
       | Some key => answer (GetByFileKey key s)
       | None => Err (EInternal "no key provided")
       end.

(** The new metadata over the old; writing an old entry into a nil map panics.
    [order] lists the entries of the merged map. *)
Definition merge_metadata (metadata : option (gmap string string)) (old : list StoredFileMetadata)
    : outcome (option (gmap string string)) :=
  foldl (λ acc md, m ← acc;
    match entries m !! MKey md with
    | Some _ => Ret m
    | None => match m with
              | Some m => Ret (Some (<[MKey md := MValue md]> m))
              | None => Panic
              end
    end) (Ret metadata) old.

Definition UpdateFileMetadata (id : string) (metadata : option (gmap string string)) (s : S)
    : outcome (S * result ServerError FileInfo) :=
  match StoreGet id s with
  | Err SRecordNotFound => Ret (s, Err ENotFoundFile)
  | Err err => Ret (s, Err (EInternal (store_text err)))
  | Ok file =>
      metadata ← merge_metadata metadata (SMetadata file);
      let file := mkStoredFile (SID file) (SName file) (SSource file) (SSourceType file)
        (SFile file)
        ((λ e, mkStoredFileMetadata e.1 e.2) <$> map_to_list (entries metadata))
        (SDeletedAt file) in
      match Save file s with
      | (s, (_, Err err)) => Ret (s, Err (EInternal err))
      | (s, (file, Ok _)) => Ret (s, Ok (StoredFileToProto file))
      end
  end.

(** ** The client *)

(** [DataService.Upload]: the messages it sends; [found] is the answer to its
    search for a file with this key. *)
Definition Upload_msgs (info : FileInfo) (found : option FileInfo) (content : bytes)
    : list UploadMsg :=
  let id := match found with
            | Some f => if FId f != "" then FId f else FId info
            | None => FId info
            end in
  let info := mkFileInfo id (FName info) (FSource info) (FSourceType info) (FMetadata info)
    (FSize info) (FChecksum info) (FMimeType info) (FDeletedAt info) in
  UInfo info :: (UChunk <$> Upload_chunks (length content) content).

(** [DataService.UploadFile]: the information made for a report. *)
Definition report_info (name : string) (metadata : option (gmap string string)) (b : bytes)
    : FileInfo :=
  mkFileInfo "" name "redhat-marketplace" "report" metadata 0 (sha256 b) "application/gzip" None.

Definition DataService_UploadFile (name : string) (metadata : option (gmap string string))
    (found : option FileInfo) (content : bytes) (s : S) : S * result ServerError string :=
  match UploadFile (Upload_msgs (report_info name metadata content) found content) s with
  | (s, Err e) => (s, Err e)
  | (s, Ok (id, _)) => (s, Ok id)
  end.

(** Whether the call of a download fails; and after how many messages its stream breaks,
    because the server cannot send or the client not receive. *)
Record Transport := mkTransport { call_fails : option string; breaks : option (nat * string) }.

(** What arrives of an answer: messages, and the error of the handler or of the stream, or
    its end. *)
Inductive StreamError := FromHandler (e : ServerError) | Broken (msg : string).

Definition arriving (t : Transport) (r : result ServerError (list bytes)) : list bytes * option StreamError :=
  let '(chunks, e) := match r with Err e => ([], Some (FromHandler e)) | Ok chunks => (chunks, None) end in
  match breaks t with
  | Some (n, msg) => if bool_decide (n ≤ length chunks)%nat then (take n chunks, Some (Broken msg)) else (chunks, e)
  | None => (chunks, e)
  end.

Inductive DownloadError :=
| EInfoEmpty | ECall (msg : string) | EOpen (msg : string) | EStream (e : StreamError) | EWrite (msg : string)
| EChecksum | EClose (msg : string).

Context {W : Type} `{!LocalDisk W}.

(** The loop over the stream, with what was hashed. *)
Fixpoint receive_loop (file : string) (chunks : list bytes) (end_ : option StreamError) (h : bytes) (w : W)
    : W * result DownloadError bytes :=
  match chunks with
  | [] => (w, match end_ with None => Ok h | Some e => Err (EStream e) end)
  | [] :: chunks => receive_loop file chunks end_ h w
  | data :: chunks =>
      match LocalWrite file data w with
      | (w, Some e) => (w, Err (EWrite e))
      | (w, None) => receive_loop file chunks end_ (h ++ data) w
      end
  end.

(** [DataService.DownloadFile]: the name of the file it writes, and its errors; what is
    written stays when there is one. *)
Definition DataService_DownloadFile (OutputPath : string) (t : Transport) (info : option FileInfo) (s : S) (w : W)
    : W * (string * list DownloadError) :=
  match info with
  | None => (w, ("", [EInfoEmpty]))
  | Some info =>
      match call_fails t with
      | Some e => (w, ("", [ECall e]))
      | None =>
          let '(chunks, end_) := arriving t (DownloadFile (FId info) s) in
          let file := filepath_Join OutputPath (FName info) in
          match LocalOpen file w with
          | (w, Some e) => (w, (file, [EOpen e]))
          | (w, None) =>
              let '(w, r) := receive_loop file chunks end_ [] w in
              let err := match r with
                         | Err e => [e]
                         | Ok h => if FChecksum info != sha256 h then [EChecksum] else []
                         end in
              match LocalClose file w with
              | (w, Some e) => (w, (file, err ++ [EClose e]))
              | (w, None) => (w, (file, err))
              end
          end
      end
  end.
End server.

(** ** Pages *)

Record ListPagination := mkPagination { Page : Z; PageSize : Z }.

Definition page_size (pageSize : Z) : Z :=
  if bool_decide (100 < pageSize)%Z then 100%Z
  else if bool_decide (pageSize ≤ 0)%Z then 10%Z else pageSize.

Definition Paginate (pageToken : string) (pageSize : Z) : ListPagination :=
  mkPagination (if pageToken == "" then 1%Z else default 1%Z (Atoi pageToken)) (page_size pageSize).

(** The window of a page on the rows, in the store's order: one row more than
    the page holds. An offset that is not positive is left out of the query. *)
Definition paginator {A} (p : ListPagination) (rows : list A) : list A :=
  let page := if bool_decide (Page p = 0%Z) then 1%Z else Page p in
  let offset := wrap64 ((page - 1) * page_size (PageSize p)) in
  take (Z.to_nat (page_size (PageSize p) + 1)) (drop (Z.to_nat offset) rows).

(** [fileStore.List] on the rows that its query selects: a page and the token of
    the next one. *)
Definition List {A} (p : ListPagination) (rows : list A) : list A * string :=
  let files := paginator p rows in
  if bool_decide (Z.of_nat (length files) = PageSize p + 1)%Z
  then (take (length files - 1) files, Itoa (Page p + 1))
  else (files, "").

(** The handler: a page size of 0 stands for 100. *)
Definition ListFiles_page (pageSize : Z) (pageToken : string) (rows : list StoredFile)
    : list FileInfo * string :=
  let '(files, next) := List (Paginate pageToken (if bool_decide (pageSize = 0%Z) then 100%Z
                                                  else pageSize)) rows in
  (StoredFileToProto <$> files, next).

(** The loop of [DataService.ListFiles], its pages served by [serve]; [None] is
    running out of fuel. *)
Fixpoint ListFiles_loop (fuel : nat) (serve : string → result string (list FileInfo * string))
    (pageToken : string) (fileList : list FileInfo)
    : option (list FileInfo * option string) :=
  match fuel with
  | O => None
  | S fuel =>
      match serve pageToken with
      | Err e => Some (fileList, Some e)
      | Ok (files, next) =>
          let fileList := fileList ++ files in
          if next == "" then Some (fileList, None)
          else ListFiles_loop fuel serve next fileList
      end
  end.

Definition DataService_ListFiles (fuel : nat)
    (serve : string → result string (list FileInfo * string)) :=
  ListFiles_loop fuel serve "" [].

(** ** Lemmas *)

Lemma concat_Upload_chunks fuel reader :
  (length reader ≤ fuel)%nat → mjoin (Upload_chunks fuel reader) = reader.
Proof.
  revert reader; induction fuel as [|fuel IH]; intros reader Hf.
  { by destruct reader; [|cbn in Hf; lia]. }
  cbn [Upload_chunks]. destruct reader as [|b reader]; [done|].
  change (take chunkSize (b :: reader)) with (b :: take 1023 reader).
  transitivity ((b :: take 1023 reader) ++ drop chunkSize (b :: reader));
    [|exact (take_drop chunkSize (b :: reader))].
  cbn [mjoin list_join]. f_equal. apply IH. rewrite length_drop. cbn [length] in *. unfold chunkSize. lia.
Qed.

Lemma concat_DownloadFile_chunks fuel buf :
  (length buf ≤ fuel)%nat → mjoin (DownloadFile_chunks fuel buf) = buf.
Proof.
  revert buf; induction fuel as [|fuel IH]; intros buf Hf.
  { by destruct buf; [|cbn in Hf; lia]. }
  cbn [DownloadFile_chunks]. case_bool_decide as H0.
  - case_bool_decide as H1; cbn [mjoin list_join]; rewrite IH.
    + apply take_drop.
    + rewrite length_drop. unfold chunkSize in *. lia.
    + by rewrite drop_all, app_nil_r.
    + rewrite drop_all. cbn. lia.
  - destruct buf; [done|]. cbn in H0. lia.
Qed.

(** No message is larger than the chunk size, and none is empty. *)
Lemma chunk_sizes fuel l c :
  c ∈ Upload_chunks fuel l ∨ c ∈ DownloadFile_chunks fuel l →
  (0 < length c ≤ chunkSize)%nat.
Proof.
  revert l; induction fuel as [|fuel IH]; intros l; cbn [Upload_chunks DownloadFile_chunks].
  { intros [H|H]; by apply elem_of_nil in H. }
  intros [H|H].
  - destruct l as [|b l]; [by apply elem_of_nil in H|].
    change (take chunkSize (b :: l)) with (b :: take 1023 l) in H.
    apply elem_of_cons in H as [->|H]; [|eapply IH; by left].
    cbn [length]. rewrite length_take. unfold chunkSize. lia.
  - repeat case_bool_decide; [| |by apply elem_of_nil in H];
      (apply elem_of_cons in H as [->|H]; [|eapply IH; by right]).
    + rewrite length_take. unfold chunkSize in *. lia.
    + unfold chunkSize in *. lia.
Qed.

Lemma receive_chunks i chunks :
  receive (UInfo i :: (UChunk <$> chunks)) = (mjoin chunks, Some i).
Proof.
  unfold receive. cbn [foldl].
  enough (∀ acc : bytes, foldl (λ s m, match m with UChunk b => (s.1 ++ b, s.2)
    | UInfo i => (s.1, Some i) end) (acc, Some i) (UChunk <$> chunks) =
    (acc ++ mjoin chunks, Some i)) as H by apply H.
  induction chunks as [|c chunks IH]; intros acc; cbn [fmap list_fmap foldl mjoin list_join fst snd].
  - by rewrite app_nil_r.
  - by rewrite IH, app_assoc.
Qed.

(** A page of the server, its token the one the client was given for it. *)
Definition page_token (j : nat) : string :=
  if bool_decide (j = 0%nat) then "" else Itoa (Z.of_nat j + 1).

Lemma Itoa_not_empty z : Itoa z ≠ "".
Proof.
  unfold Itoa. destruct (to_int_not_nil z) as [H1 H2].
  destruct (Z.to_int z) as [u|u]; [|discriminate].
  by destruct u.
Qed.

Lemma page_at {A} (rows : list A) (j : nat) :
  (100 * (Z.of_nat j + 1) ≤ max_int64)%Z →
  paginator (Paginate (page_token j) 100) rows = take 101 (drop (100 * j) rows) ∧
  Page (Paginate (page_token j) 100) = (Z.of_nat j + 1)%Z.
Proof.
  intros Hj.
  assert (Hp : Page (Paginate (page_token j) 100) = (Z.of_nat j + 1)%Z).
  { unfold Paginate, page_token; cbn [Page]. destruct (decide (j = 0)) as [->|H0]; [done|].
    rewrite (bool_decide_false (j = 0)), bool_decide_false by (apply Itoa_not_empty || done).
    rewrite Atoi_Itoa; [done|]. unfold min_int64, max_int64 in *. lia. }
  split; [|done]. unfold paginator. rewrite Hp.
  change (page_size (PageSize (Paginate (page_token j) 100))) with 100%Z.
  rewrite bool_decide_false by lia. rewrite wrap64_id.
  - do 2 f_equal. lia.
  - unfold min_int64, max_int64 in *. lia.
Qed.

Lemma ListFiles_page_at (rows : list StoredFile) (j : nat) :
  (100 * (Z.of_nat j + 1) ≤ max_int64)%Z →
  ListFiles_page 100 (page_token j) rows =
    (StoredFileToProto <$> take 100 (drop (100 * j) rows),
     if bool_decide (100 < length (drop (100 * j) rows))%nat then page_token (S j) else "").
Proof.
  intros Hj. destruct (page_at rows j Hj) as [Hr Hp].
  unfold ListFiles_page, List. change (bool_decide (100%Z = 0%Z)) with false. cbv iota.
  rewrite Hr, Hp. change (PageSize (Paginate (page_token j) 100)) with 100%Z.
  rewrite length_take. set (r := drop (100 * j) rows).
  case_bool_decide as H1; case_bool_decide as H2; try lia.
  - replace (101 `min` length r - 1)%nat with 100%nat by lia. rewrite take_take.
    f_equal. unfold page_token. rewrite bool_decide_false by lia. f_equal. lia.
  - by rewrite !take_ge by lia.
Qed.

Lemma ListFiles_loop_at (rows : list StoredFile) (fuel j : nat) acc :
  (100 * (Z.of_nat (j + fuel)) ≤ max_int64)%Z →
  (length (drop (100 * j) rows) ≤ 100 * fuel)%nat → (0 < fuel)%nat →
  ListFiles_loop fuel (λ tok, Ok (ListFiles_page 100 tok rows)) (page_token j) acc =
    Some (acc ++ (StoredFileToProto <$> drop (100 * j) rows), None).
Proof.
  revert j acc; induction fuel as [|fuel IH]; intros j acc Hj Hr Hf; [lia|].
  cbn [ListFiles_loop]. rewrite ListFiles_page_at by lia.
  destruct (decide (100 < length (drop (100 * j) rows))%nat) as [Hn|Hn].
  - rewrite (bool_decide_true (_ < _)%nat), bool_decide_false by
      (done || unfold page_token; rewrite bool_decide_false by lia; apply Itoa_not_empty).
    assert (Hd : drop (100 * S j) rows = drop 100 (drop (100 * j) rows))
      by (rewrite drop_drop; f_equal; lia).
    rewrite IH; [|lia| |]; rewrite ?Hd, ?length_drop in *; [|lia..].
    by rewrite <- app_assoc, <- fmap_app, take_drop.
  - rewrite (bool_decide_false (_ < _)%nat) by done. rewrite bool_decide_true by done.
    by rewrite take_ge by lia.
Qed.

Lemma merge_metadata_some m old :
  ∃ m', merge_metadata (Some m) old = Ret (Some m') ∧
    ∀ k, m' !! k = match m !! k with
                   | Some v => Some v
                   | None => MValue <$> List.find (λ e, MKey e == k) old
                   end.
Proof.
  unfold merge_metadata. revert m; induction old as [|e old IH]; intros m; cbn [foldl].
  { exists m. split; [done|]. intros k. by destruct (m !! k). }
  cbn [mbind outcome_mbind entries default]. cbn.
  destruct (m !! MKey e) as [v|] eqn:Hk.
  - destruct (IH m) as (m' & -> & Hm'). exists m'. split; [done|]. intros k. rewrite Hm'.
    case_bool_decide as He; [|done]. subst k. by rewrite Hk.
  - destruct (IH (<[MKey e := MValue e]> m)) as (m' & -> & Hm'). exists m'. split; [done|].
    intros k. rewrite Hm'. case_bool_decide as He.
    + subst k. by rewrite lookup_insert_eq, Hk.
    + by rewrite lookup_insert_ne.
Qed.

(** What was uploaded is what the server sends of it. *)
Lemma uploaded_content {S} `{!StoredFileStore S} (sha256 : bytes → string) (name : string)
    (metadata : option (gmap string string)) (found : option FileInfo) (content : bytes)
    (s s' : S) (id : string) :
  DataService_UploadFile sha256 name metadata found content s = (s', Ok id) →
  ∃ chunks, DownloadFile id s' = Ok chunks ∧ mjoin chunks = content ∧
    ∀ c, c ∈ chunks → (0 < length c ≤ chunkSize)%nat.
Proof.
  intros Hup. unfold DataService_UploadFile, UploadFile, Upload_msgs in Hup.
  rewrite receive_chunks, concat_Upload_chunks in Hup by done.
  destruct content as [|b content]; [done|].
  destruct (Save _ s) as [s1 [f' [id'|e]]] eqn:Hs; [|done].
  cbn in Hup. case_bool_decide; [|done]. injection Hup as <- <-.
  apply save_download in Hs as (g & Hg & Hc & _); [|done].
  unfold DownloadFile. rewrite Hg, Hc. cbn [SFile Content]. eexists. split; [done|].
  split; [by apply concat_DownloadFile_chunks|]. intros c Hx. eapply chunk_sizes. right. exact Hx.
Qed.

(** *** The download *)

Section download.
Context {S W : Type} `{!StoredFileStore S, !LocalDisk W}.
Variable sha256 : bytes → string.

(** The calls of the disk all work. *)
Definition disk_works : Prop := ∀ f b (w : W),
  (LocalOpen f w).2 = None ∧ (LocalWrite f b w).2 = None ∧ (LocalClose f w).2 = None.

Lemma receive_loop_spec file chunks end_ h c (w : W) :
  local w !! file = Some c →
  let '(w', r) := receive_loop file chunks end_ h w in
  delete file (local w') = delete file (local w) ∧
  (∀ h', r = Ok h' → end_ = None ∧ h' = h ++ mjoin chunks ∧ local w' !! file = Some (c ++ mjoin chunks)) ∧
  (disk_works → end_ = None → is_ok r = true).
Proof.
  revert h c w; induction chunks as [|[|b data] chunks IH]; intros h c w Hw; cbn [receive_loop].
  - split; [done|]. split; [|by intros _ ->]. intros h'. destruct end_; [done|]. intros [= <-].
    cbn. by rewrite !app_nil_r.
  - exact (IH h c w Hw).
  - destruct (local_apart file (b :: data) w) as (_ & Ha & _).
    destruct (LocalWrite file (b :: data) w) as [w1 [e|]] eqn:Hwr; cbn [fst] in Ha.
    { split; [exact Ha|]. split; [done|]. intros Hworks. destruct (Hworks file (b :: data) w) as (_ & Hn & _).
      by rewrite Hwr in Hn. }
    specialize (IH (h ++ b :: data) _ w1 (local_write _ _ _ _ _ Hwr Hw)).
    destruct (receive_loop file chunks end_ _ w1) as [w2 r]. destruct IH as (Hd & Hr & Hk).
    split; [by rewrite Hd|]. split; [|exact Hk]. intros h' Hh'. apply Hr in Hh' as (He & -> & Hl).
    change (mjoin ((b :: data) :: chunks)) with ((b :: data) ++ mjoin chunks). by rewrite !(assoc_L (++)).
Qed.

(** A download of what the server sends. *)
Lemma download_spec out t info (s : S) (w w' : W) file errs chunks :
  DownloadFile (FId info) s = Ok chunks →
  DataService_DownloadFile sha256 out t (Some info) s w = (w', (file, errs)) →
  delete file (local w') = delete file (local w) ∧
  (errs = [] → FChecksum info = sha256 (mjoin chunks) ∧ file = filepath_Join out (FName info) ∧
     local w' !! file = Some (mjoin chunks)) ∧
  (call_fails t = None → breaks t = None → disk_works →
     errs = (if FChecksum info == sha256 (mjoin chunks) then [] else [EChecksum]) ∧
     local w' !! file = Some (mjoin chunks)).
Proof.
  intros Hs. unfold DataService_DownloadFile. destruct (call_fails t); [by intros [= <- <- <-]|].
  destruct (arriving t _) as [got end_] eqn:Harr. rewrite Hs in Harr. unfold arriving in Harr.
  assert (Hall : end_ = None → got = chunks).
  { destruct (breaks t) as [[n m]|]; [|by injection Harr]. case_bool_decide; injection Harr as <- <-; done. }
  assert (Hwhole : breaks t = None → end_ = None) by (intros Hb; rewrite Hb in Harr; by injection Harr).
  clear Harr. set (f := filepath_Join out (FName info)).
  destruct (local_apart f [] w) as (Ho & _). destruct (LocalOpen f w) as [w1 [e|]] eqn:Hopen; cbn [fst] in Ho.
  { intros [= <- <- <-]. split; [exact Ho|]. split; [done|]. intros _ _ Hworks.
    destruct (Hworks f [] w) as (Hn & _). by rewrite Hopen in Hn. }
  pose proof (receive_loop_spec f got end_ [] [] w1 (local_open _ _ _ Hopen)) as Hr.
  destruct (receive_loop f got end_ [] w1) as [w2 r]. destruct Hr as (Hd & Hr & Hk).
  destruct (local_apart f [] w2) as (_ & _ & Hc).
  destruct (LocalClose f w2) as [w3 [e|]] eqn:Hclose; cbn [fst] in Hc; intros [= <- <- <-].
  { split; [by rewrite Hc, Hd|]. split; [by destruct r as [h|]; [case_bool_decide|]|].
    intros _ _ Hworks. destruct (Hworks f [] w2) as (_ & _ & Hn). by rewrite Hclose in Hn. }
  assert (Hcl : local w3 !! f = local w2 !! f) by exact (local_close _ _ _ Hclose).
  split; [by rewrite Hc, Hd|].
  assert (Hok : ∀ h, r = Ok h → h = mjoin chunks ∧ local w3 !! f = Some (mjoin chunks)).
  { intros h Hh. apply Hr in Hh as (He & -> & Hl). rewrite (Hall He) in Hl |- *. split; [done|exact (eq_trans Hcl Hl)]. }
  split.
  - destruct r as [h|e]; [|done]. destruct (Hok h eq_refl) as [-> Hl]. by case_bool_decide.
  - intros _ Hb Hworks. specialize (Hk Hworks (Hwhole Hb)). destruct r as [h|e]; [|done].
    destruct (Hok h eq_refl) as [-> Hl]. by case_bool_decide.
Qed.
End download.

(** ** Properties *)

(** C13: a report that was stored can be read back. When the reporter's upload ends with an
    identifier, a download of that identifier that ends without an error has written
    exactly the bytes that were uploaded, whatever their number, and their checksum is the
    one asked for; if the call, the stream and the disk work, it ends so provided the
    checksum asked for is theirs, and else with the error that it is not. Whatever fails,
    no other file is touched. No message of the upload or the download is empty or longer
    than the chunk size, and an empty report is refused. *)
Theorem upload_download {S W} `{!StoredFileStore S, !LocalDisk W} (sha256 : bytes → string) (name : string)
    (metadata : option (gmap string string)) (found : option FileInfo) (content : bytes)
    (s s' : S) (id : string) :
  DataService_UploadFile sha256 name metadata found content s = (s', Ok id) →
  (∀ out t info (w w' : W) file errs, FId info = id →
     DataService_DownloadFile sha256 out t (Some info) s' w = (w', (file, errs)) →
     delete file (local w') = delete file (local w) ∧
     (errs = [] → FChecksum info = sha256 content ∧ file = filepath_Join out (FName info) ∧
        local w' !! file = Some content) ∧
     (call_fails t = None → breaks t = None → disk_works (W := W) →
        errs = (if FChecksum info == sha256 content then [] else [EChecksum]) ∧
        local w' !! file = Some content)) ∧
  (∀ c, UChunk c ∈ Upload_msgs (report_info sha256 name metadata content) found content →
     (0 < length c ≤ chunkSize)%nat) ∧
  (∀ chunks c, DownloadFile id s' = Ok chunks → c ∈ chunks → (0 < length c ≤ chunkSize)%nat) ∧
  content ≠ [].
Proof.
  intros Hup. destruct (uploaded_content _ _ _ _ _ _ _ _ Hup) as (chunks & Hd & <- & Hsizes). split_and!.
  - intros out t info w w' file errs <-. by apply download_spec.
  - intros c Hc. unfold Upload_msgs in Hc. apply elem_of_cons in Hc as [Hc|Hc]; [done|].
    apply list_elem_of_fmap in Hc as (c' & [= ->] & Hc). eapply chunk_sizes. by left.
  - intros chunks' c Hd'. rewrite Hd in Hd'. injection Hd' as <-. apply Hsizes.
  - intros He. rewrite He in Hup. unfold DataService_UploadFile, UploadFile, Upload_msgs in Hup.
    by rewrite receive_chunks in Hup.
Qed.

(** C36: the client's list of the files is complete: over a store that does not
    change meanwhile, its loop over the pages ends and returns every row once,
    in the store's order, however many pages that takes. *)
Theorem ListFiles_complete (rows : list StoredFile) :
  (Z.of_nat (length rows) + 200 ≤ max_int64)%Z →
  DataService_ListFiles (S (length rows / 100)) (λ tok, Ok (ListFiles_page 100 tok rows)) =
    Some (StoredFileToProto <$> rows, None).
Proof.
  intros Hl. unfold DataService_ListFiles. pose proof (Nat.div_mod_eq (length rows) 100) as Hd.
  pose proof (Nat.mod_upper_bound (length rows) 100 ltac:(done)) as Hm.
  rewrite (ListFiles_loop_at rows _ 0); [by rewrite drop_0|unfold max_int64 in *; lia| |lia].
  rewrite Nat.mul_0_r, drop_0. lia.
Qed.

(** Updating the metadata of a file keeps what the request does not name and
    takes what it names; but the update panics when the request has no metadata
    map (an empty one arrives as nil) and the file has metadata. *)
Theorem merge_metadata_spec (metadata : option (gmap string string))
    (old : list StoredFileMetadata) :
  match metadata with
  | Some m => ∃ m', merge_metadata metadata old = Ret (Some m') ∧
      ∀ k, m' !! k = match m !! k with
                     | Some v => Some v
                     | None => MValue <$> List.find (λ e, MKey e == k) old
                     end
  | None => merge_metadata metadata old = match old with [] => Ret None | _ :: _ => Panic end
  end.
Proof.
  destruct metadata as [m|]; [apply merge_metadata_some|].
  destruct old as [|e old]; [done|]. unfold merge_metadata. cbn.
  induction old as [|e' old IH]; [done|]. exact IH.
Qed.

(** ** A store in memory *)

Definition Rows : Type := list StoredFile.

Definition toy_sha (b : bytes) : string := Itoa (Z.of_nat (length b)).

(** Each save adds a row. *)
Definition toy_save (f : StoredFile) (s : Rows) : Rows * (StoredFile * result string string) :=
  let id := Z.of_nat (length s) in
  let g := mkStoredFile id (SName f) (SSource f) (SSourceType f)
    (BeforeSave toy_sha (SFile f)) (SMetadata f) (SDeletedAt f) in
  (s ++ [g], (g, Ok (Itoa id))).

Definition toy_get (id : string) (s : Rows) : option StoredFile :=
  List.find (λ g, Itoa (SID g) == id) (reverse s).

#[export, refine] Instance toy_store : StoredFileStore Rows := {|
  Save := toy_save;
  Download id s := match toy_get id s with Some g => Ok g | None => Err "record not found" end;
  StoreGet id s := match toy_get id s with Some g => Ok g | None => Err SNotFound end;
  GetByFileKey k s :=
    match List.find (λ g, SName g == KName k) s with Some g => Ok g | None => Err SNotFound end
|}.
Proof.
  intros f s s' f' id [= <- <- <-] Hc. eexists. split.
  - unfold toy_get. rewrite reverse_snoc. cbn [List.find SID].
    by rewrite bool_decide_true.
  - cbn [SFile SID]. split; [|done]. unfold BeforeSave.
    by destruct (Content (SFile f)).
Defined.

(** A disk that has room for a number of bytes in each file. *)
Record LocalFiles := mkLocalFiles { on_disk : gmap string bytes; room : nat }.

#[export, refine] Instance toy_local : LocalDisk LocalFiles := {|
  local := on_disk;
  LocalOpen f w := (mkLocalFiles (<[f := []]> (on_disk w)) (room w), None);
  LocalWrite f b w :=
    if bool_decide (length (default [] (on_disk w !! f) ++ b) ≤ room w)%nat
    then (mkLocalFiles (<[f := default [] (on_disk w !! f) ++ b]> (on_disk w)) (room w), None)
    else (w, Some "no space left on device");
  LocalClose f w := (w, None)
|}.
Proof.
  - intros f b w. cbn. split_and!; [apply delete_insert_eq| |done].
    case_bool_decide; [apply delete_insert_eq|done].
  - intros f w w' [= <-]. apply lookup_insert_eq.
  - intros f b w w' c. case_bool_decide; [|done]. intros [= <-] Hc. cbn. by rewrite lookup_insert_eq, Hc.
  - by intros f w w' [= <-].
Defined.

Definition long_report : bytes := repeat Byte.x41 2500.
Definition stored_rows : Rows * result ServerError string :=
  DataService_UploadFile toy_sha "upload.tar.gz" None None long_report [].
Definition long_info : FileInfo :=
  mkFileInfo "0" "upload.tar.gz" "redhat-marketplace" "report" None 2500 "2500" "" None.
Notation long_download t room :=
  (DataService_DownloadFile toy_sha "/tmp" t (Some long_info) stored_rows.1 (mkLocalFiles ∅ room)).

Lemma upload_download_witness :
  length <$> Upload_chunks (length long_report) long_report = [1024; 1024; 452]%nat ∧
  (long_download (mkTransport None None) 2500).2 = ("/tmp/upload.tar.gz", []) ∧
  on_disk (long_download (mkTransport None None) 2500).1 !! "/tmp/upload.tar.gz" = Some long_report.
Proof.
  split; [vm_compute; reflexivity|].
  assert (Hu : DataService_UploadFile toy_sha "upload.tar.gz" None None long_report [] =
    (stored_rows.1, Ok "0")) by (vm_compute; reflexivity).
  assert (Hd : (long_download (mkTransport None None) 2500).2 = ("/tmp/upload.tar.gz", []))
    by (vm_compute; reflexivity).
  split; [exact Hd|].
  destruct (upload_download (W := LocalFiles) toy_sha "upload.tar.gz" None None long_report [] _ _ Hu) as [H1 _].
  assert (Hsp : ∀ w' file errs, long_download (mkTransport None None) 2500 = (w', (file, errs)) → errs = [] →
    on_disk w' !! file = Some long_report).
  { intros w' file errs Hl He.
    destruct (H1 "/tmp" (mkTransport None None) long_info (mkLocalFiles ∅ 2500) w' file errs eq_refl Hl) as (_ & Hw & _).
    exact (proj2 (proj2 (Hw He))). }
  refine (Hsp _ _ [] _ eq_refl). rewrite <- Hd. apply surjective_pairing.
Defined.

(** A stream that breaks, and a disk that is full: what was written stays. *)
Example broken_downloads :
  (long_download (mkTransport None (Some (2%nat, "reset"))) 2500).2.2 = [EStream (Broken "reset")] ∧
  (long_download (mkTransport None None) 1500).2.2 = [EWrite "no space left on device"] ∧
  length <$> on_disk (long_download (mkTransport None None) 1500).1 !! "/tmp/upload.tar.gz" = Some 1024%nat.
Proof. split_and!; vm_compute; reflexivity. Qed.

Definition many_rows : list StoredFile :=
  (λ i, mkStoredFile (Z.of_nat i) "f" "s" "t" no_content [] None) <$> seq 1 250.

Lemma ListFiles_complete_witness :
  length (ListFiles_page 100 "" many_rows).1 = 100%nat ∧
  DataService_ListFiles 3 (λ tok, Ok (ListFiles_page 100 tok many_rows)) =
    Some (StoredFileToProto <$> many_rows, None).
Proof.
  split; [vm_compute; reflexivity|].
  change 3%nat with (S (length many_rows / 100)). apply (ListFiles_complete many_rows).
  vm_compute. discriminate.
Defined.
