(* ===== verification/FileFilter.v ===== *)
(** * Filters of the file list

    The model of the filter language of the file service: the parser over the
    tokens of its scanner ([airgap/v2/apis/dataservice/v1/fileserver/filter.go])
    and the query that a filter becomes ([airgap/v2/pkg/database/filter.go]). *)

From S2P Require Import Prelude GoTime Strconv.
Local Open Scope go_scope.

(** ** Data *)

Inductive FilterOperator :=
| FilterEqual | FilterNotEqual | FilterGreaterThan | FilterGreaterThanEqual | FilterLessThan
| FilterLessThanEqual.

Definition FilterOperator_String (f : FilterOperator) : string :=
  match f with
  | FilterEqual => "==" | FilterNotEqual => "!=" | FilterGreaterThan => ">"
  | FilterGreaterThanEqual => ">=" | FilterLessThan => "<" | FilterLessThanEqual => "<="
  end.

Inductive FilterBooleanOperator := FilterAnd | FilterOr.

Definition FilterBooleanOperator_String (b : FilterBooleanOperator) : string :=
  match b with FilterAnd => "&&" | FilterOr => "||" end.

(** [None] is the empty operator: the zero value of the string types. *)
Record Filter := mkFilter {
  Left : string;
  Operator : option FilterOperator;
  Right : string;
  NextFilterOperator : option FilterBooleanOperator
}.

Definition zero_filter : Filter := mkFilter "" None "" None.

Definition Filter_MarshalText (f : Filter) : string :=
  Left f +:+ default "" (FilterOperator_String <$> Operator f) +:+ Right f +:+
  default "" (FilterBooleanOperator_String <$> NextFilterOperator f).

Definition Filters_MarshalText (f : list Filter) : string :=
  foldr (λ x acc, Filter_MarshalText x +:+ acc) "" f.

(** What the tokenizer returns before the end of the input. An unknown symbol is
    an error with a nil token, and the error is not looked at. *)
Inductive Token := TText (s : string) | TOp (op : FilterOperator)
  | TBool (op : FilterBooleanOperator) | TNil.

Inductive FilterError :=
| EIncomplete | ELeft | EOperator | ERight | EBoolean.

(** ** The parser *)

(** [tokens] are the tokens of the filter being read, and [filter] is nil after a
    boolean operator ended one. *)
Fixpoint Unmarshal_loop (toks : list Token) (f : list Filter) (tokens : list Token)
    (filter : option Filter) : result FilterError (list Filter) :=
  match toks with
  | [] =>
      match filter with
      | Some filter => Ok (f ++ [filter])
      | None => match tokens with [] => Ok f | _ :: _ => Err EIncomplete end
      end
  | token :: toks =>
      match tokens ++ [token] with
      | [t0; t1; t2] as tokens =>
          match t0, t1, t2 with
          | TText l, TOp op, TText r =>
              Unmarshal_loop toks f tokens (Some (mkFilter l (Some op) r None))
          | TText _, TOp _, _ => Err ERight
          | TText _, _, _ => Err EOperator
          | _, _, _ => Err ELeft
          end
      | [_; _; _; t3] =>
          match t3, filter with
          | TBool op, Some x =>
              Unmarshal_loop toks
                (f ++ [mkFilter (Left x) (Operator x) (Right x) (Some op)]) [] None
          | _, _ => Err EBoolean
          end
      | tokens => Unmarshal_loop toks f tokens filter
      end
  end.

(** The filter starts as an empty one, not as nil. *)
Definition UnmarshalText (toks : list Token) : result FilterError (list Filter) :=
  Unmarshal_loop toks [] [] (Some zero_filter).

(** ** The query *)

Definition boolOperatorToSQL (operator : FilterBooleanOperator) : string :=
  match operator with FilterAnd => "AND" | FilterOr => "OR" end.

Definition operatorToSql (operator : option FilterOperator) : string :=
  match operator with
  | Some FilterEqual => "="
  | Some FilterNotEqual => "<>"
  | Some op => FilterOperator_String op
  | None => ""
  end.

Inductive QueryValue := QText (s : string) | QTime (t : GoTime).

Section scope.
(** [strconv.Unquote] with its fallback to the text itself, [strings.Title], the
    column a field of the schemas maps to and whether it holds a time, and the two
    readings of a time. *)
Variable Unquote_or : string → string.
Variable Title : string → string.
Variable getFieldMapping : string → option (string * bool).
Variable ParseRFC3339 : string → option GoTime.
Variable ParseInt : string → option Z.

(** The text, the variables and whether an error ended the loop. *)
Fixpoint scope_loop (filters : list Filter) (builder : string) (variables : list QueryValue)
    : string * list QueryValue * bool :=
  match filters with
  | [] => (builder, variables, false)
  | f :: filters =>
      match getFieldMapping (Title (Unquote_or (Left f))) with
      | None => (builder, variables, true)
      | Some (fieldName, is_time) =>
          let builder := builder +:+ fieldName +:+ " " +:+ operatorToSql (Operator f) +:+ " ?" +:+
            match NextFilterOperator f with
            | Some b => " " +:+ boolOperatorToSQL b +:+ " "
            | None => ""
            end in
          let right := Unquote_or (Right f) in
          if is_time then
            match ParseRFC3339 right with
            | Some t => scope_loop filters builder (variables ++ [QTime t])
            | None =>
                match ParseInt right with
                | Some n => scope_loop filters builder (variables ++ [QTime (mkTime (n * second) 0)])
                | None => (builder, variables, true)
                end
            end
          else scope_loop filters builder (variables ++ [QText right])
      end
  end.

(** [None] is no condition at all. *)
Definition ToScope (filters : list Filter) : option (string * list QueryValue * bool) :=
  match filters with
  | [] => None
  | _ :: _ => Some (scope_loop filters "" [])
  end.
End scope.

(** ** Lemmas *)

Definition filter_tokens (f : Filter) : list Token :=
  TText (Left f) :: (match Operator f with Some op => [TOp op] | None => [TNil] end) ++
  TText (Right f) :: (match NextFilterOperator f with Some b => [TBool b] | None => [] end).

Definition tokens_of (fs : list Filter) : list Token := mjoin (filter_tokens <$> fs).

(** A list of filters as it can be written: each has an operator, and each but the
    last one a boolean operator. *)
Fixpoint wf_filters (fs : list Filter) : bool :=
  match fs with
  | [] => true
  | f :: fs =>
      bool_decide (is_Some (Operator f)) &&
      (bool_decide (fs = []) || bool_decide (is_Some (NextFilterOperator f))) && wf_filters fs
  end.

Lemma Unmarshal_three a b c rest f fl :
  Unmarshal_loop (a :: b :: c :: rest) f [] fl =
    match a, b, c with
    | TText l, TOp op, TText r =>
        let x := mkFilter l (Some op) r None in
        match rest with
        | [] => Ok (f ++ [x])
        | TBool bop :: rest =>
            Unmarshal_loop rest (f ++ [mkFilter l (Some op) r (Some bop)]) [] None
        | _ => Err EBoolean
        end
    | TText _, TOp _, _ => Err ERight
    | TText _, _, _ => Err EOperator
    | _, _, _ => Err ELeft
    end.
Proof. destruct a, b, c; try reflexivity. by destruct rest as [|[] rest]. Qed.

Lemma tokens_of_cons f fs : tokens_of (f :: fs) = filter_tokens f ++ tokens_of fs.
Proof. reflexivity. Qed.

Lemma Unmarshal_loop_spec n toks f fs :
  (length toks ≤ n)%nat →
  Unmarshal_loop toks f [] None = Ok fs ↔
  ∃ gs, fs = f ++ gs ∧ wf_filters gs = true ∧ toks = tokens_of gs.
Proof.
  revert toks f; induction n as [|n IH]; intros toks f Hn.
  all: destruct toks as [|a [|b [|c rest]]]; cbn [length] in Hn; try lia.
  1,2: (split; [intros [= <-]; exists []; by rewrite app_nil_r|];
    intros (gs & -> & _ & Ht); destruct gs as [|[? [] ? []] gs]; [by rewrite app_nil_r|done..]).
  1,2: (split; [done|]; intros (gs & -> & Hw & Ht); destruct gs as [|[? [] ? []] gs]; done).
  rewrite Unmarshal_three. split.
  - destruct a as [l| | |], b as [|op1| |], c as [r| | |]; try done. cbv zeta.
    destruct rest as [|[| |bop|] rest]; try done.
    + intros [= <-]. by exists [mkFilter l (Some op1) r None].
    + intros (gs & -> & Hw & ->)%IH; [|cbn [length] in Hn; lia].
      exists (mkFilter l (Some op1) r (Some bop) :: gs). rewrite <- app_assoc.
      split; [done|]. cbn [wf_filters Operator NextFilterOperator].
      rewrite !bool_decide_true by by eexists. by rewrite orb_true_r, Hw.
  - intros (gs & -> & Hw & Ht). destruct gs as [|[l [op|] r nx] gs]; [done| |done].
    rewrite tokens_of_cons in Ht. cbn [wf_filters Operator NextFilterOperator] in Hw.
    apply andb_true_iff in Hw as [[_ Hnx]%andb_true_iff Hw].
    destruct nx as [bop|]; cbn in Ht; simplify_eq; cbv zeta.
    + apply IH; [cbn [length] in Hn; lia|]. exists gs. by rewrite <- app_assoc.
    + apply orb_true_iff in Hnx as [Hnx%bool_decide_eq_true|Hnx]; [|done].
      by subst gs.
Qed.

Lemma scope_loop_shape {fm T U P I} filters b vars b' vars' e :
  @scope_loop U T fm P I filters b vars = (b', vars', e) →
  ∃ tail vs, b' = b +:+ tail ∧ vars' = vars ++ vs ∧ (length vs ≤ length filters)%nat ∧
    (e = false → length vs = length filters) ∧
    ∀ filters2 vars2, Forall2 (λ f g, Left f = Left g ∧ Operator f = Operator g ∧
        NextFilterOperator f = NextFilterOperator g) filters filters2 →
      e = false → ∀ b2 vars2' e2,
      @scope_loop U T fm P I filters2 b vars2 = (b2, vars2', e2) → e2 = false → b2 = b'.
Proof.
  revert b vars; induction filters as [|f filters IH]; intros b vars; cbn [scope_loop].
  { intros [= <- <- <-]. exists "", []. rewrite string_app_nil, app_nil_r. do 4 (split; [done|]).
    intros [|g l] vars2 HF _ b2 v2 e2; [by intros [= <- _ _]|by inversion HF]. }
  destruct (fm _) as [[name is_time]|] eqn:Hfm.
  2: { intros [= <- <- <-]. exists "", []. rewrite string_app_nil, app_nil_r.
       do 2 (split; [done|]). split; [cbn; lia|]. by split. }
  set (b1 := b +:+ _). intros Hl.
  assert (∃ v, scope_loop U T fm P I filters b1 (vars ++ [v]) = (b', vars', e) ∨
    (e = true ∧ b' = b1 ∧ vars' = vars)) as (v & [Hv|(-> & -> & ->)]).
  { destruct is_time; [|eexists; by left]. destruct (P _) as [t|]; [eexists; by left|].
    destruct (I _) as [z|]; [eexists; by left|]. injection Hl as <- <- <-.
    exists (QText ""). by right. }
  2: { eexists _, []. split; [reflexivity|]. rewrite app_nil_r. split; [done|].
       split; [cbn; lia|]. by split. }
  apply IH in Hv as (tail & vs & -> & -> & Hlen & He & Hind). subst b1.
  eexists _, (v :: vs). split; [rewrite string_app_assoc; reflexivity|].
  split; [by rewrite <- app_assoc|].
  split; [cbn; lia|]. split; [intros; cbn; by rewrite He|].
  intros [|g filters2] vars2 HF He' b2 v2 e2; [by inversion HF|].
  apply Forall2_cons in HF as [(Hl1 & Hl2 & Hl3) HF]. cbn [scope_loop].
  rewrite <- Hl1, <- Hl2, <- Hl3, Hfm. intros Hs ->.
  revert Hs. cbv zeta.
  destruct is_time; [destruct (P (U (Right g))); [|destruct (I (U (Right g))); [|done]]|];
    intros Hs; exact (Hind _ _ HF He' _ _ _ Hs eq_refl).
Qed.

(** ** Properties *)

(** The parser accepts exactly the token sequences of well-formed filter lists,
    and gives back the list that was written: writing and reading are inverse. Its
    one deviation is at the start: since the filter it begins with is an empty one
    and not nil, an input of fewer than three tokens is not refused, as it is
    after a boolean operator, but read as one empty filter. *)
Theorem UnmarshalText_spec (toks : list Token) (fs : list Filter) :
  UnmarshalText toks = Ok fs ↔
    ((length toks < 3)%nat ∧ fs = [zero_filter]) ∨
    (fs ≠ [] ∧ wf_filters fs = true ∧ toks = tokens_of fs).
Proof.
  unfold UnmarshalText.
  destruct toks as [|a [|b [|c rest]]].
  1-3: (split; [intros [= <-]; left; cbn; split; [lia|done]|];
    intros [[_ ->]|(Hne & Hw & Ht)]; [done|];
    destruct fs as [|[? [] ? []] fs]; done).
  rewrite Unmarshal_three.
  rewrite <- (Unmarshal_three a b c rest [] None), (Unmarshal_loop_spec _ _ _ _ (le_n _)). split.
  - intros (gs & -> & Hw & Ht). right. split; [|done]. by destruct gs.
  - intros [[Hl _]|(_ & Hw & Ht)]; [cbn in Hl; lia|]. by exists fs.
Qed.

(** What a filter list becomes in the query: the values never enter its text, they
    are passed beside it, one per condition when no error occurred and never more;
    filters that differ only in their right sides give the same text. *)
Theorem ToScope_spec (Unquote_or Title : string → string)
    (getFieldMapping : string → option (string * bool)) (ParseRFC3339 : string → option GoTime)
    (ParseInt : string → option Z) (fs : list Filter) (text : string) (vars : list QueryValue)
    (e : bool) :
  ToScope Unquote_or Title getFieldMapping ParseRFC3339 ParseInt fs = Some (text, vars, e) →
  (length vars ≤ length fs)%nat ∧ (e = false → length vars = length fs) ∧
  ∀ fs2 text2 vars2,
    Forall2 (λ f g, Left f = Left g ∧ Operator f = Operator g ∧
                    NextFilterOperator f = NextFilterOperator g) fs fs2 →
    e = false →
    ToScope Unquote_or Title getFieldMapping ParseRFC3339 ParseInt fs2 = Some (text2, vars2, false) →
    text2 = text.
Proof.
  unfold ToScope. destruct fs as [|f fs]; [done|].
  intros H%(inj Some). destruct (scope_loop_shape _ _ _ _ _ _ H) as (tail & vs & _ & -> & Hl & He & Hind).
  split; [done|]. split; [done|]. intros fs2 text2 vars2 HF He' Hs.
  destruct fs2 as [|g fs2]; [done|].
  apply (inj Some) in Hs. exact (Hind _ [] HF He' _ _ _ Hs eq_refl).
Qed.

Definition size_filter : list Filter :=
  [mkFilter "Size" (Some FilterGreaterThan) "100" (Some FilterAnd);
   mkFilter "CreatedAt" (Some FilterLessThan) "1600000000" None].

Definition toy_mapping (name : string) : option (string * bool) :=
  if name == "Size" then Some ("`c`.`size`", false)
  else if name == "CreatedAt" then Some ("`f`.`created_at`", true) else None.

Lemma ToScope_spec_witness :
  ToScope id id toy_mapping (λ _, None) Atoi size_filter =
    Some ("`c`.`size` > ? AND `f`.`created_at` < ?",
          [QText "100"; QTime (mkTime (1600000000 * second) 0)], false) ∧
  ∀ text2 vars2,
    ToScope id id toy_mapping (λ _, None) Atoi
      [mkFilter "Size" (Some FilterGreaterThan) "1; drop table" (Some FilterAnd);
       mkFilter "CreatedAt" (Some FilterLessThan) "7" None] = Some (text2, vars2, false) →
    text2 = "`c`.`size` > ? AND `f`.`created_at` < ?".
Proof.
  split; [vm_compute; reflexivity|]. intros text2 vars2 H.
  eapply (ToScope_spec id id toy_mapping (λ _, None) Atoi size_filter); [vm_compute; reflexivity| | |exact H];
    [by repeat constructor|done].
Defined.
