(* ===== verification/Reporter.v ===== *)
(** * The reporter

    The model of [reporter/v2/pkg/reporter]: which reports are run and uploaded
    ([reconcile_task.go]), how one is made and stored ([report_task.go]) and how a
    stored one is uploaded ([upload_task.go]). The state of a report is the status
    of its [MeterReport], written through the API server, and its file in the file
    service. *)

From S2P Require Import Prelude Strconv GoTime Conditions Workloads Reports MeterDefinition MeterReport FileServer.
Local Open Scope go_scope.

(** ** Configuration and targets *)

Definition TargetRedHatInsights : string := "redhat-insights".
Definition TargetMarketplace : string := "redhat-marketplace".
Definition TargetDataService : string := "data-service".

(** The targets of which one success is required. *)
Definition required_targets : list string := [TargetMarketplace; TargetRedHatInsights].

(** The part of [Config] the tasks read; [None] is a nil pointer. *)
Record Config := mkConfig {
  MetricsPerFile : option Z;
  MaxRoutines : option Z;
  ConfigRetry : option Z;
  MaxUploadAttempts : option Z;
  Local_ : bool;
  Upload : bool;
  IsDisconnected : bool
}.

Definition SetDefaults (c : Config) : Config :=
  mkConfig (Some (default 500%Z (MetricsPerFile c))) (Some (default 50%Z (MaxRoutines c)))
    (Some (default 5%Z (ConfigRetry c))) (Some (default 720%Z (MaxUploadAttempts c)))
    (Local_ c) (Upload c) (IsDisconnected c).

Inductive ReportSkipReason :=
| SkipNotReady | SkipDisconnected | SkipNoData | SkipNoFileID | SkipDone | SkipMaxAttempts
| SkipComplete | SkipEmpty.

Definition skip_text (r : ReportSkipReason) : string :=
  match r with
  | SkipNotReady => "NotReady" | SkipDisconnected => "Disconn" | SkipNoData => "NoData"
  | SkipNoFileID => "NoFileID" | SkipDone => "Done" | SkipMaxAttempts => "OutOfRetry"
  | SkipComplete => "Complete" | SkipEmpty => ""
  end.

(** ** Which reports are run *)

Section decisions.
Context {LS : Type}.

Definition CanRunReportTask (now : GoTime) (report : MeterReport LS) : bool :=
  if Before (UTC now) (UTC (EndTime (MRSpec report))) then false
  else if match DataServiceStatus (MRStatus report) with Some d => Success d | None => false end
  then false
  else if match Get (UploadStatus_ (MRStatus report)) TargetDataService with
          | Some d => Success d
          | None => false
          end then false
  else if OneSuccessOf (UploadStatus_ (MRStatus report)) required_targets then false
  else true.

(** [None] is the panic of a configuration without a maximum. *)
Definition CanRunUploadReportTask (cfg : Config) (now : GoTime) (report : MeterReport LS)
    : outcome (ReportSkipReason * bool) :=
  let stat := MRStatus report in
  if Before (UTC now) (UTC (EndTime (MRSpec report))) then Ret (SkipEmpty, false)
  else if IsDisconnected cfg then Ret (SkipDisconnected, false)
  else if match MetricUploadCount stat with Some n => bool_decide (n = 0%Z) | None => true end
  then Ret (SkipNoData, false)
  else if match DataServiceStatus stat with
          | None => true
          | Some d => (ID d == "") || negb (Success d)
          end then Ret (SkipNoFileID, false)
  else match MaxUploadAttempts cfg with
       | None => Panic
       | Some max =>
           if bool_decide (max ≤ RetryUpload stat)%Z then Ret (SkipMaxAttempts, false)
           else if OneSuccessOf (UploadStatus_ stat) required_targets
           then Ret (SkipComplete, false)
           else Ret (SkipEmpty, true)
       end.

Definition CanRunGenericUpload (cfg : Config) : bool * ReportSkipReason :=
  if IsDisconnected cfg then (false, SkipDisconnected) else (true, SkipEmpty).

(** The condition a skipped report is given, if any. *)
Definition skip_condition (skip : ReportSkipReason) : option Condition :=
  match skip with
  | SkipDisconnected => Some ReportConditionJobIsDisconnected
  | SkipNoData => Some ReportConditionJobHasNoData
  | SkipMaxAttempts => Some ReportConditionFailedAttempts
  | SkipComplete | SkipEmpty => None
  | _ => Some (mkCondition (Type_ ReportConditionJobSkipped) (Status ReportConditionJobSkipped)
                 (Reason ReportConditionJobSkipped)
                 ("Report skipped because " +:+ skip_text skip)
                 (LastTransitionTime ReportConditionJobSkipped))
  end.

Definition findStatus (statuses : UploadDetailConditions) : bool * Condition :=
  if OneSuccessOf statuses required_targets then (true, ReportConditionUploadStatusFinished)
  else match Errors statuses with
       | Some err =>
           let c := ReportConditionUploadStatusErrored in
           (false, mkCondition (Type_ c) (Status c) (Reason c) err (LastTransitionTime c))
       | None => (false, ReportConditionUploadStatusUnknown)
       end.
End decisions.

(** ** Writing the status *)

(** The client of the meter reports: a read is of what the cluster stores, a
    status written is the one stored, and a failed write changes nothing. *)
Class StatusClient (LS W : Type) := {
  stored_reports : W → gmap NamespacedName (MeterReport LS);
  GetReport : NamespacedName → W → result ClientError (MeterReport LS);
  UpdateReport : NamespacedName → MeterReport LS → W → W * option ClientError;
  get_law k w r : GetReport k w = Ok r → stored_reports w !! k = Some r;
  update_law k r w :
    match UpdateReport k r w with
    | (w', None) => stored_reports w' = <[k := r]> (stored_reports w)
    | (w', Some _) => stored_reports w' = stored_reports w
    end
}.

Definition with_status {LS} (r : MeterReport LS) (s : MeterReportStatus) : MeterReport LS :=
  mkMeterReport _ (MRMeta r) (MRSpec r) s.

Section tasks.
Context {LS W : Type} `{!StatusClient LS W} `{!ConflictRetry}.

(** One attempt, on the world and whether a panic ended the task. *)
Definition update_attempt (key : NamespacedName)
    (mutate : MeterReportStatus → outcome MeterReportStatus) (s : W * bool)
    : (W * bool) * option ClientError :=
  let '(w, panicked) := s in
  match GetReport key w with
  | Err e => ((w, panicked), Some e)
  | Ok meterReport =>
      match mutate (MRStatus meterReport) with
      | Panic => ((w, true), None)
      | Ret stat =>
          let '(w, e) := UpdateReport key (with_status meterReport stat) w in ((w, panicked), e)
      end
  end.

Definition updateMeterReportStatus (key : NamespacedName)
    (mutate : MeterReportStatus → outcome MeterReportStatus) (w : W)
    : outcome (W * option ClientError) :=
  match RetryOnConflict (update_attempt key mutate) (w, false) with
  | ((w, true), _) => Panic
  | ((w, false), e) => Ret (w, e)
  end.

(** The clock at the time of the call. *)
Variable now : Time.

Definition set_condition (c : Condition) (s : MeterReportStatus) : MeterReportStatus :=
  mkMeterReportStatus (SetCondition now (RConditions s) c).2 (UploadStatus_ s) (WorkloadCount s)
    (MetricUploadCount s) (RetryUpload s) (UploadID s) (DataServiceStatus s) (RErrors s)
    (Warnings s).

(** A failed update is only logged. *)
Definition setSkipReason (key : NamespacedName) (skip : ReportSkipReason) (w : W) : outcome W :=
  match skip_condition skip with
  | None => Ret w
  | Some c =>
      '(w, _) ← updateMeterReportStatus key (λ s, Ret (set_condition c s)) w; Ret w
  end.

(** ** Making and storing a report *)

(** What the collection of the metrics gives: metrics, errors, warnings and the
    failure of the whole collection. *)
Context {M E : Type}.
Variable toDetails : E → outcome ErrorDetails.

Fixpoint mapM_outcome {A B} (f : A → outcome B) (l : list A) : outcome (list B) :=
  match l with
  | [] => Ret []
  | x :: l => y ← f x; l ← mapM_outcome f l; Ret (y :: l)
  end.

Definition with_errors (errorList warningList : list E) (s : MeterReportStatus)
    : outcome MeterReportStatus :=
  errs ← mapM_outcome toDetails errorList;
  warns ← mapM_outcome toDetails warningList;
  Ret (mkMeterReportStatus (RConditions s) (UploadStatus_ s) (WorkloadCount s)
         (MetricUploadCount s) (RetryUpload s) (UploadID s) (DataServiceStatus s) errs warns).

Definition mutate_failed (errorList warningList : list E) (s : MeterReportStatus)
    : outcome MeterReportStatus :=
  with_errors errorList warningList (set_condition ReportConditionJobErrored s).

Definition mutate_reported (statuses : UploadDetailConditions) (metrics : nat)
    (errorList warningList : list E) (uploadCondition : Condition) (s : MeterReportStatus)
    : outcome MeterReportStatus :=
  upload ← Append (Some (UploadStatus_ s)) statuses;
  s ← with_errors errorList warningList
        (mkMeterReportStatus (RConditions s) (default [] upload) (WorkloadCount s)
           (Some (Z.of_nat metrics)) (RetryUpload s) (UploadID s) (DataServiceStatus s)
           (RErrors s) (Warnings s));
  let s := set_condition uploadCondition s in
  Ret (match Get statuses TargetDataService with
       | Some d => mkMeterReportStatus (RConditions s) (UploadStatus_ s) (WorkloadCount s)
                     (MetricUploadCount s) (RetryUpload s) (UploadID s) (Some d) (RErrors s)
                     (Warnings s)
       | None => s
       end).

(** The reporter's own steps, on the world: building it, collecting, writing the
    files of the report, packing them, opening the archive, uploading it. *)
Context {R : Type}.
Variable NewReporter : W → outcome (W * result string R).
Variable CollectMetrics : R → W → W * ((list M * (list E * list E)) * option string).
(** [uuid.MustParse] of the report's identifier, which panics on any other text. *)
Variable ReportID : R → outcome string.
Variable WriteReport : R → string → list M → W → W * option string.
Variable TargzFolder : W → W * option string.
Variable OpenFile : W → option string.
Variable UploaderName : string.
Variable UploaderUpload : W → W * (string * option string).
Variable Combine : list E → string.

Definition storage_errored (msg : string) : Condition :=
  let c := ReportConditionStorageStatusErrored in
  mkCondition (Type_ c) (Status c) (Reason c) msg (LastTransitionTime c).

(** The upload of the archive: the statuses to add and the storage condition. *)
Definition upload_archive (cfg : Config) (w : W)
    : W * (UploadDetailConditions * Condition) :=
  if Upload cfg then
    match OpenFile w with
    | Some err =>
        (w, ([Some (mkUploadDetails UploaderName "" "failure" err)], storage_errored err))
    | None =>
        match UploaderUpload w with
        | (w, (id, Some err)) =>
            (w, ([Some (mkUploadDetails UploaderName id "failure" err)], storage_errored err))
        | (w, (id, None)) =>
            (w, ([Some (mkUploadDetails UploaderName id "success" "")],
                 ReportConditionStorageStatusFinished))
        end
    end
  else (w, ([], ReportConditionStorageStatusUnknown)).

(** The report is written, packed, uploaded and its status updated. *)
Definition store_report (cfg : Config) (key : NamespacedName) (reporter : R) (metrics : list M)
    (errorList warningList : list E) (w : W) : outcome (W * option string) :=
  reportID ← ReportID reporter;
  match WriteReport reporter reportID metrics w with
  | (w, Some e) => Ret (w, Some ("error writing report: " +:+ e))
  | (w, None) =>
      match TargzFolder w with
      | (w, Some e) => Ret (w, Some ("error creating tar.gz: " +:+ e))
      | (w, None) =>
          let '(w, (uploadStatuses, uploadCondition)) := upload_archive cfg w in
          let stored : outcome (W * option ClientError) :=
            if Local_ cfg then Ret (w, None)
            else updateMeterReportStatus key
              (mutate_reported uploadStatuses (length metrics) errorList warningList
                 uploadCondition) w in
          '(w, _) ← stored;
          Ret (w, match errorList with
                  | [] => None
                  | _ :: _ => Some (Combine errorList)
                  end)
      end
  end.

(** [Task.report]. In the short cut the variable that holds the failure of the
    collection is assigned the outcome of the status update. *)
Definition TaskReport (cfg : Config) (key : NamespacedName) (w : W)
    : outcome (W * option string) :=
  '(w, reporter) ← NewReporter w;
  match reporter with
  | Err e => Ret (w, Some e)
  | Ok reporter =>
      let '(w, ((metrics, (errorList, warningList)), err)) := CollectMetrics reporter w in
      match err, metrics with
      | Some _, [] =>
          '(w, err) ← updateMeterReportStatus key (mutate_failed errorList warningList) w;
          Ret (w, option_map (λ e, "failure to query metrics: " +:+ client_error e) err)
      | _, _ => store_report cfg key reporter metrics errorList warningList w
      end
  end.
End tasks.

(** ** Uploading the stored reports *)

(** The file service as the upload sees it. A download gives the name of a local
    file, which [os.ReadFile] reads. *)
Class FileStorage (W : Type) := {
  FGetFile : string → W → result string FileInfo;
  FDownloadFile : FileInfo → W → W * result string string;
  ReadFile : string → W → result string bytes;
  FListFiles : W → list FileInfo * option string;
  FUpdateMetadata : FileInfo → W → W * option string;
  FDeleteFile : FileInfo → W → W * option string
}.

Section upload.
Context {LS W : Type} `{!StatusClient LS W} `{!ConflictRetry} `{!FileStorage W}.
Variable now : Time.
(** An uploader has a name and takes a file's name and content. *)
Record Uploader := mkUploader {
  UName : string;
  UUpload : string → bytes → W → W * (string * option string)
}.
Variable uploaders : list Uploader.
(** ["error: %s details: %+v"] of an error. *)
Variable describe : string → string.

Definition failed (u : Uploader) (err : string) : UploadDetails :=
  mkUploadDetails (UName u) "" UploadStatusFailure (describe err).

(** The loop over the uploaders of a file that was downloaded. *)
Fixpoint upload_loop (file : FileInfo) (localFileName : string) (us : list Uploader) (w : W)
    : W * UploadDetailConditions :=
  match us with
  | [] => (w, [])
  | u :: us =>
      let '(w, d) := match ReadFile localFileName w with
                     | Err err => (w, failed u err)
                     | Ok data =>
                         match UUpload u (FName file) data w with
                         | (w, (_, Some err)) => (w, failed u err)
                         | (w, (id, None)) =>
                             (w, mkUploadDetails (UName u) id UploadStatusSuccess "")
                         end
                     end in
      let '(w, rest) := upload_loop file localFileName us w in (w, Some d :: rest)
  end.

(** A failed download is recorded for the first uploader only. *)
Definition uploadFile (file : FileInfo) (w : W) : W * UploadDetailConditions :=
  match FDownloadFile file w with
  | (w, Err err) =>
      (w, match uploaders with
          | [] => []
          | u :: _ => [Some (failed u err)]
          end)
  | (w, Ok localFileName) => upload_loop file localFileName uploaders w
  end.

Definition mutate_uploaded (statuses : UploadDetailConditions) (s : MeterReportStatus)
    : outcome MeterReportStatus :=
  let '(success, condition) := findStatus statuses in
  let s := set_condition now condition s in
  upload ← Append (Some (UploadStatus_ s)) statuses;
  let u := default [] upload in
  Ret (mkMeterReportStatus (RConditions s) u (WorkloadCount s) (MetricUploadCount s)
         (if success then RetryUpload s else RetryUpload s + 1)%Z (UploadID s)
         (match Get u TargetDataService with Some d => Some d | None => DataServiceStatus s end)
         (RErrors s) (Warnings s)).

Definition RunReport (key : NamespacedName) (report : MeterReport LS) (w : W)
    : outcome (W * option string) :=
  match DataServiceStatus (MRStatus report) with
  | None => Ret (w, Some "Report does not have an DataService file ID")
  | Some d =>
      if ID d == "" then Ret (w, Some "Report does not have an DataService file ID")
      else match FGetFile (ID d) w with
           | Err e => Ret (w, Some e)
           | Ok file =>
               let '(w, statuses) := uploadFile file w in
               match updateMeterReportStatus key (mutate_uploaded statuses) w with
               | Panic => Panic
               | Ret (w, Some e) => Ret (w, Some (client_error e))
               | Ret (w, None) =>
                   if (findStatus statuses).1 then Ret ((FDeleteFile file w).1, None)
                   else Ret (w, None)
               end
           end
  end.

Definition uploadAttempts : string := "uploadAttempts".

(** [file.GetDeletedAt() != nil && !IsZero()]. *)
Definition is_deleted (file : FileInfo) : bool :=
  match FDeletedAt file with
  | Some t => negb (bool_decide (nsec t = nsec (midnight (days_from_civil 1 1 1))))
  | None => false
  end.

(** The attempts a file's metadata counts. *)
Definition attempts_of (metadata : gmap string string) : Z :=
  match metadata !! uploadAttempts with
  | Some s => default 0%Z (Atoi s)
  | None => 0
  end.

(** One turn of the loop over the listed files. *)
Definition generic_file (max : Z) (file : FileInfo) (w : W) : W :=
  if is_deleted file then w
  else match FGetFile (FId file) w with
       | Err _ => w
       | Ok file =>
           let metadata := entries (FMetadata file) in
           let n := attempts_of metadata in
           if bool_decide (max ≤ n)%Z then w
           else
             let '(w, statuses) := uploadFile file w in
             if negb (findStatus statuses).1 && bool_decide (n < max)%Z then
               (FUpdateMetadata (mkFileInfo (FId file) (FName file) (FSource file)
                  (FSourceType file) (Some (<[uploadAttempts := Itoa (n + 1)]> metadata))
                  (FSize file) (FChecksum file) (FMimeType file) (FDeletedAt file)) w).1
             else (FDeleteFile file w).1
       end.

(** The outer loop: a list that came with an error is processed, and made again;
    [None] is running out of fuel. *)
Fixpoint RunGeneric (fuel : nat) (max : Z) (w : W) : option (W * option string) :=
  match fuel with
  | O => None
  | S fuel =>
      let '(fileList, err) := FListFiles w in
      match err, fileList with
      | Some e, [] => Some (w, Some e)
      | Some _, _ :: _ => RunGeneric fuel max (foldl (λ w f, generic_file max f w) w fileList)
      | None, _ => Some (foldl (λ w f, generic_file max f w) w fileList, None)
      end
  end.
End upload.

Arguments Uploader : clear implicits.

(** ** Lemmas on the updates and the uploads *)

Lemma SetCondition_status now cs c :
  ∃ c', GetCondition (SetCondition now cs c).2 (Type_ c) = Some c' ∧ Status c' = Status c.
Proof.
  unfold SetCondition. induction cs as [|c0 cs IH]; cbn [set_loop].
  { eexists. cbn. by rewrite bool_decide_true. }
  change (Type_ (with_time c now)) with (Type_ c). case_bool_decide as Ht.
  - cbn [snd GetCondition]. destruct (bool_decide (Status c0 = _)) eqn:Hs;
      (eexists; cbn [Type_ with_time]; rewrite bool_decide_true by done; done).
  - destruct (set_loop cs _) as [b cs']. cbn [snd GetCondition] in *.
    by rewrite bool_decide_false.
Qed.

Section update_lemmas.
Context {LS W : Type} `{!StatusClient LS W} `{!ConflictRetry}.

Lemma update_retried key mutate st res :
  retried (update_attempt (LS := LS) key mutate) st res → st.2 = false →
  match res with
  | ((_, true), _) => True
  | ((w', false), None) => ∃ r s, stored_reports st.1 !! key = Some r ∧
      mutate (MRStatus r) = Ret s ∧
      stored_reports w' = <[key := with_status r s]> (stored_reports st.1)
  | ((w', false), Some _) => stored_reports w' = stored_reports st.1
  end.
Proof.
  assert (Hone : ∀ st, st.2 = false → match update_attempt key mutate st with
    | ((_, true), _) => True
    | ((w', false), None) => ∃ r s, stored_reports st.1 !! key = Some r ∧
        mutate (MRStatus r) = Ret s ∧
        stored_reports w' = <[key := with_status r s]> (stored_reports st.1)
    | ((w', false), Some _) => stored_reports w' = stored_reports st.1
    end).
  { intros [w ?] [= ->]. unfold update_attempt; cbn [fst].
    destruct (GetReport key w) as [r|e] eqn:Hg; [|done].
    destruct (mutate (MRStatus r)) as [s|] eqn:Hm; [|done].
    pose proof (update_law key (with_status r s) w) as Hu.
    destruct (UpdateReport _ _ w) as [w' [e|]]; [done|].
    exists r, s. split; [by apply get_law|done]. }
  induction 1 as [st|st st' r Heq _ IH]; intros Hst; [by apply Hone|].
  pose proof (Hone _ Hst) as H1. rewrite Heq in H1.
  destruct st' as [w' b]. assert (b = false) as ->.
  { destruct st as [w ?]. cbn in Hst. subst. unfold update_attempt in Heq.
    destruct (GetReport _ _); [|by simplify_eq]. destruct (mutate _); [|by simplify_eq].
    by destruct (UpdateReport _ _ _); simplify_eq. }
  specialize (IH eq_refl). cbn [fst] in *. by rewrite H1 in IH.
Qed.

Lemma update_ok key mutate w res :
  updateMeterReportStatus (LS := LS) key mutate w = Ret res →
  match res with
  | (w', None) => ∃ r s, stored_reports w !! key = Some r ∧ mutate (MRStatus r) = Ret s ∧
      stored_reports w' = <[key := with_status r s]> (stored_reports w)
  | (w', Some _) => stored_reports w' = stored_reports w
  end.
Proof.
  unfold updateMeterReportStatus. intros Hu.
  pose proof (update_retried key mutate (w, false) _ (RetryOnConflict_law _ _) eq_refl) as Hr.
  destruct (RetryOnConflict _ _) as [[w' []] e]; [done|]. by injection Hu as <-.
Qed.
End update_lemmas.

Lemma upload_loop_targets {W} `{!FileStorage W} describe file name (us : list (Uploader W)) w :
  omap (fmap Target) (upload_loop describe file name us w).2 = UName <$> us ∧
  Forall is_Some (upload_loop describe file name us w).2.
Proof.
  revert w; induction us as [|u us IH]; intros w; [done|]. cbn [upload_loop].
  destruct (match ReadFile name w with Ok _ => _ | Err _ => _ end) as [w1 d] eqn:Hd.
  specialize (IH w1). destruct (upload_loop _ _ _ us w1) as [w2 rest]. cbn in *.
  destruct IH as [-> Hs]. split; [|by constructor]. f_equal.
  destruct (ReadFile name w) as [data|]; [|by simplify_eq].
  destruct (UUpload _ _ _ _) as [? [? []]]; by simplify_eq.
Qed.

(** Every detail is of one of the uploaders, and there is one for each unless the
    download failed. *)
Lemma uploadFile_targets {W} `{!FileStorage W} (us : list (Uploader W)) describe file w :
  let '(_, statuses) := uploadFile us describe file w in
  Forall is_Some statuses ∧
  ∃ n, omap (fmap Target) statuses = take n (UName <$> us) ∧
    (is_ok (FDownloadFile file w).2 → n = length us).
Proof.
  unfold uploadFile. destruct (FDownloadFile file w) as [w1 [name|err]].
  - pose proof (upload_loop_targets describe file name us w1) as [Ht Hs].
    destruct (upload_loop _ _ _ us w1) as [w2 statuses]. cbn in *. split; [done|].
    exists (length us). split; [|done]. rewrite Ht, take_ge; [done|]. by rewrite length_fmap.
  - destruct us as [|u us]; (split; [by repeat constructor|]).
    + by exists 0%nat.
    + by exists 1%nat.
Qed.

Lemma findStatus_success statuses :
  (findStatus statuses).1 = OneSuccessOf statuses required_targets.
Proof.
  unfold findStatus. destruct (OneSuccessOf _ _); [done|]. by destruct (Errors statuses).
Qed.

Lemma findStatus_condition statuses :
  Type_ (findStatus statuses).2 = ReportConditionTypeUploadStatus ∧
  IsTrue (findStatus statuses).2 = OneSuccessOf statuses required_targets.
Proof.
  unfold findStatus. destruct (OneSuccessOf _ _); [done|]. by destruct (Errors statuses).
Qed.

Lemma mutate_uploaded_fields now statuses s s' :
  mutate_uploaded now statuses s = Ret s' →
  IsUploaded s' = OneSuccessOf statuses required_targets ∧
  RetryUpload s' =
    (RetryUpload s + if OneSuccessOf statuses required_targets then 0 else 1)%Z.
Proof.
  unfold mutate_uploaded. pose proof (findStatus_success statuses) as Hs.
  pose proof (findStatus_condition statuses) as [Ht Hc].
  destruct (findStatus statuses) as [success c]. cbn [fst snd set_condition UploadStatus_] in *.
  destruct (Append _ _) as [u|]; [|done]. cbn [mbind outcome_mbind]. intros [= <-].
  rewrite <- Hc. split.
  - unfold IsUploaded. cbn [RConditions]. rewrite <- Ht.
    destruct (SetCondition_status now (RConditions s) c) as (c' & Hget & Hst).
    rewrite Hget. unfold IsTrue. by rewrite Hst.
  - rewrite Hc, <- Hs. cbn. destruct success; lia.
Qed.

(** ** The life of a report *)

Definition stored (s : MeterReportStatus) : bool :=
  match Get (UploadStatus_ s) TargetDataService with Some d => Success d | None => false end.
Definition uploaded (s : MeterReportStatus) : bool :=
  OneSuccessOf (UploadStatus_ s) required_targets.

Definition with_conditions (cs : Conditions) (s : MeterReportStatus) : MeterReportStatus :=
  mkMeterReportStatus cs (UploadStatus_ s) (WorkloadCount s) (MetricUploadCount s) (RetryUpload s)
    (UploadID s) (DataServiceStatus s) (RErrors s) (Warnings s).

Section lifecycle.
Context {LS E : Type}.
Variable toDetails : E → outcome ErrorDetails.
Variable cfg : Config.
(** The names of the uploaders of the upload task. *)
Variable names : list string.
(** A report; only its status changes. *)
Variable r : MeterReport LS.

(** One write of the status, under the condition the task is run on. *)
Inductive status_step (s : MeterReportStatus) : MeterReportStatus → Prop :=
| step_failed now t errs warns s' :
    CanRunReportTask now (with_status r s) = true →
    mutate_failed t toDetails errs warns s = Ret s' → status_step s s'
| step_reported now t d n errs warns c s' :
    CanRunReportTask now (with_status r s) = true → Target d = TargetDataService →
    mutate_reported t toDetails [Some d] n errs warns c s = Ret s' → status_step s s'
| step_unstored now t n errs warns c s' :
    CanRunReportTask now (with_status r s) = true →
    mutate_reported t toDetails [] n errs warns c s = Ret s' → status_step s s'
| step_skipped t skip c :
    skip_condition skip = Some c → status_step s (set_condition t c s)
| step_uploaded now t statuses s' :
    CanRunUploadReportTask cfg now (with_status r s) = Ret (SkipEmpty, true) →
    Forall (λ o, ∃ d, o = Some d ∧ Target d ∈ names) statuses →
    mutate_uploaded t statuses s = Ret s' → status_step s s'.

Record status_inv (max : Z) (s : MeterReportStatus) : Prop := {
  inv_wf : wf_uploads (UploadStatus_ s);
  inv_retry : (0 ≤ RetryUpload s ≤ max)%Z;
  inv_ds : DataServiceStatus s = Get (UploadStatus_ s) TargetDataService;
  inv_order : uploaded s = true → stored s = true
}.

(** What a step leaves of the uploads: nothing changes, or the report was not
    stored and now has one entry more for the file service, or it was stored and
    not uploaded and its other targets change. *)
Inductive upload_change (max : Z) (s s' : MeterReportStatus) : Prop :=
| change_none :
    UploadStatus_ s' = UploadStatus_ s → RetryUpload s' = RetryUpload s →
    DataServiceStatus s' = DataServiceStatus s → upload_change max s s'
| change_stored d :
    stored s = false → uploaded s = false → Target d = TargetDataService →
    wf_uploads (UploadStatus_ s') → RetryUpload s' = RetryUpload s →
    DataServiceStatus s' = Some d →
    (∀ t, Get (UploadStatus_ s') t =
       if t == TargetDataService then Some d else Get (UploadStatus_ s) t) →
    upload_change max s s'
| change_uploaded :
    stored s = true → uploaded s = false → (RetryUpload s < max)%Z →
    wf_uploads (UploadStatus_ s') →
    (RetryUpload s ≤ RetryUpload s' ≤ RetryUpload s + 1)%Z →
    DataServiceStatus s' = DataServiceStatus s →
    Get (UploadStatus_ s') TargetDataService = Get (UploadStatus_ s) TargetDataService →
    upload_change max s s'.

Lemma Get_reverse_target (l : UploadDetailConditions) t :
  (∀ d, Some d ∈ l → Target d ≠ t) → Get (reverse l) t = None.
Proof.
  intros H. destruct (Get (reverse l) t) as [d|] eqn:Hg; [|done]. exfalso.
  pose proof (Get_target _ _ _ Hg) as Ht. apply Get_elem in Hg.
  apply (H d); [|done]. by apply elem_of_reverse.
Qed.

Lemma with_errors_fields errs warns s s' :
  with_errors toDetails errs warns s = Ret s' →
  UploadStatus_ s' = UploadStatus_ s ∧ RetryUpload s' = RetryUpload s ∧
  DataServiceStatus s' = DataServiceStatus s ∧ RConditions s' = RConditions s ∧
  MetricUploadCount s' = MetricUploadCount s.
Proof.
  unfold with_errors. destruct (mapM_outcome _ errs) as [l|]; [|done]. cbn.
  destruct (mapM_outcome _ warns) as [l'|]; [|done]. cbn. by intros [= <-].
Qed.

Lemma can_run now s :
  CanRunReportTask now (with_status r s) = true → stored s = false ∧ uploaded s = false.
Proof.
  unfold CanRunReportTask, stored, uploaded. cbn [MRStatus with_status].
  destruct (Before _ _); [done|]. destruct (match DataServiceStatus s with Some _ => _ | _ => _ end); [done|].
  destruct (match Get _ _ with Some _ => _ | _ => _ end); [done|].
  by destruct (OneSuccessOf _ _).
Qed.

Lemma can_upload max now s :
  MaxUploadAttempts cfg = Some max → DataServiceStatus s = Get (UploadStatus_ s) TargetDataService →
  CanRunUploadReportTask cfg now (with_status r s) = Ret (SkipEmpty, true) →
  stored s = true ∧ uploaded s = false ∧ (RetryUpload s < max)%Z.
Proof.
  intros Hm Hds. unfold CanRunUploadReportTask, stored, uploaded. cbn [MRStatus with_status].
  rewrite Hm, Hds. destruct (Before _ _); [done|]. destruct (IsDisconnected _); [done|].
  destruct (match MetricUploadCount s with Some _ => _ | _ => _ end); [done|].
  destruct (Get _ _) as [d|]; [|done].
  destruct (Success d); [|by rewrite orb_true_r]. rewrite orb_false_r.
  case_bool_decide; [done|]. case_bool_decide; [done|].
  destruct (OneSuccessOf _ _); [done|]. split; [done|]. split; [done|lia].
Qed.

Lemma step_change max s s' :
  MaxUploadAttempts cfg = Some max → TargetDataService ∉ names → status_inv max s →
  status_step s s' → upload_change max s s'.
Proof.
  intros Hm Hn [Hwf Hr Hds Ho] Hstep.
  destruct Hstep as [now t errs warns s' Hrun Hs|now t d n errs warns c s' Hrun Hd Hs
    |now t n errs warns c s' Hrun Hs|t skip c _|now t statuses s' Hrun Hst Hs].
  - apply with_errors_fields in Hs as (? & ? & ? & _). by apply change_none.
  - destruct (can_run _ _ Hrun) as [Hst Hup]. unfold mutate_reported in Hs.
    destruct (Append_some (UploadStatus_ s) [Some d] Hwf) as (u' & Heq & Hwf' & HG);
      [by repeat constructor|].
    rewrite Heq in Hs. cbn [mbind outcome_mbind] in Hs.
    destruct (with_errors _ _ _ _) as [s1|] eqn:Hw; [|done]. cbn [mbind outcome_mbind] in Hs.
    apply with_errors_fields in Hw as (Hu1 & Hr1 & _). cbn in Hu1, Hr1.
    assert (Hget : ∀ t, Get [Some d] t = if t == TargetDataService then Some d else None).
    { intros t'. cbn. rewrite Hd. by rewrite (bool_decide_ext (TargetDataService = t') (t' = TargetDataService)). }
    rewrite (Hget TargetDataService), bool_decide_true in Hs by done. injection Hs as <-.
    eapply change_stored with d; cbn; rewrite ?Hu1; try done.
    intros t'. rewrite HG. change (reverse [Some d]) with [Some d]. rewrite Hget.
    by case_bool_decide.
  - unfold mutate_reported in Hs. cbn [Append append_loop mbind outcome_mbind] in Hs.
    destruct (with_errors _ _ _ _) as [s1|] eqn:Hw; [|done]. injection Hs as <-.
    apply with_errors_fields in Hw as (? & ? & ? & _). by apply change_none.
  - by apply change_none.
  - destruct (can_upload max _ _ Hm Hds Hrun) as (Hst' & Hup & Hlt). unfold mutate_uploaded in Hs.
    assert (Hsome : Forall is_Some statuses).
    { eapply Forall_impl; [exact Hst|]. by intros o (d & -> & _). }
    destruct (Append_some (UploadStatus_ s) statuses Hwf Hsome) as (u' & Heq & Hwf' & HG).
    destruct (findStatus statuses) as [success condition]. cbn [set_condition UploadStatus_] in Hs.
    rewrite Heq in Hs. cbn [mbind outcome_mbind] in Hs. injection Hs as <-.
    assert (Hnot : Get u' TargetDataService = Get (UploadStatus_ s) TargetDataService).
    { rewrite HG, Get_reverse_target; [done|]. intros d Hd Ht.
      rewrite Forall_forall in Hst. destruct (Hst _ Hd) as (d' & [= <-] & Hin). by rewrite Ht in Hin. }
    apply change_uploaded; cbn; try done; [by destruct success; lia|].
    rewrite Hnot, Hds. by destruct (Get _ _).
Qed.

Lemma uploaded_of_gets s s' :
  (∀ t, t ≠ TargetDataService → Get (UploadStatus_ s') t = Get (UploadStatus_ s) t) →
  uploaded s' = uploaded s.
Proof.
  intros H. apply OneSuccessOf_ext. intros t Ht. apply H. intros ->.
  by apply (bool_decide_pack _) in Ht.
Qed.

Lemma change_inv max s s' : status_inv max s → upload_change max s s' → status_inv max s'.
Proof.
  intros [Hwf Hr Hds Ho] [Hu Hre Hd|d Hst Hup Ht Hwf' Hre Hd HG|Hst Hup Hlt Hwf' Hre Hd HG].
  - by split; unfold stored, uploaded; rewrite ?Hu, ?Hre, ?Hd.
  - split; rewrite ?Hre, ?HG, ?Hd; [done|done|by rewrite bool_decide_true|].
    rewrite (uploaded_of_gets s s'); [congruence|]. intros t Hne. by rewrite HG, bool_decide_false.
  - split; [done|lia|congruence|]. intros _. unfold stored. by rewrite HG.
Qed.

Lemma steps_inv max s s' :
  MaxUploadAttempts cfg = Some max → TargetDataService ∉ names → status_inv max s →
  rtc status_step s s' →
  status_inv max s' ∧
  (stored s = true →
     Get (UploadStatus_ s') TargetDataService = Get (UploadStatus_ s) TargetDataService) ∧
  (uploaded s = true → UploadStatus_ s' = UploadStatus_ s).
Proof.
  intros Hm Hn Hinv Hs. induction Hs as [s|s s1 s2 Hstep _ IH]; [done|].
  pose proof (step_change _ _ _ Hm Hn Hinv Hstep) as Hc.
  destruct (IH (change_inv _ _ _ Hinv Hc)) as (Hi & Hst & Hup). split; [done|].
  destruct Hc as [Hu _ _|d Hst' Hup' _ _ _ _ _|Hst' Hup' _ _ _ _ HG]; unfold stored, uploaded in *.
  - by rewrite !Hu in *.
  - split; congruence.
  - split; [|congruence]. intros Hs. rewrite Hst; [done|]. by rewrite HG.
Qed.

(** Of a report that was uploaded only the conditions are written. *)
Lemma uploaded_steps max s s' :
  MaxUploadAttempts cfg = Some max → TargetDataService ∉ names → status_inv max s → uploaded s = true →
  rtc status_step s s' → s' = with_conditions (RConditions s') s.
Proof.
  intros Hm Hn Hinv Hup Hs. induction Hs as [s|s s1 s2 Hstep _ IH]; [by destruct s|].
  pose proof (change_inv _ _ _ Hinv (step_change _ _ _ Hm Hn Hinv Hstep)) as Hinv1.
  assert (H1 : s1 = with_conditions (RConditions s1) s).
  { destruct Hstep as [now t errs warns s' Hrun _|now t d n errs warns c s' Hrun _ _
      |now t n errs warns c s' Hrun _|t skip c _|now t statuses s' Hrun _ _]; [..|done|];
      [apply can_run in Hrun as [_ Hno]; congruence..|].
    destruct (can_upload max _ _ Hm (inv_ds _ _ Hinv) Hrun) as (_ & Hno & _). congruence. }
  rewrite IH; [by rewrite H1|done|by rewrite H1].
Qed.

Lemma zero_inv max : (0 ≤ max)%Z → status_inv max zero_status.
Proof. intros H. split; [|cbn; lia|done|done]. by split; constructor. Qed.
End lifecycle.

(** ** Properties *)

(** C3: the life of a report. From a fresh status, whatever the tasks meet and in
    whatever order they run: the upload list keeps one entry per target, no
    append to it ever panics, the retry counter stays between 0 and the configured
    maximum, the recorded file is the one of the file service's entry, and a
    report is uploaded only once it is stored. A report that is stored keeps its
    file and is never run again; a report that is uploaded is never uploaded
    again. *)
Theorem report_lifecycle {LS E} (toDetails : E → outcome ErrorDetails) (cfg : Config)
    (max : Z) (names : list string) (r : MeterReport LS) (s s' : MeterReportStatus) :
  MaxUploadAttempts cfg = Some max → (0 ≤ max)%Z → TargetDataService ∉ names →
  rtc (status_step toDetails cfg names r) zero_status s →
  rtc (status_step toDetails cfg names r) s s' →
  status_inv max s ∧
  (∀ t statuses, Forall is_Some statuses → ∃ s1, mutate_uploaded t statuses s = Ret s1) ∧
  (stored s = true →
     DataServiceStatus s' = DataServiceStatus s ∧
     ∀ now, CanRunReportTask now (with_status r s') = false) ∧
  (uploaded s = true → uploaded s' = true ∧
     ∀ now, CanRunUploadReportTask cfg now (with_status r s') ≠ Ret (SkipEmpty, true)).
Proof.
  intros Hm H0 Hn Hs Hs'.
  destruct (steps_inv toDetails cfg names r max _ _ Hm Hn (zero_inv max H0) Hs) as (Hi & _).
  destruct (steps_inv toDetails cfg names r max _ _ Hm Hn Hi Hs') as (Hi' & Hst & Hup).
  split; [done|]. split; [|split].
  - intros t statuses Hsome. unfold mutate_uploaded.
    destruct (findStatus statuses) as [b c].
    destruct (Append_some (UploadStatus_ s) statuses (inv_wf _ _ Hi) Hsome) as (u' & Heq & _).
    cbn [set_condition UploadStatus_]. rewrite Heq. cbn. by eexists.
  - intros Hstored. split.
    + by rewrite (inv_ds _ _ Hi), (inv_ds _ _ Hi'), Hst.
    + intros now. destruct (CanRunReportTask _ _) eqn:Hc; [|done].
      destruct (can_run _ _ _ Hc) as [Hc' _]. unfold stored in *. rewrite Hst in Hc' by done.
      congruence.
  - intros Huploaded. assert (Hu : uploaded s' = true) by (unfold uploaded in *; by rewrite Hup).
    split; [done|]. intros now Hc.
    destruct (can_upload cfg r max _ _ Hm (inv_ds _ _ Hi') Hc) as (_ & Hf & _). congruence.
Qed.

(** C27: uploading a stored report. When the task ends without an error it uploaded
    the file recorded in the status, with one detail per uploader if the file could be
    downloaded, and wrote the outcome. The file is deleted exactly when a required target
    took it, after the status was written, and the status then says uploaded; otherwise
    the file stays and one more attempt is counted. When it ends with an error, that of a
    failed status write included, nothing was deleted: the files are as they were, as far
    as uploading one and writing a status leave them alone; and the status was not
    written. *)
Theorem RunReport_spec {LS W} `{!StatusClient LS W} `{!ConflictRetry} `{!FileStorage W}
    (now : Time) (us : list (Uploader W)) (describe : string → string)
    (key : NamespacedName) (report : MeterReport LS) (w w' : W) (e : option string) :
  RunReport now us describe key report w = Ret (w', e) →
  match e with
  | None =>
      ∃ d file w1 statuses r s w2,
        DataServiceStatus (MRStatus report) = Some d ∧ FGetFile (ID d) w = Ok file ∧
        uploadFile us describe file w = (w1, statuses) ∧
        (is_ok (FDownloadFile file w).2 → omap (fmap Target) statuses = UName <$> us) ∧
        stored_reports w1 !! key = Some r ∧ mutate_uploaded now statuses (MRStatus r) = Ret s ∧
        stored_reports w2 = <[key := with_status r s]> (stored_reports w1) ∧
        w' = (if OneSuccessOf statuses required_targets then (FDeleteFile file w2).1 else w2) ∧
        IsUploaded s = OneSuccessOf statuses required_targets ∧
        RetryUpload s = (RetryUpload (MRStatus r) +
                           if OneSuccessOf statuses required_targets then 0 else 1)%Z
  | Some _ =>
      ∀ O (files : W → O),
        (∀ file w, files (uploadFile us describe file w).1 = files w) →
        (∀ change w w1 e, updateMeterReportStatus (LS := LS) key change w = Ret (w1, e) → files w1 = files w) →
        files w' = files w ∧
        ((∀ file w, stored_reports (uploadFile us describe file w).1 = stored_reports w) →
         stored_reports w' = stored_reports w)
  end.
Proof.
  unfold RunReport. destruct (DataServiceStatus (MRStatus report)) as [d|]; [|by intros [= <- <-]].
  case_bool_decide; [by intros [= <- <-]|]. destruct (FGetFile (ID d) w) as [file|] eqn:Hg; [|by intros [= <- <-]].
  pose proof (uploadFile_targets us describe file w) as Ht.
  destruct (uploadFile us describe file w) as [w1 statuses] eqn:Hup.
  destruct Ht as (_ & n & Hn & Hok).
  destruct (updateMeterReportStatus key _ w1) as [[w2 [c|]]|] eqn:Hw; [| |done].
  { intros [= <- <-] O files Hfiles Hwrite. rewrite (Hwrite _ _ _ _ Hw). split; [by rewrite <- (Hfiles file w), Hup|].
    intros Hr. pose proof (update_ok _ _ _ _ Hw) as Hun. cbv beta iota in Hun. rewrite Hun, <- (Hr file w). by rewrite Hup. }
  destruct (update_ok _ _ _ _ Hw) as (r & s & Hr & Hm & Hst).
  rewrite findStatus_success. intros Hret.
  assert (He : e = None) by (by destruct (OneSuccessOf _ _); injection Hret). subst e.
  exists d, file, w1, statuses, r, s, w2. do 3 (split; [done|]).
  split. { intros Hd. by rewrite Hn, Hok, take_ge by (done || by rewrite length_fmap). }
  do 3 (split; [done|]).
  split; [by destruct (OneSuccessOf _ _); injection Hret|]. by eapply mutate_uploaded_fields.
Qed.

(** A collection that failed and gave no metrics is reported as a success: the
    failure goes into the status of the report, but what the task returns is the
    outcome of writing that status, nothing when it was written. *)
Theorem TaskReport_swallows {LS W M E R} `{!StatusClient LS W} `{!ConflictRetry} (now : Time)
    (toDetails : E → outcome ErrorDetails) NewReporter CollectMetrics ReportID
    (WriteReport : R → string → list M → W → W * option string) TargzFolder OpenFile UploaderName UploaderUpload
    Combine (cfg : Config) (key : NamespacedName) (w w1 w2 w' : W) (reporter : R) (errs warns : list E)
    (err : string) (e : option string) :
  NewReporter w = Ret (w1, Ok reporter) → CollectMetrics reporter w1 = (w2, (([], (errs, warns)), Some err)) →
  TaskReport (LS := LS) now toDetails NewReporter CollectMetrics ReportID WriteReport TargzFolder OpenFile
    UploaderName UploaderUpload Combine cfg key w = Ret (w', e) →
  match e with
  | None => ∃ r s, stored_reports w2 !! key = Some r ∧
      mutate_failed now toDetails errs warns (MRStatus r) = Ret s ∧
      stored_reports w' = <[key := with_status r s]> (stored_reports w2)
  | Some _ => stored_reports w' = stored_reports w2
  end.
Proof.
  intros Hn Hc. unfold TaskReport. rewrite Hn. cbn [mbind outcome_mbind]. rewrite Hc. cbv iota beta.
  destruct (updateMeterReportStatus _ _ w2) as [[w3 [c|]]|] eqn:Hu; [| |done];
    intros [= <- <-]; exact (update_ok _ _ _ _ Hu).
Qed.

(** The attempts at a file of the data service. A file that was deleted, cannot be
    read or has used up its attempts is left alone, with no upload; any other is
    uploaded, and then deleted exactly when a required target took it; otherwise
    it stays and its metadata counts one attempt more, the rest unchanged. *)
Theorem generic_file_spec {W} `{!FileStorage W} (us : list (Uploader W))
    (describe : string → string) (max : Z) (listed : FileInfo) (w : W) :
  (max ≤ max_int64)%Z →
  generic_file us describe max listed w = w ∨
  ∃ file w1 statuses, is_deleted listed = false ∧ FGetFile (FId listed) w = Ok file ∧
    (attempts_of (entries (FMetadata file)) < max)%Z ∧
    uploadFile us describe file w = (w1, statuses) ∧
    if OneSuccessOf statuses required_targets
    then generic_file us describe max listed w = (FDeleteFile file w1).1
    else ∃ file', generic_file us describe max listed w = (FUpdateMetadata file' w1).1 ∧
      FId file' = FId file ∧
      ((min_int64 ≤ attempts_of (entries (FMetadata file)))%Z →
       attempts_of (entries (FMetadata file')) = (attempts_of (entries (FMetadata file)) + 1)%Z) ∧
      ∀ k, k ≠ uploadAttempts →
        entries (FMetadata file') !! k = entries (FMetadata file) !! k.
Proof.
  intros Hmax. unfold generic_file. destruct (is_deleted listed); [by left|].
  destruct (FGetFile (FId listed) w) as [file|] eqn:Hg; [|by left].
  set (n := attempts_of (entries (FMetadata file))).
  case_bool_decide as Hn; [by left|]. right.
  destruct (uploadFile us describe file w) as [w1 statuses] eqn:Hu.
  exists file, w1, statuses. do 2 (split; [done|]). split; [lia|]. split; [done|].
  rewrite findStatus_success. destruct (OneSuccessOf _ _); [done|].
  rewrite bool_decide_true by lia. cbn [negb andb]. eexists. split; [reflexivity|].
  split; [done|]. split.
  - intros Hmin. unfold attempts_of at 1, entries at 1. cbn [FMetadata from_option].
    unfold id. rewrite lookup_insert_eq, Atoi_Itoa; [done|lia].
  - intros k Hk. unfold entries at 1. cbn [FMetadata from_option]. unfold id. by rewrite lookup_insert_ne.
Qed.

(** The upload of the data service's files ends after one pass when the list is
    complete; but when the list keeps coming back partial, with an error, and
    every file on it has used up its attempts, the loop never ends: nothing it
    does changes what it is given next. *)
Theorem RunGeneric_stuck {W} `{!FileStorage W} (us : list (Uploader W))
    (describe : string → string) (max : Z) (w : W) (files : list FileInfo) (err : option string) :
  FListFiles w = (files, err) →
  match err with
  | None => RunGeneric us describe 1 max w =
      Some (foldl (λ w f, generic_file us describe max f w) w files, None)
  | Some e =>
      (files = [] → RunGeneric us describe 1 max w = Some (w, Some e)) ∧
      (files ≠ [] →
       (∀ f, f ∈ files → is_deleted f = true ∨ ∃ file, FGetFile (FId f) w = Ok file ∧
          (max ≤ attempts_of (entries (FMetadata file)))%Z) →
       ∀ fuel, RunGeneric us describe fuel max w = None)
  end.
Proof.
  intros Hl. destruct err as [e|]; [|by cbn; rewrite Hl]. split.
  { intros ->. cbn. by rewrite Hl. }
  intros Hne Hall.
  assert (Hid : foldl (λ w f, generic_file us describe max f w) w files = w).
  { clear Hne Hl. induction files as [|f files IH]; [done|]. cbn [foldl].
    assert (Hf : generic_file us describe max f w = w).
    { unfold generic_file. destruct (Hall f ltac:(by left)) as [->|(file & Hg & Hn)]; [done|].
      destruct (is_deleted f); [done|]. rewrite Hg. by rewrite bool_decide_true. }
    rewrite Hf. apply IH. intros f' Hf'. apply Hall. by right. }
  induction fuel as [|fuel IH]; [done|]. cbn [RunGeneric]. rewrite Hl.
  destruct files as [|f files]; [done|]. by rewrite Hid.
Qed.

(** ** A cluster and a file service in memory *)

Record Toy := mkToy { toy_reports : gmap NamespacedName (MeterReport unit);
                      toy_files : list FileInfo }.

Definition toy_find (id : string) (w : Toy) : option FileInfo :=
  List.find (λ f, FId f == id) (toy_files w).

#[export, refine] Instance toy_client : StatusClient unit Toy := {|
  stored_reports := toy_reports;
  GetReport k w := match toy_reports w !! k with Some r => Ok r | None => Err IsNotFound end;
  UpdateReport k r w := (mkToy (<[k := r]> (toy_reports w)) (toy_files w), None)
|}.
Proof.
  - intros k w r. by destruct (toy_reports w !! k); intros [= ->].
  - done.
Defined.

#[export] Instance toy_storage : FileStorage Toy := {|
  FGetFile id w := match toy_find id w with Some f => Ok f | None => Err "not found" end;
  FDownloadFile f w := (w, Ok (FName f));
  ReadFile name w := Ok [Byte.x41];
  FListFiles w := (toy_files w, None);
  FUpdateMetadata f w :=
    (mkToy (toy_reports w) ((λ g, if FId g == FId f then f else g) <$> toy_files w), None);
  FDeleteFile f w :=
    (mkToy (toy_reports w) (List.filter (λ g, FId g != FId f) (toy_files w)), None)
|}.

Definition no_details (e : string) : outcome ErrorDetails := Ret (mkErrorDetails e ∅).
Definition toy_config : Config := SetDefaults (mkConfig None None None None false true false).
Definition toy_report : MeterReport unit :=
  mkMeterReport _ (mkMeta "meter-report-2022-01-07" "ns" "" 0 ∅ ∅ [])
    (mkMeterReportSpec _ "" (midnight 18999) (midnight 19000) None [] []) zero_status.
Definition noon : GoTime := Add (midnight 19000) (12 * hour_ns).
Definition status_of (o : outcome MeterReportStatus) : MeterReportStatus :=
  match o with Ret s => s | Panic => zero_status end.
Definition s_stored : MeterReportStatus :=
  status_of (mutate_reported 1 no_details [Some up_ds] 3 [] [] ReportConditionStorageStatusFinished
    zero_status).
Definition s_failed : MeterReportStatus :=
  status_of (mutate_uploaded 2 [Some up_mkt_fail] s_stored).
Definition s_uploaded : MeterReportStatus :=
  status_of (mutate_uploaded 3 [Some up_mkt_ok] s_failed).

Lemma toy_life :
  rtc (status_step no_details toy_config [TargetMarketplace] toy_report) zero_status s_stored ∧
  rtc (status_step no_details toy_config [TargetMarketplace] toy_report) s_stored s_uploaded.
Proof.
  split.
  - apply rtc_once. eapply (step_reported _ _ _ _ _ noon 1 up_ds 3 [] []
      ReportConditionStorageStatusFinished); vm_compute; reflexivity.
  - eapply rtc_l; [|eapply rtc_once].
    + eapply step_uploaded with (now := noon) (statuses := [Some up_mkt_fail]) (t := 2%Z);
        [vm_compute; reflexivity| |vm_compute; reflexivity].
      repeat constructor. eexists; split; [done|by left].
    + eapply step_uploaded with (now := noon) (statuses := [Some up_mkt_ok]) (t := 3%Z);
        [vm_compute; reflexivity| |vm_compute; reflexivity].
      repeat constructor. eexists; split; [done|by left].
Qed.

Lemma report_lifecycle_witness :
  stored s_stored = true ∧ uploaded s_uploaded = true ∧ RetryUpload s_uploaded = 1%Z ∧
  CanRunReportTask noon (with_status toy_report zero_status) = true ∧
  CanRunUploadReportTask toy_config noon (with_status toy_report s_failed) = Ret (SkipEmpty, true) ∧
  CanRunReportTask noon (with_status toy_report s_uploaded) = false.
Proof.
  do 5 (split; [vm_compute; reflexivity|]).
  destruct (report_lifecycle no_details toy_config 720 [TargetMarketplace] toy_report s_stored
    s_uploaded eq_refl ltac:(done) ltac:(by apply (bool_decide_unpack _))
    (proj1 toy_life) (proj2 toy_life)) as (_ & _ & Hst & _).
  by apply (Hst eq_refl).
Defined.

Definition toy_file : FileInfo :=
  mkFileInfo "f1" "upload.tar.gz" "redhat-marketplace" "report" None 1 "" "" None.
Definition toy_world : Toy :=
  mkToy {[ mkNN "ns" "meter-report-2022-01-07" := with_status toy_report s_stored ]} [toy_file].
Definition good_uploader : Uploader Toy :=
  mkUploader TargetMarketplace (λ _ _ w, (w, ("id9", None))).
Definition bad_uploader : Uploader Toy :=
  mkUploader TargetMarketplace (λ _ _ w, (w, ("", Some "timeout"))).
Definition toy_run (u : Uploader Toy) : outcome (Toy * option string) :=
  RunReport 5 [u] id (mkNN "ns" "meter-report-2022-01-07") (with_status toy_report s_stored)
    toy_world.
Definition world_of (o : outcome (Toy * option string)) : Toy :=
  match o with Ret (w, _) => w | Panic => toy_world end.

Lemma RunReport_spec_witness :
  toy_files (world_of (toy_run bad_uploader)) = [toy_file] ∧
  toy_files (world_of (toy_run good_uploader)) = [] ∧
  ∃ d file, DataServiceStatus s_stored = Some d ∧ FGetFile (ID d) toy_world = Ok file.
Proof.
  do 2 (split; [vm_compute; reflexivity|]).
  assert (Hr : toy_run good_uploader = Ret (world_of (toy_run good_uploader), None))
    by (vm_compute; reflexivity).
  destruct (RunReport_spec 5 [good_uploader] id _ _ toy_world _ _ Hr)
    as (d & file & w1 & st & r & s & w2 & Hd & Hf & _).
  by exists d, file.
Defined.

Lemma generic_file_spec_witness :
  toy_files (generic_file [bad_uploader] id 720 toy_file toy_world) =
    [mkFileInfo "f1" "upload.tar.gz" "redhat-marketplace" "report"
       (Some {[ uploadAttempts := "1" ]}) 1 "" "" None] ∧
  (generic_file [bad_uploader] id 720 toy_file toy_world = toy_world ∨
   ∃ file w1 statuses, FGetFile "f1" toy_world = Ok file ∧
     uploadFile [bad_uploader] id file toy_world = (w1, statuses)).
Proof.
  split; [vm_compute; reflexivity|].
  destruct (generic_file_spec [bad_uploader] id 720 toy_file toy_world ltac:(done))
    as [H|(file & w1 & st & _ & H1 & _ & H2 & _)]; [by left|].
  right. by exists file, w1, st.
Defined.

(** The same file service, whose list always ends in an error. *)
Definition failing_storage : FileStorage Toy := {|
  FGetFile := FGetFile; FDownloadFile := FDownloadFile; ReadFile := ReadFile;
  FListFiles w := (toy_files w, Some "error while opening stream");
  FUpdateMetadata := FUpdateMetadata; FDeleteFile := FDeleteFile
|}.
Definition worn_file : FileInfo :=
  mkFileInfo "f1" "upload.tar.gz" "redhat-marketplace" "report"
    (Some {[ uploadAttempts := "720" ]}) 1 "" "" None.

Lemma RunGeneric_stuck_witness :
  attempts_of (entries (FMetadata worn_file)) = 720%Z ∧
  ∀ fuel, @RunGeneric Toy failing_storage [good_uploader] id fuel 720 (mkToy ∅ [worn_file]) = None.
Proof.
  split; [vm_compute; reflexivity|].
  destruct (@RunGeneric_stuck Toy failing_storage [good_uploader] id 720 (mkToy ∅ [worn_file])
    [worn_file] (Some "error while opening stream") eq_refl) as [_ H].
  apply H; [done|]. intros f Hf. apply list_elem_of_singleton in Hf as ->. right.
  exists worn_file. split; [vm_compute; reflexivity|vm_compute; discriminate].
Defined.

Definition toy_task (w : Toy) : outcome (Toy * option string) :=
  TaskReport (M := nat) (LS := unit) 1 no_details (λ w, Ret (w, Ok tt))
    (λ _ w, (w, (([], (["query failed"], [])), Some "query failed"))) (λ _, Ret "uuid")
    (λ _ _ _ w, (w, None)) (λ w, (w, None))
    (λ _, None) TargetDataService (λ w, (w, ("f1", None))) (λ l, Join l "; ") toy_config
    (mkNN "ns" "meter-report-2022-01-07") w.

Lemma TaskReport_swallows_witness :
  toy_task toy_world = Ret (world_of (toy_task toy_world), None) ∧
  ∃ r s, toy_reports toy_world !! mkNN "ns" "meter-report-2022-01-07" = Some r ∧
    mutate_failed 1 no_details ["query failed"] [] (MRStatus r) = Ret s.
Proof.
  assert (Hr : toy_task toy_world = Ret (world_of (toy_task toy_world), None))
    by (vm_compute; reflexivity).
  split; [exact Hr|].
  destruct (TaskReport_swallows (LS := unit) (M := nat) (R := unit) 1 no_details (λ w, Ret (w, Ok tt))
    (λ _ w, (w, (([], (["query failed"], [])), Some "query failed"))) (λ _, Ret "uuid")
    (λ _ _ _ w, (w, None)) (λ w, (w, None)) (λ _, None) TargetDataService
    (λ w, (w, ("f1", None))) (λ l, Join l "; ") toy_config _ toy_world toy_world
    toy_world _ tt ["query failed"] [] "query failed" None eq_refl eq_refl Hr) as (r & s & H1 & H2 & _).
  by exists r, s.
Defined.
