(* ===== verification/DataReporter.v ===== *)
(** * The data reporter

    The model of [datareporter/v2/pkg]: the accumulator of the events of the users
    and the processor that reports them ([events]), the selectors and filters an
    event goes through ([selector], [datafilter]), and the handler that answers for
    one ([server]). *)

From S2P Require Import Prelude.
Local Open Scope go_scope.

(** ** Events *)

Notation Json := string (only parsing).

Record UserManifestType := mkUMT { User : string; ManifestType : string }.

#[export] Instance UMT_eq_dec : EqDecision UserManifestType.
Proof. solve_decision. Defined.

#[export] Instance UMT_countable : Countable UserManifestType.
Proof.
  refine (inj_countable' (λ k, (User k, ManifestType k)) (λ p, mkUMT p.1 p.2) _). by intros [].
Defined.

Record Event := mkEvent { EUser : string; RawMessage : Json; EManifestType : string }.

Definition event_key (e : Event) : UserManifestType := mkUMT (EUser e) (EManifestType e).

Record UserConfig := mkUserConfig { UserName : string; UMetadata : gmap string string }.

(** The configurations, and how many read locks on them are held. *)
Record UserConfigs := mkUserConfigs { userConfigs : list UserConfig; readers : nat }.

(** The lock is kept when the user is found. *)
Definition HasUser (userName : string) (a : UserConfigs) : bool * UserConfigs :=
  if existsb (λ c, UserName c == userName) (userConfigs a)
  then (true, mkUserConfigs (userConfigs a) (S (readers a)))
  else (false, a).

(** [None]: the write lock is not given while a read lock is held. *)
Definition SetUserConfigs (c : list UserConfig) (a : UserConfigs) : option UserConfigs :=
  match readers a with
  | O => Some (mkUserConfigs c 0)
  | S _ => None
  end.

(** The metadata of the last configuration of the user. *)
Definition GetMetadata (userName : string) (a : UserConfigs) : gmap string string :=
  foldl (λ m c, if UserName c == userName then UMetadata c else m) ∅ (userConfigs a).

(** ** The accumulator *)

Notation EventMap := (gmap UserManifestType (list Json)).

Definition events_of (m : EventMap) (k : UserManifestType) : list Json := default [] (m !! k).

Definition Add (event : Event) (m : EventMap) : nat * EventMap :=
  let aEventJsons := events_of m (event_key event) ++ [RawMessage event] in
  (length aEventJsons, <[event_key event := aEventJsons]> m).

Definition Flush (k : UserManifestType) (m : EventMap) : list Json * EventMap :=
  (events_of m k, delete k m).

Definition FlushAll (m : EventMap) : EventMap * EventMap := (m, ∅).

Definition IsEmpty (k : UserManifestType) (m : EventMap) : bool :=
  bool_decide (length (events_of m k) = 0%nat).

Definition GetKeys (m : EventMap) : list UserManifestType := (map_to_list m).*1.

(** ** The processor *)

(** What became of events taken from the accumulator: the report that holds them
    was accepted, or failed, or was not made at all. *)
Inductive Fate := Delivered | Failed | Dropped.

#[export] Instance Fate_eq_dec : EqDecision Fate.
Proof. solve_decision. Defined.

(** Events taken from the accumulator, and what became of them. *)
Notation Batch := (UserManifestType * list Json * Fate)%type (only parsing).

(** [signals] are the keys on the channel of the senders, those of blocked writers
    included; [batches] is what was taken so far; [world] is what a report works on: the
    configured users, the disk, the file service. *)
Record Processor {W : Type} := mkProcessor {
  eventAccumulator : EventMap;
  signals : list UserManifestType;
  batches : list Batch;
  world : W
}.
Arguments Processor : clear implicits.
Arguments mkProcessor {W}.

Section processor.
Context {W : Type}.
Variable MaxEventEntries : nat.
(** [eventReporter.Report] with the user's metadata: the error it ends in. *)
Variable Report : UserManifestType → list Json → W → W * option string.
(** What else happens to the world: users are configured, the service comes and goes. *)
Variable other : W → W → Prop.

Definition Process (event : Event) (p : Processor W) : Processor W :=
  let '(len, m) := Add event (eventAccumulator p) in
  if bool_decide (MaxEventEntries ≤ len)%nat
  then mkProcessor m (signals p ++ [event_key event]) (batches p) (world p)
  else mkProcessor m (signals p) (batches p) (world p).

Definition fate (e : option string) : Fate := match e with None => Delivered | Some _ => Failed end.

Definition Send (k : UserManifestType) (p : Processor W) : Processor W * option string :=
  let '(eventJsons, m) := Flush k (eventAccumulator p) in
  let '(w, e) := Report k eventJsons (world p) in
  (mkProcessor m (signals p) (batches p ++ [(k, eventJsons, fate e)]) w, e).

(** The loop over the flushed map stops at the first failure; the map is gone. *)
Fixpoint send_all_loop (l : list (UserManifestType * list Json)) (done : list Batch) (w : W)
    : W * list Batch * option string :=
  match l with
  | [] => (w, done, None)
  | (k, eventJsons) :: l =>
      match Report k eventJsons w with
      | (w, None) => send_all_loop l (done ++ [(k, eventJsons, Delivered)]) w
      | (w, Some e) =>
          (w, done ++ [(k, eventJsons, Failed)] ++ ((λ x, (x.1, x.2, Dropped)) <$> l), Some e)
      end
  end.

(** [order] lists the entries of the map in the order they are ranged over. *)
Definition SendAll (order : EventMap → list (UserManifestType * list Json)) (p : Processor W)
    : Processor W * option string :=
  let '(eventMap, m) := FlushAll (eventAccumulator p) in
  let '(w, b, e) := send_all_loop (order eventMap) [] (world p) in
  (mkProcessor m (signals p) (batches p ++ b) w, e).

(** The goroutines: an event is processed, a sender takes a signal, the
    timer expires; and the rest of the world moves. A goroutine takes the accumulator's
    lock for the whole of its step on it; the reports that follow touch nothing of the
    processor. *)
Inductive processor_step : Processor W → option Event → Processor W → Prop :=
| step_process e p : processor_step p (Some e) (Process e p)
| step_send k s1 s2 m b w :
    processor_step (mkProcessor m (s1 ++ k :: s2) b w) None (Send k (mkProcessor m (s1 ++ s2) b w)).1
| step_send_all order p :
    (∀ m, order m ≡ₚ map_to_list m) → processor_step p None (SendAll order p).1
| step_other m s b w w' :
    other w w' → processor_step (mkProcessor m s b w) None (mkProcessor m s b w').

(** The states a run reaches from a world, with the events posted to it in order. *)
Inductive run (w0 : W) : list Event → Processor W → Prop :=
| run_start : run w0 [] (mkProcessor ∅ [] [] w0)
| run_step es p o p' :
    run w0 es p → processor_step p o p' → run w0 (es ++ from_option (λ e, [e]) [] o) p'.
End processor.

(** ** Lemmas *)

(** The events of a key in a list of batches, and in the events posted. *)
Definition taken (b : list Batch) (k : UserManifestType)
    : list Json := x ← b; if bool_decide (x.1.1 = k) then x.1.2 else [].
Definition posted (es : list Event) (k : UserManifestType) : list Json :=
  e ← es; if bool_decide (event_key e = k) then [RawMessage e] else [].

Lemma taken_app b1 b2 k : taken (b1 ++ b2) k = taken b1 k ++ taken b2 k.
Proof. apply bind_app. Qed.

Lemma posted_app es1 es2 k : posted (es1 ++ es2) k = posted es1 k ++ posted es2 k.
Proof. apply bind_app. Qed.

(** The entries of a key in a map's listing, whatever its order. *)
Lemma listed_events (m : EventMap) l k :
  l ≡ₚ map_to_list m →
  (x ← l; if bool_decide (x.1 = k) then x.2 else []) = events_of m k.
Proof.
  intros Hl.
  assert (Hnd : NoDup l.*1) by (rewrite Hl; apply NoDup_fst_map_to_list).
  assert (Hin : ∀ v, (k, v) ∈ l ↔ m !! k = Some v)
    by (intros v; rewrite Hl; apply elem_of_map_to_list).
  unfold events_of. clear Hl. revert Hin. generalize (m !! k). intros o.
  induction l as [|[k' v'] l IH]; intros Hin.
  { destruct o as [v|]; [|done]. pose proof (proj2 (Hin v) eq_refl) as H.
    by apply elem_of_nil in H. }
  rewrite fmap_cons in Hnd. apply NoDup_cons in Hnd as [Hk Hnd]. cbn [mbind list_bind fst snd].
  case_bool_decide as Heq.
  - cbn [fst] in Heq. subst k'. pose proof (proj1 (Hin v') ltac:(by left)) as ->. cbn.
    enough ((x ← l; if bool_decide (x.1 = k) then x.2 else []) = []) as ->
      by apply app_nil_r.
    clear -Hk. induction l as [|[k' v] l IH]; [done|]. cbn [mbind list_bind fst].
    rewrite fmap_cons, elem_of_cons in Hk. rewrite bool_decide_false; [|cbn; naive_solver].
    apply IH. naive_solver.
  - apply (IH Hnd). intros v. rewrite <- Hin, elem_of_cons. cbn [fst] in Heq. naive_solver.
Qed.

Lemma send_all_taken {W} (Report : UserManifestType → list Json → W → W * option string) l done w w' b e :
  send_all_loop Report l done w = (w', b, e) →
  ∃ rest, b = done ++ rest ∧ (λ x : Batch, (x.1.1, x.1.2)) <$> rest = l.
Proof.
  revert done w; induction l as [|[k js] l IH]; intros done w; cbn [send_all_loop].
  { intros [= _ <- <-]. exists []. by rewrite app_nil_r. }
  destruct (Report k js w) as [w1 [err|]].
  - intros [= _ <- <-]. eexists. split; [reflexivity|].
    rewrite fmap_cons. f_equal. rewrite <- list_fmap_compose.
    rewrite <- (list_fmap_id l) at 2. apply list_fmap_ext. by intros i [].
  - intros (rest & -> & Hr)%IH. exists ((k, js, Delivered) :: rest).
    by rewrite <- app_assoc, fmap_cons, Hr.
Qed.

Lemma taken_of_entries rest k :
  taken rest k = (x ← ((λ x : Batch, (x.1.1, x.1.2)) <$> rest);
                  if bool_decide (x.1 = k) then x.2 else []).
Proof. unfold taken. induction rest as [|x rest IH]; [done|]. cbn. by f_equal. Qed.

Lemma events_of_delete m k0 k :
  events_of (delete k0 m) k = if bool_decide (k0 = k) then [] else events_of m k.
Proof.
  unfold events_of. case_bool_decide as H; [by rewrite H, lookup_delete_eq|].
  by rewrite lookup_delete_ne.
Qed.

Section accounting.
Context {W : Type}.
Variable MaxEventEntries : nat.
Variable Report : UserManifestType → list Json → W → W * option string.

Definition accounted (es : list Event) (p : Processor W) : Prop := ∀ k,
  posted es k = taken (batches p) k ++ events_of (eventAccumulator p) k ∧
  ((0 < MaxEventEntries)%nat → (MaxEventEntries ≤ length (events_of (eventAccumulator p) k))%nat →
   k ∈ signals p).

Lemma process_accounted e es p :
  accounted es p → accounted (es ++ [e]) (Process MaxEventEntries e p).
Proof.
  intros H k. destruct (H k) as [Hk Hs]. unfold Process, Add. cbv zeta.
  set (m := <[event_key e := _]> (eventAccumulator p)).
  assert (Hm : events_of m k = events_of (eventAccumulator p) k ++
    if bool_decide (event_key e = k) then [RawMessage e] else []).
  { subst m. unfold events_of at 1. case_bool_decide as He.
    - subst k. by rewrite lookup_insert_eq.
    - by rewrite lookup_insert_ne, app_nil_r. }
  assert (Hp : posted (es ++ [e]) k = taken (batches p) k ++ events_of m k).
  { rewrite posted_app, Hk, Hm, <- app_assoc. do 2 f_equal. cbn. by rewrite app_nil_r. }
  assert (Hl : event_key e = k → length (events_of m k) =
    length (events_of (eventAccumulator p) (event_key e) ++ [RawMessage e])).
  { intros He. rewrite Hm, bool_decide_true by done. by subst k. }
  destruct (decide (event_key e = k)) as [He|He].
  - rewrite <- (Hl He). destruct (bool_decide (_ ≤ length (events_of m k))%nat) eqn:Hb;
      cbn [batches eventAccumulator signals];
      (split; [exact Hp|]); intros _ Hlen.
    + subst k. apply elem_of_app. right. by left.
    + by apply bool_decide_eq_false in Hb.
  - rewrite bool_decide_false, app_nil_r in Hm by done.
    destruct (bool_decide (_ ≤ length (_ ++ _))%nat);
      cbn [batches eventAccumulator signals]; (split; [exact Hp|]); rewrite Hm; intros H0 Hlen;
      rewrite ?elem_of_app; auto.
Qed.

Lemma send_accounted es k0 s1 s2 m b w :
  accounted es (mkProcessor m (s1 ++ k0 :: s2) b w) →
  accounted es (Send Report k0 (mkProcessor m (s1 ++ s2) b w)).1.
Proof.
  intros IH k. destruct (IH k) as [Hk Hs]. unfold Send, Flush. cbn [world eventAccumulator].
  destruct (Report k0 (events_of m k0) w) as [w1 e].
  cbn [fst batches eventAccumulator signals] in *. rewrite taken_app.
  change (taken [(k0, events_of m k0, fate e)] k) with
    ((if bool_decide (k0 = k) then events_of m k0 else []) ++ []).
  rewrite events_of_delete. case_bool_decide as Hne.
  - subst k0. split; [by rewrite !app_nil_r|]. intros H0 Hl. cbn in Hl. lia.
  - split; [by rewrite !app_nil_r|]. intros H0 Hl. specialize (Hs H0 Hl).
    rewrite elem_of_app, elem_of_cons in Hs. rewrite elem_of_app. naive_solver.
Qed.

Lemma send_all_accounted es order p :
  (∀ m, order m ≡ₚ map_to_list m) → accounted es p → accounted es (SendAll Report order p).1.
Proof.
  intros Ho IH k. destruct (IH k) as [Hk Hs]. unfold SendAll, FlushAll.
  destruct (send_all_loop Report (order (eventAccumulator p)) [] (world p)) as [[w b] e] eqn:Hb.
  apply send_all_taken in Hb as (rest & -> & Hr). cbn [fst batches eventAccumulator signals].
  split; [|unfold events_of; rewrite lookup_empty; cbn; lia].
  rewrite Hk, taken_app, (taken_of_entries ([] ++ rest)), app_nil_l, Hr.
  rewrite (listed_events _ _ _ (Ho _)). unfold events_of at 3. rewrite lookup_empty. cbn.
  by rewrite app_nil_r.
Qed.
End accounting.

(** ** What became of what was taken *)

(** Going through the batches: what is dropped comes behind a report that failed, with
    nothing between them but what was dropped as well. *)
Fixpoint dropped_after_failure (failing : bool) (b : list Batch) : bool :=
  match b with
  | [] => true
  | (_, _, Delivered) :: b => dropped_after_failure false b
  | (_, _, Failed) :: b => dropped_after_failure true b
  | (_, _, Dropped) :: b => failing && dropped_after_failure true b
  end.

Definition was_reported (x : Batch) : Prop := x.2 ≠ Dropped.
#[export] Instance was_reported_dec x : Decision (was_reported x).
Proof. unfold was_reported. apply _. Defined.

Lemma dropped_app c b1 b2 :
  dropped_after_failure c b1 = true → dropped_after_failure false b2 = true →
  dropped_after_failure c (b1 ++ b2) = true.
Proof.
  intros H1 H2. assert (Hany : ∀ c, dropped_after_failure c b2 = true).
  { intros []; [|done]. destruct b2 as [|[[k l] []] b2]; [done|exact H2|exact H2|done]. }
  revert c H1. induction b1 as [|[[k l] []] b1 IH]; intros c; cbn; [auto..|].
  rewrite !andb_true_iff. intros [-> H1]. auto.
Qed.

Lemma dropped_behind c b1 k l b2 :
  dropped_after_failure c b1 = true → dropped_after_failure true b2 = true →
  dropped_after_failure c (b1 ++ (k, l, Failed) :: b2) = true.
Proof. intros H1 H2. by apply dropped_app. Qed.

Section fates.
Context {W : Type}.
Variable MaxEventEntries : nat.
Variable Report : UserManifestType → list Json → W → W * option string.
Variable other : W → W → Prop.
(** The reports that were asked for, with what became of them: only [Report] adds to
    them. *)
Variable reports : W → list Batch.
Hypothesis report_adds : ∀ k l w,
  reports (Report k l w).1 = reports w ++ [(k, l, fate (Report k l w).2)].
Hypothesis other_adds_none : ∀ w w', other w w' → reports w' = reports w.

(** Every batch but the dropped ones was asked for once, in this order. *)
Definition explained (w0 : W) (b : list Batch) (w : W) : Prop :=
  reports w = reports w0 ++ filter was_reported b ∧ dropped_after_failure false b = true.

Lemma fate_reported (e : option string) : fate e ≠ Dropped.
Proof. by destruct e. Qed.

Lemma all_dropped (l : list (UserManifestType * list Json)) :
  filter was_reported ((λ x, (x.1, x.2, Dropped)) <$> l : list Batch) = [] ∧
  dropped_after_failure true ((λ x, (x.1, x.2, Dropped)) <$> l) = true.
Proof.
  induction l as [|x l [IH1 IH2]]; [done|]. rewrite fmap_cons. split; [|exact IH2].
  rewrite filter_cons_False; [exact IH1|]. intros H. by apply H.
Qed.

Lemma report_explained w0 b k l w :
  explained w0 b w →
  explained w0 (b ++ [(k, l, fate (Report k l w).2)]) (Report k l w).1.
Proof.
  intros [Hr Hd]. split.
  - rewrite report_adds, Hr, filter_app, filter_cons_True by apply fate_reported. by rewrite app_assoc.
  - apply dropped_app; [done|]. by destruct (Report k l w).2.
Qed.

Lemma send_all_explained w0 b l done w w' rest e :
  explained w0 (b ++ done) w → send_all_loop Report l done w = (w', rest, e) →
  explained w0 (b ++ rest) w'.
Proof.
  revert done w; induction l as [|[k js] l IH]; intros done w Hx; cbn [send_all_loop]; [by intros [= <- <- _]|].
  pose proof (report_explained w0 (b ++ done) k js w Hx) as Hn. rewrite <- app_assoc in Hn.
  destruct (Report k js w) as [w1 [err|]]; cbn [fst snd fate] in Hn; [|by apply IH].
  intros [= <- <- _]. destruct Hn as [Hr _], Hx as [_ Hd]. destruct (all_dropped l) as [Hf Ha].
  rewrite (app_assoc b done). split; [|by apply dropped_behind].
  rewrite Hr, (app_assoc b done), !(filter_app _ (b ++ done)). do 2 f_equal.
  cbn [app]. by rewrite !filter_cons_True, Hf by (intros ?; discriminate).
Qed.

Lemma run_explained w0 es p :
  run MaxEventEntries Report other w0 es p → explained w0 (batches p) (world p).
Proof.
  induction 1 as [|es p o p' _ IH Hstep]; [by split; [rewrite app_nil_r|]|].
  destruct Hstep as [e p|k s1 s2 m b w|order p Ho|m s b w w' Ho]; cbn [batches world] in *.
  - unfold Process. destruct (Add e _). by case_bool_decide.
  - unfold Send, Flush. cbn [eventAccumulator world].
    pose proof (report_explained w0 b k (events_of m k) w IH) as Hn.
    by destruct (Report k (events_of m k) w).
  - unfold SendAll, FlushAll.
    destruct (send_all_loop Report _ [] (world p)) as [[w b] e] eqn:Hl.
    eapply send_all_explained; [|exact Hl]. by rewrite app_nil_r.
  - destruct IH as [Hr Hd]. split; [|done]. by rewrite (other_adds_none _ _ Ho).
Qed.
End fates.

(** ** Selectors, transformers and destinations *)

(** The configured data, the optional references as options. *)
Record SelectorSpec := mkSelectorSpec { MatchExpressions : list string; MatchUsers : list string }.
Record TransformerSpec := mkTransformerSpec {
  TransformerType : string;
  ConfigMapKeyRef : option (string * string)
}.
Record Destination := mkDestination {
  DTransformer : TransformerSpec;
  DURL : string;
  DURLSuffixExpr : string;
  DHeaderSecret : string;
  DAuthURL : string;
  DAuthHeaderSecret : string;
  DAuthDestHeader : string;
  DAuthDestHeaderPrefix : string;
  DTokenExpr : string;
  DBodyData : option (string * string)
}.
Record DataFilterSpec := mkDataFilterSpec {
  SSelector : SelectorSpec;
  SManifestType : string;
  STransformer : TransformerSpec;
  AltDestinations : list Destination
}.

Section filters.
(** The JSON path library: parsing an expression, parsing a document, the number
    of results; the transformation library; [url.Parse] succeeding; the cluster's
    secrets and config maps. *)
Context {Expr Obj Kazaam : Type}.
Variable ParseExpr : string → option Expr.
Variable ParseJson : Json → option Obj.
Variable Results : Expr → Obj → nat.
Variable NewKazaam : string → option Kazaam.
Variable KazaamTransform : Kazaam → Json → option Json.
Variable ParseURL : string → bool.
Variable GetSecret : string → option (gmap string string).
Variable GetConfigMap : string → option (gmap string string).

Record DataFilterSelector := mkSelector {
  JsonPathsSelector : list Expr; UsersSelector : list string
}.

Fixpoint NewJsonPathsSelector (jsonpaths : list string) : option (list Expr) :=
  match jsonpaths with
  | [] => Some []
  | j :: jsonpaths => x ← ParseExpr j; xs ← NewJsonPathsSelector jsonpaths; Some (x :: xs)
  end.

Definition NewDataFilterSelector (sel : SelectorSpec) : result string DataFilterSelector :=
  match NewJsonPathsSelector (MatchExpressions sel) with
  | Some jps => Ok (mkSelector jps (MatchUsers sel))
  | None => Err "failed to parse datafilter selector matchexpression"
  end.

Definition JsonPaths_Matches (js : list Expr) (jsonString : Json) : bool :=
  match ParseJson jsonString with
  | None => false
  | Some obj => forallb (λ x, negb (bool_decide (Results x obj = 0%nat))) js
  end.

Definition Users_Matches (us : list string) (user : string) : bool :=
  match us with
  | [] => true
  | _ :: _ => existsb (λ u, u == user) us
  end.

Definition Matches (dfs : DataFilterSelector) (event : Event) : bool :=
  JsonPaths_Matches (JsonPathsSelector dfs) (RawMessage event) &&
  Users_Matches (UsersSelector dfs) (EUser event).

Record Transformer := mkTransformer { transformerType : string; kazaamTransformer : Kazaam }.

Definition NewTransformer (type text : string) : result string Transformer :=
  if type == "kazaam" then
    match NewKazaam text with
    | Some k => Ok (mkTransformer type k)
    | None => Err "invalid transformer string"
    end
  else Err "unsupported transformer type".

Definition Transform (t : Transformer) (json : Json) : option Json :=
  if transformerType t == "kazaam" then KazaamTransform (kazaamTransformer t) json else None.

Definition getSecretData (name key : string) : result string string :=
  match GetSecret name with
  | None => Err "error getting secret"
  | Some data => match data !! key with
                 | Some v => Ok v
                 | None => Err "key not found for secret"
                 end
  end.

Definition getConfigMapData (name key : string) : result string string :=
  match GetConfigMap name with
  | None => Err "error getting configmap"
  | Some data => match data !! key with
                 | Some v => Ok v
                 | None => Err "key not found for configmap"
                 end
  end.

(** A header secret that is not named is an empty header. *)
Definition header_of (secret : string) : result string (gmap string string) :=
  if secret == "" then Ok ∅
  else match GetSecret secret with Some m => Ok m | None => Err "could not get header secret" end.

Record Uploader := mkUploader {
  udest : Destination;
  udestHeader : gmap string string;
  uauthHeader : gmap string string;
  uauthBodyData : string;
  utransformer : Transformer
}.

Definition NewUploader (dest : Destination) (destHeader authHeader : gmap string string)
    (authBodyData : string) (t : Transformer) : result string Uploader :=
  if negb (ParseURL (DURL dest)) then Err "url"
  else if (DURLSuffixExpr dest != "") && negb (bool_decide (is_Some (ParseExpr (DURLSuffixExpr dest))))
  then Err "url suffix"
  else if (DAuthURL dest != "") && negb (ParseURL (DAuthURL dest)) then Err "authorization url"
  else if (DAuthDestHeader dest != "") && negb (bool_decide (is_Some (ParseExpr (DTokenExpr dest))))
  then Err "token expression"
  else Ok (mkUploader dest destHeader authHeader authBodyData t).

(** The configuration text of a transformer; an absent reference is
    dereferenced. *)
Definition transformer_config (t : TransformerSpec) : outcome (result string string) :=
  match ConfigMapKeyRef t with
  | None => Panic
  | Some (name, key) => Ret (getConfigMapData name key)
  end.

(** ** Building the filters *)

Record DataFilter := mkDataFilter {
  FSelector : DataFilterSelector;
  FTransformer : Transformer;
  FDestinations : list Uploader;
  FManifestType : string
}.

(** The transformer of a destination is made with the type of its filter's; an error of its
    configuration is told with the reference of the filter's, which may be absent too. *)
Definition build_destination (df : DataFilterSpec) (dest : Destination)
    : outcome (result string Uploader) :=
  match header_of (DHeaderSecret dest), header_of (DAuthHeaderSecret dest),
        match DBodyData dest with
        | Some (name, key) => getSecretData name key
        | None => Ok ""
        end with
  | Err e, _, _ | Ok _, Err e, _ | Ok _, Ok _, Err e => Ret (Err e)
  | Ok destHeader, Ok authHeader, Ok authBodyData =>
      match transformer_config (DTransformer dest) with
      | Panic => Panic
      | Ret (Err e) =>
          match ConfigMapKeyRef (STransformer df) with None => Panic | Some _ => Ret (Err e) end
      | Ret (Ok tConfig) =>
          Ret (t ← NewTransformer (TransformerType (STransformer df)) tConfig;
               NewUploader dest destHeader authHeader authBodyData t)
      end
  end.

(** A loop whose body may panic or fail. *)
Fixpoint each {A B} (f : A → outcome (result string B)) (l : list A)
    : outcome (result string (list B)) :=
  match l with
  | [] => Ret (Ok [])
  | x :: l =>
      match f x with
      | Panic => Panic
      | Ret (Err e) => Ret (Err e)
      | Ret (Ok y) =>
          match each f l with
          | Panic => Panic
          | Ret (Err e) => Ret (Err e)
          | Ret (Ok ys) => Ret (Ok (y :: ys))
          end
      end
  end.

Definition build_filter (df : DataFilterSpec) : outcome (result string DataFilter) :=
  match NewDataFilterSelector (SSelector df) with
  | Err e => Ret (Err e)
  | Ok sel =>
      match each (build_destination df) (AltDestinations df) with
      | Panic => Panic
      | Ret (Err e) => Ret (Err e)
      | Ret (Ok destinations) =>
          match transformer_config (STransformer df) with
          | Panic => Panic
          | Ret (Err e) => Ret (Err e)
          | Ret (Ok tConfig) =>
              Ret (t ← NewTransformer (TransformerType (STransformer df)) tConfig;
                   Ok (mkDataFilter sel t destinations ""))
          end
      end
  end.

(** The filters in use are replaced only when all the new ones could be built. *)
Definition updateDataFilters (spec : list DataFilterSpec) (current : list DataFilter)
    : outcome (list DataFilter * option string) :=
  match each build_filter spec with
  | Panic => Panic
  | Ret (Err e) => Ret (current, Some e)
  | Ret (Ok newDataFilters) => Ret (newDataFilters, None)
  end.

(** ** Filtering an event *)

Context {W : Type}.
(** A report of one event at once, the channel of the processor, and the upload of
    an event to a destination, which gives a status code. *)
Variable ReportOne : Event → W → W * option string.
Variable EventChan : Event → W → W.
Variable TransformAndUpload : Uploader → Json → W → W * Z.

Definition defaultManifestType : string := "dataReporter".
Definition StatusOK : Z := 200.
Definition StatusBadGateway : Z := 502.

Definition with_manifest (e : Event) (m : string) : Event := mkEvent (EUser e) (RawMessage e) m.
Definition with_message (e : Event) (j : Json) : Event := mkEvent (EUser e) j (EManifestType e).

(** [order] is the order in which the uploads of the goroutines happen. *)
Definition upload_all (order : list Uploader → list Uploader) (dests : list Uploader)
    (json : Json) (w : W) : W * list Z :=
  foldl (λ s u, let '(w, c) := TransformAndUpload u json s.1 in (w, s.2 ++ [c])) (w, [])
    (order dests).

Definition deliver (confirm : bool) (e : Event) (w : W) : W * list Z * bool :=
  if confirm then
    match ReportOne e w with
    | (w, Some _) => (w, [StatusBadGateway], false)
    | (w, None) => (w, [], true)
    end
  else (EventChan e w, [StatusOK], true).

Definition FilterAndUpload (confirm : bool) (order : list Uploader → list Uploader)
    (dataFilters : list DataFilter) (event : Event) (w : W) : W * list Z :=
  match List.find (λ df, Matches (FSelector df) event) dataFilters with
  | Some df =>
      let event := with_manifest event
        (if FManifestType df == "" then defaultManifestType else FManifestType df) in
      let dsEvent := match Transform (FTransformer df) (RawMessage event) with
                     | Some json => with_message event json
                     | None => event
                     end in
      match deliver confirm dsEvent w with
      | (w, codes, false) => (w, codes)
      | (w, codes, true) =>
          let '(w, more) := upload_all order (FDestinations df) (RawMessage event) w in
          (w, codes ++ more)
      end
  | None => (deliver confirm (with_manifest event defaultManifestType) w).1
  end.

(** [EventHandler], after its checks: the status it answers with. *)
Definition handler_status (statusCodes : list Z) : Z :=
  if forallb (λ c, bool_decide (200 ≤ c < 300)%Z) statusCodes then StatusOK
  else StatusBadGateway.
End filters.

Lemma find_split {A} (f : A → bool) l x :
  List.find f l = Some x →
  ∃ l1 l2, l = l1 ++ x :: l2 ∧ (∀ y, y ∈ l1 → f y = false) ∧ f x = true.
Proof.
  induction l as [|y l IH]; cbn [List.find]; [done|]. destruct (f y) eqn:Hy.
  - intros [= ->]. exists [], l. split; [done|]. split; [|done]. intros z Hz. by apply elem_of_nil in Hz.
  - intros (l1 & l2 & -> & Hno & Hx)%IH. exists (y :: l1), l2. split; [done|]. split; [|done].
    by intros z [->|Hz%Hno]%elem_of_cons.
Qed.

Lemma deliver_codes {W} (ReportOne : Event → W → W * option string) EventChan confirm e w w1 codes
    handed :
  deliver ReportOne EventChan confirm e w = (w1, codes, handed) →
  if handed : bool then Forall (λ c, 200 ≤ c < 300)%Z codes else codes = [StatusBadGateway].
Proof.
  unfold deliver. destruct confirm; [destruct (ReportOne e w) as [? []]|]; intros [= <- <- <-];
    repeat constructor; unfold StatusOK; lia.
Qed.

Lemma handler_ok codes :
  handler_status codes = StatusOK ↔ Forall (λ c, 200 ≤ c < 300)%Z codes.
Proof.
  unfold handler_status. destruct (forallb _ codes) eqn:Hf.
  - split; [|done]. intros _. rewrite forallb_True_forall in Hf. rewrite Forall_forall.
    intros c Hc. by apply (bool_decide_eq_true _), Hf.
  - split; [done|]. intros H. exfalso. apply not_true_iff_false in Hf. apply Hf.
    apply forallb_True_forall. intros c Hc. rewrite Forall_forall in H.
    by apply bool_decide_eq_true, H.
Qed.

Lemma each_spec {A B} (f : A → outcome (result string B)) (l : list A) :
  match each f l with
  | Ret (Ok ys) => Forall2 (λ x y, f x = Ret (Ok y)) l ys
  | Ret (Err _) => True
  | Panic => ∃ x, x ∈ l ∧ f x = Panic
  end.
Proof.
  induction l as [|x l IH]; cbn [each]; [by constructor|].
  destruct (f x) as [[y|e]|] eqn:Hx; [| |by exists x; split; [left|]].
  - destruct (each f l) as [[ys|e]|]; [by constructor|done|].
    destruct IH as (x' & Hin & Hp). exists x'. split; [by right|done].
  - done.
Qed.

(** A loop reaches the element that comes after good ones. *)
Lemma each_reaches {A B} (f : A → outcome (result string B)) l1 x l2 :
  Forall (λ y, ∃ z, f y = Ret (Ok z)) l1 → f x = Panic → each f (l1 ++ x :: l2) = Panic.
Proof.
  induction 1 as [|y l1 [z Hz] _ IH]; intros Hx; cbn [each app]; [by rewrite Hx|]. by rewrite Hz, IH.
Qed.

Section build_lemmas.
Context {Expr Kazaam : Type}.
Variable ParseExpr : string → option Expr.
Variable NewKazaam : string → option Kazaam.
Variable ParseURL : string → bool.
Variable GetSecret GetConfigMap : string → option (gmap string string).

(** A destination as it was built for a filter. *)
Definition built_destination (s : DataFilterSpec) (d : Destination) (u : @Uploader Kazaam) : Prop :=
  udest u = d ∧ transformerType (utransformer u) = TransformerType (STransformer s).

Definition built_filter (s : DataFilterSpec) (f : @DataFilter Expr Kazaam) : Prop :=
  FManifestType f = "" ∧ transformerType (FTransformer f) = TransformerType (STransformer s) ∧
  Forall2 (built_destination s) (AltDestinations s) (FDestinations f).

Lemma NewTransformer_type type text (t : @Transformer Kazaam) :
  NewTransformer NewKazaam type text = Ok t → transformerType t = type.
Proof.
  unfold NewTransformer. case_bool_decide; [|done]. destruct (NewKazaam text); [|done].
  by intros [= <-].
Qed.

Lemma build_destination_spec s d :
  match build_destination ParseExpr NewKazaam ParseURL GetSecret GetConfigMap s d with
  | Ret (Ok u) => built_destination s d u
  | Ret (Err _) => True
  | Panic => ConfigMapKeyRef (DTransformer d) = None ∨ ConfigMapKeyRef (STransformer s) = None
  end.
Proof.
  unfold build_destination, transformer_config.
  destruct (header_of GetSecret (DHeaderSecret d)), (header_of GetSecret (DAuthHeaderSecret d)),
    (match DBodyData d with Some (name, key) => getSecretData GetSecret name key
     | None => Ok "" end); try done.
  destruct (ConfigMapKeyRef (DTransformer d)) as [[name key]|]; [|by left].
  destruct (getConfigMapData GetConfigMap name key) as [text|];
    [|destruct (ConfigMapKeyRef (STransformer s)); [done|by right]].
  destruct (NewTransformer NewKazaam _ text) as [t|] eqn:Ht; [|done]. cbn [mbind result_mbind].
  unfold NewUploader.
  repeat match goal with |- context [if ?b then _ else _] => destruct b; [done|] end.
  split; [done|]. by eapply NewTransformer_type.
Qed.

Lemma build_filter_spec s :
  match build_filter ParseExpr NewKazaam ParseURL GetSecret GetConfigMap s with
  | Ret (Ok f) => built_filter s f
  | Ret (Err _) => True
  | Panic => ConfigMapKeyRef (STransformer s) = None ∨
      ∃ d, d ∈ AltDestinations s ∧ ConfigMapKeyRef (DTransformer d) = None
  end.
Proof.
  unfold build_filter, transformer_config. destruct (NewDataFilterSelector ParseExpr _) as [sel|]; [|done].
  pose proof (each_spec (build_destination ParseExpr NewKazaam ParseURL GetSecret GetConfigMap s)
    (AltDestinations s)) as Hd.
  destruct (each _ (AltDestinations s)) as [[us|]|]; [|done|].
  - destruct (ConfigMapKeyRef (STransformer s)) as [[name key]|]; [|by left].
    destruct (getConfigMapData GetConfigMap name key) as [text|]; [|done].
    destruct (NewTransformer NewKazaam _ text) as [t|] eqn:Ht; [|done].
    split; [done|]. split; [by eapply NewTransformer_type|]. cbn [FDestinations].
    eapply Forall2_impl; [exact Hd|]. intros d u Hu.
    pose proof (build_destination_spec s d) as Hb. by rewrite Hu in Hb.
  - destruct Hd as (d & Hin & Hp). pose proof (build_destination_spec s d) as Hb. rewrite Hp in Hb.
    destruct Hb as [Hb|Hb]; [right; by exists d|by left].
Qed.

(** A filter that is reached and has no transformer of its own panics. *)
Lemma build_filter_panics s sel us :
  NewDataFilterSelector ParseExpr (SSelector s) = Ok sel →
  each (build_destination ParseExpr NewKazaam ParseURL GetSecret GetConfigMap s) (AltDestinations s) = Ret (Ok us) →
  ConfigMapKeyRef (STransformer s) = None →
  build_filter ParseExpr NewKazaam ParseURL GetSecret GetConfigMap s = Panic.
Proof. intros Hs Hd Hc. unfold build_filter, transformer_config. by rewrite Hs, Hd, Hc. Qed.
End build_lemmas.

(** Every run keeps the account. *)
Lemma run_accounted {W} (MaxEventEntries : nat) (Report : UserManifestType → list Json → W → W * option string)
    other w0 es p :
  run MaxEventEntries Report other w0 es p → accounted MaxEventEntries es p.
Proof.
  induction 1 as [|es p o p' _ IH Hstep].
  { intros k. unfold events_of. cbn. rewrite lookup_empty. cbn. split; [done|lia]. }
  destruct Hstep as [e p|k0 s1 s2 m b w|order p Ho|m s b w w' Ho]; cbn [from_option]; rewrite ?app_nil_r.
  - by apply process_accounted.
  - by apply send_accounted.
  - by apply send_all_accounted.
  - exact IH.
Qed.

(** ** Properties *)


(** The timer's send takes everything that is held. When no report fails all of
    it is delivered; but at the first report that fails the loop returns, and the
    events of the keys after it, flushed already, are in no report at all and
    held no more. *)
Theorem SendAll_fates {W} (Report : UserManifestType → list Json → W → W * option string)
    (order : EventMap → list (UserManifestType * list Json)) (p p' : Processor W)
    (e : option string) :
  SendAll Report order p = (p', e) →
  eventAccumulator p' = ∅ ∧
  match e with
  | None => batches p' = batches p ++
      ((λ x, (x.1, x.2, Delivered)) <$> order (eventAccumulator p))
  | Some err => ∃ before k l after w,
      order (eventAccumulator p) = before ++ (k, l) :: after ∧ Report k l w = (world p', Some err) ∧
      batches p' = batches p ++ ((λ x, (x.1, x.2, Delivered)) <$> before) ++
                   [(k, l, Failed)] ++ ((λ x, (x.1, x.2, Dropped)) <$> after)
  end.
Proof.
  unfold SendAll, FlushAll. generalize (order (eventAccumulator p)). intros l.
  destruct (send_all_loop Report l [] (world p)) as [[w' b] e'] eqn:Hl. intros [= <- <-]. split; [done|].
  cbn [batches world]. enough (∀ done w, send_all_loop Report l done w = (w', b, e') →
    match e' with
    | None => b = done ++ ((λ x, (x.1, x.2, Delivered)) <$> l)
    | Some err => ∃ before k js after w1, l = before ++ (k, js) :: after ∧ Report k js w1 = (w', Some err) ∧
        b = done ++ ((λ x, (x.1, x.2, Delivered)) <$> before) ++ [(k, js, Failed)] ++
            ((λ x, (x.1, x.2, Dropped)) <$> after)
    end) as Hgen.
  { specialize (Hgen [] _ Hl). destruct e' as [err|]; [|by subst b].
    destruct Hgen as (before & k & js & after & w1 & -> & Hr & ->). by exists before, k, js, after, w1. }
  clear Hl. induction l as [|[k js] l IH]; intros done w; cbn [send_all_loop].
  { intros [= _ <- <-]. by rewrite app_nil_r. }
  destruct (Report k js w) as [w1 [err|]] eqn:Hr.
  - intros [= <- <- <-]. by exists [], k, js, l, w.
  - intros Hs%IH. destruct e' as [err|].
    + destruct Hs as (before & k' & js' & after & w2 & -> & Hr' & ->).
      exists ((k, js) :: before), k', js', after, w2. split; [reflexivity|]. split; [exact Hr'|].
      by rewrite <- app_assoc.
    + by rewrite Hs, <- app_assoc.
Qed.

(** What an event is turned into. It is handed to the data service once, under the
    user who posted it, transformed by the first filter that matches when that
    works; only if it was handed over do the filter's destinations get it, as it
    came; with no matching filter nothing is transformed and there are no
    destinations. The handler answers with success exactly when the event was
    handed over and every destination answered with a 2xx code. *)
Theorem FilterAndUpload_spec {Expr Obj Kazaam W : Type} (ParseJson : Json → option Obj)
    (Results : Expr → Obj → nat) (KazaamTransform : Kazaam → Json → option Json)
    (ReportOne : Event → W → W * option string) (EventChan : Event → W → W)
    (TransformAndUpload : Uploader → Json → W → W * Z) (confirm : bool)
    (order : list (@Uploader Kazaam) → list Uploader)
    (dataFilters : list (@DataFilter Expr Kazaam)) (event : Event) (w : W) :
  (∀ l, order l ≡ₚ l) →
  ∃ e dests,
    EUser e = EUser event ∧
    (((∀ df, df ∈ dataFilters → Matches ParseJson Results (FSelector df) event = false) ∧
      dests = [] ∧ e = with_manifest event defaultManifestType) ∨
     (∃ l1 df l2, dataFilters = l1 ++ df :: l2 ∧
        (∀ d, d ∈ l1 → Matches ParseJson Results (FSelector d) event = false) ∧
        Matches ParseJson Results (FSelector df) event = true ∧ dests = FDestinations df ∧
        RawMessage e = default (RawMessage event)
          (Transform KazaamTransform (FTransformer df) (RawMessage event)) ∧
        EManifestType e = (if FManifestType df == "" then defaultManifestType
                           else FManifestType df))) ∧
    let '(w1, codes, handed) := deliver ReportOne EventChan confirm e w in
    let out := FilterAndUpload ParseJson Results KazaamTransform ReportOne EventChan
                 TransformAndUpload confirm order dataFilters event w in
    let more := upload_all TransformAndUpload order dests (RawMessage event) w1 in
    out = (if handed then (more.1, codes ++ more.2) else (w1, codes)) ∧
    (handler_status out.2 = StatusOK ↔
       handed = true ∧ Forall (λ c, 200 ≤ c < 300)%Z more.2).
Proof.
  intros Ho. unfold FilterAndUpload.
  destruct (List.find _ dataFilters) as [df|] eqn:Hf.
  - destruct (find_split _ _ _ Hf) as (l1 & l2 & Hl & Hno & Hyes).
    set (e1 := with_manifest event _).
    set (e := match Transform _ _ _ with Some _ => _ | None => _ end).
    exists e, (FDestinations df). split; [by subst e e1; destruct (Transform _ _ _)|]. split.
    { right. exists l1, df, l2. do 4 (split; [done|]). subst e e1. cbn [RawMessage with_manifest].
      by destruct (Transform _ _ _). }
    destruct (deliver ReportOne EventChan confirm e w) as [[w1 codes] handed] eqn:Hd.
    change (RawMessage e1) with (RawMessage event).
    pose proof (deliver_codes _ _ _ _ _ _ _ _ Hd) as Hc.
    destruct handed; [|split; [done|]; subst codes; by split; [|intros []]].
    destruct (upload_all _ _ _ _ w1) as [w2 more]. split; [done|]. cbn [fst snd].
    rewrite handler_ok, Forall_app. by split; [intros []|intros []].
  - exists (with_manifest event defaultManifestType), []. split; [done|]. split.
    { left. split; [|done]. intros df Hdf. by eapply (List.find_none) in Hf; [|by apply list_elem_of_In]. }
    destruct (deliver _ _ _ _ w) as [[w1 codes] handed] eqn:Hd. cbn [fst snd].
    pose proof (deliver_codes _ _ _ _ _ _ _ _ Hd) as Hc.
    unfold upload_all. rewrite (proj1 (Permutation_nil_r _) (Ho [])). cbn [foldl fst snd].
    rewrite app_nil_r. split; [by destruct handed|].
    destruct handed; [rewrite handler_ok; by split|]. subst codes. by split; [|intros []].
Qed.

(** C40: building the filters from the configuration. Either all of them are built and
    replace the ones in use, one for each configured, or an error keeps those in
    use, or it panics, and then some transformer has no config map, which the
    configuration allows. It does panic when the building comes to a filter without one
    whose selector and destinations are good, wherever it stands behind good filters: a
    filter cannot only select. What is built is not what is configured in two ways: the
    manifest type is always the default, and the transformer of a destination is made with
    the type of the filter's and not its own. *)
Theorem updateDataFilters_spec {Expr Kazaam : Type} (ParseExpr : string → option Expr)
    (NewKazaam : string → option Kazaam) (ParseURL : string → bool)
    (GetSecret GetConfigMap : string → option (gmap string string)) (spec : list DataFilterSpec)
    (current : list (@DataFilter Expr Kazaam)) :
  match updateDataFilters ParseExpr NewKazaam ParseURL GetSecret GetConfigMap spec current with
  | Ret (filters, None) => Forall2 built_filter spec filters
  | Ret (filters, Some _) => filters = current
  | Panic => ∃ s, s ∈ spec ∧ (ConfigMapKeyRef (STransformer s) = None ∨
      ∃ d, d ∈ AltDestinations s ∧ ConfigMapKeyRef (DTransformer d) = None)
  end ∧
  (∀ before s after sel us, spec = before ++ s :: after →
     Forall (λ s, ∃ f, build_filter ParseExpr NewKazaam ParseURL GetSecret GetConfigMap s = Ret (Ok f)) before →
     NewDataFilterSelector ParseExpr (SSelector s) = Ok sel →
     each (build_destination ParseExpr NewKazaam ParseURL GetSecret GetConfigMap s) (AltDestinations s) =
       Ret (Ok us) →
     ConfigMapKeyRef (STransformer s) = None →
     updateDataFilters ParseExpr NewKazaam ParseURL GetSecret GetConfigMap spec current = Panic).
Proof.
  unfold updateDataFilters. split.
  - pose proof (each_spec (build_filter ParseExpr NewKazaam ParseURL GetSecret GetConfigMap) spec)
      as Hs.
    destruct (each _ spec) as [[fs|e]|]; [|done|].
    + eapply Forall2_impl; [exact Hs|]. intros s f Hf.
      pose proof (build_filter_spec ParseExpr NewKazaam ParseURL GetSecret GetConfigMap s) as Hb.
      by rewrite Hf in Hb.
    + destruct Hs as (s & Hin & Hp). exists s. split; [done|].
      pose proof (build_filter_spec ParseExpr NewKazaam ParseURL GetSecret GetConfigMap s) as Hb.
      by rewrite Hp in Hb.
  - intros before s after sel us -> Hb Hs Hd Hc. rewrite each_reaches; [done|exact Hb|].
    by eapply build_filter_panics.
Qed.

Definition ev (user : string) (json : Json) : Event := mkEvent user json "dataReporter".
Definition umt (user : string) : UserManifestType := mkUMT user "dataReporter".
Definition two_events : list Event := [ev "a" "1"; ev "a" "2"].
(** A world that is the reports asked for; those of [b] fail. *)
Definition toy_outcome (k : UserManifestType) (l : list Json) (w : list Batch)
    : list Batch * option string :=
  let e := if User k == "b" then Some "unavailable" else None in (w ++ [(k, l, fate e)], e).
Definition after_two : Processor (list Batch) :=
  Process 2 (ev "a" "2") (Process 2 (ev "a" "1") (mkProcessor ∅ [] [] [])).
Definition sent_two : Processor (list Batch) :=
  (Send toy_outcome (umt "a") (mkProcessor (eventAccumulator after_two) [] [] [])).1.


(** Three users, the report of one of which fails. *)
Definition three_users : Processor (list Batch) :=
  Process 9 (ev "c" "3") (Process 9 (ev "b" "2") (Process 9 (ev "a" "1") (mkProcessor ∅ [] [] []))).
Definition by_user (m : EventMap) : list (UserManifestType * list Json) :=
  (u ← ["a"; "b"; "c"]; match m !! umt u with Some l => [(umt u, l)] | None => [] end).

Lemma SendAll_fates_witness :
  batches (SendAll toy_outcome by_user three_users).1 =
    [(umt "a", ["1"], Delivered); (umt "b", ["2"], Failed); (umt "c", ["3"], Dropped)] ∧
  eventAccumulator (SendAll toy_outcome by_user three_users).1 = ∅.
Proof.
  split; [vm_compute; reflexivity|].
  exact (proj1 (SendAll_fates toy_outcome by_user three_users _ (SendAll toy_outcome by_user three_users).2
    (surjective_pairing _))).
Defined.

Definition toy_filter : @DataFilter string string :=
  mkDataFilter (mkSelector [] ["a"]) (mkTransformer "kazaam" "k") [] "".
Definition send_toy (e : Event) : list Event * list Z :=
  FilterAndUpload (λ j : Json, Some j) (λ _ _, 1) (λ k j, Some (k +:+ j)) (λ e w, (w, None))
    (λ e w, w ++ [e]) (λ _ _ w, (w, 204%Z)) false (λ l, l) [toy_filter] e [].

Lemma FilterAndUpload_spec_witness :
  send_toy (mkEvent "a" "1" "") = ([mkEvent "a" "k1" "dataReporter"], [200%Z]) ∧
  handler_status (send_toy (mkEvent "b" "1" "")).2 = StatusOK.
Proof.
  split; [vm_compute; reflexivity|].
  destruct (FilterAndUpload_spec (λ j : Json, Some j) (λ _ _, 1) (λ k j, Some (k +:+ j))
    (λ (e : Event) (w : list Event), (w, None)) (λ e w, w ++ [e]) (λ _ _ w, (w, 204%Z)) false
    (λ l, l) [toy_filter] (mkEvent "b" "1" "") [] ltac:(done)) as (e & dests & _ & Hcase & Hout).
  destruct Hcase as [(_ & -> & ->)|(l1 & df & l2 & Hl & _ & Hm & _)].
  - apply (proj2 (proj2 Hout)). split; [done|]. constructor.
  - destruct l1 as [|? [|]]; [|done..]. injection Hl as <- _. vm_compute in Hm. discriminate.
Defined.

(** A good filter, and one that only selects by a path and a user. *)
Definition good_spec : DataFilterSpec :=
  mkDataFilterSpec (mkSelectorSpec [] ["a"]) "m" (mkTransformerSpec "kazaam" (Some ("cm", "key"))) [].
Definition selecting_spec : DataFilterSpec :=
  mkDataFilterSpec (mkSelectorSpec ["$.x"] ["b"]) "m" (mkTransformerSpec "" None) [].
Definition toy_maps (name : string) : option (gmap string string) :=
  if name == "cm" then Some {[ "key" := "{}" ]} else None.

Lemma updateDataFilters_spec_witness :
  updateDataFilters (Expr := string) (Kazaam := string) Some Some (λ _, true) (λ _, None) toy_maps
    [good_spec] [] = Ret ([mkDataFilter (mkSelector [] ["a"]) (mkTransformer "kazaam" "{}") [] ""], None) ∧
  updateDataFilters (Expr := string) (Kazaam := string) Some Some (λ _, true) (λ _, None) toy_maps
    [good_spec; selecting_spec] [] = Panic.
Proof.
  split; [vm_compute; reflexivity|].
  refine (proj2 (updateDataFilters_spec Some Some (λ _, true) (λ _, None) toy_maps
    [good_spec; selecting_spec] []) [good_spec] selecting_spec [] (mkSelector ["$.x"] ["b"]) [] eq_refl _ eq_refl eq_refl eq_refl).
  constructor; [|constructor]. eexists. vm_compute. reflexivity.
Defined.
