(* ===== verification/Schema.v ===== *)
(** * Report schemas

    The model of [reporter/v2/pkg/reporter/schema]: the builder that gathers the
    samples of one event, and the record each of the three versions of the schema
    makes of them. The three packages declare the same builder; only [Build]
    differs. Float parsing, xxhash and mapstructure are arguments, and so is the
    order in which a label map is ranged over. *)

From S2P Require Import Prelude GoTime Strconv PromLabels.
Local Open Scope go_scope.

(** ** The builder *)

(** [kvMap] is never used, and [resourceName] and [resourceNamespace] never set. *)
Record MarketplaceReportDataBuilder := mkBuilder {
  bid : string;
  values : list Templated;
  reportStart : GoTime;
  reportEnd : GoTime;
  resourceName : string;
  resourceNamespace : string;
  accountID : string;
  clusterID : string
}.

Definition no_time : GoTime := midnight (days_from_civil 1 1 1).
Definition empty_builder : MarketplaceReportDataBuilder :=
  mkBuilder "" [] no_time no_time "" "" "" "".

Definition SetClusterID (c : string) (d : MarketplaceReportDataBuilder) :=
  mkBuilder (bid d) (values d) (reportStart d) (reportEnd d) (resourceName d)
    (resourceNamespace d) (accountID d) c.
Definition SetAccountID (a : string) (d : MarketplaceReportDataBuilder) :=
  mkBuilder (bid d) (values d) (reportStart d) (reportEnd d) (resourceName d)
    (resourceNamespace d) a (clusterID d).
Definition SetReportInterval (s e : GoTime) (d : MarketplaceReportDataBuilder) :=
  mkBuilder (bid d) (values d) s e (resourceName d) (resourceNamespace d) (accountID d)
    (clusterID d).
Definition AddMeterDefinitionLabels (m : Templated) (d : MarketplaceReportDataBuilder) :=
  mkBuilder (bid d) (values d ++ [m]) (reportStart d) (reportEnd d) (resourceName d)
    (resourceNamespace d) (accountID d) (clusterID d).

Inductive BuildError :=
| ErrNoValuesSet
| ErrValueHashAreDifferent
| ErrNotFloat64
| ErrMetricType (t : string)
| ErrDecode (e : string)
| ErrMarshal (e : string).

(** ** The labels of an event *)

(** The attributes of the event so far, and the keys the samples disagree on. *)
Definition Merge : Type := LabelSet * gset string.

(** The body of the loop over a sample's labels. *)
Definition merge_label (s : Merge) (kv : string * LabelValue) : Merge :=
  let '(attributes, dupeKeys) := s in
  let '(k, value) := kv in
  if bool_decide (k ∈ dupeKeys) then s
  else match attributes !! k with
       | Some v => if v != value then (delete k attributes, {[ k ]} ∪ dupeKeys) else s
       | None => (<[k := value]> attributes, dupeKeys)
       end.

(** An attribute that is only set when its text is not empty. *)
Definition put_label (key value : string) (l : LabelSet) : LabelSet :=
  if value == "" then l else <[key := LStr value]> l.

(** The labels a sample does not share with the others: [None] is the nil that a
    sample without the label gets. *)
Definition nonUniqueLabels (dupeKeys : gset string) (labels : LabelSet)
    : gmap string (option LabelValue) := set_to_map (λ k, (k, labels !! k)) dupeKeys.

(** [Sub(time.Unix(0, 0)).Milliseconds()]: a duration saturates. *)
Definition Milliseconds (t : GoTime) : Z :=
  Z.quot (Z.max min_int64 (Z.min max_int64 (nsec t))) millisecond.

(** The known metric types; an empty one counts as a license. *)
Definition known_metric_types : list string :=
  [MetricTypeBillable; MetricTypeAdoption; MetricTypeInfrastructure; MetricTypeLicense].
Definition metric_type (t : string) : result BuildError string :=
  if t == MetricTypeEmpty then Ok MetricTypeLicense
  else if bool_decide (t ∈ known_metric_types) then Ok t else Err (ErrMetricType t).

(** ** Records *)

Module V1.
Record MarketplaceMetric := mkMetric {
  MLabel : string; MValue : string; MLabels : gmap string (option LabelValue)
}.

Record MarketplaceReportData := mkData {
  MetricID : string;
  ReportPeriodStart : GoTime;
  ReportPeriodEnd : GoTime;
  DIntervalStart : GoTime;
  DIntervalEnd : GoTime;
  MeterDomain : string;
  DMeterKind : string;
  DLabel : string;
  DResourceNamespace : string;
  DResourceName : string;
  DUnit : string;
  AdditionalLabels : LabelSet;
  Metrics : gmap string string;
  MetricsExtended : list MarketplaceMetric;
  TotalMetricCount : Z
}.
End V1.

Module V2.
Record MeasuredUsage {Float : Type} := mkUsage {
  MetricID : string;
  UValue : Float;
  UAttributes : gmap string (option LabelValue)
}.
Arguments MeasuredUsage : clear implicits.

Record MarketplaceReportData {Float : Type} := mkData {
  EventID : string;
  DIntervalStart : Z;
  DIntervalEnd : Z;
  DAccountID : string;
  AdditionalAttributes : LabelSet;
  DMeasuredUsage : list (MeasuredUsage Float)
}.
Arguments MarketplaceReportData : clear implicits.
End V2.

Module V3.
(** The fields a label map is decoded into, by the tag that names the label: an
    absent one is empty. *)
Notation Properties := (gmap string string).

Record MeasuredUsage {Float : Type} := mkUsage {
  MetricID : string;
  UValue : Float;
  NamespacesLabels : string;
  UProperties : Properties;
  KubernetesResources : list (list Byte.byte)
}.
Arguments MeasuredUsage : clear implicits.

Record MarketplaceReportData {Float : Type} := mkData {
  EventID : string;
  DIntervalStart : Z;
  DIntervalEnd : Z;
  DAccountID : string;
  DMeasuredUsage : list (MeasuredUsage Float);
  DProperties : Properties
}.
Arguments MarketplaceReportData : clear implicits.

(** The tags of the two structs. *)
Definition event_tags : list string :=
  ["subscriptionId"; "source"; "sourceSaas"; "accountIdSaas"; "subscriptionIdSaas";
   "productType"; "licensePartNumber"; "productId"; "sapEntitlementLine"; "productName";
   "parentProductId"; "parentProductName"; "parentMetricId"; "topLevelProductId";
   "topLevelProductName"; "topLevelProductMetricId"; "dswOfferAccountingSystemCode";
   "dswSubscriptionAgreementNumber"; "ssmSubscriptionId"; "ICN"; "group"; "groupName"; "kind"].
Definition usage_tags : list string :=
  ["meter_def_namespace"; "meter_def_name"; "metricType"; "metricAggregationType";
   "measuredMetricId"; "productConversionRatio"; "measuredValue"; "clusterId"; "hostname";
   "pod"; "platformId"; "crn"; "isViewable"; "calculateSummary"].
End V3.

(** ** Build *)

Section build.
Context {Float : Type}.
(** [strconv.ParseFloat(_, 64)], and the hexadecimal xxhash of what is written. *)
Variable ParseFloat : string → option Float.
Variable xxhash : string → string.
(** The order a label map is ranged over in, and one of namespaces. *)
Variable order : LabelSet → list (string * LabelValue).
Variable ns_order : gmap string (gmap string string) → list (string * gmap string string).
(** [mapstructure.Decode] into the fields with the given tags, and the JSON of
    the list of namespaces. *)
Variable decode : list string → LabelSet → result string (gmap string string).
Variable marshal_namespaces : list (string * gmap string string) → result string string.

(** [Hash()] of a sample; what it caches in the sample gives the same later. *)
Definition hash_of (m : Templated) : string := (Hash xxhash m).2.

Definition with_id (d : MarketplaceReportDataBuilder) (i : string) :=
  mkBuilder i (values d) (reportStart d) (reportEnd d) (resourceName d) (resourceNamespace d)
    (accountID d) (clusterID d).

Definition merge_labels (s : Merge) (m : Templated) : Merge :=
  foldl merge_label s (order (LabelMap m)).

(** What identifies the event to the backend. *)
Definition event_id (d : MarketplaceReportDataBuilder) (m : Templated) : string :=
  xxhash (clusterID d +:+ hash_input m).

(** The first sample and the identity it gives the builder, or no values: how
    [Build] begins. *)
Definition with_first {A} (d : MarketplaceReportDataBuilder)
    (f : MarketplaceReportDataBuilder → Templated → result BuildError A)
    : MarketplaceReportDataBuilder * result BuildError A :=
  match values d with
  | [] => (d, Err ErrNoValuesSet)
  | m :: _ => let d := with_id d (hash_of m) in (d, f d m)
  end.

(** The labels the samples do not share, sample by sample. *)
Definition own_labels (dupeKeys : gset string) (m : Templated) : gmap string (option LabelValue) :=
  if decide (dupeKeys = ∅) then ∅ else nonUniqueLabels dupeKeys (LabelMap m).

(** *** v1alpha1 *)

(** The loop over the samples: the first value of each metric, all values in
    order, and the labels. *)
Definition v1_step (id : string) (s : gmap string string * list (string * string) * Merge)
    (m : Templated) : result BuildError (gmap string string * list (string * string) * Merge) :=
  let '(metrics, extended, merge) := s in
  if hash_of m != id then Err ErrValueHashAreDifferent
  else
    let label := PL.Label (TLabels m) in
    let metrics := match metrics !! label with
                   | Some _ => metrics | None => <[label := Value m]> metrics end in
    Ok (metrics, extended ++ [(label, Value m)], merge_labels merge m).

Definition v1_base (m : Templated) : LabelSet :=
  put_label "display_name" (PL.DisplayName (TLabels m))
    (put_label "display_description" (PL.MeterDescription (TLabels m)) ∅).

Definition v1_Build (d : MarketplaceReportDataBuilder)
    : MarketplaceReportDataBuilder * result BuildError V1.MarketplaceReportData :=
  with_first d (λ d m,
    '(metrics, extended, (labels, dupeKeys)) ←
      foldM_result (v1_step (bid d)) (∅, [], (v1_base m, ∅)) (values d);
    Ok (V1.mkData (event_id d m) (reportStart d) (reportEnd d) (IntervalStart m) (IntervalEnd m)
          (PL.MeterGroup (TLabels m)) (PL.MeterKind (TLabels m)) (PL.WorkloadName (TLabels m))
          (PL.ResourceNamespace (TLabels m)) (PL.ResourceName (TLabels m)) (PL.Unit (TLabels m))
          labels metrics
          (zip_with (λ lv m, V1.mkMetric lv.1 lv.2 (own_labels dupeKeys m)) extended (values d))
          (Z.of_nat (length (values d))))).

(** *** v2alpha1 *)

Definition v2_step (id : string) (s : list (string * Float) * Merge) (m : Templated)
    : result BuildError (list (string * Float) * Merge) :=
  let '(usage, merge) := s in
  if hash_of m != id then Err ErrValueHashAreDifferent
  else match ParseFloat (Value m) with
       | None => Err ErrNotFloat64
       | Some value => Ok (usage ++ [(PL.Label (TLabels m), value)], merge_labels merge m)
       end.

Definition v2_base (d : MarketplaceReportDataBuilder) (m : Templated) (type : string) : LabelSet :=
  <["metricType" := LStr type]>
    (put_label "namespace" (resourceNamespace d)
    (put_label "kind" (PL.MeterKind (TLabels m))
    (put_label "group" (PL.MeterGroup (TLabels m))
    (put_label "clusterId" (clusterID d) ∅)))).

Definition v2_Build (d : MarketplaceReportDataBuilder)
    : MarketplaceReportDataBuilder * result BuildError (V2.MarketplaceReportData Float) :=
  with_first d (λ d m,
    type ← metric_type (PL.MetricType (TLabels m));
    '(usage, (attributes, dupeKeys)) ←
      foldM_result (v2_step (bid d)) ([], (v2_base d m type, ∅)) (values d);
    Ok (V2.mkData _ (event_id d m) (Milliseconds (IntervalStart m)) (Milliseconds (IntervalEnd m))
          (accountID d) attributes
          (zip_with (λ lv m, V2.mkUsage _ lv.1 lv.2 (own_labels dupeKeys m)) usage (values d)))).

(** *** v3alpha1 *)

Definition bytes_of (r : K8sResource) : option (list Byte.byte) :=
  match r with KBytes b => Some b | KOther => None end.

(** A type falls through to the next: all but a license carry the resources. *)
Definition v3_resources (m : Templated) : list (list Byte.byte) :=
  if bool_decide (PL.MetricType (TLabels m) ∈
                    [MetricTypeBillable; MetricTypeAdoption; MetricTypeInfrastructure])
  then omap bytes_of (K8sResources m) else [].

Definition lift_error {A} (f : string → BuildError) (r : result string A) : result BuildError A :=
  match r with Ok a => Ok a | Err e => Err (f e) end.

Definition v3_usage (d : MarketplaceReportDataBuilder) (m : Templated)
    : result BuildError (V3.MeasuredUsage Float) :=
  if hash_of m != bid d then Err ErrValueHashAreDifferent
  else match ParseFloat (Value m) with
       | None => Err ErrNotFloat64
       | Some value =>
           properties ← lift_error ErrDecode (decode V3.usage_tags (LabelMap m));
           namespaces ← (if decide (NamespaceLabels m = ∅) then Ok ""
                         else lift_error ErrMarshal
                                (marshal_namespaces (ns_order (NamespaceLabels m))));
           type ← metric_type (PL.MetricType (TLabels m));
           Ok (V3.mkUsage _ (PL.Label (TLabels m)) value namespaces
                 (<["metricType" := type]> (<["clusterId" := clusterID d]> properties))
                 (v3_resources m))
       end.

Definition v3_Build (d : MarketplaceReportDataBuilder)
    : MarketplaceReportDataBuilder * result BuildError (V3.MarketplaceReportData Float) :=
  with_first d (λ d m,
    properties ← lift_error ErrDecode (decode V3.event_tags (LabelMap m));
    usage ← mapM_result (v3_usage d) (values d);
    Ok (V3.mkData _ (event_id d m) (Milliseconds (IntervalStart m)) (Milliseconds (IntervalEnd m))
          (accountID d) usage
          (<["kind" := PL.MeterKind (TLabels m)]>
             (<["group" := PL.MeterGroup (TLabels m)]> properties)))).
End build.

(** ** Lemmas *)

(** What becomes of one key: it is absent, all agree on its value, or they do
    not. *)
Inductive Standing := Absent | Agreed (v : LabelValue) | Disputed.

Definition standing (s : Merge) (k : string) : Standing :=
  if bool_decide (k ∈ s.2) then Disputed
  else match s.1 !! k with Some v => Agreed v | None => Absent end.

Definition meet (st : Standing) (v : LabelValue) : Standing :=
  match st with
  | Absent => Agreed v
  | Agreed w => if decide (w = v) then Agreed w else Disputed
  | Disputed => Disputed
  end.

(** No disputed key is an attribute. *)
Definition merge_wf (s : Merge) : Prop := ∀ k, k ∈ s.2 → s.1 !! k = None.

Lemma standing_merge_label s k v k' :
  standing (merge_label s (k, v)) k' =
    if decide (k = k') then meet (standing s k) v else standing s k'.
Proof.
  destruct s as [a d]. unfold standing, merge_label; cbn [fst snd].
  destruct (decide (k ∈ d)) as [Hd|Hd].
  { rewrite (bool_decide_true (k ∈ d)) by done. cbn [fst snd].
    destruct (decide (k = k')) as [<-|]; [by rewrite bool_decide_true|done]. }
  rewrite (bool_decide_false (k ∈ d)) by done. destruct (a !! k) as [w|] eqn:Ha; cbn [meet].
  - destruct (decide (w = v)) as [->|Hw].
    + rewrite (bool_decide_true (v = v)) by done. cbn [negb fst snd].
      destruct (decide (k = k')) as [<-|]; [|done]. by rewrite bool_decide_false, Ha.
    + rewrite (bool_decide_false (w = v)) by done. cbn [negb fst snd].
      destruct (decide (k = k')) as [<-|Hk]; [rewrite bool_decide_true by set_solver; done|].
      rewrite lookup_delete_ne by done.
      destruct (decide (k' ∈ d)).
      * rewrite !bool_decide_true by set_solver. done.
      * rewrite !bool_decide_false by set_solver. done.
  - cbn [fst snd]. destruct (decide (k = k')) as [<-|Hk].
    + rewrite bool_decide_false by done. by rewrite lookup_insert_eq.
    + by rewrite lookup_insert_ne.
Qed.

Lemma merge_label_wf s kv : merge_wf s → merge_wf (merge_label s kv).
Proof.
  destruct s as [a d], kv as [k v]. unfold merge_wf, merge_label; cbn [fst snd]. intros H.
  destruct (decide (k ∈ d)) as [Hd|Hd]; [by rewrite bool_decide_true|].
  rewrite bool_decide_false by done. destruct (a !! k) as [w|] eqn:Ha.
  - destruct (w != v); cbn [fst snd]; [|done]. intros k' [->%elem_of_singleton|Hk']%elem_of_union.
    + apply lookup_delete_eq.
    + destruct (decide (k = k')) as [->|]; [apply lookup_delete_eq|].
      rewrite lookup_delete_ne by done. by apply H.
  - cbn [fst snd]. intros k' Hk'. rewrite lookup_insert_ne by (by intros ->). by apply H.
Qed.

Lemma standing_fold l s k :
  NoDup l.*1 →
  standing (foldl merge_label s l) k = from_option (meet (standing s k)) (standing s k)
    ((list_to_map l : LabelSet) !! k).
Proof.
  revert s; induction l as [|[k' v] l IH]; intros s Hnd; [done|].
  rewrite fmap_cons in Hnd; cbn in Hnd. apply NoDup_cons in Hnd as [Hk Hnd].
  cbn [foldl list_to_map]. rewrite IH, standing_merge_label by done.
  destruct (decide (k' = k)) as [->|Hne].
  - cbn. rewrite lookup_insert_eq. apply not_elem_of_list_to_map in Hk. by rewrite Hk.
  - cbn. by rewrite lookup_insert_ne.
Qed.

Lemma meet_agreed l v :
  foldl meet Absent l = Agreed v ↔ l ≠ [] ∧ ∀ x, x ∈ l → x = v.
Proof.
  assert (Hd : ∀ l, foldl meet Disputed l = Disputed) by (intros l'; induction l' as [|??]; done).
  assert (H : ∀ w l, foldl meet (Agreed w) l = Agreed v ↔ w = v ∧ ∀ x, x ∈ l → x = v).
  { intros w l'; revert w; induction l' as [|x l' IH]; intros w; cbn [foldl meet].
    - split; [|by intros [-> _]]. intros [= ->]. split; [done|]. by intros x ?%elem_of_nil.
    - destruct (decide (w = x)) as [->|Hne].
      + rewrite IH. setoid_rewrite elem_of_cons. naive_solver.
      + rewrite Hd. split; [done|]. intros [-> H]. destruct Hne. symmetry. apply H. by left. }
  destruct l as [|x l]; cbn [foldl meet]; [naive_solver|].
  rewrite H. setoid_rewrite elem_of_cons. naive_solver.
Qed.

Lemma meet_absent l : foldl meet Absent l = Absent ↔ l = [].
Proof.
  split; [|by intros ->]. destruct l as [|x l]; [done|]. cbn [foldl meet].
  assert (H : ∀ st l, st ≠ Absent → foldl meet st l ≠ Absent).
  { intros st l'; revert st; induction l' as [|y l' IH]; intros st Hst; [done|]. cbn [foldl].
    apply IH. destruct st; cbn; [done| |done]. by case_decide. }
  intros Hf. by destruct (H (Agreed x) l ltac:(done)).
Qed.

Section merge.
Variable order : LabelSet → list (string * LabelValue).
Hypothesis Horder : ∀ m, order m ≡ₚ map_to_list m.

#[local] Abbreviation mls := (merge_labels order).

(** The values a key has in the event's own attributes and in its samples. *)
Definition occurrences (base : LabelSet) (l : list Templated) (k : string) : list LabelValue :=
  option_list (base !! k) ++ omap (λ m, LabelMap m !! k) l.

Lemma standing_merge_labels s m k :
  standing (mls s m) k = from_option (meet (standing s k)) (standing s k) (LabelMap m !! k).
Proof.
  unfold merge_labels.
  assert (Hnd : NoDup (order (LabelMap m)).*1)
    by (rewrite Horder; apply NoDup_fst_map_to_list).
  rewrite standing_fold by done. do 2 f_equal.
  rewrite <- (list_to_map_to_list (LabelMap m)) at 2. by apply list_to_map_proper.
Qed.

Lemma standing_merged base l k :
  standing (foldl mls (base, ∅) l) k = foldl meet Absent (occurrences base l k).
Proof.
  unfold occurrences. rewrite foldl_app.
  assert (H0 : foldl meet Absent (option_list (base !! k)) = standing (base, ∅) k).
  { unfold standing; cbn [fst snd]. rewrite bool_decide_false by set_solver.
    by destruct (base !! k). }
  rewrite H0. generalize (base, ∅ : gset string) as s. clear H0.
  induction l as [|m l IH]; intros s; [done|]. cbn [foldl omap list_omap].
  rewrite IH, standing_merge_labels. by destruct (LabelMap m !! k).
Qed.

Lemma merged_wf base l : merge_wf (foldl mls (base, ∅) l).
Proof.
  apply foldl_inv; [by intros k ?%elem_of_empty|]. intros s m _ Hs. unfold merge_labels.
  apply foldl_inv; [done|]. intros s' kv _ Hs'. by apply merge_label_wf.
Qed.

(** An attribute of the event is one all agree on. *)
Lemma merged_attribute base l a d k v :
  foldl mls (base, ∅) l = (a, d) →
  a !! k = Some v ↔ occurrences base l k ≠ [] ∧ ∀ x, x ∈ occurrences base l k → x = v.
Proof.
  intros Hf. rewrite <- meet_agreed, <- standing_merged, Hf.
  pose proof (merged_wf base l) as Hwf. rewrite Hf in Hwf.
  unfold standing; cbn [fst snd]. destruct (decide (k ∈ d)) as [Hd|Hd].
  - rewrite bool_decide_true by done. apply Hwf in Hd. cbn in Hd. rewrite Hd. done.
  - rewrite bool_decide_false by done. destruct (a !! k); naive_solver.
Qed.

(** No label of a sample is lost: it reads back from the sample's own labels over
    the event's. *)
Lemma merged_recovers base l a d m k v :
  foldl mls (base, ∅) l = (a, d) → m ∈ l → LabelMap m !! k = Some v →
  (own_labels d m ∪ (Some <$> a)) !! k = Some (Some v).
Proof.
  intros Hf Hm Hk.
  assert (Hocc : v ∈ occurrences base l k)
    by (apply elem_of_app; right; apply list_elem_of_omap; by exists m).
  unfold own_labels. destruct (decide (k ∈ d)) as [Hd|Hd].
  - rewrite decide_False by set_solver. apply lookup_union_Some_l. unfold nonUniqueLabels.
    apply lookup_set_to_map; [by intros ???? [= ->]|]. exists k. by rewrite Hk.
  - assert (Hnone : (if decide (d = ∅) then ∅ else nonUniqueLabels d (LabelMap m)) !! k = None).
    { destruct (decide (d = ∅)); [apply lookup_empty|]. apply eq_None_not_Some. intros [x Hx].
      apply lookup_set_to_map in Hx as (k' & Hk' & [= -> _]); [done|]. by intros ???? [= ->]. }
    rewrite lookup_union_r, lookup_fmap by done.
    pose proof (standing_merged base l k) as Hst. rewrite Hf in Hst.
    unfold standing in Hst; cbn [fst snd] in Hst. rewrite bool_decide_false in Hst by done.
    destruct (a !! k) as [w|] eqn:Ha.
    + apply (merged_attribute _ _ _ _ _ _ Hf) in Ha as [_ Ha]. by rewrite (Ha v Hocc).
    + symmetry in Hst. apply meet_absent in Hst. rewrite Hst in Hocc. by apply elem_of_nil in Hocc.
Qed.
End merge.

Lemma metric_type_spec t :
  match metric_type t with
  | Ok t' => t' = (if t == "" then MetricTypeLicense else t) ∧ (t = "" ∨ t ∈ known_metric_types)
  | Err e => e = ErrMetricType t ∧ t ≠ "" ∧ t ∉ known_metric_types
  end.
Proof.
  unfold metric_type, MetricTypeEmpty. destruct (decide (t = "")) as [->|Hne].
  { rewrite bool_decide_true by done. split; [done|by left]. }
  rewrite bool_decide_false by done.
  case_bool_decide; split; try done. by right.
Qed.

Section loops.
Context {Float : Type} (ParseFloat : string → option Float) (xxhash : string → string).
Variable order : LabelSet → list (string * LabelValue).

#[local] Abbreviation mls := (merge_labels order).

Lemma v1_step_eq id metrics ext g m :
  v1_step xxhash order id (metrics, ext, g) m =
    if hash_of xxhash m != id then Err ErrValueHashAreDifferent
    else Ok (match metrics !! PL.Label (TLabels m) with
             | Some _ => metrics | None => <[PL.Label (TLabels m) := Value m]> metrics end,
             ext ++ [(PL.Label (TLabels m), Value m)], mls g m).
Proof. reflexivity. Qed.

Lemma v2_step_eq id usage g m :
  v2_step ParseFloat xxhash order id (usage, g) m =
    if hash_of xxhash m != id then Err ErrValueHashAreDifferent
    else match ParseFloat (Value m) with
         | None => Err ErrNotFloat64
         | Some x => Ok (usage ++ [(PL.Label (TLabels m), x)], mls g m)
         end.
Proof. reflexivity. Qed.

(** The loop of v1alpha1: it fails only on a sample of another event. *)
Lemma v1_loop id metrics ext g l :
  match foldM_result (v1_step xxhash order id) (metrics, ext, g) l with
  | Ok (metrics', ext', g') =>
      (∀ m, m ∈ l → hash_of xxhash m = id) ∧ g' = foldl mls g l ∧
      ext' = ext ++ ((λ m, (PL.Label (TLabels m), Value m)) <$> l) ∧
      ∀ k, metrics' !! k = match metrics !! k with
        | Some v => Some v
        | None => Value <$> List.find (λ m, PL.Label (TLabels m) == k) l end
  | Err e => e = ErrValueHashAreDifferent ∧ ∃ m, m ∈ l ∧ hash_of xxhash m ≠ id
  end.
Proof.
  revert metrics ext g; induction l as [|m l IH]; intros metrics ext g; cbn [foldM_result].
  { split_and!; [by intros ? ?%elem_of_nil|done|by rewrite app_nil_r|].
    intros k. by destruct (metrics !! k). }
  rewrite v1_step_eq. destruct (decide (hash_of xxhash m = id)) as [Hm|Hm].
  2: { rewrite bool_decide_false by done. cbn. split; [done|]. exists m. split; [by left|done]. }
  rewrite bool_decide_true by done. cbn [negb mbind result_mbind].
  set (metrics1 := match metrics !! _ with Some _ => _ | None => _ end).
  specialize (IH metrics1 (ext ++ [(PL.Label (TLabels m), Value m)]) (mls g m)).
  destruct (foldM_result _ _ l) as [[[me ex] g']|e].
  - destruct IH as (Hh & -> & -> & Hl). split_and!.
    + intros m' [->|Hm']%elem_of_cons; [done|by apply Hh].
    + done.
    + by rewrite <- app_assoc.
    + intros k. rewrite Hl. cbn [List.find]. subst metrics1.
      destruct (decide (PL.Label (TLabels m) = k)) as [<-|Hk].
      * rewrite bool_decide_true by done.
        destruct (metrics !! PL.Label (TLabels m)) eqn:E; [by rewrite E|].
        by rewrite lookup_insert_eq.
      * rewrite bool_decide_false by done.
        destruct (metrics !! PL.Label (TLabels m)); [done|]. by rewrite lookup_insert_ne.
  - destruct IH as (-> & m' & Hm' & ?). split; [done|]. exists m'. split; [by right|done].
Qed.

(** The loop of v2alpha1: it also fails on a value that is no number. *)
Lemma v2_loop id usage g l :
  match foldM_result (v2_step ParseFloat xxhash order id) (usage, g) l with
  | Ok (usage', g') =>
      (∀ m, m ∈ l → hash_of xxhash m = id) ∧ g' = foldl mls g l ∧
      ∃ us, usage' = usage ++ us ∧
        Forall2 (λ m u, u.1 = PL.Label (TLabels m) ∧ ParseFloat (Value m) = Some u.2) l us
  | Err e => (e = ErrValueHashAreDifferent ∧ ∃ m, m ∈ l ∧ hash_of xxhash m ≠ id) ∨
             (e = ErrNotFloat64 ∧ ∃ m, m ∈ l ∧ ParseFloat (Value m) = None)
  end.
Proof.
  revert usage g; induction l as [|m l IH]; intros usage g; cbn [foldM_result].
  { split_and!; [by intros ? ?%elem_of_nil|done|]. exists []. by rewrite app_nil_r. }
  rewrite v2_step_eq. destruct (decide (hash_of xxhash m = id)) as [Hm|Hm].
  2: { rewrite bool_decide_false by done. cbn. left. split; [done|]. exists m. split; [by left|done]. }
  rewrite bool_decide_true by done. cbn [negb].
  destruct (ParseFloat (Value m)) as [x|] eqn:Hx; cbn [mbind result_mbind].
  2: { right. split; [done|]. exists m. split; [by left|done]. }
  specialize (IH (usage ++ [(PL.Label (TLabels m), x)]) (mls g m)).
  destruct (foldM_result _ _ l) as [[us g']|e].
  - destruct IH as (Hh & -> & us' & -> & Hu). split_and!.
    + intros m' [->|Hm']%elem_of_cons; [done|by apply Hh].
    + done.
    + exists ((PL.Label (TLabels m), x) :: us'). split; [by rewrite <- app_assoc|]. by constructor.
  - destruct IH as [(-> & m' & Hm' & ?)|(-> & m' & Hm' & ?)]; [left|right]; (split; [done|]);
      exists m'; (split; [by right|done]).
Qed.
End loops.

(** A record made from a sample and what the loop kept of it. *)
Lemma Forall2_zip_own {A B} (P : Templated → A → Prop) (Q : Templated → B → Prop)
    (f : A → Templated → B) l k :
  Forall2 P l k → (∀ m x, m ∈ l → P m x → Q m (f x m)) → Forall2 Q l (zip_with f k l).
Proof.
  intros H. induction H as [|m x l k Hx Hl IH]; intros Hf; [constructor|].
  cbn. constructor; [apply Hf; [by left|done]|]. apply IH. intros m' y Hm'. apply Hf. by right.
Qed.

(** ** Properties *)

Section properties.
Context {Float : Type} (ParseFloat : string → option Float) (xxhash : string → string).
Variable order : LabelSet → list (string * LabelValue).
Variable ns_order : gmap string (gmap string string) → list (string * gmap string string).
Variable decode : list string → LabelSet → result string (gmap string string).
Variable marshal_namespaces : list (string * gmap string string) → result string string.
Hypothesis Horder : ∀ m, order m ≡ₚ map_to_list m.

(** Samples of one event, and one of another. *)
Definition same_event (l : list Templated) : Prop :=
  ∀ m m', m ∈ l → m' ∈ l → hash_of xxhash m = hash_of xxhash m'.

Lemma same_event_first m0 l :
  (∀ m, m ∈ m0 :: l → hash_of xxhash m = hash_of xxhash m0) ↔ same_event (m0 :: l).
Proof.
  split; intros H; [intros m m' Hm Hm'; by rewrite (H m), (H m')|].
  intros m Hm. apply H; [done|by left].
Qed.

(** How a build fails. *)
Lemma v1_Build_fails d e :
  (v1_Build xxhash order d).2 = Err e →
  (e = ErrNoValuesSet ∧ values d = []) ∨ (e = ErrValueHashAreDifferent ∧ ¬ same_event (values d)).
Proof.
  unfold v1_Build, with_first. destruct (values d) as [|m0 l] eqn:Hv.
  { intros [= <-]. by left. }
  cbn [snd values bid with_id]. rewrite Hv.
  pose proof (v1_loop xxhash order (hash_of xxhash m0) ∅ [] (v1_base m0, ∅) (m0 :: l)) as Hl.
  destruct (foldM_result _ _ (m0 :: l)) as [[[metrics ext] [? ?]]|e']; cbn [mbind result_mbind]; [done|].
  intros [= ->]. destruct Hl as (-> & m & Hm & Hne). right. split; [done|]. intros H.
  apply Hne, H; [done|by left].
Qed.

Definition v2_failure (d : MarketplaceReportDataBuilder) (e : BuildError) : Prop :=
  match e with
  | ErrNoValuesSet => values d = []
  | ErrValueHashAreDifferent => ¬ same_event (values d)
  | ErrNotFloat64 => ∃ m, m ∈ values d ∧ ParseFloat (Value m) = None
  | ErrMetricType t => ∃ m0, head (values d) = Some m0 ∧ t = PL.MetricType (TLabels m0) ∧
      t ≠ "" ∧ t ∉ known_metric_types
  | _ => False
  end.

Lemma v2_Build_fails d e : (v2_Build ParseFloat xxhash order d).2 = Err e → v2_failure d e.
Proof.
  unfold v2_Build, with_first, v2_failure. destruct (values d) as [|m0 l] eqn:Hv.
  { by intros [= <-]. }
  cbn [snd values bid with_id]. rewrite Hv.
  pose proof (metric_type_spec (PL.MetricType (TLabels m0))) as Ht.
  destruct (metric_type _) as [type|e']; cbn [mbind result_mbind].
  2: { intros [= <-]. destruct Ht as (-> & ? & ?). by exists m0. }
  pose proof (v2_loop ParseFloat xxhash order (hash_of xxhash m0) []
    (v2_base (with_id d (hash_of xxhash m0)) m0 type, ∅) (m0 :: l)) as Hl.
  destruct (foldM_result _ _ (m0 :: l)) as [[us [? ?]]|e']; cbn [mbind result_mbind]; [done|].
  intros [= <-]. destruct Hl as [(-> & m & Hm & Hne)|(-> & ?)]; [|done]. intros H.
  apply Hne, H; [done|by left].
Qed.

(** The v1alpha1 record of an event. It is built exactly when there is a
    sample and all are of the same event. It lists every sample with its label and
    value in order, gives each metric its first value, and loses no label: each
    sample's labels read back from its own over the event's. The labels of the
    event are those on which all that carry them agree. *)
Theorem v1_Build_spec (d : MarketplaceReportDataBuilder) :
  match (v1_Build xxhash order d).2 with
  | Ok data => ∃ m0, head (values d) = Some m0 ∧ same_event (values d) ∧
      V1.TotalMetricCount data = Z.of_nat (length (V1.MetricsExtended data)) ∧
      Forall2 (λ m x, V1.MLabel x = PL.Label (TLabels m) ∧ V1.MValue x = Value m ∧
        ∀ k v, LabelMap m !! k = Some v →
          (V1.MLabels x ∪ (Some <$> V1.AdditionalLabels data)) !! k = Some (Some v))
        (values d) (V1.MetricsExtended data) ∧
      (∀ k, V1.Metrics data !! k =
         Value <$> List.find (λ m, PL.Label (TLabels m) == k) (values d)) ∧
      ∀ k v, V1.AdditionalLabels data !! k = Some v ↔
        occurrences (v1_base m0) (values d) k ≠ [] ∧
        ∀ x, x ∈ occurrences (v1_base m0) (values d) k → x = v
  | Err e => (e = ErrNoValuesSet ∧ values d = []) ∨
             (e = ErrValueHashAreDifferent ∧ ¬ same_event (values d))
  end.
Proof.
  destruct (v1_Build xxhash order d).2 as [data|e] eqn:Hb; [|by apply v1_Build_fails].
  revert Hb. unfold v1_Build, with_first. destruct (values d) as [|m0 l] eqn:Hv; [done|].
  cbn [snd values bid with_id]. rewrite Hv.
  pose proof (v1_loop xxhash order (hash_of xxhash m0) ∅ [] (v1_base m0, ∅) (m0 :: l)) as Hl.
  destruct (foldM_result _ _ (m0 :: l)) as [[[metrics ext] g]|e]; cbn [mbind result_mbind]; [|done].
  destruct Hl as (Hh & -> & -> & Hm). destruct (foldl _ _ (m0 :: l)) as [a dk] eqn:Hf.
  intros Hd%Ok_inj. subst data. cbn [V1.TotalMetricCount V1.MetricsExtended V1.AdditionalLabels V1.Metrics app].
  exists m0. split_and!.
  - done.
  - by apply same_event_first.
  - rewrite length_zip_with_l_eq; by rewrite length_fmap.
  - apply (Forall2_zip_own (λ m x, x = (PL.Label (TLabels m), Value m))).
    + apply Forall2_fmap_r, Forall_Forall2_diag, Forall_true. done.
    + intros m x Hin ->. cbn [V1.MLabel V1.MValue V1.MLabels fst snd]. split_and!; [done|done|].
      intros k v. by apply (merged_recovers order Horder _ _ _ _ _ _ _ Hf).
  - intros k. by rewrite Hm, lookup_empty.
  - intros k v. apply (merged_attribute order Horder _ _ _ _ _ _ Hf).
Qed.

(** The v2alpha1 record of an event. It is built exactly when there is a sample,
    the type of the first is known, all are of the same event and all values are
    numbers, and the error tells which fails. It has one usage per sample, with its
    label and its value as a number, and loses no label: the labels of each sample
    read back from its usage over the attributes of the event. An attribute of the
    event is one on which the event itself and all samples that carry it agree. *)
Theorem v2_Build_spec (d : MarketplaceReportDataBuilder) :
  match (v2_Build ParseFloat xxhash order d).2 with
  | Ok data => ∃ m0 type, head (values d) = Some m0 ∧ same_event (values d) ∧
      metric_type (PL.MetricType (TLabels m0)) = Ok type ∧
      Forall2 (λ m u, V2.MetricID u = PL.Label (TLabels m) ∧
        ParseFloat (Value m) = Some (V2.UValue u) ∧
        ∀ k v, LabelMap m !! k = Some v →
          (V2.UAttributes u ∪ (Some <$> V2.AdditionalAttributes data)) !! k = Some (Some v))
        (values d) (V2.DMeasuredUsage data) ∧
      ∀ k v, V2.AdditionalAttributes data !! k = Some v ↔
        occurrences (v2_base d m0 type) (values d) k ≠ [] ∧
        ∀ x, x ∈ occurrences (v2_base d m0 type) (values d) k → x = v
  | Err e => v2_failure d e
  end.
Proof.
  destruct (v2_Build ParseFloat xxhash order d).2 as [data|e] eqn:Hb; [|by apply v2_Build_fails].
  revert Hb. unfold v2_Build, with_first. destruct (values d) as [|m0 l] eqn:Hv; [done|].
  cbn [snd values bid with_id]. rewrite Hv.
  destruct (metric_type _) as [type|e] eqn:Htype; cbn [mbind result_mbind]; [|done].
  change (v2_base (with_id d _) m0 type) with (v2_base d m0 type).
  pose proof (v2_loop ParseFloat xxhash order (hash_of xxhash m0) [] (v2_base d m0 type, ∅)
    (m0 :: l)) as Hl.
  destruct (foldM_result _ _ (m0 :: l)) as [[us g]|e]; [|done].
  destruct Hl as (Hh & -> & us' & -> & Hu). destruct (foldl _ _ (m0 :: l)) as [a dk] eqn:Hf.
  intros Hd%Ok_inj. subst data. cbn [V2.DMeasuredUsage V2.AdditionalAttributes app].
  exists m0, type. split_and!; [done|by apply same_event_first|done| |].
  - eapply Forall2_zip_own; [exact Hu|]. intros m x Hin [? ?].
    cbn [V2.MetricID V2.UValue V2.UAttributes]. split_and!; [done|done|].
    intros k v. by apply (merged_recovers order Horder _ _ _ _ _ _ _ Hf).
  - intros k v. apply (merged_attribute order Horder _ _ _ _ _ _ Hf).
Qed.
(** What [mapstructure] promises of a decode that succeeds: a text whose label is
    the tag of a field is in that field. *)
Definition decodes : Prop := ∀ tags l p t v,
  decode tags l = Ok p → t ∈ tags → l !! t = Some (LStr v) → p !! t = Some v.

#[local] Abbreviation v3b := (v3_Build ParseFloat xxhash ns_order decode marshal_namespaces).

(** What one sample becomes in v3alpha1. *)
Definition v3_usage_of (d : MarketplaceReportDataBuilder) (m : Templated)
    (u : V3.MeasuredUsage Float) : Prop :=
  V3.MetricID u = PL.Label (TLabels m) ∧ ParseFloat (Value m) = Some (V3.UValue u) ∧
  (∀ t v, t ∈ V3.usage_tags → t ≠ "clusterId" → t ≠ "metricType" →
     LabelMap m !! t = Some (LStr v) → V3.UProperties u !! t = Some v) ∧
  V3.UProperties u !! "clusterId" = Some (clusterID d) ∧
  (∃ type, metric_type (PL.MetricType (TLabels m)) = Ok type ∧
     V3.UProperties u !! "metricType" = Some type ∧
     (type = MetricTypeLicense → V3.KubernetesResources u = []) ∧
     (type ≠ MetricTypeLicense → V3.KubernetesResources u = omap bytes_of (K8sResources m))).

Lemma v3_usage_spec d m :
  decodes →
  match v3_usage ParseFloat xxhash ns_order decode marshal_namespaces d m with
  | Ok u => hash_of xxhash m = bid d ∧ v3_usage_of d m u
  | Err ErrValueHashAreDifferent => hash_of xxhash m ≠ bid d
  | Err ErrNotFloat64 => ParseFloat (Value m) = None
  | Err (ErrDecode e) => decode V3.usage_tags (LabelMap m) = Err e
  | Err (ErrMarshal e) => NamespaceLabels m ≠ ∅ ∧
      marshal_namespaces (ns_order (NamespaceLabels m)) = Err e
  | Err (ErrMetricType t) => t = PL.MetricType (TLabels m) ∧ t ≠ "" ∧ t ∉ known_metric_types
  | Err ErrNoValuesSet => False
  end.
Proof.
  intros Hd. unfold v3_usage. destruct (decide (hash_of xxhash m = bid d)) as [Hh|Hh].
  2: { by rewrite bool_decide_false. }
  rewrite bool_decide_true by done. cbn [negb].
  destruct (ParseFloat (Value m)) as [x|] eqn:Hx; [|done].
  destruct (decode V3.usage_tags (LabelMap m)) as [p|e] eqn:Hp; cbn [lift_error mbind result_mbind];
    [|done].
  set (nsr := if decide (NamespaceLabels m = ∅) then Ok "" else _).
  destruct nsr as [n|e] eqn:Hn; subst nsr.
  2: { destruct (decide (NamespaceLabels m = ∅)); [done|].
       destruct (marshal_namespaces _) eqn:Hm; [done|]. by injection Hn as <-. }
  cbn [mbind result_mbind].
  pose proof (metric_type_spec (PL.MetricType (TLabels m))) as Ht.
  destruct (metric_type _) as [type|e] eqn:Htype; cbn [mbind result_mbind].
  2: { by destruct Ht as (-> & ? & ?). }
  split; [done|]. unfold v3_usage_of. cbn [V3.MetricID V3.UValue V3.UProperties V3.KubernetesResources].
  split_and!; [done|done| | |].
  - intros t v Hin Hc Hm Hl. rewrite !lookup_insert_ne by done. by eapply Hd.
  - rewrite lookup_insert_ne by done. apply lookup_insert_eq.
  - exists type. rewrite lookup_insert_eq. destruct Ht as [Ht Hk].
    split_and!; [by rewrite Htype|done| |]; intros Hlic; unfold v3_resources.
    + rewrite bool_decide_false; [done|]. revert Hlic. rewrite Ht.
      destruct (decide (PL.MetricType (TLabels m) = "")) as [->|Hne].
      * intros _. rewrite !elem_of_cons, elem_of_nil. naive_solver.
      * rewrite bool_decide_false by done. intros ->. rewrite !elem_of_cons, elem_of_nil. naive_solver.
    + revert Hlic. rewrite Ht. destruct (decide (PL.MetricType (TLabels m) = "")) as [->|Hne]; [done|].
      rewrite bool_decide_false by done. intros Hlic. rewrite bool_decide_true; [done|].
      destruct Hk as [?|Hk]; [done|]. unfold known_metric_types in Hk.
      rewrite !elem_of_cons in Hk. rewrite !elem_of_cons. naive_solver.
Qed.
(** A sample fails on its hash only when it is of another event, and never for want
    of samples. *)
Lemma v3_usage_fails d m e :
  v3_usage ParseFloat xxhash ns_order decode marshal_namespaces d m = Err e →
  e ≠ ErrNoValuesSet ∧ (e = ErrValueHashAreDifferent → hash_of xxhash m ≠ bid d).
Proof.
  unfold v3_usage. destruct (decide (hash_of xxhash m = bid d)) as [Hh|Hh].
  2: { rewrite bool_decide_false by done. by intros [= <-]. }
  rewrite bool_decide_true by done. cbn [negb].
  destruct (ParseFloat (Value m)); [|by intros [= <-]].
  destruct (decode _ _); cbn [lift_error mbind result_mbind]; [|by intros [= <-]].
  destruct (decide (NamespaceLabels m = ∅)); [|destruct (marshal_namespaces _)];
    cbn [lift_error mbind result_mbind]; [| |by intros [= <-]];
    pose proof (metric_type_spec (PL.MetricType (TLabels m))) as Ht;
    (destruct (metric_type _); cbn [mbind result_mbind]; [done|]);
    intros [= <-]; by destruct Ht as [-> _].
Qed.

Lemma v3_Build_fails d e :
  (v3b d).2 = Err e →
  (e = ErrNoValuesSet → values d = []) ∧ (e = ErrValueHashAreDifferent → ¬ same_event (values d)).
Proof.
  unfold v3_Build, with_first. destruct (values d) as [|m0 l] eqn:Hv; [by intros [= <-]|].
  cbn [snd values bid with_id]. rewrite Hv. set (d0 := with_id d _).
  destruct (decode _ _); cbn [lift_error mbind result_mbind]; [|by intros [= <-]].
  destruct (mapM_result _ (m0 :: l)) as [us|e'] eqn:Hus; cbn [mbind result_mbind]; [done|].
  intros [= <-]. apply mapM_result_Err in Hus as (m & Hm & He).
  apply v3_usage_fails in He as [H1 H2]. split; [by intros ?|]. intros Heq Hs.
  apply (H2 Heq). apply Hs; [done|by left].
Qed.

Lemma v3_usage_basic d m u :
  v3_usage ParseFloat xxhash ns_order decode marshal_namespaces d m = Ok u →
  hash_of xxhash m = bid d ∧ V3.MetricID u = PL.Label (TLabels m) ∧
  ParseFloat (Value m) = Some (V3.UValue u) ∧
  is_ok (metric_type (PL.MetricType (TLabels m))) = true.
Proof.
  unfold v3_usage. destruct (decide (hash_of xxhash m = bid d)) as [Hh|Hh].
  2: { by rewrite bool_decide_false. }
  rewrite bool_decide_true by done. cbn [negb].
  destruct (ParseFloat (Value m)); [|done].
  destruct (lift_error _ (decode _ _)); cbn [mbind result_mbind]; [|done].
  destruct (if decide (NamespaceLabels m = ∅) then _ else _); cbn [mbind result_mbind]; [|done].
  destruct (metric_type _); cbn [mbind result_mbind]; [|done]. by intros [= <-].
Qed.

(** The v3alpha1 record of an event. One usage per sample, in order, with its
    label, its value as a number, the cluster, its metric type, every label its
    struct has a field for, and the Kubernetes resources unless it is a license. The
    properties of the event are those of the first sample alone, with the group and
    kind of its definition. An error tells which sample fails and how. *)
Theorem v3_Build_spec (d : MarketplaceReportDataBuilder) :
  decodes →
  match (v3b d).2 with
  | Ok data => ∃ m0, head (values d) = Some m0 ∧ same_event (values d) ∧
      (∀ t v, t ∈ V3.event_tags → t ≠ "group" → t ≠ "kind" →
         LabelMap m0 !! t = Some (LStr v) → V3.DProperties data !! t = Some v) ∧
      V3.DProperties data !! "group" = Some (PL.MeterGroup (TLabels m0)) ∧
      V3.DProperties data !! "kind" = Some (PL.MeterKind (TLabels m0)) ∧
      Forall2 (v3_usage_of d) (values d) (V3.DMeasuredUsage data)
  | Err ErrNoValuesSet => values d = []
  | Err ErrValueHashAreDifferent => ¬ same_event (values d)
  | Err ErrNotFloat64 => ∃ m, m ∈ values d ∧ ParseFloat (Value m) = None
  | Err (ErrDecode e) => ∃ m tags, m ∈ values d ∧ decode tags (LabelMap m) = Err e
  | Err (ErrMarshal e) => ∃ m, m ∈ values d ∧
      marshal_namespaces (ns_order (NamespaceLabels m)) = Err e
  | Err (ErrMetricType t) => ∃ m, m ∈ values d ∧ t = PL.MetricType (TLabels m) ∧
      t ≠ "" ∧ t ∉ known_metric_types
  end.
Proof.
  intros Hd. unfold v3_Build, with_first. destruct (values d) as [|m0 l] eqn:Hv; [done|].
  cbn [snd values bid with_id]. rewrite Hv. set (d0 := with_id d _).
  destruct (decode V3.event_tags (LabelMap m0)) as [p|e] eqn:Hp; cbn [lift_error mbind result_mbind].
  2: { exists m0, V3.event_tags. split; [by left|done]. }
  destruct (mapM_result _ (m0 :: l)) as [us|e] eqn:Hus.
  - apply mapM_result_Ok in Hus. cbn [mbind result_mbind V3.DProperties V3.DMeasuredUsage].
    assert (Hu : Forall2 (λ m u, hash_of xxhash m = bid d0 ∧ v3_usage_of d0 m u) (m0 :: l) us).
    { eapply Forall2_impl; [exact Hus|]. intros m u Hmu.
      pose proof (v3_usage_spec d0 m Hd) as H. by rewrite Hmu in H. }
    exists m0. split_and!; [done| | | | |].
    + apply same_event_first. intros m Hm. apply list_elem_of_lookup in Hm as [i Hi].
      destruct (Forall2_lookup_l _ _ _ _ _ Hu Hi) as (u & _ & Hh & _). exact Hh.
    + intros t v Ht Hg Hk Hl. rewrite !lookup_insert_ne by done. by eapply Hd.
    + rewrite lookup_insert_ne by done. apply lookup_insert_eq.
    + apply lookup_insert_eq.
    + eapply Forall2_impl; [exact Hu|]. by intros m u [_ H].
  - apply mapM_result_Err in Hus as (m & Hm & He). cbn [mbind result_mbind].
    pose proof (v3_usage_spec d0 m Hd) as H. rewrite He in H. destruct e; try done.
    + intros Hs. apply H. apply Hs; [done|by left].
    + by exists m.
    + by exists m.
    + by exists m, V3.usage_tags.
    + destruct H as [_ H]. by exists m.
Qed.

(** C37: the three schemas tell the same of an event. Whenever the newest builds its
    record the older two build theirs from the same samples; all three have the same
    identifier, the same samples in the same order under the same labels, and the last
    two the same interval, account and numbers. *)
Theorem schemas_agree (d : MarketplaceReportDataBuilder) (data3 : V3.MarketplaceReportData Float) :
  (v3b d).2 = Ok data3 →
  ∃ data1 data2,
    (v1_Build xxhash order d).2 = Ok data1 ∧ (v2_Build ParseFloat xxhash order d).2 = Ok data2 ∧
    V1.MetricID data1 = V3.EventID data3 ∧ V2.EventID data2 = V3.EventID data3 ∧
    V1.MLabel <$> V1.MetricsExtended data1 = V3.MetricID <$> V3.DMeasuredUsage data3 ∧
    ParseFloat ∘ V1.MValue <$> V1.MetricsExtended data1 =
      Some ∘ V3.UValue <$> V3.DMeasuredUsage data3 ∧
    (λ u, (V2.MetricID u, V2.UValue u)) <$> V2.DMeasuredUsage data2 =
      (λ u, (V3.MetricID u, V3.UValue u)) <$> V3.DMeasuredUsage data3 ∧
    (V2.DIntervalStart data2, V2.DIntervalEnd data2, V2.DAccountID data2) =
      (V3.DIntervalStart data3, V3.DIntervalEnd data3, V3.DAccountID data3).
Proof.
  unfold v3_Build, v2_Build, v1_Build, with_first.
  destruct (values d) as [|m0 l] eqn:Hv; [done|]. cbn [snd values bid with_id].
  set (d0 := with_id d _). rewrite Hv.
  destruct (lift_error _ _) as [p|]; cbn [mbind result_mbind]; [|done].
  destruct (mapM_result _ (m0 :: l)) as [us|e] eqn:Hus; cbn [mbind result_mbind]; [|done].
  intros [= <-]. apply mapM_result_Ok in Hus.
  assert (Hu : Forall2 (λ m u, hash_of xxhash m = bid d0 ∧ V3.MetricID u = PL.Label (TLabels m) ∧
    ParseFloat (Value m) = Some (V3.UValue u) ∧
    is_ok (metric_type (PL.MetricType (TLabels m))) = true) (m0 :: l) us)
    by (eapply Forall2_impl; [exact Hus|]; intros m u; apply v3_usage_basic).
  clear Hus. assert (Hh : ∀ m, m ∈ m0 :: l → hash_of xxhash m = hash_of xxhash m0 ∧
    is_Some (ParseFloat (Value m)) ∧ is_ok (metric_type (PL.MetricType (TLabels m))) = true).
  { intros m Hm. apply list_elem_of_lookup in Hm as [i Hi].
    destruct (Forall2_lookup_l _ _ _ _ _ Hu Hi) as (u & _ & H1 & _ & H2 & H3). rewrite H2. by split_and!. }
  pose proof (v1_loop xxhash order (hash_of xxhash m0) ∅ [] (v1_base m0, ∅) (m0 :: l)) as H1.
  destruct (foldM_result (v1_step _ _ _) _ _) as [[[me ext] g1]|e]; cbn [mbind result_mbind].
  2: { destruct H1 as (_ & m & Hm & Hne). by apply Hh in Hm as [? _]. }
  destruct (Hh m0) as (_ & _ & Ht0); [by left|].
  destruct (metric_type _) as [type|] eqn:Htype; cbn [mbind result_mbind]; [|done].
  pose proof (v2_loop ParseFloat xxhash order (hash_of xxhash m0) [] (v2_base d0 m0 type, ∅)
    (m0 :: l)) as H2.
  destruct (foldM_result (v2_step _ _ _ _) _ _) as [[us2 g2]|e]; cbn [mbind result_mbind].
  2: { destruct H2 as [(_ & m & Hm & Hne)|(_ & m & Hm & Hne)]; apply Hh in Hm as (? & [] & _); congruence. }
  destruct H1 as (_ & -> & -> & _), H2 as (_ & -> & us' & -> & H2).
  destruct (foldl (merge_labels order) (v1_base m0, ∅) (m0 :: l)) as [a1 d1],
    (foldl (merge_labels order) (v2_base d0 m0 type, ∅) (m0 :: l)) as [a2 d2].
  eexists _, _. split; [reflexivity|]. split; [reflexivity|].
  cbn [V1.MetricID V2.EventID V3.EventID V1.MetricsExtended V2.DMeasuredUsage V3.DMeasuredUsage
    V2.DIntervalStart V2.DIntervalEnd V2.DAccountID V3.DIntervalStart V3.DIntervalEnd V3.DAccountID app].
  split_and!; try done.
  - clear -Hu. induction Hu as [|m u l' us' (_ & Hl & _) _ IH]; [done|]. cbn. by rewrite IH, Hl.
  - clear -Hu. induction Hu as [|m u l' us' (_ & _ & Hp & _) _ IH]; [done|]. cbn. by rewrite IH, Hp.
  - clear -Hu H2. revert us' H2. induction Hu as [|m u l' us'' (_ & Hl & Hp & _) _ IH]; intros us' H2.
    + by inversion H2.
    + inversion H2 as [|? y ? ys [Hy1 Hy2] Hys]; subst. cbn. rewrite Hl, <- Hy1.
      f_equal; [congruence|]. by apply IH.
Qed.
End properties.

(** ** An event of two samples *)

Definition sample_of (label value pod : string) : Templated :=
  mkTemplated (PL.mk "u" "mdef" "ns" "" "w" "Pod" "g.com" "App" "cores" "sum" (Some Hour) "q" [] []
    "adoption" "web" "ns" label "" "" "" "" "")
    (midnight 19000) (midnight 19001) value {[ "pod" := LStr pod; "app" := LStr "web" ]}
    ∅ [KBytes [Byte.x41]; KOther] "".

Definition two_samples : MarketplaceReportDataBuilder :=
  AddMeterDefinitionLabels (sample_of "cores" "5" "pod-2")
    (AddMeterDefinitionLabels (sample_of "cores" "3" "pod-1")
      (SetClusterID "c1" (SetAccountID "a1" empty_builder))).

Definition same_text (s : string) : string := s.
Definition some_order {A} (m : gmap string A) : list (string * A) := map_to_list m.
Definition toy_decode (tags : list string) (l : LabelSet) : result string (gmap string string) :=
  Ok (omap (λ v, match v with LStr s => Some s | LOther _ => None end) l).
Definition toy_namespaces (l : list (string * gmap string string)) : result string string := Ok "[]".

Lemma toy_decodes : decodes toy_decode.
Proof. intros tags l p t v [= <-] _ Hl. by rewrite lookup_omap, Hl. Qed.

Definition data1 := (v1_Build same_text some_order two_samples).2.
Definition data2 := (v2_Build dec_of_string same_text some_order two_samples).2.
Definition data3 :=
  (v3_Build dec_of_string same_text some_order toy_decode toy_namespaces two_samples).2.

Lemma v1_Build_spec_witness :
  match data1 with
  | Ok data => V1.AdditionalLabels data = {[ "app" := LStr "web" ]} ∧
      V1.MLabels <$> V1.MetricsExtended data =
        [{[ "pod" := Some (LStr "pod-1") ]}; {[ "pod" := Some (LStr "pod-2") ]}] ∧
      V1.Metrics data = {[ "cores" := "3" ]} ∧ V1.TotalMetricCount data = 2%Z
  | Err _ => False
  end.
Proof.
  pose proof (v1_Build_spec same_text some_order ltac:(done) two_samples) as H.
  destruct data1 as [data|e] eqn:Hd; [|vm_compute in Hd; discriminate].
  unfold data1 in Hd. rewrite Hd in H. destruct H as (_ & _ & _ & Hc & _).
  apply (f_equal (λ r, match r with Ok d => Some d | Err _ => None end)) in Hd.
  vm_compute in Hd. apply (inj Some) in Hd as <-. split_and!; [done|done|done|exact Hc].
Defined.

Lemma v2_Build_spec_witness :
  match data2 with
  | Ok data => V2.AdditionalAttributes data !! "app" = Some (LStr "web") ∧
      V2.AdditionalAttributes data !! "pod" = None ∧ same_event same_text (values two_samples) ∧
      V2.UValue <$> V2.DMeasuredUsage data = [3; 5]%Z
  | Err _ => False
  end.
Proof.
  pose proof (v2_Build_spec dec_of_string same_text some_order ltac:(done) two_samples) as H.
  destruct data2 as [data|e] eqn:Hd; [|vm_compute in Hd; discriminate].
  unfold data2 in Hd. rewrite Hd in H. destruct H as (_ & _ & _ & Hs & _).
  apply (f_equal (λ r, match r with Ok d => Some d | Err _ => None end)) in Hd.
  vm_compute in Hd. apply (inj Some) in Hd as <-. split_and!; [done|done|exact Hs|done].
Defined.

Lemma v3_Build_spec_witness :
  match data3 with
  | Ok data => V3.KubernetesResources <$> V3.DMeasuredUsage data = [[[Byte.x41]]; [[Byte.x41]]] ∧
      V3.DProperties data !! "kind" = Some "App" ∧
      (λ u, V3.UProperties u !! "pod") <$> V3.DMeasuredUsage data = [Some "pod-1"; Some "pod-2"]
  | Err _ => False
  end.
Proof.
  pose proof (v3_Build_spec dec_of_string same_text some_order toy_decode toy_namespaces two_samples
    toy_decodes) as H.
  destruct data3 as [data|e] eqn:Hd; [|vm_compute in Hd; discriminate].
  unfold data3 in Hd. rewrite Hd in H. destruct H as (m0 & Hm & _ & _ & _ & Hk & _).
  injection Hm as <-.
  apply (f_equal (λ r, match r with Ok d => Some d | Err _ => None end)) in Hd.
  vm_compute in Hd. apply (inj Some) in Hd as <-. split_and!; [done|exact Hk|done].
Defined.

Lemma schemas_agree_witness :
  match data3, data2, data1 with
  | Ok d3, Ok d2, Ok d1 => V2.EventID d2 = V3.EventID d3 ∧ V1.MetricID d1 = V3.EventID d3 ∧
      V2.DAccountID d2 = "a1"
  | _, _, _ => False
  end.
Proof.
  destruct data3 as [d3|e] eqn:H3; [|vm_compute in H3; discriminate].
  destruct (schemas_agree dec_of_string same_text some_order some_order toy_decode toy_namespaces
    two_samples d3 H3) as (d1 & d2 & H1 & H2 & He1 & He2 & _).
  change data2 with ((v2_Build dec_of_string same_text some_order two_samples).2).
  change data1 with ((v1_Build same_text some_order two_samples).2).
  rewrite H1, H2. split_and!; [done|done|].
  apply (f_equal (λ r, match r with Ok d => Some d | Err _ => None end)) in H2.
  vm_compute in H2. by apply (inj Some) in H2 as <-.
Defined.
