(* ===== verification/Writer.v ===== *)
(** * Writing a report

    The model of [reporter/v2/pkg/reporter/writer] and [writer.go]: the events of a
    report are cut into slices, each slice is written to a file of its own, and a
    last file describes the report. The three versions differ in the record an
    event becomes, in the last file, and in what they do with an event whose record
    cannot be built. The file system is an interface with the laws the writers
    rely on; JSON and the partition of a range are arguments. *)

From S2P Require Import Prelude GoTime Strconv PromLabels Schema.
Local Open Scope go_scope.

(** ** The file system *)

Inductive MkdirError := ErrExist | MkdirFailed (e : string).

(** [os] and [uuid] on a state: an identifier is never handed out twice, and is
    not one of the two names the writers use themselves. *)
Class FileSystem (W : Type) := {
  files : W → gmap string string;
  used : W → gset string;
  Mkdir : string → W → W * option MkdirError;
  WriteFile : string → string → W → W * option string;
  NewUUID : W → W * string;
  Mkdir_files dir w w' e : Mkdir dir w = (w', e) → files w' = files w ∧ used w' = used w;
  WriteFile_files name content w w' :
    WriteFile name content w = (w', None) →
    files w' = <[name := content]> (files w) ∧ used w' = used w;
  NewUUID_fresh w w' id :
    NewUUID w = (w', id) →
    files w' = files w ∧ id ∉ used w ∧ used w' = {[ id ]} ∪ used w ∧
    id ≠ "manifest" ∧ id ≠ "metadata"
}.

Definition json_name (name : string) : string := name +:+ ".json".

(** ** Configuration *)

Record MarketplaceConfig := mkMktConfig {
  MktAnnotations : gmap string string;
  RhmAccountID : string;
  ClusterUUID : string
}.

Record SourceMetadata := mkSourceMetadata {
  SClusterID : string;
  SAccountID : string;
  SEnvironment : string;
  SVersion : string;
  SReportVersion : string
}.

Definition ReportProductionEnv : string := "production".
Definition ReportSandboxEnv : string := "stage".

Definition environment (cfg : MarketplaceConfig) : string :=
  match MktAnnotations cfg !! "marketplace.redhat.com/environment" with
  | Some a => if a == ReportSandboxEnv then ReportSandboxEnv else ReportProductionEnv
  | None => ReportProductionEnv
  end.

Definition source_metadata (cfg : MarketplaceConfig) (version reportVersion : string)
    : SourceMetadata :=
  mkSourceMetadata (ClusterUUID cfg) (RhmAccountID cfg) (environment cfg) version reportVersion.

(** [config.ReporterSchema], for the writer and for the builder. *)
Inductive SchemaVersion := V1alpha1 | V2alpha1 | V3alpha1.

Definition ProvideWriter (schema : string) : result string SchemaVersion :=
  if schema == "v1alpha1" then Ok V1alpha1
  else if schema == "v2alpha1" then Ok V2alpha1
  else if schema == "v3alpha1" then Ok V3alpha1
  else Err ("Unsupported reporterSchema: " +:+ schema).

Definition ProvideDataBuilder (schema : string)
    : result string (SchemaVersion * MarketplaceReportDataBuilder) :=
  version ← ProvideWriter schema; Ok (version, empty_builder).

(** ** The writer *)

Inductive WriteError :=
| WMkdir (e : string)
| WMarshal (e : string)
| WWrite (e : string)
| WBuild (es : list BuildError).

Section writer.
Context {Data W : Type} `{!FileSystem W}.
(** The builder's [Build], and whether the writer uses its record before it looks
    at its error. *)
Variable Build : MarketplaceReportDataBuilder → result BuildError Data.
Variable asserts_first : bool.
(** The JSON of a slice with its identifier, and of the last file from the sizes
    of the slices. *)
Variable marshal_slice : string → list Data → result string string.
Variable marshal_last : list (string * nat) → result string string.
Variable last_name : string.
(** [gopart.Partition]. *)
Variable Partition : nat → Z → list (nat * nat).

(** The records of a slice and the errors of the builders that have none; the
    record of one that failed is nil. *)
Fixpoint build_slice (l : list MarketplaceReportDataBuilder)
    : outcome (list Data * list BuildError) :=
  match l with
  | [] => Ret ([], [])
  | builder :: l =>
      match Build builder with
      | Ok metric =>
          '(metrics, es) ← build_slice l; Ret (metric :: metrics, es)
      | Err e =>
          if asserts_first then Panic
          else '(metrics, es) ← build_slice l; Ret (metrics, e :: es)
      end
  end.

(** [metricsArr[low:high]]. *)
Definition slice {A} (r : nat * nat) (l : list A) : list A := take (r.2 - r.1) (drop r.1 l).

Fixpoint write_slices (filedir : string) (arr : list MarketplaceReportDataBuilder)
    (ranges : list (nat * nat)) (filenames : list string) (sizes : list (string * nat))
    (reportErrors : list BuildError) (w : W)
    : outcome (W * result WriteError (list string * list (string * nat) * list BuildError)) :=
  match ranges with
  | [] => Ret (w, Ok (filenames, sizes, reportErrors))
  | r :: ranges =>
      let '(w, id) := NewUUID w in
      '(metrics, es) ← build_slice (slice r arr);
      match marshal_slice id metrics with
      | Err e => Ret (w, Err (WMarshal e))
      | Ok content =>
          let filename := filepath_Join filedir (json_name id) in
          match WriteFile filename content w with
          | (w, Some e) => Ret (w, Err (WWrite e))
          | (w, None) =>
              write_slices filedir arr ranges (filenames ++ [filename])
                (sizes ++ [(id, length metrics)]) (reportErrors ++ es) w
          end
      end
  end.

(** [errors.Combine]. *)
Definition Combine (es : list BuildError) : option WriteError :=
  match es with [] => None | _ => Some (WBuild es) end.

(** [arr] lists the builders in the order the map is ranged over. *)
Definition WriteReport (source : string) (arr : list MarketplaceReportDataBuilder)
    (outputDirectory : string) (partitionSize : Z) (w : W)
    : outcome (W * (list string * option WriteError)) :=
  let filedir := filepath_Join outputDirectory source in
  match Mkdir filedir w with
  | (w, Some (MkdirFailed e)) => Ret (w, ([], Some (WMkdir e)))
  | (w, _) =>
      '(w, written) ← write_slices filedir arr (Partition (length arr) partitionSize) [] [] [] w;
      match written with
      | Err e => Ret (w, ([], Some e))
      | Ok (filenames, sizes, reportErrors) =>
          match marshal_last sizes with
          | Err e => Ret (w, ([], Some (WMarshal e)))
          | Ok content =>
              let filename := filepath_Join filedir (json_name last_name) in
              match WriteFile filename content w with
              | (w, Some e) => Ret (w, ([], Some (WWrite e)))
              | (w, None) => Ret (w, (filenames ++ [filename], Combine reportErrors))
              end
          end
      end
  end.
End writer.

(** ** Lemmas *)

Lemma file_name_inj dir a b :
  filepath_Join dir (json_name a) = filepath_Join dir (json_name b) → a = b.
Proof.
  unfold filepath_Join, json_name. intros H. do 2 apply (inj (String.append _)) in H.
  by apply string_app_inj_r in H.
Qed.

Section lemmas.
Context {Data W : Type} `{!FileSystem W}.
Variable Build : MarketplaceReportDataBuilder → result BuildError Data.
Variable asserts_first : bool.
Variable marshal_slice : string → list Data → result string string.

#[local] Abbreviation build := (build_slice Build asserts_first).

(** The records of the events that have one, in order. *)
Definition built (l : list MarketplaceReportDataBuilder) : list Data :=
  omap (λ d, result_ok (Build d)) l.

Lemma build_slice_spec l ms es :
  build l = Ret (ms, es) →
  ms = built l ∧ (es = [] ↔ ∀ d, d ∈ l → is_ok (Build d) = true) ∧
  (asserts_first = true → es = []).
Proof.
  revert ms es; induction l as [|d l IH]; intros ms es; cbn [build_slice].
  { intros [= <- <-]. split_and!; [done| |done]. split; [|done]. by intros _ d ?%elem_of_nil. }
  cbn [built omap list_omap]. destruct (Build d) as [m|e] eqn:Hd; cbn [result_ok].
  - destruct (build l) as [[ms' es']|]; [|done]. cbn. intros [= <- <-].
    destruct (IH _ _ eq_refl) as (-> & Hes & Ha). split_and!; [done| |done].
    rewrite Hes. split; intros H d'.
    + intros [->|Hd']%elem_of_cons; [by rewrite Hd|by apply H].
    + intros Hd'. apply H. by right.
  - destruct (build l) as [[ms' es']|]; [|by destruct asserts_first].
    destruct (IH _ _ eq_refl) as (-> & Hes & Ha). clear IH. cbn [mbind outcome_mbind].
    destruct asserts_first; [done|]. intros [= <- <-]. split_and!; [done| |done].
    split; [done|]. intros H. specialize (H d ltac:(by left)). by rewrite Hd in H.
Qed.

(** What the loop writes: a slice per range under an identifier of its own. *)
Lemma write_slices_spec dir arr ranges fs szs es w w' fs' szs' es' :
  write_slices Build asserts_first marshal_slice dir arr ranges fs szs es w =
    Ret (w', Ok (fs', szs', es')) →
  ∃ slices : list (string * list Data),
    slices.*2 = built <$> ((λ r, slice r arr) <$> ranges) ∧
    fs' = fs ++ ((λ s, filepath_Join dir (json_name s.1)) <$> slices) ∧
    szs' = szs ++ ((λ s, (s.1, length s.2)) <$> slices) ∧
    (es' = [] ↔ es = [] ∧ ∀ r d, r ∈ ranges → d ∈ slice r arr → is_ok (Build d) = true) ∧
    (asserts_first = true → es' = es) ∧
    NoDup slices.*1 ∧ used w ⊆ used w' ∧
    (∀ id, id ∈ slices.*1 → id ∉ used w ∧ id ∈ used w' ∧ id ≠ "manifest" ∧ id ≠ "metadata") ∧
    (∀ s, s ∈ slices → ∃ content, marshal_slice s.1 s.2 = Ok content ∧
       files w' !! filepath_Join dir (json_name s.1) = Some content) ∧
    (∀ name, name ∉ (λ s, filepath_Join dir (json_name s.1)) <$> slices →
       files w' !! name = files w !! name).
Proof.
  revert fs szs es w; induction ranges as [|r ranges IH]; intros fs szs es w; cbn [write_slices].
  { intros [= <- <- <- <-]. exists []. cbn. rewrite !app_nil_r.
    split_and!; try done; [|constructor|intros ? ?%elem_of_nil|intros ? ?%elem_of_nil]; try done.
    split; [|by intros [? _]]. intros ->. split; [done|]. by intros r d ?%elem_of_nil. }
  destruct (NewUUID w) as [w1 id] eqn:Hid.
  destruct (NewUUID_fresh _ _ _ Hid) as (Hf1 & Hid1 & Hu1 & Hn1 & Hn2).
  destruct (build (slice r arr)) as [[ms es1]|] eqn:Hb; [|done]. cbn [mbind outcome_mbind].
  destruct (build_slice_spec _ _ _ Hb) as (-> & Hes1 & Ha1).
  destruct (marshal_slice id (built (slice r arr))) as [content|] eqn:Hm; [|done].
  destruct (WriteFile _ content w1) as [w2 [e|]] eqn:Hw; [done|].
  apply WriteFile_files in Hw as [Hf2 Hu2]. intros H.
  destruct (IH _ _ _ _ H) as (slices & Hsl & -> & -> & Hes & Ha & Hnd & Hus & Hids & Hfiles & Hrest).
  clear IH H. exists ((id, built (slice r arr)) :: slices).
  assert (Hidu : id ∈ used w2) by (rewrite Hu2, Hu1; set_solver).
  assert (Hnot : id ∉ slices.*1) by (intros Hin; by apply Hids in Hin as [? _]).
  assert (Hname : filepath_Join dir (json_name id) ∉
      (λ s : string * list Data, filepath_Join dir (json_name s.1)) <$> slices).
  { intros (s & Hs & Hin)%list_elem_of_fmap. apply file_name_inj in Hs. apply Hnot.
    apply list_elem_of_fmap. by exists s. }
  cbn [fmap list_fmap fst snd]. split_and!.
  - by f_equal.
  - by rewrite <- app_assoc.
  - by rewrite <- app_assoc.
  - rewrite Hes, app_nil, Hes1. setoid_rewrite elem_of_cons. naive_solver.
  - intros Hat. by rewrite (Ha Hat), (Ha1 Hat), app_nil_r.
  - by constructor.
  - rewrite Hu2, Hu1 in Hus. set_solver.
  - intros id' [->|Hin]%elem_of_cons.
    + split_and!; [done|set_solver|done|done].
    + destruct (Hids _ Hin) as (H1 & H2 & ? & ?). split_and!; try done.
      rewrite Hu2, Hu1 in H1. set_solver.
  - intros s [->|Hin]%elem_of_cons; [|by apply Hfiles].
    exists content. split; [done|]. cbn [fst]. rewrite Hrest by done. rewrite Hf2. apply lookup_insert_eq.
  - intros name Hnm. apply not_elem_of_cons in Hnm as [Hne Hnm].
    rewrite Hrest by done. rewrite Hf2, lookup_insert_ne by done. by rewrite Hf1.
Qed.

Lemma write_slices_error dir arr ranges fs szs es w w' e :
  write_slices Build asserts_first marshal_slice dir arr ranges fs szs es w = Ret (w', Err e) →
  ∀ es', e ≠ WBuild es'.
Proof.
  revert fs szs es w; induction ranges as [|r ranges IH]; intros fs szs es w; cbn [write_slices];
    [done|].
  destruct (NewUUID w) as [w1 id]. destruct (build (slice r arr)) as [[ms es1]|]; [|done].
  cbn [mbind outcome_mbind]. destruct (marshal_slice id ms); [|by intros [= <- <-]].
  destruct (WriteFile _ _ w1) as [w2 [e'|]]; [by intros [= <- <-]|]. apply IH.
Qed.

Lemma built_join ls : mjoin (built <$> ls) = built (mjoin ls).
Proof.
  induction ls as [|l ls IH]; [done|].
  change (built l ++ mjoin (built <$> ls) = built (l ++ mjoin ls)). rewrite IH.
  unfold built. by rewrite omap_app.
Qed.

Lemma length_built l : length (built l) ≤ length l.
Proof.
  induction l as [|d l IH]; [done|]. cbn. destruct (result_ok (Build d)); cbn; unfold built in IH; lia.
Qed.
End lemmas.

(** What a writer that got to its end did. *)
Lemma WriteReport_steps {Data W} `{!FileSystem W}
    (Build : MarketplaceReportDataBuilder → result BuildError Data) (asserts_first : bool)
    (marshal_slice : string → list Data → result string string)
    (marshal_last : list (string * nat) → result string string) (last_name : string)
    (Partition : nat → Z → list (nat * nat)) (source : string)
    (arr : list MarketplaceReportDataBuilder) (dir : string) (size : Z)
    (w w' : W) (names : list string) (err : option WriteError) :
  WriteReport Build asserts_first marshal_slice marshal_last last_name Partition source arr dir size w =
    Ret (w', (names, err)) →
  (∀ e, err = Some e → ∃ es, e = WBuild es) →
  let filedir := filepath_Join dir source in
  let path := filepath_Join filedir (json_name last_name) in
  ∃ w1 w2 fs szs es content,
    write_slices Build asserts_first marshal_slice filedir arr (Partition (length arr) size) [] [] [] w1 =
      Ret (w2, Ok (fs, szs, es)) ∧
    marshal_last szs = Ok content ∧ names = fs ++ [path] ∧ err = Combine es ∧
    files w' = <[path := content]> (files w2).
Proof.
  intros Hw Herr filedir path. unfold WriteReport in Hw. fold filedir in Hw. fold path in Hw.
  assert (Hno : ∀ e, err = Some e → (∀ es, e ≠ WBuild es) → False)
    by (intros e He Hn; destruct (Herr e He) as [es ->]; by apply (Hn es)).
  destruct (Mkdir filedir w) as [w1 me].
  destruct me as [[|e]|]; [|by injection Hw as <- <- <-; destruct (Hno _ eq_refl)|].
  all: exists w1; destruct (write_slices _ _ _ _ _ _ _ _ _ _) as [[w2 wr]|] eqn:Hws; [|done];
    cbn [mbind outcome_mbind] in Hw; destruct wr as [[[fs szs] es]|e];
    [|injection Hw as <- <- <-; destruct (Hno _ eq_refl); by eapply write_slices_error].
  all: destruct (marshal_last _) as [content|] eqn:Hm;
    [|by injection Hw as <- <- <-; destruct (Hno _ eq_refl)];
    destruct (WriteFile _ content w2) as [w3 [e|]] eqn:Hw3;
    [by injection Hw as <- <- <-; destruct (Hno _ eq_refl)|].
  all: injection Hw as <- <- <-; apply WriteFile_files in Hw3 as [Hf _];
    by exists w2, fs, szs, es, content.
Qed.

(** ** The three writers *)

Section versions.
Context {Float W : Type} `{!FileSystem W}.
Variable ParseFloat : string → option Float.
Variable xxhash : string → string.
Variable order : LabelSet → list (string * LabelValue).
Variable ns_order : gmap string (gmap string string) → list (string * gmap string string).
Variable decode : list string → LabelSet → result string (gmap string string).
Variable marshal_namespaces : list (string * gmap string string) → result string string.
Variable Partition : nat → Z → list (nat * nat).
(** [version.Version], and [json.Marshal] on the types of each schema. *)
Variable Version : string.
Variable marshal_v1 :
  SourceMetadata → string → list V1.MarketplaceReportData → result string string.
Variable marshal_v2 :
  SourceMetadata → list (V2.MarketplaceReportData Float) → result string string.
Variable marshal_v3 :
  SourceMetadata → list (V3.MarketplaceReportData Float) → result string string.
Variable marshal_report_metadata : string → SourceMetadata → list (string * nat) → result string string.
Variable marshal_manifest : string → string → result string string.

(** The last file of v1alpha1 counts the records of each slice; its writer uses
    a record before it looks at the error. *)
Definition v1_WriteReport (cfg : MarketplaceConfig) (source : string)
    (arr : list MarketplaceReportDataBuilder) : string → Z → W → outcome (W * (list string * option WriteError)) :=
  let metadata := source_metadata cfg Version "v1alpha1" in
  WriteReport (λ d, (v1_Build xxhash order d).2) true (marshal_v1 metadata)
    (marshal_report_metadata source metadata) "metadata" Partition source arr.

Definition v2_WriteReport (cfg : MarketplaceConfig) (source : string)
    (arr : list MarketplaceReportDataBuilder) : string → Z → W → outcome (W * (list string * option WriteError)) :=
  WriteReport (λ d, (v2_Build ParseFloat xxhash order d).2) false
    (λ _, marshal_v2 (source_metadata cfg Version "v2alpha1"))
    (λ _, marshal_manifest "accountMetrics" "1") "manifest" Partition source arr.

Definition v3_WriteReport (cfg : MarketplaceConfig) (source : string)
    (arr : list MarketplaceReportDataBuilder) : string → Z → W → outcome (W * (list string * option WriteError)) :=
  WriteReport
    (λ d, (v3_Build ParseFloat xxhash ns_order decode marshal_namespaces d).2) false
    (λ _, marshal_v3 (source_metadata cfg Version "v3alpha1"))
    (λ _, marshal_manifest "swcAccountMetrics" "1") "manifest" Partition source arr.
End versions.

(** ** Properties *)

(** C28: a report that is written is complete. When the writer ends without an
    error of the file system or of JSON, every event that has a record is in exactly
    one slice, in order; no slice is larger than asked for; the files it names are
    those of the slices and the last one, all different, and each holds what was
    marshalled for it, the last one for the slices' identifiers and sizes. It
    reports an error exactly when some event has no record; a writer that uses a
    record before its error never gets that far. *)
Theorem WriteReport_complete {Data W} `{!FileSystem W}
    (Build : MarketplaceReportDataBuilder → result BuildError Data) (asserts_first : bool)
    (marshal_slice : string → list Data → result string string)
    (marshal_last : list (string * nat) → result string string) (last_name : string)
    (Partition : nat → Z → list (nat * nat)) (source : string)
    (arr : list MarketplaceReportDataBuilder) (outputDirectory : string) (partitionSize : Z)
    (w w' : W) (names : list string) (err : option WriteError) :
  (∀ n size, (0 < size)%Z → covers 0 n (Z.to_nat size) (Partition n size)) →
  (0 < partitionSize)%Z → last_name = "manifest" ∨ last_name = "metadata" →
  WriteReport Build asserts_first marshal_slice marshal_last last_name Partition source arr
    outputDirectory partitionSize w = Ret (w', (names, err)) →
  (∀ e, err = Some e → ∃ es, e = WBuild es) →
  let path name := filepath_Join (filepath_Join outputDirectory source) (json_name name) in
  ∃ slices : list (string * list Data),
    mjoin slices.*2 = built Build arr ∧
    (∀ s, s ∈ slices → length s.2 ≤ Z.to_nat partitionSize) ∧
    names = ((λ s, path s.1) <$> slices) ++ [path last_name] ∧ NoDup names ∧
    (∀ s, s ∈ slices → ∃ content, marshal_slice s.1 s.2 = Ok content ∧
       files w' !! path s.1 = Some content) ∧
    (∃ content, marshal_last ((λ s, (s.1, length s.2)) <$> slices) = Ok content ∧
       files w' !! path last_name = Some content) ∧
    (err = None ↔ ∀ d, d ∈ arr → is_ok (Build d) = true) ∧
    (asserts_first = true → err = None).
Proof.
  intros Hpart Hsize Hlast Hw Herr path. set (filedir := filepath_Join outputDirectory source) in *.
  specialize (Hpart (length arr) partitionSize Hsize).
  set (ranges := Partition (length arr) partitionSize) in *.
  destruct (WriteReport_steps _ _ _ _ _ _ _ _ _ _ _ _ _ _ Hw Herr)
    as (w1 & w2 & fs & szs & es & content & Hws & Hm & -> & -> & Hf3).
  fold filedir in Hws. fold ranges in Hws. fold filedir in Hf3. fold (path last_name) in Hf3.
  apply write_slices_spec in Hws as (slices & Hsl & -> & -> & Hes & Ha & Hnd & _ & Hids & Hfiles & Hrest).
  cbn [app] in *.
  assert (Hjoin : mjoin ((λ r, slice r arr) <$> ranges) = arr) by exact (covers_concat _ _ _ _ Hpart).
  assert (Hnew : path last_name ∉
      (λ s : string * list Data, filepath_Join filedir (json_name s.1)) <$> slices).
  { intros (s & Hs & Hin)%list_elem_of_fmap. apply file_name_inj in Hs.
    destruct (Hids s.1) as (_ & _ & ? & ?); [apply list_elem_of_fmap; by exists s|]. naive_solver. }
  exists slices. split_and!.
  - by rewrite Hsl, built_join, Hjoin.
  - intros s Hs. assert (Hin : s.2 ∈ slices.*2) by (apply list_elem_of_fmap; by exists s).
    rewrite Hsl, <- list_fmap_compose in Hin. apply list_elem_of_fmap in Hin as (r & -> & Hr).
    etransitivity; [apply length_built|]. by eapply covers_size.
  - done.
  - apply NoDup_app. split_and!; [|by intros x Hx ->%list_elem_of_singleton|apply NoDup_singleton].
    change (NoDup ((λ i, filepath_Join filedir (json_name i)) ∘ fst <$> slices)).
    rewrite list_fmap_compose. apply NoDup_fmap_2; [|done]. intros a b. apply file_name_inj.
  - intros s Hs. destruct (Hfiles _ Hs) as (c & Hc & Hf). exists c. split; [done|].
    rewrite Hf3, lookup_insert_ne; [done|]. intros Heq. apply Hnew. rewrite Heq.
    apply list_elem_of_fmap. by exists s.
  - exists content. split; [done|]. rewrite Hf3. apply lookup_insert_eq.
  - transitivity (es = []); [by destruct es|]. rewrite Hes.
    assert (Hin : ∀ d, d ∈ arr ↔ ∃ r, r ∈ ranges ∧ d ∈ slice r arr).
    { intros d. transitivity (d ∈ mjoin ((λ r, slice r arr) <$> ranges)); [by rewrite Hjoin|].
      rewrite list_elem_of_join. setoid_rewrite list_elem_of_fmap. naive_solver. }
    setoid_rewrite Hin. naive_solver.
  - intros Hat. by rewrite (Ha Hat).
Qed.

(** ** A file system in memory *)

Record Disk := mkDisk { disk_files : gmap string string; disk_used : gset string }.

Definition fresh_id (w : Disk) : string := fresh (disk_used w ∪ {[ "manifest"; "metadata" ]}).

#[export, refine] Instance disk : FileSystem Disk := {|
  files := disk_files;
  used := disk_used;
  Mkdir dir w := (w, None);
  WriteFile name content w := (mkDisk (<[name := content]> (disk_files w)) (disk_used w), None);
  NewUUID w := (mkDisk (disk_files w) ({[ fresh_id w ]} ∪ disk_used w), fresh_id w)
|}.
Proof.
  - by intros dir w w' e [= <- <-].
  - by intros name content w w' [= <-].
  - intros w w' id [= <- <-]. cbn [disk_files disk_used].
    pose proof (is_fresh (disk_used w ∪ {[ "manifest"; "metadata" ]})) as H.
    fold (fresh_id w) in H. set_solver.
Defined.

Fixpoint cut (fuel lo hi size : nat) : list (nat * nat) :=
  match fuel with
  | O => []
  | S fuel => if bool_decide (lo < hi) then (lo, min (lo + size) hi) :: cut fuel (min (lo + size) hi) hi size
              else []
  end.
Definition cut_partition (n : nat) (size : Z) : list (nat * nat) := cut n 0 n (Z.to_nat size).

Lemma cut_covers fuel lo hi size :
  0 < size → lo ≤ hi → hi - lo ≤ fuel → covers lo hi size (cut fuel lo hi size).
Proof.
  revert lo; induction fuel as [|fuel IH]; intros lo Hs Hlo Hf; cbn [cut covers]; [lia|].
  case_bool_decide; cbn [covers]; [|lia]. split_and!; [done|lia|lia|lia|]. apply IH; lia.
Qed.

Definition empty_disk : Disk := mkDisk ∅ ∅.
Definition toy_config : MarketplaceConfig := mkMktConfig ∅ "a1" "c1".
Definition toy_write : outcome (Disk * (list string * option WriteError)) :=
  v2_WriteReport dec_of_string same_text some_order cut_partition "1.0" (λ _ _, Ok "slice")
    (λ _ _, Ok "manifest") toy_config "r1" [two_samples; empty_builder; two_samples] "/tmp" 2
    empty_disk.

Lemma WriteReport_complete_witness :
  match toy_write with
  | Ret (w, (names, err)) => length names = 3 ∧ NoDup names ∧ err = Some (WBuild [ErrNoValuesSet])
  | Panic => False
  end.
Proof.
  assert (He : match toy_write with Ret (w, (names, err)) =>
      length names = 3 ∧ err = Some (WBuild [ErrNoValuesSet]) | Panic => False end)
    by (vm_compute; split; reflexivity).
  destruct toy_write as [[w [names err]]|] eqn:Hw; [|done]. destruct He as [Hl ->].
  destruct (WriteReport_complete (λ d, (v2_Build dec_of_string same_text some_order d).2) false
    (λ _ _, Ok "slice") (λ _, Ok "manifest") "manifest" cut_partition "r1"
    [two_samples; empty_builder; two_samples] "/tmp" 2 empty_disk w names
    (Some (WBuild [ErrNoValuesSet])) ltac:(intros; apply cut_covers; lia) ltac:(lia)
    ltac:(by left) Hw) as (slices & _ & _ & _ & Hnd & _).
  { intros e [= <-]. by eexists. }
  by split_and!.
Defined.
