(* ===== verification/Collect.v ===== *)
(** * Collecting a report

    The model of [reporter/v2/pkg/reporter/reporter.go] and [discover.go]: which
    queries a report makes, what becomes of each sample they return, and the
    builders the samples end up in. Queries and samples are handled by several
    goroutines: the collection is a step relation, in which any of them may be
    next. Prometheus, the templates and the conversion of labels are arguments. *)

From S2P Require Import Prelude GoTime Strconv Workloads PromLabels PromQuery MeterDefinition Helpers MeterReport Schema Writer.
Local Open Scope go_scope.

(** ** Answers of Prometheus *)

(** [model.SampleStream]: a series with its labels. *)
Record Series := mkSeries { SMetric : gmap string string; SValues : list SamplePair }.

(** [model.Value]: a matrix, or one of the types that are not processed. *)
Inductive ModelValue := ValMatrix (m : list Series) | ValVector | ValScalar | ValString | ValNone.

(** ** Label maps *)

(** A metric is ranged over in some order: [order] lists it. *)
Definition getAllKeysFromMetric (order : gmap string string → list (string * string))
    (metric : gmap string string) : list LabelValue :=
  kv ← order metric; [LStr kv.1; LStr kv.2].

Definition getKeysFromMetric (metric : gmap string string) (labels : list string)
    : list LabelValue :=
  label ← labels;
  match metric !! label with Some v => [LStr label; LStr v] | None => [] end.

Definition getMatrixValue (m : gmap string string) (labelName : string) : string * bool :=
  match m !! labelName with Some v => (v, true) | None => ("", false) end.

(** The body of the loop over the chunks; a chunk of one value is an index out of
    range. *)
Definition kv_step (metrics : LabelSet) (chunk : list LabelValue)
    : outcome (result string LabelSet) :=
  match chunk with
  | [] => Ret (Ok metrics)
  | LStr key :: value :: _ => Ret (Ok (<[key := value]> metrics))
  | LOther _ :: _ :: _ => Ret (Err "key type is not a string")
  | [_] => Panic
  end.

Fixpoint kv_loop (metrics : LabelSet) (chunks : list (list LabelValue))
    : outcome (result string LabelSet) :=
  match chunks with
  | [] => Ret (Ok metrics)
  | chunk :: chunks =>
      r ← kv_step metrics chunk;
      match r with Ok metrics => kv_loop metrics chunks | Err e => Ret (Err e) end
  end.

Definition kvToMap (keysAndValues : list LabelValue) : outcome (result string LabelSet) :=
  if negb (Nat.even (length keysAndValues)) then Ret (Err "keyAndValues must be a length of 2")
  else chunks ← ChunkBy keysAndValues 2; kv_loop ∅ chunks.

(** ** Queries *)

Record meterDefPromQuery := mkQuery {
  uid : string;
  query : PromQuery;
  meterDefLabel : MeterDefPrometheusLabels;
  meterGroup : string;
  meterKind : string;
  label : string
}.

Record meterDefPromModel := mkModel {
  mdef : meterDefPromQuery;
  MValue : ModelValue;
  MetricName : string;
  MType : string
}.

Notation Queries := (gmap NamespacedName (list meterDefPromQuery)).

Section queries.
Context {LS : Type}.
Variable DurationString : Z → string.
Variable ParseDuration : string → option Z.
Variable marshal_strings : list string → string.
Variable unmarshal_strings : string → option (list string).
Variable quote_json : string → result string string.
Variable empty_array : string.

Definition buildPromQuery (labels : gmap string string) (start end_ : GoTime)
    : outcome (result string meterDefPromQuery) :=
  match FromLabels ParseDuration unmarshal_strings labels with
  | Err e => Ret (Err e)
  | Ok m =>
      q ← NewPromQueryFromLabels m start end_;
      Ret (Ok (mkQuery (PL.UID m) q m (PL.MeterGroup m) (PL.MeterKind m) (PL.Metric m)))
  end.

(** The queries of one reference; the first failure ends it. *)
Fixpoint transform_loop (labels : list MeterDefPrometheusLabels) (start end_ : GoTime)
    (slice : list meterDefPromQuery) : outcome (result string (list meterDefPromQuery)) :=
  match labels with
  | [] => Ret (Ok slice)
  | labelStruct :: labels =>
      match ToLabels DurationString marshal_strings quote_json empty_array labelStruct with
      | Err e => Ret (Err e)
      | Ok labelMap =>
          r ← buildPromQuery labelMap start end_;
          match r with
          | Err e => Ret (Err e)
          | Ok promQuery => transform_loop labels start end_ (slice ++ [promQuery])
          end
      end
  end.

Definition transformMeterDefinitionReference (ref : V1Beta1.MeterDefinitionReference LS)
    (start end_ : GoTime) : outcome (result string (list meterDefPromQuery)) :=
  match V1Beta1.ReferenceToPrometheusLabels ref with
  | Err e => Ret (Err e)
  | Ok labels => transform_loop labels start end_ []
  end.

(** The first and the last instant of a series' samples, an hour each; a series
    without samples leaves the zero time. *)
Definition span_step (s : option (GoTime * GoTime)) (v : SamplePair) : option (GoTime * GoTime) :=
  let start := sample_time (Timestamp v) in
  let end_ := GoTime.Add (sample_time (Timestamp v)) Hour in
  let '(min, max) := default (start, end_) s in
  Some (if Before start min then start else min, if After end_ max then end_ else max).

Definition span (values : list SamplePair) : GoTime * GoTime :=
  let '(min, max) := default (no_time, no_time) (foldl span_step None values) in
  (UTC min, UTC max).

(** One series of the answer: skipped without a group and kind, an error, or a
    query more for its definition. *)
Definition getQueries_step (s : Queries * list string) (matrix : Series)
    : outcome (Queries * list string) :=
  let '(results, errs) := s in
  if ((getMatrixValue (SMetric matrix) "meter_group").1 == "") &&
     ((getMatrixValue (SMetric matrix) "meter_kind").1 == "") then Ret s
  else
    let '(min, max) := span (SValues matrix) in
    r ← buildPromQuery (SMetric matrix) min max;
    match r with
    | Err e => Ret (results, errs ++ [e])
    | Ok promQuery =>
        let key := QMeterDef (query promQuery) in
        Ret (<[key := default [] (results !! key) ++ [promQuery]]> results, errs)
    end.

Definition getQueries (matrixVals : list Series) : outcome (Queries * list string) :=
  foldM_outcome getQueries_step (∅, []) matrixVals.

(** ** The reporter's state and what it asks *)

(** [TakeList]: what [ProduceMeterDefinitions] and the rest read of the reporter. *)
Record MarketplaceReporter := mkReporter {
  MktConfig : MarketplaceConfig;
  report : MeterReport LS;
  meterDefinitions : list (V1Beta1.MeterDefinitionReference LS);
  k8sResources : list K8sResource;
  RetryLimit : Z
}.

Context {W : Type}.
(** [PrometheusAPI.QueryMeterDefinitions] and [QueryNamespaceLabels], on the state
    of the server they ask: start, end and step of the range. *)
Variable AskMeterDefinitions : GoTime → GoTime → Z → W → W * result string ModelValue.
Variable AskNamespaceLabels :
  GoTime → GoTime → Z → list string → W → W * result string ModelValue.

(** [utils.Retry] around a call whose value is kept: the last answer. *)
Definition retried_call {A} (f : W → W * result string A) (retry : Z) (w : W)
    : W * result string A :=
  let g '(w, _) := let '(w, r) := f w in
    ((w, Some r), match r with Ok _ => None | Err e => Some e end) in
  match Retry g retry (w, None) with
  | ((w, _), Some e) => (w, Err e)
  | ((w, Some r), None) => (w, r)
  | ((w, None), None) => (w, Err "")
  end.

Definition window (r : MarketplaceReporter) : GoTime * GoTime :=
  (UTC (StartTime (MRSpec (report r))),
   UTC (GoTime.Add (EndTime (MRSpec (report r))) (- millisecond))).

Definition getMeterDefinitions (r : MarketplaceReporter) (w : W)
    : outcome (W * result string Queries) :=
  let '(start, end_) := window r in
  match retried_call (AskMeterDefinitions start end_ Hour) (RetryLimit r) w with
  | (w, Err e) => Ret (w, Err e)
  | (w, Ok (ValMatrix m)) =>
      '(results, errs) ← getQueries m;
      match errs with
      | [] => Ret (w, Ok results)
      | _ => Ret (w, Err (Join errs "; "))
      end
  | (w, Ok _) => Ret (w, Err "result type is unprocessable")
  end.

(** The definitions the report lists: the first reference of each name counts. *)
Fixpoint reference_loop (refs : list (V1Beta1.MeterDefinitionReference LS))
    (start end_ : GoTime) (definitionSet : Queries) : outcome (result string Queries) :=
  match refs with
  | [] => Ret (Ok definitionSet)
  | ref :: refs =>
      r ← transformMeterDefinitionReference ref start end_;
      match r with
      | Err e => Ret (Err e)
      | Ok queries =>
          let key := mkNN (V1Beta1.RNamespace ref) (V1Beta1.RName ref) in
          reference_loop refs start end_
            (match definitionSet !! key with
             | Some _ => definitionSet | None => <[key := queries]> definitionSet end)
      end
  end.

(** [saved] lists the definitions Prometheus has seen in the order they are
    ranged over, and [order] the set that is sent: what is sent, in order. *)
Definition ProduceMeterDefinitions (order : Queries → list (NamespacedName * list meterDefPromQuery))
    (r : MarketplaceReporter) (w : W) : outcome (W * result string (list meterDefPromQuery)) :=
  let start := UTC (StartTime (MRSpec (report r))) in
  let end_ := UTC (GoTime.Add (EndTime (MRSpec (report r))) (- second)) in
  refs ← reference_loop (meterDefinitions r) start end_ ∅;
  match refs with
  | Err e => Ret (w, Err e)
  | Ok definitionSet =>
      '(w, saved) ← getMeterDefinitions r w;
      match saved with
      | Err e => Ret (w, Err e)
      | Ok savedSet =>
          let definitionSet := foldl (λ m '(key, val),
            match m !! key with Some _ => m | None => <[key := val]> m end)
            definitionSet (order savedSet) in
          Ret (w, Ok (kv ← order definitionSet; kv.2))
      end
  end.

(** ** Namespaces *)

Definition labelPrefix : string := "label_".
Definition swcLabelPrefix : string := "label_swc_saas_ibm_com_".

(** The labels of a series that the report keeps, without their prefix; a value
    that is no text panics. [pairs] lists the map in the order it is ranged over. *)
Definition swc_step (k8sLabels : gmap string string) (kv : string * LabelValue)
    : outcome (gmap string string) :=
  if HasPrefix kv.1 swcLabelPrefix
  then v ← as_string kv.2; Ret (<[TrimPrefix kv.1 labelPrefix := v]> k8sLabels)
  else Ret k8sLabels.

Variable metric_order : gmap string string → list (string * string).
Variable label_order : LabelSet → list (string * LabelValue).

Definition namespace_step (nsLabels : gmap string (gmap string string)) (matrix : Series)
    : outcome (result string (gmap string (gmap string string))) :=
  kv ← kvToMap (getAllKeysFromMetric metric_order (SMetric matrix));
  match kv with
  | Err e => Ret (Err e)
  | Ok kvMap =>
      match kvMap !! "namespace" with
      | None => Ret (Ok nsLabels)
      | Some namespace =>
          k8sLabels ← foldM_outcome swc_step ∅ (label_order kvMap);
          ns ← as_string namespace;
          Ret (Ok (<[ns := k8sLabels]> nsLabels))
      end
  end.

Fixpoint namespace_loop (nsLabels : gmap string (gmap string string)) (m : list Series)
    : outcome (result string (gmap string (gmap string string))) :=
  match m with
  | [] => Ret (Ok nsLabels)
  | matrix :: m =>
      r ← namespace_step nsLabels matrix;
      match r with Err e => Ret (Err e) | Ok nsLabels => namespace_loop nsLabels m end
  end.

Definition getNamespaceLabels (r : MarketplaceReporter) (namespaces : list string) (w : W)
    : outcome (W * result string (gmap string (gmap string string))) :=
  let '(start, end_) := window r in
  match retried_call (AskNamespaceLabels start end_ Hour namespaces) (RetryLimit r) w with
  | (w, Err e) => Ret (w, Err e)
  | (w, Ok (ValMatrix m)) => nl ← namespace_loop ∅ m; Ret (w, nl)
  | (w, Ok _) => Ret (w, Err "result type is unprocessable")
  end.
End queries.

Arguments MarketplaceReporter : clear implicits.

(** ** Queries and samples *)

Inductive CollectError := Warning (text : string) | Failure (text : string).

(** A sample of a series of an answer. *)
Record Sample := mkSampleOf {
  smodel : meterDefPromQuery; smetric : gmap string string; spair : SamplePair
}.

(** The samples the processing of an answer goes through; only an answer without a
    type is an error, the other types are passed over. *)
Definition samples_of (pmodel : meterDefPromModel) : list Sample :=
  match MValue pmodel with
  | ValMatrix m => matrix ← m; mkSampleOf (mdef pmodel) (SMetric matrix) <$> SValues matrix
  | _ => []
  end.
Definition model_error (pmodel : meterDefPromModel) : option CollectError :=
  match MValue pmodel with
  | ValNone => Some (Failure "can't process model type=none")
  | _ => None
  end.

Definition with_env (m : Templated) (namespaces : gmap string (gmap string string))
    (resources : list K8sResource) : Templated :=
  mkTemplated (TLabels m) (IntervalStart m) (IntervalEnd m) (Value m) (LabelMap m)
    namespaces resources (thash m).

Section collect.
Context {LS Tpl : Type}.
Variable parse : string → result string Tpl.
Variable execute : Tpl → LabelSet → result string string.
Variable ParseRFC3339 : string → option GoTime.
Variable tpl_order : list (TField * Tpl) → list (TField * Tpl).
Variable xxhash : string → string.
Variable metric_order : gmap string string → list (string * string).
Variable render : ResultQueryArgs → result string string.
(** The text of an error of the metrics API. *)
Variable failure_text : QueryFailure → string.
Variable r : MarketplaceReporter LS.

(** [queryProcess]: one query, retried; the query keeps what each try changed. *)
Definition queryProcess
    (QueryRange : string → GoTime → GoTime → Z → result QueryError ModelValue * list string)
    (m : meterDefPromQuery) : outcome (result string meterDefPromModel) :=
  let f '(q, _) := match ReportQuery render QueryRange q with
    | Panic => ((q, None), None)
    | Ret (Ok v, _, q) => ((q, Some v), None)
    | Ret (Err e, _, q) => ((q, None), Some e)
    end in
  match Retry f (RetryLimit r) (query m, None) with
  | (_, Some e) => Ret (Err ("error with query: " +:+ failure_text e))
  | ((_, None), None) => Panic
  | ((q, Some v), None) =>
      let m := mkQuery (uid m) q (meterDefLabel m) (meterGroup m) (meterKind m) (label m) in
      Ret (Ok (mkModel m v (QMetric q) (QType q)))
  end.

(** The namespace whose labels are asked for. *)
Definition record_namespace (m : MeterDefPrometheusLabels) : string :=
  if PL.ResourceNamespace m != "" then PL.ResourceNamespace m
  else if PL.ExportedMeterDefNamespace m != "" then PL.ExportedMeterDefNamespace m
  else "".

(** The record of a sample, before it is added; [labels] answers for
    [getNamespaceLabels]. A map that could not be made is nil. *)
Definition sample_record
    (labels : string → result string (gmap string (gmap string string))) (s : Sample)
    : outcome (result CollectError Templated) :=
  let key := QMeterDef (query (smodel s)) in
  let named := (NNName key != "") && (NNNamespace key != "") in
  kv ← kvToMap (getAllKeysFromMetric metric_order (smetric s));
  match kv with
  | Err e => if named then Panic else Ret (Err (Failure ("failed to get kvmap: " +:+ e)))
  | Ok kvMap =>
      let '(name, namespace) := if named then (NNName key, NNNamespace key) else ("", "") in
      let kvMap := if named
        then <["meter_def_namespace" := LStr namespace]> (<["meter_def_name" := LStr name]> kvMap)
        else kvMap in
      t ← PrintTemplate parse execute ParseRFC3339 tpl_order (meterDefLabel (smodel s)) kvMap (spair s);
      match t with
      | Err e => Ret (Err (Warning (namespace +:+ "/" +:+ name +:+ " " +:+ e +:+ ": template error")))
      | Ok record =>
          let ns := record_namespace (TLabels record) in
          if ns != "" then
            match labels ns with
            | Err e => Ret (Err (Failure ("failed to get namespace labels: " +:+ e)))
            | Ok l => Ret (Ok (with_env record l (k8sResources r)))
            end
          else Ret (Ok (with_env record (NamespaceLabels record) (k8sResources r)))
      end
  end.

Notation Builders := (gmap string MarketplaceReportDataBuilder).

Definition new_builder : MarketplaceReportDataBuilder :=
  SetReportInterval (StartTime (MRSpec (report r))) (EndTime (MRSpec (report r)))
    (SetAccountID (RhmAccountID (MktConfig r))
      (SetClusterID (ClusterUUID (MktConfig r)) empty_builder)).

(** The record is added, under the lock, to the builder of its hash. *)
Definition add_record (results : Builders) (record : Templated) : Builders :=
  let '(record, h) := Hash xxhash record in
  <[h := AddMeterDefinitionLabels record (default new_builder (results !! h))]> results.

(** ** The collection *)

Record Collection := mkCollection {
  cqueries : list meterDefPromQuery;   (** not yet asked *)
  cmodels : list meterDefPromModel;    (** answers not yet looked at *)
  csamples : list Sample;              (** samples not yet processed *)
  results : Builders;
  errorList : list string;
  warningsList : list string;
  occurred : gset string
}.

(** The goroutine that collects errors: an error is kept once, a warning unless
    its text occurred as an error. *)
Definition collect_error (e : CollectError) (c : Collection) : Collection :=
  match e with
  | Warning t =>
      if bool_decide (t ∈ occurred c) then c
      else mkCollection (cqueries c) (cmodels c) (csamples c) (results c) (errorList c)
             (warningsList c ++ [t]) (occurred c)
  | Failure t =>
      if bool_decide (t ∈ occurred c) then c
      else mkCollection (cqueries c) (cmodels c) (csamples c) (results c) (errorList c ++ [t])
             (warningsList c) ({[ t ]} ∪ occurred c)
  end.

Definition with_work (q : list meterDefPromQuery) (m : list meterDefPromModel) (s : list Sample)
    (c : Collection) : Collection :=
  mkCollection q m s (results c) (errorList c) (warningsList c) (occurred c).
Definition with_results (b : Builders) (c : Collection) : Collection :=
  mkCollection (cqueries c) (cmodels c) (csamples c) b (errorList c) (warningsList c) (occurred c).

(** What a step did. *)
Inductive Event :=
| Answered (m : meterDefPromModel)
| QueryFailed (q : meterDefPromQuery) (e : string)
| Looked (m : meterDefPromModel)
| Processed (s : Sample) (o : result CollectError Templated).

(** Any goroutine may be next: one that asks a query, one that takes an answer, one
    that processes a sample of an answer it holds. Prometheus may answer differently
    each time. *)
Inductive collect_step : Collection → Event → Collection → Prop :=
| step_answer c q1 q q2 QueryRange m :
    cqueries c = q1 ++ q :: q2 → queryProcess QueryRange q = Ret (Ok m) →
    collect_step c (Answered m) (with_work (q1 ++ q2) (cmodels c ++ [m]) (csamples c) c)
| step_query_error c q1 q q2 QueryRange e :
    cqueries c = q1 ++ q :: q2 → queryProcess QueryRange q = Ret (Err e) →
    collect_step c (QueryFailed q e)
      (collect_error (Failure e) (with_work (q1 ++ q2) (cmodels c) (csamples c) c))
| step_look c m1 m m2 :
    cmodels c = m1 ++ m :: m2 →
    collect_step c (Looked m)
      (from_option collect_error id (model_error m)
         (with_work (cqueries c) (m1 ++ m2) (csamples c ++ samples_of m) c))
| step_process c s1 s s2 labels o :
    csamples c = s1 ++ s :: s2 → sample_record labels s = Ret o →
    collect_step c (Processed s o)
      (let c := with_work (cqueries c) (cmodels c) (s1 ++ s2) c in
       match o with
       | Ok record => with_results (add_record (results c) record) c
       | Err e => collect_error e c
       end).

(** A collection starts with what [ProduceMeterDefinitions] sends, or its error. *)
Definition start_collection (produced : result string (list meterDefPromQuery)) : Collection :=
  match produced with
  | Ok queries => mkCollection queries [] [] ∅ [] [] ∅
  | Err e => collect_error (Failure e) (mkCollection [] [] [] ∅ [] [] ∅)
  end.

Inductive collecting (produced : result string (list meterDefPromQuery))
    : list Event → Collection → Prop :=
| collect_start : collecting produced [] (start_collection produced)
| collect_next t c e c' :
    collecting produced t c → collect_step c e c' → collecting produced (t ++ [e]) c'.

(** [CollectMetrics] returns when all channels are drained: the builders, the
    errors and warnings, and the errors combined. *)
Definition drained (c : Collection) : Prop :=
  cqueries c = [] ∧ cmodels c = [] ∧ csamples c = [].
Definition CollectMetrics_result (c : Collection)
    : Builders * list string * list string * option string :=
  (results c, errorList c, warningsList c,
   match errorList c with [] => None | l => Some (Join l "; ") end).
End collect.

(** ** Lemmas *)

Definition pairs_of (l : list (string * string)) : list LabelValue := kv ← l; [LStr kv.1; LStr kv.2].

Lemma length_pairs l : length (pairs_of l) = 2 * length l.
Proof. unfold pairs_of. induction l as [|kv l IH]; [done|]. cbn [mbind list_bind length app] in *. lia. Qed.

Lemma chunks_of_pairs l fuel :
  2 * length l ≤ fuel → chunk_loop fuel 2 (pairs_of l) = (λ kv, [LStr kv.1; LStr kv.2]) <$> l.
Proof.
  revert fuel; induction l as [|kv l IH]; intros fuel Hf; cbn [length] in Hf.
  - by destruct fuel.
  - destruct fuel as [|fuel]; [lia|]. change (pairs_of (kv :: l)) with
      (LStr kv.1 :: LStr kv.2 :: pairs_of l). cbn [chunk_loop fmap list_fmap]. cbn [take drop].
    f_equal. apply IH. lia.
Qed.

Lemma ChunkBy_pairs l : ChunkBy (pairs_of l) 2 = Ret ((λ kv, [LStr kv.1; LStr kv.2]) <$> l).
Proof.
  unfold ChunkBy. pose proof (length_pairs l) as Hl.
  destruct (pairs_of l) as [|x p] eqn:Hp; [destruct l; [done|discriminate]|]. rewrite <- Hp in *.
  cbn [Z.leb Z.compare]. rewrite Hl.
  replace (Z.of_nat (2 * length l) `mod` 2 =? 0)%Z with true.
  2: { symmetry. apply Z.eqb_eq. rewrite Nat2Z.inj_mul, Z.mul_comm. by apply Z_mod_mult. }
  cbn [negb]. f_equal. apply chunks_of_pairs. lia.
Qed.

Lemma kv_loop_pairs l m :
  kv_loop m ((λ kv, [LStr kv.1; LStr kv.2]) <$> l) =
    Ret (Ok (foldl (λ m kv, <[kv.1 := LStr kv.2]> m) m l)).
Proof.
  revert m; induction l as [|kv l IH]; intros m; [done|].
  cbn [fmap list_fmap kv_loop kv_step mbind outcome_mbind foldl]. apply IH.
Qed.

Lemma foldl_insert_pairs (l : list (string * string)) (m : LabelSet) k :
  NoDup l.*1 →
  foldl (λ m kv, <[kv.1 := LStr kv.2]> m) m l !! k =
    match (list_to_map l : gmap string string) !! k with Some v => Some (LStr v) | None => m !! k end.
Proof.
  revert m; induction l as [|[k' v] l IH]; intros m Hnd; [done|].
  rewrite fmap_cons in Hnd; cbn in Hnd. apply NoDup_cons in Hnd as [Hk Hnd].
  cbn [foldl fst snd list_to_map]. rewrite IH by done. cbn [list_to_map foldr].
  destruct (decide (k' = k)) as [->|Hne].
  - apply not_elem_of_list_to_map in Hk. rewrite Hk. by rewrite !lookup_insert_eq.
  - change (foldr _ _ l) with (list_to_map l : gmap string string). rewrite !lookup_insert_ne by done.
    done.
Qed.

(** A metric read back as a map: every key with its value, whatever the order. *)
Lemma kvToMap_metric order (metric : gmap string string) :
  (∀ m, order m ≡ₚ map_to_list m) →
  kvToMap (getAllKeysFromMetric order metric) = Ret (Ok (LStr <$> metric)).
Proof.
  intros Ho. unfold kvToMap, getAllKeysFromMetric. fold (pairs_of (order metric)).
  rewrite length_pairs, Nat.even_mul. cbn [Nat.even orb negb].
  rewrite ChunkBy_pairs. cbn [mbind outcome_mbind]. rewrite kv_loop_pairs. do 2 f_equal.
  apply map_eq. intros k.
  assert (Hnd : NoDup (order metric).*1) by (rewrite Ho; apply NoDup_fst_map_to_list).
  rewrite foldl_insert_pairs by done. rewrite lookup_fmap, lookup_empty.
  assert (Hm : (list_to_map (order metric) : gmap string string) = metric).
  { rewrite <- (list_to_map_to_list metric) at 2. apply list_to_map_proper; [done|by apply Ho]. }
  rewrite Hm. by destruct (metric !! k).
Qed.

Lemma Hash_again xxhash m : hash_of xxhash (Hash xxhash m).1 = hash_of xxhash m.
Proof.
  unfold hash_of, Hash. destruct (decide (thash m = "")) as [Hm|Hm].
  - rewrite (bool_decide_true (thash m = "")) by done. destruct m as [l s e v lm ns k h].
    cbn [fst snd thash with_hash]. destruct (_ == ""); reflexivity.
  - rewrite (bool_decide_false (thash m = "")) by done. cbn [fst snd]. by rewrite bool_decide_false.
Qed.

(** What a trace did. *)
Definition answered (t : list Event) : list meterDefPromModel :=
  omap (λ e, match e with Answered m => Some m | _ => None end) t.
Definition failed (t : list Event) : list meterDefPromQuery :=
  omap (λ e, match e with QueryFailed q _ => Some q | _ => None end) t.
Definition looked (t : list Event) : list meterDefPromModel :=
  omap (λ e, match e with Looked m => Some m | _ => None end) t.
Definition processed (t : list Event) : list Sample :=
  omap (λ e, match e with Processed s _ => Some s | _ => None end) t.
Definition records (t : list Event) : list Templated :=
  omap (λ e, match e with Processed _ (Ok m) => Some m | _ => None end) t.
(** The errors the goroutines reported. *)
Definition event_error (e : Event) : option CollectError :=
  match e with
  | Answered _ => None
  | QueryFailed _ e => Some (Failure e)
  | Looked m => model_error m
  | Processed _ (Ok _) => None
  | Processed _ (Err e) => Some e
  end.
Definition reported (t : list Event) : list CollectError := omap event_error t.

Section lemmas.
Context {LS Tpl : Type}.
Variable parse : string → result string Tpl.
Variable execute : Tpl → LabelSet → result string string.
Variable ParseRFC3339 : string → option GoTime.
Variable tpl_order : list (TField * Tpl) → list (TField * Tpl).
Variable xxhash : string → string.
Variable metric_order : gmap string string → list (string * string).
Variable render : ResultQueryArgs → result string string.
Variable failure_text : QueryFailure → string.
Variable r : MarketplaceReporter LS.

#[local] Abbreviation run :=
  (collecting parse execute ParseRFC3339 tpl_order xxhash metric_order render failure_text r).
#[local] Abbreviation step :=
  (collect_step parse execute ParseRFC3339 tpl_order xxhash metric_order render failure_text r).

(** The builder of a hash holds the records of that hash, in the order they came,
    and the report's account, cluster and interval. *)
Definition builder_of (h : string) (l : list Templated) (d : MarketplaceReportDataBuilder) : Prop :=
  values d = (λ m, (Hash xxhash m).1) <$> filter (λ m, hash_of xxhash m = h) l ∧ values d ≠ [] ∧
  clusterID d = ClusterUUID (MktConfig r) ∧ accountID d = RhmAccountID (MktConfig r) ∧
  reportStart d = StartTime (MRSpec (report r)) ∧ reportEnd d = EndTime (MRSpec (report r)).

Definition gathered (l : list Templated) (b : gmap string MarketplaceReportDataBuilder) : Prop :=
  ∀ h, match b !! h with
       | Some d => builder_of h l d
       | None => ∀ m, m ∈ l → hash_of xxhash m ≠ h
       end.

Lemma gathered_add l b m : gathered l b → gathered (l ++ [m]) (add_record xxhash r b m).
Proof.
  intros H h. specialize (H h). unfold add_record.
  destruct (Hash xxhash m) as [m' h'] eqn:Hm.
  assert (Hh : hash_of xxhash m = h') by (unfold hash_of; by rewrite Hm).
  destruct (decide (h' = h)) as [->|Hne].
  - rewrite lookup_insert_eq. unfold builder_of. cbn [values AddMeterDefinitionLabels].
    rewrite filter_app, filter_cons_True by done. rewrite filter_nil, fmap_app. cbn [fmap list_fmap].
    rewrite Hm. cbn [fst].
    destruct (b !! h) as [d|]; cbn [from_option default].
    + destruct H as (Hv & _ & ? & ? & ? & ?). unfold id. rewrite Hv. split_and!; try done.
      intros Hn. by apply app_nil in Hn as [_ ?].
    + assert (Hnil : filter (λ m, hash_of xxhash m = h) l = []).
      { clear -H. induction l as [|x l IH]; [done|]. rewrite filter_cons_False.
        - apply IH. intros y Hy. apply H. by right.
        - apply H. by left. }
      rewrite Hnil. by split_and!.
  - rewrite lookup_insert_ne by done. destruct (b !! h) as [d|].
    + destruct H as (Hv & ? & ? & ? & ? & ?). unfold builder_of. split_and!; try done.
      rewrite filter_app, filter_cons_False by congruence. by rewrite filter_nil, app_nil_r.
    + intros x [Hx| ->%list_elem_of_singleton]%elem_of_app; [by apply H|congruence].
Qed.

(** The errors reported so far are on the lists; the texts of the errors are those
    that occurred. *)
Definition listed (l : list CollectError) (c : Collection) : Prop :=
  (∀ t, t ∈ occurred c ↔ t ∈ errorList c) ∧ NoDup (errorList c) ∧
  (∀ t, t ∈ errorList c ↔ Failure t ∈ l) ∧
  (∀ t, Warning t ∈ l → t ∈ warningsList c ∨ t ∈ errorList c) ∧
  (∀ t, t ∈ warningsList c → Warning t ∈ l).

Lemma listed_error l c e : listed l c → listed (l ++ [e]) (collect_error e c).
Proof.
  intros (Ho & Hnd & Hf & Hw & Hw'). unfold listed, collect_error. setoid_rewrite elem_of_app.
  destruct e as [t|t]; case_bool_decide as Ht; cbn [occurred errorList warningsList];
    setoid_rewrite list_elem_of_singleton; repeat setoid_rewrite elem_of_app;
    repeat setoid_rewrite list_elem_of_singleton.
  - split_and!; [done|done| | |by left; apply Hw'].
    + intros x. rewrite Hf. split; [by left|by intros [?|[=]]].
    + intros x [?|[= ->]]; [by apply Hw|right; by apply Ho].
  - split_and!; [done|done| | |].
    + intros x. rewrite Hf. split; [by left|by intros [?|[=]]].
    + intros x [Hx|[= ->]]; [|by left; right]. destruct (Hw _ Hx); [by left; left|by right].
    + intros x [Hx| ->]; [left; by apply Hw'|by right].
  - split_and!; [done|done| | |by left; apply Hw'].
    + intros x. rewrite Hf. split; [by left|]. intros [?|[= ->]]; [done|]. by apply Hf, Ho.
    + intros x [?|[=]]. by apply Hw.
  - split_and!.
    + intros x. rewrite elem_of_union, elem_of_singleton, Ho. tauto.
    + apply NoDup_app. split_and!; [done| |apply NoDup_singleton].
      intros x Hx ->%list_elem_of_singleton. by apply Ht, Ho.
    + intros x. rewrite Hf. split; intros [?|Hx]; [by left|right; by rewrite Hx|by left|].
      injection Hx as ->. by right.
    + intros x [Hx|[=]]. destruct (Hw _ Hx); [by left|by right; left].
    + intros x Hx. left. by apply Hw'.
Qed.

Lemma listed_same l c c' :
  errorList c' = errorList c → warningsList c' = warningsList c → occurred c' = occurred c →
  listed l c → listed l c'.
Proof. intros He Hw Ho. unfold listed. by rewrite He, Hw, Ho. Qed.

Lemma listed_opt l c o :
  listed l c → listed (l ++ option_list o) (from_option collect_error id o c).
Proof. destruct o; cbn; [apply listed_error|by rewrite app_nil_r]. Qed.

Lemma collect_error_work e c :
  cqueries (collect_error e c) = cqueries c ∧ cmodels (collect_error e c) = cmodels c ∧
  csamples (collect_error e c) = csamples c ∧ results (collect_error e c) = results c.
Proof. unfold collect_error. by destruct e; case_bool_decide. Qed.

Lemma queryProcess_label QR m m' :
  queryProcess render failure_text r QR m = Ret (Ok m') → meterDefLabel (mdef m') = meterDefLabel m.
Proof.
  unfold queryProcess. destruct (Retry _ _ _) as [[q [v|]] [e|]]; try done. by intros [= <-].
Qed.

(** What a run has done and what it still has to do make up what it was given. *)
Definition accounted (qs : list meterDefPromQuery) (t : list Event) (c : Collection) : Prop :=
  (meterDefLabel ∘ mdef <$> answered t) ++ (meterDefLabel <$> failed t) ++
    (meterDefLabel <$> cqueries c) ≡ₚ meterDefLabel <$> qs ∧
  looked t ++ cmodels c ≡ₚ answered t ∧
  processed t ++ csamples c ≡ₚ (m ← looked t; samples_of m).

Definition start_errors (produced : result string (list meterDefPromQuery)) : list CollectError :=
  match produced with Ok _ => [] | Err e => [Failure e] end.

Lemma run_inv produced t c :
  run produced t c →
  accounted (default [] (result_ok produced)) t c ∧
  gathered (records t) (results c) ∧ listed (start_errors produced ++ reported t) c.
Proof.
  induction 1 as [|t c e c' Hrun IH Hstep].
  - assert (Hg : gathered [] ∅) by (intros h; rewrite lookup_empty; by intros m ?%elem_of_nil).
    assert (Hl : listed [] (mkCollection [] [] [] ∅ [] [] ∅)).
    { split_and!; try (intros x; cbn; set_solver). constructor. }
    destruct produced as [qs|e]; cbn [start_collection start_errors result_ok default from_option].
    + split_and!; try done.
    + split_and!; try done. exact (listed_error _ _ (Failure e) Hl).
  - destruct IH as ((Hq & Hm & Hs) & Hg & Hl). unfold accounted, answered, failed, looked, processed,
      records, reported in *. rewrite !omap_app.
    destruct Hstep as [c q1 q q2 QR m Hc Hp|c q1 q q2 QR e Hc Hp|c m1 m m2 Hc|c s1 s s2 labels o Hc Hp];
      cbn [omap list_omap event_error]; rewrite ?app_nil_r.
    + apply queryProcess_label in Hp. rewrite Hc in Hq. split_and!.
      * cbn [cqueries with_work]. rewrite fmap_app. cbn [fmap list_fmap]. unfold compose at 2. cbn.
        rewrite Hp, <- Hq, !fmap_app, fmap_cons. solve_Permutation.
      * cbn [cmodels with_work]. by rewrite app_assoc, Hm.
      * done.
      * done.
      * by apply (listed_same _ c).
    + rewrite Hc in Hq. destruct (collect_error_work (Failure e)
        (with_work (q1 ++ q2) (cmodels c) (csamples c) c)) as (-> & -> & -> & ->).
      cbn [cqueries cmodels csamples results with_work]. split_and!; [|done|done|done|].
      * rewrite <- Hq, !fmap_app, fmap_cons. cbn. solve_Permutation.
      * rewrite app_assoc. apply listed_error. by apply (listed_same _ c).
    + set (c1 := with_work (cqueries c) (m1 ++ m2) (csamples c ++ samples_of m) c).
      assert (Hw : cqueries (from_option collect_error id (model_error m) c1) = cqueries c ∧
        cmodels (from_option collect_error id (model_error m) c1) = m1 ++ m2 ∧
        csamples (from_option collect_error id (model_error m) c1) = csamples c ++ samples_of m ∧
        results (from_option collect_error id (model_error m) c1) = results c).
      { destruct (model_error m) as [e|]; cbn; [|done].
        destruct (collect_error_work e c1) as (-> & -> & -> & ->). done. }
      destruct Hw as (-> & -> & -> & ->). split_and!; [done| | |done|].
      * rewrite <- Hm, Hc. solve_Permutation.
      * rewrite bind_app, <- Hs. cbn. rewrite app_nil_r. solve_Permutation.
      * rewrite app_assoc. replace (match model_error m with Some y => [y] | None => [] end)
          with (option_list (model_error m)) by (by destruct (model_error m)).
        apply listed_opt. by apply (listed_same _ c).
    + rewrite Hc in Hs. destruct o as [record|e]; rewrite ?app_nil_r.
      * cbn [cqueries cmodels csamples results with_work with_results]. split_and!; [done|done| | |].
        -- rewrite <- Hs. solve_Permutation.
        -- by apply gathered_add.
        -- by apply (listed_same _ c).
      * destruct (collect_error_work e (with_work (cqueries c) (cmodels c) (s1 ++ s2) c))
          as (-> & -> & -> & ->).
        cbn [cqueries cmodels csamples results with_work]. split_and!; [done|done| |done|].
        -- rewrite <- Hs. solve_Permutation.
        -- rewrite app_assoc. apply listed_error. by apply (listed_same _ c).
Qed.

(** ** Samples never panic *)

Definition all_text (values : LabelSet) : Prop := ∀ k v, values !! k = Some v → ∃ s, v = LStr s.

Lemma as_string_text values key old :
  all_text values → ∃ s, label_or values key old = Ret s.
Proof.
  intros H. unfold label_or. destruct key as [k|]; cbn; [|by eexists].
  destruct (values !! k) as [v|] eqn:Hk; [|by eexists]. destruct (H _ _ Hk) as [s ->]. by eexists.
Qed.

Lemma Execute_period tpls m values m' :
  Execute execute tpls m values = Ok m' → PL.MetricPeriod m' = PL.MetricPeriod m.
Proof.
  unfold Execute. intros H.
  eapply (foldM_result_inv (λ m', PL.MetricPeriod m' = PL.MetricPeriod m)) in H; [done|done|].
  intros m1 [f t] m2 _ Hm. destruct (execute t values) as [s|]; cbn; [|done].
  intros [= <-]. rewrite <- Hm. by destruct m1.
Qed.

Lemma PrintTemplate_total m values pair :
  all_text values → is_Some (PL.MetricPeriod m) →
  ∃ o, PrintTemplate parse execute ParseRFC3339 tpl_order m values pair = Ret o ∧
    match o with
    | Ok t => LabelMap t = values ∧ NamespaceLabels t = ∅ ∧ K8sResources t = []
    | Err _ => True
    end.
Proof.
  intros Hv [p Hp]. unfold PrintTemplate.
  destruct (NewTemplate parse m) as [tpl|e]; [|by eexists].
  destruct (Execute execute (tpl_order tpl) m values) as [m'|e] eqn:He; [|by eexists].
  apply Execute_period in He.
  destruct (as_string_text values (Some "namespace") (PL.ResourceNamespace m') Hv) as [rns ->].
  destruct (as_string_text values (resource_key (PL.WorkloadType m)) (PL.ResourceName m') Hv) as [rn ->].
  cbn [mbind outcome_mbind]. set (r1 := set_resource rn rns m').
  set (r2 := if PL.Label r1 == "" then set_field FLabel (PL.Metric r1) r1 else r1).
  assert (H2 : PL.MetricPeriod r2 = Some p).
  { rewrite <- Hp, <- He. unfold r2, r1. destruct m'; cbn. by destruct (_ == ""). }
  rewrite H2. eexists; split; [reflexivity|].
  destruct (interval _ _ _ _) as [[s e]|]; [|done]. cbn. by split_and!.
Qed.
End lemmas.

(** ** Namespaces *)

Lemma HasPrefix_split s p : HasPrefix s p = true → s = p +:+ TrimPrefix s p.
Proof.
  unfold TrimPrefix. intros H. rewrite H. revert s H; unfold HasPrefix.
  induction p as [|c p IH]; intros s; cbn [String.length drop_string]; [done|].
  destruct s as [|c' s]; cbn [String.prefix]; [done|].
  destruct (Ascii.ascii_dec c c') as [<-|]; [|done]. intros H. rewrite string_cons_app.
  f_equal. by apply IH.
Qed.

Lemma swc_key k : HasPrefix k swcLabelPrefix = true → k = labelPrefix +:+ TrimPrefix k labelPrefix.
Proof.
  intros H. apply HasPrefix_split in H. apply HasPrefix_split. rewrite H.
  change swcLabelPrefix with (labelPrefix +:+ "swc_saas_ibm_com_") at 1.
  rewrite string_app_assoc. apply prefix_app.
Qed.

(** The label a namespace keeps under a key: the one of the series under the prefix. *)
Definition swc_label (metric : gmap string string) (k : string) : option string :=
  if HasPrefix (labelPrefix +:+ k) swcLabelPrefix then metric !! (labelPrefix +:+ k) else None.

Lemma swc_fold (l : list (string * string)) acc :
  NoDup l.*1 →
  ∃ m, foldM_outcome swc_step acc (prod_map id LStr <$> l) = Ret m ∧
    ∀ k, m !! k = match swc_label (list_to_map l) k with Some v => Some v | None => acc !! k end.
Proof.
  revert acc; induction l as [|[k' v] l IH]; intros acc Hnd.
  { exists acc. split; [done|]. intros k. unfold swc_label. cbn [list_to_map].
    by destruct (HasPrefix _ _). }
  rewrite fmap_cons in Hnd; cbn in Hnd. apply NoDup_cons in Hnd as [Hk Hnd].
  cbn [fmap list_fmap foldM_outcome].
  assert (Hstep : swc_step acc (prod_map id LStr (k', v)) =
    if HasPrefix k' swcLabelPrefix then Ret (<[TrimPrefix k' labelPrefix := v]> acc) else Ret acc)
    by reflexivity.
  rewrite Hstep. clear Hstep.
  apply not_elem_of_list_to_map in Hk. unfold swc_label. cbn [list_to_map foldr].
  change (foldr _ _ l) with (list_to_map l : gmap string string).
  destruct (HasPrefix k' swcLabelPrefix) eqn:Hp.
  - cbn [mbind outcome_mbind].
    destruct (IH (<[TrimPrefix k' labelPrefix:=v]> acc) Hnd) as (m & Hm & Hl). exists m. split; [exact Hm|].
    intros k. rewrite Hl. unfold swc_label. apply swc_key in Hp as Hk'.
    destruct (decide (labelPrefix +:+ k = k')) as [<-|Hne].
    + rewrite Hp, TrimPrefix_app, Hk, !lookup_insert_eq. done.
    + assert (TrimPrefix k' labelPrefix ≠ k) by (intros <-; by apply Hne).
      rewrite !lookup_insert_ne by done. done.
  - cbn [mbind outcome_mbind]. destruct (IH acc Hnd) as (m & Hm & Hl). exists m. split; [exact Hm|].
    intros k. rewrite Hl. unfold swc_label.
    destruct (decide (labelPrefix +:+ k = k')) as [<-|Hne]; [by rewrite Hp|].
    by rewrite lookup_insert_ne.
Qed.

Section namespaces.
Variable metric_order : gmap string string → list (string * string).
Variable label_order : LabelSet → list (string * LabelValue).
Hypothesis Hmetric : ∀ m, metric_order m ≡ₚ map_to_list m.
Hypothesis Hlabel : ∀ m, label_order m ≡ₚ map_to_list m.

Lemma namespace_step_spec nsLabels matrix :
  match SMetric matrix !! "namespace" with
  | None => namespace_step metric_order label_order nsLabels matrix = Ret (Ok nsLabels)
  | Some ns => ∃ l, namespace_step metric_order label_order nsLabels matrix =
      Ret (Ok (<[ns := l]> nsLabels)) ∧ ∀ k, l !! k = swc_label (SMetric matrix) k
  end.
Proof.
  unfold namespace_step. rewrite (kvToMap_metric _ _ Hmetric). cbn [mbind outcome_mbind].
  rewrite lookup_fmap. destruct (SMetric matrix !! "namespace") as [ns|]; cbn; [|done].
  assert (Hl : ∃ l0, label_order (LStr <$> SMetric matrix) = prod_map id LStr <$> l0 ∧
      l0 ≡ₚ map_to_list (SMetric matrix)).
  { pose proof (Hlabel (LStr <$> SMetric matrix)) as H. rewrite map_to_list_fmap in H.
    apply Permutation_map_inv in H as (l0 & Hl0 & Hp). exists l0. by split. }
  destruct Hl as (l0 & -> & Hp).
  assert (Hnd : NoDup l0.*1) by (rewrite Hp; apply NoDup_fst_map_to_list).
  destruct (swc_fold l0 ∅ Hnd) as (m & -> & Hm). cbn [mbind outcome_mbind]. exists m.
  split; [done|]. intros k. rewrite Hm, lookup_empty.
  assert (Heq : (list_to_map l0 : gmap string string) = SMetric matrix).
  { rewrite <- (list_to_map_to_list (SMetric matrix)). by apply list_to_map_proper. }
  rewrite Heq. by destruct (swc_label _ _).
Qed.

Lemma labels_loop_spec m nsLabels :
  ∃ nl, namespace_loop metric_order label_order nsLabels m = Ret (Ok nl) ∧
  ∀ ns, match last (filter (λ s, SMetric s !! "namespace" = Some ns) m) with
        | None => nl !! ns = nsLabels !! ns
        | Some s => ∃ l, nl !! ns = Some l ∧ ∀ k, l !! k = swc_label (SMetric s) k
        end.
Proof.
  revert nsLabels; induction m as [|s m IH]; intros nsLabels; cbn [namespace_loop].
  { by exists nsLabels. }
  pose proof (namespace_step_spec nsLabels s) as Hs.
  destruct (SMetric s !! "namespace") as [ns0|] eqn:Hns.
  - destruct Hs as (l & -> & Hl). cbn [mbind outcome_mbind].
    destruct (IH (<[ns0 := l]> nsLabels)) as (nl & -> & Hnl). exists nl. split; [done|].
    intros ns. specialize (Hnl ns). destruct (decide (ns0 = ns)) as [->|Hne].
    + rewrite filter_cons_True by done. rewrite last_cons.
      destruct (last (filter _ m)); [done|]. rewrite lookup_insert_eq in Hnl. by exists l.
    + rewrite filter_cons_False by congruence. destruct (last (filter _ m)); [done|].
      by rewrite lookup_insert_ne in Hnl.
  - rewrite Hs. cbn [mbind outcome_mbind]. destruct (IH nsLabels) as (nl & -> & Hnl).
    exists nl. split; [done|]. intros ns.
    rewrite filter_cons_False; [exact (Hnl ns)|]. by rewrite Hns.
Qed.
End namespaces.

(** ** The record of a sample *)

(** What the templates are given: the labels of the series, and the definition's name
    and namespace. *)
Definition given (q : meterDefPromQuery) (metric : gmap string string) (kv : LabelSet) : Prop :=
  (∀ k, k ≠ "meter_def_name" → k ≠ "meter_def_namespace" → kv !! k = LStr <$> metric !! k) ∧
  (NNName (QMeterDef (query q)) ≠ "" → NNNamespace (QMeterDef (query q)) ≠ "" →
     kv !! "meter_def_name" = Some (LStr (NNName (QMeterDef (query q)))) ∧
     kv !! "meter_def_namespace" = Some (LStr (NNNamespace (QMeterDef (query q))))).

(** The namespace whose labels a record needs: that of its resource, or else of its
    definition. *)
Definition is_for (m : MeterDefPrometheusLabels) (ns : string) : Prop :=
  ns ≠ "" ∧ (ns = PL.ResourceNamespace m ∨ PL.ResourceNamespace m = "" ∧ ns = PL.ExportedMeterDefNamespace m).

Lemma record_namespace_spec m :
  (record_namespace m = "" → ∀ ns, ¬ is_for m ns) ∧
  (record_namespace m ≠ "" → is_for m (record_namespace m) ∧ ∀ ns, is_for m ns → ns = record_namespace m).
Proof.
  unfold record_namespace, is_for.
  repeat case_bool_decide; cbn [negb]; split; intros; try naive_solver.
Qed.

Lemma given_map q metric (named : bool) :
  named = (NNName (QMeterDef (query q)) != "") && (NNNamespace (QMeterDef (query q)) != "") →
  let kv := if named
    then <["meter_def_namespace" := LStr (NNNamespace (QMeterDef (query q)))]>
           (<["meter_def_name" := LStr (NNName (QMeterDef (query q)))]> (LStr <$> metric : LabelSet))
    else LStr <$> metric in
  all_text kv ∧ given q metric kv.
Proof.
  intros Hnamed. cbv zeta.
  assert (Hm : all_text (LStr <$> metric : LabelSet)).
  { intros k v. rewrite lookup_fmap. destruct (metric !! k); [|done]. intros [= <-]. by eexists. }
  destruct named.
  - split.
    + intros k v [[<- <-]|[_ Hk]]%lookup_insert_Some; [by eexists|].
      apply lookup_insert_Some in Hk as [[<- <-]|[_ Hk]]; [by eexists|by eapply Hm].
    + split; [intros k H1 H2; rewrite !lookup_insert_ne by done; apply lookup_fmap|].
      intros _ _. rewrite lookup_insert_ne by done. by rewrite !lookup_insert_eq.
  - split; [done|]. split; [intros k _ _; apply lookup_fmap|]. intros H1 H2. exfalso. revert Hnamed.
    by rewrite !bool_decide_false.
Qed.

(** ** Properties *)

Section properties.
Context {LS Tpl : Type}.
Variable parse : string → result string Tpl.
Variable execute : Tpl → LabelSet → result string string.
Variable ParseRFC3339 : string → option GoTime.
Variable tpl_order : list (TField * Tpl) → list (TField * Tpl).
Variable xxhash : string → string.
Variable metric_order : gmap string string → list (string * string).
Variable render : ResultQueryArgs → result string string.
Variable failure_text : QueryFailure → string.
Variable r : MarketplaceReporter LS.

#[local] Abbreviation run :=
  (collecting parse execute ParseRFC3339 tpl_order xxhash metric_order render failure_text r).

(** C16: nothing is lost or counted twice in a collection, however its goroutines
    interleave. When it has drained, each query that was to be made was answered or
    is an error, each sample of each answer was processed exactly once, and every
    record that was made is in the builder of its hash and in no other, in the order
    it was made, under the report's account, cluster and interval. The errors are
    those reported, each once. *)
Theorem CollectMetrics_accounted (produced : result string (list meterDefPromQuery))
    (t : list Event) (c : Collection) :
  run produced t c → drained c →
  (meterDefLabel ∘ mdef <$> answered t) ++ (meterDefLabel <$> failed t) ≡ₚ
    meterDefLabel <$> default [] (result_ok produced) ∧
  processed t ≡ₚ (m ← answered t; samples_of m) ∧
  (∀ h, match results c !! h with
        | Some d => builder_of xxhash r h (records t) d
        | None => ∀ m, m ∈ records t → hash_of xxhash m ≠ h
        end) ∧
  NoDup (errorList c) ∧
  (∀ e, e ∈ errorList c ↔ Failure e ∈ start_errors produced ++ reported t) ∧
  ((CollectMetrics_result c).2 = None ↔ errorList c = []).
Proof.
  intros Hr (Hq & Hm & Hs). destruct (run_inv _ _ _ _ _ _ _ _ _ _ _ _ Hr) as ((Hq' & Hm' & Hs') & Hg & Hl).
  rewrite Hq, fmap_nil, app_nil_r in Hq'. rewrite Hm, app_nil_r in Hm'. rewrite Hs, app_nil_r in Hs'.
  destruct Hl as (_ & Hnd & Hf & _ & _). split_and!; [done| |done|done|done|].
  - rewrite Hs'. by apply bind_Permutation.
  - cbn. by destruct (errorList c).
Qed.

(** What a collection gathers can be written. At every moment each builder has
    samples, all of one event: the oldest schema always builds its record, and the
    newer two fail only on a value that is no number, an unknown metric type, or a
    label map or namespaces they cannot encode. *)
Theorem collected_builds {Float} (ParseFloat : string → option Float)
    (order : LabelSet → list (string * LabelValue))
    (ns_order : gmap string (gmap string string) → list (string * gmap string string))
    (decode : list string → LabelSet → result string (gmap string string))
    (marshal_namespaces : list (string * gmap string string) → result string string)
    (produced : result string (list meterDefPromQuery)) (t : list Event) (c : Collection)
    (h : string) (d : MarketplaceReportDataBuilder) :
  run produced t c → results c !! h = Some d →
  same_event xxhash (values d) ∧
  is_ok (v1_Build xxhash order d).2 = true ∧
  (∀ e, (v2_Build ParseFloat xxhash order d).2 = Err e →
     e = ErrNotFloat64 ∨ ∃ t, e = ErrMetricType t) ∧
  (∀ e, (v3_Build ParseFloat xxhash ns_order decode marshal_namespaces d).2 = Err e →
     e ≠ ErrNoValuesSet ∧ e ≠ ErrValueHashAreDifferent).
Proof.
  intros Hr Hd. destruct (run_inv _ _ _ _ _ _ _ _ _ _ _ _ Hr) as (_ & Hg & _).
  specialize (Hg h). rewrite Hd in Hg. destruct Hg as (Hv & Hne & _).
  assert (Hs : same_event xxhash (values d)).
  { assert (Hh : ∀ m, m ∈ values d → hash_of xxhash m = h).
    { intros m. rewrite Hv. intros (m' & -> & Hm')%list_elem_of_fmap.
      apply list_elem_of_filter in Hm' as [Hm' _]. by rewrite Hash_again. }
    intros m m' Hm Hm'. by rewrite (Hh m), (Hh m'). }
  split_and!; [done| | |].
  - destruct (v1_Build xxhash order d).2 as [data|e] eqn:Hb; [done|].
    by apply v1_Build_fails in Hb as [[_ ?]|[_ ?]].
  - intros e Hb. apply v2_Build_fails in Hb. destruct e; cbn in Hb; try done; [by left|].
    right. by eexists.
  - intros e Hb. apply v3_Build_fails in Hb as [H1 H2]. split; intros ->; [by apply Hne, H1|by apply H2].
Qed.

(** C39: processing a sample never panics: not on its labels, whose values are all
    texts, nor on the period of its definition, which reading the labels fills in. The
    templates are given every label of the series together with the definition's name and
    namespace; when they fail that is a warning. A record is what they make, with these
    labels, the cluster's resources, and the labels of the namespace it is for: its
    resource's, or its definition's when it has none of its own, or no labels when there
    is neither. When the labels of that namespace cannot be had, that is the failure. *)
Theorem sample_record_total (ParseDuration : string → option Z)
    (unmarshal_strings : string → option (list string)) (mlabels : gmap string string)
    (start end_ : GoTime) (q : meterDefPromQuery) (metric : gmap string string)
    (pair : SamplePair) (nslabels : string → result string (gmap string (gmap string string))) :
  (∀ m, metric_order m ≡ₚ map_to_list m) →
  buildPromQuery ParseDuration unmarshal_strings mlabels start end_ = Ret (Ok q) →
  ∃ kv made o, given q metric kv ∧
  PrintTemplate parse execute ParseRFC3339 tpl_order (meterDefLabel q) kv pair = Ret made ∧
  sample_record parse execute ParseRFC3339 tpl_order metric_order r nslabels
    (mkSampleOf q metric pair) = Ret o ∧
  match made, o with
  | Err _, Err (Warning _) => True
  | Ok rec, Ok m =>
      TLabels m = TLabels rec ∧ Value m = Value rec ∧ LabelMap m = kv ∧ K8sResources m = k8sResources r ∧
      (∀ ns, is_for (TLabels rec) ns → nslabels ns = Ok (NamespaceLabels m)) ∧
      ((∀ ns, ¬ is_for (TLabels rec) ns) → NamespaceLabels m = ∅)
  | Ok rec, Err (Failure _) => ∃ ns e, is_for (TLabels rec) ns ∧ nslabels ns = Err e
  | _, _ => False
  end.
Proof.
  intros Ho Hq. unfold sample_record. cbn [smodel smetric spair].
  rewrite (kvToMap_metric _ _ Ho). cbn [mbind outcome_mbind].
  assert (Hp : is_Some (PL.MetricPeriod (meterDefLabel q))).
  { unfold buildPromQuery in Hq. destruct (FromLabels _ _ mlabels) as [m|] eqn:Hm; [|done].
    destruct (NewPromQueryFromLabels m start end_); cbn in Hq; [|done]. injection Hq as <-.
    cbn [meterDefLabel]. by eapply FromLabels_period. }
  destruct (given_map q metric _ eq_refl) as [Ht Hg]. revert Ht Hg.
  set (named := (NNName (QMeterDef (query q)) != "") && _). set (kv := if named then _ else _). cbv zeta.
  intros Ht Hg. destruct (if named then (_, _) else _) as [name namespace] eqn:Hn.
  match goal with |- context [PrintTemplate _ _ _ _ _ ?m _] => replace m with kv
    by (unfold kv; destruct named; [by injection Hn as <- <-|done]) end.
  destruct (PrintTemplate_total parse execute ParseRFC3339 tpl_order (meterDefLabel q) kv pair Ht Hp)
    as (made & Hmade & Hot). rewrite Hmade. cbn [mbind outcome_mbind]. exists kv, made.
  destruct made as [rec|e]; [|by eexists]. destruct Hot as (Hlm & Hnl & _).
  destruct (record_namespace_spec (TLabels rec)) as [Hno Hfor].
  destruct (decide (record_namespace (TLabels rec) = "")) as [Hns|Hns].
  - rewrite (bool_decide_true (_ = "")) by done. cbn [negb]. eexists. split_and!; [done..|].
    split_and!; [done..| |done]. intros ns Hf. by apply (Hno Hns) in Hf.
  - rewrite (bool_decide_false (_ = "")) by done. cbn [negb]. destruct (Hfor Hns) as [Hf Hu].
    destruct (nslabels _) as [l|e] eqn:Hl; (eexists; split_and!; [done..|]).
    + split_and!; [done..| |intros Hnone; by apply Hnone in Hf]. intros ns Hf'. by rewrite (Hu ns Hf').
    + by eexists _, e.
Qed.
End properties.

(** The labels of a namespace. The call never panics; when Prometheus answers
    with a matrix, a namespace has the labels of the last series that names it, under
    their keys without the prefix, and only those of the software catalog; a label
    that an earlier series of the same namespace had and the last one has not is not
    kept. *)
Theorem getNamespaceLabels_spec {LS W}
    (Ask : GoTime → GoTime → Z → list string → W → W * result string ModelValue)
    (metric_order : gmap string string → list (string * string))
    (label_order : LabelSet → list (string * LabelValue))
    (r : MarketplaceReporter LS) (namespaces : list string) (w : W) :
  (∀ m, metric_order m ≡ₚ map_to_list m) → (∀ m, label_order m ≡ₚ map_to_list m) →
  ∃ w' o, getNamespaceLabels Ask metric_order label_order r namespaces w = Ret (w', o) ∧
  match retried_call (Ask (window r).1 (window r).2 Hour namespaces) (RetryLimit r) w with
  | (_, Ok (ValMatrix m)) => ∃ nl, o = Ok nl ∧
      ∀ ns, match last (filter (λ s, SMetric s !! "namespace" = Some ns) m) with
            | None => nl !! ns = None
            | Some s => ∃ l, nl !! ns = Some l ∧ ∀ k, l !! k =
                if HasPrefix (labelPrefix +:+ k) swcLabelPrefix
                then SMetric s !! (labelPrefix +:+ k) else None
            end
  | _ => is_ok o = false
  end.
Proof.
  intros Hm Hl. unfold getNamespaceLabels. destruct (window r) as [start end_]. cbn [fst snd].
  destruct (retried_call _ _ _) as [w' [[m| | | |]|e]]; try (by eexists _, _).
  destruct (labels_loop_spec metric_order label_order Hm Hl m ∅) as (nl & -> & Hnl).
  eexists _, _. split; [reflexivity|]. exists nl. split; [done|]. intros ns.
  specialize (Hnl ns). by destruct (last _).
Qed.

Section produce.
Context {LS W : Type}.
Variable DurationString : Z → string.
Variable ParseDuration : string → option Z.
Variable marshal_strings : list string → string.
Variable unmarshal_strings : string → option (list string).
Variable quote_json : string → result string string.
Variable empty_array : string.
Variable Ask : GoTime → GoTime → Z → W → W * result string ModelValue.

#[local] Abbreviation transform := (transformMeterDefinitionReference (LS := LS) DurationString
  ParseDuration marshal_strings unmarshal_strings quote_json empty_array).
#[local] Abbreviation refs_loop := (reference_loop (LS := LS) DurationString
  ParseDuration marshal_strings unmarshal_strings quote_json empty_array).

Definition ref_key (ref : V1Beta1.MeterDefinitionReference LS) : NamespacedName :=
  mkNN (V1Beta1.RNamespace ref) (V1Beta1.RName ref).

Lemma reference_loop_spec refs start end_ set0 set :
  refs_loop refs start end_ set0 = Ret (Ok set) →
  ∀ key, match set0 !! key, List.find (λ ref, ref_key ref == key) refs with
         | Some l, _ => set !! key = Some l
         | None, Some ref => ∃ l, transform ref start end_ = Ret (Ok l) ∧ set !! key = Some l
         | None, None => set !! key = None
         end.
Proof.
  revert set0; induction refs as [|ref refs IH]; intros set0; cbn [reference_loop].
  { intros [= ->] key. cbn. by destruct (set !! key) eqn:E. }
  destruct (transform ref start end_) as [[l|e]|] eqn:Ht; cbn [mbind outcome_mbind]; [|done|done].
  fold (ref_key ref). intros H key. specialize (IH _ H key). cbn [List.find].
  destruct (decide (ref_key ref = key)) as [<-|Hne].
  - rewrite (bool_decide_true (ref_key ref = ref_key ref)) by done.
    destruct (set0 !! ref_key ref) as [l0|] eqn:H0; [by rewrite H0 in IH|].
    rewrite lookup_insert_eq in IH. by exists l.
  - rewrite (bool_decide_false (ref_key ref = key)) by done.
    destruct (set0 !! ref_key ref); [exact IH|]. by rewrite lookup_insert_ne in IH.
Qed.

(** The saved definitions fill in what is missing. *)
Lemma saved_fold (l : list (NamespacedName * list meterDefPromQuery)) (m : Queries) key :
  NoDup l.*1 →
  foldl (λ m '(key, val), match m !! key with Some _ => m | None => <[key := val]> m end) m l !! key =
    match m !! key with Some v => Some v | None => (list_to_map l : Queries) !! key end.
Proof.
  revert m; induction l as [|[k v] l IH]; intros m Hnd; cbn [foldl list_to_map].
  { by destruct (m !! key). }
  rewrite fmap_cons in Hnd; cbn in Hnd. apply NoDup_cons in Hnd as [Hk Hnd].
  rewrite IH by done. cbn [list_to_map foldr]. change (foldr _ _ l) with (list_to_map l : Queries).
  apply not_elem_of_list_to_map in Hk.
  destruct (m !! k) as [w|] eqn:Hmk.
  - destruct (decide (k = key)) as [->|Hne]; [by rewrite Hmk|].
    destruct (m !! key); [done|]. by rewrite lookup_insert_ne.
  - destruct (decide (k = key)) as [->|Hne].
    + by rewrite Hmk, !lookup_insert_eq.
    + by rewrite !lookup_insert_ne.
Qed.

(** Which queries a report makes. Each definition is queried once: one that
    the report references, by the first of its references, over the report's interval
    but the last second; any other that Prometheus has seen, by what was saved of it.
    Any reference that cannot be turned into queries, and any failure to ask
    Prometheus, stops all queries. *)
Theorem ProduceMeterDefinitions_spec
    (order : Queries → list (NamespacedName * list meterDefPromQuery))
    (r : MarketplaceReporter LS) (w w' : W) (queries : list meterDefPromQuery) :
  (∀ m, order m ≡ₚ map_to_list m) →
  ProduceMeterDefinitions DurationString ParseDuration marshal_strings unmarshal_strings quote_json
    empty_array Ask order r w = Ret (w', Ok queries) →
  ∃ saved set, getMeterDefinitions ParseDuration unmarshal_strings Ask r w = Ret (w', Ok saved) ∧
    queries = (kv ← order set; kv.2) ∧
    ∀ key, match List.find (λ ref, ref_key ref == key) (meterDefinitions r) with
           | Some ref => ∃ l, set !! key = Some l ∧
               transform ref (UTC (StartTime (MRSpec (report r))))
                 (UTC (GoTime.Add (EndTime (MRSpec (report r))) (- second))) = Ret (Ok l)
           | None => set !! key = saved !! key
           end.
Proof.
  intros Ho. unfold ProduceMeterDefinitions.
  set (start := UTC (StartTime _)). set (end_ := UTC (GoTime.Add _ _)).
  destruct (refs_loop (meterDefinitions r) start end_ ∅) as [[set|e]|] eqn:Hr;
    cbn [mbind outcome_mbind]; [|done|done].
  destruct (getMeterDefinitions _ _ _ _ _) as [[w1 [saved|e]]|] eqn:Hg; cbn [mbind outcome_mbind];
    [|done|done].
  intros [= <- <-]. eexists saved, _. split; [done|]. split; [reflexivity|]. intros key.
  assert (Hnd : NoDup (order saved).*1) by (rewrite Ho; apply NoDup_fst_map_to_list).
  rewrite saved_fold by done.
  assert (Hs : (list_to_map (order saved) : Queries) = saved).
  { rewrite <- (list_to_map_to_list saved) at 2. by apply list_to_map_proper. }
  rewrite Hs. pose proof (reference_loop_spec _ _ _ _ _ Hr key) as H. rewrite lookup_empty in H.
  destruct (List.find _ _) as [ref|].
  - destruct H as (l & Hl & ->). by exists l.
  - by rewrite H.
Qed.
End produce.

(** ** A collection of one definition *)

Definition some_labels : gmap string string :=
  {[ "meter_definition_uid" := "u"; "name" := "mdef"; "namespace" := "ns"; "workload_type" := "Pod";
     "meter_group" := "g.com"; "meter_kind" := "App"; "metric_label" := "cores";
     "metric_query" := "sum(cpu)"; "metric_without" := "" ]}.

Definition built_query : outcome (result string meterDefPromQuery) :=
  buildPromQuery dec_of_string toy_unmarshal some_labels (midnight 18999) (midnight 19000).
Definition the_query : meterDefPromQuery :=
  match built_query with Ret (Ok q) => q | _ => mkQuery "" pod_query labels_pod "" "" "" end.

Definition the_series : Series :=
  mkSeries {[ "pod" := "web-1"; "namespace" := "shop" ]}
    [mkSample 1641513600000 "1"; mkSample 1641517200000 "2"].
Definition one_answer (text : string) (start end_ : GoTime) (step : Z)
    : result QueryError ModelValue * list string := (Ok (ValMatrix [the_series]), []).

Definition day_report : MeterReport unit :=
  mkMeterReport _ (mkMeta "meter-report-2022-01-07" "ns" "" 0 ∅ ∅ [])
    (mkMeterReportSpec _ "" (midnight 18999) (midnight 19000) None [] []) zero_status.
Definition day_reporter : MarketplaceReporter unit :=
  mkReporter Writer.toy_config day_report [] [KBytes [Byte.x41]] 3.

Definition shop_labels (ns : string) : result string (gmap string (gmap string string)) :=
  Ok {[ ns := {[ "swc_saas_ibm_com_a" := "1" ]} ]}.
Definition queried : outcome (result string meterDefPromModel) :=
  queryProcess (λ _, Ok "text") (λ _, "failed") day_reporter one_answer the_query.
Definition the_model : meterDefPromModel :=
  match queried with Ret (Ok m) => m | _ => mkModel the_query ValNone "" "" end.
Definition record_of (s : Sample) : outcome (result CollectError Templated) :=
  sample_record toy_parse toy_execute (λ _, None) id some_order day_reporter shop_labels s.
Definition sample_of_pair (p : SamplePair) : Sample := mkSampleOf (mdef the_model) (SMetric the_series) p.
Definition sample1 : Sample := sample_of_pair (mkSample 1641513600000 "1").
Definition sample2 : Sample := sample_of_pair (mkSample 1641517200000 "2").
Definition result_of (o : outcome (result CollectError Templated)) : result CollectError Templated :=
  match o with Ret r => r | Panic => Err (Failure "") end.

Definition the_trace : list Event :=
  [Answered the_model; Looked the_model; Processed sample1 (result_of (record_of sample1));
   Processed sample2 (result_of (record_of sample2))].
Definition collected : gmap string MarketplaceReportDataBuilder :=
  match result_of (record_of sample1), result_of (record_of sample2) with
  | Ok r1, Ok r2 => add_record same_text day_reporter (add_record same_text day_reporter ∅ r1) r2
  | _, _ => ∅
  end.
Definition the_collection : Collection := mkCollection [] [] [] collected [] [] ∅.

#[local] Opaque add_record the_model the_query sample1 sample2 the_series.

Lemma the_run :
  collecting toy_parse toy_execute (λ _, None) id same_text some_order (λ _, Ok "text")
    (λ _, "failed") day_reporter (Ok [the_query]) the_trace the_collection.
Proof.
  assert (H1 : is_ok (result_of (record_of sample1)) = true) by (vm_compute; reflexivity).
  assert (H2 : is_ok (result_of (record_of sample2)) = true) by (vm_compute; reflexivity).
  assert (H1' : record_of sample1 = Ret (result_of (record_of sample1))) by (vm_compute; reflexivity).
  assert (H2' : record_of sample2 = Ret (result_of (record_of sample2))) by (vm_compute; reflexivity).
  unfold the_collection, collected, the_trace.
  destruct (result_of (record_of sample1)) as [r1|]; [|discriminate H1].
  destruct (result_of (record_of sample2)) as [r2|]; [|discriminate H2]. clear H1 H2.
  pose proof (collect_start toy_parse toy_execute (λ _, None) id same_text some_order (λ _, Ok "text")
    (λ _, "failed") day_reporter (Ok [the_query])) as S0.
  assert (Hq : queryProcess (λ _, Ok "text") (λ _, "failed") day_reporter one_answer the_query =
    Ret (Ok the_model)) by (vm_compute; reflexivity).
  assert (Hs : samples_of the_model = [sample1; sample2]) by (vm_compute; reflexivity).
  assert (He : model_error the_model = None) by (vm_compute; reflexivity).
  pose proof (collect_next _ _ _ _ _ _ _ _ _ _ _ _ _ _ S0 (step_answer _ _ _ _ _ _ _ _ _
    (mkCollection [the_query] [] [] ∅ [] [] ∅) [] the_query []
    one_answer the_model eq_refl Hq)) as S1. clear S0 Hq.
  pose proof (collect_next _ _ _ _ _ _ _ _ _ _ _ _ _ _ S1 (step_look _ _ _ _ _ _ _ _ _
    (mkCollection [] [the_model] [] ∅ [] [] ∅) [] the_model []
    eq_refl)) as S2. clear S1. rewrite He in S2. cbn [from_option] in S2. rewrite Hs in S2.
  cbn [app] in S2.
  pose proof (collect_next _ _ _ _ _ _ _ _ _ _ _ _ _ _ S2 (step_process _ _ _ _ _ _ _ _ _
    (mkCollection [] [] [sample1; sample2] ∅ [] [] ∅) [] sample1
    [sample2] shop_labels (Ok r1) eq_refl H1')) as S3. clear S2.
  pose proof (collect_next _ _ _ _ _ _ _ _ _ _ _ _ _ _ S3 (step_process _ _ _ _ _ _ _ _ _
    (mkCollection [] [] [sample2] (add_record same_text day_reporter ∅ r1) [] [] ∅) [] sample2
    [] shop_labels (Ok r2) eq_refl H2')) as S4. clear S3.
  exact S4.
Qed.

Lemma some_order_ok {A} (m : gmap string A) : some_order m ≡ₚ map_to_list m.
Proof. done. Qed.

Lemma CollectMetrics_accounted_witness :
  drained the_collection ∧ length (processed the_trace) = 2 ∧
  processed the_trace ≡ₚ (m ← answered the_trace; samples_of m) ∧ NoDup (errorList the_collection).
Proof.
  assert (Hd : drained the_collection) by done. split; [exact Hd|]. split; [reflexivity|].
  destruct (CollectMetrics_accounted _ _ _ _ _ _ _ _ _ _ _ _ the_run Hd) as (_ & Hp & _ & Hn & _).
  split; [exact Hp|exact Hn].
Defined.

#[local] Transparent add_record the_model the_query sample1 sample2 the_series.

Definition built_hashes : list string := (map_to_list collected).*1.

Lemma collected_builds_witness :
  length built_hashes = 2 ∧
  ∀ h d, collected !! h = Some d → is_ok (v1_Build same_text some_order d).2 = true.
Proof.
  split; [vm_compute; reflexivity|]. intros h d Hd.
  apply (collected_builds _ _ _ _ _ _ _ _ _ dec_of_string some_order some_order toy_decode toy_namespaces
    _ _ the_collection h d the_run Hd).
Defined.

Lemma sample_record_total_witness :
  built_query = Ret (Ok the_query) ∧
  ∃ m, sample_record toy_parse toy_execute (λ _, None) id some_order day_reporter shop_labels
         (mkSampleOf the_query {[ "pod" := "web-1"; "namespace" := "shop" ]} (mkSample 0 "1")) = Ret (Ok m) ∧
    LabelMap m !! "meter_def_name" = Some (LStr "mdef") ∧ shop_labels "shop" = Ok (NamespaceLabels m).
Proof.
  assert (Hq : built_query = Ret (Ok the_query)) by (vm_compute; reflexivity).
  split; [exact Hq|].
  destruct (sample_record_total toy_parse toy_execute (λ _, None) id some_order day_reporter
    dec_of_string toy_unmarshal some_labels (midnight 18999) (midnight 19000) the_query
    {[ "pod" := "web-1"; "namespace" := "shop" ]} (mkSample 0 "1") shop_labels some_order_ok Hq)
    as (kv & made & o & Hg & _ & Ho & Hr).
  assert (Hok : match sample_record toy_parse toy_execute (λ _, None) id some_order day_reporter shop_labels
         (mkSampleOf the_query {[ "pod" := "web-1"; "namespace" := "shop" ]} (mkSample 0 "1")) with
    Ret (Ok m) => PL.ResourceNamespace (TLabels m) | _ => "" end = "shop")
    by (vm_compute; reflexivity).
  rewrite Ho in Hok. destruct o as [m|e]; [|discriminate Hok]. exists m.
  split; [exact Ho|]. destruct made as [rec|]; [|destruct Hr].
  destruct Hr as (Ht & _ & -> & _ & Hns & _). rewrite Ht in Hok. split.
  - assert (H1 : NNName (QMeterDef (query the_query)) = "mdef") by (vm_compute; reflexivity).
    assert (H2 : NNNamespace (QMeterDef (query the_query)) = "ns") by (vm_compute; reflexivity).
    destruct Hg as [_ Hg]. rewrite H1, H2 in Hg. apply Hg; discriminate.
  - apply Hns. split; [discriminate|]. left. symmetry. exact Hok.
Defined.

Definition ask_namespaces (start end_ : GoTime) (step : Z) (namespaces : list string) (w : nat)
    : nat * result string ModelValue :=
  (S w, Ok (ValMatrix
    [mkSeries {[ "namespace" := "shop"; "label_swc_saas_ibm_com_a" := "1"; "label_other" := "x" ]} [];
     mkSeries {[ "namespace" := "shop"; "label_swc_saas_ibm_com_b" := "2" ]} [] ])).

Lemma getNamespaceLabels_spec_witness :
  ∃ nl, getNamespaceLabels ask_namespaces some_order some_order day_reporter ["shop"] 0 = Ret (1, Ok nl) ∧
    ∃ l, nl !! "shop" = Some l ∧ l !! "swc_saas_ibm_com_b" = Some "2" ∧ l !! "swc_saas_ibm_com_a" = None.
Proof.
  destruct (getNamespaceLabels_spec ask_namespaces some_order some_order day_reporter ["shop"] 0
    some_order_ok some_order_ok) as (w' & o & Hg & H).
  assert (Hw : match getNamespaceLabels ask_namespaces some_order some_order day_reporter ["shop"] 0 with
    Ret (w, _) => w | Panic => 0 end = 1) by (vm_compute; reflexivity).
  rewrite Hg in Hw. subst w'.
  change (retried_call _ _ _) with (ask_namespaces (window day_reporter).1 (window day_reporter).2 Hour
    ["shop"] 0) in H. cbn [ask_namespaces] in H. destruct H as (nl & -> & Hn). exists nl.
  split; [exact Hg|]. specialize (Hn "shop").
  destruct (last _) as [s|] eqn:Hs; [|vm_compute in Hs; discriminate].
  destruct Hn as (l & Hl & Hk). exists l. rewrite !Hk. split; [exact Hl|].
  apply (f_equal (option_map SMetric)) in Hs. cbn [option_map] in Hs.
  assert (Hm : Some (SMetric s) = Some {[ "namespace" := "shop"; "label_swc_saas_ibm_com_b" := "2" ]})
    by (rewrite <- Hs; vm_compute; reflexivity).
  apply (inj Some) in Hm as ->. split; vm_compute; reflexivity.
Defined.

Definition ask_definitions (start end_ : GoTime) (step : Z) (w : nat) : nat * result string ModelValue :=
  (S w, Ok (ValMatrix [mkSeries some_labels (SValues the_series)])).

Lemma ProduceMeterDefinitions_spec_witness :
  match ProduceMeterDefinitions Itoa dec_of_string toy_marshal toy_unmarshal Ok "" ask_definitions
    map_to_list day_reporter 0 with
  | Ret (w, Ok queries) => w = 1 ∧ length queries = 1 ∧
      ∃ set : Queries, queries = (kv ← map_to_list set; kv.2)
  | _ => False
  end.
Proof.
  destruct (ProduceMeterDefinitions _ _ _ _ _ _ ask_definitions map_to_list day_reporter 0)
    as [[w [queries|e]]|] eqn:Hp; [|vm_compute in Hp; discriminate|vm_compute in Hp; discriminate].
  destruct (ProduceMeterDefinitions_spec _ _ _ _ _ _ ask_definitions map_to_list day_reporter 0 w queries
    ltac:(done) Hp) as (saved & set & _ & Hq & _).
  assert (Hl : match ProduceMeterDefinitions Itoa dec_of_string toy_marshal toy_unmarshal Ok "" ask_definitions
    map_to_list day_reporter 0 with Ret (w, Ok q) => w = 1 ∧ length q = 1 | _ => False end)
    by (vm_compute; split; reflexivity).
  rewrite Hp in Hl. destruct Hl as [Hw Hl]. split; [exact Hw|]. split; [exact Hl|]. by exists set.
Defined.
