(* ===== verification/Controllers.v ===== *)
(** * What the controllers share

    A step of a reconciliation ([v2/internal/controller/marketplace]) changes the
    cluster, may fail and may panic. Steps run one after the other until one
    fails, and an update is repeated on a conflict; the contracts of steps
    compose the same way. *)

From S2P Require Import Prelude GoTime Conditions Workloads Reports MeterDefinition MeterReport.

(** [ptr.ToBool]. *)
Definition ToBool (b : option bool) : bool := default false b.

(** What a request for a kind the cluster may not know can fail with. *)
Inductive DiscoveryError := NoMatch | Api (e : ClientError).

Definition Step (St : Type) : Type := St → outcome (St * option ClientError).

(** [if err := s(); err != nil { return err }; t()]. *)
Definition andthen {St} (s t : Step St) : Step St := λ st,
  match s st with Ret (st, None) => t st | r => r end.

Notation "s ;;> t" := (andthen s t) (at level 62, right associativity).

(** [retry.RetryOnConflict] of a closure that may panic. The state is all that the
    closure can change: the cluster, and the variables it captures. *)
Definition panicking {St} (f : Step St) (o : outcome St) : outcome St * option ClientError :=
  match o with
  | Panic => (Panic, None)
  | Ret st => match f st with Ret (st, e) => (Ret st, e) | Panic => (Panic, None) end
  end.

Definition Retry `{!ConflictRetry} {St} (f : Step St) : Step St := λ st,
  match RetryOnConflict (panicking f) (Ret st) with
  | (Ret st, e) => Ret (st, e)
  | (Panic, _) => Panic
  end.

(** A write whose answer is only looked at for its error. *)
Definition written {St A} (r : St * result ClientError A) : outcome (St * option ClientError) :=
  match r with (st, Ok _) => Ret (st, None) | (st, Err e) => Ret (st, Some e) end.

(** A read that ends the step when it fails. *)
Definition reading {St A} (get : St → result ClientError A) (k : A → Step St) : Step St := λ st,
  match get st with Err e => Ret (st, Some e) | Ok a => k a st end.

(** [updated = updated || change]: the change is not made once [updated] holds. *)
Definition or_else (change : Conditions → bool * Conditions) (s : bool * Conditions)
    : bool * Conditions :=
  if s.1 then s else change s.2.

Lemma andthen_inv {St} (s t : Step St) st st' e :
  (s ;;> t) st = Ret (st', e) →
  (s st = Ret (st', e) ∧ is_Some e) ∨ ∃ st1, s st = Ret (st1, None) ∧ t st1 = Ret (st', e).
Proof.
  unfold andthen. destruct (s st) as [[st1 [e1|]]|]; [intros [= <- <-]; by left; eauto| |done].
  intros Ht. right. by exists st1.
Qed.

(** ** Contracts *)

(** From a state with [P] the step does not panic; it ends in [Q] without an error
    and in [E] with one. *)
Definition triple {St} (P : St → Prop) (s : Step St) (Q E : St → Prop) : Prop :=
  ∀ st, P st → match s st with
               | Ret (st', None) => Q st'
               | Ret (st', Some _) => E st'
               | Panic => False
               end.

Lemma triple_weaken {St} (P P' : St → Prop) s (Q Q' E E' : St → Prop) :
  triple P s Q E → (∀ st, P' st → P st) → (∀ st, Q st → Q' st) → (∀ st, E st → E' st) →
  triple P' s Q' E'.
Proof.
  intros Ht HP HQ HE st H. specialize (Ht st (HP st H)).
  destruct (s st) as [[st' [e|]]|]; auto.
Qed.

Lemma triple_andthen {St} (P Q R E : St → Prop) (s t : Step St) :
  triple P s Q E → triple Q t R E → triple P (s ;;> t) R E.
Proof.
  intros Hs Ht st H. specialize (Hs st H). unfold andthen.
  destruct (s st) as [[st' [e|]]|]; [done| |done]. by apply Ht.
Qed.

Lemma triple_exists {St A} (P : A → St → Prop) s (Q E : St → Prop) :
  (∀ a, triple (P a) s Q E) → triple (λ st, ∃ a, P a st) s Q E.
Proof. intros Ht st [a H]. by apply (Ht a). Qed.

(** A closure that keeps [I] when it fails can be repeated. *)
Lemma triple_Retry `{!ConflictRetry} {St} (I Q : St → Prop) (f : Step St) :
  triple I f Q I → triple I (Retry f) Q I.
Proof.
  intros Hf st HI. unfold Retry.
  pose proof (RetryOnConflict_law (panicking f) (Ret st)) as Hr. revert Hr.
  generalize (RetryOnConflict (panicking f) (Ret st)) as r. intros r Hr.
  remember (Ret st) as o eqn:Ho. revert st HI Ho.
  induction Hr as [o|o o' r Heq _ IH]; intros st HI ->; unfold panicking in *;
    specialize (Hf st HI).
  - by destruct (f st) as [[st' [e|]]|].
  - destruct (f st) as [[st' [e|]]|] eqn:Hfs; [|discriminate Heq|done].
    injection Heq as <- ->. by apply (IH st').
Qed.

Lemma triple_reading {St A} (P Q E : St → Prop) (get : St → result ClientError A) k :
  (∀ st e, P st → get st = Err e → E st) →
  (∀ a, triple (λ st, P st ∧ get st = Ok a) (k a) Q E) →
  triple P (reading get k) Q E.
Proof.
  intros He Hk st HP. unfold reading. destruct (get st) as [a|e] eqn:Hg; [by apply Hk|].
  by eapply He.
Qed.

(** Two steps whose contract is known together. *)
Lemma triple_andthen2 {St} (P Q R E : St → Prop) (s t u : Step St) :
  triple P (λ st, (s ;;> t) st) Q E → triple Q u R E → triple P (s ;;> t ;;> u) R E.
Proof.
  intros Hst Hu st HP. specialize (Hst st HP). unfold andthen in *.
  destruct (s st) as [[st1 [e|]]|]; [done| |done].
  destruct (t st1) as [[st2 [e|]]|]; [done| |done]. by apply Hu.
Qed.

(** A condition that is set first in a chain is as it should be after any run, and
    the next of the chain is only looked at when it already was. *)
Lemma or_else_set now c cs (next : Conditions → bool * Conditions) :
  or_else next (or_else (λ cs, SetCondition now cs c) (false, cs)) =
    if (SetCondition now cs c).1 then SetCondition now cs c else next cs.
Proof.
  unfold or_else; cbn [fst snd]. destruct (SetCondition now cs c) as [[] cs'] eqn:He; cbn; [done|].
  assert (Hf : (SetCondition now cs c).1 = false) by (by rewrite He).
  apply SetCondition_unchanged in Hf as [Hf _]. rewrite He in Hf. cbn in Hf. by subst.
Qed.

Lemma or_else_settled now c cs (next : Conditions → bool * Conditions) :
  settled c cs →
  or_else next (or_else (λ cs, SetCondition now cs c) (false, cs)) = next cs.
Proof. rewrite or_else_set. by intros ->%(settled_unchanged now). Qed.

(** ** Changing one object

    The closure most updates repeat: read the object afresh, and write it if [change]
    finds something to change. The state is the cluster and the object as last read or
    written. *)

Section refresh.
Context {W O : Type}.
Variable get : W → result ClientError O.

Definition refresh_then (change : W → O → option O) (write : O → W → W * result ClientError O)
    : Step (W * O) := λ '(w, instance),
  match get w with
  | Err e => Ret ((w, instance), Some e)
  | Ok b =>
      match change w b with
      | None => Ret ((w, b), None)
      | Some b' =>
          match write b' w with
          | (w, Ok b) => Ret ((w, b), None)
          | (w, Err e) => Ret ((w, b'), Some e)
          end
      end
  end.

(** [stored] is the object of the cluster, [same] what a write of it leaves alone. *)
Variable stored : W → option O.
Variable same : W → W → Prop.
Hypothesis same_trans : ∀ w w1 w', same w w1 → same w1 w' → same w w'.
Hypothesis get_law : ∀ w, match get w with Ok b => stored w = Some b | Err _ => True end.

(** A write stores what the server makes of the old object and the written one. *)
Definition put_as (merge : O → O → O) (old b : O) (w : W) (r : W * result ClientError O) : Prop :=
  same w r.1 ∧
  match r.2 with
  | Ok n => n = merge old b ∧ stored r.1 = Some n
  | Err _ => stored r.1 = stored w
  end.

Lemma Retry_refresh_then `{!ConflictRetry} change write merge w0 b0 :
  (∀ w b', stored w = Some b0 → change w b0 = Some b' → put_as merge b0 b' w (write b' w)) →
  triple (λ st, stored st.1 = Some b0 ∧ same w0 st.1) (Retry (refresh_then change write))
    (λ st, ∃ w, st.2 = match change w b0 with Some b' => merge b0 b' | None => b0 end ∧
       stored st.1 = Some st.2 ∧ same w0 st.1)
    (λ st, stored st.1 = Some b0 ∧ same w0 st.1).
Proof.
  intros Hw. apply triple_Retry. intros [w b] [Hb Hsame]; cbn [fst snd] in *.
  unfold refresh_then. pose proof (get_law w) as Hg. destruct (get w) as [b1|e]; [|by split].
  rewrite Hb in Hg. injection Hg as <-.
  destruct (change w b0) as [b'|] eqn:Hc; [|exists w; by rewrite Hc].
  destruct (Hw _ _ Hb Hc) as [Hs Hr]. destruct (write b' w) as [w1 [n|e]]; cbn [fst snd] in *.
  - destruct Hr as [-> Hst]. exists w. rewrite Hc. split_and!; [done..|by eapply same_trans].
  - split; [by rewrite Hr|by eapply same_trans].
Qed.
End refresh.

(** ** Stores of one object

    The state of a small cluster, for the examples: an object or none. *)

Definition singleton_by {K A} `{Countable K} (key : A → K) (o : option A) : gmap K A :=
  match o with Some a => {[ key a := a ]} | None => ∅ end.

Lemma singleton_by_lookup {K A} `{Countable K} (key : A → K) o k a :
  singleton_by key o !! k = Some a ↔ o = Some a ∧ key a = k.
Proof.
  destruct o as [b|]; cbn; [|rewrite lookup_empty; naive_solver].
  rewrite lookup_singleton_Some. naive_solver.
Qed.

Lemma singleton_by_insert {K A} `{Countable K} (key : A → K) a b k :
  key a = k → key b = k → singleton_by key (Some b) = <[k := b]> (singleton_by key (Some a)).
Proof. intros <- Hb. cbn. by rewrite Hb, insert_singleton_eq. Qed.
