(* ===== verification/MarketplaceConfig.v ===== *)
(** * The controller of the marketplace configuration

    The model of [v2/internal/controller/marketplace/marketplaceconfig_controller.go]
    with the resources it writes ([v1alpha1/marketplaceconfig_types.go],
    [v1alpha1/meterbase_types.go], [common/features.go]) and their builders
    ([v2/pkg/utils/k8s.go]): the gate on the license, the defaults of the
    specification, the meter base that follows it, and the conditions that report
    the installation. The API server is an interface; what it promises is stated
    over the resources it stores. *)

From Stdlib Require Import Ascii.
From S2P Require Import Prelude GoTime Conditions Workloads Reports MeterDefinition MeterReport Helpers Secrets Controllers.
Local Open Scope go_scope.

(** ** Go strings *)

Definition byte_in (lo hi : nat) (c : ascii) : bool :=
  (lo <=? nat_of_ascii c)%nat && (nat_of_ascii c <=? hi)%nat.

(** The bytes that may follow a first byte: the range of the second and how many
    follow in all. [None] is a byte that stands for itself, valid or not. *)
Definition utf8_lead (c : ascii) : option (nat * nat * nat) :=
  if byte_in 0xC2 0xDF c then Some (0x80, 0xBF, 1)
  else if byte_in 0xE0 0xE0 c then Some (0xA0, 0xBF, 2)
  else if byte_in 0xE1 0xEC c then Some (0x80, 0xBF, 2)
  else if byte_in 0xED 0xED c then Some (0x80, 0x9F, 2)
  else if byte_in 0xEE 0xEF c then Some (0x80, 0xBF, 2)
  else if byte_in 0xF0 0xF0 c then Some (0x90, 0xBF, 3)
  else if byte_in 0xF1 0xF3 c then Some (0x80, 0xBF, 3)
  else if byte_in 0xF4 0xF4 c then Some (0x80, 0x8F, 3)
  else None.

(** [utf8.RuneCountInString]: bytes that are not UTF-8 count for one each. *)
Fixpoint RuneCountInString (s : string) : nat :=
  match s with
  | EmptyString => 0
  | String a s1 => S (
      match utf8_lead a, s1 with
      | Some (lo, hi, n), String b s2 =>
          if byte_in lo hi b then
            match n, s2 with
            | 1, _ => RuneCountInString s2
            | _, String c s3 =>
                if byte_in 0x80 0xBF c then
                  match n, s3 with
                  | 2, _ => RuneCountInString s3
                  | _, String d s4 =>
                      if byte_in 0x80 0xBF d then RuneCountInString s4
                      else RuneCountInString s1
                  | _, _ => RuneCountInString s1
                  end
                else RuneCountInString s1
            | _, _ => RuneCountInString s1
            end
          else RuneCountInString s1
      | _, _ => RuneCountInString s1
      end)
  end.

Definition newline : ascii := Eval cbv in ascii_of_nat 10.

Fixpoint TrimLeft (c : ascii) (s : string) : string :=
  match s with
  | String a s' => if Ascii.eqb a c then TrimLeft c s' else s
  | EmptyString => s
  end.

Fixpoint TrimRight (c : ascii) (s : string) : string :=
  match s with
  | EmptyString => EmptyString
  | String a s' =>
      match TrimRight c s' with
      | EmptyString => if Ascii.eqb a c then EmptyString else String a EmptyString
      | r => String a r
      end
  end.

(** [strings.Trim] with one character to cut. *)
Definition Trim (c : ascii) (s : string) : string := TrimRight c (TrimLeft c s).

(** ** Data *)

(** [V] is the type of the Kubernetes values that are carried without being looked
    into: selectors, resource requirements, volume sources, routes. *)

Record Features := mkFeatures {
  Deployment : option bool;
  Registration : option bool;
  EnableMeterDefinitionCatalogServer : option bool
}.

Record MeterDefinitionCatalogServerConfig := mkCatalogConfig {
  SyncCommunityMeterDefinitions : bool;
  SyncSystemMeterDefinitions : bool;
  DeployMeterDefinitionCatalogServer : bool
}.

Record Route {V : Type} := mkRoute { RouteSpec : option V; Disabled : option bool }.
Arguments Route : clear implicits.
Arguments mkRoute {V}.

Record DataService {V : Type} := mkDataService { DSRoute : option (Route V) }.
Arguments DataService : clear implicits.
Arguments mkDataService {V}.

Record MarketplaceConfigSpec {V : Type} := mkConfigSpec {
  RhmAccountID : string;
  ClusterUUID : string;
  ClusterName : string;
  DeploySecretName : option string;
  EnableMetering : option bool;
  IsDisconnected : option bool;
  InstallIBMCatalogSource : option bool;
  Features_ : option Features;
  NamespaceLabelSelector : option V;
  LicenseAccept : option bool;
  AuthorizeAccountCreation : option bool;
  StorageClassName : option string;
  DataService_ : option (DataService V)
}.
Arguments MarketplaceConfigSpec : clear implicits.
Arguments mkConfigSpec {V}.

(** A nil list of sub-conditions is told from an empty one. *)
Record MarketplaceConfigStatus := mkConfigStatus {
  MCConditions : Conditions;
  RazeeSubConditions : Conditions;
  MeterBaseSubConditions : option Conditions
}.

Record MarketplaceConfig {V : Type} := mkConfig {
  MCMeta : ObjectMeta;
  ResourceVersion : string;
  MCSpec : MarketplaceConfigSpec V;
  MCStatus : MarketplaceConfigStatus
}.
Arguments MarketplaceConfig : clear implicits.
Arguments mkConfig {V}.

Record StorageSpec {V : Type} := mkStorage {
  StorageClass : option string; StorageSize : string; EmptyDir : option V
}.
Arguments StorageSpec : clear implicits.
Arguments mkStorage {V}.

Record PrometheusSpec {V : Type} := mkPrometheusSpec {
  ResourceRequirements : option V;
  NodeSelector : gmap string string;
  Storage : StorageSpec V;
  Replicas : option Z
}.
Arguments PrometheusSpec : clear implicits.
Arguments mkPrometheusSpec {V}.

Record MeterBaseSpec {V : Type} := mkMeterBaseSpec {
  Enabled : bool;
  Prometheus : option (PrometheusSpec V);
  CatalogServerConfig : option MeterDefinitionCatalogServerConfig;
  AdditionalScrapeConfigs : option V;
  DataServiceEnabled : option bool;
  UserWorkloadMonitoringEnabled : option bool;
  MBStorageClassName : option string;
  MBDataService : option (DataService V)
}.
Arguments MeterBaseSpec : clear implicits.
Arguments mkMeterBaseSpec {V}.

(** Of its status, the conditions; a nil list is told from an empty one. *)
Record MeterBase {V : Type} := mkMeterBase {
  MBMeta : ObjectMeta;
  MBSpec : MeterBaseSpec V;
  MBConditions : option Conditions
}.
Arguments MeterBase : clear implicits.
Arguments mkMeterBase {V}.

Record CatalogSource := mkCatalogSource {
  CSMeta : ObjectMeta;
  DisplayName : string;
  Publisher : string;
  SourceType : string;
  Image : string;
  RawInterval : string
}.

(** The part of the operator's configuration that is read. *)
Record OperatorConfig := mkOperatorConfig {
  DeployedNamespace : string;
  CfgIsDisconnected : bool;
  IBMCatalog : bool
}.

#[export] Instance Features_eq_dec : EqDecision Features.
Proof. solve_decision. Defined.
#[export] Instance CatalogConfig_eq_dec : EqDecision MeterDefinitionCatalogServerConfig.
Proof. solve_decision. Defined.
#[export] Instance Route_eq_dec {V} `{EqDecision V} : EqDecision (Route V).
Proof. solve_decision. Defined.
#[export] Instance DataService_eq_dec {V} `{EqDecision V} : EqDecision (DataService V).
Proof. solve_decision. Defined.
#[export] Instance ConfigSpec_eq_dec {V} `{EqDecision V} : EqDecision (MarketplaceConfigSpec V).
Proof. solve_decision. Defined.
#[export] Instance ConfigStatus_eq_dec : EqDecision MarketplaceConfigStatus.
Proof. solve_decision. Defined.
#[export] Instance Config_eq_dec {V} `{EqDecision V} : EqDecision (MarketplaceConfig V).
Proof. solve_decision. Defined.
#[export] Instance Storage_eq_dec {V} `{EqDecision V} : EqDecision (StorageSpec V).
Proof. solve_decision. Defined.
#[export] Instance PrometheusSpec_eq_dec {V} `{EqDecision V} : EqDecision (PrometheusSpec V).
Proof. solve_decision. Defined.
#[export] Instance MeterBaseSpec_eq_dec {V} `{EqDecision V} : EqDecision (MeterBaseSpec V).
Proof. solve_decision. Defined.

Definition METERBASE_NAME : string := "rhm-marketplaceconfig-meterbase".
Definition RAZEE_NAME : string := "rhm-marketplaceconfig-razeedeployment".
Definition RHM_METERING_DEPLOYMENT_NAME : string := "ibm-metrics-operator-controller-manager".
Definition IBM_CATALOGSRC_NAME : string := "ibm-operator-catalog".
Definition OPENCLOUD_CATALOGSRC_NAME : string := "opencloud-operators".
Definition OPERATOR_MKTPLACE_NS : string := "openshift-marketplace".
Definition ClusterDisplayNameKey : string := "CLUSTER_DISPLAY_NAME".
Definition LicenseServerTag : string := "marketplace.redhat.com/operator".
Definition OperatorTag : string := "marketplace.redhat.com/operator".
Definition OperatorTagValue : string := "true".

Definition ConditionInstalling : string := "Installing".
Definition ConditionComplete : string := "Complete".
Definition ConditionNoLicense : string := "NoLicense".
Definition ConditionSecretError : string := "SecretError".
Definition ConditionIsDisconnected : string := "IsDisconnected".

(** A condition before it is stamped. *)
Definition cond (type status reason message : string) : Condition :=
  mkCondition type status reason message 0.

Definition no_license : Condition :=
  cond ConditionNoLicense ConditionTrue "LicenseNotAccepted"
    "License has not been accepted in marketplaceconfig".
Definition disconnected : Condition :=
  cond ConditionIsDisconnected ConditionTrue "InternetNotAvailable"
    "Detected disconnected environment".
Definition secret_text : string :=
  "no redhat-marketplace-pull-secret or ibm-entitlement-key secret found, secret is required in a connected environment".
Definition secret_error : Condition :=
  cond ConditionSecretError ConditionTrue "NoSecret" secret_text.
Definition meter_base_installed : Condition :=
  cond ConditionInstalling ConditionTrue "MeterBaseInstalled" "Meter base installed.".
Definition install_starting : Condition :=
  cond ConditionInstalling ConditionTrue "StartInstall" "Installing starting".
Definition install_finished : Condition :=
  cond ConditionInstalling ConditionFalse "FinishedInstall"
    "Finished Installing necessary components".
Definition install_complete : Condition :=
  cond ConditionComplete ConditionTrue "FinishedInstall"
    "Finished Installing necessary components".
Definition catalog_installed (name : string) : Condition :=
  cond ConditionInstalling ConditionTrue "CatalogSourceInstalled"
    (name +:+ " catalog source installed.").
Definition catalog_deleted (name : string) : Condition :=
  cond ConditionInstalling ConditionTrue "CatalogSourceDeleted"
    (name +:+ " catalog source deleted.").

(** ** Builders *)

Definition named (namespace name : string) (labels : gmap string string) : ObjectMeta :=
  mkMeta name namespace "" 0 labels ∅ [].

Definition BuildNewIBMCatalogSrc : CatalogSource :=
  mkCatalogSource
    (named OPERATOR_MKTPLACE_NS IBM_CATALOGSRC_NAME {[ OperatorTag := OperatorTagValue ]})
    "IBM Operator Catalog" "IBM" "grpc" "icr.io/cpopen/ibm-operator-catalog" "45m".

Definition BuildNewOpencloudCatalogSrc : CatalogSource :=
  mkCatalogSource
    (named OPERATOR_MKTPLACE_NS OPENCLOUD_CATALOGSRC_NAME {[ OperatorTag := OperatorTagValue ]})
    "IBMCS Operators" "IBM" "grpc" "icr.io/cpopen/ibm-common-service-catalog" "45m".

Definition NewMeterDefinitionCatalogConfig (enabled : bool)
    : MeterDefinitionCatalogServerConfig :=
  mkCatalogConfig enabled false enabled.

Definition BuildMeterBaseCr {V} (namespace : string) (deployMdefCatalogServer : bool)
    (storageClassName : option string) : MeterBase V :=
  mkMeterBase (named namespace METERBASE_NAME ∅)
    (mkMeterBaseSpec true
       (Some (mkPrometheusSpec None ∅ (mkStorage None "20Gi" None) None))
       (Some (NewMeterDefinitionCatalogConfig deployMdefCatalogServer)) None None None
       storageClassName None)
    None.

(** ** Updates of the resources *)

Definition with_accept {V} (s : MarketplaceConfigSpec V) : MarketplaceConfigSpec V :=
  mkConfigSpec (RhmAccountID s) (ClusterUUID s) (ClusterName s) (DeploySecretName s)
    (EnableMetering s) (IsDisconnected s) (InstallIBMCatalogSource s) (Features_ s)
    (NamespaceLabelSelector s) (Some true) (AuthorizeAccountCreation s) (StorageClassName s)
    (DataService_ s).

Definition with_spec {V} (mc : MarketplaceConfig V) (s : MarketplaceConfigSpec V)
    : MarketplaceConfig V :=
  mkConfig (MCMeta mc) (ResourceVersion mc) s (MCStatus mc).

Definition with_meta {V} (mc : MarketplaceConfig V) (m : ObjectMeta) : MarketplaceConfig V :=
  mkConfig m (ResourceVersion mc) (MCSpec mc) (MCStatus mc).

Definition with_conditions {V} (mc : MarketplaceConfig V) (cs : Conditions)
    : MarketplaceConfig V :=
  mkConfig (MCMeta mc) (ResourceVersion mc) (MCSpec mc)
    (mkConfigStatus cs (RazeeSubConditions (MCStatus mc)) (MeterBaseSubConditions (MCStatus mc))).

Definition with_sub_conditions {V} (mc : MarketplaceConfig V) (cs : option Conditions)
    : MarketplaceConfig V :=
  mkConfig (MCMeta mc) (ResourceVersion mc) (MCSpec mc)
    (mkConfigStatus (MCConditions (MCStatus mc)) (RazeeSubConditions (MCStatus mc)) cs).

Definition no_owners (m : ObjectMeta) : ObjectMeta :=
  mkMeta (Name m) (Namespace m) (UID m) (Generation m) (Labels m) (Annotations m) [].

Definition with_label (m : ObjectMeta) (k v : string) : ObjectMeta :=
  mkMeta (Name m) (Namespace m) (UID m) (Generation m) (<[k := v]> (Labels m)) (Annotations m)
    (OwnerReferences m).

Definition conditions {V} (mc : MarketplaceConfig V) : Conditions := MCConditions (MCStatus mc).

(** [RemoveCondition] on the conditions of a status, which are never nil there. *)
Definition RemoveFrom (cs : Conditions) (t : string) : bool * Conditions := remove_loop cs t.

(** The defaults and derived values of the specification: the closure of
    [initializeMarketplaceConfigSpec] before the owner is set. [secret] is what the
    secret fetcher found, if it found one without an error; [clusterID] is nothing
    when the cluster has no cluster version. *)
Definition cluster_name (secret : option SecretInfo) (name : string) : string :=
  match secret with
  | Some si =>
      match Data (SSecret si) !! ClusterDisplayNameKey with
      | Some clusterDisplayName =>
          let count := RuneCountInString clusterDisplayName in
          let clusterName := Trim newline clusterDisplayName in
          if name != clusterName then
            if (count <=? 256)%nat then clusterName else name
          else name
      | None => name
      end
  | None => name
  end.

Definition initialize_spec {V} (cfg : OperatorConfig) (secret : option SecretInfo)
    (clusterID : option string) (newUUID : string) (s : MarketplaceConfigSpec V)
    : MarketplaceConfigSpec V :=
  let isDisconnected :=
    if CfgIsDisconnected cfg then Some true
    else match IsDisconnected s with None => Some false | d => d end in
  let features := default (mkFeatures None None None) (Features_ s) in
  let registration := match Registration features with None => Some true | r => r end in
  mkConfigSpec (RhmAccountID s)
    (match clusterID with
     | Some id => id
     | None => if ClusterUUID s == "" then newUUID else ClusterUUID s
     end)
    (if negb (ToBool isDisconnected) then cluster_name secret (ClusterName s) else ClusterName s)
    (DeploySecretName s) None isDisconnected
    (match InstallIBMCatalogSource s with None => Some (IBMCatalog cfg) | i => i end)
    (Some (mkFeatures (Some false) registration (Some false)))
    (NamespaceLabelSelector s) (LicenseAccept s) (AuthorizeAccountCreation s)
    (StorageClassName s) (DataService_ s).

(** The catalog server's settings of the meter base, and its other derived
    values: the closure of [handleMeterDefinitionCatalogServerConfigs]. *)
Definition catalog_config (isDisconnected enable : bool)
    (old : option MeterDefinitionCatalogServerConfig)
    : option MeterDefinitionCatalogServerConfig :=
  let new :=
    if enable then
      match old with
      | None => Some (mkCatalogConfig true false (negb isDisconnected && enable))
      | Some c =>
          if negb (DeployMeterDefinitionCatalogServer c)
          then Some (mkCatalogConfig (SyncCommunityMeterDefinitions c)
                       (SyncSystemMeterDefinitions c) (negb isDisconnected && enable))
          else Some c
      end
    else old in
  match new with
  | Some c => if negb enable then Some (mkCatalogConfig false false false) else Some c
  | None => None
  end.

Definition meter_base_spec {V} (s : MarketplaceConfigSpec V) (features : Features)
    (mb : MeterBaseSpec V) : MeterBaseSpec V :=
  mkMeterBaseSpec (Enabled mb) (Prometheus mb)
    (catalog_config (ToBool (IsDisconnected s))
       (ToBool (EnableMeterDefinitionCatalogServer features)) (CatalogServerConfig mb))
    (AdditionalScrapeConfigs mb) (DataServiceEnabled mb) (UserWorkloadMonitoringEnabled mb)
    (match MBStorageClassName mb with None => StorageClassName s | n => n end)
    (DataService_ s).

(** The conditions of a finished installation. *)
Definition finish_conditions (now : Time) (cs : Conditions) : bool * Conditions :=
  or_else (λ cs, SetCondition now cs install_complete)
    (or_else (λ cs, SetCondition now cs install_finished) (false, cs)).

(** The conditions of the environment: without a usable secret a connected cluster
    is in error. *)
Definition environment_conditions (now : Time) (isDisconnected secret : bool) (cs : Conditions)
    : bool * Conditions :=
  if isDisconnected then
    or_else (λ cs, SetCondition now cs disconnected)
      (or_else (λ cs, RemoveFrom cs ConditionSecretError) (false, cs))
  else
    let r := or_else (λ cs, RemoveFrom cs ConditionIsDisconnected) (false, cs) in
    if secret then or_else (λ cs, RemoveFrom cs ConditionSecretError) r
    else or_else (λ cs, SetCondition now cs secret_error) r.

(** ** The interface to the cluster *)

(** Reads may come from a cache. A write of a configuration returns the object as
    the server has stored it. *)
Class ConfigCluster (V W : Type) := {
  Now : W → Time;
  NewUUID : W → string;
  GetConfig : NamespacedName → W → result ClientError (MarketplaceConfig V);
  UpdateConfig : MarketplaceConfig V → W → W * result ClientError (MarketplaceConfig V);
  UpdateConfigStatus : MarketplaceConfig V → W → W * result ClientError (MarketplaceConfig V);
  GetMeterBase : NamespacedName → W → result ClientError (MeterBase V);
  CreateMeterBase : MeterBase V → W → W * result ClientError (MeterBase V);
  UpdateMeterBase : MeterBase V → W → W * result ClientError (MeterBase V);
  GetNamespace : string → W → result ClientError ObjectMeta;
  UpdateNamespace : ObjectMeta → W → W * result ClientError ObjectMeta;
  GetCatalogSource : NamespacedName → W → result ClientError CatalogSource;
  CreateCatalogSource : CatalogSource → W → W * result ClientError CatalogSource;
  DeleteCatalogSource : NamespacedName → W → W * result ClientError unit;
  GetDeployment : NamespacedName → W → result ClientError ObjectMeta;
  GetClusterVersion : W → result DiscoveryError string;
  GetSecret : NamespacedName → W → result ApiError Secret;
  DeleteUnstructured : string → NamespacedName → W → W * option DiscoveryError
}.

(** ** The reconciliation *)

Section reconciler.
Context {V W : Type} `{!EqDecision V} `{!ConfigCluster V W} `{!ConflictRetry}.
Variable cfg : OperatorConfig.
(** The readers of a secret ([Secrets]), and [controllerutil.SetControllerReference]
    of an owner of a kind on the metadata of an object. *)
Variable unmarshal : string → option (gmap string Auth).
Variable DecodeSegment : string → bool.
Variable ParseUnverified : string → result string MarketplaceClaims.
Variable SetControllerReference : string → ObjectMeta → ObjectMeta → result ClientError ObjectMeta.
Variable request : NamespacedName.

Definition meter_base_key : NamespacedName := mkNN (NNNamespace request) METERBASE_NAME.

(** What the secret fetcher returns, when it is not an error. *)
Definition secret_found (w : W) : option SecretInfo :=
  match ReturnSecret unmarshal DecodeSegment ParseUnverified (λ k, GetSecret k w)
          (NNNamespace request) with
  | (si, None) => si
  | (_, Some _) => None
  end.

Definition put_status (updated : bool) (mc : MarketplaceConfig V) : Step W := λ w,
  if updated then written (UpdateConfigStatus mc w) else Ret (w, None).

(** Read, change the conditions, write the status when they changed. *)
Definition change_conditions (change : Time → Conditions → bool * Conditions) : Step W :=
  reading (GetConfig request) (λ mc w,
    let '(updated, cs) := change (Now w) (conditions mc) in
    put_status updated (with_conditions mc cs) w).

Definition updateDeployedNamespaceLabels : Step W :=
  Retry (reading (GetNamespace (DeployedNamespace cfg)) (λ ns w,
    if Labels ns !! LicenseServerTag != Some "true"
    then written (UpdateNamespace (with_label ns LicenseServerTag "true") w)
    else Ret (w, None))).

Definition put_initialized (mc : MarketplaceConfig V) (clusterID : option string) : Step W :=
  λ w, reading (GetDeployment (mkNN (DeployedNamespace cfg) RHM_METERING_DEPLOYMENT_NAME))
    (λ dep w,
      match SetControllerReference "Deployment" dep (no_owners (MCMeta mc)) with
      | Err e => Ret (w, Some e)
      | Ok m =>
          let new := with_meta (with_spec mc (initialize_spec cfg (secret_found w) clusterID
                                                (NewUUID w) (MCSpec mc))) m in
          if mc != new then written (UpdateConfig new w) else Ret (w, None)
      end) w.

Definition initialize_closure : Step W :=
  reading (GetConfig request) (λ mc w,
    match GetClusterVersion w with
    | Ok id => put_initialized mc (Some id) w
    | Err NoMatch => put_initialized mc None w
    | Err (Api IsNotFound) => put_initialized mc None w
    | Err (Api e) => Ret (w, Some e)
    end).

(** The error the closure ends with when the secret is missing. *)
Definition environment_closure : Step W :=
  reading (GetConfig request) (λ mc w,
    let isDisconnected := ToBool (IsDisconnected (MCSpec mc)) in
    let secret := bool_decide (is_Some (secret_found w)) in
    let '(updated, cs) :=
      environment_conditions (Now w) isDisconnected secret (conditions mc) in
    match put_status updated (with_conditions mc cs) w with
    | Ret (w, None) =>
        if isDisconnected || secret then Ret (w, None)
        else Ret (w, Some (OtherFailure secret_text))
    | r => r
    end).

Definition initializeMarketplaceConfigSpec : Step W :=
  reading (GetConfig request) (λ _, Retry initialize_closure ;;> Retry environment_closure).

Definition updateMarketplaceConfigStatusStarting : Step W :=
  Retry (change_conditions (λ now cs,
    if IsUnknownFor cs ConditionInstalling then SetCondition now cs install_starting
    else (false, cs))).

Definition updateMarketplaceConfigStatusFinished : Step W :=
  Retry (change_conditions finish_conditions).

(** The meter base is created with the catalog server deployed when the cluster is
    connected and the features, which are dereferenced, ask for it. *)
Definition create_meter_base (mc : MarketplaceConfig V) : Step W := λ w,
  match (if ToBool (IsDisconnected (MCSpec mc)) then Ret false
         else match Features_ (MCSpec mc) with
              | Some f => Ret (ToBool (EnableMeterDefinitionCatalogServer f))
              | None => Panic
              end) with
  | Panic => Panic
  | Ret deploy =>
      let mb := BuildMeterBaseCr (NNNamespace request) deploy (StorageClassName (MCSpec mc)) in
      match SetControllerReference "MarketplaceConfig" (MCMeta mc) (MBMeta mb) with
      | Err e => Ret (w, Some e)
      | Ok m => written (CreateMeterBase (mkMeterBase m (MBSpec mb) (MBConditions mb)) w)
      end
  end.

Definition sub_conditions (mb : MeterBase V) (mc : MarketplaceConfig V)
    : bool * option Conditions :=
  let '(updated, sub) := match MeterBaseSubConditions (MCStatus mc) with
                         | None => (true, [])
                         | Some cs => (false, cs)
                         end in
  match MBConditions mb with
  | Some cs => if negb (ConditionsEqual cs sub) then (true, Some cs) else (updated, Some sub)
  | None => (updated, Some sub)
  end.

Definition copy_sub_conditions : Step W :=
  Retry (reading (GetMeterBase meter_base_key) (λ mb, reading (GetConfig request) (λ mc w,
    let '(updated, sub) := sub_conditions mb mc in
    put_status updated (with_sub_conditions mc sub) w))).

Definition createOrUpdateMeterBase : Step W :=
  reading (GetConfig request) (λ mc w,
    match GetMeterBase meter_base_key w with
    | Err IsNotFound =>
        (create_meter_base mc ;;>
         Retry (change_conditions (λ now cs, SetCondition now cs meter_base_installed)) ;;>
         copy_sub_conditions) w
    | Err e => Ret (w, Some e)
    | Ok _ => copy_sub_conditions w
    end).

Definition handleMeterDefinitionCatalogServerConfigs : Step W :=
  Retry (reading (GetMeterBase meter_base_key) (λ mb, reading (GetConfig request) (λ mc w,
    match Features_ (MCSpec mc) with
    | None => Panic
    | Some f =>
        let s := meter_base_spec (MCSpec mc) f (MBSpec mb) in
        if MBSpec mb != s
        then written (UpdateMeterBase (mkMeterBase (MBMeta mb) s (MBConditions mb)) w)
        else Ret (w, None)
    end))).

Definition removeRazeeDeployment : Step W := λ w,
  match DeleteUnstructured "RazeeDeployment" (mkNN (NNNamespace request) RAZEE_NAME) w with
  | (w, None) | (w, Some NoMatch) | (w, Some (Api IsNotFound)) => Ret (w, None)
  | (w, Some (Api e)) => Ret (w, Some e)
  end.

(** The steps that change the configuration held by [Reconcile]. *)
Definition Held : Type := MarketplaceConfig V * W.

(** A write of the held configuration, which then is what the server answered. *)
Definition held (mc : MarketplaceConfig V)
    (r : W * result ClientError (MarketplaceConfig V)) : outcome (Held * option ClientError) :=
  match r with
  | (w, Ok mc') => Ret ((mc', w), None)
  | (w, Err e) => Ret ((mc, w), Some e)
  end.

Definition set_installing (mc : MarketplaceConfig V) (c : Condition) (w : W)
    : outcome (Held * option ClientError) :=
  let '(ok, cs) := SetCondition (Now w) (conditions mc) c in
  let mc := with_conditions mc cs in
  if ok then held mc (UpdateConfigStatus mc w) else Ret ((mc, w), None).

Definition createCatalogSource (catalogName : string) : Step Held :=
  Retry (λ s, let '(mc, w) := s in
    let key := mkNN OPERATOR_MKTPLACE_NS catalogName in
    if ToBool (InstallIBMCatalogSource (MCSpec mc)) then
      match GetCatalogSource key w with
      | Ok _ => Ret ((mc, w), None)
      | Err IsNotFound =>
          match CreateCatalogSource (if IBM_CATALOGSRC_NAME == catalogName
                                     then BuildNewIBMCatalogSrc
                                     else BuildNewOpencloudCatalogSrc) w with
          | (w, Err e) => Ret ((mc, w), Some e)
          | (w, Ok _) => set_installing mc (catalog_installed catalogName) w
          end
      | Err e => Ret ((mc, w), Some e)
      end
    else
      match GetCatalogSource key w with
      | Err IsNotFound => Ret ((mc, w), None)
      | Err e => Ret ((mc, w), Some e)
      | Ok src =>
          if Labels (CSMeta src) !! OperatorTag == Some OperatorTagValue then
            match DeleteCatalogSource key w with
            | (w, Err e) => Ret ((mc, w), Some e)
            | (w, Ok _) => set_installing mc (catalog_deleted catalogName) w
            end
          else Ret ((mc, w), None)
      end).

(** An accepted license clears the condition: the closure does not read the
    configuration again. *)
Definition clear_license : Step Held := λ s,
  let '(mc, w) := s in
  let '(removed, cs) := RemoveFrom (conditions mc) ConditionNoLicense in
  let mc := with_conditions mc cs in
  if removed then held mc (UpdateConfigStatus mc w) else Ret ((mc, w), None).

Definition accept_license : Step Held := λ s,
  let '(mc, w) := s in
  match GetConfig request w with
  | Err e => Ret ((mc, w), Some e)
  | Ok mc => let mc := with_spec mc (with_accept (MCSpec mc)) in held mc (UpdateConfig mc w)
  end.

Definition refuse_license : Step W :=
  change_conditions (λ now cs, SetCondition now cs no_license).

Definition on_cluster (s : Step W) : Step Held := λ h,
  match s h.2 with
  | Ret (w, e) => Ret ((h.1, w), e)
  | Panic => Panic
  end.

Definition install : Step Held :=
  on_cluster updateDeployedNamespaceLabels ;;>
  on_cluster initializeMarketplaceConfigSpec ;;>
  on_cluster updateMarketplaceConfigStatusStarting ;;>
  on_cluster createOrUpdateMeterBase ;;>
  on_cluster handleMeterDefinitionCatalogServerConfigs ;;>
  on_cluster removeRazeeDeployment ;;>
  createCatalogSource IBM_CATALOGSRC_NAME ;;>
  createCatalogSource OPENCLOUD_CATALOGSRC_NAME ;;>
  on_cluster updateMarketplaceConfigStatusFinished.

Definition holding (s : Step Held) (mc : MarketplaceConfig V) : Step W := λ w,
  match s (mc, w) with
  | Ret ((_, w), e) => Ret (w, e)
  | Panic => Panic
  end.

Definition Reconcile : Step W := λ w,
  match GetConfig request w with
  | Err IsNotFound => Ret (w, None)
  | Err e => Ret (w, Some e)
  | Ok mc =>
      if negb (ToBool (LicenseAccept (MCSpec mc))) then
        match GetCondition (conditions mc) ConditionComplete with
        | Some _ => holding (Retry accept_license ;;> install) mc w
        | None => Retry refuse_license w
        end
      else holding (Retry clear_license ;;> install) mc w
  end.

End reconciler.

(** ** What the cluster promises *)

Definition config_key {V} (mc : MarketplaceConfig V) : NamespacedName :=
  mkNN (Namespace (MCMeta mc)) (Name (MCMeta mc)).
Definition base_key {V} (mb : MeterBase V) : NamespacedName :=
  mkNN (Namespace (MBMeta mb)) (Name (MBMeta mb)).
Definition source_key (cs : CatalogSource) : NamespacedName :=
  mkNN (Namespace (CSMeta cs)) (Name (CSMeta cs)).

(** The stored resources. *)
Record View {V : Type} := mkView {
  configs : gmap NamespacedName (MarketplaceConfig V);
  bases : gmap NamespacedName (MeterBase V);
  sources : gmap NamespacedName CatalogSource;
  namespaces : gmap string ObjectMeta
}.
Arguments View : clear implicits.
Arguments mkView {V}.

(** The server has the object [new] where the configuration [mc] was, changed by a
    write of the specification, or of the status. *)
Definition config_stored {V} (status : bool) (mc new : MarketplaceConfig V) (v v' : View V)
    : Prop :=
  ∃ old, configs v !! config_key mc = Some old ∧ config_key new = config_key mc ∧
    (if status then MCSpec new = MCSpec old ∧ conditions new = conditions mc
     else MCSpec new = MCSpec mc ∧ MCStatus new = MCStatus old) ∧
    v' = mkView (<[config_key mc := new]> (configs v)) (bases v) (sources v) (namespaces v).

(** Nobody else writes, and what is read is what is stored: the laws of the API
    server on the resources. A call that fails changes nothing; a write of a
    status leaves the specification, and a write of an object leaves the status
    and the other objects; a write made from a version that is not the stored one
    is a conflict. *)
Class FreshCluster (V W : Type) `{!ConfigCluster V W} := {
  view : W → View V;
  view_keyed w k mc : configs (view w) !! k = Some mc → config_key mc = k;
  get_config_law k w :
    match GetConfig k w with
    | Ok mc => configs (view w) !! k = Some mc
    | Err e => e = IsNotFound → configs (view w) !! k = None
    end;
  update_config_law mc w :
    match UpdateConfig mc w with
    | (w', Ok new) => config_stored false mc new (view w) (view w')
    | (w', Err _) => view w' = view w
    end;
  update_status_law mc w :
    match UpdateConfigStatus mc w with
    | (w', Ok new) => config_stored true mc new (view w) (view w')
    | (w', Err _) => view w' = view w
    end;
  update_status_stale mc old w :
    configs (view w) !! config_key mc = Some old → ResourceVersion old ≠ ResourceVersion mc →
    (UpdateConfigStatus mc w).2 = Err Conflict;
  get_base_law k w :
    match GetMeterBase k w with
    | Ok mb => bases (view w) !! k = Some mb ∧ base_key mb = k
    | Err e => e = IsNotFound → bases (view w) !! k = None
    end;
  create_base_law mb w :
    match CreateMeterBase mb w with
    | (w', Ok new) => MBSpec new = MBSpec mb ∧
        view w' = mkView (configs (view w)) (<[base_key mb := new]> (bases (view w)))
                    (sources (view w)) (namespaces (view w))
    | (w', Err _) => view w' = view w
    end;
  update_base_law mb w :
    match UpdateMeterBase mb w with
    | (w', Ok new) => MBSpec new = MBSpec mb ∧
        view w' = mkView (configs (view w)) (<[base_key mb := new]> (bases (view w)))
                    (sources (view w)) (namespaces (view w))
    | (w', Err _) => view w' = view w
    end;
  get_namespace_law n w :
    match GetNamespace n w with
    | Ok ns => namespaces (view w) !! n = Some ns ∧ Name ns = n
    | Err _ => True
    end;
  update_namespace_law ns w :
    match UpdateNamespace ns w with
    | (w', Ok new) => Labels new = Labels ns ∧
        view w' = mkView (configs (view w)) (bases (view w)) (sources (view w))
                    (<[Name ns := new]> (namespaces (view w)))
    | (w', Err _) => view w' = view w
    end;
  get_source_law k w :
    match GetCatalogSource k w with
    | Ok cs => sources (view w) !! k = Some cs
    | Err e => e = IsNotFound → sources (view w) !! k = None
    end;
  create_source_law cs w :
    match CreateCatalogSource cs w with
    | (w', Ok new) =>
        view w' = mkView (configs (view w)) (bases (view w))
                    (<[source_key cs := new]> (sources (view w))) (namespaces (view w))
    | (w', Err _) => view w' = view w
    end;
  delete_source_law k w :
    match DeleteCatalogSource k w with
    | (w', Ok _) =>
        view w' = mkView (configs (view w)) (bases (view w)) (delete k (sources (view w)))
                    (namespaces (view w))
    | (w', Err _) => view w' = view w
    end;
  delete_unstructured_law kind k w : view (DeleteUnstructured kind k w).1 = view w
}.

(** ** Lemmas on the updates *)

Lemma cluster_name_idem secret name :
  cluster_name secret (cluster_name secret name) = cluster_name secret name.
Proof.
  unfold cluster_name. destruct secret as [si|]; [|done].
  destruct (Data (SSecret si) !! ClusterDisplayNameKey) as [d|]; [|done].
  repeat first [case_bool_decide; cbn | case_match]; congruence.
Qed.

Lemma catalog_config_idem d e old :
  catalog_config d e (catalog_config d e old) = catalog_config d e old.
Proof. destruct d, e, old as [[[] [] []]|]; done. Qed.

Lemma catalog_config_off d old c : catalog_config d false old = Some c → c = mkCatalogConfig false false false.
Proof. destruct old; cbn; congruence. Qed.

(** ** Properties of the updates *)

(** The defaults of the configuration are a fixed point: applying them
    to a specification they were applied to changes nothing, whatever
    identifier is drawn the second time, so that the controller does not wake
    itself up for ever; a disconnected operator overrides the flag of the
    configuration; the metering flag is always cleared, the removed features are
    always off, a cluster is identified, and its name changes only on a connected
    cluster that has a secret. *)
Theorem initialize_spec_spec {V} (cfg : OperatorConfig) (secret : option SecretInfo)
    (clusterID : option string) (uuid uuid' : string) (s : MarketplaceConfigSpec V) :
  let s1 := initialize_spec cfg secret clusterID uuid s in
  (uuid ≠ "" → initialize_spec cfg secret clusterID uuid' s1 = s1) ∧
  IsDisconnected s1 = Some (CfgIsDisconnected cfg || ToBool (IsDisconnected s)) ∧
  (∃ f, Features_ s1 = Some f ∧ Deployment f = Some false ∧ is_Some (Registration f) ∧
     EnableMeterDefinitionCatalogServer f = Some false) ∧
  is_Some (InstallIBMCatalogSource s1) ∧ EnableMetering s1 = None ∧
  (uuid ≠ "" → clusterID ≠ Some "" → ClusterUUID s1 ≠ "") ∧
  (CfgIsDisconnected cfg = true ∨ ToBool (IsDisconnected s) = true ∨ secret = None →
     ClusterName s1 = ClusterName s) ∧
  LicenseAccept s1 = LicenseAccept s ∧ StorageClassName s1 = StorageClassName s ∧
  DataService_ s1 = DataService_ s.
Proof.
  cbn zeta. split_and!; try done.
  - intros Hu. unfold initialize_spec; cbn. f_equal.
    + destruct clusterID; [done|]. repeat case_bool_decide; congruence.
    + destruct (CfgIsDisconnected cfg); cbn; [done|].
      destruct (IsDisconnected s) as [[]|]; cbn; [done|apply cluster_name_idem..].
    + destruct (CfgIsDisconnected cfg); [done|]. by destruct (IsDisconnected s).
    + by destruct (InstallIBMCatalogSource s).
    + by destruct (Registration _).
  - cbn. destruct (CfgIsDisconnected cfg); [done|]. by destruct (IsDisconnected s).
  - eexists. split_and!; [done|done| |done]. cbn. destruct (Registration _); eauto.
  - cbn. destruct (InstallIBMCatalogSource s); eauto.
  - cbn. intros Hu Hc. destruct clusterID; [congruence|]. case_bool_decide; congruence.
  - cbn. intros [->|[Hd| ->]]; cbn; [done| |].
    + destruct (CfgIsDisconnected cfg); cbn; [done|].
      by destruct (IsDisconnected s) as [[]|].
    + by destruct (negb _).
Qed.

(** The end of an installation is reported in two runs, not in one: the
    condition that says it is complete is only looked at when the one that says
    what is being installed did not change. A first run whose installing condition
    was another leaves the first as it was; after a second run both are as they
    should be, and from then on nothing more is written. *)
Theorem finish_in_two_runs (t1 t2 t3 : Time) (cs : Conditions) :
  let r1 := finish_conditions t1 cs in
  let r2 := finish_conditions t2 r1.2 in
  ((SetCondition t1 cs install_finished).1 = true →
     GetCondition r1.2 ConditionComplete = GetCondition cs ConditionComplete) ∧
  (∃ c, GetCondition r2.2 ConditionInstalling = Some c ∧ Status c = ConditionFalse ∧
        Reason c = "FinishedInstall") ∧
  (∃ c, GetCondition r2.2 ConditionComplete = Some c ∧ Status c = ConditionTrue) ∧
  finish_conditions t3 r2.2 = (false, r2.2).
Proof.
  assert (Hstep : ∀ t l, (SetCondition t l install_finished).1 = false →
    finish_conditions t l = SetCondition t l install_complete).
  { intros t l Hf. pose proof (SetCondition_unchanged t l install_finished Hf) as [Hl _].
    unfold finish_conditions, or_else. cbn [fst snd].
    destruct (SetCondition t l install_finished) as [b l']. cbn in *. by subst. }
  assert (Hkeep : ∀ t t' l, (SetCondition t l install_finished).1 = false →
    (SetCondition t' (SetCondition t l install_complete).2 install_finished).1 = false).
  { intros t t' l Hf. apply not_true_is_false. rewrite SetCondition_changed.
    rewrite GetCondition_Set_ne by done. by rewrite <- (SetCondition_changed t), Hf. }
  assert (Hdone : ∀ t t' l, (SetCondition t l install_finished).1 = false →
    let l2 := (SetCondition t l install_complete).2 in
    (∃ c, GetCondition l2 ConditionInstalling = Some c ∧ Status c = ConditionFalse ∧
        Reason c = "FinishedInstall") ∧
    (∃ c, GetCondition l2 ConditionComplete = Some c ∧ Status c = ConditionTrue) ∧
    finish_conditions t' l2 = (false, l2)).
  { intros t t' l Hf. cbn zeta. split_and!.
    - pose proof (SetCondition_unchanged t l _ Hf) as (_ & c & Hc & Hs & Hr & _).
      exists c. by rewrite GetCondition_Set_ne.
    - eexists. split; [apply (GetCondition_Set t l install_complete)|apply merged_same].
    - rewrite (Hstep t' _ (Hkeep t t' l Hf)). apply SetCondition_idempotent. }
  cbn zeta. destruct ((SetCondition t1 cs install_finished).1) eqn:H1.
  - assert (Hr : (finish_conditions t1 cs).2 = (SetCondition t1 cs install_finished).2).
    { unfold finish_conditions, or_else. cbn [fst snd]. by rewrite H1. }
    rewrite Hr. assert (H2 : (SetCondition t2 (SetCondition t1 cs install_finished).2
      install_finished).1 = false) by (by rewrite SetCondition_idempotent).
    rewrite (Hstep t2 _ H2). split; [intros _; by rewrite GetCondition_Set_ne|by apply Hdone].
  - rewrite (Hstep t1 _ H1), (Hstep t2 _ (Hkeep t1 t2 cs H1)). rewrite SetCondition_idempotent.
    split; [discriminate|]. by apply Hdone.
Qed.

(** ** Contracts of the steps *)

Section contracts.
Context {V W : Type} `{!EqDecision V} `{!ConfigCluster V W} `{!FreshCluster V W} `{!ConflictRetry}.
Variable cfg : OperatorConfig.
Variable unmarshal : string → option (gmap string Auth).
Variable DecodeSegment : string → bool.
Variable ParseUnverified : string → result string MarketplaceClaims.
Variable SetControllerReference : string → ObjectMeta → ObjectMeta → result ClientError ObjectMeta.
Variable request : NamespacedName.

(** A controller reference leaves the identity of an object. *)
Hypothesis controller_reference : ∀ kind o m m', SetControllerReference kind o m = Ok m' →
  Name m' = Name m ∧ Namespace m' = Namespace m.

Definition rest (v : View V) := (bases v, sources v, namespaces v).

(** The configuration of the request is stored with this specification, and its
    conditions satisfy [C]; the other resources are [r]. *)
Definition config_at (s : MarketplaceConfigSpec V) (C : Conditions → Prop)
    (r : gmap NamespacedName (MeterBase V) * gmap NamespacedName CatalogSource *
         gmap string ObjectMeta) (w : W) : Prop :=
  (∃ mc, configs (view w) !! request = Some mc ∧ MCSpec mc = s ∧ C (conditions mc)) ∧
  rest (view w) = r.

Notation whatever := (λ _ : Conditions, True).
Notation anything := (λ _ : W, True).

Lemma config_at_any s (C : Conditions → Prop) r w : config_at s C r w → config_at s whatever r w.
Proof. intros ((mc & ? & ? & ?) & ?). split; [by exists mc|done]. Qed.

(** A write of the status keeps the specification and leaves the conditions that
    were written. *)
Lemma put_status_triple s (C : Conditions → Prop) r updated (mc : MarketplaceConfig V) :
  config_key mc = request → (updated = true → C (conditions mc)) →
  triple (λ w, config_at s whatever r w ∧ (updated = false → config_at s C r w))
    (put_status updated mc) (config_at s C r) (config_at s whatever r).
Proof.
  intros Hk HC w [[(old & Ho & Hs & _) Hr] Hf]. unfold put_status.
  destruct updated; [|by apply Hf]. specialize (HC eq_refl).
  pose proof (update_status_law mc w) as Hl.
  destruct (UpdateConfigStatus mc w) as [w' [new|e]]; unfold config_at; cbn.
  - destruct Hl as (old' & Ho' & Hk' & (Hs' & Hc') & Hv). rewrite Hv, Hk in *; cbn.
    split; [|done]. exists new. rewrite lookup_insert_eq. split_and!; [done|congruence|congruence].
  - rewrite Hl. split; [by exists old|done].
Qed.

(** A step that reads the configuration finds the stored one. *)
Lemma reading_config s (C Q : Conditions → Prop) r r' (E : W → Prop) k :
  (∀ w, config_at s C r w → E w) →
  (∀ mc, config_key mc = request → MCSpec mc = s → C (conditions mc) →
     triple (λ w, config_at s C r w ∧ configs (view w) !! request = Some mc) (k mc)
       (config_at s Q r') E) →
  triple (config_at s C r) (reading (GetConfig request) k) (config_at s Q r') E.
Proof.
  intros HE Hk w Hw. unfold reading. pose proof (get_config_law request w) as Hg.
  destruct (GetConfig request w) as [mc|e]; [|by apply HE].
  apply (Hk mc); [by eapply view_keyed|..|by split].
  - destruct Hw as [(mc' & Hm & <- & _) _]. congruence.
  - destruct Hw as [(mc' & Hm & _ & ?) _]. congruence.
Qed.

(** A change of the conditions, whatever its effect, in the retry that surrounds
    it. *)
Lemma change_conditions_triple s (Q : Conditions → Prop) r change :
  (∀ now cs, Q (change now cs).2 ∧ ((change now cs).1 = false → Q cs)) →
  triple (config_at s whatever r) (Retry (change_conditions request change)) (config_at s Q r)
    (config_at s whatever r).
Proof.
  intros Hc. apply triple_Retry. apply (reading_config s _ Q r r); [done|].
  intros mc Hk Hs _ w [Hw Hm]. destruct (change (Now w) (conditions mc)) as [updated cs] eqn:Hch.
  pose proof (Hc (Now w) (conditions mc)) as [HQ Hn]. rewrite Hch in HQ, Hn; cbn in HQ, Hn.
  apply (put_status_triple s Q r); [done|done|]. split; [done|]. intros Hu.
  split; [|by apply Hw]. exists mc. by split_and!; [|..|apply Hn].
Qed.

Lemma change_conditions_keeps s r change :
  triple (config_at s whatever r) (Retry (change_conditions request change))
    (config_at s whatever r) (config_at s whatever r).
Proof. by apply change_conditions_triple. Qed.

Definition labelled (n : gmap string ObjectMeta) : Prop :=
  ∃ ns, n !! DeployedNamespace cfg = Some ns ∧ Labels ns !! LicenseServerTag = Some "true".

Lemma namespace_triple s b c :
  triple (λ w, ∃ n, config_at s whatever (b, c, n) w) (updateDeployedNamespaceLabels cfg)
    (λ w, ∃ n, labelled n ∧ config_at s whatever (b, c, n) w)
    (λ w, ∃ n, config_at s whatever (b, c, n) w).
Proof.
  apply triple_Retry. intros w [n Hw]. unfold reading.
  pose proof (get_namespace_law (DeployedNamespace cfg) w) as Hg.
  destruct (GetNamespace (DeployedNamespace cfg) w) as [ns|e]; [|by exists n].
  destruct Hg as [Hns Hn]. destruct Hw as [Hc Hr]. case_bool_decide as Hl; cbn [negb].
  - exists n. split; [|done]. exists ns. split; [|done]. unfold rest in Hr. congruence.
  - pose proof (update_namespace_law (with_label ns LicenseServerTag "true") w) as Hu.
    destruct (UpdateNamespace _ w) as [w' [new|e]]; cbn; unfold config_at.
    + destruct Hu as [Hnew Hv]. rewrite Hv; cbn. injection Hr as -> -> <-.
      eexists. split; [|split; [done|reflexivity]]. cbn. rewrite Hn. exists new.
      rewrite lookup_insert_eq, Hnew. cbn. by rewrite lookup_insert_eq.
    + exists n. by rewrite Hu.
Qed.

(** The specification [s] after the defaults, made from [s0]. *)
Record spec_ready (s0 s : MarketplaceConfigSpec V) : Prop := {
  ready_license : ToBool (LicenseAccept s) = true;
  ready_disconnected :
    IsDisconnected s = Some (CfgIsDisconnected cfg || ToBool (IsDisconnected s0));
  ready_features : ∃ f, Features_ s = Some f ∧ Deployment f = Some false ∧
    is_Some (Registration f) ∧ EnableMeterDefinitionCatalogServer f = Some false;
  ready_catalog :
    InstallIBMCatalogSource s = Some (default (IBMCatalog cfg) (InstallIBMCatalogSource s0));
  ready_metering : EnableMetering s = None;
  ready_storage : StorageClassName s = StorageClassName s0;
  ready_data_service : DataService_ s = DataService_ s0
}.

Lemma initialize_ready secret id uuid s :
  ToBool (LicenseAccept s) = true → spec_ready s (initialize_spec cfg secret id uuid s).
Proof.
  intros Ha. constructor; cbn; [done| | | |done..].
  - destruct (CfgIsDisconnected cfg); cbn; [done|]. by destruct (IsDisconnected s).
  - eexists. split_and!; [done|done| |done]. cbn. destruct (Registration _); eauto.
  - by destruct (InstallIBMCatalogSource s).
Qed.

Notation initialize :=
  (initialize_closure cfg unmarshal DecodeSegment ParseUnverified SetControllerReference request).

Lemma put_initialized_triple s r id (mc : MarketplaceConfig V) :
  config_key mc = request → MCSpec mc = s → ToBool (LicenseAccept s) = true →
  triple (λ w, config_at s whatever r w ∧ configs (view w) !! request = Some mc)
    (put_initialized cfg unmarshal DecodeSegment ParseUnverified SetControllerReference request mc id)
    (λ w, ∃ s', spec_ready s s' ∧ config_at s' whatever r w)
    (config_at s whatever r).
Proof.
  intros Hk Hs Ha w [Hw Hm]. unfold put_initialized, reading.
  destruct (GetDeployment _ w) as [dep|e]; [|done].
  destruct (SetControllerReference _ dep _) as [m|e] eqn:Href; [|done].
  apply controller_reference in Href as [Hn Hns]. case_bool_decide as Heq; cbn [negb].
  - exists s. split; [|done]. apply (f_equal MCSpec) in Heq. cbn in Heq. rewrite Hs in Heq.
    rewrite Heq at 2. by apply initialize_ready.
  - match goal with |- context [UpdateConfig ?n w] => set (new := n) end.
    assert (Hkn : config_key new = request).
    { unfold config_key, new; cbn. cbn in Hn, Hns. rewrite Hn, Hns. exact Hk. }
    pose proof (update_config_law new w) as Hl.
    destruct (UpdateConfig new w) as [w' [new'|e]]; cbn; unfold config_at in *.
    + destruct Hl as (old & _ & Hk' & [Hs' _] & Hv). rewrite Hv, Hkn; cbn.
      exists (MCSpec new'). split; [rewrite Hs'; unfold new; cbn; rewrite Hs; by apply initialize_ready|].
      split; [|apply Hw]. exists new'. by rewrite lookup_insert_eq.
    + by rewrite Hl.
Qed.

Lemma initialize_triple s r :
  ToBool (LicenseAccept s) = true →
  triple (config_at s whatever r) (Retry initialize)
    (λ w, ∃ s', spec_ready s s' ∧ config_at s' whatever r w) (config_at s whatever r).
Proof.
  intros Ha. apply triple_Retry. intros w Hw. unfold initialize_closure, reading.
  pose proof (get_config_law request w) as Hg.
  destruct (GetConfig request w) as [mc|e]; [|done].
  assert (Hs : MCSpec mc = s) by (destruct Hw as [(mc' & Hm & <- & _) _]; congruence).
  pose proof (λ id, put_initialized_triple s r id mc (view_keyed _ _ _ Hg) Hs Ha w (conj Hw Hg)) as Hp.
  destruct (GetClusterVersion w) as [id|[|[]]]; [apply Hp|apply Hp|exact Hw|apply Hp|exact Hw..].
Qed.

Lemma environment_triple s r :
  triple (config_at s whatever r)
    (Retry (environment_closure unmarshal DecodeSegment ParseUnverified request))
    (config_at s whatever r) (config_at s whatever r).
Proof.
  apply triple_Retry. apply reading_config; [done|]. intros mc Hk Hs _ w [Hw Hm].
  cbv zeta. match goal with |- context [environment_conditions ?a ?b ?d ?e] =>
    destruct (environment_conditions a b d e) as [updated cs] end.
  pose proof (put_status_triple s whatever r updated (with_conditions mc cs) Hk (λ _, I) w
    (conj Hw (λ _, Hw))) as Hp.
  destruct (put_status updated _ w) as [[w' [e|]]|]; [done| |done].
  by destruct (_ || _).
Qed.

Lemma initializeMarketplaceConfigSpec_triple s r :
  ToBool (LicenseAccept s) = true →
  triple (config_at s whatever r)
    (initializeMarketplaceConfigSpec cfg unmarshal DecodeSegment ParseUnverified
       SetControllerReference request)
    (λ w, ∃ s', spec_ready s s' ∧ config_at s' whatever r w) anything.
Proof.
  intros Ha w Hw. unfold initializeMarketplaceConfigSpec, reading.
  destruct (GetConfig request w) as [_|e]; [|done]. revert w Hw.
  apply (triple_andthen _ (λ w, ∃ s', spec_ready s s' ∧ config_at s' whatever r w)).
  { eapply triple_weaken; [by apply initialize_triple|done..]. }
  intros w (s' & Hr & Hw). pose proof (environment_triple s' r w Hw) as Hp.
  destruct (Retry _ w) as [[w' [e|]]|]; [done| |done]. by exists s'.
Qed.

(** ** The meter base *)

Definition base_ready (b : gmap NamespacedName (MeterBase V)) (Q : MeterBase V → Prop) : Prop :=
  ∃ mb, b !! meter_base_key request = Some mb ∧ Q mb.

Lemma copy_sub_conditions_triple s r :
  triple (config_at s whatever r) (copy_sub_conditions request) (config_at s whatever r)
    (config_at s whatever r).
Proof.
  apply triple_Retry. intros w Hw. unfold reading at 1.
  destruct (GetMeterBase _ w) as [mb|e]; [|done]. revert w Hw.
  apply reading_config; [done|]. intros mc Hk _ _ w [Hw _].
  destruct (sub_conditions mb mc) as [updated sub].
  by apply (put_status_triple s whatever r); [..|split].
Qed.

Lemma create_meter_base_triple s0 s b c n (mc : MarketplaceConfig V) :
  spec_ready s0 s → MCSpec mc = s →
  triple (config_at s whatever (b, c, n)) (create_meter_base SetControllerReference request mc)
    (λ w, ∃ b', base_ready b' (λ _, True) ∧ config_at s whatever (b', c, n) w) anything.
Proof.
  intros Hr Hs w [Hw Hrest]. unfold create_meter_base. rewrite Hs.
  destruct (ready_features s0 s Hr) as (f & -> & _).
  destruct (if ToBool (IsDisconnected s) then _ else _) as [deploy|] eqn:Hd;
    [|by destruct (ToBool _)].
  destruct (SetControllerReference _ _ _) as [m|e] eqn:Href; [|done].
  apply controller_reference in Href as [Hn Hns].
  match goal with |- context [CreateMeterBase ?x w] => set (mb := x) end.
  pose proof (create_base_law mb w) as Hl.
  destruct (CreateMeterBase mb w) as [w' [new|e]]; cbn; [|done].
  destruct Hl as [_ Hv]. unfold config_at, rest in *. rewrite Hv; cbn.
  assert (Hk : base_key mb = meter_base_key request)
    by (unfold base_key, mb; cbn; by rewrite Hn, Hns).
  exists (<[base_key mb := new]> b). split; [exists new; by rewrite Hk, lookup_insert_eq|].
  split; [done|]. congruence.
Qed.

Lemma createOrUpdateMeterBase_triple s0 s b c n :
  spec_ready s0 s →
  triple (config_at s whatever (b, c, n)) (createOrUpdateMeterBase SetControllerReference request)
    (λ w, ∃ b', base_ready b' (λ _, True) ∧ config_at s whatever (b', c, n) w) anything.
Proof.
  intros Hr w Hw. unfold createOrUpdateMeterBase, reading.
  pose proof (get_config_law request w) as Hg.
  destruct (GetConfig request w) as [mc|e]; [|done].
  assert (Hs : MCSpec mc = s) by (destruct Hw as [(mc' & Hm & <- & _) _]; congruence).
  pose proof (get_base_law (meter_base_key request) w) as Hb.
  destruct (GetMeterBase _ w) as [mb|e].
  - pose proof (copy_sub_conditions_triple s (b, c, n) w Hw) as Hp.
    destruct (copy_sub_conditions request w) as [[w' [e|]]|]; [done| |done].
    exists b. split; [|done]. exists mb. split; [|done]. destruct Hw as [_ Hrest].
    unfold rest in Hrest. destruct Hb as [Hb _]. congruence.
  - destruct e; try done. revert w Hw Hg Hb. intros w Hw _ _. revert w Hw.
    eapply triple_andthen; [by eapply create_meter_base_triple|].
    apply triple_exists. intros b' w [Hb' Hw]. revert w Hw.
    apply (triple_andthen _ (config_at s whatever (b', c, n))).
    { eapply triple_weaken; [apply change_conditions_keeps|done..]. }
    eapply triple_weaken; [apply copy_sub_conditions_triple|done| |done]. eauto.
Qed.

(** What the meter base takes over from the configuration. *)
Record base_agrees (s : MarketplaceConfigSpec V) (mb : MeterBase V) : Prop := {
  agrees_data_service : MBDataService (MBSpec mb) = DataService_ s;
  agrees_storage : MBStorageClassName (MBSpec mb) = None → StorageClassName s = None;
  agrees_catalog : ∀ c, CatalogServerConfig (MBSpec mb) = Some c →
    c = mkCatalogConfig false false false
}.

Lemma handle_triple s0 s c n :
  spec_ready s0 s →
  triple (λ w, ∃ b, config_at s whatever (b, c, n) w)
    (handleMeterDefinitionCatalogServerConfigs request)
    (λ w, ∃ b, base_ready b (base_agrees s) ∧ config_at s whatever (b, c, n) w)
    (λ w, ∃ b, config_at s whatever (b, c, n) w).
Proof.
  intros Hr. apply triple_Retry. intros w [b Hw]. unfold reading.
  pose proof (get_base_law (meter_base_key request) w) as Hb.
  destruct (GetMeterBase _ w) as [mb|e]; [|by exists b]. destruct Hb as [Hb Hk].
  pose proof (get_config_law request w) as Hg.
  destruct (GetConfig request w) as [mc|e]; [|by exists b].
  assert (Hs : MCSpec mc = s) by (destruct Hw as [(mc' & Hm & <- & _) _]; congruence).
  destruct (ready_features s0 s Hr) as (f & Hf & _ & _ & Hoff). rewrite Hs, Hf. cbv zeta.
  assert (Hagree : ∀ new, MBSpec new = meter_base_spec s f (MBSpec mb) → base_agrees s new).
  { intros new Hn. constructor; rewrite Hn; cbn; [done| |].
    - by destruct (MBStorageClassName (MBSpec mb)).
    - rewrite Hoff; cbn. intros cc. apply catalog_config_off. }
  destruct Hw as [Hc Hrest]. unfold rest in Hrest. case_bool_decide as Heq; cbn [negb].
  - exists b. split; [exists mb; split; [congruence|by apply Hagree]|by split].
  - match goal with |- context [UpdateMeterBase ?x w] => set (up := x) end.
    pose proof (update_base_law up w) as Hl.
    destruct (UpdateMeterBase up w) as [w' [new|e]]; cbn; unfold config_at, rest.
    + destruct Hl as [Hn Hv]. rewrite Hv; cbn. exists (<[base_key up := new]> b).
      split; [|split; [done|congruence]]. exists new. split; [|by apply Hagree].
      change (base_key up) with (base_key mb). by rewrite Hk, lookup_insert_eq.
    + exists b. rewrite Hl. by split.
Qed.

Lemma removeRazeeDeployment_triple s r :
  triple (config_at s whatever r) (removeRazeeDeployment request) (config_at s whatever r) anything.
Proof.
  intros w Hw. unfold removeRazeeDeployment.
  pose proof (delete_unstructured_law "RazeeDeployment" (mkNN (NNNamespace request) RAZEE_NAME) w) as Hl.
  destruct (DeleteUnstructured _ _ w) as [w' o]. cbn in Hl. unfold config_at in *.
  destruct o as [[|[]]|]; rewrite ?Hl; done.
Qed.

(** ** The catalog sources *)

(** A catalog source is there, or is not one of the operator's, as the flag says. *)
Definition source_ok (flag : bool) (c : gmap NamespacedName CatalogSource) (name : string) : Prop :=
  let src := c !! mkNN OPERATOR_MKTPLACE_NS name in
  if flag then is_Some src
  else ∀ cs, src = Some cs → Labels (CSMeta cs) !! OperatorTag ≠ Some OperatorTagValue.

(** The held configuration is the one of the request, with a flag that satisfies
    [F], and the sources satisfy [P]. *)
Definition held_at (s : MarketplaceConfigSpec V) (F : option bool → Prop) (b : gmap NamespacedName (MeterBase V))
    (n : gmap string ObjectMeta) (P : gmap NamespacedName CatalogSource → Prop)
    (h : Held (V := V) (W := W)) : Prop :=
  config_key h.1 = request ∧ F (InstallIBMCatalogSource (MCSpec h.1)) ∧
  ∃ c, P c ∧ config_at s whatever (b, c, n) h.2.

Lemma held_triple s F b n P (mc mc' : MarketplaceConfig V) w :
  F (InstallIBMCatalogSource s) → config_key mc' = config_key mc →
  MCSpec mc' = MCSpec mc → held_at s F b n P (mc, w) →
  match held mc' (UpdateConfigStatus mc' w) with
  | Ret (h, _) => held_at s F b n P h
  | Panic => False
  end.
Proof.
  intros Hi Hk Hs (Hk0 & Hf & c & HP & Hw). cbn in *.
  pose proof (update_status_law mc' w) as Hl. unfold held, held_at, config_at in *.
  destruct (UpdateConfigStatus mc' w) as [w' [new|e]]; cbn.
  - destruct Hl as (old & Ho & Hkn & [Hsn _] & Hv). rewrite Hk, Hk0 in *.
    destruct Hw as [(mc0 & Hm & Hs0 & _) Hr]. assert (old = mc0) as -> by congruence.
    split; [done|]. split; [by rewrite Hsn, Hs0|]. exists c. split; [done|]. rewrite Hv; cbn.
    split; [|done]. exists new. rewrite lookup_insert_eq. split_and!; [done|congruence|done].
  - rewrite Hk, Hs. split; [done|]. split; [done|]. exists c. by rewrite Hl.
Qed.

Lemma set_installing_triple s F b n P (mc : MarketplaceConfig V) c w :
  F (InstallIBMCatalogSource s) → held_at s F b n P (mc, w) →
  match set_installing mc c w with
  | Ret (h, _) => held_at s F b n P h
  | Panic => False
  end.
Proof.
  intros Hi Hh. unfold set_installing. destruct (SetCondition _ _ _) as [[] cs]; [|exact Hh].
  by apply (held_triple s F b n P mc).
Qed.

Lemma held_sources s F b n P Q (mc : MarketplaceConfig V) w w' c :
  held_at s F b n P (mc, w) → sources (view w) = c →
  (∀ c0, c0 = c → P c0 → Q (sources (view w'))) →
  configs (view w') = configs (view w) → bases (view w') = bases (view w) →
  namespaces (view w') = namespaces (view w) → held_at s F b n Q (mc, w').
Proof.
  intros (Hk & Hf & c0 & HP & Hm & Hr) Hc HQ H1 H2 H3. cbn in *. split; [done|]. split; [done|].
  unfold rest in Hr. exists (sources (view w')). split; [apply (HQ c0); congruence|].
  unfold config_at, rest. cbn [snd]. rewrite H1, H2, H3. split; [done|]. congruence.
Qed.

Lemma held_stays s F b n (P Q : gmap NamespacedName CatalogSource → Prop)
    (mc : MarketplaceConfig V) w :
  held_at s F b n P (mc, w) → (P (sources (view w)) → Q (sources (view w))) →
  held_at s F b n Q (mc, w).
Proof.
  intros Hh HQ. eapply held_sources; [exact Hh|reflexivity| |done..]. by intros c0 ->.
Qed.

(** After the sources have changed as wanted, the condition is written. *)
Lemma after_change s F b n (P Q : gmap NamespacedName CatalogSource → Prop)
    (mc : MarketplaceConfig V) c w w' :
  F (InstallIBMCatalogSource s) → held_at s F b n P (mc, w) →
  (P (sources (view w)) → Q (sources (view w'))) → (∀ c0, Q c0 → P c0) →
  configs (view w') = configs (view w) → bases (view w') = bases (view w) →
  namespaces (view w') = namespaces (view w) →
  match set_installing mc c w' with
  | Ret (h, None) => held_at s F b n Q h
  | Ret (h, Some _) => held_at s F b n P h
  | Panic => False
  end.
Proof.
  intros Hi Hh HQ HP H1 H2 H3.
  assert (Hh' : held_at s F b n Q (mc, w'))
    by (eapply held_sources; [exact Hh|reflexivity|by intros c0 ->|done..]).
  pose proof (set_installing_triple s F b n Q mc c w' Hi Hh') as Hp.
  destruct (set_installing mc c w') as [[h [e|]]|]; [|done|done].
  destruct Hp as (? & ? & c1 & Hq & ?). split; [done|]. split; [done|]. exists c1. auto.
Qed.

(** The effect on the sources: the one of this name becomes what the flag says,
    the others stay. *)
Lemma createCatalogSource_triple s F b n name (P : gmap NamespacedName CatalogSource → Prop) :
  F (InstallIBMCatalogSource s) →
  name = IBM_CATALOGSRC_NAME ∨ name = OPENCLOUD_CATALOGSRC_NAME →
  (∀ c o, P c → P (partial_alter (λ _, o) (mkNN OPERATOR_MKTPLACE_NS name) c)) →
  triple (held_at s F b n P) (createCatalogSource name)
    (held_at s F b n (λ c, P c ∧ ∃ o, F o ∧ source_ok (ToBool o) c name)) (held_at s F b n P).
Proof.
  intros Hi Hname HPalter. apply triple_Retry. intros [mc w] Hh. cbv zeta.
  pose proof Hh as (_ & Hf & _). cbn in Hf. revert Hf.
  generalize (InstallIBMCatalogSource (MCSpec mc)) as o. intros o Hf.
  assert (Hq : ∀ c, P c → source_ok (ToBool o) c name →
    P c ∧ ∃ o, F o ∧ source_ok (ToBool o) c name) by eauto. revert Hq.
  pose proof (get_source_law (mkNN OPERATOR_MKTPLACE_NS name) w) as Hg.
  unfold source_ok at 1. destruct (ToBool o); intros Hq; destruct (GetCatalogSource _ w) as [src|e].
  - eapply held_stays; [exact Hh|]. eauto.
  - destruct e; try exact Hh.
    match goal with |- context [CreateCatalogSource ?x w] => set (src := x) end.
    assert (Hsk : source_key src = mkNN OPERATOR_MKTPLACE_NS name) by
      (unfold src; destruct Hname as [-> | ->]; by repeat case_bool_decide).
    pose proof (create_source_law src w) as Hl.
    destruct (CreateCatalogSource src w) as [w' [new|e]].
    + eapply after_change; [done|exact Hh| |by intros ? []|by rewrite Hl..].
      intros Hp. rewrite Hl, Hsk; cbn. apply Hq; [by apply HPalter|].
      rewrite lookup_insert_eq. eauto.
    + eapply held_sources; [exact Hh|reflexivity|..]; rewrite Hl; [|done..]. by intros c0 ->.
  - case_bool_decide as Htag.
    + pose proof (delete_source_law (mkNN OPERATOR_MKTPLACE_NS name) w) as Hl.
      destruct (DeleteCatalogSource _ w) as [w' [[]|e]].
      * eapply after_change; [done|exact Hh| |by intros ? []|by rewrite Hl..].
        intros Hp. rewrite Hl; cbn. apply Hq; [by apply HPalter|]. by rewrite lookup_delete_eq.
      * eapply held_sources; [exact Hh|reflexivity|..]; rewrite Hl; [|done..]. by intros c0 ->.
    + eapply held_stays; [exact Hh|]. intros Hp. apply Hq; [done|]. intros cs Hcs. congruence.
  - destruct e; try exact Hh. eapply held_stays; [exact Hh|]. intros Hp. apply Hq; [done|].
    by rewrite Hg.
Qed.

(** ** The whole run *)

Definition installed (cs : Conditions) : Prop :=
  ∃ c, GetCondition cs ConditionInstalling = Some c ∧ Status c = ConditionFalse ∧
       Reason c = "FinishedInstall".

Lemma finish_installed now cs :
  installed (finish_conditions now cs).2 ∧
  ((finish_conditions now cs).1 = false → installed cs).
Proof.
  assert (H1 : installed (SetCondition now cs install_finished).2).
  { eexists. split; [apply (GetCondition_Set now cs install_finished)|apply merged_same]. }
  assert (H2 : ∀ cs1, installed cs1 → installed (SetCondition now cs1 install_complete).2).
  { intros cs1 (c & Hc & Hst). exists c. by rewrite GetCondition_Set_ne. }
  assert (Hsame : (SetCondition now cs install_finished).1 = false → installed cs).
  { intros (_ & c & Hc & Hst & Hre & _)%SetCondition_unchanged. by exists c. }
  unfold finish_conditions, or_else. cbn [fst snd].
  destruct (SetCondition now cs install_finished) as [[] cs1]; cbn [fst snd] in *; [done|].
  split; [by apply H2|]. intros _. by apply Hsame.
Qed.

(** A step on the cluster does not change the held configuration. *)
Lemma on_cluster_triple (J : MarketplaceConfig V → Prop) (P Q E : W → Prop) (st : Step W) :
  triple P st Q E →
  triple (λ h : Held, J h.1 ∧ P h.2) (on_cluster st) (λ h, J h.1 ∧ Q h.2) (λ _, True).
Proof.
  intros Ht [mc w] [Hj Hp]. specialize (Ht w Hp). unfold on_cluster. cbn in *.
  by destruct (st w) as [[w' [e|]]|].
Qed.

Lemma catalogs_triple s F b n :
  F (InstallIBMCatalogSource s) →
  triple (held_at s F b n (λ _, True))
    (λ h, (createCatalogSource IBM_CATALOGSRC_NAME ;;>
           createCatalogSource OPENCLOUD_CATALOGSRC_NAME) h)
    (held_at s F b n (λ c, ∃ o o', F o ∧ F o' ∧ source_ok (ToBool o) c IBM_CATALOGSRC_NAME ∧
                              source_ok (ToBool o') c OPENCLOUD_CATALOGSRC_NAME)) (λ _, True).
Proof.
  intros Hi.
  apply (triple_andthen _
    (held_at s F b n (λ c, ∃ o, F o ∧ source_ok (ToBool o) c IBM_CATALOGSRC_NAME))).
  - eapply triple_weaken; [apply (createCatalogSource_triple s F b n _ (λ _, True)); auto|done| |done].
    intros h (? & ? & c & [_ ?] & ?). split; [done|]. split; [done|]. by exists c.
  - eapply triple_weaken;
      [apply (createCatalogSource_triple s F b n _ (λ c, ∃ o, F o ∧ source_ok (ToBool o) c IBM_CATALOGSRC_NAME)); auto|done| |done].
    + intros c o (o' & Ho & Hs). exists o'. split; [done|]. unfold source_ok in *.
      by rewrite lookup_partial_alter_ne.
    + intros h (? & ? & c & [(o & ? & ?) (o' & ? & ?)] & ?). split; [done|]. split; [done|].
      exists c. split; [|done]. by exists o, o'.
Qed.

(** What a run that ends without an error leaves: [s0] is the specification at its
    start. *)
Definition run_done (s0 : MarketplaceConfigSpec V) (w : W) : Prop :=
  ∃ s b c n, spec_ready s0 s ∧ labelled n ∧ base_ready b (base_agrees s) ∧
    (∀ flag, InstallIBMCatalogSource s0 = Some flag →
       source_ok flag c IBM_CATALOGSRC_NAME ∧ source_ok flag c OPENCLOUD_CATALOGSRC_NAME) ∧
    config_at s installed (b, c, n) w.

Notation install_ :=
  (install cfg unmarshal DecodeSegment ParseUnverified SetControllerReference request).

Definition same_flag (s0 : MarketplaceConfigSpec V) (o : option bool) : Prop :=
  ∀ flag, InstallIBMCatalogSource s0 = Some flag → o = Some flag.

Definition is_held (s0 : MarketplaceConfigSpec V) (mc : MarketplaceConfig V) : Prop :=
  config_key mc = request ∧ same_flag s0 (InstallIBMCatalogSource (MCSpec mc)).

(** The state between the steps on the cluster. *)
Definition ready_at s0 c (Q : MarketplaceConfigSpec V → MeterBase V → Prop)
    (needed : bool) (w : W) : Prop :=
  ∃ s b n, spec_ready s0 s ∧ labelled n ∧ (needed = true → base_ready b (Q s)) ∧
    config_at s whatever (b, c, n) w.

Lemma ready_step s0 c (Q Q' : MarketplaceConfigSpec V → MeterBase V → Prop) x y (st : Step W) :
  (∀ s b n, spec_ready s0 s → (x = true → base_ready b (Q s)) →
     triple (config_at s whatever (b, c, n)) st
       (λ w, ∃ b', (y = true → base_ready b' (Q' s)) ∧ config_at s whatever (b', c, n) w)
       anything) →
  triple (λ h : Held, is_held s0 h.1 ∧ ready_at s0 c Q x h.2) (on_cluster st)
    (λ h, is_held s0 h.1 ∧ ready_at s0 c Q' y h.2) (λ _, True).
Proof.
  intros Hst. apply (on_cluster_triple (is_held s0) (ready_at s0 c Q x) _ anything).
  intros w (s & b & n & Hr & Hl & Hb & Hw).
  specialize (Hst s b n Hr Hb w Hw). destruct (st w) as [[w' [e|]]|]; [done| |done].
  destruct Hst as (b' & Hb' & Hw'). by exists s, b', n.
Qed.

Lemma prepare_triple s0 b c n :
  ToBool (LicenseAccept s0) = true →
  triple (λ h : Held, is_held s0 h.1 ∧ config_at s0 whatever (b, c, n) h.2)
    (λ h, (on_cluster (updateDeployedNamespaceLabels cfg) ;;>
           on_cluster (initializeMarketplaceConfigSpec cfg unmarshal DecodeSegment ParseUnverified
                         SetControllerReference request)) h)
    (λ h, is_held s0 h.1 ∧ ready_at s0 c (λ _ _, True) false h.2) (λ _, True).
Proof.
  intros Ha. apply (triple_andthen _ (λ h : Held, is_held s0 h.1 ∧
    ∃ n', labelled n' ∧ config_at s0 whatever (b, c, n') h.2)).
  - eapply triple_weaken;
      [exact (on_cluster_triple (is_held s0) _ _ _ _ (namespace_triple s0 b c))| |done..].
    intros h [? ?]. split; [done|]. by exists n.
  - eapply (on_cluster_triple (is_held s0)
      (λ w, ∃ n', labelled n' ∧ config_at s0 whatever (b, c, n') w) _ anything).
    intros w (n' & Hl & Hw).
    pose proof (initializeMarketplaceConfigSpec_triple s0 (b, c, n') Ha w Hw) as Hp.
    destruct (initializeMarketplaceConfigSpec _ _ _ _ _ _ w) as [[w' [e|]]|]; [done| |done].
    destruct Hp as (s & Hr & Hw'). exists s, b, n'. split_and!; [done|done| |done].
    intros Hx; discriminate Hx.
Qed.

Lemma finish_triple s r :
  triple (config_at s whatever r) (updateMarketplaceConfigStatusFinished request)
    (config_at s installed r) (config_at s whatever r).
Proof. apply change_conditions_triple. apply finish_installed. Qed.

Lemma close_triple s0 s b n :
  spec_ready s0 s → labelled n → base_ready b (base_agrees s) →
  triple (held_at s (same_flag s0) b n (λ _, True))
    (λ h, (createCatalogSource IBM_CATALOGSRC_NAME ;;>
           createCatalogSource OPENCLOUD_CATALOGSRC_NAME ;;>
           on_cluster (updateMarketplaceConfigStatusFinished request)) h)
    (λ h, run_done s0 h.2) (λ _, True).
Proof.
  intros Hr Hl Hb h Hh.
  assert (HF : same_flag s0 (InstallIBMCatalogSource s)).
  { intros flag Hf. by rewrite (ready_catalog s0 s Hr), Hf. }
  pose proof (catalogs_triple s (same_flag s0) b n HF h Hh) as Hp. unfold andthen in *.
  destruct (createCatalogSource _ h) as [[h1 [e|]]|]; [done| |done].
  destruct (createCatalogSource _ h1) as [[h2 [e|]]|]; [done| |done].
  destruct Hp as (Hk & Hf & c & (o & o' & Ho & Ho' & Hs1 & Hs2) & Hw). unfold on_cluster.
  pose proof (finish_triple s (b, c, n) h2.2 Hw) as Hp.
  destruct (updateMarketplaceConfigStatusFinished request _) as [[w [e|]]|]; [done| |done].
  exists s, b, c, n. cbn. split_and!; [done..| |done].
  intros flag Hfl. rewrite (Ho flag Hfl) in Hs1. by rewrite (Ho' flag Hfl) in Hs2.
Qed.

Lemma install_triple s0 b c n :
  ToBool (LicenseAccept s0) = true →
  triple (λ h : Held, is_held s0 h.1 ∧ config_at s0 whatever (b, c, n) h.2) install_
    (λ h, run_done s0 h.2) (λ _, True).
Proof.
  intros Ha. unfold install.
  eapply triple_andthen2; [by apply prepare_triple|].
  eapply triple_andthen; [apply (ready_step s0 c (λ _ _, True) (λ _ _, True) false false)|].
  { intros s b' n' Hr _. eapply triple_weaken; [apply change_conditions_keeps|done| |done].
    intros w Hw. exists b'. split; [intros Hx; discriminate Hx|done]. }
  eapply triple_andthen; [apply (ready_step s0 c (λ _ _, True) (λ _ _, True) false true)|].
  { intros s b' n' Hr _.
    eapply triple_weaken; [by apply (createOrUpdateMeterBase_triple s0 s b' c n')|done| |done].
    intros w (b1 & Hb & Hw). by exists b1. }
  eapply triple_andthen; [apply (ready_step s0 c (λ _ _, True) base_agrees true true)|].
  { intros s b' n' Hr _. eapply triple_weaken; [by apply (handle_triple s0 s c n')| | |done].
    - intros w Hw. by exists b'.
    - intros w (b1 & Hb & Hw). by exists b1. }
  eapply triple_andthen; [apply (ready_step s0 c base_agrees base_agrees true true)|].
  { intros s b' n' Hr Hb. eapply triple_weaken; [apply removeRazeeDeployment_triple|done| |done].
    intros w Hw. by exists b'. }
  intros [mc w] [Hh (s & b' & n' & Hr & Hl & Hb & Hw)]. revert Hw. specialize (Hb eq_refl). intros Hw.
  apply (close_triple s0 s b' n' Hr Hl Hb (mc, w)).
  split; [apply Hh|]. split; [apply Hh|]. by exists c.
Qed.

Lemma clear_license_triple s0 r :
  triple (λ h : Held, is_held s0 h.1 ∧ config_at s0 whatever r h.2) (Retry clear_license)
    (λ h, is_held s0 h.1 ∧ config_at s0 whatever r h.2)
    (λ h, is_held s0 h.1 ∧ config_at s0 whatever r h.2).
Proof.
  apply triple_Retry. intros [mc w] [[Hk Hf] [(mc0 & Hm & Hs & _) Hr]]. unfold clear_license.
  destruct (RemoveFrom _ _) as [[] cs];
    [|split; [by split|split; [by exists mc0|done]]].
  unfold held. pose proof (update_status_law (with_conditions mc cs) w) as Hl.
  destruct (UpdateConfigStatus _ w) as [w' [new|e]]; unfold is_held, config_at in *; cbn [fst snd] in *.
  - destruct Hl as (old & Ho & Hkn & [Hsn _] & Hv).
    change (config_key (with_conditions mc cs)) with (config_key mc) in *. rewrite Hk in *.
    assert (old = mc0) as -> by congruence. rewrite Hv; cbn. split.
    + split; [done|]. rewrite Hsn, Hs. by intros flag.
    + split; [|done]. exists new. rewrite lookup_insert_eq. split_and!; [done|congruence|done].
  - rewrite Hl. split; [by split|]. split; [by exists mc0|done].
Qed.

Lemma accept_license_triple s0 r mc0 :
  triple (λ h : Held, config_at s0 whatever r h.2 ∧ configs (view h.2) !! request = Some mc0)
    (Retry (accept_license request))
    (λ h, is_held s0 h.1 ∧ config_at (with_accept s0) whatever r h.2) (λ _, True).
Proof.
  eapply triple_weaken; [apply triple_Retry|intros h Hh; exact Hh|intros h Hh; exact Hh|done].
  intros [mc w] [[(mc1 & Hm & Hs & _) Hr] Hm0]. unfold accept_license.
  pose proof (get_config_law request w) as Hg. cbn [fst snd] in *.
  destruct (GetConfig request w) as [mc2|e]; [|split; [split; [by exists mc1|done]|done]].
  assert (mc2 = mc1) as -> by congruence. pose proof (view_keyed w _ _ Hg) as Hk. cbv zeta.
  match goal with |- context [UpdateConfig ?x w] => set (up := x) end.
  assert (Hku : config_key up = request) by exact Hk.
  unfold held. pose proof (update_config_law up w) as Hl.
  destruct (UpdateConfig up w) as [w' [new|e]]; unfold is_held, config_at in *; cbn [fst snd] in *.
  - destruct Hl as (old & Ho & Hkn & [Hsn _] & Hv). rewrite Hv, Hku in *; cbn. split.
    + split; [done|]. rewrite Hsn. cbn. rewrite Hs. by intros flag.
    + split; [|done]. exists new. rewrite lookup_insert_eq. split_and!; [done| |done].
      rewrite Hsn. unfold up; cbn. by rewrite Hs.
  - rewrite Hl. split; [split; [by exists mc1|done]|done].
Qed.

Definition refused (cs : Conditions) : Prop :=
  ∃ c, GetCondition cs ConditionNoLicense = Some c ∧ Status c = ConditionTrue ∧
       Reason c = "LicenseNotAccepted".

Lemma refuse_license_triple s r :
  triple (config_at s whatever r) (Retry (refuse_license request)) (config_at s refused r)
    (config_at s whatever r).
Proof.
  apply change_conditions_triple. intros now cs. split.
  - eexists. split; [apply (GetCondition_Set now cs no_license)|apply merged_same].
  - intros (_ & c & Hc & Hst & Hre & _)%SetCondition_unchanged. by exists c.
Qed.

(** ** Properties of the run *)

(** C12: on a cluster where nobody else writes, reconciling a configuration whose
    license is accepted, or that was installed before licenses existed, never
    panics, and a run that returns no error has done all it announces: the
    namespace carries the label, the stored specification has its defaults and an
    accepted license, the meter base exists and follows the configuration, each
    catalog source is there or gone as the flag says (when the flag was set when
    the run began), and the condition reports the installation as finished. *)
Theorem Reconcile_installs (w : W) (mc0 : MarketplaceConfig V) :
  configs (view w) !! request = Some mc0 →
  let accepted := ToBool (LicenseAccept (MCSpec mc0)) in
  accepted = true ∨ is_Some (GetCondition (conditions mc0) ConditionComplete) →
  match Reconcile cfg unmarshal DecodeSegment ParseUnverified SetControllerReference request w with
  | Ret (w', None) =>
      run_done (if accepted then MCSpec mc0 else with_accept (MCSpec mc0)) w'
  | Ret (_, Some _) => True
  | Panic => False
  end.
Proof.
  intros Hm accepted Hl. unfold Reconcile. pose proof (get_config_law request w) as Hg.
  destruct (GetConfig request w) as [mc|e]; [|destruct e; try exact I; rewrite Hm in Hg; discriminate (Hg eq_refl)].
  assert (mc = mc0) as -> by congruence. fold accepted.
  pose proof (view_keyed w _ _ Hm) as Hk.
  assert (Hw : config_at (MCSpec mc0) whatever (rest (view w)) w)
    by (split; [by exists mc0|done]).
  assert (Hrun : ∀ s0 first, ToBool (LicenseAccept s0) = true →
    triple (λ h : Held, h = (mc0, w)) first
      (λ h, is_held s0 h.1 ∧ config_at s0 whatever (rest (view w)) h.2) (λ _, True) →
    match holding (first ;;> install_) mc0 w with
    | Ret (w', None) => run_done s0 w' | Ret (_, Some _) => True | Panic => False end).
  { intros s0 first Ha Hf. unfold holding.
    pose proof (triple_andthen _ _ _ _ _ _ Hf (install_triple s0 _ _ _ Ha) (mc0, w) eq_refl) as Hp.
    by destruct ((first ;;> install_) (mc0, w)) as [[[mc' w'] [e|]]|]. }
  destruct accepted eqn:Ha; cbn [negb].
  - apply Hrun; [done|]. eapply triple_weaken;
      [apply (clear_license_triple (MCSpec mc0) (rest (view w)))| |done|done].
    intros h ->. split; [split; [done|by intros flag]|exact Hw].
  - destruct Hl as [Hl|[c ->]]; [discriminate Hl|]. apply Hrun; [done|].
    eapply triple_weaken; [apply (accept_license_triple (MCSpec mc0) (rest (view w)) mc0)| |done|done].
    intros h ->. by split.
Qed.

(** C29: a configuration whose license is not accepted, and that was never
    installed, is left alone: the run changes neither its specification nor any
    meter base, catalog source or namespace, and when it returns no error the
    missing license is what the configuration reports. *)
Theorem Reconcile_unlicensed (w : W) (mc0 : MarketplaceConfig V) :
  configs (view w) !! request = Some mc0 →
  ToBool (LicenseAccept (MCSpec mc0)) = false →
  GetCondition (conditions mc0) ConditionComplete = None →
  match Reconcile cfg unmarshal DecodeSegment ParseUnverified SetControllerReference request w with
  | Ret (w', e) => config_at (MCSpec mc0) (λ cs, e = None → refused cs) (rest (view w)) w'
  | Panic => False
  end.
Proof.
  intros Hm Ha Hc. unfold Reconcile. pose proof (get_config_law request w) as Hg.
  assert (Hw : config_at (MCSpec mc0) whatever (rest (view w)) w) by (split; [by exists mc0|done]).
  assert (Hweak : ∀ (C C' : Conditions → Prop) w', config_at (MCSpec mc0) C (rest (view w)) w' →
    (∀ cs, C cs → C' cs) → config_at (MCSpec mc0) C' (rest (view w)) w').
  { intros C C' w' [(mc & ? & ? & ?) ?] HC. split; [exists mc; auto|done]. }
  destruct (GetConfig request w) as [mc|e].
  - assert (mc = mc0) as -> by congruence. rewrite Ha, Hc. cbn [negb].
    pose proof (refuse_license_triple (MCSpec mc0) (rest (view w)) w Hw) as Hp.
    destruct (Retry _ w) as [[w' [e|]]|]; [| |done]; (eapply Hweak; [exact Hp|]); [|by auto].
    intros cs _ Hx. discriminate Hx.
  - destruct e; try (rewrite Hm in Hg; discriminate (Hg eq_refl));
      (eapply Hweak; [exact Hw|intros cs _ Hx; discriminate Hx]).
Qed.

(** A conflict on the write that clears the missing license is taken for success:
    the closure does not read the configuration again, finds the condition already
    gone from the object it holds, and returns no error with nothing written. *)
Theorem clear_license_conflict (w w1 : W) (mc : MarketplaceConfig V) :
  wf_conditions (conditions mc) → is_Some (GetCondition (conditions mc) ConditionNoLicense) →
  let mc1 := with_conditions mc (RemoveFrom (conditions mc) ConditionNoLicense).2 in
  UpdateConfigStatus mc1 w = (w1, Err Conflict) →
  view w1 = view w ∧
  (Retry clear_license (mc, w) = Ret ((mc1, w1), None) ∨
   Retry clear_license (mc, w) = Ret ((mc1, w1), Some Conflict)).
Proof.
  intros Hwf Hin mc1 Hu. pose proof (update_status_law mc1 w) as Hl. rewrite Hu in Hl.
  split; [done|].
  assert (Hfst : (RemoveFrom (conditions mc) ConditionNoLicense).1 = true).
  { apply remove_loop_found. by rewrite <- cond_abs_dom, elem_of_dom, <- GetCondition_abs. }
  assert (Hgone : (RemoveFrom (conditions mc1) ConditionNoLicense).1 = false).
  { apply not_true_is_false. rewrite remove_loop_found, <- cond_abs_dom.
    unfold mc1; cbn. unfold RemoveFrom. rewrite remove_loop_abs by done. set_solver. }
  assert (H1 : clear_license (mc, w) = Ret ((mc1, w1), Some Conflict)).
  { unfold clear_license. revert Hfst Hu. unfold mc1.
    destruct (RemoveFrom (conditions mc) _) as [r cs]. cbn. intros ->. unfold held. by intros ->. }
  assert (H2 : ∃ mc2, clear_license (mc1, w1) = Ret ((mc2, w1), None) ∧ mc2 = mc1).
  { unfold clear_license. revert Hgone.
    assert (Hid : ∀ cs t, (RemoveFrom cs t).1 = false → (RemoveFrom cs t).2 = cs).
    { intros cs t. unfold RemoveFrom. induction cs as [|c cs IH]; cbn; [done|].
      case_bool_decide; cbn; [done|]. destruct (remove_loop cs t); cbn in *. naive_solver. }
    intros Hgone. specialize (Hid _ _ Hgone). destruct (RemoveFrom (conditions mc1) _) as [r cs].
    cbn in *. subst r cs. eexists. split; [reflexivity|]. by destruct mc as [? ? ? []]. }
  destruct H2 as (mc2 & H2 & ->). unfold Retry.
  match goal with |- context [RetryOnConflict ?f ?s] =>
    pose proof (RetryOnConflict_law f s) as Hr; revert Hr; generalize (RetryOnConflict f s) end.
  intros res Hr.
  inversion Hr as [|o o' r Heq Hr' Ho Hres]; subst.
  - right. unfold panicking. by rewrite H1.
  - left. unfold panicking at 1 in Heq. rewrite H1 in Heq. injection Heq as <-.
    inversion Hr' as [|? ? ? Heq2]; subst; unfold panicking in *; [|by rewrite H2 in Heq2].
    by rewrite H2.
Qed.
End contracts.

(** ** A cluster in memory *)

(** One configuration and one meter base; the versions of an object grow by one
    letter at each write. *)
Record Toy := mkToy {
  toy_config : option (MarketplaceConfig unit);
  toy_base : option (MeterBase unit);
  toy_sources : gmap NamespacedName CatalogSource;
  toy_namespaces : gmap string ObjectMeta
}.

Definition toy_put_config (status : bool) (mc : MarketplaceConfig unit) (w : Toy)
    : Toy * result ClientError (MarketplaceConfig unit) :=
  match toy_config w with
  | None => (w, Err IsNotFound)
  | Some old =>
      if config_key old != config_key mc then (w, Err IsNotFound)
      else if ResourceVersion old != ResourceVersion mc then (w, Err Conflict)
      else
        let v := String "v" (ResourceVersion old) in
        let new := if status then mkConfig (MCMeta old) v (MCSpec old) (MCStatus mc)
                   else mkConfig (MCMeta mc) v (MCSpec mc) (MCStatus old) in
        (mkToy (Some new) (toy_base w) (toy_sources w) (toy_namespaces w), Ok new)
  end.

Definition toy_put_base (create : bool) (mb : MeterBase unit) (w : Toy)
    : Toy * result ClientError (MeterBase unit) :=
  let ok := match toy_base w with
            | None => create
            | Some old => negb create && (base_key old == base_key mb)
            end in
  if ok then (mkToy (toy_config w) (Some mb) (toy_sources w) (toy_namespaces w), Ok mb)
  else (w, Err AlreadyExists).

Definition lookup_result {A} (o : option A) : result ClientError A :=
  match o with Some a => Ok a | None => Err IsNotFound end.

#[export] Instance toy_cluster : ConfigCluster unit Toy := {|
  Now _ := 5%Z;
  NewUUID _ := "uuid";
  GetConfig k w := lookup_result (singleton_by config_key (toy_config w) !! k);
  UpdateConfig := toy_put_config false;
  UpdateConfigStatus := toy_put_config true;
  GetMeterBase k w := lookup_result (singleton_by base_key (toy_base w) !! k);
  CreateMeterBase := toy_put_base true;
  UpdateMeterBase := toy_put_base false;
  GetNamespace n w :=
    match toy_namespaces w !! n with
    | Some ns => if Name ns == n then Ok ns else Err IsNotFound
    | None => Err IsNotFound
    end;
  UpdateNamespace ns w :=
    (mkToy (toy_config w) (toy_base w) (toy_sources w) (<[Name ns := ns]> (toy_namespaces w)),
     Ok ns);
  GetCatalogSource k w := lookup_result (toy_sources w !! k);
  CreateCatalogSource cs w :=
    (mkToy (toy_config w) (toy_base w) (<[source_key cs := cs]> (toy_sources w))
       (toy_namespaces w), Ok cs);
  DeleteCatalogSource k w :=
    (mkToy (toy_config w) (toy_base w) (delete k (toy_sources w)) (toy_namespaces w), Ok tt);
  GetDeployment k _ := Ok (named (NNNamespace k) (NNName k) ∅);
  GetClusterVersion _ := Ok "cluster-1";
  GetSecret _ _ := Err NotFound;
  DeleteUnstructured _ _ w := (w, Some NoMatch)
|}.

Definition toy_view (w : Toy) : View unit :=
  mkView (singleton_by config_key (toy_config w)) (singleton_by base_key (toy_base w))
    (toy_sources w) (toy_namespaces w).

Lemma toy_put_config_law status mc w :
  match toy_put_config status mc w with
  | (w', Ok new) => config_stored status mc new (toy_view w) (toy_view w')
  | (w', Err _) => toy_view w' = toy_view w
  end.
Proof.
  unfold toy_put_config. destruct (toy_config w) as [old|] eqn:Ho; [|done].
  case_bool_decide as Hk; cbn [negb]; [|done]. case_bool_decide as Hv; cbn [negb]; [|done].
  exists old. unfold toy_view; cbn [configs toy_config bases sources namespaces]. rewrite Ho.
  split; [by apply singleton_by_lookup|].
  destruct status; (split; [done|]; split; [done|]; f_equal; by apply singleton_by_insert).
Qed.

Lemma toy_put_base_law create mb w :
  match toy_put_base create mb w with
  | (w', Ok new) => MBSpec new = MBSpec mb ∧
      toy_view w' = mkView (configs (toy_view w)) (<[base_key mb := new]> (bases (toy_view w)))
                      (sources (toy_view w)) (namespaces (toy_view w))
  | (w', Err _) => toy_view w' = toy_view w
  end.
Proof.
  unfold toy_put_base. destruct (toy_base w) as [old|] eqn:Ho.
  - destruct create; cbn [negb andb]; [done|]. case_bool_decide as Hk; [|done].
    split; [done|]. unfold toy_view; cbn [configs bases sources namespaces toy_base]. rewrite Ho.
    f_equal. by apply singleton_by_insert.
  - destruct create; [|done]. split; [done|]. unfold toy_view; cbn [configs bases sources namespaces toy_base].
    by rewrite Ho.
Qed.

Lemma lookup_result_law {A} (o : option A) :
  match lookup_result o with Ok a => o = Some a | Err e => e = IsNotFound → o = None end.
Proof. by destruct o. Qed.

#[export, refine] Instance toy_fresh : FreshCluster unit Toy := {| view := toy_view |}.
Proof.
  - intros w k mc. cbn. by intros [_ ?]%singleton_by_lookup.
  - intros k w. apply lookup_result_law.
  - apply (toy_put_config_law false).
  - apply (toy_put_config_law true).
  - intros mc old w Ho Hv. cbn. unfold toy_put_config. cbn in Ho.
    apply singleton_by_lookup in Ho as [-> Hk].
    rewrite bool_decide_true by done. cbn [negb]. by rewrite bool_decide_false.
  - intros k w. cbn. pose proof (lookup_result_law (singleton_by base_key (toy_base w) !! k)) as Hl.
    destruct (lookup_result _) as [mb|e]; [|exact Hl]. split; [exact Hl|].
    by apply singleton_by_lookup in Hl as [_ ?].
  - apply (toy_put_base_law true).
  - apply (toy_put_base_law false).
  - intros n w. cbn. destruct (toy_namespaces w !! n) as [ns|]; [|done]. by case_bool_decide.
  - intros ns w. cbn. done.
  - intros k w. apply lookup_result_law.
  - intros cs w. done.
  - intros k w. done.
  - intros kind k w. done.
Defined.

Definition toy_reference (kind : string) (owner m : ObjectMeta) : result ClientError ObjectMeta :=
  Ok (mkMeta (Name m) (Namespace m) (UID m) (Generation m) (Labels m) (Annotations m)
        [mkOwnerRef "v1" kind (Name owner) (UID owner)]).

Definition toy_spec (accept : bool) : MarketplaceConfigSpec unit :=
  mkConfigSpec "account" "" "" None (Some true) (Some true) (Some true) None None (Some accept)
    None (Some "fast") None.

Definition toy_stored (accept : bool) : MarketplaceConfig unit :=
  mkConfig (named "rhm" "config" ∅) "1" (toy_spec accept) (mkConfigStatus [] [] None).

Definition toy_start (accept : bool) : Toy :=
  mkToy (Some (toy_stored accept))
    None ∅ {[ "rhm" := named "" "rhm" ∅ ]}.

Definition toy_cfg : OperatorConfig := mkOperatorConfig "rhm" false true.

Definition toy_run (accept : bool) : outcome (Toy * option ClientError) :=
  Reconcile toy_cfg (λ _, None) (λ _, true) (λ _, Err "") toy_reference (mkNN "rhm" "config")
    (toy_start accept).

Lemma toy_stored_at accept :
  configs (view (toy_start accept)) !! mkNN "rhm" "config" = Some (toy_stored accept).
Proof. apply singleton_by_lookup. split; reflexivity. Qed.

Lemma toy_reference_law kind o m m' :
  toy_reference kind o m = Ok m' → Name m' = Name m ∧ Namespace m' = Namespace m.
Proof. by intros [= <-]. Qed.

Lemma Reconcile_installs_witness :
  match toy_run true with Ret (_, None) => True | _ => False end ∧
  ∃ w, toy_run true = Ret (w, None) ∧
    run_done toy_cfg (mkNN "rhm" "config") (toy_spec true) w.
Proof.
  assert (Hok : match toy_run true with Ret (_, None) => True | _ => False end)
    by (vm_compute; exact I).
  split; [exact Hok|].
  pose proof (Reconcile_installs toy_cfg (λ _, None) (λ _, true) (λ _, Err "") toy_reference
    (mkNN "rhm" "config") toy_reference_law (toy_start true) _ (toy_stored_at true)
    (or_introl eq_refl)) as Hp.
  fold (toy_run true) in Hp. revert Hok Hp.
  destruct (toy_run true) as [[w [e|]]|]; [done| |done]. intros _ Hp. exists w. split; [done|exact Hp].
Defined.

Lemma Reconcile_unlicensed_witness :
  match toy_run false with Ret (_, None) => True | _ => False end ∧
  ∃ w, toy_run false = Ret (w, None) ∧
    config_at (mkNN "rhm" "config") (toy_spec false) refused (rest (view (toy_start false))) w.
Proof.
  assert (Hok : match toy_run false with Ret (_, None) => True | _ => False end)
    by (vm_compute; exact I).
  split; [exact Hok|].
  pose proof (Reconcile_unlicensed toy_cfg (λ _, None) (λ _, true) (λ _, Err "") toy_reference
    (mkNN "rhm" "config") (toy_start false) _ (toy_stored_at false) eq_refl eq_refl) as Hp.
  fold (toy_run false) in Hp. revert Hok Hp.
  destruct (toy_run false) as [[w [e|]]|]; [done| |done]. intros _ Hp. exists w. split; [done|].
  destruct Hp as [(mc & ? & ? & HC) ?]. split; [exists mc; auto|done].
Defined.

Lemma initialize_spec_spec_witness :
  "uuid" ≠ "" ∧
  let s1 := initialize_spec toy_cfg None None "uuid" (toy_spec true) in
  ClusterUUID s1 = "uuid" ∧ initialize_spec toy_cfg None None "other" s1 = s1.
Proof.
  split; [discriminate|]. split; [reflexivity|].
  by apply (initialize_spec_spec toy_cfg None None "uuid" "other" (toy_spec true)).
Defined.
