(* ===== verification/Uploaders.v ===== *)
(** * The uploaders

    The model of [reporter/v2/pkg/uploaders] and of the choice among them
    ([reporter/v2/pkg/reporter/uploader.go]): the request each uploader makes of a
    file, what it takes for success, and which uploaders a configuration gives.
    HTTP, JSON, TLS, the object store and the file system are arguments; a
    multipart form is the list of its parts. *)

From Stdlib Require Import Ascii.
From S2P Require Import Prelude GoTime Conditions Workloads Reports MeterDefinition MeterReport Secrets FileServer Reporter Controllers MarketplaceConfig.
Local Open Scope go_scope.

(** ** Paths *)

Definition slash : ascii := Eval cbv in ascii_of_nat 47.
Definition quote : ascii := Eval cbv in ascii_of_nat 34.
Definition backslash : ascii := Eval cbv in ascii_of_nat 92.

(** What follows the last separator. *)
Fixpoint after_last (c : ascii) (s : string) : string :=
  match s with
  | EmptyString => EmptyString
  | String a s' => if char_free c s' then (if Ascii.eqb a c then s' else s) else after_last c s'
  end.

(** [filepath.Base]. *)
Definition filepath_Base (path : string) : string :=
  if path == "" then "."
  else
    let base := after_last slash (TrimRight slash path) in
    if base == "" then String slash "" else base.

(** The extension: from the last dot of the last element on. *)
Fixpoint filepath_Ext (s : string) : string :=
  match s with
  | EmptyString => EmptyString
  | String a s' =>
      match filepath_Ext s' with
      | EmptyString =>
          if Ascii.eqb a dot && char_free slash s' then s else EmptyString
      | e => e
      end
  end.

Definition without_ext (base : string) : string :=
  String.substring 0 (String.length base - String.length (filepath_Ext base)) base.

(** [quoteEscaper]. *)
Fixpoint escapeQuotes (s : string) : string :=
  match s with
  | EmptyString => EmptyString
  | String a s' =>
      if Ascii.eqb a backslash || Ascii.eqb a quote
      then String backslash (String a (escapeQuotes s')) else String a (escapeQuotes s')
  end.

Definition quoted (s : string) : string := String quote "" +:+ s +:+ String quote "".

(** ** Targets *)

Inductive UploaderTarget :=
| TRedHatInsights | TNoOp | TLocalPath (LocalFilePath : string) | TCOSS3 | TMarketplace
| TDataService | TOther (name : string).

Definition TargetName (t : UploaderTarget) : string :=
  match t with
  | TRedHatInsights => "redhat-insights"
  | TNoOp => "noop"
  | TLocalPath _ => "local-path"
  | TCOSS3 => "cos-s3"
  | TMarketplace => "redhat-marketplace"
  | TDataService => "data-service"
  | TOther name => name
  end.

(** The uploader for insights is not among the ones that can be asked for. *)
Definition MustParseUploaderTarget (s : string) : outcome UploaderTarget :=
  if s == TargetName (TLocalPath "") then Ret (TLocalPath "")
  else if s == TargetName TNoOp then Ret TNoOp
  else if s == TargetName TCOSS3 then Ret TCOSS3
  else if s == TargetName TMarketplace then Ret TMarketplace
  else if s == TargetName TDataService then Ret TDataService
  else Panic.

(** ** Requests *)

Record Part := mkPart { PHeader : gmap string string; PBody : bytes }.

(** A request with a form: the content type is the form's. *)
Record Request := mkRequest {
  RMethod : string; RURL : string; RHeader : gmap string string; RForm : list Part
}.

Record Response := mkResponse { StatusCode : Z; Body : result string bytes }.

(** [http.RoundTripper]. *)
Definition RoundTripper (W : Type) : Type := Request → W → W * result string Response.

Definition set_headers (h : gmap string string) (req : Request) : Request :=
  mkRequest (RMethod req) (RURL req) (h ∪ RHeader req) (RForm req).

Definition WithHeader {W} (rt : RoundTripper W) (h : gmap string string) : RoundTripper W :=
  λ req, rt (set_headers h req).

Definition WithBearerAuth {W} (rt : RoundTripper W) (token : string) : RoundTripper W :=
  WithHeader rt {[ "Authorization" := "Bearer " +:+ token ]}.

(** [GenerateCACertPool], here and, without certificates, in [v2/pkg/prometheus]: the system's pool with the certificates of the files, up
    to the first that cannot be read, and the given ones. *)
Definition GenerateCACertPool {Pool Cert} (SystemCertPool : result string Pool)
    (ReadFile : string → result string bytes) (AppendCertsFromPEM : Pool → bytes → Pool)
    (AddCert : Pool → Cert → Pool) (certs : list Cert) (files : list string)
    : result string Pool :=
  match SystemCertPool with
  | Err e => Err ("failed to get system cert pool: " +:+ e)
  | Ok pool =>
      pool ← foldM_result (λ pool file,
        match ReadFile file with
        | Err e => Err ("failed to load cert file: " +:+ e)
        | Ok caCert => Ok (AppendCertsFromPEM pool caCert)
        end) pool files;
      Ok (foldl AddCert pool certs)
  end.

(** ** The marketplace *)

Record MarketplaceUploaderConfig := mkMarketplaceUploaderConfig {
  MURL : string;
  MAuthorizeAccountCreation : bool;
  MToken : string
}.

(** The part of the answer that is read. *)
Record MarketplaceUsageResponse := mkUsageResponse {
  RequestID : string; RMessage : string; ErrorCode : string
}.

Inductive UploadError := VerificationError (message : string) | UploadFailed (text : string).

Definition StatusUnprocessableEntity : Z := 422.

Definition success_code (code : Z) : bool :=
  bool_decide (code < 300)%Z && bool_decide (200 ≤ code)%Z.

Definition checkError (code : Z) (status : MarketplaceUsageResponse) (message : string)
    : option UploadError :=
  if success_code code then None
  else if code == StatusUnprocessableEntity then Some (VerificationError (RMessage status))
  else Some (UploadFailed message).

Section uploaders.
Context {W : Type}.
Variable Do : RoundTripper W.
(** [url.Parse] with a query parameter set, and the checks of [http.NewRequest]. *)
Variable with_query : string → string → string → result string string.
Variable check_request : string → option string.
(** [json.Unmarshal] of an answer fills what it can before it fails. *)
Variable unmarshal_usage : bytes → MarketplaceUsageResponse * option string.
Variable valid_object : bytes → option string.

Definition FormatBool (b : bool) : string := if b then "true" else "false".

Definition NewRequest (url : string) (header : gmap string string) (form : list Part)
    : result string Request :=
  match check_request url with
  | Some e => Err e
  | None => Ok (mkRequest "POST" url header form)
  end.

Definition disposition (name fileName : string) : string :=
  "form-data; name=" +:+ quoted name +:+ "; filename=" +:+ quoted fileName.

Definition marketplace_part (fileName : string) (content : bytes) : Part :=
  let fileBase := filepath_Base fileName in
  mkPart {[ "Content-Disposition" := disposition (without_ext fileBase) fileBase;
            "Content-Type" := "application/gzip" ]} content.

Definition uploadFileRequest (r : MarketplaceUploaderConfig) (fileName : string)
    (content : bytes) : result string Request :=
  url ← with_query (MURL r +:+ "/metering/api/v2/metrics") "authorizeAccountCreation"
          (FormatBool (MAuthorizeAccountCreation r));
  NewRequest url ∅ [marketplace_part fileName content].

(** The client of the uploader. *)
Definition marketplace_client (r : MarketplaceUploaderConfig) : RoundTripper W :=
  if MToken r != "" then WithBearerAuth Do (MToken r) else Do.

(** [uploadFile]: after a successful status, an answer that is no JSON gives an
    empty identifier and the error of reading the body, which is nil. *)
Definition marketplace_uploadFile (r : MarketplaceUploaderConfig) (req : Request) (w : W)
    : W * (string * option UploadError) :=
  match marketplace_client r req w with
  | (w, Err e) => (w, ("", Some (UploadFailed ("failed to post: " +:+ e))))
  | (w, Ok resp) =>
      match Body resp with
      | Err e => (w, ("", Some (UploadFailed ("failed to read response body: " +:+ e))))
      | Ok body =>
          let '(status, jsonErr) := unmarshal_usage body in
          match checkError (StatusCode resp) status "failed to upload" with
          | Some err => (w, (RequestID status, Some err))
          | None => match jsonErr with
                    | Some _ => (w, ("", None))
                    | None => (w, (RequestID status, None))
                    end
          end
      end
  end.

(** [UploadFile]: the goroutine is waited for. A verification error is none; the
    error that the others are wrapped in is dropped. *)
Definition marketplace_UploadFile (r : MarketplaceUploaderConfig) (fileName : string)
    (content : bytes) (w : W) : W * (string * option string) :=
  match uploadFileRequest r fileName content with
  | Err e => (w, ("", Some e))
  | Ok req =>
      match marketplace_uploadFile r req w with
      | (w, (id, None)) | (w, (id, Some (VerificationError _))) => (w, (id, None))
      | (w, (id, Some (UploadFailed e))) => (w, (id, Some e))
      end
  end.

Definition MarketplaceUploader (r : MarketplaceUploaderConfig) : Uploader W :=
  mkUploader (TargetName TMarketplace) (marketplace_UploadFile r).

(** ** Insights *)

Record RedHatInsightsUploaderConfig := mkInsightsConfig {
  IURL : string; IToken : string; OperatorVersion : string; ClusterID : string
}.

Definition mktplaceFileUploadType : string := "application/vnd.redhat.mkt.tar+tgz".

Definition getUserAgent (version clusterID : string) : string :=
  "marketplace-operator/" +:+ version +:+ " cluster/" +:+ clusterID.

Definition insights_request (r : RedHatInsightsUploaderConfig) (fileName : string)
    (content : bytes) (type_field : bytes) : result string Request :=
  NewRequest (IURL r +:+ "/api/ingress/v1/upload")
    {[ "User-Agent" := getUserAgent (OperatorVersion r) (ClusterID r) ]}
    [mkPart {[ "Content-Disposition" :=
                 disposition (escapeQuotes "file") (escapeQuotes (filepath_Base fileName));
               "Content-Type" := mktplaceFileUploadType ]} content;
     mkPart {[ "Content-Disposition" := "form-data; name=" +:+ quoted "type" ]} type_field].

(** The identifier is never read from the answer. *)
Definition insights_UploadFile (r : RedHatInsightsUploaderConfig) (fileName : string)
    (content : bytes) (w : W) : W * (string * option string) :=
  match insights_request r fileName content (String.list_byte_of_string mktplaceFileUploadType) with
  | Err e => (w, ("", Some ("failed to get upload file req: " +:+ e)))
  | Ok req =>
      match WithBearerAuth Do (IToken r) req w with
      | (w, Err e) => (w, ("", Some ("failed to post: " +:+ e)))
      | (w, Ok resp) =>
          match Body resp with
          | Err e => (w, ("", Some ("failed to read response body: " +:+ e)))
          | Ok body =>
              if negb (success_code (StatusCode resp))
              then (w, ("", Some "failed to upload field"))
              else match valid_object body with
                   | Some e => (w, ("", Some ("failed to parse json: " +:+ e)))
                   | None => (w, ("", None))
                   end
          end
      end
  end.

Definition RedHatInsightsUploader (r : RedHatInsightsUploaderConfig) : Uploader W :=
  mkUploader (TargetName TRedHatInsights) (insights_UploadFile r).

(** ** The others *)

Definition NoOpUploader : Uploader W :=
  mkUploader (TargetName TNoOp) (λ _ _ w, (w, ("", None))).

(** [os.Stat], [os.OpenFile] for a truncating write, [io.Copy] into the file, and
    [filepath.Join]. *)
Variable Stat : string → W → option string.
Variable OpenFile : string → W → W * option string.
Variable Copy : string → bytes → W → W * option string.
Variable path_Join : string → string → string.

Definition local_UploadFile (LocalFilePath : string) (file : string) (content : bytes) (w : W)
    : W * (string * option string) :=
  match Stat LocalFilePath w with
  | Some err => (w, ("", Some err))
  | None =>
      let LocalFilePath := if LocalFilePath == "" then "." else LocalFilePath in
      let fileName := path_Join LocalFilePath (filepath_Base file) in
      match OpenFile fileName w with
      | (w, Some err) => (w, ("", Some err))
      | (w, None) =>
          match Copy fileName content w with
          | (w, Some err) => (w, ("", Some err))
          | (w, None) => (w, (fileName, None))
          end
      end
  end.

Definition LocalFilePathUploader (LocalFilePath : string) : Uploader W :=
  mkUploader (TargetName (TLocalPath LocalFilePath)) (local_UploadFile LocalFilePath).

(** [s3manager]'s upload of an object of a bucket. *)
Variable S3Upload : string → string → bytes → W → W * result string string.

Definition cos_UploadFile (Bucket path : string) (content : bytes) (w : W)
    : W * (string * option string) :=
  match S3Upload Bucket (filepath_Base path) content w with
  | (w, Err e) => (w, ("", Some ("failed to upload file: " +:+ e)))
  | (w, Ok uploadID) => (w, (uploadID, None))
  end.

Definition COSS3Uploader (Bucket : string) : Uploader W :=
  mkUploader (TargetName TCOSS3) (cos_UploadFile Bucket).

(** ** The choice of the uploaders *)

Context {V Pool Cert : Type}.

Record DataServiceConfig := mkDataServiceConfig {
  Address : string; DataServiceToken : string; DataServiceCert : bytes; OutputPath : string
}.

Record COSS3UploaderConfig := mkCOSS3Config {
  ApiKey : string; ServiceInstanceID : string; AuthEndpoint : string; ServiceEndpoint : string;
  Bucket : string
}.

(** The part of the reporter's configuration that is read. *)
Record ProvideConfig := mkProvideConfig {
  UploaderTargets : list UploaderTarget;
  PDeployedNamespace : string;
  PIsDisconnected : bool;
  DataServiceTokenFile : string;
  DataServiceCertFile : string;
  OutputDirectory : string
}.

Inductive ProvideError :=
| PSecret (e : SecretError) | PApi (e : ApiError) | PClient (e : ClientError)
| PText (text : string).

(** The cluster, the readers of a secret, the local files, the pools of
    certificates, the YAML and JSON readers and the libraries of the object store
    and of the file service. *)
Variable GetSecret : NamespacedName → result ApiError Secret.
Variable GetMarketplaceConfig : NamespacedName → result ClientError (MarketplaceConfig V).
Variable GetClusterID : result ApiError string.
Variable unmarshal : string → option (gmap string Auth).
Variable DecodeSegment : string → bool.
Variable ParseUnverified : string → result string MarketplaceClaims.
Variable ReadLocal : string → result string bytes.
Variable SystemCertPool : result string Pool.
Variable AppendCertsFromPEM : Pool → bytes → Pool.
Variable AddCert : Pool → Cert → Pool.
Variable cos_yaml : string → result string COSS3UploaderConfig.
Variable cloud_token : string → result string string.
Variable NewSession : COSS3UploaderConfig → option string.
Variable dial : DataServiceConfig →
  result string (option string → string → bytes → W → W * (string * option string)).
Variable version : string.

Definition MktplProductionURL : string := "https://swc.saas.ibm.com".
Definition MktplStageURL : string := "https://sandbox.swc.saas.ibm.com".

(** [string(content)]. *)
Definition text_of (b : bytes) : string := String.string_of_list_byte b.

Definition read_token (file : string) : result string string :=
  if file != "" then content ← ReadLocal file; Ok (text_of content) else Ok "".

Definition provideDataServiceConfig (cfg : ProvideConfig) : result string DataServiceConfig :=
  cert ← ReadLocal (DataServiceCertFile cfg);
  token ← read_token (DataServiceTokenFile cfg);
  Ok (mkDataServiceConfig ("rhm-data-service." +:+ PDeployedNamespace cfg +:+ ".svc:8004") token cert
        (OutputDirectory cfg)).

(** The credentials of each call. *)
Definition ProvideGRPCCallOptions (dataServiceTokenFile : string)
    : result string (option string) :=
  token ← read_token dataServiceTokenFile;
  Ok (if token != "" then Some token else None).

Definition provideCOSS3Config (deployedNamespace : string)
    : result ProvideError COSS3UploaderConfig :=
  match GetSecret (mkNN deployedNamespace "rhm-cos-uploader-secret") with
  | Err e => Err (PApi e)
  | Ok secret =>
      match Data secret !! "config.yaml" with
      | None => Err (PText "rhm-cos-uploader-secret does not contain a config.yaml")
      | Some configYamlBytes =>
          match cos_yaml configYamlBytes with
          | Err e => Err (PText ("failed to unmarshal rhm-cos-uploader-secret config.yaml: " +:+ e))
          | Ok c => Ok c
          end
      end
  end.

(** The session is one the caller panics without. *)
Definition NewCOSS3Uploader (c : COSS3UploaderConfig) : outcome (Uploader W) :=
  match NewSession c with Some _ => Panic | None => Ret (COSS3Uploader (Bucket c)) end.

Definition provideMarketplaceConfig (cfg : ProvideConfig)
    : result ProvideError MarketplaceUploaderConfig :=
  match ReturnSecret unmarshal DecodeSegment ParseUnverified GetSecret (PDeployedNamespace cfg) with
  | (_, Some e) => Err (PSecret e)
  | (None, None) => Err (PText "")
  | (Some si, None) =>
      match GetMarketplaceConfig (mkNN (PDeployedNamespace cfg) "marketplaceconfig") with
      | Err e => Err (PClient e)
      | Ok mc =>
          let url := if SEnv si == StageEnv then MktplStageURL else MktplProductionURL in
          Ok (mkMarketplaceUploaderConfig url (ToBool (AuthorizeAccountCreation (MCSpec mc)))
                (SToken si))
      end
  end.

Definition NewMarketplaceUploader (c : MarketplaceUploaderConfig)
    : result ProvideError (Uploader W) :=
  match GenerateCACertPool SystemCertPool ReadLocal AppendCertsFromPEM AddCert [] [] with
  | Err e => Err (PText e)
  | Ok _ => Ok (MarketplaceUploader c)
  end.

Definition ProvideRedHatInsightsUploader : result ProvideError (Uploader W) :=
  match GetSecret (mkNN "openshift-config" "pull-secret") with
  | Err e => Err (PApi e)
  | Ok secret =>
      match GetClusterID with
      | Err e => Err (PApi e)
      | Ok clusterID =>
          match Data secret !! ".dockerconfigjson" with
          | None => Err (PText "failed to find .dockerconfigjson in secret openshift-config/pull-secret")
          | Some dockerConfigBytes =>
              match cloud_token dockerConfigBytes with
              | Err e => Err (PText e)
              | Ok cloudToken =>
                  match GenerateCACertPool SystemCertPool ReadLocal AppendCertsFromPEM AddCert [] []
                  with
                  | Err e => Err (PText e)
                  | Ok _ => Ok (RedHatInsightsUploader
                      (mkInsightsConfig "https://cloud.redhat.com" cloudToken version clusterID))
                  end
              end
          end
      end
  end.

Definition provide_data_service (cfg : ProvideConfig) : result ProvideError (Uploader W) :=
  match provideDataServiceConfig cfg with
  | Err e => Err (PText e)
  | Ok dataServiceConfig =>
      match dial dataServiceConfig with
      | Err e => Err (PText e)
      | Ok uploader =>
          match ProvideGRPCCallOptions (DataServiceTokenFile cfg) with
          | Err e => Err (PText e)
          | Ok opts => Ok (mkUploader (TargetName TDataService) (uploader opts))
          end
      end
  end.

(** No secret is acceptable in a disconnected environment. *)
Definition provide_marketplace (cfg : ProvideConfig)
    : result ProvideError (option (Uploader W)) :=
  match provideMarketplaceConfig cfg with
  | Err (PSecret NoSecretsFound) =>
      if PIsDisconnected cfg then Ok None else Err (PSecret NoSecretsFound)
  | Err e => Err e
  | Ok config => uploader ← NewMarketplaceUploader config; Ok (Some uploader)
  end.

(** One turn of the loop: the uploader of a target, if it has one. *)
Definition provide_one (cfg : ProvideConfig) (target : UploaderTarget)
    : outcome (result ProvideError (option (Uploader W))) :=
  match target with
  | TRedHatInsights => Ret (u ← ProvideRedHatInsightsUploader; Ok (Some u))
  | TNoOp => Ret (Ok (Some NoOpUploader))
  | TLocalPath path => Ret (Ok (Some (LocalFilePathUploader path)))
  | TDataService => Ret (u ← provide_data_service cfg; Ok (Some u))
  | TCOSS3 =>
      match provideCOSS3Config (PDeployedNamespace cfg) with
      | Err e => Ret (Err e)
      | Ok c => u ← NewCOSS3Uploader c; Ret (Ok (Some u))
      end
  | TMarketplace => Ret (provide_marketplace cfg)
  | TOther name => Ret (Err (PText ("uploader target not available " +:+ name)))
  end.

Fixpoint provide_loop (cfg : ProvideConfig) (targets : list UploaderTarget)
    (uploaders : list (Uploader W)) : outcome (result ProvideError (list (Uploader W))) :=
  match targets with
  | [] => Ret (Ok uploaders)
  | target :: targets =>
      r ← provide_one cfg target;
      match r with
      | Err e => Ret (Err e)
      | Ok None => provide_loop cfg targets uploaders
      | Ok (Some u) => provide_loop cfg targets (uploaders ++ [u])
      end
  end.

Definition ProvideUploaders (cfg : ProvideConfig)
    : outcome (result ProvideError (list (Uploader W))) :=
  provide_loop cfg (UploaderTargets cfg) [].

Definition ProvideUploader (us : list (Uploader W)) : result string (Uploader W) :=
  match us with [] => Err "uploader not provided" | u :: _ => Ok u end.

(** ** Properties *)

(** The request that reaches the server. *)
Definition sent (r : MarketplaceUploaderConfig) (req : Request) : Request :=
  if MToken r != "" then set_headers {[ "Authorization" := "Bearer " +:+ MToken r ]} req else req.

(** An upload to the marketplace sends one request, a POST of one part with
    exactly the content, under the credentials of the configuration when it has
    any; it succeeds exactly when the server answers with a success or refuses
    the report as unprocessable, and every other answer, a connection that fails
    and an answer that cannot be read are errors; the identifier is the one of the
    answer, or none. *)
Theorem marketplace_upload_spec (r : MarketplaceUploaderConfig) (fileName : string)
    (content : bytes) (req : Request) (w : W) :
  uploadFileRequest r fileName content = Ok req →
  let '(w', (id, err)) := UUpload (MarketplaceUploader r) fileName content w in
  RMethod req = "POST" ∧ PBody <$> RForm req = [content] ∧
  RHeader (sent r req) !! "Authorization" =
    (if decide (MToken r = "") then None else Some ("Bearer " +:+ MToken r)) ∧
  w' = (Do (sent r req) w).1 ∧
  match (Do (sent r req) w).2 with
  | Ok resp =>
      match Body resp with
      | Ok body =>
          (err = None ↔ (200 ≤ StatusCode resp < 300)%Z ∨ StatusCode resp = 422%Z) ∧
          (id = "" ∨ id = RequestID (unmarshal_usage body).1)
      | Err _ => err ≠ None
      end
  | Err _ => err ≠ None
  end.
Proof.
  intros Hreq. cbn [UUpload MarketplaceUploader]. unfold marketplace_UploadFile. rewrite Hreq.
  assert (Hc : marketplace_client r req w = Do (sent r req) w).
  { unfold marketplace_client, sent. by destruct (negb _). }
  assert (Hshape : RMethod req = "POST" ∧ PBody <$> RForm req = [content] ∧ RHeader req = ∅).
  { unfold uploadFileRequest in Hreq. destruct (with_query _ _ _) as [url|e]; [|done].
    cbn in Hreq. unfold NewRequest in Hreq. destruct (check_request url); [done|].
    by injection Hreq as <-. }
  destruct Hshape as (Hm & Hf & Hh).
  assert (Hauth : RHeader (sent r req) !! "Authorization" =
    (if decide (MToken r = "") then None else Some ("Bearer " +:+ MToken r))).
  { unfold sent. case_bool_decide as Ht; cbn [negb].
    - rewrite decide_True by done. by rewrite Hh, lookup_empty.
    - rewrite decide_False by done. cbn. by rewrite Hh, lookup_union_l, lookup_singleton_eq. }
  unfold marketplace_uploadFile. rewrite Hc. destruct (Do (sent r req) w) as [w' [resp|e]]; [|done].
  destruct (Body resp) as [body|e] eqn:Hb; [|cbn [fst snd]; rewrite ?Hb; done].
  destruct (unmarshal_usage body) as [status jsonErr] eqn:Hu. unfold checkError, success_code.
  destruct (decide (200 ≤ StatusCode resp < 300)%Z) as [Hs|Hs].
  - rewrite !bool_decide_true by lia. cbn [andb]. destruct jsonErr; cbn [fst snd]; rewrite ?Hb, ?Hu;
      split_and!; try done; auto; split; auto.
  - rewrite (proj2 (andb_false_iff (bool_decide _) (bool_decide _))) by
      (rewrite !bool_decide_eq_false; lia).
    destruct (decide (StatusCode resp = 422%Z)) as [H4|H4].
    + rewrite bool_decide_true by done. cbn [fst snd]. rewrite ?Hb, ?Hu.
      split_and!; try done; auto; split; auto.
    + rewrite bool_decide_false by done. cbn [fst snd]. rewrite ?Hb, ?Hu.
      split_and!; try done; auto. split; [done|]. intros [?|?]; lia.
Qed.

(** The default directory of the local uploader is never used: without a
    directory, the check that it exists has failed before. *)
Theorem local_default_unused (file : string) (content : bytes) (w : W) :
  (∀ w, Stat "" w ≠ None) → (local_UploadFile "" file content w).2.2 ≠ None.
Proof. intros Hs. unfold local_UploadFile. specialize (Hs w). by destruct (Stat "" w). Qed.

(** Reading a secret never ends like finding none. *)
Lemma Parse_finds secret : (Parse unmarshal DecodeSegment ParseUnverified secret).2 ≠ Some NoSecretsFound.
Proof.
  unfold Parse, parse_entitlement, parse_jwt, read_auth.
  repeat first [case_match; try done | case_bool_decide; try done]; simplify_eq/=; done.
Qed.

Lemma ReturnSecret_none ns si :
  ReturnSecret unmarshal DecodeSegment ParseUnverified GetSecret ns = (si, Some NoSecretsFound) →
  GetSecret (mkNN ns RHMPullSecretName) = Err NotFound ∧
  GetSecret (mkNN ns IBMEntitlementKeySecretName) = Err NotFound.
Proof.
  unfold ReturnSecret, GetPullSecret, GetEntitlementKey.
  assert (Hp : ∀ s, (let '(i, e) := Parse unmarshal DecodeSegment ParseUnverified s in (Some i, e)) =
    (si, Some NoSecretsFound) → False).
  { intros s. pose proof (Parse_finds s) as H. destruct (Parse _ _ _ s) as [i e]. cbn in H.
    intros [= _ ->]. done. }
  destruct (GetSecret (mkNN ns RHMPullSecretName)) as [s|[]]; [intros []%Hp| |done].
  destruct (GetSecret (mkNN ns IBMEntitlementKeySecretName)) as [s|[]]; [intros []%Hp|done|done].
Qed.

(** A target that has no uploader. *)
Lemma provide_one_none cfg t :
  provide_one cfg t = Ret (Ok None) →
  t = TMarketplace ∧ PIsDisconnected cfg = true ∧
  GetSecret (mkNN (PDeployedNamespace cfg) RHMPullSecretName) = Err NotFound ∧
  GetSecret (mkNN (PDeployedNamespace cfg) IBMEntitlementKeySecretName) = Err NotFound.
Proof.
  destruct t; cbn [provide_one]; try done.
  - by destruct ProvideRedHatInsightsUploader.
  - destruct (provideCOSS3Config _) as [c|e]; [|done]. unfold NewCOSS3Uploader.
    by destruct (NewSession c).
  - intros [= H]. split; [done|]. unfold provide_marketplace in H.
    destruct (provideMarketplaceConfig cfg) as [c|e] eqn:Hp; [by destruct (NewMarketplaceUploader c)|].
    destruct e as [[]| | |]; try done. destruct (PIsDisconnected cfg); [|done]. split; [done|].
    unfold provideMarketplaceConfig in Hp.
    destruct (ReturnSecret _ _ _ _ _) as [si [e|]] eqn:Hr.
    + assert (e = NoSecretsFound) as -> by (destruct si; congruence).
      by apply ReturnSecret_none in Hr.
    + destruct si; [|done]. by destruct (GetMarketplaceConfig _).
  - by destruct (provide_data_service cfg).
Qed.

Lemma provide_one_some cfg t u :
  provide_one cfg t = Ret (Ok (Some u)) → UName u = TargetName t.
Proof.
  destruct t; cbn [provide_one].
  - unfold ProvideRedHatInsightsUploader. repeat case_match; cbn; intros [=]; by subst.
  - by intros [= <-].
  - by intros [= <-].
  - destruct (provideCOSS3Config _) as [c|e]; [|done]. unfold NewCOSS3Uploader.
    destruct (NewSession c); [done|]. by intros [= <-].
  - unfold provide_marketplace. destruct (provideMarketplaceConfig cfg) as [c|e].
    + unfold NewMarketplaceUploader. destruct (GenerateCACertPool _ _ _ _ _ _); [|done].
      by intros [= <-].
    + repeat case_match; done.
  - unfold provide_data_service. destruct (provideDataServiceConfig cfg) as [c|]; [|done].
    destruct (dial c); [|done]. destruct (ProvideGRPCCallOptions _); [|done]. by intros [= <-].
  - done.
Qed.

(** The targets of a configuration that get an uploader. *)
Definition provided (cfg : ProvideConfig) (t : UploaderTarget) : bool :=
  match provide_one cfg t with Ret (Ok None) => false | _ => true end.

Lemma provide_loop_Ok cfg targets us0 us :
  provide_loop cfg targets us0 = Ret (Ok us) →
  UName <$> us = (UName <$> us0) ++ (TargetName <$> List.filter (provided cfg) targets) ∧
  ∀ t, t ∈ targets → ∃ o, provide_one cfg t = Ret (Ok o).
Proof.
  revert us0; induction targets as [|t targets IH]; intros us0; cbn [provide_loop List.filter].
  - intros [= <-]. split; [by rewrite app_nil_r|]. by intros t ?%elem_of_nil.
  - unfold provided at 1. destruct (provide_one cfg t) as [[[u|]|e]|] eqn:H1; cbn; [| |done|done].
    + intros [Hn Hall]%IH. split.
      * rewrite Hn, fmap_app, <- app_assoc. cbn. by rewrite (provide_one_some _ _ _ H1).
      * intros t' [->|Ht]%elem_of_cons; eauto.
    + intros [Hn Hall]%IH. split; [done|]. intros t' [->|Ht]%elem_of_cons; eauto.
Qed.

(** The uploaders a configuration gives are those of its targets, in their
    order: every target has its uploader or the configuration is an error, but
    for the marketplace, which is left out when, and only when, the environment
    is disconnected and holds neither of the two secrets. *)
Theorem ProvideUploaders_spec (cfg : ProvideConfig) (us : list (Uploader W)) :
  ProvideUploaders cfg = Ret (Ok us) →
  UName <$> us = TargetName <$> List.filter (provided cfg) (UploaderTargets cfg) ∧
  ∀ t, t ∈ UploaderTargets cfg →
    (∃ u, provide_one cfg t = Ret (Ok (Some u)) ∧ UName u = TargetName t ∧ provided cfg t = true) ∨
    (t = TMarketplace ∧ provided cfg t = false ∧ PIsDisconnected cfg = true ∧
     GetSecret (mkNN (PDeployedNamespace cfg) RHMPullSecretName) = Err NotFound ∧
     GetSecret (mkNN (PDeployedNamespace cfg) IBMEntitlementKeySecretName) = Err NotFound).
Proof.
  intros [Hn Hall]%provide_loop_Ok. split; [exact Hn|]. intros t Ht.
  destruct (Hall t Ht) as [[u|] Ho]; unfold provided; rewrite Ho.
  - left. exists u. by split_and!; [|eapply provide_one_some|].
  - right. apply provide_one_none in Ho as (-> & ? & ? & ?). done.
Qed.
End uploaders.

(** ** The marketplace and the reports *)

(** A report that the marketplace refuses as unprocessable is an upload that
    succeeded: its upload details say so, and a required target has it. *)
Theorem refused_report_is_uploaded {W} `{!FileStorage W} (Do : RoundTripper W)
    with_query check_request unmarshal_usage (describe : string → string)
    (r : MarketplaceUploaderConfig) (file : FileInfo) (local : string) (data body : bytes)
    (req : Request) (w w1 w2 : W) :
  FDownloadFile file w = (w1, Ok local) → ReadFile local w1 = Ok data →
  uploadFileRequest with_query check_request r (FName file) data = Ok req →
  Do (sent r req) w1 = (w2, Ok (mkResponse 422 (Ok body))) →
  let '(w3, statuses) := Reporter.uploadFile
    [MarketplaceUploader Do with_query check_request unmarshal_usage r] describe file w in
  w3 = w2 ∧
  statuses = [Some (mkUploadDetails TargetMarketplace (RequestID (unmarshal_usage body).1)
                      UploadStatusSuccess "")] ∧
  (findStatus statuses).1 = true.
Proof.
  intros Hd Hr Hq Hdo. unfold Reporter.uploadFile. rewrite Hd. cbn [upload_loop].
  rewrite Hr. cbn [UUpload UName MarketplaceUploader]. unfold marketplace_UploadFile. rewrite Hq.
  unfold marketplace_uploadFile.
  assert (Hc : marketplace_client Do r req w1 = Do (sent r req) w1).
  { unfold marketplace_client, sent. by destruct (negb _). }
  rewrite Hc, Hdo. cbn [Body StatusCode]. destruct (unmarshal_usage body) as [status jsonErr].
  cbn. split_and!; reflexivity.
Qed.

(** ** Examples *)

Example paths :
  filepath_Base "/reports/upload-1.tar.gz" = "upload-1.tar.gz" ∧ filepath_Base "reports//" = "reports" ∧
  filepath_Base "//" = "/" ∧ filepath_Base "" = "." ∧
  filepath_Ext "upload-1.tar.gz" = ".gz" ∧ without_ext "upload-1.tar.gz" = "upload-1.tar" ∧
  filepath_Ext "reports.d/upload" = "".
Proof. by vm_compute. Qed.

(** A server that records what it gets and refuses it. *)
Definition log_server : RoundTripper (list Request) :=
  λ req w, (w ++ [req], Ok (mkResponse 422 (Ok []))).

Definition toy_usage (b : bytes) : MarketplaceUsageResponse * option string :=
  (mkUsageResponse "foo" "" "", None).

Definition toy_uploader : MarketplaceUploaderConfig :=
  mkMarketplaceUploaderConfig MktplStageURL false "token".

Definition toy_request : Request :=
  mkRequest "POST" "url" ∅ [marketplace_part "out/upload.tar.gz" []].

Lemma marketplace_upload_spec_witness :
  uploadFileRequest (λ _ _ _, Ok "url") (λ _, None) toy_uploader "out/upload.tar.gz" [] = Ok toy_request ∧
  let '(w', (id, err)) :=
    UUpload (MarketplaceUploader log_server (λ _ _ _, Ok "url") (λ _, None) toy_usage toy_uploader)
      "out/upload.tar.gz" [] [] in
  w' = [sent toy_uploader toy_request] ∧ (err = None ↔ (200 ≤ 422 < 300)%Z ∨ 422%Z = 422%Z).
Proof.
  split; [reflexivity|].
  pose proof (marketplace_upload_spec log_server (λ _ _ _, Ok "url") (λ _, None) toy_usage
    toy_uploader "out/upload.tar.gz" [] toy_request [] eq_refl) as Hp.
  destruct (UUpload _ _ _ _) as [w' [id err]]. destruct Hp as (_ & _ & _ & Hw & He & _).
  split; [exact Hw|exact He].
Defined.

Definition toy_provide : ProvideConfig :=
  mkProvideConfig [TNoOp; TMarketplace; TLocalPath "out"] "rhm" true "" "" "".

Definition toy_provided : outcome (result ProvideError (list (Uploader (list Request)))) :=
  ProvideUploaders log_server (λ _ _ _, Ok "url") (λ _, None) toy_usage (λ _, None)
    (λ _ _, None) (λ _ w, (w, None)) (λ _ _ w, (w, None)) (λ d f, d +:+ f) (λ _ _ _ w, (w, Err ""))
    (V := unit) (λ _, Err NotFound) (λ _, Err IsNotFound) (Err NotFound) (λ _, None) (λ _, true)
    (λ _, Err "") (λ _, Err "") (Ok tt) (λ p _, p) (λ p (_ : unit), p) (λ _, Err "")
    (λ _, Err "") (λ _, None) (λ _, Err "") "1"
    toy_provide.

Lemma ProvideUploaders_spec_witness :
  match toy_provided with Ret (Ok us) => length us = 2 | _ => False end ∧
  ∃ us, toy_provided = Ret (Ok us) ∧ UName <$> us = ["noop"; "local-path"].
Proof.
  split; [reflexivity|]. eexists. split; [reflexivity|].
  eapply (ProvideUploaders_spec log_server (λ _ _ _, Ok "url") (λ _, None) toy_usage (λ _, None)
    (λ _ _, None) (λ _ w, (w, None)) (λ _ _ w, (w, None)) (λ d f, d +:+ f) (λ _ _ _ w, (w, Err ""))
    (V := unit) (λ _, Err NotFound) (λ _, Err IsNotFound) (Err NotFound) (λ _, None) (λ _, true)
    (λ _, Err "") (λ _, Err "") (Ok tt) (λ p _, p) (λ p (_ : unit), p) (λ _, Err "")
    (λ _, Err "") (λ _, None) (λ _, Err "") "1"
    toy_provide).
  reflexivity.
Defined.
