(* ===== verification/Signer.v ===== *)
(** * Signing meter definitions

    The model of [v2/pkg/utils/signer/signer.go] and of the two commands built on it
    ([reporter/v2/cmd/reporter/sign], [verify]): what is signed of an object, where
    the signature is kept, and what a verification looks at. PEM, X.509, RSA, the
    hash, JSON and YAML are arguments, and may fail. *)

From S2P Require Import Prelude Workloads.
Local Open Scope go_scope.

(** ** Hexadecimal *)

Definition hex_value (c : Ascii.ascii) : option N :=
  let n := Ascii.N_of_ascii c in
  if (48 <=? n)%N && (n <=? 57)%N then Some (n - 48)%N
  else if (97 <=? n)%N && (n <=? 102)%N then Some (n - 87)%N
  else if (65 <=? n)%N && (n <=? 70)%N then Some (n - 55)%N
  else None.

(** [hex.DecodeString]: the digits in pairs; an odd number of digits is an error. *)
Fixpoint DecodeString (s : string) : option string :=
  match s with
  | EmptyString => Some EmptyString
  | String _ EmptyString => None
  | String a (String b s) =>
      x ← hex_value a; y ← hex_value b; r ← DecodeString s;
      Some (String (Ascii.ascii_of_N (16 * x + y)) r)
  end.

Definition hex_char (n : N) : Ascii.ascii :=
  Ascii.ascii_of_N (if (n <? 10)%N then 48 + n else 87 + n).

(** [fmt.Sprintf] of bytes with the verb for lower-case hexadecimal. *)
Fixpoint hex_of (s : string) : string :=
  match s with
  | EmptyString => EmptyString
  | String c s =>
      let n := Ascii.N_of_ascii c in
      String (hex_char (n / 16)) (String (hex_char (n `mod` 16)) (hex_of s))
  end.

(** ** Objects *)

(** What the package looks at in an [unstructured.Unstructured]: an object is a
    list when it has a field of items, and an item may be no object. *)
Inductive Unstructured {J : Type} := mkU {
  GVK : GroupVersionKind;
  UAnnotations : gmap string string;
  USpec : option J;
  Items : option (list (option Unstructured))
}.
Arguments Unstructured : clear implicits.
Arguments mkU {J}.

Definition SetAnnotations {J} (annotations : gmap string string) (u : Unstructured J)
    : Unstructured J := mkU (GVK u) annotations (USpec u) (Items u).

Definition publickey : string := "marketplace.redhat.com/publickey".
Definition signature : string := "marketplace.redhat.com/signature".

(** [annotations[key]]: the empty string when absent. *)
Definition annotation {J} (u : Unstructured J) (key : string) : string :=
  default "" (UAnnotations u !! key).

Inductive CertificateError := NoPemBlock | ParseFailure (msg : string) | NotRSA.

Inductive SignatureError :=
| NoList
| PublicKeyMalformed (e : CertificateError)
| CannotMarshal (msg : string)
| SignatureMalformed
| FailedToVerify (msg : string).

(** ** Verification *)

(** The libraries: certificates, their RSA keys and how one certificate signs
    another, the hash, and JSON. *)
Class Crypto (Cert PubKey PrivKey J : Type) := {
  pem_Decode : string → option (string * string);
  ParseCertificate : string → result string Cert;
  PublicKey : Cert → option PubKey;
  CertVerify : Cert → Cert → option string;
  Sum256 : string → string;
  VerifyPSS : PubKey → string → string → option string;
  SignPSS : PrivKey → string → result string string;
  DecryptPEMBlock : string → string → result string string;
  ParsePKCS1 : string → option PrivKey;
  ParsePKCS8 : string → result string (option PrivKey);
  MarshalGVKSpec : GroupVersionKind → option J → result string string
}.

(** The texts of a list of objects: its JSON, which may fail, that JSON as YAML, which may
    fail too, and the documents of a YAML text as they are read from it, [None] for one
    that cannot be read. The document of a list is that list. *)
Class Codec (J : Type) := {
  MarshalJSON : Unstructured J → result string string;
  JSONToYAML : string → result string string;
  documents : string → list (option (Unstructured J));
  documents_law l j y : MarshalJSON l = Ok j → JSONToYAML j = Ok y → documents y = [Some l]
}.

Section signer.
Context {Cert PubKey PrivKey J : Type} `{!Crypto Cert PubKey PrivKey J}.

(** The documents of a stream, without those that cannot be read and the empty
    ones; the stream's end is the only way out. *)
Definition Decode (docs : list (option (Unstructured J))) : list (Unstructured J) := omap id docs.

Definition CertificateFromPemBytes (pemData : string) : result CertificateError Cert :=
  match pem_Decode pemData with
  | None => Err NoPemBlock
  | Some (_, bytes) =>
      match ParseCertificate bytes with
      | Err e => Err (ParseFailure e)
      | Ok cert => match PublicKey cert with Some _ => Ok cert | None => Err NotRSA end
      end
  end.

Definition UnstructuredToGVKSpecBytes (uobj : Unstructured J) : result string string :=
  MarshalGVKSpec (GVK uobj) (USpec uobj).

Definition VerifyCert (root signed : Cert) : option string := CertVerify root signed.

(** An object that is not a list. What [VerifyCert] returns is not assigned to
    the error that is looked at next, which is still the nil one of the parse. *)
Definition verify_object (caCert : Cert) (uobj : Unstructured J) : option SignatureError :=
  match CertificateFromPemBytes (annotation uobj publickey) with
  | Err e => Some (PublicKeyMalformed e)
  | Ok pubCert =>
      let _ := VerifyCert caCert pubCert in
      match UnstructuredToGVKSpecBytes uobj with
      | Err e => Some (CannotMarshal e)
      | Ok bytes =>
          let hash := Sum256 bytes in
          match DecodeString (annotation uobj signature) with
          | None => Some SignatureMalformed
          | Some sig =>
              match PublicKey pubCert with
              | None => None
              | Some key => FailedToVerify <$> VerifyPSS key hash sig
              end
          end
      end
  end.

Definition is_object (i : option (Unstructured J)) : bool := bool_decide (is_Some i).

(** The loop over the items of a list returns in its first turn. *)
Fixpoint VerifySignature (caCert : Cert) (uobj : Unstructured J) : option SignatureError :=
  match uobj with
  | mkU _ _ _ None => verify_object caCert uobj
  | mkU _ _ _ (Some items) =>
      if forallb is_object items
      then match items with Some item :: _ => VerifySignature caCert item | _ => None end
      else Some NoList
  end.

Definition VerifySignatureArray (uobjs : list (Unstructured J)) (caCert : Cert)
    : option SignatureError :=
  match uobjs with [] => None | uobj :: _ => VerifySignature caCert uobj end.

(** The command [verify]: whether it succeeds. *)
Definition verify (docs : list (option (Unstructured J))) (ca : result string string) : bool :=
  match ca with
  | Err _ => false
  | Ok pemData =>
      match CertificateFromPemBytes pemData with
      | Err _ => false
      | Ok caCert => VerifySignatureArray (Decode docs) caCert == None
      end
  end.

(** ** Signing *)

(** [errors.Wrap] of a nil error is nil: a file that has no key of the right kind
    gives neither a key nor an error. *)
Definition PrivateKeyFromPemFile (file : result string string) (privateKeyPassword : string)
    : result string (option PrivKey) :=
  match file with
  | Err e => Err ("Unable to read private key file: " +:+ e)
  | Ok privPEMData =>
      match pem_Decode privPEMData with
      | None => Ok None
      | Some (type, bytes) =>
          if type != "RSA PRIVATE KEY" then Ok None else
          match (if privateKeyPassword != "" then DecryptPEMBlock bytes privateKeyPassword
                 else Ok bytes) with
          | Err e => Err e
          | Ok bytes =>
              match ParsePKCS1 bytes with
              | Some key => Ok (Some key)
              | None =>
                  match ParsePKCS8 bytes with
                  | Err e => Err ("Unable to parse private key: " +:+ e)
                  | Ok key => Ok key
                  end
              end
          end
      end
  end.

(** The loop of the command [sign] over one object; a nil key is dereferenced. *)
Definition sign_object (privKey : option PrivKey) (pubKey : string) (uobj : Unstructured J)
    : outcome (result string (Unstructured J)) :=
  match UnstructuredToGVKSpecBytes uobj with
  | Err e => Ret (Err ("could not MarshalJSON: " +:+ e))
  | Ok bytes =>
      match privKey with
      | None => Panic
      | Some key =>
          match SignPSS key (Sum256 bytes) with
          | Err e => Ret (Err ("could not sign: " +:+ e))
          | Ok sig => Ret (Ok (SetAnnotations {[ signature := hex_of sig; publickey := pubKey ]} uobj))
          end
      end
  end.

Fixpoint sign_loop (privKey : option PrivKey) (pubKey : string) (uobjs : list (Unstructured J))
    : outcome (result string (list (Unstructured J))) :=
  match uobjs with
  | [] => Ret (Ok [])
  | uobj :: uobjs =>
      r ← sign_object privKey pubKey uobj;
      match r with
      | Err e => Ret (Err e)
      | Ok u =>
          rs ← sign_loop privKey pubKey uobjs;
          Ret match rs with Ok us => Ok (u :: us) | Err e => Err e end
      end
  end.

(** The command [sign]: what it prints is the text of a list of the signed objects. *)
Definition listGVK : GroupVersionKind := mkGVK "v1" "List".

Definition print_list `{!Codec J} (us : list (Unstructured J)) : result string string :=
  match MarshalJSON (mkU listGVK ∅ None (Some (Some <$> us))) with
  | Err e => Err ("could not MarshalJSON: " +:+ e)
  | Ok uListBytes =>
      match JSONToYAML uListBytes with
      | Err e => Err ("could not JSONToYAML: " +:+ e)
      | Ok yamlout => Ok yamlout
      end
  end.

Definition sign `{!Codec J} (docs : list (option (Unstructured J))) (pubKey file : result string string)
    (password : string) : outcome (result string string) :=
  let uobjs := Decode docs in
  match pubKey with
  | Err e => Ret (Err e)
  | Ok pubKey =>
      match PrivateKeyFromPemFile file password with
      | Err e => Ret (Err e)
      | Ok privKey =>
          r ← sign_loop privKey pubKey uobjs;
          Ret match r with Ok us => print_list us | Err e => Err e end
      end
  end.
End signer.

(** ** Lemmas *)

Lemma hex_value_char n : (n < 16)%N → hex_value (hex_char n) = Some n.
Proof.
  intros Hn. assert (Hin : n ∈ (N.of_nat <$> seq 0 16)).
  { apply list_elem_of_fmap. exists (N.to_nat n). rewrite elem_of_seq. lia. }
  cbn in Hin. repeat (apply elem_of_cons in Hin as [->|Hin]; [done|]). by apply elem_of_nil in Hin.
Qed.

(** Hexadecimal is a round trip on bytes. *)
Lemma DecodeString_hex_of s : DecodeString (hex_of s) = Some s.
Proof.
  induction s as [|c s IH]; cbn [hex_of DecodeString]; [done|].
  assert (Hc : (Ascii.N_of_ascii c < 256)%N) by apply Ascii.N_ascii_bounded.
  rewrite (hex_value_char (_ / 16)%N) by (apply N.Div0.div_lt_upper_bound; lia).
  rewrite (hex_value_char (_ `mod` 16)%N) by (apply N.mod_lt; lia). cbn [mbind option_bind].
  rewrite IH. cbn [mbind option_bind]. rewrite <- N.div_mod by done.
  by rewrite Ascii.ascii_N_embedding.
Qed.

Section properties.
Context {Cert PubKey PrivKey J : Type} `{!Crypto Cert PubKey PrivKey J}.

Lemma CertificateFromPemBytes_key pem cert :
  CertificateFromPemBytes pem = Ok cert → is_Some (PublicKey cert).
Proof.
  unfold CertificateFromPemBytes. destruct (pem_Decode pem) as [[_ b]|]; [|done].
  destruct (ParseCertificate b) as [c|]; [|done].
  destruct (PublicKey c) eqn:Hk; [|done]. intros [= <-]. rewrite Hk. eauto.
Qed.

Lemma sign_loop_elem k p us out :
  sign_loop k p us = Ret (Ok out) →
  Forall2 (λ u v, sign_object k p u = Ret (Ok v)) us out.
Proof.
  revert out; induction us as [|u us IH]; intros out; cbn [sign_loop]; [by intros [= <-]; constructor|].
  destruct (sign_object k p u) as [[v|e]|] eqn:Hu; cbn; [|done|done].
  destruct (sign_loop k p us) as [[vs|e]|]; cbn; [|done|done].
  intros [= <-]. constructor; [done|]. by apply IH.
Qed.

(** C25: what [sign] writes, a verification accepts: what is printed is read as one list
    in which every object of the input is, in order and with its kind and its
    specification, and each of them, unless it is itself a list, verifies by itself
    against any certificate authority, when the public key is the certificate of the
    private one. The private key is the one of the file. *)
Theorem sign_verify `{!Codec J} (docs : list (option (Unstructured J))) (pubKey password : string)
    (file : result string string) (yaml : string) (cert : Cert) (pub : PubKey) :
  (∀ key h s, PrivateKeyFromPemFile file password = Ok (Some key) →
     SignPSS key h = Ok s → VerifyPSS pub h s = None) →
  CertificateFromPemBytes pubKey = Ok cert → PublicKey cert = Some pub →
  sign docs (Ok pubKey) file password = Ret (Ok yaml) →
  ∃ printed signed, Decode (documents yaml) = [printed] ∧ Items printed = Some (Some <$> signed) ∧
    Forall2 (λ u v, GVK v = GVK u ∧ USpec v = USpec u ∧ Items v = Items u ∧
      (Items u = None → ∀ caCert, VerifySignature caCert v = None)) (Decode docs) signed.
Proof.
  intros Hlaw Hcert Hpub. unfold sign.
  destruct (PrivateKeyFromPemFile file password) as [k|e] eqn:Hk; [|done].
  destruct (sign_loop k pubKey (Decode docs)) as [[out|e]|] eqn:Hl; cbn; [|done|done].
  unfold print_list. destruct (MarshalJSON _) as [json|e] eqn:Hj; [|done].
  destruct (JSONToYAML json) as [y|e] eqn:Hy; [|done]. intros [= <-].
  eexists _, out. split; [by rewrite (documents_law _ _ _ Hj Hy)|]. split; [done|].
  apply sign_loop_elem in Hl. eapply Forall2_impl; [exact Hl|].
  intros u v. unfold sign_object.
  destruct (UnstructuredToGVKSpecBytes u) as [bytes|e] eqn:Hb; [|done].
  destruct k as [key|]; [|done]. destruct (SignPSS key _) as [sig|e] eqn:Hs; [|done].
  intros [= <-]. split_and!; [done..|]. destruct u as [gvk ann spec items]; cbn. intros -> ca.
  unfold verify_object, annotation; cbn [UAnnotations].
  rewrite lookup_insert_ne, lookup_insert_eq by done; cbn [default id].
  rewrite Hcert. unfold UnstructuredToGVKSpecBytes in *; cbn [GVK USpec] in *. rewrite Hb.
  rewrite lookup_insert_eq; cbn [default id]. rewrite DecodeString_hex_of, Hpub.
  by rewrite (Hlaw _ _ _ eq_refl Hs).
Qed.

(** C26: what a verification checks. An object that is not a list is
    accepted exactly when its own certificate has an RSA key with which the
    signature of the object's annotations verifies for its kind and specification:
    the certificate authority has no part in it. Of a list only the first item is
    looked at, and an empty one is accepted. *)
Theorem VerifySignature_spec (caCert : Cert) (gvk : GroupVersionKind)
    (annotations : gmap string string) (spec : option J) (items : list (Unstructured J)) :
  let u := mkU gvk annotations spec None in
  (VerifySignature caCert u = None ↔
     ∃ cert key bytes sig,
       CertificateFromPemBytes (annotation u publickey) = Ok cert ∧ PublicKey cert = Some key ∧
       MarshalGVKSpec gvk spec = Ok bytes ∧
       DecodeString (annotation u signature) = Some sig ∧
       VerifyPSS key (Sum256 bytes) sig = None) ∧
  (∀ caCert' v, VerifySignature caCert v = VerifySignature caCert' v) ∧
  VerifySignature caCert (mkU gvk annotations spec (Some (Some <$> items))) =
    match items with [] => None | item :: _ => VerifySignature caCert item end.
Proof.
  cbn zeta. split_and!.
  - cbn. unfold verify_object, UnstructuredToGVKSpecBytes. cbn [GVK USpec].
    destruct (CertificateFromPemBytes _) as [cert|e] eqn:Hc; [|naive_solver].
    destruct (CertificateFromPemBytes_key _ _ Hc) as [key Hk]. rewrite Hk.
    destruct (MarshalGVKSpec gvk spec) as [bytes|e]; [|naive_solver].
    destruct (DecodeString _) as [sig|]; [|naive_solver].
    destruct (VerifyPSS key (Sum256 bytes) sig) eqn:Hv; cbn; [naive_solver|].
    split; [|done]. intros _. by exists cert, key, bytes, sig.
  - intros ca'. fix IH 1. intros [g a s [[|[x|] l]|]]; cbn; [done| |done|done].
    by rewrite IH.
  - cbn. rewrite (proj2 (forallb_forall _ _)); [by destruct items|].
    intros i Hi. apply list_elem_of_In, list_elem_of_fmap in Hi as (x & -> & _).
    apply bool_decide_eq_true. eauto.
Qed.
End properties.

(** ** A concrete case *)

(** A signature is the key followed by what is signed. *)
#[local] Instance toy_crypto : Crypto string string string string := {|
  pem_Decode s := Some ("RSA PRIVATE KEY", s);
  ParseCertificate := Ok;
  PublicKey := Some;
  CertVerify _ _ := Some "unknown authority";
  Sum256 := id;
  VerifyPSS key h sig := if bool_decide (sig = key +:+ h) then None else Some "bad";
  SignPSS key h := Ok (key +:+ h);
  DecryptPEMBlock b _ := Ok b;
  ParsePKCS1 := Some;
  ParsePKCS8 _ := Err "";
  MarshalGVKSpec gvk spec := Ok (Kind gvk +:+ default "" spec)
|}.

Definition toy_doc (spec : string) : Unstructured string :=
  mkU (mkGVK "marketplace.redhat.com/v1beta1" "MeterDefinition") ∅ (Some spec) None.

Definition toy_docs : list (option (Unstructured string)) :=
  [Some (toy_doc "a"); None; Some (toy_doc "b")].

(** What is printed of the two documents. *)
Definition toy_signed (spec : string) : Unstructured string :=
  SetAnnotations {[ signature := hex_of ("kMeterDefinition" +:+ spec); publickey := "k" ]} (toy_doc spec).
Definition toy_list : Unstructured string :=
  mkU listGVK ∅ None (Some [Some (toy_signed "a"); Some (toy_signed "b")]).

#[local] Instance GVK_eq_dec : EqDecision GroupVersionKind.
Proof. solve_decision. Defined.

(** An object that is no list and equal to another one. *)
Definition same_object (u v : option (Unstructured string)) : bool :=
  match u, v with
  | Some (mkU g a s None), Some (mkU g' a' s' None) => bool_decide (g = g' ∧ a = a' ∧ s = s')
  | _, _ => false
  end.

Lemma same_object_eq u v : same_object u v = true → u = v.
Proof.
  destruct u as [[g a s [|]]|], v as [[g' a' s' [|]]|]; cbn; try done.
  by intros (-> & -> & ->)%bool_decide_eq_true.
Qed.

(** The one list that has a text. *)
#[local, refine] Instance toy_codec : Codec string := {|
  MarshalJSON l :=
    match l with
    | mkU g a None (Some [u; v]) =>
        if bool_decide (g = listGVK ∧ a = ∅) && same_object u (Some (toy_signed "a")) &&
           same_object v (Some (toy_signed "b"))
        then Ok "[a,b]" else Err "unsupported"
    | _ => Err "unsupported"
    end;
  JSONToYAML j := if j == "[a,b]" then Ok "- a - b" else Err "unsupported";
  documents y := [Some toy_list]
|}.
Proof.
  intros [g a [s|] [[|u [|v [|]]]|]] j y; try done.
  destruct (_ && _ && _) eqn:Hb; [|done]. intros _ _.
  apply andb_true_iff in Hb as [[Hb Hu]%andb_true_iff Hv].
  apply bool_decide_eq_true in Hb as [-> ->].
  by rewrite (same_object_eq _ _ Hu), (same_object_eq _ _ Hv).
Defined.

Lemma sign_verify_witness :
  sign toy_docs (Ok "k") (Ok "k") "" = Ret (Ok "- a - b") ∧
  ∃ printed signed, Decode (documents "- a - b") = [printed] ∧ Items printed = Some (Some <$> signed) ∧
    Forall2 (λ u v, GVK v = GVK u ∧ USpec v = USpec u ∧ Items v = Items u ∧
      (Items u = None → ∀ caCert, VerifySignature caCert v = None)) (Decode toy_docs) signed.
Proof.
  assert (Hs : sign toy_docs (Ok "k") (Ok "k") "" = Ret (Ok "- a - b")) by (vm_compute; reflexivity).
  split; [exact Hs|].
  apply (sign_verify toy_docs "k" "" (Ok "k") "- a - b" "k" "k"); [|reflexivity|reflexivity|exact Hs].
  intros key h s [= <-] [= <-]. cbn. by rewrite bool_decide_true.
Defined.
