(* ===== verification/PrometheusAPI.v ===== *)
(** * Clients of Prometheus

    The model of [v2/pkg/prometheus/api.go], [prometheus_api.go] and the part of
    [prometheus_client.go] they use: how the client of a Prometheus is found, and
    the builder that keeps clients and throws away those that do not answer. HTTP,
    TLS and the queries are the interface [Prometheus]; services, config maps and
    files are read from the interface [PrometheusResources]. *)

From S2P Require Import Prelude GoTime Strconv Workloads PromLabels PromQuery MeterReport Collect.
Local Open Scope go_scope.

Definition UserWorkload : string := "UserWorkload".
Definition RHMWorkload : string := "RHMWorkload".

Definition OPENSHIFT_MONITORING_THANOS_QUERIER_SERVICE_NAME : string := "thanos-querier".
Definition OPENSHIFT_MONITORING_NAMESPACE : string := "openshift-monitoring".
Definition METERBASE_PROMETHEUS_SERVICE_NAME : string := "rhm-prometheus-meterbase".
Definition SERVING_CERTS_CA_BUNDLE_NAME : string :=
  "ibm-metrics-operator-serving-certs-ca-bundle".

Record ServicePort := mkPort { PortName : string; Port : Z }.
Record Service := mkService {
  SvcName : string; SvcNamespace : string; Ports : list ServicePort
}.

(** What is read to find a Prometheus. *)
Class PrometheusResources (W : Type) := {
  GetService : NamespacedName → W → result ClientError Service;
  GetConfigMap : NamespacedName → W → result ClientError (gmap string string);
  ReadFile : string → W → result string string
}.

(** A client, its making from an address, a token and a certificate, and its
    answers. *)
Class Prometheus (API W : Type) := {
  NewSecureClientFromCert : string → string → string → result string (option API);
  Buildinfo : API → W → W * option string;
  LabelValues : API → string → list string → GoTime → GoTime → W →
    W * result QueryError (list string);
  QueryRange : API → string → GoTime → GoTime → Z → W → W * result QueryError ModelValue
}.

(** [errors.Wrap] of an error by its text. *)
Definition wrap (msg e : string) : string := msg +:+ ": " +:+ e.

Section builder.
Context {API W : Type} `{!PrometheusResources W} `{!Prometheus API W}.
(** The text of an error of the API server. *)
Variable error_text : ClientError → string.
Variable DeploymentNamespace : string.

(** The port is the last of the name. *)
Definition named_port (name : string) (ports : list ServicePort) : option ServicePort :=
  foldl (λ port portB, if PortName portB == name then Some portB else port) None ports.

Definition queryForPrometheusService (apiType : string) (w : W)
    : result string (Service * option ServicePort) :=
  let '(name, portName) :=
    if apiType == UserWorkload
    then (mkNN OPENSHIFT_MONITORING_NAMESPACE OPENSHIFT_MONITORING_THANOS_QUERIER_SERVICE_NAME, "web")
    else (mkNN DeploymentNamespace METERBASE_PROMETHEUS_SERVICE_NAME, "rbac") in
  match GetService name w with
  | Err e => Err (wrap "failed to get prometheus service" (error_text e))
  | Ok service => Ok (service, named_port portName (Ports service))
  end.

Definition getCertConfigMap (w : W) : result string (gmap string string) :=
  match GetConfigMap (mkNN DeploymentNamespace SERVING_CERTS_CA_BUNDLE_NAME) w with
  | Err e => Err (wrap "Failed to retrieve serving-certs-ca-bundle." (error_text e))
  | Ok data => Ok data
  end.

Definition parseCertificateFromConfigMap (data : gmap string string) : result string string :=
  match data !! "service-ca.crt" with
  | None => Err "Error retrieving cert from config map"
  | Some out => Ok out
  end.

Definition NewPromAPI (promService : Service) (targetPort : option ServicePort)
    (caCert token : string) : result string API :=
  match targetPort with
  | None => Err "Prometheus service not defined"
  | Some port =>
      let url := SvcName promService +:+ "." +:+ SvcNamespace promService
                 +:+ ".svc.cluster.local:" +:+ Itoa (Port port) in
      match NewSecureClientFromCert ("https://" +:+ url) token caCert with
      | Err e => Err e
      | Ok None => Err "client configuration is nil"
      | Ok (Some conf) => Ok conf
      end
  end.

Definition tokenFile : string := "/var/run/secrets/kubernetes.io/serviceaccount/token".

Definition ProvidePrometheusAPI (apiType : string) (w : W) : result string API :=
  '(service, port) ← queryForPrometheusService apiType w;
  certConfigMap ← getCertConfigMap w;
  authToken ← ReadFile tokenFile w;
  cert ← parseCertificateFromConfigMap certConfigMap;
  NewPromAPI service port cert authToken.

(** The clients the builder keeps; one may be nil. *)
Notation APIs := (gmap string (option API)).

Definition set (apiType : string) (apis : APIs) (w : W) : APIs * option string :=
  match ProvidePrometheusAPI apiType w with
  | Ok pApi => (<[apiType := Some pApi]> apis, None)
  | Err e => (apis, Some e)
  end.

Definition Get (apiType : string) (apis : APIs) (w : W) : W * (APIs * result string API) :=
  match apis !! apiType with
  | Some None => (w, (delete apiType apis, Err ("api is nil " +:+ apiType)))
  | Some (Some promApi) =>
      match Buildinfo promApi w with
      | (w, Some e) => (w, (delete apiType apis, Err e))
      | (w, None) => (w, (apis, Ok promApi))
      end
  | None =>
      match set apiType apis w with
      | (apis, Some e) => (w, (apis, Err e))
      | (apis, None) =>
          match apis !! apiType with
          | Some (Some api) => (w, (apis, Ok api))
          | _ => (w, (apis, Err ("api type not found " +:+ apiType)))
          end
      end
  end.

Definition GetAPITypeFromFlag (userWorkloadMonitoringEnabled : bool) : string :=
  if userWorkloadMonitoringEnabled then UserWorkload else RHMWorkload.

(** ** Queries on a client *)

(** [ReportQuery]: what the client answers to the text the query prints. *)
Definition ReportQuery_on (render : ResultQueryArgs → result string string) (api : API)
    (q : PromQuery) (w : W) : outcome (W * (result QueryFailure ModelValue * PromQuery)) :=
  '(text, _) ← Print render q;
  let '(w, answer) :=
    match text with
    | Err e => (w, Err (OtherError e))
    | Ok text => QueryRange api text (QStart q) (Add (QEnd q) (- millisecond)) (QStep q) w
    end in
  '(r, _, q) ← ReportQuery render (λ _ _ _ _, (answer, [])) q;
  Ret (w, (r, q)).

Definition MeterDefLabelValues (api : API) (matches : list string) (now : GoTime) (w : W)
    : W * result QueryFailure (list string) :=
  match LabelValues api "meter_def_name" matches (Add now (- Hour)) now w with
  | (w, Err e) => (w, Err (toError e))
  | (w, Ok values) => (w, Ok values)
  end.
End builder.

(** ** The client of a report *)

Record PrometheusAPISetup := mkSetup {
  PromService : option Service;
  PromPort : option ServicePort;
  CertFilePath : string;
  TokenFilePath : string;
  RunLocal : bool
}.

Section reporter.
Context {API W : Type} `{!PrometheusResources W}.
(** [api.NewClient] of an address, and [NewSecureClient] of an address, the file of a
    certificate and a token. *)
Variable NewClient : string → result string API.
Variable NewSecureClient : string → string → string → result string API.

Definition GetAuthToken (apiTokenPath : string) (w : W) : result string string :=
  ReadFile apiTokenPath w.

Definition providePrometheusAPIForReporter (setup : PrometheusAPISetup) (w : W)
    : result string API :=
  if RunLocal setup then NewClient "http://127.0.0.1:9090" else
  match PromService setup, PromPort setup with
  | None, _ => Err "prom service is not provided"
  | Some _, None => Err "prom port is not provided"
  | Some service, Some port =>
      auth ← (if TokenFilePath setup != "" then ReadFile (TokenFilePath setup) w else Ok "");
      if auth == "" then Err "failed to read a token, no TokenFilePath provided"
      else NewSecureClient ("https://" +:+ SvcName service +:+ "." +:+ SvcNamespace service
                            +:+ ".svc:" +:+ Itoa (Port port)) (CertFilePath setup) auth
  end.

(** No client is made without a token, unless it is a local one. *)
Theorem reporter_client_has_token (setup : PrometheusAPISetup) (w : W) (api : API) :
  providePrometheusAPIForReporter setup w = Ok api →
  RunLocal setup = true ∨
  ∃ service port token,
    PromService setup = Some service ∧ PromPort setup = Some port ∧ token ≠ "" ∧
    ReadFile (TokenFilePath setup) w = Ok token ∧
    NewSecureClient ("https://" +:+ SvcName service +:+ "." +:+ SvcNamespace service
                     +:+ ".svc:" +:+ Itoa (Port port)) (CertFilePath setup) token = Ok api.
Proof.
  unfold providePrometheusAPIForReporter. destruct (RunLocal setup); [by left|].
  destruct (PromService setup) as [service|]; [|done]. destruct (PromPort setup) as [port|]; [|done].
  destruct (bool_decide_reflect (TokenFilePath setup = "")) as [Ht|Ht]; cbn [negb].
  { by destruct (bool_decide_reflect ("" = "")). }
  destruct (ReadFile _ w) as [token|e] eqn:Hr; cbn; [|done].
  destruct (bool_decide_reflect (token = "")); [done|].
  intros Hapi. right. by exists service, port, token.
Qed.
End reporter.

(** ** Lemmas *)

(** Making the arguments of a query of a supported type does not panic, and leaves
    everything but the labels it leaves out. *)
Lemma GetQueryArgs_total q :
  supported (QType q) → ∃ a q', GetQueryArgs q = Ret (a, q') ∧ QType q' = QType q.
Proof.
  unfold supported, GetQueryArgs. intros Hs.
  repeat (apply elem_of_cons in Hs as [Hs|Hs]; [rewrite Hs; cbn; eauto|]).
  by apply elem_of_nil in Hs.
Qed.

Lemma ReportQuery_on_total {API W} `{!Prometheus API W} render (api : API) q (w : W) :
  supported (QType q) →
  ∃ w' r q', ReportQuery_on render api q w = Ret (w', (r, q')) ∧ QType q' = QType q ∧
    (w' = w ∨ ∃ text a b n, w' = (QueryRange api text a b n w).1).
Proof.
  intros Hs. destruct (GetQueryArgs_total q Hs) as (a & q' & Hq & Ht).
  unfold ReportQuery_on, ReportQuery, Print. rewrite Hq. cbn.
  destruct (render a) as [text|e]; cbn; [|by eauto 8].
  destruct (QueryRange api text _ _ _ w) as [w' [v|e]] eqn:Hr; cbn.
  all: eexists w', _, q'; split_and!; [done..|]; right; eexists _, _, _, _; by rewrite Hr.
Qed.

(** ** Properties *)

Section properties.
Context {API W : Type} `{!PrometheusResources W} `{!Prometheus API W}.
Variable error_text : ClientError → string.
Variable DeploymentNamespace : string.

(** A client that is returned is the one kept, and it has just answered or has just
    been made for what the cluster holds; when none is returned, none of that type
    is kept, so that the next call makes one; the clients of other types are left
    as they are. *)
Theorem Get_spec (apiType : string) (apis : gmap string (option API)) (w : W) :
  let '(w', (apis', r)) := Get error_text DeploymentNamespace apiType apis w in
  (∀ t, t ≠ apiType → apis' !! t = apis !! t) ∧
  match r with
  | Ok api => apis' !! apiType = Some (Some api) ∧
      (apis' = apis ∧ Buildinfo api w = (w', None) ∨
       apis !! apiType = None ∧ w' = w ∧
         ProvidePrometheusAPI error_text DeploymentNamespace apiType w = Ok api)
  | Err e => apis' !! apiType = None ∧
      ((∃ api, apis !! apiType = Some (Some api) ∧ Buildinfo api w = (w', Some e)) ∨
       apis !! apiType = Some None ∨
       apis !! apiType = None ∧
         ProvidePrometheusAPI error_text DeploymentNamespace apiType w = Err e)
  end.
Proof.
  unfold Get, set. destruct (apis !! apiType) as [[api|]|] eqn:Ha.
  - destruct (Buildinfo api w) as [w' [e|]] eqn:Hb.
    + split; [intros t Ht; by rewrite lookup_delete_ne|]. rewrite lookup_delete_eq. eauto.
    + split; [done|]. split; [done|]. by left.
  - split; [intros t Ht; by rewrite lookup_delete_ne|]. rewrite lookup_delete_eq. eauto.
  - destruct (ProvidePrometheusAPI _ _ apiType w) as [api|e] eqn:Hp; [|by eauto 6].
    rewrite lookup_insert_eq. split; [intros t Ht; by rewrite lookup_insert_ne|].
    rewrite lookup_insert_eq. split; [done|]. by right.
Qed.
End properties.
