(* ===== verification/MeterDefinitionController.v ===== *)
(** * The meter definition controller

    The model of [meterdefinition_controller.go]: the status of a definition says
    whether it is signed, whether it has matches, whether Prometheus reports on it,
    and what its queries give at the moment. The reconciliation is three updates of
    the status, each repeated on a conflict, around a check and a preview. *)

From S2P Require Import Prelude GoTime Conditions Workloads PromLabels PromQuery MeterDefinition MeterReport Helpers Collect Controllers MarketplaceConfig Signer PrometheusAPI.
Local Open Scope go_scope.

(** ** The conditions of a definition *)

Definition MeterDefConditionTypeHasResult : string := "FoundMatches".
Definition MeterDefConditionTypeReporting : string := "Reporting".
Definition MeterDefConditionTypeSignatureVerified : string := "SignatureVerified".
Definition MeterDefVerifyReportingSetupError : string := "VerifyReportingSetupError".
Definition MeterDefQueryPreviewSetupError : string := "QueryPreviewSetupError".
Definition ConditionUserWorkloadMonitoringEnabled : string := "UserWorkloadMonitoringEnabled".

Definition MeterDefConditionNoResults : Condition :=
  cond MeterDefConditionTypeHasResult ConditionFalse "No results in status"
    "Meter definition has no results yet.".
Definition MeterDefConditionHasResults : Condition :=
  cond MeterDefConditionTypeHasResult ConditionTrue "Results in status"
    "Meter definition has results.".
Definition MeterDefConditionNotReporting : Condition :=
  cond MeterDefConditionTypeReporting ConditionFalse "Not Reporting"
    "Prometheus is not reporting on MeterDefinition. Label name is not present.".
Definition MeterDefConditionReporting : Condition :=
  cond MeterDefConditionTypeReporting ConditionTrue "Is Reporting"
    "Prometheus is reporting on MeterDefinition. Label name is present.".
Definition MeterDefConditionSignatureUnverified : Condition :=
  cond MeterDefConditionTypeSignatureVerified ConditionFalse "Signature unverified"
    "Meter definition unsigned and unverified".
Definition MeterDefConditionSignatureVerified : Condition :=
  cond MeterDefConditionTypeSignatureVerified ConditionTrue "Signature verified"
    "Meter definition signature verified.".
Definition MeterDefConditionSignatureVerificationFailed : Condition :=
  cond MeterDefConditionTypeSignatureVerified ConditionFalse "Signature verification failed"
    "Meter definition signature verification failed.".
Definition VerifyReportingErrorCondition (message : string) : Condition :=
  cond MeterDefVerifyReportingSetupError ConditionTrue "VerifyReportingError" message.
Definition PreviewErrorCondition (message : string) : Condition :=
  cond MeterDefQueryPreviewSetupError ConditionTrue "PreviewError" message.

(** The first update: the signature, then the matches. The case of an unknown
    condition falls through to the one of no matches. *)
Definition signature_condition (signed valid : bool) : Condition :=
  if signed then
    if valid then MeterDefConditionSignatureVerified
    else MeterDefConditionSignatureVerificationFailed
  else MeterDefConditionSignatureUnverified.

Definition match_condition (resources : list WorkloadResource) (cs : Conditions) : Condition :=
  if IsUnknownFor cs MeterDefConditionTypeHasResult then MeterDefConditionNoResults
  else match resources with
       | [] => MeterDefConditionNoResults
       | _ :: _ => MeterDefConditionHasResults
       end.

Definition first_conditions (signed valid : bool) (resources : list WorkloadResource)
    (now : Time) (cs : Conditions) : bool * Conditions :=
  or_else (λ cs, SetCondition now cs (match_condition resources cs))
    (or_else (λ cs, SetCondition now cs (signature_condition signed valid)) (false, cs)).

(** The second update, from what the check found. *)
Definition reporting_conditions (isReporting : bool) (err : option string) (now : Time)
    (cs : Conditions) : bool * Conditions :=
  let r := or_else (λ cs, SetCondition now cs
    (if isReporting then MeterDefConditionReporting else MeterDefConditionNotReporting)) (false, cs) in
  match err with
  | Some e => or_else (λ cs, SetCondition now cs (VerifyReportingErrorCondition e)) r
  | None => or_else (λ cs, RemoveFrom cs MeterDefVerifyReportingSetupError) r
  end.

(** ** The interface to the cluster *)

Class MeterDefCluster (LS V W : Type) := {
  Now : W → Time;
  Clock : W → GoTime;
  GetMeterDefinition : NamespacedName → W → result ClientError (V1Beta1.MeterDefinition LS);
  UpdateMeterDefinitionStatus : V1Beta1.MeterDefinition LS → W →
    W * result ClientError (V1Beta1.MeterDefinition LS);
  GetMeterBase : NamespacedName → W → result ClientError (MeterBase V)
}.

(** ** The reconciliation *)

(** What a reconciliation holds: the cluster, the object it reads the definition
    into, the clients of Prometheus, and whether it is to be run again soon. *)
Record Reconciling {LS API W : Type} := mkReconciling {
  world : W;
  instance : V1Beta1.MeterDefinition LS;
  apis : gmap string (option API);
  requeue : bool
}.
Arguments Reconciling : clear implicits.
Arguments mkReconciling {LS API W}.

Definition with_world {LS API W} (w : W) (s : Reconciling LS API W) : Reconciling LS API W :=
  mkReconciling w (instance s) (apis s) (requeue s).
Definition with_instance {LS API W} (m : V1Beta1.MeterDefinition LS) (s : Reconciling LS API W)
    : Reconciling LS API W := mkReconciling (world s) m (apis s) (requeue s).
Definition with_apis {LS API W} (a : gmap string (option API)) (s : Reconciling LS API W)
    : Reconciling LS API W := mkReconciling (world s) (instance s) a (requeue s).
Definition set_requeue {LS API W} (b : bool) (s : Reconciling LS API W) : Reconciling LS API W :=
  mkReconciling (world s) (instance s) (apis s) b.

Definition md_conditions {LS} (m : V1Beta1.MeterDefinition LS) : Conditions :=
  MDConditions (V1Beta1.Status m).
Definition with_md_conditions {LS} (cs : Conditions) (m : V1Beta1.MeterDefinition LS)
    : V1Beta1.MeterDefinition LS :=
  V1Beta1.mkMeterDefinition LS (V1Beta1.Meta m) (V1Beta1.Spec m)
    (mkMeterDefinitionStatus cs (WorkloadResources (V1Beta1.Status m)) (Results (V1Beta1.Status m))).
Definition with_md_results {LS} (rs : list QResult) (m : V1Beta1.MeterDefinition LS)
    : V1Beta1.MeterDefinition LS :=
  V1Beta1.mkMeterDefinition LS (V1Beta1.Meta m) (V1Beta1.Spec m)
    (mkMeterDefinitionStatus (md_conditions m) (WorkloadResources (V1Beta1.Status m)) rs).

(** [returnQueryRange]: the last whole hour, and [duration] before it. *)
Definition returnQueryRange (now : GoTime) (duration : Z) : GoTime * GoTime :=
  let endTime := mkTime (nsec now - nsec now mod Hour)%Z 0%Z in
  (GoTime.Add endTime (- duration)%Z, endTime).

(** The values of an answer, with their times in seconds; other answers than a
    matrix have none. *)
Definition values_of (val : ModelValue) : list ResultValues :=
  match val with
  | ValMatrix matrix =>
      m ← matrix; (λ pair, mkResultValues (Timestamp pair ÷ 1000)%Z (SValue pair) ∅) <$> SValues m
  | _ => []
  end.

Section reconciler.
Context {LS V API W Cert PubKey PrivKey J : Type} `{!ConflictRetry}
  `{!MeterDefCluster LS V W} `{!PrometheusResources W} `{!Prometheus API W}
  `{!Crypto Cert PubKey PrivKey J}.
(** The embedded certificate, and the object as a tree of fields. *)
Variable signerCACertificate : string.
Variable ToUnstructured : V1Beta1.MeterDefinition LS → result string (Unstructured J).
(** The text of errors, of a query, and the equality of results, which tells nil
    slices from empty ones. *)
Variable error_text : ClientError → string.
Variable failure_text : QueryFailure → string.
Variable render : ResultQueryArgs → result string string.
Variable DeepEqual : list QResult → list QResult → bool.
Variable DeployedNamespace DeploymentNamespace : string.
Variable MeterDefControllerRequeueRate : Z.
Variable request : NamespacedName.

Notation State := (Reconciling LS API W).

(** [ValidateSignature]: whether it returns no error. *)
Definition ValidateSignature (r : V1Beta1.MeterDefinition LS) : bool :=
  match ToUnstructured r with
  | Err _ => false
  | Ok uMeterDef =>
      match CertificateFromPemBytes signerCACertificate with
      | Err _ => false
      | Ok caCert => VerifySignature caCert uMeterDef == None
      end
  end.

Definition get_instance : Step State := λ s,
  match GetMeterDefinition request (world s) with
  | Err e => Ret (s, Some e)
  | Ok m => Ret (with_instance m s, None)
  end.

Definition put_instance (update : bool) : Step State := λ s,
  if update then
    match UpdateMeterDefinitionStatus (instance s) (world s) with
    | (w, Ok m) => Ret (with_instance m (with_world w s), None)
    | (w, Err e) => Ret (with_world w s, Some e)
    end
  else Ret (s, None).

(** A change of the conditions of the object, and the write it asks for. *)
Definition change (f : V1Beta1.MeterDefinition LS → Time → Conditions → bool * Conditions)
    : Step State := λ s,
  let '(update, cs) := f (instance s) (Now (world s)) (md_conditions (instance s)) in
  put_instance update (with_instance (with_md_conditions cs (instance s)) s).

Definition first_closure : Step State :=
  get_instance ;;> change (λ m now cs,
    first_conditions (V1Beta1.IsSigned m) (ValidateSignature m)
      (WorkloadResources (V1Beta1.Status m)) now cs).

(** [verifyReporting]: whether the definition is among the labels of the last
    hour. *)
Definition verifyReporting (userWorkloadMonitoringEnabled : bool) (s : State)
    : State * (bool * option string) :=
  match Get error_text DeploymentNamespace (GetAPITypeFromFlag userWorkloadMonitoringEnabled)
          (apis s) (world s) with
  | (w, (a, Err e)) => (with_apis a (with_world w s), (false, Some e))
  | (w, (a, Ok api)) =>
      let s := with_apis a s in
      match MeterDefLabelValues api [] (Clock w) w with
      | (w, Err e) => (with_world w s, (false, Some (wrap "error with query" (failure_text e))))
      | (w, Ok labelValues) =>
          (with_world w s,
           (existsb (λ l, l == Name (V1Beta1.Meta (instance s))) labelValues, None))
      end
  end.

Definition reporting_closure (isReporting : bool) (err : option string) : Step State :=
  get_instance ;;> λ s,
    let s := if err then set_requeue true s else s in
    change (λ _ now cs, reporting_conditions isReporting err now cs) s.

(** The query of a meter, tried up to three times; its answer is a variable outside
    the closure. *)
Definition preview_query (api : API) (query : PromQuery) (w : W)
    : outcome (W * result string ModelValue) :=
  let f '(o, val) := match o with
    | Panic => ((Panic, val), None)
    | Ret (w, q) =>
        match ReportQuery_on render api q w with
        | Panic => ((Panic, val), None)
        | Ret (w, (Ok v, q)) => ((Ret (w, q), Some v), None)
        | Ret (w, (Err e, q)) =>
            ((Ret (w, q), None), Some (wrap "error with query" (failure_text e)))
        end
    end in
  match Helpers.Retry f 2 (Ret (w, query), None) with
  | ((Panic, _), _) => Panic
  | ((Ret (w, _), _), Some e) => Ret (w, Err (wrap "error with query" e))
  | ((Ret (w, _), Some val), None) => Ret (w, Ok val)
  | ((Ret _, None), None) => Panic
  end.

(** [generateQueryPreview]: the period of a meter is dereferenced. *)
Fixpoint preview_loop (api : API) (labels : list MeterDefPrometheusLabels) (w : W)
    : outcome (W * result string (list QResult)) :=
  match labels with
  | [] => Ret (w, Ok [])
  | meterWorkload :: labels =>
      period ← match PL.MetricPeriod meterWorkload with Some d => Ret d | None => Panic end;
      let '(startTime, endTime) := returnQueryRange (Clock w) period in
      query ← PromQueryFromLabels meterWorkload startTime endTime;
      '(text, query) ← Print render query;
      match text with
      | Err e => Ret (w, Err e)
      | Ok q =>
          '(w, answer) ← preview_query api query w;
          match answer with
          | Err e => Ret (w, Err e)
          | Ok val =>
              '(w, rest) ← preview_loop api labels w;
              Ret (w, match rest with
                      | Err e => Err e
                      | Ok results => Ok (mkQResult (PL.Metric meterWorkload) q (values_of val) :: results)
                      end)
          end
      end
  end.

Definition generateQueryPreview (m : V1Beta1.MeterDefinition LS) (api : API) (w : W)
    : outcome (W * result string (list QResult)) :=
  preview_loop api (V1Beta1.ToPrometheusLabels m) w.

Definition queryPreview (userWorkloadMonitoringEnabled : bool) (s : State)
    : outcome (State * result string (list QResult)) :=
  match Get error_text DeploymentNamespace (GetAPITypeFromFlag userWorkloadMonitoringEnabled)
          (apis s) (world s) with
  | (w, (a, Err e)) => Ret (with_apis a (with_world w s), Err e)
  | (w, (a, Ok api)) =>
      '(w, r) ← generateQueryPreview (instance s) api w;
      Ret (with_apis a (with_world w s), r)
  end.

(** The third update works on the object at hand; it does not read it again. *)
Definition preview_closure (preview : result string (list QResult)) : Step State := λ s,
  match preview with
  | Err e =>
      change (λ _ now cs, or_else (λ cs, SetCondition now cs (PreviewErrorCondition e)) (false, cs))
        (set_requeue true s)
  | Ok [] => put_instance false s
  | Ok results =>
      let '(update, cs) :=
        RemoveFrom (md_conditions (instance s)) MeterDefQueryPreviewSetupError in
      let m := with_md_conditions cs (instance s) in
      if DeepEqual results (Results (V1Beta1.Status m))
      then put_instance update (with_instance m s)
      else put_instance true (with_instance (with_md_results results m) s)
  end.

Definition meterbase_key : NamespacedName := mkNN DeployedNamespace METERBASE_NAME.

(** The answer to the request: when to run again, and the error. *)
Definition Answer : Type := Z * option ClientError.
Definition minutes (n : Z) : Z := (n * 60 * second)%Z.

(** From the check on: Prometheus watches the workloads of users. *)
Definition report_and_preview (s : State) : outcome (State * Answer) :=
  let '(s, (isReporting, err)) := verifyReporting true s in
  '(s, e) ← Controllers.Retry (reporting_closure isReporting err) s;
  match e with
  | Some e => Ret (s, (0%Z, Some e))
  | None =>
      if requeue s then Ret (s, (MeterDefControllerRequeueRate, None)) else
      '(s, preview) ← queryPreview true s;
      '(s, e) ← Controllers.Retry (preview_closure preview) s;
      match e with
      | Some e => Ret (s, (0%Z, Some e))
      | None =>
          Ret (s, (if requeue s then minutes 5 else MeterDefControllerRequeueRate, None))
      end
  end.

(** After the first update. *)
Definition with_meterbase (s : State) : outcome (State * Answer) :=
  match GetMeterBase meterbase_key (world s) with
  | Err IsNotFound => Ret (s, (MeterDefControllerRequeueRate, None))
  | Err e => Ret (s, (0%Z, Some e))
  | Ok meterbase =>
      if IsTrueFor (default [] (MBConditions meterbase)) ConditionUserWorkloadMonitoringEnabled
      then report_and_preview s
      else Ret (s, (MeterDefControllerRequeueRate, None))
  end.

Definition Reconcile (a : gmap string (option API)) (w : W)
    : outcome (W * gmap string (option API) * Answer) :=
  match GetMeterDefinition request w with
  | Err IsNotFound => Ret (w, a, (0%Z, None))
  | Err e => Ret (w, a, (0%Z, Some e))
  | Ok m =>
      '(s, e) ← Controllers.Retry first_closure (mkReconciling w m a false);
      '(s, answer) ← match e with
                     | Some e => Ret (s, (0%Z, Some e))
                     | None => with_meterbase s
                     end;
      Ret (world s, apis s, answer)
  end.
End reconciler.

(** ** The conditions settle *)

Lemma settled_known c cs : settled c cs → IsUnknownFor cs (Type_ c) = IsUnknown c.
Proof.
  intros (c0 & Hc & Hs & _). revert Hc. induction cs as [|c1 cs IH]; cbn; [done|].
  case_bool_decide; [|done]. intros [= ->]. unfold IsUnknown. by rewrite Hs.
Qed.

Lemma match_condition_type resources cs :
  Type_ (match_condition resources cs) = MeterDefConditionTypeHasResult.
Proof. unfold match_condition. destruct (IsUnknownFor _ _), resources; done. Qed.

Definition matches_of (resources : list WorkloadResource) : Condition :=
  match resources with [] => MeterDefConditionNoResults | _ => MeterDefConditionHasResults end.

(** Once there is a known condition, the next says what the resources say. *)
Lemma match_condition_known resources cs c :
  settled c cs → Type_ c = MeterDefConditionTypeHasResult → IsUnknown c = false →
  match_condition resources cs = matches_of resources.
Proof.
  intros Hc Ht Hu. unfold match_condition. rewrite <- Ht, (settled_known _ _ Hc), Hu.
  by destruct resources.
Qed.

Lemma signature_ne signed valid c :
  Type_ c = MeterDefConditionTypeHasResult → Type_ (signature_condition signed valid) ≠ Type_ c.
Proof. intros ->. by destruct signed, valid. Qed.

Lemma first_conditions_signature signed valid resources now cs :
  settled (signature_condition signed valid) (first_conditions signed valid resources now cs).2.
Proof.
  unfold first_conditions. rewrite or_else_set.
  destruct (SetCondition now cs (signature_condition signed valid)) as [[] l] eqn:He; cbn [fst].
  - replace l with (SetCondition now cs (signature_condition signed valid)).2 by (by rewrite He).
    apply settled_Set.
  - apply settled_Set_ne; [apply not_eq_sym, signature_ne, match_condition_type|].
    apply (SetCondition_unchanged now). by rewrite He.
Qed.

Lemma first_conditions_step signed valid resources now cs :
  settled (signature_condition signed valid) cs →
  first_conditions signed valid resources now cs =
    SetCondition now cs (match_condition resources cs).
Proof. intros Hs. unfold first_conditions. by rewrite or_else_settled. Qed.

(** The first update settles in three runs, and no fewer. After any run the
    signature condition is what the signature says; after three the matches
    condition is what the matched resources say, and nothing more is written. A
    definition that has no conditions yet is reported to have no results after one
    and after two runs, whatever it matches. *)
Theorem status_in_three_runs (t1 t2 t3 t4 : Time) (signed valid : bool)
    (resources : list WorkloadResource) (cs : Conditions) :
  let run t cs := (first_conditions signed valid resources t cs).2 in
  let cs3 := run t3 (run t2 (run t1 cs)) in
  settled (signature_condition signed valid) (run t1 cs) ∧
  settled (signature_condition signed valid) cs3 ∧ settled (matches_of resources) cs3 ∧
  first_conditions signed valid resources t4 cs3 = (false, cs3) ∧
  (cs = [] → IsTrueFor (run t1 cs) MeterDefConditionTypeHasResult = false ∧
     settled MeterDefConditionNoResults (run t2 (run t1 cs))).
Proof.
  cbn zeta. set (S := signature_condition signed valid).
  set (cs1 := (first_conditions signed valid resources t1 cs).2).
  set (cs2 := (first_conditions signed valid resources t2 cs1).2).
  set (cs3 := (first_conditions signed valid resources t3 cs2).2).
  assert (H1 : settled S cs1) by apply first_conditions_signature.
  assert (H2 : settled S cs2) by apply first_conditions_signature.
  assert (H3 : settled S cs3) by apply first_conditions_signature.
  assert (Hm2 : settled (match_condition resources cs1) cs2).
  { unfold cs2. rewrite first_conditions_step by done. apply settled_Set. }
  assert (Hm3 : settled (matches_of resources) cs3).
  { unfold cs3. rewrite first_conditions_step by done.
    rewrite (match_condition_known _ _ _ Hm2 (match_condition_type _ _))
      by (unfold match_condition; destruct (IsUnknownFor _ _), resources; done).
    apply settled_Set. }
  split_and!; [done..| |].
  - rewrite first_conditions_step by done.
    rewrite (match_condition_known _ _ _ Hm3) by (by destruct resources).
    by apply settled_unchanged.
  - intros Hnil.
    assert (Hcs1 : cs1 = (SetCondition t1 [] S).2).
    { unfold cs1, first_conditions. rewrite or_else_set, Hnil. done. }
    assert (Hu : IsUnknownFor cs1 MeterDefConditionTypeHasResult = true)
      by (rewrite Hcs1; unfold S; by destruct signed, valid).
    split; [rewrite Hcs1; unfold S; by destruct signed, valid|].
    revert Hm2. unfold match_condition. by rewrite Hu.
Qed.

Definition reporting_condition (isReporting : bool) : Condition :=
  if isReporting then MeterDefConditionReporting else MeterDefConditionNotReporting.

Lemma reporting_conditions_step isReporting err t cs :
  reporting_conditions isReporting err t cs =
    if (SetCondition t cs (reporting_condition isReporting)).1
    then SetCondition t cs (reporting_condition isReporting)
    else match err with
         | Some e => SetCondition t cs (VerifyReportingErrorCondition e)
         | None => RemoveFrom cs MeterDefVerifyReportingSetupError
         end.
Proof. unfold reporting_conditions. destruct err; by rewrite or_else_set. Qed.

Lemma reporting_conditions_settled isReporting err t cs :
  settled (reporting_condition isReporting) (reporting_conditions isReporting err t cs).2.
Proof.
  rewrite reporting_conditions_step.
  destruct (SetCondition t cs (reporting_condition isReporting)) as [[] l] eqn:He; cbn [fst].
  - replace l with (SetCondition t cs (reporting_condition isReporting)).2 by (by rewrite He).
    apply settled_Set.
  - assert (Hl : settled (reporting_condition isReporting) cs)
      by (apply (SetCondition_unchanged t); by rewrite He).
    destruct err; [apply settled_Set_ne|apply settled_remove_ne]; by destruct isReporting.
Qed.

(** The update leaves the conditions of other types. *)
Lemma reporting_conditions_ne isReporting err t cs c :
  Type_ c ≠ MeterDefConditionTypeReporting → Type_ c ≠ MeterDefVerifyReportingSetupError →
  settled c (reporting_conditions isReporting err t cs).2 ↔ settled c cs.
Proof.
  intros H1 H2. rewrite reporting_conditions_step. destruct (fst _).
  - apply settled_Set_ne. by destruct isReporting.
  - destruct err; [by apply settled_Set_ne|by apply settled_remove_ne].
Qed.

(** An update that asks for no write found everything as it makes it. *)
Lemma reporting_conditions_unchanged isReporting err t cs :
  (reporting_conditions isReporting err t cs).1 = false →
  settled (reporting_condition isReporting) cs.
Proof.
  rewrite reporting_conditions_step.
  destruct (SetCondition t cs (reporting_condition isReporting)) as [[] l] eqn:He; cbn [fst];
    [discriminate|]. intros _. apply (SetCondition_unchanged t). by rewrite He.
Qed.

(** The second update settles in two: an error of the check is only said when what is
    said of the reporting did not change. *)
Theorem reporting_in_two_runs (t1 t2 t3 : Time) (isReporting : bool) (e : string)
    (cs : Conditions) :
  let c := reporting_condition isReporting in
  let run t cs := (reporting_conditions isReporting (Some e) t cs).2 in
  let cs2 := run t2 (run t1 cs) in
  settled c (run t1 cs) ∧ settled c cs2 ∧ settled (VerifyReportingErrorCondition e) cs2 ∧
  reporting_conditions isReporting (Some e) t3 cs2 = (false, cs2).
Proof.
  cbn zeta. set (cs1 := (reporting_conditions isReporting (Some e) t1 cs).2).
  assert (H1 : settled (reporting_condition isReporting) cs1)
    by apply reporting_conditions_settled.
  assert (Hstep : reporting_conditions isReporting (Some e) t2 cs1 =
    SetCondition t2 cs1 (VerifyReportingErrorCondition e)).
  { rewrite reporting_conditions_step. apply (settled_unchanged t2) in H1. by rewrite H1. }
  assert (H2 : settled (reporting_condition isReporting)
    (reporting_conditions isReporting (Some e) t2 cs1).2) by apply reporting_conditions_settled.
  split_and!; [done..|rewrite Hstep; apply settled_Set|].
  rewrite reporting_conditions_step. apply (settled_unchanged t3) in H2. rewrite H2; cbn [fst].
  rewrite Hstep. apply settled_unchanged, settled_Set.
Qed.

(** ** The laws of the cluster *)

Definition md_key {LS} (m : V1Beta1.MeterDefinition LS) : NamespacedName :=
  mkNN (Namespace (V1Beta1.Meta m)) (Name (V1Beta1.Meta m)).

(** Nobody else writes, and what is read is what is stored; a write of a status
    changes nothing but the status, and a query nothing at all. *)
Class DefinitionStore (LS V API W : Type) `{!MeterDefCluster LS V W} `{!Prometheus API W} := {
  defs : W → gmap NamespacedName (V1Beta1.MeterDefinition LS);
  get_definition_law k w :
    match GetMeterDefinition k w with
    | Ok m => defs w !! k = Some m ∧ md_key m = k
    | Err e => e = IsNotFound → defs w !! k = None
    end;
  update_definition_law m w :
    match UpdateMeterDefinitionStatus m w with
    | (w', Ok new) => ∃ old, defs w !! md_key m = Some old ∧
        V1Beta1.Meta new = V1Beta1.Meta old ∧ V1Beta1.Spec new = V1Beta1.Spec old ∧
        V1Beta1.Status new = V1Beta1.Status m ∧ defs w' = <[md_key m := new]> (defs w)
    | (w', Err _) => defs w' = defs w
    end;
  update_base_law m w k : GetMeterBase k (UpdateMeterDefinitionStatus m w).1 = GetMeterBase k w;
  buildinfo_law api w : defs (Buildinfo (API := API) api w).1 = defs w;
  label_values_law api l ms a b w : defs (LabelValues (API := API) api l ms a b w).1 = defs w;
  query_law api q a b n w : defs (QueryRange (API := API) api q a b n w).1 = defs w
}.

(** ** Contracts of the steps *)

Section contracts.
Context {LS V API W Cert PubKey PrivKey J : Type} `{!ConflictRetry}
  `{!MeterDefCluster LS V W} `{!PrometheusResources W} `{!Prometheus API W}
  `{!DefinitionStore LS V API W} `{!Crypto Cert PubKey PrivKey J}.
Variable signerCACertificate : string.
Variable ToUnstructured : V1Beta1.MeterDefinition LS → result string (Unstructured J).
Variable error_text : ClientError → string.
Variable failure_text : QueryFailure → string.
Variable render : ResultQueryArgs → result string string.
Variable DeepEqual : list QResult → list QResult → bool.
Variable DeployedNamespace DeploymentNamespace : string.
Variable rate : Z.
Variable request : NamespacedName.
(** The definition and the other ones. *)
Variable meta : ObjectMeta.
Variable spec : V1Beta1.MeterDefinitionSpec LS.
Variable others : gmap NamespacedName (V1Beta1.MeterDefinition LS).
Hypothesis key : mkNN (Namespace meta) (Name meta) = request.

Notation State := (Reconciling LS API W).
Notation whatever := (λ _ : Conditions, True).

Definition same (m : V1Beta1.MeterDefinition LS) : Prop :=
  V1Beta1.Meta m = meta ∧ V1Beta1.Spec m = spec.

(** The definition is stored with conditions that satisfy [C], and the object at
    hand is one of it. *)
Definition stored (C : Conditions → Prop) (w : W) : Prop :=
  (∃ m, defs w !! request = Some m ∧ same m ∧ C (md_conditions m)) ∧
  (∀ k, k ≠ request → defs w !! k = others !! k).

Definition held (C : Conditions → Prop) (s : State) : Prop :=
  stored C (world s) ∧ same (instance s).
Definition heldi (C : Conditions → Prop) (s : State) : Prop :=
  held C s ∧ C (md_conditions (instance s)).
Definition fresh (C : Conditions → Prop) (s : State) : Prop :=
  held C s ∧ defs (world s) !! request = Some (instance s).

Lemma stored_eq C w w' : defs w' = defs w → stored C w → stored C w'.
Proof. unfold stored. by intros ->. Qed.

Lemma stored_weaken (C C' : Conditions → Prop) w :
  (∀ cs, C cs → C' cs) → stored C w → stored C' w.
Proof. intros HCC [(m & ? & ? & ?) ?]. split; [exists m; auto|done]. Qed.

Lemma same_key m : same m → md_key m = request.
Proof. intros [Hm _]. unfold md_key. by rewrite Hm. Qed.

Lemma get_instance_triple C : triple (held C) (get_instance request) (fresh C) (held C).
Proof.
  intros s [Hs Hi]. unfold get_instance. pose proof (get_definition_law request (world s)) as Hg.
  destruct (GetMeterDefinition request (world s)) as [m|e]; [|done]. destruct Hg as [Hg _].
  split; [split; [done|]|done]. destruct Hs as [(m' & Hm & Hsame & _) _].
  cbn. by replace m with m' by congruence.
Qed.

(** A write stores the status of the object at hand. *)
Lemma put_instance_triple (C0 C : Conditions → Prop) update :
  triple (λ s, held C0 s ∧ C (md_conditions (instance s)) ∧ (update = false → held C s))
    (put_instance update) (heldi C) (λ s, held C0 s ∧ C (md_conditions (instance s))).
Proof.
  intros s (Hs & HC & Hf). unfold put_instance. destruct update; [|split; auto].
  pose proof (update_definition_law (instance s) (world s)) as Hu.
  destruct Hs as [[(m & Hm & Hsame & HC0) Ho] Hi].
  destruct (UpdateMeterDefinitionStatus _ _) as [w' [new|e]].
  - destruct Hu as (old & Hold & Hmeta & Hspec & Hst & Hd). rewrite (same_key _ Hi) in *.
    replace old with m in * by congruence. destruct Hsame as [? ?].
    assert (Hnew : same new) by (split; congruence).
    assert (HCn : C (md_conditions new)) by (unfold md_conditions; by rewrite Hst).
    split; [|done]. split; [|done]. split; cbn; rewrite Hd.
    + exists new. by rewrite lookup_insert_eq.
    + intros k Hk. rewrite lookup_insert_ne by done. auto.
  - split; [|done]. split; [|done]. cbn. apply (stored_eq _ (world s)); [done|]. split; [by exists m|done].
Qed.

(** A change of what was just read. *)
Lemma change_fresh (C C' : Conditions → Prop) f :
  (∀ m now, same m → C (md_conditions m) → C' (f m now (md_conditions m)).2 ∧
     ((f m now (md_conditions m)).1 = false → C' (md_conditions m))) →
  triple (fresh C) (change f) (heldi C') (held C).
Proof.
  intros Hf s [[Hs Hi] Hm]. unfold change.
  assert (HC : C (md_conditions (instance s)))
    by (destruct Hs as [(m & Hm' & _ & ?) _]; congruence).
  specialize (Hf (instance s) (Now (world s)) Hi HC).
  destruct (f _ _ _) as [update cs]; cbn [fst snd] in Hf. destruct Hf as [HC' Hno].
  pose proof (put_instance_triple C C' update
    (with_instance (with_md_conditions cs (instance s)) s)) as Hp.
  destruct (put_instance update _) as [[s' [e|]]|]; cbn in Hp; apply Hp; split_and!; try done.
  all: intros Hu; split; [|done]; cbn; destruct Hs as [_ Ho]; split; [|done].
  all: exists (instance s); auto.
Qed.

(** A change of the object at hand that keeps what the conditions satisfy. *)
Lemma change_kept (C : Conditions → Prop) f :
  (∀ m now cs, C cs → C (f m now cs).2) → triple (heldi C) (change f) (heldi C) (heldi C).
Proof.
  intros Hf s [[Hs Hi] HC]. unfold change. specialize (Hf (instance s) (Now (world s)) _ HC).
  destruct (f _ _ _) as [update cs]; cbn [fst snd] in Hf.
  pose proof (put_instance_triple C C update
    (with_instance (with_md_conditions cs (instance s)) s)) as Hp.
  destruct (put_instance update _) as [[s' [e|]]|]; cbn in Hp; by apply Hp.
Qed.

Lemma put_results_kept (C : Conditions → Prop) update s :
  heldi C s → match put_instance update s with
              | Ret (s', _) => heldi C s'
              | Panic => False
              end.
Proof.
  intros [Hs HC]. pose proof (put_instance_triple C C update s) as Hp.
  destruct (put_instance update s) as [[s' [e|]]|]; by apply Hp.
Qed.

(** The signature is a matter of the specification and the metadata. *)
Hypothesis unstructured_same : ∀ m m', same m → same m' → ToUnstructured m = ToUnstructured m'.

Definition signature_of (m : V1Beta1.MeterDefinition LS) : Condition :=
  signature_condition (V1Beta1.IsSigned m) (ValidateSignature signerCACertificate ToUnstructured m).

Lemma signature_of_type m : Type_ (signature_of m) = MeterDefConditionTypeSignatureVerified.
Proof. unfold signature_of. by destruct (V1Beta1.IsSigned m), (ValidateSignature _ _ m). Qed.

Lemma signature_same m m' : same m → same m' → signature_of m = signature_of m'.
Proof.
  intros Hm Hm'. unfold signature_of, ValidateSignature, V1Beta1.IsSigned.
  rewrite (unstructured_same m m' Hm Hm'). destruct Hm as [-> _], Hm' as [-> _]. done.
Qed.

Lemma first_triple m :
  same m →
  triple (held whatever) (Controllers.Retry (first_closure signerCACertificate ToUnstructured request))
    (heldi (settled (signature_of m))) (held whatever).
Proof.
  intros Hm. apply triple_Retry, (triple_andthen _ (fresh whatever)); [apply get_instance_triple|].
  apply change_fresh. intros m' now Hm' _. rewrite (signature_same m m' Hm Hm').
  split; [apply first_conditions_signature|]. intros Hf.
  pose proof (first_conditions_signature (V1Beta1.IsSigned m')
    (ValidateSignature signerCACertificate ToUnstructured m')
    (WorkloadResources (V1Beta1.Status m')) now (md_conditions m')) as Hs.
  unfold first_conditions in *. rewrite or_else_set in Hf, Hs. unfold signature_of.
  destruct (SetCondition now (md_conditions m') (signature_condition _ _)) as [[] l] eqn:He;
    cbn [fst] in *; [discriminate|]. apply (settled_unchanged now). rewrite He.
  f_equal. pose proof (SetCondition_unchanged now (md_conditions m') _ (f_equal fst He)) as [Hx _].
  by rewrite He in Hx.
Qed.

Lemma reporting_triple S isReporting err :
  Type_ S = MeterDefConditionTypeSignatureVerified →
  triple (held (settled S)) (Controllers.Retry (reporting_closure request isReporting err))
    (heldi (λ cs, settled S cs ∧ settled (reporting_condition isReporting) cs))
    (held (settled S)).
Proof.
  intros HS. apply triple_Retry, (triple_andthen _ (fresh (settled S)));
    [apply get_instance_triple|].
  assert (Hc : triple (fresh (settled S))
    (change (λ _ now cs, reporting_conditions isReporting err now cs))
    (heldi (λ cs, settled S cs ∧ settled (reporting_condition isReporting) cs))
    (held (settled S))).
  { apply change_fresh. intros m now _ Hm. split.
    - split; [|apply reporting_conditions_settled].
      apply reporting_conditions_ne; [by rewrite HS..|done].
    - intros Hf%reporting_conditions_unchanged. done. }
  intros s Hs. destruct err; [apply (Hc (set_requeue true s)), Hs|by apply Hc].
Qed.

(** ** What the queries leave *)

(** What is known of a reconciliation does not depend on the clients it keeps. *)
Lemma heldi_queried C s w (a : gmap string (option API)) :
  defs w = defs (world s) → heldi C s → heldi C (with_apis a (with_world w s)).
Proof.
  intros Hw [[Hs Hi] HC]. split; [|done]. split; [|done]. by apply (stored_eq _ (world s)).
Qed.

Lemma Get_defs apiType a w :
  defs (Get error_text DeploymentNamespace apiType a w : W * (_ * result string API)).1 = defs w.
Proof.
  unfold Get. destruct (a !! apiType) as [[api|]|]; [|done|].
  - pose proof (buildinfo_law api w). by destruct (Buildinfo api w) as [w' [e|]].
  - destruct (set _ _ _ _ _) as [a' [e|]]; [done|]. by destruct (a' !! apiType) as [[]|].
Qed.

(** Prometheus was asked for the definitions of the last hour, and this one was among
    them or not. *)
Definition asked (isReporting : bool) : Prop :=
  ∃ (api : API) w0 w1 values,
    LabelValues api "meter_def_name" [] (GoTime.Add (Clock w0) (- Hour)%Z) (Clock w0) w0 =
      (w1, Ok values) ∧
    (isReporting = true ↔ Name meta ∈ values).

Lemma verifyReporting_held C s :
  heldi C s →
  let '(s', (isReporting, err)) :=
    verifyReporting error_text failure_text DeploymentNamespace true s in
  heldi C s' ∧ match err with Some _ => isReporting = false | None => asked isReporting end.
Proof.
  intros Hs. unfold verifyReporting, MeterDefLabelValues.
  pose proof (Get_defs (GetAPITypeFromFlag true) (apis s) (world s)) as Hd.
  destruct (Get _ _ _ _ _) as [w [a [api|e]]]; cbn [fst] in Hd;
    [|split; [by apply heldi_queried|done]].
  pose proof (label_values_law api "meter_def_name" [] (GoTime.Add (Clock w) (- Hour)%Z) (Clock w) w) as Hl.
  destruct (LabelValues api _ _ _ _ w) as [w' [values|e]] eqn:Hv; cbn [fst] in Hl.
  all: split; [apply (heldi_queried C s w' a); [congruence|done]|].
  2: done.
  exists api, w, w', values. split; [done|]. rewrite existsb_True_exists.
  destruct Hs as [[_ [Hm _]] _]. cbn [instance with_apis]. rewrite Hm.
  setoid_rewrite bool_decide_eq_true. split; [by intros (x & Hx & <-)|]. by exists (Name meta).
Qed.

(** A query of a supported type is answered, and leaves the definitions. *)
Lemma preview_query_total api query w :
  supported (QType query) →
  ∃ w' r, preview_query failure_text render api query w = Ret (w', r) ∧ defs w' = defs w.
Proof.
  intros Hs. unfold preview_query. cbv zeta. match goal with |- context [Helpers.Retry ?f] => set (f' := f) end.
  set (P := λ o : outcome (W * PromQuery),
    ∃ w' q', o = Ret (w', q') ∧ supported (QType q') ∧ defs w' = defs w).
  assert (HQ : let '((o, val), e) := Helpers.Retry f' 2 (Ret (w, query), None) in
    P o ∧ (e = None → is_Some val)).
  { apply (Retry_invariant f' (λ '(o, _), P o)
      (λ '((o, val), e), P o ∧ (e = None → is_Some val)) 2).
    - intros [o val] (w1 & q1 & -> & Hs1 & Hd). unfold f'.
      destruct (ReportQuery_on_total render api q1 w1 Hs1) as (w2 & r & q2 & -> & Ht & Hw).
      assert (HP : P (Ret (w2, q2))).
      { exists w2, q2. rewrite Ht. split_and!; [done..|].
        destruct Hw as [->|(t & a & b & n & ->)]; [done|]. by rewrite query_law. }
      destruct r; (split; [done|]); [by eauto|intros Hx; discriminate Hx].
    - intros [o val] e [HP _]. done.
    - by exists w, query. }
  destruct (Helpers.Retry f' 2 _) as [[o val] e]. destruct HQ as [(w' & q' & -> & _ & Hd) Hv].
  destruct e as [e|].
  - destruct val; eexists _, _; (split; [reflexivity|done]).
  - destruct (Hv eq_refl) as [v ->]. eexists _, _; (split; [reflexivity|done]).
Qed.

(** A meter whose preview can be made. *)
Definition previewable (l : MeterDefPrometheusLabels) : Prop :=
  is_Some (PL.MetricPeriod l) ∧ supported (PL.WorkloadType l).

Lemma from_labels_total l a b :
  supported (PL.WorkloadType l) →
  ∃ q, PromQueryFromLabels l a b = Ret q ∧ QType q = PL.WorkloadType l.
Proof.
  intros Hs. unfold PromQueryFromLabels, from_labels, NewPromQuery, defaulter; cbn [QType].
  unfold supported in Hs.
  repeat (apply elem_of_cons in Hs as [Hs|Hs]; [rewrite Hs; eexists; split; reflexivity|]).
  by apply elem_of_nil in Hs.
Qed.

Lemma preview_loop_total api labels w :
  Forall previewable labels →
  ∃ w' r, preview_loop failure_text render api labels w = Ret (w', r) ∧ defs w' = defs w.
Proof.
  revert w; induction labels as [|l labels IH]; intros w; cbn [preview_loop]; [by eauto|].
  intros [[[d Hd] Hs] Hl]%Forall_cons. rewrite Hd. cbn [mbind outcome_mbind].
  destruct (returnQueryRange (Clock w) d) as [a b].
  destruct (from_labels_total l a b Hs) as (q & -> & Hq). cbn [mbind outcome_mbind].
  unfold Print. rewrite <- Hq in Hs. destruct (GetQueryArgs_total q Hs) as (x & q' & -> & Hq').
  cbn [mbind outcome_mbind]. destruct (render x) as [text|e]; [|by eauto].
  rewrite <- Hq' in Hs. destruct (preview_query_total api q' w Hs) as (w1 & r & -> & Hw1).
  cbn [mbind outcome_mbind]. destruct r as [val|e]; [|by eauto].
  destruct (IH w1 Hl) as (w2 & r2 & -> & Hw2). cbn [mbind outcome_mbind].
  eexists _, _; split; [done|congruence].
Qed.

Lemma queryPreview_held C s :
  Forall previewable (V1Beta1.ToPrometheusLabels (instance s)) → heldi C s →
  ∃ s' r, queryPreview error_text failure_text render DeploymentNamespace true s = Ret (s', r) ∧
    heldi C s'.
Proof.
  intros Hp Hs. unfold queryPreview, generateQueryPreview.
  pose proof (Get_defs (GetAPITypeFromFlag true) (apis s) (world s)) as Hd.
  destruct (Get _ _ _ _ _) as [w [a [api|e]]]; cbn [fst] in Hd.
  - destruct (preview_loop_total api _ w Hp) as (w' & r & -> & Hw'). cbn.
    eexists _, _; split; [done|]. apply heldi_queried; [congruence|done].
  - eexists _, _; split; [done|]. by apply heldi_queried.
Qed.

Lemma preview_triple (C : Conditions → Prop) preview :
  (∀ t c cs, C cs → Type_ c = MeterDefQueryPreviewSetupError → C (SetCondition t cs c).2) →
  (∀ cs, C cs → C (RemoveFrom cs MeterDefQueryPreviewSetupError).2) →
  triple (heldi C) (Controllers.Retry (preview_closure DeepEqual preview)) (heldi C) (heldi C).
Proof.
  intros Hset Hrem. apply triple_Retry. intros s Hs. unfold preview_closure.
  destruct preview as [[|r rs]|e].
  - pose proof (put_results_kept C false s Hs) as Hp. by destruct (put_instance false s) as [[? []]|].
  - pose proof Hs as [[Hst Hi] HC]. apply Hrem in HC.
    destruct (RemoveFrom _ _) as [update cs]; cbn [snd] in HC.
    assert (Hput : ∀ u rs', let m := with_md_results rs' (with_md_conditions cs (instance s)) in
      match put_instance u (with_instance m s) with
      | Ret (s', None) => heldi C s' | Ret (s', Some _) => heldi C s' | Panic => False end).
    { intros u rs' m. pose proof (put_results_kept C u (with_instance m s)) as Hp.
      destruct (put_instance u _) as [[? []]|]; by apply Hp. }
    destruct (DeepEqual _ _); [apply (Hput _ (Results (V1Beta1.Status (instance s))))|apply Hput].
  - apply (change_kept C); [|done]. intros _ now cs HC. unfold or_else. cbn [fst snd]. by apply Hset.
Qed.

Notation base_is b :=
  (λ s : State, GetMeterBase (meterbase_key DeployedNamespace) (world s) = b).

(** The first update leaves the meter base. *)
Lemma first_base b :
  triple (base_is b) (Controllers.Retry (first_closure signerCACertificate ToUnstructured request))
    (base_is b) (base_is b).
Proof.
  apply triple_Retry, (triple_andthen _ (base_is b)).
  - intros s Hs. unfold get_instance. by destruct (GetMeterDefinition request (world s)).
  - intros s Hs. unfold change. destruct (first_conditions _ _ _ _ _) as [[] cs]; cbn; [|done].
    match goal with |- context [UpdateMeterDefinitionStatus ?m ?w] =>
      pose proof (update_base_law m w (meterbase_key DeployedNamespace)) as Hb;
      destruct (UpdateMeterDefinitionStatus m w) as [w' [new|e]] end; cbn in *; congruence.
Qed.

(** What a run that ends with [err] left of the definition, when it was to run again
    [after] some time, and was asked about [watched] workloads. *)
Definition settled_run (S : Condition) (watched : bool) (w' : W) (after : Z)
    (err : option ClientError) : Prop :=
  match err with
  | Some _ => stored whatever w'
  | None =>
      (after = rate ∨ after = minutes 5) ∧
      stored (λ cs, settled S cs ∧ (watched = true → ∃ b,
        settled (reporting_condition b) cs ∧ (b = true → asked true))) w'
  end.

Lemma report_and_preview_run S s :
  Type_ S = MeterDefConditionTypeSignatureVerified →
  (∀ m, same m → Forall previewable (V1Beta1.ToPrometheusLabels m)) →
  heldi (settled S) s →
  match report_and_preview error_text failure_text render DeepEqual DeploymentNamespace
          rate request s with
  | Panic => False
  | Ret (s', (after, err)) => settled_run S true (world s') after err
  end.
Proof.
  intros HS Hp Hs. unfold report_and_preview.
  pose proof (verifyReporting_held _ s Hs) as Hv.
  destruct (verifyReporting _ _ _ _ s) as [s1 [b err]]. destruct Hv as [Hs1 Hb].
  assert (Ha : b = true → asked true) by (intros ->; by destruct err).
  pose proof (reporting_triple S b err HS s1 (proj1 Hs1)) as Hr.
  set (C := λ cs, settled S cs ∧ settled (reporting_condition b) cs) in *.
  assert (Hfin : ∀ s, heldi C s → stored (λ cs, settled S cs ∧ (true = true → ∃ b,
      settled (reporting_condition b) cs ∧ (b = true → asked true))) (world s)).
  { intros s' [[Hst _] _]. revert Hst. apply stored_weaken. intros cs [H1 H2]. eauto. }
  destruct (Controllers.Retry (reporting_closure _ _ _) s1) as [[s2 [e|]]|]; cbn; [|..|done].
  { destruct Hr as [Hst _]. by revert Hst; apply stored_weaken. }
  destruct (requeue s2); cbn; [split; [by left|by apply Hfin]|].
  destruct (queryPreview_held C s2 (Hp _ (proj2 (proj1 Hr))) Hr) as (s3 & r & -> & Hs3). cbn.
  pose proof (preview_triple C r) as Ht.
  specialize (Ht (λ t c cs HC Hc, ltac:(split; (apply settled_Set_ne; [rewrite Hc|apply HC]);
    [by rewrite HS|by destruct b]))).
  specialize (Ht (λ cs HC, ltac:(split; (apply settled_remove_ne; [|apply HC]);
    [by rewrite HS|by destruct b])) s3 Hs3).
  destruct (Controllers.Retry (preview_closure _ r) s3) as [[s4 [e|]]|]; cbn; [|..|done].
  - destruct Ht as [[Hst _] _]. by revert Hst; apply stored_weaken.
  - split; [destruct (requeue s4); auto|by apply Hfin].
Qed.
End contracts.

(** ** Properties *)

Section properties.
Context {LS V API W Cert PubKey PrivKey J : Type} `{!ConflictRetry}
  `{!MeterDefCluster LS V W} `{!PrometheusResources W} `{!Prometheus API W}
  `{!DefinitionStore LS V API W} `{!Crypto Cert PubKey PrivKey J}.
Variable signerCACertificate : string.
Variable ToUnstructured : V1Beta1.MeterDefinition LS → result string (Unstructured J).
Variable error_text : ClientError → string.
Variable failure_text : QueryFailure → string.
Variable render : ResultQueryArgs → result string string.
Variable DeepEqual : list QResult → list QResult → bool.
Variable DeployedNamespace DeploymentNamespace : string.
Variable rate : Z.
Variable request : NamespacedName.

(** Whether Prometheus watches the workloads of users. *)
Definition watched (w : W) : bool :=
  match GetMeterBase (meterbase_key DeployedNamespace) w with
  | Ok mb => IsTrueFor (default [] (MBConditions mb)) ConditionUserWorkloadMonitoringEnabled
  | Err _ => false
  end.

(** What a reconciliation leaves of a stored definition. *)
Lemma Reconcile_run (a : gmap string (option API)) (w : W) (m : V1Beta1.MeterDefinition LS) :
  (∀ m1 m2, V1Beta1.Meta m1 = V1Beta1.Meta m2 → V1Beta1.Spec m1 = V1Beta1.Spec m2 →
     ToUnstructured m1 = ToUnstructured m2) →
  defs w !! request = Some m → Forall previewable (V1Beta1.ToPrometheusLabels m) →
  match Reconcile signerCACertificate ToUnstructured error_text failure_text render DeepEqual
          DeployedNamespace DeploymentNamespace rate request a w with
  | Panic => False
  | Ret (w', _, (after, err)) =>
      settled_run (V := V) (API := API) rate request (V1Beta1.Meta m) (V1Beta1.Spec m) (defs w)
        (signature_of signerCACertificate ToUnstructured m) (watched w) w' after err
  end.
Proof.
  intros Hu Hm Hp.
  set (Sig := signature_of signerCACertificate ToUnstructured m).
  assert (Hst : stored (V := V) request (V1Beta1.Meta m) (V1Beta1.Spec m) (defs w)
    (λ _, True) w) by (split; [by exists m|done]).
  unfold Reconcile. pose proof (get_definition_law request w) as Hg.
  destruct (GetMeterDefinition request w) as [m0|e].
  2: { destruct e; [exact Hst|by rewrite (Hg eq_refl) in Hm|exact Hst..]. }
  destruct Hg as [Hm0 Hk]. replace m0 with m in * by congruence. clear Hm0.
  assert (Hsame : ∀ m1 m2, same (V1Beta1.Meta m) (V1Beta1.Spec m) m1 →
    same (V1Beta1.Meta m) (V1Beta1.Spec m) m2 → ToUnstructured m1 = ToUnstructured m2)
    by (intros m1 m2 [H1 H2] [H3 H4]; apply Hu; congruence).
  pose proof (first_triple signerCACertificate ToUnstructured request _ _ (defs w) Hk Hsame m
    (conj eq_refl eq_refl) (mkReconciling w m a false) (conj Hst (conj eq_refl eq_refl))) as Hf.
  pose proof (first_base (API := API) signerCACertificate ToUnstructured DeployedNamespace request
    _ (mkReconciling w m a false) eq_refl) as Hb. cbn [world] in Hb.
  destruct (Controllers.Retry _ (mkReconciling w m a false)) as [[s [e|]]|]; cbn; [apply Hf|..|done].
  assert (Hany : settled_run (V := V) (API := API) rate request (V1Beta1.Meta m) (V1Beta1.Spec m)
    (defs w) Sig false (world s) rate None).
  { split; [by left|]. destruct Hf as [[Hst' _] _]. revert Hst'. apply stored_weaken.
    intros cs HC. split; [exact HC|intros Hx; discriminate Hx]. }
  unfold with_meterbase, watched. rewrite Hb.
  destruct (GetMeterBase _ w) as [mb|e].
  2: { destruct e; [|exact Hany|..]; destruct Hany as [_ Hst']; revert Hst'; by apply stored_weaken. }
  destruct (IsTrueFor _ _) eqn:Hw; cbn.
  - pose proof (report_and_preview_run error_text failure_text render DeepEqual
      DeploymentNamespace rate request (V1Beta1.Meta m) (V1Beta1.Spec m) (defs w) Hk Sig s) as Hr.
    specialize (Hr (signature_of_type _ _ _)).
    destruct (report_and_preview _ _ _ _ _ _ _ s) as [[s' [after err]]|]; cbn; apply Hr; try done.
    all: intros m1 [Hm1 Hs1]; unfold V1Beta1.ToPrometheusLabels; by rewrite Hm1, Hs1.
  - exact Hany.
Qed.

(** C18: a reconciliation of a stored definition, whose meters have a period
    and a supported type, does not panic and changes nothing but the status of that
    definition. When it ends without an error it runs again, after the configured
    time or five minutes; the status then says of the signature what a verification
    says, and, when Prometheus watches the workloads of users, it says whether the
    definition is reported on: that it is only when Prometheus has just named it. *)
Theorem Reconcile_status (a : gmap string (option API)) (w : W)
    (m : V1Beta1.MeterDefinition LS) :
  (∀ m1 m2, V1Beta1.Meta m1 = V1Beta1.Meta m2 → V1Beta1.Spec m1 = V1Beta1.Spec m2 →
     ToUnstructured m1 = ToUnstructured m2) →
  defs w !! request = Some m → Forall previewable (V1Beta1.ToPrometheusLabels m) →
  match Reconcile signerCACertificate ToUnstructured error_text failure_text render DeepEqual
          DeployedNamespace DeploymentNamespace rate request a w with
  | Panic => False
  | Ret (w', _, (after, err)) =>
      (∀ k, k ≠ request → defs w' !! k = defs w !! k) ∧
      ∃ m', defs w' !! request = Some m' ∧ V1Beta1.Meta m' = V1Beta1.Meta m ∧
        V1Beta1.Spec m' = V1Beta1.Spec m ∧
        (err = None →
           (after = rate ∨ after = minutes 5) ∧
           settled (signature_of signerCACertificate ToUnstructured m) (md_conditions m') ∧
           (watched w = true → ∃ b, settled (reporting_condition b) (md_conditions m') ∧
              (b = true → asked (API := API) (V := V) (V1Beta1.Meta m) true)))
  end.
Proof.
  intros Hu Hm Hp. pose proof (Reconcile_run a w m Hu Hm Hp) as Hrun.
  destruct (Reconcile _ _ _ _ _ _ _ _ _ _ _ _) as [[[w' a'] [after err]]|]; [|done].
  destruct err as [e|]; cbn in Hrun.
  - destruct Hrun as [(m' & Hm' & [H1 H2] & _) Ho]. split; [done|]. by exists m'.
  - destruct Hrun as [Haft [(m' & Hm' & [H1 H2] & HC) Ho]]. split; [done|].
    exists m'. split_and!; [done..|]. intros _. split; [done|]. apply HC.
Qed.
End properties.

(** A preview needs the period of each meter, which is optional: without one it
    panics, whatever the cluster answers. *)
Theorem preview_without_period {LS V API W} `{!MeterDefCluster LS V W} `{!Prometheus API W}
    (failure_text : QueryFailure → string) (render : ResultQueryArgs → result string string)
    (api : API) (l : MeterDefPrometheusLabels) (labels : list MeterDefPrometheusLabels) (w : W) :
  PL.MetricPeriod l = None →
  preview_loop (V := V) failure_text render api (l :: labels) w = Panic.
Proof. intros Hl. cbn [preview_loop]. by rewrite Hl. Qed.

(** A preview whose write meets a conflict is lost: the second try compares the
    results with the object that already holds them, and ends without an error and
    without having written anything. *)
Theorem preview_conflict_lost {LS V API W} `{!MeterDefCluster LS V W}
    (DeepEqual : list QResult → list QResult → bool) (results : list QResult)
    (s : Reconciling LS API W) (w1 : W) :
  results ≠ [] → DeepEqual results results = true →
  DeepEqual results (Results (V1Beta1.Status (instance s))) = false →
  (RemoveFrom (md_conditions (instance s)) MeterDefQueryPreviewSetupError).1 = false →
  (∀ m, UpdateMeterDefinitionStatus (V := V) m (world s) = (w1, Err Conflict)) →
  ∃ s', Controllers.Retry (preview_closure (V := V) DeepEqual (Ok results)) s = Ret (s', None) ∧
    world s' = w1.
Proof.
  intros Hne Hrefl Hdiff Hrem Hconf. destruct results as [|r rs]; [done|].
  assert (Hcs : ∀ l t, (remove_loop l t).1 = false → remove_loop l t = (false, l)).
  { induction l as [|c l IH]; intros t; cbn; [done|]. case_bool_decide; cbn; [discriminate|].
    specialize (IH t). destruct (remove_loop l t); cbn in *. intros Hb. by injection (IH Hb) as -> ->. }
  assert (Hr : RemoveFrom (md_conditions (instance s)) MeterDefQueryPreviewSetupError =
    (false, md_conditions (instance s))) by (by apply Hcs).
  assert (Hlist : ∀ m : V1Beta1.MeterDefinition LS, with_md_conditions (md_conditions m) m = m)
    by (by intros [? ? []]).
  set (s1 := with_world w1 (with_instance (with_md_results (r :: rs) (instance s)) s)).
  assert (H1 : preview_closure (V := V) DeepEqual (Ok (r :: rs)) s = Ret (s1, Some Conflict)).
  { unfold preview_closure. rewrite Hr, Hlist, Hdiff. unfold put_instance; cbn. by rewrite Hconf. }
  assert (H2 : preview_closure (V := V) DeepEqual (Ok (r :: rs)) s1 = Ret (s1, None)).
  { unfold preview_closure. change (md_conditions (instance s1)) with (md_conditions (instance s)).
    rewrite Hr. change (md_conditions (instance s)) with (md_conditions (instance s1)).
    rewrite Hlist. unfold s1 at 1; cbn [instance with_world with_instance]. cbn.
    by rewrite Hrefl. }
  exists s1. split; [|done]. unfold Controllers.Retry, RetryOnConflict, five_attempts.
  cbn [attempts panicking]. rewrite H1. cbn [panicking]. by rewrite H2.
Qed.

(** ** A concrete cluster *)

(** One definition, a meter base that watches the workloads of users, and a
    Prometheus that reports on the definition [md]. *)
Notation OneDefinition := (option (V1Beta1.MeterDefinition unit)).

Definition toy_meterbase : MeterBase unit :=
  mkMeterBase (named "rhm" METERBASE_NAME ∅)
    (mkMeterBaseSpec false None None None None None None None)
    (Some [cond ConditionUserWorkloadMonitoringEnabled ConditionTrue "" ""]).

Definition toy_update (m : V1Beta1.MeterDefinition unit) (w : OneDefinition)
    : OneDefinition * result ClientError (V1Beta1.MeterDefinition unit) :=
  match w with
  | None => (w, Err IsNotFound)
  | Some old =>
      if md_key old == md_key m
      then let new := V1Beta1.mkMeterDefinition unit (V1Beta1.Meta old) (V1Beta1.Spec old)
                        (V1Beta1.Status m) in (Some new, Ok new)
      else (w, Err IsNotFound)
  end.

#[local] Instance one_definition : MeterDefCluster unit unit OneDefinition := {|
  Now _ := 7%Z;
  Clock _ := mkTime (90 * 60 * second)%Z 0%Z;
  GetMeterDefinition k w := lookup_result (singleton_by md_key w !! k);
  UpdateMeterDefinitionStatus := toy_update;
  GetMeterBase _ _ := Ok toy_meterbase
|}.

#[local] Instance one_resources : PrometheusResources OneDefinition := {|
  GetService k _ := Ok (mkService (NNName k) (NNNamespace k) [mkPort "web" 9091%Z]);
  GetConfigMap _ _ := Ok {[ "service-ca.crt" := "ca" ]};
  ReadFile _ _ := Ok "token"
|}.

#[local] Instance one_prometheus : Prometheus string OneDefinition := {|
  NewSecureClientFromCert address _ _ := Ok (Some address);
  Buildinfo _ w := (w, None);
  LabelValues _ _ _ _ _ w := (w, Ok ["other"; "md"]);
  QueryRange _ _ _ _ _ w := (w, Ok (ValMatrix [mkSeries ∅ [mkSample 3600000%Z "2"]]))
|}.

#[local, refine] Instance one_store : DefinitionStore unit unit string OneDefinition := {|
  defs := singleton_by md_key
|}.
Proof.
  - intros k w. cbn. pose proof (lookup_result_law (singleton_by md_key w !! k)) as Hl.
    destruct (lookup_result _); [|done]. split; [done|]. by apply singleton_by_lookup in Hl as [_ ?].
  - intros m [old|]; cbn [UpdateMeterDefinitionStatus one_definition toy_update]; [|done].
    case_bool_decide as Hk; [|done].
    exists old. split_and!; [by apply (singleton_by_lookup md_key)|done..|].
    by apply (singleton_by_insert md_key).
  - done.
  - done.
  - done.
  - done.
Defined.

#[local] Existing Instance toy_crypto.

Definition toy_meter : V1Beta1.MeterWorkload :=
  V1Beta1.mkMeterWorkload "cpu" "cpu" "" WorkloadTypePod "" [] [] "sum" (Some Hour) "q" "" "" "" "".
Definition toy_md : V1Beta1.MeterDefinition unit :=
  V1Beta1.mkMeterDefinition unit (named "ns" "md" ∅)
    (V1Beta1.mkSpec unit "g" "k" [] [toy_meter] None) (mkMeterDefinitionStatus [] [] []).

Definition toy_tree (m : V1Beta1.MeterDefinition unit) : result string (Unstructured string) :=
  Ok (mkU (mkGVK "marketplace.redhat.com/v1beta1" "MeterDefinition") ∅ None None).
Definition toy_failure (e : QueryFailure) : string := "".
Definition toy_render (a : ResultQueryArgs) : result string string := Ok (AMeterName a).

Definition toy_reconcile (w : OneDefinition) :=
  Reconcile (V := unit) "ca" toy_tree (λ _, "") toy_failure toy_render (λ a b, false) "rhm" "rhm"
    Hour (mkNN "ns" "md") (∅ : gmap string (option string)) w.

(** The run ends well, the definition is reported on, and the preview holds the value
    of the series at its second. *)
Lemma toy_reconcile_runs :
  match toy_reconcile (Some toy_md) with
  | Ret (Some m, _, answer) =>
      answer = (Hour, None) ∧
      IsTrueFor (md_conditions m) MeterDefConditionTypeReporting = true ∧
      Results (V1Beta1.Status m) =
        [mkQResult "cpu" "meterdef_pod_info" [mkResultValues 3600 "2" ∅]]
  | _ => False
  end.
Proof. vm_compute. split_and!; reflexivity. Qed.

Lemma toy_md_stored : defs (Some toy_md) !! mkNN "ns" "md" = Some toy_md.
Proof. by apply (singleton_by_lookup md_key). Qed.

Lemma toy_md_previewable : Forall previewable (V1Beta1.ToPrometheusLabels toy_md).
Proof. apply Forall_singleton. split; [by eexists|]. apply (bool_decide_unpack _). vm_compute. exact I. Qed.

Lemma Reconcile_status_witness :
  defs (Some toy_md) !! mkNN "ns" "md" = Some toy_md ∧
  ∃ w' a' answer m', toy_reconcile (Some toy_md) = Ret (w', a', answer) ∧
    defs w' !! mkNN "ns" "md" = Some m' ∧ V1Beta1.Spec m' = V1Beta1.Spec toy_md ∧
    (answer.2 = None → settled MeterDefConditionSignatureUnverified (md_conditions m')).
Proof.
  split; [exact toy_md_stored|].
  pose proof (Reconcile_status (V := unit) "ca" toy_tree (λ _, "") toy_failure toy_render
    (λ a b, false) "rhm" "rhm" Hour (mkNN "ns" "md") ∅ (Some toy_md) toy_md
    (λ _ _ _ _, eq_refl) toy_md_stored toy_md_previewable) as H.
  fold (toy_reconcile (Some toy_md)) in H.
  destruct (toy_reconcile (Some toy_md)) as [[[w' a'] [after err]]|]; [|destruct H].
  destruct H as (_ & m' & Hm & _ & Hs & Hok).
  exists w', a', (after, err), m'. split_and!; [reflexivity|exact Hm|exact Hs|].
  intros He. exact (proj1 (proj2 (Hok He))).
Defined.
