(* ===== verification/MarketplaceClient.v ===== *)
(** * The marketplace client

    The model of [v2/pkg/marketplace/marketplace_client.go]: which endpoint a token
    talks to, the query for the account behind it, and what the status of a
    registration says. HTTP, URLs, JSON and JWT are arguments. *)

From S2P Require Import Prelude Strconv Conditions PromQuery Secrets Controllers.
Local Open Scope go_scope.

Definition ProductionURL : string := "https://swc.saas.ibm.com".
Definition StageURL : string := "https://sandbox.swc.saas.ibm.com".
Definition AccountsEndpoint : string := "account/api/v2/accounts".
Definition EnvStage : string := "stage".
Definition ConditionRegistered : string := "Registered".

(** ** The client *)

Record MarketplaceClientBuilder := mkBuilder { Url : string; Insecure : bool }.

(** Of a URL, its path and its query; [Rest] is all else. *)
Record URL {R : Type} := mkURL { Rest : R; Path : string; RawQuery : string }.
Arguments URL : clear implicits.
Arguments mkURL {R}.

(** The endpoint, and the header its requests carry. *)
Record MarketplaceClient {R : Type} := mkClient {
  endpoint : URL R; authorization : string; skipVerify : bool
}.
Arguments MarketplaceClient : clear implicits.
Arguments mkClient {R}.

Record Response := mkResponse {
  StatusCode : Z; ResponseStatus : string; Body : result string string
}.

(** The configuration holds an address that overrides the production one. *)
Definition NewMarketplaceClientBuilder (cfgURL : string) (InsecureClient : bool)
    : MarketplaceClientBuilder :=
  mkBuilder (if cfgURL != "" then cfgURL else ProductionURL) InsecureClient.

(** [WithBearerAuth]: the header of every request. *)
Definition WithBearerAuth (token : string) : string := "Bearer " +:+ token.

Section client.
Context {R : Type}.
(** The pool of certificates of the system, the parser of a URL, the query of a URL
    as a map and back, and a request. *)
Variable SystemCertPool : option string.
Variable ParseURL : string → result string (URL R).
Variable ParseQuery : string → gmap string (list string).
Variable Encode : gmap string (list string) → string.
Variable HttpGet : string → URL R → result string Response.
Variable Unmarshal : string → result string (list string).

(** The claims of a token name the stage, in whatever case. *)
Definition names_stage (tokenClaims : option MarketplaceClaims) : bool :=
  match tokenClaims with
  | Some claims => ToLower (Env claims) == ToLower EnvStage
  | None => false
  end.

Definition NewMarketplaceClient (b : MarketplaceClientBuilder) (token : string)
    (tokenClaims : option MarketplaceClaims) : result string (MarketplaceClient R) :=
  let marketplaceURL :=
    if (Url b == ProductionURL) && names_stage tokenClaims then StageURL else Url b in
  match SystemCertPool with
  | Some e => Err ("failed to get cert pool: " +:+ e)
  | None =>
      if token == "" then Err "transport is empty for production" else
      match ParseURL marketplaceURL with
      | Err e => Err ("failed to parse url: " +:+ e)
      | Ok u => Ok (mkClient u (WithBearerAuth token) (Insecure b))
      end
  end.

(** The arguments in pairs of a key and a value; an odd number is an error. *)
Fixpoint set_args (q : gmap string (list string)) (args : list string)
    : option (gmap string (list string)) :=
  match args with
  | [] => Some q
  | [_] => None
  | k :: v :: args => set_args (<[k := [v]]> q) args
  end.

Definition buildQuery (u : URL R) (path : string) (args : list string) : result string (URL R) :=
  match set_args (ParseQuery (RawQuery u)) args with
  | None => Err "query args are not divisible by 2"
  | Some q =>
      Ok (mkURL (Rest u) path (match args with [] => RawQuery u | _ => Encode q end))
  end.

(** Whether the token's owner has an account: the answer lists the accounts. *)
Definition RhmAccountExists (m : MarketplaceClient R) : result string bool :=
  u ← buildQuery (endpoint m) AccountsEndpoint [];
  resp ← HttpGet (authorization m) u;
  if (300 <=? StatusCode resp)%Z || (StatusCode resp <? 200)%Z
  then Err ("request not successful: " +:+ ResponseStatus resp)
  else
    respBodyBytes ← Body resp;
    match Unmarshal respBodyBytes with
    | Err e => Err ("failed to unmarshal accountsResults: " +:+ e)
    | Ok OMAccounts => Ok (0 <? length OMAccounts)%nat
    end.
End client.

(** ** Registrations *)

Record RegisteredAccount := mkAccount {
  Id : string; RAccountId : string; Uuid : string; RStatus : string
}.

Record RegistrationStatusOutput := mkOutput {
  OStatusCode : Z;
  Registration : option RegisteredAccount;
  RegistrationStatus : string
}.

(** A list that cannot be read is no error. *)
Definition getRegistrations (Unmarshal : string → option (list RegisteredAccount))
    (jsonString : string) : list RegisteredAccount * option string :=
  match Unmarshal jsonString with Some l => (l, None) | None => ([], None) end.

Definition registered (status reason message : string) : Condition :=
  mkCondition ConditionRegistered status reason message 0%Z.

Definition TransformConfigStatus (StatusText : Z → string) (now : Z)
    (resp : RegistrationStatusOutput) : Conditions :=
  let conditions := NewConditions now
    [registered ConditionFalse "ClusterNotRegistered" "Cluster is not registered"] in
  if (200 <=? OStatusCode resp)%Z && (OStatusCode resp <? 300)%Z then
    if RegistrationStatus resp == "INSTALLED" then
      (SetCondition now conditions
         (registered ConditionTrue "ClusterRegistered" "Cluster Registered Successfully")).2
    else
      (SetCondition now conditions
         (registered ConditionFalse "ClusterRegistered"
            ("Cluster registration pending: " +:+ RegistrationStatus resp))).2
  else if OStatusCode resp != 0%Z then
    (SetCondition now conditions
       (registered ConditionFalse "HttpError"
          ("registration failed: " +:+ StatusText (OStatusCode resp)))).2
  else conditions.

(** A token has three segments, of which the parser leaves the last to the caller. *)
Definition GetJWTTokenClaim
    (ParseUnverified : string → result string (MarketplaceClaims * list string))
    (DecodeSegment : string → option string) (jwtToken : string)
    : result string MarketplaceClaims :=
  '(claims, parts) ← ParseUnverified jwtToken;
  match parts with
  | [_; _; signature] =>
      match DecodeSegment signature with Some e => Err e | None => Ok claims end
  | _ => Err "token contains an invalid number of segments"
  end.

(** ** Properties *)

(** A status of a registration is one condition, whatever the answer; it is true
    exactly for a successful answer that says installed. *)
Theorem TransformConfigStatus_spec (StatusText : Z → string) (now : Z)
    (resp : RegistrationStatusOutput) :
  ∃ c, TransformConfigStatus StatusText now resp = [c] ∧ Type_ c = ConditionRegistered ∧
    (Status c = ConditionTrue ↔
       (200 ≤ OStatusCode resp < 300)%Z ∧ RegistrationStatus resp = "INSTALLED") ∧
    (Status c = ConditionTrue ∨ Status c = ConditionFalse).
Proof.
  unfold TransformConfigStatus, NewConditions. cbn -[Z.leb Z.ltb].
  destruct (Z.leb_spec 200 (OStatusCode resp)); cbn [andb].
  2: { case_bool_decide; cbn; eexists; (split; [done|]; split; [done|]); split; [|by right|..];
       (split; [intros Hx; discriminate Hx|lia]) || by right. }
  destruct (Z.ltb_spec (OStatusCode resp) 300).
  2: { case_bool_decide; cbn; eexists; (split; [done|]; split; [done|]); split; [|by right|..];
       (split; [intros Hx; discriminate Hx|lia]) || by right. }
  destruct (bool_decide_reflect (RegistrationStatus resp = "INSTALLED")); cbn; eexists;
    (split; [done|]; split; [done|]).
  - split; [|by left]. split; [|done]. intros _. split; [lia|done].
  - split; [|by right]. split; [intros Hx; discriminate Hx|]. intros [_ ?]. done.
Qed.

(** A token is sent to the production endpoint unless the configuration names
    another, or the claims of the token name the stage. Every request of a client
    carries its token, which is not empty. *)
Theorem NewMarketplaceClient_spec {R} (SystemCertPool : option string)
    (ParseURL : string → result string (URL R)) (cfgURL token : string) (insecure : bool)
    (claims : option MarketplaceClaims) (m : MarketplaceClient R) :
  NewMarketplaceClient SystemCertPool ParseURL (NewMarketplaceClientBuilder cfgURL insecure)
    token claims = Ok m →
  token ≠ "" ∧ authorization m = WithBearerAuth token ∧
  (cfgURL ≠ "" ∧ cfgURL ≠ ProductionURL → ParseURL cfgURL = Ok (endpoint m)) ∧
  (cfgURL = "" ∨ cfgURL = ProductionURL →
     ParseURL (if names_stage claims then StageURL else ProductionURL) = Ok (endpoint m)).
Proof.
  unfold NewMarketplaceClient, NewMarketplaceClientBuilder. cbn [Url Insecure].
  destruct SystemCertPool as [e|]; [done|].
  destruct (bool_decide_reflect (token = "")) as [|Ht]; [done|].
  destruct (ParseURL _) as [u|e] eqn:Hp; [|done]. intros [= <-]; cbn [endpoint authorization].
  split_and!; [done|done|..]; rewrite <- Hp; f_equal.
  - intros [Hne Hnp]. rewrite (bool_decide_false (cfgURL = "")) by done. cbn [negb].
    by rewrite (bool_decide_false (cfgURL = ProductionURL)) by done.
  - intros Hc. assert (Hu : (if negb (bool_decide (cfgURL = "")) then cfgURL else ProductionURL) =
      ProductionURL) by (destruct Hc as [->| ->]; [done|by case_bool_decide]).
    by rewrite Hu, bool_decide_true.
Qed.
