(* ===== verification/ClusterRegistration.v ===== *)
(** * The cluster registration controller

    The model of [clusterregistration_controller.go]: a pull secret makes a default
    configuration, becomes owned by the configuration, and gives it its account and
    environment; the deletion of the configuration takes the secret with it. *)

From S2P Require Import Prelude GoTime Conditions Workloads Reports MeterDefinition MeterReport Helpers Secrets Controllers MarketplaceConfig MarketplaceClient.
Local Open Scope go_scope.

Definition MARKETPLACECONFIG_NAME : string := "marketplaceconfig".
Definition CONTROLLER_FINALIZER : string := "finalizer.marketplace.redhat.com".
Definition EnvironmentAnnotation : string := "marketplace.redhat.com/environment".
Definition ConditionRHMAccountExists : string := "RHMAccountExists".

Definition account_exists : Condition :=
  cond ConditionRHMAccountExists ConditionTrue "RHMAccountExists"
    "RHM/Software Central account exists".
Definition account_missing : Condition :=
  cond ConditionRHMAccountExists ConditionFalse "RHMAccountNotExist"
    "RHM/Software Central account does not exist".

(** ** The configuration with its finalizers *)

Record ConfigObject {V : Type} := mkObject {
  Config : MarketplaceConfig V;
  Finalizers : list string;
  Deleting : bool
}.
Arguments ConfigObject : clear implicits.
Arguments mkObject {V}.

Definition with_config {V} (mc : MarketplaceConfig V) (o : ConfigObject V) : ConfigObject V :=
  mkObject mc (Finalizers o) (Deleting o).

(** [controllerutil.AddFinalizer] and [RemoveFinalizer]: whether they changed the
    object. *)
Definition AddFinalizer {V} (o : ConfigObject V) : bool * ConfigObject V :=
  if bool_decide (CONTROLLER_FINALIZER ∈ Finalizers o) then (false, o)
  else (true, mkObject (Config o) (Finalizers o ++ [CONTROLLER_FINALIZER]) (Deleting o)).

Definition RemoveFinalizer {V} (o : ConfigObject V) : bool * ConfigObject V :=
  (bool_decide (CONTROLLER_FINALIZER ∈ Finalizers o),
   mkObject (Config o) (List.filter (λ f, f != CONTROLLER_FINALIZER) (Finalizers o)) (Deleting o)).

Definition with_account {V} (s : MarketplaceConfigSpec V) (account : string)
    : MarketplaceConfigSpec V :=
  mkConfigSpec account (ClusterUUID s) (ClusterName s) (DeploySecretName s) (EnableMetering s)
    (IsDisconnected s) (InstallIBMCatalogSource s) (Features_ s) (NamespaceLabelSelector s)
    (LicenseAccept s) (AuthorizeAccountCreation s) (StorageClassName s) (DataService_ s).

Definition with_annotations (annotations : gmap string string) (m : ObjectMeta) : ObjectMeta :=
  mkMeta (Name m) (Namespace m) (UID m) (Generation m) (Labels m) annotations (OwnerReferences m).

(** The account and the environment of the configuration, from the secret. A pull
    secret has claims, which are dereferenced. The annotations are replaced, not
    added to. *)
Definition set_account {V} (si : SecretInfo) (u : bool * ConfigObject V)
    : outcome (bool * ConfigObject V) :=
  let '(updated, o) := u in
  if SType si == RHMPullSecretName then
    match SClaims si with
    | None => Panic
    | Some claims =>
        let mc := Config o in
        if RhmAccountID (MCSpec mc) != AccountID claims
        then Ret (true, with_config (with_spec mc (with_account (MCSpec mc) (AccountID claims))) o)
        else Ret (updated, o)
    end
  else Ret (updated, o).

Definition set_environment {V} (si : SecretInfo) (u : bool * ConfigObject V)
    : bool * ConfigObject V :=
  let '(updated, o) := u in
  let mc := Config o in
  if Annotations (MCMeta mc) !! EnvironmentAnnotation == Some (SEnv si) then (updated, o)
  else (true, with_config (with_meta mc
          (with_annotations {[ EnvironmentAnnotation := SEnv si ]} (MCMeta mc))) o).

Definition register {V} (si : SecretInfo) (o : ConfigObject V)
    : outcome (bool * ConfigObject V) :=
  u ← set_account si (AddFinalizer o); Ret (set_environment si u).

Definition account_conditions (rhmAccountExists : option bool) (now : Time) (cs : Conditions)
    : bool * Conditions :=
  match rhmAccountExists with
  | Some true => SetCondition now cs account_exists
  | Some false => SetCondition now cs account_missing
  | None => (false, cs)
  end.

(** ** The interface to the cluster *)

Class RegistrationCluster (V W : Type) := {
  GetObject : NamespacedName → W → result ClientError (ConfigObject V);
  CreateObject : ConfigObject V → W → W * result ClientError (ConfigObject V);
  UpdateObject : ConfigObject V → W → W * result ClientError (ConfigObject V);
  UpdateObjectStatus : ConfigObject V → W → W * result ClientError (ConfigObject V);
  UpdateSecret : Secret → W → W * option ApiError;
  DeleteSecretObject : NamespacedName → W → W * option ApiError;
  SecretDeleting : Secret → W → bool
}.

(** What a reconciliation ends with. *)
Inductive RegistrationError := SecretFailed (e : SecretError) | Failed (e : ClientError).
Definition Answer : Type := Z * option RegistrationError.

Definition zero_spec {V} : MarketplaceConfigSpec V :=
  mkConfigSpec "" "" "" None None None None None None None None None None.
Definition zero_object {V} : ConfigObject V :=
  mkObject (mkConfig (named "" "" ∅) "" zero_spec (mkConfigStatus [] [] None)) [] false.

(** ** The reconciliation *)

Section reconciler.
Context {V W R : Type} `{!ConfigCluster V W} `{!RegistrationCluster V W} `{!ConflictRetry}.
Variable cfg : OperatorConfig.
Variable unmarshal : string → option (gmap string Auth).
Variable DecodeSegment : string → bool.
Variable ParseUnverified : string → result string MarketplaceClaims.
Variable SetControllerReference : string → ObjectMeta → ObjectMeta → result ClientError ObjectMeta.
(** [controllerutil.SetOwnerReference] of the configuration on a secret. *)
Variable SetOwnerReference : ConfigObject V → Secret → result string Secret.
(** The client made for a token and its claims, and whether its owner has an
    account. *)
Variable NewClient : string → option MarketplaceClaims → result string (MarketplaceClient R).
Variable AccountExists : MarketplaceClient R → W → result string bool.
Variable request : NamespacedName.

Definition config_name : NamespacedName := mkNN (NNNamespace request) MARKETPLACECONFIG_NAME.

Definition removeMarketplaceConfigFinalizer : Step W :=
  Retry (λ w,
    match GetObject config_name w with
    | Err IsNotFound => Ret (w, None)
    | Err e => Ret (w, Some e)
    | Ok o =>
        let '(removed, o) := RemoveFinalizer o in
        if removed then written (UpdateObject o w) else Ret (w, None)
    end).

(** The configuration of a connected environment's quick start. *)
Definition default_object (w : W) (clusterID : option string) : ConfigObject V :=
  mkObject (mkConfig (named (DeployedNamespace cfg) MARKETPLACECONFIG_NAME ∅) ""
              (mkConfigSpec "" (default (NewUUID w) clusterID) "" None None
                 (Some (CfgIsDisconnected cfg)) None None None None None None None)
              (mkConfigStatus [] [] None)) [] false.

Definition create_with (clusterID : option string) (w : W)
    : W * result ClientError (ConfigObject V) :=
  match GetDeployment (mkNN (DeployedNamespace cfg) RHM_METERING_DEPLOYMENT_NAME) w with
  | Err e => (w, Err e)
  | Ok dep =>
      let o := default_object w clusterID in
      match SetControllerReference "Deployment" dep (MCMeta (Config o)) with
      | Err e => (w, Err e)
      | Ok m => CreateObject (with_config (with_meta (Config o) m) o) w
      end
  end.

Definition create_default (w : W) : W * result ClientError (ConfigObject V) :=
  match GetClusterVersion w with
  | Ok id => create_with (Some id) w
  | Err NoMatch => create_with None w
  | Err (Api IsNotFound) => create_with None w
  | Err (Api e) => (w, Err e)
  end.

(** The secrets become owned by the configuration. *)
Definition own_secrets (o : ConfigObject V) : Step W :=
  Retry (λ w,
    let '(w, e) := AddOwnerRefToAll (λ k, GetSecret k w) (NNNamespace request)
                     (SetOwnerReference o) UpdateSecret w in
    Ret (w, OtherFailure <$> e)).

(** Whether there is an account: nothing when it is not known. *)
Definition find_account (si : SecretInfo) (mclient : MarketplaceClient R) (o : ConfigObject V)
    (w : W) : option bool :=
  let known := if SType si == RHMPullSecretName then Some true else None in
  if ToBool (IsDisconnected (MCSpec (Config o))) then known
  else if SType si == IBMEntitlementKeySecretName then
    let ask := match AccountExists mclient w with Ok exists_ => Some exists_ | Err _ => known end in
    match GetCondition (conditions (Config o)) ConditionRHMAccountExists with
    | None => ask
    | Some c => if IsFalse c then ask else if IsTrue c then Some true else known
    end
  else known.

Definition register_config (si : SecretInfo) : Step W :=
  Retry (reading (GetObject config_name) (λ o w,
    match register si o with
    | Panic => Panic
    | Ret (true, o) => written (UpdateObject o w)
    | Ret (false, _) => Ret (w, None)
    end)).

Definition report_account (rhmAccountExists : option bool) : Step W :=
  Retry (reading (GetObject config_name) (λ o w,
    let '(updated, cs) := account_conditions rhmAccountExists (Now w) (conditions (Config o)) in
    if updated
    then written (UpdateObjectStatus (with_config (with_conditions (Config o) cs) o) w)
    else Ret (w, None))).

Definition answered (after : Z) (r : outcome (W * option ClientError)) : outcome (W * Answer) :=
  match r with
  | Panic => Panic
  | Ret (w, Some e) => Ret (w, (0%Z, Some (Failed e)))
  | Ret (w, None) => Ret (w, (after, None))
  end.

Definition hour : Z := 3600000000000.

(** From the ownership of the secrets on, with the configuration at hand. *)
Definition registration (si : SecretInfo) (mclient : MarketplaceClient R) (o : ConfigObject V)
    (w : W) : outcome (W * Answer) :=
  match own_secrets o w with
  | Ret (w, None) =>
      if !(ToBool (IsDisconnected (MCSpec (Config o)))) && !(ToBool (LicenseAccept (MCSpec (Config o))))
      then Ret (w, (0%Z, None))
      else
        let rhmAccountExists := find_account si mclient o w in
        answered hour ((register_config si ;;> report_account rhmAccountExists) w)
  | r => answered 0 r
  end.

(** The deletion of the configuration: the error of deleting the secret is
    dropped. *)
Definition delete_config (w : W) : outcome (W * Answer) :=
  match removeMarketplaceConfigFinalizer w with
  | Ret (w, None) =>
      Ret ((DeleteSecret (NNNamespace request) DeleteSecretObject w).1, (0%Z, None))
  | r => answered 0 r
  end.

(** With the secret found: the first read of the configuration. When it fails for
    another reason than its absence, the object stays as it was made, empty. *)
Definition with_secret (si : SecretInfo) (w : W) : outcome (W * Answer) :=
  match NewClient (SToken si) (SClaims si) with
  | Err _ => Ret (w, (0%Z, None))
  | Ok mclient =>
      let deleting := SecretDeleting (SSecret si) w in
      match GetObject config_name w with
      | Ok o =>
          if Deleting o then delete_config w
          else if deleting then Ret (w, (0%Z, None))
          else registration si mclient o w
      | Err e =>
          if deleting then Ret (w, (0%Z, Some (Failed e)))
          else match e with
               | IsNotFound =>
                   match create_default w with
                   | (w, Err e) => Ret (w, (0%Z, Some (Failed e)))
                   | (w, Ok o) => registration si mclient o w
                   end
               | _ => registration si mclient zero_object w
               end
      end
  end.

Definition Reconcile (w : W) : outcome (W * Answer) :=
  match ReturnSecret unmarshal DecodeSegment ParseUnverified (λ k, GetSecret k w)
          (NNNamespace request) with
  | (_, Some NoSecretsFound) => answered 0 (removeMarketplaceConfigFinalizer w)
  | (_, Some e) => Ret (w, (0%Z, Some (SecretFailed e)))
  | (None, None) => Panic
  | (Some si, None) => with_secret si w
  end.
End reconciler.

(** ** What wakes the controller up *)

Definition RHM_OPERATOR_SECRET_NAME : string := "rhm-operator-secret".

Definition secret_created (name : string) : bool :=
  (name == RHMPullSecretName) || (name == IBMEntitlementKeySecretName).
Definition secret_updated (name : string) : bool :=
  (name == RHMPullSecretName) || (name == IBMEntitlementKeySecretName)
  || (name == RHM_OPERATOR_SECRET_NAME).
Definition secret_deleted (name : string) : bool := name == RHM_OPERATOR_SECRET_NAME.

(** An update of the configuration, from the old object to the new. *)
Definition config_updated {V} (old new : ConfigObject V) : bool :=
  let spec_old := MCSpec (Config old) in
  let spec_new := MCSpec (Config new) in
  (!(ToBool (IsDisconnected spec_new)) && ToBool (IsDisconnected spec_old))
  || (ToBool (LicenseAccept spec_new) && !(ToBool (LicenseAccept spec_old)))
  || (ClusterUUID spec_new != ClusterUUID spec_old)
  || (RhmAccountID spec_new != RhmAccountID spec_old)
  || (Annotations (MCMeta (Config new)) != Annotations (MCMeta (Config old)))
  || Deleting new.

(** ** The updates *)

Definition object_key {V} (o : ConfigObject V) : NamespacedName := config_key (Config o).

(** What the secret has to say about the configuration. *)
Definition is_registered {V} (si : SecretInfo) (o : ConfigObject V) : Prop :=
  CONTROLLER_FINALIZER ∈ Finalizers o ∧
  Annotations (MCMeta (Config o)) !! EnvironmentAnnotation = Some (SEnv si) ∧
  (SType si = RHMPullSecretName → AccountID <$> SClaims si = Some (RhmAccountID (MCSpec (Config o)))).

(** The same specification, but for the account. *)
Definition same_spec {V} (s : MarketplaceConfigSpec V) (o : ConfigObject V) : Prop :=
  with_account (MCSpec (Config o)) "" = with_account s "".

Lemma AddFinalizer_spec {V} (o : ConfigObject V) :
  let '(added, o') := AddFinalizer o in
  CONTROLLER_FINALIZER ∈ Finalizers o' ∧ Config o' = Config o ∧ (added = false → o' = o).
Proof.
  unfold AddFinalizer. case_bool_decide as Hf; [done|]. cbn. split; [set_solver|done].
Qed.

Lemma set_account_spec {V} si (u u' : bool * ConfigObject V) :
  set_account si u = Ret u' →
  Finalizers u'.2 = Finalizers u.2 ∧ MCMeta (Config u'.2) = MCMeta (Config u.2) ∧
  (∀ s, same_spec s u.2 → same_spec s u'.2) ∧ (u'.1 = false → u.1 = false ∧ u'.2 = u.2) ∧
  (SType si = RHMPullSecretName →
     AccountID <$> SClaims si = Some (RhmAccountID (MCSpec (Config u'.2)))).
Proof.
  destruct u as [updated o]. unfold set_account. case_bool_decide as Ht; [|by intros [= <-]].
  destruct (SClaims si) as [c|]; [|done].
  destruct (bool_decide_reflect (RhmAccountID (MCSpec (Config o)) = AccountID c)) as [Ha|Ha];
    intros [= <-]; cbn; split_and!; try done.
  intros _. by rewrite Ha.
Qed.

Lemma set_environment_spec {V} si (u : bool * ConfigObject V) :
  let u' := set_environment si u in
  Finalizers u'.2 = Finalizers u.2 ∧ MCSpec (Config u'.2) = MCSpec (Config u.2) ∧
  object_key u'.2 = object_key u.2 ∧ (u'.1 = false → u.1 = false ∧ u'.2 = u.2) ∧
  Annotations (MCMeta (Config u'.2)) !! EnvironmentAnnotation = Some (SEnv si).
Proof.
  destruct u as [updated o]. unfold set_environment. case_bool_decide as Ha; [done|].
  by cbn; split_and!.
Qed.

(** Registering makes the configuration what the secret says and changes nothing of
    its specification but the account; when it asks for no write, it already was. *)
Lemma register_spec {V} si (o : ConfigObject V) updated o' :
  register si o = Ret (updated, o') →
  is_registered si o' ∧ object_key o' = object_key o ∧
  (∀ s, same_spec s o → same_spec s o') ∧ (updated = false → o' = o).
Proof.
  unfold register. pose proof (AddFinalizer_spec o) as Hf.
  destruct (AddFinalizer o) as [added o1]. destruct Hf as (Hf & Hc & Hno).
  destruct (set_account si (added, o1)) as [[u2 o2]|] eqn:Ha;
    cbn [mbind outcome_mbind]; [|done].
  apply set_account_spec in Ha as (Hf2 & Hm2 & Hs2 & Hno2 & Ha2).
  pose proof (set_environment_spec si (u2, o2)) as Hse. cbv zeta in Hse.
  destruct Hse as (Hf3 & Hs3 & Hk3 & Hno3 & He3).
  destruct (set_environment si (u2, o2)) as [u3 o3]. cbn in *. intros [= <- <-].
  split_and!.
  - unfold is_registered. rewrite Hf3, Hf2, Hs3. done.
  - rewrite Hk3. unfold object_key, config_key. by rewrite Hm2, Hc.
  - intros s Hs. unfold same_spec in *. rewrite Hs3. apply Hs2. by rewrite Hc.
  - intros Hu. destruct (Hno3 Hu) as [Hu2 ->]. destruct (Hno2 Hu2) as [-> ->]. by apply Hno.
Qed.

(** A pull secret without claims is the one way to a panic. *)
Lemma register_total {V} si (o : ConfigObject V) :
  (SType si = RHMPullSecretName → is_Some (SClaims si)) → ∃ u, register si o = Ret u.
Proof.
  intros Hc. unfold register, set_account. destruct (AddFinalizer o) as [added o1].
  case_bool_decide as Ht; cbn; [|eauto]. destruct (Hc Ht) as [c ->]. case_match; cbn; eauto.
Qed.

(** Setting the environment drops every other annotation of the configuration. *)
Theorem environment_replaces_annotations {V} (si : SecretInfo) (updated : bool)
    (o : ConfigObject V) (k v : string) :
  Annotations (MCMeta (Config o)) !! EnvironmentAnnotation ≠ Some (SEnv si) →
  Annotations (MCMeta (Config o)) !! k = Some v → k ≠ EnvironmentAnnotation →
  Annotations (MCMeta (Config (set_environment si (updated, o)).2)) !! k = None.
Proof.
  intros He Hk Hne. unfold set_environment. rewrite bool_decide_false by done.
  change (({[ EnvironmentAnnotation := SEnv si ]} : gmap string string) !! k = None).
  apply lookup_singleton_None. done.
Qed.

(** The controller is not woken by what it writes of a configuration that already has
    its account and environment: neither by its finalizer nor by a status. *)
Theorem own_writes_ignored {V} (si : SecretInfo) (o o' : ConfigObject V) (cs : Conditions) :
  Deleting o = false →
  Annotations (MCMeta (Config o)) !! EnvironmentAnnotation = Some (SEnv si) →
  (∀ c, SType si = RHMPullSecretName → SClaims si = Some c →
     RhmAccountID (MCSpec (Config o)) = AccountID c) →
  register si o = Ret (true, o') →
  config_updated o o' = false ∧
  config_updated o (with_config (with_conditions (Config o) cs) o) = false.
Proof.
  intros Hd He Hc. assert (Hsame : ∀ o1 : ConfigObject V, Deleting o1 = false →
    MCSpec (Config o1) = MCSpec (Config o) → MCMeta (Config o1) = MCMeta (Config o) →
    config_updated o o1 = false).
  { intros o1 H1 H2 H3. unfold config_updated. rewrite H1, H2, H3, !bool_decide_true by done.
    by destruct (ToBool (IsDisconnected _)), (ToBool (LicenseAccept _)). }
  unfold register, set_account. pose proof (AddFinalizer_spec o) as Hf.
  assert (Hda : Deleting (AddFinalizer o).2 = Deleting o)
    by (unfold AddFinalizer; by case_bool_decide).
  destruct (AddFinalizer o) as [added o1]. destruct Hf as (_ & Hcfg & _). cbn [snd] in Hda.
  intros Hr. split; [|by apply Hsame].
  assert (Ho' : o' = o1); [|subst; apply Hsame; congruence].
  assert (Henv : set_environment si (added, o1) = (added, o1))
    by (unfold set_environment; by rewrite Hcfg, bool_decide_true).
  revert Hr. case_bool_decide as Ht; cbn [mbind outcome_mbind].
  - destruct (SClaims si) as [c|] eqn:Hsc; cbn [mbind outcome_mbind]; [|done].
    rewrite Hcfg, (Hc c Ht eq_refl), bool_decide_true by done. cbn [negb mbind outcome_mbind].
    rewrite Henv. by intros [= _ <-].
  - rewrite Henv. by intros [= _ <-].
Qed.

Lemma Parse_pull_claims unmarshal DecodeSegment ParseUnverified secret si :
  Parse unmarshal DecodeSegment ParseUnverified secret = (si, None) →
  SType si = RHMPullSecretName → is_Some (SClaims si).
Proof.
  unfold Parse. destruct (Data secret !! IBMEntitlementDataKey) as [key|].
  - unfold parse_entitlement, read_auth. intros H Ht.
    repeat case_match; simplify_eq/=; discriminate.
  - unfold parse_jwt. intros H Ht. repeat case_match; simplify_eq/=; eauto.
Qed.

(** ** The laws of the cluster *)

(** Nobody else writes, and what is read is what is stored. A write of an object
    leaves its status, a write of a status all else; an object that is being deleted
    goes with its last finalizer; the secrets are other objects. *)
Class RegistrationStore (V W : Type) `{!RegistrationCluster V W} := {
  objects : W → gmap NamespacedName (ConfigObject V);
  object_keyed k w o : objects w !! k = Some o → object_key o = k;
  get_object_law k w :
    match GetObject k w with
    | Ok o => objects w !! k = Some o
    | Err e => e = IsNotFound → objects w !! k = None
    end;
  create_object_law o w :
    match CreateObject o w with
    | (w', Ok new) => objects w !! object_key o = None ∧ MCSpec (Config new) = MCSpec (Config o) ∧
        objects w' = <[object_key o := new]> (objects w)
    | (w', Err _) => objects w' = objects w
    end;
  update_object_law o w :
    match UpdateObject o w with
    | (w', Ok new) => ∃ old, objects w !! object_key o = Some old ∧
        MCSpec (Config new) = MCSpec (Config o) ∧ Finalizers new = Finalizers o ∧
        Annotations (MCMeta (Config new)) = Annotations (MCMeta (Config o)) ∧
        MCStatus (Config new) = MCStatus (Config old) ∧
        objects w' = if Deleting old && bool_decide (Finalizers o = [])
                     then delete (object_key o) (objects w)
                     else <[object_key o := new]> (objects w)
    | (w', Err _) => objects w' = objects w
    end;
  update_object_status_law o w :
    match UpdateObjectStatus o w with
    | (w', Ok new) => ∃ old, objects w !! object_key o = Some old ∧
        MCSpec (Config new) = MCSpec (Config old) ∧ Finalizers new = Finalizers old ∧
        MCMeta (Config new) = MCMeta (Config old) ∧
        conditions (Config new) = conditions (Config o) ∧
        objects w' = <[object_key o := new]> (objects w)
    | (w', Err _) => objects w' = objects w
    end;
  update_secret_law s w : objects (UpdateSecret s w).1 = objects w;
  delete_secret_law k w : objects (DeleteSecretObject k w).1 = objects w
}.

(** ** Contracts of the steps *)

Section contracts.
Context {V W R : Type} `{!ConfigCluster V W} `{!RegistrationCluster V W}
  `{!RegistrationStore V W} `{!ConflictRetry}.
Variable cfg : OperatorConfig.
Variable unmarshal : string → option (gmap string Auth).
Variable DecodeSegment : string → bool.
Variable ParseUnverified : string → result string MarketplaceClaims.
Variable SetControllerReference : string → ObjectMeta → ObjectMeta → result ClientError ObjectMeta.
Variable SetOwnerReference : ConfigObject V → Secret → result string Secret.
Variable NewClient : string → option MarketplaceClaims → result string (MarketplaceClient R).
Variable AccountExists : MarketplaceClient R → W → result string bool.
Variable request : NamespacedName.
(** The configuration's specification, but for the account, and the other
    configurations. *)
Variable spec : MarketplaceConfigSpec V.
Variable others : gmap NamespacedName (ConfigObject V).

Definition stored_as (Q : ConfigObject V → Prop) (w : W) : Prop :=
  (∃ o, objects w !! config_name request = Some o ∧ same_spec spec o ∧ Q o) ∧
  (∀ k, k ≠ config_name request → objects w !! k = others !! k).

Notation whatever := (λ _ : ConfigObject V, True).

Lemma stored_as_weaken (Q Q' : ConfigObject V → Prop) w :
  (∀ o, Q o → Q' o) → stored_as Q w → stored_as Q' w.
Proof. intros HQ [(o & ? & ? & ?) ?]. split; [exists o; auto|done]. Qed.

Lemma stored_as_eq Q w w' : objects w' = objects w → stored_as Q w → stored_as Q w'.
Proof. unfold stored_as. by intros ->. Qed.

Lemma stored_as_insert (Q : ConfigObject V → Prop) w w' o :
  (∃ Q', stored_as Q' w) → objects w' = <[config_name request := o]> (objects w) →
  same_spec spec o → Q o → stored_as Q w'.
Proof.
  intros [Q' [_ Ho]] Hw Hs HQ. split; rewrite Hw.
  - exists o. by rewrite lookup_insert_eq.
  - intros k Hk. rewrite lookup_insert_ne by done. auto.
Qed.

(** A step that reads the configuration finds the stored one. *)
Lemma reading_object (Q Q' : ConfigObject V → Prop) k :
  (∀ o, object_key o = config_name request → same_spec spec o → Q o →
     triple (λ w, stored_as Q w ∧ objects w !! config_name request = Some o) (k o)
       (stored_as Q') (stored_as Q)) →
  triple (stored_as Q) (reading (GetObject (config_name request)) k) (stored_as Q') (stored_as Q).
Proof.
  intros Hk w Hw. unfold reading. pose proof (get_object_law (config_name request) w) as Hg.
  destruct (GetObject (config_name request) w) as [o|e]; [|done].
  destruct Hw as [(o' & Ho' & Hs & HQ) Ho]. replace o' with o in * by congruence.
  apply (Hk o); [by eapply object_keyed|done..|]. split; [|done]. split; [by exists o|done].
Qed.

Lemma register_config_triple si :
  (SType si = RHMPullSecretName → is_Some (SClaims si)) →
  triple (stored_as whatever) (register_config request si) (stored_as (is_registered si))
    (stored_as whatever).
Proof.
  intros Hc. apply triple_Retry, reading_object. intros o Hk Hs _ w [Hw Ho].
  destruct (register_total si o Hc) as [[updated o'] Hr]. rewrite Hr.
  apply register_spec in Hr as (Hreg & Hk' & Hs' & Hno). destruct updated.
  - pose proof (update_object_law o' w) as Hu.
    destruct (UpdateObject o' w) as [w' [new|e]]; cbn; [|by apply (stored_as_eq _ w)].
    destruct Hu as (old & Hold & Hsp & Hfin & Hann & _ & Hobj). rewrite Hk', Hk in *.
    rewrite (bool_decide_false (Finalizers o' = [])) in Hobj
      by (destruct Hreg as [Hin _]; intros Hnil; rewrite Hnil in Hin; by apply elem_of_nil in Hin).
    rewrite andb_false_r in Hobj. apply (stored_as_insert _ w w' new); [by eexists|done|..].
    + unfold same_spec. rewrite Hsp. by apply Hs'.
    + unfold is_registered in *. by rewrite Hfin, Hann, Hsp.
  - rewrite (Hno eq_refl) in Hreg. destruct Hw as [_ Hoth]. split; [|done]. by exists o.
Qed.

(** What is said of the account. *)
Definition account_said (known : option bool) (o : ConfigObject V) : Prop :=
  match known with
  | Some b => settled (if b then account_exists else account_missing) (conditions (Config o))
  | None => True
  end.

Lemma report_account_triple (Q : ConfigObject V → Prop) known :
  (∀ o o', Finalizers o' = Finalizers o → MCMeta (Config o') = MCMeta (Config o) →
     MCSpec (Config o') = MCSpec (Config o) → Q o → Q o') →
  triple (stored_as Q) (report_account request known)
    (stored_as (λ o, Q o ∧ account_said known o)) (stored_as Q).
Proof.
  intros HQ. apply triple_Retry, reading_object. intros o Hk Hs Ho w [Hw Hlook].
  assert (Hsaid : ∀ now, let r := account_conditions known now (conditions (Config o)) in
    (∀ o', conditions (Config o') = r.2 → account_said known o') ∧
    (r.1 = false → account_said known o)).
  { intros now. unfold account_conditions, account_said. destruct known as [[]|]; [..|done].
    all: split; [intros o' ->; apply settled_Set|intros Hf; by apply (SetCondition_unchanged now)]. }
  specialize (Hsaid (Now w)). destruct (account_conditions known _ _) as [updated cs].
  cbn [fst snd] in Hsaid. destruct Hsaid as [Hset Hno]. destruct updated.
  - set (o1 := with_config (with_conditions (Config o) cs) o).
    pose proof (update_object_status_law o1 w) as Hu.
    destruct (UpdateObjectStatus o1 w) as [w' [new|e]]; cbn; [|by apply (stored_as_eq _ w)].
    destruct Hu as (old & Hold & Hsp & Hfin & Hmeta & Hcs & Hobj).
    change (object_key o1) with (object_key o) in *. rewrite Hk in *.
    replace old with o in * by congruence.
    apply (stored_as_insert _ w w' new); [by eexists|done|..].
    + unfold same_spec. by rewrite Hsp.
    + split; [by apply (HQ o)|]. apply Hset. rewrite Hcs. done.
  - destruct Hw as [_ Hoth]. split; [|done]. exists o. auto.
Qed.

Lemma is_registered_status si (o o' : ConfigObject V) :
  Finalizers o' = Finalizers o → MCMeta (Config o') = MCMeta (Config o) →
  MCSpec (Config o') = MCSpec (Config o) → is_registered si o → is_registered si o'.
Proof. unfold is_registered. by intros -> -> ->. Qed.

(** The ownership of the secrets is nothing to the configurations. *)
Lemma own_secrets_triple o (P : gmap NamespacedName (ConfigObject V) → Prop) :
  triple (λ w, P (objects w)) (own_secrets SetOwnerReference request o) (λ w, P (objects w))
    (λ w, P (objects w)).
Proof.
  apply triple_Retry. intros w Hw.
  assert (Hone : ∀ (r : result ApiError Secret) w,
    objects (match r with
             | Ok s => addOwnerRef (SetOwnerReference o) UpdateSecret s w
             | Err _ => (w, None) end).1 = objects w).
  { intros [s|e] w'; [|done]. unfold addOwnerRef.
    destruct (SetOwnerReference o s) as [s'|e]; [|done].
    destruct (existsb _ _); [done|]. apply update_secret_law. }
  unfold AddOwnerRefToAll.
  pose proof (Hone (GetPullSecret (λ k, GetSecret k w) (NNNamespace request)) w) as H1.
  destruct (match GetPullSecret _ _ with Ok _ => _ | Err _ => _ end) as [w1 [e|]]; cbn in *.
  - by rewrite H1.
  - pose proof (Hone (GetEntitlementKey (λ k, GetSecret k w) (NNNamespace request)) w1) as H2.
    destruct (match GetEntitlementKey _ _ with Ok _ => _ | Err _ => _ end) as [w2 [e|]]; cbn in *;
      by rewrite H2, H1.
Qed.

(** The license is accepted, or not asked for. *)
Definition licensed (o : ConfigObject V) : bool :=
  ToBool (IsDisconnected (MCSpec (Config o))) || ToBool (LicenseAccept (MCSpec (Config o))).

Lemma find_account_pull si mclient (o : ConfigObject V) w :
  SType si = RHMPullSecretName → find_account AccountExists si mclient o w = Some true.
Proof.
  intros Ht. unfold find_account. rewrite Ht, bool_decide_true by done. by case_match.
Qed.

(** What a run leaves that ends with [err], to run again [after] some time, when the
    configuration at hand was licensed or not. *)
Definition run_left (si : SecretInfo) (l : bool) (w w' : W) (answer : Answer) : Prop :=
  stored_as whatever w' ∧ (l = false → objects w' = objects w) ∧
  (answer.2 = None → l = true → answer.1 = hour) ∧
  (answer.1 = hour → answer.2 = None ∧ l = true ∧ ∃ known,
     stored_as (λ o', is_registered si o' ∧ account_said known o') w' ∧
     (SType si = RHMPullSecretName → known = Some true)).

(** Nothing was done. *)
Lemma run_left_same si l w w' e :
  objects w' = objects w → stored_as whatever w → (e = None → l = false) →
  run_left si l w w' (0%Z, e).
Proof.
  intros Hw Hst He. split; [by apply (stored_as_eq _ w)|]. split; [done|]. cbn. split; [|done].
  intros ->. by rewrite (He eq_refl).
Qed.

Lemma registration_run si mclient (o : ConfigObject V) w :
  (SType si = RHMPullSecretName → is_Some (SClaims si)) → stored_as whatever w →
  match registration SetOwnerReference AccountExists request si mclient o w with
  | Panic => False
  | Ret (w', answer) => run_left si (licensed o) w w' answer
  end.
Proof.
  intros Hc Hst. unfold registration.
  pose proof (own_secrets_triple o (λ b, b = objects w) w eq_refl) as Hown.
  destruct (own_secrets SetOwnerReference request o w) as [[w1 [e|]]|]; cbn [answered]; [|..|done].
  { by apply run_left_same. }
  assert (Hst1 : stored_as whatever w1) by by apply (stored_as_eq _ w).
  rewrite <- negb_orb. fold (licensed o).
  destruct (licensed o) eqn:Hl; cbn [negb]; [|by apply run_left_same].
  set (known := find_account AccountExists si mclient o w1).
  pose proof (triple_weaken _ _ _ _ _ _ (stored_as whatever)
    (report_account_triple (is_registered si) known (is_registered_status si))
    (λ st H, H) (λ st H, H) (λ st, stored_as_weaken _ _ st (λ _ _, I))) as Ht.
  pose proof (triple_andthen _ _ _ _ _ _ (register_config_triple si Hc) Ht w1 Hst1) as Hr.
  destruct ((register_config request si ;;> report_account request known) w1) as [[w2 [e|]]|];
    cbn [answered]; [|..|done]; (split; [|split; [done|]]); cbn.
  - exact Hr.
  - done.
  - by revert Hr; apply stored_as_weaken.
  - split; [done|]. intros _. split_and!; [done..|]. exists known. split; [done|].
    intros Hp. by apply find_account_pull.
Qed.
End contracts.

(** ** Properties *)

Section properties.
Context {V W R : Type} `{!ConfigCluster V W} `{!RegistrationCluster V W}
  `{!RegistrationStore V W} `{!ConflictRetry}.
Variable cfg : OperatorConfig.
Variable unmarshal : string → option (gmap string Auth).
Variable DecodeSegment : string → bool.
Variable ParseUnverified : string → result string MarketplaceClaims.
Variable SetControllerReference : string → ObjectMeta → ObjectMeta → result ClientError ObjectMeta.
Variable SetOwnerReference : ConfigObject V → Secret → result string Secret.
Variable NewClient : string → option MarketplaceClaims → result string (MarketplaceClient R).
Variable AccountExists : MarketplaceClient R → W → result string bool.
Variable request : NamespacedName.

Notation run := (Reconcile cfg unmarshal DecodeSegment ParseUnverified SetControllerReference
  SetOwnerReference NewClient AccountExists request).

Lemma ReturnSecret_claims (Get : NamespacedName → result ApiError Secret) ns si :
  ReturnSecret unmarshal DecodeSegment ParseUnverified Get ns = (Some si, None) →
  SType si = RHMPullSecretName → is_Some (SClaims si).
Proof.
  unfold ReturnSecret. intros Hret. 
  destruct (GetPullSecret Get ns) as [s|[|]]; [|destruct (GetEntitlementKey Get ns) as [s|[|]]|];
    try done.
  all: destruct (Parse unmarshal DecodeSegment ParseUnverified s) as [si' e] eqn:Hp.
  all: injection Hret as -> ->; by eapply Parse_pull_claims.
Qed.

Lemma with_secret_run si w (o : ConfigObject V) :
  (SType si = RHMPullSecretName → is_Some (SClaims si)) →
  stored_as request (MCSpec (Config o)) (objects w) (λ _, True) w →
  objects w !! config_name request = Some o → Deleting o = false →
  match with_secret cfg SetControllerReference SetOwnerReference NewClient AccountExists request
          si w with
  | Panic => False
  | Ret (w', answer) =>
      stored_as request (MCSpec (Config o)) (objects w) (λ _, True) w' ∧
      (licensed o = false → objects w' = objects w) ∧
      (is_ok (NewClient (SToken si) (SClaims si)) = true → SecretDeleting (SSecret si) w = false →
       is_ok (GetObject (config_name request) w) = true → answer.2 = None → licensed o = true →
       answer.1 = hour) ∧
      (answer.1 = hour → answer.2 = None ∧ licensed o = true ∧ ∃ known,
         stored_as request (MCSpec (Config o)) (objects w)
           (λ o', is_registered si o' ∧ account_said known o') w' ∧
         (SType si = RHMPullSecretName → known = Some true))
  end.
Proof.
  intros Hc Hst Ho Hdel. unfold with_secret.
  destruct (NewClient (SToken si) (SClaims si)) as [mclient|e]; [|done].
  pose proof (get_object_law (config_name request) w) as Hg.
  destruct (GetObject (config_name request) w) as [o1|e].
  - replace o1 with o by congruence. rewrite Hdel. destruct (SecretDeleting _ w); [done|].
    pose proof (registration_run SetOwnerReference AccountExists request _ _ si mclient o w Hc Hst) as Hr.
    destruct (registration _ _ _ si mclient o w) as [[w' answer]|]; [|done].
    destruct Hr as (? & ? & Hlive & ?). split_and!; [done..| |done]. intros _ _ _. exact Hlive.
  - destruct (SecretDeleting _ w); [done|].
    pose proof (registration_run SetOwnerReference AccountExists request _ _ si mclient zero_object
      w Hc Hst) as Hr.
    destruct e; [|by rewrite (Hg eq_refl) in Ho|..];
      (destruct (registration _ _ _ si mclient zero_object w) as [[w' answer]|]; [|done]);
      (destruct Hr as (? & Hno & _ & Hyes); split; [done|]; split; [by intros _; apply Hno|];
       split; [done|]; intros Hh; by destruct (Hyes Hh) as (_ & ? & _)).
Qed.

(** C19: a registration keeps its license. With a secret that can be used, a
    configuration that is stored and not being deleted is left with its
    specification, but for the account, and the other configurations are not
    touched. When the run ends to be run again in an hour, the license was accepted
    or the cluster is disconnected; the configuration then has the finalizer, the
    environment of the secret and, for a pull secret, its account, which is said to
    exist. It does end so when nothing fails. Without a license nothing of the
    configuration changes at all. *)
Theorem Reconcile_registers (w : W) (o : ConfigObject V) (si : SecretInfo) :
  ReturnSecret unmarshal DecodeSegment ParseUnverified (λ k, GetSecret k w) (NNNamespace request) =
    (Some si, None) →
  objects w !! config_name request = Some o → Deleting o = false →
  match run w with
  | Panic => False
  | Ret (w', (after, err)) =>
      (∀ k, k ≠ config_name request → objects w' !! k = objects w !! k) ∧
      (licensed o = false → objects w' = objects w) ∧
      (is_ok (NewClient (SToken si) (SClaims si)) = true → SecretDeleting (SSecret si) w = false →
       is_ok (GetObject (config_name request) w) = true → err = None → licensed o = true →
       after = hour) ∧
      ∃ o', objects w' !! config_name request = Some o' ∧ same_spec (MCSpec (Config o)) o' ∧
        (after = hour → err = None ∧ licensed o = true ∧ is_registered si o' ∧
           (SType si = RHMPullSecretName → account_said (Some true) o'))
  end.
Proof.
  intros Hsi Ho Hdel. unfold Reconcile. rewrite Hsi.
  assert (Hst : stored_as request (MCSpec (Config o)) (objects w) (λ _, True) w)
    by (split; [by exists o|done]).
  pose proof (with_secret_run si w o (ReturnSecret_claims _ _ _ Hsi) Hst Ho Hdel) as Hr.
  destruct (with_secret _ _ _ _ _ _ si w) as [[w' [after err]]|]; [|done].
  destruct Hr as ([(o1 & Ho1 & Hs1 & _) Hoth] & Hno & Hlive & Hyes).
  split; [done|]. split; [done|]. split; [done|].
  destruct (decide (after = hour)) as [Hh|Hh]; [|by exists o1].
  destruct (Hyes Hh) as (He & Hl & known & [(o2 & Ho2 & Hs2 & Hreg & Hacc) _] & Hk).
  exists o2. split_and!; [done..|]. intros _. split_and!; [done..|].
  intros Hp. by rewrite <- (Hk Hp).
Qed.

(** A step that never fails is made once. *)
Lemma Retry_never_fails {St} (f : Step St) st st' :
  f st = Ret (st', None) → Retry f st = Ret (st', None).
Proof.
  intros Hf. unfold Retry. pose proof (RetryOnConflict_law (panicking f) (Ret st)) as Hr.
  revert Hr. generalize (RetryOnConflict (panicking f) (Ret st)) as r. intros r Hr.
  inversion Hr as [o|o o' r' Heq]; subst; unfold panicking in *; rewrite Hf in *; done.
Qed.

(** A read of the configuration that fails for another reason than its absence ends
    the run without an error: the object at hand is empty, and an empty one has no
    license. The secrets have been given it as their owner. *)
Theorem read_error_swallowed (w : W) (si : SecretInfo) (m : MarketplaceClient R) (msg : string) :
  ReturnSecret unmarshal DecodeSegment ParseUnverified (λ k, GetSecret k w) (NNNamespace request) =
    (Some si, None) →
  NewClient (SToken si) (SClaims si) = Ok m → SecretDeleting (SSecret si) w = false →
  GetObject (config_name request) w = Err (OtherFailure msg) →
  run w = Ret ((AddOwnerRefToAll (λ k, GetSecret k w) (NNNamespace request)
                  (SetOwnerReference zero_object) UpdateSecret w).1, (0%Z, None)).
Proof.
  intros Hsi Hm Hdel Hg. unfold Reconcile. rewrite Hsi. unfold with_secret. rewrite Hm, Hg, Hdel.
  unfold registration, own_secrets.
  pose proof (AddOwnerRefToAll_never_fails (λ k, GetSecret k w) (NNNamespace request)
    (SetOwnerReference zero_object) UpdateSecret w) as Hn.
  destruct (AddOwnerRefToAll _ _ _ _ w) as [w' e] eqn:Ha; cbn in Hn; subst e.
  rewrite (Retry_never_fails _ w w') by (by rewrite Ha). done.
Qed.

(** The deletion of the configuration ends without an error only when it has been
    released: it is gone, or it no longer has the finalizer. *)
Theorem delete_config_releases (w w' : W) (answer : Answer) :
  delete_config request w = Ret (w', answer) → answer.2 = None →
  ∀ o, objects w' !! config_name request = Some o → CONTROLLER_FINALIZER ∉ Finalizers o.
Proof.
  set (Q := λ w : W, ∀ o, objects w !! config_name request = Some o →
    CONTROLLER_FINALIZER ∉ Finalizers o).
  assert (Ht : triple (λ _, True) (removeMarketplaceConfigFinalizer request) Q (λ _, True)).
  { apply triple_Retry. intros w1 _. pose proof (get_object_law (config_name request) w1) as Hg.
    destruct (GetObject (config_name request) w1) as [o|e].
    2: { destruct e; try done. intros o Ho. by rewrite (Hg eq_refl) in Ho. }
    assert (Hnot : CONTROLLER_FINALIZER ∉
      List.filter (λ f, f != CONTROLLER_FINALIZER) (Finalizers o)).
    { rewrite list_elem_of_In, List.filter_In. intros [_ Hf]. by rewrite bool_decide_true in Hf. }
    cbn. case_bool_decide as Hin; [|intros o' Ho'; congruence].
    match goal with |- context [UpdateObject ?x w1] => pose proof (update_object_law x w1) as Hu;
      destruct (UpdateObject x w1) as [w2 [new|e]] end; cbn; [|done].
    destruct Hu as (old & Hold & _ & Hfin & _ & _ & Hobj). cbn in Hold, Hfin.
    pose proof (object_keyed _ _ _ Hg) as Hk. intros o' Ho'. rewrite Hobj in Ho'.
    change (object_key _) with (object_key o) in Ho'. rewrite Hk in Ho'.
    destruct (_ && _) in Ho'; [by rewrite lookup_delete_eq in Ho'|].
    rewrite lookup_insert_eq in Ho'. injection Ho' as <-. by rewrite Hfin. }
  specialize (Ht w I). unfold delete_config, answered.
  destruct (removeMarketplaceConfigFinalizer request w) as [[w1 [e|]]|]; [|..|done].
  { by intros [= <- <-]. }
  intros [= <- <-] _. assert (Hs : objects (DeleteSecret (NNNamespace request) DeleteSecretObject w1).1
    = objects w1); [|unfold Q in Ht; by rewrite Hs].
  unfold DeleteSecret.
  pose proof (λ k w, delete_secret_law (V := V) k w) as Hd.
  pose proof (Hd (mkNN (NNNamespace request) RHMPullSecretName) w1) as H1.
  destruct (DeleteSecretObject _ w1) as [w2 [[|m]|]]; cbn in *; try done.
  all: pose proof (Hd (mkNN (NNNamespace request) IBMEntitlementKeySecretName) w2) as H2;
    destruct (DeleteSecretObject _ w2) as [w3 [[|m]|]]; cbn in *; congruence.
Qed.
End properties.

(** ** A concrete cluster *)

(** One configuration and a pull secret. *)
Notation OneConfig := (option (ConfigObject unit)).

Definition toy_write (o : ConfigObject unit) (w : OneConfig)
    : OneConfig * result ClientError (ConfigObject unit) :=
  match w with
  | None => (w, Err IsNotFound)
  | Some old =>
      if object_key old != object_key o then (w, Err IsNotFound) else
      let new := with_config (mkConfig (MCMeta (Config o)) "" (MCSpec (Config o))
                                (MCStatus (Config old))) (mkObject (Config o) (Finalizers o) (Deleting old)) in
      (if Deleting old && bool_decide (Finalizers o = []) then None else Some new, Ok new)
  end.

Definition toy_write_status (o : ConfigObject unit) (w : OneConfig)
    : OneConfig * result ClientError (ConfigObject unit) :=
  match w with
  | None => (w, Err IsNotFound)
  | Some old =>
      if object_key old != object_key o then (w, Err IsNotFound) else
      let new := with_config (with_conditions (Config old) (conditions (Config o))) old in
      (Some new, Ok new)
  end.

Definition toy_make (o : ConfigObject unit) (w : OneConfig)
    : OneConfig * result ClientError (ConfigObject unit) :=
  match w with None => (Some o, Ok o) | Some _ => (w, Err AlreadyExists) end.

Definition toy_pull_secret : Secret :=
  mkSecret (named "rhm" RHMPullSecretName ∅) (mkGVK "v1" "Secret") {[ RHMPullSecretKey := "a.b.c" ]}.

#[local] Instance one_config : RegistrationCluster unit OneConfig := {|
  GetObject k w := lookup_result (singleton_by object_key w !! k);
  CreateObject := toy_make;
  UpdateObject := toy_write;
  UpdateObjectStatus := toy_write_status;
  UpdateSecret _ w := (w, None);
  DeleteSecretObject _ w := (w, None);
  SecretDeleting _ _ := false
|}.

#[local] Instance one_cluster : ConfigCluster unit OneConfig := {|
  Now _ := 7%Z;
  NewUUID _ := "uuid";
  GetConfig _ _ := Err IsNotFound;
  UpdateConfig _ w := (w, Err IsNotFound);
  UpdateConfigStatus _ w := (w, Err IsNotFound);
  GetMeterBase _ _ := Err IsNotFound;
  CreateMeterBase _ w := (w, Err IsNotFound);
  UpdateMeterBase _ w := (w, Err IsNotFound);
  GetNamespace _ _ := Err IsNotFound;
  UpdateNamespace _ w := (w, Err IsNotFound);
  GetCatalogSource _ _ := Err IsNotFound;
  CreateCatalogSource _ w := (w, Err IsNotFound);
  DeleteCatalogSource _ w := (w, Err IsNotFound);
  GetDeployment k _ := Ok (named (NNNamespace k) (NNName k) ∅);
  GetClusterVersion _ := Err NoMatch;
  GetSecret k _ := if k == mkNN "rhm" RHMPullSecretName then Ok toy_pull_secret else Err NotFound;
  DeleteUnstructured _ _ w := (w, None)
|}.

#[local, refine] Instance one_store : RegistrationStore unit OneConfig := {|
  objects := singleton_by object_key
|}.
Proof.
  - intros k w o Ho. by apply (singleton_by_lookup object_key) in Ho as [_ ?].
  - intros k w. cbn. pose proof (lookup_result_law (singleton_by object_key w !! k)) as Hl.
    by destruct (lookup_result _).
  - intros o [old|]; cbn [CreateObject one_config toy_make]; [done|].
    split_and!; [by apply lookup_empty|done|]. cbn. by rewrite insert_empty.
  - intros o [old|]; cbn [UpdateObject one_config toy_write]; [|done].
    destruct (bool_decide_reflect (object_key old = object_key o)) as [Hk|]; cbn [negb]; [|done].
    exists old. split_and!; [by apply (singleton_by_lookup object_key)|done..|].
    destruct (_ && _); [|by apply (singleton_by_insert object_key)].
    rewrite <- Hk. symmetry. apply delete_singleton_eq.
  - intros o [old|]; cbn [UpdateObjectStatus one_config toy_write_status]; [|done].
    destruct (bool_decide_reflect (object_key old = object_key o)) as [Hk|]; cbn [negb]; [|done].
    exists old. split_and!; [by apply (singleton_by_lookup object_key)|done..|].
    by apply (singleton_by_insert object_key).
  - done.
  - done.
Defined.

Definition toy_claims : MarketplaceClaims := mkClaims "account-1" "" "" "".
Definition toy_info : SecretInfo :=
  mkSecretInfo RHMPullSecretName toy_pull_secret ProdEnv "a.b.c" (Some toy_claims).
Definition toy_object (accept : bool) : ConfigObject unit :=
  mkObject (mkConfig (named "rhm" MARKETPLACECONFIG_NAME ∅) ""
              (mkConfigSpec "" "id" "" None None (Some false) None None None (Some accept) None None None)
              (mkConfigStatus [] [] None)) [] false.

Lemma toy_secret_read (w : OneConfig) :
  ReturnSecret (λ _, None) (λ _, true) (λ _, Ok toy_claims) (λ k, GetSecret k w) "rhm" =
    (Some toy_info, None).
Proof. reflexivity. Qed.

Lemma toy_object_stored accept :
  objects (Some (toy_object accept)) !! config_name (mkNN "rhm" "any") = Some (toy_object accept).
Proof. by apply (singleton_by_lookup object_key). Qed.

Definition toy_registration (accept : bool) :=
  Reconcile (R := unit) (mkOperatorConfig "rhm" false true) (λ _, None) (λ _, true)
    (λ _, Ok toy_claims) (λ _ _ m, Ok m) (λ _ s, Ok s)
    (λ token _, Ok (mkClient (mkURL tt "" "") token false)) (λ _ _, Ok true) (mkNN "rhm" "any")
    (Some (toy_object accept)).

(** An accepted license is registered in one run; another configuration stays as it
    was. *)
Lemma toy_registration_runs :
  match toy_registration true, toy_registration false with
  | Ret (Some o, answer), Ret (w, answer') =>
      answer = (hour, None) ∧ RhmAccountID (MCSpec (Config o)) = "account-1" ∧
      Finalizers o = [CONTROLLER_FINALIZER] ∧ answer' = (0%Z, None) ∧ w = Some (toy_object false)
  | _, _ => False
  end.
Proof. vm_compute. split_and!; reflexivity. Qed.

Lemma Reconcile_registers_witness :
  objects (Some (toy_object true)) !! config_name (mkNN "rhm" "any") = Some (toy_object true) ∧
  ∃ w' answer o', toy_registration true = Ret (w', answer) ∧
    objects w' !! config_name (mkNN "rhm" "any") = Some o' ∧
    (answer.1 = hour → is_registered toy_info o' ∧ account_said (Some true) o').
Proof.
  split; [exact (toy_object_stored true)|].
  pose proof (Reconcile_registers (R := unit) (mkOperatorConfig "rhm" false true) (λ _, None) (λ _, true)
    (λ _, Ok toy_claims) (λ _ _ m, Ok m) (λ _ s, Ok s)
    (λ token _, Ok (mkClient (mkURL tt "" "") token false)) (λ _ _, Ok true) (mkNN "rhm" "any")
    (Some (toy_object true)) (toy_object true) toy_info
    (toy_secret_read _) (toy_object_stored true) eq_refl) as Hr.
  fold (toy_registration true) in Hr.
  destruct (toy_registration true) as [[w' [after err]]|]; [|destruct Hr].
  destruct Hr as (_ & _ & _ & o' & Ho & _ & Hyes).
  exists w', (after, err), o'. split_and!; [reflexivity|exact Ho|].
  intros Hh. destruct (Hyes Hh) as (_ & _ & Hreg & Hacc). split; [exact Hreg|exact (Hacc eq_refl)].
Defined.
