(* ===== verification/MeterReportController.v ===== *)
(** * The meter report controller

    The model of [meterreport_controller.go]: the job of a report, which older
    versions made one of, is deleted, and the report is to forget it. *)

From S2P Require Import Prelude GoTime Conditions Workloads Reports MeterDefinition MeterReport Controllers.
Local Open Scope go_scope.

(** A report with the reference to its job, the part of its status that
    [MeterReportStatus] leaves out. *)
Record ReportObject {LS : Type} := mkReportObject {
  Report : MeterReport LS;
  AssociatedJob : option JobReference
}.
Arguments ReportObject : clear implicits.
Arguments mkReportObject {LS}.

(** The time, a report, its update, and the deletion of a job in the background. *)
Class ReportCluster (LS W : Type) := {
  Now : W → Time;
  GetReport : NamespacedName → W → result ClientError (ReportObject LS);
  UpdateReport : ReportObject LS → W → W * result ClientError (ReportObject LS);
  DeleteJob : NamespacedName → W → W * option ClientError
}.

(** Whether to run again at once, and the error. *)
Definition Answer : Type := bool * option ClientError.

Definition with_report_conditions {LS} (cs : Conditions) (r : MeterReport LS) : MeterReport LS :=
  let s := MRStatus r in
  mkMeterReport LS (MRMeta r) (MRSpec r)
    (mkMeterReportStatus cs (UploadStatus_ s) (WorkloadCount s) (MetricUploadCount s)
       (RetryUpload s) (UploadID s) (DataServiceStatus s) (RErrors s) (Warnings s)).

Section reconciler.
Context {LS W : Type} `{!ReportCluster LS W} `{!ConflictRetry}.
Variable request : NamespacedName.

(** The first conditions of a report, on the object at hand. *)
Definition start_conditions (now : Time) (r : MeterReport LS) : MeterReport LS :=
  if bool_decide (RConditions (MRStatus r) = [])
  then with_report_conditions (NewConditions now [ReportConditionJobNotStarted]) r else r.

Definition forget_job : Step W :=
  Retry (reading (GetReport request) (λ r w,
    written (UpdateReport (mkReportObject (Report r) None) w))).

Definition Reconcile (w : W) : outcome (W * Answer) :=
  match GetReport request w with
  | Err IsNotFound => Ret (w, (false, None))
  | Err e => Ret (w, (false, Some e))
  | Ok r =>
      let r := mkReportObject (start_conditions (Now w) (Report r)) (AssociatedJob r) in
      match AssociatedJob r with
      | None => Ret (w, (false, None))
      | Some job =>
          match DeleteJob (JobNamespacedName job) w with
          | (w, Some e) =>
              if e == IsNotFound then
                '(w, e) ← forget_job w;
                Ret (w, match e with
                        | None | Some IsNotFound => (false, None)
                        | Some e => (true, Some e)
                        end)
              else Ret (w, (false, Some e))
          | (w, None) =>
              '(w, e) ← forget_job w;
              Ret (w, match e with
                      | None | Some IsNotFound => (false, None)
                      | Some e => (true, Some e)
                      end)
          end
      end
  end.
End reconciler.

(** [waitTime], in nanoseconds: the difference of two times saturates, the rest
    wraps. *)
Definition Sub (t u : GoTime) : Z :=
  (min_int64 `max` (nsec t - nsec u) `min` max_int64)%Z.

Definition waitTime (now timeToExecute : GoTime) (addRandom : Z) : Z :=
  let waitTime := Sub timeToExecute now in
  let waitTime := wrap64 (waitTime + wrap64 (60 * second * addRandom))%Z in
  if (waitTime <? 0)%Z then 0%Z else waitTime.

(** ** Properties *)

(** Nobody else writes; a write of the object leaves the status, which has a path of
    its own; the jobs are other objects. *)
Class ReportStore (LS W : Type) `{!ReportCluster LS W} := {
  reports : W → gmap NamespacedName (ReportObject LS);
  report_key : ReportObject LS → NamespacedName;
  report_key_job r j : report_key (mkReportObject (Report r) j) = report_key r;
  get_report_law k w :
    match GetReport k w with
    | Ok r => reports w !! k = Some r ∧ report_key r = k
    | Err _ => True
    end;
  update_report_law r w :
    match UpdateReport r w with
    | (w', Ok new) => ∃ old, reports w !! report_key r = Some old ∧
        MRStatus (Report new) = MRStatus (Report old) ∧ AssociatedJob new = AssociatedJob old ∧
        reports w' = <[report_key r := new]> (reports w)
    | (w', Err _) => reports w' = reports w
    end;
  delete_job_law k w : reports (DeleteJob k w).1 = reports w
}.

(** A report never forgets its job: the reference is in the status, and what is
    written is the object, whose status the server keeps. Neither are the first
    conditions of a report ever stored. *)
Theorem job_reference_stays {LS W} `{!ReportCluster LS W} `{!ReportStore LS W} `{!ConflictRetry}
    (request : NamespacedName) (w w' : W) (r : ReportObject LS) (answer : Answer) :
  reports w !! request = Some r → Reconcile request w = Ret (w', answer) →
  ∃ r', reports w' !! request = Some r' ∧ AssociatedJob r' = AssociatedJob r ∧
    MRStatus (Report r') = MRStatus (Report r).
Proof.
  set (P := λ w : W, ∃ r', reports w !! request = Some r' ∧ AssociatedJob r' = AssociatedJob r ∧
    MRStatus (Report r') = MRStatus (Report r)).
  intros Hr. assert (HP : P w) by by exists r.
  assert (Hforget : triple P (forget_job request) P P).
  { apply triple_Retry, triple_reading; [done|]. intros o w1 [(r1 & Hr1 & Ha & Hs) Hg].
    pose proof (get_report_law request w1) as Hl. rewrite Hg in Hl. destruct Hl as [Ho Hk].
    pose proof (update_report_law (mkReportObject (Report o) None) w1) as Hu.
    rewrite report_key_job, Hk in Hu.
    destruct (UpdateReport _ w1) as [w2 [new|e]]; cbn.
    - destruct Hu as (old & Hold & Hst & Hjob & Hw2). exists new.
      rewrite Hw2, lookup_insert_eq. split_and!; [done|congruence|congruence].
    - exists r1. by rewrite Hu. }
  assert (Hend : ∀ w1 f, P w1 →
    ('(w2, e) ← forget_job request w1; Ret (w2, f e : Answer)) = Ret (w', answer) → P w').
  { intros w1 f H1. specialize (Hforget w1 H1).
    destruct (forget_job request w1) as [[w2 [e|]]|]; cbn; [..|done]; by intros [= <- <-]. }
  unfold Reconcile. destruct (GetReport request w) as [o|[]]; try (by intros [= <- _]).
  cbn [AssociatedJob]. destruct (AssociatedJob o) as [job|]; [|by intros [= <- _]].
  pose proof (delete_job_law (JobNamespacedName job) w) as Hd.
  destruct (DeleteJob _ w) as [w1 e]; cbn in Hd.
  assert (H1 : P w1) by (destruct HP as (r1 & ? & ?); exists r1; by rewrite Hd).
  destruct e as [e|]; [|by apply Hend].
  case_bool_decide; [by apply Hend|by intros [= <- _]].
Qed.

(** A waiting time is never negative and fits a duration. It is the time until the
    moment and the minutes to add, or nothing when that has passed, as long as none of
    it leaves the range of a duration. *)
Theorem waitTime_spec (now timeToExecute : GoTime) (addRandom : Z) :
  let d := (nsec timeToExecute - nsec now)%Z in
  let m := (60 * second * addRandom)%Z in
  (0 ≤ waitTime now timeToExecute addRandom ≤ max_int64)%Z ∧
  ((min_int64 ≤ d ≤ max_int64)%Z → (min_int64 ≤ m ≤ max_int64)%Z →
   (min_int64 ≤ d + m ≤ max_int64)%Z →
   waitTime now timeToExecute addRandom = (0 `max` (d + m))%Z).
Proof.
  cbn zeta. unfold waitTime, Sub.
  set (d := (nsec timeToExecute - nsec now)%Z). set (m := (60 * second * addRandom)%Z).
  assert (Hid : ∀ z, (min_int64 ≤ z ≤ max_int64)%Z → wrap64 z = z).
  { intros z Hz. unfold wrap64, min_int64, max_int64 in *. rewrite Z.mod_small; lia. }
  assert (Hrange : ∀ z, (min_int64 ≤ wrap64 z ≤ max_int64)%Z).
  { intros z. unfold wrap64, min_int64, max_int64.
    pose proof (Z.mod_pos_bound (z + 2 ^ 63) (2 ^ 64) ltac:(lia)). lia. }
  split.
  - match goal with |- context [wrap64 (?x + ?y)%Z] => pose proof (Hrange (x + y)%Z) end.
    match goal with |- context [(?x <? 0)%Z] => destruct (Z.ltb_spec x 0) end;
      unfold min_int64, max_int64 in *; lia.
  - intros Hd Hm Hdm. rewrite (Hid m) by done.
    replace (min_int64 `max` d `min` max_int64)%Z with d by (unfold min_int64, max_int64 in *; lia). rewrite Hid by done.
    destruct (Z.ltb_spec (d + m) 0); lia.
Qed.
