(* ===== verification/ClusterServiceVersion.v ===== *)
(** * The cluster service version controller

    The model of [clusterserviceversion_controller.go]: an operator that is installed
    from a catalog may carry a meter definition in an annotation of its service
    version; the controller keeps the definition that is installed by the version in
    step with it. Decoding, the equality of Go values and the patch are arguments. *)

From S2P Require Import Prelude GoTime Conditions Workloads PromLabels MeterDefinition MeterReport Controllers.
Local Open Scope go_scope.

Definition olmCopiedFromTag : string := "olm.copiedFrom".
Definition olmNamespace : string := "olm.operatorNamespace".
Definition CSV_METERDEFINITION_ANNOTATION : string := "marketplace.redhat.com/meterDefinition".
Definition CSV_ANNOTATION_NAME : string := "csvName".
Definition CSV_ANNOTATION_NAMESPACE : string := "csvNamespace".

(** ** What wakes the controller up *)

(** A service version that carries a definition and is not a copy. *)
Definition csvFilter (metaNew : ObjectMeta) : bool :=
  let hasCopiedFrom := bool_decide (is_Some (Labels metaNew !! olmCopiedFromTag)) in
  let hasMeterDefinition := bool_decide (is_Some (Annotations metaNew !! CSV_METERDEFINITION_ANNOTATION)) in
  let hasOlmNamespace := bool_decide (is_Some (Annotations metaNew !! olmNamespace)) in
  hasOlmNamespace && hasMeterDefinition && !hasCopiedFrom.

Definition checkForUpdateToMdef (old new : ObjectMeta) : bool :=
  let value (m : gmap string string) k := default "" (m !! k) in
  csvFilter new &&
  ((value (Annotations old) CSV_METERDEFINITION_ANNOTATION
      != value (Annotations new) CSV_METERDEFINITION_ANNOTATION)
   || (value (Labels old) olmCopiedFromTag != value (Labels new) olmCopiedFromTag)
   || (value (Annotations old) olmNamespace != value (Annotations new) olmNamespace)).

(** ** Building a definition from its text *)

Section build.
Context {LS : Type}.

Definition csv_meta (name namespace : string) (m : ObjectMeta) : ObjectMeta :=
  mkMeta (Name m) namespace (UID m) (Generation m) (Labels m)
    {[ CSV_ANNOTATION_NAME := name; CSV_ANNOTATION_NAMESPACE := namespace ]} (OwnerReferences m).

(** [BuildMeterDefinitionFromString] of both versions; what was decoded before an
    error stays in the object. *)
Definition build_beta (decoded : V1Beta1.MeterDefinition LS * option string)
    (name namespace : string) : V1Beta1.MeterDefinition LS * option string :=
  match decoded with
  | (m, Some e) => (m, Some e)
  | (m, None) =>
      let s := V1Beta1.Spec m in
      (V1Beta1.mkMeterDefinition LS (csv_meta name namespace (V1Beta1.Meta m))
         (V1Beta1.mkSpec LS (V1Beta1.Group s) (V1Beta1.SKind s) (V1Beta1.ResourceFilters s)
            (V1Beta1.Meters s) (Some (mkNNRef "" namespace name None)))
         (V1Beta1.Status m), None)
  end.

Definition build_alpha (decoded : V1Alpha1.MeterDefinition LS * option string)
    (name namespace : string) : V1Alpha1.MeterDefinition LS * option string :=
  match decoded with
  | (m, Some e) => (m, Some e)
  | (m, None) =>
      let s := V1Alpha1.Spec m in
      (V1Alpha1.mkMeterDefinition LS (csv_meta name namespace (V1Alpha1.Meta m))
         (V1Alpha1.mkSpec LS (V1Alpha1.Group s) (V1Alpha1.SKind s)
            (Some (mkNNRef "" namespace name None))
            (V1Alpha1.WorkloadVertexType s) (V1Alpha1.VertexLabelSelector s)
            (V1Alpha1.Workloads s) (V1Alpha1.Version s) (V1Alpha1.ServiceMeterLabels s)
            (V1Alpha1.PodMeterLabels s))
         (V1Alpha1.Status m), None)
  end.
End build.

(** ** The interface to the cluster *)

(** A list of a namespace, or of all when it is empty; the patch is a text. *)
Class CSVCluster (LS W : Type) := {
  GetCSV : NamespacedName → W → result ClientError ObjectMeta;
  ListDefinitions : string → W → result ClientError (list (V1Beta1.MeterDefinition LS));
  DeleteDefinition : V1Beta1.MeterDefinition LS → W → W * option ClientError;
  PatchDefinition : V1Beta1.MeterDefinition LS → string → W → W * option ClientError;
  CreateDefinition : V1Beta1.MeterDefinition LS → W → W * option ClientError
}.

(** Run again at once, or after some time; and the error. *)
Record Answer := mkAnswer { Requeue : bool; RequeueAfter : Z; Error : option ClientError }.
Definition finished : Answer := mkAnswer false 0 None.
Definition failing (e : ClientError) : Answer := mkAnswer false 0 (Some e).

Definition zero_definition {LS} : V1Beta1.MeterDefinition LS :=
  V1Beta1.mkMeterDefinition LS (mkMeta "" "" "" 0 ∅ ∅ [])
    (V1Beta1.mkSpec LS "" "" [] [] None) (mkMeterDefinitionStatus [] [] []).

Definition with_meta {LS} (m : ObjectMeta) (d : V1Beta1.MeterDefinition LS)
    : V1Beta1.MeterDefinition LS := V1Beta1.mkMeterDefinition LS m (V1Beta1.Spec d) (V1Beta1.Status d).

Definition owned_by (ref : OwnerReference) (namespace : string) (m : ObjectMeta) : ObjectMeta :=
  mkMeta (Name m) namespace (UID m) (Generation m) (Labels m) (Annotations m)
    (OwnerReferences m ++ [ref]).

Section reconciler.
Context {LS W : Type} `{!CSVCluster LS W}.
(** The version of the text's kind, when it can be told; whether the text is an
    object at all; and the object as each version, with what was read of it before an
    error. *)
Variable objectVersion : string → option string.
Variable decodes : string → bool.
Variable decode_beta : string → V1Beta1.MeterDefinition LS * option string.
Variable decode_alpha : string → V1Alpha1.MeterDefinition LS * option string.
(** [reflect.DeepEqual] on specifications and metadata, the encoding of a
    definition, and the kind of a service version. *)
Variable spec_equal : V1Beta1.MeterDefinitionSpec LS → V1Beta1.MeterDefinitionSpec LS → bool.
Variable meta_equal : ObjectMeta → ObjectMeta → bool.
Variable Marshal : V1Beta1.MeterDefinition LS → result ClientError string.
Variable GVKForObject : result ClientError GroupVersionKind.
Variable request : NamespacedName.

(** The definition of an annotation's text. Errors are only logged; a kind that cannot
    be told is dereferenced. *)
Definition build_definition (text : string) (CSV : ObjectMeta)
    : outcome (V1Beta1.MeterDefinition LS) :=
  if !(decodes text) then Ret zero_definition else
  match objectVersion text with
  | None => Panic
  | Some version =>
      if version == "v1beta1" then
        Ret (build_beta (decode_beta text) (Name CSV) (Namespace CSV)).1
      else if version == "v1alpha1" then
        match build_alpha (decode_alpha text) (Name CSV) (Namespace CSV) with
        | (_, Some _) => Ret zero_definition
        | (alpha, None) =>
            Ret match ConvertTo alpha with Ok m => m | Err _ => zero_definition end
        end
      else Ret zero_definition
  end.

Definition installed_by (CSV : ObjectMeta) (meterDef : V1Beta1.MeterDefinition LS) : bool :=
  match V1Beta1.InstalledBy (V1Beta1.Spec meterDef) with
  | Some ref => (RefNamespace ref == Namespace CSV) && (RefName ref == Name CSV)
  | None => false
  end.

Definition def_name (m : V1Beta1.MeterDefinition LS) : string := Name (V1Beta1.Meta m).

(** A definition of another name is deleted: what is left of the one found. *)
Definition drop_renamed (actual : option (V1Beta1.MeterDefinition LS))
    (m : V1Beta1.MeterDefinition LS) (w : W)
    : W * result ClientError (option (V1Beta1.MeterDefinition LS)) :=
  match actual with
  | Some d =>
      if def_name d != def_name m then
        match DeleteDefinition d w with
        | (w, Some e) => (w, Err e)
        | (w, None) => (w, Ok None)
        end
      else (w, Ok actual)
  | None => (w, Ok None)
  end.

Definition update_definition (d m : V1Beta1.MeterDefinition LS) (w : W) : W * Answer :=
  if !(spec_equal (V1Beta1.Spec m) (V1Beta1.Spec d))
     && !(meta_equal (V1Beta1.Meta m) (V1Beta1.Meta d)) then
    match Marshal m with
    | Err e => (w, failing e)
    | Ok patch =>
        match PatchDefinition m patch w with
        | (w, e) => (w, mkAnswer true 0 e)
        end
    end
  else (w, finished).

Definition create_definition (CSV : ObjectMeta) (m : V1Beta1.MeterDefinition LS) (w : W)
    : W * Answer :=
  match GVKForObject with
  | Err e => (w, failing e)
  | Ok gvk =>
      let ref := mkOwnerRef (APIVersion gvk) (Kind gvk) (Name CSV) (UID CSV) in
      match CreateDefinition (with_meta (owned_by ref (Namespace CSV) (V1Beta1.Meta m)) m) w with
      | (w, Some e) => (w, failing e)
      | (w, None) => (w, finished)
      end
  end.

Definition track (CSV : ObjectMeta) (m : V1Beta1.MeterDefinition LS) (w : W) : W * Answer :=
  match ListDefinitions (Namespace (V1Beta1.Meta m)) w with
  | Err e => (w, failing e)
  | Ok items =>
      match drop_renamed (List.find (installed_by CSV) items) m w with
      | (w, Err e) => (w, failing e)
      | (w, Ok (Some d)) => update_definition d m w
      | (w, Ok None) => create_definition CSV m w
      end
  end.

Definition Reconcile (w : W) : outcome (W * Answer) :=
  match GetCSV request w with
  | Err IsNotFound => Ret (w, finished)
  | Err e => Ret (w, failing e)
  | Ok CSV =>
      match Annotations CSV !! CSV_METERDEFINITION_ANNOTATION with
      | None => Ret (w, finished)
      | Some text =>
          if text == "" then Ret (w, finished) else
          match Annotations CSV !! olmNamespace with
          | None => Ret (w, mkAnswer false (5 * 1000000000) None)
          | Some ns =>
              if ns != Namespace CSV then Ret (w, finished) else
              m ← build_definition text CSV; Ret (track CSV m w)
          end
      end
  end.
End reconciler.

(** ** The laws of the cluster *)

Definition def_key {LS} (m : V1Beta1.MeterDefinition LS) : NamespacedName :=
  mkNN (Namespace (V1Beta1.Meta m)) (Name (V1Beta1.Meta m)).

(** Nobody else writes, and what is read is what is stored. A patch changes one
    definition, as the server merges it. *)
Class CSVStore (LS W : Type) `{!CSVCluster LS W} := {
  definitions : W → gmap NamespacedName (V1Beta1.MeterDefinition LS);
  definitions_keyed k w m : definitions w !! k = Some m → def_key m = k;
  list_definitions_law ns w l :
    ListDefinitions ns w = Ok l →
    ∀ m, m ∈ l ↔ definitions w !! def_key m = Some m ∧ (ns = "" ∨ Namespace (V1Beta1.Meta m) = ns);
  delete_definition_law m w :
    match DeleteDefinition m w with
    | (w', None) => definitions w' = delete (def_key m) (definitions w)
    | (w', Some _) => definitions w' = definitions w
    end;
  create_definition_law m w :
    match CreateDefinition m w with
    | (w', None) => definitions w !! def_key m = None ∧ ∃ new,
        V1Beta1.Spec new = V1Beta1.Spec m ∧
        OwnerReferences (V1Beta1.Meta new) = OwnerReferences (V1Beta1.Meta m) ∧
        definitions w' = <[def_key m := new]> (definitions w)
    | (w', Some _) => definitions w' = definitions w
    end;
  patch_definition_law m p w :
    match PatchDefinition m p w with
    | (w', None) => ∃ new, definitions w' = <[def_key m := new]> (definitions w)
    | (w', Some _) => definitions w' = definitions w
    end
}.

(** ** Properties *)

(** A service version wakes the controller when it is made or changed only if it
    carries a definition and is no copy, and a change only when it concerns one of the
    three values the controller reads. *)
Theorem checkForUpdateToMdef_spec (old new : ObjectMeta) :
  checkForUpdateToMdef old new = true →
  csvFilter new = true ∧
  ((∃ text, Annotations new !! CSV_METERDEFINITION_ANNOTATION = Some text ∧
      Annotations old !! CSV_METERDEFINITION_ANNOTATION ≠ Some text) ∨
   (is_Some (Labels old !! olmCopiedFromTag) ∧ Labels new !! olmCopiedFromTag = None) ∨
   (∃ ns, Annotations new !! olmNamespace = Some ns ∧ Annotations old !! olmNamespace ≠ Some ns)).
Proof.
  unfold checkForUpdateToMdef. cbv zeta.
  intros [Hf Hch]%andb_true_iff. split; [done|].
  unfold csvFilter in Hf. go_bool.
  apply orb_true_iff in Hch as [[Hch|Hch]%orb_true_iff|Hch]; apply negb_true_iff, bool_decide_eq_false in Hch.
  - left. match goal with Hs : is_Some (_ !! CSV_METERDEFINITION_ANNOTATION) |- _ => destruct Hs as [t Ht] end.
    exists t. split; [done|]. intros He. by rewrite He, Ht in Hch.
  - right; left. match goal with Hs : ¬ is_Some _ |- _ => apply eq_None_not_Some in Hs as Hn end.
    split; [|done]. rewrite Hn in Hch. by destruct (Labels old !! _).
  - right; right. match goal with Hs : is_Some (_ !! olmNamespace) |- _ => destruct Hs as [t Ht] end.
    exists t. split; [done|]. intros He. by rewrite He, Ht in Hch.
Qed.

(** The definition that is built of a text carries no signature: the annotations of
    the text, where a signature is kept, are replaced. *)
Theorem built_is_unsigned {LS} (beta : V1Beta1.MeterDefinition LS * option string)
    (alpha : V1Alpha1.MeterDefinition LS * option string) (name namespace : string)
    (m : V1Beta1.MeterDefinition LS) :
  beta.2 = None → alpha.2 = None →
  V1Beta1.IsSigned (build_beta beta name namespace).1 = false ∧
  (ConvertTo (build_alpha alpha name namespace).1 = Ok m → V1Beta1.IsSigned m = false).
Proof.
  destruct beta as [b [e|]], alpha as [a [e'|]]; cbn; try done. intros _ _. split; [done|].
  unfold ConvertTo; cbn. destruct (mapM_result _ _); cbn; [|done]. by intros [= <-].
Qed.

Section properties.
Context {LS W : Type} `{!CSVCluster LS W} `{!CSVStore LS W}.
Variable objectVersion : string → option string.
Variable decodes : string → bool.
Variable decode_beta : string → V1Beta1.MeterDefinition LS * option string.
Variable decode_alpha : string → V1Alpha1.MeterDefinition LS * option string.
Variable spec_equal : V1Beta1.MeterDefinitionSpec LS → V1Beta1.MeterDefinitionSpec LS → bool.
Variable meta_equal : ObjectMeta → ObjectMeta → bool.
Variable Marshal : V1Beta1.MeterDefinition LS → result ClientError string.
Variable GVKForObject : result ClientError GroupVersionKind.
Variable request : NamespacedName.

Notation build := (build_definition objectVersion decodes decode_beta decode_alpha).
Notation run := (Reconcile objectVersion decodes decode_beta decode_alpha spec_equal meta_equal
  Marshal GVKForObject request).

(** The controller is asked about [CSV], which carries [text]. *)
Definition carries (w : W) (CSV : ObjectMeta) (text : string) : Prop :=
  GetCSV request w = Ok CSV ∧ Annotations CSV !! CSV_METERDEFINITION_ANNOTATION = Some text ∧
  text ≠ "" ∧ Annotations CSV !! olmNamespace = Some (Namespace CSV).

Lemma run_carries w CSV text m :
  carries w CSV text → build text CSV = Ret m →
  run w = Ret (track spec_equal meta_equal Marshal GVKForObject CSV m w).
Proof.
  intros (Hg & Ha & Ht & Hn) Hb. unfold Reconcile. rewrite Hg, Ha.
  rewrite bool_decide_false, Hn, bool_decide_true by done. cbn [negb]. by rewrite Hb.
Qed.

Lemma installed_by_spec CSV (d : V1Beta1.MeterDefinition LS) :
  installed_by CSV d = true ↔ ∃ ref, V1Beta1.InstalledBy (V1Beta1.Spec d) = Some ref ∧
    RefNamespace ref = Namespace CSV ∧ RefName ref = Name CSV.
Proof.
  unfold installed_by. destruct (V1Beta1.InstalledBy _) as [ref|]; [|naive_solver].
  rewrite andb_true_iff, !bool_decide_eq_true. naive_solver.
Qed.

(** The outcome of a making: what is stored then. *)
Lemma create_definition_makes CSV (m : V1Beta1.MeterDefinition LS) w w' answer :
  create_definition GVKForObject CSV m w = (w', answer) →
  Namespace (V1Beta1.Meta m) = Namespace CSV → Error answer = None →
  ∃ d, V1Beta1.Spec d = V1Beta1.Spec m ∧
    Exists (λ o, ORName o = Name CSV ∧ ORUID o = UID CSV) (OwnerReferences (V1Beta1.Meta d)) ∧
    definitions w' = <[def_key m := d]> (definitions w).
Proof.
  unfold create_definition. intros Hrun Hns He.
  destruct GVKForObject as [gvk|e]; [|by inversion Hrun; subst].
  set (made := with_meta _ m) in Hrun. pose proof (create_definition_law made w) as Hlaw.
  destruct (CreateDefinition made w) as [w1 [e|]]; inversion Hrun; subst; [done|].
  destruct Hlaw as (_ & d & Hs & Ho & Hd). exists d. split; [done|]. split.
  - rewrite Ho. cbn. apply Exists_app. right. by constructor.
  - rewrite Hd. unfold def_key. cbn. by rewrite Hns.
Qed.

(** What one run may do to the definitions it is not about: one may go. *)
Definition others_stay (CSV : ObjectMeta) (key : NamespacedName) (w w' : W) : Prop :=
  ∃ gone : option NamespacedName, ∀ k, k ≠ key →
    if decide (gone = Some k) then definitions w' !! k = None ∧
      ∃ d, definitions w !! k = Some d ∧ installed_by CSV d = true
    else definitions w' !! k = definitions w !! k.

Lemma others_stay_refl CSV key w : others_stay CSV key w w.
Proof. exists None. intros k _. by rewrite decide_False. Qed.

Lemma drop_renamed_spec CSV ns (m : V1Beta1.MeterDefinition LS) items w w' r :
  ListDefinitions ns w = Ok items → ns ≠ "" → Namespace (V1Beta1.Meta m) = ns →
  drop_renamed (List.find (installed_by CSV) items) m w = (w', Ok r) →
  match r with
  | Some d => w' = w ∧ definitions w !! def_key m = Some d ∧ installed_by CSV d = true
  | None => others_stay CSV (def_key m) w w'
  end.
Proof.
  intros Hl Hns Hm. pose proof (list_definitions_law _ _ _ Hl) as Hitems. unfold drop_renamed.
  destruct (List.find _ _) as [d|] eqn:Hf; [|intros [= <- <-]; apply others_stay_refl].
  apply find_some in Hf as [Hin Hby]. apply list_elem_of_In, Hitems in Hin as [Hd [->|Hdns]]; [done|].
  destruct (decide (def_name d = def_name m)) as [Hname|Hname].
  - rewrite bool_decide_true by done. cbn [negb]. intros [= <- <-]. split; [done|]. split; [|done].
    assert (Hk : def_key m = def_key d); [|by rewrite Hk].
    unfold def_key, def_name in *. congruence.
  - rewrite bool_decide_false by done. cbn [negb]. pose proof (delete_definition_law d w) as Hdel.
    destruct (DeleteDefinition d w) as [w1 [e|]]; [by intros [=]|]. intros [= <- <-]. exists (Some (def_key d)).
    intros k _. rewrite Hdel. case_decide as Hk; [injection Hk as <-|apply lookup_delete_ne; congruence].
    split; [apply lookup_delete_eq|by exists d].
Qed.

(** C20: a service version and the definition it installs stay in step. When
    the text of its annotation gives a definition for it, and the run ends without an
    error and without asking to be run again, a definition of that name is stored that
    is installed by the version: it was just made, with the version among its owners,
    or it was there and equal to the expected one in its specification or its
    metadata. No other definition was changed, but for one that the version had
    installed under another name, which is gone. *)
Theorem Reconcile_tracks (w w' : W) (CSV : ObjectMeta) (text : string)
    (m : V1Beta1.MeterDefinition LS) (answer : Answer) :
  carries w CSV text → Namespace CSV ≠ "" → build text CSV = Ret m →
  Namespace (V1Beta1.Meta m) = Namespace CSV → installed_by CSV m = true →
  run w = Ret (w', answer) → Error answer = None → Requeue answer = false →
  (∃ d, definitions w' !! def_key m = Some d ∧ installed_by CSV d = true ∧
     ((V1Beta1.Spec d = V1Beta1.Spec m ∧
       Exists (λ o, ORName o = Name CSV ∧ ORUID o = UID CSV) (OwnerReferences (V1Beta1.Meta d))) ∨
      (definitions w' = definitions w ∧
       (spec_equal (V1Beta1.Spec m) (V1Beta1.Spec d) = true ∨
        meta_equal (V1Beta1.Meta m) (V1Beta1.Meta d) = true)))) ∧
  others_stay CSV (def_key m) w w'.
Proof.
  intros Hc Hns Hb Hmns Hinst Hrun. rewrite (run_carries _ _ _ _ Hc Hb) in Hrun.
  injection Hrun as Hrun. revert Hrun. unfold track. rewrite Hmns.
  destruct (ListDefinitions (Namespace CSV) w) as [items|e] eqn:Hl; [|by intros [= <- <-]].
  destruct (drop_renamed _ m w) as [w1 [[d|]|e]] eqn:Hdrop; [..|by intros [= <- <-]].
  - destruct (drop_renamed_spec _ _ _ _ _ _ _ Hl Hns Hmns Hdrop) as (-> & Hd & Hby).
    unfold update_definition. case_go.
    + destruct (Marshal m); [|by intros [= <- <-]].
      destruct (PatchDefinition _ _ _). by intros [= <- <-].
    + intros [= <- <-] _ _. split; [|apply others_stay_refl]. exists d. split; [done|]. split; [done|]. right.
      split; [done|]. by destruct (spec_equal _ _), (meta_equal _ _); auto.
  - pose proof (drop_renamed_spec _ _ _ _ _ _ _ Hl Hns Hmns Hdrop) as Hothers.
    intros Hcreate He _. destruct (create_definition_makes _ _ _ _ _ Hcreate Hmns He)
      as (d & Hs & Ho & Hd). split.
    + exists d. rewrite Hd, lookup_insert_eq. split; [done|]. split; [|by left].
      unfold installed_by. by rewrite Hs.
    + destruct Hothers as [gone Hothers]. exists gone. intros k Hk.
      rewrite Hd, lookup_insert_ne by done. by apply Hothers.
Qed.

(** A text no definition can be built of takes the installed one with it: the built
    definition has no name, the one found has another, and is deleted. *)
Theorem broken_annotation_deletes (w w' : W) (CSV : ObjectMeta) (text : string)
    (items : list (V1Beta1.MeterDefinition LS)) (d : V1Beta1.MeterDefinition LS) (answer : Answer) :
  carries w CSV text → decodes text = false →
  ListDefinitions "" w = Ok items → List.find (installed_by CSV) items = Some d →
  def_name d ≠ "" → (DeleteDefinition d w).2 = None →
  run w = Ret (w', answer) → definitions w' !! def_key d = None.
Proof.
  intros Hc Hdec Hl Hf Hn Hok Hrun.
  assert (Hb : build text CSV = Ret zero_definition) by (unfold build_definition; by rewrite Hdec).
  rewrite (run_carries _ _ _ _ Hc Hb) in Hrun. injection Hrun as Hrun. revert Hrun.
  unfold track, zero_definition. cbn [V1Beta1.Meta Namespace]. rewrite Hl, Hf. unfold drop_renamed.
  rewrite (bool_decide_false (def_name d = _)) by done. cbn [negb].
  pose proof (delete_definition_law d w) as Hdel.
  destruct (DeleteDefinition d w) as [w1 e]; cbn in Hok; subst e.
  unfold create_definition. destruct GVKForObject as [gvk|e];
    [|intros [= <- <-]; rewrite Hdel; apply lookup_delete_eq].
  set (made := with_meta _ _). pose proof (create_definition_law made w1) as Hmade.
  destruct (CreateDefinition made w1) as [w2 [e|]]; intros [= <- <-].
  - rewrite Hmade, Hdel. apply lookup_delete_eq.
  - destruct Hmade as (_ & new & _ & _ & ->). rewrite lookup_insert_ne, Hdel by (intros Hk; apply Hn; injection Hk; done).
    apply lookup_delete_eq.
Qed.
End properties.

(** ** A cluster with one definition *)

Notation OneDefinition := (option (V1Beta1.MeterDefinition unit)).

Definition toy_CSV : ObjectMeta :=
  mkMeta "operator.v2" "ns" "uid-2" 1 ∅
    {[ CSV_METERDEFINITION_ANNOTATION := "kind: MeterDefinition"; olmNamespace := "ns" ]} [].

Definition toy_definition (name : string) : V1Beta1.MeterDefinition unit :=
  (build_beta (with_meta (mkMeta name "" "" 1 ∅ ∅ []) zero_definition, None) "operator.v2" "ns").1.

#[local] Instance one_definition : CSVCluster unit OneDefinition := {|
  GetCSV _ _ := Ok toy_CSV;
  ListDefinitions ns w :=
    Ok match w with
       | Some o => if (ns == "") || (Namespace (V1Beta1.Meta o) == ns) then [o] else []
       | None => []
       end;
  DeleteDefinition m w :=
    match w with
    | Some o => if def_key o == def_key m then (None, None) else (w, Some IsNotFound)
    | None => (w, Some IsNotFound)
    end;
  PatchDefinition m _ w :=
    match w with
    | Some o => if def_key o == def_key m then (Some m, None) else (w, Some IsNotFound)
    | None => (w, Some IsNotFound)
    end;
  CreateDefinition m w :=
    match w with Some _ => (w, Some AlreadyExists) | None => (Some m, None) end
|}.

#[local, refine] Instance one_definition_store : CSVStore unit OneDefinition := {|
  definitions := singleton_by def_key
|}.
Proof.
  - intros w k m Hm. by apply (singleton_by_lookup def_key) in Hm as [_ ?].
  - intros ns w l [= <-] m. rewrite (singleton_by_lookup def_key). destruct w as [o|]; [|set_solver].
    destruct (bool_decide_reflect (ns = "")), (bool_decide_reflect (Namespace (V1Beta1.Meta o) = ns));
      cbn; set_solver.
  - intros m [o|]; cbn [DeleteDefinition one_definition]; [|done].
    destruct (bool_decide_reflect (def_key o = def_key m)) as [Hk|]; [|done].
    rewrite <- Hk. symmetry. apply delete_singleton_eq.
  - intros m [o|]; cbn [CreateDefinition one_definition]; [done|].
    split; [by apply lookup_empty|]. exists m. split_and!; [done..|].
    cbn [singleton_by]. by rewrite insert_empty.
  - intros m p [o|]; cbn [PatchDefinition one_definition]; [|done].
    destruct (bool_decide_reflect (def_key o = def_key m)) as [Hk|]; [|done].
    exists m. by apply (singleton_by_insert def_key).
Defined.

Definition toy_beta (text : string) : V1Beta1.MeterDefinition unit * option string :=
  (with_meta (mkMeta "new" "" "" 1 ∅ ∅ []) zero_definition, None).
Definition toy_alpha (text : string) : V1Alpha1.MeterDefinition unit * option string :=
  (V1Alpha1.zero (mkMeta "" "" "" 0 ∅ ∅ []), None).

Definition toy_track : outcome (OneDefinition * Answer) :=
  Reconcile (λ _, Some "v1beta1") (λ _, true)
    toy_beta toy_alpha
    (λ _ _, false) (λ _ _, false) (λ _, Ok "{}") (Ok (mkGVK "operators.coreos.com/v1alpha1" "ClusterServiceVersion"))
    (mkNN "ns" "operator.v2") (Some (toy_definition "old")).

Lemma Reconcile_tracks_witness :
  ∃ w' answer, toy_track = Ret (w', answer) ∧ answer = finished ∧
    (∃ d, singleton_by def_key w' !! mkNN "ns" "new" = Some d ∧ installed_by toy_CSV d = true) ∧
    singleton_by def_key w' !! mkNN "ns" "old" = None.
Proof.
  destruct toy_track as [[w' answer]|] eqn:Hrun; [|discriminate Hrun].
  exists w', answer. 
  assert (Ha : answer = finished) by (vm_compute in Hrun; by injection Hrun).
  subst answer. split; [done|]. split; [done|].
  destruct (Reconcile_tracks (LS := unit) (W := OneDefinition) (λ _, Some "v1beta1") (λ _, true)
    toy_beta toy_alpha
    (λ _ _, false) (λ _ _, false) (λ _, Ok "{}") (Ok (mkGVK "operators.coreos.com/v1alpha1" "ClusterServiceVersion"))
    (mkNN "ns" "operator.v2") (Some (toy_definition "old")) w' toy_CSV "kind: MeterDefinition"
    (toy_definition "new") finished) as [(d & Hd & Hby & _) Ho].
  - by split_and!.
  - done.
  - reflexivity.
  - reflexivity.
  - reflexivity.
  - exact Hrun.
  - reflexivity.
  - reflexivity.
  - split; [by exists d|]. destruct Ho as [gone Ho]. specialize (Ho (mkNN "ns" "old") ltac:(done)).
    destruct (decide (gone = _)); [exact (proj1 Ho)|]. vm_compute in Hrun. injection Hrun as <-. reflexivity.
Defined.
