(* ===== verification/ReporterSetup.v ===== *)
(** * Setting up a reporter

    The model of what [NewReporter] ([reporter/v2/pkg/reporter/wire_gen.go]) puts
    together from [report_task.go]: the report with its identifier, the Prometheus
    to ask, the definitions the report refers to, and the objects that describe the
    cluster. The cluster is the interface [SetupClient]; Prometheus clients, the
    serialiser and the order of [sort.Slice] are arguments. *)

From S2P Require Import Prelude GoTime Conditions Workloads Reports MeterDefinition MeterReport FileServer Reporter PromLabels Schema Writer Collect PrometheusAPI.
Local Open Scope go_scope.

Definition MARKETPLACECONFIG_NAME : string := "marketplaceconfig".

(** The part of [Config] the set-up reads. *)
Record SetupConfig := mkSetupConfig {
  CaFile : string;
  TokenFile : string;
  DeployedNamespace : string;
  RunsLocal : bool;
  CfgPrometheusService : string;
  CfgPrometheusNamespace : string;
  CfgPrometheusPort : string;
  CfgReporterSchema : string;
  CfgRetry : Z
}.

Definition report_key {LS} (r : MeterReport LS) : NamespacedName :=
  mkNN (Namespace (MRMeta r)) (Name (MRMeta r)).

(** The reads of the set-up, and [client.Update], which writes metadata and
    specification: the status has a path of its own. The answer is what is stored. *)
Class SetupClient (LS W : Type) `{!StatusClient LS W} := {
  NewUUID : W → string;
  UpdateObject : MeterReport LS → W → W * result ClientError (MeterReport LS);
  GetMktConfig : NamespacedName → W → result ClientError MarketplaceConfig;
  GetDefinition : NamespacedName → W → result ClientError (V1Beta1.MeterDefinition LS);
  stored_key k (r : MeterReport LS) w : stored_reports w !! k = Some r → report_key r = k;
  update_object_law (r : MeterReport LS) w :
    match UpdateObject r w with
    | (w', Ok new) => report_key new = report_key r ∧ MRSpec new = MRSpec r ∧
        ∃ old, stored_reports w !! report_key r = Some old ∧ MRStatus new = MRStatus old ∧
          stored_reports w' = <[report_key r := new]> (stored_reports w)
    | (w', Err _) => stored_reports w' = stored_reports w
    end
}.

Section setup.
Context {LS W : Type} `{!StatusClient LS W} `{!SetupClient LS W} `{!ConflictRetry}.

Definition with_spec (f : MeterReportSpec LS → MeterReportSpec LS) (r : MeterReport LS)
    : MeterReport LS := mkMeterReport _ (MRMeta r) (f (MRSpec r)) (MRStatus r).

Definition with_uuid (id : string) : MeterReport LS → MeterReport LS :=
  with_spec (λ s, mkMeterReportSpec _ id (StartTime s) (EndTime s) (PrometheusService s)
                    (MeterDefinitionReferences s) (ExtraArgs s)).

Definition with_references (defs : list (V1Beta1.MeterDefinitionReference LS))
    : MeterReport LS → MeterReport LS :=
  with_spec (λ s, mkMeterReportSpec _ (ReportUUID s) (StartTime s) (EndTime s)
                    (PrometheusService s) defs (ExtraArgs s)).

(** A write leaves the server's answer in the object it was given. *)
Definition put_report (report : MeterReport LS) (w : W)
    : (W * option (MeterReport LS)) * option ClientError :=
  match UpdateObject report w with
  | (w, Ok new) => ((w, Some new), None)
  | (w, Err e) => ((w, Some report), Some e)
  end.

(** ** The report *)

(** One attempt, on the world and the report as last read. *)
Definition get_report_attempt (key : NamespacedName) (st : W * option (MeterReport LS))
    : (W * option (MeterReport LS)) * option ClientError :=
  match GetReport key st.1 with
  | Err e => (st, Some e)
  | Ok report =>
      if ReportUUID (MRSpec report) == "" then put_report (with_uuid (NewUUID st.1) report) st.1
      else ((st.1, Some report), None)
  end.

Definition getMarketplaceReport (key : NamespacedName) (w : W)
    : W * result ClientError (MeterReport LS) :=
  match RetryOnConflict (get_report_attempt key) (w, None) with
  | ((w, _), Some e) => (w, Err e)
  | ((w, Some report), None) => (w, Ok report)
  | ((w, None), None) => (w, Err IsNotFound)
  end.

Definition getMarketplaceConfig (cfg : SetupConfig) (w : W)
    : result ClientError MarketplaceConfig :=
  GetMktConfig (mkNN (DeployedNamespace cfg) MARKETPLACECONFIG_NAME) w.

(** ** Prometheus *)

Context `{!PrometheusResources W}.

Definition getPrometheusService (cfg : SetupConfig) (w : W) : result string (option Service) :=
  if RunsLocal cfg then Ok None
  else if (CfgPrometheusService cfg == "") || (CfgPrometheusNamespace cfg == "")
  then Err "no prometheus configured"
  else match GetService (mkNN (CfgPrometheusNamespace cfg) (CfgPrometheusService cfg)) w with
       | Err e => Err (client_error e)
       | Ok service => Ok (Some service)
       end.

(** The last port of the name; a missing service is dereferenced. *)
Definition getPrometheusPort (cfg : SetupConfig) (service : option Service)
    : outcome (result string (option ServicePort)) :=
  if RunsLocal cfg then Ret (Ok None)
  else match service with
       | None => Panic
       | Some service =>
           Ret match named_port (CfgPrometheusPort cfg) (Ports service) with
               | None => Err ("cannot find port: " +:+ CfgPrometheusPort cfg)
               | Some port => Ok (Some port)
               end
       end.

Definition providePrometheusSetup (cfg : SetupConfig) (service : option Service)
    (port : option ServicePort) : PrometheusAPISetup :=
  mkSetup service port (CaFile cfg) (TokenFile cfg) (RunsLocal cfg).

(** ** The definitions of the report *)

(** A reference without a specification is completed from the cluster. *)
Fixpoint complete_references (refs : list (V1Beta1.MeterDefinitionReference LS)) (w : W)
    : result ClientError (list (V1Beta1.MeterDefinitionReference LS)) :=
  match refs with
  | [] => Ok []
  | ref :: refs =>
      ref ← match V1Beta1.RSpec ref with
            | Some _ => Ok ref
            | None =>
                mdef ← GetDefinition (mkNN (V1Beta1.RNamespace ref) (V1Beta1.RName ref)) w;
                Ok (V1Beta1.mkReference _ (V1Beta1.RName ref) (V1Beta1.RNamespace ref)
                      (UID (V1Beta1.Meta mdef)) (V1Beta1.RResourceVersion ref)
                      (Some (V1Beta1.Spec mdef)))
            end;
      refs ← complete_references refs w; Ok (ref :: refs)
  end.

(** [reflect.DeepEqual] of two lists of references. *)
Variable refs_equal : list (V1Beta1.MeterDefinitionReference LS) →
  list (V1Beta1.MeterDefinitionReference LS) → bool.

(** The closure assigns the references before it writes, and does not read again. *)
Definition references_attempt (defs : list (V1Beta1.MeterDefinitionReference LS))
    (st : W * option (MeterReport LS)) : (W * option (MeterReport LS)) * option ClientError :=
  match st with
  | (w, None) => (st, None)
  | (w, Some report) =>
      if refs_equal (MeterDefinitionReferences (MRSpec report)) defs then (st, None)
      else put_report (with_references defs report) w
  end.

Definition getMeterDefinitionReferences (report : MeterReport LS) (w : W)
    : W * result ClientError (list (V1Beta1.MeterDefinitionReference LS)) :=
  match complete_references (MeterDefinitionReferences (MRSpec report)) w with
  | Err e => (w, Err e)
  | Ok defs =>
      match RetryOnConflict (references_attempt defs) (w, Some report) with
      | ((w, _), Some e) => (w, Err e)
      | ((w, _), None) => (w, Ok defs)
      end
  end.
End setup.

(** ** The objects that describe the cluster *)

(** The fields the report takes of each object; a missing time is a nil pointer. *)
Record UpdateHistory := mkHistory { CompletionTime : option GoTime; HVersion : string }.
Record ClusterVersion := mkClusterVersion {
  CVName : string; CVCreated : GoTime; CVClusterID : string; CVHistory : list UpdateHistory
}.
Record Console := mkConsole { CoName : string; CoCreated : GoTime; CoURL : string }.
Record Infrastructure := mkInfrastructure {
  InName : string; InCreated : GoTime; PlatformType : option string;
  ControlPlaneTopology : string; InfrastructureTopology : string
}.
Record Node := mkNode {
  NoName : string; NoCreated : GoTime; NoLabels : gmap string string;
  Capacity : gmap string string; Architecture : string; OperatingSystem : string
}.

Inductive InfraObject :=
| OClusterVersion (o : ClusterVersion)
| OConsole (o : Console)
| OInfrastructure (o : Infrastructure)
| ONode (o : Node).

(** [metav1.Time.Before], on pointers. *)
Definition completed_before (a b : UpdateHistory) : bool :=
  match CompletionTime a, CompletionTime b with
  | Some t, Some u => Before t u
  | _, _ => false
  end.

Class InfraClient (W : Type) := {
  GetClusterVersion : string → W → result string ClusterVersion;
  GetConsole : string → W → result string Console;
  GetInfrastructure : string → W → result string Infrastructure;
  ListNodes : W → result string (list Node)
}.

Section infrastructure.
Context {W : Type} `{!InfraClient W}.
(** [sort.Slice] with a comparison, and the kind and text of an object. *)
Variable SortSlice : (UpdateHistory → UpdateHistory → bool) → list UpdateHistory → list UpdateHistory.
Variable Encode : InfraObject → result string (list Byte.byte).

(** The last of the history once it is sorted. *)
Definition latest_history (history : list UpdateHistory) : list UpdateHistory :=
  match last (SortSlice completed_before history) with Some h => [h] | None => [] end.

Definition lite_version (o : ClusterVersion) : ClusterVersion :=
  mkClusterVersion (CVName o) (CVCreated o) (CVClusterID o) (latest_history (CVHistory o)).

Definition infrastructure_objects (w : W) : result string (list InfraObject) :=
  clusterVersion ← GetClusterVersion "version" w;
  console ← GetConsole "cluster" w;
  infrastructure ← GetInfrastructure "cluster" w;
  nodes ← ListNodes w;
  Ok ([OClusterVersion (lite_version clusterVersion); OConsole console;
       OInfrastructure infrastructure] ++ (ONode <$> nodes)).

Definition getK8sInfrastructureResources (w : W) : result string (list K8sResource) :=
  objs ← infrastructure_objects w;
  texts ← mapM_result Encode objs;
  Ok (map KBytes texts).
End infrastructure.

(** ** The reporter *)

Section reporter.
Context {LS API W : Type} `{!StatusClient LS W} `{!SetupClient LS W} `{!ConflictRetry}.
Context `{!PrometheusResources W} `{!InfraClient W}.
Variable refs_equal : list (V1Beta1.MeterDefinitionReference LS) →
  list (V1Beta1.MeterDefinitionReference LS) → bool.
Variable SortSlice : (UpdateHistory → UpdateHistory → bool) → list UpdateHistory → list UpdateHistory.
Variable Encode : InfraObject → result string (list Byte.byte).
Variable NewClient : string → result string API.
Variable NewSecureClient : string → string → string → result string API.

(** What [NewMarketplaceReporter] is given besides the configuration. *)
Record ReporterParts := mkParts {
  PartAPI : API;
  PartReporter : MarketplaceReporter LS;
  PartBuilder : SchemaVersion * MarketplaceReportDataBuilder;
  PartWriter : SchemaVersion
}.

(** A step that only reads. *)
Definition read_step {A B} (e : result string A) (w : W) (k : A → W * result string B)
    : W * result string B :=
  match e with Err e => (w, Err e) | Ok a => k a end.

Definition by_client {A} (e : result ClientError A) : result string A :=
  match e with Err e => Err (client_error e) | Ok a => Ok a end.

(** The rest of [NewReporter], from the port on. *)
Definition finish_reporter (cfg : SetupConfig) (meterReport : MeterReport LS)
    (mktConfig : MarketplaceConfig) (service : option Service) (port : option ServicePort)
    (w : W) : W * result string ReporterParts :=
  read_step (providePrometheusAPIForReporter NewClient NewSecureClient
               (providePrometheusSetup cfg service port) w) w (λ api,
  let '(w, defs) := getMeterDefinitionReferences refs_equal meterReport w in
  read_step (by_client defs) w (λ defs,
  read_step (getK8sInfrastructureResources SortSlice Encode w) w (λ resources,
  read_step (ProvideDataBuilder (CfgReporterSchema cfg)) w (λ dataBuilder,
  read_step (ProvideWriter (CfgReporterSchema cfg)) w (λ writer,
  (w, Ok (mkParts api (mkReporter mktConfig (with_references defs meterReport) defs resources
                         (CfgRetry cfg)) dataBuilder writer))))))).

Definition NewReporter (cfg : SetupConfig) (key : NamespacedName) (w : W)
    : outcome (W * result string ReporterParts) :=
  let '(w, meterReport) := getMarketplaceReport key w in
  match meterReport with
  | Err e => Ret (w, Err (client_error e))
  | Ok meterReport =>
      match getMarketplaceConfig cfg w with
      | Err e => Ret (w, Err (client_error e))
      | Ok mktConfig =>
          match getPrometheusService cfg w with
          | Err e => Ret (w, Err e)
          | Ok service =>
              port ← getPrometheusPort cfg service;
              match port with
              | Err e => Ret (w, Err e)
              | Ok port => Ret (finish_reporter cfg meterReport mktConfig service port w)
              end
          end
      end
  end.
End reporter.

(** ** What the set-up leaves of the reports *)

(** A report whose name, times and status stayed. *)
Definition kept {LS} (r r' : MeterReport LS) : Prop :=
  MRStatus r' = MRStatus r ∧ StartTime (MRSpec r') = StartTime (MRSpec r) ∧
  EndTime (MRSpec r') = EndTime (MRSpec r) ∧ report_key r' = report_key r.

(** Reports are neither made nor deleted, and those other than [key] stay as they
    are. *)
Definition same_but {LS W} `{!StatusClient LS W} (R : MeterReport LS → MeterReport LS → Prop)
    (key : NamespacedName) (w w' : W) : Prop :=
  ∀ k, match stored_reports w !! k with
       | None => stored_reports w' !! k = None
       | Some r => ∃ r', stored_reports w' !! k = Some r' ∧ if decide (k = key) then R r r' else r' = r
       end.

Section setup_lemmas.
Context {LS W : Type} `{!StatusClient LS W} `{!SetupClient LS W} `{!ConflictRetry}.

#[export] Instance kept_preorder : PreOrder (kept (LS := LS)).
Proof. split; unfold kept; [done|]. intros r1 r2 r3. intuition congruence. Qed.

#[export] Instance same_but_preorder (R : MeterReport LS → MeterReport LS → Prop) key :
  PreOrder R → PreOrder (same_but (W := W) R key).
Proof.
  intros HR. split.
  - intros w k. destruct (stored_reports w !! k) as [r|]; [|done]. exists r. split; [done|].
    by case_decide.
  - intros w1 w2 w3 H1 H2 k. specialize (H1 k). specialize (H2 k).
    destruct (stored_reports w1 !! k) as [r|]; [|by rewrite H1 in H2].
    destruct H1 as (r2 & Hr2 & H1). rewrite Hr2 in H2. destruct H2 as (r3 & Hr3 & H2).
    exists r3. split; [done|]. case_decide; [by etrans|congruence].
Qed.

Lemma same_but_eq (R : MeterReport LS → MeterReport LS → Prop) key (w w' : W) :
  Reflexive R → stored_reports w' = stored_reports w → same_but R key w w'.
Proof.
  intros HR Heq k. rewrite Heq. destruct (stored_reports w !! k) as [r|]; [|done].
  exists r. split; [done|]. by case_decide.
Qed.

Lemma same_but_insert (R : MeterReport LS → MeterReport LS → Prop) key (w w' : W) r r' :
  stored_reports w !! key = Some r → stored_reports w' = <[key := r']> (stored_reports w) →
  R r r' → same_but R key w w'.
Proof.
  intros Hr Heq HR k. rewrite Heq. destruct (decide (k = key)) as [->|Hne].
  - rewrite Hr, lookup_insert_eq. by exists r'.
  - rewrite lookup_insert_ne by done. destruct (stored_reports w !! k) as [r0|]; [|done]. by exists r0.
Qed.

(** The report in hand is the stored one as far as its times go. *)
Definition in_hand (key : NamespacedName) (w0 : W) (st : W * option (MeterReport LS)) : Prop :=
  same_but kept key w0 st.1 ∧
  match st.2 with
  | Some report => report_key report = key ∧
      ∃ r, stored_reports st.1 !! key = Some r ∧ StartTime (MRSpec report) = StartTime (MRSpec r) ∧
        EndTime (MRSpec report) = EndTime (MRSpec r)
  | None => True
  end.

Lemma put_report_in_hand key w0 w report :
  in_hand key w0 (w, Some report) → in_hand key w0 (put_report report w).1.
Proof.
  intros (Hs & Hk & r & Hr & Ht & He). cbn in Hs, Hr. unfold put_report.
  pose proof (update_object_law report w) as Hl. destruct (UpdateObject report w) as [w' [new|e]]; cbn.
  - destruct Hl as (Hk' & Hsp & old & Hold & Hst & Heq). rewrite Hk in *.
    assert (old = r) as -> by congruence. split.
    + cbn. etrans; [exact Hs|]. eapply same_but_insert; [done..|]. unfold kept.
      by rewrite Hst, Hsp, Hk', (stored_key _ _ _ Hr).
    + cbn. split; [congruence|]. exists new. by rewrite Heq, lookup_insert_eq.
  - split; cbn; [|split; [done|exists r; by rewrite Hl]].
    etrans; [exact Hs|]. apply same_but_eq; [|done]. intros ?. reflexivity.
Qed.

Lemma get_report_in_hand key w0 st :
  in_hand key w0 st → in_hand key w0 (get_report_attempt key st).1.
Proof.
  intros Hst. unfold get_report_attempt. destruct (GetReport key st.1) as [report|e] eqn:Hg; [|done].
  apply get_law in Hg. pose proof (stored_key _ _ _ Hg) as Hk. destruct Hst as [Hs _].
  case_bool_decide; [apply put_report_in_hand|]; (split; [done|]); cbn; (split; [done|]); by exists report.
Qed.

Lemma references_in_hand (refs_equal : list (V1Beta1.MeterDefinitionReference LS) →
    list (V1Beta1.MeterDefinitionReference LS) → bool) key defs w0 st :
  in_hand key w0 st → in_hand key w0 (references_attempt refs_equal defs st).1.
Proof.
  destruct st as [w [report|]]; intros Hst; [|done]. cbn. destruct (refs_equal _ _); [done|].
  apply put_report_in_hand. exact Hst.
Qed.

Lemma getMarketplaceReport_kept key w w' res :
  getMarketplaceReport (LS := LS) key w = (w', res) →
  in_hand key w (w', match res with Ok report => Some report | Err _ => None end).
Proof.
  unfold getMarketplaceReport. intros Hr.
  pose proof (retried_inv (in_hand key w) _ (w, None) _ (get_report_in_hand key w)
    ltac:(by split) (RetryOnConflict_law _ _)) as Hi.
  destruct (RetryOnConflict _ _) as [[w1 [report|]] [e|]]; simplify_eq;
    first [exact Hi|split; [exact (proj1 Hi)|done]].
Qed.

Lemma getMeterDefinitionReferences_kept refs_equal key w0 w w' (report : MeterReport LS) res :
  in_hand key w0 (w, Some report) →
  getMeterDefinitionReferences refs_equal report w = (w', res) → same_but kept key w0 w'.
Proof.
  unfold getMeterDefinitionReferences. intros Hh.
  destruct (complete_references _ w) as [defs|e]; [|intros [= <- _]; exact (proj1 Hh)].
  pose proof (retried_inv (in_hand key w0) _ _ _ (references_in_hand refs_equal key defs w0)
    Hh (RetryOnConflict_law _ _)) as Hi.
  destruct (RetryOnConflict _ _) as [[w1 o] [e|]]; intros [= <- _]; exact (proj1 Hi).
Qed.
End setup_lemmas.

Lemma NewReporter_kept {LS API W} `{!StatusClient LS W} `{!SetupClient LS W} `{!ConflictRetry}
    `{!PrometheusResources W} `{!InfraClient W} refs_equal SortSlice Encode
    (NewClient : string → result string API) NewSecureClient cfg key (w w' : W) res :
  NewReporter (LS := LS) refs_equal SortSlice Encode NewClient NewSecureClient cfg key w = Ret (w', res) →
  same_but kept key w w'.
Proof.
  unfold NewReporter. destruct (getMarketplaceReport key w) as [w1 r] eqn:Hr.
  pose proof (getMarketplaceReport_kept _ _ _ _ Hr) as Hin. destruct r as [report|e];
    [|intros [= <- _]; exact (proj1 Hin)].
  destruct (getMarketplaceConfig _ _); [|intros [= <- _]; exact (proj1 Hin)].
  destruct (getPrometheusService _ _); [|intros [= <- _]; exact (proj1 Hin)].
  destruct (getPrometheusPort _ _) as [[port|e]|]; cbn [mbind outcome_mbind];
    [|intros [= <- _]; exact (proj1 Hin)|done].
  unfold finish_reporter, read_step. intros [= Hf]. revert Hf.
  destruct (providePrometheusAPIForReporter _ _ _ _); [|intros [= <- _]; exact (proj1 Hin)].
  destruct (getMeterDefinitionReferences _ _ _) as [w2 defs] eqn:Hd.
  pose proof (getMeterDefinitionReferences_kept _ _ _ _ _ _ _ Hin Hd) as Hk.
  destruct (by_client defs); [|by intros [= <- _]].
  destruct (getK8sInfrastructureResources _ _ _); [|by intros [= <- _]].
  destruct (ProvideDataBuilder _); [|by intros [= <- _]].
  destruct (ProvideWriter _); by intros [= <- _].
Qed.

(** ** Properties *)

Section setup_properties.
Context {LS W : Type} `{!StatusClient LS W} `{!SetupClient LS W} `{!ConflictRetry}.

(** A report is given its identifier once. What is read is what is stored and has an
    identifier; one that is there is kept and nothing is written, so that a report
    that is collected again is still the same report to the backend. *)
Theorem getMarketplaceReport_spec (key : NamespacedName) (w w' : W) (report : MeterReport LS) :
  (∀ w : W, NewUUID (LS := LS) w ≠ "") → getMarketplaceReport key w = (w', Ok report) →
  ReportUUID (MRSpec report) ≠ "" ∧ stored_reports w' !! key = Some report ∧
  ∀ r, stored_reports w !! key = Some r → ReportUUID (MRSpec r) ≠ "" → w' = w ∧ report = r.
Proof.
  intros Hid. unfold getMarketplaceReport.
  pose proof (RetryOnConflict_law (get_report_attempt (LS := LS) key) (w, None)) as Hr.
  destruct (RetryOnConflict _ _) as [[w1 o] [e|]] eqn:Heq; [by destruct o|].
  destruct o as [report'|]; intros [= -> ->].
  set (st := (w, None)) in Hr. change w with st.1. clearbody st. clear Heq w.
  remember ((w', Some report), None) as res eqn:Hres.
  induction Hr as [st|st st' res Hc Hr IH].
  - unfold get_report_attempt in Hres. destruct (GetReport key st.1) as [r|e] eqn:Hg; [|done].
    apply get_law in Hg. pose proof (stored_key _ _ _ Hg) as Hk. case_bool_decide as Hu.
    + unfold put_report in Hres. pose proof (update_object_law (with_uuid (NewUUID st.1) r) st.1) as Hl.
      destruct (UpdateObject _ _) as [w2 [new|e]]; [|done]. injection Hres as -> ->.
      destruct Hl as (_ & Hs & old & _ & _ & Heq). split; [rewrite Hs; apply Hid|].
      change (report_key (with_uuid _ r)) with (report_key r) in Heq.
      rewrite Hk in Heq. split; [by rewrite Heq, lookup_insert_eq|]. intros r0 Hr0. congruence.
    + injection Hres as <- <-. split; [done|]. split; [done|]. intros r0 Hr0 _. split; [done|congruence].
  - destruct (IH Hres) as (H1 & H2 & _). split; [done|]. split; [done|]. intros r0 Hr0 Hn.
    unfold get_report_attempt in Hc. destruct (GetReport key st.1) as [r|e] eqn:Hg.
    + apply get_law in Hg. assert (r = r0) as -> by congruence. by rewrite bool_decide_false in Hc.
    + injection Hc as <- _. destruct (IH Hres) as (_ & _ & H3). by apply H3.
Qed.

(** The references a report is collected with are its own, in their order; each has a
    specification, its own or the one of the cluster's definition of its name. *)
Theorem complete_references_spec (refs defs : list (V1Beta1.MeterDefinitionReference LS)) (w : W) :
  complete_references refs w = Ok defs →
  Forall2 (λ ref def,
    V1Beta1.RName def = V1Beta1.RName ref ∧ V1Beta1.RNamespace def = V1Beta1.RNamespace ref ∧
    match V1Beta1.RSpec ref with
    | Some _ => def = ref
    | None => ∃ mdef, GetDefinition (mkNN (V1Beta1.RNamespace ref) (V1Beta1.RName ref)) w = Ok mdef ∧
        V1Beta1.RSpec def = Some (V1Beta1.Spec mdef) ∧ V1Beta1.RUID def = UID (V1Beta1.Meta mdef)
    end) refs defs.
Proof.
  revert defs. induction refs as [|ref refs IH]; intros defs; cbn [complete_references].
  { by intros [= <-]. }
  destruct (V1Beta1.RSpec ref) eqn:Hs; [|destruct (GetDefinition _ w) as [mdef|e] eqn:Hg; [|done]];
    cbn [mbind result_mbind]; (destruct (complete_references refs w) as [defs'|]; [|done]);
    cbn; intros [= <-]; (constructor; [|by apply IH]); (split; [done|]); (split; [done|]);
    rewrite Hs; [done|]. by exists mdef.
Qed.

(** The references are lost on a conflict: the closure that is tried again finds them
    in its own object, where the first attempt put them, and does not write. The report
    in the cluster keeps its references without specifications, and no error is
    reported. *)
Theorem references_conflict_lost refs_equal (report : MeterReport LS)
    (defs : list (V1Beta1.MeterDefinitionReference LS)) (w w' : W) :
  refs_equal defs defs = true →
  complete_references (MeterDefinitionReferences (MRSpec report)) w = Ok defs →
  refs_equal (MeterDefinitionReferences (MRSpec report)) defs = false →
  UpdateObject (with_references defs report) w = (w', Err Conflict) →
  getMeterDefinitionReferences (H := five_attempts) refs_equal report w = (w', Ok defs) ∧
  stored_reports w' = stored_reports w.
Proof.
  intros Heq Hc Hne Hu. split.
  - unfold getMeterDefinitionReferences. rewrite Hc. cbn. rewrite Hne. unfold put_report.
    rewrite Hu. cbn. by rewrite Heq.
  - pose proof (update_object_law (with_references defs report) w) as Hl. by rewrite Hu in Hl.
Qed.
End setup_properties.

(** What [sort.Slice] promises: a permutation, which is sorted when the comparison is a
    strict weak order on the elements. *)
Definition sort_slice_law {A} (SortSlice : (A → A → bool) → list A → list A) : Prop :=
  ∀ less l, SortSlice less l ≡ₚ l ∧
    ((∀ a, a ∈ l → less a a = false) →
     (∀ a b c, a ∈ l → b ∈ l → c ∈ l → less a b = true → less a c = true ∨ less c b = true) →
     StronglySorted (λ a b, less b a = false) (SortSlice less l)).

Lemma completed_before_irrefl h : completed_before h h = false.
Proof. unfold completed_before. destruct (CompletionTime h); [|done]. unfold Before. lia. Qed.

(** Of the history of the cluster the entry that was completed last is kept, whatever
    the order of the history, as long as all of its entries are completed. *)
Theorem latest_history_spec SortSlice (history : list UpdateHistory) :
  sort_slice_law SortSlice → Forall (λ h, is_Some (CompletionTime h)) history →
  match latest_history SortSlice history with
  | [h] => h ∈ history ∧ ∀ h', h' ∈ history → completed_before h h' = false
  | _ => history = []
  end.
Proof.
  intros Hlaw Hall. rewrite Forall_forall in Hall.
  destruct (Hlaw completed_before history) as [Hp Hs]. unfold latest_history.
  assert (Hsorted : StronglySorted (λ a b, completed_before b a = false)
    (SortSlice completed_before history)).
  { apply Hs; [intros; apply completed_before_irrefl|]. unfold completed_before, Before.
    intros a b c Ha Hb Hc. destruct (Hall a Ha) as [? ->], (Hall b Hb) as [? ->], (Hall c Hc) as [? ->].
    rewrite !Z.ltb_lt. lia. }
  clear Hs Hlaw Hall. destruct (SortSlice completed_before history) as [|h0 l _] using rev_ind.
  { cbn. by apply Permutation_nil_l in Hp. }
  rewrite last_snoc. split; [rewrite <- Hp; set_solver|].
  intros h' Hin. rewrite <- Hp in Hin. apply elem_of_app in Hin as [Hin|Hin].
  - by apply (StronglySorted_app_1_elem_of _ _ _ _ _ Hsorted); [|left].
  - apply list_elem_of_singleton in Hin as ->. apply completed_before_irrefl.
Qed.
