(* ===== verification/ReconcileTask.v ===== *)
(** * One run of the reporter

    The model of [ReconcileTask] ([reporter/v2/pkg/reporter/reconcile_task.go]): the
    reports that are due are made and stored one after the other, then the list is read
    again and the stored ones are uploaded, then the files no report is known for. The
    tasks are the source's interfaces [TaskRun] and [UploadRun]; that [Task] and
    [UploadTask] implement them is shown below, and with them that a run takes every
    report along the steps of its life only. *)

From S2P Require Import Prelude GoTime Conditions Workloads Reports MeterDefinition MeterReport FileServer Reporter ReporterSetup.
Local Open Scope go_scope.

(** The list of a namespace has each stored report once, as it is. *)
Class ReportLister (LS W : Type) `{!StatusClient LS W} := {
  ListReports : string → W → result ClientError (list (MeterReport LS));
  list_reports_law ns w l :
    ListReports ns w = Ok l →
    NoDup (report_key <$> l) ∧
    ∀ r, r ∈ l ↔ stored_reports w !! report_key r = Some r ∧ Namespace (MRMeta r) = ns
}.

(** A task either ends, with an error or without, or panics. *)
Definition Run_ (W : Type) : Type := W → outcome (W * option string).

Record UploadRun (LS W : Type) := mkUploadRun {
  UploadReport : MeterReport LS → Run_ W;
  UploadGeneric : Run_ W
}.
Arguments mkUploadRun {LS W}.
Arguments UploadReport {LS W}.
Arguments UploadGeneric {LS W}.

(** [errors.Combine] of a list of errors: nothing when there is none. *)
Definition collected (e : option string) (es : list string) : list string :=
  match e with Some e => e :: es | None => es end.

Section reconcile.
Context {LS W : Type} `{!StatusClient LS W} `{!ConflictRetry} `{!ReportLister LS W}.
Variable cfg : Config.
Variable namespace : string.
(** The time when a report is looked at, and when its status is written. *)
Variable clock : NamespacedName → W → GoTime.
Variable stamp : NamespacedName → W → Time.
(** [NewTask] is given the targets of its configuration apart. *)
Variable NewTask : NamespacedName → list string → W → result string (Run_ W).
Variable NewUpload : W → result string (UploadRun LS W).

(** A panic ends the run. *)
Fixpoint run_each (task : MeterReport LS → Run_ W) (reports : list (MeterReport LS)) (w : W)
    : outcome (W * list string) :=
  match reports with
  | [] => Ret (w, [])
  | report :: reports =>
      '(w, e) ← task report w;
      '(w, es) ← run_each task reports w;
      Ret (w, collected e es)
  end.

(** ** Making the reports *)

Definition ReportTask (report : MeterReport LS) : Run_ W := λ w,
  match NewTask (report_key report) [TargetDataService] w with
  | Err e => Ret (w, Some e)
  | Ok task => task w
  end.

Definition to_run (w : W) (reports : list (MeterReport LS)) : list (MeterReport LS) :=
  List.filter (λ report, CanRunReportTask (clock (report_key report) w) report) reports.

Definition report (w : W) : outcome (W * list string) :=
  match ListReports namespace w with
  | Err e => Ret (w, [client_error e])
  | Ok reports => run_each ReportTask (to_run w reports) w
  end.

(** ** Uploading the reports *)

(** The reports to upload; the others are told why not. *)
Fixpoint to_upload (reports : list (MeterReport LS)) (w : W)
    : outcome (W * list (MeterReport LS)) :=
  match reports with
  | [] => Ret (w, [])
  | report :: reports =>
      let key := report_key report in
      '(reason, ok) ← CanRunUploadReportTask cfg (clock key w) report;
      if (ok : bool) then
        '(w, kept) ← to_upload reports w; Ret (w, report :: kept)
      else
        w ← setSkipReason (LS := LS) (stamp key w) key reason w;
        to_upload reports w
  end.

Definition upload_generic (task : UploadRun LS W) (w : W) : outcome (W * list string) :=
  if (CanRunGenericUpload cfg).1 then
    '(w, e) ← UploadGeneric task w; Ret (w, collected e [])
  else Ret (w, []).

Definition upload (w : W) : outcome (W * list string) :=
  match ListReports namespace w with
  | Err e => Ret (w, [client_error e])
  | Ok reports =>
      '(w, ready) ← to_upload reports w;
      match NewUpload w with
      | Err e => Ret (w, [e])
      | Ok task =>
          '(w, es) ← run_each (UploadReport task) ready w;
          '(w, es') ← upload_generic task w;
          Ret (w, es ++ es')
      end
  end.

(** ** The run *)

(** The first [ReportJobError] of a combined error; the environment's job, its
    reference and the event about it. *)
Context {Job JobRef : Type}.
Variable AsReportJobError : list string → option string.
Variables JOB_NAME POD_NAMESPACE : string.
Variable GetJob : NamespacedName → W → result string Job.
Variable GetReference : Job → result string JobRef.
Variable RecordEvent : JobRef → string → W → W.

Definition recordTaskError (errs : list string) (w : W) : W * option string :=
  match AsReportJobError errs with
  | None => (w, None)
  | Some comp =>
      match job ← GetJob (mkNN POD_NAMESPACE JOB_NAME) w; GetReference job with
      | Err e => (w, Some e)
      | Ok jobref => (RecordEvent jobref ("Report Job Error: " +:+ comp) w, None)
      end
  end.

Definition Run (w : W) : outcome (W * list string) :=
  '(w, reportErr) ← report w;
  '(w, uploadErr) ← upload w;
  match reportErr ++ uploadErr with
  | [] => Ret (w, [])
  | errs => Ret ((recordTaskError errs w).1, errs)
  end.
End reconcile.

(** ** The steps of a report's life

    A report's status changes by the steps of [Reporter.status_step] only. *)

Section lives.
Context {LS W E : Type} `{!StatusClient LS W} `{!ConflictRetry}.
Variable toDetails : E → outcome ErrorDetails.
Variable cfg : Config.
Variable names : list string.

Definition lived (r r' : MeterReport LS) : Prop :=
  report_key r' = report_key r ∧ EndTime (MRSpec r') = EndTime (MRSpec r) ∧
  rtc (status_step toDetails cfg names r) (MRStatus r) (MRStatus r').

(** No report is made or deleted, and each is further in its life. *)
Definition all_lived (w w' : W) : Prop :=
  ∀ k, match stored_reports w !! k with
       | None => stored_reports w' !! k = None
       | Some r => ∃ r', stored_reports w' !! k = Some r' ∧ lived r r'
       end.

(** The steps only look at the end of the report's period. *)
Lemma status_step_ext (r1 r2 : MeterReport LS) s s' :
  EndTime (MRSpec r1) = EndTime (MRSpec r2) →
  status_step toDetails cfg names r1 s s' → status_step toDetails cfg names r2 s s'.
Proof.
  intros He Hs.
  assert (Hrun : ∀ now s, CanRunReportTask now (with_status r1 s) = CanRunReportTask now (with_status r2 s)).
  { intros now s0. unfold CanRunReportTask. cbn. by rewrite He. }
  assert (Hup : ∀ now s, CanRunUploadReportTask cfg now (with_status r1 s) =
                         CanRunUploadReportTask cfg now (with_status r2 s)).
  { intros now s0. unfold CanRunUploadReportTask. cbn. by rewrite He. }
  destruct Hs; rewrite ?Hrun, ?Hup in *;
    [eapply step_failed|eapply step_reported|eapply step_unstored|eapply step_skipped|eapply step_uploaded];
    eassumption.
Qed.

#[export] Instance lived_preorder : PreOrder lived.
Proof.
  split; [by intros r|]. intros r1 r2 r3 (Hk1 & He1 & H1) (Hk2 & He2 & H2). split; [congruence|]. split; [congruence|].
  etrans; [exact H1|]. eapply rtc_congruence with (f := id); [|exact H2].
  intros s s'. by apply status_step_ext.
Qed.

#[export] Instance all_lived_preorder : PreOrder all_lived.
Proof.
  split.
  - intros w k. destruct (stored_reports w !! k) as [r|]; [|done]. by exists r.
  - intros w1 w2 w3 H1 H2 k. specialize (H1 k). specialize (H2 k).
    destruct (stored_reports w1 !! k) as [r|]; [|by rewrite H1 in H2].
    destruct H1 as (r2 & Hr2 & H1). rewrite Hr2 in H2. destruct H2 as (r3 & Hr3 & H2).
    exists r3. split; [done|]. by etrans.
Qed.

Lemma same_but_all key (w w' : W) : same_but lived key w w' → all_lived w w'.
Proof.
  intros Hb k. specialize (Hb k). destruct (stored_reports w !! k) as [r|]; [|done].
  destruct Hb as (r' & Hr' & Hb). exists r'. split; [done|]. by case_decide; [|subst].
Qed.

Lemma same_but_other (R : MeterReport LS → MeterReport LS → Prop) key k (w w' : W) :
  same_but R key w w' → k ≠ key → stored_reports w' !! k = stored_reports w !! k.
Proof.
  intros Hb Hne. specialize (Hb k). destruct (stored_reports w !! k) as [r|]; [|done].
  destruct Hb as (r' & -> & Hb). rewrite decide_False in Hb by done. by subst.
Qed.

Lemma all_lived_eq (w w' : W) : stored_reports w' = stored_reports w → all_lived w w'.
Proof. intros Heq k. rewrite Heq. by destruct (stored_reports w !! k); [eexists|]. Qed.

Lemma kept_lived key (w w' : W) : same_but kept key w w' → same_but lived key w w'.
Proof.
  intros Hb k. specialize (Hb k). destruct (stored_reports w !! k) as [r|]; [|done].
  destruct Hb as (r' & Hr' & Hb). exists r'. split; [done|]. case_decide; [|done].
  destruct Hb as (Hs & _ & He & Hk). split; [done|]. split; [done|]. by rewrite Hs.
Qed.

(** A write whose change is a step. *)
Lemma update_lived key mutate (w w' : W) e :
  (∀ r s', stored_reports w !! key = Some r → mutate (MRStatus r) = Ret s' →
     status_step toDetails cfg names r (MRStatus r) s') →
  updateMeterReportStatus (LS := LS) key mutate w = Ret (w', e) → same_but lived key w w'.
Proof.
  intros Hstep Hu. apply update_ok in Hu. destruct e as [e|].
  - apply same_but_eq; [|done]. by intros r.
  - destruct Hu as (r & s & Hr & Hm & Heq). eapply same_but_insert; [done..|].
    split; [done|]. split; [done|]. apply rtc_once. by apply Hstep.
Qed.

Lemma setSkip_lived t key skip (w w' : W) :
  setSkipReason (LS := LS) t key skip w = Ret w' → same_but lived key w w'.
Proof.
  unfold setSkipReason. destruct (skip_condition skip) as [c|] eqn:Hc.
  - destruct (updateMeterReportStatus _ _ w) as [[w1 e]|] eqn:Hu; cbn; [|done]. intros [= <-].
    eapply update_lived; [|exact Hu]. intros r s' _ [= <-]. by eapply step_skipped.
  - intros [= <-]. apply same_but_eq; [|done]. by intros r.
Qed.

(** ** The contracts of the tasks *)

(** A task that is run for a report that is due. *)
Definition task_lives (key : NamespacedName) (task : Run_ W) : Prop :=
  ∀ w w' e now r, stored_reports w !! key = Some r → CanRunReportTask now r = true →
    task w = Ret (w', e) → same_but lived key w w'.

Definition upload_lives (task : UploadRun LS W) : Prop :=
  (∀ w w' e now r, stored_reports w !! report_key r = Some r →
     CanRunUploadReportTask cfg now r = Ret (SkipEmpty, true) →
     UploadReport task r w = Ret (w', e) → same_but lived (report_key r) w w') ∧
  ∀ w w' e, UploadGeneric task w = Ret (w', e) → stored_reports w' = stored_reports w.

Lemma run_each_lived (task : MeterReport LS → Run_ W) reports w w' es :
  NoDup (report_key <$> reports) →
  (∀ r w w' e, r ∈ reports → stored_reports w !! report_key r = Some r →
     task r w = Ret (w', e) → same_but lived (report_key r) w w') →
  (∀ r, r ∈ reports → stored_reports w !! report_key r = Some r) →
  run_each task reports w = Ret (w', es) → all_lived w w'.
Proof.
  revert w es. induction reports as [|r reports IH]; intros w es; cbn [run_each fmap list_fmap].
  { by intros _ _ _ [= <- _]. }
  intros [Hnin Hnd]%NoDup_cons Htask Hst.
  destruct (task r w) as [[w1 e]|] eqn:H1; cbn [mbind outcome_mbind]; [|done].
  destruct (run_each task reports w1) as [[w2 es2]|] eqn:H2; cbn [mbind outcome_mbind]; [|done].
  intros [= <- _]. pose proof (Htask r w w1 e ltac:(by left) (Hst r ltac:(by left)) H1) as Hr.
  etrans; [by eapply same_but_all|]. eapply IH; [done| | |exact H2].
  - intros r0 w0 w0' e0 Hin. apply Htask. by right.
  - intros r0 Hin. rewrite (same_but_other _ _ _ _ _ Hr); [apply Hst; by right|].
    intros Heq. apply Hnin. rewrite <- Heq. by apply list_elem_of_fmap_2.
Qed.
End lives.

Section run_lives.
Context {LS W E : Type} `{!StatusClient LS W} `{!ConflictRetry} `{!ReportLister LS W}.
Variable toDetails : E → outcome ErrorDetails.
Variable cfg : Config.
Variable names : list string.
Variable namespace : string.
Variable clock : NamespacedName → W → GoTime.
Variable stamp : NamespacedName → W → Time.

Lemma ready_reason now (r : MeterReport LS) reason :
  CanRunUploadReportTask cfg now r = Ret (reason, true) → reason = SkipEmpty.
Proof.
  unfold CanRunUploadReportTask. repeat case_match; intros [= ]; congruence.
Qed.

Lemma to_upload_lived reports w w' ready :
  NoDup (report_key <$> reports) →
  (∀ r, r ∈ reports → stored_reports w !! report_key r = Some r) →
  to_upload (LS := LS) cfg clock stamp reports w = Ret (w', ready) →
  all_lived toDetails cfg names w w' ∧
  (∀ k, k ∉ report_key <$> reports → stored_reports w' !! k = stored_reports w !! k) ∧
  sublist ready reports ∧
  ∀ r, r ∈ ready → stored_reports w' !! report_key r = Some r ∧
    ∃ now, CanRunUploadReportTask cfg now r = Ret (SkipEmpty, true).
Proof.
  revert w ready. induction reports as [|r reports IH]; intros w ready; cbn [to_upload fmap list_fmap].
  { intros _ _ [= <- <-]. split; [done|]. split; [done|]. split; [constructor|]. set_solver. }
  intros [Hnin Hnd]%NoDup_cons Hst.
  destruct (CanRunUploadReportTask cfg _ r) as [[reason ok]|] eqn:Hc; cbn [mbind outcome_mbind]; [|done].
  destruct ok.
  - destruct (to_upload _ _ _ reports w) as [[w1 ready1]|] eqn:Hu; cbn [mbind outcome_mbind]; [|done].
    intros [= <- <-]. destruct (IH w ready1 Hnd) as (Ha & Ho & Hsub & Hr); [|done|].
    { intros r0 Hin. apply Hst. by right. }
    split; [done|]. split; [intros k Hk; apply Ho; set_solver|]. split; [by constructor|].
    intros r0 [->|Hin]%elem_of_cons; [|by apply Hr]. split.
    + rewrite Ho by done. apply Hst. by left.
    + eexists. rewrite Hc. by rewrite (ready_reason _ _ _ Hc).
  - destruct (setSkipReason _ _ _ w) as [w1|] eqn:Hs; cbn [mbind outcome_mbind]; [|done].
    pose proof (setSkip_lived toDetails cfg names _ _ _ _ _ Hs) as Hl. intros Hu.
    destruct (IH w1 ready Hnd) as (Ha & Ho & Hsub & Hr); [|done|].
    { intros r0 Hin. rewrite (same_but_other _ _ _ _ _ Hl); [apply Hst; by right|].
      intros Heq. apply Hnin. rewrite <- Heq. by apply list_elem_of_fmap_2. }
    split; [etrans; [by eapply same_but_all|done]|]. split.
    { intros k Hk. rewrite Ho by set_solver. eapply same_but_other; [done|]. set_solver. }
    split; [by constructor|done].
Qed.
End run_lives.

(** ** The tasks keep their contracts *)

Section tasks.
Context {LS W E : Type} `{!StatusClient LS W} `{!ConflictRetry}.
Variable toDetails : E → outcome ErrorDetails.
Variable cfg : Config.
Variable names : list string.
Notation lives := (same_but (lived toDetails cfg names)).

Lemma lives_eq key (w w' : W) : stored_reports w' = stored_reports w → lives key w w'.
Proof. intros Heq. apply same_but_eq; [|done]. by intros r. Qed.

(** [Task], made of steps that leave the reports alone but for the set-up. *)
Context {M R : Type}.
Variable now : Time.
Variable NewReporter : W → outcome (W * result string R).
Variable CollectMetrics : R → W → W * ((list M * (list E * list E)) * option string).
Variable ReportID : R → outcome string.
Variable WriteReport : R → string → list M → W → W * option string.
Variable TargzFolder : W → W * option string.
Variable OpenFile : W → option string.
Variable UploaderUpload : W → W * (string * option string).
Variable Combine : list E → string.
Variable key : NamespacedName.
Hypothesis reporter_kept : ∀ w w' r, NewReporter w = Ret (w', r) → same_but kept key w w'.
Hypothesis collect_apart : ∀ r w, stored_reports (CollectMetrics r w).1 = stored_reports w.
Hypothesis write_apart : ∀ r id ms w, stored_reports (WriteReport r id ms w).1 = stored_reports w.
Hypothesis targz_apart : ∀ w, stored_reports (TargzFolder w).1 = stored_reports w.
Hypothesis upload_apart : ∀ w, stored_reports (UploaderUpload w).1 = stored_reports w.

Lemma upload_archive_spec name w :
  stored_reports (upload_archive OpenFile name UploaderUpload cfg w).1 = stored_reports w ∧
  ((upload_archive OpenFile name UploaderUpload cfg w).2.1 = [] ∨
   ∃ d, (upload_archive OpenFile name UploaderUpload cfg w).2.1 = [Some d] ∧ Target d = name).
Proof.
  unfold upload_archive. destruct (Upload cfg); [|by split; [|left]].
  destruct (OpenFile w); [split; [done|]; right; by eexists|].
  pose proof (upload_apart w) as Hu. destruct (UploaderUpload w) as [w1 [id [err|]]];
    (split; [exact Hu|]); right; by eexists.
Qed.

(** The write at the end of a task is a step: the report is still the one the task was
    started for. *)
Lemma due_update_lived mutate (w w1 w2 : W) e t r :
  stored_reports w !! key = Some r → CanRunReportTask t r = true → same_but kept key w w1 →
  (∀ (r1 : MeterReport LS) s', CanRunReportTask t (with_status r1 (MRStatus r1)) = true →
     mutate (MRStatus r1) = Ret s' → status_step toDetails cfg names r1 (MRStatus r1) s') →
  updateMeterReportStatus (LS := LS) key mutate w1 = Ret (w2, e) → lives key w w2.
Proof.
  intros Hr Hdue Hk Hstep Hu. etrans; [by apply kept_lived|].
  eapply update_lived; [|exact Hu]. intros r1 s' Hr1 Hm. apply Hstep; [|done].
  specialize (Hk key). rewrite Hr in Hk. destruct Hk as (r1' & Hr1' & Hk).
  assert (r1' = r1) as -> by congruence. rewrite decide_True in Hk by done.
  destruct Hk as (Hs & _ & He & _). unfold CanRunReportTask in *. cbn [MRStatus MRSpec with_status].
  by rewrite He, Hs.
Qed.

Lemma store_report_lives reporter metrics errs warns t r w w2 w' e :
  stored_reports w !! key = Some r → CanRunReportTask t r = true → same_but kept key w w2 →
  store_report (LS := LS) now toDetails ReportID WriteReport TargzFolder OpenFile TargetDataService
    UploaderUpload Combine cfg key reporter metrics errs warns w2 = Ret (w', e) → lives key w w'.
Proof.
  intros Hr Hdue Hk. unfold store_report.
  destruct (ReportID reporter) as [id|]; cbn [mbind outcome_mbind]; [|done].
  pose proof (write_apart reporter id metrics w2) as Hw.
  destruct (WriteReport reporter id metrics w2) as [w3 [e3|]]; cbn [fst] in Hw.
  { intros [= <- _]. etrans; [by apply kept_lived|by apply lives_eq]. }
  pose proof (targz_apart w3) as Ht. destruct (TargzFolder w3) as [w4 [e4|]]; cbn [fst] in Ht.
  { intros [= <- _]. etrans; [by apply kept_lived|apply lives_eq; congruence]. }
  pose proof (upload_archive_spec TargetDataService w4) as [Hu Hst].
  destruct (upload_archive _ _ _ _ w4) as [w5 [statuses c]]. cbn [fst snd] in Hu, Hst.
  assert (Hk5 : same_but kept key w w5).
  { etrans; [exact Hk|]. apply same_but_eq; [intros ?; reflexivity|congruence]. }
  destruct (Local_ cfg); [intros [= <- _]; by apply kept_lived|].
  destruct (updateMeterReportStatus _ _ w5) as [[w6 e6]|] eqn:Hup; [|done].
  intros [= <- _]. eapply due_update_lived; [done..| |exact Hup]. intros r1 s' Hd Hm.
  destruct Hst as [->|(d & -> & Hd')]; [by eapply step_unstored|by eapply step_reported].
Qed.

Lemma TaskReport_lives :
  task_lives (LS := LS) toDetails cfg names key
    (TaskReport (LS := LS) now toDetails NewReporter CollectMetrics ReportID WriteReport TargzFolder
       OpenFile TargetDataService UploaderUpload Combine cfg key).
Proof.
  intros w w' e t r Hr Hdue. unfold TaskReport.
  destruct (NewReporter w) as [[w1 [reporter|err]]|] eqn:Hn; cbn [mbind outcome_mbind]; [..|done];
    pose proof (reporter_kept _ _ _ Hn) as Hk; [|intros [= <- _]; by apply kept_lived].
  pose proof (collect_apart reporter w1) as Hc.
  destruct (CollectMetrics reporter w1) as [w2 [[metrics [errs warns]] err]]. cbn [fst] in Hc.
  assert (Hk2 : same_but kept key w w2).
  { etrans; [exact Hk|]. by apply same_but_eq; [intros ?; reflexivity|]. }
  destruct err as [err|]; [destruct metrics as [|m metrics]|]; [|by eapply store_report_lives..].
  destruct (updateMeterReportStatus _ _ w2) as [[w3 e3]|] eqn:Hup; cbn [mbind outcome_mbind]; [|done].
  intros [= <- _]. eapply due_update_lived; [done..| |exact Hup].
  intros r1 s' Hd Hm. by eapply step_failed.
Qed.
End tasks.

Section upload_task.
Context {LS W E : Type} `{!StatusClient LS W} `{!ConflictRetry} `{!FileStorage W}.
Variable toDetails : E → outcome ErrorDetails.
Variable cfg : Config.
Variable stamp : NamespacedName → W → Time.
Variable uploaders : list (Uploader W).
Variable describe : string → string.
Variable fuel : nat.
Variable max : Z.

(** [UploadTask]. [RunGeneric] need not end: a run that has no result within the fuel
    gives none here either. *)
Definition upload_task : UploadRun LS W := mkUploadRun
  (λ r w, RunReport (stamp (report_key r) w) uploaders describe (report_key r) r w)
  (λ w, match RunGeneric uploaders describe fuel max w with Some res => Ret res | None => Panic end).

Definition apart {A} (f : W → W * A) : Prop := ∀ w, stored_reports (f w).1 = stored_reports w.

(** Files and backends are no reports. *)
Hypothesis download_apart : ∀ f, apart (FDownloadFile f).
Hypothesis delete_apart : ∀ f, apart (FDeleteFile f).
Hypothesis metadata_apart : ∀ f, apart (FUpdateMetadata f).
Hypothesis uploads_apart : ∀ u name data, u ∈ uploaders → apart (UUpload u name data).

Lemma upload_loop_apart file name us :
  (∀ u, u ∈ us → u ∈ uploaders) → apart (upload_loop describe file name us).
Proof.
  induction us as [|u us IH]; intros Hin w; [done|]. cbn [upload_loop].
  assert (Hu : stored_reports (match ReadFile name w with
      | Err err => (w, failed describe u err)
      | Ok data => match UUpload u (FName file) data w with
                   | (w, (_, Some err)) => (w, failed describe u err)
                   | (w, (id, None)) => (w, mkUploadDetails (UName u) id UploadStatusSuccess "")
                   end
      end).1 = stored_reports w).
  { destruct (ReadFile name w) as [data|]; [|done].
    pose proof (uploads_apart u (FName file) data ltac:(apply Hin; by left) w) as Hu.
    by destruct (UUpload _ _ _ _) as [w1 [id [err|]]]. }
  destruct (match ReadFile name w with Ok _ => _ | Err _ => _ end) as [w1 d]. cbn [fst] in Hu.
  assert (Hr : apart (upload_loop describe file name us)) by (apply IH; intros; apply Hin; by right).
  specialize (Hr w1). destruct (upload_loop _ _ _ us w1) as [w2 rest]. cbn [fst] in *. congruence.
Qed.

Lemma uploadFile_apart file : apart (uploadFile uploaders describe file).
Proof.
  intros w. unfold uploadFile. pose proof (download_apart file w) as Hd.
  destruct (FDownloadFile file w) as [w1 [name|err]]; cbn [fst] in *; [|done].
  rewrite (upload_loop_apart file name uploaders); [done|]. done.
Qed.

Lemma generic_file_apart f w : stored_reports (generic_file uploaders describe max f w) = stored_reports w.
Proof.
  unfold generic_file. destruct (is_deleted f); [done|]. destruct (FGetFile _ w) as [file|]; [|done].
  case_bool_decide; [done|]. pose proof (uploadFile_apart file w) as Hu.
  destruct (uploadFile _ _ file w) as [w1 statuses]. cbn [fst] in Hu.
  case_match; [by rewrite metadata_apart|by rewrite delete_apart].
Qed.

Lemma RunGeneric_apart n w w' e :
  RunGeneric uploaders describe n max w = Some (w', e) → stored_reports w' = stored_reports w.
Proof.
  assert (Hfold : ∀ fs w, stored_reports (foldl (λ w f, generic_file uploaders describe max f w) w fs) =
    stored_reports w).
  { induction fs as [|f fs IH]; intros w0; [done|]. cbn [foldl]. by rewrite IH, generic_file_apart. }
  revert w. induction n as [|n IH]; intros w; [done|]. cbn [RunGeneric].
  destruct (FListFiles w) as [fs [err|]]; [|by intros [= <- _]].
  destruct fs as [|f fs]; [by intros [= <- _]|]. intros H1. apply IH in H1. by rewrite H1, Hfold.
Qed.

(** The details of an upload are of the uploaders of the task. *)
Lemma upload_names file w :
  Forall (λ o, ∃ d, o = Some d ∧ Target d ∈ UName <$> uploaders) (uploadFile uploaders describe file w).2.
Proof.
  pose proof (uploadFile_targets uploaders describe file w) as Ht.
  destruct (uploadFile uploaders describe file w) as [w1 statuses]. cbn [snd].
  destruct Ht as (Hs & n & Hn & _). rewrite Forall_forall in Hs. apply Forall_forall. intros o Ho.
  destruct (Hs o Ho) as [d ->]. exists d. split; [done|].
  assert (Hin : Target d ∈ take n (UName <$> uploaders)).
  { rewrite <- Hn. apply list_elem_of_omap. by exists (Some d). }
  apply elem_of_take in Hin as (i & Hi & _). by eapply list_elem_of_lookup_2.
Qed.

Lemma upload_task_lives : upload_lives toDetails cfg (UName <$> uploaders) upload_task.
Proof.
  split; [|intros w w' e; cbn; destruct (RunGeneric _ _ _ _ w) as [[]|] eqn:Hg; [|done];
    intros [= <- _]; by eapply RunGeneric_apart].
  intros w w' e now r Hr Hready. cbn [UploadReport upload_task]. unfold RunReport.
  destruct (DataServiceStatus (MRStatus r)) as [d|]; [|intros [= <- _]; by apply lives_eq].
  case_bool_decide; [intros [= <- _]; by apply lives_eq|].
  destruct (FGetFile (ID d) w) as [file|]; [|intros [= <- _]; by apply lives_eq].
  pose proof (uploadFile_apart file w) as Hu. pose proof (upload_names file w) as Hn.
  destruct (uploadFile uploaders describe file w) as [w1 statuses]. cbn [fst snd] in Hu, Hn.
  destruct (updateMeterReportStatus _ _ w1) as [[w2 e2]|] eqn:Hup; [|done].
  assert (Hl : same_but (lived toDetails cfg (UName <$> uploaders)) (report_key r) w w2).
  { etrans; [by apply lives_eq|]. eapply update_lived; [|exact Hup]. intros r1 s' Hr1 Hm.
    rewrite Hu, Hr in Hr1. injection Hr1 as <-. eapply step_uploaded; [|exact Hn|exact Hm].
    by destruct r. }
  destruct e2 as [e2|]; [by intros [= <- _]|]. destruct (findStatus statuses) as [[] c]; cbn [fst].
  - intros [= <- _]. etrans; [exact Hl|]. apply lives_eq. apply delete_apart.
  - by intros [= <- _].
Qed.
End upload_task.

(** ** A whole run *)

(** What a task is made of, and that its steps leave the reports alone: only the set-up
    writes one, and not its status or times ([ReporterSetup.NewReporter_kept]). *)
Class ReporterSteps (LS W E M R : Type) `{!StatusClient LS W} := {
  StepReporter : NamespacedName → W → outcome (W * result string R);
  StepCollect : R → W → W * ((list M * (list E * list E)) * option string);
  StepReportID : R → outcome string;
  StepWrite : R → string → list M → W → W * option string;
  StepTargz : W → W * option string;
  StepOpen : W → option string;
  StepUploader : list string → W → result string (string * (W → W * (string * option string)));
  step_reporter_kept key w w' r : StepReporter key w = Ret (w', r) → same_but kept key w w';
  step_collect_apart r : apart (StepCollect r);
  step_write_apart r id ms : apart (StepWrite r id ms);
  step_targz_apart : apart StepTargz;
  step_uploader_law targets w name up :
    StepUploader targets w = Ok (name, up) → name ∈ targets ∧ apart up
}.

(** The backends the upload task is given, and that neither they nor the file service
    touch the reports. *)
Class UploadSteps (LS W : Type) (names : list string) `{!StatusClient LS W} `{!FileStorage W} := {
  StepUploaders : W → result string (list (Uploader W));
  step_uploaders_law w us :
    StepUploaders w = Ok us →
    UName <$> us = names ∧ ∀ u name data, u ∈ us → apart (UUpload u name data);
  step_download_apart f : apart (FDownloadFile f);
  step_delete_apart f : apart (FDeleteFile f);
  step_metadata_apart f : apart (FUpdateMetadata f)
}.

Lemma elem_of_List_filter {A} (f : A → bool) (l : list A) x :
  x ∈ List.filter f l ↔ x ∈ l ∧ f x = true.
Proof. by rewrite !list_elem_of_In, filter_In. Qed.

Lemma List_filter_sublist {A} (f : A → bool) (l : list A) : sublist (List.filter f l) l.
Proof. induction l as [|x l IH]; cbn; [done|]. by destruct (f x); constructor. Qed.

(** Every report of the list is given to its task, whatever became of the earlier
    ones, and what the task left of it stays. *)
Lemma run_each_runs {LS W} `{!StatusClient LS W} (R : MeterReport LS → MeterReport LS → Prop)
    (task : MeterReport LS → Run_ W) reports w w' es :
  NoDup (report_key <$> reports) →
  (∀ r w w' e, r ∈ reports → stored_reports w !! report_key r = Some r →
     task r w = Ret (w', e) → same_but R (report_key r) w w') →
  (∀ r, r ∈ reports → stored_reports w !! report_key r = Some r) →
  run_each task reports w = Ret (w', es) →
  (∀ k, k ∉ report_key <$> reports → stored_reports w' !! k = stored_reports w !! k) ∧
  ∀ r, r ∈ reports → ∃ w1 w2 e, stored_reports w1 !! report_key r = Some r ∧
    task r w1 = Ret (w2, e) ∧ stored_reports w' !! report_key r = stored_reports w2 !! report_key r ∧
    (∀ m, e = Some m → m ∈ es).
Proof.
  revert w es. induction reports as [|r reports IH]; intros w es; cbn [run_each fmap list_fmap].
  { intros _ _ _ [= <- _]. split; [done|]. by intros r ?%elem_of_nil. }
  intros [Hnin Hnd]%NoDup_cons Htask Hst.
  destruct (task r w) as [[w1 e]|] eqn:H1; cbn [mbind outcome_mbind]; [|done].
  destruct (run_each task reports w1) as [[w2 es2]|] eqn:H2; cbn [mbind outcome_mbind]; [|done].
  intros [= <- <-]. pose proof (Htask r w w1 e ltac:(by left) (Hst r ltac:(by left)) H1) as Hr.
  destruct (IH w1 es2 Hnd) as [Ho Hr2]; [| |exact H2|].
  { intros r0 w0 w0' e0 Hin. apply Htask. by right. }
  { intros r0 Hin. rewrite (same_but_other _ _ _ _ _ Hr); [apply Hst; by right|].
    intros Heq. apply Hnin. rewrite <- Heq. by apply list_elem_of_fmap_2. }
  split.
  - intros k Hk. rewrite Ho by set_solver. eapply same_but_other; [done|set_solver].
  - intros r0 [->|Hin]%elem_of_cons.
    + exists w, w1, e. split; [apply Hst; by left|]. split; [done|]. split; [by apply Ho|].
      intros m ->. by left.
    + destruct (Hr2 r0 Hin) as (wa & wb & e0 & Ha & Hb & Hc & Hd). exists wa, wb, e0.
      do 3 (split; [done|]). intros m Hm. destruct e; [right|]; by apply Hd.
Qed.

(** A report that is not uploaded for a reason with no condition is left alone, and not
    kept for the upload. *)
Lemma to_upload_untouched {LS W} `{!StatusClient LS W} `{!ConflictRetry} cfg clock stamp k (r : MeterReport LS)
    reports (w w' : W) ready :
  NoDup (report_key <$> reports) → (∀ r, r ∈ reports → stored_reports w !! report_key r = Some r) →
  stored_reports w !! k = Some r →
  (∀ now, ∃ reason, CanRunUploadReportTask cfg now r = Ret (reason, false) ∧ skip_condition reason = None) →
  to_upload (LS := LS) cfg clock stamp reports w = Ret (w', ready) →
  stored_reports w' !! k = Some r ∧ k ∉ report_key <$> ready.
Proof.
  intros Hnd Hst Hr Hskip. revert w ready Hnd Hst Hr. induction reports as [|r0 reports IH];
    intros w ready; cbn [to_upload fmap list_fmap]; [by intros _ _ Hr [= <- <-]; split; [|apply not_elem_of_nil]|].
  intros [Hnin Hnd]%NoDup_cons Hst Hr.
  assert (Hr0 : stored_reports w !! report_key r0 = Some r0) by (apply Hst; by left).
  assert (Hst1 : ∀ w1, same_but (λ _ _, True) (report_key r0) w w1 →
    ∀ r, r ∈ reports → stored_reports w1 !! report_key r = Some r).
  { intros w1 Hl r1 Hr1. rewrite (same_but_other _ _ _ _ _ Hl); [apply Hst; by right|].
    intros Heq. apply Hnin. rewrite <- Heq. by apply list_elem_of_fmap_2. }
  destruct (CanRunUploadReportTask cfg _ r0) as [[reason ok]|] eqn:Hc; cbn [mbind outcome_mbind]; [|done].
  destruct (decide (report_key r0 = k)) as [Hk|Hk].
  - assert (r0 = r) as -> by congruence. destruct (Hskip (clock (report_key r) w)) as (reason' & Hc' & Hn).
    rewrite Hc in Hc'. injection Hc' as -> ->. unfold setSkipReason. rewrite Hn. cbn [mbind outcome_mbind].
    apply IH; [done| |done]. intros r1 Hr1. apply Hst. by right.
  - destruct ok.
    + destruct (to_upload _ _ _ reports w) as [[w1 ready1]|] eqn:Hu; cbn [mbind outcome_mbind]; [|done].
      intros [= <- <-]. destruct (IH w ready1 Hnd (λ r Hr, Hst r ltac:(by right)) Hr Hu) as [Hw Hn].
      split; [done|]. cbn. intros [->|?]%elem_of_cons; done.
    + destruct (setSkipReason _ _ _ w) as [w1|] eqn:Hs; cbn [mbind outcome_mbind]; [|done].
      assert (Hl : same_but (λ _ _ : MeterReport LS, True) (report_key r0) w w1).
      { intros k1. pose proof (setSkip_lived (E := string) (λ _, Panic) cfg [] _ _ _ _ _ Hs k1) as Hk1.
        destruct (stored_reports w !! k1) as [r1|]; [|done]. destruct Hk1 as (r1' & Hr1' & Hd).
        exists r1'. split; [done|]. by case_decide. }
      apply IH; [done|by apply Hst1|]. by rewrite (same_but_other _ _ _ _ _ Hl).
Qed.

(** Why a stored report is not uploaded, other than its time. *)
Definition spent (max : Z) (s : MeterReportStatus) : bool :=
  match MetricUploadCount s with Some n => bool_decide (n = 0%Z) | None => true end
  || match DataServiceStatus s with None => true | Some d => (ID d == "") || negb (Success d) end
  || bool_decide (max ≤ RetryUpload s)%Z.
Definition unready (max : Z) (s : MeterReportStatus) : bool :=
  match MetricUploadCount s with Some n => bool_decide (n = 0%Z) | None => true end
  || match DataServiceStatus s with None => true | Some d => (ID d == "") || negb (Success d) end
  || bool_decide (max ≤ RetryUpload s)%Z || uploaded s.

Lemma upload_decision {LS} cfg max now (r : MeterReport LS) :
  MaxUploadAttempts cfg = Some max → IsDisconnected cfg = false →
  Before (UTC now) (UTC (EndTime (MRSpec r))) = false →
  ∃ reason, CanRunUploadReportTask cfg now r = Ret (reason, negb (unready max (MRStatus r))).
Proof.
  intros Hm Hd Hb. unfold CanRunUploadReportTask, unready, uploaded. rewrite Hm, Hd, Hb.
  destruct (match MetricUploadCount _ with Some _ => _ | None => _ end); [by eexists|].
  destruct (match DataServiceStatus _ with Some _ => _ | None => _ end); [by eexists|].
  case_bool_decide; [by eexists|]. destruct (OneSuccessOf _ _); by eexists.
Qed.

Lemma retry_grows {LS E} (toDetails : E → outcome ErrorDetails) cfg names (r : MeterReport LS) s s' :
  rtc (status_step toDetails cfg names r) s s' → (RetryUpload s ≤ RetryUpload s')%Z.
Proof.
  induction 1 as [s|s s1 s2 Hs _ IH]; [done|]. etrans; [|exact IH]. clear IH.
  assert (Hrep : ∀ t st n errs warns c s0, mutate_reported t toDetails st n errs warns c s = Ret s0 →
    RetryUpload s0 = RetryUpload s).
  { intros t st n errs warns c s0. unfold mutate_reported.
    destruct (Append _ _); cbn [mbind outcome_mbind]; [|done].
    destruct (with_errors _ _ _ _) as [sx|] eqn:He; [|done]. intros [= <-].
    apply with_errors_fields in He as (_ & He & _). by destruct (Get st _). }
  destruct Hs as [now t errs warns s' _ He|now t d n errs warns c s' _ _ He|now t n errs warns c s' _ He|
    |now t statuses s' _ _ He].
  - apply with_errors_fields in He as (_ & He & _). by rewrite He.
  - by rewrite (Hrep _ _ _ _ _ _ _ He).
  - by rewrite (Hrep _ _ _ _ _ _ _ He).
  - done.
  - apply mutate_uploaded_fields in He as [_ He]. rewrite He. destruct (OneSuccessOf _ _); lia.
Qed.

Section whole_run.
Context {LS W E M R Job JobRef : Type} `{!StatusClient LS W} `{!ConflictRetry} `{!ReportLister LS W}.
Context `{!FileStorage W} `{!ReporterSteps LS W E M R} {names : list string} `{!UploadSteps LS W names}.
Variable toDetails : E → outcome ErrorDetails.
Variable Combine : list E → string.
Variable cfg : Config.
Variable namespace : string.
Variable clock : NamespacedName → W → GoTime.
Variable stamp : NamespacedName → W → Time.
Variable describe : string → string.
Variable fuel : nat.
Variable AsReportJobError : list string → option string.
Variables JOB_NAME POD_NAMESPACE : string.
Variable GetJob : NamespacedName → W → result string Job.
Variable GetReference : Job → result string JobRef.
Variable RecordEvent : JobRef → string → W → W.

(** [NewTask], without the clients it makes. *)
Definition NewTask (key : NamespacedName) (targets : list string) (w : W) : result string (Run_ W) :=
  match StepUploader targets w with
  | Err e => Err e
  | Ok (name, up) => Ok (λ w,
      TaskReport (LS := LS) (stamp key w) toDetails (StepReporter key) StepCollect StepReportID
        StepWrite StepTargz StepOpen name up Combine cfg key w)
  end.

(** [NewUploadTask], likewise. *)
Definition NewUploadTask (w : W) : result string (UploadRun LS W) :=
  match StepUploaders w with
  | Err e => Err e
  | Ok us => Ok (upload_task stamp us describe fuel (default 0%Z (MaxUploadAttempts cfg)))
  end.

Definition RunReporter (w : W) : outcome (W * list string) :=
  Run (LS := LS) cfg namespace clock stamp NewTask NewUploadTask AsReportJobError JOB_NAME
    POD_NAMESPACE GetJob GetReference RecordEvent w.

Hypothesis event_apart : ∀ ref msg w, stored_reports (RecordEvent ref msg w) = stored_reports w.

Notation lives := (same_but (lived toDetails cfg names)).

Lemma NewTask_lives key w task :
  NewTask key [TargetDataService] w = Ok task → task_lives (LS := LS) toDetails cfg names key task.
Proof.
  unfold NewTask. destruct (StepUploader _ w) as [[name up]|] eqn:Hu; [|done]. intros [= <-].
  apply step_uploader_law in Hu as [->%list_elem_of_singleton Hup].
  intros w1 w' e t r Hr Hdue Hrun. eapply TaskReport_lives; [..|exact Hdue|exact Hrun]; try done.
  - intros w2 w3 res. apply step_reporter_kept.
  - intros r0. apply step_collect_apart.
  - intros r0 id ms. apply step_write_apart.
  - apply step_targz_apart.
Qed.

Lemma NewUploadTask_lives w task :
  NewUploadTask w = Ok task → upload_lives toDetails cfg names task.
Proof.
  unfold NewUploadTask. destruct (StepUploaders w) as [us|] eqn:Hu; [|done]. intros [= <-].
  apply step_uploaders_law in Hu as [<- Hus].
  apply upload_task_lives; [intros f; apply step_download_apart|intros f; apply step_delete_apart|
    intros f; apply step_metadata_apart|done].
Qed.

Lemma recordTaskError_apart errs w :
  stored_reports (recordTaskError AsReportJobError JOB_NAME POD_NAMESPACE GetJob GetReference
    RecordEvent errs w).1 = stored_reports w.
Proof.
  unfold recordTaskError. destruct (AsReportJobError errs); [|done].
  destruct (_ ← GetJob _ w; _) as [ref|]; [|done]. cbn. by rewrite event_apart.
Qed.

Lemma report_lived w w' es :
  report (LS := LS) namespace clock NewTask w = Ret (w', es) → all_lived toDetails cfg names w w'.
Proof.
  unfold report. destruct (ListReports namespace w) as [reports|e] eqn:Hl; [|by intros [= <- _]].
  apply list_reports_law in Hl as [Hnd Hin]. intros Hrun.
  eapply run_each_lived; [| |intros r Hr|exact Hrun].
  - unfold to_run. eapply sublist_NoDup; [exact Hnd|]. apply fmap_sublist, List_filter_sublist.
  - intros r w1 w2 e Hr Hst Ht. apply elem_of_List_filter in Hr as [Hr Hdue].
    unfold ReportTask in Ht. destruct (NewTask _ _ w1) as [task|e1] eqn:Hnt.
    + by eapply NewTask_lives.
    + injection Ht as <- _. by apply lives_eq.
  - unfold to_run in Hr. apply elem_of_List_filter in Hr as [Hr _]. by apply Hin.
Qed.

Lemma upload_lived w w' es :
  upload (LS := LS) cfg namespace clock stamp NewUploadTask w = Ret (w', es) →
  all_lived toDetails cfg names w w'.
Proof.
  unfold upload. destruct (ListReports namespace w) as [reports|e] eqn:Hl; [|by intros [= <- _]].
  apply list_reports_law in Hl as [Hnd Hin].
  destruct (to_upload _ _ _ reports w) as [[w1 ready]|] eqn:Hu; cbn [mbind outcome_mbind]; [|done].
  destruct (to_upload_lived toDetails cfg names _ _ _ _ _ _ Hnd (λ r Hr, proj1 (proj1 (Hin r) Hr)) Hu)
    as (Ha & _ & Hsub & Hready).
  destruct (NewUploadTask w1) as [task|e] eqn:Ht; [|by intros [= <- _]].
  destruct (NewUploadTask_lives _ _ Ht) as [Hr Hg].
  destruct (run_each _ ready w1) as [[w2 es2]|] eqn:Hrun; cbn [mbind outcome_mbind]; [|done].
  assert (H2 : all_lived toDetails cfg names w1 w2).
  { eapply run_each_lived; [| |intros r Hin'; by apply Hready|exact Hrun].
    - eapply sublist_NoDup; [exact Hnd|]. by apply fmap_sublist.
    - intros r w3 w4 e Hin' Hst. destruct (Hready r Hin') as (_ & now & Hc). by eapply Hr. }
  unfold upload_generic. destruct (_.1); cbn [mbind outcome_mbind].
  - destruct (UploadGeneric task w2) as [[w3 e3]|] eqn:H3; cbn [mbind outcome_mbind]; [|done].
    intros [= <- _]. etrans; [exact Ha|]. etrans; [exact H2|]. apply all_lived_eq. by eapply Hg.
  - intros [= <- _]. by etrans.
Qed.

(** The reports that are made: only they are written, and each has its task run. *)
Lemma report_runs w w' es reports :
  report (LS := LS) namespace clock NewTask w = Ret (w', es) → ListReports namespace w = Ok reports →
  (∀ k, k ∉ report_key <$> to_run clock w reports → stored_reports w' !! k = stored_reports w !! k) ∧
  ∀ r, r ∈ to_run clock w reports → ∃ w1 w2 e, stored_reports w1 !! report_key r = Some r ∧
    ReportTask NewTask r w1 = Ret (w2, e) ∧ (∀ m, e = Some m → m ∈ es).
Proof.
  unfold report. intros Hrun Hl. rewrite Hl in Hrun. apply list_reports_law in Hl as [Hnd Hin].
  destruct (run_each_runs (lived toDetails cfg names) (ReportTask NewTask) (to_run clock w reports) w w' es)
    as [Ho Hr]; [| | |exact Hrun|].
  - unfold to_run. eapply sublist_NoDup; [exact Hnd|]. apply fmap_sublist, List_filter_sublist.
  - intros r w1 w2 e Hr Hst Ht. apply elem_of_List_filter in Hr as [Hr Hdue].
    unfold ReportTask in Ht. destruct (NewTask _ _ w1) as [task|e1] eqn:Hnt; [by eapply NewTask_lives|].
    injection Ht as <- _. by apply lives_eq.
  - intros r Hr. unfold to_run in Hr. apply elem_of_List_filter in Hr as [Hr _]. by apply Hin.
  - split; [exact Ho|]. intros r Hr'. destruct (Hr r Hr') as (w1 & w2 & e & H1 & H2 & _ & H3).
    by exists w1, w2, e.
Qed.

(** A report that was uploaded, with data, a file and attempts left, is left alone by the
    run of a connected reporter. *)
Lemma report_untouched w w' es k r :
  report (LS := LS) namespace clock NewTask w = Ret (w', es) → stored_reports w !! k = Some r →
  uploaded (MRStatus r) = true → stored_reports w' !! k = Some r.
Proof.
  intros Hrun Hr Hup. destruct (ListReports namespace w) as [reports|e] eqn:Hl.
  2:{ unfold report in Hrun. rewrite Hl in Hrun. by injection Hrun as <- _. }
  destruct (report_runs _ _ _ _ Hrun Hl) as [Ho _]. rewrite Ho; [done|].
  intros (r0 & -> & Hr0)%list_elem_of_fmap. unfold to_run in Hr0. apply elem_of_List_filter in Hr0 as [Hr0 Hc].
  apply list_reports_law in Hl as [_ Hin]. apply Hin in Hr0 as [Hr0 _]. rewrite Hr in Hr0. injection Hr0 as <-.
  destruct (can_run r _ (MRStatus r) ltac:(by destruct r)) as [_ Hno]. congruence.
Qed.

Lemma upload_untouched max w w' es k r :
  MaxUploadAttempts cfg = Some max → IsDisconnected cfg = false →
  upload (LS := LS) cfg namespace clock stamp NewUploadTask w = Ret (w', es) →
  stored_reports w !! k = Some r → uploaded (MRStatus r) = true → spent max (MRStatus r) = false →
  stored_reports w' !! k = Some r.
Proof.
  intros Hm Hd Hrun Hr Hup Hs. unfold upload in Hrun.
  destruct (ListReports namespace w) as [reports|e] eqn:Hl; [|by injection Hrun as <- _].
  apply list_reports_law in Hl as [Hnd Hin]. pose proof (λ r Hr, proj1 (proj1 (Hin r) Hr)) as Hst.
  destruct (to_upload _ _ _ reports w) as [[w1 ready]|] eqn:Hu; cbn [mbind outcome_mbind] in Hrun; [|done].
  assert (Hskip : ∀ now, ∃ reason, CanRunUploadReportTask cfg now r = Ret (reason, false) ∧ skip_condition reason = None).
  { intros now. unfold CanRunUploadReportTask. rewrite Hm, Hd. unfold spent, uploaded in *.
    destruct (Before _ _); [by eexists|]. destruct (match MetricUploadCount _ with Some _ => _ | None => _ end); [done|].
    destruct (match DataServiceStatus _ with Some _ => _ | None => _ end); [done|]. cbn in Hs. rewrite Hs, Hup.
    by eexists. }
  destruct (to_upload_untouched _ _ _ _ _ _ _ _ _ Hnd Hst Hr Hskip Hu) as [Hr1 Hk].
  destruct (to_upload_lived toDetails cfg names _ _ _ _ _ _ Hnd Hst Hu) as (_ & _ & Hsub & Hready).
  destruct (NewUploadTask w1) as [task|e] eqn:Ht; [|by injection Hrun as <- _].
  destruct (NewUploadTask_lives _ _ Ht) as [Hup' Hg].
  destruct (run_each _ ready w1) as [[w2 es2]|] eqn:H2; cbn [mbind outcome_mbind] in Hrun; [|done].
  destruct (run_each_runs (lived toDetails cfg names) (UploadReport task) ready w1 w2 es2) as [Ho _];
    [by eapply sublist_NoDup; [exact Hnd|apply fmap_sublist]| |by intros r0 Hr0; apply Hready|exact H2|].
  { intros r0 w4 w5 e Hr0 Hs0. destruct (Hready r0 Hr0) as (_ & now & Hc). by eapply Hup'. }
  unfold upload_generic in Hrun. destruct (_.1) in Hrun; cbn [mbind outcome_mbind] in Hrun.
  - destruct (UploadGeneric task w2) as [[w3 e3]|] eqn:H3; cbn [mbind outcome_mbind] in Hrun; [|done].
    injection Hrun as <- _. by rewrite (Hg _ _ _ H3), Ho.
  - injection Hrun as <- _. by rewrite Ho.
Qed.

(** C1: one run of the reporter takes every report along its life. Whatever the tasks
    meet, the set-up, the collection, the backends and the file service included, the
    status of each report changes by steps of its life only, no report appears or
    disappears, and what is known of such a life holds after the run when it held
    before: in particular a report that was stored keeps its file, and of one that was
    uploaded nothing but the conditions is written; not even these when the reporter is
    connected and the report has data, the name of its file and attempts left. *)
Theorem Run_lives (max : Z) (w w' : W) (es : list string) :
  MaxUploadAttempts cfg = Some max → TargetDataService ∉ names → RunReporter w = Ret (w', es) →
  ∀ k, match stored_reports w !! k with
       | None => stored_reports w' !! k = None
       | Some r => ∃ r', stored_reports w' !! k = Some r' ∧
           rtc (status_step toDetails cfg names r) (MRStatus r) (MRStatus r') ∧
           (status_inv max (MRStatus r) → status_inv max (MRStatus r') ∧
              (stored (MRStatus r) = true →
                 DataServiceStatus (MRStatus r') = DataServiceStatus (MRStatus r)) ∧
              (uploaded (MRStatus r) = true →
                 UploadStatus_ (MRStatus r') = UploadStatus_ (MRStatus r) ∧
                 MRStatus r' = with_conditions (RConditions (MRStatus r')) (MRStatus r) ∧
                 (IsDisconnected cfg = false → spent max (MRStatus r) = false → r' = r)))
       end.
Proof.
  intros Hm Hn. unfold RunReporter, Run.
  destruct (report _ _ _ w) as [[w1 es1]|] eqn:H1; cbn [mbind outcome_mbind]; [|done].
  destruct (upload _ _ _ _ _ w1) as [[w2 es2]|] eqn:H2; cbn [mbind outcome_mbind]; [|done].
  intros Hret. assert (Hend : stored_reports w' = stored_reports w2)
    by (destruct (es1 ++ es2); injection Hret as <- _; [done|apply recordTaskError_apart]).
  assert (Hl : all_lived toDetails cfg names w w').
  { etrans; [by eapply report_lived|]. etrans; [by eapply upload_lived|]. by apply all_lived_eq. }
  intros k. specialize (Hl k). destruct (stored_reports w !! k) as [r|] eqn:Hr; [|done].
  destruct Hl as (r' & Hr' & _ & _ & Hsteps). exists r'. split; [done|]. split; [done|]. intros Hinv.
  destruct (steps_inv toDetails cfg names r max _ _ Hm Hn Hinv Hsteps) as (Hi & Hst & Hup).
  split; [done|]. split; [intros Hs; by rewrite (inv_ds _ _ Hinv), (inv_ds _ _ Hi), Hst|].
  intros Hu. split; [by apply Hup|]. split; [by eapply uploaded_steps|]. intros Hd Hsp.
  pose proof (report_untouched _ _ _ _ _ H1 Hr Hu) as Hr1.
  pose proof (upload_untouched _ _ _ _ _ _ Hm Hd H2 Hr1 Hu Hsp) as Hr2. rewrite <- Hend in Hr2. congruence.
Qed.

(** What a report whose time has come is left as. *)
Definition served (max : Z) (s s' : MeterReportStatus) : Prop :=
  IsUploaded s' = true ∨ (RetryUpload s < RetryUpload s')%Z ∨ unready max s' = true.

Lemma setSkip_left t key skip w w' (r : MeterReport LS) :
  stored_reports w !! key = Some r → setSkipReason (LS := LS) t key skip w = Ret w' →
  ∃ r', stored_reports w' !! key = Some r' ∧
    ∀ max, unready max (MRStatus r') = unready max (MRStatus r).
Proof.
  intros Hr. unfold setSkipReason. destruct (skip_condition skip) as [c|]; [|intros [= <-]; by exists r].
  destruct (updateMeterReportStatus _ _ w) as [[w1 [e|]]|] eqn:Hu; cbn [mbind outcome_mbind]; [..|done];
    intros [= <-]; pose proof (update_ok _ _ _ _ Hu) as Hok; cbv beta iota in Hok.
  - exists r. by rewrite Hok.
  - destruct Hok as (r1 & s & Hr1 & [= <-] & Heq). exists (with_status r1 (set_condition t c (MRStatus r1))).
    rewrite Heq, lookup_insert_eq. split; [done|]. intros max. assert (r1 = r) as -> by congruence. done.
Qed.

(** A report that is not kept for the upload is left with a reason. *)
Lemma to_upload_left max reports w w' ready :
  MaxUploadAttempts cfg = Some max → IsDisconnected cfg = false →
  NoDup (report_key <$> reports) →
  (∀ r, r ∈ reports → stored_reports w !! report_key r = Some r) →
  to_upload (LS := LS) cfg clock stamp reports w = Ret (w', ready) →
  ∀ r, r ∈ reports → (∀ k w, Before (UTC (clock k w)) (UTC (EndTime (MRSpec r))) = false) →
  r ∈ ready ∨ (r ∉ ready ∧ ∃ r', stored_reports w' !! report_key r = Some r' ∧
                 unready max (MRStatus r') = true).
Proof.
  intros Hm Hd. revert w ready. induction reports as [|r0 reports IH]; intros w ready; [by intros _ _ _ r ?%elem_of_nil|].
  cbn [to_upload fmap list_fmap]. intros [Hnin Hnd]%NoDup_cons Hst Hu r Hin Hdue.
  destruct (CanRunUploadReportTask cfg _ r0) as [[reason ok]|] eqn:Hc; cbn [mbind outcome_mbind] in Hu; [|done].
  assert (Hneq : r0 ∉ reports) by (intros Hx; apply Hnin; by apply list_elem_of_fmap_2).
  destruct ok.
  - destruct (to_upload _ _ _ reports w) as [[w1 ready1]|] eqn:Hu1; cbn [mbind outcome_mbind] in Hu; [|done].
    injection Hu as <- <-. apply elem_of_cons in Hin as [->|Hin]; [left; by left|].
    destruct (IH w ready1 Hnd (λ r Hr, Hst r ltac:(by right)) Hu1 r Hin Hdue) as [Hl|(Hl & Hr)];
      [left; by right|right]. split; [|done]. intros [->|Hx]%elem_of_cons; done.
  - destruct (setSkipReason _ _ _ w) as [w1|] eqn:Hs; cbn [mbind outcome_mbind] in Hu; [|done].
    pose proof (setSkip_lived toDetails cfg names _ _ _ _ _ Hs) as Hl.
    assert (Hst1 : ∀ r, r ∈ reports → stored_reports w1 !! report_key r = Some r).
    { intros r1 Hr1. rewrite (same_but_other _ _ _ _ _ Hl); [apply Hst; by right|].
      intros Heq. apply Hnin. rewrite <- Heq. by apply list_elem_of_fmap_2. }
    apply elem_of_cons in Hin as [->|Hin]; [right|by eapply IH].
    destruct (to_upload_lived toDetails cfg names _ _ _ _ _ _ Hnd Hst1 Hu) as (_ & Ho & Hsub & _).
    split; [intros Hx; apply Hneq; by eapply sublist_subseteq|]. rewrite Ho by done.
    destruct (setSkip_left _ _ _ _ _ _ (Hst r0 ltac:(by left)) Hs) as (r' & Hr' & Hun).
    exists r'. split; [done|]. rewrite Hun.
    destruct (upload_decision cfg max _ r0 Hm Hd (Hdue (report_key r0) w)) as [reason' Hc'].
    rewrite Hc in Hc'. injection Hc' as _ Hc'. by destruct (unready _ _).
Qed.

Lemma RunReport_serves w w1 w2 task (r : MeterReport LS) :
  NewUploadTask w = Ok task → stored_reports w1 !! report_key r = Some r →
  UploadReport task r w1 = Ret (w2, None) →
  ∃ r', stored_reports w2 !! report_key r = Some r' ∧
    (IsUploaded (MRStatus r') = true ∨ (RetryUpload (MRStatus r) < RetryUpload (MRStatus r'))%Z).
Proof.
  unfold NewUploadTask. destruct (StepUploaders w) as [us|] eqn:Hus; [|done]. intros [= <-] Hr.
  apply step_uploaders_law in Hus as [_ Hap]. cbn [UploadReport upload_task]. unfold RunReport.
  destruct (DataServiceStatus (MRStatus r)) as [d|]; [|done]. case_bool_decide; [done|].
  destruct (FGetFile (ID d) w1) as [file|]; [|done].
  pose proof (uploadFile_apart us describe step_download_apart Hap file w1) as Hu.
  destruct (uploadFile us describe file w1) as [w3 statuses]. cbn [fst] in Hu.
  destruct (updateMeterReportStatus _ _ w3) as [[w4 [e|]]|] eqn:Hup; [done| |done].
  destruct (update_ok _ _ _ _ Hup) as (r1 & s & Hr1 & Hm & Heq). intros Hret.
  assert (Hst : stored_reports w2 = stored_reports w4).
  { destruct (findStatus statuses) as [[] c]; injection Hret as <-; [apply step_delete_apart|done]. }
  exists (with_status r1 s). rewrite Hst, Heq, lookup_insert_eq. split; [done|].
  assert (r1 = r) as -> by congruence. apply mutate_uploaded_fields in Hm as [Hi Hre].
  cbn [MRStatus with_status]. rewrite Hi, Hre. destruct (OneSuccessOf _ _); [by left|right; lia].
Qed.

(** What keeps a report from being served, which is in the errors [es] of the run: there
    is no list of the reports, no upload task, or the report's own upload has failed, and
    the report is as that upload left it. *)
Inductive hindered (k : NamespacedName) (es : list string) (w' : W) : Prop :=
| hindered_list w1 e : ListReports namespace w1 = Err e → client_error e ∈ es → hindered k es w'
| hindered_task w1 e : NewUploadTask w1 = Err e → e ∈ es → hindered k es w'
| hindered_self w0 task w1 w2 r e :
    NewUploadTask w0 = Ok task → stored_reports w1 !! k = Some r → report_key r = k →
    UploadReport task r w1 = Ret (w2, Some e) → e ∈ es →
    stored_reports w' !! k = stored_reports w2 !! k → hindered k es w'.

Lemma hindered_more k es es' (w w' : W) :
  es ⊆ es' → stored_reports w' = stored_reports w → hindered k es w → hindered k es' w'.
Proof.
  intros Hes Hw [w1 e Hl He|w1 e Ht He|w0 task w1 w2 r e Ht Hr Hk Hu He Heq].
  - eapply hindered_list; [exact Hl|by apply Hes].
  - eapply hindered_task; [exact Ht|by apply Hes].
  - eapply hindered_self; [exact Ht|exact Hr|exact Hk|exact Hu|by apply Hes|by rewrite Hw].
Qed.

Lemma hindered_nil k w : ¬ hindered k [] w.
Proof. intros [w1 e Hl He|w1 e Ht He|w0 task w1 w2 r e Ht Hr Hk Hu He Heq]; by apply elem_of_nil in He. Qed.

Lemma upload_serves max w w' es :
  MaxUploadAttempts cfg = Some max → IsDisconnected cfg = false →
  upload (LS := LS) cfg namespace clock stamp NewUploadTask w = Ret (w', es) →
  ∀ k r, stored_reports w !! k = Some r → report_key r = k → Namespace (MRMeta r) = namespace →
  (∀ k w, Before (UTC (clock k w)) (UTC (EndTime (MRSpec r))) = false) →
  (∃ r', stored_reports w' !! k = Some r' ∧ served max (MRStatus r) (MRStatus r')) ∨ hindered k es w'.
Proof.
  intros Hm Hd. unfold upload. destruct (ListReports namespace w) as [reports|e] eqn:Hl.
  2:{ intros [= <- <-] k r _ _ _ _. right. eapply hindered_list; [exact Hl|by left]. }
  apply list_reports_law in Hl as [Hnd Hin].
  destruct (to_upload _ _ _ reports w) as [[w1 ready]|] eqn:Hu; cbn [mbind outcome_mbind]; [|done].
  pose proof (λ r Hr, proj1 (proj1 (Hin r) Hr)) as Hst.
  destruct (to_upload_lived toDetails cfg names _ _ _ _ _ _ Hnd Hst Hu) as (_ & _ & Hsub & Hready).
  destruct (NewUploadTask w1) as [task|e] eqn:Ht.
  2:{ intros [= <- <-] k r _ _ _ _. right. eapply hindered_task; [exact Ht|by left]. }
  destruct (NewUploadTask_lives _ _ Ht) as [Hr Hg].
  destruct (run_each _ ready w1) as [[w2 es2]|] eqn:Hrun; cbn [mbind outcome_mbind]; [|done].
  assert (Hgen : ∀ w3 es3, upload_generic cfg task w2 = Ret (w3, es3) →
    stored_reports w3 = stored_reports w2).
  { unfold upload_generic. intros w3 es3. destruct (_.1); [|by intros [= <- _]].
    destruct (UploadGeneric task w2) as [[w4 e4]|] eqn:H4; cbn [mbind outcome_mbind]; [|done].
    intros [= <- _]. by eapply Hg. }
  destruct (upload_generic cfg task w2) as [[w3 es3]|]; cbn [mbind outcome_mbind]; [|done].
  intros [= <- <-] k r Hrk <- Hns Hdue. rewrite (Hgen _ _ eq_refl).
  destruct (run_each_runs (lived toDetails cfg names) (UploadReport task) ready w1 w2 es2 ltac:(eapply sublist_NoDup;
    [exact Hnd|by apply fmap_sublist])) as [Ho Hruns]; [|by intros r0 Hr0; apply Hready|exact Hrun|].
  { intros r0 w4 w5 e Hr0 Hs0. destruct (Hready r0 Hr0) as (_ & now & Hc). by eapply Hr. }
  assert (Hrin : r ∈ reports) by (by apply Hin).
  destruct (to_upload_left max _ _ _ _ Hm Hd Hnd Hst Hu r Hrin Hdue) as [Hl|(Hl & r' & Hr' & Hun)].
  - destruct (Hruns r Hl) as (wa & wb & [e|] & Ha & Hb & Heq & He).
    { right. eapply hindered_self; [exact Ht|exact Ha|done|exact Hb| |by rewrite (Hgen _ _ eq_refl)].
      apply elem_of_app. left. by apply He. }
    destruct (RunReport_serves _ _ _ _ _ Ht Ha Hb) as (r' & Hr' & Hs). left. exists r'. rewrite Heq.
    split; [done|]. unfold served. tauto.
  - left. exists r'. rewrite Ho; [split; [done|by right; right]|]. intros (r0 & Hk & Hr0)%list_elem_of_fmap.
    assert (r0 = r) as ->; [|done]. destruct (Hready r0 Hr0) as [Hs0 _].
    assert (Hr0in : r0 ∈ reports) by (by eapply sublist_subseteq).
    pose proof (Hst r0 Hr0in) as Hq. rewrite <- Hk, Hrk in Hq. by injection Hq.
Qed.

(** C2: a run serves every report that is due, whatever became of the others. When the
    reporter's run ends, with errors or without, every report of its namespace that is
    to be made has its task run on it, whose error, if any, is among those of the run,
    unless the reports cannot be listed. And if the reporter is connected, each report
    whose time has come is, at the end, uploaded; or it has used one more attempt; or it
    is left for a reason that is its own: it has no data, no stored file, no attempts
    left, or was taken before; or the errors of the run say what hindered it, which is
    the list, the making of the task or its own upload. *)
Theorem Run_serves (max : Z) (w w' : W) (es : list string) :
  MaxUploadAttempts cfg = Some max → RunReporter w = Ret (w', es) →
  ∀ k r, stored_reports w !! k = Some r → report_key r = k → Namespace (MRMeta r) = namespace →
  (CanRunReportTask (clock k w) r = true →
     (∃ e, ListReports namespace w = Err e ∧ client_error e ∈ es) ∨
     ∃ w1 w2 e, stored_reports w1 !! k = Some r ∧ ReportTask NewTask r w1 = Ret (w2, e) ∧
       ∀ m, e = Some m → m ∈ es) ∧
  (IsDisconnected cfg = false →
   (∀ k w, Before (UTC (clock k w)) (UTC (EndTime (MRSpec r))) = false) →
   (∃ r', stored_reports w' !! k = Some r' ∧ served max (MRStatus r) (MRStatus r')) ∨ hindered k es w').
Proof.
  intros Hm. unfold RunReporter, Run.
  destruct (report _ _ _ w) as [[w1 es1]|] eqn:H1; cbn [mbind outcome_mbind]; [|done].
  destruct (upload _ _ _ _ _ w1) as [[w2 es2]|] eqn:H2; cbn [mbind outcome_mbind]; [|done].
  intros Hret k r Hr Hk Hns.
  assert (Hend : stored_reports w' = stored_reports w2 ∧ es = es1 ++ es2)
    by (destruct (es1 ++ es2); injection Hret as <- <-; [done|by split; [apply recordTaskError_apart|]]).
  destruct Hend as [Hend ->]. split.
  - intros Hdue. destruct (ListReports namespace w) as [reports|e] eqn:Hl.
    2:{ left. exists e. split; [done|]. unfold report in H1. rewrite Hl in H1. injection H1 as _ <-.
        apply elem_of_app. left. by left. }
    right. destruct (report_runs _ _ _ _ H1 Hl) as [_ Hruns].
    apply list_reports_law in Hl as [_ Hin].
    destruct (Hruns r) as (wa & wb & e & Ha & Hb & He).
    { unfold to_run. apply elem_of_List_filter. rewrite Hk. split; [by apply Hin; rewrite Hk|done]. }
    rewrite Hk in Ha. exists wa, wb, e. split; [done|]. split; [done|]. intros m Hme.
    apply elem_of_app. left. by apply He.
  - intros Hd Hdue. pose proof (report_lived _ _ _ H1 k) as Hl. rewrite Hr in Hl.
    destruct Hl as (r1 & Hr1 & Hk1 & He1 & Hs1).
    assert (Hns1 : Namespace (MRMeta r1) = namespace) by (rewrite <- Hns; by injection Hk1).
    destruct (upload_serves max w1 w2 es2 Hm Hd H2 k r1 Hr1 ltac:(congruence) Hns1) as [(r' & Hr' & Hs)|Hh].
    { intros k0 w0. by rewrite He1. }
    + left. exists r'. rewrite Hend. split; [done|]. apply retry_grows in Hs1.
      destruct Hs as [?|[?|?]]; [by left| |by right; right]. right; left. lia.
    + right. eapply hindered_more; [|exact Hend|exact Hh]. intros e He. apply elem_of_app. by right.
Qed.
End whole_run.

(** ** A run on the cluster in memory *)

Definition toy_list (ns : string) (w : Toy) : list (MeterReport unit) :=
  snd <$> List.filter (λ kr, (report_key kr.2 == kr.1) && (Namespace (MRMeta kr.2) == ns))
            (map_to_list (toy_reports w)).

Lemma toy_list_keys (l : list (NamespacedName * MeterReport unit)) (ns : string) :
  NoDup l.*1 →
  NoDup (report_key <$> (snd <$> List.filter (λ kr, (report_key kr.2 == kr.1)
    && (Namespace (MRMeta kr.2) == ns)) l)).
Proof.
  intros Hnd. eapply sublist_NoDup; [exact Hnd|].
  induction l as [|[k r] l IH]; [done|]. cbn [List.filter fmap list_fmap fst snd].
  apply NoDup_cons in Hnd as [_ Hnd].
  destruct (bool_decide_reflect (report_key r = k)) as [<-|]; cbn [andb]; [|constructor; by apply IH].
  destruct (bool_decide _); cbn; constructor; by apply IH.
Qed.

#[export, refine] Instance toy_lister : ReportLister unit Toy := {|
  ListReports ns w := Ok (toy_list ns w)
|}.
Proof.
  intros ns w l [= <-]. split; [apply toy_list_keys, NoDup_fst_map_to_list|]. intros r. unfold toy_list.
  rewrite list_elem_of_fmap. split.
  - intros ([k r0] & -> & [Hin Hf]%elem_of_List_filter). cbn [fst snd] in *.
    apply elem_of_map_to_list in Hin. go_bool. by subst.
  - intros [Hr Hns]. exists (report_key r, r). split; [done|]. apply elem_of_List_filter. split.
    + by apply elem_of_map_to_list.
    + cbn. by rewrite !bool_decide_true.
Defined.

#[export, refine] Instance toy_steps : ReporterSteps unit Toy string nat unit := {|
  StepReporter _ w := Ret (w, Ok tt);
  StepCollect _ w := (w, (([1; 2; 3]%nat, ([], [])), None));
  StepReportID _ := Ret "uuid";
  StepWrite _ _ _ w := (w, None);
  StepTargz w := (w, None);
  StepOpen _ := None;
  StepUploader targets w :=
    match targets with
    | t :: _ => Ok (t, λ w, (mkToy (toy_reports w) (toy_file :: toy_files w), ("f1", None)))
    | [] => Err "no uploader"
    end
|}.
Proof.
  - by intros key w w' r [= <- _].
  - done.
  - done.
  - done.
  - intros [|t ts] w name up; [done|]. intros [= <- <-]. split; [by left|done].
Defined.

#[export, refine] Instance toy_backends : UploadSteps unit Toy [TargetMarketplace] := {|
  StepUploaders _ := Ok [good_uploader]
|}.
Proof.
  - intros w us [= <-]. split; [done|]. intros u name data Hu. by apply list_elem_of_singleton in Hu as ->.
  - done.
  - done.
  - done.
Defined.

Definition due_world : Toy :=
  mkToy {[ mkNN "ns" "meter-report-2022-01-07" := with_status toy_report zero_status ]} [].
Definition toy_whole_run (w : Toy) : outcome (Toy * list string) :=
  RunReporter (Job := unit) (JobRef := unit) no_details (λ l, Join l "; ") toy_config "ns"
    (λ _ _, noon) (λ _ _, 5%Z) id 10 (λ _, None) "job" "ns" (λ _ _, Ok tt) (λ _, Ok tt)
    (λ _ _ w, w) w.
Definition after_run (w : Toy) : Toy := match toy_whole_run w with Ret (w, _) => w | Panic => w end.

(** A report that is due is made, stored and uploaded in one run, and its file is gone. *)
Lemma toy_run_done :
  toy_whole_run due_world = Ret (after_run due_world, []) ∧ toy_files (after_run due_world) = [] ∧
  match toy_reports (after_run due_world) !! mkNN "ns" "meter-report-2022-01-07" with
  | Some r => stored (MRStatus r) = true ∧ uploaded (MRStatus r) = true ∧ RetryUpload (MRStatus r) = 0%Z
  | None => False
  end.
Proof. vm_compute. split_and!; reflexivity. Qed.

Lemma Run_lives_witness :
  ∃ r', toy_reports (after_run due_world) !! mkNN "ns" "meter-report-2022-01-07" = Some r' ∧
    rtc (status_step no_details toy_config [TargetMarketplace] (with_status toy_report zero_status))
      zero_status (MRStatus r') ∧ status_inv 720 (MRStatus r').
Proof.
  pose proof (Run_lives (Job := unit) (JobRef := unit) no_details (λ l, Join l "; ") toy_config "ns"
    (λ _ _, noon) (λ _ _, 5%Z) id 10 (λ _, None) "job" "ns" (λ _ _, Ok tt) (λ _, Ok tt)
    (λ _ _ w, w) ltac:(done) 720 due_world _ [] eq_refl ltac:(by apply (bool_decide_unpack _))
    (proj1 toy_run_done) (mkNN "ns" "meter-report-2022-01-07")) as Hr.
  cbn [stored_reports toy_client due_world toy_reports] in Hr. rewrite lookup_singleton_eq in Hr.
  destruct Hr as (r' & Hr' & Hs & Hi). exists r'. split; [exact Hr'|]. split; [exact Hs|].
  exact (proj1 (Hi (zero_inv 720 ltac:(done)))).
Defined.

Lemma Run_serves_witness :
  ∃ r', toy_reports (after_run due_world) !! mkNN "ns" "meter-report-2022-01-07" = Some r' ∧
    served 720 zero_status (MRStatus r').
Proof.
  destruct (Run_serves (Job := unit) (JobRef := unit) no_details (λ l, Join l "; ") toy_config "ns"
    (λ _ _, noon) (λ _ _, 5%Z) id 10 (λ _, None) "job" "ns" (λ _ _, Ok tt) (λ _, Ok tt)
    (λ _ _ w, w) ltac:(done) 720 due_world _ [] eq_refl (proj1 toy_run_done)
    (mkNN "ns" "meter-report-2022-01-07") (with_status toy_report zero_status)
    ltac:(apply lookup_singleton_eq) eq_refl eq_refl) as [_ Hs].
  destruct (Hs eq_refl ltac:(intros; vm_compute; reflexivity)) as [Hserved|Hh]; [exact Hserved|].
  destruct (hindered_nil _ _ _ _ _ _ _ Hh).
Defined.

(** The run of a disconnected reporter takes back that a report was uploaded: its details
    stay, its condition does not. *)
Definition disconnected_run (w : Toy) : outcome (Toy * list string) :=
  RunReporter (Job := unit) (JobRef := unit) no_details (λ l, Join l "; ")
    (SetDefaults (mkConfig None None None None false true true)) "ns"
    (λ _ _, noon) (λ _ _, 5%Z) id 10 (λ _, None) "job" "ns" (λ _ _, Ok tt) (λ _, Ok tt)
    (λ _ _ w, w) w.

Example disconnected_takes_back :
  (IsUploaded ∘ MRStatus <$> toy_reports (after_run due_world) !! mkNN "ns" "meter-report-2022-01-07") = Some true ∧
  match disconnected_run (after_run due_world) with
  | Ret (w, es) => es = [] ∧
      ((λ r, (uploaded (MRStatus r), IsUploaded (MRStatus r))) <$> toy_reports w !! mkNN "ns" "meter-report-2022-01-07") =
        Some (true, false)
  | Panic => False
  end.
Proof. vm_compute. split_and!; reflexivity. Qed.
