(* ===== verification/Manifests.v ===== *)
(** * Manifests of the operands

    The model of [v2/pkg/manifests/factory.go] and [inject.go], of the choice of the
    default storage class ([v2/pkg/utils/k8s.go]) and of the predicates
    ([v2/pkg/utils/predicates]): what the operator puts into the manifests it ships
    before it applies them, and how it applies them. Decoding an asset, the overrides of
    the subscription, which a library injects, and the merge of two objects are
    arguments. Of an object the fields that are read or written are modelled; the rest is
    of an arbitrary type. *)

From S2P Require Import Prelude GoTime Workloads MeterReport Helpers.
Local Open Scope go_scope.

(** ** Objects *)

Record VolumeMount := mkMount { MountName : string; ReadOnly : bool; MountPath : string }.

Inductive VolumeSource :=
| ConfigMapSource (name : string)
| TokenSource (audience : string) (expirationSeconds : Z) (path : string)
| OtherSource (source : string).
Record Volume := mkVolume { VolumeName : string; Source : VolumeSource }.

(** Nil maps of limits and requests are told from empty ones: Go panics on a write to
    the former. *)
Record Container := mkContainer {
  CName : string;
  CImage : string;
  CArgs : list string;
  CEnv : list EnvVar;
  CLimits : option (gmap string string);
  CRequests : option (gmap string string);
  CLiveness : option string;
  CReadiness : option string;
  CMounts : list VolumeMount
}.

(** A term of an affinity rule: the namespaces it looks at, and its selector. *)
Record Term := mkTerm { TermNamespaces : list string; TermSelector : string }.
Record PodAntiAffinity := mkAntiAffinity { Required : list Term; Preferred : list Term }.
Record Affinity := mkAffinity { AntiAffinity : option PodAntiAffinity; OtherRules : list string }.

Record PodSpec := mkPodSpec {
  Containers : list Container;
  Volumes : list Volume;
  PodAffinity : option Affinity
}.

Record StatefulSetSpec := mkStatefulSetSpec {
  Template : PodSpec; Claims : list (option string); Replicas : option Z
}.
Record JobTemplateSpec := mkJobTemplate {
  BackoffLimit : option Z; TTLSecondsAfterFinished : option Z; JobPod : PodSpec
}.
Record CronJobSpec := mkCronJobSpec {
  Schedule : string;
  ConcurrencyPolicy : string;
  FailedJobsHistoryLimit : option Z;
  SuccessfulJobsHistoryLimit : option Z;
  JobTemplate : JobTemplateSpec
}.
(** A service monitor's endpoint: the server name of its TLS configuration, which may be
    a nil pointer, and the secret of its authorization, likewise. *)
Record Endpoint := mkEndpoint {
  TLSServerName : option (option string); Authorization : option string
}.

Record PodCondition := mkPodCondition { PCType : string; PCReason : string; PCStatus : string }.

Inductive Body {X : Type} :=
| BDeployment (strategy : string) (pod : PodSpec)
| BStatefulSet (spec : StatefulSetSpec)
| BCronJob (spec : CronJobSpec)
| BPodDisruptionBudget (minAvailable : option Z)
| BServiceMonitor (endpoints : list Endpoint)
| BRoute (spec : X)
| BSecret (data : gmap string string)
| BPod (spec : PodSpec) (phase : string) (conditions : list PodCondition)
| BPersistentVolumeClaim (class : option string)
| BOther (content : X).
Arguments Body : clear implicits.

Record Obj {X : Type} := mkObj { OKind : string; OMeta : ObjectMeta; OBody : Body X }.
Arguments Obj : clear implicits.
Arguments mkObj {X}.

Definition obj_key {X} (o : Obj X) : string * NamespacedName :=
  (OKind o, mkNN (Namespace (OMeta o)) (Name (OMeta o))).

Definition in_namespace (ns : string) (m : ObjectMeta) : ObjectMeta :=
  mkMeta (Name m) ns (UID m) (Generation m) (Labels m) (Annotations m) (OwnerReferences m).

(** [if d.GetNamespace() == "" { d.SetNamespace(f.namespace) }]. *)
Definition default_namespace (ns : string) (m : ObjectMeta) : ObjectMeta :=
  if Namespace m == "" then in_namespace ns m else m.

(** ** The configuration *)

Record RelatedImages := mkImages {
  ReporterImage : string; KubeRbacProxy : string; MetricState : string;
  AuthChecker : string; DQLite : string; MeterDefFileServer : string
}.

(** The resources of a container by its name: limits and requests. *)
Record FactoryConfig := mkFactoryConfig {
  namespace : string;
  Images : RelatedImages;
  Resources : option (gmap string (gmap string string * gmap string string));
  Proxy : ProxyConfig;
  RetryLimit : option Z;
  UploadTargetsOverride : list string;
  ReporterSchema : string;
  DataServiceReplicas : Z
}.

(** ** Containers *)

Definition with_env (f : list EnvVar → list EnvVar) (c : Container) : Container :=
  mkContainer (CName c) (CImage c) (CArgs c) (f (CEnv c)) (CLimits c) (CRequests c)
    (CLiveness c) (CReadiness c) (CMounts c).

Definition with_args (f : list string → list string) (c : Container) : Container :=
  mkContainer (CName c) (CImage c) (f (CArgs c)) (CEnv c) (CLimits c) (CRequests c)
    (CLiveness c) (CReadiness c) (CMounts c).

(** [for k, v := range new { m[k] = v }]; a write to a nil map panics. *)
Definition put_all (new : gmap string string) (m : option (gmap string string))
    : outcome (option (gmap string string)) :=
  match m with
  | Some m => Ret (Some (new ∪ m))
  | None => if decide (new = ∅) then Ret None else Panic
  end.

Definition updateContainerResources (cfg : FactoryConfig) (c : Container) : outcome Container :=
  match Resources cfg with
  | None => Ret c
  | Some resources =>
      match resources !! CName c with
      | None => Ret c
      | Some (limits, requests) =>
          limits' ← put_all limits (CLimits c);
          requests' ← put_all requests (CRequests c);
          Ret (mkContainer (CName c) (CImage c) (CArgs c) (CEnv c) limits' requests'
                 (CLiveness c) (CReadiness c) (CMounts c))
      end
  end.

Definition addPodName : Changes :=
  [Helpers.Add (mkEnv "POD_NAME" "" (Some "metadata.name"));
   Helpers.Add (mkEnv "POD_NAMESPACE" "" (Some "metadata.namespace"))].

Definition healthz : string := "http://:28088/healthz timeout=5 period=30 failures=3".
Definition readyz : string := "http://:28088/readyz timeout=5 delay=15 period=30 failures=3".

Definition with_image (image : string) (c : Container) : Container :=
  mkContainer (CName c) image (CArgs c) (CEnv c) (CLimits c) (CRequests c)
    (CLiveness c) (CReadiness c) (CMounts c).

(** The image of a container by its name, and what else its name brings. *)
Definition replace_image (images : RelatedImages) (c : Container) : Container * Changes :=
  if HasPrefix (CName c) "kube-rbac-proxy" then (with_image (KubeRbacProxy images) c, [])
  else if CName c == "metric-state" then (with_image (MetricState images) c, [])
  else if CName c == "authcheck" then
    (mkContainer (CName c) (AuthChecker images) [] (CEnv c) (CLimits c) (CRequests c)
       (Some healthz) (Some readyz) (CMounts c), addPodName)
  else if CName c == "reporter" then (with_image (ReporterImage images) c, [])
  else if CName c == "rhm-data-service" then (with_image (DQLite images) c, [])
  else if CName c == "rhm-meterdefinition-file-server"
  then (with_image (MeterDefFileServer images) c, [])
  else (c, []).

Definition ReplaceImages (cfg : FactoryConfig) (c : Container) : outcome Container :=
  c ← updateContainerResources cfg c;
  let '(c, changes) := replace_image (Images cfg) c in
  Ret (with_env (Merge (ChangesAppend (AddHttpsProxy (Proxy cfg)) changes)) c).

Definition FormatBool (b : bool) : string := if b then "true" else "false".

Definition UpdateEnvVar (isDisconnected : bool) (c : Container) : Container :=
  with_env (Merge [Helpers.Add (mkEnvVar "IS_DISCONNECTED" (FormatBool isDisconnected))]) c.

Definition with_containers (cs : list Container) (p : PodSpec) : PodSpec :=
  mkPodSpec cs (Volumes p) (PodAffinity p).

Fixpoint mapM_out {A B} (f : A → outcome B) (l : list A) : outcome (list B) :=
  match l with
  | [] => Ret []
  | x :: l => y ← f x; ys ← mapM_out f l; Ret (y :: ys)
  end.

(** ** Building the manifests *)

(** Assets are decoded to a type; an override of the subscription is injected into a
    pod, which may fail. *)
Class Assets (X : Type) := {
  AssetDeployment : string → result string (ObjectMeta * PodSpec);
  AssetStatefulSet : string → result string (ObjectMeta * StatefulSetSpec);
  AssetCronJob : string → result string (ObjectMeta * CronJobSpec);
  AssetPodDisruptionBudget : string → result string ObjectMeta;
  AssetServiceMonitor : string → result string (ObjectMeta * list Endpoint);
  AssetRoute : string → result string (ObjectMeta * X);
  AssetSecret : string → result string (ObjectMeta * gmap string string);
  AssetOther : string → string → result string (ObjectMeta * X)
}.

Section factory.
Context {X : Type} `{!Assets X}.
Variable cfg : FactoryConfig.
(** The seven injections of a subscription's configuration, with the text their error
    is wrapped in. *)
Variable injections : list (string * (PodSpec → result string PodSpec)).

Fixpoint inject (l : list (string * (PodSpec → result string PodSpec))) (p : PodSpec)
    : PodSpec * option string :=
  match l with
  | [] => (p, None)
  | (msg, f) :: l =>
      match f p with
      | Err e => (p, Some ("failed to inject " +:+ msg +:+ " - " +:+ e))
      | Ok p => inject l p
      end
  end.

Definition injectSubscriptionConfig (name : string) (p : PodSpec) : PodSpec * option string :=
  match inject injections p with
  | (p, None) => (p, None)
  | (p, Some e) =>
      (p, Some ("failed to inject subscription config - name=" +:+ name +:+ " - " +:+ e))
  end.

Definition RollingUpdate : string := "RollingUpdate maxSurge=25% maxUnavailable=25%".

Definition NewDeployment (asset : string) : result string (ObjectMeta * PodSpec) :=
  '(m, pod) ← AssetDeployment asset; Ok (default_namespace (namespace cfg) m, pod).

Definition MetricStateDeployment : outcome (result string (Obj X)) :=
  match NewDeployment "metric-state/deployment.yaml" with
  | Err e => Ret (Err e)
  | Ok (m, pod) =>
      cs ← mapM_out (ReplaceImages cfg) (Containers pod);
      let m := in_namespace (namespace cfg) m in
      Ret match injectSubscriptionConfig (Name m) (with_containers cs pod) with
          | (_, Some e) => Err e
          | (pod, None) => Ok (mkObj "Deployment" m (BDeployment RollingUpdate pod))
          end
  end.

(** [int32(n)/2 + 1], wrapped to 32 bits. *)
Definition min_available (replicas : Z) : Z := wrap_int32 (Z.quot (wrap_int32 replicas) 2 + 1).

Definition NewPodDisruptionBudget (asset : string) : result string (Obj X) :=
  m ← AssetPodDisruptionBudget asset;
  Ok (mkObj "PodDisruptionBudget" (default_namespace (namespace cfg) m)
        (BPodDisruptionBudget (Some (min_available (DataServiceReplicas cfg))))).

Definition NewDataServicePodDisruptionBudget : result string (Obj X) :=
  NewPodDisruptionBudget "dataservice/pdb.yaml".

Definition NewRoute (asset : string) : result string (ObjectMeta * X) :=
  '(m, spec) ← AssetRoute asset; Ok (default_namespace (namespace cfg) m, spec).

Definition NewDataServiceRoute : result string (ObjectMeta * X) :=
  NewRoute "dataservice/route.yaml".

(** Services, secrets, config maps and meter definitions. *)
Definition NewOther (kind asset : string) : result string (Obj X) :=
  '(m, content) ← AssetOther kind asset;
  Ok (mkObj kind (default_namespace (namespace cfg) m) (BOther content)).

(** [m.Namespace = f.namespace] of an object as decoded. *)
Definition NewOwn (kind asset : string) : result string (Obj X) :=
  o ← NewOther kind asset;
  Ok (mkObj kind (in_namespace (namespace cfg) (OMeta o)) (OBody o)).

Definition NewDataServiceService : result string (Obj X) := NewOther "Service" "dataservice/service.yaml".
Definition KubeStateMetricsService : result string (Obj X) :=
  NewOwn "Service" "metric-state/kube-state-metrics-service.yaml".
Definition MetricStateService : result string (Obj X) := NewOwn "Service" "metric-state/service.yaml".
Definition UserWorkloadMonitoringMeterDefinition : result string (Obj X) :=
  NewOther "MeterDefinition" "prometheus/user-workload-monitoring-meterdefinition.yaml".
Definition ReporterMeterDefinition : result string (Obj X) :=
  NewOwn "MeterDefinition" "reporter/meterdefinition.yaml".
Definition MetricStateMeterDefinition : result string (Obj X) :=
  NewOwn "MeterDefinition" "metric-state/meterdefinition.yaml".

(** The server name is written through the TLS configuration, and a token through the
    authorization, which is nil when the token is asked for. *)
Definition addBearerToken (secretName : string) (e : Endpoint) : outcome Endpoint :=
  match Authorization e with
  | None => Panic
  | Some _ => Ret (mkEndpoint (TLSServerName e) (Some secretName))
  end.

Definition monitored_endpoint (secretName : option string) (e : Endpoint) : outcome Endpoint :=
  match TLSServerName e with
  | None => Panic
  | Some _ =>
      let e := mkEndpoint (Some (Some ("rhm-metric-state-service." +:+ namespace cfg +:+ ".svc")))
                 (Authorization e) in
      match secretName, Authorization e with
      | Some name, None => addBearerToken name e
      | _, _ => Ret e
      end
  end.

Definition MetricStateServiceMonitor (secretName : option string)
    : outcome (result string (Obj X)) :=
  match AssetServiceMonitor "metric-state/service-monitor-v4.6.yaml" with
  | Err e => Ret (Err e)
  | Ok (m, endpoints) =>
      es ← mapM_out (monitored_endpoint secretName) endpoints;
      Ret (Ok (mkObj "ServiceMonitor" (in_namespace (namespace cfg) m) (BServiceMonitor es)))
  end.

Definition NewServiceMonitor (asset : string) : result string (Obj X) :=
  '(m, endpoints) ← AssetServiceMonitor asset;
  Ok (mkObj "ServiceMonitor" (default_namespace (namespace cfg) m) (BServiceMonitor endpoints)).

Definition NewSecret (asset : string) : result string (Obj X) :=
  '(m, data) ← AssetSecret asset;
  Ok (mkObj "Secret" (default_namespace (namespace cfg) m) (BSecret data)).

(** The operator's own objects, which the bundle installs once. *)
Definition NewMOServiceMonitorMetricsReaderSecret : result string (Obj X) :=
  NewSecret "ibm-metrics-operator/servicemonitor-metrics-reader-secret.yaml".
Definition NewMOMetricsServiceMonitor : result string (Obj X) :=
  NewServiceMonitor "ibm-metrics-operator/metrics-service-monitor.yaml".
Definition NewMOMetricsService : result string (Obj X) :=
  NewOther "Service" "ibm-metrics-operator/metrics-service.yaml".
Definition NewMOCABundleConfigMap : result string (Obj X) :=
  NewOther "ConfigMap" "ibm-metrics-operator/metrics-ca-bundle-configmap.yaml".

(** [newCertificateBundleSecret] of a common name: the authority's certificate and key,
    the server's certificate and key. *)
Variable certificates : string → result string ((string * string) * (string * string)).

Definition NewDataServiceTLSSecret (commonNamePrefix : string) : result string (Obj X) :=
  s ← NewSecret "dataservice/secret.yaml";
  '((caCert, caKey), (tlsCert, tlsKey)) ←
    certificates (Join [commonNamePrefix; namespace cfg; "svc"; "cluster"; "local"] ".");
  Ok (match OBody s with
      | BSecret data =>
          mkObj (OKind s) (OMeta s)
            (BSecret (<["tls.key" := tlsKey]> (<["tls.crt" := tlsCert]>
                       (<["ca.key" := caKey]> (<["ca.crt" := caCert]> data)))))
      | _ => s
      end).

(** ** The stateful set of the data service *)

(** [strings.NewReplacer] of one pair: every occurrence, from the left. *)
Fixpoint replace_loop (old new : string) (skip : nat) (s : string) : string :=
  match s with
  | EmptyString => EmptyString
  | String c s' =>
      match skip with
      | S k => replace_loop old new k s'
      | O => if HasPrefix s old then new +:+ replace_loop old new (String.length old - 1) s'
             else String c (replace_loop old new 0 s')
      end
  end.

Definition replace_namespace (arg : string) : string :=
  replace_loop "{{NAMESPACE}}" (namespace cfg) 0 arg.

(** [ReplaceImages] returns no error; the one it could return is not looked at. *)
Definition service_container (c : Container) : outcome Container :=
  c ← ReplaceImages cfg c; Ret (with_args (map replace_namespace) c).

Definition own_terms (p : PodSpec) : PodSpec :=
  match PodAffinity p with
  | Some (mkAffinity (Some anti) rules) =>
      mkPodSpec (Containers p) (Volumes p)
        (Some (mkAffinity (Some (mkAntiAffinity (Required anti)
           (map (λ t, mkTerm [namespace cfg] (TermSelector t)) (Preferred anti)))) rules))
  | _ => p
  end.

(** [UpdateDataServiceStatefulSet]: what it leaves of the specification, and its error. *)
Definition UpdateDataServiceStatefulSet (name : string) (storageClassName : option string)
    (spec : StatefulSetSpec) : outcome (StatefulSetSpec * option string) :=
  match AssetStatefulSet "dataservice/statefulset.yaml" with
  | Err e => Ret (spec, Some e)
  | Ok (_, spec) =>
      cs ← mapM_out service_container (Containers (Template spec));
      let pod := own_terms (with_containers cs (Template spec)) in
      let claims := map (λ _, storageClassName) (Claims spec) in
      Ret match injectSubscriptionConfig name pod with
          | (pod, Some e) => (mkStatefulSetSpec pod claims (Replicas spec), Some e)
          | (pod, None) =>
              (mkStatefulSetSpec pod claims (Some (wrap_int32 (DataServiceReplicas cfg))), None)
          end
  end.

(** The error of the update is dropped. *)
Definition NewDataServiceStatefulSet (storageClassName : option string)
    : outcome (result string (Obj X)) :=
  match AssetStatefulSet "dataservice/statefulset.yaml" with
  | Err e => Ret (Err e)
  | Ok (m, spec) =>
      let m := default_namespace (namespace cfg) m in
      '(spec, _) ← UpdateDataServiceStatefulSet (Name m) storageClassName spec;
      Ret (Ok (mkObj "StatefulSet" m (BStatefulSet spec)))
  end.

(** ** The cron job of the reporter *)

Definition prometheus_args (service ns port : string) : list string :=
  ["--prometheus-service=" +:+ service; "--prometheus-namespace=" +:+ ns;
   "--prometheus-port=" +:+ port].

Definition serving_certs : string := "ibm-metrics-operator-serving-certs-ca-bundle".
Definition token_volume : string := "data-service-token-vol".

Definition reporter_args (userWorkloadEnabled : bool) : list string :=
  ["--namespace"; namespace cfg;
   "--dataServiceCertFile=/etc/configmaps/ibm-metrics-operator-serving-certs-ca-bundle/service-ca.crt";
   "--dataServiceTokenFile=/etc/data-service-sa/data-service-token";
   "--cafile=/etc/configmaps/ibm-metrics-operator-serving-certs-ca-bundle/service-ca.crt"] ++
  (if userWorkloadEnabled
   then prometheus_args "thanos-querier" "openshift-monitoring" "web"
   else prometheus_args "rhm-prometheus-meterbase" (namespace cfg) "rbac") ++
  (if bool_decide (UploadTargetsOverride cfg = []) then []
   else ["--uploadTargets"; Join (UploadTargetsOverride cfg) ","]) ++
  (if ReporterSchema cfg == "" then [] else ["--reporterSchema"; ReporterSchema cfg]).

Definition reporter_container (userWorkloadEnabled isDisconnected : bool) (c : Container)
    : outcome Container :=
  c ← ReplaceImages cfg c;
  let c := UpdateEnvVar isDisconnected c in
  Ret (mkContainer (CName c) (CImage c) (CArgs c ++ reporter_args userWorkloadEnabled) (CEnv c)
         (CLimits c) (CRequests c) (CLiveness c) (CReadiness c)
         (CMounts c ++ [mkMount serving_certs false
                          "/etc/configmaps/ibm-metrics-operator-serving-certs-ca-bundle";
                        mkMount token_volume true "/etc/data-service-sa"])).

Definition reporter_volumes : list Volume :=
  [mkVolume serving_certs (ConfigMapSource serving_certs);
   mkVolume token_volume (TokenSource ("rhm-data-service." +:+ namespace cfg +:+ ".svc") 3600
                            "data-service-token")].

(** The minute of a schedule that is not given. *)
Variable Itoa_minute : string.

(** The first container is the reporter's; a job without one panics. *)
Definition NewReporterCronJob (userWorkloadEnabled isDisconnected : bool)
    : outcome (result string (Obj X)) :=
  match AssetCronJob "reporter/cronjob.yaml" with
  | Err e => Ret (Err e)
  | Ok (m, spec) =>
      let m := default_namespace (namespace cfg) m in
      let schedule := if Schedule spec == "" then Itoa_minute +:+ " * * * *" else Schedule spec in
      let job := JobPod (JobTemplate spec) in
      match Containers job with
      | [] => Panic
      | c :: cs =>
          c ← reporter_container userWorkloadEnabled isDisconnected c;
          let pod := mkPodSpec (c :: cs) (Volumes job ++ reporter_volumes) (PodAffinity job) in
          Ret match injectSubscriptionConfig (Name m) pod with
              | (_, Some e) => Err e
              | (pod, None) =>
                  Ok (mkObj "CronJob" m
                        (BCronJob (mkCronJobSpec schedule (ConcurrencyPolicy spec)
                           (FailedJobsHistoryLimit spec) (SuccessfulJobsHistoryLimit spec)
                           (mkJobTemplate (RetryLimit cfg) (Some 259200%Z) pod))))
              end
      end
  end.
End factory.

(** ** The cluster *)

(** Reads and writes of objects. [CreateOrUpdate] is controller-runtime's: it reads the
    object in the given one, which it changes, and makes or updates it as [mutate] leaves
    it. [SetControllerReference] fails when another controller owns the object. *)
Class ObjectCluster (X W : Type) := {
  GetObj : string → NamespacedName → W → result ClientError (Obj X);
  ListObj : string → gmap string string → W → result ClientError (list (Obj X));
  CreateObj : Obj X → W → W * option ClientError;
  UpdateObj : Obj X → W → W * option ClientError;
  DeleteObj : Obj X → W → W * option ClientError;
  CreateOrUpdate : Obj X → (Obj X → result ClientError (Obj X)) → W →
    (W * Obj X) * option ClientError;
  SetControllerReference : ObjectMeta → Obj X → result ClientError (Obj X);
  MergeObj : Obj X → Obj X → result ClientError (Obj X)
}.

Definition as_client {A} (r : result string A) : result ClientError A :=
  match r with Ok a => Ok a | Err e => Err (OtherFailure e) end.

Section applying.
Context {X W : Type} `{!ObjectCluster X W} `{!ConflictRetry}.

(** The error of setting the controller is not looked at. *)
Definition controlled (owner : option ObjectMeta) (o : Obj X) : Obj X :=
  match owner with
  | None => o
  | Some owner => match SetControllerReference owner o with Ok o => o | Err _ => o end
  end.

(** [Factory.CreateOrUpdate] of a manifest that could be built. *)
Definition apply_attempt (owner : option ObjectMeta) (manifest : Obj X) (st : W * Obj X)
    : (W * Obj X) * option ClientError :=
  CreateOrUpdate st.2 (λ obj, MergeObj obj (controlled owner manifest)) st.1.

Definition FactoryCreateOrUpdate (owner : option ObjectMeta) (manifest : result string (Obj X))
    (w : W) : W * option ClientError :=
  match manifest with
  | Err e => (w, Some (OtherFailure e))
  | Ok obj =>
      match RetryOnConflict (apply_attempt owner obj) (w, obj) with ((w, _), e) => (w, e) end
  end.

(** A deletion that finds nothing is as good. *)
Definition ensure_deleted (o : Obj X) (w : W) : W * option ClientError :=
  match DeleteObj o w with (w, Some IsNotFound) => (w, None) | r => r end.
End applying.

(** ** Storage classes *)

Inductive StorageError := DefaultStorageClassNotFound | MultipleDefaultStorageClassFound
  | StorageFailure (e : ClientError).

Definition is_default_class (m : ObjectMeta) : bool :=
  (default "" (Annotations m !! "storageclass.kubernetes.io/is-default-class") == "true")
  || (default "" (Annotations m !! "storageclass.beta.kubernetes.io/is-default-class") == "true").

Definition default_classes {X} (items : list (Obj X)) : list string :=
  map (λ o, Name (OMeta o)) (List.filter (λ o, is_default_class (OMeta o)) items).

Definition GetDefaultStorageClass {X W} `{!ObjectCluster X W} (w : W) : result StorageError string :=
  match ListObj "StorageClass" ∅ w with
  | Err e => Err (StorageFailure e)
  | Ok items =>
      match default_classes items with
      | [] => Err DefaultStorageClassNotFound
      | [name] => Ok name
      | _ :: _ :: _ => Err MultipleDefaultStorageClassFound
      end
  end.

(** ** Predicates *)

(** An event of an object; an update has the object before and after. *)
Inductive Event := ECreate (o : ObjectMeta) | EUpdate (old new : ObjectMeta)
  | EDelete (o : ObjectMeta) | EGeneric (o : ObjectMeta).

Definition NamespacePredicate (target : string) (e : Event) : bool :=
  match e with
  | ECreate o | EDelete o | EGeneric o => Namespace o == target
  | EUpdate old new => (Namespace old == target) && (Namespace new == target)
  end.

(** [SyncedMapHandler]: which object a change of another one concerns. *)
Section synced_map.
Variable exists_ : NamespacedName → bool.

Notation Synced := (gmap NamespacedName NamespacedName).

Definition AddOrUpdate (from to : NamespacedName) (data : Synced) : Synced := <[from := to]> data.

Definition Cleanup (data : Synced) : Synced :=
  foldr delete data (List.filter (λ k, !(exists_ k)) (map_to_list data).*1).

Definition MapRequests (a : option ObjectMeta) (data : Synced) : list NamespacedName :=
  match a with
  | None => []
  | Some a => match data !! mkNN (Namespace a) (Name a) with Some v => [v] | None => [] end
  end.
End synced_map.

(** ** What the cluster promises *)

Definition owned (owner : ObjectMeta) (m : ObjectMeta) : Prop :=
  Exists (λ ref, ORUID ref = UID owner) (OwnerReferences m).

(** The storage classes of the claims of a stateful set. *)
Definition claims_of {X} (o : Obj X) : list (option string) :=
  match OBody o with BStatefulSet spec => Claims spec | _ => [] end.

(** Nobody else writes. [admitted o n]: the server stores [n] for [o], with the same key,
    owners and claims. A merge takes over the owners of its second argument when it has
    any, and its claims likewise ([mergo.WithOverride] replaces a list by one that is not
    empty). A deleted object is gone: these objects carry no finalizers. *)
Class ObjectStore (X W : Type) `{!ObjectCluster X W} := {
  objs : W → gmap (string * NamespacedName) (Obj X);
  keyed_law w k o : objs w !! k = Some o → obj_key o = k;
  admitted : Obj X → Obj X → Prop;
  admitted_law o n :
    admitted o n → obj_key n = obj_key o ∧ OwnerReferences (OMeta n) = OwnerReferences (OMeta o) ∧
      claims_of n = claims_of o;
  get_obj_law kind k w :
    match GetObj kind k w with
    | Ok o => objs w !! (kind, k) = Some o
    | Err IsNotFound => objs w !! (kind, k) = None
    | Err _ => True
    end;
  list_obj_law kind labels w l o :
    ListObj kind labels w = Ok l → o ∈ l → objs w !! obj_key o = Some o ∧ OKind o = kind;
  create_obj_law o w :
    match CreateObj o w with
    | (w', None) => ∃ n, admitted o n ∧ objs w' = <[obj_key o := n]> (objs w)
    | (w', Some _) => objs w' = objs w
    end;
  update_obj_law o w :
    match UpdateObj o w with
    | (w', None) => is_Some (objs w !! obj_key o) ∧
        ∃ n, admitted o n ∧ objs w' = <[obj_key o := n]> (objs w)
    | (w', Some _) => objs w' = objs w
    end;
  delete_obj_law o w :
    match DeleteObj o w with
    | (w', None) => objs w' = delete (obj_key o) (objs w)
    | (w', Some e) => objs w' = objs w ∧ (e = IsNotFound → objs w !! obj_key o = None)
    end;
  create_or_update_law o mutate w :
    match CreateOrUpdate o mutate w with
    | ((w', o'), e) => obj_key o' = obj_key o ∧
        match e with
        | None => ∃ base n, (objs w !! obj_key o = Some base ∨ objs w !! obj_key o = None ∧ base = o) ∧
            mutate base = Ok o' ∧ admitted o' n ∧ objs w' = <[obj_key o := n]> (objs w)
        | Some _ => objs w' = objs w
        end
    end;
  controller_law owner o o' :
    SetControllerReference owner o = Ok o' →
    obj_key o' = obj_key o ∧ owned owner (OMeta o') ∧ OBody o' = OBody o;
  merge_law o u o' :
    MergeObj o u = Ok o' → OwnerReferences (OMeta u) ≠ [] →
    OwnerReferences (OMeta o') = OwnerReferences (OMeta u);
  merge_claims_law o u o' :
    MergeObj o u = Ok o' → claims_of u ≠ [] → claims_of o' = claims_of u
}.

(** ** Lemmas *)

Section applying_lemmas.
Context {X W : Type} `{!ObjectCluster X W} `{!ObjectStore X W} `{!ConflictRetry}.

(** What is stored for a manifest: what the server makes of its merge into what was
    there. *)
Definition applied (owner : option ObjectMeta) (o : Obj X) (w w' : W) : Prop :=
  ∃ base merged n, MergeObj base (controlled owner o) = Ok merged ∧ admitted merged n ∧
    obj_key merged = obj_key o ∧ objs w' = <[obj_key o := n]> (objs w).

Lemma apply_attempt_spec owner o st :
  obj_key st.2 = obj_key o →
  match apply_attempt owner o st with
  | (st', None) => applied owner o st.1 st'.1
  | (st', Some _) => objs st'.1 = objs st.1 ∧ obj_key st'.2 = obj_key o
  end.
Proof.
  intros Hk. unfold apply_attempt.
  pose proof (create_or_update_law st.2 (λ obj, MergeObj obj (controlled owner o)) st.1) as Hl.
  destruct (CreateOrUpdate _ _ _) as [[w' o'] [e|]]; cbn [fst snd].
  - by destruct Hl as [-> ->].
  - destruct Hl as (Hk' & base & n & _ & Hm & Hn & Heq). exists base, o', n.
    split_and!; [done..|congruence|]. by rewrite Hk in Heq.
Qed.

Lemma FactoryCreateOrUpdate_spec owner manifest w :
  match FactoryCreateOrUpdate owner manifest w with
  | (w', None) => ∃ o, manifest = Ok o ∧ applied owner o w w'
  | (w', Some _) => objs w' = objs w
  end.
Proof.
  unfold FactoryCreateOrUpdate. destruct manifest as [o|e]; [|done].
  pose proof (retried_post (λ st, objs st.1 = objs w ∧ obj_key st.2 = obj_key o)
    (λ st, applied owner o w st.1) (apply_attempt owner o) (w, o)) as Hr.
  destruct (RetryOnConflict _ _) as [[w' o'] [e|]]; [apply Hr|exists o; split; [done|]; apply Hr];
    try done; intros st [Hst Hk]; pose proof (apply_attempt_spec owner o st Hk) as Ha;
    destruct (apply_attempt owner o st) as [st' [e1|]]; try by rewrite <- Hst.
  all: destruct Ha as (base & m & n & ? & ? & ? & Ho); exists base, m, n; by rewrite Hst in Ho.
Qed.

(** An object that was applied for an owner is there, and is the owner's. *)
Lemma applied_owned owner o w w' o1 :
  applied (Some owner) o w w' → SetControllerReference owner o = Ok o1 →
  ∃ n, objs w' = <[obj_key o := n]> (objs w) ∧ owned owner (OMeta n).
Proof.
  intros (base & merged & n & Hm & Hn & Hk & Heq) Hc. exists n. split; [done|].
  unfold controlled in Hm. rewrite Hc in Hm. apply controller_law in Hc as (_ & Ho & _).
  apply merge_law in Hm.
  - apply admitted_law in Hn as (_ & Hn & _). unfold owned in *. by rewrite Hn, Hm.
  - intros Hnil. unfold owned in Ho. rewrite Hnil in Ho. by apply Exists_nil in Ho.
Qed.

(** The claims of what is stored are those of the manifest, if it has any. *)
Lemma applied_claims owner o w w' :
  applied owner o w w' → claims_of o ≠ [] →
  ∃ n, objs w' = <[obj_key o := n]> (objs w) ∧ claims_of n = claims_of o.
Proof.
  intros (base & merged & n & Hm & Hn & Hk & Heq) Hne. exists n. split; [done|].
  assert (Hc : claims_of (controlled owner o) = claims_of o).
  { unfold controlled. destruct owner as [owner|]; [|done].
    destruct (SetControllerReference owner o) as [o1|] eqn:Hs; [|done].
    apply controller_law in Hs as (_ & _ & Hb). unfold claims_of. by rewrite Hb. }
  apply admitted_law in Hn as (_ & _ & Hn). rewrite Hn, <- Hc.
  eapply merge_claims_law; [exact Hm|by rewrite Hc].
Qed.

Lemma ensure_deleted_spec o w :
  match ensure_deleted o w with
  | (w', None) => objs w' = delete (obj_key o) (objs w)
  | (w', Some _) => objs w' = objs w
  end.
Proof.
  unfold ensure_deleted. pose proof (delete_obj_law o w) as Hd.
  destruct (DeleteObj o w) as [w' [[]|]]; try by destruct Hd.
  destruct Hd as [-> Hd]. symmetry. apply delete_id. by apply Hd.
Qed.
End applying_lemmas.

Lemma mapM_out_Ret {A B} (f : A → outcome B) l l' :
  mapM_out f l = Ret l' → Forall2 (λ x y, f x = Ret y) l l'.
Proof.
  revert l'. induction l as [|x l IH]; intros l'; cbn [mapM_out]; [by intros [= <-]|].
  destruct (f x) as [y|] eqn:Hx; cbn [mbind outcome_mbind]; [|done].
  destruct (mapM_out f l) as [ys|]; cbn [mbind outcome_mbind]; [|done].
  intros [= <-]. constructor; [done|]. by apply IH.
Qed.

(** ** A cluster of objects

    An example: the log of what was written and deleted, the last entry first. *)

Inductive Write := Put (o : Obj string) | Erase (k : string * NamespacedName).

Fixpoint log_objs (log : list Write) : gmap (string * NamespacedName) (Obj string) :=
  match log with
  | [] => ∅
  | Put o :: log => <[obj_key o := o]> (log_objs log)
  | Erase k :: log => delete k (log_objs log)
  end.

Definition log_get kind k (log : list Write) : result ClientError (Obj string) :=
  match log_objs log !! (kind, k) with Some o => Ok o | None => Err IsNotFound end.

Definition log_list (kind : string) (labels : gmap string string) (log : list Write)
    : result ClientError (list (Obj string)) :=
  Ok (List.filter (λ o, (OKind o == kind) && bool_decide (labels ⊆ Labels (OMeta o)))
        (map_to_list (log_objs log)).*2).

Definition log_put (o : Obj string) (log : list Write) : list Write * option ClientError :=
  (Put o :: log, None).

Definition log_create (o : Obj string) (log : list Write) : list Write * option ClientError :=
  match log_objs log !! obj_key o with
  | Some _ => (log, Some AlreadyExists)
  | None => log_put o log
  end.

Definition log_update (o : Obj string) (log : list Write) : list Write * option ClientError :=
  match log_objs log !! obj_key o with
  | Some _ => log_put o log
  | None => (log, Some IsNotFound)
  end.

Definition log_delete (o : Obj string) (log : list Write) : list Write * option ClientError :=
  match log_objs log !! obj_key o with
  | Some _ => (Erase (obj_key o) :: log, None)
  | None => (log, Some IsNotFound)
  end.

Definition log_create_or_update (o : Obj string) (mutate : Obj string → result ClientError (Obj string))
    (log : list Write) : (list Write * Obj string) * option ClientError :=
  match mutate (default o (log_objs log !! obj_key o)) with
  | Err e => ((log, o), Some e)
  | Ok o' => if decide (obj_key o' = obj_key o) then ((Put o' :: log, o'), None)
             else ((log, o), Some (OtherFailure "the key was changed"))
  end.

Definition with_owners (refs : list OwnerReference) (m : ObjectMeta) : ObjectMeta :=
  mkMeta (Name m) (Namespace m) (UID m) (Generation m) (Labels m) (Annotations m) refs.

Definition log_controller (owner : ObjectMeta) (o : Obj string) : result ClientError (Obj string) :=
  Ok (mkObj (OKind o)
        (with_owners (mkOwnerRef "" "" (Name owner) (UID owner) :: OwnerReferences (OMeta o)) (OMeta o))
        (OBody o)).

Definition log_merge (o u : Obj string) : result ClientError (Obj string) :=
  Ok (mkObj (OKind o)
        (with_owners (if bool_decide (OwnerReferences (OMeta u) = []) then OwnerReferences (OMeta o)
                      else OwnerReferences (OMeta u)) (OMeta o)) (OBody u)).

#[export] Instance log_cluster : ObjectCluster string (list Write) := {
  GetObj := log_get; ListObj := log_list; CreateObj := log_create; UpdateObj := log_update;
  DeleteObj := log_delete; CreateOrUpdate := log_create_or_update;
  SetControllerReference := log_controller; MergeObj := log_merge
}.

Lemma log_keyed log k o : log_objs log !! k = Some o → obj_key o = k.
Proof.
  induction log as [|[o1|k1] log IH]; cbn [log_objs]; [done|..].
  - destruct (decide (obj_key o1 = k)) as [<-|]; [rewrite lookup_insert_eq; by intros [= ->]|].
    by rewrite lookup_insert_ne.
  - destruct (decide (k1 = k)) as [->|]; [by rewrite lookup_delete_eq|]. by rewrite lookup_delete_ne.
Qed.

#[export, refine] Instance log_store : ObjectStore string (list Write) := {|
  objs := log_objs; admitted := λ o n, n = o
|}.
Proof.
  - apply log_keyed.
  - by intros o n ->.
  - intros kind k w. cbn. unfold log_get. by destruct (log_objs w !! _).
  - intros kind labels w l o. cbn. unfold log_list. intros [= <-] Hin.
    apply list_elem_of_In, filter_In in Hin as [Hin Hf]. apply list_elem_of_In in Hin.
    apply list_elem_of_fmap in Hin as ([k o1] & -> & Hin%elem_of_map_to_list).
    pose proof (log_keyed _ _ _ Hin) as <-. split; [done|]. cbn in Hf. by apply andb_prop in Hf as [?%bool_decide_eq_true _].
  - intros o w. cbn. unfold log_create. destruct (log_objs w !! _); cbn; [done|]. by exists o.
  - intros o w. cbn. unfold log_update. destruct (log_objs w !! _); cbn; [|done]. split; [done|]. by exists o.
  - intros o w. cbn. unfold log_delete. by destruct (log_objs w !! _).
  - intros o mutate w. cbn. unfold log_create_or_update.
    destruct (mutate _) as [o'|e] eqn:Hm; [|done]. destruct (decide _) as [Hk|]; [|done]. split; [done|].
    exists (default o (log_objs w !! obj_key o)), o'.
    split_and!; [|done|done|by cbn; rewrite Hk]. destruct (log_objs w !! obj_key o); [by left|by right].
  - intros owner o o' [= <-]. split; [done|]. split; [by constructor|done].
  - intros o u o' [= <-] Hne. cbn. by rewrite bool_decide_false.
  - by intros o u o' [= <-] _.
Defined.

(** A cluster of objects beside something else. *)
Section beside.
Context {X W B : Type} `{!ObjectCluster X W}.

Definition on_fst {A} (f : W → W * A) (w : W * B) : (W * B) * A := ((( f w.1).1, w.2), (f w.1).2).

Definition cluster_beside : ObjectCluster X (W * B) := {|
  GetObj kind k w := GetObj kind k w.1;
  ListObj kind labels w := ListObj kind labels w.1;
  CreateObj o := on_fst (CreateObj o);
  UpdateObj o := on_fst (UpdateObj o);
  DeleteObj o := on_fst (DeleteObj o);
  CreateOrUpdate o f w :=
    let r := CreateOrUpdate o f w.1 in (((r.1.1, w.2), r.1.2), r.2);
  SetControllerReference := SetControllerReference (W := W);
  MergeObj := MergeObj (W := W)
|}.

Definition store_beside `{!ObjectStore X W} : @ObjectStore X (W * B) cluster_beside.
Proof.
  refine (@Build_ObjectStore X (W * B) cluster_beside (λ w, objs w.1) _ (admitted (W := W))
    _ _ _ _ _ _ _ _ _ _).
  - exact (λ w, keyed_law w.1).
  - exact (admitted_law (W := W)).
  - exact (λ kind k w, get_obj_law kind k w.1).
  - exact (λ kind labels w, list_obj_law kind labels w.1).
  - intros o w. cbn. pose proof (create_obj_law o w.1) as Hl. by destruct (CreateObj o w.1) as [? []].
  - intros o w. cbn. pose proof (update_obj_law o w.1) as Hl. by destruct (UpdateObj o w.1) as [? []].
  - intros o w. cbn. pose proof (delete_obj_law o w.1) as Hl. by destruct (DeleteObj o w.1) as [? []].
  - intros o f w. cbn. pose proof (create_or_update_law o f w.1) as Hl.
    by destruct (CreateOrUpdate o f w.1) as [[? ?] []].
  - exact (controller_law (W := W)).
  - exact (merge_law (W := W)).
  - exact (merge_claims_law (W := W)).
Defined.
End beside.

(** ** Properties *)

(** C24: the data service keeps its quorum through voluntary disruptions: for a number of
    replicas from 1 to the largest 32-bit integer, neither the conversion to 32 bits nor
    the sum wraps around, the disruption budget asks for at most as many pods as there
    are replicas, and any two sets of pods that meet it have one in common. *)
Theorem data_service_quorum {X} `{!Assets X} (cfg : FactoryConfig) injections name class spec spec'
    (pdb : Obj X) :
  (1 ≤ DataServiceReplicas cfg ≤ 2 ^ 31 - 1)%Z →
  NewDataServicePodDisruptionBudget cfg = Ok pdb →
  UpdateDataServiceStatefulSet cfg injections name class spec = Ret (spec', None) →
  ∃ m, OBody pdb = BPodDisruptionBudget (Some m) ∧
    Replicas spec' = Some (DataServiceReplicas cfg) ∧
    (1 ≤ m ≤ DataServiceReplicas cfg)%Z ∧ (DataServiceReplicas cfg < m + m)%Z.
Proof.
  intros Hn Hp Hu. set (n := DataServiceReplicas cfg) in *.
  assert (Hwrap : ∀ z, (- 2 ^ 31 ≤ z < 2 ^ 31)%Z → wrap_int32 z = z).
  { intros z Hz. unfold wrap_int32. rewrite Z.mod_small; lia. }
  pose proof (Z.quot_rem' n 2) as Hq. pose proof (Z.rem_bound_pos n 2 ltac:(lia) ltac:(lia)) as Hr.
  exists (Z.quot n 2 + 1)%Z. split_and!.
  - unfold NewDataServicePodDisruptionBudget, NewPodDisruptionBudget in Hp.
    destruct (AssetPodDisruptionBudget _) as [m|]; [|done]. cbn [mbind result_mbind] in Hp.
    injection Hp as <-. cbn [OBody]. unfold min_available. fold n.
    rewrite (Hwrap n) by lia. rewrite Hwrap by lia. done.
  - unfold UpdateDataServiceStatefulSet in Hu. destruct (AssetStatefulSet _) as [[m sp]|]; [|done].
    destruct (mapM_out _ _) as [cs|]; cbn [mbind outcome_mbind] in Hu; [|done].
    destruct (injectSubscriptionConfig _ _ _) as [pod [e|]]; [done|]. injection Hu as <-.
    cbn [Replicas]. fold n. by rewrite (Hwrap n) by lia.
  - lia.
  - lia.
  - lia.
Qed.

(** The image of every container of a known name is the configured one, other names
    keep theirs; a kube-rbac-proxy is told by the start of its name. *)
Theorem ReplaceImages_spec (cfg : FactoryConfig) (c c' : Container) :
  ReplaceImages cfg c = Ret c' →
  CName c' = CName c ∧
  CImage c' =
    if HasPrefix (CName c) "kube-rbac-proxy" then KubeRbacProxy (Images cfg)
    else if CName c == "metric-state" then MetricState (Images cfg)
    else if CName c == "authcheck" then AuthChecker (Images cfg)
    else if CName c == "reporter" then ReporterImage (Images cfg)
    else if CName c == "rhm-data-service" then DQLite (Images cfg)
    else if CName c == "rhm-meterdefinition-file-server" then MeterDefFileServer (Images cfg)
    else CImage c.
Proof.
  unfold ReplaceImages.
  assert (Hu : ∀ c1, updateContainerResources cfg c = Ret c1 → CName c1 = CName c ∧ CImage c1 = CImage c).
  { intros c1. unfold updateContainerResources. destruct (Resources cfg) as [rs|]; [|by intros [= <-]].
    destruct (rs !! CName c) as [[l q]|]; [|by intros [= <-]].
    destruct (put_all l _); cbn [mbind outcome_mbind]; [|done].
    destruct (put_all q _); cbn [mbind outcome_mbind]; [|done]. by intros [= <-]. }
  destruct (updateContainerResources cfg c) as [c1|]; cbn [mbind outcome_mbind]; [|done].
  destruct (Hu c1 eq_refl) as [Hn Hi]. unfold replace_image. rewrite Hn.
  destruct (HasPrefix (CName c) _); [by intros [= <-]|].
  repeat match goal with
  | |- context [bool_decide ?P] => destruct (bool_decide P); [by intros [= <-]|]
  end. by intros [= <-].
Qed.

(** A container without limits cannot be given any: the configured resources are
    written to a nil map. *)
Theorem missing_limits_panic (cfg : FactoryConfig) (c : Container) rs limits requests :
  Resources cfg = Some rs → rs !! CName c = Some (limits, requests) → limits ≠ ∅ →
  CLimits c = None → ReplaceImages cfg c = Panic.
Proof.
  intros Hr Hc Hl Hn. unfold ReplaceImages, updateContainerResources. rewrite Hr, Hc, Hn. cbn.
  by rewrite decide_False.
Qed.

(** The error of an injection is dropped: the stateful set is then made with the number
    of replicas of the asset and not the configured one. *)
Theorem injection_error_dropped {X} `{!Assets X} (cfg : FactoryConfig) injections class m spec spec' e :
  AssetStatefulSet "dataservice/statefulset.yaml" = Ok (m, spec) →
  UpdateDataServiceStatefulSet cfg injections (Name (default_namespace (namespace cfg) m)) class spec
    = Ret (spec', Some e) →
  NewDataServiceStatefulSet cfg injections class =
    Ret (Ok (mkObj "StatefulSet" (default_namespace (namespace cfg) m) (BStatefulSet spec'))) ∧
  Replicas spec' = Replicas spec.
Proof.
  intros Ha Hu. unfold NewDataServiceStatefulSet. rewrite Ha, Hu. split; [done|].
  unfold UpdateDataServiceStatefulSet in Hu. rewrite Ha in Hu.
  destruct (mapM_out _ _); cbn [mbind outcome_mbind] in Hu; [|done].
  destruct (injectSubscriptionConfig _ _ _) as [pod [e'|]]; [|done]. by injection Hu as <- _.
Qed.

(** The default storage class is the one class that is marked as such. *)
Theorem GetDefaultStorageClass_spec {X W} `{!ObjectCluster X W} (w : W) (items : list (Obj X)) name :
  ListObj "StorageClass" ∅ w = Ok items →
  GetDefaultStorageClass w = Ok name ↔
  ∃ pre o post, items = pre ++ o :: post ∧ Name (OMeta o) = name ∧ is_default_class (OMeta o) = true ∧
    Forall (λ o, is_default_class (OMeta o) = false) (pre ++ post).
Proof.
  intros Hl. unfold GetDefaultStorageClass. rewrite Hl. clear Hl. unfold default_classes.
  assert (Hnil : ∀ l : list (Obj X), List.filter (λ o, is_default_class (OMeta o)) l = [] ↔
    Forall (λ o, is_default_class (OMeta o) = false) l).
  { induction l as [|o l IH]; cbn; [by split; [constructor|]|]. rewrite Forall_cons.
    destruct (is_default_class (OMeta o)) eqn:Ho; [split; [done|by intros [? _]]|]. rewrite IH. naive_solver. }
  induction items as [|o items IH]; cbn [List.filter].
  { cbn. split; [done|]. intros (pre & o & post & Heq & _). by destruct pre. }
  destruct (is_default_class (OMeta o)) eqn:Ho; cbn [map].
  - destruct (List.filter _ items) as [|o2 l] eqn:Hf; cbn [map].
    + apply Hnil in Hf. split.
      * intros [= <-]. by exists [], o, items.
      * intros (pre & o' & post & Heq & Hn & Hd & Hall). destruct pre as [|p pre]; cbn in Heq.
        { injection Heq as -> ->. by rewrite Hn. }
        injection Heq as <- _. apply Forall_cons in Hall as [Hp _]. congruence.
    + split; [done|]. intros (pre & o' & post & Heq & Hn & Hd & Hall).
      assert (Hx : List.filter (λ o, is_default_class (OMeta o)) items = []); [|congruence].
      apply Hnil. destruct pre as [|p pre]; cbn in Heq; [by injection Heq as -> ->|].
      injection Heq as <- _. apply Forall_cons in Hall as [Hp _]. congruence.
  - rewrite IH. split.
    + intros (pre & o' & post & -> & Hn & Hd & Hall). exists (o :: pre), o', post. split_and!; [done..|].
      by constructor.
    + intros (pre & o' & post & Heq & Hn & Hd & Hall). destruct pre as [|p pre]; cbn in Heq.
      { injection Heq as -> _. congruence. }
      injection Heq as <- ->. exists pre, o', post. split_and!; [done..|]. by apply Forall_cons in Hall as [_ ?].
Qed.

(** The clean-up drops the entries whose object is gone, and only those. *)
Theorem Cleanup_spec (exists_ : NamespacedName → bool) (data : gmap NamespacedName NamespacedName) k :
  Cleanup exists_ data !! k = if exists_ k then data !! k else None.
Proof.
  unfold Cleanup. assert (Hd : ∀ l (m : gmap NamespacedName NamespacedName),
    foldr delete m l !! k = if decide (k ∈ l) then None else m !! k).
  { induction l as [|x l IH]; intros m; cbn [foldr]; [done|].
    destruct (decide (k = x)) as [->|Hne].
    - rewrite lookup_delete_eq, decide_True by by left. done.
    - rewrite lookup_delete_ne, IH by done. destruct (decide (k ∈ l)) as [Hin|Hin].
      + by rewrite decide_True by by right.
      + rewrite decide_False; [done|]. by intros [|]%elem_of_cons. }
  rewrite Hd. destruct (decide _) as [Hin|Hin].
  - apply list_elem_of_In, filter_In in Hin as [_ He]. by destruct (exists_ k).
  - destruct (exists_ k) eqn:He; [done|]. apply eq_None_not_Some. intros [v Hv]. apply Hin.
    apply list_elem_of_In, filter_In. split; [|by rewrite He].
    apply list_elem_of_In, list_elem_of_fmap. exists (k, v). split; [done|]. by apply elem_of_map_to_list.
Qed.

(** ** Witness *)

Definition toy_container : Container :=
  mkContainer "rhm-data-service" "dqlite:dev" ["--service=svc.{{NAMESPACE}}"] [] (Some ∅) (Some ∅)
    None None [].

Definition toy_stateful_set : StatefulSetSpec :=
  mkStatefulSetSpec
    (mkPodSpec [toy_container] [] (Some (mkAffinity (Some (mkAntiAffinity [] [mkTerm [] "app"])) [])))
    [None] (Some 1%Z).

#[export] Instance toy_assets : Assets string := {
  AssetDeployment _ := Ok (mkMeta "rhm-metric-state" "" "" 0 ∅ ∅ [], mkPodSpec [] [] None);
  AssetStatefulSet _ := Ok (mkMeta "rhm-data-service" "" "" 0 ∅ ∅ [], toy_stateful_set);
  AssetCronJob _ := Ok (mkMeta "rhm-meter-report-upload" "" "" 0 ∅ ∅ [],
    mkCronJobSpec "" "Forbid" (Some 1%Z) (Some 1%Z)
      (mkJobTemplate None None
         (mkPodSpec [mkContainer "reporter" "reporter:dev" [] [] (Some ∅) (Some ∅) None None []] [] None)));
  AssetPodDisruptionBudget _ := Ok (mkMeta "rhm-data-service" "" "" 0 ∅ ∅ []);
  AssetServiceMonitor _ := Ok (mkMeta "metrics-monitor" "" "" 0 ∅ ∅ [], [mkEndpoint (Some None) None]);
  AssetRoute _ := Ok (mkMeta "rhm-data-service" "" "" 0 ∅ ∅ [], "to the service");
  AssetSecret _ := Ok (mkMeta "rhm-data-service-mtls" "" "" 0 ∅ ∅ [], ∅);
  AssetOther _ asset := Ok (mkMeta "rhm-data-service" "" "" 0 ∅ ∅ [], asset)
}.

Definition toy_factory_config : FactoryConfig :=
  mkFactoryConfig "marketplace" (mkImages "reporter:1" "proxy:1" "state:1" "auth:1" "dqlite:1" "files:1")
    (Some {[ "rhm-data-service" := ({[ "cpu" := "1" ]}, ∅) ]}) (mkProxy "" "" "") (Some 0%Z) [] "" 3.

Definition toy_spec : StatefulSetSpec :=
  match UpdateDataServiceStatefulSet toy_factory_config [] "rhm-data-service" (Some "gp2") toy_stateful_set with
  | Ret (spec, _) => spec
  | Panic => toy_stateful_set
  end.

Definition toy_pdb : Obj string :=
  mkObj "PodDisruptionBudget" (mkMeta "rhm-data-service" "marketplace" "" 0 ∅ ∅ [])
    (BPodDisruptionBudget (Some 2%Z)).

Lemma data_service_quorum_witness :
  (1 ≤ DataServiceReplicas toy_factory_config ≤ 2 ^ 31 - 1)%Z ∧
  UpdateDataServiceStatefulSet toy_factory_config [] "rhm-data-service" (Some "gp2") toy_stateful_set
    = Ret (toy_spec, None) ∧
  ∃ m, OBody toy_pdb = BPodDisruptionBudget (Some m) ∧
    Replicas toy_spec = Some 3%Z ∧ (1 ≤ m ≤ 3)%Z ∧ (3 < m + m)%Z.
Proof.
  split; [by cbn|]. split; [vm_compute; reflexivity|].
  apply (data_service_quorum toy_factory_config [] "rhm-data-service" (Some "gp2") toy_stateful_set);
    [by cbn|vm_compute; reflexivity..].
Defined.
