(* ===== verification/DataService.v ===== *)
(** * The controller of the data service

    The model of [dataservice_controller.go]
    ([v2/internal/controller/marketplace]): it installs the data service of a meter base,
    its secret, its disruption budget, its service, its stateful set and its route, or
    removes them. Each action is a step on the cluster; the manifests are those of
    Manifests.v. Making a certificate is an argument. *)

From S2P Require Import Prelude Conditions Workloads MeterReport Helpers Controllers MarketplaceConfig Manifests.
Local Open Scope go_scope.

Definition DATA_SERVICE_NAME : string := "rhm-data-service".
Definition DQLITE_COMMONNAME_PREFIX : string := "*.rhm-data-service".

Definition IsDataServiceEnabled {X} (s : MeterBaseSpec X) : bool :=
  default true (DataServiceEnabled s).

(** The meter bases of the cluster. *)
Class MeterBases (X W : Type) := {
  GetMeterBase : NamespacedName → W → result ClientError (MeterBase X)
}.

Section dataservice.
Context {X W : Type} `{!Assets X} `{!ObjectCluster X W} `{!MeterBases X W} `{!ConflictRetry}.
Variable cfg : FactoryConfig.
Variable injections : list (string * (PodSpec → result string PodSpec)).
Variable certificates : string → result string ((string * string) * (string * string)).

(** A step that does not panic, and one that needs a manifest. *)
Definition calling (f : W → W * option ClientError) : Step W := λ w, Ret (f w).

Definition needing (manifest : result string (Obj X)) (k : Obj X → Step W) : Step W := λ w,
  match manifest with Err e => Ret (w, Some (OtherFailure e)) | Ok o => k o w end.

Definition ensure_secret (owner : ObjectMeta) : Step W :=
  needing (NewDataServiceTLSSecret cfg certificates DQLITE_COMMONNAME_PREFIX) (λ secret w,
    match SetControllerReference owner secret with
    | Err e => Ret (w, Some e)
    | Ok secret =>
        match GetObj (OKind secret) (obj_key secret).2 w with
        | Err IsNotFound => Ret (CreateObj secret w)
        | Err e => Ret (w, Some e)
        | Ok _ => Ret (w, None)
        end
    end).

(** ** The storage class *)

Definition sts_key (mb : MeterBase X) : NamespacedName :=
  mkNN (Workloads.Namespace (MBMeta mb)) DATA_SERVICE_NAME.
Definition pvc_key (mb : MeterBase X) : NamespacedName :=
  mkNN (Workloads.Namespace (MBMeta mb)) "rhm-data-service-rhm-data-service-0".

Definition class_of (o : Obj X) : option string :=
  match OBody o with BPersistentVolumeClaim class => class | _ => None end.

(** An object that is not found is left as it was declared, empty. *)
Definition found_or {A} (zero : A) (field : Obj X → A) (r : result ClientError (Obj X))
    : result ClientError A :=
  match r with Ok o => Ok (field o) | Err IsNotFound => Ok zero | Err e => Err e end.

Definition default_class (w : W) : result ClientError (option string) :=
  match GetDefaultStorageClass w with
  | Ok name => Ok (Some name)
  | Err (DefaultStorageClassNotFound | MultipleDefaultStorageClassFound) => Ok None
  | Err (StorageFailure e) => Err e
  end.

Definition getStorageClassName (mb : MeterBase X) (w : W) : result ClientError (option string) :=
  claims ← found_or [] claims_of (GetObj "StatefulSet" (sts_key mb) w);
  match claims with
  | class :: _ => Ok class
  | [] =>
      match MBStorageClassName (MBSpec mb) with
      | Some class => Ok (Some class)
      | None =>
          class ← found_or None class_of (GetObj "PersistentVolumeClaim" (pvc_key mb) w);
          match class with Some class => Ok (Some class) | None => default_class w end
      end
  end.

(** ** The stateful set and its pods *)

Definition apply_stateful_set (mb : MeterBase X) : Step W :=
  reading (getStorageClassName mb) (λ class w,
    manifest ← NewDataServiceStatefulSet cfg injections class;
    Ret (FactoryCreateOrUpdate (Some (MBMeta mb)) manifest w)).

(** A pod's required rules about other pods, a remnant of an earlier version. *)
Definition required_rules (p : PodSpec) : list Term :=
  match PodAffinity p with
  | Some (mkAffinity (Some anti) _) => Required anti
  | _ => []
  end.

Definition without_required (p : PodSpec) : PodSpec :=
  match PodAffinity p with
  | Some (mkAffinity (Some anti) rules) =>
      mkPodSpec (Containers p) (Volumes p)
        (Some (mkAffinity (Some (mkAntiAffinity [] (Preferred anti))) rules))
  | _ => p
  end.

Definition patch_attempt (mb : MeterBase X) (w : W) : W * option ClientError :=
  match GetObj "StatefulSet" (sts_key mb) w with
  | Err e => (w, Some e)
  | Ok o =>
      match OBody o with
      | BStatefulSet spec =>
          if bool_decide (required_rules (Template spec) = []) then (w, None)
          else UpdateObj (mkObj (OKind o) (OMeta o)
                 (BStatefulSet (mkStatefulSetSpec (without_required (Template spec))
                    (Claims spec) (Replicas spec)))) w
      | _ => (w, None)
      end
  end.

Definition ignore_not_found (r : W * option ClientError) : W * option ClientError :=
  match r with (w, Some IsNotFound) => (w, None) | r => r end.

Definition patch_affinity (mb : MeterBase X) : Step W :=
  calling (λ w, ignore_not_found (RetryOnConflict (patch_attempt mb) w)).

Definition unschedulable (c : PodCondition) : bool :=
  (PCType c == "PodScheduled") && (PCReason c == "Unschedulable") && (PCStatus c == "False").

(** How many times the loops delete the pod: once per condition that says it is stuck. *)
Definition deletions (pod : Obj X) : list (Obj X) :=
  match OBody pod with
  | BPod spec phase conditions =>
      if negb (bool_decide (required_rules spec = [])) && (phase == "Pending")
      then map (λ _, pod) (List.filter unschedulable conditions)
      else []
  | _ => []
  end.

Fixpoint delete_each (l : list (Obj X)) (w : W) : W * option ClientError :=
  match l with
  | [] => (w, None)
  | o :: l => match ensure_deleted o w with (w, None) => delete_each l w | r => r end
  end.

Definition delete_stuck_pods : Step W :=
  reading (ListObj "Pod" {[ "app" := DATA_SERVICE_NAME ]}) (λ pods,
    calling (delete_each (pods ≫= deletions))).

(** ** The route *)

(** The route to make and whether to make it. Settings without a route are
    dereferenced all the same. *)
Definition wanted_route (mb : MeterBase X) (m : ObjectMeta) (spec : X) : outcome (Obj X * bool) :=
  match MBDataService (MBSpec mb) with
  | None => Ret (mkObj "Route" m (BRoute spec), true)
  | Some ds =>
      match DSRoute ds with
      | None => Panic
      | Some r => Ret (mkObj "Route" m (BRoute (default spec (RouteSpec r))),
                       negb (ToBool (Disabled r)))
      end
  end.

Definition route_attempt (owner : ObjectMeta) (route : Obj X) (st : W * Obj X)
    : (W * Obj X) * option ClientError :=
  CreateOrUpdate st.2 (λ obj, MergeObj (controlled (Some owner) obj) route) st.1.

Definition apply_route (owner : ObjectMeta) (route : Obj X) (w : W) : W * option ClientError :=
  match RetryOnConflict (route_attempt owner route) (w, route) with ((w, _), e) => (w, e) end.

Definition default_route : result string (Obj X) :=
  '(m, spec) ← NewDataServiceRoute (X:=X) cfg; Ok (mkObj "Route" m (BRoute spec)).

Definition deleteDefaultDataServiceRoute : Step W :=
  needing default_route (λ route, calling (ensure_deleted route)).

Definition ensure_route (mb : MeterBase X) : Step W := λ w,
  match NewDataServiceRoute (X:=X) cfg with
  | Err e => Ret (w, Some (OtherFailure e))
  | Ok (m, spec) =>
      match wanted_route mb m spec with
      | Panic => Panic
      | Ret (route, true) => Ret (apply_route (MBMeta mb) route w)
      | Ret (_, false) => deleteDefaultDataServiceRoute w
      end
  end.

(** ** The reconciliation *)

Definition install (mb : MeterBase X) : Step W :=
  ensure_secret (MBMeta mb) ;;>
  calling (FactoryCreateOrUpdate (Some (MBMeta mb)) (NewDataServicePodDisruptionBudget cfg)) ;;>
  calling (FactoryCreateOrUpdate (Some (MBMeta mb)) (NewDataServiceService cfg)) ;;>
  apply_stateful_set mb ;;>
  patch_affinity mb ;;>
  delete_stuck_pods ;;>
  ensure_route mb.

Definition delete_stateful_set : Step W := λ w,
  manifest ← NewDataServiceStatefulSet cfg injections None;
  needing manifest (λ o, calling (ensure_deleted o)) w.

Definition remove : Step W :=
  deleteDefaultDataServiceRoute ;;>
  delete_stateful_set ;;>
  needing (NewDataServiceService cfg) (λ o, calling (ensure_deleted o)) ;;>
  needing (NewDataServiceTLSSecret cfg certificates DQLITE_COMMONNAME_PREFIX)
    (λ o, calling (ensure_deleted o)) ;;>
  needing (NewDataServicePodDisruptionBudget cfg) (λ o, calling (ensure_deleted o)).

Definition Reconcile (request : NamespacedName) : Step W := λ w,
  match GetMeterBase request w with
  | Err IsNotFound => Ret (w, None)
  | Err e => Ret (w, Some e)
  | Ok mb => if IsDataServiceEnabled (MBSpec mb) then install mb w else remove w
  end.
End dataservice.

(** ** Lemmas *)

Section lemmas.
Context {X W : Type} `{!Assets X} `{!ObjectCluster X W} `{!ObjectStore X W} `{!MeterBases X W}
  `{!ConflictRetry}.
Variable cfg : FactoryConfig.
Variable injections : list (string * (PodSpec → result string PodSpec)).
Variable certificates : string → result string ((string * string) * (string * string)).

Notation Key := (string * NamespacedName)%type.

(** A step that changes objects of [K] only. *)
Definition within (K : Key → Prop) (w w' : W) : Prop := ∀ k, objs w' !! k = objs w !! k ∨ K k.

Lemma within_same K w w' : objs w' = objs w → within K w w'.
Proof. intros He k. left. by rewrite He. Qed.

Lemma within_insert (K : Key → Prop) k n w w' :
  objs w' = <[k := n]> (objs w) → K k → within K w w'.
Proof.
  intros He HK k'. destruct (decide (k' = k)) as [->|]; [by right|left].
  by rewrite He, lookup_insert_ne.
Qed.

Lemma within_delete (K : Key → Prop) k w w' :
  objs w' = delete k (objs w) → K k → within K w w'.
Proof.
  intros He HK k'. destruct (decide (k' = k)) as [->|]; [by right|left].
  by rewrite He, lookup_delete_ne.
Qed.

Lemma within_trans K w w1 w' : within K w w1 → within K w1 w' → within K w w'.
Proof. intros H1 H2 k. destruct (H2 k) as [->|]; [apply H1|by right]. Qed.

Lemma within_weaken (K K' : Key → Prop) w w' : within K w w' → (∀ k, K k → K' k) → within K' w w'.
Proof. intros H1 H2 k. destruct (H1 k); auto. Qed.

(** An object of that key is stored; it is the owner's if it can be. *)
Definition has (owner : ObjectMeta) (o : Obj X) (w : W) : Prop :=
  ∃ n, objs w !! obj_key o = Some n ∧
    ∀ o1, SetControllerReference owner o = Ok o1 → owned owner (OMeta n).

Lemma has_within owner o K w w' : within K w w' → has owner o w → ¬ K (obj_key o) → has owner o w'.
Proof. intros Hw (n & Hn & Ho) HK. exists n. split; [|done]. by destruct (Hw (obj_key o)) as [->|]. Qed.

Lemma is_Some_within o K w w' :
  within K w w' → is_Some (objs w !! obj_key o) → ¬ K (obj_key o) → is_Some (objs w' !! obj_key (X:=X) o).
Proof. intros Hw Hs HK. by destruct (Hw (obj_key o)) as [->|]. Qed.

Lemma create_or_update_has owner manifest w w' e :
  FactoryCreateOrUpdate (Some owner) manifest w = (w', e) →
  match e with
  | None => ∃ o, manifest = Ok o ∧ within (λ k, k = obj_key o) w w' ∧ has owner o w'
  | Some _ => objs w' = objs w
  end.
Proof.
  pose proof (FactoryCreateOrUpdate_spec (Some owner) manifest w) as Hs. intros Hrun.
  rewrite Hrun in Hs. destruct e as [e|]; [done|]. destruct Hs as (o & -> & Ha). exists o.
  split; [done|]. destruct Ha as (base & m & n & Hm & Hn & Hk & Heq). split.
  - by eapply within_insert.
  - exists n. split; [by rewrite Heq, lookup_insert_eq|]. intros o1 Hc.
    destruct (applied_owned owner o w w' o1) as (n' & Heq' & Ho); [by exists base, m, n|done|].
    rewrite Heq in Heq'. apply (f_equal (lookup (obj_key o))) in Heq'.
    rewrite !lookup_insert_eq in Heq'. by injection Heq' as <-.
Qed.

Lemma ensure_secret_spec owner w w' e :
  ensure_secret cfg certificates owner w = Ret (w', e) →
  objs w' = objs w ∧ is_Some e ∨
  ∃ o, NewDataServiceTLSSecret cfg certificates DQLITE_COMMONNAME_PREFIX = Ok o ∧
    within (λ k, k = obj_key o) w w' ∧ (e = None → is_Some (objs w' !! obj_key o)).
Proof.
  assert (Hfail : ∀ e1, Ret (w, Some e1) = Ret (w', e) → objs w' = objs w ∧ is_Some e).
  { intros e1 [= <- <-]. by split. }
  unfold ensure_secret, needing.
  destruct (NewDataServiceTLSSecret _ _ _) as [o|]; [|left; by eapply Hfail].
  destruct (SetControllerReference owner o) as [o1|e1] eqn:Hc; [|left; by eapply Hfail].
  apply controller_law in Hc as (Hk & _). pose proof (get_obj_law (OKind o1) (obj_key o1).2 w) as Hg.
  change (OKind o1, (obj_key o1).2) with (obj_key o1) in Hg. rewrite Hk in *.
  destruct (GetObj _ _ _) as [o2|[]]; try (left; by eapply Hfail).
  - intros [= <- <-]. right. exists o. split; [done|]. split; [by apply within_same|]. intros _. by exists o2.
  - intros [= Hcr]. pose proof (create_obj_law o1 w) as Hl. rewrite Hcr, Hk in Hl.
    destruct e as [e|]; [left; split; [done|by eexists]|]. destruct Hl as (n & _ & Hl).
    right. exists o. split; [done|]. split; [by eapply within_insert|].
    intros _. rewrite Hl, lookup_insert_eq. by eexists.
Qed.

(** The stateful set may be written again, which keeps it, its owners and its claims. *)
Definition rewritten (k : Key) (w w' : W) : Prop :=
  within (λ k', k' = k) w w' ∧
  ∀ k' n, objs w !! k' = Some n →
    ∃ n', objs w' !! k' = Some n' ∧ OwnerReferences (OMeta n') = OwnerReferences (OMeta n) ∧
          claims_of n' = claims_of n.

Lemma rewritten_same k w w' : objs w' = objs w → rewritten k w w'.
Proof. intros He. split; [by apply within_same|]. intros k' n Hn. exists n. by rewrite He. Qed.

Lemma rewritten_has owner o k w w' : rewritten k w w' → has owner o w → has owner o w'.
Proof.
  intros [_ Hr] (n & Hn & Ho). destruct (Hr _ _ Hn) as (n' & Hn' & Hown & _). exists n'. split; [done|].
  unfold owned in *. by rewrite Hown.
Qed.

Lemma patch_attempt_rewritten (mb : MeterBase X) w w0 :
  rewritten ("StatefulSet", sts_key mb) w0 w →
  rewritten ("StatefulSet", sts_key mb) w0 (patch_attempt mb w).1.
Proof.
  intros Hw. unfold patch_attempt. pose proof (get_obj_law "StatefulSet" (sts_key mb) w) as Hg.
  destruct (GetObj _ _ _) as [o|e]; [|done]. destruct (OBody o) eqn:Hb; try done.
  case_bool_decide; [done|]. set (o' := mkObj _ _ _).
  assert (Hk : obj_key o' = ("StatefulSet", sts_key mb)) by exact (keyed_law w _ o Hg).
  pose proof (update_obj_law o' w) as Hu. destruct (UpdateObj o' w) as [w' [e|]]; cbn [fst].
  { destruct Hw as [Hw1 Hw2]. split; [intros k|intros k n]; rewrite Hu; auto. }
  destruct Hu as (_ & n & (_ & Hn & Hcl)%admitted_law & Hu). rewrite Hk in Hu. destruct Hw as [Hw1 Hw2].
  split; [eapply within_trans; [done|]; by eapply within_insert|].
  intros k n1 Hn1. destruct (Hw2 _ _ Hn1) as (n2 & Hn2 & Ho2 & Hc2). rewrite Hu.
  destruct (decide (k = ("StatefulSet", sts_key mb))) as [->|];
    [|rewrite lookup_insert_ne by done; by exists n2].
  rewrite lookup_insert_eq. exists n. split; [done|]. rewrite Hn, Hcl. cbn. rewrite <- Ho2, <- Hc2.
  assert (n2 = o) as -> by congruence. split; [done|]. unfold claims_of. by rewrite Hb.
Qed.

Lemma patch_affinity_rewritten (mb : MeterBase X) w w' e :
  patch_affinity mb w = Ret (w', e) → rewritten ("StatefulSet", sts_key mb) w w'.
Proof.
  unfold patch_affinity, calling. intros [= Hrun].
  pose proof (retried_inv (rewritten ("StatefulSet", sts_key mb) w) (patch_attempt mb) w _
    (λ w1, patch_attempt_rewritten mb w1 w) (rewritten_same _ w w eq_refl)
    (RetryOnConflict_law (patch_attempt mb) w)) as Hr.
  destruct (RetryOnConflict _ _) as [w1 [[]|]]; cbn in *; by injection Hrun as <- <-.
Qed.

Lemma delete_each_spec l w w' e :
  delete_each l w = (w', e) →
  (∀ k, objs w' !! k = objs w !! k ∨ objs w' !! k = None ∧ ∃ o, o ∈ l ∧ k = obj_key (X:=X) o) ∧
  (e = None → ∀ o, o ∈ l → objs w' !! obj_key o = None).
Proof.
  revert w. induction l as [|o l IH]; intros w; cbn [delete_each].
  { intros [= <- <-]. split; [by left|]. by intros _ o ?%elem_of_nil. }
  pose proof (ensure_deleted_spec o w) as Hd. destruct (ensure_deleted o w) as [w1 [e1|]].
  { intros [= <- <-]. split; [|done]. intros k. left. by rewrite Hd. }
  intros [H1 H2]%IH. split.
  - intros k. destruct (H1 k) as [->|(Hn & o1 & Hin & ->)]; [|right; split; [done|]; exists o1; split; [by right|done]].
    rewrite Hd. destruct (decide (k = obj_key o)) as [->|]; [|left; by rewrite lookup_delete_ne].
    right. split; [apply lookup_delete_eq|]. exists o. split; [by left|done].
  - intros He o1 [->|Hin]%elem_of_cons; [|by apply H2]. destruct (H1 (obj_key o)) as [->|[? _]]; [|done].
    rewrite Hd. apply lookup_delete_eq.
Qed.

Lemma apply_route_spec owner (route : Obj X) w w' e :
  apply_route owner route w = (w', e) →
  match e with
  | None => within (λ k, k = obj_key route) w w' ∧ is_Some (objs w' !! obj_key route)
  | Some _ => objs w' = objs w
  end.
Proof.
  unfold apply_route. intros Hrun.
  pose proof (retried_post (λ st, objs st.1 = objs w ∧ obj_key st.2 = obj_key route)
    (λ st, within (λ k, k = obj_key route) w st.1 ∧ is_Some (objs st.1 !! obj_key route))
    (route_attempt owner route) (w, route)) as Hr.
  destruct (RetryOnConflict _ _) as [[w1 o'] e1]. injection Hrun as <- <-.
  destruct e1 as [e1|]; apply Hr; try done; intros [w2 o2] [Hst Hk]; cbn [fst snd] in *;
    unfold route_attempt; cbn [fst snd];
    pose proof (create_or_update_law o2 (λ obj, MergeObj (controlled (Some owner) obj) route) w2) as Hl;
    destruct (CreateOrUpdate _ _ _) as [[w3 o3] [e3|]]; cbn [fst snd];
    destruct Hl as [Hk3 Hl]; try (split; congruence);
    destruct Hl as (base & n & _ & _ & _ & Hl); rewrite Hst, Hk in Hl;
    (split; [by eapply within_insert|rewrite Hl, lookup_insert_eq; by eexists]).
Qed.

(** Of which kind each manifest is. *)
Lemma TLSSecret_kind prefix o : NewDataServiceTLSSecret cfg certificates prefix = Ok o → OKind (X:=X) o = "Secret".
Proof.
  unfold NewDataServiceTLSSecret, NewSecret. destruct (AssetSecret _) as [[m d]|]; [|done].
  cbn [mbind result_mbind]. destruct (certificates _) as [[[a b] [c d']]|]; [|done]. cbn. by intros [= <-].
Qed.
Lemma PodDisruptionBudget_kind o :
  NewDataServicePodDisruptionBudget cfg = Ok o → OKind (X:=X) o = "PodDisruptionBudget".
Proof.
  unfold NewDataServicePodDisruptionBudget, NewPodDisruptionBudget.
  destruct (AssetPodDisruptionBudget _) as [m|]; [|done]. cbn. by intros [= <-].
Qed.
Lemma Service_kind o : NewDataServiceService cfg = Ok o → OKind (X:=X) o = "Service".
Proof.
  unfold NewDataServiceService, NewOther. destruct (AssetOther _ _) as [[m c]|]; [|done]. cbn. by intros [= <-].
Qed.
Lemma StatefulSet_kind class o :
  NewDataServiceStatefulSet cfg injections class = Ret (Ok o) → OKind (X:=X) o = "StatefulSet".
Proof.
  unfold NewDataServiceStatefulSet. destruct (AssetStatefulSet _) as [[m s]|]; [|done].
  destruct (UpdateDataServiceStatefulSet _ _ _ _ _) as [[spec e]|]; cbn; [|done]. by intros [= <-].
Qed.
Lemma Route_kind o : default_route cfg = Ok o → OKind (X:=X) o = "Route".
Proof.
  unfold default_route. destruct (NewDataServiceRoute cfg) as [[m s]|]; [|done]. cbn. by intros [= <-].
Qed.
End lemmas.

(** Two keys of different kinds differ. *)
Ltac other_kind :=
  let Hk := fresh in cbn beta; intros Hk; try apply (f_equal fst) in Hk; unfold obj_key in Hk;
  cbn [fst] in Hk; congruence.

(** ** Properties *)

Section properties.
Context {X W : Type} `{!Assets X} `{!ObjectCluster X W} `{!ObjectStore X W} `{!MeterBases X W}
  `{!ConflictRetry}.
Variable cfg : FactoryConfig.
Variable injections : list (string * (PodSpec → result string PodSpec)).
Variable certificates : string → result string ((string * string) * (string * string)).
Variable request : NamespacedName.

Notation run := (Reconcile (X:=X) cfg injections certificates request).

Definition route_enabled (mb : MeterBase X) : bool :=
  match MBDataService (MBSpec mb) with
  | Some ds => match DSRoute ds with Some r => negb (ToBool (Disabled r)) | None => true end
  | None => true
  end.

Lemma ensure_route_spec (mb : MeterBase X) w w' e :
  ensure_route cfg mb w = Ret (w', e) →
  objs w' = objs w ∧ is_Some e ∨
  ∃ route, default_route cfg = Ok route ∧ within (λ k, k = obj_key route) w w' ∧
    (e = None → if route_enabled mb then is_Some (objs w' !! obj_key route)
                else objs w' !! obj_key route = None).
Proof.
  unfold ensure_route, deleteDefaultDataServiceRoute, needing, default_route.
  destruct (NewDataServiceRoute cfg) as [[m spec]|e1]; [|intros [= <- <-]; left; by split].
  cbn [mbind result_mbind]. set (route := mkObj "Route" m (BRoute spec)).
  intros Hrun. right. exists route. split; [done|].
  assert (Happ : ∀ r (Hk : obj_key r = obj_key route), Ret (apply_route (MBMeta mb) r w) = Ret (w', e) →
    within (λ k, k = obj_key route) w w' ∧ (e = None → is_Some (objs w' !! obj_key route))).
  { intros r Hk [= Ha]. apply apply_route_spec in Ha. rewrite Hk in Ha.
    destruct e; [split; [by apply within_same|done]|]. split; [apply Ha|]. intros _. apply Ha. }
  assert (Hdel : calling (ensure_deleted route) w = Ret (w', e) →
    within (λ k, k = obj_key route) w w' ∧ (e = None → objs w' !! obj_key route = None)).
  { unfold calling. intros [= Hd]. pose proof (ensure_deleted_spec route w) as Hs. rewrite Hd in Hs.
    destruct e; [split; [by apply within_same|done]|]. split; [by eapply within_delete|].
    intros _. rewrite Hs. apply lookup_delete_eq. }
  revert Hrun. unfold wanted_route, route_enabled.
  destruct (MBDataService (MBSpec mb)) as [ds|]; [|by intros Hrun%Happ].
  destruct (DSRoute ds) as [r|]; [|done].
  destruct (ToBool (Disabled r)); [exact Hdel|by intros Hrun%Happ].
Qed.

Lemma install_inv (mb : MeterBase X) w w' :
  install cfg injections certificates mb w = Ret (w', None) →
  ∃ w1 w2 w3 w4 w5 w6 class sts,
    ensure_secret cfg certificates (MBMeta mb) w = Ret (w1, None) ∧
    FactoryCreateOrUpdate (Some (MBMeta mb)) (NewDataServicePodDisruptionBudget cfg) w1 = (w2, None) ∧
    FactoryCreateOrUpdate (Some (MBMeta mb)) (NewDataServiceService cfg) w2 = (w3, None) ∧
    getStorageClassName mb w3 = Ok class ∧ NewDataServiceStatefulSet cfg injections class = Ret sts ∧
    FactoryCreateOrUpdate (Some (MBMeta mb)) sts w3 = (w4, None) ∧
    patch_affinity mb w4 = Ret (w5, None) ∧ delete_stuck_pods w5 = Ret (w6, None) ∧
    ensure_route cfg mb w6 = Ret (w', None).
Proof.
  unfold install. intros Hrun.
  apply andthen_inv in Hrun as [[_ [? [=]]]|(w1 & H1 & Hrun)].
  apply andthen_inv in Hrun as [[_ [? [=]]]|(w2 & [= H2] & Hrun)].
  apply andthen_inv in Hrun as [[_ [? [=]]]|(w3 & [= H3] & Hrun)].
  apply andthen_inv in Hrun as [[_ [? [=]]]|(w4 & H4 & Hrun)].
  apply andthen_inv in Hrun as [[_ [? [=]]]|(w5 & H5 & Hrun)].
  apply andthen_inv in Hrun as [[_ [? [=]]]|(w6 & H6 & Hrun)].
  unfold apply_stateful_set, reading in H4.
  destruct (getStorageClassName mb w3) as [class|] eqn:Hcl; [|done].
  destruct (NewDataServiceStatefulSet _ _ class) as [sts|] eqn:Hsts; cbn [mbind outcome_mbind] in H4; [|done].
  injection H4 as H4. by exists w1, w2, w3, w4, w5, w6, class, sts.
Qed.

Lemma delete_stuck_pods_spec (w w' : W) e :
  delete_stuck_pods (X:=X) w = Ret (w', e) →
  ∀ k, objs w' !! k = objs w !! k ∨
    objs w' !! k = None ∧ ∃ pod, objs w !! k = Some pod ∧ OKind pod = "Pod" ∧ deletions pod ≠ [].
Proof.
  unfold delete_stuck_pods, reading, calling.
  destruct (ListObj _ _ w) as [pods|] eqn:Hl; [|intros [= <- <-]; by left].
  intros [= Hd] k. apply delete_each_spec in Hd as [Hd _].
  destruct (Hd k) as [|(Hn & o & (pod & Hin & Hpod)%list_elem_of_bind & ->)]; [by left|right].
  assert (o = pod) as ->.
  { unfold deletions in Hin. destruct (OBody pod); try by apply elem_of_nil in Hin.
    destruct (_ && _)%go; [|by apply elem_of_nil in Hin].
    by apply list_elem_of_fmap in Hin as (? & -> & _). }
  split; [done|]. exists pod. destruct (list_obj_law _ _ _ _ _ Hl Hpod) as [Hs Hk].
  split_and!; [done..|]. intros He. rewrite He in Hin. by apply elem_of_nil in Hin.
Qed.
(** The class of an existing claim is kept: it cannot be changed. *)
Lemma getStorageClassName_kept (mb : MeterBase X) (w : W) class o c cs :
  getStorageClassName mb w = Ok class →
  objs w !! ("StatefulSet", sts_key mb) = Some o → claims_of o = c :: cs → class = c.
Proof.
  unfold getStorageClassName. pose proof (get_obj_law "StatefulSet" (sts_key mb) w) as Hg.
  destruct (GetObj _ _ w) as [o'|[]]; cbn [found_or mbind result_mbind]; try done.
  - intros Hrun Ho Hc. rewrite Hg in Ho. injection Ho as ->. rewrite Hc in Hrun. by injection Hrun.
  - congruence.
Qed.

(** The claims of the manifest all have the class it is made for. *)
Lemma StatefulSet_claims class sts :
  NewDataServiceStatefulSet cfg injections class = Ret (Ok sts) → Forall (λ c, c = class) (claims_of sts).
Proof.
  unfold NewDataServiceStatefulSet. destruct (AssetStatefulSet _) as [[m spec]|] eqn:Ha; [|done].
  unfold UpdateDataServiceStatefulSet. rewrite Ha.
  destruct (mapM_out _ _) as [cs|]; cbn [mbind outcome_mbind]; [|done].
  destruct (injectSubscriptionConfig _ _ _) as [pod [e|]]; intros [= <-]; cbn [claims_of OBody Claims];
    apply Forall_map, Forall_true; done.
Qed.

(** The claims of the stateful set that is stored. *)
Lemma stored_claims owner class sts (w w1 w2 w' : W) K :
  NewDataServiceStatefulSet cfg injections class = Ret (Ok sts) → claims_of sts ≠ [] →
  FactoryCreateOrUpdate (Some owner) (Ok sts) w = (w1, None) → (∃ k, rewritten k w1 w2) →
  within K w2 w' → ¬ K (obj_key sts) →
  ∃ n, objs w' !! obj_key sts = Some n ∧ claims_of n ≠ [] ∧ Forall (λ c, c = class) (claims_of n).
Proof.
  intros Hm Hne Happ (k & _ & Hr) Hw HK. pose proof (FactoryCreateOrUpdate_spec (Some owner) (Ok sts) w) as Hs.
  rewrite Happ in Hs. destruct Hs as (o & [= <-] & Ha). destruct (applied_claims _ _ _ _ Ha Hne) as (n & Ho & Hc).
  destruct (Hr (obj_key sts) n) as (n' & Hn' & _ & Hc'); [by rewrite Ho, lookup_insert_eq|].
  exists n'. rewrite Hc', Hc. split; [by destruct (Hw (obj_key sts)) as [->|]|]. split; [done|].
  by apply StatefulSet_claims.
Qed.

(** C22: the data service is deployed. When a run for a meter base with the data
    service enabled ends without an error, the five objects could be made and the secret,
    the disruption budget, the service and the stateful set are stored; the latter three
    are the meter base's wherever it may own them. The route is stored unless the meter
    base disables it, and then there is none. If the stateful set has claims, those of
    the stored one all have the storage class that was chosen, which is the one of the
    first claim of a stateful set that was already there. *)
Theorem Reconcile_deploys (w w' : W) (mb : MeterBase X) :
  GetMeterBase request w = Ok mb → IsDataServiceEnabled (MBSpec mb) = true →
  run w = Ret (w', None) →
  ∃ secret pdb service sts route class,
    NewDataServiceTLSSecret cfg certificates DQLITE_COMMONNAME_PREFIX = Ok secret ∧
    NewDataServicePodDisruptionBudget cfg = Ok pdb ∧ NewDataServiceService cfg = Ok service ∧
    NewDataServiceStatefulSet cfg injections class = Ret (Ok sts) ∧ default_route cfg = Ok route ∧
    is_Some (objs w' !! obj_key secret) ∧ has (MBMeta mb) pdb w' ∧
    has (MBMeta mb) service w' ∧ has (MBMeta mb) sts w' ∧
    (if route_enabled mb then is_Some (objs w' !! obj_key route)
     else objs w' !! obj_key route = None) ∧
    (claims_of sts ≠ [] → ∃ n, objs w' !! obj_key sts = Some n ∧ claims_of n ≠ [] ∧
       Forall (λ c, c = class) (claims_of n)) ∧
    ∀ o c cs, objs w !! ("StatefulSet", sts_key mb) = Some o → claims_of o = c :: cs → class = c.
Proof.
  intros Hget Hen. unfold Reconcile. rewrite Hget, Hen. intros Hrun.
  destruct (install_inv _ _ _ Hrun)
    as (w1 & w2 & w3 & w4 & w5 & w6 & class & m & H1 & H2 & H3 & Hcl & Hm & H4 & H5 & H6 & H7).
  apply ensure_secret_spec in H1 as [[_ [? [=]]]|(secret & Hsec & Hw1 & Hs1)]. specialize (Hs1 eq_refl).
  apply create_or_update_has in H2 as (pdb & Hpdb & Hw2 & Hp2).
  apply create_or_update_has in H3 as (service & Hsvc & Hw3 & Hv3).
  pose proof H4 as H4'. apply create_or_update_has in H4 as (sts & -> & Hw4 & Ht4).
  apply patch_affinity_rewritten in H5 as H5'. pose proof (proj1 H5') as Hw5.
  apply ensure_route_spec in H7 as [[_ [? [=]]]|(route & Hrt & Hw7 & Hr7)]. specialize (Hr7 eq_refl).
  pose proof (TLSSecret_kind _ _ _ _ Hsec) as K1. pose proof (PodDisruptionBudget_kind _ _ Hpdb) as K2.
  pose proof (Service_kind _ _ Hsvc) as K3. pose proof (StatefulSet_kind _ _ _ _ Hm) as K4.
  pose proof (Route_kind _ _ Hrt) as K5.
  assert (Hw6 : within (λ k, k.1 = "Pod") w5 w6).
  { intros k. destruct (delete_stuck_pods_spec _ _ _ H6 k) as [|(_ & pod & Hp & Hk & _)]; [by left|right].
    by rewrite <- (keyed_law _ _ _ Hp). }
  exists secret, pdb, service, sts, route, class. split_and!; [done..| | | | |done| |].
  - do 6 (eapply is_Some_within; [eassumption| |other_kind]). done.
  - do 5 (eapply has_within; [eassumption| |other_kind]). done.
  - do 4 (eapply has_within; [eassumption| |other_kind]). done.
  - do 2 (eapply has_within; [eassumption| |other_kind]). by eapply rewritten_has.
  - intros Hne. eapply (stored_claims _ _ _ _ _ _ _ (λ k, k.1 = "Pod" ∨ k = obj_key route));
      [exact Hm|exact Hne|exact H4'|by eexists| |intros [Hk|Hk]; revert Hk; other_kind].
    eapply within_trans; (eapply within_weaken; [eassumption|]); intros k Hk; [by left|by right].
  - intros o c cs Ho Hc. eapply getStorageClassName_kept; [exact Hcl| |exact Hc].
    destruct (Hw3 ("StatefulSet", sts_key mb)) as [->|Hk]; [|exfalso; revert Hk; other_kind].
    destruct (Hw2 ("StatefulSet", sts_key mb)) as [->|Hk]; [|exfalso; revert Hk; other_kind].
    destruct (Hw1 ("StatefulSet", sts_key mb)) as [->|Hk]; [done|exfalso; revert Hk; other_kind].
Qed.

Lemma deleting_spec manifest (w w' : W) e :
  needing manifest (λ o, calling (ensure_deleted o)) w = Ret (w', e) →
  objs w' = objs w ∧ is_Some e ∨
  ∃ o, manifest = Ok o ∧ e = None ∧ objs w' = delete (obj_key (X:=X) o) (objs w).
Proof.
  unfold needing, calling. destruct manifest as [o|e1]; [|intros [= <- <-]; left; by split].
  intros [= Hd]. pose proof (ensure_deleted_spec o w) as Hs. rewrite Hd in Hs.
  destruct e; [left; by split|right; by exists o].
Qed.

Lemma delete_stateful_set_spec (w w' : W) e :
  delete_stateful_set (X:=X) cfg injections w = Ret (w', e) →
  objs w' = objs w ∧ is_Some e ∨
  ∃ o, NewDataServiceStatefulSet cfg injections None = Ret (Ok o) ∧ e = None ∧
    objs w' = delete (obj_key (X:=X) o) (objs w).
Proof.
  unfold delete_stateful_set. destruct (NewDataServiceStatefulSet _ _ _) as [m|]; [|done].
  cbn [mbind outcome_mbind]. intros [|(o & -> & He)]%deleting_spec; [by left|right; by exists o].
Qed.

(** The data service is removed. When a run for a meter base with the data
    service disabled ends without an error, the five objects are gone, whether they were
    there or not, and nothing else has changed. *)
Theorem Reconcile_removes (w w' : W) (mb : MeterBase X) :
  GetMeterBase request w = Ok mb → IsDataServiceEnabled (MBSpec mb) = false →
  run w = Ret (w', None) →
  ∃ route sts service secret pdb,
    default_route cfg = Ok route ∧ NewDataServiceStatefulSet cfg injections None = Ret (Ok sts) ∧
    NewDataServiceService cfg = Ok service ∧
    NewDataServiceTLSSecret cfg certificates DQLITE_COMMONNAME_PREFIX = Ok secret ∧
    NewDataServicePodDisruptionBudget cfg = Ok pdb ∧
    ∀ k, objs w' !! k =
      if bool_decide (k ∈ map obj_key [route; sts; service; secret; pdb]) then None else objs w !! k.
Proof.
  intros Hget Hen. unfold Reconcile. rewrite Hget, Hen. unfold remove, deleteDefaultDataServiceRoute.
  intros Hrun. apply andthen_inv in Hrun as [[_ [? [=]]]|(w1 & H1 & Hrun)].
  apply andthen_inv in Hrun as [[_ [? [=]]]|(w2 & H2 & Hrun)].
  apply andthen_inv in Hrun as [[_ [? [=]]]|(w3 & H3 & Hrun)].
  apply andthen_inv in Hrun as [[_ [? [=]]]|(w4 & H4 & H5)].
  apply deleting_spec in H1 as [[_ [? [=]]]|(route & Hrt & _ & H1)].
  apply delete_stateful_set_spec in H2 as [[_ [? [=]]]|(sts & Hst & _ & H2)].
  apply deleting_spec in H3 as [[_ [? [=]]]|(service & Hsv & _ & H3)].
  apply deleting_spec in H4 as [[_ [? [=]]]|(secret & Hse & _ & H4)].
  apply deleting_spec in H5 as [[_ [? [=]]]|(pdb & Hpd & _ & H5)].
  exists route, sts, service, secret, pdb. split_and!; [done..|]. intros k.
  rewrite H5, H4, H3, H2, H1, !lookup_delete. cbn [map].
  case_bool_decide as Hin; repeat case_decide; subst; set_solver.
Qed.

(** What a run may write or delete: the five objects, and the stateful set that is
    patched. *)
Inductive managed (mb : MeterBase X) : string * NamespacedName → Prop :=
| managed_secret o :
    NewDataServiceTLSSecret cfg certificates DQLITE_COMMONNAME_PREFIX = Ok o → managed mb (obj_key o)
| managed_pdb o : NewDataServicePodDisruptionBudget cfg = Ok o → managed mb (obj_key o)
| managed_service o : NewDataServiceService cfg = Ok o → managed mb (obj_key o)
| managed_sts class o :
    NewDataServiceStatefulSet cfg injections class = Ret (Ok o) → managed mb (obj_key o)
| managed_route o : default_route cfg = Ok o → managed mb (obj_key o)
| managed_patched : managed mb ("StatefulSet", sts_key mb).

(** Runs and their parts change managed objects, and delete stuck pods. *)
Definition confined (mb : MeterBase X) (w w' : W) : Prop :=
  ∀ k, objs w' !! k = objs w !! k ∨ managed mb k ∨
    objs w' !! k = None ∧ ∃ pod, objs w !! k = Some pod ∧ OKind pod = "Pod" ∧ deletions pod ≠ [].

Lemma confined_trans mb w w1 w' : confined mb w w1 → confined mb w1 w' → confined mb w w'.
Proof.
  intros H1 H2 k. destruct (H2 k) as [He|[Hm|(Hn & pod & Hp & Hd)]]; [|by right; left|].
  - rewrite He. apply H1.
  - destruct (H1 k) as [He|[Hm|(Hn1 & _)]]; [|by right; left|congruence].
    right; right. split; [done|]. exists pod. by rewrite <- He.
Qed.

Lemma within_confined (mb : MeterBase X) (K : string * NamespacedName → Prop) w w' :
  within K w w' → (∀ k, K k → managed mb k) → confined mb w w'.
Proof. intros Hw HK k. destruct (Hw k) as [|HKk]; [by left|right; left; by apply HK]. Qed.

Lemma same_confined (mb : MeterBase X) w w' : objs w' = objs w → confined mb w w'.
Proof. intros He k. left. by rewrite He. Qed.

Lemma confined_andthen mb (s t : Step W) :
  (∀ w w' e, s w = Ret (w', e) → confined mb w w') →
  (∀ w w' e, t w = Ret (w', e) → confined mb w w') →
  ∀ w w' e, (s ;;> t) w = Ret (w', e) → confined mb w w'.
Proof.
  intros Hs Ht w w' e [[Hrun _]|(w1 & H1 & H2)]%andthen_inv; [by eapply Hs|].
  eapply confined_trans; [by eapply Hs|by eapply Ht].
Qed.

Lemma applying_confined mb manifest (w w' : W) e :
  (∀ o, manifest = Ok o → managed mb (obj_key o)) →
  FactoryCreateOrUpdate (Some (MBMeta mb)) manifest w = (w', e) → confined mb w w'.
Proof.
  intros Hm Hrun. apply create_or_update_has in Hrun. destruct e; [by apply same_confined|].
  destruct Hrun as (o & Ho & Hw & _). eapply within_confined; [done|]. intros k ->. by apply Hm.
Qed.

Lemma deleting_confined mb manifest (w w' : W) e :
  (∀ o, manifest = Ok o → managed mb (obj_key o)) →
  needing manifest (λ o, calling (ensure_deleted o)) w = Ret (w', e) → confined mb w w'.
Proof.
  intros Hm [[He _]|(o & Ho & _ & He)]%deleting_spec; [by apply same_confined|].
  eapply within_confined; [eapply (within_delete (λ k, k = obj_key o)); [done|done]|].
  intros k ->. by apply Hm.
Qed.

Lemma install_confined mb (w w' : W) e :
  install cfg injections certificates mb w = Ret (w', e) → confined mb w w'.
Proof.
  revert w w' e. unfold install. repeat apply confined_andthen; intros w w' e Hrun.
  - apply ensure_secret_spec in Hrun as [[He _]|(o & Ho & Hw & _)]; [by apply same_confined|].
    eapply within_confined; [done|]. intros k ->. by constructor.
  - injection Hrun as Hrun. eapply applying_confined; [|exact Hrun]. by constructor.
  - injection Hrun as Hrun. eapply applying_confined; [|exact Hrun]. by constructor.
  - revert Hrun. unfold apply_stateful_set, reading.
    destruct (getStorageClassName mb w) as [class|]; [|intros [= <- <-]; by apply same_confined].
    destruct (NewDataServiceStatefulSet _ _ class) as [m|] eqn:Hm; [|done].
    intros [= Hrun]. eapply applying_confined; [|exact Hrun]. intros o ->. by econstructor.
  - apply patch_affinity_rewritten in Hrun as [Hw _]. eapply within_confined; [done|].
    intros k ->. constructor.
  - intros k. destruct (delete_stuck_pods_spec _ _ _ Hrun k) as [|]; [by left|by right; right].
  - apply ensure_route_spec in Hrun as [[He _]|(o & Ho & Hw & _)]; [by apply same_confined|].
    eapply within_confined; [done|]. intros k ->. by constructor.
Qed.

(** C23: a run touches nothing else. However it ends, an object that is not one of
    the five of the data service, nor the stateful set that is patched, is as it was,
    but for pods that cannot be scheduled for a rule of an earlier version: those may be
    deleted. *)
Theorem Reconcile_confined (w w' : W) (mb : MeterBase X) e :
  GetMeterBase request w = Ok mb → run w = Ret (w', e) → confined mb w w'.
Proof.
  intros Hget. unfold Reconcile. rewrite Hget.
  destruct (IsDataServiceEnabled (MBSpec mb)); [apply install_confined|].
  revert w w' e Hget. assert (Hr : ∀ w w' e,
    remove cfg injections certificates w = Ret (w', e) → confined mb w w'); [|eauto].
  unfold remove. repeat apply confined_andthen; intros w w' e;
    try (apply deleting_confined; by constructor).
  intros [[He _]|(o & Ho & _ & He)]%delete_stateful_set_spec; [by apply same_confined|].
  eapply within_confined; [eapply (within_delete (λ k, k = obj_key o)); [done|done]|].
  intros k ->. by econstructor.
Qed.
(** Which storage class is asked for: that of an existing claim; the meter base's;
    that of a volume claim made beforehand; the default one, if there is exactly one. *)
Theorem getStorageClassName_spec (mb : MeterBase X) (w : W) :
  (∀ o, GetObj "StatefulSet" (sts_key mb) w = Ok o →
     ∀ class cs, claims_of o = class :: cs → getStorageClassName mb w = Ok class) ∧
  (GetObj "StatefulSet" (sts_key mb) w = Err IsNotFound →
     (∀ class, MBStorageClassName (MBSpec mb) = Some class → getStorageClassName mb w = Ok (Some class)) ∧
     (MBStorageClassName (MBSpec mb) = None →
        (∀ o class, GetObj "PersistentVolumeClaim" (pvc_key mb) w = Ok o → class_of o = Some class →
           getStorageClassName mb w = Ok (Some class)) ∧
        (GetObj "PersistentVolumeClaim" (pvc_key mb) w = Err IsNotFound →
           getStorageClassName mb w = default_class (X:=X) w))).
Proof.
  unfold getStorageClassName. split.
  - intros o -> class cs Hc. cbn. by rewrite Hc.
  - intros ->. cbn. split; [by intros class ->|]. intros ->. split.
    + intros o class -> Hc. cbn. by rewrite Hc.
    + by intros ->.
Qed.

(** Settings of the data service without a route crash every run that gets to the
    route: the route's settings are read through a nil pointer. *)
Theorem missing_route_panics (mb : MeterBase X) (w : W) m spec :
  MBDataService (MBSpec mb) = Some (mkDataService None) →
  NewDataServiceRoute cfg = Ok (m, spec) → ensure_route cfg mb w = Panic.
Proof. intros Hd Hr. unfold ensure_route, wanted_route. by rewrite Hr, Hd. Qed.
End properties.

(** ** Witnesses *)

Definition toy_base (enabled : bool) : MeterBase string :=
  mkMeterBase (mkMeta "meterbase" "marketplace" "uid-1" 0 ∅ ∅ [])
    (mkMeterBaseSpec true None None None (Some enabled) None (Some "gp2") None) None.

#[local] Instance toy_bases : MeterBases string (list Write) := {
  GetMeterBase k _ := Ok (toy_base (NNName k == "on"))
}.

Definition toy_certificates (name : string) : result string ((string * string) * (string * string)) :=
  Ok (("ca of " +:+ name, "ca key"), ("certificate", "key")).

Definition toy_run (name : string) (w : list Write) : outcome (list Write * option ClientError) :=
  Reconcile toy_factory_config [] toy_certificates (mkNN "marketplace" name) w.

Definition run_log (r : outcome (list Write * option ClientError)) : list Write :=
  match r with Ret (w, _) => w | Panic => [] end.

(** The claims of what is stored under a key. *)
Definition claims_at (k : string * NamespacedName) (w : list Write) : list (option string) :=
  match objs w !! k with Some o => claims_of o | None => [] end.

Lemma Reconcile_deploys_witness :
  let w1 := run_log (toy_run "on" []) in let w2 := run_log (toy_run "on" w1) in
  toy_run "on" w1 = Ret (w2, None) ∧
  claims_at ("StatefulSet", sts_key (toy_base true)) w1 = [Some "gp2"] ∧
  ∃ sts, has (MBMeta (toy_base true)) sts w2 ∧ OKind sts = "StatefulSet" ∧
    (claims_of sts ≠ [] → Forall (λ c, c = Some "gp2") (claims_at (obj_key sts) w2)).
Proof.
  cbv zeta. assert (Hrun : toy_run "on" (run_log (toy_run "on" [])) =
    Ret (run_log (toy_run "on" (run_log (toy_run "on" []))), None)) by (vm_compute; reflexivity).
  assert (Hc1 : claims_at ("StatefulSet", sts_key (toy_base true)) (run_log (toy_run "on" [])) = [Some "gp2"])
    by (vm_compute; reflexivity).
  split; [exact Hrun|]. split; [exact Hc1|].
  destruct (Reconcile_deploys toy_factory_config [] toy_certificates (mkNN "marketplace" "on") _ _
    (toy_base true) ltac:(by vm_compute) eq_refl Hrun)
    as (secret & pdb & service & sts & route & class & _ & _ & _ & Hm & _ & _ & _ & _ & Hs & _ & Hc & Hk).
  exists sts. split; [exact Hs|]. split; [exact (StatefulSet_kind _ _ _ _ Hm)|]. intros Hne.
  destruct (Hc Hne) as (n & Hn & _ & Hall). unfold claims_at in *. rewrite Hn.
  destruct (objs _ !! ("StatefulSet", _)) as [o|] eqn:Ho in Hc1; [|discriminate Hc1].
  rewrite (Hk o (Some "gp2") [] Ho Hc1) in Hall. exact Hall.
Defined.

Lemma Reconcile_removes_witness :
  let w := run_log (toy_run "on" []) in
  objs w !! ("Service", mkNN "marketplace" "rhm-data-service") ≠ None ∧
  objs (run_log (toy_run "off" w)) !! ("Service", mkNN "marketplace" "rhm-data-service") = None.
Proof.
  cbv zeta. split; [by vm_compute|].
  destruct (Reconcile_removes toy_factory_config [] toy_certificates (mkNN "marketplace" "off")
    (run_log (toy_run "on" [])) (run_log (toy_run "off" (run_log (toy_run "on" []))))
    (toy_base false) ltac:(by vm_compute) eq_refl ltac:(vm_compute; reflexivity))
    as (route & sts & service & secret & pdb & _ & _ & Hs & _ & _ & Hk).
  assert (obj_key service = ("Service", mkNN "marketplace" "rhm-data-service")) as <-.
  { vm_compute in Hs. by injection Hs as <-. }
  rewrite Hk, bool_decide_true; [done|]. cbn. by do 2 right; left.
Defined.

Lemma Reconcile_confined_witness :
  toy_run "on" [] = Ret (run_log (toy_run "on" []), None) ∧
  confined toy_factory_config [] toy_certificates (toy_base true) [] (run_log (toy_run "on" [])).
Proof.
  split; [vm_compute; reflexivity|].
  apply (Reconcile_confined toy_factory_config [] toy_certificates (mkNN "marketplace" "on")
    [] (run_log (toy_run "on" [])) (toy_base true) None ltac:(by vm_compute) ltac:(vm_compute; reflexivity)).
Defined.
