(* ===== verification/Deployment.v ===== *)
(** * The controller of the operator's own deployment

    The model of [deployment_controller.go] ([v2/internal/controller/marketplace]): the
    operator's lifecycle manager applies the manifests of its bundle once, and this
    controller puts them back when they change. [predicates] says which changes wake
    it. *)

From S2P Require Import Prelude Workloads MeterReport Controllers Manifests DataService.
Local Open Scope go_scope.

Definition RHM_METERING_DEPLOYMENT_NAME : string := "ibm-metrics-operator-controller-manager".
Definition METRICS_OP_CA_BUNDLE_CONFIGMAP : string := "ibm-metrics-operator-serving-certs-ca-bundle".
Definition METRICS_OP_METRICS_READER_SECRET : string := "ibm-metrics-operator-servicemonitor-metrics-reader".
Definition METRICS_OP_METRICS_SERVICE : string := "ibm-metrics-operator-controller-manager-metrics-service".
Definition METRICS_OP_SERVICE_MONITOR : string := "ibm-metrics-operator-controller-manager-metrics-monitor".

Section deployment.
Context {X W : Type} `{!Assets X} `{!ObjectCluster X W} `{!ConflictRetry}.
Variable cfg : FactoryConfig.

Definition enforce : Step W :=
  calling (FactoryCreateOrUpdate (X:=X) None (NewMOCABundleConfigMap cfg)) ;;>
  calling (FactoryCreateOrUpdate (X:=X) None (NewMOServiceMonitorMetricsReaderSecret cfg)) ;;>
  calling (FactoryCreateOrUpdate (X:=X) None (NewMOMetricsService cfg)) ;;>
  calling (FactoryCreateOrUpdate (X:=X) None (NewMOMetricsServiceMonitor cfg)).

Definition Reconcile (request : NamespacedName) : Step W := λ w,
  match GetObj (X:=X) "Deployment" request w with
  | Err IsNotFound => Ret (w, None)
  | Err e => Ret (w, Some e)
  | Ok _ => enforce w
  end.

(** ** What wakes the controller *)

Definition mapFn (o : ObjectMeta) : list NamespacedName :=
  [mkNN (namespace cfg) RHM_METERING_DEPLOYMENT_NAME].
End deployment.

(** A predicate that looks at the object an event leaves, or leaves no more, and lets
    no generic event pass. *)
Definition on_object (p : ObjectMeta → bool) (e : Event) : bool :=
  match e with ECreate o | EUpdate _ o | EDelete o => p o | EGeneric _ => false end.

Section predicates.
Variable cfg : FactoryConfig.

Definition pDeployment : Event → bool := on_object (λ o, Name o == RHM_METERING_DEPLOYMENT_NAME).
Definition pConfigMap : Event → bool :=
  on_object (λ o, (Name o == METRICS_OP_CA_BUNDLE_CONFIGMAP) && (Namespace o == namespace cfg)).
Definition pSecret : Event → bool := on_object (λ o, Name o == METRICS_OP_METRICS_READER_SECRET).
Definition pService : Event → bool :=
  on_object (λ o, (Name o == METRICS_OP_METRICS_SERVICE) && (Namespace o == namespace cfg)).
Definition pServiceMonitor : Event → bool := on_object (λ o, Name o == METRICS_OP_SERVICE_MONITOR).

(** The predicate the controller watches a kind with. *)
Definition watch_predicate (kind : string) : option (Event → bool) :=
  if kind == "Deployment" then Some pDeployment
  else if kind == "ConfigMap" then Some pConfigMap
  else if kind == "Secret" then Some pSecret
  else if kind == "Service" then Some pService
  else if kind == "ServiceMonitor" then Some pServiceMonitor
  else None.
End predicates.

(** ** Properties *)

Section properties.
Context {X W : Type} `{!Assets X} `{!ObjectCluster X W} `{!ObjectStore X W} `{!ConflictRetry}.
Variable cfg : FactoryConfig.

(** [n] is what the server makes of the manifest merged into what was there. *)
Definition enforced (o n : Obj X) : Prop :=
  ∃ base merged, MergeObj base o = Ok merged ∧ admitted merged n ∧ obj_key merged = obj_key o.

Lemma calling_enforces manifest w w' e :
  calling (FactoryCreateOrUpdate None manifest) w = Ret (w', e) →
  match e with
  | None => ∃ o n, manifest = Ok o ∧ enforced o n ∧ objs w' = <[obj_key o := n]> (objs w)
  | Some _ => objs w' = objs w
  end.
Proof.
  unfold calling. intros [= Hrun]. pose proof (FactoryCreateOrUpdate_spec None manifest w) as Hs.
  rewrite Hrun in Hs. destruct e; [done|]. destruct Hs as (o & -> & base & merged & n & Hm & Hn & Hk & He).
  exists o, n. split; [done|]. split; [|done]. by exists base, merged.
Qed.

(** The operator's own objects are put back. When a run for an existing
    deployment ends without an error, the four manifests could be made, each is stored as
    the server takes its merge into what was there, and nothing else has changed. *)
Theorem Reconcile_enforces (request : NamespacedName) (w w' : W) (d : Obj X) :
  GetObj "Deployment" request w = Ok d → Reconcile (X:=X) cfg request w = Ret (w', None) →
  ∃ cm secret service monitor n1 n2 n3 n4,
    NewMOCABundleConfigMap cfg = Ok cm ∧ NewMOServiceMonitorMetricsReaderSecret cfg = Ok secret ∧
    NewMOMetricsService cfg = Ok service ∧ NewMOMetricsServiceMonitor cfg = Ok monitor ∧
    enforced cm n1 ∧ enforced secret n2 ∧ enforced service n3 ∧ enforced monitor n4 ∧
    objs w' = <[obj_key monitor := n4]> (<[obj_key service := n3]>
                (<[obj_key secret := n2]> (<[obj_key cm := n1]> (objs w)))).
Proof.
  intros Hd. unfold Reconcile. rewrite Hd. unfold enforce. intros Hrun.
  apply andthen_inv in Hrun as [[_ [? [=]]]|(w1 & H1%calling_enforces & Hrun)].
  apply andthen_inv in Hrun as [[_ [? [=]]]|(w2 & H2%calling_enforces & Hrun)].
  apply andthen_inv in Hrun as [[_ [? [=]]]|(w3 & H3%calling_enforces & H4%calling_enforces)].
  destruct H1 as (cm & n1 & ? & ? & H1), H2 as (secret & n2 & ? & ? & H2),
    H3 as (service & n3 & ? & ? & H3), H4 as (monitor & n4 & ? & ? & H4).
  exists cm, secret, service, monitor, n1, n2, n3, n4.
  repeat (split; [done|]). by rewrite H4, H3, H2, H1.
Qed.
End properties.

(** A secret or a service monitor of the name wakes the controller from any namespace;
    a config map or a service only from the operator's. *)
Theorem watches_by_namespace (cfg : FactoryConfig) (o : ObjectMeta) :
  (pConfigMap cfg (ECreate o) = true → Namespace o = namespace cfg) ∧
  (pService cfg (ECreate o) = true → Namespace o = namespace cfg) ∧
  pSecret (ECreate (in_namespace "anywhere" o)) = pSecret (ECreate o) ∧
  pServiceMonitor (ECreate (in_namespace "anywhere" o)) = pServiceMonitor (ECreate o).
Proof. unfold pConfigMap, pService; cbn. split_and!; [..|done|done]; intros H; by go_bool. Qed.

(** ** Witness *)

Definition toy_deployment : Obj string :=
  mkObj "Deployment" (mkMeta RHM_METERING_DEPLOYMENT_NAME "marketplace" "uid-2" 0 ∅ ∅ [])
    (BOther "the operator").

Definition toy_start : list Write := [Put toy_deployment].
Definition toy_request : NamespacedName := mkNN "marketplace" RHM_METERING_DEPLOYMENT_NAME.

Lemma Reconcile_enforces_witness :
  let w' := run_log (Reconcile toy_factory_config toy_request toy_start) in
  Reconcile toy_factory_config toy_request toy_start = Ret (w', None) ∧
  ∃ secret n, NewMOServiceMonitorMetricsReaderSecret toy_factory_config = Ok secret ∧
    enforced (X:=string) (W:=list Write) secret n.
Proof.
  cbv zeta.
  assert (Hd : GetObj "Deployment" toy_request toy_start = Ok toy_deployment) by by vm_compute.
  assert (Hr : Reconcile toy_factory_config toy_request toy_start =
    Ret (run_log (Reconcile toy_factory_config toy_request toy_start), None)) by (vm_compute; reflexivity).
  split; [exact Hr|]. destruct (Reconcile_enforces toy_factory_config _ _ _ _ Hd Hr)
    as (cm & secret & service & monitor & n1 & n2 & n3 & n4 & _ & Hs & _ & _ & _ & Hn & _).
  exists secret, n2. split; [exact Hs|exact Hn].
Defined.
