(* ===== verification/Duration.v ===== *)
(** * Durations

    [time.ParseDuration] of the standard library, which the controllers read the
    settings of other operators with: a sign, and a sum of decimal numbers with units. A
    fraction is multiplied in double precision, as there. A duration is a 64-bit number
    of nanoseconds. *)

From Stdlib Require Import SpecFloat.
From S2P Require Import Prelude GoTime Strconv.
Local Open Scope Z_scope.

(** ** Double precision *)

Definition to_float (z : Z) : spec_float := binary_normalize 53 1024 z 0 false.
Definition fmul : spec_float → spec_float → spec_float := SFmul 53 1024.
Definition fdiv : spec_float → spec_float → spec_float := SFdiv 53 1024.

(** The integer part of a non-negative number. *)
Definition to_uint (f : spec_float) : Z :=
  match f with
  | S754_finite _ m e => if e <? 0 then Zpos m / 2 ^ (- e) else Zpos m * 2 ^ e
  | _ => 0
  end.

(** ** Numbers *)

Definition two63 : Z := 2 ^ 63.

(** [leadingInt]: [None] when the number is too large. *)
Fixpoint leadingInt (x : Z) (s : string) : option (Z * string) :=
  match s with
  | EmptyString => Some (x, s)
  | String c s' =>
      match digit_value c with
      | None => Some (x, s)
      | Some v =>
          if two63 / 10 <? x then None
          else let x := x * 10 + v in if two63 <? x then None else leadingInt x s'
      end
  end.

(** [leadingFraction]: digits that do not fit are skipped. *)
Fixpoint leadingFraction (x scale : Z) (overflow : bool) (s : string) : Z * Z * string :=
  match s with
  | EmptyString => (x, scale, s)
  | String c s' =>
      match digit_value c with
      | None => (x, scale, s)
      | Some v =>
          if overflow then leadingFraction x scale true s'
          else if (two63 - 1) / 10 <? x then leadingFraction x scale true s'
          else let y := x * 10 + v in
               if two63 <? y then leadingFraction x scale true s'
               else leadingFraction y (scale * 10) false s'
      end
  end.

Definition dot : Ascii.ascii := Ascii.ascii_of_nat 46.
Definition number_start (c : Ascii.ascii) : bool :=
  bool_decide (c = dot) || bool_decide (is_Some (digit_value c)).

(** The unit: what stands before the next number. *)
Fixpoint leading_unit (s : string) : string * string :=
  match s with
  | EmptyString => (EmptyString, s)
  | String c s' =>
      if number_start c then (EmptyString, s)
      else let '(u, rest) := leading_unit s' in (String c u, rest)
  end.

Definition unit_of (u : string) : option Z :=
  if bool_decide (u = "ns"%string) then Some 1
  else if bool_decide (u = "us"%string ∨ u = "µs"%string ∨ u = "μs"%string) then Some 1000
  else if bool_decide (u = "ms"%string) then Some 1000000
  else if bool_decide (u = "s"%string) then Some second
  else if bool_decide (u = "m"%string) then Some (60 * second)
  else if bool_decide (u = "h"%string) then Some hour_ns
  else None.

(** ** The sum *)

(** One number and its unit: the value and the rest. *)
Definition parse_term (s : string) : option (Z * string) :=
  match s with
  | EmptyString => None
  | String c _ =>
      if negb (number_start c) then None else
      match leadingInt 0 s with
      | None => None
      | Some (v, s1) =>
          let pre := negb (bool_decide (s1 = s)) in
          let '(f, scale, post, s2) :=
            match s1 with
            | String c s' =>
                if bool_decide (c = dot) then
                  let '(f, scale, s2) := leadingFraction 0 1 false s' in
                  (f, scale, negb (bool_decide (s2 = s')), s2)
                else (0, 1, false, s1)
            | EmptyString => (0, 1, false, s1)
            end in
          if negb (pre || post) then None else
          let '(u, rest) := leading_unit s2 in
          match unit_of u with
          | None => None
          | Some unit =>
              if two63 / unit <? v then None else
              let v := v * unit +
                (if 0 <? f then to_uint (fmul (to_float f) (fdiv (to_float unit) (to_float scale))) else 0) in
              if two63 <? v then None else Some (v, rest)
          end
      end
  end.

(** Every number takes at least a character: the fuel is the length. *)
Fixpoint parse_terms (fuel : nat) (d : Z) (s : string) : option Z :=
  match s with
  | EmptyString => Some d
  | _ =>
      match fuel with
      | O => None
      | S fuel =>
          match parse_term s with
          | None => None
          | Some (v, rest) => if two63 <? d + v then None else parse_terms fuel (d + v) rest
          end
      end
  end.

Definition sign_of (s : string) : bool * string :=
  match s with
  | String c s' =>
      if bool_decide (c = Ascii.ascii_of_nat 45) then (true, s')
      else if bool_decide (c = plus) then (false, s') else (false, s)
  | EmptyString => (false, s)
  end.

Definition ParseDuration (s : string) : option Z :=
  let '(neg, s) := sign_of s in
  if bool_decide (s = "0"%string) then Some 0
  else if bool_decide (s = EmptyString) then None
  else match parse_terms (String.length s) 0 s with
       | None => None
       | Some d => if neg then Some (- d) else if two63 - 1 <? d then None else Some d
       end.

(** ** Lemmas *)

Lemma leadingInt_rest x s v rest : leadingInt x s = Some (v, rest) →
  (String.length rest ≤ String.length s)%nat ∧ (rest = s → v = x).
Proof.
  revert x. induction s as [|c s IH]; intros x; cbn [leadingInt]; [by intros [= <- <-]|].
  destruct (digit_value c) as [d|]; [|by intros [= <- <-]].
  destruct (_ <? _); [done|]. cbv zeta. destruct (_ <? _); [done|].
  intros [Hl _]%IH. cbn [String.length]. split; [lia|]. intros ->. cbn [String.length] in Hl. lia.
Qed.

Lemma leadingFraction_rest x scale o s f scale' rest :
  leadingFraction x scale o s = (f, scale', rest) → (String.length rest ≤ String.length s)%nat.
Proof.
  revert x scale o. induction s as [|c s IH]; intros x scale o; cbn [leadingFraction];
    [by intros [= <- <- <-]|].
  destruct (digit_value c) as [d|]; [|by intros [= <- <- <-]].
  destruct o; [|destruct (_ <? _); [|cbv zeta; destruct (_ <? _)]];
    intros Hl%IH; cbn [String.length]; lia.
Qed.

Lemma leading_unit_rest s u rest : leading_unit s = (u, rest) →
  String.length s = (String.length u + String.length rest)%nat.
Proof.
  revert u. induction s as [|c s IH]; intros u; cbn [leading_unit]; [by intros [= <- <-]|].
  destruct (number_start c); [by intros [= <- <-]|].
  destruct (leading_unit s) as [u1 r1]. intros [= <- <-]. cbn [String.length].
  by rewrite (IH u1 eq_refl).
Qed.

Lemma unit_of_pos u unit : unit_of u = Some unit → 0 < unit ∧ u ≠ EmptyString.
Proof.
  unfold unit_of. repeat case_bool_decide; intros [= <-]; split; try done;
    unfold hour_ns, second; try lia; intros ->; naive_solver.
Qed.

(** A term takes characters away. *)
Lemma parse_term_shrinks s v rest : parse_term s = Some (v, rest) →
  (String.length rest < String.length s)%nat.
Proof.
  unfold parse_term. destruct s as [|c s0]; [done|]. set (s := String c s0) in *.
  destruct (negb _); [done|]. destruct (leadingInt 0 s) as [[v1 s1]|] eqn:Hi; [|done].
  apply leadingInt_rest in Hi as [Hi _].
  set (t := match s1 with EmptyString => _ | String _ _ => _ end).
  assert (Ht : (String.length t.2 ≤ String.length s1)%nat).
  { subst t. destruct s1 as [|c1 s1]; [done|]. case_bool_decide; [|done].
    destruct (leadingFraction _ _ _ _) as [[f sc] s2] eqn:Hf. apply leadingFraction_rest in Hf.
    cbn [snd String.length]. lia. }
  clearbody t. destruct t as [[[f sc] post] s2]; cbn [snd] in Ht. destruct (negb _); [done|].
  destruct (leading_unit s2) as [u r] eqn:Hu. apply leading_unit_rest in Hu.
  destruct (unit_of u) as [unit|] eqn:Hun; [|done]. apply unit_of_pos in Hun as [_ Hne].
  destruct (_ <? v1); [done|]. destruct (two63 <? _); [done|]. intros [= _ <-].
  assert (String.length u ≠ 0%nat) by (by destruct u). lia.
Qed.

(** More fuel than the length changes nothing. *)
Lemma parse_terms_fuel n m d s : (String.length s ≤ n)%nat → (String.length s ≤ m)%nat →
  parse_terms n d s = parse_terms m d s.
Proof.
  revert m d s. induction n as [|n IH]; intros m d s Hn Hm.
  { destruct s; [|cbn in Hn; lia]. by destruct m. }
  destruct s as [|c s]; [by destruct m|]. destruct m as [|m]; [cbn in Hm; lia|].
  cbn [parse_terms]. destruct (parse_term (String c s)) as [[v rest]|] eqn:Ht; [|done].
  apply parse_term_shrinks in Ht. destruct (_ <? _); [done|]. apply IH; lia.
Qed.

Lemma to_uint_nonneg f : 0 ≤ to_uint f.
Proof.
  destruct f as [| | |b m e]; cbn [to_uint]; try lia.
  destruct (Z.ltb_spec e 0); [apply Z.div_pos; lia|]. nia.
Qed.

Lemma leadingInt_nonneg x s v rest : 0 ≤ x → leadingInt x s = Some (v, rest) → 0 ≤ v.
Proof.
  revert x. induction s as [|c s IH]; intros x Hx; cbn [leadingInt]; [by intros [= <- _]|].
  destruct (digit_value c) as [d|] eqn:Hd; [|by intros [= <- _]].
  destruct (_ <? _); [done|]. cbv zeta. destruct (_ <? _); [done|]. apply IH.
  unfold digit_value in Hd. destruct (_ && _)%bool eqn:Hb; [|done]. injection Hd as <-. lia.
Qed.

Lemma parse_term_range s v rest : parse_term s = Some (v, rest) → 0 ≤ v ≤ two63.
Proof.
  unfold parse_term. destruct s as [|c s0]; [done|]. set (s := String c s0) in *.
  destruct (negb _); [done|]. destruct (leadingInt 0 s) as [[v1 s1]|] eqn:Hi; [|done].
  apply leadingInt_nonneg in Hi; [|lia].
  set (t := match s1 with EmptyString => _ | String _ _ => _ end). clearbody t.
  destruct t as [[[f sc] post] s2].
  destruct (negb _); [done|]. destruct (leading_unit s2) as [u r].
  destruct (unit_of u) as [unit|] eqn:Hun; [|done]. apply unit_of_pos in Hun as [Hp _].
  destruct (_ <? v1); [done|]. cbv zeta.
  pose proof (to_uint_nonneg (fmul (to_float f) (fdiv (to_float unit) (to_float sc)))) as Hf.
  set (t := v1 * unit + _). destruct (Z.ltb_spec two63 t); [done|]. intros [= <- _].
  split; [|done]. subst t. destruct (0 <? f); nia.
Qed.

Lemma parse_terms_range n d s d' : 0 ≤ d ≤ two63 → parse_terms n d s = Some d' → 0 ≤ d' ≤ two63.
Proof.
  revert d s. induction n as [|n IH]; intros d s Hd; destruct s as [|c s]; cbn [parse_terms];
    try (by intros [= <-]).
  destruct (parse_term _) as [[v rest]|] eqn:Ht; [|done]. apply parse_term_range in Ht.
  destruct (Z.ltb_spec two63 (d + v)); [done|]. apply IH. lia.
Qed.

(** ** Properties *)

(** A duration that is read fits 64 bits. *)
Theorem ParseDuration_range (s : string) (d : Z) :
  ParseDuration s = Some d → - two63 ≤ d < two63.
Proof.
  assert (H63 : 0 < two63) by done.
  unfold ParseDuration. destruct (sign_of s) as [neg s1]. case_bool_decide; [intros [= <-]; by split|].
  case_bool_decide; [done|]. destruct (parse_terms _ _ _) as [d1|] eqn:Hp; [|done].
  apply parse_terms_range in Hp; [|by split]. destruct neg; [intros [= <-]; lia|].
  destruct (Z.ltb_spec (two63 - 1) d1); [done|]. intros [= <-]. lia.
Qed.

Example parse_week : ParseDuration "168h" = Some 604800000000000.
Proof. vm_compute; reflexivity. Qed.
Example parse_mixed : ParseDuration "-1h15m30.918273645s" = Some (-4530918273645).
Proof. vm_compute; reflexivity. Qed.
Example parse_fraction : ParseDuration ".5h" = Some 1800000000000.
Proof. vm_compute; reflexivity. Qed.
Example parse_none : ParseDuration "15d" = None ∧ ParseDuration "" = None ∧ ParseDuration "7" = None.
Proof. by vm_compute. Qed.
Example parse_limits :
  ParseDuration "9223372036854775807ns" = Some 9223372036854775807 ∧
  ParseDuration "9223372036854775808ns" = None ∧
  ParseDuration "-9223372036854775808ns" = Some (-9223372036854775808).
Proof. by vm_compute. Qed.
