(* ===== verification/MeterBaseController.v ===== *)
(** * The controller of the meter base

    The model of [meterbase_controller.go] ([v2/internal/controller/marketplace]): it
    checks how the cluster monitors the workloads of its users, installs what reports the
    metering state, the cron job that makes reports, and keeps the status of the meter
    base. Reading the YAML of other operators and the version of the cluster are
    arguments. A run goes through the meter base's own record, which each closure reads
    afresh, and through the objects of Manifests.v. *)

From S2P Require Import Prelude GoTime Duration Conditions Workloads MeterReport Controllers MarketplaceConfig Manifests DataService.
Local Open Scope go_scope.

(** ** Names *)

Definition MARKETPLACECONFIG_NAME : string := "marketplaceconfig".
Definition METERBASE_REQUEST : string := "rhm-marketplaceconfig-meterbase".
Definition CONTROLLER_FINALIZER : string := "finalizer.marketplace.redhat.com".
Definition OPENSHIFT_MONITORING_NAMESPACE : string := "openshift-monitoring".
Definition OPENSHIFT_USER_WORKLOAD_MONITORING_NAMESPACE : string := "openshift-user-workload-monitoring".
Definition OPENSHIFT_CLUSTER_MONITORING_CONFIGMAP_NAME : string := "cluster-monitoring-config".
Definition OPENSHIFT_USER_WORKLOAD_MONITORING_CONFIGMAP_NAME : string := "user-workload-monitoring-config".
Definition OPENSHIFT_USER_WORKLOAD_MONITORING_STATEFULSET_NAME : string := "prometheus-user-workload".
Definition KUBELET_SERVING_CA_BUNDLE_NAME : string := "kubelet-serving-ca-bundle".
Definition UserWorkloadMonitoringMeterdef : string := "prometheus-user-workload-uptime".
Definition MeterReportJobFailedMeterdef : string := "rhm-meter-report-job-failed".
Definition MetricStateUptimeMeterdef : string := "rhm-metric-state-uptime".
Definition PrometheusMeterbaseUptimeMeterdef : string := "rhm-prometheus-meterbase-uptime".

(** ** Conditions *)

Definition ConditionUserWorkloadMonitoringEnabled : string := "UserWorkloadMonitoringEnabled".

Definition UserWorkloadMonitoringEnabled_ : Condition :=
  mkCondition ConditionUserWorkloadMonitoringEnabled ConditionTrue "UserWorkloadMonitoringEnabled"
    "UserWorkloadMonitoring is enabled in the Meterbase Spec, is enabled on the Cluster, and user-workload-monitoring configmap is configured correctly" 0.
Definition UserWorkloadMonitoringDisabledSpec : Condition :=
  mkCondition ConditionUserWorkloadMonitoringEnabled ConditionFalse "UserWorkloadMonitoringSpecDisabled"
    "UserWorkloadMonitoring is disabled in the Meterbase Spec" 0.
Definition UserWorkloadMonitoringDisabledOnCluster : Condition :=
  mkCondition ConditionUserWorkloadMonitoringEnabled ConditionFalse "UserWorkloadMonitoringClusterDisabled"
    "UserWorkloadMonitoring is unavailable or disabled on the Cluster" 0.
Definition UserWorkloadMonitoringStorageConfigurationErr : Condition :=
  mkCondition ConditionUserWorkloadMonitoringEnabled ConditionFalse
    "UserWorkloadMonitoringInsufficientStorage" "" 0.
Definition UserWorkloadMonitoringRetentionTimeConfigurationErr : Condition :=
  mkCondition ConditionUserWorkloadMonitoringEnabled ConditionFalse
    "UserWorkloadMonitoringRetentionTime" "" 0.
Definition UserWorkloadMonitoringParseUserWorkloadConfigurationErr : Condition :=
  mkCondition ConditionUserWorkloadMonitoringEnabled ConditionFalse
    "UserWorkloadMonitoringParseUserWorkloadConfiguration" "" 0.
Definition UserWorkloadMonitoringConfigNotFound : Condition :=
  mkCondition ConditionUserWorkloadMonitoringEnabled ConditionFalse
    "UserWorkloadMonitoringConfigNotFound" "" 0.
Definition MeterBaseStartInstall : Condition :=
  mkCondition "Installing" ConditionTrue "StartMeterBaseInstall" "MeterBase install started" 0.
Definition MeterBaseFinishInstall : Condition :=
  mkCondition "Installing" ConditionFalse "FinishedMeterBaseInstall" "MeterBase install complete" 0.

(** ** The monitoring of user workloads *)

Inductive ConfigError :=
| ErrRetentionTime
| ErrInsufficientStorageConfiguration
| ErrParseUserWorkloadConfiguration (detail : string)
| ErrUserWorkloadMonitoringConfigNotFound
| ReadError (e : ClientError).

Definition config_error_text (e : ConfigError) : string :=
  match e with
  | ErrRetentionTime => "retention time must be at least 168h"
  | ErrInsufficientStorageConfiguration => "must allocate at least 40GiB of disk space"
  | ErrParseUserWorkloadConfiguration detail =>
      "could not parse user workload configuration from user-workload-monitoring-config cm" +:+ detail
  | ErrUserWorkloadMonitoringConfigNotFound =>
      "user-workload-monitoring-config config map not found on cluster"
  | ReadError e => client_error e
  end.

(** What the controller reads of the monitoring operator's settings: the retention, and
    of the volume claim the storage as a 64-bit number of bytes, 0 when it is none. *)
Record UserWorkloadPrometheus := mkPrometheus { Retention : string; ClaimStorage : option Z }.

Definition wanted_storage : Z := 40 * 2 ^ 30.

Section monitoring.
Variable ParseUserWorkload : string → result string (option UserWorkloadPrometheus).
Variable ParseClusterMonitoring : string → result string (option bool).

(** [None] when the configuration is valid. Retentions are compared as doubles, which
    keeps their order with 168h. *)
Definition isUserWorkLoadMonitoringConfigValid (data : gmap string string) : option ConfigError :=
  match data !! "config.yaml" with
  | None => Some (ErrParseUserWorkloadConfiguration "")
  | Some config =>
      match ParseUserWorkload config with
      | Err e => Some (ErrParseUserWorkloadConfiguration (": " +:+ e +:+ " "))
      | Ok None => Some (ErrParseUserWorkloadConfiguration
                           ": could not find prometheus spec in user workload config ")
      | Ok (Some p) =>
          match ParseDuration (Retention p), ParseDuration "168h" with
          | None, _ | _, None => Some (ErrParseUserWorkloadConfiguration ": time: invalid duration ")
          | Some found, Some wanted =>
              if bool_decide (found < wanted)%Z then Some ErrRetentionTime
              else match ClaimStorage p with
                   | None => Some (ErrParseUserWorkloadConfiguration
                       ": could not find Prometheus.VolumeClaimTemplate in user workload config ")
                   | Some storage =>
                       if bool_decide (storage < wanted_storage)%Z
                       then Some ErrInsufficientStorageConfiguration else None
                   end
          end
      end
  end.

Definition isEnableUserWorkloadConfigMap (data : gmap string string) : result string bool :=
  match data !! "config.yaml" with
  | None => Ok false
  | Some config => enabled ← ParseClusterMonitoring config; Ok (default false enabled)
  end.
End monitoring.

(** Every assignment after an error is to another variable of the same name, in its own
    block: the condition that is returned stays as it was. *)
Definition shadowed (inner : Condition) (condition : Condition) : Condition := condition.

Definition with_message (c : Condition) (msg : string) : Condition :=
  mkCondition (Type_ c) (Status c) (Reason c) msg (LastTransitionTime c).

Definition zero_condition : Condition := mkCondition "" "" "" "" 0.

Definition getUserWorkloadMonitoringCondition (enabledSpec enabledOnCluster configurationSet : bool)
    (err : option ConfigError) : Condition :=
  let condition := zero_condition in
  let condition := if enabledSpec && enabledOnCluster && configurationSet
                   then UserWorkloadMonitoringEnabled_ else condition in
  let condition := if negb enabledSpec then UserWorkloadMonitoringDisabledSpec else condition in
  let condition := if negb enabledOnCluster then UserWorkloadMonitoringDisabledOnCluster
                   else condition in
  match configurationSet, err with
  | false, Some e =>
      let msg := config_error_text e in
      match e with
      | ErrInsufficientStorageConfiguration =>
          shadowed (with_message UserWorkloadMonitoringStorageConfigurationErr msg) condition
      | ErrRetentionTime =>
          shadowed (with_message UserWorkloadMonitoringRetentionTimeConfigurationErr msg) condition
      | ErrParseUserWorkloadConfiguration _ =>
          shadowed (with_message UserWorkloadMonitoringParseUserWorkloadConfigurationErr msg) condition
      | ErrUserWorkloadMonitoringConfigNotFound =>
          shadowed (with_message UserWorkloadMonitoringConfigNotFound msg) condition
      | ReadError _ => condition
      end
  | _, _ => condition
  end.

(** ** The meter base as the controller keeps it *)

Record ReplicaCounts := mkCounts {
  CReplicas : Z; CUpdated : Z; CAvailable : Z; CUnavailable : Z
}.

Record BaseObject {X : Type} := mkBase {
  Base : MeterBase X; Finalizers : list string; Counts : option ReplicaCounts
}.
Arguments BaseObject : clear implicits.
Arguments mkBase {X}.

Definition base_key {X} (b : BaseObject X) : NamespacedName :=
  mkNN (Workloads.Namespace (MBMeta (Base b))) (Workloads.Name (MBMeta (Base b))).
Definition base_spec {X} (b : BaseObject X) : MeterBaseSpec X := MBSpec (Base b).
Definition base_conditions {X} (b : BaseObject X) : Conditions := default [] (MBConditions (Base b)).

Record StatefulSetStatus := mkStsStatus {
  StsReplicas : Z; StsUpdated : Z; StsReady : Z; StsCurrent : Z
}.

(** The reads and writes of meter bases, and what else the controller asks for. Writes
    give the object as the server has it. The settings of the marketplace come with
    whether they are being deleted. *)
Class MeterBaseCluster (X W : Type) := {
  GetBase : NamespacedName → W → result ClientError (BaseObject X);
  UpdateBase : BaseObject X → W → W * result ClientError (BaseObject X);
  UpdateBaseStatus : BaseObject X → W → W * result ClientError (BaseObject X);
  GetConfig : NamespacedName → W → result ClientError (MarketplaceConfig X * bool);
  GetConfigMap : NamespacedName → W → result ClientError (gmap string string);
  GetStatefulSetStatus : NamespacedName → W → result ClientError StatefulSetStatus;
  RecordEvent : string → string → W → W;
  BaseNow : W → Z
}.

Record Answer := mkAnswer { RequeueAfter : Z; Failure : option ClientError }.

(** ** Changes of a meter base *)

Section changes.
Context {X : Type}.

Definition without_finalizer (b : BaseObject X) : BaseObject X :=
  mkBase (Base b) (List.filter (λ f, f != CONTROLLER_FINALIZER) (Finalizers b)) (Counts b).

Definition with_spec (s : MeterBaseSpec X) (b : BaseObject X) : BaseObject X :=
  mkBase (mkMeterBase (MBMeta (Base b)) s (MBConditions (Base b))) (Finalizers b) (Counts b).

Definition with_base_conditions (cs : option Conditions) (b : BaseObject X) : BaseObject X :=
  mkBase (mkMeterBase (MBMeta (Base b)) (MBSpec (Base b)) cs) (Finalizers b) (Counts b).

Definition with_counts (c : ReplicaCounts) (b : BaseObject X) : BaseObject X :=
  mkBase (Base b) (Finalizers b) (Some c).

Definition enable_monitoring (s : MeterBaseSpec X) : MeterBaseSpec X :=
  mkMeterBaseSpec (Enabled s) (Prometheus s) (CatalogServerConfig s) (AdditionalScrapeConfigs s)
    (DataServiceEnabled s) (Some true) (MBStorageClassName s) (MBDataService s).

Definition counts_of (s : StatefulSetStatus) : ReplicaCounts :=
  mkCounts (StsReplicas s) (StsUpdated s) (StsReady s) (wrap_int32 (StsCurrent s - StsReady s)).
End changes.

(** ** The steps *)

Section steps.
Context {X W : Type} `{!Assets X} `{!ObjectCluster X W} `{!MeterBaseCluster X W} `{!ConflictRetry}.
Variable cfg : FactoryConfig.
Variable injections : list (string * (PodSpec → result string PodSpec)).
Variable Itoa_minute : string.
Variable ParseUserWorkload : string → result string (option UserWorkloadPrometheus).
Variable ParseClusterMonitoring : string → result string (option bool).
(** Of the cluster: whether it is OpenShift, and of version 4.6 or later. *)
Variable HasOpenshift GTE460 : bool.
Variable request : NamespacedName.

(** The cluster, and the meter base as last read or written. *)
Notation St := (W * BaseObject X)%type.

(** Read the meter base; write it if there is something to change. *)
Notation refresh := (refresh_then (GetBase (X:=X) request)).

Definition drop_finalizer : Step St :=
  Retry (refresh (λ _ b, if bool_decide (CONTROLLER_FINALIZER ∈ Finalizers b)
                              then Some (without_finalizer b) else None) UpdateBase).

Definition set_monitoring : Step St := λ st,
  if ToBool (UserWorkloadMonitoringEnabled (base_spec st.2)) then Ret (st, None)
  else Retry (refresh (λ _ b, Some (with_spec (enable_monitoring (base_spec b)) b)) UpdateBase) st.

Definition set_change (c : Condition) (w : W) (b : BaseObject X) : option (BaseObject X) :=
  match SetCondition (BaseNow (X:=X) w) (base_conditions b) c with
  | (true, cs) => Some (with_base_conditions (Some cs) b)
  | (false, _) => None
  end.

Definition set_condition (c : Condition) : Step St :=
  Retry (refresh (set_change c) UpdateBaseStatus).

Definition start_condition : Step St := λ st,
  if IsUnknownFor (base_conditions st.2) "Installing" then set_condition MeterBaseStartInstall st
  else Ret (st, None).

(** The status is compared with a pointer to its copy, from which it always differs: it
    is written every time. *)
Definition update_counts (s : StatefulSetStatus) : Step St :=
  Retry (refresh (λ _ b, Some (with_counts (counts_of s) b)) UpdateBaseStatus).

(** A step on the cluster alone. *)
Definition on_world (s : Step W) : Step St := λ '(w, b),
  match s w with Ret (w, e) => Ret ((w, b), e) | Panic => Panic end.

(** ** What the cluster monitors *)

Definition validateUserWorkLoadMonitoringConfig (w : W) : option ConfigError :=
  match GetConfigMap (X:=X) (mkNN OPENSHIFT_USER_WORKLOAD_MONITORING_NAMESPACE
          OPENSHIFT_USER_WORKLOAD_MONITORING_CONFIGMAP_NAME) w with
  | Err IsNotFound => Some ErrUserWorkloadMonitoringConfigNotFound
  | Err e => Some (ReadError e)
  | Ok data => isUserWorkLoadMonitoringConfigValid ParseUserWorkload data
  end.

(** An error is only logged; the answer is then no. *)
Definition isUserWorkloadMonitoringEnabledOnCluster (w : W) : bool :=
  if negb HasOpenshift || HasOpenshift && negb GTE460 then false
  else match GetConfigMap (X:=X) (mkNN OPENSHIFT_MONITORING_NAMESPACE
               OPENSHIFT_CLUSTER_MONITORING_CONFIGMAP_NAME) w with
       | Err _ => false
       | Ok data =>
           match isEnableUserWorkloadConfigMap ParseClusterMonitoring data with
           | Ok enabled => enabled | Err _ => false
           end
       end.

(** ** The objects *)

(** A manifest whose making may panic. *)
Definition applying (owner : ObjectMeta) (manifest : outcome (result string (Obj X))) : Step W := λ w,
  match manifest with
  | Panic => Panic
  | Ret m => Ret (FactoryCreateOrUpdate (Some owner) m w)
  end.

Definition checkUWMDefaultStorageClassPrereq : Step W := λ w,
  match GetDefaultStorageClass (X:=X) w with
  | Ok _ => Ret (w, None)
  | Err DefaultStorageClassNotFound =>
      Ret (RecordEvent (X:=X) "DefaultClassNotFound" "Default storage class not found" w, None)
  | Err MultipleDefaultStorageClassFound =>
      Ret (w, Some (OtherFailure "multiple default storage found"))
  | Err (StorageFailure e) => Ret (w, Some e)
  end.

Definition installMetricStateDeployment (owner : ObjectMeta) : Step W :=
  applying owner (MetricStateDeployment cfg injections) ;;>
  applying owner (Ret (MetricStateService cfg)) ;;>
  applying owner (MetricStateServiceMonitor cfg None) ;;>
  applying owner (Ret (KubeStateMetricsService cfg)).

Definition deleting (manifest : result string (Obj X)) : Step W :=
  needing manifest (λ o, calling (ensure_deleted o)).

(** The definition of the operator's own metering follows the account. *)
Definition follow_account (owner : ObjectMeta) (cond : option Condition) : Step W :=
  match cond with
  | None => deleting (MetricStateMeterDefinition cfg)
  | Some c =>
      if IsFalse c then deleting (MetricStateMeterDefinition cfg)
      else if IsTrue c then applying owner (Ret (MetricStateMeterDefinition cfg))
      else λ w, Ret (w, None)
  end.

Definition installMeterDefinitions (owner : ObjectMeta) (account : option Condition) : Step W :=
  deleting (UserWorkloadMonitoringMeterDefinition cfg) ;;>
  deleting (ReporterMeterDefinition cfg) ;;>
  follow_account owner account.

(** What the closure leaves of the job it is given: everything but the schedule is as in
    the manifest, each field being set where it differs. The loops over the variables of
    the containers set local copies only. *)
Definition cron_mutate (owner : ObjectMeta) (orig cronJob : Obj X) : result ClientError (Obj X) :=
  let c := controlled (Some owner) cronJob in
  match OBody c, OBody orig with
  | BCronJob s, BCronJob o =>
      Ok (mkObj (OKind c) (OMeta c)
            (BCronJob (mkCronJobSpec (Schedule s) (ConcurrencyPolicy o) (FailedJobsHistoryLimit o)
               (SuccessfulJobsHistoryLimit o) (JobTemplate o))))
  | _, _ => Ok c
  end.

Definition cron_attempt (owner : ObjectMeta) (orig : Obj X) (st : W * Obj X)
    : (W * Obj X) * option ClientError :=
  CreateOrUpdate st.2 (cron_mutate owner orig) st.1.

Definition apply_cron (owner : ObjectMeta) (job : Obj X) (w : W) : W * option ClientError :=
  match RetryOnConflict (cron_attempt owner job) (w, job) with ((w, _), e) => (w, e) end.

Definition createReporterCronJob (owner : ObjectMeta) (userWorkloadEnabled isDisconnected : bool)
    : Step W := λ w,
  match NewReporterCronJob cfg injections Itoa_minute userWorkloadEnabled isDisconnected with
  | Panic => Panic
  | Ret manifest => needing manifest (λ job, calling (apply_cron owner job)) w
  end.

Definition deleteReporterCronJob (isDisconnected : bool) : Step W := λ w,
  match NewReporterCronJob cfg injections Itoa_minute false isDisconnected with
  | Panic => Panic
  | Ret manifest => deleting manifest w
  end.

Definition reporter_job (b : BaseObject X) (isDisconnected : bool) : Step W :=
  if IsDataServiceEnabled (base_spec b)
  then createReporterCronJob (MBMeta (Base b)) true isDisconnected
  else deleteReporterCronJob isDisconnected.

Definition install_objects (b : BaseObject X) (config : MarketplaceConfig X) : Step W :=
  checkUWMDefaultStorageClassPrereq ;;>
  installMetricStateDeployment (MBMeta (Base b)) ;;>
  installMeterDefinitions (MBMeta (Base b))
    (GetCondition (MCConditions (MCStatus config)) "RHMAccountExists") ;;>
  reporter_job b (ToBool (IsDisconnected (MCSpec config))).

(** ** The reconciliation *)

(** Go on after a step that did not fail. *)
Definition after (r : outcome (St * option ClientError)) (k : St → outcome (W * Answer))
    : outcome (W * Answer) :=
  match r with
  | Panic => Panic
  | Ret (st, Some e) => Ret (st.1, mkAnswer 0 (Some e))
  | Ret (st, None) => k st
  end.

Definition stop (w : W) : outcome (W * Answer) := Ret (w, mkAnswer 0 None).

Definition update_status (s : StatefulSetStatus) : Step St :=
  update_counts s ;;> set_condition MeterBaseFinishInstall.

Definition finish (st : St) : outcome (W * Answer) :=
  match GetStatefulSetStatus (X:=X) (mkNN OPENSHIFT_USER_WORKLOAD_MONITORING_NAMESPACE
          OPENSHIFT_USER_WORKLOAD_MONITORING_STATEFULSET_NAME) st.1 with
  | Err IsNotFound => Ret (st.1, mkAnswer 60 None)
  | Err e => Ret (st.1, mkAnswer 0 (Some e))
  | Ok s => after (update_status s st) (λ st, Ret (st.1, mkAnswer 3600 None))
  end.

Definition install_run (st : St) : outcome (W * Answer) :=
  match GetConfig (mkNN (NNNamespace request) MARKETPLACECONFIG_NAME) st.1 with
  | Err IsNotFound => stop st.1
  | Err e => Ret (st.1, mkAnswer 0 (Some e))
  | Ok (_, true) => stop st.1
  | Ok (config, false) => after (on_world (install_objects st.2 config) st) finish
  end.

(** The spec is set before the configuration is read, which a write of a meter base does
    not change. *)
Definition enabled_run (st : St) : outcome (W * Answer) :=
  let onCluster := isUserWorkloadMonitoringEnabledOnCluster st.1 in
  after (set_monitoring st) (λ st,
    let err := validateUserWorkLoadMonitoringConfig st.1 in
    after ((set_condition (getUserWorkloadMonitoringCondition true onCluster
              (match err with None => true | Some _ => false end) err) ;;> start_condition) st) install_run).

Definition Reconcile (w : W) : outcome (W * Answer) :=
  match GetBase request w with
  | Err IsNotFound => stop w
  | Err e => Ret (w, mkAnswer 0 (Some e))
  | Ok instance =>
      after (drop_finalizer (w, instance)) (λ st,
        if Enabled (base_spec st.2)
        then enabled_run (st.1, with_base_conditions (Some (base_conditions st.2)) st.2)
        else stop st.1)
  end.
End steps.

(** ** What wakes the controller *)

Definition mapFn (deployedNamespace : string) (a : ObjectMeta) : list NamespacedName :=
  [mkNN deployedNamespace METERBASE_REQUEST].

Definition isOpenshiftMonitoringObj (name namespace : string) : bool :=
  ((name == OPENSHIFT_CLUSTER_MONITORING_CONFIGMAP_NAME) && (namespace == OPENSHIFT_MONITORING_NAMESPACE)) ||
  ((name == OPENSHIFT_USER_WORKLOAD_MONITORING_CONFIGMAP_NAME) &&
   (namespace == OPENSHIFT_USER_WORKLOAD_MONITORING_NAMESPACE)) ||
  ((name == KUBELET_SERVING_CA_BUNDLE_NAME) && (namespace == OPENSHIFT_MONITORING_NAMESPACE)).

Definition monitoringPred (e : Event) : bool :=
  match e with
  | EGeneric _ => false
  | ECreate o | EUpdate _ o | EDelete o =>
      isOpenshiftMonitoringObj (Workloads.Name o) (Workloads.Namespace o)
  end.

Definition reconcileForMeterDef (deployedNamespace meterdefNamespace meterdefName : string) : bool :=
  if (meterdefNamespace == OPENSHIFT_USER_WORKLOAD_MONITORING_NAMESPACE) &&
     (meterdefName == UserWorkloadMonitoringMeterdef) then true
  else (meterdefNamespace == deployedNamespace) &&
       bool_decide (meterdefName ∈ [PrometheusMeterbaseUptimeMeterdef; MetricStateUptimeMeterdef;
                                    MeterReportJobFailedMeterdef]).

Definition meterdefsPred (deployedNamespace : string) (e : Event) : bool :=
  match e with
  | EGeneric _ | ECreate _ => false
  | EUpdate _ o | EDelete o =>
      reconcileForMeterDef deployedNamespace (Workloads.Namespace o) (Workloads.Name o)
  end.

Fixpoint containsString (slice : list string) (value : string) : bool :=
  match slice with
  | [] => false
  | sv :: slice => if sv == value then true else containsString slice value
  end.

(** The categories of the definitions, each once, in the order they are met. *)
Definition getCategoriesFromMeterDefinitions (definitions : list ObjectMeta) : list string :=
  foldl (λ categoryList m,
    let v := default "" (Labels m !! "marketplace.redhat.com/category") in
    if containsString categoryList v then categoryList else categoryList ++ [v]) [] definitions.

(** ** What the cluster promises *)

Definition with_status_of {X} (s b : BaseObject X) : BaseObject X :=
  mkBase (mkMeterBase (MBMeta (Base b)) (MBSpec (Base b)) (MBConditions (Base s))) (Finalizers b)
    (Counts s).

(** What a write of a meter base leaves alone. *)
Definition same_but_bases {X W} `{!ObjectCluster X W, !ObjectStore X W, !MeterBaseCluster X W}
    (w w' : W) : Prop :=
  objs w' = objs w ∧ (∀ k, GetConfigMap (X:=X) k w' = GetConfigMap (X:=X) k w) ∧
  ∀ k, GetConfig (X:=X) k w' = GetConfig (X:=X) k w.

(** What a write of [b] does: it stores [merge old b], and answers with it. *)
Definition writes {X W} `{!ObjectCluster X W, !ObjectStore X W, !MeterBaseCluster X W}
    (bases : W → gmap NamespacedName (BaseObject X))
    (merge : BaseObject X → BaseObject X → BaseObject X) (b : BaseObject X) (w : W)
    (r : W * result ClientError (BaseObject X)) : Prop :=
  same_but_bases (X:=X) w r.1 ∧
  match r.2 with
  | Ok n => ∃ old, bases w !! base_key b = Some old ∧ n = merge old b ∧
      bases r.1 = <[base_key b := n]> (bases w)
  | Err _ => bases r.1 = bases w
  end.

(** Nobody else writes. A write stores what it concerns: the status is a resource of its
    own. Objects and meter bases are apart. *)
Class MeterBaseStore (X W : Type) `{!ObjectCluster X W, !ObjectStore X W, !MeterBaseCluster X W} := {
  bases : W → gmap NamespacedName (BaseObject X);
  base_keyed_law w k b : bases w !! k = Some b → base_key b = k;
  get_base_law k w :
    match GetBase k w with
    | Ok b => bases w !! k = Some b
    | Err IsNotFound => bases w !! k = None
    | Err _ => True
    end;
  update_base_law b w : writes bases (λ old b, with_status_of old b) b w (UpdateBase b w);
  update_status_law b w : writes bases (λ old b, with_status_of b old) b w (UpdateBaseStatus b w);
  create_or_update_bases o f w : bases (CreateOrUpdate o f w).1.1 = bases w;
  delete_obj_bases o w : bases (DeleteObj o w).1 = bases w;
  record_event_law reason msg w :
    bases (RecordEvent (X:=X) reason msg w) = bases w ∧ objs (RecordEvent (X:=X) reason msg w) = objs w
}.

(** ** Lemmas *)

Section base_lemmas.
Context {X W : Type} `{!Assets X, !ObjectCluster X W, !ObjectStore X W, !MeterBaseCluster X W,
  !MeterBaseStore X W, !ConflictRetry}.
Variable request : NamespacedName.
Notation St := (W * BaseObject X)%type.

(** [b] is stored, and the rest is as in [w0]. *)
Definition at_base (w0 : W) (b : BaseObject X) (w : W) : Prop :=
  bases w !! request = Some b ∧ same_but_bases (X:=X) w0 w.

Lemma same_but_bases_trans (w w1 w' : W) :
  same_but_bases (X:=X) w w1 → same_but_bases (X:=X) w1 w' → same_but_bases (X:=X) w w'.
Proof.
  intros (H1 & H1' & H1c) (H2 & H2' & H2c). split_and!; [by rewrite H2|intros k; by rewrite H2'|].
  intros k. by rewrite H2c.
Qed.

Lemma at_base_refl b w : bases w !! request = Some b → at_base w b w.
Proof. done. Qed.

Lemma refresh_then_spec change write merge w0 b0 :
  (∀ b w, writes bases merge b w (write b w)) →
  (∀ w b', change w b0 = Some b' → base_key b' = base_key b0) →
  triple (λ st, at_base w0 b0 st.1) (Retry (refresh_then (W:=W) (GetBase request) change write))
    (λ st, ∃ w, st.2 = match change w b0 with Some b' => merge b0 b' | None => b0 end ∧
       at_base w0 st.2 st.1)
    (λ st, at_base w0 b0 st.1).
Proof.
  intros Hw Hk.
  apply (Retry_refresh_then (GetBase request) (λ w, bases w !! request) (same_but_bases (X:=X)));
    [apply same_but_bases_trans| |].
  - intros w. pose proof (get_base_law request w) as Hg. by destruct (GetBase request w) as [|[]].
  - intros w b' Hb Hc. destruct (Hw b' w) as [Hs Hr]. split; [done|].
    destruct (write b' w).2 as [n|e]; [|by rewrite Hr]. destruct Hr as (old & Hold & -> & Hb1).
    rewrite (Hk _ _ Hc), (base_keyed_law _ _ _ Hb) in Hold, Hb1.
    rewrite Hb in Hold. injection Hold as <-. split; [done|]. by rewrite Hb1, lookup_insert_eq.
Qed.

(** Nothing is said anew but under the types [ts]. *)
Definition kept_but (ts : list string) (b b' : BaseObject X) : Prop :=
  ∀ t, t ∉ ts → GetCondition (base_conditions b') t = GetCondition (base_conditions b) t.

Lemma kept_but_trans ts ts' b b1 b' :
  kept_but ts b b1 → kept_but ts' b1 b' → kept_but (ts ++ ts') b b'.
Proof. intros H1 H2 t Ht. rewrite H2, H1; [done|set_solver..]. Qed.

Lemma settled_kept ts b b' c :
  kept_but ts b b' → Type_ c ∉ ts → settled c (base_conditions b) → settled c (base_conditions b').
Proof. intros Hk Ht. unfold settled. by rewrite (Hk _ Ht). Qed.

(** The steps on the meter base, as functions of the stored one. *)
Lemma drop_finalizer_spec w0 b0 :
  triple (λ st, at_base w0 b0 st.1) (drop_finalizer (W:=W) request)
    (λ st, at_base w0 st.2 st.1 ∧ base_spec st.2 = base_spec b0 ∧ CONTROLLER_FINALIZER ∉ Finalizers st.2 ∧
       base_conditions st.2 = base_conditions b0)
    (λ st, at_base w0 b0 st.1).
Proof.
  eapply triple_weaken; [apply (refresh_then_spec _ _ _ w0 b0 update_base_law)|done| |done].
  { intros w b'. case_bool_decide; [by intros [= <-]|done]. }
  intros st (_ & Hst & Hat). split; [done|]. rewrite Hst. case_bool_decide as Hf; [|done]. split; [done|].
  split; [|done]. cbn [Finalizers with_status_of without_finalizer]. intros Hin%list_elem_of_In%filter_In.
  destruct Hin as [_ Hne]. by rewrite bool_decide_true in Hne.
Qed.

Lemma set_monitoring_spec w0 b0 :
  triple (λ st, base_spec st.2 = base_spec b0 ∧ at_base w0 b0 st.1) (set_monitoring (W:=W) request)
    (λ st, ∃ b1, at_base w0 b1 st.1 ∧ Enabled (base_spec b1) = Enabled (base_spec b0) ∧
       UserWorkloadMonitoringEnabled (base_spec b1) = Some true ∧ Finalizers b1 = Finalizers b0 ∧
       base_conditions b1 = base_conditions b0)
    (λ st, at_base w0 b0 st.1).
Proof.
  intros [w b] [Hb Hat]. cbn [snd] in Hb. unfold set_monitoring; cbn [snd]. rewrite Hb.
  destruct (ToBool _) eqn:Ht.
  { exists b0. repeat (split; [done|]). split; [|done]. unfold ToBool in Ht.
    destruct (UserWorkloadMonitoringEnabled _) as [[]|]; done. }
  eapply triple_weaken; [apply (refresh_then_spec _ _ _ w0 b0 update_base_law)|done| |done|exact Hat].
  { by intros w1 b' [= <-]. }
  intros st (_ & Hst & Hat1). exists st.2. split; [done|]. by rewrite Hst.
Qed.

(** The same meter base but for its status. *)
Definition same_base (b b' : BaseObject X) : Prop :=
  MBMeta (Base b') = MBMeta (Base b) ∧ base_spec b' = base_spec b ∧ Finalizers b' = Finalizers b.

Lemma set_condition_spec c w0 b0 :
  triple (λ st, at_base w0 b0 st.1) (set_condition (W:=W) request c)
    (λ st, at_base w0 st.2 st.1 ∧ same_base b0 st.2 ∧ Counts st.2 = Counts b0 ∧ settled c (base_conditions st.2) ∧
       kept_but [Type_ c] b0 st.2)
    (λ st, at_base w0 b0 st.1).
Proof.
  eapply triple_weaken; [apply (refresh_then_spec _ _ _ w0 b0 update_status_law)|done| |done].
  { intros w b'. unfold set_change. destruct (SetCondition _ _ _) as [[] cs]; [by intros [= <-]|done]. }
  intros st (w & Hst & Hat). split; [done|]. rewrite Hst. unfold set_change.
  destruct (SetCondition _ _ _) as [[] cs] eqn:Hs.
  - repeat (split; [done|]). cbn [base_conditions with_status_of with_base_conditions Base MBConditions default].
    assert (cs = (SetCondition (BaseNow (X:=X) w) (base_conditions b0) c).2) as -> by by rewrite Hs.
    split; [apply settled_Set|]. intros t Ht. apply GetCondition_Set_ne. set_solver.
  - repeat (split; [done|]). split; [|done].
    assert (Hf : (SetCondition (BaseNow (X:=X) w) (base_conditions b0) c).1 = false) by by rewrite Hs.
    apply (settled_unchanged (BaseNow (X:=X) w)). pose proof (SetCondition_unchanged _ _ _ Hf) as [Heq _].
    by rewrite Hs in *; cbn in *; subst.
Qed.

Lemma update_counts_spec s w0 b0 :
  triple (λ st, at_base w0 b0 st.1) (update_counts (W:=W) request s)
    (λ st, at_base w0 st.2 st.1 ∧ same_base b0 st.2 ∧ Counts st.2 = Some (counts_of s) ∧ base_conditions st.2 = base_conditions b0)
    (λ st, at_base w0 b0 st.1).
Proof.
  eapply triple_weaken; [apply (refresh_then_spec _ _ _ w0 b0 update_status_law)|done| |done].
  { by intros w b' [= <-]. }
  intros st (_ & Hst & Hat). split; [done|]. by rewrite Hst.
Qed.

Lemma start_condition_spec w0 b0 :
  triple (λ st, st.2 = b0 ∧ at_base w0 b0 st.1) (start_condition (W:=W) request)
    (λ st, at_base w0 st.2 st.1 ∧ same_base b0 st.2 ∧ kept_but ["Installing"] b0 st.2)
    (λ st, at_base w0 b0 st.1).
Proof.
  intros [w b] [Hb Hat]. cbn [snd] in Hb. subst b. unfold start_condition; cbn [snd].
  destruct (IsUnknownFor _ _); [|done].
  pose proof (set_condition_spec MeterBaseStartInstall w0 b0 (w, b0) Hat) as Hs.
  destruct (set_condition _ _ _) as [[st [e|]]|]; [done| |done].
  destruct Hs as (? & ? & _ & _ & ?). done.
Qed.

Lemma same_base_trans b b1 b2 : same_base b b1 → same_base b1 b2 → same_base b b2.
Proof. intros (H1 & H2 & H3) (H4 & H5 & H6). unfold same_base. by rewrite H4, H5, H6. Qed.

Lemma update_status_spec s w0 b0 :
  triple (λ st, at_base w0 b0 st.1) (update_status (W:=W) request s)
    (λ st, at_base w0 st.2 st.1 ∧ same_base b0 st.2 ∧ Counts st.2 = Some (counts_of s) ∧
       settled MeterBaseFinishInstall (base_conditions st.2) ∧ kept_but ["Installing"] b0 st.2)
    (λ _, True).
Proof.
  eapply triple_andthen; [eapply triple_weaken; [apply (update_counts_spec s w0 b0)|done| |done]|].
  { intros st (Hat & Hs & Hc & Hcs). exact (ex_intro (λ b1, at_base w0 b1 st.1 ∧ same_base b0 b1 ∧
      Counts b1 = Some (counts_of s) ∧ base_conditions b1 = base_conditions b0) _
      (conj Hat (conj Hs (conj Hc Hcs)))). }
  apply triple_exists. intros b1. intros st (Hat & Hs & Hc & Hcs).
  pose proof (set_condition_spec MeterBaseFinishInstall w0 b1 st Hat) as Hset.
  destruct (set_condition _ _ _) as [[st' [e|]]|]; [done| |done].
  destruct Hset as (Hat' & Hs' & Hc' & Hf & Hother). split; [done|].
  split; [by eapply same_base_trans|]. split; [by rewrite Hc'|]. split; [done|].
  intros t Ht. rewrite (Hother t Ht). by rewrite Hcs.
Qed.

Lemma conditions_spec c w0 b0 :
  Type_ c ≠ "Installing" →
  triple (λ st, at_base w0 b0 st.1) (set_condition (W:=W) request c ;;> start_condition request)
    (λ st, at_base w0 st.2 st.1 ∧ same_base b0 st.2 ∧ settled c (base_conditions st.2) ∧
       kept_but [Type_ c; "Installing"] b0 st.2)
    (λ _, True).
Proof.
  intros Ht. eapply triple_andthen; [eapply triple_weaken; [apply (set_condition_spec c w0 b0)|done| |done]|].
  { intros st (Hat & Hs & _ & Hc & Hk). exact (ex_intro (λ b1, (st.2 = b1 ∧ at_base w0 b1 st.1) ∧
      same_base b0 b1 ∧ settled c (base_conditions b1) ∧ kept_but [Type_ c] b0 b1) _
      (conj (conj eq_refl Hat) (conj Hs (conj Hc Hk)))). }
  apply triple_exists. intros b1 st (Hst & Hs & Hc & Hk).
  pose proof (start_condition_spec w0 b1 st Hst) as Hstart.
  destruct (start_condition _ _) as [[st' [e|]]|]; [done| |done].
  destruct Hstart as (Hat' & Hs' & Hother). split; [done|].
  split; [by eapply same_base_trans|]. split; [by eapply settled_kept; [exact Hother|set_solver|]|].
  exact (kept_but_trans _ _ _ _ _ Hk Hother).
Qed.

(** A step that meets its contract, when it succeeds. *)
Lemma triple_after (P : St → Prop) s Q E st k r :
  triple P s Q E → P st → after (s st) k = Ret r → Failure r.2 = None →
  ∃ st', Q st' ∧ k st' = Ret r.
Proof.
  intros Ht HP. specialize (Ht st HP). unfold after.
  destruct (s st) as [[st' [e|]]|]; [by intros [= <-]| |done]. intros Hk _. by exists st'.
Qed.
End base_lemmas.

Section object_lemmas.
Context {X W : Type} `{!Assets X, !ObjectCluster X W, !ObjectStore X W, !MeterBaseCluster X W,
  !MeterBaseStore X W, !ConflictRetry}.
Variable cfg : FactoryConfig.
Variable injections : list (string * (PodSpec → result string PodSpec)).
Variable Itoa_minute : string.

(** Steps on objects leave the meter bases alone. *)
Definition keeps_bases (s : Step W) : Prop := ∀ w w' e, s w = Ret (w', e) → bases w' = bases w.

Lemma keeps_andthen (s t : Step W) : keeps_bases s → keeps_bases t → keeps_bases (s ;;> t).
Proof.
  intros Hs Ht w w' e [[H1 _]|(w1 & H1 & H2)]%andthen_inv; [by eapply Hs|].
  rewrite (Ht _ _ _ H2). by eapply Hs.
Qed.

Lemma retried_bases (f : W * Obj X → (W * Obj X) * option ClientError) w o :
  (∀ st, bases (f st).1.1 = bases st.1) → bases (RetryOnConflict f (w, o)).1.1 = bases w.
Proof.
  intros Hf. apply (retried_inv (λ st, bases st.1 = bases w) f (w, o)); [|done|apply RetryOnConflict_law].
  intros st Hst. by rewrite Hf.
Qed.

Lemma applying_keeps owner manifest : keeps_bases (applying (X:=X) owner manifest).
Proof.
  intros w w' e. unfold applying, FactoryCreateOrUpdate.
  destruct manifest as [[o|]|]; [|by intros [= <- <-]|done]. intros [= Hr].
  pose proof (retried_bases (apply_attempt (Some owner) o) w o (λ st, create_or_update_bases _ _ _)) as Hb.
  destruct (RetryOnConflict _ _) as [[w1 o1] e1]. by injection Hr as <- <-.
Qed.

Lemma deleting_keeps manifest : keeps_bases (deleting (X:=X) manifest).
Proof.
  intros w w' e. unfold deleting, needing, calling, ensure_deleted.
  destruct manifest as [o|]; [|by intros [= <- <-]]. pose proof (delete_obj_bases o w) as Hb.
  destruct (DeleteObj o w) as [w1 [[]|]]; cbn [fst] in Hb; by intros [= <- <-].
Qed.

Lemma prereq_spec (w w' : W) e :
  checkUWMDefaultStorageClassPrereq (X:=X) w = Ret (w', e) → bases w' = bases w ∧ objs w' = objs w.
Proof.
  unfold checkUWMDefaultStorageClassPrereq.
  destruct (GetDefaultStorageClass w) as [|[| |]]; intros [= <- <-]; try done. apply record_event_law.
Qed.

Lemma apply_cron_keeps owner job : keeps_bases (calling (apply_cron (X:=X) owner job)).
Proof.
  intros w w' e. unfold calling, apply_cron. intros [= Hr].
  pose proof (retried_bases (cron_attempt owner job) w job (λ st, create_or_update_bases _ _ _)) as Hb.
  destruct (RetryOnConflict _ _) as [[w1 o1] e1]. by injection Hr as <- <-.
Qed.

Lemma reporter_job_keeps b disconnected :
  keeps_bases (reporter_job cfg injections Itoa_minute (X:=X) b disconnected).
Proof.
  unfold reporter_job, createReporterCronJob, deleteReporterCronJob. intros w w' e.
  destruct (IsDataServiceEnabled _).
  - destruct (NewReporterCronJob _ _ _ _ _) as [[job|]|]; [|by intros [= <- <-]|done].
    apply apply_cron_keeps.
  - destruct (NewReporterCronJob _ _ _ _ _) as [m|]; [|done]. apply deleting_keeps.
Qed.

Lemma install_objects_keeps b config :
  keeps_bases (install_objects cfg injections Itoa_minute (X:=X) b config).
Proof.
  repeat apply keeps_andthen; try apply applying_keeps; try apply deleting_keeps;
    try apply reporter_job_keeps.
  - intros w w' e Hr. apply prereq_spec in Hr as [Hr _]. exact Hr.
  - unfold follow_account. destruct (GetCondition _ _) as [c|]; [|apply deleting_keeps].
    destruct (IsFalse c); [apply deleting_keeps|]. destruct (IsTrue c); [apply applying_keeps|].
    by intros w w' e [= <- <-].
Qed.

Lemma applying_has owner manifest (w w' : W) :
  applying owner manifest w = Ret (w', None) →
  ∃ o : Obj X, manifest = Ret (Ok o) ∧ within (λ k, k = obj_key o) w w' ∧ has owner o w'.
Proof.
  unfold applying. destruct manifest as [m|]; [|done]. intros [= Hr].
  apply create_or_update_has in Hr as (o & -> & ?). by exists o.
Qed.

(** The job as the closure leaves it is stored. *)
Definition job_stored (owner : ObjectMeta) (job : Obj X) (w : W) : Prop :=
  ∃ base o n, cron_mutate owner job base = Ok o ∧ admitted o n ∧ obj_key o = obj_key job ∧
    objs w !! obj_key job = Some n.

Lemma apply_cron_spec owner (job : Obj X) (w w' : W) :
  apply_cron owner job w = (w', None) →
  within (λ k, k = obj_key job) w w' ∧ job_stored owner job w'.
Proof.
  unfold apply_cron. intros Hrun.
  pose proof (retried_post (λ st, objs st.1 = objs w ∧ obj_key st.2 = obj_key job)
    (λ st, within (λ k, k = obj_key job) w st.1 ∧ job_stored owner job st.1)
    (cron_attempt owner job) (w, job)) as Hr.
  destruct (RetryOnConflict _ _) as [[w1 o'] e1]. injection Hrun as <- ->.
  apply Hr; [|done]. intros [w2 o2] [Hst Hk]; cbn [fst snd] in *.
  unfold cron_attempt; cbn [fst snd].
  pose proof (create_or_update_law o2 (cron_mutate owner job) w2) as Hl.
  destruct (CreateOrUpdate _ _ _) as [[w3 o3] [e3|]]; cbn [fst snd]; destruct Hl as [Hk3 Hl].
  - split; congruence.
  - destruct Hl as (base & n & _ & Hm & Hn & Hl). rewrite Hst, Hk in Hl.
    split; [by eapply within_insert|]. exists base, o3, n.
    split_and!; [done..|congruence|by rewrite Hl, lookup_insert_eq].
Qed.

(** Of which kind each manifest is. *)
Lemma MetricStateDeployment_kind o :
  MetricStateDeployment cfg injections = Ret (Ok o) → OKind (X:=X) o = "Deployment".
Proof.
  unfold MetricStateDeployment. destruct (NewDeployment _ _) as [[m pod]|]; [|done].
  destruct (mapM_out _ _); cbn [mbind outcome_mbind]; [|done].
  destruct (injectSubscriptionConfig _ _ _) as [p [e|]]; [done|]. by intros [= <-].
Qed.
Lemma NewOwn_kind kind asset o : NewOwn cfg kind asset = Ok o → OKind (X:=X) o = kind.
Proof.
  unfold NewOwn, NewOther. destruct (AssetOther _ _) as [[m c]|]; [|done]. cbn. by intros [= <-].
Qed.
Lemma NewOther_kind kind asset o : NewOther cfg kind asset = Ok o → OKind (X:=X) o = kind.
Proof. unfold NewOther. destruct (AssetOther _ _) as [[m c]|]; [|done]. cbn. by intros [= <-]. Qed.
Lemma MetricStateServiceMonitor_kind secret o :
  MetricStateServiceMonitor cfg secret = Ret (Ok o) → OKind (X:=X) o = "ServiceMonitor".
Proof.
  unfold MetricStateServiceMonitor. destruct (AssetServiceMonitor _) as [[m es]|]; [|done].
  destruct (mapM_out _ _); cbn [mbind outcome_mbind]; [|done]. by intros [= <-].
Qed.
Lemma NewReporterCronJob_kind a d o :
  NewReporterCronJob cfg injections Itoa_minute a d = Ret (Ok o) → OKind (X:=X) o = "CronJob".
Proof.
  unfold NewReporterCronJob. destruct (AssetCronJob _) as [[m s]|]; [|done]. cbv zeta.
  destruct (Containers _) as [|c cs]; [done|].
  destruct (reporter_container _ _ _ _); cbn [mbind outcome_mbind]; [|done].
  destruct (injectSubscriptionConfig _ _ _) as [p [e|]]; [done|]. by intros [= <-].
Qed.

(** What reports the metering state is there, and the meter base's. *)
Definition metric_state (owner : ObjectMeta) (w : W) : Prop :=
  ∃ deployment service monitor kube : Obj X,
    MetricStateDeployment cfg injections = Ret (Ok deployment) ∧ MetricStateService cfg = Ok service ∧
    MetricStateServiceMonitor cfg None = Ret (Ok monitor) ∧ KubeStateMetricsService cfg = Ok kube ∧
    has owner deployment w ∧ has owner monitor w ∧ has owner kube w ∧
    (obj_key service ≠ obj_key kube → has owner service w).

(** The definition of the operator's own metering is there when the account exists,
    and not when it does not. *)
Definition definition_follows (owner : ObjectMeta) (account : option Condition) (w : W) : Prop :=
  match account with
  | Some c =>
      if IsFalse c then ∃ o : Obj X, MetricStateMeterDefinition cfg = Ok o ∧ objs w !! obj_key o = None
      else IsTrue c = true → ∃ o : Obj X, MetricStateMeterDefinition cfg = Ok o ∧ has owner o w
  | None => ∃ o : Obj X, MetricStateMeterDefinition cfg = Ok o ∧ objs w !! obj_key o = None
  end.

(** The job that makes reports is there when the data service is enabled. *)
Definition job_follows (b : BaseObject X) (disconnected : bool) (w : W) : Prop :=
  if IsDataServiceEnabled (base_spec b)
  then ∃ job, NewReporterCronJob cfg injections Itoa_minute true disconnected = Ret (Ok job) ∧
         job_stored (MBMeta (Base b)) job w
  else ∃ job : Obj X, NewReporterCronJob cfg injections Itoa_minute false disconnected = Ret (Ok job) ∧
         objs w !! obj_key job = None.
Lemma deleting_within manifest kind (w w' : W) :
  deleting manifest w = Ret (w', None) → (∀ o, manifest = Ok o → OKind o = kind) →
  within (X:=X) (λ k, k.1 = kind) w w' ∧ ∃ o : Obj X, manifest = Ok o ∧ objs w' !! obj_key o = None.
Proof.
  unfold deleting. intros [[_ [? [=]]]|(o & -> & _ & He)]%deleting_spec Hk. split.
  - eapply within_delete; [done|]. cbn. by apply Hk.
  - exists o. by rewrite He, lookup_delete_eq.
Qed.

Lemma follow_account_spec owner account (w w' : W) :
  follow_account cfg owner account w = Ret (w', None) →
  within (X:=X) (λ k, k.1 = "MeterDefinition") w w' ∧ definition_follows owner account w'.
Proof.
  assert (Hkind : ∀ o : Obj X, MetricStateMeterDefinition cfg = Ok o → OKind o = "MeterDefinition").
  { intros o. apply NewOwn_kind. }
  unfold follow_account, definition_follows. destruct account as [c|].
  - destruct (IsFalse c); [by intros Hr%(deleting_within _ "MeterDefinition")|].
    destruct (IsTrue c); [|intros [= <-]; split; [by apply within_same|done]].
    intros (o & [= Ho] & Hw & Hh)%applying_has. split; [|intros _; by exists o].
    eapply within_weaken; [done|]. intros k ->. by apply Hkind.
  - by intros Hr%(deleting_within _ "MeterDefinition").
Qed.

Lemma reporter_job_spec b disconnected (w w' : W) :
  reporter_job cfg injections Itoa_minute b disconnected w = Ret (w', None) →
  within (X:=X) (λ k, k.1 = "CronJob") w w' ∧ job_follows b disconnected w'.
Proof.
  unfold reporter_job, job_follows, createReporterCronJob, deleteReporterCronJob.
  destruct (IsDataServiceEnabled _);
    destruct (NewReporterCronJob _ _ _ _ _) as [m|] eqn:Hm; try done; cbn beta iota; [|subst].
  - unfold needing. destruct m as [job|]; [|done]. intros [= Hr].
    apply apply_cron_spec in Hr as [Hw Hj]. split; [|by exists job].
    eapply within_weaken; [done|]. intros k ->. by eapply NewReporterCronJob_kind.
  - intros Hr. destruct (deleting_within m "CronJob" w w' Hr) as [Hw (job & -> & Hj)].
    { intros o ->. by eapply NewReporterCronJob_kind. }
    split; [done|]. by exists job.
Qed.

Lemma definition_follows_within owner account (w w' : W) :
  within (X:=X) (λ k, k.1 = "CronJob") w w' →
  definition_follows owner account w → definition_follows owner account w'.
Proof.
  intros Hw. assert (Hkind : ∀ o : Obj X, MetricStateMeterDefinition cfg = Ok o → OKind o = "MeterDefinition").
  { intros o. apply NewOwn_kind. }
  assert (Hgone : (∃ o : Obj X, MetricStateMeterDefinition cfg = Ok o ∧ objs w !! obj_key o = None) →
    ∃ o : Obj X, MetricStateMeterDefinition cfg = Ok o ∧ objs w' !! obj_key o = None).
  { intros (o & Ho & Hn). exists o. split; [done|]. apply Hkind in Ho.
    destruct (Hw (obj_key o)) as [->|Hc]; [done|]. cbn in Hc. congruence. }
  unfold definition_follows. destruct account as [c|]; [|done]. destruct (IsFalse c); [done|].
  intros Hd Ht. destruct (Hd Ht) as (o & Ho & Hh). exists o. split; [done|]. apply Hkind in Ho.
  eapply has_within; [exact Hw|exact Hh|other_kind].
Qed.

Lemma install_objects_spec b config (w w' : W) :
  install_objects cfg injections Itoa_minute b config w = Ret (w', None) →
  metric_state (MBMeta (Base b)) w' ∧
  definition_follows (MBMeta (Base b))
    (GetCondition (MCConditions (MCStatus config)) "RHMAccountExists") w' ∧
  job_follows b (ToBool (IsDisconnected (MCSpec config))) w'.
Proof.
  unfold install_objects, installMetricStateDeployment, installMeterDefinitions. intros Hrun.
  apply andthen_inv in Hrun as [[_ [? [=]]]|(w1 & H1 & Hrun)].
  apply andthen_inv in Hrun as [[_ [? [=]]]|(w5 & Hmetric & Hrun)].
  apply andthen_inv in Hrun as [[_ [? [=]]]|(w8 & Hdefs & Hjob)].
  apply reporter_job_spec in Hjob as [Hw9 Hjob].
  apply andthen_inv in Hdefs as [[_ [? [=]]]|(w6 & H6 & Hdefs)].
  apply andthen_inv in Hdefs as [[_ [? [=]]]|(w7 & H7 & Hdefs)].
  apply follow_account_spec in Hdefs as [Hw8 Hdefs].
  destruct (deleting_within _ "MeterDefinition" _ _ H6 (NewOther_kind _ _)) as [Hw6 _].
  destruct (deleting_within _ "MeterDefinition" _ _ H7 (NewOwn_kind _ _)) as [Hw7 _].
  apply andthen_inv in Hmetric as [[_ [? [=]]]|(w2 & H2 & Hmetric)].
  apply andthen_inv in Hmetric as [[_ [? [=]]]|(w3 & H3 & Hmetric)].
  apply andthen_inv in Hmetric as [[_ [? [=]]]|(w4 & H4 & H5)].
  apply applying_has in H2 as (deployment & Hd & Hw2 & Hd2).
  apply applying_has in H3 as (service & [= Hs] & Hw3 & Hs3).
  apply applying_has in H4 as (monitor & Hm & Hw4 & Hm4).
  apply applying_has in H5 as (kube & [= Hk] & Hw5 & Hk5).
  pose proof (MetricStateDeployment_kind _ Hd) as K1. pose proof (NewOwn_kind _ _ _ Hs) as K2.
  pose proof (MetricStateServiceMonitor_kind _ _ Hm) as K3. pose proof (NewOwn_kind _ _ _ Hk) as K4.
  split_and!; [|by eapply definition_follows_within|done].
  - exists deployment, service, monitor, kube. repeat (split; [done|]). split_and!.
    + do 7 (eapply has_within; [eassumption| |other_kind]). done.
    + do 5 (eapply has_within; [eassumption| |other_kind]). done.
    + do 4 (eapply has_within; [eassumption| |other_kind]). done.
    + intros Hne. do 4 (eapply has_within; [eassumption| |other_kind]).
      eapply has_within; [exact Hw5| |exact Hne].
      eapply has_within; [exact Hw4| |other_kind]. done.
Qed.
End object_lemmas.

(** ** Properties *)

Section properties.
Context {X W : Type} `{!Assets X, !ObjectCluster X W, !ObjectStore X W, !MeterBaseCluster X W,
  !MeterBaseStore X W, !ConflictRetry}.
Variable cfg : FactoryConfig.
Variable injections : list (string * (PodSpec → result string PodSpec)).
Variable Itoa_minute : string.
Variable ParseUserWorkload : string → result string (option UserWorkloadPrometheus).
Variable ParseClusterMonitoring : string → result string (option bool).
Variable HasOpenshift GTE460 : bool.
Variable request : NamespacedName.

Notation run := (Reconcile (X:=X) cfg injections Itoa_minute ParseUserWorkload ParseClusterMonitoring
  HasOpenshift GTE460 request).

(** The condition a run computes from the settings of the cluster. *)
Definition monitoring_condition (w : W) : Condition :=
  let err := validateUserWorkLoadMonitoringConfig (X:=X) ParseUserWorkload w in
  getUserWorkloadMonitoringCondition true
    (isUserWorkloadMonitoringEnabledOnCluster (X:=X) ParseClusterMonitoring HasOpenshift GTE460 w)
    (match err with None => true | Some _ => false end) err.

Lemma monitoring_condition_type w : Type_ (monitoring_condition w) ≠ "Installing".
Proof.
  unfold monitoring_condition, getUserWorkloadMonitoringCondition.
  destruct (validateUserWorkLoadMonitoringConfig _ _) as [[]|];
    by destruct (isUserWorkloadMonitoringEnabledOnCluster _ _ _ _).
Qed.

(** The settings are read in between, and writes of the meter base do not change them. *)
Lemma monitoring_condition_at w w1 w2 :
  same_but_bases (X:=X) w w1 → same_but_bases (X:=X) w w2 →
  getUserWorkloadMonitoringCondition true
    (isUserWorkloadMonitoringEnabledOnCluster (X:=X) ParseClusterMonitoring HasOpenshift GTE460 w1)
    (match validateUserWorkLoadMonitoringConfig (X:=X) ParseUserWorkload w2 with
     | None => true | Some _ => false end)
    (validateUserWorkLoadMonitoringConfig (X:=X) ParseUserWorkload w2) = monitoring_condition w.
Proof.
  intros (_ & Hm1 & _) (_ & Hm2 & _). unfold monitoring_condition,
    isUserWorkloadMonitoringEnabledOnCluster, validateUserWorkLoadMonitoringConfig.
  by rewrite Hm1, Hm2.
Qed.

(** What is said of the monitoring in the end. *)
Lemma monitoring_told w (b0 b1 b : BaseObject X) :
  kept_but [Type_ (monitoring_condition w); "Installing"] b0 b1 →
  settled (monitoring_condition w) (base_conditions b1) → kept_but ["Installing"] b1 b →
  if isUserWorkloadMonitoringEnabledOnCluster (X:=X) ParseClusterMonitoring HasOpenshift GTE460 w then
    match validateUserWorkLoadMonitoringConfig (X:=X) ParseUserWorkload w with
    | None => settled UserWorkloadMonitoringEnabled_ (base_conditions b)
    | Some _ => GetCondition (base_conditions b) ConditionUserWorkloadMonitoringEnabled =
                GetCondition (base_conditions b0) ConditionUserWorkloadMonitoringEnabled
    end
  else settled UserWorkloadMonitoringDisabledOnCluster (base_conditions b).
Proof.
  intros Hk1 Hset Hk. pose proof (monitoring_condition_type w) as Ht.
  apply (settled_kept _ _ _ _ Hk) in Hset; [|set_solver].
  unfold monitoring_condition, getUserWorkloadMonitoringCondition in *.
  destruct (isUserWorkloadMonitoringEnabledOnCluster _ _ _ _);
    [destruct (validateUserWorkLoadMonitoringConfig _ _) as [e|]|]; [|exact Hset|].
  - rewrite (Hk _) by by apply (bool_decide_unpack _).
    by rewrite (Hk1 _) by (destruct e; by apply (bool_decide_unpack _)).
  - by destruct (validateUserWorkLoadMonitoringConfig _ _) as [[]|].
Qed.

Lemma finish_spec (st : W * BaseObject X) w' :
  bases st.1 !! request = Some st.2 → finish request st = Ret (w', mkAnswer 3600 None) →
  ∃ b s, bases w' !! request = Some b ∧ same_base st.2 b ∧ objs w' = objs st.1 ∧
    GetStatefulSetStatus (X:=X) (mkNN OPENSHIFT_USER_WORKLOAD_MONITORING_NAMESPACE
      OPENSHIFT_USER_WORKLOAD_MONITORING_STATEFULSET_NAME) st.1 = Ok s ∧
    Counts b = Some (counts_of s) ∧ settled MeterBaseFinishInstall (base_conditions b) ∧
    kept_but ["Installing"] st.2 b.
Proof.
  intros Hb. unfold finish.
  destruct (GetStatefulSetStatus _ _) as [s|[]]; try done. intros Hrun.
  destruct (triple_after _ _ _ _ st _ _ (update_status_spec request s st.1 st.2)
    (at_base_refl _ _ _ Hb) Hrun eq_refl) as ([w1 b] & Hq & [= <-]).
  destruct Hq as ((Hb' & Ho & _ & _) & Hs & Hc & Hf & Hset). by exists b, s.
Qed.

(** C21: metering is installed. When a run ends asking to be run again in an hour, the
    meter base is enabled, for user workloads too, free of the finalizer of earlier
    versions, and says how many replicas of the stateful set of the user workload
    monitoring there were once the objects were installed: all, the updated ones, the
    ready ones as available, and as unavailable the current ones that are not ready; and
    that its installation is finished. It says what the run found out about the monitoring, unless the cluster
    enables it and its configuration is missing or invalid; then what was said of it
    before stays. What reports the metering state is there and belongs to the meter base;
    the definition of the operator's own metering follows the account, and the job that
    makes reports the data service. *)
Theorem Reconcile_meters (w w' : W) :
  run w = Ret (w', mkAnswer 3600 None) →
  ∃ b0 b (config : MarketplaceConfig X) w1 s, bases w !! request = Some b0 ∧ bases w' !! request = Some b ∧
    GetConfig (mkNN (NNNamespace request) MARKETPLACECONFIG_NAME) w = Ok (config, false) ∧
    (Enabled (base_spec b) = true ∧ UserWorkloadMonitoringEnabled (base_spec b) = Some true ∧
     CONTROLLER_FINALIZER ∉ Finalizers b) ∧
    (objs w1 = objs w' ∧
     GetStatefulSetStatus (X:=X) (mkNN OPENSHIFT_USER_WORKLOAD_MONITORING_NAMESPACE
       OPENSHIFT_USER_WORKLOAD_MONITORING_STATEFULSET_NAME) w1 = Ok s ∧
     Counts b = Some (mkCounts (StsReplicas s) (StsUpdated s) (StsReady s)
                        (wrap_int32 (StsCurrent s - StsReady s)))) ∧
    settled MeterBaseFinishInstall (base_conditions b) ∧
    (if isUserWorkloadMonitoringEnabledOnCluster (X:=X) ParseClusterMonitoring HasOpenshift GTE460 w then
       match validateUserWorkLoadMonitoringConfig (X:=X) ParseUserWorkload w with
       | None => settled UserWorkloadMonitoringEnabled_ (base_conditions b)
       | Some _ => GetCondition (base_conditions b) ConditionUserWorkloadMonitoringEnabled =
                   GetCondition (base_conditions b0) ConditionUserWorkloadMonitoringEnabled
       end
     else settled UserWorkloadMonitoringDisabledOnCluster (base_conditions b)) ∧
    metric_state cfg injections (MBMeta (Base b)) w' ∧
    definition_follows cfg (MBMeta (Base b))
      (GetCondition (MCConditions (MCStatus config)) "RHMAccountExists") w' ∧
    job_follows cfg injections Itoa_minute b (ToBool (IsDisconnected (MCSpec config))) w'.
Proof.
  unfold Reconcile. pose proof (get_base_law request w) as Hg.
  destruct (GetBase request w) as [b0|[]]; try done. intros Hrun.
  destruct (triple_after _ _ _ _ (w, b0) _ _ (drop_finalizer_spec request w b0)
    (at_base_refl _ _ _ Hg) Hrun eq_refl) as ([w1 b1] & (Hat1 & _ & Hfin & Hcs1) & Hrun1).
  cbn [fst snd] in *. destruct (Enabled (base_spec b1)) eqn:Hen; [|done].
  revert Hrun1. unfold enabled_run; cbn [fst]. intros Hrun1.
  destruct (triple_after _ _ _ _ (w1, with_base_conditions (Some (base_conditions b1)) b1) _ _
    (set_monitoring_spec request w b1)
    (conj eq_refl Hat1) Hrun1 eq_refl) as ([w2 b2'] & (b2 & Hat2 & Hen2 & Hmon & Hfin2 & Hcs2) & Hrun2).
  cbn [fst snd] in *. rewrite (monitoring_condition_at w w1 w2) in Hrun2 by (apply Hat1 || apply Hat2).
  destruct (triple_after _ _ _ _ (w2, b2') _ _ (conditions_spec request _ w b2 (monitoring_condition_type w))
    Hat2 Hrun2 eq_refl) as ([w3 b3] & (Hat3 & (Hm3 & Hs3 & Hf3) & Hset3 & Hk3) & Hrun3).
  revert Hrun3. unfold install_run; cbn [fst snd] in *. rewrite (proj2 (proj2 (proj2 Hat3))).
  destruct (GetConfig _ w) as [[config []]|[]]; try done. unfold after, on_world.
  destruct (install_objects _ _ _ _ _ w3) as [[w4 [e|]]|] eqn:Hobj; [done| |done]. intros Hrun4.
  pose proof (install_objects_keeps _ _ _ _ _ _ _ _ Hobj) as Hb4. apply install_objects_spec in Hobj.
  destruct Hat3 as [Hb3 _]. rewrite <- Hb4 in Hb3.
  destruct (finish_spec (w4, b3) w' Hb3 Hrun4)
    as (b & s & Hb & (Hm5 & Hs5 & Hf5) & Ho & Hsts & Hc & Hfinish & Hk5). cbn [fst snd] in *.
  exists b0, b, config, w4, s. do 3 (split; [done|]). split.
  { rewrite Hs5, Hs3, Hf5, Hf3, Hfin2. split; [congruence|]. by split_and!. }
  split; [by split_and!|]. split; [done|].
  split; [|unfold metric_state, definition_follows, job_follows, job_stored, has; rewrite Hm5, Hs5, Ho; exact Hobj].
  apply (monitoring_told w b0 b3 b); [| |done].
  - intros t Ht. by rewrite (Hk3 t Ht), Hcs2, Hcs1.
  - exact Hset3.
Qed.

(** A meter base that is not enabled has no object made, changed or deleted. *)
Theorem disabled_base_untouched (w w' : W) b0 answer :
  bases w !! request = Some b0 → Enabled (base_spec b0) = false →
  run w = Ret (w', answer) → objs w' = objs w.
Proof.
  intros Hb He. unfold Reconcile. pose proof (get_base_law request w) as Hg.
  destruct (GetBase request w) as [b|[]]; try by intros [= <- _].
  rewrite Hb in Hg. injection Hg as <-.
  pose proof (drop_finalizer_spec request w b0 (w, b0) (at_base_refl _ _ _ Hb)) as Hd. unfold after.
  destruct (drop_finalizer request (w, b0)) as [[st [e|]]|]; [|..|done].
  - intros [= <- _]. by destruct Hd as (_ & Ho & _).
  - destruct Hd as ((_ & Ho & _) & Hs & _). rewrite Hs, He. by intros [= <- _].
Qed.
End properties.

(** The monitoring is reported as enabled exactly when the cluster enables it and its
    configuration is valid. *)
Theorem monitoring_enabled_spec (enabledSpec onCluster : bool) (err : option ConfigError) :
  getUserWorkloadMonitoringCondition enabledSpec onCluster
      (match err with None => true | Some _ => false end) err = UserWorkloadMonitoringEnabled_ ↔
  enabledSpec = true ∧ onCluster = true ∧ err = None.
Proof.
  unfold getUserWorkloadMonitoringCondition, shadowed.
  destruct enabledSpec, onCluster, err as [[]|]; cbn; naive_solver.
Qed.

(** An invalid configuration is reported by a condition without a type, a reason or a
    message: what is said of the monitoring before stays, enabled included. *)
Theorem invalid_configuration_unreported (err : ConfigError) (now : Z) (cs : Conditions) :
  let c := getUserWorkloadMonitoringCondition true true false (Some err) in
  c = zero_condition ∧
  GetCondition (SetCondition now cs c).2 ConditionUserWorkloadMonitoringEnabled =
    GetCondition cs ConditionUserWorkloadMonitoringEnabled.
Proof.
  cbv zeta. assert (Hc : getUserWorkloadMonitoringCondition true true false (Some err) = zero_condition)
    by by destruct err.
  rewrite Hc. split; [done|]. by apply GetCondition_Set_ne.
Qed.

(** What makes a configuration valid: its text is there and can be read, it retains at
    least 168 hours, and claims at least 40 GiB. *)
Theorem isUserWorkLoadMonitoringConfigValid_spec
    (ParseUserWorkload : string → result string (option UserWorkloadPrometheus)) (data : gmap string string) :
  isUserWorkLoadMonitoringConfigValid ParseUserWorkload data = None ↔
  ∃ config p retention storage,
    data !! "config.yaml" = Some config ∧ ParseUserWorkload config = Ok (Some p) ∧
    ParseDuration (Retention p) = Some retention ∧ ClaimStorage p = Some storage ∧
    (168 * hour_ns ≤ retention)%Z ∧ (40 * 2 ^ 30 ≤ storage)%Z.
Proof.
  unfold isUserWorkLoadMonitoringConfigValid. rewrite parse_week.
  destruct (data !! _) as [config|]; [|by split; [|intros (?&?&?&?&?&_)]].
  destruct (ParseUserWorkload config) as [[p|]|] eqn:Hp;
    [|split; [done|]; intros (?&?&?&?&[= <-]&?&_); congruence..].
  destruct (ParseDuration (Retention p)) as [found|] eqn:Hr;
    [|split; [done|]; intros (?&?&?&?&[= <-]&?&?&_); congruence].
  assert (Hw : (168 * hour_ns = 604800000000000)%Z) by done. unfold wanted_storage.
  case_bool_decide.
  { split; [done|]. intros (?&?&?&?&[= <-]&?&?&_&?&_). replace x0 with p in * by congruence.
    replace x1 with found in * by congruence. lia. }
  destruct (ClaimStorage p) as [storage|] eqn:Hs;
    [|split; [done|]; intros (?&?&?&?&[= <-]&?&_&?&_); congruence].
  case_bool_decide.
  { split; [done|]. intros (?&?&?&?&[= <-]&?&_&?&_&?). replace x0 with p in * by congruence.
    replace x2 with storage in * by congruence. lia. }
  split; [|done]. intros _. exists config, p, found, storage. split_and!; try done; lia.
Qed.

(** More than one default storage class stops the installation. *)
Theorem multiple_defaults_stop {X W} `{!ObjectCluster X W, !MeterBaseCluster X W} (w : W) :
  GetDefaultStorageClass (X:=X) w = Err MultipleDefaultStorageClassFound →
  checkUWMDefaultStorageClassPrereq (X:=X) w = Ret (w, Some (OtherFailure "multiple default storage found")).
Proof. intros He. unfold checkUWMDefaultStorageClassPrereq. by rewrite He. Qed.

(** The categories are those of the definitions, each once. *)
Theorem getCategories_spec (definitions : list ObjectMeta) :
  NoDup (getCategoriesFromMeterDefinitions definitions) ∧
  ∀ v, v ∈ getCategoriesFromMeterDefinitions definitions ↔
    ∃ m, m ∈ definitions ∧ default "" (Labels m !! "marketplace.redhat.com/category") = v.
Proof.
  assert (Hc : ∀ l v, containsString l v = true ↔ v ∈ l).
  { induction l as [|x l IH]; intros v; cbn; [by rewrite elem_of_nil|]. rewrite elem_of_cons.
    case_bool_decide; [naive_solver|]. rewrite IH. naive_solver. }
  unfold getCategoriesFromMeterDefinitions.
  induction definitions as [|m definitions IH] using rev_ind.
  { cbn. split; [constructor|]. intros v. rewrite elem_of_nil. split; [done|].
    by intros (m & ?%elem_of_nil & _). }
  rewrite foldl_app. cbn [foldl]. destruct IH as [Hnd Hin]. set (acc := foldl _ _ _) in *.
  set (v0 := default "" _). destruct (containsString acc v0) eqn:Hv.
  - apply Hc in Hv. split; [done|]. intros v. rewrite Hin. setoid_rewrite elem_of_app.
    setoid_rewrite list_elem_of_singleton. apply Hin in Hv. naive_solver.
  - assert (v0 ∉ acc) by (intros Hi; apply Hc in Hi; congruence). split.
    + apply NoDup_app. split; [done|]. split; [|apply NoDup_singleton]. set_solver.
    + intros v. rewrite elem_of_app, Hin. setoid_rewrite elem_of_app.
      setoid_rewrite list_elem_of_singleton. subst v0. naive_solver.
Qed.

(** ** Witness *)

(** A cluster of objects with at most one meter base. *)
Notation ToyWorld := (list Write * option (BaseObject string))%type.

#[local] Instance toy_objects : ObjectCluster string ToyWorld := cluster_beside.
#[local] Instance toy_object_store : ObjectStore string ToyWorld := store_beside.

Definition toy_put (merge : BaseObject string → BaseObject string → BaseObject string)
    (b : BaseObject string) (w : ToyWorld) : ToyWorld * result ClientError (BaseObject string) :=
  match w.2 with
  | Some old => if decide (base_key old = base_key b ∧ base_key (merge old b) = base_key b)
                then ((w.1, Some (merge old b)), Ok (merge old b)) else (w, Err IsNotFound)
  | None => (w, Err IsNotFound)
  end.

Definition toy_config : MarketplaceConfig string :=
  mkConfig (mkMeta "marketplaceconfig" "marketplace" "" 0 ∅ ∅ []) ""
    (mkConfigSpec "" "" "" None None None None None None None None None None)
    (mkConfigStatus [mkCondition "RHMAccountExists" ConditionTrue "" "" 0] [] None).

#[local] Instance toy_meterbases : MeterBaseCluster string ToyWorld := {
  GetBase k w := match singleton_by base_key w.2 !! k with Some b => Ok b | None => Err IsNotFound end;
  UpdateBase := toy_put (λ old b, with_status_of old b);
  UpdateBaseStatus := toy_put (λ old b, with_status_of b old);
  GetConfig _ _ := Ok (toy_config, false);
  GetConfigMap k _ := Ok {[ "config.yaml" := NNName k ]};
  GetStatefulSetStatus _ _ := Ok (mkStsStatus 2 2 1 2);
  RecordEvent _ _ w := w;
  BaseNow _ := 7%Z
}.

Lemma toy_put_writes merge b (w : ToyWorld) :
  (∀ old b, base_key (merge old b) = base_key b ∨ base_key (merge old b) = base_key old) →
  writes (λ w : ToyWorld, singleton_by base_key w.2) merge b w (toy_put merge b w).
Proof.
  intros Hm. unfold toy_put. destruct w as [log [old|]]; cbn [snd]; [|by split].
  destruct (decide _) as [[Hk1 Hk2]|]; [|by split]. split; [done|]. cbn [snd fst].
  exists old. split_and!; [|done|].
  - apply singleton_by_lookup. by split.
  - cbn [singleton_by]. rewrite Hk2, Hk1. by rewrite insert_singleton_eq.
Qed.

#[local, refine] Instance toy_base_store : MeterBaseStore string ToyWorld := {|
  bases := λ w, singleton_by base_key w.2
|}.
Proof.
  - intros w k b Hb. by apply singleton_by_lookup in Hb as [_ ?].
  - intros k w. cbn. by destruct (singleton_by base_key w.2 !! k).
  - intros b w. apply toy_put_writes. intros old b'. by left.
  - intros b w. apply toy_put_writes. intros old b'. by right.
  - done.
  - done.
  - done.
Defined.

Definition toy_user_workload (text : string) : result string (option UserWorkloadPrometheus) :=
  if text == "user-workload-monitoring-config" then Ok (Some (mkPrometheus "168h" (Some wanted_storage)))
  else Err "no yaml".

Definition toy_monitoring (text : string) : result string (option bool) := Ok (Some true).

Definition toy_meterbase : BaseObject string :=
  mkBase (mkMeterBase (mkMeta "meterbase" "marketplace" "uid-1" 0 ∅ ∅ [])
    (mkMeterBaseSpec true None None None None None None None) None)
    [CONTROLLER_FINALIZER; "another"] None.

Definition toy_request : NamespacedName := mkNN "marketplace" "meterbase".

Definition toy_meters (w : ToyWorld) : outcome (ToyWorld * Answer) :=
  Reconcile toy_factory_config [] "7" toy_user_workload toy_monitoring true true toy_request w.

Definition toy_after : ToyWorld :=
  match toy_meters ([], Some toy_meterbase) with Ret (w, _) => w | Panic => ([], None) end.

Lemma Reconcile_meters_witness :
  toy_meters ([], Some toy_meterbase) = Ret (toy_after, mkAnswer 3600 None) ∧
  ∃ b, bases toy_after !! toy_request = Some b ∧ Finalizers b = ["another"] ∧
    settled UserWorkloadMonitoringEnabled_ (base_conditions b) ∧
    metric_state toy_factory_config [] (MBMeta (Base b)) toy_after.
Proof.
  assert (Hr : toy_meters ([], Some toy_meterbase) = Ret (toy_after, mkAnswer 3600 None))
    by (vm_compute; reflexivity).
  split; [exact Hr|].
  destruct (Reconcile_meters toy_factory_config [] "7" toy_user_workload toy_monitoring true true
    toy_request _ _ Hr) as (b0 & b & config & w1 & s & _ & Hb & _ & _ & _ & _ & Hset & Hm & _).
  exists b. split; [exact Hb|]. split; [|split; [exact Hset|exact Hm]].
  assert (Hf : Finalizers <$> (bases toy_after !! toy_request) = Some ["another"])
    by (vm_compute; reflexivity).
  rewrite Hb in Hf. injection Hf as Hf. exact Hf.
Defined.
