(* ===== verification/DataReporterController.v ===== *)
(** * The controller of the data reporter

    The model of [datareporterconfig_controller.go]
    ([datareporter/v2/internal/controller]) and of the part of [datafilter.go] that
    rebuilds what the event handler works with: the license, the users, the TLS settings
    of the outgoing requests and the filters. The service and the route of the handler are
    objects of Manifests.v; the filters are those of DataReporter.v. Certificates, TLS
    versions and ciphers are arguments. *)

From S2P Require Import Prelude Conditions Workloads MeterReport Controllers DataReporter MarketplaceConfig Manifests DataService.
Local Open Scope go_scope.

Definition DATAREPORTERCONFIG_NAME : string := "datareporterconfig".
Definition DATAREPORTER_SERVICE_NAME : string :=
  "ibm-data-reporter-operator-controller-manager-metrics-service".
Definition MARKETPLACECONFIG_NAME : string := "marketplaceconfig".

(** ** The configuration *)

(** References to keys of secrets are pairs of a name and a key. *)
Record TLSSpec := mkTLSSpec {
  InsecureSkipVerify : bool;
  CACerts : list (string * string);
  Certificates : list (option (string * string) * option (string * string));
  MinVersion : string;
  CipherSuites : list string
}.

Record DRCSpec {X : Type} := mkDRCSpec {
  DUsers : list UserConfig;
  DFilters : list DataFilterSpec;
  DTLS : option TLSSpec;
  DConfirm : option bool;
  DRoute : option (Route X)
}.
Arguments DRCSpec : clear implicits.
Arguments mkDRCSpec {X}.

Record DRC {X : Type} := mkDRC { DMeta : ObjectMeta; DSpec : DRCSpec X; DConditions : Conditions }.
Arguments DRC : clear implicits.
Arguments mkDRC {X}.

Definition no_license : Condition :=
  mkCondition "NoLicense" ConditionTrue "LicenseNotAccepted"
    "License has not been accepted in marketplaceconfig" 0.
Definition filters_invalid (msg : string) : Condition :=
  mkCondition "DataFilterInvalid" ConditionTrue "DataFilterInvalid" msg 0.

(** ** TLS settings *)

Record TLSConfig {Cert Ver Cipher : Type} := mkTLS {
  Skip : bool; RootCAs : list string; Certs : list Cert; TLSMin : option Ver; Ciphers : list Cipher
}.
Arguments TLSConfig : clear implicits.
Arguments mkTLS {Cert Ver Cipher}.

(** The transport of the client that sends the events: what the code expects, a
    retrying client around something else, or a test's. *)
Inductive Transport := RetryingHTTP | RetryingOther | NotRetrying.

Section tls.
Context {Cert Ver Cipher : Type}.
Variable SystemCertPool : option string.
Variable AppendCertsFromPEM : string → bool.
Variable X509KeyPair : string → string → option Cert.
Variable TLSVersion : string → option Ver.
Variable TLSCipherSuites : list string → option (list Cipher).
Variable GetSecret : string → option (gmap string string).

Notation TLS := (TLSConfig Cert Ver Cipher).

Fixpoint ca_certs (l : list (string * string)) : result string (list string) :=
  match l with
  | [] => Ok []
  | (name, key) :: l =>
      match getSecretData GetSecret name key with
      | Err e => Err ("error getting cacert data: " +:+ e)
      | Ok pem =>
          if AppendCertsFromPEM pem then pems ← ca_certs l; Ok (pem :: pems)
          else Err "cacert secret data could not be appended to cert pool"
      end
  end.

Fixpoint client_certs (l : list (option (string * string) * option (string * string)))
    : result string (list Cert) :=
  match l with
  | [] => Ok []
  | (Some (certName, certKey), Some (keyName, keyKey)) :: l =>
      match getSecretData GetSecret keyName keyKey with
      | Err e => Err ("error getting client key data: " +:+ e)
      | Ok keyData =>
          match getSecretData GetSecret certName certKey with
          | Err e => Err ("error getting client cert data: " +:+ e)
          | Ok certData =>
              match X509KeyPair certData keyData with
              | None => Err "error creating cert from client x509 key pair"
              | Some cert => certs ← client_certs l; Ok (cert :: certs)
              end
          end
      end
  | _ :: _ => Err "missing key/cert pair for tlsconfig certificates"
  end.

Definition tls_version (v : string) : result string (option Ver) :=
  if v == "" then Ok None
  else match TLSVersion v with
       | Some v => Ok (Some v)
       | None => Err "failed to parse tls config minversion"
       end.

Definition tls_ciphers (l : list string) : result string (list Cipher) :=
  match l with
  | [] => Ok []
  | _ => match TLSCipherSuites l with
         | Some cs => Ok cs
         | None => Err "failed to convert tls config cipher suite name to id"
         end
  end.

(** A nil configuration stands for the default one. *)
Definition getTLSConfig (spec : option TLSSpec) : result string (option TLS) :=
  match spec with
  | None => Ok None
  | Some s =>
      if InsecureSkipVerify s then Ok (Some (mkTLS true [] [] None []))
      else match SystemCertPool with
           | Some e => Err ("failed to get system cert pool: " +:+ e)
           | None =>
               pems ← ca_certs (CACerts s);
               certs ← client_certs (Certificates s);
               version ← tls_version (MinVersion s);
               ciphers ← tls_ciphers (CipherSuites s);
               Ok (Some (mkTLS false pems certs version ciphers))
           end
  end.

(** The settings in use stay when new ones cannot be made. *)
Definition updateHttpClient (transport : Transport) (spec : option TLSSpec) (current : option TLS)
    : option TLS * option string :=
  match transport with
  | NotRetrying => (current, None)
  | RetryingOther => (current, Some "httpclient transport is not of type http.Transport")
  | RetryingHTTP =>
      match getTLSConfig spec with
      | Err e => (current, Some ("error creating tls config: " +:+ e))
      | Ok tls => (tls, None)
      end
  end.
End tls.

(** ** What the handler works with *)

Record Reconciler {Filter TLS : Type} := mkReconciler {
  LicenseAccepted : bool;
  Users : UserConfigs;
  secretsSet : gset string;
  configMapsSet : gset string;
  Filters : list Filter;
  ConfirmDelivery : option bool;
  TLSClientConfig : option TLS
}.
Arguments Reconciler : clear implicits.
Arguments mkReconciler {Filter TLS}.

Section reconciler.
Context {Filter TLS : Type}.
Notation R := (Reconciler Filter TLS).

Definition with_license (b : bool) (r : R) : R :=
  mkReconciler b (Users r) (secretsSet r) (configMapsSet r) (Filters r) (ConfirmDelivery r)
    (TLSClientConfig r).
Definition with_users (u : UserConfigs) (r : R) : R :=
  mkReconciler (LicenseAccepted r) u (secretsSet r) (configMapsSet r) (Filters r)
    (ConfirmDelivery r) (TLSClientConfig r).
Definition with_sets (secrets configMaps : gset string) (r : R) : R :=
  mkReconciler (LicenseAccepted r) (Users r) secrets configMaps (Filters r) (ConfirmDelivery r)
    (TLSClientConfig r).
Definition with_built (fs : list Filter) (confirm : option bool) (tls : option TLS) (r : R) : R :=
  mkReconciler (LicenseAccepted r) (Users r) (secretsSet r) (configMapsSet r) fs confirm tls.
End reconciler.

(** [setSecretConfigMapList]: the names a configuration refers to. *)
Definition tls_secrets (s : TLSSpec) : list string :=
  (CACerts s).*1 ++
  concat (map (λ pair, option_list (fst <$> pair.1) ++ option_list (fst <$> pair.2)) (Certificates s)).

Definition transformer_map (t : TransformerSpec) : list string := option_list (fst <$> ConfigMapKeyRef t).

Definition destination_secrets (d : Destination) : list string :=
  option_list (fst <$> DBodyData d) ++ [DHeaderSecret d; DAuthHeaderSecret d].

Definition secret_names {X} (s : DRCSpec X) : list string :=
  match DTLS s with Some t => tls_secrets t | None => [] end ++
  concat (map (λ df, concat (map destination_secrets (AltDestinations df))) (DFilters s)).

Definition config_map_names {X} (s : DRCSpec X) : list string :=
  concat (map (λ df, transformer_map (STransformer df) ++
                     concat (map (λ d, transformer_map (DTransformer d)) (AltDestinations df)))
            (DFilters s)).

Definition setSecretConfigMapList {X Filter TLS} (drc : DRC X) (r : Reconciler Filter TLS)
    : Reconciler Filter TLS :=
  with_sets (list_to_set (secret_names (DSpec drc))) (list_to_set (config_map_names (DSpec drc))) r.

(** ** Building the filters *)

Section build.
Context {X Expr Kazaam Cert Ver Cipher : Type}.
Variable ParseExpr : string → option Expr.
Variable NewKazaam : string → option Kazaam.
Variable ParseURL : string → bool.
Variable SystemCertPool : option string.
Variable AppendCertsFromPEM : string → bool.
Variable X509KeyPair : string → string → option Cert.
Variable TLSVersion : string → option Ver.
Variable TLSCipherSuites : list string → option (list Cipher).
Variable transport : Transport.

Notation R := (Reconciler (@DataFilter Expr Kazaam) (TLSConfig Cert Ver Cipher)).

(** [DataFilters.Build], of filters whose client was set: each part that could be made is
    taken over, until one cannot. *)
Definition Build (GetSecret GetConfigMap : string → option (gmap string string)) (s : DRCSpec X) (r : R)
    : outcome (R * option string) :=
  let confirm := match DConfirm s with Some c => Some c | None => ConfirmDelivery r end in
  match updateHttpClient SystemCertPool AppendCertsFromPEM X509KeyPair TLSVersion TLSCipherSuites
          GetSecret transport (DTLS s) (TLSClientConfig r) with
  | (tls, Some e) =>
      Ret (with_built (Filters r) confirm tls r, Some ("failed to update http client: " +:+ e))
  | (tls, None) =>
      match updateDataFilters ParseExpr NewKazaam ParseURL GetSecret GetConfigMap (DFilters s)
              (Filters r) with
      | Panic => Panic
      | Ret (fs, e) =>
          Ret (with_built fs confirm tls r,
               option_map (λ e, "failed to update datafilters: " +:+ e) e)
      end
  end.
End build.

(** ** The reconciliation *)

Class DRCCluster (X W : Type) := {
  GetDRC : NamespacedName → W → result ClientError (DRC X);
  CreateDRC : DRC X → W → W * option ClientError;
  UpdateDRCStatus : DRC X → W → W * result ClientError (DRC X);
  GetMarketplaceConfig : NamespacedName → W → result ClientError (MarketplaceConfig X);
  SecretData : NamespacedName → W → option (gmap string string);
  ConfigMapData : NamespacedName → W → option (gmap string string);
  DRCNow : W → Z
}.

Section reconcile.
Context {X W Filter TLS : Type} `{!ObjectCluster X W, !DRCCluster X W, !ConflictRetry}.
(** Building what the handler works with, of the secrets and the config maps. *)
Variable build : (string → option (gmap string string)) → (string → option (gmap string string)) →
  DRCSpec X → Reconciler Filter TLS → outcome (Reconciler Filter TLS * option string).
(** The content of an object by its description. *)
Variable text : string → X.
Variable request : NamespacedName.

Notation R := (Reconciler Filter TLS).
Notation refresh := (refresh_then (GetDRC (X:=X) request)).

(** A configuration of the marketplace that cannot be read changes nothing. *)
Definition read_license (r : R) (w : W) : R :=
  match GetMarketplaceConfig (X:=X) (mkNN (NNNamespace request) MARKETPLACECONFIG_NAME) w with
  | Err _ => r
  | Ok mc => with_license (ToBool (LicenseAccept (MCSpec mc))) r
  end.

Definition default_drc : DRC X :=
  mkDRC (mkMeta DATAREPORTERCONFIG_NAME (NNNamespace request) "" 0 ∅ ∅ []) (mkDRCSpec [] [] None None None) [].

Definition with_drc_conditions (cs : Conditions) (d : DRC X) : DRC X := mkDRC (DMeta d) (DSpec d) cs.

Definition set_change (c : Condition) (w : W) (d : DRC X) : option (DRC X) :=
  match SetCondition (DRCNow (X:=X) w) (DConditions d) c with
  | (true, cs) => Some (with_drc_conditions cs d)
  | (false, _) => None
  end.

Definition remove_change (t : string) (w : W) (d : DRC X) : option (DRC X) :=
  match RemoveCondition (Some (DConditions d)) t with
  | (true, Some cs) => Some (with_drc_conditions cs d)
  | _ => None
  end.

(** A condition that is set, or removed. *)
Definition keep_condition (c : Condition) (holds : bool) : Step (W * DRC X) :=
  Retry (refresh (if holds then set_change c else remove_change (Type_ c)) UpdateDRCStatus).

Definition drc_object (name kind : string) (d : DRC X) (body : Body X) : Obj X :=
  mkObj kind (mkMeta name (Workloads.Namespace (DMeta d)) "" 0 ∅ ∅ []) body.

Definition handler_service (d : DRC X) : Obj X :=
  drc_object DATAREPORTER_SERVICE_NAME "Service" d
    (BOther (text "https 8443 TCP to https; control-plane=controller-manager, redhat.marketplace.com/name=ibm-data-reporter-operator")).

Definition handler_route (d : DRC X) : Obj X :=
  drc_object "ibm-data-reporter" "Route" d
    (BRoute match DRoute (DSpec d) with
            | Some (mkRoute (Some spec) _) => spec
            | _ => text "to Service 8443; reencrypt, redirect"
            end).

Definition route_wanted (d : DRC X) : bool :=
  match DRoute (DSpec d) with Some r => negb (ToBool (Disabled r)) | None => true end.

Definition ensure_service (d : DRC X) : Step W :=
  calling (FactoryCreateOrUpdate None (Ok (handler_service d))).

Definition ensure_handler_route (d : DRC X) : Step W :=
  if route_wanted d then calling (apply_route (DMeta d) (handler_route d))
  else calling (ensure_deleted (handler_route d)).

(** The second half: the objects, the filters and their condition. *)
Definition configure (r : R) (w : W) (d : DRC X) : outcome ((W * R) * option ClientError) :=
  match (ensure_service d ;;> ensure_handler_route d) w with
  | Panic => Panic
  | Ret (w, Some e) => Ret ((w, r), Some e)
  | Ret (w, None) =>
      let ns := Workloads.Namespace (DMeta d) in
      match build (λ name, SecretData (X:=X) (mkNN ns name) w) (λ name, ConfigMapData (X:=X) (mkNN ns name) w)
              (DSpec d) r with
      | Panic => Panic
      | Ret (r, derr) =>
          match keep_condition (filters_invalid (default "" derr)) (bool_decide (derr ≠ None)) (w, d) with
          | Panic => Panic
          | Ret (st, e) => Ret ((st.1, r), e)
          end
      end
  end.

(** [None]: the run waits for the lock of the users for ever. A configuration that was
    just made is reported as not found, for the run to be repeated. *)
Definition Reconcile (r : R) (w : W) : option (outcome ((W * R) * option ClientError)) :=
  let r := read_license r w in
  match GetDRC request w with
  | Err IsNotFound =>
      Some (Ret match CreateDRC default_drc w with
                | (w, Some e) => ((w, r), Some e)
                | (w, None) => ((w, r), Some IsNotFound)
                end)
  | Err e => Some (Ret ((w, r), Some e))
  | Ok d =>
      let r := setSecretConfigMapList d r in
      match keep_condition no_license (negb (LicenseAccepted r)) (w, d) with
      | Panic => Some Panic
      | Ret (st, Some e) => Some (Ret ((st.1, r), Some e))
      | Ret (st, None) =>
          match SetUserConfigs (DUsers (DSpec st.2)) (Users r) with
          | None => None
          | Some users => Some (configure (with_users users r) st.1 st.2)
          end
      end
  end.
End reconcile.

(** ** What wakes the controller *)

Section waking.
Context {Filter TLS : Type}.

(** An event of the object a predicate looks at; no generic event passes. *)
Definition on_name (p : string → bool) (e : Manifests.Event) : bool :=
  match e with
  | ECreate o | EUpdate _ o | EDelete o => p (Workloads.Name o)
  | EGeneric _ => false
  end.

Definition drcPred : Manifests.Event → bool := on_name (λ n, n == DATAREPORTERCONFIG_NAME).
Definition mpcPred : Manifests.Event → bool := on_name (λ n, n == MARKETPLACECONFIG_NAME).
Definition svcPred : Manifests.Event → bool := on_name (λ n, n == DATAREPORTER_SERVICE_NAME).
Definition cmPred (r : Reconciler Filter TLS) : Manifests.Event → bool :=
  on_name (λ n, bool_decide (n ∈ configMapsSet r)).
Definition secretPred (r : Reconciler Filter TLS) : Manifests.Event → bool :=
  on_name (λ n, bool_decide (n ∈ secretsSet r)).

Definition mapFn (a : ObjectMeta) : list NamespacedName :=
  [mkNN (Workloads.Namespace a) DATAREPORTERCONFIG_NAME].
End waking.

(** ** Lemmas *)

Lemma getSecretData_ext (GS GS' : string → option (gmap string string)) name key :
  GS name = GS' name → getSecretData GS name key = getSecretData GS' name key.
Proof. intros He. unfold getSecretData. by rewrite He. Qed.

Lemma ca_certs_ext append (GS GS' : string → option (gmap string string)) l :
  (∀ n, n ∈ l.*1 → GS n = GS' n) → ca_certs append GS l = ca_certs append GS' l.
Proof.
  induction l as [|[name key] l IH]; intros Hl; cbn [ca_certs]; [done|].
  rewrite (getSecretData_ext GS GS') by (apply Hl; by left).
  destruct (getSecretData GS' name key); [|done]. destruct (append _); [|done].
  rewrite IH; [done|]. intros n Hn. apply Hl. by right.
Qed.

Lemma client_certs_ext {Cert} (pair : string → string → option Cert)
    (GS GS' : string → option (gmap string string)) l :
  (∀ n, n ∈ concat (map (λ p : option (string * string) * option (string * string),
     option_list (fst <$> p.1) ++ option_list (fst <$> p.2)) l) → GS n = GS' n) →
  client_certs pair GS l = client_certs pair GS' l.
Proof.
  induction l as [|[[[cn ck]|] [[kn kk]|]] l IH]; intros Hl; cbn [client_certs]; [done| |done..].
  rewrite (getSecretData_ext GS GS' kn), (getSecretData_ext GS GS' cn) by (apply Hl; set_solver).
  destruct (getSecretData GS' kn kk); [|done]. destruct (getSecretData GS' cn ck); [|done].
  destruct (pair _ _); [|done]. rewrite IH; [done|]. intros n Hn. apply Hl. set_solver.
Qed.

Lemma header_of_ext (GS GS' : string → option (gmap string string)) name :
  GS name = GS' name → header_of GS name = header_of GS' name.
Proof. intros He. unfold header_of. by rewrite He. Qed.

Lemma transformer_config_ext (GC GC' : string → option (gmap string string)) t :
  (∀ n, n ∈ transformer_map t → GC n = GC' n) → transformer_config GC t = transformer_config GC' t.
Proof.
  unfold transformer_config, transformer_map, getConfigMapData.
  destruct (ConfigMapKeyRef t) as [[name key]|]; [|done]. intros Hl. rewrite Hl; [done|]. cbn. by left.
Qed.

Lemma each_ext {A B} (f g : A → outcome (result string B)) l :
  (∀ x, x ∈ l → f x = g x) → each f l = each g l.
Proof.
  induction l as [|x l IH]; intros Hl; cbn [each]; [done|]. rewrite (Hl x) by by left.
  rewrite IH; [done|]. intros y Hy. apply Hl. by right.
Qed.

Lemma build_destination_ext {Expr Kazaam} (parse : string → option Expr) (kazaam : string → option Kazaam) url
    (GS GS' GC GC' : string → option (gmap string string)) df d :
  (∀ n, n ∈ destination_secrets d → GS n = GS' n) →
  (∀ n, n ∈ transformer_map (DTransformer d) → GC n = GC' n) →
  build_destination parse kazaam url GS GC df d = build_destination parse kazaam url GS' GC' df d.
Proof.
  unfold destination_secrets. intros Hs Hc. unfold build_destination.
  rewrite (header_of_ext GS GS' (DHeaderSecret d)), (header_of_ext GS GS' (DAuthHeaderSecret d)),
    (transformer_config_ext GC GC') by (done || (apply Hs; set_solver)).
  destruct (DBodyData d) as [[name key]|]; [|done].
  by rewrite (getSecretData_ext GS GS') by (apply Hs; set_solver).
Qed.

Lemma in_concat_map {A} (f : A → list string) (l : list A) x n :
  x ∈ l → n ∈ f x → n ∈ concat (map f l).
Proof.
  intros Hx Hn. apply list_elem_of_In, in_concat. exists (f x).
  split; [apply in_map|]; by apply list_elem_of_In.
Qed.

Lemma build_filter_ext {Expr Kazaam} (parse : string → option Expr) (kazaam : string → option Kazaam) url
    (GS GS' GC GC' : string → option (gmap string string)) df :
  (∀ n, n ∈ concat (map destination_secrets (AltDestinations df)) → GS n = GS' n) →
  (∀ n, n ∈ transformer_map (STransformer df) ++
            concat (map (λ d, transformer_map (DTransformer d)) (AltDestinations df)) → GC n = GC' n) →
  build_filter parse kazaam url GS GC df = build_filter parse kazaam url GS' GC' df.
Proof.
  intros Hs Hc. unfold build_filter.
  rewrite (each_ext (build_destination parse kazaam url GS GC df) (build_destination parse kazaam url GS' GC' df)).
  - rewrite (transformer_config_ext GC GC'); [done|]. intros n Hn. apply Hc, elem_of_app. by left.
  - intros d Hd. apply build_destination_ext; intros n Hn.
    + apply Hs. by eapply in_concat_map.
    + apply Hc, elem_of_app. right. by eapply (in_concat_map (λ d, transformer_map (DTransformer d))).
Qed.

(** ** What the cluster promises *)

Definition drc_key {X} (d : DRC X) : NamespacedName :=
  mkNN (Workloads.Namespace (DMeta d)) (Workloads.Name (DMeta d)).

(** Nobody else writes. A write of the status stores the conditions. Objects and
    configurations are apart. *)
Class DRCStore (X W : Type) `{!ObjectCluster X W, !ObjectStore X W, !DRCCluster X W} := {
  drcs : W → gmap NamespacedName (DRC X);
  drc_keyed_law w k d : drcs w !! k = Some d → drc_key d = k;
  get_drc_law k w :
    match GetDRC k w with
    | Ok d => drcs w !! k = Some d
    | Err IsNotFound => drcs w !! k = None
    | Err _ => True
    end;
  create_drc_law d w :
    match CreateDRC d w with
    | (w', None) => drcs w !! drc_key d = None ∧ drcs w' = <[drc_key d := d]> (drcs w)
    | (w', Some _) => drcs w' = drcs w
    end;
  update_drc_law d w :
    match UpdateDRCStatus d w with
    | (w', Ok n) => objs w' = objs w ∧ ∃ old, drcs w !! drc_key d = Some old ∧
        n = with_drc_conditions (DConditions d) old ∧ drcs w' = <[drc_key d := n]> (drcs w)
    | (w', Err _) => objs w' = objs w ∧ drcs w' = drcs w
    end;
  create_or_update_drcs o f w : drcs (CreateOrUpdate o f w).1.1 = drcs w;
  delete_obj_drcs o w : drcs (DeleteObj o w).1 = drcs w
}.

Section controller_lemmas.
Context {X W : Type} `{!ObjectCluster X W, !ObjectStore X W, !DRCCluster X W, !DRCStore X W,
  !ConflictRetry}.
Variable text : string → X.
Variable request : NamespacedName.
Notation St := (W * DRC X)%type.

Definition at_drc (w0 : W) (d : DRC X) (w : W) : Prop :=
  drcs w !! request = Some d ∧ objs w = objs w0.

(** Only the condition of the type of [c] may differ. *)
Definition conditions_but (t : string) (d d' : DRC X) : Prop :=
  DMeta d' = DMeta d ∧ DSpec d' = DSpec d ∧ wf_conditions (DConditions d') ∧
  ∀ t', t' ≠ t → GetCondition (DConditions d') t' = GetCondition (DConditions d) t'.

(** What is written of [d0], if anything. *)
Notation change c holds := (if holds : bool then set_change c else remove_change (Type_ c)).

Lemma change_shape c (holds : bool) (w : W) d0 d' :
  change c holds w d0 = Some d' → d' = with_drc_conditions (DConditions d') d0.
Proof.
  unfold set_change, remove_change.
  destruct holds; [destruct (SetCondition _ _ _) as [[] cs]|destruct (RemoveCondition _ _) as [[] [cs|]]];
    by intros [= <-].
Qed.

Lemma set_change_spec c (w : W) d0 :
  wf_conditions (DConditions d0) →
  let d := match set_change c w d0 with Some d' => with_drc_conditions (DConditions d') d0 | None => d0 end in
  conditions_but (Type_ c) d0 d ∧ settled c (DConditions d).
Proof.
  intros Hwf. unfold set_change, conditions_but. destruct (SetCondition _ _ _) as [b cs] eqn:Hs.
  assert (Hcs : cs = (SetCondition (DRCNow (X:=X) w) (DConditions d0) c).2) by by rewrite Hs.
  assert (Hb : (SetCondition (DRCNow (X:=X) w) (DConditions d0) c).1 = b) by by rewrite Hs.
  destruct b; cbn [DMeta DSpec DConditions with_drc_conditions].
  - rewrite Hcs. split; [|apply settled_Set]. split_and!; [done..|by apply SetCondition_wf|].
    intros t' Ht. by apply GetCondition_Set_ne.
  - split; [done|]. apply (settled_unchanged (DRCNow (X:=X) w)).
    apply SetCondition_unchanged in Hb as [Hb _]. congruence.
Qed.

Lemma remove_change_spec t (w : W) d0 :
  wf_conditions (DConditions d0) →
  let d := match remove_change t w d0 with Some d' => with_drc_conditions (DConditions d') d0 | None => d0 end in
  conditions_but t d0 d ∧ GetCondition (DConditions d) t = None.
Proof.
  intros Hwf. unfold remove_change, RemoveCondition, conditions_but.
  destruct (remove_loop _ _) as [b cs] eqn:Hs.
  assert (Hcs : cs = (remove_loop (DConditions d0) t).2) by by rewrite Hs.
  assert (Hb : (remove_loop (DConditions d0) t).1 = b) by by rewrite Hs.
  destruct b; cbn [DMeta DSpec DConditions with_drc_conditions].
  - rewrite Hcs. split; [|by apply GetCondition_remove]. split_and!; [done..|by apply remove_loop_wf|].
    intros t' Ht. by apply GetCondition_remove_ne.
  - split; [done|]. by apply GetCondition_not_found.
Qed.

Lemma keep_condition_spec c (holds : bool) w0 d0 :
  wf_conditions (DConditions d0) →
  triple (λ st : St, at_drc w0 d0 st.1) (keep_condition request c holds)
    (λ st, at_drc w0 st.2 st.1 ∧ conditions_but (Type_ c) d0 st.2 ∧
       if holds then settled c (DConditions st.2) else GetCondition (DConditions st.2) (Type_ c) = None)
    (λ st, at_drc w0 d0 st.1).
Proof.
  intros Hwf. eapply triple_weaken;
    [apply (Retry_refresh_then (GetDRC request) (λ w, drcs w !! request) (λ w w', objs w' = objs w)) with
      (merge := λ old d, with_drc_conditions (DConditions d) old) (w0 := w0) (b0 := d0)|done| |done].
  - intros w w1 w' H1 H2. by rewrite H2.
  - intros w. pose proof (get_drc_law request w) as Hg. by destruct (GetDRC request w) as [|[]].
  - intros w d' Hd Hc. pose proof (update_drc_law d' w) as Hu. apply change_shape in Hc.
    assert (Hk : drc_key d' = request) by (rewrite Hc; exact (drc_keyed_law _ _ _ Hd)).
    unfold put_as. destruct (UpdateDRCStatus d' w) as [w' [n|e]]; cbn [fst snd].
    + destruct Hu as (Ho & old & Hold & -> & Hu). rewrite Hk in Hold, Hu.
      rewrite Hd in Hold. injection Hold as <-. split; [done|]. split; [done|]. by rewrite Hu, lookup_insert_eq.
    + destruct Hu as [Ho ->]. done.
  - intros st (w & Hst & Hd & Ho). split; [done|]. rewrite Hst.
    destruct holds; [exact (set_change_spec c w d0 Hwf)|exact (remove_change_spec (Type_ c) w d0 Hwf)].
Qed.

Lemma retried_drcs (f : W * Obj X → (W * Obj X) * option ClientError) w o :
  (∀ st, drcs (f st).1.1 = drcs st.1) → drcs (RetryOnConflict f (w, o)).1.1 = drcs w.
Proof.
  intros Hf. apply (retried_inv (λ st, drcs st.1 = drcs w) f (w, o)); [|done|apply RetryOnConflict_law].
  intros st Hst. by rewrite Hf.
Qed.

(** The handler's objects: the service is there, the route is there or not. *)
Lemma handler_objects_spec d (w w' : W) :
  (ensure_service text d ;;> ensure_handler_route text d) w = Ret (w', None) →
  drcs w' = drcs w ∧ is_Some (objs w' !! obj_key (handler_service text d)) ∧
  if route_wanted d then is_Some (objs w' !! obj_key (handler_route text d))
  else objs w' !! obj_key (handler_route text d) = None.
Proof.
  intros Hrun. apply andthen_inv in Hrun as [[_ [? [=]]]|(w1 & H1 & H2)].
  assert (H1' : FactoryCreateOrUpdate None (Ok (handler_service text d)) w = (w1, None))
    by (unfold ensure_service, calling in H1; congruence). clear H1. rename H1' into H1.
  assert (Hd1 : drcs w1 = drcs w).
  { pose proof (retried_drcs (apply_attempt None (handler_service text d)) w (handler_service text d)
      (λ st, create_or_update_drcs _ _ _)) as Hr.
    unfold FactoryCreateOrUpdate in H1. destruct (RetryOnConflict _ _) as [[w2 o] e]. by injection H1 as <- _. }
  pose proof (FactoryCreateOrUpdate_spec None (Ok (handler_service text d)) w) as Hs. rewrite H1 in Hs.
  destruct Hs as (o & [= <-] & base & merged & n & _ & _ & _ & Ho1). clear H1.
  assert (Hs1 : is_Some (objs w1 !! obj_key (handler_service text d)))
    by (rewrite Ho1, lookup_insert_eq; by eexists).
  revert H2. unfold ensure_handler_route, calling. destruct (route_wanted d); intros [= H2].
  - pose proof (retried_drcs (route_attempt (DMeta d) (handler_route text d)) w1 (handler_route text d)
      (λ st, create_or_update_drcs _ _ _)) as Hr.
    pose proof (apply_route_spec _ _ _ _ _ H2) as [Hw Hsome]. unfold apply_route in H2.
    destruct (RetryOnConflict _ _) as [[w2 o] e]. injection H2 as <- _. cbn [fst] in Hr. split_and!; [congruence| |done].
    eapply is_Some_within; [exact Hw|done|intros Hk; by apply (f_equal fst) in Hk].
  - pose proof (delete_obj_drcs (handler_route text d) w1) as Hd.
    pose proof (ensure_deleted_spec (handler_route text d) w1) as Hs. rewrite H2 in Hs.
    assert (Hdr : drcs w' = drcs w1).
    { unfold ensure_deleted in H2. destruct (DeleteObj _ _) as [w2 [[]|]]; by injection H2 as <-. }
    split_and!; [congruence| |by rewrite Hs, lookup_delete_eq].
    rewrite Hs, lookup_delete_ne; [done|]. intros Hk. by apply (f_equal fst) in Hk.
Qed.

(** The handler's objects depend on the settings of a configuration only. *)
Lemma same_objects (d d' : DRC X) :
  DMeta d = DMeta d' → DSpec d = DSpec d' →
  (ensure_service text d ;;> ensure_handler_route text d) =
    (ensure_service text d' ;;> ensure_handler_route text d') ∧
  handler_service text d = handler_service text d' ∧ handler_route text d = handler_route text d' ∧
  route_wanted d = route_wanted d'.
Proof.
  destruct d as [m s cs], d' as [m' s' cs']. cbn. intros <- <-. done.
Qed.
End controller_lemmas.

(** ** Properties *)

(** C33: what the controller watches is enough. Building depends only on the secrets and
    config maps the configuration refers to, which are those whose changes wake the
    controller: as long as none of them changes, neither would the TLS settings or the
    filters. *)
Theorem Build_watched {X Expr Kazaam Cert Ver Cipher} (ParseExpr : string → option Expr)
    (NewKazaam : string → option Kazaam) ParseURL SystemCertPool AppendCertsFromPEM
    (X509KeyPair : string → string → option Cert) (TLSVersion : string → option Ver)
    (TLSCipherSuites : list string → option (list Cipher)) transport
    (GS GS' GC GC' : string → option (gmap string string)) (drc : DRC X) r :
  let watching := setSecretConfigMapList drc r in
  (∀ name, GS name ≠ GS' name → ∀ ns,
     secretPred watching (EUpdate (mkMeta name ns "" 0 ∅ ∅ []) (mkMeta name ns "" 0 ∅ ∅ [])) = false) →
  (∀ name, GC name ≠ GC' name → ∀ ns,
     cmPred watching (EUpdate (mkMeta name ns "" 0 ∅ ∅ []) (mkMeta name ns "" 0 ∅ ∅ [])) = false) →
  Build ParseExpr NewKazaam ParseURL SystemCertPool AppendCertsFromPEM X509KeyPair TLSVersion
    TLSCipherSuites transport GS GC (DSpec drc) r =
  Build ParseExpr NewKazaam ParseURL SystemCertPool AppendCertsFromPEM X509KeyPair TLSVersion
    TLSCipherSuites transport GS' GC' (DSpec drc) r.
Proof.
  cbv zeta. unfold secretPred, cmPred, setSecretConfigMapList.
  cbn [on_name Workloads.Name secretsSet configMapsSet with_sets]. intros Hs Hc.
  assert (Hs' : ∀ n, n ∈ secret_names (DSpec drc) → GS n = GS' n).
  { intros n Hn. destruct (decide (GS n = GS' n)) as [|Hne]; [done|]. specialize (Hs n Hne "").
    apply bool_decide_eq_false in Hs. by rewrite elem_of_list_to_set in Hs. }
  assert (Hc' : ∀ n, n ∈ config_map_names (DSpec drc) → GC n = GC' n).
  { intros n Hn. destruct (decide (GC n = GC' n)) as [|Hne]; [done|]. specialize (Hc n Hne "").
    apply bool_decide_eq_false in Hc. by rewrite elem_of_list_to_set in Hc. }
  clear Hs Hc. unfold Build, updateHttpClient, updateDataFilters.
  assert (Htls : getTLSConfig SystemCertPool AppendCertsFromPEM X509KeyPair TLSVersion TLSCipherSuites GS
      (DTLS (DSpec drc)) = getTLSConfig SystemCertPool AppendCertsFromPEM X509KeyPair TLSVersion
      TLSCipherSuites GS' (DTLS (DSpec drc))).
  { unfold getTLSConfig. unfold secret_names in Hs'. destruct (DTLS (DSpec drc)) as [s|]; [|done].
    unfold tls_secrets in Hs'. rewrite (ca_certs_ext _ GS GS'), (client_certs_ext _ GS GS'); [done|..];
      intros n Hn; apply Hs'; rewrite !elem_of_app; auto. }
  rewrite Htls. rewrite (each_ext (build_filter ParseExpr NewKazaam ParseURL GS GC)
    (build_filter ParseExpr NewKazaam ParseURL GS' GC')); [done|].
  intros df Hdf. apply build_filter_ext; intros n Hn.
  - apply Hs'. unfold secret_names. apply elem_of_app. right.
    by eapply (in_concat_map (λ df, concat (map destination_secrets (AltDestinations df)))).
  - apply Hc'. unfold config_map_names. by eapply (in_concat_map (λ df, transformer_map (STransformer df) ++
      concat (map (λ d, transformer_map (DTransformer d)) (AltDestinations df)))).
Qed.

(** Building takes over filters and settings only. *)
Lemma Build_keeps {X Expr Kazaam Cert Ver Cipher} (parse : string → option Expr)
    (kazaam : string → option Kazaam) url pool append (pair : string → string → option Cert)
    (version : string → option Ver) (ciphers : list string → option (list Cipher)) transport GS GC
    (s : DRCSpec X) r r' e :
  Build parse kazaam url pool append pair version ciphers transport GS GC s r = Ret (r', e) →
  LicenseAccepted r' = LicenseAccepted r ∧ Users r' = Users r ∧ secretsSet r' = secretsSet r ∧
  configMapsSet r' = configMapsSet r.
Proof.
  unfold Build. destruct (updateHttpClient _ _ _ _ _ _ _ _ _) as [tls [e1|]]; [by intros [= <- <-]|].
  destruct (updateDataFilters _ _ _ _ _ _ _) as [[fs e1]|]; [|done]. by intros [= <- <-].
Qed.

Section properties.
Context {X W Expr Kazaam Cert Ver Cipher : Type} `{!ObjectCluster X W, !ObjectStore X W, !DRCCluster X W,
  !DRCStore X W, !ConflictRetry}.
Variable ParseExpr : string → option Expr.
Variable NewKazaam : string → option Kazaam.
Variable ParseURL : string → bool.
Variable SystemCertPool : option string.
Variable AppendCertsFromPEM : string → bool.
Variable X509KeyPair : string → string → option Cert.
Variable TLSVersion : string → option Ver.
Variable TLSCipherSuites : list string → option (list Cipher).
Variable transport : Transport.
Variable text : string → X.
Variable request : NamespacedName.
Notation build := (Build (X:=X) ParseExpr NewKazaam ParseURL SystemCertPool AppendCertsFromPEM X509KeyPair
  TLSVersion TLSCipherSuites transport).
Notation objects d := (ensure_service text d ;;> ensure_handler_route text d).

(** C32: the data reporter is configured. When a run for a stored configuration ends
    without an error, the handler has the license as it was read, the configuration's
    users, and watches the secrets and config maps the configuration refers to. The
    service is there, and the route unless it is disabled. What the handler works with is
    what building gives, from the secrets and config maps as they are once the service and
    the route were made, after which no object changes. The configuration says that the
    license is missing exactly when it is not accepted, and that the filters are invalid,
    and why, exactly when building failed. *)
Theorem Reconcile_configures (r r' : Reconciler (@DataFilter Expr Kazaam) (TLSConfig Cert Ver Cipher))
    (w w' : W) (d0 : DRC X) :
  drcs w !! request = Some d0 → wf_conditions (DConditions d0) →
  Reconcile build text request r w = Some (Ret ((w', r'), None)) →
  ∃ d w0 w1 users derr, drcs w' !! request = Some d ∧ DMeta d = DMeta d0 ∧ DSpec d = DSpec d0 ∧
    LicenseAccepted r' = LicenseAccepted (read_license (X:=X) request r w) ∧
    userConfigs (Users r') = DUsers (DSpec d) ∧
    secretsSet r' = list_to_set (secret_names (DSpec d)) ∧
    configMapsSet r' = list_to_set (config_map_names (DSpec d)) ∧
    objs w0 = objs w ∧ objects d w0 = Ret (w1, None) ∧ objs w' = objs w1 ∧
    build (λ name, SecretData (X:=X) (mkNN (Workloads.Namespace (DMeta d)) name) w1)
      (λ name, ConfigMapData (X:=X) (mkNN (Workloads.Namespace (DMeta d)) name) w1) (DSpec d)
      (with_users users (setSecretConfigMapList d (read_license (X:=X) request r w))) = Ret (r', derr) ∧
    (if LicenseAccepted r' then GetCondition (DConditions d) "NoLicense" = None
     else settled no_license (DConditions d)) ∧
    match derr with
    | Some e => settled (filters_invalid e) (DConditions d)
    | None => GetCondition (DConditions d) "DataFilterInvalid" = None
    end ∧
    is_Some (objs w' !! obj_key (handler_service text d)) ∧
    if route_wanted d then is_Some (objs w' !! obj_key (handler_route text d))
    else objs w' !! obj_key (handler_route text d) = None.
Proof.
  intros Hd0 Hwf. unfold Reconcile. set (r0 := read_license request r w).
  pose proof (get_drc_law request w) as Hg. destruct (GetDRC request w) as [d|e]; [|by destruct e; rewrite ?Hd0 in Hg].
  rewrite Hd0 in Hg. injection Hg as <-. set (rs := setSecretConfigMapList d0 r0).
  pose proof (keep_condition_spec request no_license (negb (LicenseAccepted rs)) w d0 Hwf (w, d0)
    (conj Hd0 eq_refl)) as H1.
  destruct (keep_condition request no_license _ _) as [[[w1 d1] [e|]]|]; [done| |done]. cbn [fst snd] in *.
  destruct H1 as ([Hd1 Ho1] & (Hm1 & Hs1 & Hwf1 & _) & Hlic).
  destruct (SetUserConfigs _ _) as [users|] eqn:Hu; [|done]. unfold configure.
  destruct (objects d1 w1) as [[w2 [e|]]|] eqn:Hobj; [done| |done].
  pose proof Hobj as (Hdr & Hsvc & Hroute)%handler_objects_spec. rewrite <- Hdr in Hd1.
  destruct (build _ _ (DSpec d1) _) as [[r2 derr]|] eqn:Hb; [|done].
  pose proof (keep_condition_spec request (filters_invalid (default "" derr)) (bool_decide (derr ≠ None))
    w2 d1 Hwf1 (w2, d1) (conj Hd1 eq_refl)) as H2.
  destruct (keep_condition request _ _ _) as [[[w3 d2] e]|]; [|done]. cbn [fst snd] in H2 |- *.
  intros [= <- <- ->]. destruct H2 as ([Hd2 Ho2] & (Hm2 & Hs2 & _ & Hother) & Hinv).
  destruct (same_objects text d2 d1 Hm2 Hs2) as (He & Hsv & Hrt & Hrw).
  pose proof (Build_keeps _ _ _ _ _ _ _ _ _ _ _ _ _ _ _ Hb) as (Hl & Hus & Hss & Hcs).
  cbn [LicenseAccepted Users secretsSet configMapsSet with_users] in Hl, Hus, Hss, Hcs.
  exists d2, w1, w2, users, derr. rewrite He, Hsv, Hrt, Hrw, Ho2.
  rewrite Hl, Hus, Hss, Hcs. unfold setSecretConfigMapList. rewrite Hm2, Hs2, Hm1, Hs1 in *.
  split_and!; try done.
  - unfold SetUserConfigs in Hu. destruct (readers _); [|done]. by injection Hu as <-.
  - destruct (LicenseAccepted rs); cbn [negb] in Hlic; [by rewrite Hother|].
    destruct Hlic as (c0 & Hc0 & Hc). exists c0. by rewrite Hother.
  - by destruct derr.
Qed.
End properties.

(** A license that was accepted stays so when the configuration of the marketplace is
    gone or cannot be read. *)
Theorem license_survives {X W Filter TLS} `{!DRCCluster X W} (request : NamespacedName)
    (r : Reconciler Filter TLS) (w : W) e :
  GetMarketplaceConfig (X:=X) (mkNN (NNNamespace request) MARKETPLACECONFIG_NAME) w = Err e →
  LicenseAccepted (read_license (X:=X) request r w) = LicenseAccepted r.
Proof. intros He. unfold read_license. by rewrite He. Qed.

(** A run that makes the configuration ends with the error that there was none. *)
Theorem first_run_fails {X W Filter TLS} `{!ObjectCluster X W, !DRCCluster X W, !ConflictRetry}
    build (text : string → X) (request : NamespacedName) (r : Reconciler Filter TLS) (w w' : W) :
  GetDRC (X:=X) request w = Err IsNotFound → CreateDRC (default_drc request) w = (w', None) →
  Reconcile build text request r w = Some (Ret ((w', read_license (X:=X) request r w), Some IsNotFound)).
Proof. intros Hg Hc. unfold Reconcile. by rewrite Hg, Hc. Qed.

(** Settings that cannot be made leave the ones in use. *)
Theorem updateHttpClient_keeps {Cert Ver Cipher} pool append (pair : string → string → option Cert)
    (version : string → option Ver) (ciphers : list string → option (list Cipher)) GS transport spec
    (current tls : option (TLSConfig Cert Ver Cipher)) e :
  updateHttpClient pool append pair version ciphers GS transport spec current = (tls, Some e) →
  tls = current.
Proof.
  unfold updateHttpClient. destruct transport; [|by intros [= <- _]..].
  destruct (getTLSConfig _ _ _ _ _ _ _); by intros [= <- _].
Qed.

(** ** Witnesses *)

Definition toy_filter_spec : DataFilterSpec :=
  mkDataFilterSpec (mkSelectorSpec [] []) "" (mkTransformerSpec "kazaam" (Some ("cm", "spec"))) [].
Definition toy_drc : DRC string :=
  mkDRC (mkMeta DATAREPORTERCONFIG_NAME "marketplace" "uid-9" 0 ∅ ∅ [])
    (mkDRCSpec [mkUserConfig "admin" ∅] [toy_filter_spec]
       (Some (mkTLSSpec false [("ca", "ca.crt")] [] "" [])) None (Some (mkRoute None (Some true)))) [].

Notation ToyReconciler := (Reconciler (@DataFilter string string) (TLSConfig string string string)).
Definition toy_reconciler : ToyReconciler :=
  mkReconciler false (mkUserConfigs [] 0) ∅ ∅ [] None None.

Definition toy_build (GS GC : string → option (gmap string string)) (s : DRCSpec string) (r : ToyReconciler)
    : outcome (ToyReconciler * option string) :=
  Build (λ e, Some e) (λ k, Some k) (λ _, true) None (λ _, true) (λ c k, Some (c +:+ k)) (λ v, Some v)
    (λ l, Some l) RetryingHTTP GS GC s r.

Definition toy_secret (name : string) : option (gmap string string) :=
  if name == "ca" then Some {[ "ca.crt" := "pem" ]} else None.
Definition toy_secret' (name : string) : option (gmap string string) :=
  if name == "ca" then Some {[ "ca.crt" := "pem" ]} else Some ∅.
Definition toy_config_map (name : string) : option (gmap string string) :=
  if name == "cm" then Some {[ "spec" := "[]" ]} else None.

Lemma Build_watched_witness :
  toy_build toy_secret toy_config_map (DSpec toy_drc) toy_reconciler =
    toy_build toy_secret' toy_config_map (DSpec toy_drc) toy_reconciler ∧
  ∃ r, toy_build toy_secret toy_config_map (DSpec toy_drc) toy_reconciler = Ret (r, None).
Proof.
  split; [|eexists; vm_compute; reflexivity].
  apply (Build_watched (λ e, Some e) (λ k, Some k) (λ _, true) None (λ _, true) (λ c k, Some (c +:+ k))
    (λ v, Some v) (λ l, Some l) RetryingHTTP toy_secret toy_secret' toy_config_map toy_config_map toy_drc
    toy_reconciler).
  - intros name Hne ns. unfold toy_secret, toy_secret' in Hne.
    case_bool_decide as Hn; [done|]. unfold secretPred; cbn [on_name Workloads.Name].
    apply bool_decide_eq_false. cbn. rewrite elem_of_union, elem_of_singleton, elem_of_empty. by intros [|].
  - by intros name Hne.
Defined.

(** A cluster of objects with at most one configuration. *)
Notation ToyWorld := (list Write * option (DRC string))%type.

#[local] Instance toy_objects : ObjectCluster string ToyWorld := cluster_beside.
#[local] Instance toy_object_store : ObjectStore string ToyWorld := store_beside.

#[local] Instance toy_drcs : DRCCluster string ToyWorld := {
  GetDRC k w := match singleton_by drc_key w.2 !! k with Some d => Ok d | None => Err IsNotFound end;
  CreateDRC d w := match w.2 with None => ((w.1, Some d), None) | Some _ => (w, Some AlreadyExists) end;
  UpdateDRCStatus d w :=
    match w.2 with
    | Some old =>
        if decide (drc_key old = drc_key d)
        then ((w.1, Some (with_drc_conditions (DConditions d) old)), Ok (with_drc_conditions (DConditions d) old))
        else (w, Err IsNotFound)
    | None => (w, Err IsNotFound)
    end;
  GetMarketplaceConfig _ _ := Err IsNotFound;
  SecretData k _ := toy_secret (NNName k);
  ConfigMapData k _ := toy_config_map (NNName k);
  DRCNow _ := 3%Z
}.

#[local, refine] Instance toy_drc_store : DRCStore string ToyWorld := {|
  drcs := λ w, singleton_by drc_key w.2
|}.
Proof.
  - intros w k d Hd. by apply singleton_by_lookup in Hd as [_ ?].
  - intros k w. cbn. by destruct (singleton_by drc_key w.2 !! k).
  - intros d [log [old|]]; cbn; [done|]. split; [apply lookup_empty|]. by rewrite insert_empty.
  - intros d [log [old|]]; cbn; [|done]. destruct (decide _) as [Hk|]; [|done]. split; [done|].
    exists old. rewrite <- Hk. split; [exact (lookup_insert_eq _ _ _)|]. split; [done|].
    symmetry. exact (insert_insert_eq _ _ _ _).
  - done.
  - done.
Defined.

Definition toy_request : NamespacedName := mkNN "marketplace" DATAREPORTERCONFIG_NAME.
Definition toy_run : option (outcome ((ToyWorld * ToyReconciler) * option ClientError)) :=
  Reconcile toy_build (λ s, s) toy_request toy_reconciler ([], Some toy_drc).
Definition toy_end : ToyWorld * ToyReconciler :=
  match toy_run with Some (Ret (s, _)) => s | _ => (([], None), toy_reconciler) end.

Lemma Reconcile_configures_witness :
  toy_run = Some (Ret ((toy_end.1, toy_end.2), None)) ∧
  ∃ d, drcs toy_end.1 !! toy_request = Some d ∧ settled no_license (DConditions d) ∧
    userConfigs (Users toy_end.2) = DUsers (DSpec toy_drc).
Proof.
  assert (Hr : toy_run = Some (Ret ((toy_end.1, toy_end.2), None))) by (vm_compute; reflexivity).
  split; [exact Hr|].
  assert (Hd0 : drcs (([], Some toy_drc) : ToyWorld) !! toy_request = Some toy_drc)
    by (vm_compute; reflexivity).
  assert (Hwf : wf_conditions (DConditions toy_drc)) by constructor.
  destruct (Reconcile_configures (λ e, Some e) (λ k, Some k) (λ _, true) None (λ _, true)
    (λ c k, Some (c +:+ k)) (λ v, Some v) (λ l, Some l) RetryingHTTP (λ s, s) toy_request _ _ _ _ _ Hd0 Hwf Hr)
    as (d & w0 & w1 & users & derr & Hd & _ & Hs & Hl & Hu & _ & _ & _ & _ & _ & _ & Hlic & _).
  exists d. split; [exact Hd|]. rewrite Hl in Hlic. rewrite Hu, Hs. by split.
Defined.
