(* ===== verification/OperatorConfig.v ===== *)
(** * The configuration of the operator

    The model of [v2/pkg/config]: what the operator finds out about the cluster it
    runs on ([infrastructure.go]), among it the configuration of the subscription it
    was installed by, and the one configuration all its parts share ([config.go]),
    with how it is decided that the cluster has no connection. Environment, network,
    version parser and cluster are arguments. *)

From S2P Require Import Prelude GoTime Workloads MeterReport Controllers.
Local Open Scope go_scope.

(** ** The cluster *)

Section infrastructure.
(** A subscription's configuration, and a parsed version. *)
Context {SubscriptionConfig Semver : Type}.

(** What is read of an [olmv1alpha1.Subscription]. *)
Record Subscription := mkSubscription {
  SubName : string;
  InstalledCSV : string;
  SubConfig : option SubscriptionConfig
}.

Record KubernetesInfra := mkKubernetesInfra { KVersion : string; KPlatform : string }.

Record OpenshiftInfra := mkOpenshiftInfra {
  OVersion : string;
  ParsedVersion : Semver;
  OSubscriptionConfig : option SubscriptionConfig
}.

Record Infrastructure := mkInfrastructure {
  openshift : option OpenshiftInfra;
  kubernetes : option KubernetesInfra
}.

(** The reads of the start: the version the cluster should have, what is asked of the
    owners of a pod, the subscriptions of a namespace, and the server's version. *)
Class InfraReads (W : Type) := {
  GetClusterVersion : string → W → result DiscoveryError string;
  GetOwned : string → NamespacedName → W → result ClientError ObjectMeta;
  ListSubscriptions : string → W → result ClientError (list Subscription);
  ServerVersion : W → result string KubernetesInfra
}.

Inductive InfraError :=
| EClusterVersion (e : DiscoveryError) | EParseVersion (msg : string)
| ESubscription (e : ClientError) | EServerVersion (msg : string).

Context {W : Type} `{!InfraReads W}.
(** [semver.ParseTolerant]. *)
Variable ParseTolerant : string → result string Semver.
(** [&olmv1alpha1.SubscriptionConfig{}]. *)
Variable no_config : SubscriptionConfig.
(** [os.Getenv]. *)
Variable Getenv : string → string.

(** A loop whose body goes on, or returns a value or an error. *)
Fixpoint search {A B E} (f : A → result E (option B)) (l : list A) : result E (option B) :=
  match l with
  | [] => Ok None
  | x :: l => match f x with Ok None => search f l | r => r end
  end.

(** The innermost loop. *)
Definition parent_subscription (csv : string) (subs : list Subscription)
    : result ClientError (option SubscriptionConfig) :=
  search (λ s, if InstalledCSV s == csv then Ok (Some (default no_config (SubConfig s)))
               else Ok None) subs.

(** One turn of the walk: the owners of one kind are read, and [next] looks at each. *)
Definition owners_of {B} (kind namespace : string) (w : W)
    (next : ObjectMeta → result ClientError (option B)) (o : ObjectMeta)
    : result ClientError (option B) :=
  search (λ ref, if ORKind ref == kind then
                   match GetOwned kind (mkNN namespace (ORName ref)) w with
                   | Err e => Err e
                   | Ok owner => next owner
                   end
                 else Ok None) (OwnerReferences o).

(** The three loops under a pod. *)
Definition walk_pod (namespace : string) (w : W)
    : ObjectMeta → result ClientError (option SubscriptionConfig) :=
  owners_of "ReplicaSet" namespace w
    (owners_of "Deployment" namespace w
       (owners_of "ClusterServiceVersion" namespace w (λ csv,
          match ListSubscriptions namespace w with
          | Err e => Err e
          | Ok subs => parent_subscription (Name csv) subs
          end))).

Definition getSubscriptionConfig (w : W) : result ClientError SubscriptionConfig :=
  let podName := Getenv "POD_NAME" in
  if podName == "" then Ok no_config
  else
    let namespace := Getenv "POD_NAMESPACE" in
    if namespace == "" then Ok no_config
    else match GetOwned "Pod" (mkNN namespace podName) w with
         | Err e => Err e
         | Ok pod =>
             match walk_pod namespace w pod with
             | Err e => Err e
             | Ok (Some c) => Ok c
             | Ok None => Ok no_config
             end
         end.

Definition openshiftInfrastructure (w : W) : result InfraError (option OpenshiftInfra) :=
  match GetClusterVersion "version" w with
  | Err (Api IsNotFound) | Err NoMatch => Ok None
  | Err e => Err (EClusterVersion e)
  | Ok version =>
      match ParseTolerant version with
      | Err e => Err (EParseVersion e)
      | Ok parsed =>
          match getSubscriptionConfig w with
          | Err e => Err (ESubscription e)
          | Ok c => Ok (Some (mkOpenshiftInfra version parsed (Some c)))
          end
      end
  end.

Definition kubernetesInfrastructure (w : W) : result InfraError KubernetesInfra :=
  match ServerVersion w with Err e => Err (EServerVersion e) | Ok k => Ok k end.

Definition NewInfrastructure (w : W) : result InfraError Infrastructure :=
  match openshiftInfrastructure w with
  | Err e => Err e
  | Ok o =>
      match kubernetesInfrastructure w with
      | Err e => Err e
      | Ok k => Ok (mkInfrastructure o (Some k))
      end
  end.

Definition KubernetesVersion (i : Infrastructure) : string :=
  match kubernetes i with None => "" | Some k => KVersion k end.

Definition KubernetesPlatform (i : Infrastructure) : string :=
  match kubernetes i with None => "" | Some k => KPlatform k end.

Definition OpenshiftVersion (i : Infrastructure) : string :=
  match openshift i with None => "" | Some o => OVersion o end.

Definition OpenshiftParsedVersion (i : Infrastructure) : option Semver :=
  match openshift i with None => None | Some o => Some (ParsedVersion o) end.

Definition HasOpenshift (i : Infrastructure) : bool := bool_decide (is_Some (openshift i)).

Definition IsDefined (i : Infrastructure) : bool :=
  bool_decide (is_Some (openshift i)) || bool_decide (is_Some (kubernetes i)).

Definition get_SubscriptionConfig (i : Infrastructure) : SubscriptionConfig :=
  match openshift i with
  | Some o => match OSubscriptionConfig o with Some c => c | None => no_config end
  | None => no_config
  end.

(** ** The configuration *)

Record RelatedImages := mkRelatedImages {
  Reporter : string; KubeRbacProxy : string; MetricState : string; AuthChecker : string;
  DQLite : string; MeterDefFileServer : string
}.

Record Features := mkFeatures { IBMCatalog : bool }.
Record Marketplace := mkMarketplace { URL : string; InsecureClient : bool }.
Record ControllerValues := mkControllerValues {
  DeploymentNamespace : string; MeterDefControllerRequeueRate : Z
}.
Record MeterBaseValues := mkMeterBaseValues { TransitionTime : Z }.
Record ReportControllerConfig := mkReportControllerConfig {
  RetryTime : Z; RetryLimit : option Z; PollTime : Z;
  UploadTargetsOverride : list string; ReporterSchema : string
}.
Record OLMInformation := mkOLMInformation {
  OwnerName : string; OwnerNamespace : string; OwnerKind : string
}.
Record MeterdefinitionCatalog := mkCatalog {
  ImageStreamID : string; ImageStreamTag : string; FileServerURL : string
}.

(** [R] are the resources of a container. *)
Context {R : Type}.

Record EnvConfig := mkEnvConfig {
  EFeatures : option Features; EController : option ControllerValues;
  EReportController : option ReportControllerConfig; EMeterController : option MeterBaseValues;
  EResources : option (gmap string R)
}.

(** [COSRelatedImages] is the second set of images, of the same fields. Two fields
    without a tag are never set and are left out. *)
Record OperatorConfig := mkOperatorConfig {
  DeployedNamespace : string;
  DeployedPodName : string;
  CControllerValues : ControllerValues;
  CReportController : ReportControllerConfig;
  CRelatedImages : RelatedImages;
  COSRelatedImages : RelatedImages;
  CFeatures : Features;
  CMarketplace : Marketplace;
  CInfrastructure : option Infrastructure;
  COLMInformation : OLMInformation;
  CMeterBaseValues : MeterBaseValues;
  CCatalog : MeterdefinitionCatalog;
  CConfig : EnvConfig;
  IsDisconnected : bool;
  DataServiceReplicas : Z
}.

(** The zero value of the struct. *)
Definition empty_config : OperatorConfig :=
  mkOperatorConfig "" "" (mkControllerValues "" 0) (mkReportControllerConfig 0 None 0 [] "")
    (mkRelatedImages "" "" "" "" "" "") (mkRelatedImages "" "" "" "" "" "") (mkFeatures false)
    (mkMarketplace "" false) None (mkOLMInformation "" "" "") (mkMeterBaseValues 0)
    (mkCatalog "" "" "") (mkEnvConfig None None None None None) false 0.

Definition with_infrastructure (i : Infrastructure) (c : OperatorConfig) : OperatorConfig :=
  mkOperatorConfig (DeployedNamespace c) (DeployedPodName c) (CControllerValues c)
    (CReportController c) (CRelatedImages c) (COSRelatedImages c) (CFeatures c) (CMarketplace c)
    (Some i) (COLMInformation c) (CMeterBaseValues c) (CCatalog c) (CConfig c)
    (IsDisconnected c) (DataServiceReplicas c).

Definition with_disconnected (b : bool) (c : OperatorConfig) : OperatorConfig :=
  mkOperatorConfig (DeployedNamespace c) (DeployedPodName c) (CControllerValues c)
    (CReportController c) (CRelatedImages c) (COSRelatedImages c) (CFeatures c) (CMarketplace c)
    (CInfrastructure c) (COLMInformation c) (CMeterBaseValues c) (CCatalog c) (CConfig c)
    b (DataServiceReplicas c).

(** [cfg.RelatedImages = RelatedImages(cfg.OSRelatedImages)]. *)
Definition with_open_images (c : OperatorConfig) : OperatorConfig :=
  mkOperatorConfig (DeployedNamespace c) (DeployedPodName c) (CControllerValues c)
    (CReportController c) (COSRelatedImages c) (COSRelatedImages c) (CFeatures c) (CMarketplace c)
    (CInfrastructure c) (COLMInformation c) (CMeterBaseValues c) (CCatalog c) (CConfig c)
    (IsDisconnected c) (DataServiceReplicas c).

(** *** Is there a connection *)

(** What a lookup or a dial fails with: an error of an operation, one of the name
    service, another of the package [net], or none of these. *)
Inductive NetFailure :=
| OpError (op : string) (timeout : bool)
| DNSError (isNotFound timeout : bool)
| OtherNetError (timeout : bool)
| OtherError.

Definition NetTimeout (e : NetFailure) : bool :=
  match e with OpError _ t | DNSError _ t | OtherNetError t => t | OtherError => false end.

Definition checkError (err : NetFailure) : bool :=
  if NetTimeout err then true
  else match err with
       | OpError op _ => if op == "dial" then true else op == "read"
       | DNSError isNotFound _ => isNotFound
       | _ => false
       end.

Definition ProductionURL : string := "https://swc.saas.ibm.com".

Variable LookupIP : string → option NetFailure.
Variable DialTimeout : string → option NetFailure.
(** The host of a URL. *)
Variable Host : string → string.

Definition setDisconnectedStatus (cfg : OperatorConfig) : bool :=
  let rhmURL := if URL (CMarketplace cfg) != "" then URL (CMarketplace cfg) else ProductionURL in
  let ipLookUpFailed := match LookupIP rhmURL with Some e => checkError e | None => false end in
  let timeoutURL := Host ProductionURL +:+ ":https" in
  let dialTimeoutFailed :=
    match DialTimeout timeoutURL with Some e => checkError e | None => false end in
  ipLookUpFailed && dialTimeoutFailed.

(** *** The shared configuration *)

(** [env.ParseWithFuncs]: the fields with a tag are set from the environment. *)
Variable Parse : OperatorConfig → result string OperatorConfig.

Inductive ConfigError := EEnvironment (msg : string) | EInfrastructure (e : InfraError).

(** The variable [global], which the two functions read and set under their lock. *)
Definition ProvideConfig (global : option OperatorConfig)
    : option OperatorConfig * result ConfigError OperatorConfig :=
  match global with
  | Some cfg => (global, Ok cfg)
  | None =>
      match Parse empty_config with
      | Err e => (None, Err (EEnvironment e))
      | Ok cfg =>
          let cfg := with_disconnected (setDisconnectedStatus cfg) cfg in
          let cfg := with_infrastructure (mkInfrastructure None None) cfg in
          (Some cfg, Ok cfg)
      end
  end.

Definition ProvideInfrastructureAwareConfig (w : W) (global : option OperatorConfig)
    : option OperatorConfig * result ConfigError OperatorConfig :=
  match global with
  | Some cfg => (global, Ok cfg)
  | None =>
      match NewInfrastructure w with
      | Err e => (None, Err (EInfrastructure e))
      | Ok inf =>
          match Parse (with_infrastructure inf empty_config) with
          | Err e => (None, Err (EEnvironment ("failed to parse config: " +:+ e)))
          | Ok cfg =>
              let cfg := if !HasOpenshift inf then with_open_images cfg else cfg in
              (Some cfg, Ok cfg)
          end
      end
  end.
End infrastructure.
Arguments Subscription : clear implicits.
Arguments InfraReads : clear implicits.

(** ** The walk to the subscription *)

Lemma search_found {A B E} (f : A → result E (option B)) l b :
  search f l = Ok (Some b) → ∃ x, x ∈ l ∧ f x = Ok (Some b).
Proof.
  induction l as [|x l IH]; cbn [search]; [done|]. destruct (f x) as [[b'|]|e] eqn:Hx; [| |done].
  - intros [= ->]. exists x. split; [by left|done].
  - intros (y & Hy & Hf)%IH. exists y. split; [by right|done].
Qed.

Lemma search_nothing {A B E} (f : A → result E (option B)) l x :
  search f l = Ok None → x ∈ l → f x = Ok None.
Proof.
  induction l as [|y l IH]; cbn [search]; [by intros _ ?%elem_of_nil|].
  destruct (f y) as [[b'|]|e] eqn:Hy; [done| |done].
  intros Hl [->|Hx]%elem_of_cons; [done|by apply IH].
Qed.

Lemma search_error {A B E} (f : A → result E (option B)) l e :
  search f l = Err e → ∃ x, x ∈ l ∧ f x = Err e.
Proof.
  induction l as [|x l IH]; cbn [search]; [done|]. destruct (f x) as [[b'|]|e'] eqn:Hx; [done| |].
  - intros (y & Hy & Hf)%IH. exists y. split; [by right|done].
  - intros [= ->]. exists x. split; [by left|done].
Qed.

(** [o'] is an owner of [o] of the kind, in the namespace. *)
Definition owned_by `{!InfraReads SC W} (kind namespace : string) (w : W) (o o' : ObjectMeta) : Prop :=
  ∃ ref, ref ∈ OwnerReferences o ∧ ORKind ref = kind ∧
         GetOwned kind (mkNN namespace (ORName ref)) w = Ok o'.

Section walk.
Context {SC W : Type} `{!InfraReads SC W}.
Implicit Types (w : W) (o : ObjectMeta).

Lemma owners_of_found {B} kind ns w (next : ObjectMeta → result ClientError (option B)) o b :
  owners_of kind ns w next o = Ok (Some b) → ∃ o', owned_by kind ns w o o' ∧ next o' = Ok (Some b).
Proof.
  intros (ref & Hin & Hf)%search_found. destruct (bool_decide_reflect (ORKind ref = kind)) as [Hk|]; [|done].
  destruct (GetOwned _ _ _) as [o'|e] eqn:Hg; [|done]. exists o'. split; [by exists ref|done].
Qed.

Lemma owners_of_nothing {B} kind ns w (next : ObjectMeta → result ClientError (option B)) o o' :
  owners_of kind ns w next o = Ok None → owned_by kind ns w o o' → next o' = Ok None.
Proof.
  intros Hs (ref & Hin & <- & Hg). pose proof (search_nothing _ _ _ Hs Hin) as Hf. cbn beta in Hf.
  rewrite bool_decide_true in Hf by done. by rewrite Hg in Hf.
Qed.

Lemma parent_subscription_found no_config csv (subs : list (Subscription SC)) c :
  parent_subscription no_config csv subs = Ok (Some c) →
  ∃ s, s ∈ subs ∧ InstalledCSV s = csv ∧ c = default no_config (SubConfig s).
Proof.
  intros (s & Hin & Hf)%search_found.
  destruct (bool_decide_reflect (InstalledCSV s = csv)) as [Hs|]; [|done].
  injection Hf as <-. by exists s.
Qed.

Lemma parent_subscription_nothing no_config csv (subs : list (Subscription SC)) s :
  parent_subscription no_config csv subs = Ok None → s ∈ subs → InstalledCSV s ≠ csv.
Proof.
  intros Hs Hin Heq. pose proof (search_nothing _ _ _ Hs Hin) as Hf. cbn beta in Hf.
  by rewrite bool_decide_true in Hf.
Qed.

(** The subscription installed the service version that owns the deployment that owns
    the replica set that owns the pod. *)
Definition installs (ns : string) w (pod : ObjectMeta) (s : Subscription SC) : Prop :=
  ∃ rs d csv subs,
    owned_by "ReplicaSet" ns w pod rs ∧ owned_by "Deployment" ns w rs d ∧
    owned_by "ClusterServiceVersion" ns w d csv ∧
    ListSubscriptions ns w = Ok subs ∧ s ∈ subs ∧ InstalledCSV s = Name csv.

Lemma walk_pod_found no_config ns w pod c :
  walk_pod no_config ns w pod = Ok (Some c) →
  ∃ s, installs ns w pod s ∧ c = default no_config (SubConfig s).
Proof.
  intros (rs & Hrs & (d & Hd & (csv & Hcsv & Hl)%owners_of_found)%owners_of_found)%owners_of_found.
  destruct (ListSubscriptions ns w) as [subs|e] eqn:Hs; [|done].
  apply parent_subscription_found in Hl as (s & Hin & Heq & ->).
  exists s. split; [by exists rs, d, csv, subs|done].
Qed.

Lemma walk_pod_nothing no_config ns w pod s :
  walk_pod no_config ns w pod = Ok None → ¬ installs ns w pod s.
Proof.
  intros Hw (rs & d & csv & subs & Hrs & Hd & Hcsv & Hl & Hin & Heq).
  pose proof (owners_of_nothing _ _ _ _ _ _ Hw Hrs) as H1.
  pose proof (owners_of_nothing _ _ _ _ _ _ H1 Hd) as H2.
  pose proof (owners_of_nothing _ _ _ _ _ _ H2 Hcsv) as H3. cbn beta in H3. rewrite Hl in H3.
  by eapply parent_subscription_nothing.
Qed.
End walk.

(** The configuration the operator passes on to what it deploys is that of a
    subscription that installed it, as the owners of its pod tell: the one of such a
    subscription, or the empty one, and the empty one without such a subscription
    only when there is none. *)
Theorem getSubscriptionConfig_spec {SC W} `{!InfraReads SC W} (no_config : SC) Getenv (w : W) c :
  getSubscriptionConfig no_config Getenv w = Ok c →
  Getenv "POD_NAME" ≠ "" → Getenv "POD_NAMESPACE" ≠ "" →
  ∃ pod, GetOwned "Pod" (mkNN (Getenv "POD_NAMESPACE") (Getenv "POD_NAME")) w = Ok pod ∧
    ((∃ s, installs (Getenv "POD_NAMESPACE") w pod s ∧ c = default no_config (SubConfig s)) ∨
     (c = no_config ∧ ∀ s, ¬ installs (Getenv "POD_NAMESPACE") w pod s)).
Proof.
  unfold getSubscriptionConfig. intros Hc Hp Hn.
  rewrite !bool_decide_false in Hc by done.
  destruct (GetOwned "Pod" _ w) as [pod|e]; [|done]. exists pod. split; [done|].
  destruct (walk_pod _ _ w pod) as [[c'|]|e] eqn:Hw; [| |done]; injection Hc as <-.
  - left. by apply walk_pod_found.
  - right. split; [done|]. intros s. by apply walk_pod_nothing with (no_config := no_config).
Qed.

(** A pod that an operator's deployment made, and its subscription. *)
Definition toy_owned (owner : string) (kind name : string) : ObjectMeta :=
  mkMeta owner "rhm" "" 0 ∅ ∅ [mkOwnerRef "" kind name ""].

#[export] Instance toy_reads : InfraReads string (list (Subscription string)) := {
  GetClusterVersion _ _ := Ok "4.16.2";
  GetOwned kind n _ :=
    if kind == "Pod" then Ok (toy_owned (NNName n) "ReplicaSet" "rs")
    else if kind == "ReplicaSet" then Ok (toy_owned (NNName n) "Deployment" "d")
    else if kind == "Deployment" then Ok (toy_owned (NNName n) "ClusterServiceVersion" "rhm.v2")
    else if kind == "ClusterServiceVersion" then Ok (toy_owned (NNName n) "" "")
    else Err IsNotFound;
  ListSubscriptions _ w := Ok w;
  ServerVersion _ := Ok (mkKubernetesInfra "v1.29" "linux/amd64")
}.

Definition toy_subscriptions : list (Subscription string) :=
  [mkSubscription "other" "other.v1" (Some "other"); mkSubscription "rhm" "rhm.v2" (Some "tolerations")].

Definition toy_env (k : string) : string :=
  if k == "POD_NAME" then "rhm-1" else if k == "POD_NAMESPACE" then "rhm" else "".

Lemma getSubscriptionConfig_spec_witness :
  getSubscriptionConfig "" toy_env toy_subscriptions = Ok "tolerations" ∧
  ∃ pod, GetOwned "Pod" (mkNN (toy_env "POD_NAMESPACE") (toy_env "POD_NAME")) toy_subscriptions = Ok pod ∧
    ((∃ s, installs (toy_env "POD_NAMESPACE") toy_subscriptions pod s ∧
           "tolerations" = default "" (SubConfig s)) ∨
     ("tolerations" = "" ∧ ∀ s, ¬ installs (toy_env "POD_NAMESPACE") toy_subscriptions pod s)).
Proof.
  assert (H : getSubscriptionConfig "" toy_env toy_subscriptions = Ok "tolerations")
    by (vm_compute; reflexivity).
  split; [exact H|]. apply (getSubscriptionConfig_spec "" toy_env toy_subscriptions _ H); done.
Defined.

(** Without the names of its pod the operator asks nothing of the cluster. *)
Lemma getSubscriptionConfig_outside {SC W} `{!InfraReads SC W} (no_config : SC) Getenv (w : W) :
  Getenv "POD_NAME" = "" ∨ Getenv "POD_NAMESPACE" = "" →
  getSubscriptionConfig no_config Getenv w = Ok no_config.
Proof. unfold getSubscriptionConfig. intros [->| ->]; by repeat case_go. Qed.

(** ** One configuration for all *)

Section shared.
Context {SC Semver R : Type}.
Notation Config := (@OperatorConfig SC Semver R).
Notation Provider := (option Config → option Config * result (@ConfigError) Config).

(** A call of one of the two functions, whatever the environment, the network and the
    cluster are when it is made. *)
Inductive provider : Provider → Prop :=
| provider_plain LookupIP DialTimeout Host Parse :
    provider (ProvideConfig LookupIP DialTimeout Host Parse)
| provider_aware {W} `{!InfraReads SC W} ParseTolerant no_config Getenv Parse (w : W) :
    provider (ProvideInfrastructureAwareConfig ParseTolerant no_config Getenv Parse w).

Fixpoint answers (fs : list Provider) (global : option Config) : list (result ConfigError Config) :=
  match fs with
  | [] => []
  | f :: fs => let '(global, r) := f global in r :: answers fs global
  end.

(** A call returns what is shared, or sets it; a call that fails leaves it unset. *)
Lemma provider_step f global :
  provider f →
  match f global with
  | (Some g, Ok c) => c = g ∧ (global = None ∨ global = Some c)
  | (None, Err _) => global = None
  | _ => False
  end.
Proof.
  intros []; unfold ProvideConfig, ProvideInfrastructureAwareConfig;
    destruct global as [g|]; [by auto| |by auto|].
  - destruct (Parse empty_config) as [c|e]; by auto.
  - destruct (NewInfrastructure _ _ _ w) as [i|e]; [|done].
    destruct (Parse _) as [c|e]; [|done]. by auto.
Qed.

Lemma length_answers fs global : length (answers fs global) = length fs.
Proof.
  revert global; induction fs as [|f fs IH]; intros global; cbn [answers]; [done|].
  destruct (f global) as [g r]. cbn [length]. by rewrite IH.
Qed.

Lemma answers_set fs c : Forall provider fs → Forall (λ r, r = Ok c) (answers fs (Some c)).
Proof.
  induction fs as [|f fs IH]; intros Hfs; cbn [answers]; [constructor|].
  inversion Hfs as [|? ? Hf Hr]; subst. pose proof (provider_step f (Some c) Hf) as Hs.
  destruct (f (Some c)) as [[g|] [c'|e]]; [|done|done|done].
  destruct Hs as [-> [?|[= ->]]]; [done|]. constructor; [done|by apply IH].
Qed.
End shared.

(** Whatever parts of the operator ask for the configuration, in whatever order and
    environment: once it was made, every call returns that same one. *)
Theorem config_shared {SC Semver R} (fs : list (option (@OperatorConfig SC Semver R) → _)) i j c :
  Forall provider fs → answers fs None !! i = Some (Ok c) → i ≤ j → j < length fs →
  answers fs None !! j = Some (Ok c).
Proof.
  intros Hfs. revert i j; induction fs as [|f fs IH]; intros i j; cbn [answers]; [done|].
  inversion Hfs as [|? ? Hf Hr]; subst. pose proof (provider_step f None Hf) as Hs.
  destruct (f None) as [[g|] [c'|e]]; [|done|done|].
  - destruct Hs as [-> _]. pose proof (answers_set fs g Hr) as Hall. intros Hi Hij Hj.
    assert (Hc : c = g).
    { destruct i as [|i]; cbn in Hi; [by injection Hi|].
      apply (Forall_lookup_1 _ _ _ _ Hall) in Hi. by injection Hi. }
    subst c. destruct j as [|j]; [done|]. change (answers fs (Some g) !! j = Some (Ok g)).
    destruct (lookup_lt_is_Some_2 (answers fs (Some g)) j) as [r Hr'];
      [rewrite length_answers; cbn in Hj; lia|].
    rewrite Hr'. f_equal. exact (Forall_lookup_1 _ _ _ _ Hall Hr').
  - destruct i as [|i]; [done|]. destruct j as [|j]; [lia|]. cbn. intros Hi Hij Hj.
    apply (IH Hr i); [done|lia|lia].
Qed.

(** ** Without a connection *)

(** The flag is set only when the lookup and the dial both fail, each with an error
    that stands for an unreachable host; any answer clears it. *)
Lemma setDisconnectedStatus_spec {SC Semver R} LookupIP DialTimeout Host
    (cfg : @OperatorConfig SC Semver R) :
  setDisconnectedStatus LookupIP DialTimeout Host cfg = true ↔
  (∃ e, LookupIP (if bool_decide (URL (CMarketplace cfg) = "") then ProductionURL
                  else URL (CMarketplace cfg)) = Some e ∧ checkError e = true) ∧
  (∃ e, DialTimeout (Host ProductionURL +:+ ":https") = Some e ∧ checkError e = true).
Proof.
  unfold setDisconnectedStatus. rewrite andb_true_iff.
  assert (Hm : ∀ o, match o with Some e => checkError e | None => false end = true ↔
                    ∃ e, o = Some e ∧ checkError e = true).
  { intros [e|]; split; [by exists e|by intros (? & [= ->] & ?)|done|by intros (? & ? & ?)]. }
  rewrite !Hm. by destruct (bool_decide _).
Qed.

Lemma checkError_spec e :
  checkError e = true ↔
  NetTimeout e = true ∨ (∃ t, e = OpError "dial" t) ∨ (∃ t, e = OpError "read" t) ∨
  (∃ t, e = DNSError true t).
Proof.
  unfold checkError. destruct e as [op []|[] []|[]|]; cbn; try (split; naive_solver).
  destruct (bool_decide_reflect (op = "dial")) as [->|Hd]; [split; naive_solver|].
  destruct (bool_decide_reflect (op = "read")) as [->|Hr]; split; naive_solver.
Qed.

(** ** What the cluster is *)

(** Off OpenShift the images are the open ones, and no subscription is looked for. *)
Theorem ProvideInfrastructureAwareConfig_images {SC Semver R W} `{!InfraReads SC W}
    ParseTolerant (no_config : SC) Getenv (Parse : @OperatorConfig SC Semver R → _) (w : W) g c :
  (∀ i b, Parse (with_infrastructure i empty_config) = Ok b → CInfrastructure b = Some i) →
  ProvideInfrastructureAwareConfig ParseTolerant no_config Getenv Parse w None = (g, Ok c) →
  ∃ i b, NewInfrastructure ParseTolerant no_config Getenv w = Ok i ∧
    Parse (with_infrastructure i empty_config) = Ok b ∧ CInfrastructure c = Some i ∧
    CRelatedImages c = (if HasOpenshift i then CRelatedImages b else COSRelatedImages b) ∧
    (HasOpenshift i = false ↔
       GetClusterVersion "version" w = Err NoMatch ∨
       GetClusterVersion "version" w = Err (Api IsNotFound)).
Proof.
  intros Hparse. unfold ProvideInfrastructureAwareConfig.
  destruct (NewInfrastructure _ _ _ w) as [i|e] eqn:Hi; [|done].
  destruct (Parse _) as [b|e] eqn:Hb; [|done]. intros [= <- <-]. exists i, b.
  pose proof (Hparse i b Hb) as Hinf.
  split_and!; [done..|by destruct (HasOpenshift i)|by destruct (HasOpenshift i)|].
  revert Hi. unfold NewInfrastructure, openshiftInfrastructure, HasOpenshift.
  destruct (GetClusterVersion _ w) as [v|[|[]]]; try done;
    try (destruct (kubernetesInfrastructure w); [|done]; intros [= <-]; cbn; split; naive_solver).
  destruct (ParseTolerant v); [|done]. destruct (getSubscriptionConfig _ _ w); [|done].
  destruct (kubernetesInfrastructure w); [|done]. intros [= <-]; cbn. split; naive_solver.
Qed.
