(* ===== verification/AuthChecker.v ===== *)
(** * The checker of the service account's token

    The model of [authchecker/v2/pkg/authchecker]: a side car reads the token of its
    pod once, has the API server review it again and again, and its health probe
    answers with the outcome of the last review. The reviews of the server are an
    interface. *)

From S2P Require Import Prelude.
Local Open Scope go_scope.

(** The values of an [unstructured.Unstructured]. *)
Inductive Value :=
| VNil
| VBool (b : bool)
| VString (s : string)
| VMap (m : list (string * Value)).

Notation Review := (gmap string Value).

(** The value of a key, from the front. *)
Definition get_key (m : list (string * Value)) (k : string) : option Value :=
  (λ p, p.2.2) <$> list_find (λ e, e.1 = k) m.

Inductive ReviewError := ServerTimeout | Timeout | ReviewFailed (msg : string).

#[export] Instance ReviewError_eq_dec : EqDecision ReviewError.
Proof. solve_decision. Defined.

Inductive CheckError := Failed (e : ReviewError) | Expired (file : string).

Record AuthChecker := mkAuthChecker {
  CErr : option CheckError;
  FilePath : string;
  FileData : string;
  RetryTime : Z;
  tokenReview : option Review
}.

(** [retry.OnError] with [retry.DefaultBackoff]: four attempts. *)
Definition DefaultBackoff : ErrorRetry :=
  {| OnError E St := backoff 3; OnError_law E St := backoff_retried 3 |}.

(** ** The reviews *)

(** What a review asks about, and whether an answer authenticates. *)
Definition token_of (r : Review) : option string :=
  match r !! "spec" with
  | Some (VMap m) => match get_key m "token" with Some (VString t) => Some t | _ => None end
  | _ => None
  end.

Definition authenticated (r : Review) : outcome bool :=
  match r !! "status" with
  | None => Ret false
  | Some (VMap m) =>
      match get_key m "authenticated" with
      | None => Ret false
      | Some (VBool b) => Ret b
      | Some _ => Panic
      end
  | Some _ => Panic
  end.

(** The server: what it answers keeps what was asked, and says of a token whether it
    is valid; an object that is missing is never accepted. *)
Class TokenReviews (W : Type) := {
  Create : option Review → W → outcome (W * (option Review * option ReviewError));
  valid : W → string → bool;
  create_answer : ∀ r w w' o t,
    Create (Some r) w = Ret (w', (o, None)) → token_of r = Some t →
    ∃ a, o = Some a ∧ token_of a = Some t ∧ authenticated a = Ret (valid w t);
  create_valid : ∀ r w w' x t, Create r w = Ret (w', x) → valid w' t = valid w t;
  create_missing : ∀ w w' o, Create None w ≠ Ret (w', (o, None));
  create_failed : ∀ r w w' o e, Create r w = Ret (w', (o, Some e)) → o = None
}.

(** ** The checker *)

Section checker.
Context {W : Type} `{!TokenReviews W} `{!ErrorRetry}.

Definition with_err (e : option CheckError) (c : AuthChecker) : AuthChecker :=
  mkAuthChecker e (FilePath c) (FileData c) (RetryTime c) (tokenReview c).

Definition with_review (r : option Review) (c : AuthChecker) : AuthChecker :=
  mkAuthChecker (CErr c) (FilePath c) (FileData c) (RetryTime c) r.

Definition with_data (d : string) (c : AuthChecker) : AuthChecker :=
  mkAuthChecker (CErr c) (FilePath c) d (RetryTime c) (tokenReview c).

Definition SetErr (e : CheckError) : AuthChecker → AuthChecker := with_err (Some e).
Definition Clear : AuthChecker → AuthChecker := with_err None.
Definition HasErr (c : AuthChecker) : bool :=
  match CErr c with Some _ => true | None => false end.
Definition Check (c : AuthChecker) : option CheckError := CErr c.

(** The review that is sent: a new one, or the last answer with its metadata reset. *)
Definition review_to_send (c : AuthChecker) : Review :=
  match tokenReview c with
  | None => <["metadata" := VMap []]>
              {[ "spec" := VMap [("audiences", VNil); ("token", VString (FileData c))] ]}
  | Some r => <["metadata" := VMap []]> r
  end.

Definition retriable (e : ReviewError) : bool :=
  if e == ServerTimeout then true else if e == Timeout then true else false.

(** One attempt: what the client answers is kept, which is nothing when it failed. *)
Definition attempt (st : outcome (option Review * W))
    : outcome (option Review * W) * option ReviewError :=
  match st with
  | Panic => (Panic, None)
  | Ret (r, w) =>
      match Create r w with
      | Panic => (Panic, None)
      | Ret (w, (r, err)) => (Ret (r, w), err)
      end
  end.

Definition CheckToken (c : AuthChecker) (w : W) : outcome (AuthChecker * W * option CheckError) :=
  match OnError retriable attempt (Ret (Some (review_to_send c), w)) with
  | (Panic, _) => Panic
  | (Ret (r, w), Some err) =>
      let c := with_review r c in
      Ret (SetErr (Failed err) c, w, Some (Failed err))
  | (Ret (r, w), None) =>
      let c := with_review r c in
      match r with
      | None => Panic
      | Some a =>
          isAuthed ← authenticated a;
          if !isAuthed then
            Ret (SetErr (Expired (FilePath c)) c, w, Some (Expired (FilePath c)))
          else Ret (Clear c, w, None)
      end
  end.

(** The wait before the next check: [Jitter d] adds some part of a fraction of [d]. *)
Definition newTimer (Jitter : Z → Z) (c : AuthChecker) : Z :=
  if HasErr c then Jitter (30 * 10 ^ 9)%Z else Jitter (RetryTime c).

(** The checks that are made one after the other, each on the server as it is then. *)
Fixpoint checks (c : AuthChecker) (ws : list W) : outcome AuthChecker :=
  match ws with
  | [] => Ret c
  | w :: ws => '(c, _, _) ← CheckToken c w; checks c ws
  end.

Definition Start (ReadFile : string → result string string) (c : AuthChecker)
    (ws : list W) : result string (outcome AuthChecker) :=
  match ReadFile "/var/run/secrets/kubernetes.io/serviceaccount/token" with
  | Err e => Err e
  | Ok data => Ok (checks (with_data data c) ws)
  end.
End checker.

(** ** What the probe tells *)

(** The review that is kept is of the token that was read. *)
Definition own_token (c : AuthChecker) : Prop :=
  match tokenReview c with None => True | Some r => token_of r = Some (FileData c) end.

Section probe.
Context {W : Type} `{!TokenReviews W} `{!ErrorRetry}.
Implicit Types (c : AuthChecker) (w : W).

Lemma review_to_send_token c : own_token c → token_of (review_to_send c) = Some (FileData c).
Proof.
  unfold own_token, review_to_send, token_of. destruct (tokenReview c) as [r|]; intros Hown.
  - by rewrite lookup_insert_ne by done.
  - rewrite lookup_insert_ne by done. by rewrite lookup_singleton_eq.
Qed.

(** An attempt that fails leaves nothing to send. *)
Lemma attempt_failed r w r' w' e :
  attempt (Ret (r, w)) = (Ret (r', w'), Some e) → r' = None.
Proof.
  cbn. destruct (Create r w) as [[w1 [o err]]|] eqn:Hc; [|done]. intros [= <- <- ->].
  by eapply create_failed.
Qed.

(** A call is made again only with nothing to send, which is never accepted. *)
Lemma retry_never_helps st r w :
  retried_on retriable attempt st (Ret (r, w), None) → attempt st = (Ret (r, w), None).
Proof.
  intros Hr. remember (Ret (r, w), None) as res eqn:Hres. induction Hr as [st|st st' e res Hf Hp _ IH].
  { done. }
  specialize (IH Hres). rewrite Hres in IH |- *. destruct st as [[q w0]|]; [|by cbn in Hf].
  destruct st' as [[q' w1]|].
  - apply attempt_failed in Hf as ->. cbn in IH.
    destruct (Create None w1) as [[w2 [o err]]|] eqn:Hc; [|done].
    injection IH as -> -> ->. by apply create_missing in Hc.
  - cbn in Hf. by destruct (Create q w0) as [[? [? ?]]|].
Qed.

Lemma retry_failed st r w e :
  retried_on retriable attempt st (Ret (r, w), Some e) → r = None.
Proof.
  intros Hr. remember (Ret (r, w), Some e) as res eqn:Hres. induction Hr as [st|st st' e' res Hf Hp _ IH].
  - destruct st as [[q w0]|]; [by eapply attempt_failed|done].
  - by apply IH.
Qed.

Lemma CheckToken_spec c w c' w' e :
  own_token c → CheckToken c w = Ret (c', w', e) →
  own_token c' ∧ FileData c' = FileData c ∧ Check c' = e ∧
  match e with
  | None => valid w (FileData c) = true
  | Some (Expired _) => valid w (FileData c) = false
  | Some (Failed _) => tokenReview c' = None
  end.
Proof.
  intros Hown%review_to_send_token. unfold CheckToken.
  pose proof (OnError_law retriable attempt (Ret (Some (review_to_send c), w))) as Hr.
  destruct (OnError _ _ _) as [[[r w1]|] [err|]]; [| |done|done].
  - apply retry_failed in Hr as ->. by intros [= <- <- <-].
  - apply retry_never_helps in Hr. cbn in Hr.
    destruct (Create _ w) as [[w2 [o err]]|] eqn:Hc; [|done]. injection Hr as -> -> ->.
    pose proof (create_answer _ _ _ _ _ Hc Hown) as (a & -> & Ht & Ha). rewrite Ha. cbn [mbind outcome_mbind].
    destruct (valid w (FileData c)) eqn:Hv; intros [= <- <- <-]; by split_and!.
Qed.

Lemma checks_own c ws c' :
  own_token c → checks c ws = Ret c' → own_token c' ∧ FileData c' = FileData c.
Proof.
  revert c; induction ws as [|w ws IH]; intros c Hown; cbn [checks]; [by intros [= <-]|].
  destruct (CheckToken c w) as [[[c1 w1] e]|] eqn:Hc; [|done]. cbn.
  apply CheckToken_spec in Hc as (Hown1 & Hd & _); [|done].
  intros (? & Hd')%IH; [|done]. split; [done|congruence].
Qed.

Lemma checks_app c ws w c' :
  checks c (ws ++ [w]) = Ret c' →
  ∃ c1 w1 e, checks c ws = Ret c1 ∧ CheckToken c1 w = Ret (c', w1, e).
Proof.
  revert c; induction ws as [|w0 ws IH]; intros c; cbn [app checks].
  - destruct (CheckToken c w) as [[[c1 w1] e]|] eqn:Hc; cbn; [|done]. intros [= <-].
    by exists c, w1, e.
  - destruct (CheckToken c w0) as [[[c1 w1] e]|]; cbn; [|done]. apply IH.
Qed.
End probe.

(** C34: After any number of checks the probe tells of the token that was read at the
    start what the last check found: it answers well exactly when the server took the
    token for valid, and says that it expired only when the server did not. *)
Theorem probe_tracks_token {W} `{!TokenReviews W} `{!ErrorRetry} ReadFile c (ws : list W) w c' :
  tokenReview c = None → Start ReadFile c (ws ++ [w]) = Ok (Ret c') →
  ∃ data, ReadFile "/var/run/secrets/kubernetes.io/serviceaccount/token" = Ok data ∧
    match Check c' with
    | None => valid w data = true
    | Some (Expired _) => valid w data = false
    | Some (Failed _) => tokenReview c' = None
    end.
Proof.
  unfold Start. intros Hnone. destruct (ReadFile _) as [data|e]; [|done]. intros Hs%Ok_inj.
  exists data. split; [done|]. apply checks_app in Hs as (c1 & w1 & e & Hws & Hc).
  apply checks_own in Hws as [Hown Hd]; [|by unfold own_token; cbn; rewrite Hnone].
  apply CheckToken_spec in Hc as (_ & _ & <- & He); [|done]. by rewrite Hd in He.
Qed.

(** A server that knows the valid tokens. *)
Definition toy_create (r : option Review) (w : list string)
    : outcome (list string * (option Review * option ReviewError)) :=
  match r with
  | None => Panic
  | Some r =>
      match token_of r with
      | None => Ret (w, (None, Some (ReviewFailed "no token")))
      | Some t => Ret (w, (Some (<["status" := VMap [("authenticated", VBool (bool_decide (t ∈ w)))]]> r), None))
      end
  end.

#[export] Instance toy_reviews : TokenReviews (list string).
Proof.
  refine {| Create := toy_create; valid w t := bool_decide (t ∈ w) |}.
  - intros r w w' o t H Ht. cbn in H. rewrite Ht in H. injection H as <- <-.
    eexists. split; [reflexivity|]. split.
    + unfold token_of. rewrite lookup_insert_ne by done. exact Ht.
    + unfold authenticated. by rewrite lookup_insert_eq.
  - intros [r|] w w' x t; cbn; [|done]. by destruct (token_of r); intros [= <- _].
  - done.
  - intros [r|] w w' o e; cbn; [|done]. by destruct (token_of r); intros [= _ <-].
Defined.

Lemma probe_tracks_token_witness :
  let c := mkAuthChecker None "token" "" (300 * 10 ^ 9)%Z None in
  let c' := mkAuthChecker (Some (Expired "token")) "token" "a.b.c" (300 * 10 ^ 9)%Z
    (Some (<["status" := VMap [("authenticated", VBool false)]]>
       (<["metadata" := VMap []]> {[ "spec" := VMap [("audiences", VNil); ("token", VString "a.b.c")] ]}))) in
  Start (H:=DefaultBackoff) (λ _, Ok "a.b.c") c ([["a.b.c"]] ++ [["x"]]) = Ok (Ret c') ∧
  Check c' = Some (Expired "token") ∧ valid ["x"] "a.b.c" = false.
Proof.
  intros c c'.
  assert (H : Start (H:=DefaultBackoff) (λ _, Ok "a.b.c") c ([["a.b.c"]] ++ [["x"]]) = Ok (Ret c'))
    by (vm_compute; reflexivity).
  split; [exact H|]. split; [reflexivity|].
  destruct (probe_tracks_token (H:=DefaultBackoff) (λ _, Ok "a.b.c") c [["a.b.c"]] ["x"] c' eq_refl H)
    as (data & [= <-] & Hv).
  exact Hv.
Defined.
