(* ===== verification/Annotator.v ===== *)
(** * The producers and the service annotator

    The model of the loop that hands the deltas of a queue to the mailbox
    ([metering/v2/pkg/mailbox/producers.go]) and of the processor that labels the
    service monitors of a service ([processors/service_processor.go]), and what
    becomes of the two where they meet: what is announced is never a service. *)

From S2P Require Import Prelude GoTime Conditions Workloads MeterDefinition MeterReport Filters NamespaceWatcher Stores Processors.
Local Open Scope go_scope.

(** ** The label ([v2/pkg/utils/env.go]) *)

(** The pair of a key and a value is a slice, which may be too short. *)
Definition GetMapKeyValue (a : list string) : outcome (string * string) :=
  match a with key :: value :: _ => Ret (key, value) | _ => Panic end.

Definition SetMapKeyValue (m : gmap string string) (a : list string) : outcome (gmap string string) :=
  '(key, value) ← GetMapKeyValue a; Ret (<[key := value]> m).

Definition HasMapKey (m : gmap string string) (a : list string) : outcome bool :=
  '(key, _) ← GetMapKeyValue a; Ret (bool_decide (is_Some (m !! key))).

Definition MeteredAnnotation : list string := ["marketplace.redhat.com/metering"; "true"].

(** ** The annotator *)

(** What is asked of the cluster: the monitors that a service owns, one of them, and
    its update. *)
Class MonitorCluster (W : Type) := {
  ListMonitors : string → W → result ClientError (list ObjectMeta);
  GetMonitor : NamespacedName → W → result ClientError ObjectMeta;
  UpdateMonitor : ObjectMeta → W → W * option ClientError
}.

(** The object of a delta: a service, what the object store announces, or another. *)
Inductive DeltaObject (LS : Type) :=
| OService (m : ObjectMeta)
| OEnhanced (e : MeterDefinitionEnhancedObject LS)
| OOther.
Arguments OService {LS} m.
Arguments OEnhanced {LS} e.
Arguments OOther {LS}.

Section annotator.
Context {LS W : Type} `{!MonitorCluster W} `{!ConflictRetry}.

Definition monitor_key (m : ObjectMeta) : NamespacedName := mkNN (Namespace m) (Name m).

Definition with_labels (l : gmap string string) (m : ObjectMeta) : ObjectMeta :=
  mkMeta (Name m) (Namespace m) (UID m) (Generation m) l (Annotations m) (OwnerReferences m).

(** The closure that is retried. *)
Definition label_monitor (key : NamespacedName) (w : W) : outcome (W * option ClientError) :=
  match GetMonitor key w with
  | Err e => Ret (w, Some e)
  | Ok m =>
      metered ← HasMapKey (Labels m) MeteredAnnotation;
      if (metered : bool) then Ret (w, None)
      else labels ← SetMapKeyValue (Labels m) MeteredAnnotation;
           Ret (UpdateMonitor (with_labels labels m) w)
  end.

(** The label has both parts, so the closure does not panic. *)
Definition label_step (key : NamespacedName) (w : W) : W * option ClientError :=
  match label_monitor key w with Ret r => r | Panic => (w, None) end.

(** The failure of one monitor is only logged. *)
Definition ServiceProcess (inObj : CacheDelta (DeltaObject LS)) (w : W) : W * option ClientError :=
  if DType inObj != Added then (w, None)
  else match DObject inObj with
       | OService obj =>
           match ListMonitors (UID obj) w with
           | Err IsNotFound => (w, None)
           | Err e => (w, Some e)
           | Ok list =>
               (foldl (λ w sm, (RetryOnConflict (label_step (monitor_key sm)) w).1) w list, None)
           end
       | _ => (w, None)
       end.
End annotator.

(** ** The producers *)

Section producer.
Context {LS F : Type} `{!LookupFactory LS F}.

(** One turn of the loop on the object store: the deltas of an object are taken off
    the queue and broadcast; when that fails, what was popped is added to the store
    again, as it is: a list of deltas. *)
Definition producer_turn (GVKForObject : GoType → option GroupVersionKind)
    (dictionary : MeterDefinitionDictionary LS F) (order : list F → list F)
    (deltas : list (CacheDelta (DeltaObject LS))) (mb : Mailbox (DeltaObject LS))
    (st : MeterDefinitionStore LS)
    : Mailbox (DeltaObject LS) * MeterDefinitionStore LS :=
  match handlePop ObjectChannel deltas mb with
  | (mb, None) => (mb, st)
  | (mb, Some _) => (mb, (Add GVKForObject dictionary order AOther st).1)
  end.

(** What the queue of the object store makes of a call to it. *)
Definition announced (d : Delta (MeterDefinitionEnhancedObject LS)) : list (CacheDelta (DeltaObject LS)) :=
  match d with
  | DAdd e => [mkDelta Added (OEnhanced e)]
  | DUpdate e => [mkDelta Updated (OEnhanced e)]
  | DDelete e => [mkDelta Deleted (OEnhanced e)]
  | DReplace l => (λ e, mkDelta Replaced (OEnhanced e)) <$> l
  end.
End producer.

(** ** The laws of the cluster *)

(** [monitors] is what is stored: a read sees it, the list holds the monitors that
    carry the service among their owners, and an update stores the labels it is given
    or nothing. *)
Class MonitorStore (W : Type) `{!MonitorCluster W} := {
  monitors : W → gmap NamespacedName ObjectMeta;
  get_monitor_law : ∀ key w,
    match GetMonitor key w with Ok m => monitors w !! key = Some m | Err _ => True end;
  list_monitors_law : ∀ uid w l,
    ListMonitors uid w = Ok l →
    ∀ m, m ∈ l ↔ monitors w !! monitor_key m = Some m ∧ uid ∈ (ORUID <$> OwnerReferences m);
  monitor_named : ∀ w key m, monitors w !! key = Some m → monitor_key m = key;
  update_monitor_law : ∀ m w,
    match UpdateMonitor m w with
    | (w', None) => monitors w' = <[monitor_key m := m]> (monitors w)
    | (w', Some _) => monitors w' = monitors w
    end
}.

Definition metered (m : ObjectMeta) : Prop :=
  is_Some (Labels m !! "marketplace.redhat.com/metering").

(** [m'] is [m], or [m] with the label it did not have. *)
Definition labelled (m m' : ObjectMeta) : Prop :=
  m' = m ∨ (¬ metered m ∧ m' = with_labels (<["marketplace.redhat.com/metering" := "true"]> (Labels m)) m).

Lemma with_labels_metered m :
  metered (with_labels (<["marketplace.redhat.com/metering" := "true"]> (Labels m)) m).
Proof. unfold metered. cbn. by rewrite lookup_insert_eq. Qed.

Section label.
Context {W : Type} `{!MonitorCluster W} `{!MonitorStore W} `{!ConflictRetry}.

Lemma label_step_eq key w :
  label_step key w =
  match GetMonitor key w with
  | Err e => (w, Some e)
  | Ok m =>
      if bool_decide (metered m) then (w, None)
      else UpdateMonitor (with_labels (<["marketplace.redhat.com/metering" := "true"]> (Labels m)) m) w
  end.
Proof.
  unfold label_step, label_monitor. destruct (GetMonitor key w) as [m|e]; [|done].
  unfold HasMapKey, SetMapKeyValue, metered. cbn [mbind outcome_mbind GetMapKeyValue MeteredAnnotation].
  by destruct (bool_decide (is_Some (Labels m !! _))).
Qed.

(** What one run of the closure does to the monitors. *)
Definition label_one (key : NamespacedName) (w w' : W) : Prop :=
  (∀ k, k ≠ key → monitors w' !! k = monitors w !! k) ∧
  option_Forall2 labelled (monitors w !! key) (monitors w' !! key).

Lemma labelled_trans m1 m2 m3 : labelled m1 m2 → labelled m2 m3 → labelled m1 m3.
Proof.
  intros [->|[Hn ->]]; [done|]. intros [->|[Hn' _]]; [by right|]. destruct Hn'. apply with_labels_metered.
Qed.

Lemma label_one_refl key w w' : monitors w' = monitors w → label_one key w w'.
Proof.
  intros Hm. split; [by rewrite Hm|]. rewrite Hm. destruct (monitors w !! key); constructor. by left.
Qed.

Lemma label_one_trans key w1 w2 w3 : label_one key w1 w2 → label_one key w2 w3 → label_one key w1 w3.
Proof.
  intros [Ho1 Hk1] [Ho2 Hk2]. split; [intros k Hk; by rewrite Ho2, Ho1|].
  destruct Hk1 as [m1 m2 H12|]; inversion Hk2 as [? m3 H23 Heq|Heq]; subst; constructor.
  by eapply labelled_trans.
Qed.

Lemma label_step_one key w :
  label_one key w (label_step key w).1 ∧
  ((label_step key w).2 = None → ∃ m, monitors (label_step key w).1 !! key = Some m ∧ metered m).
Proof.
  rewrite label_step_eq. pose proof (get_monitor_law key w) as Hg.
  destruct (GetMonitor key w) as [m|e]; [|by split; [apply label_one_refl|]].
  destruct (bool_decide_reflect (metered m)) as [Hm|Hm].
  { split; [by apply label_one_refl|]. by exists m. }
  pose proof (monitor_named w key m Hg) as Hkey. set (m' := with_labels _ m).
  assert (Hk' : monitor_key m' = key) by done.
  pose proof (update_monitor_law m' w) as Hu.
  destruct (UpdateMonitor m' w) as [w' [e|]]; cbn [fst snd].
  - split; [by apply label_one_refl|done].
  - rewrite Hk' in Hu. split.
    + split; [intros k Hk; by rewrite Hu, lookup_insert_ne|].
      rewrite Hg, Hu, lookup_insert_eq. constructor. by right.
    + intros _. exists m'. rewrite Hu, lookup_insert_eq. split; [done|apply with_labels_metered].
Qed.

Lemma retried_label key w r :
  retried (label_step key) w r →
  label_one key w r.1 ∧ (r.2 = None → ∃ m, monitors r.1 !! key = Some m ∧ metered m).
Proof.
  induction 1 as [w|w w' r Hf _ [IH1 IH2]]; [apply label_step_one|].
  pose proof (label_step_one key w) as [Hl _]. rewrite Hf in Hl.
  split; [by eapply label_one_trans|done].
Qed.

(** What the loop over the monitors of a service leaves. *)
Definition label_all (l : list ObjectMeta) (w w' : W) : Prop :=
  ∀ key, option_Forall2 labelled (monitors w !! key) (monitors w' !! key) ∧
    (key ∉ (monitor_key <$> l) → monitors w' !! key = monitors w !! key).

Lemma label_loop l w :
  let w' := foldl (λ w sm, (RetryOnConflict (label_step (monitor_key sm)) w).1) w l in
  label_all l w w' ∧
  ∀ sm, sm ∈ l →
    (∃ m, monitors w' !! monitor_key sm = Some m ∧ metered m) ∨
    ∃ w1 w2 e, RetryOnConflict (label_step (monitor_key sm)) w1 = (w2, Some e).
Proof.
  revert w; induction l as [|sm l IH]; intros w; cbn [foldl].
  { split; [|by intros sm ?%elem_of_nil]. intros key. split; [|done].
    destruct (monitors w !! key); constructor. by left. }
  pose proof (retried_label (monitor_key sm) w _ (RetryOnConflict_law _ w)) as [Hone Hset].
  destruct (RetryOnConflict _ w) as [w1 e] eqn:Hr. cbn [fst snd] in *.
  destruct (IH w1) as [Hall Hmet]. set (w' := foldl _ w1 l) in *. split.
  - intros key. destruct (Hall key) as [Hk Hn]. split.
    + destruct (decide (key = monitor_key sm)) as [->|Hne].
      * destruct Hone as [_ Hk1]. destruct Hk1 as [m1 m2 H12|];
          inversion Hk as [? m3 H23 Heq|Heq]; subst; constructor. by eapply labelled_trans.
      * destruct Hone as [Ho _]. by rewrite <- (Ho key Hne).
    + cbn. intros [Hne Hin]%not_elem_of_cons. rewrite Hn by done. by apply Hone.
  - intros sm' [->|Hin]%elem_of_cons; [|by apply Hmet].
    destruct e as [e|]; [right; by exists w, w1, e|].
    destruct (Hset eq_refl) as (m & Hm & Hmm). left.
    destruct (Hall (monitor_key sm)) as [Hk _]. rewrite Hm in Hk.
    inversion Hk as [? m' Hl Heq|]; subst. exists m'. split; [done|].
    destruct Hl as [->|[Hn _]]; [done|by destruct Hn].
Qed.
End label.

(** A service that is added has the monitors that it owns labelled, each one that
    could be written; every other monitor, and everything of a monitor but the label,
    is as it was, and a label that is there is kept. *)
Theorem ServiceProcess_labels {LS W} `{!MonitorCluster W} `{!MonitorStore W} `{!ConflictRetry}
    (obj : ObjectMeta) (w w' : W) l e :
  ServiceProcess (mkDelta Added (@OService LS obj)) w = (w', e) → ListMonitors (UID obj) w = Ok l →
  e = None ∧ label_all l w w' ∧
  ∀ sm, sm ∈ l →
    (∃ m, monitors w' !! monitor_key sm = Some m ∧ metered m) ∨
    ∃ w1 w2 e, RetryOnConflict (label_step (monitor_key sm)) w1 = (w2, Some e).
Proof.
  intros Hp Hl. unfold ServiceProcess in Hp. cbn [DType DObject] in Hp.
  rewrite bool_decide_true in Hp by done. cbn [negb] in Hp. rewrite Hl in Hp.
  injection Hp as <- <-. split; [done|]. exact (label_loop l w).
Qed.

(** What the object store announces is never a service: the annotator, which listens
    to the same channel, does nothing. *)
Theorem annotator_idle {LS W} `{!MonitorCluster W} `{!ConflictRetry}
    (calls : list (Delta (MeterDefinitionEnhancedObject LS))) (d : CacheDelta (DeltaObject LS)) (w : W) :
  d ∈ calls ≫= announced → ServiceProcess d w = (w, None).
Proof.
  intros (c & Hd & _)%list_elem_of_bind.
  assert (He : ∃ t e, d = mkDelta t (OEnhanced e)).
  { destruct c; cbn [announced] in Hd; try (apply list_elem_of_singleton in Hd as ->; by do 2 eexists).
    apply list_elem_of_fmap in Hd as (e & -> & _). by do 2 eexists. }
  destruct He as (t & e & ->). unfold ServiceProcess. cbn. by destruct (negb _).
Qed.

(** What could not be broadcast is lost: the store refuses a list of deltas. *)
Theorem failed_broadcast_lost {LS F} `{!LookupFactory LS F} GVKForObject
    (dictionary : MeterDefinitionDictionary LS F) order d deltas (mb : Mailbox (DeltaObject LS)) st :
  mb !! ObjectChannel = None →
  producer_turn GVKForObject dictionary order (d :: deltas) mb st = (mb, st).
Proof. intros Hmb. unfold producer_turn. cbn [handlePop]. unfold Broadcast. by rewrite Hmb. Qed.
