(* ===== verification/OwnerLookup.v ===== *)
(** * Finding the owners of an object

    The model of [v2/pkg/client]: the helper that looks up an owner for the filters
    ([find_owner.go]), with the check of its access ([access.go]) and the informers it
    starts, and the indexes of the cache ([gvk_indexer.go], [managers/index.go]) by
    which objects are found by their owners. The API server and the informers are
    interfaces. *)

From S2P Require Import Prelude GoTime Workloads PromQuery Filters MeterReport.
Local Open Scope go_scope.

(** ** Resources *)

Record GVR := mkGVR { GGroup : string; GVersion : string; GResource : string }.

#[export] Instance GVR_eq_dec : EqDecision GVR.
Proof. solve_decision. Defined.

#[export] Instance GVR_countable : Countable GVR.
Proof.
  refine (inj_countable' (λ g, (GGroup g, GVersion g, GResource g))
    (λ p, mkGVR p.1.1 p.1.2 p.2) _). by intros [].
Defined.

(** [meta.RESTMapping]: a resource, its kind, and its scope. *)
Record RESTMapping := mkMapping { Resource : GVR; MKind : string; Scope : string }.

#[export] Instance RESTMapping_eq_dec : EqDecision RESTMapping.
Proof. solve_decision. Defined.

#[export] Instance RESTMapping_countable : Countable RESTMapping.
Proof.
  refine (inj_countable' (λ m, (Resource m, MKind m, Scope m))
    (λ p, mkMapping p.1.1 p.1.2 p.2) _). by intros [].
Defined.

(** [strings.Split] by a character: the parts between its occurrences. *)
Fixpoint split_at (c : Ascii.ascii) (s : string) : list string :=
  match s with
  | EmptyString => [""]
  | String a s =>
      if Ascii.eqb a c then "" :: split_at c s
      else match split_at c s with
           | [] => [String a ""]
           | p :: ps => String a p :: ps
           end
  end.

Definition slash : Ascii.ascii := Eval cbv in Ascii.ascii_of_nat 47.
Definition comma : Ascii.ascii := Eval cbv in Ascii.ascii_of_nat 44.

(** The group and the version of an [apiVersion]; what follows a second slash is not
    looked at. *)
Definition group_version (apiVersion : string) : string * string :=
  match split_at slash apiVersion with
  | group :: version :: _ => (group, version)
  | _ => ("", apiVersion)
  end.

(** ** The API server *)

(** The mapping of a kind, a review of the own access, and the lister of an informer:
    an object by its namespace and name, or by its name alone. *)
Class MetadataCluster (W : Type) := {
  MapKind : string → string → string → W → result ClientError RESTMapping;
  ReviewAccess : GVR → string → W → result ClientError bool;
  ListerGet : GVR → option string → string → W → result ClientError ObjectMeta
}.

Inductive FindError :=
| ENoMapping (e : ClientError) | EReview (e : ClientError) | EAccessDenied (r : GVR)
| EGetResource (e : ClientError).

(** The informers that run, by mapping, and the resources they were started for. *)
Record InformerMappings := mkInformers {
  resourceInformerMappings : gmap RESTMapping GVR;
  informers_started : list GVR
}.

Section find.
Context {W : Type} `{!MetadataCluster W}.

(** The reviews are made one after the other; the first that is not granted ends it. *)
Fixpoint check_verbs (gvr : GVR) (verbs : list string) (w : W) : result FindError bool :=
  match verbs with
  | [] => Ok true
  | verb :: verbs =>
      match ReviewAccess gvr verb w with
      | Err e => Err (EReview e)
      | Ok allowed => if !allowed then Err (EAccessDenied gvr) else check_verbs gvr verbs w
      end
  end.

Definition CheckAccess (gvr : GVR) (w : W) : result FindError bool :=
  check_verbs gvr ["list"; "get"; "watch"] w.

Definition GetInformer (mapping : RESTMapping) (i : InformerMappings) : InformerMappings * GVR :=
  match resourceInformerMappings i !! mapping with
  | Some informer => (i, informer)
  | None =>
      let informer := Resource mapping in
      (mkInformers (<[mapping := informer]> (resourceInformerMappings i))
         (informers_started i ++ [informer]), informer)
  end.

(** The object is looked for in the namespace, then without one. *)
Definition FindOwner (name namespace : string) (lookupOwner : OwnerReference) (w : W)
    (i : InformerMappings) : InformerMappings * result FindError (list OwnerReference) :=
  let '(group, version) := group_version (ORAPIVersion lookupOwner) in
  match MapKind group (ORKind lookupOwner) version w with
  | Err e => (i, Err (ENoMapping e))
  | Ok mapping =>
      match CheckAccess (Resource mapping) w with
      | Err e => (i, Err e)
      | Ok _ =>
          let '(i, informer) := GetInformer mapping i in
          match ListerGet informer (Some namespace) name w with
          | Ok result => (i, Ok (OwnerReferences result))
          | Err _ =>
              match ListerGet informer None name w with
              | Ok result => (i, Ok (OwnerReferences result))
              | Err e => (i, Err (EGetResource e))
              end
          end
      end
  end.
End find.

(** ** The indexes of the cache *)

Definition IndexOwnerRefContains : string := ".metadata.ownerReferences".
Definition IndexAnnotations : string := ".metadata.annotations".
Definition IndexUID : string := ".metadata.UID".
Definition IndexOperatorSourceNamespaces : string := "operatorsource.namespace".
Definition IndexOperatorSourceProvidedAPIs : string := "operatorsource.providedAPIs".

Definition indexOwner (o : Object) : list string :=
  if length (OwnerReferences (ObjMeta o)) =? 0 then []
  else ORUID <$> OwnerReferences (ObjMeta o).

(** The entries are made and dropped. *)
Definition indexAnnotations (o : Object) : list string :=
  let results := (λ e, e.1 +:+ "=" +:+ e.2) <$> map_to_list (Annotations (ObjMeta o)) in
  [].

Definition indexUID (o : Object) : list string := [UID (ObjMeta o)].

(** An operator group: the namespaces of its status, the interfaces of its annotation. *)
Definition TOperatorGroup : GoType := TOther "OperatorGroup".

Section operator_group.
(** [og.Status.Namespaces]. *)
Variable group_namespaces : Object → list string.

Definition indexOperatorSourceNamespaces (o : Object) : list string :=
  if ObjType o == TOperatorGroup then group_namespaces o else [].

Definition indexOperatorSourceProvidedAPIs (o : Object) : list string :=
  if ObjType o == TOperatorGroup then
    match Annotations (ObjMeta o) !! "olm.providedAPIs" with
    | None => []
    | Some val => split_at comma val
    end
  else [].

Definition ObjRefToStr (apiversion kind : string) : string :=
  match split_at slash apiversion with
  | [group; version] => ToLower (kind +:+ "." +:+ version +:+ "." +:+ group)
  | _ => ""
  end.

(** [getOwnersReferences]: all the owners, or the one that controls the object. *)
Definition getOwnersReferences (GetControllerOf : ObjectMeta → option OwnerReference)
    (object : option ObjectMeta) (isController : bool) : list OwnerReference :=
  match object with
  | None => []
  | Some m =>
      if !isController then OwnerReferences m
      else match GetControllerOf m with Some ref => [ref] | None => [] end
  end.

(** A cache takes an index of a type under a name. *)
Class FieldIndexer (W : Type) := {
  IndexField : GoType → string → (Object → list string) → W → W * option string
}.

Section add.
Context {W : Type} `{!FieldIndexer W}.

Fixpoint index_types (field : string) (f : Object → list string) (types : list GoType) (w : W)
    : W * option string :=
  match types with
  | [] => (w, None)
  | rType :: types =>
      match IndexField rType field f w with
      | (w, Some e) => (w, Some e)
      | (w, None) => index_types field f types w
      end
  end.

Definition AddOwningControllerIndex : list GoType → W → W * option string :=
  index_types IndexOwnerRefContains indexOwner.
Definition AddUIDIndex : list GoType → W → W * option string := index_types IndexUID indexUID.
Definition AddAnnotationIndex : list GoType → W → W * option string :=
  index_types IndexAnnotations indexAnnotations.

Definition AddOperatorSourceIndex (w : W) : W * option string :=
  match IndexField TOperatorGroup IndexOperatorSourceNamespaces indexOperatorSourceNamespaces w with
  | (w, Some e) => (w, Some e)
  | (w, None) =>
      IndexField TOperatorGroup IndexOperatorSourceProvidedAPIs indexOperatorSourceProvidedAPIs w
  end.

Definition AddIndices (w : W) : W * option string :=
  match AddOperatorSourceIndex w with
  | (w, Some e) => (w, Some e)
  | (w, None) =>
      match AddOwningControllerIndex [TPod; TService; TPersistentVolumeClaim; TServiceMonitor] w with
      | (w, Some e) => (w, Some e)
      | (w, None) =>
          AddUIDIndex [TPod; TService; TPersistentVolumeClaim; TMeterDefinition; TServiceMonitor] w
      end
  end.
End add.
End operator_group.

(** ** Splitting *)

Lemma split_at_nonempty c s : split_at c s ≠ [].
Proof. induction s as [|a s IH]; cbn; [done|]. destruct (Ascii.eqb a c); [done|]. by destruct (split_at c s). Qed.

(** The parts joined again are the string. *)
Lemma Join_split_at c s : Join (split_at c s) (String c "") = s.
Proof.
  unfold Join. induction s as [|a s IH]; cbn [split_at]; [done|].
  pose proof (split_at_nonempty c s) as Hne.
  destruct (Ascii.eqb_spec a c) as [->|Hac].
  - destruct (split_at c s) as [|p ps]; [done|]. cbn in IH |- *. by rewrite IH.
  - destruct (split_at c s) as [|p ps]; [done|]. cbn in IH |- *.
    destruct ps as [|q ps]; cbn in IH |- *; exact (f_equal (String a) IH).
Qed.

Lemma group_version_core version :
  cut_at slash version = None → group_version version = ("", version).
Proof.
  assert (H : ∀ s, cut_at slash s = None → split_at slash s = [s]).
  { induction s as [|a s IH]; cbn [cut_at split_at]; [done|]. destruct (Ascii.eqb a slash); [done|].
    destruct (cut_at slash s) as [[l r]|]; [done|]. intros _. by rewrite IH. }
  unfold group_version. by intros ->%H.
Qed.

(** ** Looking up an owner *)

(** What is stored: by resource, by namespace (none for an object of the cluster) and
    by name. *)
Class MetadataStore (W : Type) `{!MetadataCluster W} := {
  stored : W → gmap (GVR * option string * string) ObjectMeta;
  lister_law : ∀ gvr ns name w,
    result_ok (ListerGet gvr ns name w) = stored w !! (gvr, ns, name)
}.

(** Every informer is of the resource it is kept for, and was started once. *)
Definition informers_ok (i : InformerMappings) : Prop :=
  (∀ m g, resourceInformerMappings i !! m = Some g → g = Resource m) ∧
  length (informers_started i) = size (resourceInformerMappings i).

Section lookup.
Context {W : Type} `{!MetadataCluster W} `{!MetadataStore W}.
Implicit Types (w : W) (i : InformerMappings).

Lemma check_verbs_Ok gvr verbs w b :
  check_verbs gvr verbs w = Ok b ↔ b = true ∧ ∀ v, v ∈ verbs → ReviewAccess gvr v w = Ok true.
Proof.
  induction verbs as [|v verbs IH]; cbn [check_verbs].
  { split; [intros [= <-]; split; [done|by intros v ?%elem_of_nil]|by intros [-> _]]. }
  destruct (ReviewAccess gvr v w) as [[]|e] eqn:Hv; cbn [negb].
  - rewrite IH. split; intros [-> H]; (split; [done|]).
    + intros v' [->|?]%elem_of_cons; auto.
    + intros v' ?. apply H. by right.
  - split; [done|]. intros [_ H]. specialize (H v (list_elem_of_here _ _)). congruence.
  - split; [done|]. intros [_ H]. specialize (H v (list_elem_of_here _ _)). congruence.
Qed.

Lemma GetInformer_ok m i : informers_ok i → informers_ok (GetInformer m i).1 ∧ (GetInformer m i).2 = Resource m.
Proof.
  intros [Hm Hl]. unfold GetInformer. destruct (resourceInformerMappings i !! m) as [g|] eqn:Hg; cbn.
  { split; [done|]. by apply Hm. }
  split; [|done]. split; cbn.
  - intros m' g. destruct (decide (m = m')) as [<-|Hne].
    + rewrite lookup_insert_eq. by intros [= <-].
    + rewrite lookup_insert_ne by done. apply Hm.
  - rewrite length_app, map_size_insert_None by done. cbn. lia.
Qed.

Lemma FindOwner_informers name ns ref w i : informers_ok i → informers_ok (FindOwner name ns ref w i).1.
Proof.
  intros Hi. unfold FindOwner. destruct (group_version _) as [g v].
  destruct (MapKind g (ORKind ref) v w) as [m|]; [|done].
  destruct (CheckAccess (Resource m) w); [|done].
  pose proof (GetInformer_ok m i Hi) as [Hok _]. destruct (GetInformer m i) as [i' g'].
  destruct (ListerGet _ (Some ns) _ _); [done|]. by destruct (ListerGet _ None _ _).
Qed.

(** The object that is looked up: the one of the namespace, or else of the cluster. *)
Definition looked_up (gvr : GVR) (ns name : string) w : option ObjectMeta :=
  match stored w !! (gvr, Some ns, name) with
  | Some o => Some o
  | None => stored w !! (gvr, None, name)
  end.

Lemma looked_up_eq gvr ns name w :
  looked_up gvr ns name w =
  match ListerGet gvr (Some ns) name w with
  | Ok o => Some o
  | Err _ => result_ok (ListerGet gvr None name w)
  end.
Proof. unfold looked_up. rewrite <- !lister_law. by destruct (ListerGet gvr (Some ns) name w). Qed.

Lemma FindOwner_Ok name ns ref w i refs :
  informers_ok i →
  (FindOwner name ns ref w i).2 = Ok refs ↔
  ∃ m o, MapKind (group_version (ORAPIVersion ref)).1 (ORKind ref)
           (group_version (ORAPIVersion ref)).2 w = Ok m ∧
    (∀ v, v ∈ ["list"; "get"; "watch"] → ReviewAccess (Resource m) v w = Ok true) ∧
    looked_up (Resource m) ns name w = Some o ∧ refs = OwnerReferences o.
Proof.
  intros Hi. unfold FindOwner. destruct (group_version _) as [g v]; cbn [fst snd].
  destruct (MapKind g (ORKind ref) v w) as [m|e]; [|split; [done|by intros (? & ? & ? & _)]].
  destruct (CheckAccess (Resource m) w) as [b|e] eqn:Ha; unfold CheckAccess in Ha; cycle 1.
  { split; [done|]. intros (m' & o & [= <-] & Hv & _).
    assert (Hok : check_verbs (Resource m) ["list"; "get"; "watch"] w = Ok true)
      by (by apply check_verbs_Ok). congruence. }
  apply check_verbs_Ok in Ha as [-> Ha]. pose proof (GetInformer_ok m i Hi) as [_ Hg].
  destruct (GetInformer m i) as [i' g']; cbn [snd] in Hg; subst g'.
  pose proof (looked_up_eq (Resource m) ns name w) as Hlk.
  destruct (ListerGet (Resource m) (Some ns) name w) as [o|e]; cbn in Hlk |- *.
  { split; [intros [= <-]; by exists m, o|]. intros (m' & o' & [= <-] & _ & Ho & ->). congruence. }
  destruct (ListerGet (Resource m) None name w) as [o|e']; cbn in Hlk |- *.
  - split; [intros [= <-]; by exists m, o|]. intros (m' & o' & [= <-] & _ & Ho & ->). congruence.
  - split; [done|]. intros (m' & o' & [= <-] & _ & Ho & _). congruence.
Qed.

(** What the filters are given: the error as they tell it apart. A wrapped error is seen
    through, so that an owner that is gone is one that is not found. *)
Definition filter_error (e : FindError) : FilterError :=
  match e with
  | EAccessDenied _ => Filters.EAccessDenied
  | ENoMapping e | EReview e | EGetResource e =>
      match e with IsNotFound => ENotFound | e => EOther (client_error e) end
  end.

Definition lookup_owner w i (name ns : string) (ref : OwnerReference)
    : result FilterError (list OwnerReference) :=
  match (FindOwner name ns ref w i).2 with Ok refs => Ok refs | Err e => Err (filter_error e) end.

(** The objects the owners are, one above the other. *)
Inductive stored_chain (ns : string) w : list OwnerReference → OwnerReference → Prop :=
| stored_here refs t : t ∈ refs → stored_chain ns w refs t
| stored_up refs r m o t :
    r ∈ refs →
    MapKind (group_version (ORAPIVersion r)).1 (ORKind r) (group_version (ORAPIVersion r)).2 w = Ok m →
    looked_up (Resource m) ns (ORName r) w = Some o →
    stored_chain ns w (OwnerReferences o) t →
    stored_chain ns w refs t.

Lemma lookup_chain ns w i refs t :
  informers_ok i → owner_chain (lookup_owner w i) ns refs t → stored_chain ns w refs t.
Proof.
  intros Hi. induction 1 as [refs t Hin|refs r refs' t Hin Hf Hc IH]; [by constructor|].
  unfold lookup_owner in Hf. destruct (FindOwner _ _ _ _ _).2 as [l|] eqn:Hl; [|done].
  injection Hf as ->. apply FindOwner_Ok in Hl as (m & o & Hm & _ & Ho & ->); [|done].
  by eapply stored_up.
Qed.
End lookup.

(** C31: The owner filter of a definition, on what the cluster holds: an object passes it
    only when an owner of the group, version and kind is reached from its references
    through objects that are stored, whatever informers run already. *)
Theorem owner_filter_sound {W} `{!MetadataCluster W} `{!MetadataStore W} (w : W) i fuel g m d :
  informers_ok i →
  getOwners (lookup_owner w i) fuel g (Name m) (Namespace m) None (OwnerReferences m) 0 d = Some (Ok true) →
  ∃ t, stored_chain (Namespace m) w (OwnerReferences m) t ∧
       ORAPIVersion t = APIVersion g ∧ ORKind t = Kind g.
Proof.
  intros Hi (refs & t & -> & Hc & Hm)%getOwners_sound. exists t.
  split; [by eapply lookup_chain|]. unfold owner_matches in Hm. by go_bool.
Qed.

(** A pod whose replica set belongs to a deployment. *)
Definition pod_refs : list OwnerReference := [mkOwnerRef "apps/v1" "ReplicaSet" "rs" "1"].
Definition rs_meta : ObjectMeta :=
  mkMeta "rs" "ns" "1" 1 ∅ ∅ [mkOwnerRef "apps/v1" "Deployment" "d" "2"].
Definition rs_mapping : RESTMapping := mkMapping (mkGVR "apps" "v1" "replicasets") "ReplicaSet" "namespace".

#[export] Instance toy_metadata : MetadataCluster (gmap (GVR * option string * string) ObjectMeta) := {
  MapKind group kind version _ :=
    if (group == "apps") && (kind == "ReplicaSet") && (version == "v1") then Ok rs_mapping
    else Err (OtherFailure "no match");
  ReviewAccess _ _ _ := Ok true;
  ListerGet gvr ns name w := match w !! (gvr, ns, name) with Some o => Ok o | None => Err IsNotFound end
}.

#[export, refine] Instance toy_metadata_store :
  MetadataStore (gmap (GVR * option string * string) ObjectMeta) := {| stored w := w |}.
Proof. intros gvr ns name w. cbn. by destruct (w !! _). Defined.

Lemma owner_filter_sound_witness :
  ∃ t, stored_chain "ns" {[ (mkGVR "apps" "v1" "replicasets", Some "ns", "rs") := rs_meta ]} pod_refs t ∧
       ORAPIVersion t = "apps/v1" ∧ ORKind t = "Deployment".
Proof.
  assert (Hi : informers_ok (mkInformers ∅ [])) by (split; [done|reflexivity]).
  assert (Hg : getOwners (lookup_owner {[ (mkGVR "apps" "v1" "replicasets", Some "ns", "rs") := rs_meta ]}
      (mkInformers ∅ [])) 6 (mkGVK "apps/v1" "Deployment") "p" "ns" None pod_refs 0 5 = Some (Ok true))
    by (vm_compute; reflexivity).
  exact (owner_filter_sound _ _ 6 (mkGVK "apps/v1" "Deployment")
    (mkMeta "p" "ns" "" 0 ∅ ∅ pod_refs) 5 Hi Hg).
Defined.

(** An owner that is gone is not found, which ends a test quietly. *)
Example owner_gone :
  lookup_owner (∅ : gmap (GVR * option string * string) ObjectMeta) (mkInformers ∅ []) "rs" "ns"
    (mkOwnerRef "apps/v1" "ReplicaSet" "rs" "1") = Err ENotFound.
Proof. vm_compute. reflexivity. Qed.

(** ** Indexes *)

Lemma indexOwner_spec o uid :
  uid ∈ indexOwner o ↔ ∃ ref, ref ∈ OwnerReferences (ObjMeta o) ∧ ORUID ref = uid.
Proof.
  unfold indexOwner. destruct (OwnerReferences (ObjMeta o)) as [|r refs] eqn:Hr.
  - cbn. split; [by intros ?%elem_of_nil|]. by intros (? & ?%elem_of_nil & _).
  - cbn [length Nat.eqb]. rewrite list_elem_of_fmap. split; intros (x & H1 & H2); by exists x.
Qed.

(** No object is found by its annotations. *)
Lemma indexAnnotations_nothing o : indexAnnotations o = [].
Proof. done. Qed.

(** A cache that took every index: the types are indexed under their names. *)
Section indexed.
Context {W : Type} `{!FieldIndexer W}.
Variable indexed : W → GoType → string → option (Object → list string).
Hypothesis index_law : ∀ t field f w w',
  IndexField t field f w = (w', None) →
  indexed w' t field = Some f ∧
  ∀ t' field', (t', field') ≠ (t, field) → indexed w' t' field' = indexed w t' field'.

Lemma index_types_indexed field f types w w' t :
  index_types field f types w = (w', None) →
  indexed w' t field = (if bool_decide (t ∈ types) then Some f else indexed w t field) ∧
  ∀ field', field' ≠ field → indexed w' t field' = indexed w t field'.
Proof.
  revert w; induction types as [|t0 types IH]; intros w; cbn [index_types].
  { by intros [= <-]. }
  destruct (IndexField t0 field f w) as [w1 [e|]] eqn:Hi; [done|].
  apply index_law in Hi as [Hset Hkeep]. intros [Hin Hout]%IH. split.
  - rewrite Hin. destruct (decide (t ∈ types)) as [Ht|Ht].
    { rewrite !bool_decide_true; [done|by right|done]. }
    rewrite bool_decide_false by done. destruct (decide (t = t0)) as [->|Hne].
    { rewrite bool_decide_true by by left. done. }
    rewrite bool_decide_false by (by rewrite not_elem_of_cons). apply Hkeep. congruence.
  - intros field' Hf. rewrite Hout by done. apply Hkeep. congruence.
Qed.

(** After the start the monitors are found by the identifiers of their owners, as the
    service annotator asks for them. *)
Lemma AddIndices_monitors group_namespaces w w' :
  AddIndices group_namespaces w = (w', None) →
  indexed w' TServiceMonitor IndexOwnerRefContains = Some indexOwner.
Proof.
  unfold AddIndices. destruct (AddOperatorSourceIndex _ w) as [w1 [e|]]; [done|].
  unfold AddOwningControllerIndex, AddUIDIndex.
  destruct (index_types IndexOwnerRefContains indexOwner _ w1) as [w2 [e|]] eqn:H2; [done|].
  intros H3. apply index_types_indexed with (t := TServiceMonitor) in H2 as [H2 _].
  apply index_types_indexed with (t := TServiceMonitor) in H3 as [_ H3].
  rewrite H3 by done. rewrite H2. by rewrite bool_decide_true by (repeat constructor).
Qed.
End indexed.
