(* ===== verification/FileStore.v ===== *)
(** * The database under the file service

    The model of the store of files ([airgap/v2/pkg/database/filestore.go]): saving a
    file or changing the one with its key, deleting, and cleaning up what was deleted.
    The object-relational mapper is the interface [Gorm], to which the deletions are
    given as the code builds them; its laws say what its calls do to the three tables of [airgap/v2/pkg/models/v2]; the unique indexes declared
    there make each table a finite map. The store implements the interface of the
    handlers in [FileServer]. *)

From Stdlib Require Import Strings.Byte.
From S2P Require Import Prelude GoTime Strconv FileServer.
Local Open Scope go_scope.

(** ** The tables *)

Record FileRow := mkFileRow {
  RName : string; RSource : string; RSourceType : string; RDeletedAt : option GoTime
}.

(** Contents by the file they belong to, metadata by file and key. *)
Record Tables := mkTables {
  stored_files : gmap Z FileRow;
  stored_file_contents : gmap Z StoredFileContent;
  stored_file_metadata : gmap (Z * string) string
}.

#[export] Instance StoredFileContent_eq_dec : EqDecision StoredFileContent.
Proof. solve_decision. Defined.

#[export] Instance StoredFileKey_eq_dec : EqDecision StoredFileKey.
Proof. solve_decision. Defined.

(** ** The mapper *)

Inductive GormError := RecordNotFound | DatabaseIsLocked | DBError (msg : string).

#[export] Instance GormError_eq_dec : EqDecision GormError.
Proof. solve_decision. Defined.

Definition gorm_error (e : GormError) : StoreError :=
  match e with
  | RecordNotFound => SRecordNotFound
  | DatabaseIsLocked => SOther "database is locked"
  | DBError msg => SOther msg
  end.

(** A deletion of rows: of a model, unscoped or not, under a condition whose argument is a
    query of the files; the query has a condition with an argument of its own and selects
    a column. *)
Inductive GormModel := MStoredFile | MStoredFileContent | MStoredFileMetadata.
Record Query := mkQuery { QUnscoped : bool; QWhere : string; QArgument : GoTime; QSelect : string }.
Record DeleteRows := mkDeleteRows { DModel : GormModel; DUnscoped : bool; DWhere : string; DIn : Query }.

(** The calls the store makes. [find_file] and [first_file] leave the bytes of the
    content out, [load_file] does not. *)
Class Gorm (DB : Type) := {
  find_file : Z → DB → result GormError StoredFile;
  first_file : StoredFileKey → DB → result GormError StoredFile;
  load_file : string → DB → result GormError StoredFile;
  first_metadata : Z → string → DB → result GormError string;
  create_file : StoredFile → DB → DB * (StoredFile * option GormError);
  create_metadata : Z → StoredFileMetadata → DB → DB * option GormError;
  update_metadata : Z → StoredFileMetadata → DB → DB * option GormError;
  create_content : Z → StoredFileContent → DB → DB * option GormError;
  update_content : Z → StoredFileContent → DB → DB * option GormError;
  update_file : Z → StoredFile → DB → DB * option GormError;
  delete_file : bool → Z → DB → DB * option GormError;
  delete_rows : DeleteRows → DB → DB * (Z * option GormError);
  transaction : (DB → DB * result GormError Z) → DB → DB * result GormError Z
}.

(** The zero value of the model. *)
Definition zero_file : StoredFile := mkStoredFile 0 "" "" "" no_content [] None.

Definition with_content (c : StoredFileContent) (f : StoredFile) : StoredFile :=
  mkStoredFile (SID f) (SName f) (SSource f) (SSourceType f) c (SMetadata f) (SDeletedAt f).

Definition with_deleted (t : option GoTime) (f : StoredFile) : StoredFile :=
  mkStoredFile (SID f) (SName f) (SSource f) (SSourceType f) (SFile f) (SMetadata f) t.

Section store.
Context {DB : Type} `{!Gorm DB} `{!ErrorRetry}.
Variable sha256 : bytes → string.

(** [retryWriteTx]: again and again as long as the database is locked. *)
Definition is_locked (e : GormError) : bool := e == DatabaseIsLocked.

Definition retryWriteTx {S} (f : S → S * option GormError) : S → S * option GormError :=
  OnError is_locked f.

Definition Get (id : string) (s : DB) : result StoreError StoredFile :=
  match ParseUint id with
  | None => Err (SOther "strconv.ParseUint: invalid syntax")
  | Some idInt => match find_file idInt s with Err e => Err (gorm_error e) | Ok f => Ok f end
  end.

Definition GetByFileKey (fileKey : option StoredFileKey) (s : DB) : result StoreError StoredFile :=
  match fileKey with
  | None => Err (SOther "filekey is nil")
  | Some k =>
      match first_file k s with
      | Err RecordNotFound => Err SNotFound
      | Err e => Err (gorm_error e)
      | Ok f => Ok f
      end
  end.

Definition file_key (f : StoredFile) : StoredFileKey := mkFileKey (SName f) (SSource f) (SSourceType f).

Definition complete (k : StoredFileKey) : bool :=
  (KName k != "") && (KSource k != "") && (KSourceType k != "").

(** The file that is there already; none and the zero file both stand for its absence. *)
Definition find_existing (file : StoredFile) (s : DB) : result StoreError StoredFile :=
  let absent r := match r with Err SNotFound => Ok zero_file | r => r end in
  if SID file != 0%Z then absent (Get (Itoa (wrap64 (SID file))) s)
  else if complete (file_key file) then absent (GetByFileKey (Some (file_key file)) s)
  else Ok zero_file.

(** The loop over the metadata: a row is made for a new key and changed for one that
    is there. *)
Fixpoint save_metadata (id : Z) (metadata : list StoredFileMetadata) (s : DB)
    : DB * option GormError :=
  match metadata with
  | [] => (s, None)
  | m :: metadata =>
      let write := match first_metadata id (MKey m) s with
                   | Err RecordNotFound => retryWriteTx (create_metadata id m) s
                   | Err e => (s, Some e)
                   | Ok _ => retryWriteTx (update_metadata id m) s
                   end in
      match write with
      | (s, Some e) => (s, Some e)
      | (s, None) => save_metadata id metadata s
      end
  end.

(** The bytes, with what the hook fills in; [contentID] is zero for a content that
    was not read from the database. *)
Definition save_content (id contentID : Z) (content : StoredFileContent) (s : DB)
    : DB * (StoredFileContent * option GormError) :=
  match Content content with
  | [] => (s, (content, None))
  | _ :: _ =>
      if contentID != 0%Z then
        let '(s, e) := retryWriteTx (update_content id content) s in (s, (content, e))
      else
        let content := BeforeSave sha256 content in
        let '(s, e) := retryWriteTx (create_content id content) s in (s, (content, e))
  end.

(** The update of the file that is there: its metadata, its content and its row, one
    after the other and not in a transaction. *)
Definition update_existing (id contentID : Z) (file : StoredFile) (s : DB)
    : DB * (StoredFile * option GormError) :=
  let file := with_deleted None file in
  match save_metadata id (SMetadata file) s with
  | (s, Some e) => (s, (file, Some e))
  | (s, None) =>
      match save_content id contentID (SFile file) s with
      | (s, (c, Some e)) => (s, (with_content c file, Some e))
      | (s, (c, None)) =>
          let file := with_content c file in
          let '(s, e) := retryWriteTx (update_file id file) s in (s, (file, e))
      end
  end.

Definition Save (contentID : Z) (file : option StoredFile) (s : DB)
    : DB * (option StoredFile * result StoreError string) :=
  match file with
  | None => (s, (None, Err (SOther "file is nil: invalid input")))
  | Some file =>
      match find_existing file s with
      | Err e => (s, (Some file, Err e))
      | Ok found =>
          let answer id e := match e with Some e => Err (gorm_error e) | None => Ok (Itoa id) end in
          if SID found == 0%Z then
            let '((s, file), e) :=
              retryWriteTx (λ st, let '(s, (f, e)) := create_file st.2 st.1 in ((s, f), e)) (s, file) in
            (s, (Some file, answer (SID file) e))
          else
            let '(s, (file, e)) := update_existing (SID found) contentID file s in
            (s, (Some file, answer (SID found) e))
      end
  end.

Definition Delete (id : string) (permanent : bool) (s : DB) : DB * option StoreError :=
  match ParseUint id with
  | None => (s, Some (SOther "strconv.ParseUint: invalid syntax"))
  | Some idInt =>
      let '(s, e) := retryWriteTx (delete_file permanent idInt) s in (s, gorm_error <$> e)
  end.

Definition Download (id : string) (s : DB) : result StoreError StoredFile :=
  match load_file id s with Err e => Err (gorm_error e) | Ok f => Ok f end.

(** The query of the clean-up, and the deletions it is the argument of. *)
Definition tombstone_query (cutoff : GoTime) : Query := mkQuery true "deleted_at < ?" cutoff "id".
Definition contents_of (q : Query) : DeleteRows := mkDeleteRows MStoredFileContent false "file_id in (?)" q.
Definition metadata_of (q : Query) : DeleteRows := mkDeleteRows MStoredFileMetadata false "file_id in (?)" q.
Definition files_of (q : Query) : DeleteRows := mkDeleteRows MStoredFile true "id in (?)" q.

Definition delete_contents (cutoff : GoTime) (s : DB) : DB * option GormError :=
  let '(s, (_, e)) := delete_rows (contents_of (tombstone_query cutoff)) s in (s, e).
Definition delete_metadata (cutoff : GoTime) (s : DB) : DB * option GormError :=
  let '(s, (_, e)) := delete_rows (metadata_of (tombstone_query cutoff)) s in (s, e).
Definition delete_files (cutoff : GoTime) (s : DB) : DB * (Z * option GormError) :=
  delete_rows (files_of (tombstone_query cutoff)) s.

(** The body of the transaction. *)
Definition clean (cutoff : GoTime) (s : DB) : DB * result GormError Z :=
  match retryWriteTx (delete_contents cutoff) s with
  | (s, Some e) => (s, Err e)
  | (s, None) =>
      match retryWriteTx (delete_metadata cutoff) s with
      | (s, Some e) => (s, Err e)
      | (s, None) =>
          match retryWriteTx (λ st, let '(s, (n, e)) := delete_files cutoff st.1 in ((s, n), e)) (s, 0%Z) with
          | ((s, _), Some e) => (s, Err e)
          | ((s, n), None) => (s, Ok n)
          end
      end
  end.

Definition CleanTombstones (now : GoTime) (cleanupAfter : Z) (s : DB) : DB * result StoreError Z :=
  match transaction (clean (Add now (- cleanupAfter))) s with
  | (s, Err e) => (s, Err (gorm_error e))
  | (s, Ok n) => (s, Ok n)
  end.
End store.

(** ** What the calls do to the tables *)

Definition row_key (r : FileRow) : StoredFileKey := mkFileKey (RName r) (RSource r) (RSourceType r).

Definition old_enough (cutoff : GoTime) (r : FileRow) : bool :=
  match RDeletedAt r with Some d => Before d cutoff | None => false end.

(** The files that were deleted before [cutoff]. *)
Definition tombstones (t : Tables) (cutoff : GoTime) : gmap Z FileRow :=
  filter (λ e, old_enough cutoff e.2 = true) (stored_files t).

(** The files a query selects, when its texts are those of the clean-up; one that is not
    unscoped sees no deleted file. *)
Definition selected (t : Tables) (q : Query) : gmap Z FileRow :=
  filter (λ e, (QUnscoped q || bool_decide (RDeletedAt e.2 = None)) && old_enough (QArgument q) e.2 = true)
    (stored_files t).

(** The deletions whose texts are understood: the rows of the files that are selected, by
    their own column or by that of the file they belong to. A deletion of files that is
    not unscoped only marks them. *)
Definition understood (d : DeleteRows) : Prop :=
  QWhere (DIn d) = "deleted_at < ?" ∧ QSelect (DIn d) = "id" ∧
  match DModel d with
  | MStoredFile => DUnscoped d = true ∧ DWhere d = "id in (?)"
  | _ => DWhere d = "file_id in (?)"
  end.

Definition without_rows (m : GormModel) (q : gmap Z FileRow) (t : Tables) : Tables :=
  match m with
  | MStoredFile =>
      mkTables (filter (λ e, q !! e.1 = None) (stored_files t)) (stored_file_contents t) (stored_file_metadata t)
  | MStoredFileContent =>
      mkTables (stored_files t) (filter (λ e, q !! e.1 = None) (stored_file_contents t)) (stored_file_metadata t)
  | MStoredFileMetadata =>
      mkTables (stored_files t) (stored_file_contents t) (filter (λ e, q !! e.1.1 = None) (stored_file_metadata t))
  end.

(** Of an update with a struct only the fields that are not zero are written, and of a
    row that is deleted none. *)
Definition updated_row (f : StoredFile) (r : FileRow) : FileRow :=
  let or new old := if new == "" then old else new in
  match RDeletedAt r with
  | Some _ => r
  | None => mkFileRow (or (SName f) (RName r)) (or (SSource f) (RSource r))
              (or (SSourceType f) (RSourceType r)) None
  end.

Definition updated_value (old : option string) (new : string) : string :=
  match old with Some o => if new == "" then o else new | None => new end.

(** A call that writes: [R] relates the tables before and after, and a call that fails
    changes nothing. *)
Definition writes {DB} (tables : DB → Tables) (R : Tables → Tables → Prop)
    (f : DB → DB * option GormError) : Prop :=
  ∀ s, match f s with
       | (s', None) => R (tables s) (tables s')
       | (s', Some _) => tables s' = tables s
       end.

Section laws.
Variable sha256 : bytes → string.

(** The hook may have run before a creation failed. *)
Definition hooked (f f' : StoredFile) : Prop :=
  f' = f ∨ f' = with_content (BeforeSave sha256 (SFile f)) f.

Definition created (t : Tables) (f f' : StoredFile) (t' : Tables) : Prop :=
  stored_files t !! SID f' = None ∧ (0 < SID f')%Z ∧
  (SID f ≠ 0%Z → SID f' = SID f) ∧
  file_key f' = file_key f ∧ SFile f' = BeforeSave sha256 (SFile f) ∧
  stored_files t' = <[SID f' := mkFileRow (SName f) (SSource f) (SSourceType f) (SDeletedAt f)]> (stored_files t) ∧
  stored_file_contents t' = (if bool_decide (SFile f = no_content) then stored_file_contents t
                             else <[SID f' := SFile f']> (stored_file_contents t)) ∧
  ∀ id k, stored_file_metadata t' !! (id, k) =
          if bool_decide (id = SID f') then metadata_map (SMetadata f) !! k
          else stored_file_metadata t !! (id, k).

(** The laws. The identifiers are the positive integers of a key that counts up; the
    three columns of a key are unique; a [Find] that finds nothing leaves the zero
    value and is no error, a [First] is one; a struct as a condition selects by its
    columns that are not zero, so the law of [first_file] is about a complete key; a
    second content of a file is refused by the index; the deletion of a record of
    which the primary key is not set leaves its associations alone; a transaction
    keeps all of its body or nothing. *)
Class GormLaws (DB : Type) `{!Gorm DB} := {
  tables : DB → Tables;
  ids_positive s id row : stored_files (tables s) !! id = Some row → (0 < id)%Z;
  keys_unique s id1 id2 r1 r2 :
    stored_files (tables s) !! id1 = Some r1 → stored_files (tables s) !! id2 = Some r2 →
    row_key r1 = row_key r2 → id1 = id2;
  find_file_law id s :
    match find_file id s with
    | Ok f => match stored_files (tables s) !! id with
              | Some row => SID f = id ∧ file_key f = row_key row
              | None => f = zero_file
              end
    | Err _ => True
    end;
  first_file_law k s :
    complete k = true →
    match first_file k s with
    | Ok f => ∃ row, stored_files (tables s) !! SID f = Some row ∧ row_key row = k
    | Err RecordNotFound => ∀ id row, stored_files (tables s) !! id = Some row → row_key row ≠ k
    | Err _ => True
    end;
  load_file_law id row s :
    stored_files (tables s) !! id = Some row →
    ∃ f, load_file (Itoa id) s = Ok f ∧ SID f = id ∧
         SFile f = default no_content (stored_file_contents (tables s) !! id);
  first_metadata_law id k s :
    match first_metadata id k s with
    | Ok v => stored_file_metadata (tables s) !! (id, k) = Some v
    | Err RecordNotFound => stored_file_metadata (tables s) !! (id, k) = None
    | Err _ => True
    end;
  create_file_law f s :
    match create_file f s with
    | (s', (f', None)) => created (tables s) f f' (tables s')
    | (s', (f', Some _)) => tables s' = tables s ∧ hooked f f'
    end;
  create_metadata_law id m :
    writes tables (λ t t', t' = mkTables (stored_files t) (stored_file_contents t)
                                  (<[(id, MKey m) := MValue m]> (stored_file_metadata t)))
      (create_metadata id m);
  update_metadata_law id m :
    writes tables (λ t t', t' = mkTables (stored_files t) (stored_file_contents t)
        (<[(id, MKey m) := updated_value (stored_file_metadata t !! (id, MKey m)) (MValue m)]>
           (stored_file_metadata t)))
      (update_metadata id m);
  create_content_law id c :
    writes tables (λ t t', stored_file_contents t !! id = None ∧
        t' = mkTables (stored_files t) (<[id := c]> (stored_file_contents t)) (stored_file_metadata t))
      (create_content id c);
  update_content_law id c :
    writes tables (λ t t', ∃ c', Content c' = Content c ∧
        t' = mkTables (stored_files t) (<[id := c']> (stored_file_contents t)) (stored_file_metadata t))
      (update_content id c);
  update_file_law id f :
    writes tables (λ t t', t' = mkTables (alter (updated_row f) id (stored_files t))
                                  (stored_file_contents t) (stored_file_metadata t))
      (update_file id f);
  delete_file_law permanent id :
    writes tables (λ t t', stored_file_contents t' = stored_file_contents t ∧
        stored_file_metadata t' = stored_file_metadata t ∧
        if (permanent : bool) then stored_files t' = delete id (stored_files t)
        else ∃ now, stored_files t' = alter (λ r,
               mkFileRow (RName r) (RSource r) (RSourceType r)
                 (match RDeletedAt r with Some d => Some d | None => Some now end)) id (stored_files t))
      (delete_file permanent id);
  delete_rows_law d s :
    understood d →
    match delete_rows d s with
    | (s', (n, None)) =>
        tables s' = without_rows (DModel d) (selected (tables s) (DIn d)) (tables s) ∧
        (DModel d = MStoredFile → n = Z.of_nat (size (selected (tables s) (DIn d))))
    | (s', (_, Some _)) => tables s' = tables s
    end;
  transaction_law body s :
    match transaction body s with
    | (s', Ok n) => ∃ s1, body s = (s1, Ok n) ∧ tables s' = tables s1
    | (s', Err _) => tables s' = tables s
    end
}.
End laws.

(** ** Lemmas *)

Lemma foldl_metadata acc l :
  foldl (λ m e, <[MKey e := MValue e]> m) acc l = metadata_map l ∪ acc.
Proof.
  unfold metadata_map. revert acc; induction l as [|m l IH]; intros acc; cbn [foldl].
  - by rewrite (left_id_L ∅ (∪)).
  - rewrite IH, (IH (<[MKey m:=MValue m]> ∅)). rewrite <- (assoc_L (∪)). f_equal.
    by rewrite insert_empty, <- insert_union_singleton_l.
Qed.

Lemma metadata_map_cons m l k :
  metadata_map (m :: l) !! k =
  match metadata_map l !! k with
  | Some v => Some v
  | None => if bool_decide (k = MKey m) then Some (MValue m) else None
  end.
Proof.
  unfold metadata_map at 1. cbn [foldl]. rewrite foldl_metadata, lookup_union, insert_empty.
  destruct (metadata_map l !! k) as [v|]; [by destruct (({[MKey m := MValue m]} : gmap _ _) !! k)|].
  rewrite (left_id_L None (∪)). destruct (bool_decide_reflect (k = MKey m)) as [->|Hne].
  - by rewrite lookup_singleton_eq.
  - by rewrite lookup_singleton_ne.
Qed.

Lemma metadata_map_fresh l k : k ∉ (MKey <$> l) → metadata_map l !! k = None.
Proof.
  induction l as [|m l IH]; [done|]. rewrite fmap_cons. intros [Hk Hl]%not_elem_of_cons.
  rewrite metadata_map_cons, IH by done. by rewrite bool_decide_false.
Qed.

Section save.
Context {DB : Type} `{!Gorm DB} `{!ErrorRetry}.
Variable sha256 : bytes → string.
Context `{!GormLaws sha256 DB}.
Notation tables := (tables sha256).
Implicit Types (s : DB).

(** A repeated write does what one write does. *)
Lemma retry_writes R f : writes tables R f → writes tables R (retryWriteTx f).
Proof.
  intros Hf s. unfold retryWriteTx. pose proof (OnError_law is_locked f s) as Hr.
  revert Hr. generalize (OnError is_locked f s) as r. intros r Hr.
  induction Hr as [s|s s1 e r Hfs _ _ IH]; [apply Hf|].
  specialize (Hf s). rewrite Hfs in Hf. destruct r as [s' [e'|]]; congruence.
Qed.

Lemma retry_create f s :
  match retryWriteTx (λ st : DB * StoredFile, let '(s, (f, e)) := create_file st.2 st.1 in ((s, f), e)) (s, f) with
  | ((s', f'), None) => created sha256 (tables s) f f' (tables s')
  | ((s', _), Some _) => tables s' = tables s
  end.
Proof.
  unfold retryWriteTx. set (g := λ st : DB * StoredFile, _).
  assert (Hg : ∀ st, match g st with
     | ((s', f'), None) => created sha256 (tables st.1) st.2 f' (tables s')
     | ((s', f'), Some _) => tables s' = tables st.1 ∧ hooked sha256 st.2 f' end).
  { intros [s0 f0]; unfold g; cbn. pose proof (create_file_law sha256 f0 s0) as Hl.
    by destruct (create_file f0 s0) as [s' [f' [e|]]]. }
  assert (Hb : ∀ c, BeforeSave sha256 (BeforeSave sha256 c) = BeforeSave sha256 c).
  { intros c. unfold BeforeSave. destruct (Content c) as [|b l] eqn:Hc; [by rewrite Hc|done]. }
  assert (Hh : ∀ t f f1 f' t', hooked sha256 f f1 → created sha256 t f1 f' t' → created sha256 t f f' t').
  { intros t f0 f1 f' t' [->| ->]; [done|]. unfold created; cbn. rewrite Hb.
    intros (H1 & H2 & H3 & H4 & H5 & H6 & H7 & H8).
    refine (conj H1 (conj H2 (conj H3 (conj H4 (conj H5 (conj H6 (conj _ H8))))))).
    rewrite H7. assert (Hz : BeforeSave sha256 (SFile f0) = no_content ↔ SFile f0 = no_content).
    { unfold BeforeSave. destruct (Content (SFile f0)) eqn:Hc; [done|].
      split; [by intros [=]|]. intros Hn. by rewrite Hn in Hc. }
    by rewrite (bool_decide_ext _ _ Hz). }
  pose proof (OnError_law is_locked g (s, f)) as Hr. revert Hr.
  generalize (OnError is_locked g (s, f)) as r. intros r Hr.
  remember (s, f) as st eqn:Hst. revert s f Hst.
  induction Hr as [st|st st1 e r Hfs _ _ IH]; intros s f ->.
  - specialize (Hg (s, f)). destruct (g (s, f)) as [[s' f'] [e|]]; [by destruct Hg|done].
  - specialize (Hg (s, f)). rewrite Hfs in Hg. destruct st1 as [s1 f1]. destruct Hg as [Ht Hk].
    specialize (IH s1 f1 eq_refl). destruct r as [[s' f'] [e'|]]; cbn [fst snd] in *.
    + congruence.
    + rewrite <- Ht. by eapply Hh.
Qed.

(** What a file's metadata become: the new value of a key, unless it is empty and the
    key was there, and the old of the keys that are not given. *)
Definition merged (old new : option string) : option string :=
  match new with Some v => Some (updated_value old v) | None => old end.

(** Only the metadata of [id] have changed. *)
Definition beside_metadata (id : Z) (t t' : Tables) : Prop :=
  stored_files t' = stored_files t ∧ stored_file_contents t' = stored_file_contents t ∧
  ∀ i k, i ≠ id → stored_file_metadata t' !! (i, k) = stored_file_metadata t !! (i, k).

Lemma beside_metadata_trans id t t1 t' :
  beside_metadata id t t1 → beside_metadata id t1 t' → beside_metadata id t t'.
Proof.
  intros (H1 & H2 & H3) (H4 & H5 & H6). split_and!; [congruence..|].
  intros i k Hi. by rewrite H6, H3.
Qed.

Lemma save_one id m s :
  match (match first_metadata id (MKey m) s with
         | Err RecordNotFound => retryWriteTx (create_metadata id m) s
         | Err e => (s, Some e)
         | Ok _ => retryWriteTx (update_metadata id m) s
         end) with
  | (s', e) => beside_metadata id (tables s) (tables s') ∧
      (e = None → ∀ k, stored_file_metadata (tables s') !! (id, k) =
         if bool_decide (k = MKey m)
         then Some (updated_value (stored_file_metadata (tables s) !! (id, k)) (MValue m))
         else stored_file_metadata (tables s) !! (id, k))
  end.
Proof.
  pose proof (first_metadata_law sha256 id (MKey m) s) as Hf.
  assert (Hins : ∀ s' v, tables s' = mkTables (stored_files (tables s)) (stored_file_contents (tables s))
       (<[(id, MKey m) := v]> (stored_file_metadata (tables s))) →
     beside_metadata id (tables s) (tables s') ∧
     ∀ k, stored_file_metadata (tables s') !! (id, k) =
         if bool_decide (k = MKey m) then Some v else stored_file_metadata (tables s) !! (id, k)).
  { intros s' v ->. split; [split_and!; [done..|]|]; cbn.
    - intros i k Hi. rewrite lookup_insert_ne; [done|congruence].
    - intros k. destruct (bool_decide_reflect (k = MKey m)) as [->|Hk]; [by rewrite lookup_insert_eq|].
      rewrite lookup_insert_ne; [done|congruence]. }
  assert (Hsame : ∀ s', tables s' = tables s → beside_metadata id (tables s) (tables s'))
    by (intros s' ->; done).
  destruct (first_metadata id (MKey m) s) as [v|[| |msg]]; [| |by split; [apply Hsame|]..].
  - pose proof (retry_writes _ _ (update_metadata_law sha256 id m) s) as Hw.
    destruct (retryWriteTx _ s) as [s' [e|]]; [by split; [apply Hsame|]|].
    apply Hins in Hw as [Hb Hk]. split; [done|]. intros _ k. rewrite Hk. by case_bool_decide; subst.
  - pose proof (retry_writes _ _ (create_metadata_law sha256 id m) s) as Hw.
    destruct (retryWriteTx _ s) as [s' [e|]]; [by split; [apply Hsame|]|].
    apply Hins in Hw as [Hb Hk]. split; [done|]. intros _ k. rewrite Hk.
    case_bool_decide as Hkm; [|done]. subst k. by rewrite Hf.
Qed.

Lemma save_metadata_spec id l s :
  let r := save_metadata id l s in
  beside_metadata id (tables s) (tables r.1) ∧
  (NoDup (MKey <$> l) → r.2 = None → ∀ k, stored_file_metadata (tables r.1) !! (id, k) =
     merged (stored_file_metadata (tables s) !! (id, k)) (metadata_map l !! k)).
Proof.
  revert s; induction l as [|m l IH]; intros s; cbn [save_metadata].
  { by split. }
  pose proof (save_one id m s) as Hone. cbn zeta.
  destruct (match first_metadata id (MKey m) s with Ok _ => _ | Err _ => _ end) as [s1 [e|]].
  { destruct Hone as [Hb _]. by split. }
  destruct Hone as [Hb Hk]. specialize (Hk eq_refl). destruct (IH s1) as [Hb1 Hk1].
  split; [by eapply beside_metadata_trans|]. rewrite fmap_cons. intros [Hm Hnd]%NoDup_cons Hn k.
  rewrite (Hk1 Hnd Hn k), Hk, metadata_map_cons.
  case_bool_decide as Hkm; [subst k; by rewrite metadata_map_fresh|].
  by destruct (metadata_map l !! k).
Qed.

(** Everything of the other files is as it was. *)
Definition beside (n : Z) (t t' : Tables) : Prop :=
  ∀ m, m ≠ n → stored_files t' !! m = stored_files t !! m ∧
    stored_file_contents t' !! m = stored_file_contents t !! m ∧
    ∀ k, stored_file_metadata t' !! (m, k) = stored_file_metadata t !! (m, k).

Lemma save_content_spec id c s :
  match save_content sha256 id 0 c s with
  | (s', (c', None)) =>
      stored_files (tables s') = stored_files (tables s) ∧
      stored_file_metadata (tables s') = stored_file_metadata (tables s) ∧
      if bool_decide (Content c = []) then tables s' = tables s
      else stored_file_contents (tables s) !! id = None ∧
           stored_file_contents (tables s') = <[id := BeforeSave sha256 c]> (stored_file_contents (tables s))
  | (s', (_, Some _)) => tables s' = tables s
  end.
Proof.
  unfold save_content. destruct (Content c) as [|b l] eqn:Hc.
  { by rewrite bool_decide_true. }
  change (0 != 0)%Z with false. cbn match.
  rewrite (bool_decide_false (b :: l = [])) by done.
  pose proof (retry_writes _ _ (create_content_law sha256 id (BeforeSave sha256 c)) s) as Hw.
  destruct (retryWriteTx _ s) as [s' [e|]]; [done|]. by destruct Hw as [? ->].
Qed.

(** A row that is updated with its own key keeps it. *)
Lemma updated_row_key f r : row_key r = file_key f → row_key (updated_row f r) = row_key r.
Proof.
  intros [= Hn Hs Ht]. unfold updated_row, row_key.
  destruct (RDeletedAt r); cbn; [done|]. rewrite <- Hn, <- Hs, <- Ht. by repeat case_go.
Qed.

Lemma update_existing_spec n file s :
  match update_existing sha256 n 0 file s with
  | (s', (_, e)) =>
      beside n (tables s) (tables s') ∧
      match e with
      | Some _ => stored_files (tables s') = stored_files (tables s) ∧
                  (stored_file_contents (tables s') !! n = stored_file_contents (tables s) !! n ∨
                   stored_file_contents (tables s) !! n = None)
      | None =>
          (∃ f, file_key f = file_key file ∧
             stored_files (tables s') = alter (updated_row f) n (stored_files (tables s))) ∧
          (NoDup (MKey <$> SMetadata file) → ∀ k, stored_file_metadata (tables s') !! (n, k) =
             merged (stored_file_metadata (tables s) !! (n, k)) (metadata_map (SMetadata file) !! k)) ∧
          if bool_decide (Content (SFile file) = [])
          then stored_file_contents (tables s') = stored_file_contents (tables s)
          else stored_file_contents (tables s) !! n = None ∧
               stored_file_contents (tables s') !! n = Some (BeforeSave sha256 (SFile file))
      end
  end.
Proof.
  unfold update_existing. cbn [with_deleted SMetadata SFile].
  pose proof (save_metadata_spec n (SMetadata file) s) as [(Hf1 & Hc1 & Hm1) Hk1].
  destruct (save_metadata n (SMetadata file) s) as [s1 [e|]]; cbn [fst snd] in *.
  { split; [|split; [done|left; by rewrite Hc1]]. intros m Hm. rewrite Hf1, Hc1. split_and!; [done..|].
    intros k. by apply Hm1. }
  pose proof (save_content_spec n (SFile file) s1) as Hc2.
  destruct (save_content _ n 0 (SFile file) s1) as [s2 [c [e|]]].
  { split; [|split; [by rewrite Hc2|left; by rewrite Hc2, Hc1]]. intros m Hm. rewrite Hc2, Hf1, Hc1.
    split_and!; [done..|]. intros k. by apply Hm1. }
  destruct Hc2 as (Hf2 & Hm2 & Hc2). set (f := with_content c _).
  pose proof (retry_writes _ _ (update_file_law sha256 n f) s2) as Hw.
  assert (Hb : ∀ m, m ≠ n → stored_file_contents (tables s2) !! m = stored_file_contents (tables s) !! m).
  { intros m Hm. case_bool_decide; [by rewrite Hc2, Hc1|]. destruct Hc2 as [_ ->].
    by rewrite lookup_insert_ne, Hc1. }
  destruct (retryWriteTx _ s2) as [s3 [e|]]; rewrite Hw; cbn.
  - split.
    + intros m Hm. rewrite Hf2, Hf1, Hm2, (Hb m Hm). split_and!; [done..|]. intros k. by apply Hm1.
    + split; [by rewrite Hf2, Hf1|]. case_bool_decide as Hz; [left; by rewrite Hc2, Hc1|]. right.
      destruct Hc2 as [Hno _]. by rewrite Hc1 in Hno.
  - split.
    + intros m Hm. cbn. rewrite lookup_alter_ne by done. rewrite Hf2, Hf1, Hm2, (Hb m Hm).
      split_and!; [done..|]. intros k. by apply Hm1.
    + split_and!.
      * exists f. split; [done|]. by rewrite Hf2, Hf1.
      * intros Hnd k. rewrite Hm2. by apply Hk1.
      * case_bool_decide; [by rewrite Hc2, Hc1|]. destruct Hc2 as [Hno Hc2]. rewrite Hc1 in Hno.
        split; [done|]. by rewrite Hc2, lookup_insert_eq.
Qed.

(** The file that is found is the one of the key, and there is none when none is found. *)
Lemma find_existing_spec file s found :
  SID file = 0%Z → complete (file_key file) = true → find_existing file s = Ok found →
  (SID found = 0%Z ∧ ∀ id row, stored_files (tables s) !! id = Some row → row_key row ≠ file_key file) ∨
  (SID found ≠ 0%Z ∧ ∃ row, stored_files (tables s) !! SID found = Some row ∧ row_key row = file_key file).
Proof.
  intros Hid Hkey. unfold find_existing. rewrite bool_decide_true by done. cbn [negb]. rewrite Hkey.
  unfold GetByFileKey. pose proof (first_file_law sha256 (file_key file) s Hkey) as Hl.
  destruct (first_file (file_key file) s) as [f|[| |msg]]; [|intros [= <-]; by left|done|done].
  intros [= <-]. right. destruct Hl as (row & Hrow & Hk).
  pose proof (ids_positive sha256 _ _ _ Hrow). split; [lia|by exists row].
Qed.
End save.

(** C14: A file saved under a key is the file of that key afterwards: the one that was
    there, or a new one when there was none. Of its metadata the ones it had stay but
    for those that are given a new value that is not empty, and the keys that are new are
    added; a content that is given and not empty is its content, under its checksum; and
    nothing of any other file has changed. *)
Theorem Save_spec {DB} `{!Gorm DB} `{!ErrorRetry} (sha256 : bytes → string) `{!GormLaws sha256 DB}
    (file : StoredFile) (s s' : DB) o id :
  SID file = 0%Z → complete (file_key file) = true → NoDup (MKey <$> SMetadata file) →
  Save sha256 0 (Some file) s = (s', (o, Ok id)) →
  ∃ n, id = Itoa n ∧
    (∃ row, stored_files (tables sha256 s') !! n = Some row ∧ row_key row = file_key file) ∧
    ((∃ row, stored_files (tables sha256 s) !! n = Some row ∧ row_key row = file_key file) ∨
     ∀ m row, stored_files (tables sha256 s) !! m = Some row → row_key row ≠ file_key file) ∧
    (∀ k, stored_file_metadata (tables sha256 s') !! (n, k) =
       merged (if bool_decide (is_Some (stored_files (tables sha256 s) !! n))
               then stored_file_metadata (tables sha256 s) !! (n, k) else None)
         (metadata_map (SMetadata file) !! k)) ∧
    (Content (SFile file) ≠ [] →
       stored_file_contents (tables sha256 s') !! n = Some (BeforeSave sha256 (SFile file))) ∧
    beside n (tables sha256 s) (tables sha256 s').
Proof.
  intros Hid Hkey Hnd. unfold Save.
  destruct (find_existing file s) as [found|e] eqn:Hf; [|done].
  apply (find_existing_spec sha256) in Hf as [[Hz Hno]|[Hz (row & Hrow & Hk)]]; [..|done|done].
  - rewrite (bool_decide_true _ Hz). cbn zeta. pose proof (retry_create sha256 file s) as Hc.
    destruct (retryWriteTx _ (s, file)) as [[s1 f1] [e|]]; intros [= -> _ <-].
    destruct Hc as (Hnone & Hpos & _ & Hk1 & Hc1 & Hrows & Hconts & Hmeta). exists (SID f1).
    split_and!; [done|..].
    + eexists. rewrite Hrows, lookup_insert_eq. by split.
    + by right.
    + intros k. rewrite Hmeta, (bool_decide_true (SID f1 = SID f1)) by done.
      rewrite bool_decide_false by (rewrite Hnone; by intros []).
      by destruct (metadata_map _ !! k).
    + intros Hne. rewrite Hconts, bool_decide_false by (intros He; by rewrite He in Hne).
      by rewrite lookup_insert_eq, Hc1.
    + intros m Hm. rewrite Hrows, lookup_insert_ne by done. split_and!; [done| |].
      * rewrite Hconts. case_bool_decide; [done|]. by rewrite lookup_insert_ne.
      * intros k. rewrite Hmeta. by rewrite bool_decide_false.
  - rewrite (bool_decide_false _ Hz). pose proof (update_existing_spec sha256 (SID found) file s) as Hu.
    destruct (update_existing _ _ _ file s) as [s1 [f1 [e|]]]; intros [= -> _ <-].
    destruct Hu as (Hb & (f & Hfk & Hrows) & Hmeta & Hcont). exists (SID found).
    split_and!; [done| | | | |done].
    + exists (updated_row f row). rewrite Hrows, lookup_alter_eq, Hrow. split; [done|].
      rewrite <- Hk. apply updated_row_key. congruence.
    + left. by exists row.
    + intros k. rewrite (Hmeta Hnd). by rewrite bool_decide_true by by rewrite Hrow.
    + intros Hne. rewrite bool_decide_false in Hcont by done. by destruct Hcont.
Qed.

(** A content is never replaced: bytes that are saved under the key of a file that has
    a content are refused, and the old ones stay. *)
Theorem reupload_refused {DB} `{!Gorm DB} `{!ErrorRetry} (sha256 : bytes → string) `{!GormLaws sha256 DB}
    (file : StoredFile) (s : DB) n row c :
  SID file = 0%Z → complete (file_key file) = true → NoDup (MKey <$> SMetadata file) →
  Content (SFile file) ≠ [] →
  stored_files (tables sha256 s) !! n = Some row → row_key row = file_key file →
  stored_file_contents (tables sha256 s) !! n = Some c →
  let r := Save sha256 0 (Some file) s in
  is_ok r.2.2 = false ∧ stored_file_contents (tables sha256 r.1) !! n = Some c ∧
  stored_files (tables sha256 r.1) = stored_files (tables sha256 s).
Proof.
  intros Hid Hkey Hnd Hne Hrow Hk Hc. unfold Save.
  destruct (find_existing file s) as [found|e] eqn:Hf; [|done].
  apply (find_existing_spec sha256) in Hf as [[_ Hno]|[Hz (row' & Hrow' & Hk')]]; [..|done|done].
  { by destruct (Hno _ _ Hrow). }
  rewrite (bool_decide_false _ Hz).
  assert (Hn : SID found = n) by (eapply (keys_unique sha256); [done..|congruence]). rewrite Hn.
  pose proof (update_existing_spec sha256 n file s) as Hu.
  destruct (update_existing _ n 0 file s) as [s1 [f1 [e|]]]; cbn.
  - destruct Hu as (_ & Hf & [Hs|Hs]); [|congruence]. split_and!; [done|by rewrite Hs|done].
  - destruct Hu as (_ & _ & _ & Hu). rewrite bool_decide_false in Hu by done. destruct Hu. congruence.
Qed.

(** ** Deleting *)

(** What is left when the files that were deleted before [cutoff] are gone. *)
Definition purged (t : Tables) (cutoff : GoTime) (t' : Tables) : Prop :=
  ∀ id,
    (match stored_files t !! id with
     | Some row =>
         if old_enough cutoff row
         then stored_files t' !! id = None ∧ stored_file_contents t' !! id = None ∧
              ∀ k, stored_file_metadata t' !! (id, k) = None
         else stored_files t' !! id = Some row ∧
              stored_file_contents t' !! id = stored_file_contents t !! id ∧
              ∀ k, stored_file_metadata t' !! (id, k) = stored_file_metadata t !! (id, k)
     | None => stored_files t' !! id = None ∧
               stored_file_contents t' !! id = stored_file_contents t !! id ∧
               ∀ k, stored_file_metadata t' !! (id, k) = stored_file_metadata t !! (id, k)
     end).

Lemma lookup_filter_in `{Countable K} {A} (P : K * A → Prop) `{∀ x, Decision (P x)} (m : gmap K A) k :
  (∀ a, P (k, a)) → filter P m !! k = m !! k.
Proof.
  intros HP. rewrite map_lookup_filter. destruct (m !! k) as [a|]; [|done]. cbn.
  by rewrite option_guard_True.
Qed.

Lemma lookup_filter_out `{Countable K} {A} (P : K * A → Prop) `{∀ x, Decision (P x)} (m : gmap K A) k :
  (∀ a, ¬ P (k, a)) → filter P m !! k = None.
Proof.
  intros HP. rewrite map_lookup_filter. destruct (m !! k) as [a|]; [|done]. cbn.
  by rewrite option_guard_False.
Qed.

Lemma tombstones_lookup t cutoff id :
  tombstones t cutoff !! id = None ↔
  match stored_files t !! id with Some row => old_enough cutoff row = false | None => True end.
Proof.
  unfold tombstones. rewrite map_lookup_filter. destruct (stored_files t !! id) as [row|]; [|done].
  cbn. destruct (old_enough cutoff row); cbn; split; try done.
Qed.

Lemma selected_tombstones t cutoff : selected t (tombstone_query cutoff) = tombstones t cutoff.
Proof. apply map_filter_ext. by intros id row _. Qed.

Section clean.
Context {DB : Type} `{!Gorm DB} `{!ErrorRetry}.
Variable sha256 : bytes → string.
Context `{!GormLaws sha256 DB}.
Notation tables := (tables sha256).
Implicit Types (s : DB).

Lemma delete_contents_law cutoff :
  writes tables (λ t t', t' = without_rows MStoredFileContent (tombstones t cutoff) t) (delete_contents cutoff).
Proof.
  intros s. unfold delete_contents. pose proof (delete_rows_law sha256 (contents_of (tombstone_query cutoff)) s) as Hl.
  rewrite <- selected_tombstones. destruct (delete_rows _ s) as [s' [n [e|]]]; [by apply Hl|]. by apply Hl.
Qed.

Lemma delete_metadata_law cutoff :
  writes tables (λ t t', t' = without_rows MStoredFileMetadata (tombstones t cutoff) t) (delete_metadata cutoff).
Proof.
  intros s. unfold delete_metadata. pose proof (delete_rows_law sha256 (metadata_of (tombstone_query cutoff)) s) as Hl.
  rewrite <- selected_tombstones. destruct (delete_rows _ s) as [s' [n [e|]]]; [by apply Hl|]. by apply Hl.
Qed.

Lemma delete_files_law cutoff s :
  match delete_files cutoff s with
  | (s', (n, None)) =>
      n = Z.of_nat (size (tombstones (tables s) cutoff)) ∧
      tables s' = mkTables (filter (λ e, old_enough cutoff e.2 = false) (stored_files (tables s)))
                    (stored_file_contents (tables s)) (stored_file_metadata (tables s))
  | (s', (_, Some _)) => tables s' = tables s
  end.
Proof.
  unfold delete_files. pose proof (delete_rows_law sha256 (files_of (tombstone_query cutoff)) s) as Hl.
  rewrite <- selected_tombstones. destruct (delete_rows _ s) as [s' [n [e|]]]; [by apply Hl|].
  destruct Hl as [-> Hn]; [done|]. split; [by apply Hn|]. cbn [without_rows files_of DModel DIn]. f_equal.
  apply map_filter_ext. intros id row Hrow. rewrite selected_tombstones, tombstones_lookup. cbn. by rewrite Hrow.
Qed.

Lemma retry_delete cutoff s :
  match retryWriteTx (λ st : DB * Z, let '(s, (n, e)) := delete_files cutoff st.1 in ((s, n), e)) (s, 0%Z) with
  | ((s', n), None) =>
      n = Z.of_nat (size (tombstones (tables s) cutoff)) ∧
      tables s' = mkTables (filter (λ e, old_enough cutoff e.2 = false) (stored_files (tables s)))
                    (stored_file_contents (tables s)) (stored_file_metadata (tables s))
  | ((s', _), Some _) => tables s' = tables s
  end.
Proof.
  unfold retryWriteTx. set (g := λ st : DB * Z, _).
  pose proof (OnError_law is_locked g (s, 0%Z)) as Hr. revert Hr.
  generalize (OnError is_locked g (s, 0%Z)) as r. intros r Hr.
  remember (s, 0%Z) as st eqn:Hst. assert (Hs : s = st.1) by by subst. clear Hst. revert s Hs.
  induction Hr as [st|st st1 e r Hfs _ _ IH]; intros s ->.
  - unfold g. pose proof (delete_files_law cutoff st.1) as Hl.
    by destruct (delete_files cutoff st.1) as [s' [n [e|]]].
  - unfold g in Hfs. pose proof (delete_files_law cutoff st.1) as Hl.
    destruct (delete_files cutoff st.1) as [s' [n e']]. injection Hfs as <- ->.
    specialize (IH s' eq_refl). by rewrite Hl in IH.
Qed.

Lemma clean_spec cutoff s s' n :
  clean cutoff s = (s', Ok n) →
  n = Z.of_nat (size (tombstones (tables s) cutoff)) ∧ purged (tables s) cutoff (tables s').
Proof.
  unfold clean.
  pose proof (retry_writes sha256 _ _ (delete_contents_law cutoff) s) as H1.
  destruct (retryWriteTx (delete_contents cutoff) s) as [s1 [e|]]; [done|].
  pose proof (retry_writes sha256 _ _ (delete_metadata_law cutoff) s1) as H2.
  destruct (retryWriteTx (delete_metadata cutoff) s1) as [s2 [e|]]; [done|].
  pose proof (retry_delete cutoff s2) as H3.
  destruct (retryWriteTx _ (s2, 0%Z)) as [[s3 n'] [e|]]; [done|]. intros [= -> ->].
  destruct H3 as [-> H3].
  assert (Hts : tombstones (tables s2) cutoff = tombstones (tables s) cutoff) by by rewrite H2, H1.
  assert (Ht1 : tombstones (tables s1) cutoff = tombstones (tables s) cutoff) by by rewrite H1.
  split; [by rewrite Hts|]. rewrite Ht1 in H2. rewrite H3, H2, H1. clear H1 H2 H3 Hts Ht1.
  intros id. pose proof (tombstones_lookup (tables s) cutoff id) as Ht. cbn.
  destruct (stored_files (tables s) !! id) as [row|] eqn:Hrow; cbn.
  - destruct (old_enough cutoff row) eqn:Ho.
    + split_and!; [|apply lookup_filter_out; intros ? Hx%Ht; congruence|
        intros k; apply lookup_filter_out; intros ? Hx%Ht; congruence].
      rewrite map_lookup_filter, Hrow. cbn. by rewrite option_guard_False by congruence.
    + split_and!; [|apply lookup_filter_in; intros ?; by apply Ht|
        intros k; apply lookup_filter_in; intros ?; by apply Ht].
      rewrite map_lookup_filter, Hrow. cbn. by rewrite option_guard_True.
  - split_and!; [by rewrite map_lookup_filter, Hrow|apply lookup_filter_in; intros ?; by apply Ht|
      intros k; apply lookup_filter_in; intros ?; by apply Ht].
Qed.
End clean.

(** C15: A clean-up removes the files that have been deleted for longer than they are kept,
    with their content and their metadata, and nothing else; the number it answers is
    the number of these files. One that fails leaves everything. *)
Theorem CleanTombstones_spec {DB} `{!Gorm DB} `{!ErrorRetry} (sha256 : bytes → string)
    `{!GormLaws sha256 DB} now after (s : DB) :
  match CleanTombstones now after s with
  | (s', Ok n) =>
      n = Z.of_nat (size (tombstones (tables sha256 s) (Add now (- after)))) ∧
      purged (tables sha256 s) (Add now (- after)) (tables sha256 s')
  | (s', Err _) => tables sha256 s' = tables sha256 s
  end.
Proof.
  unfold CleanTombstones. pose proof (transaction_law sha256 (clean (Add now (- after))) s) as Ht.
  destruct (transaction _ s) as [s' [n|e]]; [|done]. destruct Ht as (s1 & Hb & ->).
  by apply (clean_spec sha256) in Hb.
Qed.

(** A file that is deleted for good leaves its content and its metadata behind. *)
Theorem Delete_permanent_orphans {DB} `{!Gorm DB} `{!ErrorRetry} (sha256 : bytes → string)
    `{!GormLaws sha256 DB} id permanent (s s' : DB) :
  Delete id permanent s = (s', None) →
  stored_file_contents (tables sha256 s') = stored_file_contents (tables sha256 s) ∧
  stored_file_metadata (tables sha256 s') = stored_file_metadata (tables sha256 s) ∧
  ∃ n, ParseUint id = Some n ∧
    if (permanent : bool) then stored_files (tables sha256 s') !! n = None
    else ∀ row, stored_files (tables sha256 s') !! n = Some row → RDeletedAt row ≠ None.
Proof.
  unfold Delete. destruct (ParseUint id) as [n|]; [|done].
  pose proof (retry_writes sha256 _ _ (delete_file_law sha256 permanent n) s) as Hw.
  destruct (retryWriteTx _ s) as [s1 [e|]]; [done|]. intros [= <-]. destruct Hw as (Hc & Hm & Hf).
  split_and!; [done..|]. exists n. split; [done|]. destruct permanent.
  - by rewrite Hf, lookup_delete_eq.
  - destruct Hf as [now ->]. intros row. rewrite lookup_alter_eq.
    destruct (stored_files _ !! n) as [r|]; [|done]. intros [= <-]. cbn. by destruct (RDeletedAt r).
Qed.

(** ** The interface of the handlers *)

(** A file is looked up only to be changed: the one that is found is in the table. *)
Lemma find_existing_row {DB} `{!Gorm DB} (sha256 : bytes → string) `{!GormLaws sha256 DB}
    file (s : DB) found :
  find_existing file s = Ok found →
  SID found = 0%Z ∨ is_Some (stored_files (tables sha256 s) !! SID found).
Proof.
  unfold find_existing. destruct (bool_decide (SID file = 0%Z)); cbn [negb].
  - destruct (complete (file_key file)) eqn:Hk; [|intros [= <-]; by left].
    unfold GetByFileKey. pose proof (first_file_law sha256 _ s Hk) as Hl.
    destruct (first_file _ s) as [f|[| |msg]]; [|intros [= <-]; by left|done|done].
    intros [= <-]. right. destruct Hl as (row & Hrow & _). by eexists.
  - unfold Get. destruct (ParseUint _) as [n|]; [|done]. pose proof (find_file_law sha256 n s) as Hl.
    destruct (find_file n s) as [f|[| |msg]]; [|done..]. intros [= <-].
    destruct (stored_files _ !! n) as [row|] eqn:Hrow; [|subst f; by left].
    destruct Hl as [-> _]. right. by eexists.
Qed.

(** What is saved is what is downloaded. *)
Lemma Save_Download {DB} `{!Gorm DB} `{!ErrorRetry} (sha256 : bytes → string) `{!GormLaws sha256 DB}
    f (s s' : DB) o id :
  Save sha256 0 (Some f) s = (s', (o, Ok id)) → Content (SFile f) ≠ [] →
  ∃ g, Download id s' = Ok g ∧ Content (SFile g) = Content (SFile f) ∧ Itoa (SID g) = id.
Proof.
  intros Hs Hne. unfold Download. unfold Save in Hs.
  assert (Hbs : Content (BeforeSave sha256 (SFile f)) = Content (SFile f)).
  { unfold BeforeSave. by destruct (Content (SFile f)) eqn:Hc. }
  assert (Hdone : ∀ n row c s1, stored_files (tables sha256 s1) !! n = Some row →
     stored_file_contents (tables sha256 s1) !! n = Some c → Content c = Content (SFile f) →
     ∃ g, match load_file (Itoa n) s1 with Err e => Err (gorm_error e) | Ok f => Ok f end = Ok g ∧
          Content (SFile g) = Content (SFile f) ∧ Itoa (SID g) = Itoa n).
  { intros n row c s1 Hrow Hc Hcc. destruct (load_file_law sha256 n row s1 Hrow) as (g & -> & <- & Hg).
    exists g. rewrite Hg, Hc. by split_and!. }
  destruct (find_existing f s) as [found|e] eqn:Hf; [|done].
  apply (find_existing_row sha256) in Hf. case_bool_decide as Hz.
  - pose proof (retry_create sha256 f s) as Hc. destruct (retryWriteTx _ (s, f)) as [[s1 f1] [e|]]; [done|].
    injection Hs as -> _ <-. destruct Hc as (_ & _ & _ & _ & Hfc & Hrows & Hconts & _).
    eapply Hdone; [by rewrite Hrows, lookup_insert_eq| |by rewrite <- Hfc in Hbs; exact Hbs].
    rewrite Hconts, bool_decide_false by (intros He; by rewrite He in Hne). by rewrite lookup_insert_eq.
  - destruct Hf as [?|[row Hrow]]; [done|]. pose proof (update_existing_spec sha256 (SID found) f s) as Hu.
    destruct (update_existing _ _ _ f s) as [s1 [f1 [e|]]]; [done|]. injection Hs as -> _ <-.
    destruct Hu as (_ & (f2 & _ & Hrows) & _ & Hc). rewrite bool_decide_false in Hc by done.
    destruct Hc as [_ Hc]. eapply Hdone; [by rewrite Hrows, lookup_alter_eq, Hrow|exact Hc|done].
Qed.

(** The store is what the handlers of [FileServer] work on; a file with bytes comes to
    it from the wire only, so its content is new. *)
#[export, refine] Instance fileStore {DB} `{!Gorm DB} `{!ErrorRetry} (sha256 : bytes → string)
    `{!GormLaws sha256 DB} : StoredFileStore DB := {|
  FileServer.Save f s :=
    let '(s, (o, r)) := Save sha256 0 (Some f) s in
    (s, (default f o, match r with Ok id => Ok id | Err e => Err (store_text e) end));
  FileServer.Download id s := match Download id s with Ok f => Ok f | Err e => Err (store_text e) end;
  FileServer.StoreGet id s := Get id s;
  FileServer.GetByFileKey k s := GetByFileKey (Some k) s
|}.
Proof.
  intros f s s' f' id Hs Hne. destruct (Save _ _ _ s) as [s1 [o [i|e]]] eqn:Hsave; [|done].
  injection Hs as -> _ ->. destruct (Save_Download sha256 f s s' o id Hsave Hne) as (g & -> & Hg).
  by exists g.
Defined.

Section unknown.
Context {DB : Type} `{!Gorm DB} `{!ErrorRetry}.
Variable sha256 : bytes → string.
Context `{!GormLaws sha256 DB}.

(** An identifier that no file has is answered with an empty file, not with an error. *)
Lemma GetFile_unknown n (s : DB) f :
  (0 < n ≤ max_uint64)%Z → stored_files (tables sha256 s) !! n = None → find_file n s = Ok f →
  GetFile (Itoa n) None s = Ok (mkFileInfo "0" "" "" "" (Some ∅) 0 "" "" None).
Proof.
  intros Hn Hnone Hf. unfold GetFile. pose proof (find_file_law sha256 n s) as Hl.
  rewrite Hf, Hnone in Hl. subst f.
  assert (Hi : Itoa n ≠ "").
  { intros He. pose proof (ParseUint_Itoa n) as Hp. rewrite He in Hp. specialize (Hp ltac:(lia)). done. }
  rewrite bool_decide_false by done. cbn [negb FileServer.StoreGet fileStore].
  unfold Get. rewrite ParseUint_Itoa by lia. by rewrite Hf.
Qed.

(** A change of the metadata of an unknown file makes a new one, without a name. *)
Lemma UpdateFileMetadata_unknown n (s s' : DB) f metadata info :
  (0 < n ≤ max_uint64)%Z → stored_files (tables sha256 s) !! n = None → find_file n s = Ok f →
  UpdateFileMetadata (Itoa n) metadata s = Ret (s', Ok info) →
  ∃ m, stored_files (tables sha256 s) !! m = None ∧
       stored_files (tables sha256 s') !! m = Some (mkFileRow "" "" "" None).
Proof.
  intros Hn Hnone Hf. unfold UpdateFileMetadata. pose proof (find_file_law sha256 n s) as Hl.
  rewrite Hf, Hnone in Hl. subst f. cbn [FileServer.StoreGet fileStore]. unfold Get.
  rewrite ParseUint_Itoa by lia. rewrite Hf. cbn [merge_metadata foldl SMetadata zero_file].
  cbn [mbind outcome_mbind]. match goal with |- context [FileServer.Save ?f s] => set (g := f) end.
  cbn [FileServer.Save fileStore]. unfold Save. assert (He : find_existing g s = Ok zero_file) by done.
  rewrite He. cbn [SID zero_file]. rewrite (bool_decide_true (0 = 0)%Z) by done.
  pose proof (retry_create sha256 g s) as Hc.
  destruct (retryWriteTx _ (s, g)) as [[s1 f1] [e|]]; [done|]. intros [= -> _].
  destruct Hc as (H1 & _ & _ & _ & _ & H6 & _). exists (SID f1). by rewrite H6, lookup_insert_eq.
Qed.
End unknown.

(** ** A database of one file *)

(** Its row, its content and its metadata; the file has the number 1. *)
Record OneFile := mkOneFile {
  one_row : option FileRow; one_content : option StoredFileContent; one_metadata : gmap string string
}.

Definition one_map {A} (o : option A) : gmap Z A := match o with Some a => {[ 1%Z := a ]} | None => ∅ end.

Definition one_tables (s : OneFile) : Tables :=
  mkTables (one_map (one_row s)) (one_map (one_content s)) (kmap (pair 1%Z) (one_metadata s)).

(** The file with its content, or without the bytes. *)
Definition one_file (bytes : bool) (s : OneFile) (row : FileRow) : StoredFile :=
  let c := default no_content (one_content s) in
  mkStoredFile 1 (RName row) (RSource row) (RSourceType row)
    (if bytes then c else mkStoredFileContent (CChecksum c) (CSize c) (CMimeType c) [])
    ((λ e, mkStoredFileMetadata e.1 e.2) <$> map_to_list (one_metadata s)) (RDeletedAt row).

Definition refused : option GormError := Some (DBError "refused").

Section one.
Variable sha256 : bytes → string.

Definition one_create (f : StoredFile) (s : OneFile) : OneFile * (StoredFile * option GormError) :=
  match one_row s, one_content s with
  | None, None =>
      if bool_decide (one_metadata s = ∅) && bool_decide (SID f = 0%Z) then
        let c := BeforeSave sha256 (SFile f) in
        (mkOneFile (Some (mkFileRow (SName f) (SSource f) (SSourceType f) (SDeletedAt f)))
           (if bool_decide (SFile f = no_content) then None else Some c) (metadata_map (SMetadata f)),
         (mkStoredFile 1 (SName f) (SSource f) (SSourceType f) c (SMetadata f) (SDeletedAt f), None))
      else (s, (f, refused))
  | _, _ => (s, (f, refused))
  end.

Definition one_gone (q : Query) (s : OneFile) : bool :=
  match one_row s with Some r => QUnscoped q && old_enough (QArgument q) r | None => false end.

#[local] Instance one_gorm : Gorm OneFile := {
  find_file id s :=
    match one_row s with
    | Some row => if bool_decide (id = 1%Z) then Ok (one_file false s row) else Ok zero_file
    | None => Ok zero_file
    end;
  first_file k s :=
    match one_row s with
    | Some row => if bool_decide (file_key (one_file false s row) = k) then Ok (one_file false s row)
                  else Err RecordNotFound
    | None => Err RecordNotFound
    end;
  load_file id s :=
    match one_row s with
    | Some row => if id == Itoa 1 then Ok (one_file true s row) else Err RecordNotFound
    | None => Err RecordNotFound
    end;
  first_metadata id k s :=
    if bool_decide (id = 1%Z) then
      match one_metadata s !! k with Some v => Ok v | None => Err RecordNotFound end
    else Err RecordNotFound;
  create_file := one_create;
  create_metadata id m s :=
    if bool_decide (id = 1%Z)
    then (mkOneFile (one_row s) (one_content s) (<[MKey m := MValue m]> (one_metadata s)), None)
    else (s, refused);
  update_metadata id m s :=
    if bool_decide (id = 1%Z)
    then (mkOneFile (one_row s) (one_content s)
            (<[MKey m := updated_value (one_metadata s !! MKey m) (MValue m)]> (one_metadata s)), None)
    else (s, refused);
  create_content id c s :=
    if bool_decide (id = 1%Z) && match one_content s with None => true | Some _ => false end
    then (mkOneFile (one_row s) (Some c) (one_metadata s), None) else (s, refused);
  update_content id c s :=
    if bool_decide (id = 1%Z) then (mkOneFile (one_row s) (Some c) (one_metadata s), None)
    else (s, refused);
  update_file id f s :=
    if bool_decide (id = 1%Z) then (mkOneFile (updated_row f <$> one_row s) (one_content s) (one_metadata s), None)
    else (s, refused);
  delete_file permanent id s :=
    if bool_decide (id = 1%Z) && permanent then (mkOneFile None (one_content s) (one_metadata s), None)
    else (s, refused);
  delete_rows d s :=
    let gone := one_gone (DIn d) s in
    match DModel d with
    | MStoredFile =>
        if gone then (mkOneFile None (one_content s) (one_metadata s), (1%Z, None)) else (s, (0%Z, None))
    | MStoredFileContent =>
        (mkOneFile (one_row s) (if gone then None else one_content s) (one_metadata s), (1%Z, None))
    | MStoredFileMetadata =>
        (mkOneFile (one_row s) (one_content s) (if gone then ∅ else one_metadata s), (1%Z, None))
    end;
  transaction body s :=
    match body s with (s', Ok n) => (s', Ok n) | (_, Err e) => (s, Err e) end
}.

Lemma one_map_1 {A} (o : option A) : one_map o !! 1%Z = o.
Proof. destruct o; cbn; [by rewrite lookup_singleton_eq|done]. Qed.

Lemma one_map_ne {A} (o : option A) i : i ≠ 1%Z → one_map o !! i = None.
Proof. intros Hi. destruct o; cbn; [by rewrite lookup_singleton_ne|done]. Qed.

Lemma one_map_Some {A} (o : option A) i a : one_map o !! i = Some a ↔ i = 1%Z ∧ o = Some a.
Proof.
  destruct (decide (i = 1%Z)) as [->|Hi].
  - rewrite one_map_1. naive_solver.
  - rewrite one_map_ne by done. naive_solver.
Qed.

Lemma one_map_insert {A} (o : option A) a : <[1%Z := a]> (one_map o) = {[1%Z := a]}.
Proof. destruct o; cbn; [apply insert_singleton_eq|apply insert_empty]. Qed.

Lemma kmap_one (m : gmap string string) id k :
  (kmap (pair 1%Z) m : gmap (Z * string) string) !! (id, k) =
  if bool_decide (id = 1%Z) then m !! k else None.
Proof.
  case_bool_decide as Hi.
  - subst. apply lookup_kmap. apply _.
  - apply lookup_kmap_None; [apply _|]. by intros ? [= ->].
Qed.

Lemma kmap_one_insert (m : gmap string string) k v :
  (kmap (pair 1%Z) (<[k := v]> m) : gmap (Z * string) string) = <[(1%Z, k) := v]> (kmap (pair 1%Z) m).
Proof. apply kmap_insert. apply _. Qed.

Lemma one_selected q s id :
  selected (one_tables s) q !! id = None ↔ id ≠ 1%Z ∨ one_gone q s = false.
Proof.
  unfold selected. rewrite map_lookup_filter. cbn. unfold one_gone. destruct (decide (id = 1%Z)) as [->|Hi].
  - rewrite one_map_1. destruct (one_row s) as [row|]; cbn; [|naive_solver].
    unfold old_enough. destruct (RDeletedAt row) as [d|]; cbn; rewrite ?andb_false_r, ?orb_false_r;
      [destruct (QUnscoped q && Before d (QArgument q)) eqn:Hb; cbn; naive_solver|naive_solver].
  - rewrite one_map_ne by done. naive_solver.
Qed.

Lemma one_create_law f s :
  match one_create f s with
  | (s', (f', None)) => created sha256 (one_tables s) f f' (one_tables s')
  | (s', (f', Some _)) => one_tables s' = one_tables s ∧ hooked sha256 f f'
  end.
Proof.
  unfold one_create. destruct s as [[row|] [c|] m]; cbn; try (split; [done|by left]).
  destruct (bool_decide_reflect (m = ∅)) as [->|]; cbn; [|split; [done|by left]].
  destruct (bool_decide_reflect (SID f = 0%Z)) as [Hz|]; cbn; [|split; [done|by left]].
  unfold created; cbn. split_and!; try done.
  - case_bool_decide; [done|]. cbn. by rewrite insert_empty.
  - intros id k. rewrite kmap_one. case_bool_decide; [done|]. by rewrite kmap_empty, lookup_empty.
Qed.

Lemma one_gone_map {A} q s (o : option A) (P : Z * A → Prop) `{∀ x, Decision (P x)} :
  (∀ e, P e ↔ selected (one_tables s) q !! e.1 = None) →
  one_map (if one_gone q s then None else o) = filter P (one_map o).
Proof.
  intros HP. apply map_eq. intros i. destruct (decide (i = 1%Z)) as [->|Hi].
  - rewrite one_map_1. destruct (one_gone q s) eqn:Hp.
    + rewrite lookup_filter_out; [done|]. intros a. rewrite HP, one_selected. cbn. intros [?|?]; congruence.
    + rewrite lookup_filter_in, one_map_1; [done|]. intros a. rewrite HP, one_selected. by right.
  - rewrite one_map_ne by done. symmetry. apply map_lookup_filter_None. left. by apply one_map_ne.
Qed.

#[local, refine] Instance one_laws : GormLaws sha256 OneFile := {| tables := one_tables |}.
Proof.
  - intros s id row [-> _]%one_map_Some. done.
  - intros s id1 id2 r1 r2 [-> _]%one_map_Some [-> _]%one_map_Some _. done.
  - intros id s. cbn. destruct (one_row s) as [row|]; cbn; [|done].
    case_bool_decide as Hi; [subst; by rewrite lookup_singleton_eq|by rewrite lookup_singleton_ne].
  - intros k s _. cbn. destruct (one_row s) as [row|]; cbn; [|by intros id row ?%lookup_empty_Some].
    case_bool_decide as Hk; cbn.
    + exists row. by rewrite lookup_singleton_eq.
    + intros id r [<- <-]%lookup_singleton_Some. intros Hr. apply Hk. by rewrite <- Hr.
  - intros id row s [-> Hrow]%one_map_Some. cbn. rewrite Hrow, bool_decide_true by done.
    exists (one_file true s row). split_and!; [done..|]. cbn. by rewrite one_map_1.
  - intros id k s. pose proof (kmap_one (one_metadata s) id k) as Hk. cbn.
    destruct (bool_decide (id = 1%Z)); [|exact Hk].
    destruct (one_metadata s !! k) as [v|]; exact Hk.
  - intros f s. exact (one_create_law f s).
  - intros id m s. cbn. case_bool_decide; [|done]. subst. cbn. unfold one_tables; cbn. by rewrite kmap_one_insert.
  - intros id m s. cbn. case_bool_decide; [|done]. subst. unfold one_tables; cbn.
    by rewrite kmap_one_insert, kmap_one, bool_decide_true.
  - intros id c s. cbn. case_bool_decide; [|done]. cbn. subst. destruct s as [r [c0|] m]; cbn; [done|].
    unfold one_tables; cbn. by rewrite insert_empty.
  - intros id c s. cbn. case_bool_decide; [|done]. subst. exists c. split; [done|].
    unfold one_tables; cbn. by rewrite one_map_insert.
  - intros id f s. cbn. case_bool_decide; [|done]. subst. unfold one_tables; cbn. f_equal.
    destruct (one_row s) as [row|]; cbn; [by rewrite alter_singleton|done].
  - intros permanent id s. cbn. case_bool_decide; [|done]. subst. destruct permanent; [|done]. cbn.
    split_and!; [done..|]. destruct (one_row s); cbn; [by rewrite delete_singleton|done].
  - intros [[] u w q] s _; cbn.
    + destruct (one_gone q s) eqn:Hg; cbn [fst snd].
      * split; [|intros _]; unfold one_tables; cbn.
        -- f_equal. symmetry. apply map_empty. intros i. destruct (decide (i = 1%Z)) as [->|Hi].
           ++ apply lookup_filter_out. intros a [Hx|Hx]%one_selected; [by apply Hx|congruence].
           ++ apply map_lookup_filter_None. left. by apply one_map_ne.
        -- unfold selected. cbn. revert Hg. unfold one_gone. destruct (one_row s) as [row|]; cbn; [|done].
           intros [-> Ho]%andb_true_iff. rewrite map_filter_singleton, decide_True by done. by rewrite map_size_singleton.
      * assert (He : selected (one_tables s) q = ∅).
        { apply map_empty. intros i. apply one_selected. by right. }
        split; [|by rewrite He, map_size_empty]. unfold one_tables; cbn. f_equal. symmetry. apply map_filter_id.
        intros i x _. cbn. apply one_selected. by right.
    + split; [|done]. unfold one_tables; cbn. f_equal. by apply one_gone_map.
    + split; [|done]. unfold one_tables; cbn. f_equal. symmetry. apply map_eq. intros [id k].
      destruct (bool_decide_reflect (id = 1%Z)) as [->|Hi].
      * destruct (one_gone q s) eqn:Hp.
        -- rewrite kmap_empty, lookup_empty. apply lookup_filter_out.
           intros a [Hx|Hx]%one_selected; [by apply Hx|congruence].
        -- apply lookup_filter_in. intros a. apply one_selected. by right.
      * rewrite kmap_one, bool_decide_false by done. apply map_lookup_filter_None. left.
        by rewrite kmap_one, bool_decide_false.
  - intros body s. cbn. destruct (body s) as [s' [n|e]]; [by exists s'|done].
Defined.
End one.

(** ** Examples *)

Definition example_sum : bytes → string := λ _, "sum".

#[export] Instance example_gorm : Gorm OneFile := one_gorm example_sum.
#[export] Instance example_laws : GormLaws example_sum OneFile := one_laws example_sum.

Definition example_file (content : bytes) (metadata : list StoredFileMetadata) : StoredFile :=
  mkStoredFile 0 "a.tar.gz" "redhat-marketplace" "report"
    (mkStoredFileContent "" 0 "application/gzip" content) metadata None.

Definition example_row : FileRow := mkFileRow "a.tar.gz" "redhat-marketplace" "report" None.

Definition example_content : StoredFileContent := mkStoredFileContent "sum" 1 "application/gzip" [x01].

(** The file is there without its content; one key of its metadata gets a new value, one
    an empty one, and one is new. *)
Definition example_db : OneFile := mkOneFile (Some example_row) None {[ "a" := "1"; "b" := "2" ]}.

Definition once : ErrorRetry := {| OnError E St := backoff 0; OnError_law E St := backoff_retried 0 |}.

Definition example_metadata : list StoredFileMetadata :=
  [mkStoredFileMetadata "a" "3"; mkStoredFileMetadata "b" ""; mkStoredFileMetadata "c" "4"].

Lemma Save_spec_witness :
  let s := example_db in
  let s' := mkOneFile (Some example_row) (Some example_content) {[ "a" := "3"; "b" := "2"; "c" := "4" ]} in
  let file := example_file [x01] example_metadata in
  ∃ n, "1" = Itoa n ∧
    (∃ row, stored_files (tables example_sum s') !! n = Some row ∧ row_key row = file_key file) ∧
    ((∃ row, stored_files (tables example_sum s) !! n = Some row ∧ row_key row = file_key file) ∨
     ∀ m row, stored_files (tables example_sum s) !! m = Some row → row_key row ≠ file_key file) ∧
    (∀ k, stored_file_metadata (tables example_sum s') !! (n, k) =
       merged (if bool_decide (is_Some (stored_files (tables example_sum s) !! n))
               then stored_file_metadata (tables example_sum s) !! (n, k) else None)
         (metadata_map (SMetadata file) !! k)) ∧
    (Content (SFile file) ≠ [] →
       stored_file_contents (tables example_sum s') !! n = Some (BeforeSave example_sum (SFile file))) ∧
    beside n (tables example_sum s) (tables example_sum s').
Proof.
  intros s s' file.
  assert (H1 : SID file = 0%Z) by reflexivity.
  assert (H2 : complete (file_key file) = true) by (vm_compute; reflexivity).
  assert (H3 : NoDup (MKey <$> SMetadata file))
    by (apply (bool_decide_eq_true_1 (NoDup (MKey <$> SMetadata file))); vm_compute; reflexivity).
  assert (H4 : Save (H:=once) example_sum 0 (Some file) s =
      (s', (Some (mkStoredFile 0 "a.tar.gz" "redhat-marketplace" "report" example_content example_metadata None), Ok "1")))
    by (vm_compute; reflexivity).
  exact (Save_spec (H:=once) example_sum file s s' _ _ H1 H2 H3 H4).
Defined.

Lemma reupload_refused_witness :
  let s := mkOneFile (Some example_row) (Some example_content) ∅ in
  let r := Save (H:=once) example_sum 0 (Some (example_file [x02] [])) s in
  is_ok r.2.2 = false ∧ stored_file_contents (tables example_sum r.1) !! 1%Z = Some example_content ∧
  stored_files (tables example_sum r.1) = stored_files (tables example_sum s).
Proof.
  intros s r.
  assert (H1 : complete (file_key (example_file [x02] [])) = true) by (vm_compute; reflexivity).
  assert (H2 : NoDup (MKey <$> SMetadata (example_file [x02] []))) by (cbn; constructor).
  assert (H3 : Content (SFile (example_file [x02] [])) ≠ []) by discriminate.
  assert (H4 : stored_files (tables example_sum s) !! 1%Z = Some example_row) by (vm_compute; reflexivity).
  assert (H5 : stored_file_contents (tables example_sum s) !! 1%Z = Some example_content) by (vm_compute; reflexivity).
  exact (reupload_refused (H:=once) example_sum (example_file [x02] []) s 1 example_row example_content
    eq_refl H1 H2 H3 H4 eq_refl H5).
Defined.
