(* ===== verification/EventReporter.v ===== *)
(** * The reports of the data reporter

    The model of [datareporter/v2/pkg/events/archive.go] and [event_reporter.go]: the
    events of a user are written to a directory of their own, put into a compressed
    archive with a manifest and uploaded to the file service; and of the part of
    [event_processor.go] that connects to that service and keeps the conditions of
    the configuration. The file system, with an archive on it, and the client of the
    service are interfaces; JSON, TLS and the connection are arguments. *)

From S2P Require Import Prelude GoTime Conditions Workloads MeterReport FileServer Writer DataReporter DataReporterController Uploaders.
Local Open Scope go_scope.

(** ** Deleting a text from another *)

(** [strings.ReplaceAll s old ""]: [skip] counts what is left of an occurrence. *)
Fixpoint remove_all (skip : nat) (old s : string) : string :=
  match s with
  | EmptyString => EmptyString
  | String a s' =>
      match skip with
      | S skip => remove_all skip old s'
      | O => if (old != "") && HasPrefix s old
             then remove_all (pred (String.length old)) old s'
             else String a (remove_all 0 old s')
      end
  end.

Definition Separator : string := String slash "".

(** ** The archive *)

(** What a walk finds: an error, something that is no regular file, a file. *)
Inductive WalkEntry := WalkErr (e : string) | NotRegular | Regular (file : string).

Definition regular (x : WalkEntry) : list string :=
  match x with Regular file => [file] | _ => [] end.

(** What is written to an archive: the header of an entry, its content, the end. *)
Inductive TarOp := TarHeader (name : string) | TarData (content : string) | TarEnd.

(** The directory a report is written to, and an archive next to it. A write to the
    archive changes nothing else, and the bytes of an archive whose last write went
    through are those of its entries; [PutWriter] says whether it did. *)
Class ArchiveDisk (W : Type) `{!FileSystem W} := {
  MkdirTemp : string → string → W → W * result string string;
  RemoveAll : string → W → W;
  Stat : string → W → option string;
  CreateFile : string → W → W * option string;
  Walk : string → W → list WalkEntry;
  ReadLocalFile : string → W → result string string;
  TarWrite : string → TarOp → W → W * option string;
  PutWriter : string → list (string * string) → W → W * bool;
  CloseFile : string → W → W * option string;
  tar_gz : list (string * string) → string;
  mkdir_temp_law root prefix w w' dir :
    MkdirTemp root prefix w = (w', Ok dir) →
    dir ≠ "" ∧ files w' = files w ∧ used w' = used w ∧
    ∀ rest, files w !! (dir +:+ "/" +:+ rest) = None;
  create_law dest w w' :
    CreateFile dest w = (w', None) → delete dest (files w') = delete dest (files w);
  walk_law src w :
    (∀ e, WalkErr e ∉ Walk src w) →
    NoDup (Walk src w ≫= regular) ∧
    ∀ f, f ∈ Walk src w ≫= regular ↔
         is_Some (files w !! f) ∧ ∃ rest, f = src +:+ "/" +:+ rest;
  read_law f w content : ReadLocalFile f w = Ok content → files w !! f = Some content;
  tar_write_law dest op w :
    delete dest (files (TarWrite dest op w).1) = delete dest (files w);
  put_writer_law dest entries w w' :
    PutWriter dest entries w = (w', true) → files w' !! dest = Some (tar_gz entries);
  close_law dest w : files (CloseFile dest w).1 = files w;
  uuid_law w w' id : NewUUID w = (w', id) → char_free slash id = true
}.

Inductive TarError :=
| TStat (e : string) | TCreate (e : string) | TWalk (e : string) | TWriteHeader (e : string)
| TOpen (e : string) | TCopy (e : string) | TClose (e : string) | TFileClose (e : string).

Section archive.
Context {W : Type} `{!FileSystem W, !ArchiveDisk W}.

(** The name of a file in the archive. *)
Definition entry_name (src file : string) : string :=
  TrimPrefix (remove_all 0 src file) Separator.

(** The body of the walk; [entries] is what the archive holds. *)
Definition tar_entry (src dest : string) (x : WalkEntry) (entries : list (string * string)) (w : W)
    : (W * list (string * string)) * option TarError :=
  match x with
  | WalkErr e => ((w, entries), Some (TWalk e))
  | NotRegular => ((w, entries), None)
  | Regular file =>
      let name := entry_name src file in
      match TarWrite dest (TarHeader name) w with
      | (w, Some e) => ((w, entries), Some (TWriteHeader e))
      | (w, None) =>
          match ReadLocalFile file w with
          | Err e => ((w, entries), Some (TOpen e))
          | Ok content =>
              match TarWrite dest (TarData content) w with
              | (w, Some e) => ((w, entries), Some (TCopy e))
              | (w, None) => ((w, entries ++ [(name, content)]), None)
              end
          end
      end
  end.

(** The walk ends at the first error. *)
Fixpoint tar_walk (src dest : string) (l : list WalkEntry) (entries : list (string * string)) (w : W)
    : (W * list (string * string)) * option TarError :=
  match l with
  | [] => ((w, entries), None)
  | x :: l =>
      match tar_entry src dest x entries w with
      | ((w, entries), Some e) => ((w, entries), Some e)
      | ((w, entries), None) => tar_walk src dest l entries w
      end
  end.

(** Whether [PutWriter] could write what was left is not looked at. *)
Definition TarGzip (src dest : string) (w : W) : W * list TarError :=
  match Stat src w with
  | Some e => (w, [TStat e])
  | None =>
      match CreateFile dest w with
      | (w, Some e) => (w, [TCreate e])
      | (w, None) =>
          let '((w, entries), err) := tar_walk src dest (Walk src w) [] w in
          let '(w, twerr) := TarWrite dest TarEnd w in
          let '(w, _) := PutWriter dest entries w in
          let '(w, derr) := CloseFile dest w in
          (w, option_list err ++ option_list (TClose <$> twerr) ++ option_list (TFileClose <$> derr))
      end
  end.
End archive.

(** ** The report *)

Record Manifest := mkManifest { MType : string; MVersion : string }.
Record ReportData := mkReportData { RMetadata : gmap string string; REventJsons : list Json }.

Inductive ReportError :=
| RTemp (e : string) | RMkdir (e : string) | RMarshal (e : string) | RWrite (e : string)
| RTar (es : list TarError) | ROpen (e : string) | RToken (e : string) | RUpload (e : string).

(** The client of the file service, with the credentials of a call. *)
Class DataServiceClient (S : Type) := {
  DataServiceUpload : option string → string → string → S → S * result string string
}.

Section report.
Context {W S : Type} `{!FileSystem W, !ArchiveDisk W, !DataServiceClient S}.
Variable marshal_manifest : Manifest → result string string.
Variable marshal_report : ReportData → result string string.
Variable OutputDirectory : string.
Variable DataServiceTokenFile : string.

Definition archive_name (fileid : string) : string := "data-reporter-" +:+ fileid +:+ ".tar.gz".

(** The files of a report and the archive of them. *)
Definition write_files (dir filesDir : string) (metadata : gmap string string) (manifestType : string)
    (eventJsons : list Json) (w : W) : W * result ReportError string :=
  match marshal_manifest (mkManifest manifestType "1") with
  | Err e => (w, Err (RMarshal e))
  | Ok manifestBytes =>
      match WriteFile (filepath_Join filesDir "manifest.json") manifestBytes w with
      | (w, Some e) => (w, Err (RWrite e))
      | (w, None) =>
          match marshal_report (mkReportData metadata eventJsons) with
          | Err e => (w, Err (RMarshal e))
          | Ok eventsBytes =>
              let '(w, fileid) := NewUUID w in
              match WriteFile (filepath_Join filesDir (json_name fileid)) eventsBytes w with
              | (w, Some e) => (w, Err (RWrite e))
              | (w, None) =>
                  let archiveFilePath := filepath_Join dir (archive_name fileid) in
                  match TarGzip filesDir archiveFilePath w with
                  | (w, []) => (w, Ok archiveFilePath)
                  | (w, es) => (w, Err (RTar es))
                  end
              end
          end
      end
  end.

(** A directory that is there already is as good. *)
Definition writeReport (dir : string) (metadata : gmap string string) (manifestType : string)
    (eventJsons : list Json) (w : W) : W * result ReportError string :=
  let filesDir := filepath_Join dir "archive" in
  match Mkdir filesDir w with
  | (w, Some (MkdirFailed e)) => (w, Err (RMkdir e))
  | (w, _) => write_files dir filesDir metadata manifestType eventJsons w
  end.

(** A file as the reader of a token sees it. *)
Definition local_bytes (w : W) (file : string) : result string bytes :=
  content ← ReadLocalFile file w; Ok (String.list_byte_of_string content).

Definition uploadReport (archiveFilePath : string) (w : W) (s : S) : S * option ReportError :=
  match ReadLocalFile archiveFilePath w with
  | Err e => (s, Some (ROpen e))
  | Ok archiveFile =>
      match ProvideGRPCCallOptions (local_bytes w) DataServiceTokenFile with
      | Err e => (s, Some (RToken e))
      | Ok opts =>
          match DataServiceUpload opts (filepath_Base archiveFilePath) archiveFile s with
          | (s, Err e) => (s, Some (RUpload e))
          | (s, Ok _) => (s, None)
          end
      end
  end.

(** The directory is removed however the report ends. *)
Definition Report (metadata : gmap string string) (manifestType : string) (eventJsons : list Json)
    (w : W) (s : S) : (W * S) * option ReportError :=
  match MkdirTemp OutputDirectory "datareporter-" w with
  | (w, Err e) => ((w, s), Some (RTemp e))
  | (w, Ok dir) =>
      match writeReport dir metadata manifestType eventJsons w with
      | (w, Err e) => ((RemoveAll dir w, s), Some e)
      | (w, Ok archiveFilePath) =>
          let '(s, e) := uploadReport archiveFilePath w s in ((RemoveAll dir w, s), e)
      end
  end.
End report.

(** ** The connection and the conditions of the configuration *)

Record ServiceConfig := mkServiceConfig {
  SAddress : string;
  SDataServiceToken : string;
  SDataServiceCert : string;
  SOutputPath : string;
  SCipherSuites : list Z;
  SMinVersion : Z
}.

Record EventsConfig := mkEventsConfig {
  EOutputDirectory : string;
  EDataServiceTokenFile : string;
  EDataServiceCertFile : string;
  EDataServiceURL : string;
  ENamespace : string;
  ECipherSuites : list Z;
  EMinVersion : Z
}.

Record ServiceTLS {Pool : Type} := mkServiceTLS {
  RootCAs : Pool; TCipherSuites : list Z; TMinVersion : Z
}.
Arguments ServiceTLS Pool : clear implicits.
Arguments mkServiceTLS {Pool} _ _ _.

(** A client: its connection, where it puts what it downloads, the options of its
    calls. *)
Record DataServiceConn {Conn : Type} := mkConn {
  fileServer : Conn; COutputPath : string; callOpts : option string
}.
Arguments DataServiceConn Conn : clear implicits.
Arguments mkConn {Conn} _ _ _.

Definition SetCallOpts {Conn} (opts : option string) (r : DataServiceConn Conn) : DataServiceConn Conn :=
  mkConn (fileServer r) (COutputPath r) opts.

Definition DATA_SERVICE_NAME : string := "rhm-data-service".

Definition upload_failure : Condition :=
  mkCondition "UploadFailed" ConditionTrue "UploadFailed"
    "an error occured while uploading a report to data-service, check pod logs for more information" 0.
Definition connection_failure : Condition :=
  mkCondition "DataServiceConnectionFailed" ConditionTrue "DataServiceConnectionFailed"
    "an error occured while attempting to initialize a connection to service/rhm-data-service" 0.

Section connection.
Context {X W Pool Conn : Type} `{!DRCCluster X W, !ConflictRetry}.
(** Local files, certificates, and dialling an address, which waits for a minute. *)
Variable ReadFile : string → result string string.
Variable SystemCertPool : result string Pool.
Variable AppendCertsFromPEM : Pool → string → Pool * bool.
Variable DialContext : string → ServiceTLS Pool → W → W * result string Conn.
Variable config : EventsConfig.

Definition token_text (file : string) : result string string :=
  if file != "" then ReadFile file else Ok "".

(** As the processor makes it: a certificate that is not named is empty. *)
Definition provideDataServiceConfig : result string ServiceConfig :=
  cert ← (if EDataServiceCertFile config != "" then ReadFile (EDataServiceCertFile config) else Ok "");
  serviceAccountToken ← token_text (EDataServiceTokenFile config);
  Ok (mkServiceConfig (EDataServiceURL config) serviceAccountToken cert (EOutputDirectory config)
        (ECipherSuites config) (EMinVersion config)).

(** The two functions of [event_reporter.go], without TLS settings; nothing calls
    them. *)
Definition config_of_files (dataServiceCertFile dataServiceTokenFile namespace outputDir : string)
    : result string ServiceConfig :=
  cert ← ReadFile dataServiceCertFile;
  serviceAccountToken ← token_text dataServiceTokenFile;
  Ok (mkServiceConfig (DATA_SERVICE_NAME +:+ "." +:+ namespace +:+ ".svc:8004") serviceAccountToken cert
        outputDir [] 0).

Definition reporter_provideDataServiceConfig : result string ServiceConfig :=
  config_of_files (EDataServiceCertFile config) (EDataServiceTokenFile config) (ENamespace config)
    (EOutputDirectory config).

Definition createTlsConfig (caCert : string) (cipherSuites : list Z) (minVersion : Z)
    : result string (ServiceTLS Pool) :=
  match SystemCertPool with
  | Err e => Err ("failed to get system cert pool: " +:+ e)
  | Ok caCertPool =>
      let '(caCertPool, ok) := AppendCertsFromPEM caCertPool caCert in
      if negb ok then Err "failed to append cert to cert pool"
      else Ok (mkServiceTLS caCertPool cipherSuites minVersion)
  end.

Definition newGRPCConn (address caCert : string) (cipherSuites : list Z) (minVersion : Z) (w : W)
    : W * result string Conn :=
  match createTlsConfig caCert cipherSuites minVersion with
  | Err e => (w, Err e)
  | Ok tlsConf => DialContext address tlsConf w
  end.

Definition NewDataService (cfg : ServiceConfig) (w : W) : W * result string (DataServiceConn Conn) :=
  match newGRPCConn (SAddress cfg) (SDataServiceCert cfg) (SCipherSuites cfg) (SMinVersion cfg) w with
  | (w, Err e) => (w, Err e)
  | (w, Ok client) => (w, Ok (mkConn client (SOutputPath cfg) None))
  end.

(** The closure of an update of the status; [keep] says whether a configuration that
    cannot be read is an error. *)
Definition status_step (keep : bool) (change : W → DRC X → option (DRC X)) (w : W)
    : W * option ClientError :=
  match GetDRC (mkNN (ENamespace config) DATAREPORTERCONFIG_NAME) w with
  | Err e => (w, if keep then Some e else None)
  | Ok dataReporterConfig =>
      match change w dataReporterConfig with
      | None => (w, None)
      | Some d => match UpdateDRCStatus d w with
                  | (w, Ok _) => (w, None)
                  | (w, Err e) => (w, Some e)
                  end
      end
  end.

(** What the updates end in is not looked at. *)
Definition UpdateErrorStatus (w : W) : W :=
  (RetryOnConflict (status_step false (set_change upload_failure)) w).1.
Definition clear_upload_failure (w : W) : W :=
  (RetryOnConflict (status_step true (remove_change (Type_ upload_failure))) w).1.
Definition set_connection_failure (w : W) : W :=
  (RetryOnConflict (status_step false (set_change connection_failure)) w).1.
Definition clear_connection_failure (w : W) : W :=
  (RetryOnConflict (status_step false (remove_change (Type_ connection_failure))) w).1.

(** The loop of [provideDataService]; nothing but a connection ends it. *)
Fixpoint connect (fuel : nat) (cfg : ServiceConfig) (w : W) : W * option (DataServiceConn Conn) :=
  match fuel with
  | O => (w, None)
  | S fuel =>
      match NewDataService cfg w with
      | (w, Err _) => connect fuel cfg (set_connection_failure w)
      | (w, Ok dataService) => (clear_connection_failure w, Some dataService)
      end
  end.

Definition provideDataService (fuel : nat) (w : W) : W * result string (option (DataServiceConn Conn)) :=
  match provideDataServiceConfig with
  | Err e => (w, Err e)
  | Ok cfg => let '(w, c) := connect fuel cfg w in (w, Ok c)
  end.

(** The world after as many attempts that failed. *)
Fixpoint after_attempts (n : nat) (cfg : ServiceConfig) (w : W) : W :=
  match n with
  | O => w
  | S n => set_connection_failure (NewDataService cfg (after_attempts n cfg w)).1
  end.
End connection.

(** ** Lemmas *)

Lemma char_free_app c a b : char_free c (a +:+ b) = char_free c a && char_free c b.
Proof.
  induction a as [|x a IH]; [done|]. rewrite string_cons_app; cbn [char_free].
  by rewrite IH, andb_assoc.
Qed.

Lemma char_free_prefix c p s : String.prefix p s = true → char_free c s = true → char_free c p = true.
Proof.
  revert s; induction p as [|x p IH]; intros [|y s]; cbn [String.prefix char_free]; try done.
  destruct (Ascii.ascii_dec x y) as [<-|]; [|done].
  intros Hp [Hx Hs]%andb_true_iff. by rewrite Hx, (IH s).
Qed.

(** What is inside an occurrence is passed over. *)
Lemma remove_all_skip old p rest :
  remove_all (String.length p) old (p +:+ rest) = remove_all 0 old rest.
Proof. induction p as [|x p IH]; [done|]. exact IH. Qed.

Lemma remove_all_prefix old rest :
  old ≠ "" → remove_all 0 old (old +:+ rest) = remove_all 0 old rest.
Proof.
  intros Hne. pose proof (prefix_app old rest) as Hp. destruct old as [|x p]; [done|].
  rewrite string_cons_app in Hp |- *. cbn [remove_all]. rewrite (bool_decide_false _ Hne).
  unfold HasPrefix. rewrite Hp. exact (remove_all_skip (String x p) p rest).
Qed.

(** A text with a separator after its first character does not occur where there is
    none. *)
Lemma remove_all_free x p s :
  char_free slash p = false → char_free slash s = true → remove_all 0 (String x p) s = s.
Proof.
  intros Hp. induction s as [|y s IH]; [done|]. intros Hs. cbn [remove_all].
  destruct (HasPrefix (String y s) (String x p)) eqn:Hpre.
  - unfold HasPrefix in Hpre. cbn [String.prefix] in Hpre. destruct (Ascii.ascii_dec x y); [|done].
    cbn [char_free] in Hs. apply andb_true_iff in Hs as [_ Hs].
    by rewrite (char_free_prefix _ _ _ Hpre Hs) in Hp.
  - rewrite andb_false_r. cbn [char_free] in Hs. apply andb_true_iff in Hs as [_ Hs]. by rewrite IH.
Qed.

(** The files of a report keep their names in the archive. *)
Lemma entry_name_Join dir name :
  dir ≠ "" → char_free slash name = true →
  entry_name (filepath_Join dir "archive") (filepath_Join (filepath_Join dir "archive") name) = name.
Proof.
  intros Hd Hn. unfold entry_name. destruct dir as [|x dir]; [done|].
  set (src := filepath_Join (String x dir) "archive"). unfold filepath_Join at 1.
  assert (Hsrc : src = String x (dir +:+ "/" +:+ "archive")) by (subst src; unfold filepath_Join; by rewrite string_cons_app).
  rewrite remove_all_prefix by by rewrite Hsrc. rewrite Hsrc.
  set (p := dir +:+ "/" +:+ "archive").
  assert (Hp : char_free slash p = false).
  { subst p. rewrite char_free_app. cbn. apply andb_false_r. }
  assert (Hs : remove_all 0 (String x p) ("/" +:+ name) = "/" +:+ name).
  { change ("/" +:+ name) with (String slash name). cbn [remove_all].
    destruct (HasPrefix (String slash name) (String x p)) eqn:Hpre.
    - unfold HasPrefix in Hpre. cbn [String.prefix] in Hpre.
      destruct (Ascii.ascii_dec x slash); [|done].
      by rewrite (char_free_prefix _ _ _ Hpre Hn) in Hp.
    - rewrite andb_false_r. by rewrite remove_all_free. }
  rewrite Hs. exact (TrimPrefix_app Separator name).
Qed.

Lemma TrimRight_last c s a :
  Ascii.eqb a c = false → MarketplaceConfig.TrimRight c (s +:+ String a "") = s +:+ String a "".
Proof.
  intros Ha. induction s as [|x s IH]; autorewrite with rhm; cbn [MarketplaceConfig.TrimRight]; [by rewrite Ha|].
  rewrite IH. by destruct s.
Qed.

Lemma after_last_app c a b : char_free c b = true → after_last c (a +:+ String c b) = b.
Proof.
  intros Hb. induction a as [|x a IH]; autorewrite with rhm; cbn [after_last].
  - by rewrite Hb, Ascii.eqb_refl.
  - rewrite char_free_app. cbn [char_free].
    by rewrite Ascii.eqb_refl, andb_false_r.
Qed.

(** An archive is uploaded under its own name. *)
Lemma archive_base dir id :
  char_free slash id = true → filepath_Base (filepath_Join dir (archive_name id)) = archive_name id.
Proof.
  intros Hid. unfold filepath_Base, filepath_Join, archive_name.
  assert (Hz : ∃ s, dir +:+ "/" +:+ "data-reporter-" +:+ id +:+ ".tar.gz" = s +:+ "z").
  { exists (dir +:+ "/" +:+ "data-reporter-" +:+ id +:+ ".tar.g"). by rewrite !string_app_assoc. }
  destruct Hz as [s Hz]. rewrite bool_decide_false by by destruct dir.
  rewrite Hz, TrimRight_last by done. rewrite <- Hz.
  change (dir +:+ "/" +:+ ?x) with (dir +:+ String slash x).
  rewrite after_last_app; [by rewrite bool_decide_false|].
  rewrite !char_free_app, Hid. reflexivity.
Qed.

(** What is stored under a name, in the files but for one. *)
Lemma lookup_but (dest f : string) (m m' : gmap string string) :
  delete dest m = delete dest m' → f ≠ dest → m !! f = m' !! f.
Proof. intros Hm Hne. rewrite <- (lookup_delete_ne m dest f), Hm, lookup_delete_ne by done. done. Qed.

Section archive_lemmas.
Context {W : Type} `{!FileSystem W, !ArchiveDisk W}.

(** The entries made of some files. *)
Definition entries_of (src : string) (m : gmap string string) (l : list string) : list (string * string) :=
  (λ f, (entry_name src f, default "" (m !! f))) <$> l.

#[export] Instance entries_of_perm src m : Proper (Permutation ==> Permutation) (entries_of src m).
Proof. intros l l' Hl. unfold entries_of. by rewrite Hl. Qed.

Lemma tar_entry_spec src dest x es w w' es' :
  dest ∉ regular x → tar_entry src dest x es w = ((w', es'), None) →
  delete dest (files w') = delete dest (files w) ∧
  es' = es ++ entries_of src (files w) (regular x).
Proof.
  intros Hd. destruct x as [e| |file]; cbn [tar_entry regular] in *; [done| |].
  { intros [= -> ->]. by rewrite app_nil_r. }
  pose proof (tar_write_law dest (TarHeader (entry_name src file)) w) as H1.
  destruct (TarWrite dest (TarHeader _) w) as [w1 [e|]]; [done|]. cbn [fst] in H1.
  destruct (ReadLocalFile file w1) as [content|e] eqn:Hr; [|done]. apply read_law in Hr.
  pose proof (tar_write_law dest (TarData content) w1) as H2.
  destruct (TarWrite dest (TarData _) w1) as [w2 [e|]]; [done|]. cbn [fst] in H2.
  intros [= <- <-]. split; [congruence|]. unfold entries_of. cbn.
  assert (Hf : files w !! file = Some content).
  { rewrite <- Hr. apply (lookup_but dest); [done|]. by intros ->; apply Hd; left. }
  by rewrite Hf.
Qed.

Lemma tar_walk_errors src dest l es w w' es' :
  tar_walk src dest l es w = ((w', es'), None) → ∀ e, WalkErr e ∉ l.
Proof.
  revert es w; induction l as [|x l IH]; intros es w; cbn [tar_walk]; [by intros _ e ?%elem_of_nil|].
  destruct (tar_entry src dest x es w) as [[w1 es1] [e|]] eqn:He; [done|].
  intros Hrun e0 [<-|Hx]%elem_of_cons; [done|by apply (IH _ _ Hrun e0)].
Qed.

Lemma tar_walk_spec src dest l es w w' es' :
  dest ∉ l ≫= regular → tar_walk src dest l es w = ((w', es'), None) →
  es' = es ++ entries_of src (files w) (l ≫= regular).
Proof.
  revert es w; induction l as [|x l IH]; intros es w Hd; cbn [tar_walk].
  { intros [= _ <-]. by rewrite app_nil_r. }
  rewrite bind_cons in Hd |- *. apply not_elem_of_app in Hd as [Hx Hl].
  destruct (tar_entry src dest x es w) as [[w1 es1] [e|]] eqn:He; [done|].
  apply tar_entry_spec in He as [Hw ->]; [|done]. intros ->%IH; [|done].
  unfold entries_of. rewrite <- app_assoc. f_equal. rewrite fmap_app. f_equal.
  apply list_fmap_ext. intros i f Hf. rewrite (lookup_but dest f _ _ Hw); [done|].
  intros ->. apply Hl. by eapply list_elem_of_lookup_2.
Qed.

(** What a walk that ends well puts into an archive that was just made: the files below a
    directory, each under its name there and once. *)
Lemma archived_files src dest w w1 w2 es :
  (∀ rest, dest ≠ src +:+ "/" +:+ rest) → CreateFile dest w = (w1, None) →
  tar_walk src dest (Walk src w1) [] w1 = ((w2, es), None) →
  ∃ l, NoDup l ∧
    (∀ f, f ∈ l ↔ is_Some (files w !! f) ∧ ∃ rest, f = src +:+ "/" +:+ rest) ∧
    es = entries_of src (files w) l.
Proof.
  intros Hdest Hc%create_law Hwalk.
  pose proof (tar_walk_errors _ _ _ _ _ _ _ Hwalk) as Hne. destruct (walk_law src w1 Hne) as [Hnd Hl].
  assert (Hin : ∀ f, f ∈ Walk src w1 ≫= regular → f ≠ dest).
  { intros f Hf ->. apply Hl in Hf as [_ [rest Hr]]. by apply (Hdest rest). }
  apply tar_walk_spec in Hwalk as ->; [|by intros ?%Hin]. exists (Walk src w1 ≫= regular).
  split; [done|]. split.
  - intros f. rewrite Hl. split; intros [Hs [rest Hr]]; (split; [|by exists rest]);
      [rewrite <- (lookup_but dest f _ _ Hc)|rewrite (lookup_but dest f _ _ Hc)]; try done; subst f; congruence.
  - cbn [app]. apply list_fmap_ext. intros i f Hf. rewrite (lookup_but dest f _ _ Hc); [done|].
    apply Hin. by eapply list_elem_of_lookup_2.
Qed.

(** An archive that was made holds the files below a directory, when it could be written
    out. *)
Lemma TarGzip_spec src dest w w' :
  (∀ es w, (PutWriter dest es w).2 = true) → (∀ rest, dest ≠ src +:+ "/" +:+ rest) →
  TarGzip src dest w = (w', []) →
  ∃ l, NoDup l ∧
    (∀ f, f ∈ l ↔ is_Some (files w !! f) ∧ ∃ rest, f = src +:+ "/" +:+ rest) ∧
    files w' !! dest = Some (tar_gz (entries_of src (files w) l)).
Proof.
  intros Hflush Hdest. unfold TarGzip. destruct (Stat src w); [done|].
  destruct (CreateFile dest w) as [w1 [e|]] eqn:Hc; [done|].
  destruct (tar_walk src dest (Walk src w1) [] w1) as [[w2 es] err] eqn:Hwalk.
  destruct (TarWrite dest TarEnd w2) as [w3 twerr]. pose proof (Hflush es w3) as Hf.
  destruct (PutWriter dest es w3) as [w4 b] eqn:Hput. cbn [snd] in Hf. subst b.
  pose proof (close_law dest w4) as Hcl. destruct (CloseFile dest w4) as [w5 derr]. cbn [fst] in Hcl.
  intros [= <- Herrs]. apply app_nil in Herrs as [Herr _]. destruct err as [e|]; [done|].
  destruct (archived_files _ _ _ _ _ _ Hdest Hc Hwalk) as (l & Hnd & Hl & ->). exists l.
  split_and!; [done|done|]. rewrite Hcl. by apply put_writer_law in Hput.
Qed.
End archive_lemmas.

Section properties.
Context {W S : Type} `{!FileSystem W, !ArchiveDisk W, !DataServiceClient S}.
Variable marshal_manifest : Manifest → result string string.
Variable marshal_report : ReportData → result string string.
Variable OutputDirectory : string.
Variable DataServiceTokenFile : string.

(** What is in the archive of a report. *)
Definition report_entries (manifestType : string) (metadata : gmap string string)
    (eventJsons : list Json) (id : string) (entries : list (string * string)) : Prop :=
  ∃ mb eb, marshal_manifest (mkManifest manifestType "1") = Ok mb ∧
    marshal_report (mkReportData metadata eventJsons) = Ok eb ∧
    entries ≡ₚ [("manifest.json", mb); (json_name id, eb)].

Lemma below_archive dir rest :
  filepath_Join dir "archive" +:+ "/" +:+ rest = dir +:+ "/" +:+ ("archive/" +:+ rest).
Proof. unfold filepath_Join. by rewrite !string_app_assoc. Qed.

(** The two files are all that is below a directory that was empty. *)
Lemma two_files src id mb eb (m : gmap string string) l :
  id ≠ "manifest" → (∀ rest, m !! (src +:+ "/" +:+ rest) = None) → NoDup l →
  (∀ f, f ∈ l ↔
     is_Some (<[filepath_Join src (json_name id) := eb]> (<[filepath_Join src "manifest.json" := mb]> m) !! f) ∧
     ∃ rest, f = src +:+ "/" +:+ rest) →
  l ≡ₚ [filepath_Join src "manifest.json"; filepath_Join src (json_name id)].
Proof.
  intros Hid Hfresh Hnd Hl.
  assert (Hne : filepath_Join src "manifest.json" ≠ filepath_Join src (json_name id)).
  { intros He. change "manifest.json" with (json_name "manifest") in He. apply file_name_inj in He. congruence. }
  apply NoDup_Permutation; [done| |].
  { constructor; [by rewrite list_elem_of_singleton|]. apply NoDup_singleton. }
  intros f. rewrite Hl, !elem_of_cons. split.
  - intros [Hs [rest ->]]. destruct (decide (src +:+ "/" +:+ rest = filepath_Join src (json_name id))) as [He|He];
      [by right; left|]. rewrite lookup_insert_ne in Hs by done.
    destruct (decide (src +:+ "/" +:+ rest = filepath_Join src "manifest.json")) as [He'|He']; [by left|].
    rewrite lookup_insert_ne, Hfresh in Hs by done. by destruct Hs.
  - intros [->|[->|[]%elem_of_nil]]; (split; [|by eexists]).
    + rewrite lookup_insert_ne, lookup_insert_eq by done. by eexists.
    + rewrite lookup_insert_eq. by eexists.
Qed.

Lemma write_files_spec dir metadata manifestType eventJsons w w' path :
  (∀ dest es w, (PutWriter dest es w).2 = true) →
  dir ≠ "" → (∀ rest, files w !! (dir +:+ "/" +:+ rest) = None) →
  write_files marshal_manifest marshal_report dir (filepath_Join dir "archive") metadata manifestType
    eventJsons w = (w', Ok path) →
  ∃ id entries, id ∉ used w ∧ char_free slash id = true ∧
    path = filepath_Join dir (archive_name id) ∧
    report_entries manifestType metadata eventJsons id entries ∧
    files w' !! path = Some (tar_gz entries).
Proof.
  intros Hflush Hdir Hfresh. unfold write_files. set (src := filepath_Join dir "archive").
  destruct (marshal_manifest _) as [mb|] eqn:Hmb; [|done].
  destruct (WriteFile _ mb w) as [w1 [e|]] eqn:H1; [done|]. apply WriteFile_files in H1 as [Hf1 Hu1].
  destruct (marshal_report _) as [eb|] eqn:Heb; [|done].
  destruct (NewUUID w1) as [w2 id] eqn:H2. pose proof (uuid_law _ _ _ H2) as Hsl.
  apply NewUUID_fresh in H2 as (Hf2 & Hid & _ & Hnm & _).
  destruct (WriteFile _ eb w2) as [w3 [e|]] eqn:H3; [done|]. apply WriteFile_files in H3 as [Hf3 _].
  destruct (TarGzip _ _ w3) as [w4 [|e es]] eqn:Htar; [|done]. intros [= <- <-].
  apply TarGzip_spec in Htar as (l & Hnd & Hl & Hdest); [|done|].
  2:{ intros rest. subst src. rewrite below_archive. unfold filepath_Join.
      intros He. do 2 apply (inj (String.append _)) in He. done. }
  rewrite Hf3, Hf2, Hf1 in Hl, Hdest. rewrite Hu1 in Hid.
  exists id, (entries_of src (<[filepath_Join src (json_name id) := eb]>
    (<[filepath_Join src "manifest.json" := mb]> (files w))) l).
  split_and!; [done..| |done]. exists mb, eb. split_and!; [done..|].
  rewrite (two_files src id mb eb (files w) l) by (done || (intros rest; subst src; by rewrite below_archive)).
  unfold entries_of. cbn [fmap list_fmap]. unfold src. rewrite !entry_name_Join; [|done| |done|done].
  2:{ unfold json_name. by rewrite char_free_app, Hsl. }
  rewrite lookup_insert_eq, lookup_insert_ne, lookup_insert_eq; [done|].
  intros He. change "manifest.json" with (json_name "manifest") in He. apply file_name_inj in He. congruence.
Qed.

Definition upload_error (e : ReportError) : bool := match e with RUpload _ => true | _ => false end.

Lemma writeReport_error dir metadata manifestType eventJsons w w' e :
  writeReport marshal_manifest marshal_report dir metadata manifestType eventJsons w = (w', Err e) →
  upload_error e = false.
Proof.
  unfold writeReport, write_files. destruct (Mkdir _ w) as [w1 [[|e1]|]]; [| by intros [= _ <-]|];
    (destruct (marshal_manifest _); [|by intros [= _ <-]]);
    (destruct (WriteFile _ _ w1) as [w2 [e2|]]; [by intros [= _ <-]|]);
    (destruct (marshal_report _); [|by intros [= _ <-]]);
    destruct (NewUUID w2) as [w3 id];
    (destruct (WriteFile _ _ w3) as [w4 [e4|]]; [by intros [= _ <-]|]);
    destruct (TarGzip _ _ w4) as [w5 [|e5 es]]; by intros [= _ <-].
Qed.

Lemma writeReport_spec dir metadata manifestType eventJsons w w' path :
  (∀ dest es w, (PutWriter dest es w).2 = true) →
  dir ≠ "" → (∀ rest, files w !! (dir +:+ "/" +:+ rest) = None) →
  writeReport marshal_manifest marshal_report dir metadata manifestType eventJsons w = (w', Ok path) →
  ∃ id entries, id ∉ used w ∧ char_free slash id = true ∧
    path = filepath_Join dir (archive_name id) ∧
    report_entries manifestType metadata eventJsons id entries ∧
    files w' !! path = Some (tar_gz entries).
Proof.
  intros Hflush Hdir Hfresh. unfold writeReport.
  destruct (Mkdir _ w) as [w1 e1] eqn:H1. apply Mkdir_files in H1 as [Hf1 Hu1].
  rewrite <- Hf1 in Hfresh. rewrite <- Hu1.
  destruct e1 as [[|]|]; [|done|]; by apply write_files_spec.
Qed.

(** What uploading a written archive does. *)
Lemma uploadReport_spec dir id entries w (s s' : S) e :
  char_free slash id = true →
  files w !! filepath_Join dir (archive_name id) = Some (tar_gz entries) →
  uploadReport DataServiceTokenFile (filepath_Join dir (archive_name id)) w s = (s', e) →
  match e with
  | None | Some (RUpload _) =>
      ∃ opts r, DataServiceUpload opts (archive_name id) (tar_gz entries) s = (s', r) ∧
        match r with Ok _ => e = None | Err msg => e = Some (RUpload msg) end
  | Some _ => s' = s
  end.
Proof.
  intros Hid Hfile. unfold uploadReport. rewrite archive_base by done.
  destruct (ReadLocalFile _ w) as [content|msg] eqn:Hr; [|by intros [= <- <-]].
  apply read_law in Hr. assert (content = tar_gz entries) as -> by congruence.
  destruct (ProvideGRPCCallOptions _ _) as [opts|msg]; [|by intros [= <- <-]].
  destruct (DataServiceUpload opts _ _ s) as [s1 r] eqn:Hup.
  destruct r as [fid|msg]; intros [= <- <-]; by exists opts; eexists.
Qed.

(** What becomes of a report. *)
Lemma Report_uploads metadata manifestType eventJsons (w w' : W) (s s' : S) e :
  (∀ dest es w, (PutWriter dest es w).2 = true) →
  Report marshal_manifest marshal_report OutputDirectory DataServiceTokenFile metadata manifestType
    eventJsons w s = ((w', s'), e) →
  match e with
  | None | Some (RUpload _) =>
      ∃ id entries opts r, id ∉ used w ∧
        report_entries manifestType metadata eventJsons id entries ∧
        DataServiceUpload opts (archive_name id) (tar_gz entries) s = (s', r) ∧
        match r with Ok _ => e = None | Err msg => e = Some (RUpload msg) end
  | Some _ => s' = s
  end.
Proof.
  intros Hflush. unfold Report. destruct (MkdirTemp _ _ w) as [w1 [dir|msg]] eqn:H1; [|by intros [= <- <- <-]].
  apply mkdir_temp_law in H1 as (Hdir & Hf1 & Hu1 & Hfresh). rewrite <- Hf1 in Hfresh.
  destruct (writeReport _ _ dir metadata manifestType eventJsons w1) as [w2 [path|e2]] eqn:H2.
  - apply writeReport_spec in H2 as (id & entries & Hid & Hsl & -> & Hentries & Hfile); [|done..].
    destruct (uploadReport _ _ w2 s) as [s2 e2] eqn:Hup. intros [= _ <- <-].
    apply (uploadReport_spec _ _ entries) in Hup; [|done..]. rewrite Hu1 in Hid.
    destruct e2 as [[]|]; try done; destruct Hup as (opts & r & Hup & Hr); by exists id, entries, opts, r.
  - apply writeReport_error in H2. intros [= _ <- <-]. by destruct e2.
Qed.

(** C7: no event of a report is lost on the way. A report that ends without an error was
    uploaded, once, under the name of a new archive, and the archive holds the manifest
    and the file with the metadata of the user and all the events, under these names and
    nothing else, as long as what the archive still held could be written out. A report
    that fails before the upload leaves the file service as it was, and one whose upload
    fails reports the error of the service. *)
Theorem Report_stored metadata manifestType eventJsons (w w' : W) (s s' : S) e :
  (∀ dest es w, (PutWriter dest es w).2 = true) →
  Report marshal_manifest marshal_report OutputDirectory DataServiceTokenFile metadata manifestType
    eventJsons w s = ((w', s'), e) →
  match e with
  | None | Some (RUpload _) =>
      ∃ id entries opts r, id ∉ used w ∧
        report_entries manifestType metadata eventJsons id entries ∧
        DataServiceUpload opts (archive_name id) (tar_gz entries) s = (s', r) ∧
        match r with Ok _ => e = None | Err msg => e = Some (RUpload msg) end
  | Some _ => s' = s
  end.
Proof. intros Hflush. by apply Report_uploads. Qed.
End properties.

(** ** The file service behind the client *)

Section file_service.
Context {W S : Type} `{!FileSystem W, !ArchiveDisk W, !StoredFileStore S}.
Variable sha256 : bytes → string.
(** What the service finds of a name, and the text of its errors. *)
Variable found : string → S → option FileInfo.
Variable text : ServerError → string.

Definition service_upload (opts : option string) (name content : string) (s : S)
    : S * result string string :=
  match DataService_UploadFile sha256 name None (found name s) (String.list_byte_of_string content) s with
  | (s, Ok id) => (s, Ok id)
  | (s, Err e) => (s, Err (text e))
  end.

#[local] Instance file_service : DataServiceClient S := {| DataServiceUpload := service_upload |}.

(** A report of the data reporter can be read back from the file service: a download with
    its checksum is made, as long as the call, the stream and the disk of the client work. *)
Theorem Report_downloads {L} `{!LocalDisk L} marshal_manifest marshal_report OutputDirectory DataServiceTokenFile
    metadata manifestType eventJsons (w w' : W) (s s' : S) :
  (∀ dest es w, (PutWriter dest es w).2 = true) →
  Report marshal_manifest marshal_report OutputDirectory DataServiceTokenFile metadata manifestType
    eventJsons w s = ((w', s'), None) →
  ∃ id entries fid, report_entries marshal_manifest marshal_report manifestType metadata eventJsons id entries ∧
    ∀ info out (l : L), FId info = fid → FChecksum info = sha256 (String.list_byte_of_string (tar_gz entries)) →
      disk_works (W := L) →
      ∃ l', DataService_DownloadFile sha256 out (mkTransport None None) (Some info) s' l =
              (l', (filepath_Join out (FName info), [])) ∧
            local l' !! filepath_Join out (FName info) = Some (String.list_byte_of_string (tar_gz entries)).
Proof.
  intros Hflush Hrun. apply Report_uploads in Hrun as (id & entries & opts & r & _ & Hentries & Hup & Hr); [|done].
  destruct r as [fid|]; [|done]. cbn [DataServiceUpload file_service] in Hup. unfold service_upload in Hup.
  destruct (DataService_UploadFile _ _ _ _ _ s) as [s1 [fid'|e]] eqn:Hs; [|done].
  injection Hup as -> ->. exists id, entries, fid. split; [done|]. intros info out l Hid Hsum Hworks.
  destruct (uploaded_content _ _ _ _ _ _ _ _ Hs) as (chunks & Hd & Hc & _). rewrite <- Hid in Hd.
  destruct (DataService_DownloadFile sha256 out (mkTransport None None) (Some info) s' l) as [l' [file errs]] eqn:Hdl.
  destruct (download_spec _ _ _ _ _ _ _ _ _ _ Hd Hdl) as (_ & He & Hw).
  destruct (Hw eq_refl eq_refl Hworks) as [Herrs _]. rewrite Hc, Hsum, bool_decide_true in Herrs by done.
  destruct (He Herrs) as (_ & -> & Hl). rewrite Hc in Hl. exists l'. by rewrite Herrs.
Qed.
End file_service.

(** ** Connecting *)

Section connecting.
Context {X W Pool Conn : Type} `{!DRCCluster X W, !ConflictRetry}.
Variable ReadFile : string → result string string.
Variable SystemCertPool : result string Pool.
Variable AppendCertsFromPEM : Pool → string → Pool * bool.
Variable DialContext : string → ServiceTLS Pool → W → W * result string Conn.
Variable config : EventsConfig.

Notation new_service := (NewDataService (Conn := Conn) SystemCertPool AppendCertsFromPEM DialContext).
Notation attempts_after :=
  (after_attempts (X := X) SystemCertPool AppendCertsFromPEM DialContext config).
Notation connect_in := (connect (X := X) SystemCertPool AppendCertsFromPEM DialContext config).

(** An attempt that fails is made again, from where it left the world. *)
Lemma connect_after n m cfg w :
  (∀ i, (i < n)%nat → ∃ e, (new_service cfg (attempts_after i cfg w)).2 = Err e) →
  connect_in (n + m)%nat cfg w = connect_in m cfg (attempts_after n cfg w).
Proof.
  revert m; induction n as [|n IH]; intros m Hfail; [done|].
  replace (Datatypes.S n + m)%nat with (n + Datatypes.S m)%nat by lia. rewrite IH by (intros i Hi; apply Hfail; lia). cbn [connect after_attempts].
  destruct (Hfail n ltac:(lia)) as [e He]. destruct (new_service cfg _) as [w1 r].
  cbn [snd] in He. by subst r.
Qed.

(** A certificate file that is not named is taken for an empty certificate, which no pool
    takes: the data reporter never starts, and never gives up. *)
Theorem no_certificate_waits fuel w :
  EDataServiceCertFile config = "" → (∀ p, (AppendCertsFromPEM p "").2 = false) →
  match provideDataService (X := X) (Conn := Conn) ReadFile SystemCertPool AppendCertsFromPEM DialContext
          config fuel w with
  | (_, Ok (Some _)) => False
  | _ => True
  end.
Proof.
  intros Hc Hp. unfold provideDataService. destruct (provideDataServiceConfig _ _) as [cfg|] eqn:Hcfg; [|done].
  assert (Hcert : SDataServiceCert cfg = "").
  { unfold provideDataServiceConfig in Hcfg. rewrite Hc in Hcfg. cbn in Hcfg.
    destruct (token_text _ _); [|done]. by injection Hcfg as <-. }
  enough (Hnone : (connect_in fuel cfg w).2 = None)
    by (destruct (connect_in fuel cfg w) as [w1 o]; cbn in Hnone; by subst o).
  clear Hcfg. revert w; induction fuel as [|fuel IH]; intros w; [done|]. cbn [connect].
  unfold NewDataService, newGRPCConn, createTlsConfig. rewrite Hcert.
  destruct SystemCertPool as [p|]; [|apply IH]. specialize (Hp p).
  destruct (AppendCertsFromPEM p "") as [p' b]. cbn [snd] in Hp. subst b. apply IH.
Qed.
End connecting.

(** ** The conditions *)

Section conditions.
Context {X W : Type} `{!Manifests.ObjectCluster X W, !Manifests.ObjectStore X W, !DRCCluster X W,
  !DRCStore X W, !ConflictRetry}.
Variable config : EventsConfig.
Notation key := (mkNN (ENamespace config) DATAREPORTERCONFIG_NAME).
Notation stored w := (drcs (X := X) w !! key).

(** Reads of the configuration work. *)
Hypothesis reads : ∀ (w : W) d, stored w = Some d → GetDRC (X := X) key w = Ok d.

Lemma status_step_retried keep (change : W → DRC X → option (DRC X)) (P : DRC X → Prop) w w' d0 :
  (∀ w d', change w d0 = Some d' → d' = with_drc_conditions (DConditions d') d0) →
  (∀ w, P (match change w d0 with Some d' => d' | None => d0 end)) →
  stored w = Some d0 → RetryOnConflict (status_step config keep change) w = (w', None) →
  ∃ d, stored w' = Some d ∧ P d.
Proof.
  intros Hshape HP Hw Hr.
  pose proof (retried_post (λ w, stored w = Some d0) (λ w, ∃ d, stored w = Some d ∧ P d)
    (status_step config keep change) w) as Hpost. rewrite Hr in Hpost. apply Hpost; [|done].
  clear w w' Hw Hr Hpost. intros w Hw. unfold status_step. rewrite (reads _ _ Hw).
  specialize (HP w). destruct (change w d0) as [d'|] eqn:Hc; [|by exists d0].
  apply Hshape in Hc. pose proof (update_drc_law d' w) as Hu.
  assert (Hk : drc_key d' = key) by (rewrite Hc; exact (drc_keyed_law _ _ _ Hw)).
  destruct (UpdateDRCStatus d' w) as [w1 [n|e]]; [|destruct Hu as [_ ->]; done].
  destruct Hu as (_ & old & Hold & -> & Hu). rewrite Hk in Hold, Hu. rewrite Hw in Hold. injection Hold as <-.
  exists d'. rewrite Hu, lookup_insert_eq. split; [by rewrite Hc at 2|done].
Qed.

(** A failed upload is told: after an update of the status that ends well, the condition
    is set, whatever it was before; and it is gone after the update at the start. *)
Theorem upload_failure_reported (w w' : W) d0 :
  stored w = Some d0 → wf_conditions (DConditions d0) →
  (RetryOnConflict (status_step config false (set_change upload_failure)) w = (w', None) →
     UpdateErrorStatus (X := X) config w = w' ∧
     ∃ d, stored w' = Some d ∧ settled upload_failure (DConditions d)) ∧
  (RetryOnConflict (status_step config true (remove_change (Type_ upload_failure))) w = (w', None) →
     clear_upload_failure (X := X) config w = w' ∧
     ∃ d, stored w' = Some d ∧ GetCondition (DConditions d) (Type_ upload_failure) = None).
Proof.
  intros Hw Hwf. split; intros Hr.
  - split; [unfold UpdateErrorStatus; by rewrite Hr|].
    eapply status_step_retried; [| |exact Hw|exact Hr].
    + intros w1 d'. exact (change_shape upload_failure true w1 d0 d').
    + intros w1. pose proof (set_change_spec upload_failure w1 d0 Hwf) as [_ Hs].
      pose proof (change_shape upload_failure true w1 d0) as Hsh. cbn in Hs, Hsh.
      destruct (set_change upload_failure w1 d0) as [d'|]; [|done]. by rewrite (Hsh d' eq_refl).
  - split; [unfold clear_upload_failure; by rewrite Hr|].
    eapply status_step_retried; [| |exact Hw|exact Hr].
    + intros w1 d'. exact (change_shape upload_failure false w1 d0 d').
    + intros w1. pose proof (remove_change_spec (Type_ upload_failure) w1 d0 Hwf) as [_ Hs].
      pose proof (change_shape upload_failure false w1 d0) as Hsh. cbn in Hs, Hsh.
      destruct (remove_change _ w1 d0) as [d'|]; [|done]. by rewrite (Hsh d' eq_refl).
Qed.

(** What an update of a condition leaves, if it ends well. *)
Lemma update_spec c (holds : bool) (w : W) d0 :
  let update := status_step (X := X) config false (if holds then set_change c else remove_change (Type_ c)) in
  stored w = Some d0 → wf_conditions (DConditions d0) → (RetryOnConflict update w).2 = None →
  ∃ d, stored (RetryOnConflict update w).1 = Some d ∧ conditions_but (Type_ c) d0 d ∧
       if holds then settled c (DConditions d) else GetCondition (DConditions d) (Type_ c) = None.
Proof.
  cbv zeta. intros Hw Hwf Hr. destruct (RetryOnConflict _ w) as [w' r] eqn:Hu. cbn in Hr. subst r.
  refine (status_step_retried false _ (λ d, conditions_but (Type_ c) d0 d ∧
    if holds then settled c (DConditions d) else GetCondition (DConditions d) (Type_ c) = None) w w' d0 _ _ Hw Hu).
  - intros w1 d'. exact (change_shape c holds w1 d0 d').
  - intros w1. pose proof (change_shape c holds w1 d0) as Hsh.
    destruct holds; [pose proof (set_change_spec c w1 d0 Hwf) as Hs; destruct (set_change c w1 d0) as [d'|]
      |pose proof (remove_change_spec (Type_ c) w1 d0 Hwf) as Hs; destruct (remove_change (Type_ c) w1 d0) as [d'|]];
      try done; by rewrite (Hsh d' eq_refl).
Qed.
End conditions.

(** *** Connecting and telling *)

Section reaching.
Context {X W Pool Conn : Type} `{!Manifests.ObjectCluster X W, !Manifests.ObjectStore X W, !DRCCluster X W,
  !DRCStore X W, !ConflictRetry}.
Variable SystemCertPool : result string Pool.
Variable AppendCertsFromPEM : Pool → string → Pool * bool.
Variable DialContext : string → ServiceTLS Pool → W → W * result string Conn.
Variable config : EventsConfig.
Notation key := (mkNN (ENamespace config) DATAREPORTERCONFIG_NAME).
Notation stored w := (drcs (X := X) w !! key).
Notation new_service := (NewDataService (Conn := Conn) SystemCertPool AppendCertsFromPEM DialContext).
Notation attempts_after :=
  (after_attempts (X := X) SystemCertPool AppendCertsFromPEM DialContext config).
Notation connect_in := (connect (X := X) SystemCertPool AppendCertsFromPEM DialContext config).
Notation present w := (∃ d, stored w = Some d ∧ wf_conditions (DConditions d)).

(** The configuration is there all the time, whatever others make of it while the
    connection is dialled; reads of it work, and updates of its status end well. *)
Hypothesis reads : ∀ (w : W) d, stored w = Some d → GetDRC (X := X) key w = Ok d.
Hypothesis dials : ∀ address tls (w : W), present w → present (DialContext address tls w).1.
Hypothesis updates : ∀ (holds : bool) (w : W) d, stored w = Some d →
  (RetryOnConflict (status_step (X := X) config false
     (if holds then set_change connection_failure else remove_change (Type_ connection_failure))) w).2 = None.

Lemma new_service_present cfg (w : W) : present w → present (new_service cfg w).1.
Proof.
  intros Hw. unfold NewDataService, newGRPCConn. destruct (createTlsConfig _ _ _ _ _) as [t|e]; [|done].
  specialize (dials (SAddress cfg) t w Hw). by destruct (DialContext _ t w) as [w1 []].
Qed.

Lemma attempts_present n cfg (w : W) : present w → present (attempts_after n cfg w).
Proof.
  intros Hw. induction n as [|n IH]; [done|]. cbn [after_attempts].
  destruct (new_service_present cfg _ IH) as (d & Hd & Hwf). unfold set_connection_failure.
  destruct (update_spec config reads connection_failure true _ d Hd Hwf (updates true _ d Hd)) as (d' & Hd' & Hb & _).
  exists d'. split; [exact Hd'|apply Hb].
Qed.

End reaching.

(** ** A disk in memory *)

Record ToyDisk := mkToyDisk { toy_files : gmap string string; toy_ids : nat }.

Fixpoint letters (n : nat) : string := match n with O => "" | Datatypes.S n => String dash (letters n) end.

Lemma letters_length n : String.length (letters n) = n.
Proof. induction n as [|n IH]; [done|]. cbn [letters String.length]. by rewrite IH. Qed.

Lemma letters_free n : char_free slash (letters n) = true.
Proof. by induction n as [|n IH]. Qed.

Definition toy_used (w : ToyDisk) : gset string := list_to_set (letters <$> seq 1 (toy_ids w)).

#[local, refine] Instance toy_disk : FileSystem ToyDisk := {|
  files := toy_files;
  used := toy_used;
  Mkdir dir w := (w, None);
  WriteFile name content w := (mkToyDisk (<[name := content]> (toy_files w)) (toy_ids w), None);
  NewUUID w := (mkToyDisk (toy_files w) (Datatypes.S (toy_ids w)), letters (Datatypes.S (toy_ids w)))
|}.
Proof.
  - by intros dir w w' e [= <- <-].
  - by intros name content w w' [= <-].
  - intros w w' id [= <- <-]. cbn [toy_files]. unfold toy_used; cbn [toy_ids]. split_and!; [done| | | |].
    + rewrite elem_of_list_to_set, list_elem_of_fmap. intros (n & Hn & Hin%elem_of_seq).
      apply (f_equal String.length) in Hn. cbn [String.length] in Hn. rewrite !letters_length in Hn. lia.
    + rewrite seq_S, fmap_app, list_to_set_app_L. cbn. set_solver.
    + done.
    + done.
Defined.

(** Longer than the name of any file. *)
Definition toy_temp (m : gmap string string) : string :=
  letters (Datatypes.S (foldr Nat.max 0%nat (String.length <$> (map_to_list m).*1))).

Definition toy_below (src : string) (w : ToyDisk) : list string :=
  filter (λ f, String.prefix (src +:+ "/") f = true) (map_to_list (toy_files w)).*1.

Definition toy_tar (entries : list (string * string)) : string :=
  foldr (λ e s, e.1 +:+ "=" +:+ e.2 +:+ ";" +:+ s) "" entries.

Lemma prefix_split p s : String.prefix p s = true → ∃ rest, s = p +:+ rest.
Proof.
  revert s; induction p as [|x p IH]; intros s; [by exists s|].
  destruct s as [|y s]; [done|]. cbn [String.prefix]. destruct (Ascii.ascii_dec x y) as [<-|]; [|done].
  intros [rest ->]%IH. exists rest. by autorewrite with rhm.
Qed.

Lemma toy_temp_fresh m rest : m !! (toy_temp m +:+ "/" +:+ rest) = None.
Proof.
  destruct (m !! _) as [v|] eqn:Hm; [exfalso|done]. apply elem_of_map_to_list in Hm.
  assert (Hle : ∀ (l : list nat) x, x ∈ l → (x ≤ foldr Nat.max 0%nat l)%nat).
  { induction l as [|y l IH]; intros x; [by intros ?%elem_of_nil|]. cbn.
    intros [->|Hx%IH]%elem_of_cons; lia. }
  assert (Hin : String.length (toy_temp m +:+ "/" +:+ rest) ∈ String.length <$> (map_to_list m).*1)
    by (apply list_elem_of_fmap_2, (list_elem_of_fmap_2 fst _ (_, v)); exact Hm).
  apply Hle in Hin. rewrite string_length_app in Hin. unfold toy_temp in Hin.
  rewrite letters_length in Hin. lia.
Qed.

(** [intact]: the last write to an archive goes through. *)
Section toy_archive.
Variable intact : bool.

#[local, refine] Instance toy_archive : ArchiveDisk ToyDisk := {|
  MkdirTemp _ _ w := (w, Ok (toy_temp (toy_files w)));
  RemoveAll dir w :=
    mkToyDisk (filter (λ e, String.prefix (dir +:+ "/") e.1 = false) (toy_files w)) (toy_ids w);
  Stat _ _ := None;
  CreateFile dest w := (mkToyDisk (<[dest := ""]> (toy_files w)) (toy_ids w), None);
  Walk src w := NotRegular :: (Regular <$> toy_below src w);
  ReadLocalFile f w := match toy_files w !! f with Some c => Ok c | None => Err "no such file" end;
  TarWrite _ _ w := (w, None);
  PutWriter dest entries w :=
    if intact then (mkToyDisk (<[dest := toy_tar entries]> (toy_files w)) (toy_ids w), true)
    else (mkToyDisk (<[dest := "a part"]> (toy_files w)) (toy_ids w), false);
  CloseFile _ w := (w, None);
  tar_gz := toy_tar
|}.
Proof.
  - intros root prefix w w' dir [= <- <-]. cbn [files used]. split_and!; [done..|]. apply toy_temp_fresh.
  - intros dest w w' [= <-]. apply delete_insert_eq.
  - intros src w _.
    assert (Hr : (NotRegular :: (Regular <$> toy_below src w)) ≫= regular = toy_below src w).
    { rewrite bind_cons. cbn [regular app]. induction (toy_below src w) as [|f l IH]; [done|].
      rewrite fmap_cons, bind_cons. cbn [regular app]. by rewrite IH. }
    rewrite Hr. unfold toy_below. split.
    + apply NoDup_filter, NoDup_fst_map_to_list.
    + intros f. rewrite list_elem_of_filter, list_elem_of_fmap. split.
      * intros [Hp ([f' v] & -> & Hin%elem_of_map_to_list)]. split; [by eexists|].
        apply prefix_split in Hp as [rest ->]. exists rest. by rewrite string_app_assoc.
      * intros [[v Hv] [rest ->]]. split; [rewrite <- string_app_assoc; apply prefix_app|].
        exists (src +:+ "/" +:+ rest, v). split; [done|]. by apply elem_of_map_to_list.
  - intros f w content. cbn. by destruct (toy_files w !! f) as [c|]; [intros [= ->]|].
  - done.
  - intros dest entries w w'. cbn. destruct intact; [|done]. intros [= <-]. apply lookup_insert_eq.
  - done.
  - intros w w' id [= <- <-]. apply letters_free.
Defined.
End toy_archive.

Definition toy_manifest (m : Manifest) : result string string := Ok (MType m +:+ MVersion m).
Definition toy_json (r : ReportData) : result string string := Ok (Join (REventJsons r) ",").

#[local] Instance toy_service : DataServiceClient Rows :=
  file_service toy_sha (λ _ _, None) (λ _, "failed").

Definition toy_report (intact : bool) : (ToyDisk * Rows) * option ReportError :=
  Report (ArchiveDisk0 := toy_archive intact) toy_manifest toy_json "/tmp" "" ∅ "dataReporter"
    ["1"; "2"] (mkToyDisk ∅ 0) [].

Definition stored_contents (rows : Rows) : list string :=
  (λ r, String.string_of_list_byte (Content (SFile r))) <$> rows.

Lemma Report_stored_witness :
  stored_contents (toy_report true).1.2 = ["manifest.json=dataReporter1;-.json=1,2;"] ∧
  ∃ id entries, report_entries toy_manifest toy_json "dataReporter" ∅ ["1"; "2"] id entries.
Proof.
  split; [vm_compute; reflexivity|].
  assert (Hflush : ∀ dest es (w : ToyDisk), (PutWriter (ArchiveDisk := toy_archive true) dest es w).2 = true)
    by reflexivity.
  assert (Hr : toy_report true = (((toy_report true).1.1, (toy_report true).1.2), None))
    by (vm_compute; reflexivity).
  destruct (Report_stored (ArchiveDisk0 := toy_archive true) toy_manifest toy_json "/tmp" "" ∅ "dataReporter"
    ["1"; "2"] _ _ _ _ None Hflush Hr) as (id & entries & _ & _ & _ & He & _).
  by exists id, entries.
Defined.

(** When what the archive still holds cannot be written out, nobody is told: the report
    ends without an error, and a part of the archive is what the service keeps. *)
Example lost_flush :
  (toy_report false).2 = None ∧ stored_contents (toy_report false).1.2 = ["a part"].
Proof. split; vm_compute; reflexivity. Qed.

(** A service that is there once somebody was told that it is not. *)
#[local] Existing Instances toy_objects toy_object_store toy_drcs toy_drc_store.

Definition toy_append (p c : string) : string * bool := (p +:+ c, c != "").
Definition toy_dial (address : string) (tls : ServiceTLS string) (w : ToyWorld) : ToyWorld * result string string :=
  (w, match w.2 with
      | Some d => if GetCondition (DConditions d) (Type_ connection_failure) is Some _ then Ok address else Err "refused"
      | None => Err "refused"
      end).
Definition toy_events : EventsConfig := mkEventsConfig "/tmp" "" "/etc/ca.crt" "rhm:8004" "marketplace" [] 0.
Definition toy_service_config : ServiceConfig := mkServiceConfig "rhm:8004" "" "pem" "/tmp" [] 0.

Definition toy_world : ToyWorld := ([], Some toy_drc).
Notation toy_connect := (connect (X := string) (Ok "") toy_append toy_dial toy_events).

