(* ===== verification/EventEngine.v ===== *)
(** * The engine of the data reporter

    The model of [ProcessorSender.Start] and of [event_engine.go] in
    [datareporter/v2/pkg/events]: how the processor starts, the goroutines that take
    events from one channel and signals from another as a step relation, the timer, what
    closing the two channels does to them and to who posts events, and what becomes of the
    channels when the engine is started again. Every run of the goroutines is a run of the
    processor of [DataReporter]. *)

From S2P Require Import Prelude Controllers Workloads Conditions MeterReport DataReporter DataReporterController EventReporter.
Local Open Scope go_scope.

(** ** The goroutines *)

(** [digestersSize] is one: one goroutine takes events and may wait to hand over a
    signal, one takes signals and sends. *)
Inductive Digester := DWaiting | DHolding (e : Event) | DSignalling (k : UserManifestType) | DDone.
Inductive Sender := SWaiting | SSending (k : UserManifestType) | SDone.

(** [refused] are the events whose posters met a closed channel; [run_world] is what the
    reports work on, with the configuration whose status is written. *)
Record Running {W : Type} := mkRunning {
  accumulator : EventMap;
  digester : Digester;
  sender : Sender;
  eventsClosed : bool;
  readyClosed : bool;
  panicked : bool;
  sent : list Batch;
  refused : list Event;
  run_world : W
}.
Arguments Running : clear implicits.
Arguments mkRunning {W}.

Section running.
Context {X W : Type} `{!DRCCluster X W, !ConflictRetry}.
Variable config : EventsConfig.
Variable MaxEventEntries : nat.
Variable Report : UserManifestType → list Json → W → W * option string.
Variable other : W → W → Prop.

Definition with_digester (d : Digester) (r : Running W) : Running W :=
  mkRunning (accumulator r) d (sender r) (eventsClosed r) (readyClosed r) (panicked r) (sent r) (refused r) (run_world r).
Definition with_sender (s : Sender) (r : Running W) : Running W :=
  mkRunning (accumulator r) (digester r) s (eventsClosed r) (readyClosed r) (panicked r) (sent r) (refused r) (run_world r).
Definition with_closed (events ready : bool) (r : Running W) : Running W :=
  mkRunning (accumulator r) (digester r) (sender r) events ready (panicked r) (sent r) (refused r) (run_world r).
Definition with_panic (r : Running W) : Running W :=
  mkRunning (accumulator r) (digester r) (sender r) (eventsClosed r) (readyClosed r) true (sent r) (refused r) (run_world r).
Definition with_refused (e : Event) (r : Running W) : Running W :=
  mkRunning (accumulator r) (digester r) (sender r) (eventsClosed r) (readyClosed r) (panicked r) (sent r)
    (refused r ++ [e]) (run_world r).
Definition with_world (w : W) (r : Running W) : Running W :=
  mkRunning (accumulator r) (digester r) (sender r) (eventsClosed r) (readyClosed r) (panicked r) (sent r) (refused r) w.

(** What is on its way to the senders: the signal that is served and the one that
    waits. *)
Definition pending (r : Running W) : list UserManifestType :=
  match sender r with SSending k => [k] | _ => [] end ++
  match digester r with DSignalling k => [k] | _ => [] end.

Definition processor_of (r : Running W) : Processor W :=
  mkProcessor (accumulator r) (pending r) (sent r) (run_world r).

(** A call of the processor: what it leaves, and the update of the error status if it
    failed. *)
Definition after_call (p : Processor W * option string) (r : Running W) : Running W :=
  mkRunning (eventAccumulator p.1) (digester r) (sender r) (eventsClosed r) (readyClosed r) (panicked r)
    (batches p.1) (refused r)
    match p.2 with Some _ => UpdateErrorStatus (X := X) config (world p.1) | None => world p.1 end.

(** The event in hand is added; at the maximum the digester wants to signal. *)
Definition process_held (e : Event) (r : Running W) : Running W :=
  let '(len, m) := Add e (accumulator r) in
  mkRunning m (if bool_decide (MaxEventEntries ≤ len)%nat then DSignalling (event_key e) else DWaiting)
    (sender r) (eventsClosed r) (readyClosed r) (panicked r) (sent r) (refused r) (run_world r).

Definition serve (k : UserManifestType) (r : Running W) : Running W :=
  with_sender SWaiting (after_call (Send Report k (processor_of r)) r).

Definition tick (order : EventMap → list (UserManifestType * list Json)) (r : Running W) : Running W :=
  after_call (SendAll Report order (processor_of r)) r.

(** Both channels are unbuffered: an event passes when the digester waits, a signal when
    the sender does. A send on a closed channel panics, one that waits when the channel
    is closed too; a receiver of a closed channel ends its loop. The panic of a goroutine
    of the engine ends the program; that of a poster, a request of the HTTP server, is
    recovered there, and its event is in nobody's hands. *)
Inductive engine_step : Running W → option Event → Running W → Prop :=
| es_post r e :
    panicked r = false → eventsClosed r = false → digester r = DWaiting →
    engine_step r (Some e) (with_digester (DHolding e) r)
| es_refuse r e :
    panicked r = false → eventsClosed r = true → engine_step r None (with_refused e r)
| es_process r e :
    panicked r = false → digester r = DHolding e → engine_step r None (process_held e r)
| es_signal r k :
    panicked r = false → readyClosed r = false → digester r = DSignalling k → sender r = SWaiting →
    engine_step r None (with_sender (SSending k) (with_digester DWaiting r))
| es_send r k :
    panicked r = false → sender r = SSending k → engine_step r None (serve k r)
| es_tick r order :
    panicked r = false → (∀ m, order m ≡ₚ map_to_list m) → engine_step r None (tick order r)
| es_close_events r :
    panicked r = false → eventsClosed r = false → engine_step r None (with_closed true false r)
| es_close_ready r :
    panicked r = false → eventsClosed r = true → readyClosed r = false →
    engine_step r None (with_closed true true r)
| es_panic r k :
    panicked r = false → readyClosed r = true → digester r = DSignalling k →
    engine_step r None (with_panic r)
| es_digester_done r :
    panicked r = false → eventsClosed r = true → digester r = DWaiting →
    engine_step r None (with_digester DDone r)
| es_sender_done r :
    panicked r = false → readyClosed r = true → sender r = SWaiting →
    engine_step r None (with_sender SDone r).

Definition started (w : W) : Running W :=
  mkRunning (FlushAll ∅).2 DWaiting SWaiting false false false [] [] w.

(** The states of the engine after its start in a world, with the events that were taken
    from their posters; between its steps the rest of the world moves. *)
Inductive engine_run (w0 : W) : list Event → Running W → Prop :=
| engine_start : engine_run w0 [] (started w0)
| engine_next es r o r' :
    engine_run w0 es r → engine_step r o r' → engine_run w0 (es ++ from_option (λ e, [e]) [] o) r'
| engine_other es r w :
    engine_run w0 es r → panicked r = false → other (run_world r) w → engine_run w0 es (with_world w r).

(** [Start] has returned: it waits for both goroutines. *)
Definition returned (r : Running W) : Prop := digester r = DDone ∧ sender r = SDone.

Definition in_hand (r : Running W) : list Event :=
  match digester r with DHolding e => [e] | _ => [] end.
End running.

(** ** Starting *)

Section start.
Context {X W Pool Conn : Type} `{!DRCCluster X W, !ConflictRetry}.
Variable ReadFile : string → result string string.
Variable SystemCertPool : result string Pool.
Variable AppendCertsFromPEM : Pool → string → Pool * bool.
Variable DialContext : string → ServiceTLS Pool → W → W * result string Conn.
Variable config : EventsConfig.

(** [Start] up to the point where it is ready: [None] is an attempt to connect for
    ever. *)
Definition processor_start (fuel : nat) (w : W)
    : W * result string (option (DataServiceConn Conn * Running W)) :=
  match provideDataService (X := X) ReadFile SystemCertPool AppendCertsFromPEM DialContext config fuel w with
  | (w, Err e) => (w, Err e)
  | (w, Ok None) => (w, Ok None)
  | (w, Ok (Some dataService)) =>
      let w := clear_upload_failure (X := X) config w in (w, Ok (Some (dataService, started w)))
  end.

(** [EventEngine]: whether it has a client and a function that cancels what it
    started, and whether it is ready. *)
Record Engine := mkEngine { has_client : bool; has_cancel : bool; is_ready : bool }.

Definition NewEventEngine (client : bool) : Engine := mkEngine client false false.
Definition SetKubeClient (client : bool) (e : Engine) : Engine :=
  mkEngine client (has_cancel e) (is_ready e).
Definition IsReady (e : Engine) : bool := is_ready e.

(** The engine is ready once its processor has started, and stays so. *)
Definition EngineStart (fuel : nat) (e : Engine) (w : W)
    : Engine * (W * result string (option (DataServiceConn Conn * Running W))) :=
  if negb (has_client e) then (e, (w, Err "eventEngine k8sclient is nil"))
  else
    let e := mkEngine true true (is_ready e) in
    match processor_start fuel w with
    | (w, Ok (Some started)) => (mkEngine true true true, (w, Ok (Some started)))
    | (w, r) => (e, (w, r))
    end.
End start.

(** ** Starting again *)

(** A start waits for the end of its context, then it closes two channels. *)
Inductive Phase := PRunning | PCancelled | PEventsClosed | PEnded.

#[global] Instance Phase_eq_dec : EqDecision Phase.
Proof. solve_decision. Defined.

(** The fields of the processor that hold the channels; the channels that are closed; the
    starts. Channels have numbers. *)
Record Channels := mkChannels {
  EventChan : nat; sendReadyChan : nat; next_chan : nat; closed_chans : list nat;
  starts : list Phase; crashed : bool
}.

Definition never_started : Channels := mkChannels 0 0 1 [] [] false.

(** The context of the starts ends: the next start cancels it, or the engine's own has
    ended. *)
Definition cancel_starts (c : Channels) : Channels :=
  mkChannels (EventChan c) (sendReadyChan c) (next_chan c) (closed_chans c)
    ((λ p, match p with PRunning => PCancelled | p => p end) <$> starts c) (crashed c).

(** A start puts new channels into the fields. *)
Definition start_again (c : Channels) : Channels :=
  mkChannels (next_chan c) (S (next_chan c)) (S (S (next_chan c))) (closed_chans c)
    (starts c ++ [PRunning]) (crashed c).

(** Closing what a field holds by then; to close a closed channel is a panic. *)
Definition close_chan (n i : nat) (p : Phase) (c : Channels) : Channels :=
  if bool_decide (n ∈ closed_chans c)
  then mkChannels (EventChan c) (sendReadyChan c) (next_chan c) (closed_chans c) (starts c) true
  else mkChannels (EventChan c) (sendReadyChan c) (next_chan c) (n :: closed_chans c) (<[i := p]> (starts c)) (crashed c).

Inductive restart_step : Channels → Channels → Prop :=
| rs_cancel c : crashed c = false → restart_step c (cancel_starts c)
| rs_start c : crashed c = false → PRunning ∉ starts c → restart_step c (start_again c)
| rs_close_events c i :
    crashed c = false → starts c !! i = Some PCancelled →
    restart_step c (close_chan (EventChan c) i PEventsClosed c)
| rs_close_ready c i :
    crashed c = false → starts c !! i = Some PEventsClosed →
    restart_step c (close_chan (sendReadyChan c) i PEnded c).

(** ** Lemmas *)

Section engine_lemmas.
Context {X W : Type} `{!DRCCluster X W, !ConflictRetry}.
Variable config : EventsConfig.
Variable MaxEventEntries : nat.
Variable Report : UserManifestType → list Json → W → W * option string.
Variable other : W → W → Prop.
Notation runs := (engine_run (X := X) config MaxEventEntries Report other).
Notation steps := (engine_step (X := X) config MaxEventEntries Report).
(** What the processor sees of the rest of the world: updates of the status are part of
    it. *)
Definition around (w w' : W) : Prop := other w w' ∨ w' = UpdateErrorStatus (X := X) config w.
Notation processor := (run MaxEventEntries Report around).

Lemma next_run w0 es r r' : runs w0 es r → steps r None r' → runs w0 es r'.
Proof. intros Hr Hs. rewrite <- (app_nil_r es). exact (engine_next _ _ _ _ _ es r None r' Hr Hs). Qed.

Lemma processor_run w0 es p p' :
  processor w0 es p → processor_step MaxEventEntries Report around p None p' → processor w0 es p'.
Proof. intros Hr Hs. rewrite <- (app_nil_r es). exact (run_step _ _ _ _ es p None p' Hr Hs). Qed.

Lemma processor_other w0 es p w :
  processor w0 es p → around (world p) w →
  processor w0 es (mkProcessor (eventAccumulator p) (signals p) (batches p) w).
Proof. intros Hr Hw. eapply processor_run; [exact Hr|]. destruct p. by apply step_other. Qed.

Lemma process_held_of e (r : Running W) :
  digester r = DHolding e →
  processor_of (process_held MaxEventEntries e r) = Process MaxEventEntries e (processor_of r).
Proof.
  intros Hd. unfold process_held, Process, processor_of, pending. cbn [eventAccumulator signals batches world].
  destruct (Add e (accumulator r)) as [len m]. rewrite Hd. case_bool_decide; cbn; by rewrite ?app_nil_r.
Qed.

(** A call of the processor is its step, followed by the update of the status if there is
    one. *)
Lemma call_run w0 es (r : Running W) (p : Processor W * option string) r1 :
  processor w0 es p.1 → signals p.1 = pending r1 →
  accumulator r1 = eventAccumulator p.1 → sent r1 = batches p.1 →
  run_world r1 = match p.2 with Some _ => UpdateErrorStatus (X := X) config (world p.1) | None => world p.1 end →
  in_hand r1 = in_hand r → ∃ es', es ++ in_hand r = es' ++ in_hand r1 ∧ processor w0 es' (processor_of r1).
Proof.
  intros Hr Hs Ha Hb Hw Hh. exists es. rewrite Hh. split; [done|].
  unfold processor_of. rewrite Ha, <- Hs, Hb, Hw. destruct p as [p [e|]]; cbn [fst snd] in *.
  - apply processor_other; [done|by right].
  - by destruct p.
Qed.

(** The steps that are none of the processor's. *)
Lemma quiet_step w0 es es' (r r' : Running W) :
  es = es' ++ in_hand r → processor w0 es' (processor_of r) →
  in_hand r' = in_hand r → processor_of r' = processor_of r →
  ∃ es', es = es' ++ in_hand r' ∧ processor w0 es' (processor_of r').
Proof. intros He Hr -> ->. by exists es'. Qed.

Lemma engine_refines_run w0 es r :
  runs w0 es r → ∃ es', es = es' ++ in_hand r ∧ processor w0 es' (processor_of r).
Proof.
  induction 1 as [|es r o r' _ (es' & He & Hrun) Hstep|es r w _ (es' & He & Hrun) _ Ho].
  { exists []. split; [done|]. constructor. }
  2:{ exists es'. split; [done|]. by apply (processor_other w0 es' (processor_of r)); [|left]. }
  destruct Hstep as [r e Hp Hc Hd|r e Hp Hc|r e Hp Hd|r k Hp Hc Hd Hs|r k Hp Hs|r order Hp Ho|r Hp Hc|r Hp Hc Hc'
    |r k Hp Hc Hd|r Hp Hc Hd|r Hp Hc Hs]; cbn [from_option]; rewrite ?app_nil_r.
  - unfold in_hand in He. rewrite Hd, app_nil_r in He. subst es'. exists es. split; [done|].
    revert Hrun. unfold processor_of, pending. by rewrite Hd.
  - by apply (quiet_step w0 es es' r).
  - unfold in_hand in He. rewrite Hd in He. exists es. split.
    + unfold in_hand, process_held. destruct (Add e _). case_bool_decide; cbn; by rewrite app_nil_r.
    + rewrite process_held_of by done. subst es.
      exact (run_step _ _ _ _ es' _ (Some e) _ Hrun (step_process _ _ _ e _)).
  - apply (quiet_step w0 es es' r); try done; unfold in_hand, processor_of, pending; cbn; by rewrite ?Hd, ?Hs.
  - rewrite He. eapply call_run with (p := Send Report k (mkProcessor (accumulator r)
      match digester r with DSignalling k => [k] | _ => [] end (sent r) (run_world r))); try reflexivity;
      try (unfold serve, processor_of, Send, Flush; cbn; by destruct (Report k _ _)).
    eapply processor_run; [exact Hrun|]. unfold processor_of, pending. rewrite Hs.
    exact (step_send _ _ _ k [] _ (accumulator r) (sent r) (run_world r)).
  - rewrite He. eapply call_run with (p := SendAll Report order (processor_of r)); try reflexivity.
    + eapply processor_run; [exact Hrun|by apply step_send_all].
    + unfold SendAll, processor_of. cbn. by destruct (send_all_loop _ _ _ _) as [[]].
  - by apply (quiet_step w0 es es' r).
  - by apply (quiet_step w0 es es' r).
  - by apply (quiet_step w0 es es' r).
  - apply (quiet_step w0 es es' r); try done; unfold in_hand, processor_of, pending; cbn; by rewrite Hd.
  - apply (quiet_step w0 es es' r); try done; unfold in_hand, processor_of, pending; cbn; by rewrite Hs.
Qed.

(** *** Failures *)

Definition failed (x : Batch) : Prop := x.2 = Failed.

#[local] Instance failed_dec x : Decision (failed x).
Proof. unfold failed. apply _. Defined.

Definition failures (b : list Batch) : nat := length (filter failed b).

Lemma failures_app b1 b2 : failures (b1 ++ b2) = failures b1 + failures b2.
Proof. unfold failures. by rewrite filter_app, length_app. Qed.

Lemma send_all_failures l done w w' b e :
  send_all_loop Report l done w = (w', b, e) →
  failures b = failures done + match e with Some _ => 1 | None => 0 end.
Proof.
  revert done w; induction l as [|[k js] l IH]; intros done w; cbn [send_all_loop]; [intros [= _ <- <-]; lia|].
  destruct (Report k js w) as [w1 [err|]].
  - intros [= _ <- <-].
    assert (Hz : failures ((λ x, (x.1, x.2, Dropped)) <$> l) = 0).
    { clear. unfold failures. induction l as [|x l IH]; [done|].
      rewrite fmap_cons, filter_cons_False; [exact IH|done]. }
    assert (Hc : ∀ d, failures ((k, js, Failed) :: d) = S (failures d))
      by (intros d; unfold failures; by rewrite filter_cons_True).
    rewrite failures_app. cbn [app]. rewrite Hc, Hz. lia.
  - intros ->%IH. rewrite failures_app. assert (failures [(k, js, Delivered)] = 0) as -> by done. lia.
Qed.

(** What the goroutines keep: only closing the channels can make the engine panic, and
    only on a signal; posters are refused once they are closed. *)
Definition orderly (r : Running W) : Prop :=
  (panicked r = true → readyClosed r = true ∧ ∃ k, digester r = DSignalling k) ∧
  (readyClosed r = true → eventsClosed r = true) ∧ (refused r ≠ [] → eventsClosed r = true).

Lemma engine_orderly w0 es r : runs w0 es r → orderly r.
Proof.
  unfold orderly. induction 1 as [|es r o r' _ (Hp & Hc & Hx) Hstep|es r w _ (Hp & Hc & Hx) Hq _]; [done| |done].
  destruct Hstep as [r e Hq Hce Hd|r e Hq Hce|r e Hq Hd|r k Hq Hrc Hd Hs|r k Hq Hs|r order Hq Ho|r Hq Hce
    |r Hq Hce Hrc|r k Hq Hrc Hd|r Hq Hce Hd|r Hq Hrc Hs];
    try (unfold process_held; destruct (Add e _)); cbn in *;
    (split; [|split]); try done; try (intros; congruence); try (intros; split; [done|by eexists]); auto.
Qed.

(** Closing the channels when nothing is on its way. *)
Lemma graceful_stop w0 es r :
  runs w0 es r → panicked r = false → eventsClosed r = false → digester r = DWaiting → sender r = SWaiting →
  ∃ r', runs w0 es r' ∧ returned r' ∧ accumulator r' = accumulator r ∧ sent r' = sent r.
Proof.
  intros Hr Hp Hc Hd Hs.
  eexists (with_sender SDone (with_digester DDone (with_closed true true (with_closed true false r)))).
  split; [|done]. eapply next_run; [|by apply es_sender_done]. eapply next_run; [|by apply es_digester_done].
  eapply next_run; [|by apply es_close_ready]. eapply next_run; [exact Hr|by apply es_close_events].
Qed.

(** Once both channels are closed the digester ends or panics, *)
Lemma digester_ends w0 es r :
  runs w0 es r → readyClosed r = true → panicked r = false →
  ∃ r', runs w0 es r' ∧ readyClosed r' = true ∧ sender r' = sender r ∧
        (panicked r' = true ∨ panicked r' = false ∧ digester r' = DDone).
Proof.
  intros Hr Hc Hp. pose proof (engine_orderly w0 es r Hr) as (_ & Hce & _). specialize (Hce Hc).
  assert (Hsig : ∀ r k, runs w0 es r → readyClosed r = true → panicked r = false → digester r = DSignalling k →
    ∃ r', runs w0 es r' ∧ readyClosed r' = true ∧ sender r' = sender r ∧
      (panicked r' = true ∨ panicked r' = false ∧ digester r' = DDone)).
  { clear r Hr Hc Hp Hce. intros r k Hr Hc Hp Hd. exists (with_panic r). split; [|by auto].
    eapply next_run; [exact Hr|by eapply es_panic]. }
  assert (Hwait : ∀ r, runs w0 es r → readyClosed r = true → eventsClosed r = true → panicked r = false →
    digester r = DWaiting →
    ∃ r', runs w0 es r' ∧ readyClosed r' = true ∧ sender r' = sender r ∧
      (panicked r' = true ∨ panicked r' = false ∧ digester r' = DDone)).
  { clear r Hr Hc Hp Hce. intros r Hr Hc Hce Hp Hd. exists (with_digester DDone r). split; [|by auto].
    eapply next_run; [exact Hr|by apply es_digester_done]. }
  destruct (digester r) as [|e|k|] eqn:Hd; [by apply Hwait| |by eapply Hsig|].
  - assert (Hr' : runs w0 es (process_held MaxEventEntries e r)) by (eapply next_run; [exact Hr|by apply es_process]).
    assert (Hkeep : sender (process_held MaxEventEntries e r) = sender r ∧
      readyClosed (process_held MaxEventEntries e r) = true ∧
      eventsClosed (process_held MaxEventEntries e r) = true ∧
      panicked (process_held MaxEventEntries e r) = false ∧
      (digester (process_held MaxEventEntries e r) = DWaiting ∨
       ∃ k, digester (process_held MaxEventEntries e r) = DSignalling k)).
    { unfold process_held. destruct (Add e _) as [len m]. cbn. split_and!; try done.
      case_bool_decide; [right; by eexists|by left]. }
    destruct Hkeep as (<- & Hc1 & Hc2 & Hp' & [Hd'|[k Hd']]); [by apply Hwait|by eapply Hsig].
  - exists r. split_and!; try done. by right.
Qed.
End engine_lemmas.

(** *** The status *)

Section telling.
Context {X W : Type} `{!Manifests.ObjectCluster X W, !Manifests.ObjectStore X W, !DRCCluster X W,
  !DRCStore X W, !ConflictRetry}.
Variable config : EventsConfig.
Variable MaxEventEntries : nat.
Variable Report : UserManifestType → list Json → W → W * option string.
(** A report touches no configuration. *)
Hypothesis report_apart : ∀ k l w, drcs (X := X) (Report k l w).1 = drcs (X := X) w.

(** A call of the processor: one report failed, or none, and the configurations are as they
    were. *)
Definition one_failure (b : list Batch) (w : W) (p : Processor W * option string) : Prop :=
  drcs (X := X) (world p.1) = drcs (X := X) w ∧
  failures (batches p.1) = failures b + match p.2 with Some _ => 1 | None => 0 end.

Lemma send_one_failure k (p : Processor W) : one_failure (batches p) (world p) (Send Report k p).
Proof.
  unfold one_failure, Send, Flush. pose proof (report_apart k (events_of (eventAccumulator p) k) (world p)) as Hd.
  destruct (Report k _ (world p)) as [w e]. cbn [fst snd batches world] in *. split; [done|].
  rewrite failures_app. by destruct e.
Qed.

Lemma send_all_apart l done (w : W) :
  drcs (X := X) (send_all_loop Report l done w).1.1 = drcs (X := X) w.
Proof.
  revert done w; induction l as [|[k js] l IH]; intros done w; cbn [send_all_loop]; [done|].
  pose proof (report_apart k js w) as Hd. destruct (Report k js w) as [w1 [err|]]; cbn [fst] in *; [done|].
  by rewrite IH.
Qed.

Lemma send_all_one_failure order (p : Processor W) : one_failure (batches p) (world p) (SendAll Report order p).
Proof.
  unfold one_failure, SendAll, FlushAll. pose proof (send_all_apart (order (eventAccumulator p)) [] (world p)) as Hd.
  destruct (send_all_loop Report _ [] (world p)) as [[w b] e] eqn:Hl. apply send_all_failures in Hl.
  cbn [fst snd batches world] in *. split; [done|]. by rewrite failures_app, Hl.
Qed.

(** What a step of the engine tells. *)
Definition told (r r' : Running W) : Prop :=
  (failures (sent r') = failures (sent r) ∧ drcs (X := X) (run_world r') = drcs (X := X) (run_world r)) ∨
  (failures (sent r') = S (failures (sent r)) ∧
   ∃ w, drcs (X := X) w = drcs (X := X) (run_world r) ∧ run_world r' = UpdateErrorStatus (X := X) config w).

Lemma after_call_told (p : Processor W * option string) (r r' : Running W) :
  one_failure (sent r) (run_world r) p → sent r' = batches p.1 →
  run_world r' = match p.2 with Some _ => UpdateErrorStatus (X := X) config (world p.1) | None => world p.1 end →
  told r r'.
Proof.
  intros [Hd Hf] Hs Hw. unfold told. rewrite Hs, Hw, Hf. destruct p.2.
  - right. split; [lia|]. by eexists.
  - left. split; [lia|done].
Qed.

Lemma engine_step_told r o r' : engine_step (X := X) config MaxEventEntries Report r o r' → told r r'.
Proof.
  intros Hstep.
  destruct Hstep as [r e Hq Hce Hd|r e Hq Hce|r e Hq Hd|r k Hq Hrc Hd Hs|r k Hq Hs|r order Hq Ho|r Hq Hce
    |r Hq Hce Hrc|r k Hq Hrc Hd|r Hq Hce Hd|r Hq Hrc Hs]; try by left.
  - apply (after_call_told (Send Report k (processor_of r))); [apply send_one_failure|done..].
  - apply (after_call_told (SendAll Report order (processor_of r))); [apply send_all_one_failure|done..].
Qed.
End telling.

(** ** Properties *)

Section refinement.
Context {X W : Type} `{!Manifests.ObjectCluster X W, !Manifests.ObjectStore X W, !DRCCluster X W,
  !DRCStore X W, !ConflictRetry}.
Notation key config := (mkNN (ENamespace config) DATAREPORTERCONFIG_NAME).

End refinement.

Section properties.
Context {X W : Type} `{!DRCCluster X W, !ConflictRetry}.
Variable config : EventsConfig.
Variable MaxEventEntries : nat.
Variable Report : UserManifestType → list Json → W → W * option string.
Variable other : W → W → Prop.
Notation runs := (engine_run (X := X) config MaxEventEntries Report other).

(** Stopping comes to an end: from wherever it is when the channels are closed, the
    engine returns or panics. *)
Theorem shutdown_ends w0 es r :
  runs w0 es r → readyClosed r = true →
  ∃ r', runs w0 es r' ∧ (returned r' ∨ panicked r' = true).
Proof.
  intros Hr Hc. destruct (panicked r) eqn:Hp; [exists r; auto|].
  destruct (digester_ends _ _ _ _ w0 es r Hr Hc Hp) as (r1 & Hr1 & Hc1 & _ & [Hp1|[Hp1 Hd1]]); [exists r1; auto|].
  assert (Hwait : ∀ r, runs w0 es r → readyClosed r = true → panicked r = false → digester r = DDone →
    sender r = SWaiting → ∃ r', runs w0 es r' ∧ (returned r' ∨ panicked r' = true)).
  { clear. intros r Hr Hc Hp Hd Hs. exists (with_sender SDone r). split; [|by left].
    eapply next_run; [exact Hr|by apply es_sender_done]. }
  destruct (sender r1) as [|k|] eqn:Hs1; [by apply (Hwait r1)| |exists r1; split; [done|by left]].
  apply (Hwait (serve (X := X) config Report k r1)); try done. eapply next_run; [exact Hr1|by apply es_send].
Qed.

(** But what is held then is in no report: an engine that is at rest can be stopped
    with nothing sent of a key that has events. *)
Theorem shutdown_drops w0 es r k :
  runs w0 es r → panicked r = false → eventsClosed r = false → digester r = DWaiting → sender r = SWaiting →
  events_of (accumulator r) k ≠ [] →
  ∃ r', runs w0 es r' ∧ returned r' ∧ taken (sent r') k ≠ posted es k.
Proof.
  intros Hr Hp Hc Hd Hs Hk. destruct (graceful_stop _ _ _ _ w0 es r Hr Hp Hc Hd Hs) as (r' & Hr' & Hret & Ha & He).
  exists r'. split; [done|]. split; [done|].
  destruct (engine_refines_run _ _ _ _ w0 es r Hr) as (es' & -> & Hrun). unfold in_hand. rewrite Hd, app_nil_r.
  destruct (run_accounted _ _ _ _ _ _ Hrun k) as [-> _]. cbn [batches processor_of eventAccumulator].
  rewrite He. intros Heq. apply Hk. by apply (app_inv_head (taken (sent r) k)); rewrite app_nil_r.
Qed.

(** A signal that waits while a report is sent makes the engine panic when it is
    stopped. *)
Theorem shutdown_panics w0 es r k :
  runs w0 es r → panicked r = false → eventsClosed r = false → digester r = DSignalling k →
  ∃ r', runs w0 es r' ∧ panicked r' = true.
Proof.
  intros Hr Hp Hc Hd. exists (with_panic (with_closed true true (with_closed true false r))). split; [|done].
  eapply next_run; [|by eapply (es_panic _ _ _ _ k)]. eapply next_run; [|by apply es_close_ready].
  eapply next_run; [exact Hr|by apply es_close_events].
Qed.
End properties.

(** An engine that was ready stays ready while it is started again and waits for a
    connection. *)
Theorem ready_stays {X W Pool Conn} `{!DRCCluster X W, !ConflictRetry} (ReadFile : string → result string string)
    SystemCertPool (AppendCertsFromPEM : Pool → string → Pool * bool)
    (DialContext : string → ServiceTLS Pool → W → W * result string Conn) config fuel (e : Engine) (w : W) :
  IsReady e = true →
  IsReady (EngineStart (X := X) ReadFile SystemCertPool AppendCertsFromPEM DialContext config fuel e w).1 = true.
Proof.
  intros He. unfold EngineStart, IsReady in *. destruct (negb (has_client e)); [done|].
  by destruct (processor_start _ _ _ _ _ _ w) as [w1 [[[c s]|]|]].
Qed.

(** A start that is cancelled by the next one may close what the fields hold by then: the
    channels of the new start. That one is running, but its channels are closed, so that
    posters are refused, and its own end makes the program panic. *)
Theorem restart_closes_new_channels :
  ∃ c, rtc restart_step never_started c ∧ starts c = [PEnded; PRunning] ∧
       EventChan c ∈ closed_chans c ∧ sendReadyChan c ∈ closed_chans c ∧
  ∃ c', rtc restart_step c c' ∧ crashed c' = true.
Proof.
  set (c1 := start_again (cancel_starts (start_again never_started))).
  set (c2 := close_chan (EventChan c1) 0 PEventsClosed c1). set (c3 := close_chan (sendReadyChan c2) 0 PEnded c2).
  exists c3. split_and!.
  - eapply rtc_l; [apply rs_start; [done|by apply (bool_decide_unpack _)]|].
    eapply rtc_l; [by apply rs_cancel|]. eapply rtc_l; [apply rs_start; [done|by apply (bool_decide_unpack _)]|].
    eapply rtc_l; [by apply (rs_close_events c1 0)|]. apply rtc_once. by apply (rs_close_ready c2 0).
  - done.
  - by apply (bool_decide_unpack _).
  - by apply (bool_decide_unpack _).
  - exists (close_chan (EventChan c3) 1 PEventsClosed (cancel_starts c3)). split; [|done].
    eapply rtc_l; [by apply rs_cancel|]. apply rtc_once. by apply (rs_close_events (cancel_starts c3) 1).
Qed.

(** ** Witnesses *)

#[local] Existing Instances toy_objects toy_object_store toy_drcs toy_drc_store.

(** One event is held and signals; the service is down. *)
Definition toy_ev (json : Json) : Event := mkEvent "a" json "dataReporter".
Definition toy_key : UserManifestType := mkUMT "a" "dataReporter".
Definition toy_down (_ : UserManifestType) (_ : list Json) (w : ToyWorld) : ToyWorld * option string := (w, Some "down").
Definition toy_world : ToyWorld := ([], Some toy_drc).
Notation toy_runs := (engine_run (X := string) toy_events 1 toy_down (λ _ _, False) toy_world).
Definition one_held : Running ToyWorld := with_digester (DHolding (toy_ev "1")) (started toy_world).
Definition one_sent : Running ToyWorld :=
  with_sender (SSending toy_key) (with_digester DWaiting (process_held 1 (toy_ev "1") one_held)).

Lemma one_sent_runs : toy_runs [toy_ev "1"] one_sent.
Proof.
  assert (Hh : toy_runs [toy_ev "1"] one_held)
    by exact (engine_next _ _ _ _ _ [] _ (Some (toy_ev "1")) _ (engine_start _ _ _ _ _)
                (es_post _ _ _ (started toy_world) (toy_ev "1") eq_refl eq_refl eq_refl)).
  eapply next_run; [eapply next_run; [exact Hh|by apply es_process]|by apply es_signal].
Qed.


(** The event that is held when the engine stops is lost. *)
Example held_event_lost :
  ∃ r', engine_run (X := string) toy_events 2 toy_down (λ _ _, False) toy_world [toy_ev "1"] r' ∧ returned r' ∧
        taken (sent r') toy_key = [] ∧ posted [toy_ev "1"] toy_key = ["1"].
Proof.
  assert (Hh : engine_run (X := string) toy_events 2 toy_down (λ _ _, False) toy_world [toy_ev "1"]
    (process_held 2 (toy_ev "1") one_held)).
  { eapply next_run; [exact (engine_next _ _ _ _ _ [] _ (Some (toy_ev "1")) _ (engine_start _ _ _ _ _)
      (es_post _ _ _ (started toy_world) (toy_ev "1") eq_refl eq_refl eq_refl))|by apply es_process]. }
  destruct (graceful_stop _ _ _ _ _ _ _ Hh eq_refl eq_refl eq_refl eq_refl) as (r' & Hr & Hret & _ & Hs).
  exists r'. rewrite Hs. split_and!; done.
Qed.
