(* ===== verification/EventHandler.v ===== *)
(** * From a request to the destinations

    The model of what is around the filters of the data reporter: the check of who sends
    a request ([datareporter/v2/pkg/filters/filters.go]), the handler of events behind its
    time-out ([server/server.go]) and the client of the destinations ([uploader/uploader.go]) with
    the token it asks for. The authenticator, the authorizer and HTTP are arguments. *)

From S2P Require Import Prelude PromQuery DataReporter.
Local Open Scope go_scope.

(** ** Headers *)

Notation Header := (gmap string (list string)) (only parsing).

(** The bytes a key may have: letters, digits and some signs. *)
Definition token_byte (a : Ascii.ascii) : bool :=
  let n := Ascii.nat_of_ascii a in
  bool_decide (97 ≤ n ≤ 122 ∨ 65 ≤ n ≤ 90 ∨ 48 ≤ n ≤ 57)%nat ||
  bool_decide (n ∈ [33; 35; 36; 37; 38; 39; 42; 43; 45; 46; 94; 95; 96; 124; 126]).

Definition ascii_upper (a : Ascii.ascii) : Ascii.ascii :=
  let n := Ascii.nat_of_ascii a in
  if bool_decide (97 ≤ n ≤ 122)%nat then Ascii.ascii_of_nat (n - 32) else a.

Fixpoint token_bytes (s : string) : bool :=
  match s with EmptyString => true | String a s => token_byte a && token_bytes s end.

Fixpoint canonical (upper : bool) (s : string) : string :=
  match s with
  | EmptyString => EmptyString
  | String a s => String (if upper then ascii_upper a else ascii_lower a) (canonical (a == dash) s)
  end.

(** [textproto.CanonicalMIMEHeaderKey]. *)
Definition CanonicalKey (s : string) : string := if token_bytes s then canonical true s else s.

(** [http.Header]. *)
Definition HGet (k : string) (h : Header) : string :=
  match h !! CanonicalKey k with Some (v :: _) => v | _ => "" end.
Definition HSet (k v : string) (h : Header) : Header := <[CanonicalKey k := [v]]> h.
Definition HAdd (k v : string) (h : Header) : Header :=
  <[CanonicalKey k := default [] (h !! CanonicalKey k) ++ [v]]> h.

(** ** Requests that are served *)

Record Request := mkRequest {
  Method : string; Path : string; RHeader : Header; RBody : result string string
}.

(** What a handler answers: the status, and what it writes. [None] is a panic, which the
    server recovers from by closing the connection. *)
Record Response := mkResponse { StatusCode : Z; Written : string }.

Record UserInfo := mkUserInfo { GetName : string; GetGroups : list string }.
Record Attributes := mkAttributes { AUser : UserInfo; AVerb : string; APath : string }.
Inductive Decision := DecisionDeny | DecisionAllow | DecisionNoOpinion.

#[export] Instance Decision_eq_dec : EqDecision Decision.
Proof. solve_decision. Defined.

Definition StatusBadRequest : Z := 400.
Definition StatusUnauthorized : Z := 401.
Definition StatusForbidden : Z := 403.
Definition StatusInternalServerError : Z := 500.
Definition StatusServiceUnavailable : Z := 503.

Section serving.
Context {W : Type}.
Notation Handler := (Request → W → W * option Response).
Notation answer code text := (Some (mkResponse code text)).
(** The delegated reviews: whose token a request carries, if anybody's, and what they
    may do. *)
Variable AuthenticateRequest : Request → result string (option UserInfo).
Variable Authorize : Attributes → result string Decision.

Definition attributes_of (user : UserInfo) (req : Request) : Attributes :=
  mkAttributes user (ToLower (Method req)) (Path req).

(** The headers of the next handler are those of the user, whatever the request
    said. *)
Definition with_identity (user : UserInfo) (req : Request) : Request :=
  mkRequest (Method req) (Path req)
    (HSet "x-remote-groups" (Join (GetGroups user) "|")
       (HSet "x-remote-user" (GetName user) (RHeader req)))
    (RBody req).

Definition WithAuthenticationAndAuthorization (handler : Handler) : Handler := λ req w,
  match AuthenticateRequest req with
  | Err _ => (w, answer StatusInternalServerError "Authentication failed")
  | Ok None => (w, answer StatusUnauthorized "Unauthorized")
  | Ok (Some user) =>
      match Authorize (attributes_of user req) with
      | Err _ =>
          (w, answer StatusInternalServerError ("Authorization for user " +:+ GetName user +:+ " failed"))
      | Ok authorized =>
          if authorized != DecisionAllow
          then (w, answer StatusForbidden ("Authorization denied for user " +:+ GetName user))
          else handler (with_identity user req) w
      end
  end.

(** Whether the engine is ready and the license accepted; [json.Valid] and the JSON of
    an event; [DataFilters.FilterAndUpload], which panics when the channel of the events
    is closed. *)
Variable IsReady : W → bool.
Variable LicenseAccept : W → bool.
Variable Valid : string → bool.
Variable marshal_event : Event → string.
Variable filter_and_upload : Event → W → W * option (list Z).

Definition EventHandler : Handler := λ req w,
  if negb (IsReady w) then (w, answer StatusServiceUnavailable "")
  else if negb (LicenseAccept w) then (w, answer StatusInternalServerError "")
  else
    let headerUser := HGet "x-remote-user" (RHeader req) in
    if headerUser == "" then (w, answer StatusBadRequest "")
    else
      match RBody req with
      | Err _ => (w, answer StatusInternalServerError "")
      | Ok eventKeyBytes =>
          if negb (Valid eventKeyBytes) then (w, answer StatusBadRequest "")
          else
            let event := mkEvent headerUser eventKeyBytes "" in
            let '(w, out) := filter_and_upload event w in
            match out with
            | None => (w, None)
            | Some statusCodes =>
                if handler_status statusCodes == StatusOK
                then (w, answer StatusOK (marshal_event event))
                else (w, answer StatusBadGateway "")
            end
      end.

Variable marshal_status : string → string → string.
Variable version : string.

Definition StatusHandler : Handler := λ _ w,
  (w, answer StatusOK (marshal_status "Data Reporter Operator" version)).

(** The routes; another path is not found. *)
Definition router : Handler := λ req w,
  if Path req == "/v1/event" then EventHandler req w
  else if Path req == "/v1/status" then StatusHandler req w
  else (w, answer 404 "404 page not found").

(** Whether the time of a request is up before its handler has ended. *)
Variable timed_out : Request → W → bool.

(** [http.TimeoutHandler]: the handler runs in a goroutine of its own, which goes on
    when the time is up; only its answer is replaced. *)
Definition TimeoutHandler (handler : Handler) (msg : string) : Handler := λ req w,
  let '(w', resp) := handler req w in
  (w', if timed_out req w then answer StatusServiceUnavailable msg else resp).

Definition NewDataReporterHandler : Handler := TimeoutHandler router "timeout exceeded".
End serving.

(** ** The client of a destination *)

(** A request that is posted, and its answer with what reading its body gives. *)
Record Post := mkPost { PURL : string; PHeader : Header; PBody : string }.
Record Answer := mkAnswer { ACode : Z; ABody : result string string }.

Definition Non200Response : string := "non 200 response".
Definition is_2xx (code : Z) : bool := bool_decide (200 ≤ code < 300)%Z.

Section uploading.
Context {Kazaam Obj W : Type}.
(** [http.NewRequest] taking an address; [http.Client.Do], with what the retrying client
    repeats until it answers; joining a path to an address;
    parsing and searching JSON; the transformation. *)
Variable ValidURL : string → bool.
Variable Do : Post → W → W * result string Answer.
Variable JoinPath : string → string → string.
Variable ParseJson : Json → option Obj.
Variable FirstResult : string → Obj → option string.
Variable KazaamTransform : Kazaam → Json → option Json.
(** The order in which a map of headers is ranged over. *)
Variable order : gmap string string → list (string * string).

Notation Uploader := (@Uploader Kazaam).

(** The headers of a destination, and of its authorization. *)
Definition dest_header (u : Uploader) : Header :=
  foldl (λ h kv, HSet kv.1 kv.2 h) ∅ (order (udestHeader u)).
Definition auth_header (u : Uploader) : Header :=
  foldl (λ h kv, HAdd kv.1 kv.2 h) ∅ (order (uauthHeader u)).

Definition parseForSuffix (u : Uploader) (eventMsg : Json) : string :=
  if DURLSuffixExpr (udest u) != "" then
    match ParseJson eventMsg with
    | None => ""
    | Some obj => default "" (FirstResult (DURLSuffixExpr (udest u)) obj)
    end
  else "".

(** The post to a destination with the token at hand. *)
Definition dest_post (u : Uploader) (authToken destURL : string) (body : Json) : Post :=
  mkPost destURL
    (if (DAuthDestHeader (udest u) != "") && (authToken != "")
     then HSet (DAuthDestHeader (udest u)) (DAuthDestHeaderPrefix (udest u) +:+ authToken)
            (dest_header u)
     else dest_header u) body.

Definition auth_post (u : Uploader) : Post :=
  mkPost (DAuthURL (udest u)) (auth_header u) (uauthBodyData u).

Definition send (p : Post) (w : W) : W * result string Answer :=
  if ValidURL (PURL p) then Do p w else (w, Err "invalid url").

(** The state is the token and the world. *)
Definition uploadToDest (u : Uploader) (destURL : string) (body : Json) (st : W * string)
    : (W * string) * result string Answer :=
  let '(w, r) := send (dest_post u st.2 destURL body) st.1 in ((w, st.2), r).

(** The token of an answer: the first result of the expression, the token at hand when
    there is none, or all of it. *)
Definition token_of (u : Uploader) (authToken aBody : string) : option string :=
  if DAuthDestHeader (udest u) != "" then
    obj ← ParseJson aBody; Some (default authToken (FirstResult (DTokenExpr (udest u)) obj))
  else Some aBody.

Definition callAuth (u : Uploader) (st : W * string) : (W * string) * (Z * option string) :=
  let '(w, r) := send (auth_post u) st.1 in
  match r with
  | Err e => ((w, st.2), (StatusInternalServerError, Some e))
  | Ok aResp =>
      if negb (is_2xx (ACode aResp)) then ((w, st.2), (ACode aResp, Some Non200Response))
      else
        match ABody aResp with
        | Err e => ((w, st.2), (StatusInternalServerError, Some e))
        | Ok aBody =>
            match token_of u st.2 aBody with
            | None => ((w, st.2), (StatusInternalServerError,
                         Some "could not parse response body data from authorization endpoint"))
            | Some token => ((w, token), (ACode aResp, None))
            end
        end
  end.

Definition answered (code : Z) : Z * option string :=
  (code, if is_2xx code then None else Some Non200Response).

(** An unauthorized post is made once more with a new token, when there is somewhere to
    get one. *)
Definition upload (u : Uploader) (destURL : string) (body : Json) (st : W * string)
    : (W * string) * (Z * option string) :=
  match uploadToDest u destURL body st with
  | (st, Err e) => (st, (StatusInternalServerError, Some e))
  | (st, Ok dResp) =>
      if (ACode dResp == StatusUnauthorized) && (DAuthURL (udest u) != "") then
        match callAuth u st with
        | (st, (statusCode, Some e)) => (st, (statusCode, Some e))
        | (st, (_, None)) =>
            match uploadToDest u destURL body st with
            | (st, Err e) => (st, (StatusInternalServerError, Some e))
            | (st, Ok adResp) => (st, answered (ACode adResp))
            end
        end
      else (st, answered (ACode dResp))
  end.

(** What cannot be transformed is posted as it came. *)
Definition TransformAndUpload (u : Uploader) (eventMsg : Json) (st : W * string)
    : (W * string) * (Z * option string) :=
  let destURL := JoinPath (DURL (udest u)) (parseForSuffix u eventMsg) in
  upload u destURL (default eventMsg (Transform KazaamTransform (utransformer u) eventMsg)) st.
End uploading.

(** ** Lemmas *)

Example canonical_keys :
  CanonicalKey "x-remote-user" = "X-Remote-User" ∧ CanonicalKey "authoriZATION" = "Authorization" ∧
  CanonicalKey "two words" = "two words".
Proof. split_and!; vm_compute; reflexivity. Qed.

Lemma remote_keys : CanonicalKey "x-remote-user" ≠ CanonicalKey "x-remote-groups".
Proof. vm_compute. discriminate. Qed.

(** The next handler sees the user's name and nothing the request said of it. *)
Lemma identity_user user req : HGet "x-remote-user" (RHeader (with_identity user req)) = GetName user.
Proof.
  unfold HGet, with_identity, HSet. cbn [RHeader].
  rewrite lookup_insert_ne by (intros He; by apply remote_keys). by rewrite lookup_insert_eq.
Qed.

(** ** Properties *)

Section properties.
Context {W : Type}.
Variable AuthenticateRequest : Request → result string (option UserInfo).
Variable Authorize : Attributes → result string Decision.
Variable IsReady LicenseAccept : W → bool.
Variable Valid : string → bool.
Variable marshal_event : Event → string.
Variable filter_and_upload : Event → W → W * option (list Z).
Variable marshal_status : string → string → string.
Variable version : string.
Variable timed_out : Request → W → bool.

Notation EventHandler :=
  (EventHandler IsReady LicenseAccept Valid marshal_event filter_and_upload).
Notation server := (WithAuthenticationAndAuthorization AuthenticateRequest Authorize
  (NewDataReporterHandler IsReady LicenseAccept Valid marshal_event filter_and_upload marshal_status version
     timed_out)).
Notation refused w w' resp := (w' = w ∧ ∃ r, resp = Some r ∧ StatusCode r ∈ [400; 401; 403; 500; 503]%Z).

Lemma refusal (w : W) code text :
  code ∈ [400; 401; 403; 500; 503]%Z → refused w w (Some (mkResponse code text)).
Proof. intros Hc. split; [done|]. by eexists. Qed.

(** The handler of the events, whoever is said to send them. *)
Lemma event_handled req w w' resp :
  EventHandler req w = (w', resp) → refused w w' resp ∨
  ∃ body out, HGet "x-remote-user" (RHeader req) ≠ "" ∧ RBody req = Ok body ∧ Valid body = true ∧
    IsReady w = true ∧ LicenseAccept w = true ∧
    filter_and_upload (mkEvent (HGet "x-remote-user" (RHeader req)) body "") w = (w', out) ∧
    match out with
    | None => resp = None
    | Some codes => ∃ r, resp = Some r ∧
        StatusCode r = (if handler_status codes == StatusOK then StatusOK else StatusBadGateway)
    end.
Proof.
  unfold EventHandler.EventHandler.
  destruct (IsReady w); cbn [negb]; [|intros [= <- <-]; left; apply refusal; set_solver].
  destruct (LicenseAccept w); cbn [negb]; [|intros [= <- <-]; left; apply refusal; set_solver].
  case_bool_decide as Hn; [intros [= <- <-]; left; apply refusal; set_solver|].
  destruct (RBody req) as [body|e]; [|intros [= <- <-]; left; apply refusal; set_solver].
  destruct (Valid body) eqn:Hv; cbn [negb]; [|intros [= <- <-]; left; apply refusal; set_solver].
  destruct (filter_and_upload _ w) as [w1 [codes|]] eqn:Hf; intros Hr; right.
  - exists body, (Some codes). case_bool_decide; injection Hr as <- <-; split_and!; try done; by eexists.
  - injection Hr as <- <-. by exists body, None.
Qed.

(** C9: an event is the word of the user whose token the request carries. A request for
    the events either changes nothing and is answered that it is refused, or its sender is
    known and allowed to make it, the engine is ready, the license accepted and the body
    valid JSON; then the body is filtered as an event of exactly that user, whatever the
    headers of the request say. Success is answered only if every part of the filtering
    was one, and always then if the handler ends in time; when the time is up before, the
    answer is that the service is not there, although the event is filtered all the same,
    and there is no answer when the filtering panics. *)
Theorem served_as_user req w w' resp :
  Path req = "/v1/event" → server req w = (w', resp) →
  refused w w' resp ∨
  ∃ user body out,
    AuthenticateRequest req = Ok (Some user) ∧ Authorize (attributes_of user req) = Ok DecisionAllow ∧
    GetName user ≠ "" ∧ RBody req = Ok body ∧ Valid body = true ∧
    IsReady w = true ∧ LicenseAccept w = true ∧
    filter_and_upload (mkEvent (GetName user) body "") w = (w', out) ∧
    match resp with
    | None => out = None ∧ timed_out (with_identity user req) w = false
    | Some r =>
        (StatusCode r = StatusServiceUnavailable ∧ timed_out (with_identity user req) w = true) ∨
        (timed_out (with_identity user req) w = false ∧ ∃ codes, out = Some codes ∧
         StatusCode r = (if handler_status codes == StatusOK then StatusOK else StatusBadGateway) ∧
         (StatusCode r = StatusOK ↔ Forall (λ c, 200 ≤ c < 300)%Z codes))
    end.
Proof.
  intros Hpath. unfold WithAuthenticationAndAuthorization.
  destruct (AuthenticateRequest req) as [[user|]|e];
    [|intros [= <- <-]; left; apply refusal; set_solver..].
  destruct (Authorize _) as [d|e] eqn:Hauth;
    [|intros [= <- <-]; left; apply refusal; set_solver].
  case_bool_decide as Hd; cbn [negb];
    [subst d|intros [= <- <-]; left; apply refusal; set_solver].
  unfold NewDataReporterHandler, TimeoutHandler, router. cbn [Path with_identity].
  rewrite (bool_decide_true _ Hpath).
  destruct (EventHandler (with_identity user req) w) as [w1 resp1] eqn:He. apply event_handled in He.
  rewrite identity_user in He. intros [= <- Hr].
  destruct He as [[-> (r & -> & Hc)]|(body & out & Hn & Hb & Hv & Hi & Hl & Hf & Ho)].
  { left. split; [done|]. destruct (timed_out _ w); subst resp; [|by exists r].
    eexists. split; [done|]. cbn. set_solver. }
  right. exists user, body, out. do 8 (split; [done|]).
  destruct (timed_out _ w); subst resp; [by left|].
  destruct out as [codes|]; [|by subst resp1]. destruct Ho as (r & -> & Hc). right. split; [done|].
  exists codes. do 2 (split; [done|]). rewrite <- handler_ok, Hc. by case_bool_decide.
Qed.
End properties.

Section uploads.
Context {Kazaam Obj W : Type}.
Variable ValidURL : string → bool.
Variable Do : Post → W → W * result string Answer.
Variable ParseJson : Json → option Obj.
Variable FirstResult : string → Obj → option string.
Variable order : gmap string string → list (string * string).
Variable u : @Uploader Kazaam.
Variable destURL : string.
Variable body : Json.

(** What an upload asks the client for: the event with a token, or a request for one. *)
Inductive Turn := ToDest (token : string) | ToAuth.

Definition post_of (t : Turn) : Post :=
  match t with ToDest token => dest_post order u token destURL body | ToAuth => auth_post order u end.

(** Posts that are made one after the other, with what they end in. *)
Inductive exchanges : list (Turn * result string Answer) → W → W → Prop :=
| ex_nil w : exchanges [] w w
| ex_cons t a l w w1 w2 :
    send ValidURL Do (post_of t) w = (w1, a) → exchanges l w1 w2 → exchanges ((t, a) :: l) w w2.

(** The destination took the event. *)
Definition accepted (x : Turn * result string Answer) : bool :=
  match x with (ToDest _, Ok a) => is_2xx (ACode a) | _ => false end.

Lemma callAuth_exchange w w' token token' r :
  callAuth ValidURL Do ParseJson FirstResult order u (w, token) = ((w', token'), r) →
  ∃ a, send ValidURL Do (post_of ToAuth) w = (w', a) ∧
    match r.2 with
    | None => ∃ ans aBody, a = Ok ans ∧ is_2xx (ACode ans) = true ∧ ABody ans = Ok aBody ∧
        token_of ParseJson FirstResult u token aBody = Some token'
    | Some _ => token' = token ∧ is_2xx r.1 = false
    end.
Proof.
  unfold callAuth. cbn [fst snd post_of]. destruct (send _ _ _ w) as [w1 [ans|e]].
  2:{ intros [= <- <- <-]. by eexists. }
  destruct (is_2xx (ACode ans)) eqn:Hc; cbn [negb]; [|intros [= <- <- <-]; by eexists].
  destruct (ABody ans) as [aBody|e] eqn:Hb; [|intros [= <- <- <-]; by eexists].
  destruct (token_of _ _ u token aBody) as [t|] eqn:Ht; intros [= <- <- <-]; eexists; (split; [done|]); [|done].
  by exists ans, aBody.
Qed.

(** C10: what a destination answered it took is not sent to it again. An upload makes at
    most three requests of the client of the destinations, which may repeat one by itself
    before it answers: the event, and, only after the answer 401 and when there is
    somewhere to ask, a request for a token and the event with the token of the answer.
    Exactly when no error is returned, one of the requests was answered with success,
    which was the last and is one with the event; and the code that is returned is a
    success exactly then, so that the handler, which looks at nothing else, knows. *)
Theorem upload_once w w' token token' code err :
  upload ValidURL Do ParseJson FirstResult order u destURL body (w, token) = ((w', token'), (code, err)) →
  ∃ l, exchanges l w w' ∧ (length l ≤ 3)%nat ∧
    length (List.filter accepted l) = match err with None => 1 | Some _ => 0 end ∧
    is_2xx code = match err with None => true | Some _ => false end ∧
    (err = None → ∃ l0 a, l = l0 ++ [(ToDest token', Ok a)] ∧ ACode a = code) ∧
    (length l ≠ 1 → DAuthURL (udest u) ≠ "" ∧ ∃ a b rest,
       l = (ToDest token, Ok a) :: (ToAuth, b) :: rest ∧ ACode a = StatusUnauthorized).
Proof.
  unfold upload, uploadToDest. cbn [fst snd].
  destruct (send _ _ _ w) as [w1 [dResp|e]] eqn:H1.
  2:{ intros [= <- <- <- <-]. exists [(ToDest token, Err e)]. split_and!; try solve [done | cbn; lia].
      by eapply ex_cons; [|constructor]. }
  destruct ((ACode dResp == StatusUnauthorized) && (DAuthURL (udest u) != "")) eqn:Hauth.
  2:{ unfold answered. intros [= <- <- <- <-]. exists [(ToDest token, Ok dResp)].
      split_and!; try solve [done | cbn; lia].
      - by eapply ex_cons; [|constructor].
      - cbn. by destruct (is_2xx _).
      - by destruct (is_2xx _).
      - intros _. by exists [], dResp. }
  apply andb_true_iff in Hauth as [Hcode%bool_decide_eq_true Hurl%negb_true_iff%bool_decide_eq_false].
  assert (Hno : is_2xx (ACode dResp) = false) by by rewrite Hcode.
  destruct (callAuth _ _ _ _ _ u (w1, token)) as [[w2 t2] r] eqn:H2.
  apply callAuth_exchange in H2 as (a & H2 & Hr). destruct r as [c [e|]]; cbn [fst snd] in Hr.
  { destruct Hr as [-> Hc]. intros [= <- <- <- <-]. exists [(ToDest token, Ok dResp); (ToAuth, a)].
    split_and!; try solve [done | cbn; lia].
    - eapply ex_cons; [exact H1|]. by eapply ex_cons; [|constructor].
    - cbn. by rewrite Hno.
    - intros _. split; [done|]. by exists dResp, a, []. }
  cbn [fst snd]. destruct (send _ _ _ w2) as [w3 b] eqn:H3. intros Hend.
  assert (Hw : w' = w3 ∧ token' = t2) by (by destruct b; injection Hend). destruct Hw as [-> ->].
  exists [(ToDest token, Ok dResp); (ToAuth, a); (ToDest t2, b)].
  destruct b as [adResp|e]; injection Hend as <- <-; split_and!; try solve [done | cbn; lia].
  all: try (eapply ex_cons; [exact H1|]; eapply ex_cons; [exact H2|]; by eapply ex_cons; [|constructor]).
  all: try (intros _; split; [done|]; by eexists _, _, _).
  - cbn [List.filter accepted]. rewrite Hno. by destruct (is_2xx (ACode adResp)).
  - by destruct (is_2xx (ACode adResp)).
  - intros _. by exists [(ToDest token, Ok dResp); (ToAuth, a)], adResp.
  - cbn [List.filter accepted]. by rewrite Hno.
Qed.
End uploads.

(** ** Witnesses *)

(** A server that knows one token and allows its user to post. *)
Definition toy_authenticate (req : Request) : result string (option UserInfo) :=
  Ok (if HGet "Authorization" (RHeader req) == "Bearer alice" then Some (mkUserInfo "alice" ["staff"]) else None).
Definition toy_authorize (a : Attributes) : result string Decision :=
  Ok (if AVerb a == "post" then DecisionAllow else DecisionDeny).
Definition toy_accept (e : Event) (w : list Event) : list Event * option (list Z) := (w ++ [e], Some [200%Z]).

Definition toy_server (late : bool) : Request → list Event → list Event * option Response :=
  WithAuthenticationAndAuthorization toy_authenticate toy_authorize
    (NewDataReporterHandler (λ _, true) (λ _, true) (λ _, true) RawMessage toy_accept (λ n v, n +:+ v) "1.0"
       (λ _ _, late)).

(** The header of another user is of no use. *)
Definition spoofed : Request :=
  mkRequest "POST" "/v1/event" (HSet "x-remote-user" "bob" (HSet "Authorization" "Bearer alice" ∅)) (Ok "{}").

Lemma served_as_user_witness :
  toy_server false spoofed [] = ([mkEvent "alice" "{}" ""], Some (mkResponse 200 "{}")) ∧
  ∃ user, toy_authenticate spoofed = Ok (Some user) ∧ GetName user ≠ "".
Proof.
  assert (Hr : toy_server false spoofed [] = ([mkEvent "alice" "{}" ""], Some (mkResponse 200 "{}")))
    by (vm_compute; reflexivity).
  split; [exact Hr|].
  destruct (served_as_user toy_authenticate toy_authorize (λ _, true) (λ _, true) (λ _, true) RawMessage
    toy_accept (λ n v, n +:+ v) "1.0" (λ _ _, false) spoofed [] _ _ eq_refl Hr)
    as [[Hw _]|(user & body & codes & Ha & _ & Hn & _)]; [discriminate Hw|by exists user].
Defined.

(** The answer may be that the service is not there, and the event is taken. *)
Example taken_late :
  toy_server true spoofed [] =
    ([mkEvent "alice" "{}" ""], Some (mkResponse StatusServiceUnavailable "timeout exceeded")).
Proof. vm_compute. reflexivity. Qed.

(** A destination that takes events with the token its authorization gives out. *)
Definition toy_destination : @Uploader string :=
  mkUploader (mkDestination (mkTransformerSpec "kazaam" None) "https://dest" "" "" "https://auth" ""
    "Authorization" "Bearer " "token" None) ∅ ∅ "secret" (mkTransformer "kazaam" "spec").
Definition toy_http (p : Post) (log : list Post) : list Post * result string Answer :=
  (log ++ [p],
   Ok (if PURL p == "https://auth" then mkAnswer 200 (Ok "{token: t1}")
       else if HGet "authorization" (PHeader p) == "Bearer t1" then mkAnswer 201 (Ok "")
       else mkAnswer 401 (Ok ""))).
Definition toy_upload : (list Post * string) * (Z * option string) :=
  upload (λ _, true) toy_http (λ j, Some j) (λ _ _, Some "t1") map_to_list toy_destination "https://dest"
    "{}" ([], "old").

Lemma upload_once_witness :
  PURL <$> toy_upload.1.1 = ["https://dest"; "https://auth"; "https://dest"] ∧
  ∃ l, exchanges (λ _, true) toy_http map_to_list toy_destination "https://dest" "{}" l [] toy_upload.1.1 ∧
       length (List.filter accepted l) = 1.
Proof.
  split; [vm_compute; reflexivity|].
  assert (Hu : toy_upload = ((toy_upload.1.1, "t1"), (201%Z, None))) by (vm_compute; reflexivity).
  destruct (upload_once (λ _, true) toy_http (λ j, Some j) (λ _ _, Some "t1") map_to_list toy_destination
    "https://dest" "{}" [] _ "old" _ _ _ Hu) as (l & He & _ & Hl & _).
  by exists l.
Defined.
