(* ===== verification/MeteringServer.v ===== *)
(** * The metering server and the runnables of its engine

    The model of [metering/v2/pkg/server/serve.go], of the writing of all metrics
    ([internal/metrics/prometheus_data.go]) and of the runnables that watch the cluster
    ([engine/engine.go], [runnables.go]): what a scrape is answered with, when the server
    is ready, in which order the runnables start and under which contexts they run. *)

From S2P Require Import Prelude Engine.
Local Open Scope go_scope.

(** ** Writing all metrics *)

Section data.
Context {M W : Type}.
(** [PrometheusDataMap.WriteAll] to a writer. *)
Variable WriteMap : M → W → W * option string.
(** The order in which the keys of the map are ranged over. *)
Variable order : gmap string M → list string.

Record MetricsData := mkMetricsData { dataMap : gmap string M; orderedLabels : list string }.

(** The sorted names are kept, and made anew when their number does not fit. *)
Definition order_labels (p : MetricsData) : MetricsData :=
  if bool_decide (length (orderedLabels p) ≠ size (dataMap p))
  then mkMetricsData (dataMap p) (merge_sort String.le (order (dataMap p)))
  else p.

(** A name without a map would be dereferenced. *)
Fixpoint write_labels (labels : list string) (m : gmap string M) (w : W) : outcome (W * option string) :=
  match labels with
  | [] => Ret (w, None)
  | k :: labels =>
      match m !! k with
      | None => Panic
      | Some dm =>
          match WriteMap dm w with
          | (w, Some e) => Ret (w, Some e)
          | (w, None) => write_labels labels m w
          end
      end
  end.

Definition DataWriteAll (p : MetricsData) (w : W) : MetricsData * outcome (W * option string) :=
  let p := order_labels p in (p, write_labels (orderedLabels p) (dataMap p) w).
End data.
Arguments MetricsData M : clear implicits.
Arguments mkMetricsData {M} _ _.

(** ** A scrape *)

Definition comma : Ascii.ascii := Eval cbv in Ascii.ascii_of_nat 44.

Definition is_space (a : Ascii.ascii) : bool :=
  let n := Ascii.nat_of_ascii a in bool_decide (n = 32 ∨ 9 ≤ n ≤ 13).

(** [strings.TrimSpace] of ASCII. *)
Fixpoint trim_left (s : string) : string :=
  match s with
  | String a s' => if is_space a then trim_left s' else s
  | EmptyString => s
  end.
Fixpoint trim_right (s : string) : string :=
  match s with
  | EmptyString => EmptyString
  | String a s' =>
      match trim_right s' with
      | EmptyString => if is_space a then EmptyString else String a EmptyString
      | r => String a r
      end
  end.
Definition TrimSpace (s : string) : string := trim_right (trim_left s).

(** The parts of an accepted encoding that ask for gzip. *)
Definition asks_gzip (part : string) : bool :=
  let part := TrimSpace part in (part == "gzip") || HasPrefix part "gzip;".
Definition gzip_parts (acceptEncoding : string) : list string :=
  List.filter asks_gzip (SplitN acceptEncoding comma (S (String.length acceptEncoding))).

Record Scrape := mkScrape { SHeaders : gmap string string; SBody : string }.

Section scrape.
(** What closing as many writers, one around the other, puts out when nothing was
    written to them. *)
Variable GzipClose : nat → string.

(** [metricHandler.ServeHTTP]; [text] is what all the metrics are written as. Each part
    that asks for gzip puts another writer around the last, but the metrics are written
    to the response itself. *)
Definition ServeHTTP (enableGZIPEncoding : bool) (acceptEncoding text : string) : Scrape :=
  let n := if enableGZIPEncoding then length (gzip_parts acceptEncoding) else 0 in
  let resHeader := {[ "Content-Type" := "text/plain; version=0.0.4" ]} in
  mkScrape (if n == 0 then resHeader else <["Content-Encoding" := "gzip"]> resHeader)
    (text +:+ (if n == 0 then "" else GzipClose n)).

(** The routes besides the metrics: their status and text. *)
Definition health_routes (ready : bool) (path : string) : option (Z * string) :=
  if path == "/healthz" then Some (200%Z, "OK")
  else if path == "/readyz" then
    Some (if ready then (200%Z, "OK") else (503%Z, "Service Unavailable"))
  else None.
End scrape.

(** [Serve]: ready when the engine has started without an error. *)
Definition MarkReady (started : option string) : bool :=
  match started with Some _ => false | None => true end.

(** ** Contexts *)

(** A context is the path of the cancel functions above it; it is done when one of them
    was called. *)
Definition Ctx : Type := list nat.

Record Process := mkProcess {
  next_id : nat;
  cancelled : list Ctx;
  running : list (string * Ctx)
}.

Definition WithCancel (ctx : Ctx) (w : Process) : Process * Ctx :=
  (mkProcess (S (next_id w)) (cancelled w) (running w), ctx ++ [next_id w]).
Definition Cancel (ctx : Ctx) (w : Process) : Process :=
  mkProcess (next_id w) (ctx :: cancelled w) (running w).
Definition done_in (w : Process) (ctx : Ctx) : Prop := ∃ c, c ∈ cancelled w ∧ c `prefix_of` ctx.

(** ** Runnables *)

(** A reflector, or the listers that follow the watched namespaces. *)
Inductive Reflector := Lister (name : string) | NamespacedListers.

Definition reflector_name (r : Reflector) : string :=
  match r with Lister name => name | NamespacedListers => "NamespacedCachedListers" end.

(** A runnable that runs under the context it is started with, or the runnable of a
    store: its reflectors, and the context of its first start. *)
Inductive Runnable :=
| Simple (name : string)
| StoreRunnable (name : string) (reflectors : list Reflector) (startContext : option Ctx).

Section runnables.
(** The error a start ends in, if any. *)
Variable fails : string → option string.

Definition run_in (name : string) (ctx : Ctx) (w : Process) : Process * option string :=
  match fails name with
  | Some e => (w, Some e)
  | None => (mkProcess (next_id w) (cancelled w) (running w ++ [(name, ctx)]), None)
  end.

(** [ListerRunnable.Start]: a lister runs under a context of its own. *)
Definition reflector_start (r : Reflector) (ctx : Ctx) (w : Process) : Process * option string :=
  match r with
  | Lister name => let '(w, localCtx) := WithCancel ctx w in run_in name localCtx w
  | NamespacedListers => run_in (reflector_name r) ctx w
  end.

Definition start_reflectors (l : list Reflector) (ctx : Ctx) (w : Process) : Process * option string :=
  start_all (λ r w, reflector_start r ctx w) l w.

(** The runnable of a store starts below the context it first saw. *)
Definition runnable_start (r : Runnable) (ctx : Ctx) (w : Process)
    : Runnable * (Process * option string) :=
  match r with
  | Simple name => (r, run_in name ctx w)
  | StoreRunnable name reflectors startContext =>
      let startContext := default ctx startContext in
      let '(w, localCtx) := WithCancel startContext w in
      (StoreRunnable name reflectors (Some startContext), start_reflectors reflectors localCtx w)
  end.

Fixpoint runnables_start (rs : list Runnable) (ctx : Ctx) (w : Process)
    : list Runnable * (Process * option string) :=
  match rs with
  | [] => ([], (w, None))
  | r :: rs =>
      match runnable_start r ctx w with
      | (r, (w, Some e)) => (r :: rs, (w, Some e))
      | (r, (w, None)) => let '(rs, out) := runnables_start rs ctx w in (r :: rs, out)
      end
  end.

Record EngineState := mkEngineState { runnables : list Runnable; cancelFunc : option Ctx }.

Definition EngineStop (e : EngineState) (w : Process) : Process :=
  match cancelFunc e with None => w | Some c => Cancel c w end.

Definition engine_start (e : EngineState) (ctx : Ctx) (w : Process)
    : EngineState * (Process * option string) :=
  let w := EngineStop e w in
  let '(w, localCtx) := WithCancel ctx w in
  let '(rs, out) := runnables_start (runnables e) localCtx w in
  (mkEngineState rs (Some localCtx), out).
End runnables.

(** The order of [ProvideRunnables]; the dictionary has a reflector for each namespace
    it is given, the object store the listers that follow the watched namespaces. *)
Definition ProvideRunnables (nses : list string) : list Runnable :=
  [Simple "Mailbox"; Simple "ObjectChannelProducer"; Simple "MeterDefinitionChannelProducer";
   Simple "StatusProcessor"; Simple "PrometheusProcessor"; Simple "PrometheusMdefProcessor";
   Simple "MeterDefinitionRemovalWatcher";
   StoreRunnable "MeterDefinitionDictionary" ((λ ns, Lister ("meterdefinitions/" +:+ ns)) <$> nses) None;
   StoreRunnable "MeterDefinitionStore" [NamespacedListers] None].

Definition DefaultNamespaces : list string := [""].
Definition ProvideNamespaces (nses : list string) : list string :=
  match nses with [] => DefaultNamespaces | _ => nses end.

(** ** Lemmas *)

Lemma Forall2_known {A B} (P : A → Prop) (R : A → B → Prop) l k :
  Forall P l → Forall2 R l k → Forall2 (λ x y, P x ∧ R x y) l k.
Proof. intros HP. induction 1 as [|x y l k HR _ IH]; [constructor|]. inv HP. constructor; auto. Qed.

Section runnable_lemmas.
Variable fails : string → option string.

(** What a runnable starts, and the context it starts below. *)
Definition started_names (r : Runnable) : list string :=
  match r with Simple name => [name] | StoreRunnable _ l _ => reflector_name <$> l end.
Definition base_context (ctx : Ctx) (r : Runnable) : Ctx :=
  match r with Simple _ => ctx | StoreRunnable _ _ startContext => default ctx startContext end.
Definition after_start (ctx : Ctx) (r : Runnable) : Runnable :=
  match r with
  | Simple _ => r
  | StoreRunnable name l startContext => StoreRunnable name l (Some (default ctx startContext))
  end.

(** Something ran on: new entries below a context, nothing cancelled. *)
Definition ran (names : list string) (base : Ctx) (l : list (string * Ctx)) (w w' : Process) : Prop :=
  running w' = running w ++ l ∧ cancelled w' = cancelled w ∧ next_id w ≤ next_id w' ∧
  l.*1 = names ∧ Forall (λ e, base `prefix_of` e.2) l.

Lemma run_in_ran name ctx w w' : run_in fails name ctx w = (w', None) → ran [name] ctx [(name, ctx)] w w'.
Proof.
  unfold run_in, ran. destruct (fails name); [done|]. intros [= <-]. cbn. split_and!; try done.
  by constructor.
Qed.

Lemma reflector_ran r ctx w w' :
  reflector_start fails r ctx w = (w', None) → ∃ l, ran [reflector_name r] ctx l w w'.
Proof.
  destruct r as [name|]; cbn [reflector_start].
  - unfold WithCancel. intros (H1 & H2 & H3 & H4 & H5)%run_in_ran. eexists. split_and!; try done.
    + cbn in H3. lia.
    + eapply Forall_impl; [exact H5|]. intros e He. etrans; [by apply prefix_app_r|exact He].
  - intros H%run_in_ran. by eexists.
Qed.

Lemma reflectors_ran rs ctx w w' :
  start_reflectors fails rs ctx w = (w', None) → ∃ l, ran (reflector_name <$> rs) ctx l w w'.
Proof.
  unfold start_reflectors. revert w; induction rs as [|r rs IH]; intros w; cbn [start_all].
  - intros [= <-]. exists []. unfold ran. rewrite app_nil_r. by split_and!.
  - destruct (reflector_start fails r ctx w) as [w1 [e|]] eqn:H1; [done|].
    apply reflector_ran in H1 as (l1 & Hr1 & Hc1 & Hn1 & Hf1 & Hp1).
    intros (l & Hr & Hc & Hn & Hf & Hp)%IH. exists (l1 ++ l). unfold ran.
    rewrite Hr, Hr1, Hc, Hc1, app_assoc, fmap_app, Hf1, Hf. split_and!; [done..|lia|done|by apply Forall_app].
Qed.

Lemma runnable_ran r ctx w r' w' :
  runnable_start fails r ctx w = (r', (w', None)) →
  r' = after_start ctx r ∧ ∃ l, ran (started_names r) (base_context ctx r) l w w'.
Proof.
  destruct r as [name|name rs sc]; cbn [runnable_start].
  - intros [= <- H]. split; [done|]. apply run_in_ran in H. by eexists.
  - unfold WithCancel. intros [= <- H]. split; [done|].
    apply reflectors_ran in H as (l & Hr & Hc & Hn & Hf & Hp). exists l. split_and!; try done.
    + cbn in Hn. lia.
    + eapply Forall_impl; [exact Hp|]. intros e He. cbn. etrans; [by apply prefix_app_r|exact He].
Qed.

Lemma runnables_ran rs ctx w rs' w' :
  runnables_start fails rs ctx w = (rs', (w', None)) →
  rs' = after_start ctx <$> rs ∧ cancelled w' = cancelled w ∧ next_id w ≤ next_id w' ∧
  ∃ ls, running w' = running w ++ mjoin ls ∧
    Forall2 (λ r l, l.*1 = started_names r ∧ Forall (λ e, base_context ctx r `prefix_of` e.2) l) rs ls.
Proof.
  revert w rs'; induction rs as [|r rs IH]; intros w rs'; cbn [runnables_start].
  - intros [= <- <-]. split_and!; try done. exists []. by rewrite app_nil_r.
  - destruct (runnable_start fails r ctx w) as [r1 [w1 [e|]]] eqn:H1; [done|].
    apply runnable_ran in H1 as (-> & l1 & Hr1 & Hc1 & Hn1 & Hf1 & Hp1).
    destruct (runnables_start fails rs ctx w1) as [rs1 out] eqn:H2. intros [= <- ->].
    apply IH in H2 as (-> & Hc & Hn & ls & Hr & Hls). split_and!; [done|congruence|lia|].
    exists (l1 :: ls). rewrite Hr, Hr1. cbn. rewrite app_assoc. split; [done|]. by constructor.
Qed.

(** A new context is done only when the one above it is. *)
Lemma prefix_below (c ctx : Ctx) n rest :
  c `prefix_of` ctx ++ n :: rest → c `prefix_of` ctx ∨ n ∈ c.
Proof.
  intros Hp. destruct (decide (length c ≤ length ctx)) as [Hl|Hl].
  - left. destruct Hp as [k Hk]. apply (f_equal (take (length c))) in Hk.
    rewrite take_app_length, take_app_le in Hk by done. rewrite <- Hk. apply prefix_take.
  - right. destruct Hp as [k Hk]. apply (f_equal (λ l, l !! length ctx)) in Hk.
    rewrite list_lookup_middle in Hk by done. rewrite lookup_app_l in Hk by lia.
    by eapply list_elem_of_lookup_2.
Qed.
End runnable_lemmas.

(** ** Properties *)

Section engine_properties.
Variable fails : string → option string.

Definition fresh_ids (w : Process) : Prop := ∀ c i, c ∈ cancelled w → i ∈ c → i < next_id w.
Definition not_started (r : Runnable) : Prop :=
  match r with Simple _ => True | StoreRunnable _ _ startContext => startContext = None end.

Lemma base_not_started ctx r : not_started r → base_context ctx r = ctx.
Proof. destruct r; [done|]. by intros ->. Qed.

(** The first start of the engine starts everything it provides for, in order, and what it
    started runs on. *)
Theorem first_start_lives e ctx w e' w' :
  cancelFunc e = None → Forall not_started (runnables e) → fresh_ids w → ¬ done_in w ctx →
  engine_start fails e ctx w = (e', (w', None)) →
  ∃ ls, running w' = running w ++ mjoin ls ∧
    Forall2 (λ r l, l.*1 = started_names r ∧ Forall (λ x, ¬ done_in w' x.2) l) (runnables e) ls.
Proof.
  intros Hc Hns Hfresh Hnd. unfold engine_start, EngineStop. rewrite Hc. unfold WithCancel.
  destruct (runnables_start _ _ _ _) as [rs out] eqn:Hr. intros [= <- ->].
  apply runnables_ran in Hr as (_ & Hcan & _ & ls & Hrun & Hls). cbn [running cancelled] in *.
  exists ls. split; [done|]. eapply Forall2_impl; [exact (Forall2_known _ _ _ _ Hns Hls)|].
  intros r l (Hr & Hn & Hp). split; [done|]. eapply Forall_impl; [exact Hp|].
  intros x Hx (c & Hcc & Hpre). rewrite Hcan in Hcc. rewrite base_not_started in Hx by done.
  destruct Hx as [rest Hx].
  assert (Hbelow : c `prefix_of` ctx ++ next_id w :: rest).
  { assert (Heq : x.2 = ctx ++ next_id w :: rest) by (etrans; [exact Hx|]; by rewrite <- app_assoc).
    rewrite <- Heq. exact Hpre. }
  apply prefix_below in Hbelow as [Hp2|Hin]; [apply Hnd; by exists c|].
  specialize (Hfresh _ _ Hcc Hin). lia.
Qed.

(** A second start cancels the first, and the stores start again below the context of
    their first start: none of their reflectors runs on. *)
Theorem restart_stops_stores e ctx w e1 w1 e2 w2 :
  Forall not_started (runnables e) →
  engine_start fails e ctx w = (e1, (w1, None)) → engine_start fails e1 ctx w1 = (e2, (w2, None)) →
  ∃ ls, running w2 = running w1 ++ mjoin ls ∧
    Forall2 (λ r l, l.*1 = started_names r ∧
      match r with StoreRunnable _ _ _ => Forall (λ x, done_in w2 x.2) l | Simple _ => True end)
      (runnables e) ls.
Proof.
  intros Hns. unfold engine_start at 1, WithCancel.
  destruct (runnables_start _ (runnables e) _ _) as [rs1 out1] eqn:Hr1. intros [= <- ->].
  apply runnables_ran in Hr1 as (-> & _ & _ & _ & _ & _).
  unfold engine_start, EngineStop, WithCancel. cbn [cancelFunc runnables].
  destruct (runnables_start _ _ _ _) as [rs2 out2] eqn:Hr2. intros [= <- ->].
  apply runnables_ran in Hr2 as (_ & Hcan & _ & ls & Hrun & Hls). cbn [running cancelled Cancel] in *.
  exists ls. split; [done|]. apply Forall2_fmap_l in Hls.
  eapply Forall2_impl; [exact (Forall2_known _ _ _ _ Hns Hls)|].
  intros r l (Hr & Hn & Hp). split; [by destruct r|]. destruct r as [name|name refl sc]; [done|].
  cbn in Hr. subst sc. cbn in Hp. eapply Forall_impl; [exact Hp|]. intros x Hx. eexists. split; [|exact Hx].
  rewrite Hcan. by left.
Qed.
End engine_properties.

Section data_properties.
Context {M W : Type}.
Variable WriteMap : M → W → W * option string.
Variable order : gmap string M → list string.
Hypothesis order_keys : ∀ m, order m ≡ₚ (map_to_list m).*1.

Definition labelled_in_order (p : MetricsData M) : Prop :=
  Sorted String.le (orderedLabels p) ∧ orderedLabels p ≡ₚ (map_to_list (dataMap p)).*1.

Lemma write_labels_spec labels m w :
  (∀ k, k ∈ labels → is_Some (m !! k)) →
  ∃ w' e, write_labels WriteMap labels m w = Ret (w', e) ∧
    (e = None →
     w' = foldl (λ w k, match m !! k with Some dm => (WriteMap dm w).1 | None => w end) w labels).
Proof.
  revert w; induction labels as [|k labels IH]; intros w Hk; cbn [write_labels foldl]; [by exists w, None|].
  destruct (Hk k ltac:(left)) as [dm Hdm]. rewrite Hdm. destruct (WriteMap dm w) as [w1 [e|]]; cbn [fst].
  - by exists w1, (Some e).
  - apply IH. intros k' Hk'. apply Hk. by right.
Qed.

(** A scrape writes all the metrics. It does not panic, and unless a write fails, each map
    is written once, in the order of the names, in whatever order Go ranges over them; the
    names that are kept stay those of the maps. *)
Theorem DataWriteAll_spec p w p' out :
  orderedLabels p = [] ∨ labelled_in_order p → DataWriteAll WriteMap order p w = (p', out) →
  dataMap p' = dataMap p ∧ labelled_in_order p' ∧
  ∃ w' e, out = Ret (w', e) ∧
    (e = None → w' = foldl (λ w k, match dataMap p !! k with Some dm => (WriteMap dm w).1 | None => w end)
                       w (orderedLabels p')).
Proof.
  intros Hp. unfold DataWriteAll, order_labels. set (p1 := if bool_decide _ then _ else p).
  intros [= <- <-].
  assert (Hp1 : dataMap p1 = dataMap p ∧ labelled_in_order p1).
  { subst p1. case_bool_decide as Hlen.
    - split; [done|]. split; [apply Sorted_merge_sort; apply _|]. cbn. by rewrite merge_sort_Permutation, order_keys.
    - split; [done|]. destruct Hp as [Hp|Hp]; [|done]. unfold labelled_in_order. rewrite Hp in Hlen |- *.
      symmetry in Hlen. apply map_size_empty_inv in Hlen. rewrite Hlen.
      split; [constructor|]. by rewrite map_to_list_empty. }
  destruct Hp1 as [Hd Hl]. rewrite Hd. split; [done|]. split; [done|]. apply write_labels_spec.
  intros k Hk. destruct Hl as [_ Hl]. rewrite Hl, Hd in Hk.
  apply list_elem_of_fmap in Hk as ([k' dm] & -> & Hk). apply elem_of_map_to_list in Hk. by exists dm.
Qed.
End data_properties.

(** When a scraper accepts gzip and that is enabled, the answer says it is compressed, but
    what it starts with is the text as it is. *)
Theorem gzip_is_plain GzipClose acceptEncoding text :
  gzip_parts acceptEncoding ≠ [] →
  SHeaders (ServeHTTP GzipClose true acceptEncoding text) !! "Content-Encoding" = Some "gzip" ∧
  ∃ rest, SBody (ServeHTTP GzipClose true acceptEncoding text) = text +:+ rest.
Proof.
  intros Hg. unfold ServeHTTP. destruct (gzip_parts acceptEncoding); [done|]. cbn [length SHeaders SBody].
  rewrite bool_decide_false by done. split; [apply lookup_insert_eq|by eexists].
Qed.

Example gzip_asked : gzip_parts "deflate, gzip;q=1.0,br , gzip" = [" gzip;q=1.0"; " gzip"].
Proof. vm_compute. reflexivity. Qed.

(** ** Witnesses *)

Definition new_engine : EngineState := mkEngineState (ProvideRunnables (ProvideNamespaces [])) None.
Definition new_process : Process := mkProcess 0 [] [].
Definition first_run : EngineState * (Process * option string) := engine_start (λ _, None) new_engine [] new_process.
Definition second_run : EngineState * (Process * option string) :=
  engine_start (λ _, None) first_run.1 [] first_run.2.1.

Lemma restart_stops_stores_witness :
  (running first_run.2.1).*1 =
    ["Mailbox"; "ObjectChannelProducer"; "MeterDefinitionChannelProducer"; "StatusProcessor";
     "PrometheusProcessor"; "PrometheusMdefProcessor"; "MeterDefinitionRemovalWatcher"; "meterdefinitions/";
     "NamespacedCachedListers"] ∧
  ∃ ls, running second_run.2.1 = running first_run.2.1 ++ mjoin ls ∧ length ls = 9.
Proof.
  split; [vm_compute; reflexivity|].
  assert (Hns : Forall not_started (runnables new_engine)) by (repeat constructor).
  assert (H1 : engine_start (λ _, None) new_engine [] new_process = (first_run.1, (first_run.2.1, None)))
    by (vm_compute; reflexivity).
  assert (H2 : engine_start (λ _, None) first_run.1 [] first_run.2.1 = (second_run.1, (second_run.2.1, None)))
    by (vm_compute; reflexivity).
  destruct (restart_stops_stores _ _ _ _ _ _ _ _ Hns H1 H2) as (ls & Hr & Hls).
  exists ls. split; [exact Hr|]. by apply Forall2_length in Hls.
Defined.
