(* ===== verification/CheckPath.v ===== *)
(** * Comparing objects

    The model of [v2/pkg/utils/checkpath/checkpath.go], which compares two objects along
    a tree of paths, and of [v2/pkg/utils/patch/patch.go], which leaves out of a
    comparison the metadata the API server writes. Looking a path up, deep equality and
    JSON are arguments. *)

From S2P Require Import Prelude PromQuery.
Local Open Scope go_scope.

(** ** Paths *)

(** [Update] is the name of the function that is called, if there is one. *)
Inductive CheckUpdatePath := mkPath {
  Root : string; Paths : list CheckUpdatePath; Update : option string
}.

(** Induction on a tree of paths. *)
Section tree_induction.
Variable P : CheckUpdatePath → Prop.
Hypothesis node : ∀ r ps u, Forall P ps → P (mkPath r ps u).

Fixpoint path_tree_ind (c : CheckUpdatePath) : P c :=
  match c with
  | mkPath r ps u =>
      node r ps u ((fix all (l : list CheckUpdatePath) : Forall P l :=
                      match l with
                      | [] => @List.Forall_nil _ P
                      | c :: l => @List.Forall_cons _ P c l (path_tree_ind c) (all l)
                      end) ps)
  end.
End tree_induction.

(** What looking a path up gives. *)
Inductive Looked {J : Type} := Found (j : J) | Missing | LookupFailed (e : string).
Arguments Looked J : clear implicits.

(** An evaluation: whether there is a change, the path it is about, an error, and the
    functions that were called. *)
Record Evaluated := mkEvaluated {
  changed : bool; about : string; failure : option string; called : list string
}.

Section paths.
Context {J : Type}.
Variable JsonPathLookup : J → string → result string J.
Variable DeepEqual : J → J → bool.

(** No root is the root of the object. *)
Definition root_of (c : CheckUpdatePath) : string := if Root c == "" then "$" else Root c.

(** Two errors only say that there is nothing. *)
Definition lookup (j : J) (path : string) : Looked J :=
  match JsonPathLookup j path with
  | Ok v => Found v
  | Err e =>
      if string_contains "not found in object" e || string_contains "out of range" e
      then Missing else LookupFailed e
  end.

Definition updates (c : CheckUpdatePath) : list string := option_list (Update c).

(** The loop over the paths ends at the first error and at the first change. *)
Fixpoint eval_each (eval : CheckUpdatePath → Evaluated) (root : string) (us : list string)
    (l : list CheckUpdatePath) : Evaluated :=
  match l with
  | [] => mkEvaluated false root None []
  | path :: l =>
      let r := eval path in
      match failure r with
      | Some e => mkEvaluated false (about r) (Some e) (called r)
      | None =>
          if changed r then mkEvaluated true root None (called r ++ us)
          else let rest := eval_each eval root us l in
               mkEvaluated (changed rest) (about rest) (failure rest) (called r ++ called rest)
      end
  end.

Fixpoint Eval (c : CheckUpdatePath) (old new : J) : Evaluated :=
  match c with
  | mkPath _ paths _ =>
      let root := root_of c in
      match lookup old root, lookup new root with
      | LookupFailed e, _ => mkEvaluated false root (Some e) []
      | _, LookupFailed e => mkEvaluated false root (Some e) []
      | Missing, Missing => mkEvaluated false root None []
      | Missing, Found _ | Found _, Missing => mkEvaluated true root None (updates c)
      | Found oldRoot, Found newRoot =>
          match paths with
          | [] =>
              if DeepEqual oldRoot newRoot then mkEvaluated false root None []
              else mkEvaluated true root None (updates c)
          | _ => eval_each (λ path, Eval path oldRoot newRoot) root (updates c) paths
          end
      end
  end.

(** ** The reference: what differs, and the first way down to it *)

Fixpoint differs (c : CheckUpdatePath) (old new : J) : bool :=
  match c with
  | mkPath _ paths _ =>
      match lookup old (root_of c), lookup new (root_of c) with
      | Missing, Found _ | Found _, Missing => true
      | Found oldRoot, Found newRoot =>
          match paths with
          | [] => negb (DeepEqual oldRoot newRoot)
          | _ => existsb (λ path, differs path oldRoot newRoot) paths
          end
      | _, _ => false
      end
  end.

Fixpoint first_way (differ : CheckUpdatePath → bool) (way : CheckUpdatePath → list string)
    (us : list string) (l : list CheckUpdatePath) : list string :=
  match l with
  | [] => []
  | path :: l => if differ path then way path ++ us else first_way differ way us l
  end.

Fixpoint way_down (c : CheckUpdatePath) (old new : J) : list string :=
  match c with
  | mkPath _ paths _ =>
      match lookup old (root_of c), lookup new (root_of c) with
      | Found oldRoot, Found newRoot =>
          match paths with
          | [] => updates c
          | _ => first_way (λ path, differs path oldRoot newRoot) (λ path, way_down path oldRoot newRoot)
                   (updates c) paths
          end
      | _, _ => updates c
      end
  end.

(** No lookup of the tree fails. *)
Definition lookups_work : Prop := ∀ j path e, lookup j path ≠ LookupFailed e.

Definition agrees (c : CheckUpdatePath) (old new : J) : Prop :=
  failure (Eval c old new) = None ∧ changed (Eval c old new) = differs c old new ∧
  about (Eval c old new) = root_of c ∧
  called (Eval c old new) = if differs c old new then way_down c old new else [].

Lemma eval_each_spec old new root us l :
  Forall (λ c, agrees c old new) l →
  let r := eval_each (λ path, Eval path old new) root us l in
  let d := existsb (λ path, differs path old new) l in
  failure r = None ∧ changed r = d ∧ about r = root ∧
  called r = if d then first_way (λ path, differs path old new) (λ path, way_down path old new) us l else [].
Proof.
  induction 1 as [|p l (Hf & Hc & _ & Hl) _ IH]; [by split_and!|]. cbn [eval_each existsb first_way].
  rewrite Hf, Hc, Hl. destruct (differs p old new); cbn [orb]; [by split_and!|].
  destruct IH as (H1 & H2 & H3 & H4). cbn [failure changed about called app]. by split_and!.
Qed.

(** Comparing by paths agrees with the reference. As long as lookups do not fail, an
    evaluation says that there is a change exactly when the objects differ somewhere along
    the paths, it is no error, and then exactly the functions on the first way down to a
    difference were called, the innermost first. *)
Theorem Eval_spec c old new :
  lookups_work →
  failure (Eval c old new) = None ∧ changed (Eval c old new) = differs c old new ∧
  about (Eval c old new) = root_of c ∧
  called (Eval c old new) = if differs c old new then way_down c old new else [].
Proof.
  intros Hw. revert old new. induction c as [r ps u IH] using path_tree_ind. intros old new.
  cbn [Eval differs way_down]. set (root := root_of (mkPath r ps u)).
  destruct (lookup old root) as [oldRoot| |e] eqn:Ho; [| |by apply Hw in Ho].
  2:{ destruct (lookup new root) as [newRoot| |e] eqn:Hn; [by split_and!|by split_and!|by apply Hw in Hn]. }
  destruct (lookup new root) as [newRoot| |e] eqn:Hn; [|by split_and!|by apply Hw in Hn].
  destruct ps as [|p0 ps0]; [destruct (DeepEqual oldRoot newRoot); by split_and!|].
  apply eval_each_spec. eapply Forall_impl; [exact IH|]. intros c Hc. apply Hc.
Qed.
End paths.

(** ** Metadata *)

Section metadata.
Context {V : Type}.
(** Reading and writing the JSON of an object; a value as an object. *)
Variable Unmarshal : string → result string (gmap string V).
Variable Marshal : gmap string V → result string string.
Variable as_object : V → option (gmap string V).
Variable of_object : gmap string V → V.

Definition server_keys : list string := ["creationTimestamp"; "uid"; "selfLink"; "resourceVersion"].

Definition without_server_keys (o : gmap string V) : gmap string V :=
  foldr (λ k o, delete k o) o server_keys.

(** Metadata that is no object makes the type assertion panic. *)
Definition deleteMetadata (obj : string) : outcome (result string string) :=
  match Unmarshal obj with
  | Err e => Ret (Err ("could not unmarshal byte sequence: " +:+ e))
  | Ok objectMap =>
      match objectMap !! "metadata" with
      | None => Ret (Marshal objectMap)
      | Some m =>
          match as_object m with
          | None => Panic
          | Some o => Ret (Marshal (<["metadata" := of_object (without_server_keys o)]> objectMap))
          end
      end
  end.

Definition IgnoreMetadata (current modified : string) : outcome (result string (string * string)) :=
  current ← deleteMetadata current;
  match current with
  | Err e => Ret (Err ("could not delete status field from current byte sequence: " +:+ e))
  | Ok current =>
      modified ← deleteMetadata modified;
      Ret match modified with
          | Err e => Err ("could not delete status field from modified byte sequence: " +:+ e)
          | Ok modified => Ok (current, modified)
          end
  end.

Lemma without_server_keys_lookup o k :
  without_server_keys o !! k = if bool_decide (k ∈ server_keys) then None else o !! k.
Proof.
  unfold without_server_keys. induction server_keys as [|k0 l IH]; [done|]. cbn [foldr].
  destruct (decide (k = k0)) as [->|Hne].
  - rewrite lookup_delete_eq. by rewrite bool_decide_true by left.
  - rewrite lookup_delete_ne, IH by done. by rewrite (bool_decide_ext (k ∈ k0 :: l) (k ∈ l))
      by (rewrite elem_of_cons; naive_solver).
Qed.

(** What two objects are compared without: two that differ in nothing but what the server
    writes are the same to the comparison. *)
Theorem deleteMetadata_same obj obj' m m' o o' :
  Unmarshal obj = Ok m → Unmarshal obj' = Ok m' → m !! "metadata" = Some o → m' !! "metadata" = Some o' →
  (∀ k, k ≠ "metadata" → m !! k = m' !! k) →
  match as_object o, as_object o' with
  | Some p, Some p' => (∀ k, k ∉ server_keys → p !! k = p' !! k) → deleteMetadata obj = deleteMetadata obj'
  | None, _ => deleteMetadata obj = Panic
  | _, None => deleteMetadata obj' = Panic
  end.
Proof.
  intros Hm Hm' Ho Ho' Hrest. unfold deleteMetadata. rewrite Hm, Hm', Ho, Ho'.
  destruct (as_object o) as [p|]; [|done]. destruct (as_object o') as [p'|]; [|done]. intros Hk.
  assert (Hp : without_server_keys p = without_server_keys p').
  { apply map_eq. intros k. rewrite !without_server_keys_lookup. case_bool_decide; [done|by apply Hk]. }
  rewrite Hp. do 2 f_equal. apply map_eq. intros k. destruct (decide (k = "metadata")) as [->|Hne].
  - by rewrite !lookup_insert_eq.
  - rewrite !lookup_insert_ne by done. by apply Hrest.
Qed.
End metadata.

(** ** Examples *)

(** Objects of two fields. *)
Definition toy_lookup (j : string * string) (path : string) : result string (string * string) :=
  if path == "$" then Ok j
  else if path == "$.a" then Ok (j.1, "") else if path == "$.b" then Ok (j.2, "")
  else Err ("key error: " +:+ path +:+ " not found in object").
Definition toy_equal (a b : string * string) : bool := a == b.
Definition toy_paths : CheckUpdatePath :=
  mkPath "" [mkPath "$.a" [] (Some "a"); mkPath "$.c" [] (Some "c"); mkPath "$.b" [] (Some "b")] (Some "all").

Lemma toy_lookups_work : lookups_work toy_lookup.
Proof.
  intros j path e. unfold lookup, toy_lookup.
  destruct (path == "$"); [done|]. destruct (path == "$.a"); [done|]. destruct (path == "$.b"); [done|].
  assert (Hc : ∀ p s t, string_contains s t = true → string_contains s (p +:+ t) = true).
  { clear. induction p as [|x p IH]; intros s t Ht; [done|]. rewrite string_cons_app. cbn.
    rewrite IH by done. apply orb_true_r. }
  rewrite Hc; [done|]. apply Hc. reflexivity.
Qed.

Lemma Eval_spec_witness :
  Eval toy_lookup toy_equal toy_paths ("1", "2") ("1", "3") = mkEvaluated true "$" None ["b"; "all"] ∧
  changed (Eval toy_lookup toy_equal toy_paths ("1", "2") ("1", "2")) =
    differs toy_lookup toy_equal toy_paths ("1", "2") ("1", "2").
Proof.
  split; [vm_compute; reflexivity|].
  exact (proj1 (proj2 (Eval_spec toy_lookup toy_equal toy_paths ("1", "2") ("1", "2") toy_lookups_work))).
Defined.
