(* ===== verification/AirgapMaintenance.v ===== *)
(** * Keeping the file service

    The model of what is around the store of the file service: the handlers that delete
    and clean up and the download over HTTP ([airgap/v2/internal/server/fileserver.go]),
    the job that cleans up ([airgap/v2/pkg/scheduler/scheduler.go]), the opening of the
    database and the choice of a leader ([airgap/v2/pkg/dqlite/setup_linux.go]) and the
    migration of the tables ([airgap/v2/pkg/database/migrate.go]). The cluster, the
    operating system and the migrator are interfaces. *)

From S2P Require Import Prelude GoTime Strconv FileServer FileStore.
Local Open Scope go_scope.

(** ** Deleting and cleaning up *)

(** What a handler refuses a request with. *)
Inductive HandlerError := EDeleteFailed (id : string) (e : StoreError) | ECleanFailed (e : StoreError).

Section handlers.
Context {DB : Type} `{!Gorm DB} `{!ErrorRetry}.
(** [http.DetectContentType]. *)
Variable DetectContentType : bytes → string.

Definition DeleteFile (id : string) (permanent : bool) (s : DB) : DB * result HandlerError string :=
  match Delete id permanent s with
  | (s, Some err) => (s, Err (EDeleteFailed id err))
  | (s, None) => (s, Ok id)
  end.

(** The number of files is answered as 32 bits. *)
Definition CleanTombstonesHandler (now : GoTime) (cleanupAfter : Z) (s : DB) : DB * result HandlerError Z :=
  match CleanTombstones now cleanupAfter s with
  | (s, Err err) => (s, Err (ECleanFailed err))
  | (s, Ok rowsAffects) => (s, Ok (wrap_int32 rowsAffects))
  end.

Record HTTPAnswer := mkHTTPAnswer { HStatus : Z; HHeaders : gmap string string; HContent : bytes }.

(** [http.Error]: the text and a new line. *)
Definition http_error (status : Z) (text : string) : HTTPAnswer :=
  mkHTTPAnswer status
    {[ "Content-Type" := "text/plain; charset=utf-8"; "X-Content-Type-Options" := "nosniff" ]}
    (String.list_byte_of_string text ++ [Byte.x0a]).

(** The store answers a file or an error, so nothing is ever not found. *)
Definition httpDownloadFile (pathParams : gmap string string) (s : DB) : HTTPAnswer :=
  match pathParams !! "id" with
  | None => http_error 400 "file id is not provided"
  | Some id =>
      match Download id s with
      | Err err => http_error 500 (store_text err)
      | Ok data =>
          mkHTTPAnswer 200
            (<["Digest" := "sha-256=" +:+ CChecksum (SFile data)]>
               {[ "Content-Type" := DetectContentType (Content (SFile data)) ]})
            (Content (SFile data))
      end
  end.

(** ** The job *)

(** Whether this node leads, with an error; a migration. *)
Variable IsLeader : DB → bool * option string.
Variable TryMigrate : DB → DB * option string.

(** The state is whether the migration was tried: it is tried once. *)
Definition job (now : GoTime) (cleanupAfter : Z) (migrated : bool) (s : DB)
    : (bool * DB) * result StoreError Z :=
  if negb (IsLeader s).1 then ((migrated, s), Ok 0%Z)
  else
    let s := if migrated then s else (TryMigrate s).1 in
    match CleanTombstones now cleanupAfter s with
    | (s, Err err) => ((true, s), Err err)
    | (s, Ok count) => ((true, s), Ok count)
    end.
End handlers.

(** ** The leader *)

Section leader.
Context {W : Type}.
(** The client of the cluster, asking it for the leader, the address of this node. *)
Variable app_Leader : W → W * option string.
Variable cli_Leader : W → W * result string (option string).
Variable Address : string.

(** The leader is asked for until there is one. *)
Fixpoint ask_leader (fuel : nat) (w : W) : W * option (result string string) :=
  match fuel with
  | O => (w, None)
  | S fuel =>
      match cli_Leader w with
      | (w, Err e) => (w, Some (Err e))
      | (w, Ok (Some leader)) => (w, Some (Ok leader))
      | (w, Ok None) => ask_leader fuel w
      end
  end.

Definition NodeIsLeader (fuel : nat) (w : W) : W * option (bool * option string) :=
  match app_Leader w with
  | (w, Some err) => (w, Some (false, Some err))
  | (w, None) =>
      match ask_leader fuel w with
      | (w, None) => (w, None)
      | (w, Some (Err err)) => (w, Some (false, Some err))
      | (w, Some (Ok leader)) => (w, Some (leader == Address, None))
      end
  end.

(** The leader is found as soon as there is one: when the first answer that is not
    nobody comes after [n] others, more than [n] turns of the loop end. *)
Theorem ask_leader_ends n w w' r (after : nat → W) :
  after 0 = w → (∀ i, i < n → cli_Leader (after i) = (after (S i), Ok None)) →
  cli_Leader (after n) = (w', r) → r ≠ Ok None →
  ∀ fuel, n < fuel →
    ask_leader fuel w = (w', Some match r with Ok (Some l) => Ok l | Ok None => Err "" | Err e => Err e end).
Proof.
  revert w after; induction n as [|n IH]; intros w after H0 Hno Hlast Hr fuel Hf;
    (destruct fuel as [|fuel]; [lia|]); cbn [ask_leader].
  - rewrite H0 in Hlast. rewrite Hlast. by destruct r as [[l|]|].
  - rewrite <- H0, Hno by lia. apply (IH _ (λ i, after (S i))); [done| |done|done|lia].
    intros i Hi. apply Hno. lia.
Qed.
End leader.

(** ** Opening the database *)

Record DatabaseConfig := mkDatabaseConfig {
  DName : string; DDir : string; DUrl : string; CACert : string; TLSCert : string; TLSKey : string
}.

(** The characters that are replaced in a path. *)
Definition windows_chars : list Ascii.ascii := Eval cbv in
  Ascii.ascii_of_nat <$> [92; 63; 37; 42; 58; 124; 34; 60; 62].

Fixpoint sanitize (s : string) : string :=
  match s with
  | EmptyString => EmptyString
  | String a s => String (if bool_decide (a ∈ windows_chars) then dash else a) (sanitize s)
  end.

Section opening.
Context {W TLS Conn : Type}.
(** [filepath.Join]; the operating system; the certificates; the cluster: a node that is
    ready, and a connection to its database, which answers. *)
Variable filepath_Join : string → string → string.
Variable Exists : string → W → bool.
Variable Rename : string → string → W → W * option string.
Variable MkdirAll : string → W → W * option string.
Variable LoadTLS : DatabaseConfig → result string TLS.
Variable app_New : string → string → option TLS → W → W * option string.
Variable app_Ready : W → W * option string.
Variable app_Open : string → W → W * result string Conn.
Variable Ping : Conn → W → option string.

(** The directory, and the connection when there is one. *)
Record Opened := mkOpened { ODir : string; dqliteDB : option Conn }.

Definition database_dir (dc : DatabaseConfig) : string :=
  filepath_Join (sanitize (DDir dc)) (sanitize (DName dc)).

Definition uses_tls (dc : DatabaseConfig) : bool :=
  (TLSCert dc != "") && (TLSKey dc != "") && (CACert dc != "").

(** What follows once the directory is where it should be. *)
Definition open_dqlite (dc : DatabaseConfig) (dir : string) (w : W) : W * (Opened * option string) :=
  match MkdirAll dir w with
  | (w, Some err) => (w, (mkOpened dir None, Some ("can't create " +:+ dir +:+ ": " +:+ err)))
  | (w, None) =>
      match (if uses_tls dc then tls ← LoadTLS dc; Ok (Some tls) else Ok None) with
      | Err err => (w, (mkOpened dir None, Some err))
      | Ok tls =>
          match app_New dir (DUrl dc) tls w with
          | (w, Some err) => (w, (mkOpened dir None, Some err))
          | (w, None) =>
              match app_Ready w with
              | (w, Some err) => (w, (mkOpened dir None, Some err))
              | (w, None) =>
                  match app_Open (DName dc) w with
                  | (w, Err err) => (w, (mkOpened dir None, Some err))
                  | (w, Ok conn) => (w, (mkOpened dir (Some conn), Ping conn w))
                  end
              end
          end
      end
  end.

(** A rename that fails wraps the error of the call before it, which there was none of:
    the result is no error. *)
Definition initDqlite (dc : DatabaseConfig) (w : W) : W * (Opened * option string) :=
  let oldPath := filepath_Join (DDir dc) (DUrl dc) in
  let dir := database_dir dc in
  if Exists oldPath w then
    match Rename oldPath dir w with
    | (w, Some _) => (w, (mkOpened dir None, None))
    | (w, None) => open_dqlite dc dir w
    end
  else open_dqlite dc dir w.

(** Opening a database that ends without an error gives a connection that answers, but for
    one case: the old directory could not be moved. Then nothing was opened and nobody is
    told. *)
Theorem initDqlite_spec dc w w' o :
  initDqlite dc w = (w', (o, None)) →
  ODir o = database_dir dc ∧
  ((∃ conn, dqliteDB o = Some conn ∧ Ping conn w' = None) ∨
   (dqliteDB o = None ∧ Exists (filepath_Join (DDir dc) (DUrl dc)) w = true ∧
    ∃ e, Rename (filepath_Join (DDir dc) (DUrl dc)) (database_dir dc) w = (w', Some e))).
Proof.
  unfold initDqlite. set (old := filepath_Join (DDir dc) (DUrl dc)).
  assert (Hopen : ∀ w0, open_dqlite dc (database_dir dc) w0 = (w', (o, None)) →
    ODir o = database_dir dc ∧ ∃ conn, dqliteDB o = Some conn ∧ Ping conn w' = None).
  { intros w0. unfold open_dqlite. destruct (MkdirAll _ w0) as [w1 [e|]]; [done|].
    destruct (if uses_tls dc then _ else _) as [tls|e]; [|done].
    destruct (app_New _ _ _ w1) as [w2 [e|]]; [done|]. destruct (app_Ready w2) as [w3 [e|]]; [done|].
    destruct (app_Open _ w3) as [w4 [conn|e]]; [|done]. intros [= <- <- Hp]. split; [done|]. by exists conn. }
  destruct (Exists old w).
  - destruct (Rename old (database_dir dc) w) as [w1 [e|]].
    + intros [= <- <-]. split; [done|]. right. split_and!; [done|done|by exists e].
    + intros [Hd Hc]%Hopen. auto.
  - intros [Hd Hc]%Hopen. auto.
Qed.
End opening.

(** ** Migrating the tables *)

(** A file of the old tables, with the time it was deleted at, if it was. *)
Record V1File := mkV1File {
  ProvidedName : string; V1Content : bytes; V1Metadata : list (string * string); V1DeletedAt : Z
}.

(** The calls a migration makes. [find_in_batches] runs a function on the files of the old
    tables, those that were deleted included, at most so many at a time; the function is
    one that ends without an error. *)
Class MigrationDB (DB : Type) := {
  auto_migrate : list string → DB → DB * option string;
  drop_table : string → DB → DB * option string;
  find_in_batches : nat → (list V1File → DB → DB) → DB → DB * option string;
  create_files : list StoredFile → DB → DB * option string;
  new_uuid : DB → DB * string
}.

(** A sequence that ends at the first error. *)
Fixpoint in_turn {DB} (l : list (DB → DB * option string)) (s : DB) : DB * option string :=
  match l with
  | [] => (s, None)
  | f :: l => match f s with (s, Some e) => (s, Some e) | (s, None) => in_turn l s end
  end.

Record Migration {DB : Type} := mkMigration {
  MigrationID : string; Migrate : DB → DB * option string; Rollback : option (DB → DB * option string)
}.
Arguments Migration DB : clear implicits.
Arguments mkMigration {DB} _ _ _.

Section migrations.
Context {DB : Type} `{!MigrationDB DB}.

Definition v1_tables : list string := ["File"; "FileMetadata"; "Metadata"].
Definition v2_tables : list string := ["StoredFileContent"; "StoredFileMetadata"; "StoredFile"].

Definition migrate_file (uniqueID : string) (file : V1File) : StoredFile :=
  mkStoredFile 0 (ProvidedName file) "redhat-marketplace" ("migrate-202110160004-" +:+ uniqueID)
    (mkStoredFileContent "" 0 "application/gzip" (V1Content file))
    ((λ d, mkStoredFileMetadata d.1 d.2) <$> V1Metadata file) None.

Definition batchLimit : nat := 10.

(** The function of a batch. It looks at an error that was there before the batches, of
    which there is none, and not at its own. *)
Definition migrate_batch (oldFiles : list V1File) (s : DB) : DB :=
  let '(s, uniqueID) := new_uuid s in
  match migrate_file uniqueID <$> oldFiles with
  | [] => s
  | newFiles => (create_files newFiles s).1
  end.

Definition copy_files (s : DB) : DB * option string := find_in_batches batchLimit migrate_batch s.

Definition migrations : list (Migration DB) :=
  [mkMigration "202109010000" (auto_migrate v1_tables)
     (Some (in_turn [drop_table "files"; drop_table "file_metadatas"; drop_table "metadatas"]));
   mkMigration "202110160004" (in_turn [auto_migrate v2_tables; copy_files])
     (Some (in_turn [drop_table "stored_files"; drop_table "stored_file_metadata";
                     drop_table "stored_file_contents"]));
   mkMigration "20211110000"
     (in_turn [drop_table "files"; drop_table "metadata"; drop_table "file_metadata";
               drop_table "file_contents"; auto_migrate v2_tables]) None;
   mkMigration "20211120000" (auto_migrate v2_tables) None].

(** [gormigrate]: running migrations, given those that are done. *)
Variable gormigrate : list (Migration DB) → list string → DB → (list string * DB) * option string.

Definition MigrateAll (done : list string) (s : DB) : (list string * DB) * option string :=
  match gormigrate migrations done s with
  | ((done, s), Some e) => ((done, s), Some e)
  | ((done, s), None) => let '(s, e) := auto_migrate v2_tables s in ((done, s), e)
  end.
End migrations.

(** What the calls do: [old_files] and [new_files] are the rows. *)
Class MigrationLaws (DB : Type) `{!MigrationDB DB} := {
  old_files : DB → list V1File;
  new_files : DB → list StoredFile;
  auto_migrate_law tables s : new_files (auto_migrate tables s).1 = new_files s ∧
    old_files (auto_migrate tables s).1 = old_files s;
  find_in_batches_law n f s s' :
    (∀ l s, old_files (f l s) = old_files s) → find_in_batches n f s = (s', None) →
    ∃ batches, mjoin batches = old_files s ∧ s' = foldl (λ s l, f l s) s batches;
  create_files_law fs s :
    old_files (create_files fs s).1 = old_files s ∧
    new_files (create_files fs s).1 =
      match (create_files fs s).2 with None => new_files s ++ fs | Some _ => new_files s end;
  new_uuid_law s : old_files (new_uuid s).1 = old_files s ∧ new_files (new_uuid s).1 = new_files s
}.

(** The new file has the name, the content and the metadata of the old one, and is not
    deleted. *)
Definition migrated (o : V1File) (n : StoredFile) : Prop :=
  SName n = ProvidedName o ∧ Content (SFile n) = V1Content o ∧
  (λ m, (MKey m, MValue m)) <$> SMetadata n = V1Metadata o ∧
  SSource n = "redhat-marketplace" ∧ SDeletedAt n = None.

Section migration_lemmas.
Context {DB : Type} `{!MigrationDB DB, !MigrationLaws DB}.

Lemma migrate_file_migrated id o : migrated o (migrate_file id o).
Proof.
  unfold migrated, migrate_file. cbn. split_and!; try done. rewrite <- list_fmap_compose.
  rewrite <- (list_fmap_id (V1Metadata o)) at 2. apply list_fmap_ext. by intros i [k v] _.
Qed.

(** One batch: its files, when they can be created, or none. *)
Lemma migrate_batch_spec l s :
  ∃ added, new_files (migrate_batch l s) = new_files s ++ added ∧
    (added = [] ∨ Forall2 migrated l added) ∧
    ((∀ fs s, (create_files fs s).2 = None) → Forall2 migrated l added) ∧
    ((∀ fs s, (create_files fs s).2 ≠ None) → added = []).
Proof.
  unfold migrate_batch. pose proof (new_uuid_law s) as [_ Hn]. destruct (new_uuid s) as [s1 id]. cbn [fst] in Hn.
  assert (Hm : Forall2 migrated l (migrate_file id <$> l)).
  { apply Forall2_fmap_r, Forall_Forall2_diag, Forall_true. intros o. apply migrate_file_migrated. }
  destruct (migrate_file id <$> l) as [|f fs] eqn:Hfs.
  - exists []. rewrite app_nil_r. split_and!; auto.
  - pose proof (create_files_law (f :: fs) s1) as [_ Hc]. rewrite Hn in Hc.
    destruct (create_files (f :: fs) s1) as [s2 [e|]] eqn:Hcr; cbn [fst snd] in Hc |- *; rewrite Hc.
    + exists []. rewrite app_nil_r. split_and!; auto. intros Hok. specialize (Hok (f :: fs) s1). by rewrite Hcr in Hok.
    + exists (f :: fs). split_and!; auto. intros Hno. specialize (Hno (f :: fs) s1). by rewrite Hcr in Hno.
Qed.

Lemma migrate_batch_old l s : old_files (migrate_batch l s) = old_files s.
Proof.
  unfold migrate_batch. pose proof (new_uuid_law s) as [Ho _]. destruct (new_uuid s) as [s1 id]. cbn [fst] in Ho.
  destruct (migrate_file id <$> l) as [|f fs]; [done|]. by rewrite (proj1 (create_files_law _ _)).
Qed.

Lemma migrate_batches_spec batches s :
  ∃ added, new_files (foldl (λ s l, migrate_batch l s) s batches) = new_files s ++ added ∧
    ((∀ fs s, (create_files fs s).2 = None) → Forall2 migrated (mjoin batches) added) ∧
    ((∀ fs s, (create_files fs s).2 ≠ None) → added = []).
Proof.
  revert s; induction batches as [|l batches IH]; intros s; cbn [foldl].
  { exists []. rewrite app_nil_r. by split_and!. }
  destruct (IH (migrate_batch l s)) as (a2 & H2 & Hok2 & Hno2).
  destruct (migrate_batch_spec l s) as (a1 & H1 & _ & Hok1 & Hno1).
  exists (a1 ++ a2). rewrite H2, H1, app_assoc. split; [done|]. split.
  - intros Hok. cbn. apply Forall2_app; auto.
  - intros Hno. by rewrite Hno1, Hno2.
Qed.
End migration_lemmas.

(** Copying the files of the old tables, when it ends without an error. When the new ones can be created, each old file
    becomes one new file with its name, content and metadata, in batches of ten, those
    that had been deleted included, which are files again. When they cannot, nothing is
    copied all the same. *)
Theorem copy_files_spec {DB} `{!MigrationDB DB, !MigrationLaws DB} (s s' : DB) :
  copy_files s = (s', None) →
  ∃ added, new_files s' = new_files s ++ added ∧
    ((∀ fs s, (create_files fs s).2 = None) → Forall2 migrated (old_files s) added) ∧
    ((∀ fs s, (create_files fs s).2 ≠ None) → added = []).
Proof.
  intros (batches & <- & ->)%find_in_batches_law; [|exact migrate_batch_old]. apply migrate_batches_spec.
Qed.

(** ** Tables in memory *)

Record OldAndNew := mkOldAndNew { o_old : list V1File; o_new : list StoredFile; o_ids : Z }.

Fixpoint batches_of (n fuel : nat) (l : list V1File) : list (list V1File) :=
  match fuel, l with
  | S fuel, _ :: _ => match n with O => [l] | _ => take n l :: batches_of n fuel (drop n l) end
  | _, _ => []
  end.

Lemma batches_of_join n fuel l : length l ≤ fuel → mjoin (batches_of n fuel l) = l.
Proof.
  revert l; induction fuel as [|fuel IH]; intros [|o l] Hf; try done; [cbn in Hf; lia|].
  cbn [batches_of]. destruct n as [|n]; [exact (app_nil_r (o :: l))|].
  change (take (S n) (o :: l) ++ mjoin (batches_of (S n) fuel (drop (S n) (o :: l))) = o :: l).
  rewrite IH; [apply take_drop|]. rewrite length_drop. cbn in *. lia.
Qed.

(** Migrations one after the other, marked when they are done. *)
Fixpoint mark_each {DB} (l : list (Migration DB)) (done : list string) (s : DB)
    : (list string * DB) * option string :=
  match l with
  | [] => ((done, s), None)
  | m :: l =>
      if bool_decide (MigrationID m ∈ done) then mark_each l done s
      else match Migrate m s with
           | (s, Some e) => ((done, s), Some e)
           | (s, None) => mark_each l (done ++ [MigrationID m]) s
           end
  end.

Section memory.
(** Whether new files can be created. *)
Variable creates : bool.

#[local] Instance memory_db : MigrationDB OldAndNew := {
  auto_migrate _ s := (s, None);
  drop_table name s := (if name == "files" then mkOldAndNew [] (o_new s) (o_ids s) else s, None);
  find_in_batches n f s := (foldl (λ s l, f l s) s (batches_of n (length (o_old s)) (o_old s)), None);
  create_files fs s :=
    if creates then (mkOldAndNew (o_old s) (o_new s ++ fs) (o_ids s), None) else (s, Some "disk full");
  new_uuid s := (mkOldAndNew (o_old s) (o_new s) (o_ids s + 1), Itoa (o_ids s))
}.

#[local, refine] Instance memory_laws : MigrationLaws OldAndNew := {| old_files := o_old; new_files := o_new |}.
Proof.
  - done.
  - intros n f s s' _ [= <-]. exists (batches_of n (length (o_old s)) (o_old s)).
    split; [by apply batches_of_join|done].
  - intros fs s. cbn. by destruct creates.
  - done.
Defined.
End memory.

Definition old_tables : OldAndNew :=
  mkOldAndNew ((λ i, mkV1File (Itoa (Z.of_nat i)) [] [("k", "v")] 0) <$> seq 1 12) [] 0.

Example twelve_files_kept :
  let '((done, s), e) := MigrateAll (MigrationDB0 := memory_db true) mark_each ["202109010000"] old_tables in
  e = None ∧ length (o_new s) = 12 ∧ length (o_old s) = 0 ∧
  SSourceType <$> take 1 (drop 10 (o_new s)) = ["migrate-202110160004-1"].
Proof. vm_compute. repeat split. Qed.

(** Files that could not be copied are gone after the migration, which ends well. *)
Example twelve_files_lost :
  let '((done, s), e) := MigrateAll (MigrationDB0 := memory_db false) mark_each ["202109010000"] old_tables in
  e = None ∧ o_new s = [] ∧ o_old s = [].
Proof. vm_compute. repeat split. Qed.
