(* ===== verification/Bundle.v ===== *)
(** * The archive of a report

    The model of [reporter/v2/pkg/reporter/bundle.go] and of the names it is given in
    [report_task.go]: what the reporter uploads is the compressed archive of the
    directory a report was written to. The disk is that of EventReporter.v, whose walk
    the reporter shares word for word. *)

From S2P Require Import Prelude GoTime FileServer Writer DataReporter EventReporter.
Local Open Scope go_scope.

(** The archive is named below the directory and above it again. *)
Definition bundle_name (dirpath reportID : string) : string :=
  dirpath +:+ "/../upload-" +:+ reportID +:+ ".tar.gz".

Section bundle.
Context {W : Type} `{!FileSystem W, !ArchiveDisk W}.
(** The file the operating system finds under a name. *)
Variable resolve : string → string.

(** The archive and the compressor are closed when the function returns; their errors are
    dropped. *)
Definition Tar (src dest : string) (w : W) : W * option TarError :=
  match Stat src w with
  | Some e => (w, Some (TStat e))
  | None =>
      let '((w, entries), err) := tar_walk src dest (Walk src w) [] w in
      let '(w, _) := TarWrite dest TarEnd w in
      let '(w, _) := PutWriter dest entries w in
      (w, err)
  end.

Definition TargzFolder (srcFolder destFileName : string) (w : W) : W * option TarError :=
  let dest := resolve destFileName in
  match CreateFile dest w with
  | (w, Some e) => (w, Some (TCreate e))
  | (w, None) =>
      let '(w, err) := Tar srcFolder dest w in
      let '(w, _) := CloseFile dest w in
      (w, err)
  end.

(** An archive that was made without an error holds the files below the directory, each
    under its name there and once, provided that what was left of it could be written
    out. *)
Theorem TargzFolder_spec srcFolder reportID w w' :
  let dest := resolve (bundle_name srcFolder reportID) in
  (∀ es w, (PutWriter dest es w).2 = true) → (∀ rest, dest ≠ srcFolder +:+ "/" +:+ rest) →
  TargzFolder srcFolder (bundle_name srcFolder reportID) w = (w', None) →
  ∃ l, NoDup l ∧
    (∀ f, f ∈ l ↔ is_Some (files w !! f) ∧ ∃ rest, f = srcFolder +:+ "/" +:+ rest) ∧
    files w' !! dest = Some (tar_gz (entries_of srcFolder (files w) l)).
Proof.
  intros dest Hflush Hdest. unfold TargzFolder. fold dest.
  destruct (CreateFile dest w) as [w1 [e|]] eqn:Hc; [done|]. unfold Tar.
  destruct (Stat srcFolder w1); [by destruct (CloseFile dest w1)|].
  destruct (tar_walk srcFolder dest (Walk srcFolder w1) [] w1) as [[w2 es] err] eqn:Hwalk.
  destruct (TarWrite dest TarEnd w2) as [w3 twerr]. pose proof (Hflush es w3) as Hf.
  destruct (PutWriter dest es w3) as [w4 b] eqn:Hput. cbn [snd] in Hf. subst b.
  pose proof (close_law dest w4) as Hcl. destruct (CloseFile dest w4) as [w5 derr]. cbn [fst] in Hcl.
  intros [= <- ->]. destruct (archived_files _ _ _ _ _ _ Hdest Hc Hwalk) as (l & Hnd & Hl & ->).
  exists l. split_and!; [done|done|]. rewrite Hcl. by apply put_writer_law in Hput.
Qed.
End bundle.

(** ** Examples *)

(** A directory below [/tmp], with the one case of two dots. *)
Definition toy_resolve (s : string) : string :=
  if s == "/tmp/r/../upload-1.tar.gz" then "/tmp/upload-1.tar.gz" else s.

Definition toy_folder : ToyDisk :=
  mkToyDisk {[ "/tmp/r/metadata.json" := "{}"; "/tmp/r/1.json" := "[]"; "/tmp/q" := "" ]} 0.

Definition toy_bundle (intact : bool) : ToyDisk * option TarError :=
  TargzFolder (FileSystem0 := toy_disk) (ArchiveDisk0 := toy_archive intact) toy_resolve "/tmp/r" (bundle_name "/tmp/r" "1") toy_folder.

Example bundle_of_folder :
  (toy_bundle true).2 = None ∧
  toy_files (toy_bundle true).1 !! "/tmp/upload-1.tar.gz" = Some "metadata.json={};1.json=[];".
Proof. vm_compute. split; reflexivity. Qed.

(** A full disk, met when the archive is closed: there is no error, and what is uploaded is
    a part. *)
Example bundle_cut :
  (toy_bundle false).2 = None ∧
  toy_files (toy_bundle false).1 !! "/tmp/upload-1.tar.gz" = Some "a part".
Proof. vm_compute. split; reflexivity. Qed.
