(* ===== verification/ReporterCommand.v ===== *)
(** * The commands of the reporter

    The model of the commands [reconcile] and [report]
    ([reporter/v2/cmd/reporter/reconciler/reconcile.go],
    [reporter/v2/cmd/reporter/report/report.go]): their flags with the defaults, the
    configuration they are made into, and what they run with it. The configuration of
    [Config] is in three parts, those that Reporter.v, ReporterSetup.v and Uploaders.v
    read. The names of TLS versions and ciphers and the client configuration are
    arguments. *)

From S2P Require Import Prelude GoTime Conditions Workloads Reports MeterDefinition MeterReport Reporter ReporterSetup PrometheusAPI Uploaders.
Local Open Scope go_scope.

(** ** Flags *)

Record Flags := mkFlags {
  f_name : string; f_namespace : string; cafile : string; tokenFile : string;
  localFilePath : string; deployedNamespace : string;
  dataServiceTokenFile : string; dataServiceCertFile : string;
  prometheusService : string; prometheusNamespace : string; prometheusPort : string;
  reporterSchema : string; isDisconnected : string; uploadTargets : list string;
  f_local : bool; f_upload : bool; retry : Z; maxUploadAttempts : Z;
  minVersion : string; cipherSuites : list string
}.

Definition service_account_token : string := "/var/run/secrets/kubernetes.io/serviceaccount/token".

Definition default_ciphers : list string :=
  ["TLS_AES_128_GCM_SHA256"; "TLS_AES_256_GCM_SHA384"; "TLS_ECDHE_RSA_WITH_AES_128_GCM_SHA256";
   "TLS_ECDHE_ECDSA_WITH_AES_128_GCM_SHA256"; "TLS_ECDHE_RSA_WITH_AES_256_GCM_SHA384";
   "TLS_ECDHE_ECDSA_WITH_AES_256_GCM_SHA384"].

(** The defaults of [reconcile], two of which are of the environment. *)
Definition reconcile_flags (IS_DISCONNECTED POD_NAMESPACE : string) : Flags :=
  mkFlags "" "" "" service_account_token "." POD_NAMESPACE "" ""
    "rhm-prometheus-meterbase" "openshift-redhat-marketplace" "rbac" "v3alpha1" IS_DISCONNECTED
    ["redhat-marketplace"] false true 24 720 "VersionTLS12" default_ciphers.

(** The defaults of [report], which has no flags for Prometheus and TLS. *)
Definition report_flags : Flags :=
  mkFlags "" "" "" service_account_token "." "openshift-redhat-marketplace" "" ""
    "" "" "" "v1alpha1" "" ["redhat-marketplace"] false true 24 720 "" [].

(** [strconv.ParseBool]. *)
Definition ParseBool (s : string) : result string bool :=
  if bool_decide (s ∈ ["1"; "t"; "T"; "TRUE"; "true"; "True"]) then Ok true
  else if bool_decide (s ∈ ["0"; "f"; "F"; "FALSE"; "false"; "False"]) then Ok false
  else Err "invalid syntax".

(** ** Configurations *)

Record CommandConfig := mkCommandConfig {
  RunPart : Config; SetupPart : SetupConfig; ProvidePart : ProvideConfig;
  CMinVersion : Z; CCipherSuites : list Z
}.

(** The targets; the one of local files is told the path. *)
Fixpoint parse_targets (path : string) (names : list string) : outcome (list UploaderTarget) :=
  match names with
  | [] => Ret []
  | name :: names =>
      target ← MustParseUploaderTarget name;
      targets ← parse_targets path names;
      Ret (match target with TLocalPath _ => TLocalPath path | t => t end :: targets)
  end.

Section commands.
(** [os.TempDir]; the names of versions and ciphers; the error of the configuration of the
    client of the cluster. *)
Variable tmpDir : string.
Variable TLSVersion : string → result string Z.
Variable TLSCipherSuites : list string → result string (list Z).
Variable GetConfig : option string.

(** The literal of [Config], with its defaults. *)
Definition config_of (f : Flags) (targets : list UploaderTarget) (disconnected : bool)
    (service namespace port : string) (version : Z) (ciphers : list Z) : CommandConfig :=
  mkCommandConfig
    (SetDefaults (mkConfig None None (Some (retry f)) (Some (retry f)) (f_local f) (f_upload f) disconnected))
    (mkSetupConfig (cafile f) (tokenFile f) (deployedNamespace f) (f_local f) service namespace port
       (reporterSchema f) (retry f))
    (mkProvideConfig targets (deployedNamespace f) disconnected (dataServiceTokenFile f)
       (dataServiceCertFile f) tmpDir)
    version ciphers.

Definition reconcile_config (f : Flags) : outcome (result string CommandConfig) :=
  if f_namespace f == "" then Ret (Err "namespace not provided")
  else
    targets ← parse_targets (localFilePath f) (uploadTargets f);
    Ret match ParseBool (isDisconnected f) with
        | Err e => Err ("error converting IS_DISCONNECTED to bool: " +:+ e)
        | Ok disconnected =>
            match TLSVersion (minVersion f) with
            | Err e => Err ("TLS version invalid: " +:+ e)
            | Ok version =>
                match TLSCipherSuites (cipherSuites f) with
                | Err e => Err ("failed to convert TLS cipher suite name to ID: " +:+ e)
                | Ok ciphers =>
                    match GetConfig with
                    | Some e => Err ("couldn't get defaults: " +:+ e)
                    | None =>
                        Ok (config_of f targets disconnected (prometheusService f) (prometheusNamespace f)
                              (prometheusPort f) version ciphers)
                    end
                end
            end
        end.

(** The configuration of [report] has the zero values for the rest. *)
Definition report_config (f : Flags) : outcome (result string CommandConfig) :=
  if (f_name f == "") || (f_namespace f == "") then Ret (Err "name or namespace not provided")
  else
    targets ← parse_targets (localFilePath f) (uploadTargets f);
    Ret match GetConfig with
        | Some e => Err e
        | None => Ok (config_of f targets false "" "" "" 0 [])
        end.

(** ** The commands *)

Section running.
Context {W Broadcaster Task : Type}.
(** What a command makes and runs: [reconcile] stops the broadcaster at the end. *)
Variable NewEventBroadcaster : CommandConfig → W → W * result string Broadcaster.
Variable stopBroadcast : Broadcaster → W → W.
Variable NewReconcileTask : CommandConfig → Broadcaster → string → W → W * result string Task.
Variable NewReportTask : NamespacedName → CommandConfig → W → W * result string Task.
Variable RunTask : Task → W → outcome (W * option string).

Definition ReconcileCmd (f : Flags) (w : W) : outcome (W * option string) :=
  match reconcile_config f with
  | Panic => Panic
  | Ret (Err e) => Ret (w, Some e)
  | Ret (Ok cfg) =>
      match NewEventBroadcaster cfg w with
      | (w, Err e) => Ret (w, Some ("couldn't initialize event broadcaster: " +:+ e))
      | (w, Ok broadcaster) =>
          match NewReconcileTask cfg broadcaster (f_namespace f) w with
          | (w, Err e) => Ret (stopBroadcast broadcaster w, Some ("couldn't initialize task: " +:+ e))
          | (w, Ok task) =>
              match RunTask task w with
              | Panic => Panic
              | Ret (w, e) => Ret (stopBroadcast broadcaster w, option_map (String.append "error running task: ") e)
              end
          end
      end
  end.

(** The status the process ends with. *)
Definition ReportCmd (f : Flags) (w : W) : outcome (W * Z) :=
  match report_config f with
  | Panic => Panic
  | Ret (Err e) => Ret (w, 1%Z)
  | Ret (Ok cfg) =>
      match NewReportTask (mkNN (f_namespace f) (f_name f)) cfg w with
      | (w, Err e) => Ret (w, 1%Z)
      | (w, Ok task) =>
          match RunTask task w with
          | Panic => Panic
          | Ret (w, Some e) => Ret (w, 1%Z)
          | Ret (w, None) => Ret (w, 0%Z)
          end
      end
  end.
End running.

(** ** Properties *)

(** A name that can be asked for. *)
Definition askable (name : string) : Prop := MustParseUploaderTarget name ≠ Panic.

Lemma MustParse_name name t : MustParseUploaderTarget name = Ret t → TargetName t = name.
Proof.
  unfold MustParseUploaderTarget. intros Hp. repeat case_match; simplify_eq; go_bool; by subst.
Qed.

Lemma parse_targets_spec path names :
  match parse_targets path names with
  | Ret ts => TargetName <$> ts = names ∧ Forall askable names ∧
      Forall (λ t, ∀ p, t = TLocalPath p → p = path) ts
  | Panic => Exists (λ n, ¬ askable n) names
  end.
Proof.
  induction names as [|n names IH]; [by repeat constructor|]. cbn [parse_targets].
  destruct (MustParseUploaderTarget n) as [t|] eqn:Ht; cbn.
  2:{ left. unfold askable. rewrite Ht. auto. }
  destruct (parse_targets path names) as [ts|]; cbn; [|by right].
  destruct IH as (H1 & H2 & H3). rewrite H1. split_and!.
  - f_equal. rewrite <- (MustParse_name _ _ Ht). by destruct t.
  - constructor; [|done]. unfold askable. by rewrite Ht.
  - constructor; [|done]. by destruct t; intros p [= ->].
Qed.

(** What a run of [reconcile] is configured with. A run that is configured has a namespace,
    its targets are the ones asked for, in that order, the local ones at the path asked
    for, and its three parts agree with the flags on the rest, but for one: the maximum of
    uploads is the number of retries. *)
Theorem reconcile_config_spec f c :
  reconcile_config f = Ret (Ok c) →
  f_namespace f ≠ "" ∧ TargetName <$> UploaderTargets (ProvidePart c) = uploadTargets f ∧
  Forall (λ t, ∀ p, t = TLocalPath p → p = localFilePath f) (UploaderTargets (ProvidePart c)) ∧
  ParseBool (isDisconnected f) = Ok (IsDisconnected (RunPart c)) ∧
  PIsDisconnected (ProvidePart c) = IsDisconnected (RunPart c) ∧
  CfgPrometheusService (SetupPart c) = prometheusService f ∧
  CfgPrometheusNamespace (SetupPart c) = prometheusNamespace f ∧
  CfgPrometheusPort (SetupPart c) = prometheusPort f ∧
  CfgReporterSchema (SetupPart c) = reporterSchema f ∧
  TLSVersion (minVersion f) = Ok (CMinVersion c) ∧ TLSCipherSuites (cipherSuites f) = Ok (CCipherSuites c) ∧
  ConfigRetry (RunPart c) = Some (retry f) ∧ MaxUploadAttempts (RunPart c) = Some (retry f).
Proof.
  unfold reconcile_config. destruct (f_namespace f == "") eqn:Hns; [done|].
  pose proof (parse_targets_spec (localFilePath f) (uploadTargets f)) as Hts.
  destruct (parse_targets _ _) as [ts|]; [|done]. cbn. destruct Hts as (Hn & _ & Hp).
  destruct (ParseBool _) as [b|]; [|done]. destruct (TLSVersion _) as [v|]; [|done].
  destruct (TLSCipherSuites _) as [cs|]; [|done]. destruct GetConfig; [done|]. intros [= <-].
  apply bool_decide_eq_false in Hns. by split_and!.
Qed.

Definition with_attempts (n : Z) (f : Flags) : Flags :=
  mkFlags (f_name f) (f_namespace f) (cafile f) (tokenFile f) (localFilePath f) (deployedNamespace f)
    (dataServiceTokenFile f) (dataServiceCertFile f) (prometheusService f) (prometheusNamespace f)
    (prometheusPort f) (reporterSchema f) (isDisconnected f) (uploadTargets f) (f_local f) (f_upload f)
    (retry f) n (minVersion f) (cipherSuites f).

(** The flag for the maximum of uploads changes nothing: a report that is to be uploaded is
    given up after as many tries as the flag for retries says. *)
Theorem given_up_after_retry {LS} n f c now (r : MeterReport LS) :
  reconcile_config (with_attempts n f) = Ret (Ok c) → (retry f ≤ RetryUpload (MRStatus r))%Z →
  ∃ skip, CanRunUploadReportTask (RunPart c) now r = Ret (skip, false).
Proof.
  intros Hc Hr. apply reconcile_config_spec in Hc as (_ & _ & _ & _ & _ & _ & _ & _ & _ & _ & _ & _ & Hm).
  unfold CanRunUploadReportTask. repeat (case_match; [by eexists|]). rewrite Hm.
  cbn [with_attempts retry]. rewrite bool_decide_true by done. destruct (DataServiceStatus _) as [d|]; [destruct (_ || _)|]; cbn; eexists; reflexivity.
Qed.

(** A report made by [report] without its flag [local] finds no Prometheus: nothing
    configures the one to ask. *)
Theorem report_finds_no_prometheus {W} `{!PrometheusResources W} f c (w : W) :
  report_config f = Ret (Ok c) → f_local f = false →
  getPrometheusService (SetupPart c) w = Err "no prometheus configured".
Proof.
  unfold report_config. destruct (_ || _); [done|]. destruct (parse_targets _ _) as [ts|]; [|done]. cbn.
  destruct GetConfig; [done|]. intros [= <-] Hl. unfold getPrometheusService. cbn. by rewrite Hl.
Qed.
End commands.

(** ** Examples *)

Definition toy_version (s : string) : result string Z :=
  if s == "VersionTLS12" then Ok 771%Z else Err "unknown tls version".

Definition toy_reconcile (namespace : string) (f : Flags) : outcome (result string CommandConfig) :=
  reconcile_config "/tmp" toy_version (λ l, Ok (Z.of_nat <$> seq 1 (length l))) None
    (mkFlags "" namespace (cafile f) (tokenFile f) (localFilePath f) (deployedNamespace f)
       (dataServiceTokenFile f) (dataServiceCertFile f) (prometheusService f) (prometheusNamespace f)
       (prometheusPort f) (reporterSchema f) (isDisconnected f) (uploadTargets f) (f_local f) (f_upload f)
       (retry f) (maxUploadAttempts f) (minVersion f) (cipherSuites f)).

(** With its defaults a run gives a report up after 24 tries, not after 720. *)
Example default_attempts :
  match toy_reconcile "rhm" (reconcile_flags "false" "rhm") with
  | Ret (Ok c) => MaxUploadAttempts (RunPart c) = Some 24%Z ∧
      TargetName <$> UploaderTargets (ProvidePart c) = ["redhat-marketplace"] ∧ length (CCipherSuites c) = 6
  | _ => False
  end.
Proof. vm_compute. repeat split. Qed.

(** Without the variable of the environment nothing runs. *)
Example unset_disconnected :
  toy_reconcile "rhm" (reconcile_flags "" "rhm")
  = Ret (Err "error converting IS_DISCONNECTED to bool: invalid syntax").
Proof. vm_compute. reflexivity. Qed.
