(* ===== verification/PodMonitor.v ===== *)
(** * The pod monitor

    The model of what deletes the pods whose token checker fails: the controller
    ([v2/pkg/runnables/podmonitor.go]), and the runnable with a queue of deletions
    ([v2/pkg/managers/runnables/podmonitor.go]), whose goroutines are a step relation.
    Timers fire whenever they do. *)

From S2P Require Import Prelude GoTime Workloads MeterReport Manifests.
Local Open Scope go_scope.

(** ** Pods *)

Record ContainerStatus := mkContainerStatus { CName : string; Ready : bool; RestartCount : Z }.

Record Pod := mkPod {
  PodMeta : ObjectMeta; ContainerStatuses : list ContainerStatus; RestartPolicy : string
}.

Definition authcheck_fails (status : ContainerStatus) : bool :=
  (CName status == "authcheck") && negb (Ready status).

(** ** The controller *)

(** An event of a pod; an update has the pod before and after. *)
Inductive PodEvent := PodCreated (p : Pod) | PodUpdated (old new : Pod) | PodDeleted (p : Pod) | PodGeneric (p : Pod).

Definition pod_update (pod : Pod) : bool :=
  existsb (λ status, authcheck_fails status && (2 <? RestartCount status)%Z) (ContainerStatuses pod).

Definition event_meta (e : PodEvent) : Event :=
  match e with
  | PodCreated p => ECreate (PodMeta p)
  | PodUpdated old new => EUpdate (PodMeta old) (PodMeta new)
  | PodDeleted p => EDelete (PodMeta p)
  | PodGeneric p => EGeneric (PodMeta p)
  end.

(** What wakes the controller up: the predicate of the pods and the one of the namespace. *)
Definition watched_pod (DeployedNamespace : string) (e : PodEvent) : bool :=
  NamespacePredicate DeployedNamespace (event_meta e) &&
  match e with PodUpdated _ new => pod_update new | _ => false end.

Class PodCluster (W : Type) := {
  GetPod : NamespacedName → W → result ClientError Pod;
  DeletePod : NamespacedName → W → W * option ClientError
}.

Definition pod_key (p : Pod) : NamespacedName := mkNN (Namespace (PodMeta p)) (Name (PodMeta p)).

Section controller.
Context {W : Type} `{!PodCluster W}.

Definition Reconcile (req : NamespacedName) (w : W) : W * option ClientError :=
  match GetPod req w with
  | Err e => (w, if e == IsNotFound then None else Some e)
  | Ok pod =>
      match DeletePod (pod_key pod) w with
      | (w, Some e) => (w, if e == IsNotFound then None else Some e)
      | (w, None) => (w, None)
      end
  end.
End controller.

(** ** The queue of deletions *)

(** A pod that is waited for: its identifier and its name. *)
Record DeletePodEntry := mkEntry { EUID : string; EName : string }.

#[export] Instance DeletePodEntry_eq_dec : EqDecision DeletePodEntry.
Proof. solve_decision. Defined.

(** The pods waited for; the goroutines whose timer runs, and those that send what has
    expired; the names deleted, and the pods that were seen. *)
Record Queue := mkQueue {
  timers : list DeletePodEntry; waiting : list DeletePodEntry; sending : list DeletePodEntry;
  deleted : list string; seen : list Pod
}.

Definition entry_of (pod : Pod) : DeletePodEntry := mkEntry (UID (PodMeta pod)) (Name (PodMeta pod)).

(** The first failing checker decides. *)
Definition to_delete (pod : Pod) : bool :=
  match List.find authcheck_fails (ContainerStatuses pod) with
  | None => false
  | Some status => (RestartPolicy pod == "Never") || (2 <? RestartCount status)%Z
  end.

Definition QueueAdd (e : DeletePodEntry) (q : Queue) : Queue :=
  if existsb (λ timer, EUID timer == EUID e) (timers q) then q
  else mkQueue (timers q ++ [e]) (waiting q ++ [e]) (sending q) (deleted q) (seen q).

(** The error of the deletion is not looked at. *)
Definition QueueDelete (e : DeletePodEntry) (q : Queue) : Queue :=
  mkQueue (filter (λ oldtimer, EUID oldtimer ≠ EUID e) (timers q)) (waiting q) (sending q)
    (deleted q ++ [EName e]) (seen q).

(** An event of the watch; [None] is the one of a type that is passed over, which is also
    what a closed channel gives. *)
Definition handle_event (evt : option Pod) (q : Queue) : Queue :=
  match evt with
  | None => q
  | Some pod =>
      let q := if to_delete pod then QueueAdd (entry_of pod) q else q in
      mkQueue (timers q) (waiting q) (sending q) (deleted q) (seen q ++ [pod])
  end.

Definition empty_queue : Queue := mkQueue [] [] [] [] [].

Inductive queue_step : Queue → Queue → Prop :=
| step_event evt q : queue_step q (handle_event evt q)
| step_fire e l1 l2 q :
    waiting q = l1 ++ e :: l2 →
    queue_step q (mkQueue (timers q) (l1 ++ l2) (e :: sending q) (deleted q) (seen q))
| step_expired e l1 l2 q :
    sending q = l1 ++ e :: l2 →
    queue_step q (QueueDelete e (mkQueue (timers q) (waiting q) (l1 ++ l2) (deleted q) (seen q))).

(** ** Properties *)

(** Nobody else writes. *)
Class PodStore (W : Type) `{!PodCluster W} := {
  pods : W → gmap NamespacedName Pod;
  get_pod_law k w :
    match GetPod k w with
    | Ok p => pods w !! k = Some p ∧ pod_key p = k
    | Err IsNotFound => pods w !! k = None
    | Err _ => True
    end;
  delete_pod_law k w :
    match DeletePod k w with
    | (w', None) => pods w' = delete k (pods w)
    | (w', Some e) => pods w' = pods w ∧ (e = IsNotFound → pods w !! k = None)
    end
}.

(** A run that ends well leaves no pod of the name, and changes nothing else. The pod is
    not looked at: one that took the name in the meantime goes as well, however it is. A
    run that fails changes nothing. *)
Theorem Reconcile_deletes_pod {W} `{!PodCluster W, !PodStore W} req w w' e :
  Reconcile req w = (w', e) → pods w' = match e with None => delete req (pods w) | Some _ => pods w end.
Proof.
  unfold Reconcile. pose proof (get_pod_law req w) as Hg. destruct (GetPod req w) as [p|[]];
    [|intros [= <- <-]; cbn; try done; by rewrite delete_id ..].
  destruct Hg as [Hp Hk]. rewrite Hk. pose proof (delete_pod_law req w) as Hd.
  destruct (DeletePod req w) as [w1 [err|]]; [|by intros [= <- <-]].
  destruct Hd as [Hd Hn]. destruct err; intros [= <- <-]; cbn; try done. by rewrite Hd, delete_id by auto.
Qed.

(** Only an update to a pod of the namespace whose checker fails, after more than two
    restarts, wakes the controller up. *)
Theorem watched_pod_spec ns e :
  watched_pod ns e = true ↔
  ∃ old new s, e = PodUpdated old new ∧ Namespace (PodMeta old) = ns ∧ Namespace (PodMeta new) = ns ∧
    s ∈ ContainerStatuses new ∧ CName s = "authcheck" ∧ Ready s = false ∧ (2 < RestartCount s)%Z.
Proof.
  unfold watched_pod, pod_update, authcheck_fails. rewrite andb_true_iff. split.
  - intros [Hns He]. destruct e as [|old new| |]; try done. cbn in Hns. apply andb_true_iff in Hns as [H1 H2].
    apply existsb_exists in He as (s & Hs & [[Hc Hr]%andb_true_iff Hn]%andb_true_iff). go_bool.
    exists old, new, s. split_and!; try done; [by apply list_elem_of_In|lia].
  - intros (old & new & s & -> & <- & Hns & Hs & Hc & Hr & Hn). cbn. rewrite Hns, !bool_decide_true by done.
    split; [done|]. apply existsb_exists. exists s. split; [by apply list_elem_of_In|].
    rewrite Hc, Hr. cbn. by apply Z.ltb_lt.
Qed.

(** *** The queue *)

(** Every pod waited for has one goroutine, and no pod is waited for twice; what is waited
    for and what was deleted are pods that were seen failing. *)
Definition queue_ok (q : Queue) : Prop :=
  waiting q ++ sending q ≡ₚ timers q ∧ NoDup (EUID <$> timers q) ∧
  Forall (λ e, ∃ p, p ∈ seen q ∧ to_delete p = true ∧ entry_of p = e) (timers q) ∧
  Forall (λ n, ∃ p, p ∈ seen q ∧ to_delete p = true ∧ Name (PodMeta p) = n) (deleted q).

Lemma existsb_uid (uid : string) (l : list DeletePodEntry) :
  existsb (λ timer, EUID timer == uid) l = true ↔ uid ∈ EUID <$> l.
Proof.
  rewrite existsb_exists, list_elem_of_fmap. split.
  - intros (x & Hx%list_elem_of_In & He). go_bool. by exists x.
  - intros (x & -> & Hx%list_elem_of_In). exists x. split; [done|by apply bool_decide_eq_true].
Qed.

(** Taking out the entry of an identifier leaves the others. *)
Lemma filter_other_uids e (l rest : list DeletePodEntry) :
  l ≡ₚ e :: rest → NoDup (EUID <$> l) → filter (λ o, EUID o ≠ EUID e) l ≡ₚ rest.
Proof.
  intros Hp Hnd. rewrite Hp in Hnd |- *. apply NoDup_cons in Hnd as [Hni _].
  rewrite filter_cons_False by auto. clear Hp. induction rest as [|o rest IH]; [done|].
  apply not_elem_of_cons in Hni as [Hne Hni].
  rewrite filter_cons_True by auto. by rewrite IH.
Qed.

Lemma seen_more (P : Pod → Prop) l p :
  (∃ x, x ∈ l ∧ P x) → ∃ x, x ∈ l ++ [p] ∧ P x.
Proof. intros (x & Hx & HP). exists x. set_solver. Qed.

Lemma handle_event_ok evt q : queue_ok q → queue_ok (handle_event evt q).
Proof.
  intros (Hp & Hnd & Ht & Hd). destruct evt as [pod|]; [|done]. cbn. unfold QueueAdd.
  assert (Ht' : Forall (λ e, ∃ p, p ∈ seen q ++ [pod] ∧ to_delete p = true ∧ entry_of p = e) (timers q))
    by (eapply Forall_impl; [exact Ht|intros; by apply seen_more]).
  assert (Hd' : Forall (λ n, ∃ p, p ∈ seen q ++ [pod] ∧ to_delete p = true ∧ Name (PodMeta p) = n) (deleted q))
    by (eapply Forall_impl; [exact Hd|intros; by apply seen_more]).
  destruct (to_delete pod) eqn:Htd; [|done].
  destruct (existsb _ _) eqn:He; [done|]. apply not_true_iff_false in He. rewrite existsb_uid in He.
  unfold queue_ok. cbn. split_and!; [| | |done].
  - by rewrite <- app_assoc, (Permutation_app_comm [_]), app_assoc, Hp.
  - rewrite fmap_app. apply NoDup_app. split_and!; [done| |apply NoDup_singleton].
    intros u Hu. cbn. rewrite list_elem_of_singleton. by intros ->.
  - apply Forall_app. split; [done|]. constructor; [|done]. exists pod. set_solver.
Qed.

Lemma queue_step_ok q q' : queue_step q q' → queue_ok q → queue_ok q'.
Proof.
  intros [evt q0|e l1 l2 q0 Hw|e l1 l2 q0 Hs]; [apply handle_event_ok| |].
  - intros (Hp & Hnd & Ht & Hd). unfold queue_ok. cbn. split_and!; [|done..].
    rewrite <- Hp, Hw, <- !app_assoc. cbn. by rewrite <- (Permutation_middle l2).
  - intros (Hp & Hnd & Ht & Hd). unfold queue_ok. cbn.
    assert (Hperm : timers q0 ≡ₚ e :: (waiting q0 ++ l1 ++ l2))
      by (rewrite <- Hp, Hs, app_assoc, <- (Permutation_middle _ l2), <- app_assoc; done).
    assert (He : ∃ p, p ∈ seen q0 ∧ to_delete p = true ∧ entry_of p = e)
      by (rewrite Hperm in Ht; by inversion Ht).
    pose proof (filter_other_uids _ _ _ Hperm Hnd) as Hf. split_and!.
    + by rewrite Hf.
    + rewrite Hf. rewrite Hperm in Hnd. by apply NoDup_cons in Hnd as [_ Hnd].
    + rewrite Hf. rewrite Hperm in Ht. by inversion Ht.
    + apply Forall_app. split; [done|]. constructor; [|done]. destruct He as (p & H1 & H2 & <-). by exists p.
Qed.

(** Whatever the order of the events, of the timers and of the deletions: no pod is waited
    for twice, each has one goroutine, which can delete it, and only pods that were seen
    failing are waited for and deleted. *)
Theorem queue_reachable_ok q : rtc queue_step empty_queue q → queue_ok q.
Proof.
  assert (H0 : queue_ok empty_queue) by (split_and!; constructor).
  revert H0. generalize empty_queue. intros q0 H0. induction 1 as [|q1 q2 q3 Hs _ IH]; [done|].
  apply IH. by eapply queue_step_ok.
Qed.

(** Nothing is stuck: a pod that is waited for can be deleted in at most two steps. *)
Theorem waited_for_goes q e :
  queue_ok q → e ∈ timers q →
  ∃ q', rtc queue_step q q' ∧ e ∉ timers q' ∧ deleted q' = deleted q ++ [EName e].
Proof.
  intros (Hp & _ & _ & _) He. rewrite <- Hp, elem_of_app in He.
  assert (Hout : ∀ l, e ∉ filter (λ o, EUID o ≠ EUID e) l) by (intros l; rewrite list_elem_of_filter; tauto).
  destruct He as [(l1 & l2 & Hw)%list_elem_of_split|(l1 & l2 & Hs)%list_elem_of_split].
  - eexists. split; [eapply rtc_l; [by eapply step_fire|]; apply rtc_once;
      by apply (step_expired e [] (sending q))|]. cbn. auto.
  - eexists. split; [apply rtc_once; by eapply step_expired|]. cbn. auto.
Qed.

(** ** Examples *)

Definition toy_pod (uid : string) (restarts : Z) (policy : string) : Pod :=
  mkPod (mkMeta ("pod-" +:+ uid) "ns" uid 0 ∅ ∅ [])
    [mkContainerStatus "main" false 9; mkContainerStatus "authcheck" false restarts] policy.

Example failing_pods :
  to_delete (toy_pod "a" 3 "Always") = true ∧ to_delete (toy_pod "a" 2 "Always") = false ∧
  to_delete (toy_pod "a" 0 "Never") = true ∧
  watched_pod "ns" (PodUpdated (toy_pod "a" 2 "Always") (toy_pod "a" 3 "Always")) = true ∧
  watched_pod "ns" (PodUpdated (toy_pod "a" 0 "Never") (toy_pod "a" 0 "Never")) = false.
Proof. by vm_compute. Qed.

(** The same pod seen twice is waited for once. *)
Example seen_twice :
  let q := handle_event (Some (toy_pod "a" 3 "Always")) empty_queue in
  timers (handle_event (Some (toy_pod "a" 4 "Always")) q) = [mkEntry "a" "pod-a"] ∧
  deleted (QueueDelete (mkEntry "a" "pod-a") q) = ["pod-a"] ∧ timers (QueueDelete (mkEntry "a" "pod-a") q) = [].
Proof. by vm_compute. Qed.
