(* ===== verification/Tokens.v ===== *)
(** * Tokens of service accounts

    The model of the two clients that ask for tokens of a service account, one of which
    keeps them ([v2/pkg/prometheus/service_account_client.go],
    [v2/pkg/utils/rhmotransport/service_account_client.go]), of the client of the catalog
    server that one of them is for ([v2/pkg/utils/rhmotransport/transport.go]), and of the
    client of Thanos ([v2/pkg/prometheus/thanos_client.go]). The tests make them, and no
    program. *)

From S2P Require Import Prelude GoTime Strconv Workloads MeterReport PrometheusAPI.
Local Open Scope go_scope.

(** ** Requests *)

Record TokenRequest := mkTokenRequest { Audiences : list string; ExpirationSeconds : Z }.

Definition newTokenRequest (audience : string) (expireSeconds : Z) : TokenRequest :=
  mkTokenRequest (if audience == "" then [] else [audience]) expireSeconds.

Record Token := mkToken { AuthToken : string; ExpirationTimestamp : GoTime }.

(** The service accounts of a namespace. *)
Class ServiceAccounts (W : Type) := {
  CreateToken : string → TokenRequest → W → W * result string Token
}.

(** ** The client that keeps tokens *)

(** [None] is the map that was never made: reading it finds nothing, writing panics. *)
Record KeepingClient := mkKeepingClient { tokens : option (gmap string Token) }.

(** [NewServiceAccountClient] makes no map. *)
Definition NewServiceAccountClient : KeepingClient := mkKeepingClient None.

Definition cacheKey (targetServiceAccount audience : string) : string :=
  targetServiceAccount +:+ ":" +:+ audience.

Section keeping.
Context {W : Type} `{!ServiceAccounts W}.

Definition getToken (target audience : string) (expireSecs : Z) (c : KeepingClient) (w : W)
    : outcome (W * (KeepingClient * result string string)) :=
  match CreateToken target (newTokenRequest audience expireSecs) w with
  | (w, Err e) => Ret (w, (c, Err e))
  | (w, Ok token) =>
      match tokens c with
      | None => Panic
      | Some m => Ret (w, (mkKeepingClient (Some (<[cacheKey target audience := token]> m)), Ok (AuthToken token)))
      end
  end.

Definition GetToken (now : GoTime) (target audience : string) (expireSecs : Z) (c : KeepingClient) (w : W)
    : outcome (W * (KeepingClient * result string string)) :=
  match tokens c ≫= (.!! cacheKey target audience) with
  | None => getToken target audience expireSecs c w
  | Some token =>
      if After now (ExpirationTimestamp token) then getToken target audience expireSecs c w
      else Ret (w, (c, Ok (AuthToken token)))
  end.

(** A client as it is made gives no token: its first one is written into a map that is not
    there. *)
Theorem first_token_panics now target audience expireSecs w w' c r :
  GetToken now target audience expireSecs NewServiceAccountClient w = Ret (w', (c, r)) →
  c = NewServiceAccountClient ∧ ∃ e, r = Err e.
Proof.
  unfold GetToken, getToken. cbn. destruct (CreateToken _ _ w) as [w1 [t|e]]; [done|].
  intros [= <- <- <-]. eauto.
Qed.

(** With a map, a token is given again until it expires, without another request. *)
Theorem token_kept now now' target audience expireSecs expireSecs' m w w' c t w'' :
  GetToken now target audience expireSecs (mkKeepingClient (Some m)) w = Ret (w', (c, Ok t)) →
  ∃ token, AuthToken token = t ∧
    (After now' (ExpirationTimestamp token) = false →
     GetToken now' target audience expireSecs' c w'' = Ret (w'', (c, Ok t))).
Proof.
  unfold GetToken at 1. cbn. set (k := cacheKey target audience).
  assert (Hkept : ∀ token m', m' !! k = Some token → After now' (ExpirationTimestamp token) = false →
    GetToken now' target audience expireSecs' (mkKeepingClient (Some m')) w'' =
      Ret (w'', (mkKeepingClient (Some m'), Ok (AuthToken token)))).
  { intros token m' Hm Ha. unfold GetToken. cbn. fold k. by rewrite Hm, Ha. }
  assert (Hget : getToken target audience expireSecs (mkKeepingClient (Some m)) w = Ret (w', (c, Ok t)) →
    ∃ token, AuthToken token = t ∧ (After now' (ExpirationTimestamp token) = false →
      GetToken now' target audience expireSecs' c w'' = Ret (w'', (c, Ok t)))).
  { unfold getToken. cbn. destruct (CreateToken _ _ w) as [w1 [token|e]]; [|done]. intros [= <- <- <-].
    exists token. split; [done|]. apply Hkept. fold k. by rewrite lookup_insert_eq. }
  destruct (m !! k) as [token|] eqn:Hm; [|exact Hget]. destruct (After now _); [exact Hget|].
  intros [= <- <- <-]. exists token. split; [done|]. by apply Hkept.
Qed.
End keeping.

(** ** The client of the catalog server *)

(** The token that was got last, which nothing gives again. *)
Record AskingClient := mkAskingClient { LastToken : option Token }.

Definition ProvideServiceAccountClient : AskingClient := mkAskingClient None.

Section asking.
Context {W : Type} `{!ServiceAccounts W, !PrometheusResources W}.

Definition AskToken (target : string) (tr : TokenRequest) (c : AskingClient) (w : W)
    : W * (AskingClient * result string string) :=
  match CreateToken target tr w with
  | (w, Err e) => (w, (c, Err ("create token error " +:+ e)))
  | (w, Ok token) => (w, (mkAskingClient (Some token), Ok (AuthToken token)))
  end.

(** The branches log that there is no token, that it is expired, or nothing. *)
Definition NewServiceAccountToken (now : GoTime) (target audience : string) (expireSecs : Z)
    (c : AskingClient) (w : W) : W * (AskingClient * result string string) :=
  let tr := newTokenRequest audience expireSecs in
  match LastToken c with
  | None => AskToken target tr c w
  | Some token =>
      if After now (ExpirationTimestamp token) then AskToken target tr c w else AskToken target tr c w
  end.

(** Every call is a request, whatever was got before. *)
Theorem always_asks now target audience expireSecs c w :
  let '(w', (c', r)) := NewServiceAccountToken now target audience expireSecs c w in
  let '(w1, answer) := CreateToken target (newTokenRequest audience expireSecs) w in
  w' = w1 ∧ match answer with
            | Ok token => LastToken c' = Some token ∧ r = Ok (AuthToken token)
            | Err e => c' = c ∧ r = Err ("create token error " +:+ e)
            end.
Proof.
  assert (Hn : NewServiceAccountToken now target audience expireSecs c w =
    AskToken target (newTokenRequest audience expireSecs) c w)
    by (unfold NewServiceAccountToken; destruct (LastToken c); [by destruct (After _ _)|done]).
  rewrite Hn. unfold AskToken. by destruct (CreateToken _ _ w) as [w1 [token|e]].
Qed.

(** *** The transport *)

Record AuthValues := mkAuthValues { ServiceFound : bool; Cert : string; AuthText : string }.

Definition DeploymentConfigName : string := "rhm-meterdefinition-file-server".
Definition OPERATOR_SERVICE_ACCOUNT : string := "ibm-metrics-operator-controller-manager".
Definition FileServerAudience : string := "rhm-meterdefinition-file-server.openshift-redhat-marketplace.svc".

Definition GetCertFromConfigMap (deployedNamespace : string) (w : W) : result string string :=
  match GetConfigMap (mkNN deployedNamespace "serving-certs-ca-bundle") w with
  | Err e => Err (client_error e)
  | Ok data =>
      match data !! "service-ca.crt" with
      | Some out => Ok out
      | None => Err "Error retrieving cert from config map"
      end
  end.

Definition FindAuthOffCluster (now : GoTime) (deployedNamespace : string) (c : AskingClient) (w : W)
    : W * (AskingClient * result string AuthValues) :=
  match GetService (mkNN deployedNamespace DeploymentConfigName) w with
  | Err e => (w, (c, Err (client_error e)))
  | Ok _ =>
      match GetCertFromConfigMap deployedNamespace w with
      | Err e => (w, (c, Err e))
      | Ok cert =>
          match NewServiceAccountToken now OPERATOR_SERVICE_ACCOUNT FileServerAudience 3600 c w with
          | (w, (c, Err e)) => (w, (c, Err e))
          | (w, (c, Ok authToken)) => (w, (c, Ok (mkAuthValues true cert authToken)))
          end
      end
  end.
End asking.

Section transport.
Context {Pool : Type}.
(** The certificates of the system, with those of a text. *)
Variable SystemCertPool : result string Pool.
Variable AppendCertsFromPEM : string → Pool → option Pool.

(** A client: its certificates, the headers it adds, its timeout. *)
Record HTTPClient := mkHTTPClient { RootCAs : Pool; AddedHeaders : gmap string string; Timeout : Z }.

Definition WithBearerAuth (token : string) : gmap string string :=
  {[ "Authorization" := "Bearer " +:+ token ]}.

(** [RoundTrip]: what the headers of a request become. *)
Definition RoundTripHeaders (added req : gmap string string) : gmap string string := added ∪ req.

Definition SetTransportForKubeServiceAuth (auth : result string AuthValues) : result string HTTPClient :=
  match auth with
  | Err e => Err e
  | Ok auth =>
      if ServiceFound auth && (Cert auth != "") && (AuthText auth != "") then
        match SystemCertPool with
        | Err e => Err e
        | Ok pool =>
            match AppendCertsFromPEM (Cert auth) pool with
            | None => Err "failed to append cert to cert pool"
            | Some pool => Ok (mkHTTPClient pool (WithBearerAuth (AuthText auth)) second)
            end
        end
      else Err "could not construct http client with transport, all auth fields are not set on AuthBuilderConfig"
  end.

(** A client that could be made sends its token with every request, in the place of one
    the request has, and leaves the other headers. *)
Theorem token_sent auth client req k :
  SetTransportForKubeServiceAuth (Ok auth) = Ok client →
  RoundTripHeaders (AddedHeaders client) req !! k =
    if k == "Authorization" then Some ("Bearer " +:+ AuthText auth) else req !! k.
Proof.
  unfold SetTransportForKubeServiceAuth. destruct (_ && _); [|done]. destruct SystemCertPool; [|done].
  destruct (AppendCertsFromPEM _ _); [|done]. intros [= <-]. cbn. unfold RoundTripHeaders, WithBearerAuth.
  case_bool_decide as Hk; [subst k; by rewrite (lookup_union_Some_l _ _ _ _ (lookup_singleton_eq _ _))|].
  rewrite lookup_union_r; [done|]. by apply lookup_singleton_ne.
Qed.
End transport.

(** ** The client of Thanos *)

Section thanos.
Context {API W : Type} `{!Prometheus API W}.

(** The last port of the name [web]; without one the port is zero. *)
Definition provideThanosAPI (promService : option Service) (caCert token : string) : result string API :=
  match promService with
  | None => Err "Prometheus service not defined"
  | Some service =>
      let port := match named_port "web" (Ports service) with Some p => Port p | None => 0%Z end in
      match NewSecureClientFromCert ("https://" +:+ SvcName service +:+ "." +:+ SvcNamespace service
                                     +:+ ".svc:" +:+ Itoa port) token caCert with
      | Err e => Err e
      | Ok None => Err "client configuration is nil"
      | Ok (Some conf) => Ok conf
      end
  end.
End thanos.

(** ** Examples *)

#[local] Instance toy_accounts : ServiceAccounts nat := {
  CreateToken target tr n := (S n, Ok (mkToken (target +:+ Itoa (Z.of_nat n)) (midnight 19000)))
}.

(** The client that keeps tokens asks once, once it has a map; as it is made, it panics. *)
Example asks_once :
  GetToken (midnight 18999) "sa" "aud" 3600 NewServiceAccountClient 0 = Panic ∧
  match GetToken (midnight 18999) "sa" "aud" 3600 (mkKeepingClient (Some ∅)) 0 with
  | Ret (w, (c, r)) => r = Ok "sa0" ∧ w = 1 ∧
      GetToken (midnight 18999) "sa" "aud" 3600 c w = Ret (w, (c, r)) ∧
      match GetToken (midnight 19001) "sa" "aud" 3600 c w with Ret (w, (_, r)) => w = 2 ∧ r = Ok "sa1" | Panic => False end
  | Panic => False
  end.
Proof. vm_compute. repeat split. Qed.
